(* ===== verification/_CoqProject ===== *)
-Q . S2P
Prelude.v
Errors.v
ErrorMessages.v
Base64.v
Boost.v
UrlEncode.v
Stepping.v
HashReader.v
FileIO.v
Hasher.v
TimedEvents.v
SessionLocker.v
SessionMaintainer.v
SessionProofs.v
SessionTheorems.v
Url.v
HttpHeaders.v
HttpContent.v
HttpMachine.v
HttpMachineProofs.v
HttpMachineTheorems.v
HttpRequest.v
BandwidthDelay.v
HttpWire.v
UploadMachine.v
UploadProofs.v
UploadTheorems.v
UploadBitmap.v
UploadCalls.v
UploadManager.v
UploadManagerProofs.v
UploadManagerTheorems.v
UploadShutdown.v
ApiRequests.v
PropertyTree.v
ApiResponses.v
ApiResponsesTheorems.v
Endpoint.v
EndpointSpec.v
EndpointProofs.v
ApiBilling.v
ApiContact.v
ApiDevice.v
ApiFile.v
ApiFolder.v
ApiNotifications.v
ApiSystem.v
ApiUpload.v
ApiUser.v
ApiCalls.v
ApiCallsTheorems.v
ApiSession.v
ApiExamples.v
ApiWire.v
UploadRequests.v
UploadRequestsTheorems.v
UploadReplies.v
UploadExamples.v
Coroutine.v
GetFolderContents.v
GetFolderContentsProofs.v
GetFolderContentsTheorems.v
FolderListing.v
WorkManager.v
WorkManagerProofs.v
WorkManagerTheorems.v
CloneCloudTree.v
CloneCloudTreeTheorems.v
GetChanges.v
GetChangesTheorems.v
GetForeignChangesTheorems.v
SingleCalls.v
SingleCallsTheorems.v
Polls.v
PollsProofs.v
PollsTheorems.v
