(* ===== verification/Prelude.v ===== *)
(** * Verification of the MediaFire C++ SDK: overview and shared prelude

    This library models the core of the SDK under [src/src/mediafire_sdk/] and proves it
    correct.  Source paths below are relative to that directory.  Each definition that
    models code carries the source lines it translates in brackets.

    ** The program and its parts

    - [utils/]: Base64, percent encoding, files, and timed events, a multimap of events
      served by one timer.
    - [http/]: a URL parser and one state machine per HTTP request, which resolves,
      connects, handshakes, sends, reads the headers and the content, follows redirects
      and restarts after timeouts.
    - [api/]: one class per call of the MediaFire API (generated), the base classes that
      sign its query and classify its reply, and the session maintainer, which owns the
      session tokens: requests wait in its queues until there is a connection, credentials
      and, if they need one, a token; a finished request gives its token back with the next
      secret key, or is queued again.
    - [api/actions/]: coroutines that make several calls: the listing of a folder in
      chunks, the clone of a tree of folders with bounded concurrency (the work manager),
      the changes of a device, polls, and actions of a single call.
    - [uploader/]: a state machine per upload, which hashes the file, checks with the
      server, sends the file or its missing chunks and polls for the result; and the
      manager, which holds the queues and limits how many uploads hash and send.

    The session maintainer calls HTTP requests, an upload calls the session maintainer and
    HTTP requests, and reports to the upload manager, which starts the uploads.  An action
    calls the session maintainer or another action, and is resumed by its callback.  Every
    part runs handlers on [io_service] threads, one at a time for one object (a lock or a
    strand): a handler is a function on the state, and concurrency is the order of the
    handlers, which the theorems leave open.

    ** The files

    - [Prelude]: byte strings ([str] = [list ascii]), machine integers ([u64], [u32],
      [i32] write the wrap-around out), the record updates that [Members] and
      [setter] derive from a record's members, shared lemmas and tactics.
    - [Errors]: error codes as a category and a value, the enumerations and the default
      conditions ([api/error/], [http/error/], [uploader/error/], [utils/error/]);
      [ErrorMessages]: the texts of all categories and the comparison of codes with
      conditions.
    - [Base64] ([utils/base64.cpp]), [UrlEncode] ([utils/url_encode.cpp]): codecs.
    - [Boost]: Boost's string functions, a record of operations with a class of their
      documented laws and one instance that satisfies them.
    - [Stepping] ([uploader/detail/stepping.cpp]): sizes and ranges of chunks.
    - [HashReader] ([uploader/detail/hasher_transitions.*]): reading and hashing a file;
      [FileIO] ([utils/fileio.cpp]): files with their position and state; [Hasher]
      ([uploader/hasher.cpp]): the machine that hashes a file for its own sake.
    - [TimedEvents] ([utils/timed_events.hpp], [utils/timed_actions.hpp]).
    - [SessionLocker] ([api/detail/session_maintainer_locker.cpp]) and
      [SessionMaintainer] ([api/session_maintainer.cpp],
      [api/detail/session_maintainer_request.hpp]) with [SessionProofs] and
      [SessionTheorems].
    - [Url] ([http/url.cpp]), [HttpHeaders] ([http/detail/state_read_headers.hpp]),
      [HttpContent] ([http/detail/state_read_content.hpp], [http/detail/encoding.hpp]).
    - [HttpMachine] ([http/detail/http_request_state_machine.hpp] and the other
      [http/detail/state_*.hpp]) with [HttpMachineProofs] and [HttpMachineTheorems];
      [HttpRequest] ([http/http_config.cpp], [http/http_request.cpp], the certificates of
      [http/detail/state_ssl_handshake.hpp]); [BandwidthDelay] (the length of the
      transmission delay, in single precision); [HttpWire]: a server's reader of a request
      and what has been written when the reply is awaited.
    - [UploadMachine] ([uploader/detail/upload_state_machine.hpp],
      [uploader/detail/transition_*.hpp]) with [UploadProofs], [UploadTheorems],
      [UploadBitmap] (the chunks that are sent against the server's bitmap) and
      [UploadCalls]; [UploadRequests] with [UploadRequestsTheorems] (the address, query,
      headers and POST data of the requests of an upload), [UploadReplies] (what the
      generated responses make of the server's answers to it) and [UploadExamples].
    - [UploadManager] ([uploader/detail/upload_manager_impl.cpp]) with
      [UploadManagerProofs] and [UploadManagerTheorems], and [UploadShutdown], its
      destructor.
    - [ApiRequests] ([api/detail/session_token_api_base_static.cpp],
      [api/detail/tokenless_api_base_static.cpp]) and [ApiResponses]
      ([api/response_base.cpp], [api/detail/api_base.hpp], [api/detail/requester_impl.hpp],
      [api/detail/requester.hpp]) with [ApiResponsesTheorems], and [PropertyTree]
      ([api/ptree_helpers.cpp], [api/type_helpers.cpp]): the tree that a reply is parsed to
      and the readers of its values.
    - [Endpoint]: the statement forms of which the generated call classes are made
      ([api/gen_api_template.py]); [EndpointSpec]: what a description of a call
      ([api/templates/apis/]) asks for, and the classes [Does], [Implements], [Parses] and [ImplementsCall] that relate code to
      it; [EndpointProofs]: their instances, one per statement form.
    - [ApiBilling], [ApiContact], [ApiDevice], [ApiFile], [ApiFolder], [ApiNotifications],
      [ApiSystem], [ApiUpload], [ApiUser]: every generated class of [api/*/], a Module per
      class with its record of members, its response and its request, its description,
      and the proof that the one implements the other.
    - [ApiCalls] (the list of all calls) with [ApiCallsTheorems], [ApiSession] (the login
      calls, [api/user/get_session_token], [get_login_token] and [renew_session_token],
      written by hand), [ApiExamples]: a concrete tree library on which the theorems are
      evaluated, and [ApiWire] ([api/detail/requester_impl.hpp]): the HTTP request that is
      made for a call, from its parameters to what the server reads.
    - [Coroutine] ([api/actions/coroutine.hpp]): what a coroutine is for its callers, a
      record of operations [CoroutineOps] with the class [CoroutineLaws] of what they
      promise; every action is an instance.
    - [GetFolderContents], [WorkManager], [CloneCloudTree], [GetChanges] (of a device and
      of a shared device), [SingleCalls] and [Polls] ([api/actions/]), each with its
      [Theorems] and, where they are long, [Proofs]; [FolderListing]: the listing over
      the generated call and its parser.

    ** How code becomes definitions

    An object is a record with the members of the class under their own names, a handler
    a function from the record (and the time, the answer, the event) to the new record.
    Operations that may fail return [option] or a sum.  A [boost::msm] machine is a type
    of states, a type of events, the transition table as a function, the exit, row and
    entry actions as functions, and a queue for the events that actions send; what it
    started asynchronously is a list of pending operations, and their completions are
    inputs that may come in any order.  Logs that the code does not keep (which calls were
    answered, what was delivered) are extra fields that no definition reads.  Integers
    have their width where they can wrap; asserts are off, as in a release build.

    Third-party code is a parameter: OpenSSL's hashes, Boost's string algorithms and
    gzip filter, the sockets, DNS and TLS of Asio, the clock and the file system.  What a
    theorem needs of them is a named hypothesis or a class with an instance.

    ** What is shown

    - Codecs: decoding inverts encoding for every input (Base64, percent encoding), and
      parsing inverts rendering (URLs, response headers).
    - Files: a read returns the bytes at the position, whichever of the reading functions is
      used, and what was written is read back.
    - Uploads on disk: the ranges partition the file; the hash of the file and of each
      chunk are those of its bytes, or the change of the file is noticed; the hasher
      reports once and ends.
    - Errors: every code has a text, those that have none are named, and the
      comparison with a condition is membership in its list.
    - Bodies: what is delivered is the body that was sent, in order and once, for a
      content length, for chunks and for a body that ends with the connection.
    - HTTP requests: an invariant of the reachable machines gives that a request ends with
      exactly one callback, that while it has not ended exactly one thing is awaited under
      a timer, that every event is processed in a bounded number of transitions, that
      no event finds the machine without a row, and that redirects obey the policy.  The
      function that a request was given gets the whole reply once; default headers are
      sent; of the errors of a certificate only that it signs itself is excused; what is
      written last before a reply is awaited is read back as the request that was
      configured.
    - Sessions: an invariant of the maintainer gives that no request is lost or ends
      twice, whatever is cancelled or stopped while the maintainer exists
      ([SessionTheorems.destroyed_requests] says what its destructor does), that at most ten tokens exist, that tokens are used with the credentials they
      were requested for, and when the maintainer still makes progress.
    - One upload: it always has exactly one operation under way while the server works on
      it, ends once, sends exactly the chunks that the server's bitmap says are missing, each
      once, and its calls refine the protocol that the manager relies on
      ([UploadTheorems.phase_step]).  The requests for the chunks carry
      the bytes of the file, each once, with their hashes and positions, and the server's
      replies decide what the machine does next.
    - The manager, composed with the machines of its uploads: at most two uploads hash and
      two send, the counters never wrap, and the queues are never forgotten; its destructor
      cancels what has not ended.
    - Calls of the API: a signed query is the one that the server verifies, parsing inverts
      the rendering of the query and of the POST data, every reply has one classification,
      and the callback of a call runs once, whatever the HTTP request reports.  Put
      together with the HTTP request: the data that a call posts arrive at the server as
      its description says.
    - Generated classes: each of the hundred classes that has a JSON description parses
      every reply to what the description says, with its errors, and builds the query and
      the POST data that it says; the login calls send a signature of what they send.
    - Actions: a listing is complete and every failed request is accounted for; over the
      generated call it returns the entries that the server's replies list; the work
      manager runs all work that was queued, a bounded number at a time, never stalls and
      has every piece of work in one place; a clone is the set of folders that can be
      reached; the changes of a device are those of all windows; an action of one call
      ends with the result of that call.
    - Timed events: every event that was added is delivered once, in time or when it is
      cancelled.
    - Theorems about faults say what the code does where it does not do what it means to;
      the manifest lists them as findings.

    ** Fuel and bounds

    Loops that are not structural carry fuel; each has a theorem that the fuel used is
    enough: [length buffer + 1] for [HashReader.ParseRead] (a call consumes a byte),
    eight for [Stepping.ThresholdStepping] ([MaxStepping] is seven), one per mebibyte for
    the ranges of an upload ([Stepping.chunk_fuel_enough]), one per block of 64 MiB and two
    more for [FileIO.ReadString_loop], one per byte for [FileIO.ReadLine], one per buffer for
    [UploadRequests.pipe_chunks], three messages for one event of the hasher, ten for one event
    of an upload ([UploadProofs.process_event_total]), the weights of
    [HttpMachineProofs.within] for one event of a request, the length of the work for the
    work manager's loop ([WorkManagerTheorems.execute_loop_fuel]).  [ChunkRanges] of more than
    [2^64 - 2^26] bytes does not stop; it is the one loop with no fuel that is enough.

    ** Not modelled, and why

    - The generator [api/gen_api_template.py] itself: what it generated is modelled, not
      how.  The nested [Request] classes only forward to the [impl_] object of
      [detail::] that is modelled.
    - The JSON parser (Boost): the tree library is a parameter of the readers.
    - [default_pem.hpp] (data), logging, [di_debug_tmp.hpp], the Windows and Unix wrappers
      of [utils/win/], [utils/unix/], [utils/thread_id*]: no logic of the SDK's own.
    - The standalone HTTP tools, examples and unit tests.
    - The user's bandwidth analyser, which is told of bytes and times and changes nothing;
      the table of error messages that a build with MinGW takes instead.
    - OpenSSL's hash objects ([utils/md5_hasher], [utils/sha256_hasher]): a fold over the
      bytes, which [HashReader] and [ApiRequests] take as a parameter.
    - Interleavings inside one handler: locks are held for a whole method, so the model
      has one step per method.  Where a method calls another between two critical
      sections, the step joins them.
*)
From stdpp Require Export base list strings gmap sorting pretty.
From Stdlib Require Export ZArith Lia Ascii Wf_nat.

(** ** Byte strings

    A [std::string] (or a byte vector) is a list of 8-bit characters. *)
Abbreviation str := (list ascii).

(** A C string literal as a byte string. *)
Definition B (s : string) : str := String.list_ascii_of_string s.

(** [std::ostream << int], [mf::utils::to_string]. *)
Definition print_int (n : Z) : str := B (pretty n).

Definition byteZ (c : ascii) : Z := Z.of_N (N_of_ascii c).
Definition Zbyte (z : Z) : ascii := ascii_of_N (Z.to_N (z mod 256)).

(** ** Machine integers: values are kept in [Z], wrap-around is explicit. *)
Definition u64 (z : Z) : Z := z mod 2 ^ 64.
Definition u32 (z : Z) : Z := z mod 2 ^ 32.
Definition i32 (z : Z) : Z := (z + 2 ^ 31) mod 2 ^ 32 - 2 ^ 31.

(** ** Assignments to a member

    A record type has its constructor applied to its members as an instance of [Members]; the
    setter of a member is computed from it: [Definition set_m := ltac:(setter m)] is
    [fun x v => ...], [v] with the member [m] set to [x], and [set_field m x v] is the same for
    any member. *)
Class Members (R : Type) := members : R -> R.

Ltac setter f :=
  lazymatch type of f with
  | ?R -> ?T =>
      let m := constr:(_ : Members R) in
      let e := eval hnf in m in
      lazymatch (eval pattern f in e) with
      | ?with_member f =>
          let s := eval cbv beta in (fun (x : T) (v : R) => with_member (fun _ => x) v) in
          exact s
      end
  end.

Class Setter {R T} (f : R -> T) := { set_field : T -> R -> R }.
#[global] Hint Mode Setter - - + : typeclass_instances.
Arguments set_field {R T} f {_} x v.

Ltac solve_setter :=
  lazymatch goal with
  | |- @Setter ?R ?T ?f =>
      let s := constr:(ltac:(setter f) : T -> R -> R) in exact (Build_Setter R T f s)
  end.

#[export] Hint Extern 1 (Setter _) => solve_setter : typeclass_instances.

Create HintDb mf discriminated.

(** Case analysis on the [if]/[match] of the goal, then the usual clean-up. *)
Ltac mf_case := repeat (case_match || case_decide); simplify_eq/=.

(** Closes a goal that holds for each of the 256 characters by evaluation. *)
Ltac by_all_bytes c :=
  destruct c as [[] [] [] [] [] [] [] []]; vm_compute; intuition congruence.

Lemma byteZ_range c : (0 <= byteZ c < 256)%Z.
Proof. by_all_bytes c. Qed.

Lemma Zbyte_byteZ c : Zbyte (byteZ c) = c.
Proof. by_all_bytes c. Qed.

Lemma byteZ_inj a b : byteZ a = byteZ b -> a = b.
Proof. intros H. by rewrite <-(Zbyte_byteZ a), <-(Zbyte_byteZ b), H. Qed.

Lemma byteZ_Zbyte z : byteZ (Zbyte z) = (z mod 256)%Z.
Proof.
  unfold byteZ, Zbyte. pose proof (Z.mod_pos_bound z 256 eq_refl).
  rewrite N_ascii_embedding by lia. lia.
Qed.

Lemma u64_small z : (0 <= z < 2 ^ 64)%Z -> u64 z = z.
Proof. apply Z.mod_small. Qed.

Lemma u64_range z : (0 <= u64 z < 2 ^ 64)%Z.
Proof. apply Z.mod_pos_bound. lia. Qed.

Lemma u32_small z : (0 <= z < 2 ^ 32)%Z -> u32 z = z.
Proof. apply Z.mod_small. Qed.

Lemma u32_range z : (0 <= u32 z < 2 ^ 32)%Z.
Proof. apply Z.mod_pos_bound. lia. Qed.

Lemma i32_small z : (- 2 ^ 31 <= z < 2 ^ 31)%Z -> i32 z = z.
Proof. intros ?. unfold i32. rewrite Z.mod_small; lia. Qed.

Lemma i32_range z : (- 2 ^ 31 <= i32 z < 2 ^ 31)%Z.
Proof. unfold i32. pose proof (Z.mod_pos_bound (z + 2 ^ 31) (2 ^ 32)). lia. Qed.

#[export] Hint Resolve byteZ_range u64_range u32_range i32_range : mf.

(** A left shift and a low part do not overlap: [lor] is addition. *)
Lemma lor_shiftl_low a v n :
  (0 <= n -> 0 <= v < 2 ^ n -> Z.lor (Z.shiftl a n) v = 2 ^ n * a + v)%Z.
Proof.
  intros Hn Hv.
  assert (Z.land (Z.shiftl a n) v = 0)%Z as H0.
  { apply Z.bits_inj'. intros k ?. rewrite Z.land_spec, Z.bits_0.
    destruct (decide (k < n)%Z).
    - by rewrite Z.shiftl_spec_low.
    - replace v with (v mod 2 ^ n)%Z by (apply Z.mod_small; lia).
      rewrite Z.mod_pow2_bits_high by lia. apply andb_false_r. }
  rewrite <-Z.lxor_lor, <-Z.add_nocarry_lxor, Z.shiftl_mul_pow2 by done. lia.
Qed.

Lemma Zbyte_add_256 z k : Zbyte (z + 256 * k) = Zbyte z.
Proof. unfold Zbyte. by rewrite Z.mul_comm, Z.mod_add. Qed.

(** Truncating to a byte after a right shift ignores high garbage. *)
Lemma Zbyte_div_garbage x K n m :
  (0 <= n -> n + 8 <= m -> Zbyte ((x + 2 ^ m * K) / 2 ^ n) = Zbyte (x / 2 ^ n))%Z.
Proof.
  intros ??. replace (2 ^ m * K)%Z with (256 * (2 ^ (m - n - 8) * K) * 2 ^ n)%Z.
  - rewrite Z.div_add by lia. apply Zbyte_add_256.
  - replace m with (8 + (m - n - 8) + n)%Z at 2 by lia.
    rewrite !Z.pow_add_r by lia. change (2 ^ 8)%Z with 256%Z. ring.
Qed.

(** Splits [/] and [mod] by constants into linear facts. *)
Ltac zdiv := Z.div_mod_to_equations; lia.

(** Induction on a list consumed three elements at a time. *)
Lemma list_ind3 {A} (P : list A -> Prop) :
  P [] -> (forall a, P [a]) -> (forall a b, P [a; b]) ->
  (forall a b c l, P l -> P (a :: b :: c :: l)) -> forall l, P l.
Proof.
  intros H0 H1 H2 H3 l. induction l as [l IH] using (induction_ltof1 _ (@length A)).
  destruct l as [|a [|b [|c l]]]; auto.
  apply H3, IH. unfold ltof. simpl. lia.
Qed.

Lemma omap_snoc {A C} (f : A -> option C) l x :
  omap f (l ++ [x]) = omap f l ++ match f x with Some y => [y] | None => [] end.
Proof. rewrite omap_app. cbn. by destruct (f x). Qed.

(** A function that maps a list to distinct values separates its elements. *)
Lemma NoDup_fmap_inj {A C} (f : A -> C) l a b :
  NoDup (f <$> l) -> a ∈ l -> b ∈ l -> f a = f b -> a = b.
Proof.
  intros Hn [i Hi]%list_elem_of_lookup [j Hj]%list_elem_of_lookup Hf.
  assert (i = j) as ->; [|congruence].
  eapply NoDup_lookup; [exact Hn|by rewrite list_lookup_fmap, Hi|].
  by rewrite list_lookup_fmap, Hj, Hf.
Qed.
