(* ===== verification/Errors.v ===== *)
(** * Error codes ([api/error], [http/error], [uploader/error], [utils/error])

    A [std::error_code] is a category and a value; equality of error codes is
    equality of both, value 0 of any category is "no error". *)
From S2P Require Import Prelude.

Open Scope Z_scope.

Inductive category :=
| cat_generic        (** the default category of a cleared code *)
| cat_system         (** [std::system_category] *)
| cat_network        (** asio's own categories *)
| cat_http           (** [mf::http::http_category] *)
| cat_api            (** [mf::api::api_category] *)
| cat_result         (** [mf::api::result_category] *)
| cat_http_status    (** [mf::api::http_status_category] *)
| cat_upload         (** [mf::uploader::generic_upload_category] *)
| cat_upload_response
| cat_poll_result
| cat_poll_file_error
| cat_file_io.

#[export] Instance category_eq_dec : EqDecision category.
Proof. solve_decision. Defined.

Record error_code := Ec { ec_cat : category; ec_value : Z }.

#[export] Instance error_code_eq_dec : EqDecision error_code.
Proof. solve_decision. Defined.

Definition no_error : error_code := Ec cat_generic 0.

(** [error_code::operator bool] *)
Definition is_error (ec : error_code) : bool := negb (ec_value ec =? 0).

(** ** The SDK's own codes *)

(** [http/error/error_impl.hpp:17-35 http_error] *)
Inductive http_error :=
  | InvalidUrl | InvalidRedirectUrl | RedirectPermissionDenied | UnableToResolve
  | UnableToConnect | UnableToConnectToProxy | ProxyProtocolFailure | SslHandshakeFailure
  | WriteFailure | ReadFailure | CompressionFailure | UnparsableHeaders
  | UnsupportedEncoding | PostInterfaceReadFailure | HttpCancelled | IoTimeout.

#[export] Instance http_error_eq_dec : EqDecision http_error.
Proof. solve_decision. Defined.

(** The enumerators have no initialiser: they count from 0.
    [http/error/error_impl.hpp:17-35 http_error] *)
Definition http_error_value (e : http_error) : Z :=
  match e with
  | InvalidUrl => 0 | InvalidRedirectUrl => 1 | RedirectPermissionDenied => 2
  | UnableToResolve => 3 | UnableToConnect => 4 | UnableToConnectToProxy => 5
  | ProxyProtocolFailure => 6 | SslHandshakeFailure => 7 | WriteFailure => 8
  | ReadFailure => 9 | CompressionFailure => 10 | UnparsableHeaders => 11
  | UnsupportedEncoding => 12 | PostInterfaceReadFailure => 13 | HttpCancelled => 14
  | IoTimeout => 15
  end.

(** [http/error/error_impl.cpp:137-143 make_error_code] *)
Definition http_code (e : http_error) : error_code := Ec cat_http (http_error_value e).

(** [api/error/codes/api_code.hpp:17-24 api_code] *)
Inductive api_code :=
  | UnknownApiError | ContentInvalidData | ContentInvalidFormat
  | SessionTokenUnavailableTimeout | ConnectionUnavailableTimeout.

(** [api/error/codes/api_code.hpp:17-24 api_code] *)
Definition api_code_value (e : api_code) : Z :=
  match e with
  | UnknownApiError => 1 | ContentInvalidData => 2 | ContentInvalidFormat => 3
  | SessionTokenUnavailableTimeout => 4 | ConnectionUnavailableTimeout => 5
  end.

(** [api/error/codes/api_code.cpp:91-97 make_error_code] *)
Definition api_error (e : api_code) : error_code := Ec cat_api (api_code_value e).

(** [api/error/codes/result_code.hpp:24-32 result_code] *)
Inductive result_code :=
  | SessionTokenInvalid | CredentialsInvalid | SignatureInvalid | ParametersInvalid
  | AsyncOperationInProgress | FacebookAuthenticationFailure.

(** [api/error/codes/result_code.hpp:24-32 result_code] *)
Definition result_code_value (e : result_code) : Z :=
  match e with
  | SessionTokenInvalid => 105 | CredentialsInvalid => 107 | SignatureInvalid => 127
  | ParametersInvalid => 129 | AsyncOperationInProgress => 208
  | FacebookAuthenticationFailure => 220
  end.

(** [api/error/codes/result_code.cpp:203-209 make_error_code] *)
Definition result_error (e : result_code) : error_code := Ec cat_result (result_code_value e).

(** [uploader/error/conditions/generic.hpp:20-42 errc] *)
Inductive upload_errc :=
  | BadUploadResponse | UploadCancelled | FileExistInFolder | FiledropKeyInvalid
  | FiledropMisconfigured | FilenameMissing | FilesizeInvalid | HashIncorrect
  | IncompleteUpload | InsufficientCloudStorage | InternalUploadError | LogicError
  | MaxFilesizeExceeded | MissingFileData | Paused | Permissions | SessionInvalid
  | TargetFolderInTrash | TargetFolderMissing | ZeroByteFile.

#[export] Instance upload_errc_eq_dec : EqDecision upload_errc.
Proof. solve_decision. Defined.

(** [uploader/error/conditions/generic.hpp:20-42 errc] *)
Definition upload_errc_value (e : upload_errc) : Z :=
  match e with
  | BadUploadResponse => 1 | UploadCancelled => 2 | FileExistInFolder => 3
  | FiledropKeyInvalid => 4 | FiledropMisconfigured => 5 | FilenameMissing => 6
  | FilesizeInvalid => 7 | HashIncorrect => 8 | IncompleteUpload => 9
  | InsufficientCloudStorage => 10 | InternalUploadError => 11 | LogicError => 12
  | MaxFilesizeExceeded => 13 | MissingFileData => 14 | Paused => 15 | Permissions => 16
  | SessionInvalid => 17 | TargetFolderInTrash => 18 | TargetFolderMissing => 19
  | ZeroByteFile => 20
  end.

(** [uploader/error/conditions/generic.cpp:128-134 make_error_code] *)
Definition upload_error (e : upload_errc) : error_code := Ec cat_upload (upload_errc_value e).

(** [utils/error/codes/fileio.hpp:14-23 file_io_error] *)
Inductive file_io_error :=
  | FileUnknownError | EndOfFile | StreamError | LineTooLong | NotEnoughMemory
  | BufferTooLarge | FileModified.

(** [utils/error/codes/fileio.hpp:14-23 file_io_error] *)
Definition file_io_error_value (e : file_io_error) : Z :=
  match e with
  | FileUnknownError => 1 | EndOfFile => 2 | StreamError => 3 | LineTooLong => 4
  | NotEnoughMemory => 5 | BufferTooLarge => 6 | FileModified => 7
  end.

(** [utils/error/codes/fileio.cpp:96-102 make_error_code] *)
Definition file_error (e : file_io_error) : error_code := Ec cat_file_io (file_io_error_value e).

(** ** The generic API conditions *)

(** [api/error/conditions/generic.hpp:20-142 errc] *)
Inductive errc :=
  | errc_ContentInvalidFormat | errc_ContentInvalidData | errc_BadRequest | errc_Forbidden
  | errc_NotFound | errc_InternalServerError | errc_ApiInternalServerError
  | errc_UnknownApiError | errc_SessionTokenUnavailableTimeout
  | errc_ConnectionUnavailableTimeout | errc_AccessDenied | errc_AccountAlreadyLinked
  | errc_ApiRequestLimitExceeded | errc_ApiVersionDeprecated | errc_ApiVersionMissing
  | errc_ApiVersionRemoved | errc_ApplicationIdDisabled | errc_ApplicationIdSuspended
  | errc_ApplicationInvalid | errc_AsyncOperationInProgress | errc_BillingFailure
  | errc_BillingTransactionDuplicate | errc_BulkFileCountExceeded | errc_BulkFileCountZero
  | errc_BulkFilesizeLimitConfirmationNeeded | errc_BulkFilesizeLimitExceeded
  | errc_BulkInsufficientPremiumBandwidth | errc_BulkInsufficientUnifiedBandwidth
  | errc_BulkOperationIllegal | errc_BulkOperationInvalid | errc_BulkPackageFailure
  | errc_BulkRequiresBandwidthConfirmtion | errc_BusinessSeatLimitation
  | errc_BusinessUpgradeFailure | errc_ContactAlreadyAdded | errc_ContactInvalid
  | errc_CredentialsInvalid | errc_CreditCardInvalid | errc_DateInvalid
  | errc_DeviceInvalid | errc_DmcaBan | errc_DmcaInvalidRange | errc_DmcaInvalidUser
  | errc_DowngradeIllegal | errc_DuplicateEntry | errc_EmailAlreadyInUse
  | errc_EmailMisformatted | errc_EmailRejected | errc_EmailRequiresValidation
  | errc_FacebookAccessTokenRequired | errc_FacebookEmailRegisteredWithOtherAccount
  | errc_FacebookAuthenticationFailure | errc_FileAlreadyExists | errc_FileAlreadyReported
  | errc_FileRemoved | errc_FileUpdateDuplicate | errc_FilenameInvalid
  | errc_FiletypeInvalid | errc_FolderAlreadyExists | errc_FolderDepthLimitExceeded
  | errc_FolderPrivacyRestriction | errc_FolderkeyInvalid | errc_FolderkeyMissing
  | errc_FoldernameMissing | errc_GoogleAuthenticationFailure | errc_GroupAlreadyAdded
  | errc_GroupInvalid | errc_IllegalEmail | errc_IllegalMove | errc_IllegalRename
  | errc_IllegalUnshare | errc_InstallIdIncidentIdInvalidMatch | errc_InstallIdInvalid
  | errc_InsufficientCredits | errc_KeyInvalid | errc_KeyMissing | errc_LoginRequired
  | errc_MessageSendFailure | errc_NoAvatarImage | errc_NoInvoiceForUser
  | errc_NonPremiumLimitReached | errc_ParametersInvalid | errc_ParametersMissing
  | errc_PasswordMisformatted | errc_PlanBandwidthInsufficient
  | errc_PlanBusinessChangeInvalid | errc_PlanChangeIllegal | errc_PlanClassChangeInvalid
  | errc_PlanExpirationLimitation | errc_PlanStorageInsufficient | errc_PremiumRequired
  | errc_ProductChangeIllegal | errc_ProductIdInvalid | errc_QuickkeyInvalid
  | errc_QuickkeyMissing | errc_RequiresBandwidthConfirmtion
  | errc_ResellerTosAcceptanceRequired | errc_ResourceAlreadyFollowed
  | errc_ResourceAlreadyOwned | errc_ResourceGrantPermissionFailure
  | errc_ResourcePermissionFailure | errc_ServiceUnrecognized | errc_SessionTokenInvalid
  | errc_SessionTokenMissing | errc_ShareResourceLimit | errc_SignatureInvalid
  | errc_SoftwareTokenInvalid | errc_StorageLimitExceeded | errc_SubdomainInvalid
  | errc_TosAcceptanceRequired | errc_TosTokenInvalid | errc_TwitterAccessTokenRequired
  | errc_UnableToShareFromAnon | errc_UnableToShareWithSelf | errc_UploadFailed
  | errc_UploadKeyInvalid | errc_UrlInvalid | errc_UserInvalid
  | errc_AccountTemporarilyLocked | errc_FileTooBig.

#[export] Instance errc_eq_dec : EqDecision errc.
Proof. solve_decision. Defined.

(** The condition an API result code stands for; [None] is the default case, a
    condition of the result category itself.
    [api/error/codes/result_code.cpp:54-190 default_error_condition] *)
Definition result_condition (ev : Z) : option errc :=
  match ev with
  | 100 => Some errc_ApiInternalServerError
  | 102 => Some errc_KeyMissing
  | 103 => Some errc_KeyInvalid
  | 104 => Some errc_SessionTokenMissing
  | 105 => Some errc_SessionTokenInvalid
  | 106 => Some errc_IllegalRename
  | 107 => Some errc_CredentialsInvalid
  | 108 => Some errc_UserInvalid
  | 109 => Some errc_ApplicationInvalid
  | 110 => Some errc_QuickkeyInvalid
  | 111 => Some errc_QuickkeyMissing
  | 112 => Some errc_FolderkeyInvalid
  | 113 => Some errc_FolderkeyMissing
  | 114 => Some errc_AccessDenied
  | 115 => Some errc_IllegalMove
  | 116 => Some errc_DateInvalid
  | 117 => Some errc_FoldernameMissing
  | 118 => Some errc_FilenameInvalid
  | 119 => Some errc_IllegalEmail
  | 120 => Some errc_EmailAlreadyInUse
  | 121 => Some errc_EmailRejected
  | 122 => Some errc_EmailMisformatted
  | 123 => Some errc_PasswordMisformatted
  | 124 => Some errc_ApiVersionMissing
  | 125 => Some errc_ApiVersionRemoved
  | 126 => Some errc_ApiVersionDeprecated
  | 127 => Some errc_SignatureInvalid
  | 128 => Some errc_ParametersMissing
  | 129 => Some errc_ParametersInvalid
  | 130 => Some errc_NonPremiumLimitReached
  | 131 => Some errc_UnableToShareWithSelf
  | 132 => Some errc_IllegalUnshare
  | 133 => Some errc_UnableToShareFromAnon
  | 134 => Some errc_DmcaInvalidUser
  | 135 => Some errc_DmcaInvalidRange
  | 136 => Some errc_DmcaBan
  | 137 => Some errc_ContactAlreadyAdded
  | 138 => Some errc_ContactInvalid
  | 139 => Some errc_GroupAlreadyAdded
  | 140 => Some errc_GroupInvalid
  | 141 => Some errc_DeviceInvalid
  | 142 => Some errc_FiletypeInvalid
  | 143 => Some errc_FileAlreadyExists
  | 144 => Some errc_FolderAlreadyExists
  | 145 => Some errc_ApplicationIdDisabled
  | 146 => Some errc_ApplicationIdSuspended
  | 147 => Some errc_BulkOperationInvalid
  | 148 => Some errc_BulkOperationIllegal
  | 149 => Some errc_RequiresBandwidthConfirmtion
  | 150 => Some errc_BulkFilesizeLimitExceeded
  | 151 => Some errc_BulkFileCountZero
  | 152 => Some errc_BulkPackageFailure
  | 153 => Some errc_BulkFilesizeLimitConfirmationNeeded
  | 154 => Some errc_BulkFileCountExceeded
  | 155 => Some errc_BulkRequiresBandwidthConfirmtion
  | 156 => Some errc_BulkInsufficientPremiumBandwidth
  | 157 => Some errc_BulkInsufficientUnifiedBandwidth
  | 158 => Some errc_FileAlreadyExists
  | 159 => Some errc_FolderAlreadyExists
  | 160 => Some errc_TosTokenInvalid
  | 161 => Some errc_TosAcceptanceRequired
  | 162 => Some errc_StorageLimitExceeded
  | 163 => Some errc_ApiRequestLimitExceeded
  | 164 => Some errc_FileAlreadyReported
  | 165 => Some errc_FileRemoved
  | 166 => Some errc_FolderPrivacyRestriction
  | 167 => Some errc_FolderDepthLimitExceeded
  | 168 => Some errc_ProductIdInvalid
  | 169 => Some errc_UploadFailed
  | 170 => Some errc_PlanClassChangeInvalid
  | 171 => Some errc_PlanBusinessChangeInvalid
  | 172 => Some errc_PlanExpirationLimitation
  | 173 => Some errc_PremiumRequired
  | 174 => Some errc_UrlInvalid
  | 175 => Some errc_UploadKeyInvalid
  | 176 => Some errc_PlanStorageInsufficient
  | 177 => Some errc_DuplicateEntry
  | 178 => Some errc_PlanChangeIllegal
  | 179 => Some errc_ProductChangeIllegal
  | 180 => Some errc_DowngradeIllegal
  | 181 => Some errc_BusinessUpgradeFailure
  | 182 => Some errc_InsufficientCredits
  | 183 => Some errc_PlanBandwidthInsufficient
  | 184 => Some errc_AccountAlreadyLinked
  | 188 => Some errc_LoginRequired
  | 189 => Some errc_ResellerTosAcceptanceRequired
  | 190 => Some errc_BusinessSeatLimitation
  | 191 => Some errc_BillingFailure
  | 192 => Some errc_BillingFailure
  | 193 => Some errc_BillingFailure
  | 194 => Some errc_SubdomainInvalid
  | 195 => Some errc_BillingFailure
  | 196 => Some errc_CreditCardInvalid
  | 197 => Some errc_BillingFailure
  | 198 => Some errc_BillingFailure
  | 199 => Some errc_BillingTransactionDuplicate
  | 200 => Some errc_CreditCardInvalid
  | 201 => Some errc_BillingFailure
  | 202 => Some errc_BillingFailure
  | 203 => Some errc_BillingFailure
  | 204 => Some errc_BillingFailure
  | 205 => Some errc_BillingFailure
  | 206 => Some errc_InternalServerError
  | 208 => Some errc_AsyncOperationInProgress
  | 219 => Some errc_FacebookEmailRegisteredWithOtherAccount
  | 220 => Some errc_FacebookAuthenticationFailure
  | 224 => Some errc_NoInvoiceForUser
  | 225 => Some errc_InternalServerError
  | 226 => Some errc_InstallIdInvalid
  | 227 => Some errc_InstallIdIncidentIdInvalidMatch
  | 228 => Some errc_FacebookAccessTokenRequired
  | 229 => Some errc_TwitterAccessTokenRequired
  | 230 => Some errc_NoAvatarImage
  | 231 => Some errc_SoftwareTokenInvalid
  | 232 => Some errc_EmailRequiresValidation
  | 233 => Some errc_GoogleAuthenticationFailure
  | 234 => Some errc_MessageSendFailure
  | 235 => Some errc_ResourceAlreadyOwned
  | 236 => Some errc_ResourceAlreadyFollowed
  | 237 => Some errc_ResourcePermissionFailure
  | 238 => Some errc_FileUpdateDuplicate
  | 239 => Some errc_ShareResourceLimit
  | 240 => Some errc_ResourceGrantPermissionFailure
  | 241 => Some errc_ServiceUnrecognized
  | 243 => Some errc_AccountTemporarilyLocked
  | 282 => Some errc_FileTooBig
  | _ => None
  end.

(** [api/error/codes/api_code.cpp:56-78 default_error_condition] *)
Definition api_condition (ev : Z) : option errc :=
  match ev with
  | 1 => Some errc_UnknownApiError
  | 2 => Some errc_ContentInvalidData
  | 3 => Some errc_ContentInvalidFormat
  | 4 => Some errc_SessionTokenUnavailableTimeout
  | 5 => Some errc_ConnectionUnavailableTimeout
  | _ => None
  end.

(** [ec == errc::e]: the code's default condition, since the condition category's
    [equivalent] is always false.
    [api/error/conditions/generic.cpp:305-317 equivalent] *)
Definition matches_errc (ec : error_code) (e : errc) : bool :=
  match ec_cat ec with
  | cat_result => bool_decide (result_condition (ec_value ec) = Some e)
  | cat_api => bool_decide (api_condition (ec_value ec) = Some e)
  | _ => false
  end.

(** [api/error.cpp:8-12 IsInvalidSessionTokenError] *)
Definition IsInvalidSessionTokenError (error : error_code) : bool :=
  bool_decide (error = result_error SessionTokenInvalid)
  || bool_decide (error = result_error SignatureInvalid).

(** [api/error.cpp:14-19 IsInvalidCredentialsError] *)
Definition IsInvalidCredentialsError (error : error_code) : bool :=
  bool_decide (error = result_error CredentialsInvalid)
  || bool_decide (error = result_error ParametersInvalid)
  || bool_decide (error = result_error FacebookAuthenticationFailure).

(** ** Properties *)

(** The six codes the SDK tests by name are translated to the generic condition of
    the same name. *)
Lemma result_code_conditions :
  result_condition (result_code_value SessionTokenInvalid) = Some errc_SessionTokenInvalid /\
  result_condition (result_code_value CredentialsInvalid) = Some errc_CredentialsInvalid /\
  result_condition (result_code_value SignatureInvalid) = Some errc_SignatureInvalid /\
  result_condition (result_code_value ParametersInvalid) = Some errc_ParametersInvalid /\
  result_condition (result_code_value AsyncOperationInProgress)
    = Some errc_AsyncOperationInProgress /\
  result_condition (result_code_value FacebookAuthenticationFailure)
    = Some errc_FacebookAuthenticationFailure.
Proof. done. Qed.

Lemma invalid_session_token_is_error ec : IsInvalidSessionTokenError ec = true -> is_error ec = true.
Proof.
  unfold IsInvalidSessionTokenError. rewrite orb_true_iff, !bool_decide_eq_true.
  by intros [-> | ->].
Qed.

Lemma invalid_credentials_is_error ec : IsInvalidCredentialsError ec = true -> is_error ec = true.
Proof.
  unfold IsInvalidCredentialsError. rewrite !orb_true_iff, !bool_decide_eq_true.
  by intros [[-> | ->] | ->].
Qed.

(** Of the HTTP errors, exactly [InvalidUrl] is a "no error" code: its value is
    0, so [if (response.error_code)] takes a request with an unusable URL for a
    success; every code of the other enumerations is an error. *)
Theorem http_error_zero e :
  (is_error (http_code e) = false <-> e = InvalidUrl) /\
  (forall a, is_error (api_error a) = true) /\ (forall r, is_error (result_error r) = true) /\
  (forall u, is_error (upload_error u) = true) /\ (forall f, is_error (file_error f) = true).
Proof. split; [by destruct e|]. by split_and!; intros []. Qed.
