(* ===== verification/ErrorMessages.v ===== *)
(** * Error categories ([api/error], [http/error], [uploader/error], [utils/error])

    The classes derived from [std::error_category]: the name of a category, the messages of
    its codes and the condition that a code stands for, and how [operator==] compares a code
    with a condition.  The categories of the library ([cat_generic], [cat_system],
    [cat_network]) compare as a parameter does.  The file shows that the comparison is the
    test [Errors.matches_errc] that the other files use, and that a message tells the code
    that it belongs to. *)
From S2P Require Import Prelude Errors.

Open Scope Z_scope.

(** ** Values and messages *)

(** The enumerators count from 1.
    [api/error/conditions/generic.hpp:20-142 errc] *)
Definition errc_value (e : errc) : Z :=
  match e with
  | errc_ContentInvalidFormat => 1 | errc_ContentInvalidData => 2
  | errc_BadRequest => 3 | errc_Forbidden => 4
  | errc_NotFound => 5 | errc_InternalServerError => 6
  | errc_ApiInternalServerError => 7 | errc_UnknownApiError => 8
  | errc_SessionTokenUnavailableTimeout => 9 | errc_ConnectionUnavailableTimeout => 10
  | errc_AccessDenied => 11 | errc_AccountAlreadyLinked => 12
  | errc_ApiRequestLimitExceeded => 13 | errc_ApiVersionDeprecated => 14
  | errc_ApiVersionMissing => 15 | errc_ApiVersionRemoved => 16
  | errc_ApplicationIdDisabled => 17 | errc_ApplicationIdSuspended => 18
  | errc_ApplicationInvalid => 19 | errc_AsyncOperationInProgress => 20
  | errc_BillingFailure => 21 | errc_BillingTransactionDuplicate => 22
  | errc_BulkFileCountExceeded => 23 | errc_BulkFileCountZero => 24
  | errc_BulkFilesizeLimitConfirmationNeeded => 25 | errc_BulkFilesizeLimitExceeded => 26
  | errc_BulkInsufficientPremiumBandwidth => 27 | errc_BulkInsufficientUnifiedBandwidth => 28
  | errc_BulkOperationIllegal => 29 | errc_BulkOperationInvalid => 30
  | errc_BulkPackageFailure => 31 | errc_BulkRequiresBandwidthConfirmtion => 32
  | errc_BusinessSeatLimitation => 33 | errc_BusinessUpgradeFailure => 34
  | errc_ContactAlreadyAdded => 35 | errc_ContactInvalid => 36
  | errc_CredentialsInvalid => 37 | errc_CreditCardInvalid => 38
  | errc_DateInvalid => 39 | errc_DeviceInvalid => 40
  | errc_DmcaBan => 41 | errc_DmcaInvalidRange => 42
  | errc_DmcaInvalidUser => 43 | errc_DowngradeIllegal => 44
  | errc_DuplicateEntry => 45 | errc_EmailAlreadyInUse => 46
  | errc_EmailMisformatted => 47 | errc_EmailRejected => 48
  | errc_EmailRequiresValidation => 49 | errc_FacebookAccessTokenRequired => 50
  | errc_FacebookEmailRegisteredWithOtherAccount => 51 | errc_FacebookAuthenticationFailure => 52
  | errc_FileAlreadyExists => 53 | errc_FileAlreadyReported => 54
  | errc_FileRemoved => 55 | errc_FileUpdateDuplicate => 56
  | errc_FilenameInvalid => 57 | errc_FiletypeInvalid => 58
  | errc_FolderAlreadyExists => 59 | errc_FolderDepthLimitExceeded => 60
  | errc_FolderPrivacyRestriction => 61 | errc_FolderkeyInvalid => 62
  | errc_FolderkeyMissing => 63 | errc_FoldernameMissing => 64
  | errc_GoogleAuthenticationFailure => 65 | errc_GroupAlreadyAdded => 66
  | errc_GroupInvalid => 67 | errc_IllegalEmail => 68
  | errc_IllegalMove => 69 | errc_IllegalRename => 70
  | errc_IllegalUnshare => 71 | errc_InstallIdIncidentIdInvalidMatch => 72
  | errc_InstallIdInvalid => 73 | errc_InsufficientCredits => 74
  | errc_KeyInvalid => 75 | errc_KeyMissing => 76
  | errc_LoginRequired => 77 | errc_MessageSendFailure => 78
  | errc_NoAvatarImage => 79 | errc_NoInvoiceForUser => 80
  | errc_NonPremiumLimitReached => 81 | errc_ParametersInvalid => 82
  | errc_ParametersMissing => 83 | errc_PasswordMisformatted => 84
  | errc_PlanBandwidthInsufficient => 85 | errc_PlanBusinessChangeInvalid => 86
  | errc_PlanChangeIllegal => 87 | errc_PlanClassChangeInvalid => 88
  | errc_PlanExpirationLimitation => 89 | errc_PlanStorageInsufficient => 90
  | errc_PremiumRequired => 91 | errc_ProductChangeIllegal => 92
  | errc_ProductIdInvalid => 93 | errc_QuickkeyInvalid => 94
  | errc_QuickkeyMissing => 95 | errc_RequiresBandwidthConfirmtion => 96
  | errc_ResellerTosAcceptanceRequired => 97 | errc_ResourceAlreadyFollowed => 98
  | errc_ResourceAlreadyOwned => 99 | errc_ResourceGrantPermissionFailure => 100
  | errc_ResourcePermissionFailure => 101 | errc_ServiceUnrecognized => 102
  | errc_SessionTokenInvalid => 103 | errc_SessionTokenMissing => 104
  | errc_ShareResourceLimit => 105 | errc_SignatureInvalid => 106
  | errc_SoftwareTokenInvalid => 107 | errc_StorageLimitExceeded => 108
  | errc_SubdomainInvalid => 109 | errc_TosAcceptanceRequired => 110
  | errc_TosTokenInvalid => 111 | errc_TwitterAccessTokenRequired => 112
  | errc_UnableToShareFromAnon => 113 | errc_UnableToShareWithSelf => 114
  | errc_UploadFailed => 115 | errc_UploadKeyInvalid => 116
  | errc_UrlInvalid => 117 | errc_UserInvalid => 118
  | errc_AccountTemporarilyLocked => 119 | errc_FileTooBig => 120
  end.

(** [api/error/conditions/generic.cpp:48-303 message] *)
Definition errc_message (ev : Z) : str :=
  match ev with
  | 1 => B "content invalid format"
  | 2 => B "content invalid data"
  | 3 => B "bad request"
  | 4 => B "forbidden"
  | 5 => B "not found"
  | 6 => B "internal server error"
  | 7 => B "api internal server error"
  | 8 => B "unknown api error"
  | 9 => B "session token unavailable timeout"
  | 10 => B "connection unavailable timeout"
  | 11 => B "access denied"
  | 12 => B "account already linked"
  | 13 => B "api request limit exceeded"
  | 14 => B "api version deprecated"
  | 15 => B "api version missing"
  | 16 => B "api version removed"
  | 17 => B "application id disabled"
  | 18 => B "application id suspended"
  | 19 => B "application invalid"
  | 20 => B "async operation in progress"
  | 21 => B "billing failure"
  | 22 => B "billing transaction duplicate"
  | 23 => B "bulk file count exceeded"
  | 24 => B "bulk filecount zero"
  | 25 => B "bulk filesize limit confirmation needed"
  | 26 => B "bulk filesize limit exceeded"
  | 27 => B "bulk insufficient premium bandwidth"
  | 28 => B "bulk insufficient unified bandwidth"
  | 29 => B "bulk operation illegal"
  | 30 => B "bulk operation invalid"
  | 31 => B "bulk package failure"
  | 32 => B "bulk requires bandwidth confirmtion"
  | 33 => B "business seat limitation"
  | 34 => B "business upgrade failure"
  | 35 => B "contact already added"
  | 36 => B "contact invalid"
  | 37 => B "credentials invalid"
  | 38 => B "credit card invalid"
  | 39 => B "date invalid"
  | 40 => B "device invalid"
  | 41 => B "dmca ban"
  | 42 => B "dmca invalid range"
  | 43 => B "dmca invalid user"
  | 44 => B "downgrade illegal"
  | 45 => B "duplicate entry"
  | 46 => B "email already in use"
  | 47 => B "email misformatted"
  | 48 => B "email rejected"
  | 49 => B "email requires validation"
  | 50 => B "facebook access token required"
  | 51 => B "facebook registered with other account"
  | 52 => B "facebook authentication failure"
  | 53 => B "file already exists"
  | 54 => B "file already reported"
  | 55 => B "file removed"
  | 56 => B "file update duplicate"
  | 57 => B "filename invalid"
  | 58 => B "filetype invalid"
  | 59 => B "folder already exists"
  | 60 => B "folder depth limit exceeded"
  | 61 => B "folder privacy restriction"
  | 62 => B "folderkey invalid"
  | 63 => B "folderkey missing"
  | 64 => B "foldername missing"
  | 65 => B "google authentication failure"
  | 66 => B "group already added"
  | 67 => B "group invalid"
  | 68 => B "illegal email"
  | 69 => B "illegal move"
  | 70 => B "illegal rename"
  | 71 => B "illegal unshare"
  | 72 => B "install id incident id invalid match"
  | 73 => B "install id invalid"
  | 74 => B "insufficient credits"
  | 75 => B "key invalid"
  | 76 => B "key missing"
  | 77 => B "login required"
  | 78 => B "message send failure"
  | 79 => B "no avatar image"
  | 80 => B "no invoice for user"
  | 81 => B "non premium limit reached"
  | 82 => B "parameters invalid"
  | 83 => B "parameters missing"
  | 84 => B "password misformatted"
  | 85 => B "plan bandwidth insufficient"
  | 86 => B "plan business change invalid"
  | 87 => B "plan change illegal"
  | 88 => B "plan class change invalid"
  | 89 => B "plan expiration limitation"
  | 90 => B "plan storage insufficient"
  | 91 => B "premium required"
  | 92 => B "product change illegal"
  | 93 => B "product id invalid"
  | 94 => B "quickkey invalid"
  | 95 => B "quickkey missing"
  | 96 => B "requires bandwidth confirmtion"
  | 97 => B "reseller tos acceptance required"
  | 98 => B "resource already followed"
  | 99 => B "resource already owned"
  | 100 => B "resource grant permission failure"
  | 101 => B "resource permission failure"
  | 102 => B "service unrecognized"
  | 103 => B "session token invalid"
  | 104 => B "session token missing"
  | 105 => B "share resource limit"
  | 106 => B "signature invalid"
  | 107 => B "software token invalid"
  | 108 => B "storage limit exceeded"
  | 109 => B "subdomain invalid"
  | 110 => B "tos acceptance required"
  | 111 => B "tos token invalid"
  | 112 => B "twitter access token required"
  | 113 => B "unable to share from anon"
  | 114 => B "unable to share with self"
  | 115 => B "upload failed"
  | 116 => B "upload key invalid"
  | 117 => B "url invalid"
  | 118 => B "user invalid"
  | 119 => B "account temporarily locked"
  | 120 => B "file size exceeds maximum limit"
  | _ => B "Unknown API category: " ++ print_int ev
  end.

(** [api/error/codes/api_code.cpp:31-54 message] *)
Definition api_code_message (ev : Z) : str :=
  match ev with
  | 1 => B "unknown api error"
  | 2 => B "content invalid data"
  | 3 => B "content invalid format"
  | 4 => B "session token unavailable timeout"
  | 5 => B "connection unavailable timeout"
  | _ => B "Unknown error: " ++ print_int ev
  end.

(** [api/error/codes/result_code.cpp:31-52 message] *)
Definition result_code_message (ev : Z) : str :=
  match ev with
  | 105 => B "session token invalid"
  | 107 => B "credentials invalid"
  | 127 => B "signature invalid"
  | 208 => B "async operation in progress"
  | _ => B "API result code: " ++ print_int ev
  end.

(** [api/error/codes/http_status.cpp:30-53 message] *)
Definition http_status_message (ev : Z) : str :=
  match ev with
  | 400 => B "bad request"
  | 403 => B "forbidden"
  | 404 => B "not found"
  | 500 => B "internal server error"
  | 900 => B "api internal server error"
  | _ => B "Unknown error: " ++ print_int ev
  end.

(** [http/error/error_impl.cpp:32-77 message] *)
Definition http_error_message (ev : Z) : str :=
  match ev with
  | 0 => B "invalid url"
  | 1 => B "invalid redirect url"
  | 2 => B "redirect permission denied"
  | 3 => B "failure to resolve host"
  | 4 => B "failure to connect to host"
  | 5 => B "failure to connect to UnableToConnectToProxy"
  | 6 => B "proxy protocol failure"
  | 7 => B "SSL handshake failure"
  | 8 => B "connection failure while writing"
  | 9 => B "connection failure while reading"
  | 10 => B "failed to uncompress content"
  | 11 => B "unable to parse http headers"
  | 12 => B "unsupported http encoding"
  | 13 => B "variable post interface failure"
  | 14 => B "request cancelled"
  | 15 => B "request timed out"
  | _ => B "Unknown error: " ++ print_int ev
  end.

(** [utils/error/codes/fileio.cpp:29-56 message] *)
Definition file_io_message (ev : Z) : str :=
  match ev with
  | 1 => B "unknown error"
  | 2 => B "end of file"
  | 3 => B "stream error"
  | 4 => B "line too long"
  | 5 => B "not enough memory"
  | 6 => B "buffer too large"
  | 7 => B "file modified"
  | _ => B "Unknown error: " ++ print_int ev
  end.

(** [uploader/error/conditions/generic.cpp:48-100 message] *)
Definition upload_message (ev : Z) : str :=
  match ev with
  | 1 => B "bad upload response"
  | 2 => B "cancelled"
  | 3 => B "file exists in folder"
  | 4 => B "filedrop key invalid"
  | 5 => B "filedrop misconfigured"
  | 6 => B "filename missing"
  | 7 => B "filesize invalid"
  | 8 => B "hash incorrect"
  | 9 => B "incomplete upload"
  | 10 => B "insufficient cloud storage"
  | 11 => B "internal upload error"
  | 12 => B "logic error"
  | 13 => B "max filesize exceeded"
  | 14 => B "missing file data"
  | 15 => B "paused"
  | 16 => B "permissions"
  | 17 => B "session invalid"
  | 19 => B "target folder missing"
  | 20 => B "zero byte file"
  | _ => B "Unknown uploader category: " ++ print_int ev
  end.

(** [uploader/error/codes/upload_response.cpp:30-41 message] *)
Definition upload_response_message (ev : Z) : str :=
  B "Upload response code: " ++ print_int ev.

(** [uploader/error/codes/poll_result.cpp:30-47 message] *)
Definition poll_result_message (ev : Z) : str :=
  match ev with
  | -80 => B "upload key not found"
  | -20 => B "invalid upload key"
  | _ => B "API result code: " ++ print_int ev
  end.

(** [uploader/error/codes/poll_file_error.cpp:30-79 message] *)
Definition poll_file_error_message (ev : Z) : str :=
  match ev with
  | 1 => B "file size larger than maximum"
  | 2 => B "file size is zero"
  | 3 => B "bad rar(1)"
  | 4 => B "bad rar(2)"
  | 5 => B "virus found"
  | 6 => B "file lost"
  | 7 => B "hash or size mismatch"
  | 8 => B "internal error(1)"
  | 9 => B "bad rar(3)"
  | 10 => B "internal error(2)"
  | 12 => B "database failure"
  | 13 => B "filename collision"
  | 14 => B "destination missing"
  | 15 => B "account storage limit reached"
  | 16 => B "revision conflict"
  | 17 => B "patch failed"
  | 18 => B "account blocked"
  | 19 => B "path creation failure"
  | _ => B "Poll file error: " ++ print_int ev
  end.

(** [uploader/error/codes/upload_response.cpp:43-94 default_error_condition] *)
Definition upload_response_condition (ev : Z) : option upload_errc :=
  match ev with
  | -1 => Some FiledropKeyInvalid
  | -8 => Some FiledropKeyInvalid
  | -10 => Some InternalUploadError
  | -11 => Some FiledropKeyInvalid
  | -12 => Some InternalUploadError
  | -14 => Some TargetFolderMissing
  | -21 => Some FiledropMisconfigured
  | -22 => Some FiledropMisconfigured
  | -26 => Some InternalUploadError
  | -31 => Some InternalUploadError
  | -32 => Some MissingFileData
  | -40 => Some InternalUploadError
  | -41 => Some MaxFilesizeExceeded
  | -42 => Some MaxFilesizeExceeded
  | -43 => Some IncompleteUpload
  | -44 => Some IncompleteUpload
  | -45 => Some InternalUploadError
  | -46 => Some InternalUploadError
  | -47 => Some InternalUploadError
  | -48 => Some FilesizeInvalid
  | -49 => Some FilenameMissing
  | -50 => Some InternalUploadError
  | -51 => Some InternalUploadError
  | -52 => Some InternalUploadError
  | -53 => Some InternalUploadError
  | -54 => Some InternalUploadError
  | -70 => Some InternalUploadError
  | -71 => Some InternalUploadError
  | -80 => Some InternalUploadError
  | -90 => Some HashIncorrect
  | -99 => Some SessionInvalid
  | -120 => Some InternalUploadError
  | -122 => Some InternalUploadError
  | -124 => Some InternalUploadError
  | -140 => Some InternalUploadError
  | -200 => Some InternalUploadError
  | -206 => Some TargetFolderInTrash
  | -700 => Some MaxFilesizeExceeded
  | -701 => Some MaxFilesizeExceeded
  | -881 => Some MaxFilesizeExceeded
  | -882 => Some MaxFilesizeExceeded
  | _ => None
  end.

Definition all_errc : list errc :=
  [errc_ContentInvalidFormat; errc_ContentInvalidData; errc_BadRequest; errc_Forbidden;
   errc_NotFound; errc_InternalServerError; errc_ApiInternalServerError; errc_UnknownApiError;
   errc_SessionTokenUnavailableTimeout; errc_ConnectionUnavailableTimeout; errc_AccessDenied;
   errc_AccountAlreadyLinked; errc_ApiRequestLimitExceeded; errc_ApiVersionDeprecated;
   errc_ApiVersionMissing; errc_ApiVersionRemoved; errc_ApplicationIdDisabled;
   errc_ApplicationIdSuspended; errc_ApplicationInvalid; errc_AsyncOperationInProgress;
   errc_BillingFailure; errc_BillingTransactionDuplicate; errc_BulkFileCountExceeded;
   errc_BulkFileCountZero; errc_BulkFilesizeLimitConfirmationNeeded;
   errc_BulkFilesizeLimitExceeded; errc_BulkInsufficientPremiumBandwidth;
   errc_BulkInsufficientUnifiedBandwidth; errc_BulkOperationIllegal; errc_BulkOperationInvalid;
   errc_BulkPackageFailure; errc_BulkRequiresBandwidthConfirmtion; errc_BusinessSeatLimitation;
   errc_BusinessUpgradeFailure; errc_ContactAlreadyAdded; errc_ContactInvalid;
   errc_CredentialsInvalid; errc_CreditCardInvalid; errc_DateInvalid; errc_DeviceInvalid;
   errc_DmcaBan; errc_DmcaInvalidRange; errc_DmcaInvalidUser; errc_DowngradeIllegal;
   errc_DuplicateEntry; errc_EmailAlreadyInUse; errc_EmailMisformatted; errc_EmailRejected;
   errc_EmailRequiresValidation; errc_FacebookAccessTokenRequired;
   errc_FacebookEmailRegisteredWithOtherAccount; errc_FacebookAuthenticationFailure;
   errc_FileAlreadyExists; errc_FileAlreadyReported; errc_FileRemoved;
   errc_FileUpdateDuplicate; errc_FilenameInvalid; errc_FiletypeInvalid;
   errc_FolderAlreadyExists; errc_FolderDepthLimitExceeded; errc_FolderPrivacyRestriction;
   errc_FolderkeyInvalid; errc_FolderkeyMissing; errc_FoldernameMissing;
   errc_GoogleAuthenticationFailure; errc_GroupAlreadyAdded; errc_GroupInvalid;
   errc_IllegalEmail; errc_IllegalMove; errc_IllegalRename; errc_IllegalUnshare;
   errc_InstallIdIncidentIdInvalidMatch; errc_InstallIdInvalid; errc_InsufficientCredits;
   errc_KeyInvalid; errc_KeyMissing; errc_LoginRequired; errc_MessageSendFailure;
   errc_NoAvatarImage; errc_NoInvoiceForUser; errc_NonPremiumLimitReached;
   errc_ParametersInvalid; errc_ParametersMissing; errc_PasswordMisformatted;
   errc_PlanBandwidthInsufficient; errc_PlanBusinessChangeInvalid; errc_PlanChangeIllegal;
   errc_PlanClassChangeInvalid; errc_PlanExpirationLimitation; errc_PlanStorageInsufficient;
   errc_PremiumRequired; errc_ProductChangeIllegal; errc_ProductIdInvalid;
   errc_QuickkeyInvalid; errc_QuickkeyMissing; errc_RequiresBandwidthConfirmtion;
   errc_ResellerTosAcceptanceRequired; errc_ResourceAlreadyFollowed; errc_ResourceAlreadyOwned;
   errc_ResourceGrantPermissionFailure; errc_ResourcePermissionFailure;
   errc_ServiceUnrecognized; errc_SessionTokenInvalid; errc_SessionTokenMissing;
   errc_ShareResourceLimit; errc_SignatureInvalid; errc_SoftwareTokenInvalid;
   errc_StorageLimitExceeded; errc_SubdomainInvalid; errc_TosAcceptanceRequired;
   errc_TosTokenInvalid; errc_TwitterAccessTokenRequired; errc_UnableToShareFromAnon;
   errc_UnableToShareWithSelf; errc_UploadFailed; errc_UploadKeyInvalid; errc_UrlInvalid;
   errc_UserInvalid; errc_AccountTemporarilyLocked; errc_FileTooBig].

(** ** Conditions *)

(** The categories of conditions: [std::generic_category], [generic_api_category], and the
    categories that also have codes. *)
Inductive condition_category := std_conditions | api_conditions | conditions_of (c : category).

#[export] Instance condition_category_eq_dec : EqDecision condition_category.
Proof. solve_decision. Defined.

Record error_condition := Cond { cond_cat : condition_category; cond_value : Z }.

#[export] Instance error_condition_eq_dec : EqDecision error_condition.
Proof. solve_decision. Defined.

(** [std::errc::io_error] and [std::errc::not_enough_memory] are [EIO] and [ENOMEM]. *)
Definition std_io_error : error_condition := Cond std_conditions 5.
Definition std_not_enough_memory : error_condition := Cond std_conditions 12.

(** [api/error/conditions/generic.cpp:325-331 make_error_condition] *)
Definition errc_condition (e : errc) : error_condition := Cond api_conditions (errc_value e).

(** [uploader/error/conditions/generic.cpp:121-127 make_error_condition] *)
Definition upload_condition (e : upload_errc) : error_condition :=
  Cond (conditions_of cat_upload) (upload_errc_value e).

(** [utils/error/codes/fileio.cpp:58-81 default_error_condition] *)
Definition file_io_condition (ev : Z) : error_condition :=
  match ev with
  | 3 => std_io_error
  | 5 => std_not_enough_memory
  | _ => Cond (conditions_of cat_file_io) ev
  end.

(** A category of the SDK: the virtual functions of its class. *)
Record error_category := {
  name : str;
  message : Z -> str;
  default_error_condition : Z -> error_condition }.

(** [std::error_category::default_error_condition], where it is not overridden. *)
Definition base_condition (c : category) (ev : Z) : error_condition := Cond (conditions_of c) ev.

(** A table of conditions with [error_condition(ev, *this)] as its default. *)
Definition condition_or {E} (c : category) (make : E -> error_condition)
    (table : Z -> option E) (ev : Z) : error_condition :=
  match table ev with Some e => make e | None => base_condition c ev end.

(** [http/error/error_impl.cpp:18-30 CategoryImpl] *)
Definition http_category : error_category :=
  {| name := B "mediafire http"; message := http_error_message;
     default_error_condition := base_condition cat_http |}.

(** [api/error/codes/api_code.cpp:17-29 CategoryImpl] *)
Definition api_category : error_category :=
  {| name := B "mediafire api sdk"; message := api_code_message;
     default_error_condition := condition_or cat_api errc_condition api_condition |}.

(** [api/error/codes/result_code.cpp:17-29 CategoryImpl] *)
Definition result_category : error_category :=
  {| name := B "mediafire api error response"; message := result_code_message;
     default_error_condition := condition_or cat_result errc_condition result_condition |}.

(** [api/error/codes/http_status.cpp:16-28 CategoryImpl] *)
Definition http_status_category : error_category :=
  {| name := B "mediafire api http status"; message := http_status_message;
     default_error_condition := base_condition cat_http_status |}.

(** [uploader/error/conditions/generic.cpp:18-46 ApiConditionImpl] *)
Definition generic_upload_category : error_category :=
  {| name := B "mediafire uploader"; message := upload_message;
     default_error_condition := base_condition cat_upload |}.

(** [uploader/error/codes/upload_response.cpp:16-28 CategoryImpl] *)
Definition upload_response_category : error_category :=
  {| name := B "upload response"; message := upload_response_message;
     default_error_condition :=
       condition_or cat_upload_response upload_condition upload_response_condition |}.

(** [uploader/error/codes/poll_result.cpp:16-28 CategoryImpl] *)
Definition poll_result_category : error_category :=
  {| name := B "pollupload file error"; message := poll_result_message;
     default_error_condition := base_condition cat_poll_result |}.

(** [uploader/error/codes/poll_file_error.cpp:16-28 CategoryImpl] *)
Definition poll_upload_file_error_category : error_category :=
  {| name := B "pollupload file error"; message := poll_file_error_message;
     default_error_condition := base_condition cat_poll_file_error |}.

(** [utils/error/codes/fileio.cpp:15-27 CategoryImpl] *)
Definition fileio_category : error_category :=
  {| name := B "mediafire utils fileio"; message := file_io_message;
     default_error_condition := file_io_condition |}.

(** The SDK's object of a category; [None] for a category of the library. *)
Definition category_object (c : category) : option error_category :=
  match c with
  | cat_generic | cat_system | cat_network => None
  | cat_http => Some http_category
  | cat_api => Some api_category
  | cat_result => Some result_category
  | cat_http_status => Some http_status_category
  | cat_upload => Some generic_upload_category
  | cat_upload_response => Some upload_response_category
  | cat_poll_result => Some poll_result_category
  | cat_poll_file_error => Some poll_upload_file_error_category
  | cat_file_io => Some fileio_category
  end.

(** ** Comparison of a code with a condition *)

Section Comparison.
Context (library_equivalent : error_code -> error_condition -> bool).

(** [category.equivalent(ev, condition)], the function of the code's category: the code's
    default condition is the condition. *)
Definition code_equivalent (ec : error_code) (c : error_condition) : bool :=
  match category_object (ec_cat ec) with
  | Some k => bool_decide (default_error_condition k (ec_value ec) = c)
  | None => library_equivalent ec c
  end.

(** [category.equivalent(code, ev)], the function of the condition's category.  The two
    generic categories override it and say no.
    [api/error/conditions/generic.cpp:305-317 equivalent] *)
Definition condition_equivalent (ec : error_code) (c : error_condition) : bool :=
  match cond_cat c with
  | std_conditions => library_equivalent ec c
  | api_conditions | conditions_of cat_upload => false
  | conditions_of k =>
      match category_object k with
      | Some _ => bool_decide (ec = Ec k (cond_value c))
      | None => library_equivalent ec c
      end
  end.

(** [operator==(std::error_code, std::error_condition)] *)
Definition means (ec : error_code) (c : error_condition) : bool :=
  code_equivalent ec c || condition_equivalent ec c.

Lemma elem_of_all_errc e : e ∈ all_errc.
Proof. apply (bool_decide_eq_true_1 _). by destruct e. Qed.

Lemma errc_value_inj a b : errc_value a = errc_value b -> a = b.
Proof.
  apply (NoDup_fmap_inj _ all_errc); [|apply elem_of_all_errc..].
  apply (bool_decide_eq_true_1 _). by vm_compute.
Qed.
Lemma upload_errc_value_inj a b : upload_errc_value a = upload_errc_value b -> a = b.
Proof. by destruct a, b. Qed.

Lemma errc_message_inj a b : errc_message (errc_value a) = errc_message (errc_value b) -> a = b.
Proof.
  apply (NoDup_fmap_inj (fun e => errc_message (errc_value e)) all_errc); [|apply elem_of_all_errc..].
  apply (bool_decide_eq_true_1 _). by vm_compute.
Qed.

Lemma file_io_condition_cat ev :
  cond_cat (file_io_condition ev) = std_conditions \/
  cond_cat (file_io_condition ev) = conditions_of cat_file_io.
Proof. unfold file_io_condition. by repeat case_match; auto. Qed.

Lemma condition_or_equal {E} k (make : E -> error_condition) table ev e :
  (forall a b, make a = make b -> a = b) -> (forall a v, make a <> base_condition k v) ->
  condition_or k make table ev = make e <-> table ev = Some e.
Proof.
  intros Hinj Hbase. unfold condition_or. destruct (table ev) as [a|].
  - split; [by intros ->%Hinj|by intros [= ->]].
  - split; [|done]. intros H. by destruct (Hbase e ev).
Qed.

(** An error code of the SDK equals a condition of [api::errc], as C++ compares them, exactly
    when the test that the other files use says so: the table of its category gives this
    condition. *)
Theorem means_errc ec e :
  category_object (ec_cat ec) <> None -> means ec (errc_condition e) = matches_errc ec e.
Proof.
  destruct ec as [c v]. intros Hc. unfold means, condition_equivalent. cbn. rewrite orb_false_r.
  unfold code_equivalent, matches_errc.
  destruct c; try done; cbn;
    try (apply bool_decide_ext, condition_or_equal; [|done]; intros a b [= H]; by apply errc_value_inj);
    apply bool_decide_eq_false; try done; intros H.
  - unfold condition_or in H. by destruct (upload_response_condition v).
  - by destruct (file_io_condition_cat v) as [E|E]; rewrite H in E.
Qed.

(** The same for the conditions of an upload: a code of the upload category means the
    condition of its own number, the code of a reply the condition of the table, and no other
    code of the SDK means one. *)
Theorem means_upload_errc e :
  (forall e', means (upload_error e') (upload_condition e) = bool_decide (e' = e)) /\
  (forall v, means (Ec cat_upload_response v) (upload_condition e)
     = bool_decide (upload_response_condition v = Some e)) /\
  (forall c v, category_object c <> None -> c <> cat_upload -> c <> cat_upload_response ->
     means (Ec c v) (upload_condition e) = false).
Proof.
  unfold means, code_equivalent, condition_equivalent. split_and!.
  - intros e'. cbn. rewrite orb_false_r. apply bool_decide_ext.
    split; [intros [= H]; by apply upload_errc_value_inj|by intros ->].
  - intros v. cbn. rewrite orb_false_r. apply bool_decide_ext, condition_or_equal; [|done].
    intros a b [= H]. by apply upload_errc_value_inj.
  - intros c v Hc H1 H2. cbn. rewrite orb_false_r. destruct c; try done; cbn;
      apply bool_decide_eq_false; try done.
    + unfold condition_or. by destruct (api_condition v).
    + unfold condition_or. by destruct (result_condition v).
    + intros H. by destruct (file_io_condition_cat v) as [E|E]; rewrite H in E.
Qed.
End Comparison.

(** ** Messages *)

(** The codes of one enumeration have distinct messages: a message tells the code. *)
Theorem messages_distinct :
  (forall a b, errc_message (errc_value a) = errc_message (errc_value b) -> a = b) /\
  (forall a b, upload_message (upload_errc_value a) = upload_message (upload_errc_value b) ->
     a = b) /\
  (forall a b, http_error_message (http_error_value a) = http_error_message (http_error_value b) ->
     a = b) /\
  (forall a b, api_code_message (api_code_value a) = api_code_message (api_code_value b) ->
     a = b) /\
  (forall a b, result_code_message (result_code_value a)
     = result_code_message (result_code_value b) -> a = b) /\
  (forall a b, file_io_message (file_io_error_value a) = file_io_message (file_io_error_value b) ->
     a = b).
Proof.
  split; [exact errc_message_inj|]. split_and!; intros a b; destruct a, b; try done;
    vm_compute; discriminate.
Qed.

(** The enumerators that the tables of messages leave out: the message of
    [errc::TargetFolderInTrash] is that of an unknown value (and its [assert] fails in a debug
    build), and two result codes have only their number. *)
Theorem messages_missing :
  (forall e, upload_message (upload_errc_value e)
       = B "Unknown uploader category: " ++ print_int (upload_errc_value e)
     <-> e = TargetFolderInTrash) /\
  (forall e, result_code_message (result_code_value e)
       = B "API result code: " ++ print_int (result_code_value e)
     <-> e = ParametersInvalid \/ e = FacebookAuthenticationFailure) /\
  (forall e, errc_message (errc_value e)
       <> B "Unknown API category: " ++ print_int (errc_value e)).
Proof.
  split_and!; intros e; destruct e; vm_compute; try split; intros; try done;
    try (by left); try (by right); by destruct_or?.
Qed.

(** Two categories have one name, so that the name of a poll's error does not tell which of
    the fields of the reply it is from; no other two do. *)
Theorem category_names c c' k k' :
  category_object c = Some k -> category_object c' = Some k' -> name k = name k' ->
  c = c' \/ (c, c') = (cat_poll_result, cat_poll_file_error)
  \/ (c, c') = (cat_poll_file_error, cat_poll_result).
Proof.
  intros Hk Hk' Hn. destruct c, c'; try done; simplify_eq/=; auto;
    exfalso; revert Hn; vm_compute; discriminate.
Qed.
