(* ===== verification/Base64.v ===== *)
(** * Base64 codec ([utils/base64.cpp])

    [Base64Encode] and [Base64Decode] as they are written: the encoder walks the
    input three bytes at a time and handles the one or two left-over bytes in a
    switch; the decoder keeps one 32-bit accumulator [temp] for the whole input,
    never resetting it between quanta.  Main results: decoding inverts encoding,
    and the length of the encoding. *)
From S2P Require Import Prelude.

Open Scope Z_scope.


(** [utils/base64.cpp:13-14 base64_chars] *)
Definition base64_chars : str :=
  B "ABCDEFGHIJKLMNOPQRSTUVWXYZabcdefghijklmnopqrstuvwxyz0123456789+/".

(** [utils/base64.cpp:15-15 pad_char] *)
Definition pad_char : ascii := "="%char.

(** [base64_chars[i]] *)
Definition b64char (i : Z) : ascii := nth (Z.to_nat i) base64_chars pad_char.

(** [utils/base64.cpp:18-52 Base64Encode] *)
Fixpoint Base64Encode (data : str) : str :=
  match data with
  | a :: b :: c :: rest =>
      let temp := Z.shiftl (byteZ a) 16 + Z.shiftl (byteZ b) 8 + byteZ c in
      b64char (Z.shiftr (Z.land temp 0x00FC0000) 18)
      :: b64char (Z.shiftr (Z.land temp 0x0003F000) 12)
      :: b64char (Z.shiftr (Z.land temp 0x00000FC0) 6)
      :: b64char (Z.land temp 0x0000003F)
      :: Base64Encode rest
  | [a] =>
      let temp := Z.shiftl (byteZ a) 16 in
      [ b64char (Z.shiftr (Z.land temp 0x00FC0000) 18);
        b64char (Z.shiftr (Z.land temp 0x0003F000) 12);
        pad_char; pad_char ]
  | [a; b] =>
      let temp := Z.shiftl (byteZ a) 16 + Z.shiftl (byteZ b) 8 in
      [ b64char (Z.shiftr (Z.land temp 0x00FC0000) 18);
        b64char (Z.shiftr (Z.land temp 0x0003F000) 12);
        b64char (Z.shiftr (Z.land temp 0x00000FC0) 6);
        pad_char ]
  | [] => []
  end.

(** What one character contributes: a sextet, the pad, or nothing valid.
    [utils/base64.cpp:75-105 Base64Decode] *)
Inductive quantum := Sextet (v : Z) | Pad | BadChar.

(** The if-chain of the decoder, on the value of a (signed) [char]; characters
    from 128 on are negative and fall through every range test.
    [utils/base64.cpp:78-105 Base64Decode] *)
Definition decode_char (c : ascii) : quantum :=
  let x := byteZ c in
  if (0x41 <=? x) && (x <=? 0x5A) then Sextet (x - 0x41)
  else if (0x61 <=? x) && (x <=? 0x7A) then Sextet (x - 0x47)
  else if (0x30 <=? x) && (x <=? 0x39) then Sextet (x + 0x04)
  else if x =? 0x2B then Sextet 0x3E
  else if x =? 0x2F then Sextet 0x3F
  else if decide (c = pad_char) then Pad
  else BadChar.

Definition byte_at (temp : Z) (sh : Z) : ascii :=
  Zbyte (Z.land (Z.shiftr temp sh) 0xFF).

(** The two nested loops of the decoder.  [pos] is [quantumPosition], [temp] the
    32-bit accumulator (the shift wraps), [out] the bytes pushed so far.
    [input.end() - cursor] is the length of the unread input.
    [utils/base64.cpp:70-115 Base64Decode] *)
Fixpoint decode_loop (input : str) (pos : nat) (temp : Z) (out : str) : option str :=
  match input with
  | [] => Some out
  | c :: rest =>
      let temp := i32 (Z.shiftl temp 6) in
      match decode_char c with
      | Sextet v =>
          let temp := Z.lor temp v in
          if (pos =? 3)%nat then
            decode_loop rest 0 temp
              (out ++ [byte_at temp 16; byte_at temp 8; byte_at temp 0])
          else decode_loop rest (S pos) temp out
      | Pad =>
          match length input with
          | 1%nat => Some (out ++ [byte_at temp 16; byte_at temp 8])
          | 2%nat => Some (out ++ [byte_at temp 10])
          | _ => None
          end
      | BadChar => None
      end
  end.

(** [utils/base64.cpp:54-117 Base64Decode] *)
Definition Base64Decode (input : str) : option str :=
  if decide (length input mod 4 = 0)%nat then decode_loop input 0 0 [] else None.

Example encode_ManM : Base64Encode (B "Man M") = B "TWFuIE0=".
Proof. reflexivity. Qed.
Example decode_ManM : Base64Decode (B "TWFuIE0=") = Some (B "Man M").
Proof. reflexivity. Qed.

(** ** The decoder's accumulator *)

Lemma decode_char_b64char i : 0 <= i < 64 -> decode_char (b64char i) = Sextet i.
Proof.
  intros Hi.
  assert (H : forallb (fun n => match decode_char (b64char (Z.of_nat n)) with
                          | Sextet v => v =? Z.of_nat n | _ => false end) (seq 0 64) = true)
    by reflexivity.
  rewrite forallb_forall in H. specialize (H (Z.to_nat i)).
  rewrite Z2Nat.id in H by lia.
  destruct (decode_char (b64char i));
    (rewrite in_seq in H; specialize (H ltac:(lia)); [f_equal; lia || done..]).
Qed.

(** One accumulation step, modulo the multiples of [2^32] the wrap removes. *)
Lemma accumulate t v :
  0 <= v < 64 -> exists s, Z.lor (i32 (Z.shiftl t 6)) v = 64 * t + v + 2 ^ 32 * s.
Proof.
  intros Hv. unfold i32. rewrite Z.shiftl_mul_pow2 by lia.
  set (q := (t * 2 ^ 6 + 2 ^ 31) / 2 ^ 32).
  replace ((t * 2 ^ 6 + 2 ^ 31) mod 2 ^ 32 - 2 ^ 31)
    with (Z.shiftl (t - 2 ^ 26 * q) 6)
    by (rewrite Z.shiftl_mul_pow2, Z.mod_eq by lia; subst q; lia).
  exists (- q). rewrite lor_shiftl_low by lia. lia.
Qed.

Lemma byte_at_div t n : 0 <= n -> byte_at t n = Zbyte (t / 2 ^ n).
Proof.
  intros ?. unfold byte_at, Zbyte. change 0xFF with (Z.ones 8).
  rewrite Z.land_ones, Z.shiftr_div_pow2 by lia. change (2 ^ 8) with 256.
  by rewrite Z.mod_mod.
Qed.

Lemma sextet_at t n : 0 <= n ->
  Z.shiftr (Z.land t (Z.shiftl 63 n)) n = (t / 2 ^ n) mod 64.
Proof.
  intros ?. rewrite Z.shiftr_land, Z.shiftr_shiftl_l, Z.sub_diag by lia.
  rewrite Z.shiftl_0_r. change 63 with (Z.ones 6).
  by rewrite Z.land_ones, Z.shiftr_div_pow2.
Qed.

Lemma decode_step c v rest pos t out :
  decode_char c = Sextet v -> 0 <= v < 64 ->
  exists s, decode_loop (c :: rest) pos t out =
    let t' := 64 * t + v + 2 ^ 32 * s in
    if (pos =? 3)%nat
    then decode_loop rest 0 t' (out ++ [byte_at t' 16; byte_at t' 8; byte_at t' 0])
    else decode_loop rest (S pos) t' out.
Proof.
  intros Hc Hv. destruct (accumulate t v Hv) as [s Hs]. exists s.
  cbn [decode_loop]. by rewrite Hc, Hs.
Qed.

(** Decoding one whole quantum produced by the encoder, whatever is left of the
    previous quanta in the accumulator. *)
Lemma decode_quantum x rest t out :
  0 <= x < 2 ^ 24 ->
  exists t', decode_loop (b64char (x / 2 ^ 18 mod 64) :: b64char (x / 2 ^ 12 mod 64)
     :: b64char (x / 2 ^ 6 mod 64) :: b64char (x mod 64) :: rest) 0 t out
  = decode_loop rest 0 t'
      (out ++ [Zbyte (x / 2 ^ 16); Zbyte (x / 2 ^ 8); Zbyte x]).
Proof.
  intros Hx.
  set (q1 := x / 2 ^ 18 mod 64). set (q2 := x / 2 ^ 12 mod 64).
  set (q3 := x / 2 ^ 6 mod 64). set (q4 := x mod 64).
  assert (x = q1 * 2 ^ 18 + q2 * 2 ^ 12 + q3 * 2 ^ 6 + q4) as E by (subst q1 q2 q3 q4; zdiv).
  assert (0 <= q1 < 64 /\ 0 <= q2 < 64 /\ 0 <= q3 < 64 /\ 0 <= q4 < 64) as (?&?&?&?)
    by (repeat split; apply Z.mod_pos_bound; lia).
  clearbody q1 q2 q3 q4.
  destruct (decode_step (b64char q1) q1 (b64char q2 :: b64char q3 :: b64char q4 :: rest)
              0 t out) as [s1 ->]; [auto using decode_char_b64char..|]. cbv zeta; cbn [Nat.eqb].
  edestruct (decode_step (b64char q2) q2) as [s2 ->]; [auto using decode_char_b64char..|].
  cbv zeta; cbn [Nat.eqb].
  edestruct (decode_step (b64char q3) q3) as [s3 ->]; [auto using decode_char_b64char..|].
  cbv zeta; cbn [Nat.eqb].
  edestruct (decode_step (b64char q4) q4) as [s4 ->]; [auto using decode_char_b64char..|].
  cbv zeta; cbn [Nat.eqb].
  eexists. f_equal. f_equal.
  match goal with |- context [byte_at ?T 16] =>
    replace T with (x + 2 ^ 24 * (t + 2 ^ 26 * s1 + 2 ^ 20 * s2 + 2 ^ 14 * s3 + 2 ^ 8 * s4))
      by (rewrite E; ring) end.
  rewrite !byte_at_div by lia. rewrite !Zbyte_div_garbage by lia.
  by rewrite Z.pow_0_r, Z.div_1_r.
Qed.

(** The two final, padded quanta. *)
Lemma decode_pad1 x t out :
  0 <= x < 2 ^ 24 -> x mod 2 ^ 8 = 0 ->
  decode_loop [b64char (x / 2 ^ 18 mod 64); b64char (x / 2 ^ 12 mod 64);
               b64char (x / 2 ^ 6 mod 64); pad_char] 0 t out
  = Some (out ++ [Zbyte (x / 2 ^ 16); Zbyte (x / 2 ^ 8)]).
Proof.
  intros Hx H0.
  set (q1 := x / 2 ^ 18 mod 64). set (q2 := x / 2 ^ 12 mod 64).
  set (q3 := x / 2 ^ 6 mod 64).
  assert (x = q1 * 2 ^ 18 + q2 * 2 ^ 12 + q3 * 2 ^ 6) as E by (subst q1 q2 q3; zdiv).
  assert (0 <= q1 < 64 /\ 0 <= q2 < 64 /\ 0 <= q3 < 64) as (?&?&?)
    by (repeat split; apply Z.mod_pos_bound; lia).
  clearbody q1 q2 q3.
  destruct (decode_step (b64char q1) q1 [b64char q2; b64char q3; pad_char]
              0 t out) as [s1 ->]; [auto using decode_char_b64char..|]. cbv zeta; cbn [Nat.eqb].
  edestruct (decode_step (b64char q2) q2) as [s2 ->]; [auto using decode_char_b64char..|].
  cbv zeta; cbn [Nat.eqb].
  edestruct (decode_step (b64char q3) q3) as [s3 ->]; [auto using decode_char_b64char..|].
  cbv zeta; cbn [Nat.eqb decode_loop length].
  change (decode_char pad_char) with Pad. cbv iota. do 2 f_equal.
  match goal with |- context [byte_at (i32 (Z.shiftl ?T 6)) 16] =>
    destruct (accumulate T 0) as [s4 Hs4]; [lia|]; rewrite Z.lor_0_r in Hs4; rewrite Hs4 end.
  match goal with |- context [byte_at ?T 16] =>
    replace T with (x + 2 ^ 24 * (t + 2 ^ 26 * s1 + 2 ^ 20 * s2 + 2 ^ 14 * s3 + 2 ^ 8 * s4))
      by (rewrite E; ring) end.
  rewrite !byte_at_div by lia. by rewrite !Zbyte_div_garbage by lia.
Qed.

Lemma decode_pad2 x t out :
  0 <= x < 2 ^ 24 -> x mod 2 ^ 16 = 0 ->
  decode_loop [b64char (x / 2 ^ 18 mod 64); b64char (x / 2 ^ 12 mod 64);
               pad_char; pad_char] 0 t out
  = Some (out ++ [Zbyte (x / 2 ^ 16)]).
Proof.
  intros Hx H0.
  set (q1 := x / 2 ^ 18 mod 64). set (q2 := x / 2 ^ 12 mod 64).
  assert (x / 2 ^ 16 = (q1 * 2 ^ 12 + q2 * 2 ^ 6) / 2 ^ 10) as -> by (subst q1 q2; zdiv).
  assert (0 <= q1 < 64 /\ 0 <= q2 < 64) as (?&?)
    by (repeat split; apply Z.mod_pos_bound; lia).
  clearbody q1 q2.
  destruct (decode_step (b64char q1) q1 [b64char q2; pad_char; pad_char]
              0 t out) as [s1 ->]; [auto using decode_char_b64char..|]. cbv zeta; cbn [Nat.eqb].
  edestruct (decode_step (b64char q2) q2) as [s2 ->]; [auto using decode_char_b64char..|].
  cbv zeta; cbn [Nat.eqb decode_loop length].
  change (decode_char pad_char) with Pad. cbv iota. do 2 f_equal.
  match goal with |- context [byte_at (i32 (Z.shiftl ?T 6)) 10] =>
    destruct (accumulate T 0) as [s4 Hs4]; [lia|]; rewrite Z.lor_0_r in Hs4; rewrite Hs4 end.
  match goal with |- context [byte_at ?T 10] =>
    replace T with (q1 * 2 ^ 12 + q2 * 2 ^ 6 + 2 ^ 18 * (t + 2 ^ 26 * s1 + 2 ^ 20 * s2 + 2 ^ 14 * s4))
      by ring end.
  rewrite !byte_at_div by lia. by rewrite !Zbyte_div_garbage by lia.
Qed.

(** ** Properties *)

Lemma encode_cons3 a b c rest :
  let x := 2 ^ 16 * byteZ a + 2 ^ 8 * byteZ b + byteZ c in
  Base64Encode (a :: b :: c :: rest) =
  b64char (x / 2 ^ 18 mod 64) :: b64char (x / 2 ^ 12 mod 64)
    :: b64char (x / 2 ^ 6 mod 64) :: b64char (x mod 64) :: Base64Encode rest.
Proof.
  cbn [Base64Encode]. rewrite !Z.shiftl_mul_pow2 by lia. cbv zeta.
  rewrite (Z.mul_comm (byteZ a)), (Z.mul_comm (byteZ b)).
  change 0x00FC0000 with (Z.shiftl 63 18). change 0x0003F000 with (Z.shiftl 63 12).
  change 0x00000FC0 with (Z.shiftl 63 6). change 0x0000003F with (Z.ones 6).
  by rewrite !sextet_at, Z.land_ones by lia.
Qed.

(** Encoding produces four characters for every started group of three bytes. *)
Lemma encode_length d : length (Base64Encode d) = (4 * ((length d + 2) / 3))%nat.
Proof.
  induction d as [| | |a b c d IH] using list_ind3; [reflexivity..|].
  rewrite encode_cons3. cbn [length]. rewrite IH.
  replace (S (S (S (length d))) + 2)%nat with (length d + 2 + 1 * 3)%nat by lia.
  rewrite Nat.div_add by lia. lia.
Qed.

Lemma decode_encode_loop d t out :
  decode_loop (Base64Encode d) 0 t out = Some (out ++ d).
Proof.
  revert t out. induction d as [|a|a b|a b c d IH] using list_ind3; intros t out.
  - by rewrite app_nil_r.
  - pose proof (byteZ_range a).
    pose proof (decode_pad2 (byteZ a * 2 ^ 16) t out ltac:(lia) ltac:(zdiv)) as H1.
    rewrite Z.div_mul, Zbyte_byteZ in H1 by lia. rewrite <- H1.
    cbn [Base64Encode]. rewrite Z.shiftl_mul_pow2 by lia. cbv zeta.
    change 0x00FC0000 with (Z.shiftl 63 18). change 0x0003F000 with (Z.shiftl 63 12).
    by rewrite !sextet_at by lia.
  - pose proof (byteZ_range a). pose proof (byteZ_range b).
    pose proof (decode_pad1 (byteZ a * 2 ^ 16 + byteZ b * 2 ^ 8) t out
                  ltac:(lia) ltac:(zdiv)) as H1.
    replace ((byteZ a * 2 ^ 16 + byteZ b * 2 ^ 8) / 2 ^ 16) with (byteZ a) in H1 by zdiv.
    replace ((byteZ a * 2 ^ 16 + byteZ b * 2 ^ 8) / 2 ^ 8)
      with (byteZ b + 256 * byteZ a) in H1 by zdiv.
    rewrite Zbyte_add_256, !Zbyte_byteZ in H1. rewrite <- H1.
    cbn [Base64Encode]. rewrite !Z.shiftl_mul_pow2 by lia. cbv zeta.
    change 0x00FC0000 with (Z.shiftl 63 18). change 0x0003F000 with (Z.shiftl 63 12).
    change 0x00000FC0 with (Z.shiftl 63 6).
    by rewrite !sextet_at by lia.
  - pose proof (byteZ_range a). pose proof (byteZ_range b). pose proof (byteZ_range c).
    rewrite encode_cons3. cbv zeta.
    set (x := 2 ^ 16 * byteZ a + 2 ^ 8 * byteZ b + byteZ c).
    destruct (decode_quantum x (Base64Encode d) t out) as [t' ->]; [lia|].
    rewrite IH, <-app_assoc. do 2 f_equal.
    replace (x / 2 ^ 16) with (byteZ a) by zdiv.
    replace (x / 2 ^ 8) with (byteZ b + 256 * byteZ a) by zdiv.
    replace x with (byteZ c + 256 * (2 ^ 8 * byteZ a + byteZ b)) by lia.
    by rewrite !Zbyte_add_256, !Zbyte_byteZ.
Qed.

(** Decoding inverts encoding, for every byte string (the decoder's
    accumulator, never reset between quanta and wrapped to 32 bits, does not leak
    from one quantum into the next). *)
Theorem decode_encode d : Base64Decode (Base64Encode d) = Some d.
Proof.
  unfold Base64Decode. rewrite decide_True.
  - apply decode_encode_loop.
  - rewrite encode_length, Nat.mul_comm. apply Nat.Div0.mod_mul.
Qed.

(** The decoder does not look at the character after a first pad: an input that is
    not properly encoded is accepted. *)
Example decode_accepts_text_after_pad : Base64Decode (B "AA=A") = Some [ascii_of_N 0].
Proof. reflexivity. Qed.

