(* ===== verification/Boost.v ===== *)
(** * Boost's string functions, as the SDK uses them

    The code calls them and does not define them: here they are a record of operations,
    with the laws that Boost documents as a class.  [c_locale] is one implementation that
    satisfies the laws; it shows that they are consistent and runs the examples. *)
From S2P Require Import Prelude.

Open Scope Z_scope.

(** [isspace] in the C locale. *)
Definition isspace (c : ascii) : bool :=
  let n := byteZ c in (n =? 32) || ((9 <=? n) && (n <=? 13)).

Fixpoint skip_space (s : str) : str :=
  match s with c :: s' => if isspace c then skip_space s' else s | [] => [] end.

(** The text before and after the first occurrence of a character, when there is one. *)
Fixpoint split_at (sep : ascii) (s : str) : option (str * str) :=
  match s with
  | [] => None
  | c :: s =>
      if bool_decide (c = sep) then Some ([], s)
      else match split_at sep s with Some (a, b) => Some (c :: a, b) | None => None end
  end.

Record Boost := {
  iequals : str -> str -> bool;
  to_lower : str -> str;
  trim : str -> str;
  trim_right : str -> str;
  split_commas : str -> list str;             (** [boost::split] at any of [","] *)
  find_first : ascii -> str -> option (str * str);  (** what surrounds the match *)
  lexical_cast_uint64 : str -> option Z }.    (** [None]: [bad_lexical_cast] *)

(** What Boost documents of the functions. *)
Class BoostLaws (boost : Boost) : Prop := {
  iequals_lower a b : iequals boost a b = bool_decide (to_lower boost a = to_lower boost b);
  trim_right_spec s : trim_right boost s = rev (skip_space (rev s));
  trim_spec s : trim boost s = trim_right boost (skip_space s);
  find_first_spec c s : find_first boost c s = split_at c s;
  lexical_cast_range s n : lexical_cast_uint64 boost s = Some n -> 0 <= n < 2 ^ 64 }.

(** ** One implementation *)

Definition lower_byte (c : ascii) : ascii :=
  let n := byteZ c in if (65 <=? n) && (n <=? 90) then Zbyte (n + 32) else c.

Fixpoint split_all (fuel : nat) (sep : ascii) (s : str) : list str :=
  match fuel with
  | O => [s]
  | S fuel => match split_at sep s with Some (a, b) => a :: split_all fuel sep b | None => [s] end
  end.

Fixpoint decimal (acc : Z) (s : str) : option Z :=
  match s with
  | [] => Some acc
  | c :: s =>
      let d := byteZ c - 48 in
      if (0 <=? d) && (d <=? 9) && (acc * 10 + d <? 2 ^ 64) then decimal (acc * 10 + d) s else None
  end.

Definition c_locale : Boost :=
  let lower := fmap lower_byte in
  let trim_right s := rev (skip_space (rev s)) in
  {| iequals a b := bool_decide (lower a = lower b);
     to_lower := lower;
     trim s := trim_right (skip_space s);
     trim_right := trim_right;
     split_commas s := split_all (length s) "," s;
     find_first := split_at;
     lexical_cast_uint64 s := match s with [] => None | _ => decimal 0 s end |}.

Lemma decimal_range s : forall acc n, 0 <= acc < 2 ^ 64 -> decimal acc s = Some n -> 0 <= n < 2 ^ 64.
Proof.
  induction s as [|c s IH]; simpl; intros acc n Ha H; [by simplify_eq|].
  case_match eqn:E; [|done]. apply (IH _ _) in H; [done|].
  apply andb_true_iff in E as [[??]%andb_true_iff ?]. lia.
Qed.

#[export] Instance c_locale_laws : BoostLaws c_locale.
Proof.
  split; try done. intros [|c s] n; [done|]. apply decimal_range. lia.
Qed.

(** ** The laws at work *)

Lemma split_at_spec sep s a b : split_at sep s = Some (a, b) <-> s = a ++ sep :: b /\ (sep ∉ a).
Proof.
  revert a. induction s as [|c s IH]; intros a; simpl.
  - split; [done|]. intros [H _]. by destruct a.
  - case_bool_decide as E; [subst c|].
    + split; [intros [= <- <-]; split; [done|by apply not_elem_of_nil]|].
      intros [H Hn]. destruct a as [|x a]; simplify_eq/=; [done|]. destruct Hn. constructor.
    + destruct (split_at sep s) as [[a' b']|].
      * split.
        -- intros [= <- <-]. destruct (proj1 (IH a') eq_refl) as [-> Hn].
           split; [done|]. by intros [?|?]%elem_of_cons.
        -- intros [H Hn]. destruct a as [|x a]; simplify_eq/=.
           assert (sep ∉ a) as Ha by (intros ?; apply Hn; by constructor).
           pose proof (proj2 (IH a) (conj eq_refl Ha)). by simplify_eq.
      * split; [done|]. intros [H Hn]. destruct a as [|x a]; simplify_eq/=.
        assert (sep ∉ a) as Ha by (intros ?; apply Hn; by constructor).
        by pose proof (proj2 (IH a) (conj eq_refl Ha)).
Qed.

Lemma skip_space_id s : (forall c s', s = c :: s' -> isspace c = false) -> skip_space s = s.
Proof. destruct s as [|c s]; [done|]. intros H. simpl. by rewrite (H c s). Qed.

Lemma skip_space_app a b : Forall (fun c => isspace c = true) a -> skip_space (a ++ b) = skip_space b.
Proof. induction 1 as [|c a Hc _ IH]; [done|]. simpl. by rewrite Hc. Qed.

Lemma skip_space_length s : (length (skip_space s) <= length s)%nat.
Proof. induction s as [|c s IH]; simpl; [done|]. case_match; simpl; lia. Qed.

(** Text that skipping blanks leaves alone starts with none. *)
Lemma skip_space_head c s : skip_space (c :: s) = c :: s -> isspace c = false.
Proof.
  simpl. destruct (isspace c); [|done]. intros H. apply (f_equal length) in H.
  pose proof (skip_space_length s). simpl in H. lia.
Qed.

Lemma skip_space_clean_app s t : s <> [] -> skip_space s = s -> skip_space (s ++ t) = s ++ t.
Proof.
  destruct s as [|c s]; [done|]. intros _ H%skip_space_head. simpl. by rewrite H.
Qed.
