(* ===== verification/UrlEncode.v ===== *)
(** * Percent encoding ([utils/url_encode.cpp])

    [UrlEncodeBase] and [UrlUnencodeBase] with both of their passes, the [%02X]
    conversion of the encoder and the [%hx] conversion of the decoder (which, as
    the C standard defines it, skips white space, takes an optional sign and an
    optional [0x], and stops at the first character that is no digit). *)
From S2P Require Import Prelude.

Open Scope Z_scope.


(** [utils/url_encode.cpp:19-23 PlusEncode] *)
Inductive PlusEncode := PlusNo | PlusYes.

(** Character comparisons are on [char]; the characters above 127 are negative
    there and fail every test, as they do here.
    [utils/url_encode.cpp:25-38 RequiresPercentEncoding] *)
Definition RequiresPercentEncoding (ch : ascii) : bool :=
  let x := byteZ ch in
  if ((0x41 <=? x) && (x <=? 0x5A)) || ((0x61 <=? x) && (x <=? 0x7A))
     || ((0x30 <=? x) && (x <=? 0x39))
     || (x =? 0x2D) || (x =? 0x5F) || (x =? 0x2E) || (x =? 0x7E)
  then false else true.

Definition hex_digit (n : Z) : ascii :=
  nth (Z.to_nat n) (B "0123456789ABCDEF") "0"%char.

(** [snprintf("%02X", (unsigned char)c)] *)
Definition hex2 (c : ascii) : str := [hex_digit (byteZ c / 16); hex_digit (byteZ c mod 16)].

(** [utils/url_encode.cpp:40-76 UrlEncodeBase] *)
Fixpoint UrlEncodeBase (plus : PlusEncode) (unencoded : str) : str :=
  match unencoded with
  | [] => []
  | c :: rest =>
      (if negb (RequiresPercentEncoding c) then [c]
       else match plus with
            | PlusYes => if decide (c = " "%char) then ["+"%char] else "%"%char :: hex2 c
            | PlusNo => "%"%char :: hex2 c
            end) ++ UrlEncodeBase plus rest
  end.

(** [isspace] in the C locale. *)
Definition isspace (c : ascii) : bool :=
  let x := byteZ c in (x =? 0x20) || ((0x09 <=? x) && (x <=? 0x0D)).

Definition hex_value (c : ascii) : option Z :=
  let x := byteZ c in
  if (0x30 <=? x) && (x <=? 0x39) then Some (x - 0x30)
  else if (0x41 <=? x) && (x <=? 0x46) then Some (x - 0x37)
  else if (0x61 <=? x) && (x <=? 0x66) then Some (x - 0x57)
  else None.

Fixpoint skip_spaces (s : str) : str :=
  match s with c :: r => if isspace c then skip_spaces r else s | [] => [] end.

(** The C string in [buf]: up to its NUL. *)
Fixpoint c_string (s : str) : str :=
  match s with c :: r => if decide (c = ascii_of_N 0) then [] else c :: c_string r | [] => [] end.

(** The digits read so far ([Some]: at least one), and where the scan stops. *)
Fixpoint hex_digits (s : str) (acc : option Z) : option Z :=
  match s with
  | c :: r => match hex_value c with
              | Some v => hex_digits r (Some (16 * default 0 acc + v))
              | None => acc
              end
  | [] => acc
  end.

(** [sscanf(buf, "%hx", &ch) == 1]: the value stored in [ch], a [short].
    A bare "0x" is the prefix of a number but no number: a matching failure. *)
Definition scan_hx (buf : str) : option Z :=
  let s := skip_spaces (c_string buf) in
  let '(neg, s) := match s with
                   | c :: r => if decide (c = "-"%char) then (true, r)
                               else if decide (c = "+"%char) then (false, r) else (false, s)
                   | [] => (false, s) end in
  let s := match s with
           | z :: x :: r => if decide (z = "0"%char) then
                              if decide (x = "x"%char \/ x = "X"%char) then r else s
                            else s
           | _ => s end in
  match hex_digits s None with
  | Some v => Some (if neg : bool then - v else v)
  | None => None
  end.

(** First pass of the decoder: each [%] is followed by two characters.
    [utils/url_encode.cpp:85-110 UrlUnencodeBase] *)
Fixpoint escapes_complete (s : str) : bool :=
  match s with
  | [] => true
  | c :: r =>
      if decide (c = "%"%char) then
        match r with _ :: _ :: r' => escapes_complete r' | _ => false end
      else escapes_complete r
  end.

(** Second pass: decode.  [static_cast<char>(ch)] keeps the low byte.
    [utils/url_encode.cpp:114-146 UrlUnencodeBase] *)
Fixpoint unencode_loop (s : str) : option str :=
  match s with
  | [] => Some []
  | c :: r =>
      if decide (c = "%"%char) then
        match r with
        | b0 :: b1 :: r' =>
            match scan_hx [b0; b1] with
            | Some ch => option_map (cons (Zbyte ch)) (unencode_loop r')
            | None => None
            end
        | _ => None
        end
      else if decide (c = "+"%char) then option_map (cons " "%char) (unencode_loop r)
      else if RequiresPercentEncoding c then None
      else option_map (cons c) (unencode_loop r)
  end.

(** [utils/url_encode.cpp:77-147 UrlUnencodeBase] *)
Definition UrlUnencodeBase (encoded : str) : option str :=
  if escapes_complete encoded then unencode_loop encoded else None.

(** [utils/url_encode.cpp:154-164 percent] *)
Definition percent_Encode (s : str) : str := UrlEncodeBase PlusNo s.
(** [utils/url_encode.cpp:159-164 percent] *)
Definition percent_Decode (s : str) : option str := UrlUnencodeBase s.
(** [utils/url_encode.cpp:167-171 percent_plus] *)
Definition percent_plus_Encode (s : str) : str := UrlEncodeBase PlusYes s.
(** [utils/url_encode.cpp:173-179 percent_plus] *)
Definition percent_plus_Decode (s : str) : option str := UrlUnencodeBase s.

(** ** One character *)

(** A character that stands for itself in an encoded string. *)
Definition plain (c : ascii) : Prop :=
  RequiresPercentEncoding c = false.

Lemma plain_not_special c : plain c -> c <> "%"%char /\ c <> "+"%char /\ c <> "&"%char
  /\ c <> "="%char /\ c <> "?"%char /\ c <> "#"%char.
Proof. unfold plain. by_all_bytes c. Qed.

Lemma scan_hex2 c : option_map Zbyte (scan_hx (hex2 c)) = Some c.
Proof. by_all_bytes c. Qed.

Lemma hex2_plain c : Forall plain (hex2 c).
Proof.
  assert (forallb (fun c => negb (RequiresPercentEncoding c)) (hex2 c) = true) as H
    by by_all_bytes c.
  apply List.Forall_forall. intros x Hx. rewrite forallb_forall in H.
  specialize (H x Hx). unfold plain. by destruct (RequiresPercentEncoding x).
Qed.

(** The encoding of one character. *)
Definition enc1 (plus : PlusEncode) (c : ascii) : str := UrlEncodeBase plus [c].

Lemma UrlEncodeBase_cons plus c s :
  UrlEncodeBase plus (c :: s) = enc1 plus c ++ UrlEncodeBase plus s.
Proof. unfold enc1. simpl. by rewrite app_nil_r. Qed.

Lemma UrlEncodeBase_app plus s1 s2 :
  UrlEncodeBase plus (s1 ++ s2) = UrlEncodeBase plus s1 ++ UrlEncodeBase plus s2.
Proof.
  induction s1 as [|c s1 IH]; [done|]. rewrite <-app_comm_cons, !UrlEncodeBase_cons, IH.
  apply app_assoc.
Qed.

(** The three forms of an encoded character. *)
Lemma enc1_cases plus c :
  (plain c /\ enc1 plus c = [c])
  \/ (c = " "%char /\ plus = PlusYes /\ enc1 plus c = ["+"%char])
  \/ enc1 plus c = "%"%char :: hex2 c.
Proof.
  unfold enc1, plain. simpl. rewrite app_nil_r.
  destruct (RequiresPercentEncoding c); simpl; [|auto].
  destruct plus; [auto|]. case_decide; auto.
Qed.

Lemma escapes_complete_enc1 plus c s :
  escapes_complete (enc1 plus c ++ s) = escapes_complete s.
Proof.
  destruct (enc1_cases plus c) as [[Hp ->]|[(-> & -> & ->)| ->]]; [|done|done].
  apply plain_not_special in Hp as [? _]. simpl. by rewrite decide_False.
Qed.

Lemma unencode_enc1 plus c s :
  unencode_loop (enc1 plus c ++ s) = option_map (cons c) (unencode_loop s).
Proof.
  destruct (enc1_cases plus c) as [[Hp ->]|[(-> & -> & ->)| ->]].
  - pose proof (plain_not_special c Hp) as (? & ? & _). simpl.
    rewrite !decide_False by done. by rewrite Hp.
  - done.
  - pose proof (scan_hex2 c) as H. simpl in *.
    unfold hex2 in H. destruct (scan_hx _) as [v|]; [|done].
    by simplify_eq/=.
Qed.

(** ** Properties *)

(** Decoding inverts encoding, for every byte string and in both the query
    ([percent]) and the form ([percent_plus]) variant. *)
Theorem unencode_encode plus s : UrlUnencodeBase (UrlEncodeBase plus s) = Some s.
Proof.
  unfold UrlUnencodeBase.
  assert (escapes_complete (UrlEncodeBase plus s) = true) as ->.
  { induction s as [|c s IH]; [done|]. by rewrite UrlEncodeBase_cons, escapes_complete_enc1. }
  induction s as [|c s IH]; [done|]. by rewrite UrlEncodeBase_cons, unencode_enc1, IH.
Qed.

(** What the encoder writes is made of unreserved characters, percent signs and
    (form variant only) plus signs: no query or path separator survives, so the
    pieces of a query assembled from encoded values cannot be confused. *)
Theorem encode_charset plus s c :
  In c (UrlEncodeBase plus s) ->
  plain c \/ c = "%"%char \/ (c = "+"%char /\ plus = PlusYes).
Proof.
  induction s as [|x s IH]; [done|]. rewrite UrlEncodeBase_cons, in_app_iff.
  intros [H|H]; [|auto].
  destruct (enc1_cases plus x) as [[Hp E]|[(-> & -> & E)|E]]; rewrite E in H; simpl in H.
  - destruct H as [<-|[]]; auto.
  - destruct H as [<-|[]]; auto.
  - destruct H as [<-|H]; [auto|]. left.
    pose proof (hex2_plain x) as F. rewrite List.Forall_forall in F. auto.
Qed.

Lemma encode_charset_witness :
  In "%"%char (UrlEncodeBase PlusNo (B "a b&c")) /\
  (plain "%" \/ "%"%char = "%"%char \/ ("%"%char = "+"%char /\ PlusNo = PlusYes)).
Proof.
  assert (H : In "%"%char (UrlEncodeBase PlusNo (B "a b&c"))) by (vm_compute; tauto).
  split; [exact H|exact (encode_charset PlusNo (B "a b&c") "%"%char H)].
Defined.

(** An escape the decoder takes although it is no pair of hexadecimal digits:
    [%hx] stops at the [g] and returns 1. *)
Example decode_accepts_bad_escape : percent_Decode (B "%1g") = Some [ascii_of_N 1].
Proof. reflexivity. Qed.
Example decode_accepts_negative_escape : percent_Decode (B "%-1") = Some [ascii_of_N 255].
Proof. reflexivity. Qed.

