(* ===== verification/Stepping.v ===== *)
(** * Chunk sizes and chunk ranges of an upload ([uploader/detail/stepping.cpp])

    Arithmetic is on [uint64_t]: every product and shift wraps at [2^64].  The two
    loops carry fuel; running out of it is [None], so a [Some] is a loop that
    stopped by its own condition. *)
From S2P Require Import Prelude.

Open Scope Z_scope.


(** [uploader/detail/stepping.cpp:14-14 MaxStepping] *)
Definition MaxStepping : Z := 7.

(** [uploader/detail/stepping.hpp:18-27 MB_helper] *)
Definition MB (n : Z) : Z := n * 1024 * 1024.

(** [uploader/detail/stepping.cpp:16-26 SteppingMinFileSize] *)
Definition SteppingMinFileSize (stepping : Z) : Z :=
  if stepping =? 0 then 0
  else u64 (Z.shiftl (MB 4) (u32 ((stepping - 1) * 2))).

(** [uploader/detail/stepping.cpp:34-39 ThresholdStepping] *)
Fixpoint ThresholdStepping_loop (fuel : nat) (filesize stepping limit : Z) : option Z :=
  if (limit <=? filesize) && (stepping <? MaxStepping) then
    match fuel with
    | O => None
    | S fuel =>
        let stepping := stepping + 1 in
        ThresholdStepping_loop fuel filesize stepping (SteppingMinFileSize (stepping + 1))
    end
  else Some stepping.

(** Eight iterations are more than [MaxStepping] allows.
    [uploader/detail/stepping.cpp:28-42 ThresholdStepping] *)
Definition ThresholdStepping (filesize : Z) : option Z :=
  ThresholdStepping_loop 8 filesize 0 (SteppingMinFileSize 1).

(** [uploader/detail/stepping.cpp:44-56 ChunkMaxSize] *)
Definition ChunkMaxSize (filesize : Z) : option Z :=
  match ThresholdStepping filesize with
  | Some threshold_stepping =>
      Some (if threshold_stepping =? 0 then 1024 * 1024 * 4
            else u64 (1024 * 1024 * u64 (Z.shiftl 1 (threshold_stepping - 1))))
  | None => None
  end.

(** [uploader/detail/stepping.cpp:68-79 ChunkRanges] *)
Fixpoint ChunkRanges_loop (fuel : nat) (chunk_size filesize current_end current_chunk : Z)
    (ranges : list (Z * Z)) : option (list (Z * Z)) :=
  if current_end <? filesize then
    match fuel with
    | O => None
    | S fuel =>
        let current_start := current_end in
        let current_end := Z.min (u64 (chunk_size * u64 (current_chunk + 1))) filesize in
        ChunkRanges_loop fuel chunk_size filesize current_end (u64 (current_chunk + 1))
          (ranges ++ [(current_start, current_end)])
    end
  else Some ranges.

(** [uploader/detail/stepping.cpp:59-82 ChunkRanges] *)
Definition ChunkRanges (fuel : nat) (filesize : Z) : option (list (Z * Z)) :=
  match ChunkMaxSize filesize with
  | Some chunk_size => ChunkRanges_loop fuel chunk_size filesize 0 0 []
  | None => None
  end.

(** ** Thresholds *)

(** The unit size of a stepping, and the file sizes the stepping is for. *)
Definition unit_size (s : Z) : Z := if s =? 0 then 2 ^ 22 else 2 ^ (20 + (s - 1)).

Lemma SteppingMinFileSize_pow s : 1 <= s <= 8 -> SteppingMinFileSize s = 2 ^ (22 + 2 * (s - 1)).
Proof.
  intros Hs.
  assert (s = 1 \/ s = 2 \/ s = 3 \/ s = 4 \/ s = 5 \/ s = 6 \/ s = 7 \/ s = 8)
    as [-> | [-> | [-> | [-> | [-> | [-> | [-> | ->]]]]]]] by lia; reflexivity.
Qed.

Lemma ThresholdStepping_loop_spec fuel filesize s :
  0 <= s <= 7 -> 0 <= filesize -> 7 - s <= Z.of_nat fuel ->
  SteppingMinFileSize s <= filesize ->
  exists r, ThresholdStepping_loop fuel filesize s (SteppingMinFileSize (s + 1)) = Some r
    /\ 0 <= r <= 7 /\ SteppingMinFileSize r <= filesize
    /\ (r < 7 -> filesize < SteppingMinFileSize (r + 1)).
Proof.
  revert s. induction fuel as [|fuel IH]; intros s Hs Hf Hfuel Hmin; simpl;
    destruct ((SteppingMinFileSize (s + 1) <=? filesize) && (s <? MaxStepping)) eqn:E;
    rewrite ?andb_true_iff, ?andb_false_iff, ?Z.leb_le, ?Z.ltb_lt, ?Z.leb_gt, ?Z.ltb_ge in E;
    unfold MaxStepping in E.
  - lia.
  - exists s. split_and!; [done|lia..].
  - apply (IH (s + 1)); lia.
  - exists s. split_and!; [done|lia..].
Qed.

(** The stepping of a file is the largest one, up to 7, whose minimum size the
    file reaches; the loop always stops within its fuel. *)
Theorem ThresholdStepping_correct filesize :
  0 <= filesize ->
  exists s, ThresholdStepping filesize = Some s /\ 0 <= s <= 7
    /\ SteppingMinFileSize s <= filesize
    /\ (s < 7 -> filesize < SteppingMinFileSize (s + 1)).
Proof. intros H. apply (ThresholdStepping_loop_spec 8 filesize 0); try lia. done. Qed.

Lemma ThresholdStepping_correct_witness :
  0 <= 20000000 /\
  exists s, ThresholdStepping 20000000 = Some s /\ 0 <= s <= 7
    /\ SteppingMinFileSize s <= 20000000
    /\ (s < 7 -> 20000000 < SteppingMinFileSize (s + 1)).
Proof. split; [lia|]. apply (ThresholdStepping_correct 20000000). lia. Defined.

Lemma ChunkMaxSize_unit filesize :
  0 <= filesize ->
  exists s, ChunkMaxSize filesize = Some (unit_size s) /\ 0 <= s <= 7
    /\ SteppingMinFileSize s <= filesize
    /\ (s < 7 -> filesize < SteppingMinFileSize (s + 1)).
Proof.
  intros H. destruct (ThresholdStepping_loop_spec 8 filesize 0) as (s & E & Hs & Hrest);
    [lia..|done|].
  exists s. split; [|done]. change (0 + 1) with 1 in E.
  unfold ChunkMaxSize, ThresholdStepping. rewrite E. f_equal.
  assert (s = 0 \/ s = 1 \/ s = 2 \/ s = 3 \/ s = 4 \/ s = 5 \/ s = 6 \/ s = 7)
    as [-> | [-> | [-> | [-> | [-> | [-> | [-> | ->]]]]]]] by lia; reflexivity.
Qed.

Lemma unit_size_bounds s : 0 <= s <= 7 -> 2 ^ 20 <= unit_size s <= 2 ^ 26.
Proof.
  intros Hs. assert (s = 0 \/ s = 1 \/ s = 2 \/ s = 3 \/ s = 4 \/ s = 5 \/ s = 6 \/ s = 7)
    as [-> | [-> | [-> | [-> | [-> | [-> | [-> | ->]]]]]]] by lia; vm_compute; split; discriminate.
Qed.

(** Every unit is a whole number of 8 KiB read buffers. *)
Lemma unit_size_divides s : 0 <= s <= 7 -> (1024 * 8 | unit_size s).
Proof.
  intros Hs. assert (s = 0 \/ s = 1 \/ s = 2 \/ s = 3 \/ s = 4 \/ s = 5 \/ s = 6 \/ s = 7)
    as [-> | [-> | [-> | [-> | [-> | [-> | [-> | ->]]]]]]] by lia;
    apply Z.mod_divide; done.
Qed.

(** ** The ranges *)

(** The [i]-th range of a file cut into units of [c] bytes. *)
Definition nth_range (c filesize : Z) (i : nat) : Z * Z :=
  (c * Z.of_nat i, Z.min (c * (Z.of_nat i + 1)) filesize).

(** The number of units: the quotient, rounded up. *)
Definition unit_count (c filesize : Z) : nat := Z.to_nat ((filesize + c - 1) / c).

Lemma ChunkRanges_loop_spec fuel c filesize k :
  0 < c < 2 ^ 64 -> 0 <= filesize -> filesize + c <= 2 ^ 64 ->
  (k <= unit_count c filesize <= k + fuel)%nat ->
  ChunkRanges_loop fuel c filesize (Z.min (c * Z.of_nat k) filesize) (Z.of_nat k)
    (nth_range c filesize <$> seq 0 k)
  = Some (nth_range c filesize <$> seq 0 (unit_count c filesize)).
Proof.
  intros Hc Hf Hov. unfold unit_count. set (n := (filesize + c - 1) / c).
  assert (c * (n - 1) < filesize \/ n = 0) as Hn1 by (subst n; destruct (decide (filesize = 0));
    [right; apply Z.div_small; lia|left; Z.div_mod_to_equations; nia]).
  assert (filesize <= c * n) as Hn2 by (subst n; Z.div_mod_to_equations; nia).
  assert (0 <= n) as Hn0 by (apply Z.div_pos; lia). clearbody n.
  revert k. induction fuel as [|fuel IH]; intros k Hk.
  - assert (Z.of_nat k = n) as Hkn by lia. simpl. rewrite Hkn.
    rewrite (proj2 (Z.ltb_ge _ _)) by lia. do 3 f_equal. lia.
  - simpl. destruct (decide (Z.of_nat k = n)) as [Hkn|Hkn].
    + rewrite Hkn, (proj2 (Z.ltb_ge _ _)) by lia. do 3 f_equal. lia.
    + assert (c * Z.of_nat k < filesize) by nia.
      rewrite (proj2 (Z.ltb_lt _ _)) by lia.
      assert (u64 (Z.of_nat k + 1) = Z.of_nat (S k)) as -> by (rewrite u64_small; nia).
      assert (u64 (c * Z.of_nat (S k)) = c * Z.of_nat (S k) \/
              c * Z.of_nat (S k) = 2 ^ 64) as [->|Hbad]
        by (destruct (decide (c * Z.of_nat (S k) = 2 ^ 64)); [auto|left; apply u64_small; nia]).
      2: { exfalso. nia. }
      rewrite Z.min_l with (n := c * Z.of_nat k) by lia.
      replace ((nth_range c filesize <$> seq 0 k) ++ _)
        with (nth_range c filesize <$> seq 0 (S k)).
      * apply IH. lia.
      * rewrite seq_S, fmap_app. cbn [Nat.add fmap list_fmap]. f_equal.
        unfold nth_range. rewrite Nat2Z.inj_succ. unfold Z.succ. done.
Qed.

(** The closed form of [ChunkRanges]: unit [i] is [c*i, min(c*(i+1), filesize)). *)
Lemma ChunkRanges_closed filesize fuel :
  0 <= filesize <= 2 ^ 64 - 2 ^ 26 ->
  exists c, ChunkMaxSize filesize = Some c /\ 2 ^ 20 <= c <= 2 ^ 26 /\
    ((unit_count c filesize <= fuel)%nat ->
     ChunkRanges fuel filesize = Some (nth_range c filesize <$> seq 0 (unit_count c filesize))).
Proof.
  intros Hf. destruct (ChunkMaxSize_unit filesize) as (s & E & Hs & _); [lia|].
  pose proof (unit_size_bounds s Hs). exists (unit_size s). split_and!; [done|lia..|].
  intros Hfuel. unfold ChunkRanges. rewrite E.
  pose proof (ChunkRanges_loop_spec fuel (unit_size s) filesize 0) as HL.
  rewrite Z.mul_0_r, Z.min_l in HL by lia. apply HL; lia.
Qed.

(** A unit has at least one mebibyte. *)
Definition chunk_fuel (size : Z) : nat := Z.to_nat (size / 2 ^ 20 + 1).

Lemma unit_count_fuel c size :
  2 ^ 20 <= c -> 0 <= size -> (unit_count c size <= chunk_fuel size)%nat.
Proof.
  intros Hc Hs. unfold chunk_fuel, unit_count. apply Z2Nat.inj_le; [apply Z.div_pos; lia| |].
  - pose proof (Z.div_pos size (2 ^ 20) Hs ltac:(done)). lia.
  - rewrite <-Z.add_sub_assoc. transitivity (size / c + 1).
    + assert ((size + (c - 1)) / c < size / c + 2); [|lia]. Z.div_mod_to_equations; nia.
    + enough (size / c <= size / 2 ^ 20) by lia. apply Z.div_le_compat_l; lia.
Qed.

(** The fuel for the ranges is enough for every size they can be computed for. *)
Lemma chunk_fuel_enough size :
  0 <= size <= 2 ^ 64 - 2 ^ 26 -> exists ranges, ChunkRanges (chunk_fuel size) size = Some ranges.
Proof.
  intros Hs. destruct (ChunkRanges_closed size (chunk_fuel size) Hs) as (c & _ & Hc & Hr).
  eexists. apply Hr, unit_count_fuel; lia.
Qed.

(** What a lookup in the closed form says. *)
Lemma closed_ranges_lookup c filesize i b e :
  0 < c -> 0 <= filesize ->
  (nth_range c filesize <$> seq 0 (unit_count c filesize)) !! i = Some (b, e) ->
  b = c * Z.of_nat i /\ b < e <= filesize /\ ((c | e) \/ e = filesize) /\
  match (nth_range c filesize <$> seq 0 (unit_count c filesize)) !! S i with
  | Some (b', _) => b' = e /\ e - b = c
  | None => e = filesize
  end.
Proof.
  intros Hc Hf Hi. apply list_lookup_fmap_Some in Hi as (j & Hr & Hj).
  apply lookup_seq in Hj as [-> Hj]. simpl in Hr. unfold nth_range in Hr. simplify_eq.
  unfold unit_count in *. set (n := (filesize + c - 1) / c) in *.
  assert (c * (n - 1) < filesize <= c * n) as Hn by
    (assert (0 < n) by lia; subst n; Z.div_mod_to_equations; nia).
  split; [done|]. split; [nia|]. split.
  - destruct (Z.min_spec (c * (Z.of_nat i + 1)) filesize) as [[_ ->]|[_ ->]]; [left|by right].
    exists (Z.of_nat i + 1). lia.
  - rewrite list_lookup_fmap. destruct (decide (S i < Z.to_nat n)%nat).
    + rewrite lookup_seq_lt by lia. simpl. rewrite Z.min_l by nia. split; lia.
    + rewrite lookup_seq_ge by lia. simpl. nia.
Qed.

(** For every file up to [2^64 - 2^26] bytes the range computation stops, in as
    many iterations as there are units, and cuts [0, filesize) into consecutive
    non-empty half-open ranges: the first starts at 0, each starts where the one
    before ends, the last ends at the file size, and all but the last have exactly
    the unit size. *)
Theorem ChunkRanges_partition filesize :
  0 <= filesize <= 2 ^ 64 - 2 ^ 26 ->
  exists c ranges, ChunkMaxSize filesize = Some c /\
    ChunkRanges (length ranges) filesize = Some ranges /\
    (filesize = 0 -> ranges = []) /\
    (forall i b e, ranges !! i = Some (b, e) ->
       b = c * Z.of_nat i /\ b < e <= filesize /\
       match ranges !! S i with
       | Some (b', _) => b' = e /\ e - b = c
       | None => e = filesize
       end) /\
    (forall x, 0 <= x < filesize -> exists i b e, ranges !! i = Some (b, e) /\ b <= x < e).
Proof.
  intros Hf. destruct (ChunkRanges_closed filesize) with
    (fuel := unit_count (default 0 (ChunkMaxSize filesize)) filesize) as (c & E & Hc & H); [done|].
  rewrite E in H. simpl in H. specialize (H (le_n _)).
  exists c, (nth_range c filesize <$> seq 0 (unit_count c filesize)).
  split_and!; [done|by rewrite length_fmap, length_seq| | |].
  - intros ->. unfold unit_count. rewrite Z.div_small by lia. done.
  - intros i b e Hi. apply closed_ranges_lookup in Hi as (? & ? & _ & ?); [|lia..].
    auto.
  - intros x Hx. unfold unit_count.
    assert (0 <= x / c) by (apply Z.div_pos; lia).
    assert (c * (x / c) <= x < c * (x / c + 1)) as Hd by (Z.div_mod_to_equations; nia).
    assert (x / c < (filesize + c - 1) / c) by (Z.div_mod_to_equations; nia).
    exists (Z.to_nat (x / c)). eexists _, _. rewrite list_lookup_fmap, lookup_seq_lt by lia.
    simpl. unfold nth_range. rewrite Z2Nat.id by lia. split; [done|]. lia.
Qed.

Lemma ChunkRanges_partition_witness :
  0 <= 9000000 <= 2 ^ 64 - 2 ^ 26 /\
  exists c ranges, ChunkMaxSize 9000000 = Some c /\
    ChunkRanges (length ranges) 9000000 = Some ranges /\
    (9000000 = 0 -> ranges = []) /\
    (forall i b e, ranges !! i = Some (b, e) ->
       b = c * Z.of_nat i /\ b < e <= 9000000 /\
       match ranges !! S i with
       | Some (b', _) => b' = e /\ e - b = c
       | None => e = 9000000
       end) /\
    (forall x, 0 <= x < 9000000 -> exists i b e, ranges !! i = Some (b, e) /\ b <= x < e).
Proof. split; [lia|]. apply (ChunkRanges_partition 9000000). lia. Defined.

Lemma ChunkRanges_loop_diverges fuel filesize k ranges :
  2 ^ 64 - 2 ^ 26 < filesize < 2 ^ 64 ->
  ChunkRanges_loop fuel (2 ^ 26) filesize (u64 (2 ^ 26 * k)) k ranges = None.
Proof.
  intros Hf. revert k ranges.
  assert (forall k, u64 (2 ^ 26 * k) < filesize) as Hlt.
  { intros k. unfold u64. replace (2 ^ 64) with (2 ^ 26 * 2 ^ 38) by done.
    rewrite Z.mul_mod_distr_l by lia. pose proof (Z.mod_pos_bound k (2 ^ 38)). lia. }
  induction fuel as [|fuel IH]; intros k ranges; simpl;
    rewrite (proj2 (Z.ltb_lt _ _)) by apply Hlt; [done|].
  assert (u64 (2 ^ 26 * u64 (k + 1)) = u64 (2 ^ 26 * u64 (u64 (k + 1)))) as E
    by (unfold u64; by rewrite Z.mod_mod).
  rewrite Z.min_l by (apply Z.lt_le_incl, Hlt). apply IH.
Qed.

(** Past [2^64 - 2^26] bytes the 64-bit product that gives the end of a unit
    wraps to 0 before the file size is reached, and the loop never stops. *)
Theorem ChunkRanges_diverges_at_the_top filesize fuel :
  2 ^ 64 - 2 ^ 26 < filesize < 2 ^ 64 -> ChunkRanges fuel filesize = None.
Proof.
  intros Hf. destruct (ChunkMaxSize_unit filesize) as (s & E & Hs & _ & Hr); [lia|].
  unfold ChunkRanges. rewrite E.
  assert (s = 7) as ->.
  { destruct (decide (s = 7)); [done|]. specialize (Hr ltac:(lia)).
    rewrite SteppingMinFileSize_pow in Hr by lia.
    assert (2 ^ (22 + 2 * (s + 1 - 1)) <= 2 ^ 34) by (apply Z.pow_le_mono_r; lia). lia. }
  exact (ChunkRanges_loop_diverges fuel filesize 0 [] Hf).
Qed.

Lemma ChunkRanges_diverges_at_the_top_witness :
  2 ^ 64 - 2 ^ 26 < 2 ^ 64 - 1 < 2 ^ 64 /\ ChunkRanges 100 (2 ^ 64 - 1) = None.
Proof. split; [lia|]. apply (ChunkRanges_diverges_at_the_top (2 ^ 64 - 1) 100). lia. Defined.

