(* ===== verification/HashReader.v ===== *)
(** * Hashing a file for upload ([uploader/detail/hasher_transitions.*])

    SHA-256 is OpenSSL's, not the SDK's: the incremental hasher is a parameter
    ([h0], [h_update], [h_digest]) with the law of every incremental hash, that
    updating with two pieces is updating with their concatenation.  File positions
    are below [2^63] ([off_t]), so their sums do not wrap and are plain [Z].

    [ParseRead] is the function that splits what was read into the chunks of the
    upload; [ReadFile] is one step of the reading loop; [hash_file] runs the loop on
    a file that does not change. *)
From S2P Require Import Prelude Errors Stepping.

Open Scope Z_scope.


Section Hasher.
Context {H D : Type} (h0 : H) (h_update : H -> str -> H) (h_digest : H -> D).

(** [uploader/detail/hasher_events.hpp:23-36 HasherStateData_] *)
Record HasherState := {
  filesize : Z;
  mtime : Z;
  primary_hasher : H;
  chunk_hasher : H;
  chunk_ranges : list (Z * Z);
  chunk_hashes : list D }.

Inductive ParseResult :=
  | Parsed (st : HasherState) (total : Z)
  | OutOfRange        (** [chunk_ranges.at()] throws *)
  | AssertFailed      (** [assert (read_start < chunk_range.second)] *)
  | OutOfFuel.

(** Each call consumes at least one byte before it recurses: [length buffer + 1]
    is enough fuel.
    [uploader/detail/hasher_transitions.cpp:13-80 ParseRead] *)
Fixpoint ParseRead (fuel : nat) (st : HasherState) (previous_total_bytes_read : Z)
    (buffer : str) : ParseResult :=
  let bytes_read := Z.of_nat (length buffer) in
  if bytes_read =? 0 then Parsed st previous_total_bytes_read
  else match fuel with
  | O => OutOfFuel
  | S fuel =>
    let current_chunk_num := length (chunk_hashes st) in
    let read_start := previous_total_bytes_read in
    let read_end := read_start + bytes_read in
    match chunk_ranges st !! current_chunk_num with
    | None => OutOfRange
    | Some (_, chunk_end) =>
      let primary := h_update (primary_hasher st) buffer in
      if negb (read_start <? chunk_end) then AssertFailed
      else if read_end <? chunk_end then
        Parsed {| filesize := filesize st; mtime := mtime st; primary_hasher := primary;
                  chunk_hasher := h_update (chunk_hasher st) buffer;
                  chunk_ranges := chunk_ranges st; chunk_hashes := chunk_hashes st |}
               (previous_total_bytes_read + bytes_read)
      else
        let bytes_to_first_chunk := chunk_end - read_start in
        let unparsed_bytes := bytes_read - bytes_to_first_chunk in
        let n := Z.to_nat bytes_to_first_chunk in
        let st' := {| filesize := filesize st; mtime := mtime st; primary_hasher := primary;
             chunk_hasher := h0; chunk_ranges := chunk_ranges st;
             chunk_hashes := chunk_hashes st
               ++ [h_digest (h_update (chunk_hasher st) (take n buffer))] |} in
        let new_total_bytes_read := previous_total_bytes_read + bytes_to_first_chunk in
        if 0 <? unparsed_bytes
        then ParseRead fuel st' new_total_bytes_read (drop n buffer)
        else Parsed st' new_total_bytes_read
    end
  end.

(** ** One step of the reading loop *)

(** What the file system says of the file: its mtime and its size, or an error. *)
Record Stat := { st_mtime : Z + error_code; st_size : Z + error_code }.

(** [uploader/detail/hasher_events.hpp:39-63 Error] *)
Inductive hash_event :=
  | ReadNext (st : HasherState) (read_byte_pos : Z)
  | HashSuccess (st : HasherState) (sha256_hash : D)
  | HashError (ec : error_code)
  | Threw.            (** an exception leaves the handler: no event *)

(** The error event sent, if any; [None] when the file is unchanged.
    [uploader/detail/hasher_transitions.hpp:25-86 VerifyFileUnchanged] *)
Definition VerifyFileUnchanged (st : HasherState) (s : Stat) : option error_code :=
  match st_mtime s with
  | inr ec => Some ec
  | inl m =>
      if negb (m =? mtime st) then Some (file_error FileModified)
      else match st_size s with
           | inr ec => Some ec
           | inl n => if negb (n =? filesize st) then Some (file_error FileModified) else None
           end
  end.

Definition buf_size : Z := 1024 * 8.

(** [ReadNext] is handled with the file's state before the read, what the read
    returned, and the file's state after it.
    [uploader/detail/hasher_transitions.hpp:118-193 ReadFile] *)
Definition ReadFile (st : HasherState) (previous_total_bytes_read : Z)
    (before : Stat) (buffer : str) (ec : error_code) (after : Stat) : hash_event :=
  match VerifyFileUnchanged st before with
  | Some e => HashError e
  | None =>
    if decide (ec = file_error EndOfFile) then
      match ParseRead (S (length buffer)) st previous_total_bytes_read buffer with
      | Parsed st _ =>
          match VerifyFileUnchanged st after with
          | Some e => HashError e
          | None => HashSuccess st (h_digest (primary_hasher st))
          end
      | _ => Threw
      end
    else if is_error ec then HashError ec
    else
      match ParseRead (S (length buffer)) st previous_total_bytes_read buffer with
      | Parsed st total => ReadNext st total
      | _ => Threw
      end
  end.

(** [FileIO::Read] on an open file with contents [file], at position [pos]: a full
    read is no error, a short one is the end of the file.
    [utils/fileio.cpp:101-133 Read] *)
Definition FileIO_Read (file : str) (pos n : Z) : str * error_code :=
  let buffer := take (Z.to_nat n) (drop (Z.to_nat pos) file) in
  (buffer, if Z.of_nat (length buffer) =? n then no_error else file_error EndOfFile).

(** The loop of [ReadNext] events, on a file that nobody touches. *)
Fixpoint hash_loop (fuel : nat) (s : Stat) (file : str) (st : HasherState) (pos : Z)
    : option hash_event :=
  let '(buffer, ec) := FileIO_Read file pos buf_size in
  match ReadFile st pos s buffer ec s with
  | ReadNext st total =>
      match fuel with O => None | S fuel => hash_loop fuel s file st total end
  | e => Some e
  end.

(** The state a hasher starts from.
    [uploader/detail/upload_state_machine.hpp:286-299 on_entry] *)
Definition SetupHasher (ranges : list (Z * Z)) (size time : Z) : HasherState :=
  {| filesize := size; mtime := time; primary_hasher := h0; chunk_hasher := h0;
     chunk_ranges := ranges; chunk_hashes := [] |}.

(** [OpenFile] then the reading loop from position 0.
    [uploader/detail/hasher_transitions.hpp:88-116 OpenFile] *)
Definition hash_file (fuel : nat) (file : str) (time : Z) (ranges : list (Z * Z))
    : option hash_event :=
  let size := Z.of_nat (length file) in
  hash_loop fuel {| st_mtime := inl time; st_size := inl size |} file
    (SetupHasher ranges size time) 0.

(** ** Correctness *)

Hypothesis h_update_app : forall h a b, h_update (h_update h a) b = h_update h (a ++ b).
Hypothesis h_update_nil : forall h, h_update h [] = h.

(** The bytes [b, e) of a file. *)
Definition slice (b e : Z) (file : str) : str :=
  take (Z.to_nat (e - b)) (drop (Z.to_nat b) file).

(** Consecutive non-empty ranges that cover [0, len). *)
Definition contiguous (r : list (Z * Z)) (len : Z) : Prop :=
  (len = 0 -> r = []) /\ (0 < len -> exists e, r !! 0%nat = Some (0, e)) /\
  (forall i b e, r !! i = Some (b, e) -> 0 <= b < e /\ e <= len /\
     match r !! S i with Some (b', _) => b' = e | None => e = len end).

Definition range_hash (file : str) (r : Z * Z) : D :=
  h_digest (h_update h0 (slice (fst r) (snd r) file)).

Lemma contiguous_mono r len i j b e b' e' :
  contiguous r len -> r !! i = Some (b, e) -> r !! j = Some (b', e') -> (i < j)%nat -> e <= b'.
Proof.
  intros (_ & _ & Hr). revert b' e'. induction j as [|j IH]; intros b' e' Hi Hj Hij; [lia|].
  destruct (lookup_lt_is_Some_2 r j) as [[b1 e1] Hj1]; [apply lookup_lt_Some in Hj; lia|].
  destruct (Hr _ _ _ Hj1) as (? & ? & Hn). rewrite Hj in Hn. subst b'.
  destruct (decide (i = j)) as [->|]; [simplify_eq; lia|].
  specialize (IH b1 e1 Hi Hj1). lia.
Qed.

(** What the state holds after the first [p] bytes: the hashes of the chunks that
    end at or before [p], and the unfinished chunk's bytes so far. *)
Definition progress (file : str) (r : list (Z * Z)) (st : HasherState) (p : Z) : Prop :=
  let k := length (chunk_hashes st) in
  chunk_ranges st = r /\
  chunk_hashes st = range_hash file <$> take k r /\
  match r !! k with
  | Some (b, e) => b <= p < e /\ chunk_hasher st = h_update h0 (slice b p file)
  | None => p = Z.of_nat (length file)
  end.

Lemma slice_app b m e file :
  0 <= b <= m -> m <= e -> slice b m file ++ slice m e file = slice b e file.
Proof.
  intros ??. unfold slice.
  replace (Z.to_nat (e - b)) with (Z.to_nat (m - b) + Z.to_nat (e - m))%nat by lia.
  rewrite <-take_take_drop, drop_drop. do 3 f_equal. lia.
Qed.

Lemma slice_length b e file :
  0 <= b <= e -> e <= Z.of_nat (length file) -> Z.of_nat (length (slice b e file)) = e - b.
Proof. intros. unfold slice. rewrite length_take, length_drop. lia. Qed.

Lemma take_slice b m e file : 0 <= b <= m -> m <= e ->
  take (Z.to_nat (m - b)) (slice b e file) = slice b m file.
Proof. intros. unfold slice. rewrite take_take. f_equal. lia. Qed.

Lemma drop_slice b m e file : 0 <= b <= m -> m <= e ->
  drop (Z.to_nat (m - b)) (slice b e file) = slice m e file.
Proof.
  intros. unfold slice.
  replace (Z.to_nat (e - b)) with (Z.to_nat (m - b) + Z.to_nat (e - m))%nat by lia.
  rewrite <-take_drop_commute, drop_drop. do 2 f_equal. lia.
Qed.

(** No chunk ends strictly inside [p, q). *)
Definition no_boundary_inside (r : list (Z * Z)) (p q : Z) : Prop :=
  forall i b e, r !! i = Some (b, e) -> p < e -> q <= e.

Lemma progress_next_chunk file r st st' b e :
  contiguous r (Z.of_nat (length file)) ->
  progress file r st b -> r !! length (chunk_hashes st) = Some (b, e) ->
  chunk_ranges st' = r ->
  chunk_hashes st' = chunk_hashes st ++ [range_hash file (b, e)] ->
  chunk_hasher st' = h0 ->
  progress file r st' e.
Proof.
  intros (_ & _ & Hr) (_ & Hh & _) Hk Hr' Hh' Hc. destruct (Hr _ _ _ Hk) as (Hb & He & Hnext).
  split; [done|]. rewrite Hh', length_app. simpl.
  rewrite Nat.add_1_r. split.
  - rewrite (take_S_r _ _ (b, e)) by done. by rewrite fmap_app, <-Hh.
  - destruct (r !! S _) as [[b' e']|] eqn:Hk'; [|done]. subst b'.
    destruct (Hr _ _ _ Hk') as (? & _ & _). split; [lia|]. rewrite Hc.
    unfold slice. rewrite Z.sub_diag. simpl. by rewrite h_update_nil.
Qed.

(** [ParseRead] on the bytes [p, q) of the file moves the progress from [p] to [q],
    however the read is aligned with the chunks. *)
Lemma ParseRead_progress fuel file r st p q :
  contiguous r (Z.of_nat (length file)) ->
  progress file r st p -> 0 <= p <= q -> q <= Z.of_nat (length file) ->
  q - p < Z.of_nat fuel ->
  exists st', ParseRead fuel st p (slice p q file) = Parsed st' q
    /\ progress file r st' q /\ filesize st' = filesize st /\ mtime st' = mtime st
    /\ (no_boundary_inside r p q ->
        primary_hasher st' = h_update (primary_hasher st) (slice p q file)).
Proof.
  intros Hr. revert st p. induction fuel as [|fuel IH]; intros st p Hp Hpq Hq Hfuel; [lia|].
  cbn [ParseRead]. rewrite slice_length by lia.
  destruct (Z.eqb_spec (q - p) 0) as [E|E].
  { assert (p = q) as <- by lia. exists st. split_and!; try done.
    intros _. unfold slice. rewrite Z.sub_diag. simpl. by rewrite h_update_nil. }
  pose proof Hp as (Hrng & Hh & Hcur). rewrite Hrng.
  destruct (r !! length (chunk_hashes st)) as [[b e]|] eqn:Hk; [|lia].
  destruct Hcur as [Hbe Hc]. destruct (proj2 (proj2 Hr) _ _ _ Hk) as (? & ? & _).
  rewrite (proj2 (Z.ltb_lt _ _)) by lia. cbn [negb].
  destruct (Z.ltb_spec (p + (q - p)) e).
  - replace (p + (q - p)) with q by lia. eexists. split; [done|]. split_and!; try done.
    split; [done|]. split; [done|]. simpl. rewrite Hk. split; [lia|].
    by rewrite Hc, h_update_app, slice_app by lia.
  - rewrite take_slice, drop_slice, Hc, h_update_app, slice_app by lia.
    replace (p + (e - p)) with e by lia.
    match goal with |- context [if _ then ParseRead _ ?s _ _ else _] => set (st' := s) end.
    assert (progress file r st' e) as Hp'.
    { eapply (progress_next_chunk file r {| filesize := 0; mtime := 0; primary_hasher := h0;
        chunk_hasher := h_update h0 (slice b b file); chunk_ranges := r;
        chunk_hashes := chunk_hashes st |} st' b e); try done.
      split; [done|]. split; [done|]. simpl. rewrite Hk. split; [lia|done]. }
    destruct (Z.ltb_spec 0 (q - p - (e - p))).
    + destruct (IH st' e) as (st'' & HP & Hpr & Hf & Hm & _); [done|lia..|].
      exists st''. rewrite HP. split_and!; try done.
      intros Hnb. specialize (Hnb _ _ _ Hk). lia.
    + assert (e = q) as <- by lia. exists st'. by split_and!.
Qed.

Lemma progress_start file r size time :
  contiguous r (Z.of_nat (length file)) -> progress file r (SetupHasher r size time) 0.
Proof.
  intros (H0 & H1 & Hr). split; [done|]. split; [done|]. simpl.
  destruct (decide (Z.of_nat (length file) = 0)) as [E|E].
  - rewrite (H0 E). done.
  - destruct H1 as [e He]; [lia|]. rewrite He. destruct (Hr _ _ _ He) as (? & _ & _).
    split; [lia|]. unfold slice. simpl. by rewrite h_update_nil.
Qed.

Lemma progress_end file r st :
  contiguous r (Z.of_nat (length file)) -> progress file r st (Z.of_nat (length file)) ->
  chunk_hashes st = range_hash file <$> r.
Proof.
  intros (_ & _ & Hr) (_ & Hh & Hk). rewrite Hh, take_ge; [done|].
  apply lookup_ge_None. destruct (r !! _) as [[b e]|] eqn:E; [|done].
  destruct (Hr _ _ _ E) as (_ & ? & _). lia.
Qed.

Lemma FileIO_Read_slice file p n :
  0 <= p <= Z.of_nat (length file) -> 0 < n ->
  FileIO_Read file p n =
    (slice p (Z.min (p + n) (Z.of_nat (length file))) file,
     if p + n <=? Z.of_nat (length file) then no_error else file_error EndOfFile).
Proof.
  intros Hp Hn. unfold FileIO_Read, slice. f_equal.
  - destruct (Z.min_spec (p + n) (Z.of_nat (length file))) as [[? ->]|[? ->]].
    + f_equal. lia.
    + rewrite !take_ge; [done|rewrite length_drop; lia..].
  - rewrite length_take, length_drop.
    destruct (Z.leb_spec (p + n) (Z.of_nat (length file))), (Z.eqb_spec (Z.of_nat (Z.to_nat n `min` (length file - Z.to_nat p))) n); done || lia.
Qed.

Lemma Verify_same st s :
  st_mtime s = inl (mtime st) -> st_size s = inl (filesize st) -> VerifyFileUnchanged st s = None.
Proof. intros H1 H2. unfold VerifyFileUnchanged. by rewrite H1, H2, !Z.eqb_refl. Qed.

Lemma hash_loop_correct fuel s file r st p :
  contiguous r (Z.of_nat (length file)) ->
  (forall i b e, r !! i = Some (b, e) -> (buf_size | e) \/ e = Z.of_nat (length file)) ->
  st_mtime s = inl (mtime st) -> st_size s = inl (filesize st) ->
  progress file r st p -> primary_hasher st = h_update h0 (slice 0 p file) ->
  (buf_size | p) -> 0 <= p <= Z.of_nat (length file) ->
  Z.of_nat (length file) - p < buf_size * (Z.of_nat fuel + 1) ->
  exists st', hash_loop fuel s file st p
      = Some (HashSuccess st' (h_digest (h_update h0 file)))
    /\ chunk_hashes st' = range_hash file <$> r /\ chunk_ranges st' = r
    /\ filesize st' = filesize st.
Proof.
  intros Hr Hal. revert st p. induction fuel as [|fuel IH];
    intros st p Hm Hs Hp Hprim [kp Hkp] Hple Hfuel; cbn [hash_loop];
    rewrite FileIO_Read_slice by (done || unfold buf_size; lia);
    unfold ReadFile; rewrite Verify_same by done.
  all: set (q := Z.min (p + buf_size) (Z.of_nat (length file))).
  all: assert (no_boundary_inside r p q) as Hnb by
    (intros i b e Hi He; destruct (Hal i b e Hi) as [[ke Hke]|]; [|lia];
     unfold buf_size in *; subst q; nia).
  all: destruct (ParseRead_progress (S (length (slice p q file))) file r st p q)
    as (st' & HP & Hpr & Hf & Hmt & Hprim');
    [done|done|subst q; unfold buf_size; lia|lia
    |pose proof (slice_length p q file); subst q; unfold buf_size in *; lia|].
  all: specialize (Hprim' Hnb); rewrite Hprim, h_update_app, slice_app in Hprim'
    by (subst q; unfold buf_size; lia); rewrite HP.
  all: destruct (Z.leb_spec (p + buf_size) (Z.of_nat (length file))).
  - unfold buf_size in *; lia.
  - rewrite decide_True by done. rewrite Verify_same by congruence.
    assert (q = Z.of_nat (length file)) as Eq by lia. rewrite Eq in *.
    exists st'. split; [|split; [by apply progress_end|by split; [destruct Hpr|]]].
    rewrite Hprim'. unfold slice. rewrite drop_0, Z.sub_0_r, Nat2Z.id, firstn_all. done.
  - rewrite decide_False by done. cbn [is_error no_error ec_value].
    change (negb (0 =? 0)) with false. cbv iota.
    assert (q = p + buf_size) as Eq by lia.
    rewrite <-Hf. apply (IH st' q); [by rewrite Hmt|by rewrite Hf|exact Hpr|exact Hprim'| | |].
    + exists (kp + 1). lia.
    + unfold buf_size in *; lia.
    + unfold buf_size in *; lia.
  - rewrite decide_True by done. rewrite Verify_same by congruence.
    assert (q = Z.of_nat (length file)) as Eq by lia. rewrite Eq in *.
    exists st'. split; [|split; [by apply progress_end|by split; [destruct Hpr|]]].
    rewrite Hprim'. unfold slice. rewrite drop_0, Z.sub_0_r, Nat2Z.id, firstn_all. done.
Qed.

Lemma ChunkRanges_contiguous len :
  0 <= len <= 2 ^ 64 - 2 ^ 26 ->
  exists r, (forall fuel, (length r <= fuel)%nat -> ChunkRanges fuel len = Some r) /\
    (length r <= chunk_fuel len)%nat /\ contiguous r len /\
    (forall i b e, r !! i = Some (b, e) -> (buf_size | e) \/ e = len).
Proof.
  intros Hl. destruct (ChunkMaxSize_unit len) as (s & Es & Hs & _); [lia|].
  pose proof (unit_size_bounds s Hs).
  exists (nth_range (unit_size s) len <$> seq 0 (unit_count (unit_size s) len)).
  rewrite length_fmap, length_seq. split; [|split]; [|by apply unit_count_fuel; lia|].
  { intros fuel Hf. destruct (ChunkRanges_closed len fuel Hl) as (c & E & Hc & HR).
    rewrite Es in E. injection E as <-. by apply HR. }
  split; [split; [|split]|].
  - intros ->. unfold unit_count. rewrite Z.div_small by lia. done.
  - intros Hlen. exists (Z.min (unit_size s) len).
    rewrite list_lookup_fmap, lookup_seq_lt.
    + simpl. unfold nth_range. rewrite Z.mul_0_r, Z.mul_1_r. done.
    + unfold unit_count. assert (1 <= (len + unit_size s - 1) / unit_size s); [|lia].
      apply Z.div_le_lower_bound; lia.
  - intros i b e Hi. apply closed_ranges_lookup in Hi as (? & ? & _ & Hn); [|lia..].
    split; [nia|]. split; [lia|]. by destruct (_ !! S i) as [[b' e']|]; [destruct Hn|].
  - intros i b e Hi. apply closed_ranges_lookup in Hi as (_ & _ & Hd & _); [|lia..].
    destruct Hd as [Hd| ->]; [left|by right]. etransitivity; [|exact Hd]. apply unit_size_divides. lia.
Qed.

(** Hashing a file, with the ranges of its chunks. *)
Lemma hash_file_hashes file time :
  Z.of_nat (length file) <= 2 ^ 64 - 2 ^ 26 ->
  exists ranges st,
    ChunkRanges (length ranges) (Z.of_nat (length file)) = Some ranges /\
    hash_file (Z.to_nat (Z.of_nat (length file) / buf_size)) file time ranges
      = Some (HashSuccess st (h_digest (h_update h0 file))) /\
    chunk_hashes st = range_hash file <$> ranges /\ chunk_ranges st = ranges /\
    contiguous ranges (Z.of_nat (length file)) /\ filesize st = Z.of_nat (length file) /\
    ChunkRanges (chunk_fuel (Z.of_nat (length file))) (Z.of_nat (length file)) = Some ranges.
Proof.
  intros Hlen. destruct (ChunkRanges_contiguous (Z.of_nat (length file))) as (r & HR & Hfl & Hc & Hal);
    [lia|].
  destruct (hash_loop_correct (Z.to_nat (Z.of_nat (length file) / buf_size))
    {| st_mtime := inl time; st_size := inl (Z.of_nat (length file)) |} file r
    (SetupHasher r (Z.of_nat (length file)) time) 0) as (st & HL & Hh & Hrg & Hfs); try done.
  - by apply progress_start.
  - by exists 0.
  - lia.
  - unfold buf_size. zdiv.
  - exists r, st. split_and!; try done; by apply HR.
Qed.

(** Hashing a file that does not change always succeeds, reports the hash of the
    whole contents, and one hash per upload chunk, each of exactly the bytes of its
    range, in order.  The loop stops after [len / 8192 + 1] reads. *)
Theorem hash_file_correct file time :
  Z.of_nat (length file) <= 2 ^ 64 - 2 ^ 26 ->
  exists ranges st,
    ChunkRanges (length ranges) (Z.of_nat (length file)) = Some ranges /\
    hash_file (Z.to_nat (Z.of_nat (length file) / buf_size)) file time ranges
      = Some (HashSuccess st (h_digest (h_update h0 file))) /\
    chunk_hashes st = range_hash file <$> ranges.
Proof.
  intros Hlen. destruct (hash_file_hashes file time Hlen) as (r & st & HR & HL & Hh & _).
  by exists r, st.
Qed.

(** A success is never reported for a file whose mtime or size differed, before
    or after the last read, from what it was when the upload started. *)
Theorem ReadFile_success_unchanged st p before buffer ec after st' d :
  ReadFile st p before buffer ec after = HashSuccess st' d ->
  st_mtime before = inl (mtime st) /\ st_size before = inl (filesize st) /\
  st_mtime after = inl (mtime st') /\ st_size after = inl (filesize st') /\
  ec = file_error EndOfFile /\ d = h_digest (primary_hasher st').
Proof.
  assert (forall st s, VerifyFileUnchanged st s = None ->
    st_mtime s = inl (mtime st) /\ st_size s = inl (filesize st)) as HV.
  { intros st0 s. unfold VerifyFileUnchanged.
    destruct (st_mtime s) as [m|]; [|done]. destruct (Z.eqb_spec m (mtime st0)); [|done].
    destruct (st_size s) as [n|]; [|done]. destruct (Z.eqb_spec n (filesize st0)); [|done].
    by subst. }
  unfold ReadFile. intros Hrun.
  destruct (VerifyFileUnchanged st before) eqn:E1; [done|].
  case_decide; [|destruct (is_error ec); [done|]; by destruct (ParseRead _ _ _ _)].
  destruct (ParseRead _ _ _ _) as [st1 tot| | |]; [|done..].
  destruct (VerifyFileUnchanged st1 after) eqn:E2; [done|]. simplify_eq.
  apply HV in E1 as [? ?], E2 as [? ?]. done.
Qed.

(** A read that crosses the end of a chunk feeds the bytes after the boundary to
    the whole-file hasher twice: the update at the head of [ParseRead] is repeated by
    the recursive call on the rest of the same read.  (The chunk hashes are right.) *)
Theorem ParseRead_straddle_counts_twice file r st p q i b e :
  contiguous r (Z.of_nat (length file)) -> progress file r st p ->
  i = length (chunk_hashes st) -> r !! i = Some (b, e) ->
  0 <= p < e -> e < q -> q <= Z.of_nat (length file) ->
  (forall b' e', r !! S i = Some (b', e') -> q <= e') ->
  exists st', ParseRead (S (length (slice p q file))) st p (slice p q file) = Parsed st' q
    /\ primary_hasher st' =
         h_update (primary_hasher st) (slice p q file ++ slice e q file).
Proof.
  intros Hr Hp -> Hi Hpe Heq Hq Hnext.
  destruct (proj2 (proj2 Hr) _ _ _ Hi) as (? & ? & Hn).
  pose proof Hp as (Hrng & _ & Hcur). rewrite Hi in Hcur. destruct Hcur as [Hbe Hch].
  cbn [ParseRead]. rewrite slice_length by lia.
  rewrite (proj2 (Z.eqb_neq _ _)), Hrng, Hi, (proj2 (Z.ltb_lt p e)) by lia. cbn [negb].
  rewrite (proj2 (Z.ltb_ge _ _)), take_slice, drop_slice, Hch, h_update_app, slice_app,
    (proj2 (Z.ltb_lt 0 _)) by lia.
  replace (p + (e - p)) with e by lia.
  match goal with |- context [ParseRead _ ?s _ _] => set (st1 := s) end.
  assert (progress file r st1 e) as Hp1.
  { eapply (progress_next_chunk file r {| filesize := 0; mtime := 0; primary_hasher := h0;
        chunk_hasher := h_update h0 (slice b b file); chunk_ranges := r;
        chunk_hashes := chunk_hashes st |} st1 b e); try done.
    destruct Hp as (_ & Hh & _). split; [done|]. split; [done|]. simpl. rewrite Hi.
    split; [lia|done]. }
  destruct (ParseRead_progress (length (slice p q file)) file r st1 e q)
    as (st' & HP & _ & _ & _ & Hprim); [done|done|lia|lia| |].
  { rewrite slice_length by lia. lia. }
  exists st'. split; [done|]. rewrite Hprim; [by rewrite <-h_update_app|].
  intros j b' e' Hj Hlt.
  destruct (r !! S (length (chunk_hashes st))) as [[b2 e2]|] eqn:Hk2; [|lia].
  specialize (Hnext _ _ eq_refl).
  destruct (decide (j = S (length (chunk_hashes st)))) as [->|]; [congruence|].
  destruct (decide (S (length (chunk_hashes st)) < j)%nat) as [Hlt'|].
  - pose proof (contiguous_mono _ _ _ _ _ _ _ _ Hr Hk2 Hj Hlt').
    destruct (proj2 (proj2 Hr) _ _ _ Hj). lia.
  - destruct (decide (j = length (chunk_hashes st))) as [->|]; [simplify_eq; lia|].
    pose proof (contiguous_mono _ _ _ _ _ _ _ _ Hr Hj Hi ltac:(lia)). lia.
Qed.

End Hasher.
(** ** Witnesses: the hasher that remembers what it was given *)

Lemma hash_file_correct_witness :
  Z.of_nat (length (B "abc")) <= 2 ^ 64 - 2 ^ 26 /\
  exists ranges st,
    ChunkRanges (length ranges) (Z.of_nat (length (B "abc"))) = Some ranges /\
    hash_file (D := str) [] app id (Z.to_nat (Z.of_nat (length (B "abc")) / buf_size)) (B "abc") 7 ranges
      = Some (HashSuccess st (id (app [] (B "abc")))) /\
    chunk_hashes st = range_hash [] app id (B "abc") <$> ranges.
Proof.
  split; [vm_compute; discriminate|].
  apply (hash_file_correct [] app id); [intros h a b; by rewrite app_assoc|apply app_nil_r|].
  vm_compute; discriminate.
Defined.

Definition ex_state : HasherState (H := str) (D := str) :=
  SetupHasher [] [(0, 3)] 3 7.
Definition ex_stat : Stat := {| st_mtime := inl 7; st_size := inl 3 |}.

Lemma ReadFile_success_unchanged_witness :
  exists st', ReadFile [] app id ex_state 0 ex_stat (B "abc") (file_error EndOfFile) ex_stat
      = HashSuccess st' (B "abc") /\
    st_mtime ex_stat = inl (mtime st') /\ st_size ex_stat = inl (filesize st').
Proof.
  eexists. split; [vm_compute; reflexivity|].
  edestruct (ReadFile_success_unchanged (D := str) [] app id ex_state 0 ex_stat (B "abc")
    (file_error EndOfFile) ex_stat) as (_ & _ & H1 & H2 & _); [vm_compute; reflexivity|].
  exact (conj H1 H2).
Defined.

Lemma ParseRead_straddle_counts_twice_witness :
  exists st', ParseRead [] app id 5 (SetupHasher (D := str) [] [(0, 2); (2, 4)] 4 7) 0 (B "abcd")
      = Parsed st' 4 /\
    primary_hasher st' = B "abcdcd".
Proof.
  destruct (ParseRead_straddle_counts_twice [] app id
    (fun h a b => eq_sym (app_assoc h a b)) (@app_nil_r _) (B "abcd") [(0, 2); (2, 4)]
    (SetupHasher [] [(0, 2); (2, 4)] 4 7) 0 4 0 0 2) as (st' & H1 & H2).
  - split; [done|]. split; [by exists 2|].
    intros [|[|i]] b e Hi; simplify_eq/=; lia || (split; [lia|done]).
  - split; [done|]. split; [done|]. simpl. split; [lia|done].
  - done.
  - done.
  - lia.
  - lia.
  - vm_compute; discriminate.
  - intros b' e' Hi. simplify_eq/=. lia.
  - exists st'. split; [exact H1|exact H2].
Defined.

