(* ===== verification/FileIO.v ===== *)
(** * Files ([utils/fileio])

    [FileIO] is a C stream with its errors turned into codes.  The stream is the C library's:
    its functions are written here as the C standard has them, on the bytes of the file, the
    position and the two indicators.  A byte of the disk that cannot be accessed is where
    reads and writes fail.  Every method is given with its [error] argument; a caller that
    passes none does not see the code.

    What the methods promise: a read gives the bytes that are there, whole or with the reason
    why not; [ReadString], which reads in blocks, is one such read; [ReadLine] gives a line
    without its end, and loses a byte of a line that is too long. *)
From S2P Require Import Prelude Errors HashReader.

Open Scope Z_scope.

(** ** The C library *)

Record FILE := {
  contents : str;
  position : Z;
  feof : bool;
  ferror : bool;
  bad : option Z;        (** the byte that cannot be accessed *)
  writable : bool;
  appending : bool }.    (** opened with ["a"] *)

#[local] Instance FILE_members : Members FILE := fun f =>
  Build_FILE (contents f) (position f) (feof f) (ferror f) (bad f) (writable f) (appending f).

Definition with_position := ltac:(setter position).
Definition with_feof := ltac:(setter feof).
Definition with_ferror := ltac:(setter ferror).
Definition with_contents := ltac:(setter contents).

Definition NUL : ascii := Ascii.zero.

(** [None] is [EOF]. *)
Definition fgetc (f : FILE) : option ascii * FILE :=
  if feof f then (None, f)
  else match contents f !! Z.to_nat (position f) with
       | None => (None, with_feof true f)
       | Some c =>
           if bool_decide (bad f = Some (position f)) then (None, with_ferror true f)
           else (Some c, with_position (position f + 1) f)
       end.

(** [fread] reads by [fgetc], until it fails. *)
Fixpoint fread (n : nat) (f : FILE) : str * FILE :=
  match n with
  | O => ([], f)
  | S n =>
      match fgetc f with
      | (Some c, f) => let '(s, f) := fread n f in (c :: s, f)
      | (None, f) => ([], f)
      end
  end.

(** A position after the end of the file leaves a gap of zeros. *)
Definition fputc (c : ascii) (f : FILE) : bool * FILE :=
  let p := if appending f then Z.of_nat (length (contents f)) else position f in
  if negb (writable f) || bool_decide (bad f = Some p) then (false, with_ferror true f)
  else
    let n := Z.to_nat p in
    (true, with_position (p + 1)
       (with_contents (<[n:=c]> (resize ((n + 1) `max` length (contents f)) NUL (contents f))) f)).

(** How many bytes were written. *)
Fixpoint fwrite (s : str) (f : FILE) : Z * FILE :=
  match s with
  | [] => (0, f)
  | c :: s =>
      match fputc c f with
      | (true, f) => let '(n, f) := fwrite s f in (n + 1, f)
      | (false, f) => (0, f)
      end
  end.

(** [off_t] has 64 bits and a sign. *)
Definition off_t (z : Z) : Z := (z + 2 ^ 63) mod 2 ^ 64 - 2 ^ 63.

(** A position before the start is an error, which is not one of the stream. *)
Definition fseeko (offset base : Z) (f : FILE) : bool * FILE :=
  let p := base + off_t offset in
  if (p <? 0) || (2 ^ 63 <=? p) then (false, f)
  else (true, with_feof false (with_position p f)).

(** ** The class *)

(** [utils/fileio.hpp:26-31 SeekAnchor] *)
Inductive SeekAnchor := Current | Beginning | End_.

(** [utils/fileio.hpp:204-209 FileIO] *)
Record FileIO := { file_handle_ : FILE; size_hint_ : Z }.

#[local] Instance FileIO_members : Members FileIO := fun io =>
  Build_FileIO (file_handle_ io) (size_hint_ io).

Definition with_handle := ltac:(setter file_handle_).

(** [64 * 1 << 20].
    [utils/fileio.cpp:24-24 skDefaultBlockSize] *)
Definition skDefaultBlockSize : Z := Z.shiftl (64 * 1) 20.

(** [utils/fileio.cpp:27-27 skDefaultReadSize] *)
Definition skDefaultReadSize : Z := Z.shiftl 1 30.

(** What [fopen] gives, or [errno], and what the file system says of the size, are arguments.
    [utils/fileio.cpp:51-89 Open] *)
Definition Open (fopen : FILE + Z) (file_size : option Z) : FileIO + error_code :=
  match fopen with
  | inl f =>
      let hint := match file_size with
                  | Some n => if n =? 0 then skDefaultBlockSize else n
                  | None => skDefaultBlockSize
                  end in
      inl {| file_handle_ := f; size_hint_ := hint |}
  | inr errno => inr (Ec cat_system errno)
  end.

(** The code of a read that ended early.
    [utils/fileio.cpp:114-130 Read] *)
Definition read_failure (f : FILE) : error_code :=
  if feof f then file_error EndOfFile
  else if ferror f then file_error StreamError
  else file_error FileUnknownError.

(** [utils/fileio.cpp:106-133 Read] *)
Definition Read (buffer_size : Z) (io : FileIO) : str * error_code * FileIO :=
  let '(bytes, f) := fread (Z.to_nat buffer_size) (file_handle_ io) in
  (bytes,
   if Z.of_nat (length bytes) =? buffer_size then no_error else read_failure f,
   with_handle f io).

Section Strings.
(** The longest string there can be, and the longest that there is memory for. *)
Context (max_size memory : Z).

(** Stops with the exception that [resize] throws as the code.
    [utils/fileio.cpp:150-186 ReadString] *)
Fixpoint ReadString_loop (fuel : nat) (desired_bytes read_size total_bytes_read : Z)
    (buffer : str) (read_error : error_code) (io : FileIO) :
    option (str * Z * error_code * FileIO) :=
  if negb (is_error read_error) && (total_bytes_read <? desired_bytes) then
    match fuel with
    | O => None
    | S fuel =>
        let size := u64 (Z.of_nat (length buffer) + read_size) in
        if max_size <? size
        then Some (buffer, total_bytes_read, file_error BufferTooLarge, io)
        else if memory <? size
        then Some (buffer, total_bytes_read, file_error NotEnoughMemory, io)
        else
          let buffer := resize (Z.to_nat size) NUL buffer in
          let '(bytes, read_error, io) := Read read_size io in
          let buffer := list_inserts (Z.to_nat total_bytes_read) bytes buffer in
          let total_bytes_read := u64 (total_bytes_read + Z.of_nat (length bytes)) in
          let read_size := Z.min (u64 (desired_bytes - total_bytes_read)) skDefaultBlockSize in
          ReadString_loop fuel desired_bytes read_size total_bytes_read buffer read_error io
    end
  else Some (buffer, total_bytes_read, read_error, io).

(** One block after another is one fuel each, and the first read has its own size.
    [utils/fileio.cpp:135-197 ReadString] *)
Definition ReadString (desired_bytes : Z) (io : FileIO) : option (str * error_code * FileIO) :=
  let read_size := Z.min desired_bytes (u64 (size_hint_ io + 1)) in
  let fuel := Z.to_nat (desired_bytes / skDefaultBlockSize + 2) in
  '(buffer, total_bytes_read, read_error, io) ←
    ReadString_loop fuel desired_bytes read_size 0 [] no_error io;
  Some (resize (Z.to_nat total_bytes_read) NUL buffer, read_error, io).
End Strings.

Definition newline : ascii := Zbyte 10.

(** [utils/fileio.cpp:209-221 ReadLine] *)
Fixpoint ReadLine_loop (fuel : nat) (inputChar : option ascii) (bytes_consumed : Z)
    (lineData : str) (f : FILE) : option (option ascii * Z * str * FILE) :=
  match inputChar with
  | Some c =>
      if negb (bool_decide (c = newline)) && (bytes_consumed <? skDefaultReadSize) then
        match fuel with
        | O => None
        | S fuel =>
            let '(inputChar, f) := fgetc f in
            ReadLine_loop fuel inputChar (u64 (bytes_consumed + 1)) (lineData ++ [c]) f
        end
      else Some (inputChar, bytes_consumed, lineData, f)
  | None => Some (inputChar, bytes_consumed, lineData, f)
  end.

(** Every character that is read is one fuel.
    [utils/fileio.cpp:199-249 ReadLine] *)
Definition ReadLine (io : FileIO) : option (str * error_code * FileIO) :=
  let f := file_handle_ io in
  let '(inputChar, f) := fgetc f in
  '(inputChar, bytes_consumed, lineData, f) ←
    ReadLine_loop (length (contents f)) inputChar 0 [] f;
  Some (lineData,
        match inputChar with
        | None => read_failure f
        | Some _ => if skDefaultReadSize <=? bytes_consumed then file_error LineTooLong
                    else no_error
        end, with_handle f io).

(** [utils/fileio.cpp:251-277 Write] *)
Definition Write (buffer : str) (io : FileIO) : Z * error_code * FileIO :=
  let '(bytes_written, f) := fwrite buffer (file_handle_ io) in
  (bytes_written,
   if bytes_written =? Z.of_nat (length buffer) then no_error
   else if ferror f then file_error StreamError else file_error FileUnknownError,
   with_handle f io).

(** [utils/fileio.cpp:279-285 WriteString] *)
Definition WriteString (buffer : str) (io : FileIO) : Z * error_code * FileIO :=
  Write buffer io.

(** [utils/fileio.cpp:287-334 Seek] *)
Definition Seek (anchor : SeekAnchor) (offset : Z) (io : FileIO) : error_code * FileIO :=
  let f := file_handle_ io in
  let base := match anchor with
              | Current => position f
              | Beginning => 0
              | End_ => Z.of_nat (length (contents f))
              end in
  let '(ok, f) := fseeko offset base f in
  (if ok then no_error
   else if ferror f then file_error StreamError else file_error FileUnknownError,
   with_handle f io).

(** [utils/fileio.cpp:336-349 Tell] *)
Definition Tell (io : FileIO) : Z := position (file_handle_ io).

(** ** Reads *)

(** What can still be read: up to the end or to the byte that cannot be accessed. *)
Definition available (f : FILE) : str :=
  if feof f then []
  else
    let rest := drop (Z.to_nat (position f)) (contents f) in
    match bad f with
    | Some b => if position f <=? b then take (Z.to_nat (b - position f)) rest else rest
    | None => rest
    end.

(** The indicator that is set when there is nothing left. *)
Definition stopped (f : FILE) : FILE :=
  if feof f then f
  else if position f <? Z.of_nat (length (contents f)) then with_ferror true f
  else with_feof true f.

Lemma fgetc_available f : 0 <= position f ->
  match available f with
  | c :: s => fgetc f = (Some c, with_position (position f + 1) f) /\
              available (with_position (position f + 1) f) = s
  | [] => fgetc f = (None, stopped f)
  end.
Proof.
  intros Hp. unfold fgetc, available, stopped. cbn -[Z.sub].
  destruct (feof f); [done|].
  replace (Z.to_nat (position f + 1)) with (S (Z.to_nat (position f))) by lia.
  destruct (contents f !! Z.to_nat (position f)) as [c|] eqn:Hc.
  - rewrite (drop_S _ _ _ Hc). apply lookup_lt_Some in Hc.
    rewrite (proj2 (Z.ltb_lt _ _)) by lia.
    destruct (bad f) as [b|]; [|by rewrite bool_decide_eq_false_2].
    destruct (Z.leb_spec (position f) b) as [Hb|Hb].
    + destruct (decide (b = position f)) as [->|Hne].
      * by rewrite Z.sub_diag, bool_decide_eq_true_2.
      * rewrite bool_decide_eq_false_2 by congruence.
        replace (Z.to_nat (b - position f)) with (S (Z.to_nat (b - (position f + 1)))) by lia.
        cbn. split; [done|]. rewrite (proj2 (Z.leb_le _ _)) by lia. done.
    + rewrite bool_decide_eq_false_2 by (intros [=]; lia). split; [done|].
      rewrite (proj2 (Z.leb_gt _ _)) by lia. done.
  - apply lookup_ge_None in Hc. rewrite (drop_ge (contents f)) by lia.
    rewrite (proj2 (Z.ltb_ge _ _)) by lia.
    destruct (bad f) as [b|]; [|done]. destruct (position f <=? b); rewrite ?take_nil; done.
Qed.

Lemma with_position_again p q f : with_position p (with_position q f) = with_position p f.
Proof. done. Qed.

Lemma fread_available n f : 0 <= position f ->
  fread n f =
  (take n (available f),
   if decide (n <= length (available f))%nat then with_position (position f + Z.of_nat n) f
   else stopped (with_position (position f + Z.of_nat (length (available f))) f)).
Proof.
  revert f. induction n as [|n IH]; intros f Hp.
  - rewrite decide_True by lia. rewrite Z.add_0_r. by destruct f.
  - pose proof (fgetc_available f Hp) as Hg. cbn [fread].
    destruct (available f) as [|c s].
    + rewrite Hg. rewrite decide_False by (cbn; lia). rewrite Z.add_0_r. by destruct f.
    + destruct Hg as [-> Ha]. rewrite (IH (with_position _ f)) by (cbn; lia). rewrite Ha.
      cbn [take length]. f_equal. rewrite !with_position_again. cbn [position with_position].
      replace (position f + 1 + Z.of_nat n) with (position f + Z.of_nat (S n)) by lia.
      replace (position f + 1 + Z.of_nat (length s))
        with (position f + Z.of_nat (S (length s))) by lia.
      repeat case_decide; done || lia.
Qed.

Lemma fread_length n f : (length (fread n f).1 <= n)%nat.
Proof.
  revert f. induction n as [|n IH]; intros f; cbn; [lia|].
  destruct (fgetc f) as [[c|] f']; cbn; [|lia].
  specialize (IH f'). destruct (fread n f'). cbn in *. lia.
Qed.

(** Reading in two parts, the second unless the first was short. *)
Lemma fread_add n m f :
  fread (n + m) f =
  let '(s, f) := fread n f in
  if decide (length s = n) then let '(t, f) := fread m f in (s ++ t, f) else (s, f).
Proof.
  revert f. induction n as [|n IH]; intros f; cbn; [by destruct (fread m f)|].
  destruct (fgetc f) as [[c|] f']; [|done]. rewrite IH.
  destruct (fread n f') as [s f'']. cbn. repeat case_decide; try lia; [|done].
  by destruct (fread m f'').
Qed.

Definition at_end (f : FILE) (n : nat) : bool :=
  feof f || (Z.of_nat (length (contents f)) <=? position f + Z.of_nat n).

Lemma read_failure_stopped f :
  read_failure (stopped (with_position (position f + Z.of_nat (length (available f))) f)) =
  if at_end f (length (available f)) then file_error EndOfFile else file_error StreamError.
Proof.
  unfold read_failure, stopped, at_end. cbn. destruct (feof f) eqn:He; cbn; [by rewrite He|].
  set (p := position f + _). destruct (Z.ltb_spec p (Z.of_nat (length (contents f)))) as [Hlt|Hge];
    cbn; rewrite ?He; [|by rewrite (proj2 (Z.leb_le _ _)) by done].
  by rewrite (proj2 (Z.leb_gt _ _)) by done.
Qed.

(** [Read] gives the bytes that can be read, as many as were asked for.  When there are
    fewer the code says why: the end of the file, or the disk. *)
Theorem Read_available buffer_size io :
  0 <= position (file_handle_ io) -> 0 <= buffer_size ->
  let f := file_handle_ io in
  exists io', Read buffer_size io =
    (take (Z.to_nat buffer_size) (available f),
     if decide (buffer_size <= Z.of_nat (length (available f))) then no_error
     else if at_end f (length (available f)) then file_error EndOfFile
     else file_error StreamError, io').
Proof.
  intros Hp Hn f. unfold Read. fold f. rewrite fread_available by done.
  eexists. f_equal. f_equal. rewrite length_take.
  destruct (decide (buffer_size <= _)) as [Hl|Hl].
  { rewrite (proj2 (Z.eqb_eq _ _)) by lia. done. }
  rewrite (proj2 (Z.eqb_neq _ _)) by lia. rewrite decide_False by lia.
  apply read_failure_stopped.
Qed.

Lemma Read_add n m io : 0 <= n -> 0 <= m ->
  Read (n + m) io =
  let '(s, ec, io) := Read n io in
  if Z.of_nat (length s) =? n then let '(t, ec, io) := Read m io in (s ++ t, ec, io)
  else (s, ec, io).
Proof.
  intros Hn Hm. unfold Read. rewrite Z2Nat.inj_add, fread_add by done.
  pose proof (fread_length (Z.to_nat n) (file_handle_ io)) as Hl.
  destruct (fread (Z.to_nat n) (file_handle_ io)) as [s f]. cbn in *.
  case_decide as Hs.
  - rewrite (proj2 (Z.eqb_eq _ _)) by lia. destruct (fread (Z.to_nat m) f) as [t f'].
    rewrite length_app, Nat2Z.inj_add. f_equal. f_equal.
    destruct (Z.eqb_spec (Z.of_nat (length t)) m).
    + by rewrite (proj2 (Z.eqb_eq _ _)) by lia.
    + by rewrite (proj2 (Z.eqb_neq _ _)) by lia.
  - rewrite !(proj2 (Z.eqb_neq _ _)) by lia. done.
Qed.

Lemma Read_short n io s ec io' : 0 <= n -> Read n io = (s, ec, io') ->
  (length s <= Z.to_nat n)%nat /\ if Z.of_nat (length s) =? n then ec = no_error else is_error ec = true.
Proof.
  unfold Read. pose proof (fread_length (Z.to_nat n) (file_handle_ io)) as Hl.
  destruct (fread _ _) as [s' f]. intros Hn [= <- <- <-]. split; [done|].
  destruct (Z.of_nat (length s') =? n); [done|]. unfold read_failure. by repeat case_match.
Qed.

Section ReadString.
Context (max_size memory : Z).

(** Writing what was read into the part that was added to the buffer. *)
Lemma resize_inserts (buffer bytes : str) n :
  (length bytes <= n)%nat ->
  list_inserts (length buffer) bytes (resize (length buffer + n) NUL buffer) =
  buffer ++ bytes ++ replicate (n - length bytes) NUL.
Proof.
  intros Hl. rewrite resize_ge by lia. replace (length buffer + n - length buffer)%nat with n by lia.
  rewrite <-(Nat.add_0_r (length buffer)) at 1. rewrite list_inserts_app_r. f_equal.
  replace n with (length bytes + (n - length bytes))%nat at 1 by lia.
  rewrite replicate_add. apply list_inserts_0_r. by rewrite length_replicate.
Qed.

Lemma ReadString_loop_Read fuel desired_bytes read_size buffer io :
  let total := Z.of_nat (length buffer) in
  0 <= read_size -> read_size <= desired_bytes - total ->
  desired_bytes <= memory -> memory <= max_size -> max_size < 2 ^ 64 ->
  (total < desired_bytes ->
   (0 < fuel)%nat /\
   desired_bytes - total - read_size <= skDefaultBlockSize * (Z.of_nat fuel - 1)) ->
  exists buffer' total',
    ReadString_loop max_size memory fuel desired_bytes read_size total buffer no_error io =
      (let '(bytes, ec, io) := Read (desired_bytes - total) io in
       Some (buffer', total', ec, io)) /\
    resize (Z.to_nat total') NUL buffer' = buffer ++ (Read (desired_bytes - total) io).1.1.
Proof.
  revert read_size buffer io. induction fuel as [|fuel IH];
    intros read_size buffer io total Hrs Hr Hm Hmax Hmax' Hf; subst total; cbn [ReadString_loop].
  - destruct (Z.ltb_spec (Z.of_nat (length buffer)) desired_bytes) as [Hlt|Hge];
      [destruct (Hf Hlt); lia|].
    replace (desired_bytes - Z.of_nat (length buffer)) with 0 by lia. exists buffer, (Z.of_nat (length buffer)).
    unfold Read. cbn. rewrite Nat2Z.id, resize_all, app_nil_r. by destruct io as [[] ?].
  - destruct (Z.ltb_spec (Z.of_nat (length buffer)) desired_bytes) as [Hlt|Hge]; cbn [negb is_error andb no_error ec_value Z.eqb].
    + destruct (Hf Hlt) as [_ Hfuel].
      set (r := desired_bytes - Z.of_nat (length buffer)) in *.
      rewrite u64_small by lia.
      rewrite !(proj2 (Z.ltb_ge _ _)) by lia.
      replace r with (read_size + (r - read_size)) by lia. rewrite Read_add by lia.
      destruct (Read read_size io) as [[bytes ec] io'] eqn:HR.
      apply Read_short in HR as [Hb He]; [|lia].
      rewrite Z2Nat.inj_add, !Nat2Z.id by lia. rewrite resize_inserts by done.
      rewrite (u64_small (_ + Z.of_nat (length bytes))) by lia.
      destruct (Z.eqb_spec (Z.of_nat (length bytes)) read_size) as [Hfull|Hshort].
      * subst ec. replace (Z.to_nat read_size - length bytes)%nat with 0%nat by lia.
        cbn [replicate]. rewrite app_nil_r, <-Nat2Z.inj_add, <-length_app.
        rewrite (u64_small (desired_bytes - _)) by (rewrite length_app; lia).
        assert (0 < skDefaultBlockSize) as Hblk by done.
        destruct (IH (Z.min (desired_bytes - Z.of_nat (length (buffer ++ bytes))) skDefaultBlockSize)
                    (buffer ++ bytes) io') as (buffer' & total' & -> & Hb'); rewrite ?length_app; try lia.
        { intros ?. rewrite Nat2Z.inj_succ in Hfuel. destruct fuel as [|fuel]; [lia|].
          split; [lia|]. rewrite Nat2Z.inj_succ in *. unfold skDefaultBlockSize in *. cbn in *. lia. }
        exists buffer', total'. rewrite length_app in Hb'.
        replace (desired_bytes - Z.of_nat (length buffer + length bytes))
          with (r - read_size) in * by lia.
        destruct (Read (r - read_size) io') as [[t ec] io'']. cbn in *.
        by rewrite Hb', <-app_assoc.
      * exists (buffer ++ bytes ++ replicate (Z.to_nat read_size - length bytes) NUL),
          (Z.of_nat (length buffer) + Z.of_nat (length bytes)).
        cbn [fst]. split.
        -- destruct fuel; cbn [ReadString_loop]; by rewrite He.
        -- rewrite app_assoc, resize_app_le, resize_all_alt; [done| |];
             rewrite length_app; lia.
    + replace (desired_bytes - Z.of_nat (length buffer)) with 0 by lia.
      exists buffer, (Z.of_nat (length buffer)).
      unfold Read. cbn. rewrite Nat2Z.id, resize_all, app_nil_r. by destruct io as [[] ?].
Qed.
End ReadString.

(** C32 Reading in blocks is reading at once: for a size that there is memory for, [ReadString]
    ends, and its bytes, its code and the stream it leaves are those of one [Read]. *)
Theorem ReadString_is_Read max_size memory desired_bytes io :
  0 <= desired_bytes <= memory -> memory <= max_size -> max_size < 2 ^ 64 ->
  ReadString max_size memory desired_bytes io = Some (Read desired_bytes io).
Proof.
  intros Hd Hm Hmax. unfold ReadString.
  pose proof (u64_range (size_hint_ io + 1)) as Hu.
  destruct (ReadString_loop_Read max_size memory
    (Z.to_nat (desired_bytes / skDefaultBlockSize + 2)) desired_bytes
    (Z.min desired_bytes (u64 (size_hint_ io + 1))) [] io) as (buffer & total & Hl & Hb);
    cbn [length] in *; try lia.
  - intros _. pose proof (Z.div_pos desired_bytes skDefaultBlockSize ltac:(lia) ltac:(done)).
    rewrite Z2Nat.id by lia. split; [lia|].
    pose proof (Z.mul_succ_div_gt desired_bytes skDefaultBlockSize ltac:(done)). lia.
  - rewrite Z.sub_0_r in *. change (Z.of_nat 0) with 0 in Hl. rewrite Hl.
    destruct (Read desired_bytes io) as [[bytes ec] io']. cbn in *. by rewrite Hb.
Qed.

Definition read_only (file : str) (p : Z) : FileIO :=
  {| file_handle_ := {| contents := file; position := p; feof := false; ferror := false;
       bad := None; writable := false; appending := false |}; size_hint_ := 2 |}.

Lemma ReadString_is_Read_witness :
  0 <= 100 <= 2 ^ 30 /\
  ReadString (2 ^ 62) (2 ^ 30) 100 (read_only (B "some text") 2)
    = Some (B "me text", file_error EndOfFile, (Read 100 (read_only (B "some text") 2)).2).
Proof.
  split; [lia|]. rewrite (ReadString_is_Read (2 ^ 62) (2 ^ 30) 100); [|lia..].
  vm_compute. reflexivity.
Defined.

(** ** Lines *)

(** The characters before the first newline, at most [limit]. *)
Fixpoint take_line (limit : Z) (s : str) : str :=
  match s with
  | c :: s' => if bool_decide (c = newline) || (limit <=? 0) then [] else c :: take_line (limit - 1) s'
  | [] => []
  end.

Lemma ReadLine_loop_take_line fuel consumed line f :
  0 <= position f -> (length (available f) <= fuel)%nat ->
  0 <= consumed -> consumed + Z.of_nat (length (available f)) < 2 ^ 64 ->
  let l := take_line (skDefaultReadSize - consumed) (available f) in
  ReadLine_loop fuel (fgetc f).1 consumed line (fgetc f).2 =
  Some (head (drop (length l) (available f)), consumed + Z.of_nat (length l), line ++ l,
        (fread (S (length l)) f).2).
Proof.
  revert consumed line f. induction fuel as [|fuel IH]; intros consumed line f Hp Hl Hc Hlt;
    pose proof (fgetc_available f Hp) as Hg; destruct (available f) as [|c s] eqn:Ha.
  1, 3: cbn; rewrite Hg; cbn; by rewrite app_nil_r, Z.add_0_r.
  - cbn in Hl. lia.
  - destruct Hg as [Hg Ha']. cbn [take_line]. rewrite Hg. cbn [fst snd ReadLine_loop].
    destruct (bool_decide (c = newline)) eqn:Hn; cbn [orb negb andb].
    { cbn. by rewrite Hg, app_nil_r, Z.add_0_r. }
    destruct (Z.leb_spec (skDefaultReadSize - consumed) 0) as [Hlim|Hlim].
    { rewrite (proj2 (Z.ltb_ge _ _)) by lia. cbn. by rewrite Hg, app_nil_r, Z.add_0_r. }
    rewrite (proj2 (Z.ltb_lt _ _)) by lia. cbn [length] in *.
    specialize (IH (consumed + 1) (line ++ [c]) (with_position (position f + 1) f)).
    rewrite Ha' in IH. replace (skDefaultReadSize - (consumed + 1))
      with (skDefaultReadSize - consumed - 1) in IH by lia.
    rewrite u64_small by lia. cbn zeta in IH.
    destruct (fgetc (with_position (position f + 1) f)) as [ic f'] eqn:Hg'.
    cbn [fst snd] in IH. rewrite IH by (cbn [position with_position]; lia).
    set (l := take_line _ s). rewrite <-app_assoc. cbn [app drop].
    rewrite Nat2Z.inj_succ. do 2 f_equal; [f_equal; f_equal; lia|].
    change (fread (S (S (length l))) f) with
      (match fgetc f with
       | (Some c, f) => let '(s, f) := fread (S (length l)) f in (c :: s, f)
       | (None, f) => ([], f)
       end).
    rewrite Hg. by destruct (fread (S (length l)) _).
Qed.

Lemma available_after n f : 0 <= position f -> (n <= length (available f))%nat ->
  available (with_position (position f + Z.of_nat n) f) = drop n (available f).
Proof.
  revert f. induction n as [|n IH]; intros f Hp Hn.
  - rewrite Z.add_0_r. by destruct f.
  - pose proof (fgetc_available f Hp) as Hg. destruct (available f) as [|c s]; cbn in Hn; [lia|].
    destruct Hg as [_ Ha]. specialize (IH (with_position (position f + 1) f)).
    rewrite Ha, with_position_again in IH. cbn [position with_position drop] in *.
    rewrite <-IH by lia. do 2 f_equal. lia.
Qed.

Lemma available_length f : (length (available f) <= length (contents f))%nat.
Proof.
  unfold available. destruct (feof f); [cbn; lia|]. destruct (bad f); [case_match|];
    rewrite ?length_take, length_drop; lia.
Qed.

Lemma take_line_prefix limit s :
  exists rest, s = take_line limit s ++ rest /\ Forall (fun c => c <> newline) (take_line limit s) /\
    Z.of_nat (length (take_line limit s)) <= Z.max 0 limit /\
    match rest with
    | [] => True
    | c :: _ => c = newline \/ Z.of_nat (length (take_line limit s)) = Z.max 0 limit
    end.
Proof.
  revert limit. induction s as [|c s IH]; intros limit; [exists []; cbn; split_and!; [done..|lia|done]|].
  cbn [take_line]. case_bool_decide as Hc; cbn [orb].
  { exists (c :: s). cbn. split_and!; [done..|lia|by left]. }
  destruct (Z.leb_spec limit 0).
  { exists (c :: s). cbn. split_and!; [done..|lia|right; lia]. }
  destruct (IH (limit - 1)) as (rest & E & Hf & Hlen & Hr). exists rest. cbn [length app].
  split_and!; [by rewrite <-E|by constructor|lia|]. destruct rest; [done|].
  destruct Hr; [by left|right; lia].
Qed.

Lemma take_line_app limit l c rest :
  (newline ∉ l) -> Z.of_nat (length l) <= limit -> c = newline \/ Z.of_nat (length l) = limit ->
  take_line limit (l ++ c :: rest) = l.
Proof.
  revert limit. induction l as [|c' l IH]; intros limit Hn Hl Hc; cbn [length app take_line] in *.
  - case_bool_decide; [done|]. destruct Hc as [?|Hc]; [done|]. cbn. by rewrite <-Hc.
  - apply not_elem_of_cons in Hn as [Hc' Hn]. rewrite bool_decide_eq_false_2 by congruence.
    cbn [orb]. rewrite (proj2 (Z.leb_gt _ _)) by lia. f_equal.
    apply IH; [done|lia|]. destruct Hc; [by left|right; lia].
Qed.

(** [ReadLine] ends; it returns the characters up to the first newline, at most
    [skDefaultReadSize], and consumes one more character than it returns: the newline, or,
    with [LineTooLong], the first that does not fit.  Without one, the code is that of a read
    of which nothing was left. *)
Theorem ReadLine_line io :
  let f := file_handle_ io in
  let l := take_line skDefaultReadSize (available f) in
  0 <= position f -> Z.of_nat (length (contents f)) < 2 ^ 63 ->
  exists io',
    ReadLine io =
      Some (l, match drop (length l) (available f) with
               | [] => if at_end f (length (available f)) then file_error EndOfFile
                       else file_error StreamError
               | _ => if skDefaultReadSize <=? Z.of_nat (length l) then file_error LineTooLong
                      else no_error
               end, io') /\
    (drop (length l) (available f) <> [] ->
     available (file_handle_ io') = drop (S (length l)) (available f)).
Proof.
  intros f l Hp Hlen. pose proof (available_length f) as Ha.
  pose proof (ReadLine_loop_take_line (length (contents f)) 0 [] f Hp) as Hl.
  rewrite Z.sub_0_r in Hl. fold l in Hl. specialize (Hl Ha ltac:(lia) ltac:(lia)).
  assert (contents (fgetc f).2 = contents f) as Hc.
  { unfold fgetc. by repeat case_match. }
  unfold ReadLine. fold f. destruct (fgetc f) as [ic f0]. cbn [fst snd] in *.
  rewrite Hc, Hl. cbn [app mbind option_bind]. rewrite Z.add_0_l. eexists. split; [f_equal; f_equal; f_equal|].
  - rewrite (fread_available _ f Hp).
    destruct (drop (length l) (available f)) as [|c rest] eqn:Hd; cbn [head snd].
    + apply (f_equal length) in Hd. rewrite length_drop in Hd. cbn in Hd.
      rewrite decide_False by lia. apply read_failure_stopped.
    + done.
  - intros Hd. cbn [file_handle_ with_handle]. rewrite (fread_available _ f Hp).
    assert (length l < length (available f))%nat as Hlt.
    { apply Nat.nle_gt. intros Hge. apply Hd. by apply drop_ge. }
    rewrite decide_True by lia. cbn [snd]. by apply available_after.
Qed.

(** Reading moves the position forward and changes no byte. *)
Lemma fgetc_stream f :
  position f <= position (fgetc f).2 /\ contents (fgetc f).2 = contents f.
Proof. unfold fgetc. repeat case_match; cbn; split; done || lia. Qed.

Lemma ReadLine_stream io :
  match ReadLine io with
  | Some (_, _, io') => position (file_handle_ io) <= position (file_handle_ io') /\
      contents (file_handle_ io') = contents (file_handle_ io)
  | None => True
  end.
Proof.
  unfold ReadLine. destruct (fgetc_stream (file_handle_ io)) as [Hp Hc].
  destruct (fgetc (file_handle_ io)) as [ic f]. cbn [snd] in *. rewrite Hc.
  assert (forall fuel ic n l f,
    match ReadLine_loop fuel ic n l f with
    | Some (_, _, _, f') => position f <= position f' /\ contents f' = contents f
    | None => True
    end) as Hl.
  { clear. induction fuel as [|fuel IH]; intros [c|] n l f; cbn; try (split; done || lia).
    - destruct (negb _ && _); [done|split; done || lia].
    - destruct (negb _ && _); [|split; done || lia]. destruct (fgetc_stream f) as [Hp Hc].
      destruct (fgetc f) as [ic' f']. specialize (IH ic' (u64 (n + 1)) (l ++ [c]) f').
      cbn in *. repeat case_match; [|done]. destruct IH as [? ->]. split; [lia|done]. }
  specialize (Hl (length (contents (file_handle_ io))) ic 0 [] f).
  destruct (ReadLine_loop _ _ _ _ _) as [[[[ic' n] l] f']|]; cbn; [|done].
  destruct Hl as [? ->]. split; [lia|done].
Qed.

(** What is lost of a line that is too long: reading goes on after the character that did not
    fit, which no call returned. *)
Theorem long_line_loses_byte io l c rest :
  let f := file_handle_ io in
  0 <= position f -> Z.of_nat (length (contents f)) < 2 ^ 63 ->
  available f = l ++ c :: rest -> (newline ∉ l) ->
  Z.of_nat (length l) = skDefaultReadSize ->
  exists io', ReadLine io = Some (l, file_error LineTooLong, io') /\ available (file_handle_ io') = rest.
Proof.
  intros f Hp Hlen Ha Hl Hlim.
  assert (take_line skDefaultReadSize (available f) = l) as Ht
    by (rewrite Ha; apply take_line_app; [done|lia|by right]).
  destruct (ReadLine_line io Hp Hlen) as (io' & HR & Hn). fold f in HR, Hn. rewrite Ht, Ha in HR, Hn.
  rewrite drop_app_length in HR, Hn. rewrite (proj2 (Z.leb_le _ _)) in HR by lia.
  exists io'. split; [exact HR|]. rewrite Hn by done. rewrite <-Nat.add_1_r, <-drop_drop.
  by rewrite drop_app_length.
Qed.

(** [n] calls of [ReadLine]. *)
Fixpoint read_lines (n : nat) (io : FileIO) : option (list str * FileIO) :=
  match n with
  | O => Some ([], io)
  | S n =>
      '(l, ec, io) ← ReadLine io;
      if is_error ec then None else '(ls, io) ← read_lines n io; Some (l :: ls, io)
  end.

(** A text of lines is read back line by line. *)
Theorem lines_read_back ls io rest :
  let f := file_handle_ io in
  0 <= position f -> Z.of_nat (length (contents f)) < 2 ^ 63 ->
  Forall (fun l => (newline ∉ l) /\ Z.of_nat (length l) < skDefaultReadSize) ls ->
  available f = (ls ≫= (fun l => l ++ [newline])) ++ rest ->
  exists io', read_lines (length ls) io = Some (ls, io') /\ available (file_handle_ io') = rest.
Proof.
  revert io. induction ls as [|l ls IH]; intros io f Hp Hlen Hls Ha; [by exists io|].
  apply Forall_cons in Hls as [[Hnl Hl] Hls]. rewrite bind_cons, <-!app_assoc in Ha. cbn [app] in Ha.
  assert (take_line skDefaultReadSize (available f) = l) as Ht
    by (rewrite Ha; apply take_line_app; [done|lia|by left]).
  destruct (ReadLine_line io Hp Hlen) as (io' & HR & Hn). fold f in HR, Hn. rewrite Ht, Ha in HR, Hn.
  rewrite drop_app_length in HR, Hn. rewrite (proj2 (Z.leb_gt _ _)) in HR by lia.
  specialize (Hn ltac:(done)). rewrite <-Nat.add_1_r, <-drop_drop, drop_app_length in Hn. cbn in Hn.
  pose proof (ReadLine_stream io) as Hs. rewrite HR in Hs. destruct Hs as [Hs1 Hs2].
  fold f in Hs1, Hs2.
  cbn [length read_lines]. rewrite HR. cbn [mbind option_bind is_error no_error ec_value Z.eqb negb].
  destruct (IH io') as (io'' & -> & Hr); [lia|by rewrite Hs2|done..|]. by exists io''.
Qed.

(** ** Writes *)

(** Where the next byte is written. *)
Definition write_position (f : FILE) : Z :=
  if appending f then Z.of_nat (length (contents f)) else position f.

Lemma fputc_spec c f :
  0 <= position f -> writable f = true -> bad f = None ->
  exists f', fputc c f = (true, f') /\ position f' = write_position f + 1 /\
    write_position f' = write_position f + 1 /\ writable f' = true /\ bad f' = None /\
    contents f' !! Z.to_nat (write_position f) = Some c /\
    (forall i, (i < Z.to_nat (write_position f))%nat -> (i < length (contents f))%nat ->
       contents f' !! i = contents f !! i) /\
    (Z.to_nat (write_position f) < length (contents f'))%nat /\ feof f' = feof f.
Proof.
  intros Hp Hw Hb. unfold fputc. fold (write_position f).
  assert (0 <= write_position f) as Hwp by (unfold write_position; case_match; lia).
  rewrite Hw, Hb, bool_decide_eq_false_2 by done. cbn [negb orb].
  set (n := Z.to_nat (write_position f)). set (l := contents f).
  assert (n < length (resize ((n + 1) `max` length l) NUL l))%nat as Hn by (rewrite length_resize; lia).
  eexists. split; [done|]. cbn. split_and!; [done| |done|done| | |by rewrite length_insert|done].
  - unfold write_position in *. cbn. destruct (appending f) eqn:Ha; [|done].
    rewrite length_insert, length_resize. unfold n. fold l. rewrite Nat2Z.id. lia.
  - by apply list_lookup_insert_eq.
  - intros i Hi Hl. rewrite list_lookup_insert_ne by lia. rewrite resize_ge by lia.
    by apply lookup_app_l.
Qed.

Lemma fwrite_spec s f :
  0 <= position f -> writable f = true -> bad f = None ->
  exists f', fwrite s f = (Z.of_nat (length s), f') /\
    take (length s) (drop (Z.to_nat (write_position f)) (contents f')) = s /\
    (forall i, (i < Z.to_nat (write_position f))%nat -> (i < length (contents f))%nat ->
       contents f' !! i = contents f !! i) /\
    bad f' = None /\ feof f' = feof f.
Proof.
  revert f. induction s as [|c s IH]; intros f Hp Hw Hb; [by exists f|].
  assert (0 <= write_position f) as Hwp by (unfold write_position; case_match; lia).
  destruct (fputc_spec c f Hp Hw Hb) as (f1 & H1 & Hp1 & Hwp1 & Hw1 & Hb1 & Hc & Hold & Hlt & He1).
  destruct (IH f1) as (f2 & H2 & Hs & Hold2 & Hb2 & He2); [lia|done..|].
  exists f2. cbn [fwrite length]. rewrite H1, H2.
  rewrite Hwp1 in Hs, Hold2.
  replace (Z.to_nat (write_position f + 1)) with (S (Z.to_nat (write_position f))) in Hs, Hold2 by lia.
  split_and!; [f_equal; lia| | |done|congruence].
  - erewrite drop_S by (rewrite Hold2; [exact Hc|lia|done]). cbn [take]. by rewrite Hs.
  - intros i Hi Hl. rewrite Hold2 by lia. by apply Hold.
Qed.

(** [Tell] is where [Seek] went to, for a position that [off_t] can hold; for the others
    there is an error. *)
Theorem Seek_Tell offset io :
  0 <= offset < 2 ^ 64 ->
  if decide (offset < 2 ^ 63)
  then exists io', Seek Beginning offset io = (no_error, io') /\ Tell io' = offset /\
         contents (file_handle_ io') = contents (file_handle_ io) /\
         bad (file_handle_ io') = bad (file_handle_ io) /\ feof (file_handle_ io') = false
  else is_error (Seek Beginning offset io).1 = true /\ (Seek Beginning offset io).2 = io.
Proof.
  intros Ho. unfold Seek, fseeko, off_t, Tell. case_decide as Hd.
  - rewrite Z.mod_small by lia. rewrite (proj2 (Z.ltb_ge _ _)) by lia.
    rewrite (proj2 (Z.leb_gt _ _)) by lia. cbn. eexists. split; [done|]. cbn. split_and!; [lia|done..].
  - replace (offset + 2 ^ 63) with (offset - 2 ^ 63 + 1 * 2 ^ 64) by lia.
    rewrite Z_mod_plus_full, Z.mod_small by lia. rewrite (proj2 (Z.ltb_lt _ _)) by lia. cbn.
    split; [by case_match|]. by destruct io.
Qed.

(** What was written is read back: after [WriteString], going back to where it was written
    and reading as many bytes gives them. *)
Theorem write_read_back s io :
  let f := file_handle_ io in
  0 <= position f -> writable f = true -> bad f = None -> write_position f < 2 ^ 63 ->
  exists io1 io2 io3,
    WriteString s io = (Z.of_nat (length s), no_error, io1) /\
    Seek Beginning (write_position f) io1 = (no_error, io2) /\
    Read (Z.of_nat (length s)) io2 = (s, no_error, io3).
Proof.
  intros f Hp Hw Hb Hlt. unfold WriteString, Write. fold f.
  assert (0 <= write_position f) as Hwp by (unfold write_position; case_match; lia).
  destruct (fwrite_spec s f Hp Hw Hb) as (f' & -> & Hs & _ & Hb' & _).
  rewrite Z.eqb_refl. pose proof (Seek_Tell (write_position f) (with_handle f' io)) as Hk.
  rewrite decide_True in Hk by done. destruct Hk as (io2 & Hk & Ht & Hc & Hbad & He); [lia|].
  destruct (Read_available (Z.of_nat (length s)) io2) as (io3 & HR); [unfold Tell in Ht; lia|lia|].
  eexists _, io2, io3. split; [done|]. split; [exact Hk|]. rewrite HR.
  unfold Tell in Ht. cbn [with_handle file_handle_] in Hc, Hbad.
  assert (take (length s) (available (file_handle_ io2)) = s) as Ha.
  { unfold available. by rewrite He, Hbad, Hb', Ht, Hc, Hs. }
  rewrite Nat2Z.id, Ha. rewrite decide_True; [done|].
  apply (f_equal length) in Ha. rewrite length_take in Ha. lia.
Qed.

Lemma write_read_back_witness :
  let f := {| contents := B "hello"; position := 3; feof := false; ferror := false; bad := None;
              writable := true; appending := false |} in
  let io := {| file_handle_ := f; size_hint_ := 5 |} in
  exists io1 io2 io3,
    WriteString (B "p me") io = (4, no_error, io1) /\
    Seek Beginning 3 io1 = (no_error, io2) /\ Read 4 io2 = (B "p me", no_error, io3).
Proof.
  exact (write_read_back (B "p me")
    {| file_handle_ := {| contents := B "hello"; position := 3; feof := false; ferror := false;
         bad := None; writable := true; appending := false |}; size_hint_ := 5 |}
    ltac:(done) eq_refl eq_refl ltac:(done)).
Defined.

(** ** On a disk without faults *)

(** An open file that nobody else writes to, at a position. *)
Record reads_from (file : str) (p : Z) (io : FileIO) : Prop := {
  rf_contents : contents (file_handle_ io) = file;
  rf_position : position (file_handle_ io) = p;
  rf_bad : bad (file_handle_ io) = None;
  rf_feof : feof (file_handle_ io) = false }.

Lemma reads_available file p io : reads_from file p io ->
  available (file_handle_ io) = drop (Z.to_nat p) file.
Proof. intros [Hc Hp Hb He]. unfold available. by rewrite He, Hb, Hp, Hc. Qed.

(** A read is what the hasher takes it for, and a full one leaves the stream behind it. *)
Lemma Read_is_FileIO_Read file p n io :
  0 <= p -> 0 <= n -> reads_from file p io ->
  exists io', Read n io = ((FileIO_Read file p n).1, (FileIO_Read file p n).2, io') /\
    (is_error (FileIO_Read file p n).2 = false -> reads_from file (p + n) io').
Proof.
  intros Hp Hn Hr. pose proof (reads_available _ _ _ Hr) as Ha. destruct Hr as [Hc Hpos Hb He].
  unfold Read, FileIO_Read. rewrite fread_available by lia. rewrite Ha. cbn [fst snd].
  eexists. split.
  - f_equal. f_equal. destruct (Z.eqb_spec (Z.of_nat (length (take (Z.to_nat n) (drop (Z.to_nat p) file)))) n) as [E|E]; [done|].
    rewrite length_take in E. rewrite decide_False by lia. rewrite <-Ha, read_failure_stopped.
    unfold at_end. rewrite He, Ha, Hc, length_drop, Hpos. cbn [orb].
    by rewrite (proj2 (Z.leb_le _ _)) by lia.
  - destruct (Z.eqb_spec (Z.of_nat (length (take (Z.to_nat n) (drop (Z.to_nat p) file)))) n) as [E|E]; [|done].
    intros _. rewrite length_take in E. rewrite decide_True by lia. rewrite Hpos. split; cbn; try done. lia.
Qed.
