(* ===== verification/Hasher.v ===== *)
(** * The hasher of a file as an object ([uploader/hasher])

    [Hasher] hashes one file and reports to a callback.  It is a [boost::msm] machine whose
    actions are those of [HashReader]; it opens and reads the file through [FileIO].  The
    first read is made in [Start]; each read posts the next one on the [io_service].  What
    the file system says, and what others do to the file before a read, is the argument
    [Disk] of the inputs.  An exception in an action leaves the machine in the state it was
    in.

    A hasher reports once, after at most one read per 8192 bytes of the size it was created
    for, and for a file that does not change it reports the hashes of the bytes of the file.
    A cancellation before the start is lost. *)
From S2P Require Import Prelude Errors Stepping HashReader FileIO.

Open Scope Z_scope.

Section Machine.
Context {H D : Type} (h0 : H) (h_update : H -> str -> H) (h_digest : H -> D).

#[local] Abbreviation hashing := (HasherState (H := H) (D := D)).

(** An [mtime] that is never set is [None].
    [uploader/hasher.hpp:25-36 FileHashes] *)
Record FileHashes := {
  fh_path : str;
  fh_file_size : Z;
  fh_mtime : option Z;
  fh_hash : D;
  fh_chunk_hashes : list D;
  fh_chunk_ranges : list (Z * Z) }.

(** [uploader/hasher.cpp:44-79 Hasher_] *)
Inductive hstate := Unstarted | Started | Reading | Success | Failure.

(** [uploader/detail/hasher_events.hpp:39-63 StartHash] *)
Inductive event :=
  | StartHash (st : hashing)
  | Next (st : hashing) (io : FileIO) (read_byte_pos : Z)
  | Hashed (st : hashing) (sha256_hash : D)
  | Failed (ec : error_code).

(** The object with its machine; [posted] are the events that the [io_service] will send,
    [improper] the events without a row.
    [uploader/hasher.cpp:120-124 HasherImpl] *)
Record Hasher := {
  filepath : str;
  data : hashing;
  current : hstate;
  messages : list event;
  posted : list event;
  callbacks : list (error_code * option FileHashes);
  improper : list (hstate * event);
  threw : bool }.

#[local] Instance Hasher_members : Members Hasher := fun m =>
  Build_Hasher (filepath m) (data m) (current m) (messages m) (posted m) (callbacks m)
    (improper m) (threw m).

Definition set_current := ltac:(setter current).
Definition set_messages := ltac:(setter messages).
Definition set_posted := ltac:(setter posted).
Definition set_callbacks := ltac:(setter callbacks).
Definition set_improper := ltac:(setter improper).
Definition set_threw := ltac:(setter threw).

(** The file system during one input: the stream or [errno] of [fopen], the size for the
    stream's hint, what happens to the file before it is read, and what is said of the file
    before and after the read. *)
Record Disk := {
  disk_fopen : FILE + Z;
  disk_size : option Z;
  disk_change : FILE -> FILE;
  disk_before : Stat;
  disk_after : Stat }.

(** [fsm.process_event] in an action: the event waits for the end of the transition. *)
Definition send (e : event) (m : Hasher) : Hasher := set_messages (messages m ++ [e]) m.

(** [uploader/detail/hasher_transitions.hpp:88-116 OpenFile] *)
Definition OpenFile (d : Disk) (st : hashing) (m : Hasher) : option Hasher :=
  match Open (disk_fopen d) (disk_size d) with
  | inr ec => Some (send (Failed ec) m)
  | inl io => Some (send (Next st io 0) m)
  end.

(** One read of the stream and what [HashReader.ReadFile] makes of it. *)
Definition read_file (d : Disk) (st : hashing) (io : FileIO) (pos : Z) :
    hash_event * FileIO :=
  let io := with_handle (disk_change d (file_handle_ io)) io in
  let '(buffer, ec, io) := Read buf_size io in
  (HashReader.ReadFile h0 h_update h_digest st pos (disk_before d) buffer ec (disk_after d), io).

(** [None] is an exception.
    [uploader/detail/hasher_transitions.hpp:118-193 ReadFile] *)
Definition ReadFile (d : Disk) (st : hashing) (io : FileIO) (pos : Z) (m : Hasher) :
    option Hasher :=
  match read_file d st io pos with
  | (ReadNext st pos, io) => Some (set_posted (posted m ++ [Next st io pos]) m)
  | (HashSuccess st hash, _) => Some (send (Hashed st hash) m)
  | (HashError ec, _) => Some (send (Failed ec) m)
  | (Threw, _) => None
  end.

(** [uploader/hasher.cpp:85-97 transition_table] *)
Definition transition_table (d : Disk) (s : hstate) (e : event) :
    option (hstate * (Hasher -> option Hasher)) :=
  match s, e with
  | Unstarted, StartHash st => Some (Started, OpenFile d st)
  | Started, Next st io pos => Some (Reading, ReadFile d st io pos)
  | Started, Failed _ => Some (Failure, Some)
  | Reading, Hashed _ _ => Some (Success, Some)
  | Reading, Next st io pos => Some (Reading, ReadFile d st io pos)
  | Reading, Failed _ => Some (Failure, Some)
  | _, _ => None
  end.

(** The hashes of [Success], with no [mtime].
    [uploader/hasher.cpp:53-69 on_entry] *)
Definition hashes_of (path : str) (st : hashing) (hash : D) : FileHashes :=
  {| fh_path := path; fh_file_size := filesize st; fh_mtime := None; fh_hash := hash;
     fh_chunk_hashes := chunk_hashes st; fh_chunk_ranges := chunk_ranges st |}.

(** [uploader/hasher.cpp:51-79 on_entry] *)
Definition on_entry (s : hstate) (e : event) (m : Hasher) : Hasher :=
  match s, e with
  | Success, Hashed st hash =>
      set_callbacks (callbacks m ++ [(no_error, Some (hashes_of (filepath m) st hash))]) m
  | Failure, Failed ec => set_callbacks (callbacks m ++ [(ec, None)]) m
  | _, _ => m
  end.

Definition is_terminal (s : hstate) : bool :=
  match s with Success | Failure => true | _ => false end.

(** A terminate state swallows an event; without a row it is lost.
    [uploader/hasher.cpp:99-107 no_transition] *)
Definition process_one (d : Disk) (e : event) (m : Hasher) : Hasher :=
  if is_terminal (current m) then m
  else match transition_table d (current m) e with
  | None => set_improper (improper m ++ [(current m, e)]) m
  | Some (target, action) =>
      match action m with
      | None => set_threw true m
      | Some m => on_entry target e (set_current target m)
      end
  end.

Fixpoint process_messages (fuel : nat) (d : Disk) (m : Hasher) : option Hasher :=
  match messages m with
  | [] => Some m
  | e :: messages =>
      match fuel with
      | O => None
      | S fuel => process_messages fuel d (process_one d e (set_messages messages m))
      end
  end.

(** The event, an event of its action and an event of that one's action. *)
Definition message_fuel : nat := 3.

(** [process_event] of the back end, from outside. *)
Definition process_event (d : Disk) (e : event) (m : Hasher) : option Hasher :=
  process_messages message_fuel d (send e m).

(** [uploader/hasher.cpp:126-150 Hasher] *)
Definition Create (path : str) (size time : Z) : option Hasher :=
  chunk_ranges ← ChunkRanges (chunk_fuel size) size;
  Some {| filepath := path; data := SetupHasher h0 chunk_ranges size time;
          current := Unstarted; messages := []; posted := []; callbacks := [];
          improper := []; threw := false |}.

(** [uploader/hasher.cpp:168-173 Start] *)
Definition Start (d : Disk) (m : Hasher) : option Hasher :=
  process_event d (StartHash (data m)) m.

(** [uploader/hasher.cpp:175-182 Cancel] *)
Definition Cancel (d : Disk) (m : Hasher) : option Hasher :=
  process_event d (Failed (upload_error UploadCancelled)) m.

(** The [io_service] runs the first function that was posted. *)
Definition RunPosted (d : Disk) (m : Hasher) : option Hasher :=
  match posted m with
  | [] => Some m
  | e :: posted => process_event d e (set_posted posted m)
  end.

Inductive input := DoStart (d : Disk) | DoCancel (d : Disk) | DoRun (d : Disk).

Definition step (i : input) : Hasher -> option Hasher :=
  match i with DoStart d => Start d | DoCancel d => Cancel d | DoRun d => RunPosted d end.

Fixpoint run (inputs : list input) (m : Hasher) : option Hasher :=
  match inputs with
  | [] => Some m
  | i :: inputs => m ← step i m; run inputs m
  end.

(** ** What an event does *)

(** The end of a hasher with a report. *)
Definition report (s : hstate) (r : error_code * option FileHashes) (m : Hasher) : Hasher :=
  set_callbacks (callbacks m ++ [r]) (set_current s m).

(** What the result of a read does. *)
Definition after_read (r : hash_event * FileIO) (m : Hasher) : Hasher :=
  match r with
  | (ReadNext st pos, io) => set_posted (posted m ++ [Next st io pos]) (set_current Reading m)
  | (HashSuccess st hash, _) => report Success (no_error, Some (hashes_of (filepath m) st hash)) m
  | (HashError ec, _) => report Failure (ec, None) m
  | (Threw, _) => set_threw true m
  end.

Definition working (s : hstate) : bool :=
  match s with Started | Reading => true | _ => false end.

Ltac by_state m :=
  destruct m as [path dat s ms po cb im th]; cbn in *; destruct s; try done; subst; try done.

Lemma process_messages_none fuel d m : messages m = [] -> process_messages fuel d m = Some m.
Proof. intros Hm. by destruct fuel; cbn; rewrite Hm. Qed.

Lemma process_messages_send fuel d e m :
  messages m = [] ->
  process_messages (S fuel) d (send e m) = process_messages fuel d (process_one d e m).
Proof. destruct m. cbn. by intros ->. Qed.

Lemma process_one_next d st io pos m :
  working (current m) = true ->
  process_one d (Next st io pos) m =
  match ReadFile d st io pos m with
  | None => set_threw true m
  | Some m => set_current Reading m
  end.
Proof. unfold process_one. by destruct (current m). Qed.

Lemma process_next d st io pos fuel m :
  messages m = [] -> working (current m) = true ->
  process_messages (S (S fuel)) d (send (Next st io pos) m) =
  Some (after_read (read_file d st io pos) m).
Proof.
  intros Hm Hw. rewrite process_messages_send, process_one_next by done. unfold ReadFile.
  destruct (read_file d st io pos) as [[] io']; cbn [after_read];
    try (by apply process_messages_none).
  - change (set_current Reading (send ?e m)) with (send e (set_current Reading m)).
    rewrite process_messages_send by done. by apply process_messages_none.
  - change (set_current Reading (send ?e m)) with (send e (set_current Reading m)).
    rewrite process_messages_send by done. by apply process_messages_none.
Qed.

Lemma process_failed d ec fuel m :
  messages m = [] ->
  process_messages (S fuel) d (send (Failed ec) m) =
  Some (if is_terminal (current m) then m
        else if working (current m) then report Failure (ec, None) m
        else set_improper (improper m ++ [(current m, Failed ec)]) m).
Proof. intros Hm. by_state m; by destruct fuel. Qed.

Lemma process_start d st m :
  messages m = [] ->
  process_event d (StartHash st) m =
  Some (if is_terminal (current m) then m
        else if working (current m) then set_improper (improper m ++ [(current m, StartHash st)]) m
        else match Open (disk_fopen d) (disk_size d) with
             | inr ec => report Failure (ec, None) m
             | inl io => after_read (read_file d st io 0) (set_current Started m)
             end).
Proof.
  intros Hm. unfold process_event, message_fuel.
  destruct (is_terminal (current m)) eqn:Ht; [by by_state m|].
  destruct (working (current m)) eqn:Hw; [by by_state m|].
  assert (process_messages 3 d (send (StartHash st) m) =
    process_messages 2 d (send match Open (disk_fopen d) (disk_size d) with
      inr ec => Failed ec | inl io => Next st io 0 end (set_current Started m))) as ->.
  { by_state m. cbn. unfold process_one, OpenFile. cbn. by destruct (Open _ _). }
  destruct (Open _ _); [by rewrite process_next|by rewrite process_failed].
Qed.
Lemma process_terminal d e m :
  messages m = [] -> is_terminal (current m) = true -> process_event d e m = Some m.
Proof. intros Hm Ht. unfold process_event, message_fuel. by_state m. Qed.

(** ** It reports once *)

(** The machines that inputs can lead to. *)
Record hasher_ok (m : Hasher) : Prop := {
  ok_messages : messages m = [];
  ok_reports : length (callbacks m) = if is_terminal (current m) then 1%nat else 0%nat;
  ok_posted :
    match current m with
    | Unstarted => posted m = [] /\ threw m = false
    | Started => posted m = [] /\ threw m = true
    | Reading => if threw m then posted m = []
                 else exists st io pos, posted m = [Next st io pos]
    | _ => True
    end }.

Lemma after_read_ok r m :
  messages m = [] -> callbacks m = [] -> posted m = [] -> working (current m) = true ->
  threw m = false -> hasher_ok (after_read r m).
Proof.
  intros Hm Hc Hp Hw Ht. destruct r as [[st pos|st hash|ec|] io]; by_state m; split; cbn; eauto.
Qed.

Lemma no_report m : hasher_ok m -> is_terminal (current m) = false -> callbacks m = [].
Proof. intros [_ Hr _] Ht. rewrite Ht in Hr. by apply nil_length_inv. Qed.

Lemma step_ok i m : hasher_ok m -> exists m', step i m = Some m' /\ hasher_ok m'.
Proof.
  intros Hok. pose proof Hok as [Hm Hr Hp].
  destruct (is_terminal (current m)) eqn:Ht.
  { destruct i; cbn [step]; unfold Start, Cancel, RunPosted; try rewrite process_terminal by done;
      eauto.
    destruct (posted m) as [|e ps]; eauto. rewrite process_terminal by done.
    eexists. split; [done|]. split; cbn; rewrite ?Ht; try done. clear Hr Hp Hok. by_state m. }
  pose proof (no_report m Hok Ht) as Hc.
  destruct i as [d|d|d]; cbn [step].
  - unfold Start. rewrite process_start by done. rewrite Ht. eexists. split; [done|].
    destruct (working (current m)) eqn:Hw; [by_state m; by split|].
    destruct (Open _ _); [apply after_read_ok; by_state m; naive_solver|by_state m; by split].
  - unfold Cancel, process_event, message_fuel. rewrite process_failed by done. rewrite Ht.
    eexists. split; [done|]. destruct (working (current m)) eqn:Hw; by_state m; by split.
  - unfold RunPosted. destruct (posted m) as [|e ps] eqn:Hps; [eauto|].
    destruct (current m) eqn:Hs; try done; try (by destruct Hp).
    destruct (threw m) eqn:Hth; [done|]. destruct Hp as (st & io & pos & [= -> ->]).
    unfold process_event, message_fuel.
    rewrite process_next by (try done; cbn; by rewrite Hs).
    eexists. split; [done|]. apply after_read_ok; try done. cbn. by rewrite Hs.
Qed.

Lemma run_ok inputs m : hasher_ok m -> exists m', run inputs m = Some m' /\ hasher_ok m'.
Proof.
  revert m. induction inputs as [|i inputs IH]; intros m Hok; cbn; [eauto|].
  destruct (step_ok i m Hok) as (m' & -> & Hok'). cbn. by apply IH.
Qed.

Lemma Create_ok path size time m : Create path size time = Some m -> hasher_ok m.
Proof. unfold Create. intros (r & _ & [= <-])%bind_Some. by split. Qed.

(** Whatever is called and posted, in any order: a hasher reports at most once, and has
    reported exactly when it has ended; while it reads, it has posted exactly one read, unless an
    exception stopped it. *)
Theorem hasher_reports_once path size time inputs m0 :
  Create path size time = Some m0 ->
  exists m, run inputs m0 = Some m /\
    length (callbacks m) = (if is_terminal (current m) then 1%nat else 0%nat) /\
    (working (current m) = true -> threw m = false ->
       current m = Reading /\ length (posted m) = 1%nat).
Proof.
  intros Hok%Create_ok. destruct (run_ok inputs m0 Hok) as (m & -> & [_ Hr Hp]).
  exists m. split_and!; try done. intros Hw Ht. rewrite Ht in Hp.
  destruct (current m); try done; [by destruct Hp|]. by destruct Hp as (? & ? & ? & ->).
Qed.

(** A cancellation ends a hasher at once, before it is started it does nothing: a start after it
    reads the file all the same. *)
Theorem cancel_ends d m :
  hasher_ok m ->
  exists m', Cancel d m = Some m' /\
    (working (current m) = true ->
       current m' = Failure /\ callbacks m' = [(upload_error UploadCancelled, None)]) /\
    (working (current m) = false -> callbacks m' = callbacks m /\
       forall d', callbacks <$> Start d' m' = callbacks <$> Start d' m).
Proof.
  intros Hok. pose proof Hok as [Hm _ _].
  unfold Cancel, process_event, message_fuel. rewrite process_failed by done.
  eexists. split; [done|]. split.
  - intros Hw. rewrite Hw. assert (is_terminal (current m) = false) as Ht by by_state m.
    rewrite Ht. cbn. by rewrite (no_report m Hok Ht).
  - intros Hw. rewrite Hw. destruct (is_terminal (current m)) eqn:Ht; [done|].
    split; [done|]. intros d'. unfold Start.
    rewrite !process_start by done. cbn. rewrite Ht, Hw. cbn. f_equal.
    destruct (Open _ _); [|done]. by destruct (read_file _ _ _ _) as [[] ?].
Qed.

(** ** It ends *)

(** The inputs that run what was posted. *)
Fixpoint runs (inputs : list input) : Z :=
  match inputs with
  | [] => 0
  | DoRun _ :: inputs => runs inputs + 1
  | _ :: inputs => runs inputs
  end.

(** All chunks end within the first [n] bytes. *)
Definition chunks_within (n : Z) (r : list (Z * Z)) : Prop :=
  forall i b e, r !! i = Some (b, e) -> e <= n.

Lemma ParseRead_bounds fuel n st p buffer st' total :
  chunks_within n (chunk_ranges st) -> p <= n ->
  ParseRead h0 h_update h_digest fuel st p buffer = Parsed st' total ->
  total = p + Z.of_nat (length buffer) /\ total <= n /\ chunk_ranges st' = chunk_ranges st.
Proof.
  revert st p buffer. induction fuel as [|fuel IH]; intros st p buffer Hn Hp; cbn [ParseRead];
    destruct (Z.eqb_spec (Z.of_nat (length buffer)) 0) as [E|E]; try done;
    try (intros [= <- <-]; split_and!; try done; lia).
  destruct (chunk_ranges st !! length (chunk_hashes st)) as [[b e]|] eqn:Hr; [|done].
  pose proof (Hn _ _ _ Hr) as He.
  destruct (Z.ltb_spec p e) as [Hpe|]; [|done]. cbn [negb].
  destruct (Z.ltb_spec (p + Z.of_nat (length buffer)) e) as [Hlt|Hge].
  - intros [= <- <-]. split_and!; try done; lia.
  - destruct (Z.ltb_spec 0 (Z.of_nat (length buffer) - (e - p))) as [Hl|Hl].
    + intros (Ht & Hl' & Hr')%IH; [|done|lia]. rewrite length_drop in Ht. split_and!; [lia|done..].
    + intros [= <- <-]. split_and!; try done; lia.
Qed.

(** A read that posts the next one was a whole one. *)
Lemma read_file_next d st io pos st' total io' n :
  chunks_within n (chunk_ranges st) -> pos <= n ->
  read_file d st io pos = (ReadNext st' total, io') ->
  total = pos + buf_size /\ total <= n /\ chunk_ranges st' = chunk_ranges st.
Proof.
  intros Hn Hp. unfold read_file, HashReader.ReadFile.
  destruct (Read buf_size _) as [[buffer ec] io1] eqn:HR.
  destruct (VerifyFileUnchanged st (disk_before d)); [done|].
  case_decide; [by repeat case_match|]. destruct (is_error ec) eqn:He; [done|].
  destruct (ParseRead _ _ _ _ _ _ _) eqn:HP; try done. intros [= <- <- <-].
  apply (ParseRead_bounds _ n) in HP as (Ht & Hl & Hr); [|done..].
  enough (Z.of_nat (length buffer) = buf_size) by (split_and!; [lia|done..]).
  unfold Read in HR. destruct (fread _ _) as [bytes f]. simplify_eq.
  destruct (Z.eqb_spec (Z.of_nat (length buffer)) buf_size) as [|Hne]; [done|].
  exfalso. revert He. unfold read_failure. by repeat case_match.
Qed.

(** What a hasher still reads: the next position is within the size and a read further for
    every read that was made. *)
Definition reading_within (n pos : Z) (m : Hasher) : Prop :=
  current m = Reading -> threw m = false ->
  forall e, e ∈ posted m -> exists st io p, e = Next st io p /\
    chunks_within n (chunk_ranges st) /\ pos <= p <= n.

Lemma after_read_within n pos d st io m :
  posted m = [] -> chunks_within n (chunk_ranges st) -> pos <= n ->
  reading_within n (pos + buf_size) (after_read (read_file d st io pos) m).
Proof.
  intros Hp Hn Hpos. destruct (read_file d st io pos) as [[st' p|st' hash|ec|] io'] eqn:HR; try done.
  apply (read_file_next _ _ _ _ _ _ _ n) in HR as (-> & Hle & Hr); [|done..].
  intros _ _ e. cbn. rewrite Hp. intros ->%list_elem_of_singleton. exists st', io', (pos + buf_size).
  rewrite Hr. split_and!; try done; lia.
Qed.

Lemma reading_within_weaken n pos pos' m :
  reading_within n pos m -> pos' <= pos -> reading_within n pos' m.
Proof.
  intros Hw Hle Hc Ht e He. destruct (Hw Hc Ht e He) as (st & io & p & -> & Hn & Hp).
  exists st, io, p. split_and!; try done; lia.
Qed.

Lemma step_within n pos i m m' :
  hasher_ok m -> current m <> Unstarted -> reading_within n pos m -> step i m = Some m' ->
  current m' <> Unstarted /\ reading_within n (pos + buf_size * runs [i]) m'.
Proof.
  intros Hok Hs Hw. pose proof Hok as [Hm Hr Hp].
  destruct i as [d|d|d]; cbn [step runs]; rewrite ?Z.add_0_l, ?Z.mul_1_r, ?Z.mul_0_r, ?Z.add_0_r.
  - unfold Start. rewrite process_start by done. intros [= <-]. by_state m.
  - unfold Cancel, process_event, message_fuel. rewrite process_failed by done. intros [= <-].
    by_state m.
  - unfold RunPosted. destruct (posted m) as [|e ps] eqn:Hps.
    { intros [= <-]. split; [done|]. intros _ _ e. rewrite Hps. by intros ?%elem_of_nil. }
    destruct (is_terminal (current m)) eqn:Ht.
    { rewrite process_terminal by done. intros [= <-]. by_state m. }
    destruct (current m) eqn:Hc; try done; [by destruct Hp|].
    destruct (threw m) eqn:Hth; [done|]. destruct Hp as (st & io & p & [= -> ->]).
    destruct (Hw Hc Hth (Next st io p)) as (? & ? & ? & [= <- <- <-] & Hn & Hpos);
      [rewrite Hps; by apply list_elem_of_here|].
    unfold process_event, message_fuel. rewrite process_next by (try done; cbn; by rewrite Hc).
    intros [= <-]. split.
    + cbn. destruct (read_file d st io p) as [[] ?]; cbn; congruence.
    + apply (reading_within_weaken _ (p + buf_size)); [|lia]. apply after_read_within; done || lia.
Qed.

Lemma run_within n inputs pos m m' :
  hasher_ok m -> current m <> Unstarted -> reading_within n pos m -> run inputs m = Some m' ->
  current m' <> Unstarted /\ reading_within n (pos + buf_size * runs inputs) m'.
Proof.
  revert pos m. induction inputs as [|i inputs IH]; intros pos m Hok Hs Hw; cbn [run].
  - intros [= <-]. cbn [runs]. by rewrite Z.mul_0_r, Z.add_0_r.
  - destruct (step_ok i m Hok) as (m1 & Hstep & Hok1). rewrite Hstep. cbn. intros Hrun.
    destruct (step_within n pos i m m1 Hok Hs Hw Hstep) as [Hs1 Hw1].
    destruct (IH _ m1 Hok1 Hs1 Hw1 Hrun) as [Hs' Hw']. split; [done|]. eapply reading_within_weaken; [exact Hw'|].
    destruct i; cbn [runs]; lia.
Qed.

(** A hasher that was started ends: whatever the file system says and whatever happens to the
    file, when one posted read per 8192 bytes of the size has been run, it has reported or an
    exception has stopped it. *)
Theorem hasher_ends path size time d inputs m0 m :
  0 <= size <= 2 ^ 64 - 2 ^ 26 ->
  Create path size time = Some m0 -> run (DoStart d :: inputs) m0 = Some m ->
  size / buf_size <= runs inputs ->
  length (callbacks m) = 1%nat \/ threw m = true.
Proof.
  intros Hsize HC Hrun Hruns. pose proof (Create_ok _ _ _ _ HC) as Hok0.
  destruct (ChunkRanges_contiguous size Hsize) as (r & HR & Hf & Hc & _).
  unfold Create in HC. rewrite (HR _ Hf) in HC. cbn in HC. injection HC as <-.
  set (m0 := Build_Hasher _ _ _ _ _ _ _ _) in *.
  destruct (step_ok (DoStart d) m0 Hok0) as (m1 & Hstep & Hok1).
  cbn [run] in Hrun. rewrite Hstep in Hrun. cbn in Hrun.
  destruct (run_ok inputs m1 Hok1) as (m' & Hm' & Hok). rewrite Hm' in Hrun. injection Hrun as ->.
  cbn [step] in Hstep. unfold Start in Hstep. rewrite process_start in Hstep by done.
  injection Hstep as Hstep. cbn in Hstep.
  assert (current m1 <> Unstarted /\ reading_within size buf_size m1) as [Hs1 Hw1].
  { subst m1. destruct (Open _ _) as [io|]; [|done]. split.
    - by destruct (read_file _ _ _ _) as [[] ?].
    - apply (after_read_within size 0); [done| |lia]. intros i b e Hi.
      by destruct (proj2 (proj2 Hc) i b e Hi) as (_ & ? & _). }
  destruct (run_within size inputs buf_size m1 m Hok1 Hs1 Hw1 Hm') as [Hs Hw].
  destruct (threw m) eqn:Ht; [by right|left]. destruct Hok as [_ Hr Hp]. rewrite Hr, Ht in *.
  destruct (current m) eqn:Hcur; try done; [by destruct Hp|exfalso].
  destruct Hp as (st & io & p & Hp).
  destruct (Hw Hcur Ht (Next st io p)) as (? & ? & ? & _ & _ & ?).
  { rewrite Hp. by apply list_elem_of_here. }
  pose proof (Z.mul_succ_div_gt size buf_size ltac:(done)). unfold buf_size in *. lia.
Qed.

(** ** It hashes the file *)

Section Unchanged.
Hypothesis h_update_app : forall h a b, h_update (h_update h a) b = h_update h (a ++ b).
Hypothesis h_update_nil : forall h, h_update h [] = h.

(** A file system on which nothing happens. *)
Definition quiet (f : FILE) (hint : option Z) (s : Stat) : Disk :=
  {| disk_fopen := inl f; disk_size := hint; disk_change := fun f => f;
     disk_before := s; disk_after := s |}.

Lemma run_nothing_posted n d m : posted m = [] -> run (replicate n (DoRun d)) m = Some m.
Proof. intros Hp. induction n as [|n IH]; [done|]. cbn. unfold RunPosted. by rewrite Hp. Qed.

(** The reads that a hasher posts are the loop of [HashReader]. *)
Lemma run_hash_loop f hint s file fuel st pos io m st' hash :
  messages m = [] -> posted m = [] -> working (current m) = true ->
  chunks_within (Z.of_nat (length file)) (chunk_ranges st) ->
  0 <= pos <= Z.of_nat (length file) -> reads_from file pos io ->
  hash_loop h0 h_update h_digest fuel s file st pos = Some (HashSuccess st' hash) ->
  exists m', run (replicate fuel (DoRun (quiet f hint s)))
      (after_read (read_file (quiet f hint s) st io pos) m) = Some m' /\
    callbacks m' = callbacks m ++ [(no_error, Some (hashes_of (filepath m) st' hash))].
Proof.
  revert st pos io m. induction fuel as [|fuel IH]; intros st pos io m Hm Hp Hw Hn Hpos Hr;
    cbn [hash_loop];
    destruct (Read_is_FileIO_Read file pos buf_size io) as (io' & HR & Hio'); try done; try lia;
    assert (read_file (quiet f hint s) st io pos =
      (HashReader.ReadFile h0 h_update h_digest st pos s (FileIO_Read file pos buf_size).1
         (FileIO_Read file pos buf_size).2 s, io')) as Hrf
      by (unfold read_file; cbn; replace (with_handle (file_handle_ io) io) with io by (by destruct io);
          by rewrite HR);
    rewrite Hrf; destruct (FileIO_Read file pos buf_size) as [buffer ec]; cbn [fst snd] in *;
    destruct (HashReader.ReadFile _ _ _ _ _ _ _ _ _) as [st1 total|st1 hash1|ec1|] eqn:HF;
    try done; try (intros [= <- <-]; eexists; by rewrite run_nothing_posted).
  intros Hloop. cbn [replicate run after_read step].
  destruct (read_file_next _ _ _ _ _ _ _ _ Hn (proj2 Hpos) Hrf) as (-> & Hle & Hr1).
  unfold RunPosted. cbn [posted set_posted]. rewrite Hp. cbn [app].
  unfold process_event, message_fuel. rewrite process_next by done. cbn [mbind option_bind].
  eapply (IH st1 (pos + buf_size) io' (set_posted []
    (set_posted [Next st1 io' (pos + buf_size)] (set_current Reading m)))); [| | | | | |exact Hloop].
  - exact Hm.
  - reflexivity.
  - reflexivity.
  - by rewrite Hr1.
  - unfold buf_size in *; lia.
  - apply Hio'. unfold HashReader.ReadFile in HF. destruct (VerifyFileUnchanged _ _); [done|].
    case_decide; [by repeat case_match|]. by destruct (is_error ec).
Qed.

(** C31 A started hasher of a file that does not change reports success once the posted reads have
    run, with the size, the hash of the contents and one hash for each chunk, of exactly the bytes
    of its range. *)
Theorem hasher_hashes_file path file time hint f :
  Z.of_nat (length file) <= 2 ^ 64 - 2 ^ 26 ->
  contents f = file -> position f = 0 -> bad f = None -> feof f = false ->
  let size := Z.of_nat (length file) in
  let d := quiet f hint {| st_mtime := inl time; st_size := inl size |} in
  exists ranges m0 m,
    ChunkRanges (chunk_fuel size) size = Some ranges /\
    Create path size time = Some m0 /\
    run (DoStart d :: replicate (Z.to_nat (size / buf_size)) (DoRun d)) m0 = Some m /\
    callbacks m = [(no_error, Some
      {| fh_path := path; fh_file_size := size; fh_mtime := None;
         fh_hash := h_digest (h_update h0 file);
         fh_chunk_hashes := range_hash h0 h_update h_digest file <$> ranges;
         fh_chunk_ranges := ranges |})].
Proof.
  intros Hlen Hc Hp Hb He size d.
  destruct (hash_file_hashes h0 h_update h_digest h_update_app h_update_nil file time Hlen)
    as (ranges & st & _ & Hloop & Hh & Hr & Hcont & Hsz & HR).
  unfold Create. subst size. rewrite HR. cbn [mbind option_bind].
  set (m0 := Build_Hasher _ _ _ _ _ _ _ _). exists ranges, m0.
  cbn [run step]. unfold Start. rewrite process_start by done. cbn [mbind option_bind is_terminal
    working current m0 Open disk_fopen disk_size d quiet].
  set (io := {| file_handle_ := f; size_hint_ := _ |}).
  destruct (run_hash_loop f hint {| st_mtime := inl time; st_size := inl (Z.of_nat (length file)) |}
    file (Z.to_nat (Z.of_nat (length file) / buf_size)) (SetupHasher h0 ranges (Z.of_nat (length file)) time)
    0 io (set_current Started m0) st (h_digest (h_update h0 file))) as (m & Hm & Hcb).
  1-3: reflexivity.
  - intros i b e Hi. by destruct (proj2 (proj2 Hcont) i b e Hi) as (_ & ? & _).
  - lia.
  - by split.
  - exact Hloop.
  - exists m. split_and!; try done. rewrite Hcb. cbn. unfold hashes_of.
    by rewrite Hsz, Hh, Hr.
Qed.
End Unchanged.
End Machine.

(** ** Witnesses: the hasher that remembers what it was given *)

Definition ex_file (s : str) : FILE :=
  {| contents := s; position := 0; feof := false; ferror := false; bad := None;
     writable := false; appending := false |}.

Definition ex_disk (s : str) (size : Z) : Disk :=
  quiet (ex_file s) None {| st_mtime := inl 7; st_size := inl size |}.

Lemma hasher_hashes_file_witness :
  exists ranges m0 m,
    ChunkRanges (chunk_fuel 3) 3 = Some ranges /\
    Create (D := str) ([] : str) (B "f") 3 7 = Some m0 /\
    run [] app id [DoStart (ex_disk (B "abc") 3)] m0 = Some m /\
    callbacks m = [(no_error, Some
      {| fh_path := B "f"; fh_file_size := 3; fh_mtime := None; fh_hash := B "abc";
         fh_chunk_hashes := range_hash [] app id (B "abc") <$> ranges;
         fh_chunk_ranges := ranges |})].
Proof.
  exact (hasher_hashes_file [] app id (fun h a b => eq_sym (app_assoc h a b)) (@app_nil_r _)
    (B "f") (B "abc") 7 None (ex_file (B "abc")) ltac:(vm_compute; discriminate)
    eq_refl eq_refl eq_refl eq_refl).
Defined.

Definition ex_hasher : Hasher (H := str) (D := str) :=
  {| filepath := B "f"; data := SetupHasher [] [(0, 3)] 3 7; current := Unstarted; messages := [];
     posted := []; callbacks := []; improper := []; threw := false |}.

Lemma hasher_ends_witness :
  run [] app id [DoStart (ex_disk (B "abcd") 4)] ex_hasher
    = Some (report Failure (file_error FileModified, None) ex_hasher) /\
  (length (callbacks (report Failure (file_error FileModified, None) ex_hasher)) = 1%nat \/
   threw (report Failure (file_error FileModified, None) ex_hasher) = true).
Proof.
  split; [vm_compute; reflexivity|].
  apply (hasher_ends [] app id (B "f") 3 7 (ex_disk (B "abcd") 4) [] ex_hasher);
    [lia|vm_compute; reflexivity..|vm_compute; discriminate].
Defined.

(** An empty file to which a byte is written after its size was looked up: there is no chunk
    for the byte, the exception leaves the machine without an event, and no report is made
    unless somebody cancels. *)
Theorem grown_file_never_reports n :
  exists m0 m, Create (D := str) ([] : str) (B "f") 0 7 = Some m0 /\
    run [] app id (DoStart (ex_disk (B "x") 0) :: replicate n (DoRun (ex_disk (B "x") 0))) m0
      = Some m /\
    callbacks m = [] /\ threw m = true.
Proof.
  eexists. eexists. split; [vm_compute; reflexivity|]. split; [|split].
  - cbn [run step]. unfold Start. rewrite process_start by done.
    cbn [mbind option_bind]. apply run_nothing_posted. by vm_compute.
  - by vm_compute.
  - by vm_compute.
Qed.
