(* ===== verification/TimedEvents.v ===== *)
(** * Timed events ([utils/timed_events.hpp])

    One [steady_timer] serves a multimap of events ordered by their time.  The state
    is explicit: the map, the tasks posted to the [io_service], the wait pending on
    the timer.  The event processor is the client's code; it may call back into the
    object ("Unlock incase callback calls a TimedActions method"), so a client is a
    function from an event to the calls it makes.  [delivered] and [added] are the
    history of the object: the code does not keep them, the theorems speak of them. *)
From S2P Require Import Prelude Errors.

Open Scope Z_scope.

(** [std::make_error_code (std::errc::operation_canceled)]. *)
Definition operation_canceled : error_code := Ec cat_generic 125.

Section TimedEvents.
Context {E : Type}.

Inductive task :=
  | PostEvent (event : E) (ec : error_code)
  | PostResetTimer.

(** [utils/timed_events.hpp:154-178 TimedEvents] *)
Record TimedEvents := {
  running_ : bool;
  data_ : list (Z * E);            (** the multimap, in iteration order *)
  io_service_ : list task;         (** the queue of posted tasks *)
  timeout_timer_ : option Z;       (** the expiry of the pending wait *)
  delivered : list (E * error_code);
  added : list E }.

(** [utils/timed_events.hpp:51-62 Create] *)
Definition Create : TimedEvents :=
  {| running_ := true; data_ := []; io_service_ := []; timeout_timer_ := None;
     delivered := []; added := [] |}.

(** [std::multimap::insert]: after the elements with an equivalent key. *)
Fixpoint multimap_insert (t : Z) (e : E) (m : list (Z * E)) : list (Z * E) :=
  match m with
  | [] => [(t, e)]
  | (t', e') :: m' => if t <? t' then (t, e) :: m else (t', e') :: multimap_insert t e m'
  end.

(** [utils/timed_events.hpp:130-141 Add] *)
Definition AddAt (timeout_time : Z) (event : E) (s : TimedEvents) : TimedEvents :=
  {| running_ := running_ s; data_ := multimap_insert timeout_time event (data_ s);
     io_service_ := io_service_ s ++ [PostResetTimer];
     timeout_timer_ := timeout_timer_ s; delivered := delivered s;
     added := added s ++ [event] |}.

(** [utils/timed_events.hpp:114-122 Add] *)
Definition Add (now duration : Z) (event : E) (s : TimedEvents) : TimedEvents :=
  AddAt (now + duration) event s.

(** The loop pops the first element and posts it, until the map is empty.
    [utils/timed_events.hpp:91-103 CancelAll] *)
Fixpoint CancelAll_loop (data : list (Z * E)) (io : list task) : list task :=
  match data with
  | [] => io
  | (_, event) :: data => CancelAll_loop data (io ++ [PostEvent event operation_canceled])
  end.

(** [utils/timed_events.hpp:85-106 CancelAll] *)
Definition CancelAll (s : TimedEvents) : TimedEvents :=
  {| running_ := running_ s; data_ := [];
     io_service_ := CancelAll_loop (data_ s) (io_service_ s);
     timeout_timer_ := None; delivered := delivered s; added := added s |}.

(** [utils/timed_events.hpp:73-80 Stop] *)
Definition Stop (s : TimedEvents) : TimedEvents :=
  CancelAll {| running_ := false; data_ := data_ s; io_service_ := io_service_ s;
               timeout_timer_ := timeout_timer_ s; delivered := delivered s;
               added := added s |}.

(** [utils/timed_events.hpp:148-152 Size] *)
Definition Size (s : TimedEvents) : nat := length (data_ s).

(** The calls a client can make on the object. *)
Inductive call :=
  | CallAdd (timeout_time : Z) (event : E)
  | CallCancelAll
  | CallStop.

Definition do_call (s : TimedEvents) (c : call) : TimedEvents :=
  match c with
  | CallAdd t e => AddAt t e s
  | CallCancelAll => CancelAll s
  | CallStop => Stop s
  end.

(** The client: the calls the event processor makes when it is given an event. *)
Context (event_processor_ : E -> error_code -> list call).

Definition deliver (e : E) (ec : error_code) (s : TimedEvents) : TimedEvents :=
  foldl do_call
    {| running_ := running_ s; data_ := data_ s; io_service_ := io_service_ s;
       timeout_timer_ := timeout_timer_ s; delivered := delivered s ++ [(e, ec)];
       added := added s |}
    (event_processor_ e ec).

Definition set_data (d : list (Z * E)) (s : TimedEvents) : TimedEvents :=
  {| running_ := running_ s; data_ := d; io_service_ := io_service_ s;
     timeout_timer_ := timeout_timer_ s; delivered := delivered s; added := added s |}.

Definition set_timer (t : option Z) (s : TimedEvents) : TimedEvents :=
  {| running_ := running_ s; data_ := data_ s; io_service_ := io_service_ s;
     timeout_timer_ := t; delivered := delivered s; added := added s |}.

(** [now] is read once, before the loop.  A client that keeps adding events that are
    already due keeps the loop busy: it has fuel.
    [utils/timed_events.hpp:181-216 ResetTimer] *)
Fixpoint ResetTimer (fuel : nat) (now : Z) (s : TimedEvents) : option TimedEvents :=
  if negb (running_ s) then Some s
  else match data_ s with
  | [] => Some s
  | (timeout, event) :: rest =>
      if timeout <=? now then
        match fuel with
        | O => None
        | S fuel => ResetTimer fuel now (deliver event no_error (set_data rest s))
        end
      else Some (set_timer (Some timeout) s)
  end.

(** [utils/timed_events.hpp:219-227 HandleTimeout] *)
Definition HandleTimeout (fuel : nat) (now : Z) (err : bool) (s : TimedEvents)
    : option TimedEvents :=
  if err then Some s else ResetTimer fuel now s.

(** ** The object in its [io_service] *)

(** What can happen next: a call from outside, the first posted task runs, or the
    timer's wait ends at its expiry. *)
Inductive step : TimedEvents -> TimedEvents -> Prop :=
  | StepCall s c : step s (do_call s c)
  | StepEvent s e ec io :
      io_service_ s = PostEvent e ec :: io ->
      step s (deliver e ec {| running_ := running_ s; data_ := data_ s; io_service_ := io;
                              timeout_timer_ := timeout_timer_ s;
                              delivered := delivered s; added := added s |})
  | StepResetTimer s s' fuel now io :
      io_service_ s = PostResetTimer :: io ->
      ResetTimer fuel now {| running_ := running_ s; data_ := data_ s; io_service_ := io;
                             timeout_timer_ := timeout_timer_ s;
                             delivered := delivered s; added := added s |} = Some s' ->
      step s s'
  | StepTimer s s' fuel now t :
      timeout_timer_ s = Some t -> t <= now ->
      HandleTimeout fuel now false (set_timer None s) = Some s' ->
      step s s'.

Inductive reachable : TimedEvents -> Prop :=
  | ReachCreate : reachable Create
  | ReachStep s s' : reachable s -> step s s' -> reachable s'.

(** ** Order *)

Definition earlier (a b : Z * E) : Prop := a.1 <= b.1.

Lemma multimap_insert_perm t e m : multimap_insert t e m ≡ₚ (t, e) :: m.
Proof.
  induction m as [|[t' e'] m IH]; simpl; [done|].
  destruct (t <? t'); [done|]. rewrite IH. apply Permutation_swap.
Qed.

Lemma multimap_insert_sorted t e m :
  StronglySorted earlier m -> StronglySorted earlier (multimap_insert t e m).
Proof.
  induction 1 as [|[t' e'] m Hs IH Hf]; simpl; [by repeat constructor|].
  destruct (t <? t') eqn:Ht; [apply Z.ltb_lt in Ht|apply Z.ltb_ge in Ht].
  - constructor; [by constructor|]. constructor; [unfold earlier; simpl; lia|].
    eapply Forall_impl; [exact Hf|]. unfold earlier. simpl. intros [] ?. simpl in *. lia.
  - constructor; [done|]. rewrite multimap_insert_perm. by constructor.
Qed.

Lemma CancelAll_loop_app d io :
  CancelAll_loop d io = io ++ ((fun x => PostEvent x.2 operation_canceled) <$> d).
Proof.
  revert io. induction d as [|[t e] d IH]; intros io; simpl; [by rewrite app_nil_r|].
  by rewrite IH, <-app_assoc.
Qed.

(** Predicates that every call preserves hold after a delivery, and after the loop. *)
Lemma deliver_ind (P : TimedEvents -> Prop) e ec s :
  (forall s c, P s -> P (do_call s c)) ->
  P {| running_ := running_ s; data_ := data_ s; io_service_ := io_service_ s;
       timeout_timer_ := timeout_timer_ s; delivered := delivered s ++ [(e, ec)];
       added := added s |} -> P (deliver e ec s).
Proof.
  intros Hc. unfold deliver. generalize (event_processor_ e ec) as cs.
  set (s0 := {| running_ := _ |}). clearbody s0. intros cs. revert s0.
  induction cs as [|c cs IH]; simpl; auto.
Qed.

Lemma ResetTimer_ind (P : TimedEvents -> Prop) fuel now s s' :
  (forall s t e rest, P s -> data_ s = (t, e) :: rest -> t <= now ->
     P (deliver e no_error (set_data rest s))) ->
  P s -> ResetTimer fuel now s = Some s' ->
  exists s1, P s1 /\
    ((s' = s1 /\ (running_ s1 = false \/ data_ s1 = [])) \/
     (exists t e rest, running_ s1 = true /\ data_ s1 = (t, e) :: rest /\ now < t
                       /\ s' = set_timer (Some t) s1)).
Proof.
  intros HP. revert s. induction fuel as [|fuel IH]; intros s Hs; simpl;
    destruct (running_ s) eqn:Hr; simpl; intros H; simplify_eq; eauto 8.
  - destruct (data_ s) as [|[t e] rest] eqn:Hd; simplify_eq; eauto 8.
    destruct (t <=? now) eqn:Ht; simplify_eq. apply Z.leb_gt in Ht.
    exists s. split; [done|]. right. eauto 8.
  - destruct (data_ s) as [|[t e] rest] eqn:Hd; simplify_eq; eauto 8.
    destruct (t <=? now) eqn:Ht; simplify_eq.
    + apply Z.leb_le in Ht. eapply IH; [|exact H]. eauto.
    + apply Z.leb_gt in Ht. exists s. split; [done|]. right. eauto 8.
Qed.

(** The events that wait in the queue of the [io_service]. *)
Definition posted_events (io : list task) : list E :=
  omap (fun t => match t with PostEvent e _ => Some e | PostResetTimer => None end) io.

Definition sorted_data (s : TimedEvents) : Prop := StronglySorted earlier (data_ s).

Lemma do_call_sorted s c : sorted_data s -> sorted_data (do_call s c).
Proof.
  unfold sorted_data. destruct c; simpl; intros; [by apply multimap_insert_sorted|constructor..].
Qed.

Lemma deliver_sorted e ec s : sorted_data s -> sorted_data (deliver e ec s).
Proof. intros. apply deliver_ind; [apply do_call_sorted|done]. Qed.

Lemma ResetTimer_step_sorted now s t e rest :
  sorted_data s -> data_ s = (t, e) :: rest -> t <= now ->
  sorted_data (deliver e no_error (set_data rest s)).
Proof.
  unfold sorted_data at 1. intros Hs Hd _. rewrite Hd in Hs. apply deliver_sorted.
  unfold sorted_data. simpl. by inversion Hs.
Qed.

Lemma ResetTimer_sorted fuel now s s' :
  sorted_data s -> ResetTimer fuel now s = Some s' -> sorted_data s'.
Proof.
  intros Hs H. destruct (ResetTimer_ind sorted_data fuel now s s') as (s1 & Hs1 & Hc);
    [by eauto using ResetTimer_step_sorted|done|done|].
  by destruct Hc as [[-> _]|(t & e & rest & _ & _ & _ & ->)].
Qed.

Lemma step_sorted s s' : step s s' -> sorted_data s -> sorted_data s'.
Proof.
  destruct 1 as [s c|s e ec io Hio|s s' fuel now io Hio H|s s' fuel now t Ht Hle H]; intros Hs.
  - by apply do_call_sorted.
  - by apply deliver_sorted.
  - eapply ResetTimer_sorted, H. done.
  - eapply ResetTimer_sorted, H. done.
Qed.

Lemma reachable_sorted s : reachable s -> sorted_data s.
Proof. induction 1; [constructor|eauto using step_sorted]. Qed.

(** ** Nothing is forgotten *)

(** Some wait or some posted task will look at the first event in time. *)
Definition watched (s : TimedEvents) : Prop :=
  running_ s = true -> forall t e rest, data_ s = (t, e) :: rest ->
  PostResetTimer ∈ io_service_ s \/ exists t', timeout_timer_ s = Some t' /\ t' <= t.

Lemma do_call_watched s c : watched s -> watched (do_call s c).
Proof.
  destruct c; simpl; intros Hw Hr t e rest; simpl; [|done..].
  intros _. left. set_solver.
Qed.

Lemma ResetTimer_watched fuel now s s' :
  ResetTimer fuel now s = Some s' -> watched s'.
Proof.
  intros H. destruct (ResetTimer_ind (fun _ => True) fuel now s s') as (s1 & _ & Hc);
    [done|done|done|].
  destruct Hc as [[-> [Hr|Hd]]|(t & e & rest & _ & Hd & _ & ->)]; unfold watched; simpl;
    [congruence..|]. rewrite Hd. intros _ t' e' rest' [=]. subst. eauto with lia.
Qed.

Lemma step_watched s s' : step s s' -> watched s -> watched s'.
Proof.
  destruct 1 as [s c|s e ec io Hio|s s' fuel now io Hio H|s s' fuel now t Ht Hle H]; intros Hs.
  - by apply do_call_watched.
  - apply deliver_ind; [apply do_call_watched|]. unfold watched in *. simpl. intros Hr t e' rest Hd.
    destruct (Hs Hr t e' rest Hd) as [Hin|?]; [|auto]. rewrite Hio in Hin.
    apply elem_of_cons in Hin as [[=]|?]. auto.
  - eapply ResetTimer_watched, H.
  - eapply ResetTimer_watched, H.
Qed.

(** In every reachable state of a running object, whatever its clients do in their
    callbacks, the events are in the order of their times, and if there is one then a
    [ResetTimer] is posted or the timer is waiting, for no later than the first event:
    no event is left without anything to fire it. *)
Theorem TimedEvents_watched s :
  reachable s -> sorted_data s /\ watched s.
Proof.
  intros Hr. split; [by apply reachable_sorted|].
  induction Hr as [|s s' Hr IH Hs]; [done|]. by eapply step_watched.
Qed.

(** Every event handed to [Add] is in exactly one place. *)
Definition accounted (s : TimedEvents) : Prop :=
  added s ≡ₚ (delivered s).*1 ++ posted_events (io_service_ s) ++ (data_ s).*2.

Lemma posted_events_app a b : posted_events (a ++ b) = posted_events a ++ posted_events b.
Proof. apply omap_app. Qed.

Lemma do_call_accounted s c : accounted s -> accounted (do_call s c).
Proof.
  unfold accounted. destruct c; simpl; intros ->;
    rewrite ?CancelAll_loop_app, ?posted_events_app; simpl; rewrite ?app_nil_r.
  - rewrite multimap_insert_perm. simpl. rewrite <-!app_assoc.
    do 2 f_equiv. by rewrite Permutation_app_comm.
  - do 2 f_equiv. induction (data_ s) as [|[] ? IH]; simpl; [done|by rewrite IH].
  - do 2 f_equiv. induction (data_ s) as [|[] ? IH]; simpl; [done|by rewrite IH].
Qed.

Lemma ResetTimer_accounted fuel now s s' :
  accounted s -> ResetTimer fuel now s = Some s' -> accounted s'.
Proof.
  intros Hs H. destruct (ResetTimer_ind accounted fuel now s s') as (s1 & Hs1 & Hc); [|done..|].
  - intros s1 t e rest Hs1 Hd _. apply deliver_ind; [apply do_call_accounted|].
    unfold accounted in *. simpl. rewrite Hs1, Hd, fmap_app. simpl. rewrite <-!app_assoc. simpl.
    f_equiv. apply Permutation_sym, Permutation_middle.
  - by destruct Hc as [[-> _]|(t & e & rest & _ & _ & _ & ->)].
Qed.

Lemma step_accounted s s' : step s s' -> accounted s -> accounted s'.
Proof.
  destruct 1 as [s c|s e ec io Hio|s s' fuel now io Hio H|s s' fuel now t Ht Hle H]; intros Hs.
  - by apply do_call_accounted.
  - apply deliver_ind; [apply do_call_accounted|]. unfold accounted in *. simpl.
    rewrite Hs, Hio, fmap_app. simpl. by rewrite <-!app_assoc.
  - eapply ResetTimer_accounted, H. unfold accounted in *. simpl. by rewrite Hs, Hio.
  - eapply ResetTimer_accounted, H. done.
Qed.

(** C40 No event is lost and none is delivered twice: in every reachable state the
    events handed to [Add] are, with their multiplicity, those delivered, those posted
    as cancelled and not yet run, and those in the map. *)
Theorem TimedEvents_conservation s :
  reachable s ->
  added s ≡ₚ (delivered s).*1 ++ posted_events (io_service_ s) ++ (data_ s).*2.
Proof. induction 1; [done|]. by eapply step_accounted. Qed.

(** ** What one pass delivers *)

Lemma filter_nil_by {A} (P : A -> Prop) `{!forall x, Decision (P x)} l :
  Forall (fun x => ~ P x) l -> filter P l = [].
Proof. induction 1; [done|]. by rewrite filter_cons_False. Qed.

Definition due (now : Z) (x : Z * E) : Prop := x.1 <= now.

#[export] Instance due_dec now x : Decision (due now x).
Proof. unfold due. apply _. Defined.

(** A client that only schedules later events. *)
Definition schedules_later (now : Z) : Prop :=
  forall e, Forall (fun c => match c with CallAdd t _ => now < t | _ => False end)
                   (event_processor_ e no_error).

Lemma filter_insert_later now t e m :
  now < t -> filter (due now) (multimap_insert t e m) = filter (due now) m.
Proof.
  intros Ht. induction m as [|[t' e'] m IH]; simpl.
  - rewrite filter_cons_False; [done|]. unfold due. simpl. lia.
  - destruct (t <? t') eqn:Ht'.
    + rewrite (filter_cons_False _ (t, e)); [done|]. unfold due. simpl. lia.
    + rewrite !filter_cons, IH. done.
Qed.

Lemma deliver_later now e s :
  schedules_later now ->
  filter (due now) (data_ (deliver e no_error s)) = filter (due now) (data_ s)
  /\ delivered (deliver e no_error s) = delivered s ++ [(e, no_error)]
  /\ running_ (deliver e no_error s) = running_ s.
Proof.
  intros Hc. specialize (Hc e). unfold deliver.
  set (s0 := {| running_ := running_ s; delivered := delivered s ++ _ |}).
  change (data_ s) with (data_ s0). change (running_ s) with (running_ s0).
  change (delivered s ++ _) with (delivered s0). clearbody s0. revert s0.
  induction Hc as [|c cs Hlater Hcs IH]; intros s0; simpl; [done|].
  destruct c as [t e'| |]; [|done..]. specialize (IH (do_call s0 (CallAdd t e'))). destruct IH as (-> & -> & ->).
  split; [|done]. by apply filter_insert_later.
Qed.

(** One pass of [ResetTimer] over a running object, with a client that schedules
    nothing that is already due, stops after as many deliveries as there are due
    events, has delivered exactly those, in the order of their times and without
    error, and leaves the timer waiting for the first event that remains. *)
Theorem ResetTimer_delivers_due fuel now s :
  running_ s = true -> sorted_data s -> schedules_later now ->
  (length (filter (due now) (data_ s)) <= fuel)%nat ->
  exists s', ResetTimer fuel now s = Some s'
    /\ delivered s' = delivered s ++ ((fun x => (x.2, no_error)) <$> filter (due now) (data_ s))
    /\ filter (due now) (data_ s') = []
    /\ match data_ s' with (t, _) :: _ => timeout_timer_ s' = Some t | [] => True end.
Proof.
  intros Hr Hs Hc. revert s Hr Hs. induction fuel as [|fuel IH]; intros s Hr Hs Hf; simpl;
    rewrite Hr; simpl; destruct (data_ s) as [|[t e] rest] eqn:Hd.
  1, 3: exists s; rewrite app_nil_r, Hd; by auto.
  all: destruct (t <=? now) eqn:Ht; [apply Z.leb_le in Ht|apply Z.leb_gt in Ht].
  1: rewrite filter_cons_True in Hf by done; simpl in Hf; lia.
  2: { rewrite filter_cons_True in * by done. simpl in Hf.
    destruct (deliver_later now e (set_data rest s) Hc) as (Hfd & Hdl & Hrn). simpl in *.
    destruct (IH (deliver e no_error (set_data rest s))) as (s' & HR & Hdel & Hrest);
      [congruence|by eapply ResetTimer_step_sorted|rewrite Hfd; lia|].
    exists s'. split; [done|]. rewrite Hdel, Hdl, Hfd. simpl. by rewrite <-app_assoc. }
  all: assert (filter (due now) ((t, e) :: rest) = []) as Hnil by
    (apply filter_nil_by; unfold sorted_data in Hs; rewrite Hd in Hs;
     inversion Hs as [|? ? _ Hl]; subst; constructor; [unfold due; simpl; lia|];
     eapply Forall_impl; [exact Hl|]; unfold due, earlier; simpl; intros; lia).
  all: exists (set_timer (Some t) s); rewrite Hnil, app_nil_r; simpl; rewrite Hd; auto.
Qed.

End TimedEvents.

Arguments TimedEvents : clear implicits.
Arguments call : clear implicits.
Arguments task : clear implicits.

(** ** A concrete object *)

(** Events are numbers; event 7 schedules event 8 a thousand ticks later. *)
Definition example_client (e : nat) (ec : error_code) : list (call nat) :=
  if (e =? 7)%nat then [CallAdd 2000 8%nat] else [].

Definition example_events : TimedEvents nat :=
  AddAt 900 3%nat (AddAt 100 7%nat (AddAt 100 5%nat Create)).

Lemma example_reachable : reachable example_client example_events.
Proof.
  unfold example_events.
  repeat (eapply ReachStep; [|first [apply (StepCall _ _ (CallAdd _ _))]]). constructor.
Qed.

Lemma TimedEvents_watched_witness :
  reachable example_client example_events /\ sorted_data example_events /\ watched example_events.
Proof.
  split; [apply example_reachable|]. apply (TimedEvents_watched example_client example_events).
  apply example_reachable.
Defined.

Lemma TimedEvents_conservation_witness :
  reachable example_client example_events /\
  added example_events ≡ₚ (delivered example_events).*1
    ++ posted_events (io_service_ example_events) ++ (data_ example_events).*2.
Proof.
  split; [apply example_reachable|]. apply (TimedEvents_conservation example_client).
  apply example_reachable.
Defined.

Lemma ResetTimer_delivers_due_witness :
  exists s', ResetTimer example_client 2 500 example_events = Some s'
    /\ delivered s' = [(5%nat, no_error); (7%nat, no_error)]
    /\ filter (due 500) (data_ s') = []
    /\ match data_ s' with (t, _) :: _ => timeout_timer_ s' = Some t | [] => True end.
Proof.
  apply (ResetTimer_delivers_due example_client 2 500 example_events).
  - done.
  - apply (reachable_sorted example_client), example_reachable.
  - intros e. unfold example_client. destruct (e =? 7)%nat; repeat constructor.
  - vm_compute. lia.
Defined.
