(* ===== verification/SessionLocker.v ===== *)
(** * The locked state of a session ([api/detail/session_maintainer_locker.*])

    Every public method of [SessionMaintainerLocker] takes the mutex for its whole
    body: a method is one function on the state.  Shared pointers to requests are
    values with an identity ([request_id]); the two [TimedEvents] objects are those of
    [TimedEvents.v]; what is posted to the callback [io_service] is a queue. *)
From S2P Require Import Prelude Errors TimedEvents.

Open Scope Z_scope.

(** ** Credentials and states *)

(** [api/credentials.hpp:24-73 Credentials] *)
Inductive Credentials :=
  | Email (email password : str)
  | Ekey (ekey password : str)
  | Facebook (fb_access_token : str).

(** [AreVariantsEqual] on credentials compares the alternative and every field:
    equality. *)
#[export] Instance Credentials_eq_dec : EqDecision Credentials.
Proof. solve_decision. Defined.

(** [api/types.hpp:35-41 SessionTokenData] *)
Record SessionTokenData := {
  session_token : str;
  pkey : str;
  time : str;
  secret_key : Z }.

(** The fields of [user/get_session_token]'s response that the session code reads. *)
Record TokenResponse := {
  tr_error_code : error_code;
  tr_session_token : str;
  tr_pkey : str;
  tr_time : str;
  tr_secret_key : Z }.

(** [api/session_state.hpp:21-117 SessionState] *)
Inductive SessionState :=
  | Uninitialized
  | Initialized
  | CredentialsFailure (state_pkey : option str) (ec : error_code) (r : TokenResponse)
  | ProlongedError (ec : error_code) (r : TokenResponse)
  | Running (r : TokenResponse).

(** Only the parts the class cares about are compared.
    [api/session_state.cpp:19-58 operator==] *)
Definition session_states_equal (lhs rhs : SessionState) : bool :=
  match lhs, rhs with
  | Uninitialized, Uninitialized => true
  | Initialized, Initialized => true
  | CredentialsFailure p e _, CredentialsFailure p' e' _ =>
      bool_decide (p = p') && bool_decide (e = e')
  | ProlongedError e _, ProlongedError e' _ => bool_decide (e = e')
  | Running l, Running r =>
      bool_decide (tr_session_token l = tr_session_token r)
      && bool_decide (tr_pkey l = tr_pkey r)
  | _, _ => false
  end.

(** [api/connection_state.hpp:26-76 ConnectionState] *)
Inductive ConnectionState :=
  | ConnUninitialized
  | Unconnected (ec : error_code)
  | Connected.

#[export] Instance ConnectionState_eq_dec : EqDecision ConnectionState.
Proof. solve_decision. Defined.

(** [api/connection_state.cpp:20-36 operator==] *)
Definition connection_states_equal (lhs rhs : ConnectionState) : bool :=
  match lhs, rhs with
  | ConnUninitialized, ConnUninitialized => true
  | Unconnected e, Unconnected e' => bool_decide (e = e')
  | Connected, Connected => true
  | _, _ => false
  end.

(** [api/session_maintainer.cpp:46-49 IsUninitialized] *)
Definition IsUninitialized (s : SessionState) : bool :=
  match s with Uninitialized => true | _ => false end.
(** [api/session_maintainer.cpp:50-53 IsInitialized] *)
Definition IsInitialized (s : SessionState) : bool :=
  match s with Initialized => true | _ => false end.
(** [api/session_maintainer.cpp:54-57 IsCredentialsError] *)
Definition IsCredentialsError (s : SessionState) : bool :=
  match s with CredentialsFailure _ _ _ => true | _ => false end.
(** [api/session_maintainer.cpp:58-61 IsProlongedError] *)
Definition IsProlongedError (s : SessionState) : bool :=
  match s with ProlongedError _ _ => true | _ => false end.
(** [api/session_maintainer.cpp:62-65 IsRunning] *)
Definition IsRunning (s : SessionState) : bool :=
  match s with Running _ => true | _ => false end.
(** [api/session_maintainer.cpp:67-70 IsConnected] *)
Definition IsConnected (s : ConnectionState) : bool :=
  match s with Connected => true | _ => false end.
(** [api/session_maintainer.cpp:71-74 IsUnconnected] *)
Definition IsUnconnected (s : ConnectionState) : bool :=
  match s with Unconnected _ => true | _ => false end.

(** ** Requests *)

(** What the maintainer sees of a request that does not change while it runs.
    [api/detail/session_maintainer_request.hpp:142-165 Create] *)
Record STRequest := {
  request_id : nat;
  UsesSessionToken : bool;
  TimeoutSeconds : Z;
  max_retry_time_ : Z }.

#[export] Instance STRequest_eq_dec : EqDecision STRequest.
Proof. solve_decision. Defined.

#[export] Instance STRequest_countable : Countable STRequest.
Proof.
  apply (inj_countable' (fun r => (request_id r, UsesSessionToken r, TimeoutSeconds r,
                                   max_retry_time_ r))
                        (fun '(a, b, c, d) => {| request_id := a; UsesSessionToken := b;
                                   TimeoutSeconds := c; max_retry_time_ := d |})).
  by intros [].
Defined.

(** What the maintainer reads of an API response: the code, and the value at
    ["response.new_key"] of the parsed tree. *)
Record ResponseBase := {
  response_error_code : error_code;
  response_new_key : option str }.

(** A call posted to the callback [io_service]. *)
Inductive StateCallback :=
  | SessionStateChanged (s : SessionState)
  | ConnectionStateChanged (s : ConnectionState).

(** ** The state *)

(** [api/detail/session_maintainer_locker.hpp:104-139 SessionMaintainerLocker] *)
Record Locker := {
  callback_ios_ : list StateCallback;
  session_state_ : SessionState;
  connection_state_ : ConnectionState;
  session_state_change_count_ : Z;
  session_state_change_callback_ : bool;      (** is a callback set? *)
  connection_state_change_callback_ : bool;
  credentials_ : option Credentials;
  waiting_st_requests_ : list STRequest;
  waiting_non_st_requests_ : list STRequest;
  in_progress_requests_ : gset STRequest;
  checked_out_tokens_ : gmap STRequest SessionTokenData;
  delayed_requests_ : TimedEvents STRequest;
  session_tokens_ : list SessionTokenData;    (** the vector, back last *)
  in_progress_session_token_requests_ : Z;
  time_out_requests_ : TimedEvents STRequest;
  failure_count_ : Z }.

#[local] Instance Locker_members : Members Locker := fun l =>
  Build_Locker (callback_ios_ l) (session_state_ l) (connection_state_ l)
    (session_state_change_count_ l) (session_state_change_callback_ l)
    (connection_state_change_callback_ l) (credentials_ l) (waiting_st_requests_ l)
    (waiting_non_st_requests_ l) (in_progress_requests_ l) (checked_out_tokens_ l)
    (delayed_requests_ l) (session_tokens_ l) (in_progress_session_token_requests_ l)
    (time_out_requests_ l) (failure_count_ l).

Definition set_callback_ios_ := ltac:(setter callback_ios_).
Definition set_session_state_ := ltac:(setter session_state_).
Definition set_connection_state_ := ltac:(setter connection_state_).
Definition set_session_state_change_count_ := ltac:(setter session_state_change_count_).
Definition set_session_state_change_callback_ := ltac:(setter session_state_change_callback_).
Definition set_connection_state_change_callback_ := ltac:(setter connection_state_change_callback_).
Definition set_credentials_ := ltac:(setter credentials_).
Definition set_waiting_st_requests_ := ltac:(setter waiting_st_requests_).
Definition set_waiting_non_st_requests_ := ltac:(setter waiting_non_st_requests_).
Definition set_in_progress_requests_ := ltac:(setter in_progress_requests_).
Definition set_checked_out_tokens_ := ltac:(setter checked_out_tokens_).
Definition set_delayed_requests_ := ltac:(setter delayed_requests_).
Definition set_session_tokens_ := ltac:(setter session_tokens_).
Definition set_in_progress_session_token_requests_ := ltac:(setter in_progress_session_token_requests_).
Definition set_time_out_requests_ := ltac:(setter time_out_requests_).
Definition set_failure_count_ := ltac:(setter failure_count_).

(** ** The operations *)

(** [api/session_maintainer.hpp:57-62 max_in_progress_token_requests] *)
Definition max_in_progress_token_requests : Z := 4.
(** [api/session_maintainer.hpp:57-62 max_tokens] *)
Definition max_tokens : Z := 10.

(** [api/detail/session_maintainer_locker.cpp:25-40 SessionMaintainerLocker] *)
Definition NewLocker : Locker :=
  {| callback_ios_ := []; session_state_ := Uninitialized;
     connection_state_ := ConnUninitialized; session_state_change_count_ := 0;
     session_state_change_callback_ := false; connection_state_change_callback_ := false;
     credentials_ := None; waiting_st_requests_ := []; waiting_non_st_requests_ := [];
     in_progress_requests_ := ∅; checked_out_tokens_ := ∅; delayed_requests_ := Create;
     session_tokens_ := []; in_progress_session_token_requests_ := 0;
     time_out_requests_ := Create; failure_count_ := 0 |}.

Definition clear_tokens (l : Locker) : Locker :=
  set_checked_out_tokens_ ∅ (set_session_tokens_ [] l).

(** [api/detail/session_maintainer_locker.cpp:403-443 NewStateVisitor] *)
Definition NewStateVisitor (state : SessionState) (l : Locker) : Locker :=
  match state with
  | Uninitialized => clear_tokens (set_credentials_ None l)
  | Initialized => clear_tokens l
  | CredentialsFailure _ _ _ => clear_tokens l
  | ProlongedError _ _ => l
  | Running _ => l
  end.

(** [api/detail/session_maintainer_locker.cpp:445-464 ChangeSessionStateInternal] *)
Definition ChangeSessionStateInternal (state : SessionState) (l : Locker) : Locker :=
  if negb (session_states_equal (session_state_ l) state) then
    let l := NewStateVisitor state (set_session_state_ state l) in
    let l := set_session_state_change_count_ (u32 (session_state_change_count_ l + 1)) l in
    if session_state_change_callback_ l
    then set_callback_ios_ (callback_ios_ l ++ [SessionStateChanged (session_state_ l)]) l
    else l
  else l.

(** [api/detail/session_maintainer_locker.cpp:466-479 ChangeConnectionStateInternal] *)
Definition ChangeConnectionStateInternal (state : ConnectionState) (l : Locker) : Locker :=
  if negb (connection_states_equal (connection_state_ l) state) then
    let l := set_connection_state_ state l in
    if connection_state_change_callback_ l
    then set_callback_ios_ (callback_ios_ l ++ [ConnectionStateChanged (connection_state_ l)]) l
    else l
  else l.

(** [api/detail/session_maintainer_locker.cpp:75-79 GetCredenials] *)
Definition GetCredenials (l : Locker) : option Credentials := credentials_ l.

(** [api/detail/session_maintainer_locker.cpp:81-95 SetCredentials] *)
Definition SetCredentials (credentials : Credentials) (l : Locker) : Locker :=
  if bool_decide (credentials_ l = Some credentials) then l
  else ChangeSessionStateInternal Initialized (set_credentials_ (Some credentials) l).

(** [push_back] on the deque the request belongs to. *)
Definition push_waiting (request : STRequest) (l : Locker) : Locker :=
  if UsesSessionToken request
  then set_waiting_st_requests_ (waiting_st_requests_ l ++ [request]) l
  else set_waiting_non_st_requests_ (waiting_non_st_requests_ l ++ [request]) l.

(** Times are in milliseconds.
    [api/detail/session_maintainer_locker.cpp:97-114 AddWaitingRequest] *)
Definition LockerAddWaitingRequest (now : Z) (request : STRequest) (l : Locker) : Locker :=
  push_waiting request
    (set_time_out_requests_
       (Add now (TimeoutSeconds request * 1000) request (time_out_requests_ l)) l).

(** [api/detail/session_maintainer_locker.cpp:116-120 RemoveInProgressRequest] *)
Definition RemoveInProgressRequest (request : STRequest) (l : Locker) : Locker :=
  set_in_progress_requests_ (in_progress_requests_ l ∖ {[request]}) l.

(** [api/detail/session_maintainer_locker.cpp:122-136 MoveInProgressToWaiting] *)
Definition MoveInProgressToWaiting (request : STRequest) (l : Locker) : Locker :=
  push_waiting request
    (set_in_progress_requests_ (in_progress_requests_ l ∖ {[request]}) l).

(** [api/detail/session_maintainer_locker.cpp:138-147 DeleteCheckedOutToken] *)
Definition DeleteCheckedOutToken (request : STRequest) (l : Locker) : Locker :=
  set_checked_out_tokens_ (delete request (checked_out_tokens_ l)) l.

(** [api/detail/session_maintainer_locker.cpp:149-157 MoveInProgressToDelayed] *)
Definition MoveInProgressToDelayed (now : Z) (request : STRequest) (delay_sec : Z)
    (l : Locker) : Locker :=
  let l := set_in_progress_requests_ (in_progress_requests_ l ∖ {[request]}) l in
  set_delayed_requests_ (Add now (delay_sec * 1000) request (delayed_requests_ l)) l.

(** [api/detail/session_maintainer_locker.cpp:159-172 NextWaitingNonSessionTokenRequest] *)
Definition NextWaitingNonSessionTokenRequest (l : Locker) : option (STRequest * Locker) :=
  match waiting_non_st_requests_ l with
  | request :: rest => Some (request, set_waiting_non_st_requests_ rest l)
  | [] => None
  end.

(** [api/detail/session_maintainer_locker.cpp:174-199 NextWaitingSessionTokenRequest] *)
Definition NextWaitingSessionTokenRequest (l : Locker)
    : option (STRequest * SessionTokenData * Locker) :=
  match waiting_st_requests_ l, last (session_tokens_ l) with
  | request :: rest, Some st =>
      Some (request, st,
            set_waiting_st_requests_ rest
              (set_session_tokens_ (removelast (session_tokens_ l)) l))
  | _, _ => None
  end.

(** [api/detail/session_maintainer_locker.cpp:201-205 AddInProgressRequest] *)
Definition AddInProgressRequest (request : STRequest) (l : Locker) : Locker :=
  set_in_progress_requests_ ({[request]} ∪ in_progress_requests_ l) l.

(** [std::map::insert] keeps an element already there.
    [api/detail/session_maintainer_locker.cpp:207-217 AddInProgressRequest] *)
Definition AddInProgressRequestToken (request : STRequest) (token : SessionTokenData)
    (l : Locker) : Locker :=
  let l := AddInProgressRequest request l in
  match checked_out_tokens_ l !! request with
  | Some _ => l
  | None => set_checked_out_tokens_ (<[request := token]> (checked_out_tokens_ l)) l
  end.

(** The guard of [StartRequestSessionToken], on the four sizes.
    [api/detail/session_maintainer_locker.cpp:222-242 StartRequestSessionToken] *)
Definition may_request_token (in_progress stored checked_out waiting : Z) : bool :=
  ((in_progress =? 0) && (stored + checked_out =? 0))
  || ((in_progress + stored <? waiting)
      && (in_progress <? max_in_progress_token_requests)
      && (in_progress + stored + checked_out <? max_tokens)).

(** [api/detail/session_maintainer_locker.cpp:219-248 StartRequestSessionToken] *)
Definition StartRequestSessionToken (l : Locker) : bool * Locker :=
  if may_request_token (in_progress_session_token_requests_ l)
       (Z.of_nat (length (session_tokens_ l))) (Z.of_nat (size (checked_out_tokens_ l)))
       (Z.of_nat (length (waiting_st_requests_ l)))
  then (true, set_in_progress_session_token_requests_
                (u64 (in_progress_session_token_requests_ l + 1)) l)
  else (false, l).

(** The assertion is off in a release build, where 0 wraps.
    [api/detail/session_maintainer_locker.cpp:250-255 DecrementSessionTokenInProgressCount] *)
Definition DecrementSessionTokenInProgressCount (l : Locker) : Locker :=
  set_in_progress_session_token_requests_ (u64 (in_progress_session_token_requests_ l - 1)) l.

(** [api/detail/session_maintainer_locker.cpp:257-284 AddSessionToken] *)
Definition AddSessionToken (token : SessionTokenData) (old_credentials : Credentials)
    (l : Locker) : bool * Locker :=
  if bool_decide (credentials_ l = Some old_credentials)
  then (true, set_session_tokens_ (session_tokens_ l ++ [token]) l)
  else (false, l).

(** The multiplicative generator on [uint64_t]: the [int] key is converted first.
    [api/detail/session_maintainer_locker.cpp:309-311 ReuseToken] *)
Definition next_secret_key (secret_key : Z) : Z :=
  i32 (u64 (u64 secret_key * 16807) mod 2147483647).

(** [api/detail/session_maintainer_locker.cpp:302-312 ReuseToken] *)
Definition renew_token (response : ResponseBase) (st : SessionTokenData) : SessionTokenData :=
  if bool_decide (response_new_key response = Some (B "yes"))
  then {| session_token := session_token st; pkey := pkey st; time := time st;
          secret_key := next_secret_key (secret_key st) |}
  else st.

(** [api/detail/session_maintainer_locker.cpp:286-328 ReuseToken] *)
Definition ReuseToken (request : STRequest) (response : ResponseBase) (l : Locker) : Locker :=
  if UsesSessionToken request then
    match checked_out_tokens_ l !! request with
    | Some st =>
        let l := set_checked_out_tokens_ (delete request (checked_out_tokens_ l)) l in
        set_session_tokens_ (session_tokens_ l ++ [renew_token response st]) l
    | None => l
    end
  else l.

(** [api/detail/session_maintainer_locker.cpp:330-337 TotalRequests] *)
Definition TotalRequests (l : Locker) : nat :=
  length (waiting_st_requests_ l) + length (waiting_non_st_requests_ l)
  + size (in_progress_requests_ l) + Size (delayed_requests_ l).

(** [api/detail/session_maintainer_locker.cpp:339-344 GetSessionState] *)
Definition GetSessionState (l : Locker) : SessionState * Z :=
  (session_state_ l, session_state_change_count_ l).

(** [api/detail/session_maintainer_locker.cpp:346-350 SetSessionState] *)
Definition SetSessionState (state : SessionState) (l : Locker) : Locker :=
  ChangeSessionStateInternal state l.

(** [api/detail/session_maintainer_locker.cpp:352-356 GetConnectionState] *)
Definition GetConnectionState (l : Locker) : ConnectionState := connection_state_ l.

(** [api/detail/session_maintainer_locker.cpp:358-364 SetConnectionState] *)
Definition SetConnectionState (state : ConnectionState) (l : Locker) : Locker :=
  ChangeConnectionStateInternal state l.

(** [api/detail/session_maintainer_locker.cpp:366-378 SetSessionStateSafe] *)
Definition SetSessionStateSafe (state : SessionState) (state_change_count : Z) (l : Locker)
    : bool * Locker :=
  if session_state_change_count_ l =? state_change_count
  then (true, ChangeSessionStateInternal state l)
  else (false, l).

(** [api/detail/session_maintainer_locker.cpp:380-386 SetSessionStateChangeCallback] *)
Definition SetSessionStateChangeCallback (l : Locker) : Locker :=
  set_session_state_change_callback_ true l.

(** [api/detail/session_maintainer_locker.cpp:388-394 SetConnectionStateChangeCallback] *)
Definition SetConnectionStateChangeCallback (l : Locker) : Locker :=
  set_connection_state_change_callback_ true l.

(** [api/detail/session_maintainer_locker.cpp:396-401 StopTimeouts] *)
Definition StopTimeouts (l : Locker) : Locker :=
  let l := set_delayed_requests_ (Stop (delayed_requests_ l)) l in
  set_time_out_requests_ (Stop (time_out_requests_ l)) l.

(** [std::find] then [erase]: the first occurrence. *)
Fixpoint erase_first (request : STRequest) (q : list STRequest) : option (list STRequest) :=
  match q with
  | [] => None
  | r :: q =>
      if decide (r = request) then Some q
      else match erase_first request q with Some q => Some (r :: q) | None => None end
  end.

(** The request to fail and the code, if the request was still waiting.  A request
    whose weak pointer has expired is in no deque: the same result as not found.
    [api/detail/session_maintainer_locker.cpp:481-534 HandleTimedOutRequest] *)
Definition HandleTimedOutRequest (request : STRequest) (l : Locker)
    : option error_code * Locker :=
  if UsesSessionToken request then
    match erase_first request (waiting_st_requests_ l) with
    | Some q => (Some (api_error SessionTokenUnavailableTimeout), set_waiting_st_requests_ q l)
    | None => (None, l)
    end
  else
    match erase_first request (waiting_non_st_requests_ l) with
    | Some q => (Some (api_error ConnectionUnavailableTimeout), set_waiting_non_st_requests_ q l)
    | None => (None, l)
    end.

(** [api/detail/session_maintainer_locker.cpp:536-539 IncrementFailureCount] *)
Definition IncrementFailureCount (l : Locker) : Locker :=
  set_failure_count_ (u32 (failure_count_ l + 1)) l.

(** [api/detail/session_maintainer_locker.cpp:541-544 GetFailureCount] *)
Definition GetFailureCount (l : Locker) : Z := failure_count_ l.

(** [api/detail/session_maintainer_locker.cpp:546-549 ResetFailureCount] *)
Definition ResetFailureCount (l : Locker) : Locker := set_failure_count_ 0 l.

(** The requests the destructor cancels, in order; those in the sets of the two timed
    objects are not among them.
    [api/detail/session_maintainer_locker.cpp:42-59 ~SessionMaintainerLocker] *)
Definition DestroyLocker (l : Locker) : list STRequest * Locker :=
  let l := StopTimeouts l in
  (waiting_st_requests_ l ++ waiting_non_st_requests_ l ++ elements (in_progress_requests_ l),
   set_waiting_st_requests_ []
     (set_waiting_non_st_requests_ [] (set_in_progress_requests_ ∅ l))).
