(* ===== verification/SessionMaintainer.v ===== *)
(** * The session maintainer ([api/session_maintainer.*])

    A handler is a function on the state of the maintainer, with the time of the call
    as an argument; the network is the set of calls that are not answered yet.  The
    logs ([called], [completed], [cancelled], [silenced], [dropped]) and [granted] are
    history the code does not keep: the theorems speak of them. *)
From S2P Require Import Prelude Errors TimedEvents SessionLocker.

Open Scope Z_scope.

(** [api/session_maintainer.hpp:211-240 SessionMaintainer] *)
Record Maintainer := {
  locker_ : Locker;
  session_token_failure_timer_ : option Z;      (** expiry of the pending wait *)
  connection_state_recheck_timer_ : option Z;
  has_request_ : gset STRequest;                (** requests whose [request_] is set *)
  token_calls : list Credentials;               (** unanswered user/get_session_token *)
  status_calls : nat;                           (** unanswered system/get_status *)
  started : list (STRequest * option SessionTokenData);  (** log of [Init] *)
  called : list STRequest;                      (** requests made by [Call] *)
  completed : list (STRequest * error_code);
      (** requests that ended with a call of their completion callback *)
  cancelled : list STRequest;   (** callbacks called by [Cancel], which ends nothing *)
  silenced : list STRequest;    (** requests whose [Fail] reached a finished HTTP request *)
  dropped : list STRequest;     (** delayed requests thrown away by [StopTimeouts] *)
  granted : list (Credentials * str) }.         (** session tokens received *)

#[local] Instance Maintainer_members : Members Maintainer := fun m =>
  Build_Maintainer (locker_ m) (session_token_failure_timer_ m)
    (connection_state_recheck_timer_ m) (has_request_ m) (token_calls m) (status_calls m)
    (started m) (called m) (completed m) (cancelled m) (silenced m) (dropped m)
    (granted m).

Definition set_locker_ := ltac:(setter locker_).
Definition set_session_token_failure_timer_ := ltac:(setter session_token_failure_timer_).
Definition set_connection_state_recheck_timer_ := ltac:(setter connection_state_recheck_timer_).
Definition set_has_request_ := ltac:(setter has_request_).
Definition set_token_calls := ltac:(setter token_calls).
Definition set_status_calls := ltac:(setter status_calls).
Definition set_started := ltac:(setter started).
Definition set_called := ltac:(setter called).
Definition set_completed := ltac:(setter completed).
Definition set_cancelled := ltac:(setter cancelled).
Definition set_silenced := ltac:(setter silenced).
Definition set_dropped := ltac:(setter dropped).
Definition set_granted := ltac:(setter granted).

(** [locker_->op (...)] *)
Definition on_locker (f : Locker -> Locker) (m : Maintainer) : Maintainer :=
  set_locker_ (f (locker_ m)) m.

(** [api/session_maintainer.hpp:56-78 SessionMaintainer] *)
Definition session_token_failure_wait_timeout_ms : Z := 2500.
(** [api/session_maintainer.hpp:56-78 SessionMaintainer] *)
Definition connection_state_recheck_timeout_ms : Z := 5000.
(** [api/session_maintainer.hpp:56-78 SessionMaintainer] *)
Definition session_token_credential_failure_wait_timeout_ms : Z := 60000.
(** [api/session_maintainer.hpp:56-78 SessionMaintainer] *)
Definition session_token_account_locked_wait_timeout_ms : Z := 600000.
(** [api/session_maintainer.cpp:44-44 skProlongedFailureThreshold] *)
Definition skProlongedFailureThreshold : Z := 10.

(** [api/session_maintainer.cpp:86-133 SessionMaintainer] *)
Definition NewMaintainer : Maintainer :=
  {| locker_ := NewLocker; session_token_failure_timer_ := None;
     connection_state_recheck_timer_ := None; has_request_ := ∅; token_calls := [];
     status_calls := 0; started := []; called := []; completed := [];
     cancelled := []; silenced := []; dropped := []; granted := [] |}.

(** ** Connection state *)

(** [api/session_maintainer.cpp:196-206 UpdateConnectionStateFromErrorCode] *)
Definition is_connection_error (ec : error_code) : bool :=
  bool_decide (ec_cat ec = cat_http)
  && existsb (fun e => bool_decide (ec = http_code e))
       [UnableToConnect; UnableToConnectToProxy; UnableToResolve; SslHandshakeFailure;
        WriteFailure; ReadFailure; ProxyProtocolFailure; IoTimeout].

(** [api/session_maintainer.cpp:191-224 UpdateConnectionStateFromErrorCode] *)
Definition UpdateConnectionStateFromErrorCode (now : Z) (ec : error_code) (m : Maintainer)
    : Maintainer :=
  if is_connection_error ec then
    set_connection_state_recheck_timer_ (Some (now + connection_state_recheck_timeout_ms))
      (on_locker (SetConnectionState (Unconnected ec)) m)
  else on_locker (SetConnectionState Connected) m.

(** [requester_.Call (system::get_status::Request (), ...)] and [Start].
    [api/session_maintainer.cpp:283-301 AttemptConnection] *)
Definition AttemptConnection (m : Maintainer) : Maintainer :=
  set_status_calls (S (status_calls m)) m.

(** ** Session tokens *)

(** [requester_.Call] of user/get_session_token, when the locker permits it.
    [api/session_maintainer.cpp:357-397 TryRequestSessionToken] *)
Definition TryRequestSessionToken (credentials : Credentials) (m : Maintainer)
    : bool * Maintainer :=
  match StartRequestSessionToken (locker_ m) with
  | (false, l) => (false, set_locker_ l m)
  | (true, l) => (true, set_token_calls (token_calls m ++ [credentials]) (set_locker_ l m))
  end.

(** [while (TryRequestSessionToken (...)) {}]; the flag is true when the loop stopped
    by its own condition.
    [api/session_maintainer.cpp:337-343 RequestNeededSessionTokens] *)
Fixpoint RequestTokens_loop (fuel : nat) (credentials : Credentials) (m : Maintainer)
    : bool * Maintainer :=
  match fuel with
  | O => (false, m)
  | S fuel =>
      match TryRequestSessionToken credentials m with
      | (true, m) => RequestTokens_loop fuel credentials m
      | (false, m) => (true, m)
      end
  end.

(** At most four permissions are given, a fifth try is refused. *)
Definition token_fuel : nat := 5.

Inductive BadCredentialBehavior := Force | NoForce.

(** [api/session_maintainer.cpp:319-355 RequestNeededSessionTokens] *)
Definition RequestNeededSessionTokens (badCredentialBehavior : BadCredentialBehavior)
    (m : Maintainer) : Maintainer :=
  let haveBadCredentials := IsCredentialsError (session_state_ (locker_ m)) in
  if negb haveBadCredentials
     || match badCredentialBehavior with Force => true | NoForce => false end
  then
    match GetCredenials (locker_ m) with
    | Some credentials =>
        if haveBadCredentials then (TryRequestSessionToken credentials m).2
        else (RequestTokens_loop token_fuel credentials m).2
    | None => m
    end
  else m.

(** ** Starting requests *)

(** [request->Init (&requester_)]: the HTTP request exists from now on.
    [api/detail/session_maintainer_request.hpp:295-306 Init] *)
Definition Init (request : STRequest) (token : option SessionTokenData) (m : Maintainer)
    : Maintainer :=
  set_has_request_ ({[request]} ∪ has_request_ m)
    (set_started (started m ++ [(request, token)]) m).

(** [api/session_maintainer.cpp:244-253 AttemptRequests] *)
Fixpoint NonSessionToken_loop (fuel : nat) (m : Maintainer) : bool * Maintainer :=
  match NextWaitingNonSessionTokenRequest (locker_ m) with
  | None => (true, m)
  | Some (request, l) =>
      match fuel with
      | O => (false, m)
      | S fuel =>
          let m := Init request None (set_locker_ l m) in
          NonSessionToken_loop fuel (on_locker (AddInProgressRequest request) m)
      end
  end.

(** [api/session_maintainer.cpp:255-273 AttemptRequests] *)
Fixpoint SessionToken_loop (fuel : nat) (m : Maintainer) : bool * Maintainer :=
  if IsRunning (session_state_ (locker_ m)) then
    match NextWaitingSessionTokenRequest (locker_ m) with
    | None => (true, m)
    | Some (request, st, l) =>
        match fuel with
        | O => (false, m)
        | S fuel =>
            let m := Init request (Some st) (set_locker_ l m) in
            SessionToken_loop fuel (on_locker (AddInProgressRequestToken request st) m)
        end
    end
  else (true, m).

(** Each loop takes a request off its deque: the deque's length is enough fuel.
    [api/session_maintainer.cpp:233-280 AttemptRequests] *)
Definition AttemptRequests (m : Maintainer) : Maintainer :=
  if IsUnconnected (GetConnectionState (locker_ m)) then AttemptConnection m
  else
    let m := (NonSessionToken_loop (length (waiting_non_st_requests_ (locker_ m))) m).2 in
    let m := (SessionToken_loop (length (waiting_st_requests_ (locker_ m))) m).2 in
    RequestNeededSessionTokens NoForce m.

(** [api/session_maintainer.cpp:559-563 AddWaitingRequest] *)
Definition AddWaitingRequest (now : Z) (request : STRequest) (m : Maintainer) : Maintainer :=
  AttemptRequests (on_locker (LockerAddWaitingRequest now request) m).

(** [api/session_maintainer.hpp:143-167 Call] *)
Definition Call (now : Z) (request : STRequest) (m : Maintainer) : Maintainer :=
  AddWaitingRequest now request (set_called (called m ++ [request]) m).

(** [api/session_maintainer.cpp:141-147 SetLoginCredentials] *)
Definition SetLoginCredentials (credentials : Credentials) (m : Maintainer) : Maintainer :=
  AttemptRequests (on_locker (SetCredentials credentials) m).

(** ** Completion *)

(** [api/session_maintainer.cpp:149-162 HandleCompletion] *)
Definition HandleCompletion (request : STRequest) (response : ResponseBase) (m : Maintainer)
    : Maintainer :=
  let m := on_locker (RemoveInProgressRequest request) m in
  AttemptRequests
    (if IsInvalidSessionTokenError (response_error_code response)
     then on_locker (DeleteCheckedOutToken request) m
     else on_locker (ReuseToken request response) m).

(** [api/session_maintainer.cpp:164-183 HandleRetryRequest] *)
Definition HandleRetryRequest (now : Z) (request : STRequest) (response : ResponseBase)
    (m : Maintainer) : Maintainer :=
  AttemptRequests
    (if IsInvalidSessionTokenError (response_error_code response)
     then on_locker (DeleteCheckedOutToken request)
            (on_locker (MoveInProgressToWaiting request) m)
     else on_locker (ReuseToken request response)
            (on_locker (MoveInProgressToDelayed now request 1) m)).

(** [api/session_maintainer.cpp:185-189 HandleCompletionNotification] *)
Definition HandleCompletionNotification (now : Z) (response : ResponseBase) (m : Maintainer)
    : Maintainer :=
  UpdateConnectionStateFromErrorCode now (response_error_code response) m.

Definition complete (request : STRequest) (ec : error_code) (m : Maintainer) : Maintainer :=
  set_completed (completed m ++ [(request, ec)]) m.

(** Is the response one that sends the request back to the queue?
    [api/detail/session_maintainer_request.hpp:263-280 CallbackProxy] *)
Definition should_retry (utc_now : Z) (request : STRequest) (ec : error_code) : bool :=
  UsesSessionToken request && is_error ec && (utc_now <? max_retry_time_ request)
  && (IsInvalidSessionTokenError ec || bool_decide (ec = result_error AsyncOperationInProgress)).

(** [api/detail/session_maintainer_request.hpp:250-293 CallbackProxy] *)
Definition CallbackProxy (now utc_now : Z) (request : STRequest) (response : ResponseBase)
    (m : Maintainer) : Maintainer :=
  let ec := response_error_code response in
  let m := HandleCompletionNotification now response m in
  if should_retry utc_now request ec then HandleRetryRequest now request response m
  else complete request ec (HandleCompletion request response m).

(** A request in no HTTP exchange: the callback is called, unless the request has been
    started before; then [request_] is the old exchange, which is over, and nothing
    happens.
    [api/detail/session_maintainer_request.hpp:201-223 Fail] *)
Definition Fail_ (request : STRequest) (ec : error_code) (m : Maintainer) : Maintainer :=
  if decide (request ∈ has_request_ m) then set_silenced (silenced m ++ [request]) m
  else complete request ec m.

(** A request that has been started hands the call to its HTTP exchange: one that is
    over ignores it, one that is not ends soon, and its answer comes as any other one.
    Else the callback is called at once, and the request stays where it is.
    [api/detail/session_maintainer_request.hpp:179-199 Cancel] *)
Definition Cancel (request : STRequest) (m : Maintainer) : Maintainer :=
  if decide (request ∈ has_request_ m) then m
  else set_cancelled (cancelled m ++ [request]) m.

(** Every call of a completion callback, with the code it is given. *)
Definition callbacks (m : Maintainer) : list (STRequest * error_code) :=
  completed m ++ ((fun r => (r, http_code HttpCancelled)) <$> cancelled m).

(** ** Token responses *)

(** [api/session_maintainer.cpp:413-498 HandleSessionTokenResponse] *)
Definition HandleTokenFailure (now : Z) (response : TokenResponse)
    (old_credentials : Credentials) (session_state : SessionState)
    (session_state_change_count : Z) (m : Maintainer) : Maintainer :=
  let ec := tr_error_code response in
  let m := on_locker IncrementFailureCount m in
  if IsInvalidCredentialsError ec then
    let m := set_session_token_failure_timer_
               (Some (now + session_token_credential_failure_wait_timeout_ms)) m in
    if negb (IsUninitialized session_state) && negb (IsCredentialsError session_state) then
      if bool_decide (GetCredenials (locker_ m) = Some old_credentials) then
        let new_pkey :=
          match tr_pkey response with [] => None | pkey => Some pkey end in
        on_locker (fun l => (SetSessionStateSafe (CredentialsFailure new_pkey ec response)
                               session_state_change_count l).2) m
      else m
    else m
  else
    let accountIsLocked := matches_errc ec errc_AccountTemporarilyLocked in
    let wait_time := if accountIsLocked then session_token_account_locked_wait_timeout_ms
                     else session_token_failure_wait_timeout_ms in
    let m := set_session_token_failure_timer_ (Some (now + wait_time)) m in
    if (skProlongedFailureThreshold <=? GetFailureCount (locker_ m)) || accountIsLocked then
      if IsInitialized session_state || IsProlongedError session_state then
        on_locker (fun l => (SetSessionStateSafe (ProlongedError ec response)
                               session_state_change_count l).2) m
      else m
    else m.

(** [api/session_maintainer.cpp:499-534 HandleSessionTokenResponse] *)
Definition HandleTokenSuccess (response : TokenResponse) (old_credentials : Credentials)
    (session_state : SessionState) (session_state_change_count : Z) (m : Maintainer)
    : Maintainer :=
  let m := on_locker ResetFailureCount m in
  let st := {| session_token := tr_session_token response; pkey := tr_pkey response;
               time := tr_time response; secret_key := tr_secret_key response |} in
  let '(was_added, l) := AddSessionToken st old_credentials (locker_ m) in
  let m := set_locker_ l m in
  let m :=
    if was_added && negb (IsUninitialized session_state) && negb (IsRunning session_state)
    then on_locker (fun l => (SetSessionStateSafe (Running response)
                                session_state_change_count l).2) m
    else m in
  AttemptRequests m.

(** [api/session_maintainer.cpp:399-538 HandleSessionTokenResponse] *)
Definition HandleSessionTokenResponse (now : Z) (response : TokenResponse)
    (old_credentials : Credentials) (m : Maintainer) : Maintainer :=
  let m := on_locker DecrementSessionTokenInProgressCount m in
  let '(session_state, session_state_change_count) := GetSessionState (locker_ m) in
  let m := UpdateConnectionStateFromErrorCode now (tr_error_code response) m in
  if is_error (tr_error_code response)
  then HandleTokenFailure now response old_credentials session_state
         session_state_change_count m
  else HandleTokenSuccess response old_credentials session_state
         session_state_change_count m.

(** [api/session_maintainer.cpp:303-316 HandleCheckConnectionStatusResponse] *)
Definition HandleCheckConnectionStatusResponse (now : Z) (ec : error_code) (m : Maintainer)
    : Maintainer :=
  let m := UpdateConnectionStateFromErrorCode now ec m in
  if IsConnected (GetConnectionState (locker_ m)) then AttemptRequests m else m.

(** ** Timers *)

(** [api/session_maintainer.cpp:540-548 HandleSessionTokenFailureTimeout] *)
Definition HandleSessionTokenFailureTimeout (err : bool) (m : Maintainer) : Maintainer :=
  if negb err then RequestNeededSessionTokens Force (AttemptRequests m) else m.

(** [api/session_maintainer.cpp:550-557 HandleConnectionStateRecheckTimeout] *)
Definition HandleConnectionStateRecheckTimeout (err : bool) (m : Maintainer) : Maintainer :=
  if negb err then AttemptRequests m else m.

(** The processor of [delayed_requests_]: an event cancelled is dropped.
    [api/session_maintainer.cpp:92-96 SessionMaintainer] *)
Definition ProcessDelayed (now : Z) (request : STRequest) (ec : error_code) (m : Maintainer)
    : Maintainer :=
  if negb (is_error ec) then AddWaitingRequest now request m else m.

(** The processor of [time_out_requests_].
    [api/detail/session_maintainer_locker.cpp:61-73 CreateTimeoutProcessor] *)
Definition ProcessTimeout (request : STRequest) (ec : error_code) (m : Maintainer)
    : Maintainer :=
  if negb (is_error ec) then
    match HandleTimedOutRequest request (locker_ m) with
    | (Some fail_ec, l) => Fail_ request fail_ec (set_locker_ l m)
    | (None, l) => set_locker_ l m
    end
  else m.

(** What the [TimedEvents] loop does with a due event before it calls the processor. *)
Definition take_event (e : STRequest) (rest : list (Z * STRequest)) (t : TimedEvents STRequest)
    : TimedEvents STRequest :=
  deliver (fun _ _ => []) e no_error (set_data rest t).

(** The delayed requests are posted to their processor with an error, which drops them.
    [api/session_maintainer.cpp:597-597 StopTimeouts] *)
Definition MaintainerStopTimeouts (m : Maintainer) : Maintainer :=
  set_dropped (dropped m ++ (data_ (delayed_requests_ (locker_ m))).*2)
    (on_locker StopTimeouts m).

(** The requests of the deques and those in progress are cancelled; the first ones are
    never sent, and what is left of the others is in [DestroyLocker]'s answer.
    [api/session_maintainer.cpp:135-139 ~SessionMaintainer] *)
Definition DestroyMaintainer (m : Maintainer) : Maintainer :=
  let delayed := (data_ (delayed_requests_ (locker_ m))).*2 in
  let '(requests, l) := DestroyLocker (locker_ m) in
  foldl (fun m r => Cancel r m)
    (set_dropped (dropped m ++ delayed)
       (set_locker_ l (set_session_token_failure_timer_ None m))) requests.

(** [api/session_maintainer.cpp:585-589 SetSessionStateChangeCallback] *)
Definition MaintainerSetSessionStateChangeCallback (m : Maintainer) : Maintainer :=
  on_locker SetSessionStateChangeCallback m.

(** [api/session_maintainer.cpp:591-595 SetConnectionStateChangeCallback] *)
Definition MaintainerSetConnectionStateChangeCallback (m : Maintainer) : Maintainer :=
  on_locker SetConnectionStateChangeCallback m.

(** ** The maintainer and its environment

    One step per event; handlers of different events do not overlap.  The steps are the
    public operations of the maintainer and of the request that [Call] returns, the
    answers, and the timers; an event of a stopped [TimedEvents] reaches its processor
    with an error. *)
Inductive step : Maintainer -> Maintainer -> Prop :=
  | StepCall now r m : r ∉ called m -> step m (Call now r m)
  | StepSetCredentials c m : step m (SetLoginCredentials c m)
  | StepSessionCallback m : step m (MaintainerSetSessionStateChangeCallback m)
  | StepConnectionCallback m : step m (MaintainerSetConnectionStateChangeCallback m)
  | StepTokenResponse now resp c before after m :
      token_calls m = before ++ c :: after ->
      (* the history: a successful answer grants a token *)
      let g := if is_error (tr_error_code resp) then [] else [(c, tr_session_token resp)] in
      step m (HandleSessionTokenResponse now resp c
                (set_granted (granted m ++ g) (set_token_calls (before ++ after) m)))
  | StepStatusResponse now ec n m :
      status_calls m = S n ->
      step m (HandleCheckConnectionStatusResponse now ec (set_status_calls n m))
  | StepResponse now utc_now r resp m :
      r ∈ in_progress_requests_ (locker_ m) -> step m (CallbackProxy now utc_now r resp m)
  | StepTokenTimer t m :
      session_token_failure_timer_ m = Some t ->
      step m (HandleSessionTokenFailureTimeout false (set_session_token_failure_timer_ None m))
  | StepConnectionTimer t m :
      connection_state_recheck_timer_ m = Some t ->
      step m (HandleConnectionStateRecheckTimeout false
                (set_connection_state_recheck_timer_ None m))
  | StepDelayed now t r rest m :
      running_ (delayed_requests_ (locker_ m)) = true ->
      data_ (delayed_requests_ (locker_ m)) = (t, r) :: rest -> t <= now ->
      step m (ProcessDelayed now r no_error
                (on_locker (fun l => set_delayed_requests_
                                       (take_event r rest (delayed_requests_ l)) l) m))
  | StepTimeout t r rest m :
      running_ (time_out_requests_ (locker_ m)) = true ->
      data_ (time_out_requests_ (locker_ m)) = (t, r) :: rest ->
      step m (ProcessTimeout r no_error
                (on_locker (fun l => set_time_out_requests_
                                       (take_event r rest (time_out_requests_ l)) l) m))
  | StepCancel r m : r ∈ called m -> step m (Cancel r m)
  | StepStopTimeouts m : step m (MaintainerStopTimeouts m)
  | StepDelayedCancelled now r m :
      PostEvent r operation_canceled ∈ io_service_ (delayed_requests_ (locker_ m)) ->
      step m (ProcessDelayed now r operation_canceled m)
  | StepTimeoutCancelled r m :
      PostEvent r operation_canceled ∈ io_service_ (time_out_requests_ (locker_ m)) ->
      step m (ProcessTimeout r operation_canceled m).

Inductive reachable : Maintainer -> Prop :=
  | ReachNew : reachable NewMaintainer
  | ReachStep m m' : reachable m -> step m m' -> reachable m'.
