(* ===== verification/SessionProofs.v ===== *)
(** * Correctness of the session maintainer

    One invariant [Inv] of the reachable states of [SessionMaintainer.v], shown
    preserved by each handler from lemmas on the operations it is made of; the
    theorems are its consequences, and what [AttemptRequests] leaves behind. *)
From S2P Require Import Prelude Errors TimedEvents SessionLocker SessionMaintainer.

Open Scope Z_scope.

(** ** The invariant *)

(** The requests the maintainer holds, wherever they are. *)
Definition tracked (l : Locker) : list STRequest :=
  waiting_st_requests_ l ++ waiting_non_st_requests_ l
  ++ elements (in_progress_requests_ l) ++ (data_ (delayed_requests_ l)).*2.

Definition token_owned (m : Maintainer) (st : SessionTokenData) : Prop :=
  exists c, credentials_ (locker_ m) = Some c /\ (c, session_token st) ∈ granted m.

(** The invariant, while a handler has the requests [hand] in its hands. *)
Record Holding (hand : list STRequest) (m : Maintainer) : Prop := {
  inv_count : in_progress_session_token_requests_ (locker_ m) = Z.of_nat (length (token_calls m));
  inv_max : (length (token_calls m) <= 4)%nat;
  inv_budget : (length (token_calls m) + length (session_tokens_ (locker_ m))
                + size (checked_out_tokens_ (locker_ m)) <= 10)%nat;
  inv_dom : forall r st, checked_out_tokens_ (locker_ m) !! r = Some st ->
            r ∈ in_progress_requests_ (locker_ m) /\ UsesSessionToken r = true;
  inv_running : IsRunning (session_state_ (locker_ m)) = false ->
                session_tokens_ (locker_ m) = [] /\ checked_out_tokens_ (locker_ m) = ∅;
  inv_creds : credentials_ (locker_ m) = None <->
              IsUninitialized (session_state_ (locker_ m)) = true;
  inv_stored : forall st, st ∈ session_tokens_ (locker_ m) -> token_owned m st;
  inv_checked : forall r st, checked_out_tokens_ (locker_ m) !! r = Some st -> token_owned m st;
  inv_st : Forall (fun r => UsesSessionToken r = true) (waiting_st_requests_ (locker_ m));
  inv_non_st : Forall (fun r => UsesSessionToken r = false) (waiting_non_st_requests_ (locker_ m));
  inv_nodup : NoDup (called m);
  inv_tracked : called m ≡ₚ hand ++ tracked (locker_ m) ++ (completed m).*1 ++ silenced m ++ dropped m;
  inv_cancelled : forall r, r ∈ cancelled m -> r ∈ called m;
  inv_started : forall r, r ∈ in_progress_requests_ (locker_ m) -> r ∈ has_request_ m }.

Definition Inv : Maintainer -> Prop := Holding [].

(** The invariant does not read the field that changed. *)
Ltac inv_frame := intros []; constructor; simpl; assumption.

(** Closes a claim on the members of an empty collection. *)
Ltac vacuous :=
  intros; exfalso;
  match goal with
  | H : ∅ !! _ = Some _ |- _ => by rewrite lookup_empty in H
  | H : _ ∈ [] |- _ => by apply not_elem_of_nil in H
  end.

Lemma Inv_new : Inv NewMaintainer.
Proof.
  constructor; simpl; rewrite ?map_size_empty; try lia; try done; try set_solver; by constructor.
Qed.

(** *** Small facts *)

Lemma last_removelast {A} (l : list A) x : last l = Some x -> l = removelast l ++ [x].
Proof.
  intros H. apply last_Some in H as [l' ->]. by rewrite removelast_last.
Qed.

Lemma length_removelast {A} (l : list A) x :
  last l = Some x -> length l = S (length (removelast l)).
Proof. intros H%last_removelast. rewrite H at 1. rewrite length_app. simpl. lia. Qed.

Lemma may_request_spec ip stored checked waiting :
  0 <= stored -> 0 <= checked -> may_request_token ip stored checked waiting = true ->
  ip <= 4 -> ip + stored + checked <= 10 -> ip < 4 /\ ip + stored + checked < 10.
Proof.
  unfold may_request_token, max_in_progress_token_requests, max_tokens.
  rewrite orb_true_iff, !andb_true_iff, !Z.eqb_eq, !Z.ltb_lt. lia.
Qed.

Lemma u64_nat_succ n : (n <= 10)%nat -> u64 (Z.of_nat n + 1) = Z.of_nat (S n).
Proof. intros. rewrite u64_small; lia. Qed.

Lemma erase_first_spec r q q' : erase_first r q = Some q' -> q ≡ₚ r :: q'.
Proof.
  revert q'. induction q as [|x q IH]; intros q'; simpl; [done|].
  destruct (decide (x = r)) as [->|]; [by intros [= ->]|].
  destruct (erase_first r q); [|done]. intros [= <-]. rewrite (IH _ eq_refl). apply Permutation_swap.
Qed.

Lemma erase_first_Forall P r q q' : erase_first r q = Some q' -> Forall P q -> Forall P q'.
Proof. intros ->%erase_first_spec. by inversion 1. Qed.

Section Holding.
Context {hand : list STRequest}.

(** ** Connection state *)

Lemma ChangeConnectionState_core s m :
  Holding hand m -> Holding hand (on_locker (SetConnectionState s) m).
Proof.
  unfold on_locker, SetConnectionState, ChangeConnectionStateInternal.
  destruct (negb _); [|inv_frame]. simpl. destruct (connection_state_change_callback_ _); inv_frame.
Qed.

Lemma UpdateConnection_inv now ec m :
  Holding hand m -> Holding hand (UpdateConnectionStateFromErrorCode now ec m).
Proof.
  intros H. unfold UpdateConnectionStateFromErrorCode.
  destruct (is_connection_error ec); [|by apply ChangeConnectionState_core].
  apply (ChangeConnectionState_core (Unconnected ec)) in H. revert H. inv_frame.
Qed.

(** ** Token requests *)

Lemma TryRequest_inv c m : Holding hand m -> Holding hand (TryRequestSessionToken c m).2.
Proof.
  intros H. unfold TryRequestSessionToken, StartRequestSessionToken.
  destruct (may_request_token _ _ _ _) eqn:E; simpl; [|destruct m; revert H; inv_frame].
  destruct H. rewrite inv_count0 in *. apply may_request_spec in E; [|lia..].
  constructor; simpl; try assumption; rewrite ?length_app; simpl; [|lia..].
  rewrite u64_nat_succ by lia. lia.
Qed.

(** The tokens loop keeps the invariant, touches no queue and stops by its condition. *)
Lemma RequestTokens_loop_inv fuel c m : Holding hand m -> Holding hand (RequestTokens_loop fuel c m).2.
Proof.
  revert m. induction fuel as [|fuel IH]; intros m H; simpl; [done|].
  pose proof (TryRequest_inv c m H) as H'.
  destruct (TryRequestSessionToken c m) as [[] m']; simpl in *; auto.
Qed.

Lemma TryRequest_true c m m' :
  Holding hand m -> TryRequestSessionToken c m = (true, m') ->
  (length (token_calls m) < 4)%nat /\ length (token_calls m') = S (length (token_calls m)).
Proof.
  intros H. unfold TryRequestSessionToken, StartRequestSessionToken.
  destruct (may_request_token _ _ _ _) eqn:E; simpl; [|done]. intros [= <-]. destruct H.
  rewrite inv_count0 in E. apply may_request_spec in E; [|lia..].
  simpl. rewrite length_app. simpl. lia.
Qed.

Lemma RequestTokens_loop_stops fuel c m :
  Holding hand m -> (4 < fuel + length (token_calls m))%nat ->
  exists m', RequestTokens_loop fuel c m = (true, m') /\ (TryRequestSessionToken c m').1 = false.
Proof.
  revert m. induction fuel as [|fuel IH]; intros m H Hf; simpl.
  - pose proof (inv_max _ _ H). lia.
  - destruct (TryRequestSessionToken c m) as [[] m'] eqn:E.
    + destruct (TryRequest_true _ _ _ H E) as [? Hl]. apply IH; [|lia].
      apply (TryRequest_inv c) in H. by rewrite E in H.
    + exists m'. split; [done|].
      revert E. unfold TryRequestSessionToken, StartRequestSessionToken.
      destruct (may_request_token _ _ _ _) eqn:E; [done|]. simpl. intros [= <-]. simpl.
      by rewrite E.
Qed.

Lemma RequestNeeded_inv b m : Holding hand m -> Holding hand (RequestNeededSessionTokens b m).
Proof.
  intros H. unfold RequestNeededSessionTokens.
  destruct (_ || _); [|done]. destruct (GetCredenials _); [|done].
  destruct (IsCredentialsError _); [by apply TryRequest_inv|by apply RequestTokens_loop_inv].
Qed.

(** ** Session states *)

(** Does entering the state clear the tokens? *)
Definition clears (s : SessionState) : bool :=
  match s with Uninitialized | Initialized | CredentialsFailure _ _ _ => true | _ => false end.

Lemma equal_states_running s s' :
  session_states_equal s s' = true ->
  IsRunning s = IsRunning s' /\ IsUninitialized s = IsUninitialized s'
  /\ IsCredentialsError s = IsCredentialsError s'.
Proof. by destruct s, s'. Qed.

(** The fields of the locker a change of state depends on. *)
Lemma Change_spec s l :
  IsUninitialized s = false ->
  let l' := ChangeSessionStateInternal s l in
  let keeps := session_states_equal (session_state_ l) s || negb (clears s) in
  waiting_st_requests_ l' = waiting_st_requests_ l
  /\ waiting_non_st_requests_ l' = waiting_non_st_requests_ l
  /\ in_progress_requests_ l' = in_progress_requests_ l
  /\ delayed_requests_ l' = delayed_requests_ l
  /\ in_progress_session_token_requests_ l' = in_progress_session_token_requests_ l
  /\ credentials_ l' = credentials_ l
  /\ IsRunning (session_state_ l') = IsRunning s
  /\ IsUninitialized (session_state_ l') = false
  /\ session_tokens_ l' = (if keeps then session_tokens_ l else [])
  /\ checked_out_tokens_ l' = (if keeps then checked_out_tokens_ l else ∅)
  /\ IsCredentialsError (session_state_ l') = IsCredentialsError s.
Proof.
  intros Hs. unfold ChangeSessionStateInternal.
  destruct (session_states_equal (session_state_ l) s) eqn:E; simpl.
  - apply equal_states_running in E as (-> & -> & ->). rewrite Hs. done.
  - destruct s; simpl in *; try done; destruct (session_state_change_callback_ l); done.
Qed.

(** Replacing the tokens by all or none of them keeps what depends on them. *)
Lemma Change_inv s m :
  Holding hand m -> credentials_ (locker_ m) <> None -> IsUninitialized s = false ->
  (IsRunning s = false -> IsRunning (session_state_ (locker_ m)) = true -> clears s = true) ->
  Holding hand (on_locker (ChangeSessionStateInternal s) m).
Proof.
  intros H Hc Hs Hclear.
  destruct (Change_spec s (locker_ m) Hs) as (E1&E2&E3&E4&E5&E6&E7&E8&E9&E10&_).
  set (k := _ || _) in *.
  assert (k = true -> IsRunning s = false -> IsRunning (session_state_ (locker_ m)) = false) as Hk.
  { subst k. intros [E%equal_states_running|E%negb_true_iff]%orb_prop Hr.
    - destruct E as [-> _]. done.
    - destruct (IsRunning (session_state_ _)); [|done]. rewrite Hclear in E; done. }
  destruct H. constructor; unfold on_locker, tracked, token_owned in *; simpl;
    rewrite ?E1, ?E2, ?E3, ?E4, ?E5, ?E6, ?E7, ?E8, ?E9, ?E10; try assumption.
  - destruct k; rewrite ?map_size_empty; simpl; lia.
  - destruct k; [done|vacuous].
  - destruct k; auto.
  - done.
  - destruct k; [done|vacuous].
  - destruct k; [done|vacuous].
Qed.

Lemma SetCredentials_inv c m : Holding hand m -> Holding hand (on_locker (SetCredentials c) m).
Proof.
  intros H. unfold on_locker, SetCredentials. case_bool_decide; [revert H; inv_frame|].
  destruct (decide (session_states_equal (session_state_ (locker_ m)) Initialized = true)) as [E|E].
  - (* already initialized: there are no tokens *)
    unfold ChangeSessionStateInternal. simpl. rewrite E. simpl.
    apply equal_states_running in E as (Er & Eu & _). destruct H. rewrite Er, Eu in *.
    destruct (inv_running0 eq_refl) as [Et Ek].
    constructor; simpl; try assumption; rewrite ?Et, ?Ek, ?Er, ?Eu; try done; try vacuous.
  - (* the tokens are cleared *)
    destruct (Change_spec Initialized (set_credentials_ (Some c) (locker_ m)) eq_refl)
      as (E1&E2&E3&E4&E5&E6&E7&E8&E9&E10&_). simpl in *. rewrite (not_true_is_false _ E) in *.
    simpl in *. destruct H. constructor; unfold tracked; simpl;
    rewrite ?E1, ?E2, ?E3, ?E4, ?E5, ?E6, ?E7, ?E8, ?E9, ?E10; try assumption; try done;
      try vacuous. rewrite map_size_empty. simpl. lia.
Qed.

(** ** Starting requests *)

(** A request is in one place only. *)
Lemma tracked_nodup m : Holding hand m -> NoDup (tracked (locker_ m)).
Proof.
  intros H. pose proof (inv_nodup _ _ H) as Hn. rewrite (inv_tracked _ _ H) in Hn. by apply NoDup_app in Hn as (_ & _ & [Hn _]%NoDup_app).
Qed.

Lemma waiting_not_in_progress l r :
  NoDup (tracked l) ->
  r ∈ waiting_st_requests_ l \/ r ∈ waiting_non_st_requests_ l ->
  r ∉ in_progress_requests_ l.
Proof.
  unfold tracked. intros Hn Hr Hin.
  apply NoDup_app in Hn as (_ & H1 & Hn). apply NoDup_app in Hn as (_ & H2 & _).
  destruct Hr as [Hr|Hr]; [apply (H1 r Hr)|apply (H2 r Hr)];
    rewrite !elem_of_app, elem_of_elements; auto.
Qed.

Lemma in_progress_permutation l r :
  r ∈ in_progress_requests_ l ->
  elements (in_progress_requests_ l) ≡ₚ r :: elements (in_progress_requests_ l ∖ {[r]}).
Proof.
  intros Hr. rewrite (union_difference_singleton_L r (in_progress_requests_ l)) at 1 by done.
  apply elements_union_singleton. intros [_ Hn]%elem_of_difference.
  by apply Hn, elem_of_singleton.
Qed.

Lemma Forall_cons_tail {A} (P : A -> Prop) x l : Forall P (x :: l) -> Forall P l.
Proof. by inversion 1. Qed.

Lemma NonSession_body_inv r rest m :
  Holding hand m -> waiting_non_st_requests_ (locker_ m) = r :: rest ->
  Holding hand (on_locker (AddInProgressRequest r)
         (Init r None (set_locker_ (set_waiting_non_st_requests_ rest (locker_ m)) m))).
Proof.
  intros H Hw.
  assert (r ∉ in_progress_requests_ (locker_ m)) as Hr.
  { apply waiting_not_in_progress; [by apply tracked_nodup|]. rewrite Hw. right. by left. }
  destruct H. unfold tracked in *. rewrite Hw in *.
  constructor; unfold tracked; simpl; try assumption.
  - intros r' st Hr'. destruct (inv_dom0 r' st Hr'). split; [|done]. by apply elem_of_union_r.
  - by eapply Forall_cons_tail.
  - rewrite inv_tracked0, elements_union_singleton by done. simpl. solve_Permutation.
  - intros r' [->%elem_of_singleton|Hr']%elem_of_union; [by apply elem_of_union_l, elem_of_singleton|].
    by apply elem_of_union_r, inv_started0.
Qed.

Lemma SessionToken_body_inv r rest st m :
  Holding hand m -> waiting_st_requests_ (locker_ m) = r :: rest ->
  last (session_tokens_ (locker_ m)) = Some st ->
  IsRunning (session_state_ (locker_ m)) = true ->
  Holding hand (on_locker (AddInProgressRequestToken r st)
         (Init r (Some st)
            (set_locker_ (set_waiting_st_requests_ rest
               (set_session_tokens_ (removelast (session_tokens_ (locker_ m))) (locker_ m))) m))).
Proof.
  intros H Hw Hst Hrun.
  assert (r ∉ in_progress_requests_ (locker_ m)) as Hr.
  { apply waiting_not_in_progress; [by apply tracked_nodup|]. rewrite Hw. left. by left. }
  destruct H. unfold tracked in *. rewrite Hw in *.
  assert (checked_out_tokens_ (locker_ m) !! r = None) as Hk.
  { destruct (checked_out_tokens_ (locker_ m) !! r) eqn:E; [|done]. by apply inv_dom0 in E as []. }
  pose proof (length_removelast _ _ Hst) as Hlen. pose proof (last_removelast _ _ Hst) as Happ.
  unfold AddInProgressRequestToken. unfold on_locker, token_owned in *. simpl. rewrite Hk.
  constructor; unfold tracked, token_owned; simpl; try assumption.
  - rewrite map_size_insert_None by done. lia.
  - intros r' st' [[-> _]|[_ Hl]]%lookup_insert_Some.
    + split; [by apply elem_of_union_l, elem_of_singleton|by inversion inv_st0].
    + destruct (inv_dom0 r' st' Hl). split; [by apply elem_of_union_r|done].
  - congruence.
  - intros st' Hst'. apply inv_stored0. rewrite Happ. apply elem_of_app. by left.
  - intros r' st' [[-> <-]|[_ Hl]]%lookup_insert_Some; [|by eapply inv_checked0].
    apply inv_stored0. rewrite Happ. apply elem_of_app. right. by left.
  - by eapply Forall_cons_tail.
  - rewrite inv_tracked0, elements_union_singleton by done. simpl. solve_Permutation.
  - intros r' [->%elem_of_singleton|Hr']%elem_of_union;
      [by apply elem_of_union_l, elem_of_singleton|by apply elem_of_union_r, inv_started0].
Qed.

(** What a loop of [AttemptRequests] leaves when it stops by its own condition. *)
Definition no_waiting_non_session (m : Maintainer) : Prop :=
  waiting_non_st_requests_ (locker_ m) = [].
Definition no_startable_session (m : Maintainer) : Prop :=
  IsRunning (session_state_ (locker_ m)) = true ->
  waiting_st_requests_ (locker_ m) = [] \/ session_tokens_ (locker_ m) = [].

(** Both loops touch the requests and the tokens only. *)
Definition same_session (m m' : Maintainer) : Prop :=
  session_state_ (locker_ m') = session_state_ (locker_ m)
  /\ connection_state_ (locker_ m') = connection_state_ (locker_ m)
  /\ credentials_ (locker_ m') = credentials_ (locker_ m)
  /\ session_token_failure_timer_ m' = session_token_failure_timer_ m
  /\ connection_state_recheck_timer_ m' = connection_state_recheck_timer_ m
  /\ status_calls m' = status_calls m.

Lemma NonSession_loop_spec fuel m :
  Holding hand m -> length (waiting_non_st_requests_ (locker_ m)) = fuel ->
  exists m', NonSessionToken_loop fuel m = (true, m') /\ Holding hand m' /\ no_waiting_non_session m'
    /\ same_session m m' /\ waiting_st_requests_ (locker_ m') = waiting_st_requests_ (locker_ m).
Proof.
  revert m. induction fuel as [|fuel IH]; intros m H Hl; simpl;
    unfold NextWaitingNonSessionTokenRequest;
    destruct (waiting_non_st_requests_ (locker_ m)) as [|r rest] eqn:Hw; simplify_eq/=.
  - exists m. done.
  - destruct (IH _ (NonSession_body_inv r rest m H Hw)) as (m' & E & H' & Hn & Hs & Hq); [done|].
    exists m'. split; [exact E|]. split_and!; [done|done|exact Hs|exact Hq].
Qed.

Lemma SessionToken_loop_spec fuel m :
  Holding hand m -> length (waiting_st_requests_ (locker_ m)) = fuel ->
  exists m', SessionToken_loop fuel m = (true, m') /\ Holding hand m' /\ no_startable_session m'
    /\ same_session m m'
    /\ waiting_non_st_requests_ (locker_ m') = waiting_non_st_requests_ (locker_ m).
Proof.
  revert m. induction fuel as [|fuel IH]; intros m H Hl; simpl;
    destruct (IsRunning (session_state_ (locker_ m))) eqn:Hrun;
    try (exists m; split_and!; done || (intros ?; congruence));
    unfold NextWaitingSessionTokenRequest;
    destruct (waiting_st_requests_ (locker_ m)) as [|r rest] eqn:Hw; simplify_eq/=.
  - exists m. split_and!; try done. intros _. by left.
  - destruct (last (session_tokens_ (locker_ m))) as [st|] eqn:Hst.
    + pose proof (SessionToken_body_inv r rest st m H Hw Hst Hrun) as Hb.
      unfold Init, on_locker, AddInProgressRequestToken in Hb |- *. simpl in Hb |- *.
      destruct (checked_out_tokens_ (locker_ m) !! r);
        (destruct (IH _ Hb) as (m' & E & H' & Hn & Hs & Hq); [done|];
         exists m'; split; [exact E|]; split_and!; [done|done|exact Hs|exact Hq]).
    + exists m. split_and!; try done. intros _. right. by apply last_None.
Qed.

Lemma AttemptRequests_inv m : Holding hand m -> Holding hand (AttemptRequests m).
Proof.
  intros H. unfold AttemptRequests, AttemptConnection.
  destruct (IsUnconnected _); [revert H; inv_frame|].
  destruct (NonSession_loop_spec _ m H eq_refl) as (m1 & -> & H1 & _ & _ & _). simpl.
  destruct (SessionToken_loop_spec _ m1 H1 eq_refl) as (m2 & -> & H2 & _). simpl.
  by apply RequestNeeded_inv.
Qed.

End Holding.

(** ** Requests that come back *)

Lemma push_waiting_fields r l :
  session_state_ (push_waiting r l) = session_state_ l
  /\ credentials_ (push_waiting r l) = credentials_ l
  /\ in_progress_requests_ (push_waiting r l) = in_progress_requests_ l
  /\ checked_out_tokens_ (push_waiting r l) = checked_out_tokens_ l
  /\ session_tokens_ (push_waiting r l) = session_tokens_ l
  /\ in_progress_session_token_requests_ (push_waiting r l)
     = in_progress_session_token_requests_ l
  /\ tracked (push_waiting r l) ≡ₚ r :: tracked l.
Proof.
  unfold push_waiting, tracked. destruct (UsesSessionToken r); simpl; split_and!; try done;
    solve_Permutation.
Qed.

Lemma push_waiting_kinds r l :
  Forall (fun r => UsesSessionToken r = true) (waiting_st_requests_ l) ->
  Forall (fun r => UsesSessionToken r = false) (waiting_non_st_requests_ l) ->
  Forall (fun r => UsesSessionToken r = true) (waiting_st_requests_ (push_waiting r l))
  /\ Forall (fun r => UsesSessionToken r = false) (waiting_non_st_requests_ (push_waiting r l)).
Proof.
  unfold push_waiting. destruct (UsesSessionToken r) eqn:E; simpl; intros; split; try done;
    apply Forall_app; by repeat constructor.
Qed.

(** The request in hand is queued. *)
Lemma push_waiting_inv r m : Holding [r] m -> Inv (on_locker (push_waiting r) m).
Proof.
  intros []. destruct (push_waiting_fields r (locker_ m)) as (E1&E2&E3&E4&E5&E6&E7).
  destruct (push_waiting_kinds r (locker_ m)) as [K1 K2]; [done..|].
  constructor; unfold token_owned in *; simpl; rewrite ?E1, ?E2, ?E3, ?E4, ?E5, ?E6; try assumption.
  rewrite inv_tracked0, E7. done.
Qed.

Lemma complete_inv r ec m : Holding [r] m -> Inv (complete r ec m).
Proof.
  intros []. constructor; simpl; try assumption.
  rewrite inv_tracked0, fmap_app. simpl. solve_Permutation.
Qed.

Lemma silence_inv r m : Holding [r] m -> Inv (set_silenced (silenced m ++ [r]) m).
Proof. intros []. constructor; simpl; try assumption. rewrite inv_tracked0. solve_Permutation. Qed.

Lemma Fail_inv r ec m : Holding [r] m -> Inv (Fail_ r ec m).
Proof. intros. unfold Fail_. case_decide; [by apply silence_inv|by apply complete_inv]. Qed.

Lemma delay_inv now t r m :
  Holding [r] m ->
  Inv (on_locker (fun l => set_delayed_requests_ (Add now t r (delayed_requests_ l)) l) m).
Proof.
  intros []. constructor; unfold tracked in *; simpl; try assumption.
  rewrite inv_tracked0, multimap_insert_perm. simpl. solve_Permutation.
Qed.

(** The token goes back to the store, or is deleted. *)
Lemma DeleteCheckedOut_release r m :
  Inv m -> r ∈ in_progress_requests_ (locker_ m) ->
  Holding [r] (on_locker (DeleteCheckedOutToken r) (on_locker (RemoveInProgressRequest r) m)).
Proof.
  intros [] Hr. constructor; unfold tracked, token_owned in *; simpl; try assumption.
  - pose proof (map_size_delete r (checked_out_tokens_ (locker_ m))) as Hs.
    destruct (checked_out_tokens_ (locker_ m) !! r); simpl in Hs; lia.
  - intros r' st [Hne Hl]%lookup_delete_Some. destruct (inv_dom0 r' st Hl). split; [|done].
    apply elem_of_difference. split; [done|]. by intros ->%elem_of_singleton.
  - intros Hrun. destruct (inv_running0 Hrun) as [-> ->]. by rewrite delete_empty.
  - intros r' st [_ Hl]%lookup_delete_Some. by eapply inv_checked0.
  - rewrite inv_tracked0, (in_progress_permutation (locker_ m) r) by done. simpl. solve_Permutation.
  - intros r' [Hr' _]%elem_of_difference. auto.
Qed.

Lemma ReuseToken_release r resp m :
  Inv m -> r ∈ in_progress_requests_ (locker_ m) ->
  Holding [r] (on_locker (ReuseToken r resp) (on_locker (RemoveInProgressRequest r) m)).
Proof.
  intros H Hr. pose proof (DeleteCheckedOut_release r m H Hr) as Hd.
  assert (checked_out_tokens_ (locker_ m) !! r = None ->
          delete r (checked_out_tokens_ (locker_ m)) = checked_out_tokens_ (locker_ m)) as Hdel
    by apply delete_id.
  unfold on_locker, ReuseToken, DeleteCheckedOutToken in *. simpl in *.
  destruct (UsesSessionToken r) eqn:Hu.
  - destruct (checked_out_tokens_ (locker_ m) !! r) as [st|] eqn:Hl.
    + pose proof (inv_checked _ _ H r st Hl) as Hown. pose proof (inv_budget _ _ H) as Hb.
      assert (IsRunning (session_state_ (locker_ m)) = false -> False) as Hrun
        by (intros [_ E]%(inv_running _ _ H); by rewrite E, lookup_empty in Hl).
      destruct Hd. assert (session_token (renew_token resp st) = session_token st) as Est
        by (unfold renew_token; by case_bool_decide).
      constructor; unfold token_owned in *; simpl in *; try assumption.
      * rewrite length_app, map_size_delete, Hl. simpl.
        pose proof (map_size_ne_0_lookup_2 (checked_out_tokens_ (locker_ m)) r) as Hs.
        rewrite Hl in Hs. specialize (Hs ltac:(eauto)). lia.
      * intros ?%Hrun. done.
      * intros st0 [Hin|Hin]%elem_of_app; [by auto|].
        apply list_elem_of_singleton in Hin as ->. by rewrite Est.
    + rewrite Hdel in Hd by done. revert Hd. inv_frame.
  - destruct (checked_out_tokens_ (locker_ m) !! r) as [st|] eqn:Hl.
    + apply (inv_dom _ _ H) in Hl as []. congruence.
    + rewrite Hdel in Hd by done. revert Hd. inv_frame.
Qed.

(** The two orders in which the handlers call the locker give the same state. *)
Lemma retry_waiting_eq r l :
  DeleteCheckedOutToken r (MoveInProgressToWaiting r l)
  = push_waiting r (DeleteCheckedOutToken r (RemoveInProgressRequest r l)).
Proof.
  unfold DeleteCheckedOutToken, MoveInProgressToWaiting, push_waiting, RemoveInProgressRequest.
  by destruct (UsesSessionToken r).
Qed.

Lemma retry_delayed_eq now r resp l :
  ReuseToken r resp (MoveInProgressToDelayed now r 1 l)
  = (fun l => set_delayed_requests_ (Add now 1000 r (delayed_requests_ l)) l)
      (ReuseToken r resp (RemoveInProgressRequest r l)).
Proof.
  unfold ReuseToken, MoveInProgressToDelayed, RemoveInProgressRequest. simpl.
  destruct (UsesSessionToken r); [|done]. by destruct (checked_out_tokens_ l !! r).
Qed.

(** The state in which [HandleRetryRequest] attempts requests. *)
Lemma retry_release now r resp m :
  Inv m -> r ∈ in_progress_requests_ (locker_ m) ->
  Inv (if IsInvalidSessionTokenError (response_error_code resp)
       then on_locker (DeleteCheckedOutToken r) (on_locker (MoveInProgressToWaiting r) m)
       else on_locker (ReuseToken r resp) (on_locker (MoveInProgressToDelayed now r 1) m)).
Proof.
  intros H Hr.
  destruct (IsInvalidSessionTokenError _).
  - pose proof (push_waiting_inv r _ (DeleteCheckedOut_release r m H Hr)) as HI.
    unfold on_locker in *. simpl in *. by rewrite retry_waiting_eq.
  - pose proof (delay_inv now 1000 r _ (ReuseToken_release r resp m H Hr)) as HI.
    unfold on_locker in *. cbn [locker_ set_locker_] in *. by rewrite retry_delayed_eq.
Qed.

Lemma HandleRetryRequest_inv now r resp m :
  Inv m -> r ∈ in_progress_requests_ (locker_ m) -> Inv (HandleRetryRequest now r resp m).
Proof. intros H Hr. by apply AttemptRequests_inv, retry_release. Qed.

(** The state in which [HandleCompletion] attempts requests. *)
Lemma completion_release r resp m :
  Inv m -> r ∈ in_progress_requests_ (locker_ m) ->
  Holding [r]
    (if IsInvalidSessionTokenError (response_error_code resp)
     then on_locker (DeleteCheckedOutToken r) (on_locker (RemoveInProgressRequest r) m)
     else on_locker (ReuseToken r resp) (on_locker (RemoveInProgressRequest r) m)).
Proof.
  intros. destruct (IsInvalidSessionTokenError _);
    [by apply DeleteCheckedOut_release|by apply ReuseToken_release].
Qed.

Lemma HandleCompletion_inv r ec resp m :
  Inv m -> r ∈ in_progress_requests_ (locker_ m) ->
  Inv (complete r ec (HandleCompletion r resp m)).
Proof. intros H Hr. by apply complete_inv, AttemptRequests_inv, completion_release. Qed.

(** The connection state is apart from everything else. *)
Lemma UpdateConnection_fields now ec m :
  let m' := UpdateConnectionStateFromErrorCode now ec m in
  in_progress_requests_ (locker_ m') = in_progress_requests_ (locker_ m)
  /\ session_state_ (locker_ m') = session_state_ (locker_ m)
  /\ session_state_change_count_ (locker_ m') = session_state_change_count_ (locker_ m)
  /\ credentials_ (locker_ m') = credentials_ (locker_ m)
  /\ session_tokens_ (locker_ m') = session_tokens_ (locker_ m)
  /\ checked_out_tokens_ (locker_ m') = checked_out_tokens_ (locker_ m)
  /\ token_calls m' = token_calls m /\ granted m' = granted m
  /\ failure_count_ (locker_ m') = failure_count_ (locker_ m)
  /\ session_token_failure_timer_ m' = session_token_failure_timer_ m
  /\ status_calls m' = status_calls m.
Proof.
  unfold UpdateConnectionStateFromErrorCode, on_locker, SetConnectionState,
    ChangeConnectionStateInternal.
  destruct (is_connection_error ec); simpl; destruct (negb _); simpl; try done;
    destruct (connection_state_change_callback_ _); done.
Qed.

Lemma CallbackProxy_inv now utc r resp m :
  Inv m -> r ∈ in_progress_requests_ (locker_ m) -> Inv (CallbackProxy now utc r resp m).
Proof.
  intros H Hr. unfold CallbackProxy, HandleCompletionNotification.
  pose proof (UpdateConnection_inv now (response_error_code resp) m H) as H'.
  destruct (UpdateConnection_fields now (response_error_code resp) m) as [E _].
  rewrite <-E in Hr. destruct (should_retry _ _ _);
    [by apply HandleRetryRequest_inv|by apply HandleCompletion_inv].
Qed.

(** ** Token responses *)

(** A response takes its call off the count, which leaves room for a token. *)
Definition has_room (m : Maintainer) : Prop :=
  (length (token_calls m) + length (session_tokens_ (locker_ m))
   + size (checked_out_tokens_ (locker_ m)) < 10)%nat.

Lemma Decrement_inv before c after g m :
  Inv m -> token_calls m = before ++ c :: after ->
  let m' := on_locker DecrementSessionTokenInProgressCount
              (set_granted (granted m ++ g) (set_token_calls (before ++ after) m)) in
  Inv m' /\ has_room m'.
Proof.
  intros [] Hc. simpl. rewrite Hc in *. rewrite length_app in *. simpl in *. split.
  - constructor; unfold tracked, token_owned in *; simpl; rewrite ?length_app; try assumption; try lia.
    + rewrite inv_count0, u64_small; lia.
    + intros st Hst. destruct (inv_stored0 st Hst) as (c' & ? & ?). exists c'. split; [done|].
      apply elem_of_app. by left.
    + intros r st Hst. destruct (inv_checked0 r st Hst) as (c' & ? & ?). exists c'. split; [done|].
      apply elem_of_app. by left.
  - unfold has_room. simpl. rewrite length_app. lia.
Qed.

Lemma has_credentials m :
  Inv m -> IsUninitialized (session_state_ (locker_ m)) = false -> credentials_ (locker_ m) <> None.
Proof. intros H Hu E%(inv_creds _ _ H). congruence. Qed.

Lemma HandleTokenFailure_inv now resp c n m :
  Inv m -> Inv (HandleTokenFailure now resp c (session_state_ (locker_ m)) n m).
Proof.
  intros H. pose proof (has_credentials _ H) as Hc. unfold HandleTokenFailure.
  set (m1 := on_locker IncrementFailureCount m).
  assert (Inv m1) as H1 by (revert H; inv_frame).
  assert (forall t, Inv (set_session_token_failure_timer_ t m1)) as Ht
    by (intros t; revert H1; inv_frame).
  assert (forall s t, IsUninitialized (session_state_ (locker_ m)) = false ->
            IsUninitialized s = false ->
            (IsRunning s = false -> IsRunning (session_state_ (locker_ m)) = true -> clears s = true) ->
            Inv (on_locker (fun l => (SetSessionStateSafe s n l).2)
                   (set_session_token_failure_timer_ t m1))) as Hs.
  { intros s t Hu Hus Hcl. unfold on_locker, SetSessionStateSafe at 1.
    destruct (_ =? _); [|specialize (Ht t); revert Ht; inv_frame].
    apply (Change_inv s (set_session_token_failure_timer_ t m1)); [apply Ht|by apply Hc|done..]. }
  destruct (IsInvalidCredentialsError _).
  - destruct (negb _ && negb _) eqn:Eu; [|done]. case_bool_decide; [|done].
    apply andb_true_iff in Eu as [Eu%negb_true_iff _]. by apply Hs.
  - destruct (_ || matches_errc _ _); [|done].
    destruct (IsInitialized _ || IsProlongedError _) eqn:Ei; [|done].
    apply Hs; [|done|]; by destruct (session_state_ (locker_ m)).
Qed.

(** The state in which [HandleTokenSuccess] attempts requests. *)
Lemma token_added_inv resp c m :
  Inv m -> has_room m -> (c, tr_session_token resp) ∈ granted m ->
  exists m', HandleTokenSuccess resp c (session_state_ (locker_ m))
               (session_state_change_count_ (locker_ m)) m = AttemptRequests m' /\ Inv m'.
Proof.
  intros H Hroom Hg. unfold HandleTokenSuccess, AddSessionToken. simpl.
  case_bool_decide as Hc; simpl; (eexists; split; [reflexivity|]); [|revert H; inv_frame].
  assert (IsUninitialized (session_state_ (locker_ m)) = false) as Hu.
  { destruct (IsUninitialized _) eqn:E; [|done]. apply (inv_creds _ _ H) in E. congruence. }
  rewrite Hu. simpl. unfold has_room in Hroom. set (st := {| session_token := _ |}).
  assert (token_owned m st) as Hst by (exists c; auto).
  destruct (negb (IsRunning (session_state_ (locker_ m)))) eqn:Hr.
  - unfold SetSessionStateSafe, on_locker. simpl. rewrite Z.eqb_refl. simpl.
    set (l0 := set_session_tokens_ _ _).
    destruct (Change_spec (Running resp) l0 eq_refl) as (E1&E2&E3&E4&E5&E6&E7&E8&E9&E10&_).
    rewrite orb_true_r in E9, E10. subst l0. simpl in *.
    destruct H. constructor; unfold tracked, token_owned in *; simpl;
      rewrite ?E1, ?E2, ?E3, ?E4, ?E5, ?E6, ?E7, ?E8, ?E9, ?E10; try assumption; try done.
    + rewrite length_app. simpl. lia.
    + rewrite Hc. by split.
    + intros st' [Hin|Hin]%elem_of_app; [by auto|].
      apply list_elem_of_singleton in Hin as ->. done.
  - apply negb_false_iff in Hr. destruct H.
    constructor; unfold tracked, token_owned in *; simpl; try assumption.
    + rewrite length_app. simpl. lia.
    + congruence.
    + intros st' [Hin|Hin]%elem_of_app; [by auto|].
      apply list_elem_of_singleton in Hin as ->. done.
Qed.

Lemma HandleTokenSuccess_inv resp c m :
  Inv m -> has_room m -> (c, tr_session_token resp) ∈ granted m ->
  Inv (HandleTokenSuccess resp c (session_state_ (locker_ m))
         (session_state_change_count_ (locker_ m)) m).
Proof.
  intros H Hroom Hg. destruct (token_added_inv resp c m H Hroom Hg) as (m' & -> & H').
  by apply AttemptRequests_inv.
Qed.

Lemma HandleSessionTokenResponse_inv now resp before c after m :
  Inv m -> token_calls m = before ++ c :: after ->
  let g := if is_error (tr_error_code resp) then [] else [(c, tr_session_token resp)] in
  Inv (HandleSessionTokenResponse now resp c
         (set_granted (granted m ++ g) (set_token_calls (before ++ after) m))).
Proof.
  intros H Hc g. destruct (Decrement_inv before c after g m H Hc) as [H1 Hroom].
  unfold HandleSessionTokenResponse. set (m1 := on_locker _ _) in *. unfold GetSessionState.
  destruct (UpdateConnection_fields now (tr_error_code resp) m1)
    as (_&E2&E3&_&E5&E6&E7&E8&_).
  pose proof (UpdateConnection_inv now (tr_error_code resp) m1 H1) as H2.
  rewrite <-E2, <-E3. subst g. destruct (is_error _).
  - by apply HandleTokenFailure_inv.
  - apply HandleTokenSuccess_inv; [done| |].
    + unfold has_room in *. by rewrite E5, E6, E7.
    + rewrite E8. simpl. apply elem_of_app. right. by left.
Qed.

(** ** Every step *)

Lemma ProcessTimeout_inv r m : Inv m -> Inv (ProcessTimeout r no_error m).
Proof.
  intros H. unfold ProcessTimeout, HandleTimedOutRequest. simpl.
  destruct (UsesSessionToken r) eqn:Hu.
  - destruct (erase_first r (waiting_st_requests_ (locker_ m))) as [q|] eqn:E;
      [|revert H; inv_frame]. apply Fail_inv. destruct H.
    pose proof (erase_first_Forall _ _ _ _ E inv_st0). apply erase_first_spec in E.
    constructor; unfold tracked in *; simpl; try assumption. rewrite inv_tracked0, E.
    solve_Permutation.
  - destruct (erase_first r (waiting_non_st_requests_ (locker_ m))) as [q|] eqn:E;
      [|revert H; inv_frame]. apply Fail_inv. destruct H.
    pose proof (erase_first_Forall _ _ _ _ E inv_non_st0). apply erase_first_spec in E.
    constructor; unfold tracked in *; simpl; try assumption. rewrite inv_tracked0, E.
    solve_Permutation.
Qed.

Lemma LockerAddWaiting_inv now r m :
  Holding [r] m -> Inv (on_locker (LockerAddWaitingRequest now r) m).
Proof.
  intros H. apply (push_waiting_inv r (on_locker (fun l => set_time_out_requests_
    (Add now (TimeoutSeconds r * 1000) r (time_out_requests_ l)) l) m)).
  revert H. inv_frame.
Qed.

Lemma new_request_held r m :
  Inv m -> r ∉ called m -> Holding [r] (set_called (called m ++ [r]) m).
Proof.
  intros [] Hr. constructor; simpl; try assumption.
  - apply NoDup_app. split_and!; [done| |apply NoDup_singleton].
    intros x Hx ->%list_elem_of_singleton. done.
  - rewrite inv_tracked0. solve_Permutation.
  - intros x Hx. apply elem_of_app. left. auto.
Qed.

Lemma delayed_request_held t r rest m :
  Inv m -> data_ (delayed_requests_ (locker_ m)) = (t, r) :: rest ->
  Holding [r] (on_locker (fun l => set_delayed_requests_
                            (take_event r rest (delayed_requests_ l)) l) m).
Proof.
  intros [] Hd. constructor; unfold tracked in *; simpl; try assumption.
  rewrite inv_tracked0, Hd. simpl. solve_Permutation.
Qed.

Lemma Cancel_inv r m : Inv m -> r ∈ called m -> Inv (Cancel r m).
Proof.
  intros H Hr. unfold Cancel. case_decide; [done|]. destruct H. constructor; simpl; try assumption.
  intros x [Hx| ->%list_elem_of_singleton]%elem_of_app; auto.
Qed.

Lemma StopTimeouts_inv m : Inv m -> Inv (MaintainerStopTimeouts m).
Proof.
  intros []. constructor; unfold tracked in *; simpl; try assumption.
  rewrite inv_tracked0. solve_Permutation.
Qed.

Lemma step_inv m m' : step m m' -> Inv m -> Inv m'.
Proof.
  destruct 1 as [now r m Hr|c m|m|m|now resp c before after m Hc g|now ec n m Hn
    |now utc r resp m Hr|t m Ht|t m Ht|now t r rest m Hrun Hd Ht|t r rest m Hrun Hd|r m Hr|m
    |now r m Hr|r m Hr]; intros H.
  - by apply AttemptRequests_inv, LockerAddWaiting_inv, new_request_held.
  - by apply AttemptRequests_inv, SetCredentials_inv.
  - revert H. inv_frame.
  - revert H. inv_frame.
  - by apply HandleSessionTokenResponse_inv.
  - unfold HandleCheckConnectionStatusResponse.
    assert (Inv (set_status_calls n m)) as H1 by (revert H; inv_frame).
    apply (UpdateConnection_inv now ec) in H1. destruct (IsConnected _); [|done].
    by apply AttemptRequests_inv.
  - by apply CallbackProxy_inv.
  - apply RequestNeeded_inv, AttemptRequests_inv. revert H. inv_frame.
  - apply AttemptRequests_inv. revert H. inv_frame.
  - by eapply AttemptRequests_inv, LockerAddWaiting_inv, delayed_request_held.
  - apply ProcessTimeout_inv. revert H. inv_frame.
  - by apply Cancel_inv.
  - by apply StopTimeouts_inv.
  - done.
  - done.
Qed.

Lemma reachable_inv m : reachable m -> Inv m.
Proof. induction 1; [apply Inv_new|eauto using step_inv]. Qed.
