(* ===== verification/SessionTheorems.v ===== *)
(** * What the session maintainer guarantees

    Consequences of the invariant of [SessionProofs.v]: the token budget, the fate of
    requests, whose tokens are used, what [AttemptRequests] leaves behind, when the
    maintainer keeps asking for tokens; and behaviours that its callers may not expect: of
    late timeouts, of cancelled, stopped and destroyed requests, of refused credentials. *)
From S2P Require Import Prelude Errors TimedEvents SessionLocker SessionMaintainer SessionProofs.

Open Scope Z_scope.

(** ** Frames *)

Lemma TryRequest_frame c m :
  exists n k, (TryRequestSessionToken c m).2
    = set_token_calls k (on_locker (set_in_progress_session_token_requests_ n) m).
Proof.
  unfold TryRequestSessionToken, StartRequestSessionToken. destruct (may_request_token _ _ _ _).
  - eexists _, _. reflexivity.
  - exists (in_progress_session_token_requests_ (locker_ m)), (token_calls m).
    by destruct m as [[]].
Qed.

Lemma RequestTokens_loop_frame fuel c m :
  exists n k, (RequestTokens_loop fuel c m).2
    = set_token_calls k (on_locker (set_in_progress_session_token_requests_ n) m).
Proof.
  revert m. induction fuel as [|fuel IH]; intros m; simpl.
  - exists (in_progress_session_token_requests_ (locker_ m)), (token_calls m).
    by destruct m as [[]].
  - destruct (TryRequest_frame c m) as (n & k & E).
    destruct (TryRequestSessionToken c m) as [[] m1]; simpl in E; subst m1; [|eauto].
    destruct (IH (set_token_calls k (on_locker (set_in_progress_session_token_requests_ n) m)))
      as (n' & k' & ->). by exists n', k'.
Qed.

(** Asking for tokens changes the calls in flight and their count, nothing else. *)
Lemma RequestNeeded_frame b m :
  exists n k, RequestNeededSessionTokens b m
    = set_token_calls k (on_locker (set_in_progress_session_token_requests_ n) m).
Proof.
  assert (exists n k, m = set_token_calls k (on_locker (set_in_progress_session_token_requests_ n) m))
    as Hm by (exists (in_progress_session_token_requests_ (locker_ m)), (token_calls m);
              by destruct m as [[]]).
  unfold RequestNeededSessionTokens. destruct (_ || _); [|done].
  destruct (GetCredenials _); [|done].
  destruct (IsCredentialsError _); [apply TryRequest_frame|apply RequestTokens_loop_frame].
Qed.

(** The logs of calls and completions. *)
Definition history (m : Maintainer) :=
  (called m, completed m, silenced m, granted m).

Lemma NonSession_loop_history fuel m : history (NonSessionToken_loop fuel m).2 = history m.
Proof.
  revert m. induction fuel as [|fuel IH]; intros m; simpl;
    destruct (NextWaitingNonSessionTokenRequest (locker_ m)) as [[r l]|]; try done.
  by rewrite IH.
Qed.

Lemma SessionToken_loop_history fuel m : history (SessionToken_loop fuel m).2 = history m.
Proof.
  revert m. induction fuel as [|fuel IH]; intros m; simpl; destruct (IsRunning _); try done;
    destruct (NextWaitingSessionTokenRequest (locker_ m)) as [[[r st] l]|]; try done.
  by rewrite IH.
Qed.

Lemma AttemptRequests_history m : history (AttemptRequests m) = history m.
Proof.
  unfold AttemptRequests. destruct (IsUnconnected _); [done|].
  edestruct RequestNeeded_frame as (n & k & ->).
  change (history (set_token_calls k (on_locker (set_in_progress_session_token_requests_ n) ?x)))
    with (history x).
  by rewrite SessionToken_loop_history, NonSession_loop_history.
Qed.

(** ** Budgets and requests *)

(** C6 In every reachable state the count of token requests is the number of calls in
    flight, at most 4 are, and calls in flight, stored tokens and tokens checked out
    are at most 10 together: the counter the code decrements is never 0 then. *)
Theorem session_token_budget m :
  reachable m ->
  in_progress_session_token_requests_ (locker_ m) = Z.of_nat (length (token_calls m))
  /\ Z.of_nat (length (token_calls m)) <= max_in_progress_token_requests
  /\ Z.of_nat (length (token_calls m) + length (session_tokens_ (locker_ m))
               + size (checked_out_tokens_ (locker_ m))) <= max_tokens.
Proof.
  intros H%reachable_inv. destruct H. unfold max_in_progress_token_requests, max_tokens. lia.
Qed.

Lemma callbacks_requests m : (callbacks m).*1 = (completed m).*1 ++ cancelled m.
Proof.
  unfold callbacks. rewrite fmap_app. f_equal.
  induction (cancelled m) as [|r l IH]; [done|]. rewrite !fmap_cons. by f_equal.
Qed.

Lemma callbacks_count m r :
  count_occ STRequest_eq_dec (callbacks m).*1 r
  = (count_occ STRequest_eq_dec (completed m).*1 r + count_occ STRequest_eq_dec (cancelled m) r)%nat.
Proof.
  by rewrite callbacks_requests, count_occ_app.
Qed.

Lemma count_NoDup (l : list STRequest) x :
  NoDup l -> count_occ STRequest_eq_dec l x = if decide (x ∈ l) then 1%nat else 0%nat.
Proof.
  intros Hn%NoDup_ListNoDup. case_decide as E; rewrite list_elem_of_In in E.
  - by apply NoDup_count_occ'.
  - by apply count_occ_not_In.
Qed.

Lemma inv_completed_nodup m : Inv m -> NoDup (completed m).*1.
Proof.
  intros H. pose proof (inv_nodup _ _ H) as Hn. rewrite (inv_tracked _ _ H), app_nil_l in Hn.
  apply NoDup_app in Hn as (_ & _ & [Hn _]%NoDup_app). done.
Qed.

(** C1 No request is lost and none ends twice, whatever the maintainer's user does while
    it exists: in every reachable state each request ever made by [Call] is in exactly
    one of the waiting queues, the requests in progress, the delayed requests, the
    requests that ended with a call of their callback, the requests that timed out after
    a retry ([silenced]), and the requests that were delayed when the timeouts were
    stopped ([dropped]); those in the first four are the ones [TotalRequests] counts.  A
    request's callback is called once if it has ended so, not otherwise, and one more
    time for each time it was cancelled before its first start, which ends nothing. *)
Theorem requests_conserved m :
  reachable m ->
  NoDup (called m)
  /\ called m ≡ₚ tracked (locker_ m) ++ (completed m).*1 ++ silenced m ++ dropped m
  /\ TotalRequests (locker_ m) = length (tracked (locker_ m))
  /\ (forall r, r ∈ (callbacks m).*1 -> r ∈ called m)
  /\ (forall r, count_occ STRequest_eq_dec (callbacks m).*1 r
        = ((if decide (r ∈ (completed m).*1) then 1 else 0)
           + count_occ STRequest_eq_dec (cancelled m) r)%nat).
Proof.
  intros H%reachable_inv. pose proof (inv_completed_nodup m H) as Hc. split_and!.
  - apply (inv_nodup _ _ H).
  - apply (inv_tracked _ _ H).
  - unfold TotalRequests, tracked, Size. rewrite !length_app, length_fmap.
    unfold size at 1. simpl. unfold set_size. simpl. lia.
  - intros r. rewrite callbacks_requests. intros [Hr|Hr]%elem_of_app; [|by apply (inv_cancelled _ _ H)].
    rewrite (inv_tracked _ _ H), !elem_of_app. auto.
  - intros r. by rewrite callbacks_count, count_NoDup.
Qed.

(** C13 A token is used only with the credentials it was granted for: in every reachable
    state each stored or checked-out token came in a successful answer to a request
    made with the current credentials, and there is one only while the session is
    running; a checked-out token belongs to a request in progress. *)
Theorem tokens_belong_to_credentials m :
  reachable m ->
  (forall st, st ∈ session_tokens_ (locker_ m) ->
     IsRunning (session_state_ (locker_ m)) = true /\ token_owned m st)
  /\ (forall r st, checked_out_tokens_ (locker_ m) !! r = Some st ->
        IsRunning (session_state_ (locker_ m)) = true /\ token_owned m st
        /\ r ∈ in_progress_requests_ (locker_ m) /\ UsesSessionToken r = true).
Proof.
  intros H%reachable_inv. destruct H. split.
  - intros st Hst. split; [|auto]. apply not_false_iff_true. intros [E _]%inv_running.
    rewrite E in Hst. by apply not_elem_of_nil in Hst.
  - intros r st Hst. split; [|eauto]. apply not_false_iff_true. intros [_ E]%inv_running.
    by rewrite E, lookup_empty in Hst.
Qed.

(** ** Attempting requests *)

(** C36 What [AttemptRequests] leaves, in any reachable state: without a connection it
    only checks the connection; else no request without token waits, no session
    request waits while there is a token for it and the session runs, and unless there
    are no credentials or they failed, the locker permits no further token request.
    Its loops stop by their own conditions. *)
Theorem AttemptRequests_spec m :
  reachable m ->
  let m' := AttemptRequests m in
  if IsUnconnected (connection_state_ (locker_ m)) then m' = AttemptConnection m
  else no_waiting_non_session m' /\ no_startable_session m'
       /\ (credentials_ (locker_ m') = None
           \/ IsCredentialsError (session_state_ (locker_ m')) = true
           \/ (StartRequestSessionToken (locker_ m')).1 = false).
Proof.
  intros H%reachable_inv. simpl. unfold AttemptRequests, GetConnectionState.
  destruct (IsUnconnected _); [done|].
  destruct (NonSession_loop_spec _ m H eq_refl) as (m1 & -> & H1 & Hn1 & _ & _). simpl.
  destruct (SessionToken_loop_spec _ m1 H1 eq_refl) as (m2 & -> & H2 & Hn2 & _ & Hq). simpl.
  destruct (RequestNeeded_frame NoForce m2) as (n & k & E).
  assert (no_waiting_non_session m2) as Hn by (unfold no_waiting_non_session in *; congruence).
  split_and!; [rewrite E; exact Hn|rewrite E; exact Hn2|].
  clear E n k. unfold RequestNeededSessionTokens.
  destruct (IsCredentialsError (session_state_ (locker_ m2))) eqn:Ec; cbn [negb orb]; [by auto|].
  unfold GetCredenials. destruct (credentials_ (locker_ m2)) as [c|] eqn:Hc; [|auto].
  destruct (RequestTokens_loop_stops token_fuel c m2 H2) as (m3 & -> & Hstop).
  { unfold token_fuel. lia. }
  right. right. simpl. unfold TryRequestSessionToken in Hstop.
  destruct (StartRequestSessionToken (locker_ m3)) as [[] l]; done.
Qed.

(** ** The maintainer keeps asking *)

(** Something is there, or under way, that will bring a token. *)
Definition has_prospect (m : Maintainer) : Prop :=
  session_tokens_ (locker_ m) <> [] \/ checked_out_tokens_ (locker_ m) <> ∅
  \/ token_calls m <> [] \/ session_token_failure_timer_ m <> None
  \/ connection_state_recheck_timer_ m <> None \/ status_calls m <> 0%nat.

Definition alive (m : Maintainer) : Prop :=
  credentials_ (locker_ m) <> None ->
  IsCredentialsError (session_state_ (locker_ m)) = false -> has_prospect m.

Lemma refused_prospect hand m :
  Holding hand m -> (StartRequestSessionToken (locker_ m)).1 = false -> has_prospect m.
Proof.
  unfold StartRequestSessionToken. intros H. destruct (may_request_token _ _ _ _) eqn:E; [done|].
  intros _. unfold has_prospect. rewrite (inv_count _ _ H) in E.
  destruct (token_calls m); [|right; right; by left].
  destruct (session_tokens_ (locker_ m)); [|by left].
  destruct (decide (checked_out_tokens_ (locker_ m) = ∅)) as [Ek|]; [|right; by left].
  rewrite Ek, map_size_empty in E. done.
Qed.

Lemma RequestNeeded_alive hand b m : Holding hand m -> alive (RequestNeededSessionTokens b m).
Proof.
  intros H Hc Hs. pose proof (RequestNeeded_frame b m) as (n & k & E). rewrite E in Hc, Hs.
  simpl in Hc, Hs. clear E. unfold RequestNeededSessionTokens. rewrite Hs. cbn [negb orb].
  unfold GetCredenials. destruct (credentials_ (locker_ m)) as [c|]; [|done].
  pose proof (RequestTokens_loop_inv token_fuel c m H) as H3.
  destruct (RequestTokens_loop_stops token_fuel c m H) as (m3 & E & Hstop);
    [unfold token_fuel; lia|]. rewrite E in *. simpl in H3 |- *.
  eapply refused_prospect; [done|]. revert Hstop. unfold TryRequestSessionToken.
  by destruct (StartRequestSessionToken (locker_ m3)) as [[] l].
Qed.

Lemma AttemptRequests_alive hand m : Holding hand m -> alive (AttemptRequests m).
Proof.
  intros H. unfold AttemptRequests, AttemptConnection.
  destruct (IsUnconnected _); [intros _ _; do 5 right; done|].
  destruct (NonSession_loop_spec _ m H eq_refl) as (m1 & -> & H1 & _ & _ & _).
  destruct (SessionToken_loop_spec _ m1 H1 eq_refl) as (m2 & E & H2 & _).
  cbn [snd]. rewrite E. by eapply RequestNeeded_alive.
Qed.

Lemma UpdateConnection_connected now ec m :
  let m' := UpdateConnectionStateFromErrorCode now ec m in
  if is_connection_error ec
  then connection_state_recheck_timer_ m' = Some (now + connection_state_recheck_timeout_ms)
       /\ connection_state_ (locker_ m') = Unconnected ec
  else connection_state_ (locker_ m') = Connected.
Proof.
  unfold UpdateConnectionStateFromErrorCode, on_locker, SetConnectionState,
    ChangeConnectionStateInternal.
  destruct (is_connection_error ec); simpl; destruct (connection_states_equal _ _) eqn:E; simpl;
    try (destruct (connection_state_change_callback_ _); done);
    destruct (connection_state_ (locker_ m)); try done.
  simpl in E. apply bool_decide_eq_true in E as ->. done.
Qed.

(** A failed token request always arms the retry timer. *)
Lemma HandleTokenFailure_timer now resp c s n m :
  session_token_failure_timer_ (HandleTokenFailure now resp c s n m)
  = Some (now + (if IsInvalidCredentialsError (tr_error_code resp)
                 then session_token_credential_failure_wait_timeout_ms
                 else if matches_errc (tr_error_code resp) errc_AccountTemporarilyLocked
                 then session_token_account_locked_wait_timeout_ms
                 else session_token_failure_wait_timeout_ms)).
Proof.
  unfold HandleTokenFailure. destruct (IsInvalidCredentialsError _).
  - destruct (negb _ && _); [|done]. by case_bool_decide.
  - destruct (_ || _); [|done]. by destruct (IsInitialized _ || _).
Qed.

Lemma HandleTokenSuccess_alive resp c m :
  Inv m -> has_room m -> (c, tr_session_token resp) ∈ granted m ->
  alive (HandleTokenSuccess resp c (session_state_ (locker_ m))
           (session_state_change_count_ (locker_ m)) m).
Proof.
  intros H Hroom Hg. destruct (token_added_inv resp c m H Hroom Hg) as (m' & -> & H').
  by eapply AttemptRequests_alive.
Qed.

Lemma step_alive m m' : step m m' -> Inv m -> alive m -> alive m'.
Proof.
  destruct 1 as [now r m Hr|c m|m|m|now resp c before after m Hc g|now ec n m Hn
    |now utc r resp m Hr|t m Ht|t m Ht|now t r rest m Hrun Hd Ht|t r rest m Hrun Hd|r m Hr|m
    |now r m Hr|r m Hr]; intros H Ha.
  - by eapply AttemptRequests_alive, LockerAddWaiting_inv, new_request_held.
  - by eapply AttemptRequests_alive, SetCredentials_inv.
  - exact Ha.
  - exact Ha.
  - unfold HandleSessionTokenResponse, GetSessionState.
    destruct (Decrement_inv before c after g m H Hc) as [H1 Hroom]. fold g in H1, Hroom |- *.
    set (m1 := on_locker _ _) in *.
    destruct (UpdateConnection_fields now (tr_error_code resp) m1)
      as (_&E2&E3&_&E5&E6&E7&E8&_).
    destruct (is_error _) eqn:Ee.
    + intros _ _. right; right; right; left. by rewrite HandleTokenFailure_timer.
    + rewrite <-E2, <-E3. eapply HandleTokenSuccess_alive.
      * by apply UpdateConnection_inv.
      * unfold has_room in *. by rewrite E5, E6, E7.
      * rewrite E8. subst m1 g. simpl. apply elem_of_app. right. by left.
  - unfold HandleCheckConnectionStatusResponse.
    assert (Inv (set_status_calls n m)) as H1 by (revert H; inv_frame).
    apply (UpdateConnection_inv now ec) in H1.
    pose proof (UpdateConnection_connected now ec (set_status_calls n m)) as Hu.
    destruct (is_connection_error ec); simpl in Hu.
    + destruct Hu as [Ht Hu]. unfold GetConnectionState. rewrite Hu. simpl.
      intros _ _. right; right; right; right; left. by rewrite Ht.
    + unfold GetConnectionState. rewrite Hu. by eapply AttemptRequests_alive.
  - unfold CallbackProxy, HandleCompletionNotification, HandleRetryRequest.
    pose proof (UpdateConnection_inv now (response_error_code resp) m H) as H'.
    destruct (UpdateConnection_fields now (response_error_code resp) m) as [E _].
    rewrite <-E in Hr. destruct (should_retry _ _ _).
    + by eapply AttemptRequests_alive, retry_release.
    + exact (AttemptRequests_alive _ _ (completion_release r resp _ H' Hr)).
  - apply (RequestNeeded_alive []), AttemptRequests_inv. revert H. inv_frame.
  - eapply (AttemptRequests_alive []). revert H. inv_frame.
  - by eapply AttemptRequests_alive, LockerAddWaiting_inv, delayed_request_held.
  - unfold ProcessTimeout, HandleTimedOutRequest, Fail_. simpl.
    destruct (UsesSessionToken r); destruct (erase_first _ _); try exact Ha;
      case_decide; exact Ha.
  - unfold Cancel. case_decide; exact Ha.
  - exact Ha.
  - exact Ha.
  - exact Ha.
Qed.

(** C14 The session never stalls: in every reachable state with credentials that have
    not failed, there is a token, or a token request or a connection check in flight,
    or a timer that will start one. *)
Theorem session_never_stalls m : reachable m -> alive m.
Proof.
  intros Hr. induction Hr as [|m m' Hr IH Hs]; [by intros []|].
  eapply step_alive; [done|by apply reachable_inv|done].
Qed.

(** ** What happens to a token *)

(** The tokens of the session, stored or checked out. *)
Definition all_tokens (l : Locker) : list SessionTokenData :=
  session_tokens_ l ++ (map_to_list (checked_out_tokens_ l)).*2.

Lemma SessionToken_loop_tokens hand fuel m :
  Holding hand m -> all_tokens (locker_ (SessionToken_loop fuel m).2) ≡ₚ all_tokens (locker_ m).
Proof.
  revert m. induction fuel as [|fuel IH]; intros m H; simpl; destruct (IsRunning _) eqn:Hrun;
    try done; unfold NextWaitingSessionTokenRequest;
    destruct (waiting_st_requests_ (locker_ m)) as [|r rest] eqn:Hw; try done;
    destruct (last (session_tokens_ (locker_ m))) as [st|] eqn:Hst; try done.
  rewrite (IH _ (SessionToken_body_inv r rest st m H Hw Hst Hrun)).
  assert (checked_out_tokens_ (locker_ m) !! r = None) as Hk.
  { destruct (checked_out_tokens_ (locker_ m) !! r) eqn:E; [|done].
    apply (inv_dom _ _ H) in E as [Hin _]. exfalso.
    eapply waiting_not_in_progress; [by eapply tracked_nodup| |exact Hin]. rewrite Hw. left. by left. }
  unfold AddInProgressRequestToken. simpl. rewrite Hk. unfold all_tokens. simpl.
  rewrite map_to_list_insert by done. rewrite (last_removelast _ _ Hst) at 2. simpl.
  solve_Permutation.
Qed.

Lemma NonSession_loop_tokens fuel m :
  all_tokens (locker_ (NonSessionToken_loop fuel m).2) = all_tokens (locker_ m).
Proof.
  revert m. induction fuel as [|fuel IH]; intros m; simpl; unfold NextWaitingNonSessionTokenRequest;
    destruct (waiting_non_st_requests_ (locker_ m)); try done. by rewrite IH.
Qed.

Lemma AttemptRequests_tokens hand m :
  Holding hand m -> all_tokens (locker_ (AttemptRequests m)) ≡ₚ all_tokens (locker_ m).
Proof.
  intros H. unfold AttemptRequests. destruct (IsUnconnected _); [done|].
  edestruct RequestNeeded_frame as (n & k & ->).
  change (all_tokens (locker_ (set_token_calls k
    (on_locker (set_in_progress_session_token_requests_ n) ?x)))) with (all_tokens (locker_ x)).
  destruct (NonSession_loop_spec _ m H eq_refl) as (m1 & E & H1 & _).
  rewrite SessionToken_loop_tokens by (rewrite E; exact H1). by rewrite NonSession_loop_tokens.
Qed.

Lemma release_tokens r resp st m :
  Inv m -> checked_out_tokens_ (locker_ m) !! r = Some st ->
  exists rest, all_tokens (locker_ m) ≡ₚ st :: rest
    /\ all_tokens (DeleteCheckedOutToken r (locker_ m)) ≡ₚ rest
    /\ all_tokens (ReuseToken r resp (locker_ m)) ≡ₚ renew_token resp st :: rest.
Proof.
  intros H Hl. exists (all_tokens (DeleteCheckedOutToken r (locker_ m))).
  destruct (inv_dom _ _ H r st Hl) as [_ Hu]. unfold all_tokens, ReuseToken. simpl.
  rewrite Hu, Hl. simpl. rewrite <-(map_to_list_delete (checked_out_tokens_ (locker_ m)) r st Hl).
  simpl. split_and!; [solve_Permutation|done|solve_Permutation].
Qed.

(** The fate of the token of a request whose response arrived: it is gone from the
    session when the server said that it is invalid, and otherwise it is kept, with a
    renewed key when the server asked for that; every other token stays. *)
Theorem CallbackProxy_token now utc r resp st m :
  reachable m -> checked_out_tokens_ (locker_ m) !! r = Some st ->
  exists rest, all_tokens (locker_ m) ≡ₚ st :: rest /\
    all_tokens (locker_ (CallbackProxy now utc r resp m)) ≡ₚ
      if IsInvalidSessionTokenError (response_error_code resp) then rest
      else renew_token resp st :: rest.
Proof.
  intros H%reachable_inv Hl. destruct (inv_dom _ _ H r st Hl) as [Hr _].
  unfold CallbackProxy, HandleCompletionNotification, HandleRetryRequest, HandleCompletion.
  pose proof (UpdateConnection_inv now (response_error_code resp) m H) as H1.
  destruct (UpdateConnection_fields now (response_error_code resp) m) as (Ei&_&_&_&Et&Ek&_).
  set (m1 := UpdateConnectionStateFromErrorCode _ _ _) in *. rewrite <-Ei in Hr.
  assert (all_tokens (locker_ m) = all_tokens (locker_ m1)) as -> by (unfold all_tokens; congruence).
  rewrite <-Ek in Hl. destruct (release_tokens r resp st m1 H1 Hl) as (rest & Ha & Hdel & Hreuse).
  exists rest. split; [done|]. destruct (should_retry _ _ _).
  - rewrite AttemptRequests_tokens by by apply retry_release.
    destruct (IsInvalidSessionTokenError _); unfold on_locker; cbn [locker_ set_locker_].
    + rewrite retry_waiting_eq, <-Hdel. unfold push_waiting. by destruct (UsesSessionToken r).
    + rewrite retry_delayed_eq, <-Hreuse. unfold ReuseToken. simpl.
      destruct (UsesSessionToken r); [|done]. by destruct (checked_out_tokens_ (locker_ m1) !! r).
  - change (all_tokens (locker_ (complete ?a ?b ?x))) with (all_tokens (locker_ x)).
    rewrite AttemptRequests_tokens by by apply completion_release.
    destruct (IsInvalidSessionTokenError _); unfold on_locker; cbn [locker_ set_locker_].
    + by rewrite <-Hdel.
    + rewrite <-Hreuse. unfold ReuseToken. simpl.
      destruct (UsesSessionToken r); [|done]. by destruct (checked_out_tokens_ (locker_ m1) !! r).
Qed.

(** A response calls the completion callback, once and with its own code, unless it
    is one to retry: an error on a session request, before the request's deadline, that
    says the token is invalid or the operation is still in progress.  No other callback
    is called. *)
Theorem CallbackProxy_completes now utc r resp m :
  completed (CallbackProxy now utc r resp m)
  = completed m ++ (if should_retry utc r (response_error_code resp) then []
                    else [(r, response_error_code resp)])
  /\ silenced (CallbackProxy now utc r resp m) = silenced m
  /\ called (CallbackProxy now utc r resp m) = called m.
Proof.
  unfold CallbackProxy, HandleCompletionNotification, HandleRetryRequest, HandleCompletion.
  set (m1 := UpdateConnectionStateFromErrorCode _ _ _).
  assert (history m1 = history m) as Hm1
    by (unfold m1, UpdateConnectionStateFromErrorCode; by destruct (is_connection_error _)).
  assert (forall f : Maintainer -> Maintainer, history (f m1) = history m1 ->
            history (AttemptRequests (f m1)) = history m) as Hf
    by (intros f Hf; rewrite AttemptRequests_history; congruence).
  destruct (should_retry _ _ _).
  - rewrite app_nil_r.
    specialize (Hf (fun m1 => if IsInvalidSessionTokenError (response_error_code resp)
     then on_locker (DeleteCheckedOutToken r) (on_locker (MoveInProgressToWaiting r) m1)
     else on_locker (ReuseToken r resp) (on_locker (MoveInProgressToDelayed now r 1) m1))).
    unfold history in *. destruct (IsInvalidSessionTokenError _); specialize (Hf eq_refl);
      cbv beta in Hf; injection Hf as -> -> -> _; done.
  - specialize (Hf (fun m1 => if IsInvalidSessionTokenError (response_error_code resp)
     then on_locker (DeleteCheckedOutToken r) (on_locker (RemoveInProgressRequest r) m1)
     else on_locker (ReuseToken r resp) (on_locker (RemoveInProgressRequest r) m1))).
    unfold history in *. destruct (IsInvalidSessionTokenError _); specialize (Hf eq_refl);
      cbv beta in Hf; injection Hf as E1 E2 E3 _; unfold complete; simpl;
      by rewrite E1, E2, E3.
Qed.

(** A renewed key stays in range: from a key in [1, 2^31 - 2] the generator on 64-bit
    words gives the residue modulo the prime [2^31 - 1], which is again in that range
    and fits an [int]: neither the product nor the conversion overflows, and the key
    never becomes 0. *)
Theorem next_secret_key_range k :
  0 < k < 2147483647 ->
  next_secret_key k = (k * 16807) mod 2147483647 /\ 0 < next_secret_key k < 2147483647.
Proof.
  intros Hk. unfold next_secret_key.
  rewrite (u64_small k), (u64_small (k * 16807)) by lia.
  pose proof (Z.mod_pos_bound (k * 16807) 2147483647 eq_refl) as Hb.
  rewrite i32_small by lia. split; [done|].
  assert ((k * 16807) mod 2147483647 <> 0); [|lia].
  intros E. apply Z.mod_divide in E; [|done]. rewrite Z.mul_comm in E.
  apply Z.gauss in E; [|done]. apply Z.divide_pos_le in E; lia.
Qed.

Lemma next_secret_key_range_witness :
  0 < 1404265143 < 2147483647 /\
  next_secret_key 1404265143 = (1404265143 * 16807) mod 2147483647
  /\ 0 < next_secret_key 1404265143 < 2147483647.
Proof. split; [lia|]. apply (next_secret_key_range 1404265143). lia. Defined.

Lemma all_tokens_empty m :
  Inv m -> IsRunning (session_state_ (locker_ m)) = false -> all_tokens (locker_ m) = [].
Proof.
  intros H E. destruct (inv_running _ _ H E) as [E1 E2].
  unfold all_tokens. by rewrite E1, E2, map_to_list_empty.
Qed.

Lemma Change_outcome s l :
  IsUninitialized s = false -> IsCredentialsError s = clears s ->
  let l' := ChangeSessionStateInternal s l in
  credentials_ l' = credentials_ l /\ IsCredentialsError (session_state_ l') = clears s
  /\ (session_states_equal (session_state_ l) s = false -> clears s = true -> all_tokens l' = [])
  /\ (clears s = false -> all_tokens l' = all_tokens l).
Proof.
  intros Hs Hcl. destruct (Change_spec s l Hs) as (_&_&_&_&_&E6&_&_&E9&E10&E11).
  simpl. unfold all_tokens. rewrite E6, E9, E10, E11. split_and!; try done.
  - intros -> ->. simpl. by rewrite map_to_list_empty.
  - intros ->. by rewrite orb_true_r.
Qed.

Lemma HandleTokenFailure_outcome now resp c m :
  Inv m ->
  let bad := IsInvalidCredentialsError (tr_error_code resp) in
  let l := locker_ m in
  let l' := locker_ (HandleTokenFailure now resp c (session_state_ l)
                       (session_state_change_count_ l) m) in
  credentials_ l' = credentials_ l
  /\ (IsCredentialsError (session_state_ l') = true <->
      IsCredentialsError (session_state_ l) = true \/ bad = true /\ credentials_ l = Some c)
  /\ (IsCredentialsError (session_state_ l') = true -> all_tokens l' = [])
  /\ (IsCredentialsError (session_state_ l') = false -> all_tokens l' = all_tokens l).
Proof.
  intros H. simpl.
  assert (IsCredentialsError (session_state_ (locker_ m)) = true -> all_tokens (locker_ m) = []) as Hbad.
  { intros E. apply all_tokens_empty; [done|]. by destruct (session_state_ (locker_ m)). }
  pose proof (has_credentials _ H) as Hcred. pose proof (inv_creds _ _ H) as Hun.
  unfold HandleTokenFailure. destruct (IsInvalidCredentialsError (tr_error_code resp)); simpl.
  - destruct (IsUninitialized (session_state_ (locker_ m))) eqn:Eu; simpl.
    { split_and!; try done; auto. split; [by left|]. intros [?|[_ ?]]; [done|].
      assert (credentials_ (locker_ m) = None) by by apply Hun. congruence. }
    destruct (IsCredentialsError (session_state_ (locker_ m))) eqn:Ec; simpl.
    { rewrite Ec. split_and!; [done|tauto|by auto|done]. }
    case_bool_decide as Hc; simpl.
    2: { rewrite Ec. split_and!; try done. split; [done|]. by intros [?|[_ ?]]. }
    destruct (Change_outcome (CredentialsFailure
      (match tr_pkey resp with [] => None | pkey => Some pkey end) (tr_error_code resp) resp)
      (locker_ (on_locker IncrementFailureCount m)) eq_refl eq_refl) as (E1 & E2 & E3 & E4).
    unfold SetSessionStateSafe. simpl. rewrite Z.eqb_refl. simpl. simpl in E1, E2, E3, E4.
    rewrite E1, E2. split_and!; [done|tauto| |done].
    intros _. apply E3; [|done]. by destruct (session_state_ (locker_ m)).
  - assert (forall m', locker_ m' = locker_ (on_locker IncrementFailureCount m) ->
      credentials_ (locker_ m') = credentials_ (locker_ m)
      /\ (IsCredentialsError (session_state_ (locker_ m')) = true <->
          IsCredentialsError (session_state_ (locker_ m)) = true \/
          false = true /\ credentials_ (locker_ m) = Some c)
      /\ (IsCredentialsError (session_state_ (locker_ m')) = true -> all_tokens (locker_ m') = [])
      /\ (IsCredentialsError (session_state_ (locker_ m')) = false ->
          all_tokens (locker_ m') = all_tokens (locker_ m))) as Hsame.
    { intros m' ->. simpl. split_and!; [done|intuition congruence|exact Hbad|done]. }
    destruct (_ || _); [|by apply Hsame].
    destruct (IsInitialized _ || IsProlongedError _) eqn:Ei; [|by apply Hsame].
    destruct (Change_outcome (ProlongedError (tr_error_code resp) resp)
      (locker_ (on_locker IncrementFailureCount m)) eq_refl eq_refl) as (E1 & E2 & _ & E4).
    unfold SetSessionStateSafe. simpl. rewrite Z.eqb_refl. simpl. simpl in E1, E2, E4.
    rewrite E1, E2. split_and!; [done| |done|by intros _; rewrite E4].
    destruct (session_state_ (locker_ m)); simpl in *; intuition congruence.
Qed.

(** How a failed token request is answered, in every reachable state: the next try
    is scheduled after 60 s when the credentials are wrong, 10 min when the account is
    locked and 2.5 s otherwise; wrong credentials fail the session only when they are
    the current ones, and then every token is dropped; any other error leaves tokens
    and credentials as they are. *)
Theorem token_failure_policy now resp c before after m :
  reachable m -> token_calls m = before ++ c :: after -> is_error (tr_error_code resp) = true ->
  let m' := HandleSessionTokenResponse now resp c (set_token_calls (before ++ after) m) in
  let bad := IsInvalidCredentialsError (tr_error_code resp) in
  session_token_failure_timer_ m'
  = Some (now + (if bad then session_token_credential_failure_wait_timeout_ms
                 else if matches_errc (tr_error_code resp) errc_AccountTemporarilyLocked
                 then session_token_account_locked_wait_timeout_ms
                 else session_token_failure_wait_timeout_ms))
  /\ credentials_ (locker_ m') = credentials_ (locker_ m)
  /\ (IsCredentialsError (session_state_ (locker_ m')) = true <->
      IsCredentialsError (session_state_ (locker_ m)) = true
      \/ bad = true /\ credentials_ (locker_ m) = Some c)
  /\ (IsCredentialsError (session_state_ (locker_ m')) = true -> all_tokens (locker_ m') = [])
  /\ (IsCredentialsError (session_state_ (locker_ m')) = false ->
      all_tokens (locker_ m') = all_tokens (locker_ m)).
Proof.
  intros Hr Hc He. simpl. assert (Inv m) as H by by apply reachable_inv.
  destruct (Decrement_inv before c after [] m H Hc) as [H0 _]. rewrite app_nil_r in H0.
  assert (set_granted (granted m) (set_token_calls (before ++ after) m)
          = set_token_calls (before ++ after) m) as Hg by by destruct m.
  rewrite Hg in H0. clear Hg.
  unfold HandleSessionTokenResponse, GetSessionState. rewrite He.
  set (m0 := on_locker DecrementSessionTokenInProgressCount _) in *.
  destruct (UpdateConnection_fields now (tr_error_code resp) m0) as (_&Es&En&Ec&Et&Ek&_).
  rewrite HandleTokenFailure_timer. split; [done|].
  apply (UpdateConnection_inv now (tr_error_code resp)) in H0.
  pose proof (HandleTokenFailure_outcome now resp c _ H0) as Ho. simpl in Ho.
  unfold all_tokens in *. rewrite Es, En, Ec, Et, Ek in Ho. exact Ho.
Qed.

(** ** Surprises *)

(** A request that has been sent once, was put back in the queue for a retry and
    times out there is dropped without a word: [Fail] goes to the HTTP request of the
    first attempt, which is over, so the completion callback is never called, and the
    request is nowhere any more. *)
Theorem retried_timeout_is_silent r m :
  reachable m -> r ∈ has_request_ m ->
  r ∈ waiting_st_requests_ (locker_ m) ->
  let m' := ProcessTimeout r no_error m in
  completed m' = completed m /\ (r ∉ (completed m').*1) /\ (r ∉ tracked (locker_ m'))
  /\ silenced m' = silenced m ++ [r].
Proof.
  intros Hr Hreq Hw. simpl. apply reachable_inv in Hr.
  pose proof (ProcessTimeout_inv r m Hr) as H'.
  assert (UsesSessionToken r = true) as Hu.
  { pose proof (inv_st _ _ Hr) as Hf. rewrite Forall_forall in Hf. by apply Hf. }
  assert (exists q, erase_first r (waiting_st_requests_ (locker_ m)) = Some q) as [q Hq].
  { clear -Hw. induction (waiting_st_requests_ (locker_ m)) as [|x q IH]; [by apply not_elem_of_nil in Hw|].
    simpl. case_decide; [eauto|]. apply elem_of_cons in Hw as [?|Hw]; [congruence|].
    destruct (IH Hw) as [q' ->]. eauto. }
  assert (completed (ProcessTimeout r no_error m) = completed m
          /\ silenced (ProcessTimeout r no_error m) = silenced m ++ [r]) as [Ec Es].
  { unfold ProcessTimeout, HandleTimedOutRequest, Fail_. simpl. rewrite Hu, Hq. simpl.
    by rewrite decide_True by done. }
  pose proof (inv_nodup _ _ H') as Hn. rewrite (inv_tracked _ _ H'), app_nil_l, Es in Hn.
  apply NoDup_app in Hn as (_ & Ht & Hn). apply NoDup_app in Hn as (_ & Hd & _).
  assert (r ∈ (silenced m ++ [r]) ++ dropped (ProcessTimeout r no_error m)) as Hin
    by (rewrite !elem_of_app; left; right; by left).
  split_and!; [done| | |done].
  - intros Hc. by apply (Hd r).
  - intros Hc. apply (Ht r Hc). apply elem_of_app. by right.
Qed.

(** Cancelling a request that still waits for its first start calls its callback but
    leaves it in the queue: it will be started, and complete, a second time. *)
Theorem cancelled_request_still_queued r m :
  r ∉ has_request_ m ->
  callbacks (Cancel r m) = callbacks m ++ [(r, http_code HttpCancelled)]
  /\ tracked (locker_ (Cancel r m)) = tracked (locker_ m).
Proof.
  intros Hr. unfold Cancel, callbacks. rewrite decide_False by done. simpl.
  by rewrite fmap_app, app_assoc.
Qed.

(** Stopping the timeouts throws the delayed requests away: none is held any more, and
    the callback of none was called. *)
Theorem stopped_timeouts_drop_delayed m r :
  reachable m -> r ∈ (data_ (delayed_requests_ (locker_ m))).*2 ->
  let m' := MaintainerStopTimeouts m in
  (r ∉ tracked (locker_ m')) /\ r ∈ dropped m' /\ (r ∉ (completed m').*1)
  /\ callbacks m' = callbacks m /\ data_ (time_out_requests_ (locker_ m')) = [].
Proof.
  intros H%reachable_inv Hr m'. pose proof (StopTimeouts_inv m H) as H'.
  pose proof (inv_nodup _ _ H') as Hn. rewrite (inv_tracked _ _ H'), app_nil_l in Hn.
  assert (r ∈ dropped m') as Hd by (subst m'; simpl; rewrite elem_of_app; by right).
  apply NoDup_app in Hn as (_ & Ht & Hn). apply NoDup_app in Hn as (_ & Hc & _).
  split_and!; try done; intros Hin; [apply (Ht r Hin)|apply (Hc r Hin)]; rewrite ?elem_of_app; auto.
Qed.

Lemma foldl_Cancel rs m :
  foldl (fun m r => Cancel r m) m rs
  = set_cancelled (cancelled m ++ filter (fun r => r ∉ has_request_ m) rs) m.
Proof.
  revert m. induction rs as [|r rs IH]; intros m; simpl.
  - rewrite filter_nil, app_nil_r. by destruct m.
  - rewrite IH, filter_cons. unfold Cancel. repeat case_decide; try done; simpl.
    by rewrite <-app_assoc.
Qed.

(** What the destructor does to the requests the maintainer holds: it holds none
    afterwards; the callbacks of those that wait for their first start are called, once
    each and with the code of a cancellation; those in progress are cancelled through
    their HTTP exchange; those that wait for a second start and those that are delayed are
    forgotten, and their callback is never called. *)
Theorem destroyed_requests m :
  reachable m ->
  let m' := DestroyMaintainer m in
  tracked (locker_ m') = [] /\ called m' = called m
  /\ callbacks m' = callbacks m ++ ((fun r => (r, http_code HttpCancelled)) <$>
       (filter (fun r => r ∉ has_request_ m)
         (waiting_st_requests_ (locker_ m) ++ waiting_non_st_requests_ (locker_ m))))
  /\ dropped m' = dropped m ++ (data_ (delayed_requests_ (locker_ m))).*2.
Proof.
  intros H%reachable_inv. unfold DestroyMaintainer. simpl. rewrite foldl_Cancel. simpl.
  unfold tracked, callbacks. simpl. rewrite elements_empty. split_and!; try done.
  rewrite !filter_app, (filter_nil_by _ (elements _)).
  - by rewrite app_nil_r, !fmap_app, !app_assoc.
  - rewrite Forall_forall. intros r Hr%elem_of_elements Hn.
    by apply Hn, (inv_started _ _ H).
Qed.

(** *** A session that stops asking *)

Definition alice : Credentials := Email (B "alice") (B "old").
Definition alice' : Credentials := Email (B "alice") (B "new").
Definition req (n : nat) : STRequest :=
  {| request_id := n; UsesSessionToken := true; TimeoutSeconds := 60; max_retry_time_ := 60 |}.
Definition token_resp (ec : error_code) (t : string) : TokenResponse :=
  {| tr_error_code := ec; tr_session_token := B t; tr_pkey := []; tr_time := [];
     tr_secret_key := 1 |}.
Definition resp (ec : error_code) : ResponseBase :=
  {| response_error_code := ec; response_new_key := None |}.

(** One token request for the old password is slow; two requests wait; the new password
    is refused; the requests time out; the retry finds the old token request still in
    flight and does not start another; then the old token request succeeds. *)
Definition stalled_trace : list (Maintainer -> Maintainer) :=
  [ SetLoginCredentials alice; SetLoginCredentials alice';
    Call 0 (req 1); Call 0 (req 2);
    (fun m => HandleSessionTokenResponse 1000 (token_resp (result_error CredentialsInvalid) "")
       alice' (set_granted (granted m ++ []) (set_token_calls ([alice] ++ []) m)));
    (fun m => ProcessTimeout (req 1) no_error (on_locker (fun l => set_time_out_requests_
       (take_event (req 1) [(60000, req 2)] (time_out_requests_ l)) l) m));
    (fun m => ProcessTimeout (req 2) no_error (on_locker (fun l => set_time_out_requests_
       (take_event (req 2) [] (time_out_requests_ l)) l) m));
    (fun m => HandleSessionTokenFailureTimeout false (set_session_token_failure_timer_ None m));
    (fun m => HandleSessionTokenResponse 70000 (token_resp no_error "t") alice
       (set_granted (granted m ++ [(alice, B "t")]) (set_token_calls ([] ++ []) m))) ].

Definition run (trace : list (Maintainer -> Maintainer)) : Maintainer :=
  foldl (fun m f => f m) NewMaintainer trace.

Ltac compute_in := apply (bool_decide_unpack _); vm_compute; reflexivity.

Lemma stalled_reachable : reachable (run stalled_trace).
Proof.
  unfold stalled_trace, run. cbn [foldl].
  eapply ReachStep; [|apply (StepTokenResponse 70000 (token_resp no_error "t") alice [] []);
                      vm_compute; reflexivity].
  eapply ReachStep; [|apply (StepTokenTimer 61000); vm_compute; reflexivity].
  eapply ReachStep; [|apply (StepTimeout 60000 (req 2) []); vm_compute; reflexivity].
  eapply ReachStep; [|apply (StepTimeout 60000 (req 1) [(60000, req 2)]); vm_compute; reflexivity].
  eapply ReachStep; [|apply (StepTokenResponse 1000 (token_resp (result_error CredentialsInvalid) "")
                        alice' [alice] []); vm_compute; reflexivity].
  eapply ReachStep; [|apply (StepCall 0 (req 2)); compute_in].
  eapply ReachStep; [|apply (StepCall 0 (req 1)); compute_in].
  eapply ReachStep; [|apply (StepSetCredentials alice')].
  eapply ReachStep; [|apply (StepSetCredentials alice)]. apply ReachNew.
Qed.

(** A refused password can stop the session for good: a reachable state has
    credentials, and nothing that will ever try them again: no token, no call in flight
    and no timer.  The comment in [RequestNeededSessionTokens] says that the maintainer
    keeps retrying in this state. *)
Theorem credentials_failure_can_stall :
  exists m, reachable m /\ credentials_ (locker_ m) <> None
    /\ IsCredentialsError (session_state_ (locker_ m)) = true /\ ~ has_prospect m
    /\ AttemptRequests m = m.
Proof.
  exists (run stalled_trace). split; [apply stalled_reachable|].
  split; [by vm_compute|]. split; [by vm_compute|]. split; [|by vm_compute].
  intros [Hp|[Hp|[Hp|[Hp|[Hp|Hp]]]]]; apply Hp; by vm_compute.
Qed.

(** ** The theorems at concrete sessions *)

(** A running session with one request in progress; then its token is refused and the
    request is queued again. *)
Definition running_trace : list (Maintainer -> Maintainer) :=
  [ SetLoginCredentials alice; Call 0 (req 1);
    (fun m => HandleSessionTokenResponse 10 (token_resp no_error "t") alice
       (set_granted (granted m ++ [(alice, B "t")]) (set_token_calls ([] ++ []) m))) ].
Definition retried_trace : list (Maintainer -> Maintainer) :=
  running_trace ++ [CallbackProxy 20 30 (req 1) (resp (result_error SessionTokenInvalid))].

Lemma running_reachable : reachable (run running_trace).
Proof.
  unfold running_trace, run. cbn [foldl].
  eapply ReachStep; [|apply (StepTokenResponse 10 (token_resp no_error "t") alice [] []);
                      vm_compute; reflexivity].
  eapply ReachStep; [|apply (StepCall 0 (req 1)); compute_in].
  eapply ReachStep; [|apply (StepSetCredentials alice)]. apply ReachNew.
Qed.

Lemma retried_reachable : reachable (run retried_trace).
Proof.
  unfold retried_trace, run. rewrite foldl_app. cbn [foldl].
  eapply ReachStep; [apply running_reachable|]. apply StepResponse. compute_in.
Qed.

(** A request is cancelled while it waits for its first start, then sent, answered, and
    cancelled again; the answer of a second one delays it, and the timeouts are stopped. *)
Definition delayed_trace : list (Maintainer -> Maintainer) :=
  [ SetLoginCredentials alice; Call 0 (req 1); Cancel (req 1);
    (fun m => HandleSessionTokenResponse 10 (token_resp no_error "t") alice
       (set_granted (granted m ++ [(alice, B "t")]) (set_token_calls ([] ++ []) m)));
    CallbackProxy 20 30 (req 1) (resp no_error); Cancel (req 1); Call 30 (req 2);
    CallbackProxy 40 50 (req 2) (resp (result_error AsyncOperationInProgress)) ].
Definition cancelled_trace : list (Maintainer -> Maintainer) :=
  delayed_trace ++ [MaintainerStopTimeouts].

Lemma delayed_reachable : reachable (run delayed_trace).
Proof.
  unfold delayed_trace, run. cbn [foldl].
  eapply ReachStep; [|apply StepResponse; compute_in].
  eapply ReachStep; [|apply (StepCall 30 (req 2)); compute_in].
  eapply ReachStep; [|apply (StepCancel (req 1)); compute_in].
  eapply ReachStep; [|apply StepResponse; compute_in].
  eapply ReachStep; [|apply (StepTokenResponse 10 (token_resp no_error "t") alice [] []);
                      vm_compute; reflexivity].
  eapply ReachStep; [|apply (StepCancel (req 1)); compute_in].
  eapply ReachStep; [|apply (StepCall 0 (req 1)); compute_in].
  eapply ReachStep; [|apply (StepSetCredentials alice)]. apply ReachNew.
Qed.

Lemma cancelled_reachable : reachable (run cancelled_trace).
Proof.
  unfold cancelled_trace, run. rewrite foldl_app. cbn [foldl].
  eapply ReachStep; [apply delayed_reachable|apply StepStopTimeouts].
Qed.

(** The callback of the first request was called twice, the second request is gone. *)
Example cancelled_session :
  callbacks (run cancelled_trace)
    = [(req 1, no_error); (req 1, http_code HttpCancelled)]
  /\ tracked (locker_ (run cancelled_trace)) = [] /\ dropped (run cancelled_trace) = [req 2].
Proof. by vm_compute. Qed.

(** The session is not trivial: a token is checked out, and the request is started. *)
Example running_session :
  started (run running_trace)
    = [(req 1, Some {| session_token := B "t"; pkey := []; time := []; secret_key := 1 |})]
  /\ waiting_st_requests_ (locker_ (run retried_trace)) = [req 1]
  /\ token_calls (run retried_trace) = [alice].
Proof. by vm_compute. Qed.

Lemma session_token_budget_witness :
  let m := run running_trace in
  in_progress_session_token_requests_ (locker_ m) = Z.of_nat (length (token_calls m))
  /\ Z.of_nat (length (token_calls m)) <= max_in_progress_token_requests
  /\ Z.of_nat (length (token_calls m) + length (session_tokens_ (locker_ m))
               + size (checked_out_tokens_ (locker_ m))) <= max_tokens.
Proof. apply (session_token_budget (run running_trace)), running_reachable. Defined.

Lemma requests_conserved_witness :
  let m := run cancelled_trace in
  NoDup (called m)
  /\ called m ≡ₚ tracked (locker_ m) ++ (completed m).*1 ++ silenced m ++ dropped m
  /\ TotalRequests (locker_ m) = length (tracked (locker_ m))
  /\ (forall r, r ∈ (callbacks m).*1 -> r ∈ called m)
  /\ (forall r, count_occ STRequest_eq_dec (callbacks m).*1 r
        = ((if decide (r ∈ (completed m).*1) then 1 else 0)
           + count_occ STRequest_eq_dec (cancelled m) r)%nat).
Proof. apply (requests_conserved (run cancelled_trace)), cancelled_reachable. Defined.

Lemma tokens_belong_to_credentials_witness :
  let m := run running_trace in
  (forall st, st ∈ session_tokens_ (locker_ m) ->
     IsRunning (session_state_ (locker_ m)) = true /\ token_owned m st)
  /\ (forall r st, checked_out_tokens_ (locker_ m) !! r = Some st ->
        IsRunning (session_state_ (locker_ m)) = true /\ token_owned m st
        /\ r ∈ in_progress_requests_ (locker_ m) /\ UsesSessionToken r = true).
Proof. apply (tokens_belong_to_credentials (run running_trace)), running_reachable. Defined.

Lemma AttemptRequests_spec_witness :
  let m' := AttemptRequests (run retried_trace) in
  no_waiting_non_session m' /\ no_startable_session m'
  /\ (credentials_ (locker_ m') = None
      \/ IsCredentialsError (session_state_ (locker_ m')) = true
      \/ (StartRequestSessionToken (locker_ m')).1 = false).
Proof. apply (AttemptRequests_spec (run retried_trace)), retried_reachable. Defined.

Lemma session_never_stalls_witness : alive (run retried_trace).
Proof. apply (session_never_stalls (run retried_trace)), retried_reachable. Defined.

Lemma CallbackProxy_token_witness :
  let st := {| session_token := B "t"; pkey := []; time := []; secret_key := 1 |} in
  exists rest, all_tokens (locker_ (run running_trace)) ≡ₚ st :: rest /\
    all_tokens (locker_ (CallbackProxy 20 30 (req 1) (resp no_error) (run running_trace)))
    ≡ₚ renew_token (resp no_error) st :: rest.
Proof.
  apply (CallbackProxy_token 20 30 (req 1) (resp no_error) _ (run running_trace));
    [apply running_reachable|by vm_compute].
Defined.

Lemma token_failure_policy_witness :
  let m := run retried_trace in
  let m' := HandleSessionTokenResponse 100 (token_resp (result_error CredentialsInvalid) "") alice
              (set_token_calls ([] ++ []) m) in
  session_token_failure_timer_ m' = Some (100 + 60000)
  /\ credentials_ (locker_ m') = credentials_ (locker_ m)
  /\ (IsCredentialsError (session_state_ (locker_ m')) = true <->
      IsCredentialsError (session_state_ (locker_ m)) = true
      \/ true = true /\ credentials_ (locker_ m) = Some alice)
  /\ (IsCredentialsError (session_state_ (locker_ m')) = true -> all_tokens (locker_ m') = [])
  /\ (IsCredentialsError (session_state_ (locker_ m')) = false ->
      all_tokens (locker_ m') = all_tokens (locker_ m)).
Proof.
  apply (token_failure_policy 100 (token_resp (result_error CredentialsInvalid) "") alice [] []
           (run retried_trace)); [apply retried_reachable|by vm_compute|by vm_compute].
Defined.

Lemma retried_timeout_is_silent_witness :
  let m := run retried_trace in let m' := ProcessTimeout (req 1) no_error m in
  completed m' = completed m /\ (req 1 ∉ (completed m').*1) /\ (req 1 ∉ tracked (locker_ m'))
  /\ silenced m' = silenced m ++ [req 1].
Proof.
  apply (retried_timeout_is_silent (req 1) (run retried_trace));
    [apply retried_reachable|compute_in|compute_in].
Defined.

Lemma cancelled_request_still_queued_witness :
  let m := Call 0 (req 1) NewMaintainer in
  callbacks (Cancel (req 1) m) = callbacks m ++ [(req 1, http_code HttpCancelled)]
  /\ tracked (locker_ (Cancel (req 1) m)) = tracked (locker_ m).
Proof. apply (cancelled_request_still_queued (req 1) (Call 0 (req 1) NewMaintainer)). compute_in. Defined.

Lemma stopped_timeouts_drop_delayed_witness :
  let m := run delayed_trace in
  let m' := MaintainerStopTimeouts m in
  (req 2 ∉ tracked (locker_ m')) /\ req 2 ∈ dropped m' /\ (req 2 ∉ (completed m').*1)
  /\ callbacks m' = callbacks m /\ data_ (time_out_requests_ (locker_ m')) = [].
Proof.
  apply (stopped_timeouts_drop_delayed (run delayed_trace)); [apply delayed_reachable|compute_in].
Defined.

Lemma destroyed_requests_witness :
  let m := Call 0 (req 2) (run retried_trace) in let m' := DestroyMaintainer m in
  tracked (locker_ m') = [] /\ called m' = called m
  /\ callbacks m' = callbacks m ++ [(req 2, http_code HttpCancelled)]
  /\ dropped m' = dropped m ++ (data_ (delayed_requests_ (locker_ m))).*2.
Proof.
  apply (destroyed_requests (Call 0 (req 2) (run retried_trace))).
  eapply ReachStep; [apply retried_reachable|]. apply StepCall. compute_in.
Defined.
