(* ===== verification/HttpHeaders.v ===== *)
(** * Reading the headers of a response ([http/detail/state_read_headers.hpp])

    [HandleHeaderRead] parses the status line with stream extraction, then line by line
    with [std::getline]; what is left in the buffer is the beginning of the body. *)
From S2P Require Import Prelude Boost.

Open Scope Z_scope.

Abbreviation HeaderMap := (gmap string str).

Definition header_key (name : str) : string := String.string_of_list_ascii name.

(** ** Streams *)

(** [std::getline]: up to the newline, which is discarded; or everything.  It fails on an
    empty stream. *)
Fixpoint getline (s : str) : str * str :=
  match s with
  | [] => ([], [])
  | c :: s =>
      if bool_decide (c = "010"%char) then ([], s)
      else let '(line, rest) := getline s in (c :: line, rest)
  end.

Fixpoint take_word (s : str) : str * str :=
  match s with
  | c :: s' => if isspace c then ([], s) else let '(w, rest) := take_word s' in (c :: w, rest)
  | [] => ([], [])
  end.

(** [stream >> string]; [None] is a failed stream. *)
Definition extract_string (s : str) : option (str * str) :=
  match skip_space s with [] => None | s => Some (take_word s) end.

Definition is_digit (c : ascii) : bool := (48 <=? byteZ c) && (byteZ c <=? 57).

Fixpoint take_digits (acc : Z) (s : str) : Z * str :=
  match s with
  | c :: s' => if is_digit c then take_digits (acc * 10 + (byteZ c - 48)) s' else (acc, s)
  | [] => (acc, [])
  end.

(** [stream >> uint16_t]: blanks, a sign, digits; a negative number wraps. *)
Definition extract_uint16 (s : str) : option (Z * str) :=
  let s := skip_space s in
  let neg := bool_decide (head s = Some "-"%char) in
  let s := if neg || bool_decide (head s = Some "+"%char) then tail s else s in
  match s with
  | c :: _ =>
      if is_digit c then
        let '(v, rest) := take_digits 0 s in
        if 65535 <? v then None else Some (if neg then (- v) mod 65536 else v, rest)
      else None
  | [] => None
  end.

(** [http/detail/http_request_events.hpp:83-102 HeadersReadEvent] *)
Record HeadersRead := {
  raw_headers : str;
  http_version : str;
  status_code : Z;
  status_message : str;
  hr_content_length : Z;
  hr_headers : HeaderMap;
  hr_read_buffer : str }.

Section Headers.
Context (boost : Boost).

(** [std::map::emplace] keeps the value that is already there. *)
Definition emplace (name value : str) (headers : HeaderMap) : HeaderMap :=
  match headers !! header_key name with
  | Some _ => headers
  | None => <[header_key name := value]> headers
  end.

(** One line: nothing, the continuation of the last header, or a header.  [None]: there
    is nothing to continue.
    [http/detail/state_read_headers.hpp:98-159 HandleHeaderRead] *)
Definition header_line (line : str) (headers : HeaderMap) (last_header_name : str)
    : option (HeaderMap * str) :=
  let line := trim_right boost line in
  match line with
  | [] => Some (headers, last_header_name)
  | c :: _ =>
      if bool_decide (c = " "%char) || bool_decide (c = "009"%char) then
        if bool_decide (last_header_name = []) then None
        else Some (alter (fun v => v ++ B " " ++ trim boost line) (header_key last_header_name)
                     headers, last_header_name)
      else
        match find_first boost ":" line with
        | None => Some (headers, last_header_name)
        | Some (header_name, header_value) =>
            let header_name := to_lower boost (trim boost header_name) in
            let header_value := trim boost header_value in
            Some (emplace header_name header_value headers, header_name)
        end
  end.

Inductive lines_result :=
  | OutOfFuel
  | BadlyFormatted
  | Lines (headers : HeaderMap) (rest : str).

(** The loop over the lines, up to the line that holds a carriage return only or the
    end of the stream.
    [http/detail/state_read_headers.hpp:94-160 HandleHeaderRead] *)
Fixpoint header_loop (fuel : nat) (headers : HeaderMap) (last_header_name : str) (s : str)
    : lines_result :=
  match s with
  | [] => Lines headers []
  | _ =>
      match fuel with
      | O => OutOfFuel
      | S fuel =>
          let '(line, rest) := getline s in
          if bool_decide (line = ["013"%char]) then Lines headers rest
          else match header_line line headers last_header_name with
               | None => BadlyFormatted
               | Some (headers, last_header_name) => header_loop fuel headers last_header_name rest
               end
      end
  end.

(** Each line takes at least one byte. *)
Definition header_fuel (s : str) : nat := length s.

(** The status line: version, status, message and what follows.
    [http/detail/state_read_headers.hpp:74-92 HandleHeaderRead] *)
Definition status_line (s : str) : option (str * Z * str * str) :=
  match extract_string s with
  | None => None
  | Some (version, s) =>
      match extract_uint16 s with
      | None | Some (_, []) => None
      | Some (status, s) =>
          let '(message, s) := getline s in
          if bool_decide (take 5 version = B "HTTP/") then Some (version, status, message, s)
          else None
      end
  end.

(** The headers of a successful read of [bytes_transferred] bytes; [None] is
    [UnparsableHeaders].
    [http/detail/state_read_headers.hpp:34-186 HandleHeaderRead] *)
Definition ReadHeaderBuffer (read_buffer : str) (bytes_transferred : nat) : option HeadersRead :=
  match status_line read_buffer with
  | None => None
  | Some (version, status, message, s) =>
      match header_loop (header_fuel s) ∅ [] s with
      | Lines headers rest =>
          match match headers !! "content-length"%string with
                | Some v => lexical_cast_uint64 boost v
                | None => Some 0
                end with
          | None => None
          | Some length =>
              Some {| raw_headers := take bytes_transferred read_buffer; http_version := version;
                      status_code := status; status_message := message;
                      hr_content_length := length; hr_headers := headers;
                      hr_read_buffer := rest |}
          end
      | _ => None
      end
  end.

(** ** The loop ends *)

Lemma getline_shorter c s : (length (getline (c :: s)).2 < length (c :: s))%nat.
Proof.
  revert c. induction s as [|d s IH]; intros c; simpl; case_bool_decide; simpl; try lia.
  specialize (IH d). simpl in IH. case_bool_decide; simpl in *; [lia|].
  destruct (getline s) as [line rest]. simpl in *. lia.
Qed.

(** The fuel is enough. *)
Lemma header_loop_total fuel headers last s :
  (length s <= fuel)%nat -> header_loop fuel headers last s <> OutOfFuel.
Proof.
  revert headers last s. induction fuel as [|fuel IH]; intros headers last [|c s] Hs; simpl in Hs;
    cbn [header_loop]; try done; [lia|].
  pose proof (getline_shorter c s) as Hl. destruct (getline (c :: s)) as [line rest].
  simpl in Hl. case_bool_decide; [done|]. destruct (header_line line headers last) as [[??]|]; [|done].
  apply IH. lia.
Qed.

(** ** What a server sends is what is read *)

Context {laws : BoostLaws boost}.

Definition crlf_ : str := ["013"; "010"]%char.

(** Text that starts and ends with no blank, on one line. *)
Definition clean (s : str) : Prop :=
  s <> [] /\ ("010"%char ∉ s) /\ skip_space s = s /\ skip_space (rev s) = rev s.

(** A name is clean and has no colon. *)
Definition clean_header (h : str * str) : Prop :=
  clean h.1 /\ (":"%char ∉ h.1) /\ clean h.2.

Definition render_header (h : str * str) : str := h.1 ++ B ": " ++ h.2 ++ crlf_.

Definition header_map (hs : list (str * str)) (headers : HeaderMap) : HeaderMap :=
  foldl (fun headers h => emplace (to_lower boost h.1) h.2 headers) headers hs.

Lemma getline_app line rest : ("010"%char ∉ line) -> getline (line ++ "010"%char :: rest) = (line, rest).
Proof.
  induction line as [|c line IH]; simpl; intros H; [done|].
  rewrite bool_decide_eq_false_2 by (intros ->; apply H; constructor).
  rewrite IH; [done|]. intros ?. apply H. by constructor.
Qed.

Lemma trim_clean s : clean s -> trim boost s = s.
Proof.
  intros (_ & _ & H1 & H2). by rewrite trim_spec, trim_right_spec, H1, H2, rev_involutive.
Qed.

Lemma trim_right_cr s : clean s -> forall t, trim_right boost (t ++ s ++ ["013"%char]) = t ++ s.
Proof.
  intros (Hn & _ & _ & H2) t. rewrite trim_right_spec, !rev_app_distr. simpl.
  rewrite skip_space_clean_app, <-rev_app_distr, rev_involutive; [done| |done].
  intros E. apply Hn. by rewrite <-(rev_involutive s), E.
Qed.

Lemma trim_space s : clean s -> trim boost (" "%char :: s) = s.
Proof. intros H. rewrite <-(trim_clean s) at 2 by done. by rewrite !trim_spec. Qed.

(** One header line. *)
Lemma header_line_render h headers last :
  clean_header h ->
  header_line (h.1 ++ B ": " ++ h.2 ++ ["013"%char]) headers last
  = Some (emplace (to_lower boost h.1) h.2 headers, to_lower boost h.1).
Proof.
  destruct h as [n v]. intros (Hn & Hcolon & Hv). cbn [fst snd] in *. unfold header_line.
  rewrite !(app_assoc n), (trim_right_cr v) by done.
  destruct n as [|c n'] eqn:E; [by destruct Hn|]. rewrite <-E in *.
  assert (isspace c = false) as Hc.
  { destruct Hn as (_ & _ & Hs & _). rewrite E in Hs. by eapply skip_space_head. }
  rewrite E at 1. cbn [app]. rewrite !bool_decide_eq_false_2 by (by intros ->). cbn [orb].
  rewrite find_first_spec, (proj2 (split_at_spec ":" _ n (" "%char :: v))).
  - by rewrite trim_clean, trim_space.
  - split; [by rewrite <-app_assoc|done].
Qed.

Lemma header_loop_render hs headers last body fuel :
  Forall clean_header hs ->
  (length hs < fuel)%nat ->
  header_loop fuel headers last (concat (render_header <$> hs) ++ crlf_ ++ body)
  = Lines (header_map hs headers) body.
Proof.
  revert headers last fuel. induction hs as [|h hs IH]; intros headers last [|fuel] Hc Hf; try lia.
  - done.
  - apply Forall_cons in Hc as [Hh Hc]. simpl in Hf.
    assert (exists c t, concat (render_header <$> h :: hs) ++ crlf_ ++ body = c :: t) as (c & t & E).
    { destruct Hh as ((Hn & _) & _). destruct h as [[|c n] v]; [done|]. by do 2 eexists. }
    cbn [header_loop]. rewrite E, <-E. clear E c t.
    assert (getline (concat (render_header <$> h :: hs) ++ crlf_ ++ body)
      = (h.1 ++ B ": " ++ h.2 ++ ["013"%char], concat (render_header <$> hs) ++ crlf_ ++ body)) as ->.
    { csimpl. unfold render_header at 1, crlf_ at 1. rewrite <-!app_assoc. cbn [app].
      replace (h.1 ++ B ": " ++ h.2 ++ "013"%char :: "010"%char :: concat (render_header <$> hs) ++ crlf_ ++ body)
        with ((h.1 ++ B ": " ++ h.2 ++ ["013"%char]) ++ "010"%char :: concat (render_header <$> hs) ++ crlf_ ++ body)
        by by rewrite <-!app_assoc.
      apply getline_app. destruct Hh as ((_ & ? & _) & _ & (_ & ? & _)).
      change (B ": ") with [":"; " "]%char.
      repeat first [rewrite not_elem_of_app|rewrite not_elem_of_cons].
      split_and!; try done; apply not_elem_of_nil. }
    rewrite bool_decide_eq_false_2.
    2: { intros E. apply (f_equal length) in E. rewrite !length_app in E. simpl in E. lia. }
    rewrite header_line_render by done. apply IH; [done|lia].
Qed.

(** ** The status line *)

Definition is_word (s : str) : Prop := s <> [] /\ Forall (fun c => isspace c = false) s.

Lemma take_word_app w c rest :
  Forall (fun c => isspace c = false) w -> isspace c = true ->
  take_word (w ++ c :: rest) = (w, c :: rest).
Proof. intros Hw Hc. induction Hw as [|x w Hx _ IH]; simpl; [by rewrite Hc|]. by rewrite Hx, IH. Qed.

Lemma take_digits_app ds c rest acc :
  Forall (fun c => is_digit c = true) ds -> is_digit c = false ->
  take_digits acc (ds ++ c :: rest) = ((take_digits acc ds).1, c :: rest).
Proof.
  intros Hd Hc. revert acc. induction Hd as [|x ds Hx _ IH]; intros acc; simpl; [by rewrite Hc|].
  by rewrite Hx, IH.
Qed.

(** The number that digits denote. *)
Definition digits_value (ds : str) : Z := (take_digits 0 ds).1.

Lemma extract_uint16_digits ds rest :
  ds <> [] -> Forall (fun c => is_digit c = true) ds -> digits_value ds <= 65535 ->
  extract_uint16 (B " " ++ ds ++ B " " ++ rest) = Some (digits_value ds, B " " ++ rest).
Proof.
  intros Hn Hd Hv. unfold extract_uint16.
  assert (skip_space (B " " ++ ds ++ B " " ++ rest) = ds ++ B " " ++ rest) as ->.
  { rewrite (skip_space_app (B " ")) by by repeat constructor.
    destruct Hd as [|c ds Hc _]; [done|]. apply skip_space_id. intros ? ? [= <- _]. revert Hc.
    by_all_bytes c. }
  destruct Hd as [|c ds' Hc Hd']; [done|].
  assert (c <> "-"%char /\ c <> "+"%char) as [H1 H2] by (split; intros ->; done).
  cbn [app head tail]. rewrite !bool_decide_eq_false_2 by congruence. cbn [orb]. rewrite Hc.
  change (c :: ds' ++ B " " ++ rest) with ((c :: ds') ++ " "%char :: rest).
  rewrite take_digits_app by (done || by constructor).
  unfold digits_value in *. destruct (Z.ltb_spec 65535 (take_digits 0 (c :: ds')).1); [lia|done].
Qed.

Lemma header_fuel_enough hs body :
  Forall clean_header hs -> (length hs < header_fuel (concat (render_header <$> hs) ++ crlf_ ++ body))%nat.
Proof.
  unfold header_fuel. induction 1 as [|h hs ((Hn & _) & _) _ IH]; csimpl.
  - simpl. lia.
  - unfold render_header at 1. rewrite !length_app in *. destruct h as [[|c n] v]; [done|].
    simpl in *. lia.
Qed.

(** C33 What a server sends is what is read: the version, the status, each header once (a
    later one of the same name is dropped) and the rest as the body.  The message is read
    as the rest of its line, so that it keeps the space before it and the carriage return
    after it, which the documentation of [Headers] leaves out. *)
Theorem ReadHeaderBuffer_render version digits message hs body content_length :
  is_word version -> take 5 version = B "HTTP/" ->
  digits <> [] -> Forall (fun c => is_digit c = true) digits -> digits_value digits <= 65535 ->
  ("010"%char ∉ message) -> Forall clean_header hs ->
  let headers := header_map hs ∅ in
  match headers !! "content-length"%string with
  | Some v => lexical_cast_uint64 boost v = Some content_length
  | None => content_length = 0
  end ->
  let text := version ++ B " " ++ digits ++ B " " ++ message ++ crlf_
              ++ concat (render_header <$> hs) ++ crlf_ in
  ReadHeaderBuffer (text ++ body) (length text)
  = Some {| raw_headers := text; http_version := version; status_code := digits_value digits;
            status_message := B " " ++ message ++ ["013"%char];
            hr_content_length := content_length; hr_headers := headers;
            hr_read_buffer := body |}.
Proof.
  intros [Hvn Hv] Hhttp Hdn Hd Hdv Hm Hhs headers Hlen text. unfold ReadHeaderBuffer, status_line.
  assert (extract_string (text ++ body) = Some (version, B " " ++ digits ++ B " " ++ message ++ crlf_
    ++ concat (render_header <$> hs) ++ crlf_ ++ body)) as ->.
  { unfold extract_string, text. rewrite skip_space_id.
    - rewrite <-!app_assoc. destruct version as [|c v]; [done|]. cbn [app].
      change (c :: v ++ B " " ++ ?t) with ((c :: v) ++ " "%char :: t). by rewrite take_word_app.
    - intros c t E. destruct Hv as [|c' v Hc _]; [done|]. by simplify_eq/=. }
  rewrite extract_uint16_digits by done.
  assert (getline (B " " ++ message ++ crlf_ ++ concat (render_header <$> hs) ++ crlf_ ++ body)
    = (B " " ++ message ++ ["013"%char], concat (render_header <$> hs) ++ crlf_ ++ body)) as E.
  { replace (B " " ++ message ++ crlf_ ++ concat (render_header <$> hs) ++ crlf_ ++ body)
      with ((B " " ++ message ++ ["013"%char]) ++ "010"%char :: concat (render_header <$> hs) ++ crlf_ ++ body)
      by by rewrite <-!app_assoc.
    apply getline_app. change (B " ") with [" "%char]. repeat first [rewrite not_elem_of_app|rewrite not_elem_of_cons].
    split_and!; try done; apply not_elem_of_nil. }
  rewrite E. change (B " " ++ ?t) with (" "%char :: t) at 1.
  rewrite bool_decide_eq_true_2 by done.
  rewrite header_loop_render; [|done|by apply header_fuel_enough].
  fold headers. rewrite take_app_length.
  destruct (headers !! "content-length"%string); [by rewrite Hlen|by rewrite Hlen].
Qed.

End Headers.

Definition example_headers : list (str * str) :=
  [(B "Content-Length", B "5"); (B "Server", B "x y"); (B "server", B "second")].

Lemma ReadHeaderBuffer_render_witness :
  let text := B "HTTP/1.1" ++ B " " ++ B "200" ++ B " " ++ B "OK" ++ crlf_
              ++ concat (render_header <$> example_headers) ++ crlf_ in
  ReadHeaderBuffer c_locale (text ++ B "hello") (length text)
  = Some {| raw_headers := text; http_version := B "HTTP/1.1"; status_code := digits_value (B "200");
            status_message := B " " ++ B "OK" ++ ["013"%char]; hr_content_length := 5;
            hr_headers := header_map c_locale example_headers ∅; hr_read_buffer := B "hello" |}.
Proof.
  apply (ReadHeaderBuffer_render c_locale (B "HTTP/1.1") (B "200") (B "OK") example_headers (B "hello") 5);
    try (by vm_compute); try (by repeat constructor);
    try (apply (bool_decide_unpack _); vm_compute; exact I).
Defined.

(** The example of the documentation, whose message it gives as ["OK"]. *)
Theorem status_message_keeps_blanks :
  let text := B "HTTP/1.1 200 OK" ++ crlf_ ++ crlf_ in
  exists r, ReadHeaderBuffer c_locale text (length text) = Some r
    /\ status_message r = B " OK" ++ ["013"%char] /\ status_message r <> B "OK".
Proof. eexists. split; [by vm_compute|]. split; [by vm_compute|by vm_compute]. Qed.
