(* ===== verification/HttpContent.v ===== *)
(** * Reading the content of a response ([http/detail/state_read_content.hpp])

    The handlers are functions from the state's data and the result of one
    asynchronous read to what they do next: the next read they start, or the event
    they send.  Boost is not the SDK's: [boost::split], [boost::trim], the gzip filter
    and the socket are parameters; what the theorems need of Asio's reads is stated as
    hypotheses of the section [Socket].  The delay before a read is a step of
    [HttpMachine]; the user's bandwidth analyser is left out. *)
From S2P Require Import Prelude Boost HttpHeaders.

Open Scope Z_scope.

(** ** Encodings *)

(** [http/detail/encoding.hpp:13-21 TransferEncoding] *)
Definition TE_None : Z := 0.
(** [http/detail/encoding.hpp:13-21 TransferEncoding] *)
Definition TE_Unknown : Z := Z.shiftl 1 0.
(** [http/detail/encoding.hpp:13-21 TransferEncoding] *)
Definition TE_ContentLength : Z := Z.shiftl 1 1.
(** [http/detail/encoding.hpp:13-21 TransferEncoding] *)
Definition TE_Chunked : Z := Z.shiftl 1 2.
(** [http/detail/encoding.hpp:13-21 TransferEncoding] *)
Definition TE_Gzip : Z := Z.shiftl 1 3.
(** [http/detail/encoding.hpp:23-29 ContentEncoding] *)
Definition CE_None : Z := 0.
(** [http/detail/encoding.hpp:23-29 ContentEncoding] *)
Definition CE_Unknown : Z := Z.shiftl 1 0.
(** [http/detail/encoding.hpp:23-29 ContentEncoding] *)
Definition CE_Gzip : Z := Z.shiftl 1 1.

(** A flag test: [flags & flag]. *)
Definition has_flag (flags flag : Z) : bool := negb (Z.land flags flag =? 0).

Section Encoding.
(** [boost::split (tokens, s, is_any_of (","))], then [boost::trim] on each. *)
Context (split_commas : str -> list str) (trim : str -> str).

(** [http/detail/state_read_content.hpp:70-78 ParseTransferEncoding] *)
Definition transfer_token (ret : Z) (token : str) : Z :=
  if bool_decide (token = B "chunked") then Z.lor ret TE_Chunked
  else if bool_decide (token = B "gzip") then Z.lor ret TE_Gzip
  else Z.lor ret TE_Unknown.

(** [http/detail/state_read_content.hpp:46-82 ParseTransferEncoding] *)
Definition ParseTransferEncoding (headers : HeaderMap) : Z :=
  let ret := TE_None in
  let ret := match headers !! "content-length"%string with
             | Some _ => Z.lor ret TE_ContentLength | None => ret end in
  match headers !! "transfer-encoding"%string with
  | Some v => foldl transfer_token ret (trim <$> split_commas v)
  | None => ret
  end.

(** [http/detail/state_read_content.hpp:103-109 ParseContentEncoding] *)
Definition content_token (ret : Z) (token : str) : Z :=
  if bool_decide (token = B "gzip") then Z.lor ret CE_Gzip else Z.lor ret CE_Unknown.

(** [http/detail/state_read_content.hpp:84-113 ParseContentEncoding] *)
Definition ParseContentEncoding (headers : HeaderMap) : Z :=
  match headers !! "content-encoding"%string with
  | Some v => foldl content_token CE_None (trim <$> split_commas v)
  | None => CE_None
  end.
End Encoding.

(** ** Numbers *)

Definition hex_digit (c : ascii) : option Z :=
  let n := byteZ c in
  if (48 <=? n) && (n <=? 57) then Some (n - 48)
  else if (65 <=? n) && (n <=? 70) then Some (n - 55)
  else if (97 <=? n) && (n <=? 102) then Some (n - 87)
  else None.

Fixpoint hex_value (acc : Z) (s : str) : Z :=
  match s with
  | c :: s => match hex_digit c with Some d => hex_value (acc * 16 + d) s | None => acc end
  | [] => acc
  end.

(** [std::stoul (str, 0, 16)] where [long] has 64 bits: blanks, a sign, an optional
    [0x] before a digit, then digits; what follows them is ignored.  [None] is
    [invalid_argument] or [out_of_range]; a negative number is negated modulo [2^64].
    [utils/string.cpp:128-134 str_to_uint64] *)
Definition str_to_uint64_16 (s : str) : option Z :=
  let s := skip_space s in
  let '(neg, s) :=
    match s with
    | "-"%char :: s => (true, s) | "+"%char :: s => (false, s) | _ => (false, s)
    end in
  let digits :=
    match s with
    | "0"%char :: x :: d :: _ =>
        if (bool_decide (x = "x"%char) || bool_decide (x = "X"%char))
           && match hex_digit d with Some _ => true | None => false end
        then drop 2 s else s
    | _ => s
    end in
  match digits with
  | c :: _ =>
      match hex_digit c with
      | None => None
      | Some _ =>
          let v := hex_value 0 digits in
          if 2 ^ 64 <=? v then None else Some (if neg then u64 (- v) else v)
      end
  | [] => None
  end.

(** ** The state *)

(** What a read reports, besides data.  [read_timeout] is a read that does not complete
    before the request's timer. *)
Inductive read_error := read_ok | read_eof | ssl_short_read | read_failed | read_timeout.

(** [http/detail/state_read_content.hpp:302-310 HandleContentRead] *)
Definition is_eof (is_ssl : bool) (err : read_error) : bool :=
  match err with
  | read_eof => true
  | ssl_short_read => is_ssl
  | _ => false
  end.

Definition is_ok (err : read_error) : bool := match err with read_ok => true | _ => false end.

(** [http/detail/state_read_content.hpp:177-200 ReadContentData] *)
Record ReadContentData := {
  cancelled : bool;
  content_length : Z;
  read_buffer : str;
  gzipped_buffer : str;
  filter_buf_consumed : Z;
  using_gzip : bool;
  using_content_length : bool }.

(** [http/detail/state_read_content.hpp:34-34 kMaxUnknownReadLength] *)
Definition kMaxUnknownReadLength : Z := 1024 * 8.

(** The errors the state sends. *)
Inductive content_error := ReadFailure_ | CompressionFailure_ | UnsupportedEncoding_.

(** A call of [ResponseContentReceived]: the position and the bytes. *)
Abbreviation delivery := (Z * str)%type.

(** What a handler does last: nothing, an event, or the next read. *)
Inductive next :=
  | Ignored
  | SendError (e : content_error) (out : list delivery)
  | SendContentRead (out : list delivery)
  | ReadSome (d : ReadContentData) (out : list delivery)
      (max_read_size total_read previously_transferred : Z)
  | ReadSizeLine (d : ReadContentData) (out : list delivery) (output_bytes_consumed : Z)
  | ReadChunk (d : ReadContentData) (out : list delivery)
      (left_to_read output_bytes_consumed chunk_size : Z).

Definition set_buffers (rb gz : str) (d : ReadContentData) : ReadContentData :=
  {| cancelled := cancelled d; content_length := content_length d; read_buffer := rb;
     gzipped_buffer := gz; filter_buf_consumed := filter_buf_consumed d;
     using_gzip := using_gzip d; using_content_length := using_content_length d |}.

(** [async_read] appends what it read to the buffer. *)
Definition received (bytes : str) (d : ReadContentData) : ReadContentData :=
  set_buffers (read_buffer d ++ bytes) (gzipped_buffer d) d.

Section ReadContent.
(** The gzip filter ([None] is an exception), and what is in memory that [new] returned
    and nobody wrote. *)
Context (gunzip : str -> option str) (uninitialised : nat -> str) (is_ssl : bool).

(** [istream::read] of [n] bytes into a fresh array: what the array holds, and what is
    left in the buffer. *)
Definition istream_read (n : Z) (buffer : str) : str * str :=
  let n := Z.to_nat n in
  (take n buffer ++ uninitialised (n - length buffer), drop n buffer).

(** The end of a body that is not chunked.
    [http/detail/state_read_content.hpp:372-419 HandleContentRead] *)
Definition ContentComplete (d : ReadContentData) (out : list delivery) : next :=
  if using_gzip d then
    match gunzip (read_buffer d) with
    | None => SendError ReadFailure_ out
    | Some plain => SendContentRead (out ++ [(filter_buf_consumed d, plain)])
    end
  else SendContentRead out.

(** [http/detail/state_read_content.hpp:269-466 HandleContentRead] *)
Definition HandleContentRead (d : ReadContentData) (out : list delivery)
    (total_previously_read bytes_previously_transferred bytes_transferred : Z)
    (err : read_error) : next :=
  if cancelled d then Ignored
  else
    let bytes_to_process := u64 (bytes_previously_transferred + bytes_transferred) in
    let eof := is_eof is_ssl err in
    if is_ok err || eof then
      let total_read := u64 (total_previously_read + bytes_to_process) in
      let '(d, out) :=
        if using_gzip d then (d, out)
        else let '(data, rest) := istream_read bytes_to_process (read_buffer d) in
             (set_buffers rest (gzipped_buffer d) d, out ++ [(total_previously_read, data)]) in
      if using_content_length d && (content_length d <? total_read)
      then SendError ReadFailure_ out
      else if (if using_content_length d then content_length d =? total_read else eof)
      then ContentComplete d out
      else
        ReadSome d out
          (if using_content_length d
           then Z.min (u64 (content_length d - total_read)) kMaxUnknownReadLength
           else kMaxUnknownReadLength)
          total_read 0
    else SendError ReadFailure_ out.

(** [http/detail/state_read_content.hpp:711-801 HandleCompleteAllChunks] *)
Definition HandleCompleteAllChunks (d : ReadContentData) (out : list delivery) : next :=
  if cancelled d then Ignored
  else if using_gzip d then
    match gunzip (gzipped_buffer d) with
    | None => SendError CompressionFailure_ out
    | Some plain => SendContentRead (out ++ [(filter_buf_consumed d, plain)])
    end
  else SendContentRead out.

(** [http/detail/state_read_content.hpp:663-709 HandleNextChunk] *)
Definition HandleNextChunk (d : ReadContentData) (out : list delivery)
    (output_bytes_consumed chunk_size : Z) : next :=
  if cancelled d then Ignored
  else
    let left_to_read := u64 (chunk_size + 2) in
    let have := Z.of_nat (length (read_buffer d)) in
    ReadChunk d out (if left_to_read <? have then 0 else left_to_read - have)
      output_bytes_consumed chunk_size.

(** [http/detail/state_read_content.hpp:803-895 HandleContentChunkSizeRead] *)
Definition HandleContentChunkSizeRead (d : ReadContentData) (out : list delivery)
    (output_bytes_consumed : Z) (err : read_error) : next :=
  if cancelled d then Ignored
  else match err with
  | read_ok | read_eof =>
      let '(chunk_size_as_hex, rest) := getline (read_buffer d) in
      let d := set_buffers rest (gzipped_buffer d) d in
      match str_to_uint64_16 chunk_size_as_hex with
      | None => SendError ReadFailure_ out
      | Some chunk_size =>
          if chunk_size =? 0 then HandleCompleteAllChunks d out
          else HandleNextChunk d out output_bytes_consumed chunk_size
      end
  | _ => SendError ReadFailure_ out
  end.

(** [http/detail/state_read_content.hpp:505-622 HandleContentChunkRead] *)
Definition HandleContentChunkRead (d : ReadContentData) (out : list delivery)
    (output_bytes_consumed chunk_size : Z) (err : read_error) : next :=
  if cancelled d then Ignored
  else if is_ok err || is_eof is_ssl err then
    let n := Z.to_nat chunk_size in
    let '(d, out) :=
      if using_gzip d then
        (set_buffers (drop n (read_buffer d)) (gzipped_buffer d ++ take n (read_buffer d)) d, out)
      else let '(data, rest) := istream_read chunk_size (read_buffer d) in
           (set_buffers rest (gzipped_buffer d) d, out ++ [(output_bytes_consumed, data)]) in
    let d := set_buffers (drop 2 (read_buffer d)) (gzipped_buffer d) d in
    ReadSizeLine d out (u64 (output_bytes_consumed + chunk_size))
  else SendError ReadFailure_ out.

(** What the entry into the state starts: an error, or the first read; the length that
    the first read of a plain body asks for does not count what is already in the buffer.
    [http/detail/state_read_content.hpp:900-1034 on_entry] *)
Definition ReadContent_on_entry (transfer_encoding content_encoding : Z)
    (evt_content_length : Z) (evt_read_buffer : str) : next :=
  let gzip := has_flag transfer_encoding TE_Gzip || has_flag content_encoding CE_Gzip in
  let with_length := has_flag transfer_encoding TE_ContentLength in
  if has_flag transfer_encoding TE_Unknown then SendError UnsupportedEncoding_ []
  else if has_flag content_encoding CE_Unknown then SendError UnsupportedEncoding_ []
  else if has_flag transfer_encoding TE_Chunked && with_length
  then SendError UnsupportedEncoding_ []
  else
    let d := {| cancelled := false; content_length := evt_content_length;
                read_buffer := evt_read_buffer; gzipped_buffer := [];
                filter_buf_consumed := 0; using_gzip := gzip;
                using_content_length := with_length |} in
    if has_flag transfer_encoding TE_Chunked then ReadSizeLine d [] 0
    else ReadSome d []
           (if with_length then Z.min evt_content_length kMaxUnknownReadLength
            else kMaxUnknownReadLength) 0 (Z.of_nat (length evt_read_buffer)).

(** ** The connection *)

Section Socket.
(** A socket: what the peer has sent and nobody has read, and what a read past it
    reports.  [async_read] asks for a number of bytes; [async_read_until] for a
    delimiter in the buffer and what it appends to it. *)
Context {Socket : Type} (unread : Socket -> str) (at_end : Socket -> read_error).
Context (async_read : Z -> Socket -> str * read_error * Socket).
Context (async_read_until : str -> str -> Socket -> str * read_error * Socket).

(** What Asio documents of [transfer_exactly]: the bytes asked for, or all there are and
    the error. *)
Definition async_read_spec : Prop := forall n s,
  let m := Z.to_nat n in
  let '(bytes, err, s') := async_read n s in
  bytes = take m (unread s) /\ unread s' = drop m (unread s) /\ at_end s' = at_end s
  /\ err = if (m <=? length (unread s))%nat then read_ok else at_end s.

(** ["\r\n"] *)
Definition crlf : str := ["013"; "010"]%char.

(** Does the text contain the pair of characters? *)
Fixpoint contains_crlf (s : str) : bool :=
  match s with
  | c :: s' =>
      (bool_decide (c = "013"%char)
       && match s' with d :: _ => bool_decide (d = "010"%char) | [] => false end)
      || contains_crlf s'
  | [] => false
  end.

(** What Asio documents of [async_read_until]: some bytes are appended, the buffer has
    the delimiter, or else everything was read and the error is reported.  Where the
    peer's packets end decides how many bytes come. *)
Definition async_read_until_spec : Prop := forall buffer s,
  let '(bytes, err, s') := async_read_until crlf buffer s in
  unread s = bytes ++ unread s' /\ at_end s' = at_end s
  /\ if contains_crlf (buffer ++ unread s)
     then err = read_ok /\ contains_crlf (buffer ++ bytes) = true
     else err = at_end s /\ unread s' = [].

Inductive content_result :=
  | Finished (out : list delivery)              (** [ContentReadEvent] *)
  | Failed (e : content_error) (out : list delivery)
  | TimedOut (out : list delivery)              (** [ErrorEvent] of the request's timer *)
  | Stopped.

(** The reads one after the other.  [fuel] counts reads. *)
Fixpoint read_content (fuel : nat) (n : next) (s : Socket) : option content_result :=
  match n with
  | Ignored => Some Stopped
  | SendError e out => Some (Failed e out)
  | SendContentRead out => Some (Finished out)
  | ReadSome d out max_read_size total prev =>
      match fuel with
      | O => None
      | S fuel =>
          let '(bytes, err, s) := async_read max_read_size s in
          match err with
          | read_timeout => Some (TimedOut out)
          | _ => read_content fuel
                   (HandleContentRead (received bytes d) out total prev
                      (Z.of_nat (length bytes)) err) s
          end
      end
  | ReadSizeLine d out consumed =>
      match fuel with
      | O => None
      | S fuel =>
          let '(bytes, err, s) := async_read_until crlf (read_buffer d) s in
          match err with
          | read_timeout => Some (TimedOut out)
          | _ => read_content fuel
                   (HandleContentChunkSizeRead (received bytes d) out consumed err) s
          end
      end
  | ReadChunk d out left_to_read consumed chunk_size =>
      match fuel with
      | O => None
      | S fuel =>
          let '(bytes, err, s) := async_read left_to_read s in
          match err with
          | read_timeout => Some (TimedOut out)
          | _ => read_content fuel
                   (HandleContentChunkRead (received bytes d) out consumed chunk_size err) s
          end
      end
  end.

(** The bytes delivered, in order. *)
Definition delivered_bytes (out : list delivery) : str := concat out.*2.

(** Each delivery starts where the one before ended. *)
Fixpoint contiguous (pos : Z) (out : list delivery) : Prop :=
  match out with
  | [] => True
  | (p, bytes) :: out => p = pos /\ contiguous (pos + Z.of_nat (length bytes)) out
  end.

Lemma contiguous_app pos a b :
  contiguous pos (a ++ b) <->
  contiguous pos a /\ contiguous (pos + Z.of_nat (length (delivered_bytes a))) b.
Proof.
  revert pos. induction a as [|[p bytes] a IH]; intros pos; simpl.
  - rewrite Z.add_0_r. tauto.
  - rewrite IH. unfold delivered_bytes. simpl. rewrite length_app, Nat2Z.inj_add, Z.add_assoc. tauto.
Qed.

Lemma delivered_app a b : delivered_bytes (a ++ b) = delivered_bytes a ++ delivered_bytes b.
Proof. unfold delivered_bytes. by rewrite fmap_app, concat_app. Qed.

(** ** Bodies with a length *)

Hypothesis uninitialised_length : forall n, length (uninitialised n) = n.
Hypothesis async_read_ok : async_read_spec.
Hypothesis async_read_until_ok : async_read_until_spec.

(** The data of a plain body with a length, between two reads. *)
Definition plain_data (d : ReadContentData) (with_length : bool) (length : Z) : Prop :=
  cancelled d = false /\ using_gzip d = false
  /\ using_content_length d = with_length /\ content_length d = length.

Lemma istream_read_all buffer n :
  n = Z.of_nat (length buffer) -> istream_read n buffer = (buffer ++ uninitialised 0, []).
Proof.
  intros ->. unfold istream_read. rewrite Nat2Z.id, firstn_all, drop_all, Nat.sub_diag. done.
Qed.

Lemma uninitialised_nil : uninitialised 0 = [].
Proof. apply nil_length_inv, uninitialised_length. Qed.

(** One read of a plain body: what is in the buffer is delivered. *)
Lemma HandleContentRead_plain d out total prev n err with_length len :
  plain_data d with_length len ->
  Z.of_nat (length (read_buffer d)) = prev + n -> 0 <= total -> 0 <= prev -> 0 <= n ->
  total + prev + n < 2 ^ 64 -> is_ok err || is_eof is_ssl err = true ->
  let d' := set_buffers [] (gzipped_buffer d) d in
  let out' := out ++ [(total, read_buffer d)] in
  let total' := total + prev + n in
  HandleContentRead d out total prev n err =
    if with_length && (len <? total') then SendError ReadFailure_ out'
    else if (if with_length then len =? total' else is_eof is_ssl err) then SendContentRead out'
    else ReadSome d' out'
           (if with_length then Z.min (u64 (len - total')) kMaxUnknownReadLength
            else kMaxUnknownReadLength) total' 0.
Proof.
  intros (Hc & Hg & Hl & Hlen) Hbuf Ht Hp Hn Hov He. unfold HandleContentRead.
  rewrite Hc, He, Hg. rewrite (u64_small (prev + n)) by lia. rewrite u64_small by lia.
  rewrite istream_read_all by lia. rewrite uninitialised_nil, app_nil_r, Z.add_assoc.
  unfold ContentComplete. simpl. by rewrite Hl, Hlen, Hg.
Qed.

Lemma length_take_Z (m : Z) (l : str) :
  0 <= m -> Z.of_nat (length (take (Z.to_nat m) l)) = Z.min m (Z.of_nat (length l)).
Proof. intros. rewrite length_take. lia. Qed.

(** Every read gets its bytes: the loop ends after the last one, without a close. *)
Lemma length_loop fuel d out s total len :
  plain_data d true len -> read_buffer d = [] ->
  0 <= total < len -> len < 2 ^ 64 -> total + Z.of_nat (length (unread s)) = len ->
  (length (unread s) <= fuel)%nat ->
  total = Z.of_nat (length (delivered_bytes out)) -> contiguous 0 out ->
  exists out', read_content fuel
      (ReadSome d out (Z.min (u64 (len - total)) kMaxUnknownReadLength) total 0) s
      = Some (Finished out')
    /\ delivered_bytes out' = delivered_bytes out ++ unread s /\ contiguous 0 out'.
Proof.
  intros Hd Hrb Ht Hlen Hs. rewrite u64_small by lia. set (m := Z.min _ _).
  assert (0 < m <= Z.of_nat (length (unread s))) as Hm by (subst m; unfold kMaxUnknownReadLength; lia).
  revert d out s total Hd Hrb Ht Hs m Hm.
  induction fuel as [|fuel IH]; intros d out s total Hd Hrb Ht Hs m Hm Hf Hout Hcont; [lia|].
  simpl. pose proof (async_read_ok m s) as Hr. destruct (async_read m s) as [[bytes err] s'].
  destruct Hr as (Hb & Hs' & _ & ->). rewrite (proj2 (Nat.leb_le _ _)) by lia.
  assert (Z.of_nat (length bytes) = m) as Hlb by (rewrite Hb, length_take_Z by lia; lia).
  assert (read_buffer (received bytes d) = bytes) as Hrb'
    by (unfold received; simpl; by rewrite Hrb).
  rewrite (HandleContentRead_plain _ _ _ _ _ _ true len); try done; try lia.
  2: by rewrite Hrb', Hlb.
  rewrite Hrb', Hlb. simpl.
  assert (delivered_bytes (out ++ [(total, bytes)]) = delivered_bytes out ++ bytes) as Hdel
    by (rewrite delivered_app; unfold delivered_bytes at 2; simpl; by rewrite app_nil_r).
  assert (contiguous 0 (out ++ [(total, bytes)])) as Hcont'
    by (rewrite contiguous_app; split; [done|]; simpl; split; [lia|done]).
  rewrite (proj2 (Z.ltb_ge _ _)) by lia.
  destruct (len =? total + 0 + m) eqn:E; [apply Z.eqb_eq in E|apply Z.eqb_neq in E].
  - exists (out ++ [(total, bytes)]). split; [by destruct fuel|]. split; [|done].
    rewrite Hdel, Hb. f_equal. apply take_ge. lia.
  - rewrite u64_small by lia.
    destruct (IH (set_buffers [] (gzipped_buffer (received bytes d)) (received bytes d))
      (out ++ [(total, bytes)]) s' (total + 0 + m)) as (out' & HR & Hdl & Hct);
      try done; rewrite ?Hs', ?Hdel, ?length_drop, ?length_app; unfold kMaxUnknownReadLength; try lia.
    + exists out'. split; [exact HR|]. split; [|done].
      rewrite Hdl, Hdel, Hs', <-app_assoc, Hb. by rewrite take_drop.
Qed.

(** The read did not time out. *)
Ltac no_timeout err :=
  match goal with
  | |- context [match err with read_ok => ?a | read_timeout => ?b | _ => _ end] =>
      replace (match err with read_timeout => b | _ => a end) with a by by destruct err
  end.

(** The state of a response with a length and without gzip, after its headers. *)
Definition length_entry (len : Z) (pre : str) : next :=
  ReadContent_on_entry TE_ContentLength CE_None len pre.

Lemma length_entry_eq len pre :
  length_entry len pre =
  ReadSome {| cancelled := false; content_length := len; read_buffer := pre;
              gzipped_buffer := []; filter_buf_consumed := 0; using_gzip := false;
              using_content_length := true |} [] (Z.min len kMaxUnknownReadLength) 0
           (Z.of_nat (length pre)).
Proof. reflexivity. Qed.

(** The stream ended before the length: one read leads to the next. *)
Lemma short_body_diverges fuel d out s m total prev len :
  plain_data d true len -> Z.of_nat (length (read_buffer d)) = prev -> 0 <= total -> 0 <= prev ->
  total + prev + Z.of_nat (length (unread s)) < len -> len < 2 ^ 64 -> 0 <= m ->
  is_eof is_ssl (at_end s) = true ->
  read_content fuel (ReadSome d out m total prev) s = None.
Proof.
  intros Hd. revert d out s m total prev Hd.
  induction fuel as [|fuel IH]; intros d out s m total prev Hd Hrb Ht Hp Hlen Hov Hm Hend; [done|].
  cbn [read_content]. pose proof (async_read_ok m s) as Hr.
  destruct (async_read m s) as [[bytes err] s']. destruct Hr as (Hb & Hs' & He' & Herr).
  assert (Z.of_nat (length bytes) <= Z.of_nat (length (unread s))) as Hlb
    by (rewrite Hb, length_take; lia).
  assert (is_ok err || is_eof is_ssl err = true /\ err <> read_timeout) as [Hok Hnt].
  { subst err. destruct (_ <=? _)%nat; [done|]. rewrite Hend. by destruct (at_end s). }
  no_timeout err.
  rewrite (HandleContentRead_plain _ _ _ _ _ _ true len); try done; try lia.
  2: unfold received; simpl; rewrite length_app; lia.
  rewrite (proj2 (Z.ltb_ge _ _)) by lia. cbn [andb].
  rewrite (proj2 (Z.eqb_neq _ _)) by lia. rewrite u64_small by lia.
  apply IH; try done; try lia.
  - rewrite Hs', length_drop. assert (length bytes + (length (unread s) - Z.to_nat m) = length (unread s))%nat
      by (rewrite Hb, length_take; lia). lia.
  - unfold kMaxUnknownReadLength. lia.
  - by rewrite He'.
Qed.

(** A body with a length is delivered whole: when what came with the headers and what
    the peer still sends are together the announced bytes, the state ends, having
    delivered exactly the body in contiguous pieces, provided that the first read, which
    does not count what came with the headers, has enough to read or the peer closes.
    Fuel for one read per byte is enough. *)
Theorem content_length_body len pre s :
  Z.of_nat (length pre + length (unread s)) = len -> len < 2 ^ 64 ->
  Z.min len kMaxUnknownReadLength <= Z.of_nat (length (unread s))
  \/ is_eof is_ssl (at_end s) = true ->
  exists out, read_content (S (length (unread s))) (length_entry len pre) s = Some (Finished out)
    /\ delivered_bytes out = pre ++ unread s /\ contiguous 0 out.
Proof.
  intros Hlen Hov Hend. rewrite length_entry_eq.
  set (d := {| cancelled := false |}). set (m := Z.min _ _) in *.
  assert (plain_data d true len) as Hd by done.
  cbn [read_content]. pose proof (async_read_ok m s) as Hr.
  destruct (async_read m s) as [[bytes err] s']. destruct Hr as (Hb & Hs' & He' & Herr).
  assert (Z.of_nat (length bytes) = Z.min m (Z.of_nat (length (unread s)))) as Hlb
    by (rewrite Hb; apply length_take_Z; unfold m, kMaxUnknownReadLength; lia).
  assert (is_ok err || is_eof is_ssl err = true /\ err <> read_timeout) as [Hok Hnt].
  { subst err. destruct (Nat.leb_spec (Z.to_nat m) (length (unread s))); [done|].
    destruct Hend as [?|He]; [lia|]. rewrite He. by destruct (at_end s). }
  no_timeout err.
  rewrite (HandleContentRead_plain _ _ _ _ _ _ true len); try done; try lia.
  2: unfold received; simpl; rewrite length_app; lia.
  cbn [received read_buffer set_buffers d].
  assert (pre ++ unread s = (pre ++ bytes) ++ unread s') as Hbody
    by (rewrite Hs', Hb, <-app_assoc; by rewrite take_drop).
  assert (Z.of_nat (length (unread s')) + Z.of_nat (length bytes) = Z.of_nat (length (unread s))) as Hl2
    by (rewrite Hs', length_drop; lia).
  rewrite (proj2 (Z.ltb_ge _ _)) by lia. cbn [andb].
  destruct (len =? _) eqn:E; [apply Z.eqb_eq in E|apply Z.eqb_neq in E].
  - exists [(0, pre ++ bytes)]. split; [by destruct (length (unread s))|]. split; [|done].
    unfold delivered_bytes. simpl. rewrite Hbody. f_equal. symmetry. apply nil_length_inv. lia.
  - destruct (length_loop (length (unread s)) (set_buffers [] (gzipped_buffer d) (received bytes d))
      ([] ++ [(0, pre ++ bytes)]) s' (0 + Z.of_nat (length pre) + Z.of_nat (length bytes)) len)
      as (out' & HR & Hdl & Hct); try done; try lia.
    + unfold delivered_bytes. simpl. rewrite app_nil_r, length_app. lia.
    + exists out'. split; [exact HR|]. split; [|done].
      rewrite Hdl, Hbody. unfold delivered_bytes. simpl. by rewrite app_nil_r.
Qed.

(** When a short body came, or began to come, with the headers, the first read asks
    for bytes the peer will never send: if the peer then keeps the connection open the
    request times out, with the whole body received and nothing of it delivered. *)
Theorem content_length_keep_alive_stalls len pre s :
  Z.of_nat (length pre + length (unread s)) = len -> pre <> [] ->
  len <= kMaxUnknownReadLength -> at_end s = read_timeout ->
  read_content 1 (length_entry len pre) s = Some (TimedOut []).
Proof.
  intros Hlen Hpre Hk Hend. rewrite length_entry_eq. cbn [read_content].
  pose proof (async_read_ok (Z.min len kMaxUnknownReadLength) s) as Hr.
  destruct (async_read _ s) as [[bytes err] s']. destruct Hr as (_ & _ & _ & ->).
  destruct pre as [|c pre]; [done|]. simpl in Hlen.
  destruct (Nat.leb_spec (Z.to_nat (Z.min len kMaxUnknownReadLength)) (length (unread s))); [lia|].
  by rewrite Hend.
Qed.

(** A peer that closes before the announced length is never noticed: the end of the
    stream is not a failure when a length is in use, so the state starts read after
    read, and with any amount of fuel does not end. *)
Theorem premature_close_never_ends fuel len pre s :
  Z.of_nat (length pre + length (unread s)) < len -> len < 2 ^ 64 ->
  is_eof is_ssl (at_end s) = true ->
  read_content fuel (length_entry len pre) s = None.
Proof.
  intros Hlen Hov Hend. rewrite length_entry_eq. apply (short_body_diverges _ _ _ _ _ _ _ len); simpl; try done; unfold kMaxUnknownReadLength; lia.
Qed.

(** ** Bodies up to the end of the stream *)

Definition plain_entry (pre : str) : next := ReadContent_on_entry TE_None CE_None 0 pre.

Lemma eof_loop fuel d out s total prev :
  plain_data d false 0 -> Z.of_nat (length (read_buffer d)) = prev -> 0 <= total -> 0 <= prev ->
  total + prev + Z.of_nat (length (unread s)) < 2 ^ 64 -> is_eof is_ssl (at_end s) = true ->
  (length (unread s) < fuel)%nat ->
  total = Z.of_nat (length (delivered_bytes out)) -> contiguous 0 out ->
  exists out', read_content fuel (ReadSome d out kMaxUnknownReadLength total prev) s
               = Some (Finished out')
    /\ delivered_bytes out' = delivered_bytes out ++ read_buffer d ++ unread s /\ contiguous 0 out'.
Proof.
  intros Hd. revert d out s total prev Hd.
  induction fuel as [|fuel IH]; intros d out s total prev Hd Hrb Ht Hp Hov Hend Hf Hout Hcont; [lia|].
  cbn [read_content]. pose proof (async_read_ok kMaxUnknownReadLength s) as Hr.
  destruct (async_read _ s) as [[bytes err] s']. destruct Hr as (Hb & Hs' & He' & Herr).
  assert (length bytes + length (unread s') = length (unread s))%nat as Hl2
    by (rewrite Hb, Hs', length_take, length_drop; lia).
  assert (read_buffer (received bytes d) = read_buffer d ++ bytes) as Hrb' by done.
  assert (is_ok err || is_eof is_ssl err = true /\ err <> read_timeout) as [Hok Hnt].
  { subst err. destruct (_ <=? _)%nat; [done|]. rewrite Hend. by destruct (at_end s). }
  no_timeout err.
  rewrite (HandleContentRead_plain _ _ _ _ _ _ false 0); try done; try lia.
  2: rewrite Hrb', length_app; lia.
  rewrite Hrb'. cbn [andb].
  assert (delivered_bytes (out ++ [(total, read_buffer d ++ bytes)])
          = delivered_bytes out ++ read_buffer d ++ bytes) as Hdel
    by (rewrite delivered_app; unfold delivered_bytes at 2; simpl; by rewrite app_nil_r).
  assert (contiguous 0 (out ++ [(total, read_buffer d ++ bytes)])) as Hcont'
    by (rewrite contiguous_app; split; [done|]; simpl; split; [lia|done]).
  assert (bytes ++ unread s' = unread s) as Hbs by (rewrite Hb, Hs'; apply take_drop).
  destruct (Nat.leb_spec (Z.to_nat kMaxUnknownReadLength) (length (unread s))) as [Hle|Hgt]; subst err.
  - destruct (IH (set_buffers [] (gzipped_buffer (received bytes d)) (received bytes d))
      (out ++ [(total, read_buffer d ++ bytes)]) s'
      (total + prev + Z.of_nat (length bytes)) 0) as (out' & HR & Hdl & Hct);
      try done; rewrite ?He'; try done; rewrite ?Hdel, ?length_app; try lia.
    + assert (length bytes = Z.to_nat kMaxUnknownReadLength) by (rewrite Hb, length_take; lia).
      unfold kMaxUnknownReadLength in *. lia.
    + exists out'. split; [exact HR|]. split; [|done].
      rewrite Hdl, Hdel, <-Hbs. simpl. by rewrite <-!app_assoc.
  - rewrite Hend. exists (out ++ [(total, read_buffer d ++ bytes)]).
    split; [by destruct fuel|]. split; [|done].
    rewrite Hdel, <-Hbs, (nil_length_inv (unread s')), app_nil_r; [done|].
    rewrite Hs', length_drop. lia.
Qed.

(** Without a length the body is everything up to the end of the stream: it is
    delivered whole, in contiguous pieces, with what came with the headers first. *)
Theorem unknown_length_body pre s :
  Z.of_nat (length pre + length (unread s)) < 2 ^ 64 -> is_eof is_ssl (at_end s) = true ->
  exists out, read_content (S (length (unread s))) (plain_entry pre) s = Some (Finished out)
    /\ delivered_bytes out = pre ++ unread s /\ contiguous 0 out.
Proof.
  intros Hov Hend.
  destruct (eof_loop (S (length (unread s)))
    {| cancelled := false; content_length := 0; read_buffer := pre; gzipped_buffer := [];
       filter_buf_consumed := 0; using_gzip := false; using_content_length := false |} [] s 0
    (Z.of_nat (length pre))) as (out & HR & Hd & Hc); try done; try lia.
  exists out. split; [exact HR|]. done.
Qed.

(** ** Chunked bodies *)

(** A chunk on the wire: its size line, without the line end, and its data. *)
Definition chunk_ok (c : str * str) : Prop :=
  ("010"%char ∉ c.1) /\ str_to_uint64_16 (c.1 ++ ["013"%char]) = Some (Z.of_nat (length c.2))
  /\ c.2 <> [].

Definition encode_chunk (c : str * str) : str := c.1 ++ crlf ++ c.2 ++ crlf.

(** The chunks, the line of the last chunk, and whatever follows it. *)
Definition encode_chunks (chunks : list (str * str)) (last_line trailer : str) : str :=
  concat (encode_chunk <$> chunks) ++ last_line ++ crlf ++ trailer.

Lemma contains_crlf_newline s : contains_crlf s = true -> "010"%char ∈ s.
Proof.
  induction s as [|c s IH]; [done|]. cbn [contains_crlf].
  intros [[_ H]%andb_prop|H]%orb_prop; apply elem_of_cons; right; [|auto].
  destruct s as [|d s]; [done|]. apply bool_decide_eq_true in H as ->. by left.
Qed.

Lemma contains_crlf_line line rest : contains_crlf (line ++ crlf ++ rest) = true.
Proof.
  induction line as [|c line IH]; [done|]. cbn [app contains_crlf]. rewrite IH. apply orb_true_r.
Qed.

Lemma getline_line line rest :
  "010"%char ∉ line -> getline (line ++ crlf ++ rest) = (line ++ ["013"%char], rest).
Proof.
  induction line as [|c line IH]; intros Hn; [done|].
  apply not_elem_of_cons in Hn as [Hc Hn]. cbn [app getline].
  rewrite bool_decide_eq_false_2 by done. by rewrite IH.
Qed.

(** A beginning of the text that has a line end has the whole first line. *)
Lemma first_line_received line rest bytes tail :
  "010"%char ∉ line -> bytes ++ tail = line ++ crlf ++ rest -> contains_crlf bytes = true ->
  exists more, bytes = line ++ crlf ++ more /\ rest = more ++ tail.
Proof.
  intros Hn Heq Hc. apply contains_crlf_newline in Hc.
  destruct (decide (length line + 2 <= length bytes)%nat) as [Hl|Hl].
  - exists (drop (length line + 2) bytes).
    assert (take (length line + 2) bytes = line ++ crlf) as Ht.
    { rewrite <-(take_app_le bytes tail) by done. rewrite Heq, app_assoc.
      apply take_app_length'. rewrite length_app. simpl. lia. }
    assert (bytes = line ++ crlf ++ drop (length line + 2) bytes) as Hb
      by (rewrite app_assoc, <-Ht; by rewrite take_drop).
    split; [exact Hb|]. set (more := drop _ bytes) in *. clearbody more. subst bytes.
    rewrite <-!app_assoc in Heq. apply app_inv_head in Heq. by injection Heq.
  - exfalso. assert (bytes = take (length bytes) (line ++ ["013"%char])) as Hb.
    { rewrite <-(take_app_length bytes tail), Heq at 1.
      change crlf with (["013"%char] ++ ["010"%char]). rewrite <-app_assoc, app_assoc.
      rewrite take_app_le; [done|]. rewrite length_app. simpl. lia. }
    rewrite Hb in Hc. apply elem_of_take in Hc as (i & Hi & _).
    apply list_elem_of_lookup_2, elem_of_app in Hi as [Hi|Hi]; [done|].
    by apply list_elem_of_singleton in Hi.
Qed.

Definition same_mode (d d' : ReadContentData) : Prop :=
  cancelled d' = cancelled d /\ using_gzip d' = using_gzip d
  /\ filter_buf_consumed d' = filter_buf_consumed d.

(** The size line is read and parsed, however the bytes arrive. *)
Lemma size_line_step fuel d out consumed s line rest :
  cancelled d = false -> "010"%char ∉ line ->
  read_buffer d ++ unread s = line ++ crlf ++ rest ->
  exists d' s', read_content (S fuel) (ReadSizeLine d out consumed) s
    = read_content fuel
        (match str_to_uint64_16 (line ++ ["013"%char]) with
         | None => SendError ReadFailure_ out
         | Some n => if n =? 0 then HandleCompleteAllChunks d' out
                     else HandleNextChunk d' out consumed n
         end) s'
    /\ same_mode d d' /\ gzipped_buffer d' = gzipped_buffer d
    /\ read_buffer d' ++ unread s' = rest.
Proof.
  intros Hc Hn Heq. cbn [read_content]. pose proof (async_read_until_ok (read_buffer d) s) as Hr.
  destruct (async_read_until crlf (read_buffer d) s) as [[bytes err] s'].
  destruct Hr as (Hu & _ & Hr). rewrite Heq, contains_crlf_line in Hr. destruct Hr as [-> Hcr].
  rewrite Hu, app_assoc in Heq.
  destruct (first_line_received _ _ _ _ Hn Heq Hcr) as (more & Hb & Hrest).
  exists (set_buffers more (gzipped_buffer d) (received bytes d)), s'. split; [|done].
  unfold HandleContentChunkSizeRead. cbn [received cancelled read_buffer set_buffers gzipped_buffer].
  rewrite Hc, Hb, getline_line by done. done.
Qed.

Lemma chunk_step fuel d out consumed s line data rest :
  cancelled d = false -> chunk_ok (line, data) -> 0 <= consumed ->
  consumed + Z.of_nat (length data) + 2 < 2 ^ 64 ->
  read_buffer d ++ unread s = encode_chunk (line, data) ++ rest ->
  exists d' out' s', read_content (S (S fuel)) (ReadSizeLine d out consumed) s
    = read_content fuel (ReadSizeLine d' out' (consumed + Z.of_nat (length data))) s'
    /\ same_mode d d' /\ read_buffer d' ++ unread s' = rest
    /\ if using_gzip d then out' = out /\ gzipped_buffer d' = gzipped_buffer d ++ data
       else out' = out ++ [(consumed, data)] /\ gzipped_buffer d' = gzipped_buffer d.
Proof.
  intros Hc (Hn & Hparse & Hne) Hpos Hov Heq. simpl in Hn, Hparse, Hne.
  unfold encode_chunk in Heq. cbn [fst snd] in Heq. rewrite <-!app_assoc in Heq.
  destruct (size_line_step (S fuel) d out consumed s _ _ Hc Hn Heq)
    as (d1 & s1 & -> & Hm & Hg & Hrest). rewrite Hparse.
  assert (0 < length data)%nat as Hlen by (destruct data; [done|simpl; lia]).
  rewrite (proj2 (Z.eqb_neq _ _)) by lia. unfold HandleNextChunk.
  destruct Hm as (Hc1 & Hz1 & Hf1). rewrite Hc1, Hc, u64_small by lia.
  set (k := if _ <? _ then _ else _). cbn [read_content].
  pose proof (async_read_ok k s1) as Hr. destruct (async_read k s1) as [[bytes err] s2].
  destruct Hr as (Hb & Hs2 & _ & Herr).
  assert (length (read_buffer d1) + length (unread s1)
          = length data + 2 + length rest)%nat as Hl
    by (rewrite <-length_app, Hrest, !length_app; simpl; lia).
  assert (0 <= k /\ k <= Z.of_nat (length (unread s1))
          /\ Z.of_nat (length data) + 2 <= Z.of_nat (length (read_buffer d1)) + k) as (Hk0 & Hk1 & Hk2).
  { subst k. destruct (_ <? _) eqn:E; [apply Z.ltb_lt in E|apply Z.ltb_ge in E]; lia. }
  rewrite (proj2 (Nat.leb_le _ _)) in Herr by lia. subst err.
  assert ((read_buffer d1 ++ bytes) ++ unread s2 = data ++ crlf ++ rest) as Hall
    by (rewrite Hs2, Hb, <-app_assoc, take_drop; exact Hrest).
  assert (length bytes = Z.to_nat k) as Hlb by (rewrite Hb, length_take; lia).
  assert (exists q, read_buffer d1 ++ bytes = data ++ crlf ++ q /\ q ++ unread s2 = rest) as (q & Hq & Hqr).
  { exists (drop (length data + 2) (read_buffer d1 ++ bytes)).
    assert (take (length data + 2) (read_buffer d1 ++ bytes) = data ++ crlf) as Ht.
    { rewrite <-(take_app_le _ (unread s2)) by (rewrite length_app; lia). rewrite Hall, app_assoc.
      apply take_app_length'. rewrite length_app. simpl. lia. }
    assert (read_buffer d1 ++ bytes = data ++ crlf ++ drop (length data + 2) (read_buffer d1 ++ bytes))
      as Hq by (rewrite app_assoc, <-Ht; by rewrite take_drop).
    split; [exact Hq|]. set (q := drop _ _) in *. clearbody q. rewrite Hq in Hall.
    rewrite <-!app_assoc in Hall. apply app_inv_head in Hall. by injection Hall. }
  unfold HandleContentChunkRead. cbn [received cancelled read_buffer set_buffers gzipped_buffer using_gzip].
  rewrite Hc1, Hc, Hz1, Hq, u64_small by lia. cbn [is_ok orb]. unfold istream_read. rewrite Nat2Z.id.
  rewrite take_app_length, drop_app_length.
  replace (length data - length (data ++ crlf ++ q))%nat with 0%nat by (rewrite length_app; lia).
  rewrite uninitialised_nil, app_nil_r.
  destruct (using_gzip d) eqn:Ez; (eexists _, _, s2; split; [reflexivity|]);
    (split; [unfold same_mode; simpl; rewrite ?Hc1, ?Hz1, ?Hf1, ?Ez; by split_and!|]);
    (split; [simpl; by rewrite drop_0|]); simpl; rewrite Hg; done.
Qed.

(** Pieces delivered one after the other from a position on. *)
Fixpoint placed (pos : Z) (pieces : list str) : list delivery :=
  match pieces with
  | [] => []
  | bytes :: pieces => (pos, bytes) :: placed (pos + Z.of_nat (length bytes)) pieces
  end.

(** What a chunked state ends with, given what it has so far. *)
Definition chunked_result (d : ReadContentData) (out : list delivery) (consumed : Z)
    (pieces : list str) : content_result :=
  if using_gzip d then
    match gunzip (gzipped_buffer d ++ concat pieces) with
    | Some plain => Finished (out ++ [(filter_buf_consumed d, plain)])
    | None => Failed CompressionFailure_ out
    end
  else Finished (out ++ placed consumed pieces).

Lemma chunks_loop chunks last_line trailer d out consumed s :
  cancelled d = false -> Forall chunk_ok chunks -> "010"%char ∉ last_line ->
  str_to_uint64_16 (last_line ++ ["013"%char]) = Some 0 -> 0 <= consumed ->
  consumed + Z.of_nat (length (concat chunks.*2)) + 2 < 2 ^ 64 ->
  read_buffer d ++ unread s = encode_chunks chunks last_line trailer ->
  read_content (2 * length chunks + 1) (ReadSizeLine d out consumed) s
  = Some (chunked_result d out consumed chunks.*2).
Proof.
  intros Hc Hok Hn Hlast. revert d out consumed s Hc.
  induction Hok as [|[line data] chunks Hchunk Hok IH]; intros d out consumed s Hc Hpos Hov Heq.
  - destruct (size_line_step 0 d out consumed s _ _ Hc Hn Heq)
      as (d1 & s1 & HR & (Hc1 & Hz1 & Hf1) & Hg & _).
    cbn [length Nat.mul Nat.add]. rewrite HR, Hlast. cbn [Z.eqb].
    unfold HandleCompleteAllChunks, chunked_result. rewrite Hc1, Hc, Hz1. simpl.
    rewrite ?app_nil_r. destruct (using_gzip d); simpl; [|by rewrite ?app_nil_r].
    rewrite Hg, Hf1. by destruct (gunzip (gzipped_buffer d)).
  - unfold encode_chunks in Heq. cbn [fmap list_fmap concat] in Heq. rewrite <-app_assoc in Heq.
    cbn [fmap list_fmap concat snd] in Hov. rewrite length_app in Hov.
    destruct (chunk_step (2 * length chunks + 1) d out consumed s line data _ Hc Hchunk Hpos
      ltac:(lia) Heq) as (d1 & out1 & s1 & HR & (Hc1 & Hz1 & Hf1) & Hrest & Hacc).
    cbn [length]. replace (2 * S (length chunks) + 1)%nat with (S (S (2 * length chunks + 1))) by lia.
    rewrite HR, (IH d1 out1); [|congruence|lia|lia|done].
    unfold chunked_result. cbn [fmap list_fmap concat snd placed]. rewrite Hz1, Hf1.
    destruct (using_gzip d); destruct Hacc as [-> Hg]; rewrite ?Hg; by rewrite <-app_assoc.
Qed.

(** C34 A chunked body is delivered chunk by chunk, however the stream is cut into
    packets: each chunk once, in order, at its position, or when the body is compressed
    the decompressed whole at the end; the size lines may use any form that
    [std::stoul] reads as the chunk's length, with extensions.  Two reads per chunk and
    one for the last are enough fuel. *)
Theorem chunked_body d chunks last_line trailer s :
  cancelled d = false -> gzipped_buffer d = [] ->
  Forall chunk_ok chunks -> ("010"%char ∉ last_line) ->
  str_to_uint64_16 (last_line ++ ["013"%char]) = Some 0 ->
  Z.of_nat (length (concat chunks.*2)) + 2 < 2 ^ 64 ->
  read_buffer d ++ unread s = encode_chunks chunks last_line trailer ->
  read_content (2 * length chunks + 1) (ReadSizeLine d [] 0) s = Some
    (if using_gzip d then
       match gunzip (concat chunks.*2) with
       | Some plain => Finished [(filter_buf_consumed d, plain)]
       | None => Failed CompressionFailure_ []
       end
     else Finished (placed 0 chunks.*2)).
Proof.
  intros Hc Hg Hok Hn Hlast Hov Heq. rewrite (chunks_loop chunks last_line trailer); [|done|done|done|done|lia|lia|done].
  unfold chunked_result. by rewrite Hg.
Qed.

(** A peer that closes in the middle of a chunk makes the state deliver the chunk at
    its full announced size, the missing part being whatever was in memory, before the
    failure to read the next size line is reported. *)
Theorem truncated_chunk_delivers_garbage d out consumed chunk_size s fuel :
  cancelled d = false -> using_gzip d = false -> at_end s = read_eof ->
  Z.of_nat (length (read_buffer d) + length (unread s)) < chunk_size -> chunk_size + 2 < 2 ^ 64 ->
  read_content (S (S fuel)) (HandleNextChunk d out consumed chunk_size) s
  = Some (Failed ReadFailure_
      (out ++ [(consumed, read_buffer d ++ unread s ++
                uninitialised (Z.to_nat chunk_size - length (read_buffer d ++ unread s)))])).
Proof.
  intros Hc Hg Hend Hlen Hov. unfold HandleNextChunk. rewrite Hc, u64_small by lia.
  rewrite (proj2 (Z.ltb_ge _ _)) by lia. cbn [read_content].
  set (k := chunk_size + 2 - _).
  pose proof (async_read_ok k s) as Hr. destruct (async_read k s) as [[bytes err] s1].
  destruct Hr as (Hb & Hs1 & He1 & Herr).
  destruct (Nat.leb_spec (Z.to_nat k) (length (unread s))) as [?|_]; [lia|].
  rewrite take_ge in Hb by lia. rewrite drop_ge in Hs1 by lia. rewrite Hend in Herr. subst bytes err.
  unfold HandleContentChunkRead. cbn [received cancelled read_buffer set_buffers gzipped_buffer using_gzip].
  rewrite Hc, Hg. cbn [is_ok is_eof orb]. unfold istream_read.
  rewrite (take_ge (read_buffer d ++ unread s)), (drop_ge (read_buffer d ++ unread s))
    by (rewrite length_app; lia).
  cbn [read_content]. cbn [received cancelled read_buffer set_buffers gzipped_buffer using_gzip drop].
  pose proof (async_read_until_ok [] s1) as Hr. destruct (async_read_until crlf [] s1) as [[bytes err] s2].
  destruct Hr as (Hu & _ & Hr). rewrite Hs1 in Hu, Hr. simpl in Hr. destruct Hr as [-> _].
  symmetry in Hu. apply app_eq_nil in Hu as [-> _]. rewrite He1, Hend.
  unfold HandleContentChunkSizeRead. cbn. rewrite Hc. cbn. rewrite <-app_assoc. by destruct fuel.
Qed.

End Socket.
End ReadContent.

(** ** A concrete connection *)

(** Memory that reads as zeros, a peer whose bytes all arrive at once. *)
Definition zeros (n : nat) : str := repeat "000"%char n.

Definition pipe : Type := str * read_error.

Definition pipe_read (n : Z) (p : pipe) : str * read_error * pipe :=
  (take (Z.to_nat n) p.1,
   if (Z.to_nat n <=? length p.1)%nat then read_ok else p.2,
   (drop (Z.to_nat n) p.1, p.2)).

Definition pipe_read_until (delim buffer : str) (p : pipe) : str * read_error * pipe :=
  (p.1, if contains_crlf (buffer ++ p.1) then read_ok else p.2, ([], p.2)).

Lemma zeros_length n : length (zeros n) = n.
Proof. apply repeat_length. Qed.

Lemma pipe_read_ok : async_read_spec fst snd pipe_read.
Proof. by intros n [s e]. Qed.

Lemma pipe_read_until_ok : async_read_until_spec fst snd pipe_read_until.
Proof.
  intros buffer [s e]. simpl. rewrite app_nil_r. split_and!; [done|done|].
  by destruct (contains_crlf (buffer ++ s)) eqn:E.
Qed.

Lemma content_length_body_witness :
  exists out, read_content (fun _ => None) zeros false pipe_read pipe_read_until 4
      (length_entry 5 (B "he")) (B "llo", read_eof) = Some (Finished out)
    /\ delivered_bytes out = B "he" ++ B "llo" /\ contiguous 0 out.
Proof.
  apply (content_length_body (fun _ => None) zeros false fst snd pipe_read pipe_read_until
           zeros_length pipe_read_ok 5 (B "he") (B "llo", read_eof)); [done|done|by right].
Defined.

Lemma content_length_keep_alive_stalls_witness :
  read_content (fun _ => None) zeros false pipe_read pipe_read_until 1
    (length_entry 5 (B "hello")) ([], read_timeout) = Some (TimedOut []).
Proof.
  apply (content_length_keep_alive_stalls (fun _ => None) zeros false fst snd pipe_read pipe_read_until
           pipe_read_ok 5 (B "hello") ([], read_timeout)); done.
Defined.

Lemma premature_close_never_ends_witness :
  read_content (fun _ => None) zeros false pipe_read pipe_read_until 50
    (length_entry 5 (B "he")) (B "ll", read_eof) = None.
Proof.
  apply (premature_close_never_ends (fun _ => None) zeros false fst snd pipe_read pipe_read_until
           zeros_length pipe_read_ok 50 5 (B "he") (B "ll", read_eof)); done.
Defined.

Lemma unknown_length_body_witness :
  exists out, read_content (fun _ => None) zeros false pipe_read pipe_read_until 4
      (plain_entry (B "he")) (B "llo", read_eof) = Some (Finished out)
    /\ delivered_bytes out = B "he" ++ B "llo" /\ contiguous 0 out.
Proof.
  apply (unknown_length_body (fun _ => None) zeros false fst snd pipe_read pipe_read_until
           zeros_length pipe_read_ok (B "he") (B "llo", read_eof)); done.
Defined.

(** Two chunks, the second with an extension, the stream cut inside the first. *)
Definition example_chunks : list (str * str) :=
  [(B "4", B "Wiki"); (B "a;x=y", B "pedia in 9")].
Definition chunk_state (gzip : bool) (pre : str) : ReadContentData :=
  {| cancelled := false; content_length := 0; read_buffer := pre; gzipped_buffer := [];
     filter_buf_consumed := 0; using_gzip := gzip; using_content_length := false |}.

Lemma chunked_body_witness :
  let wire := encode_chunks example_chunks (B "0") crlf in
  read_content (fun _ => None) zeros false pipe_read pipe_read_until 5
    (ReadSizeLine (chunk_state false (take 3 wire)) [] 0) (drop 3 wire, read_eof)
  = Some (Finished [(0, B "Wiki"); (4, B "pedia in 9")]).
Proof.
  apply (chunked_body (fun _ => None) zeros false fst snd pipe_read pipe_read_until
           zeros_length pipe_read_ok pipe_read_until_ok
           (chunk_state false (take 3 (encode_chunks example_chunks (B "0") crlf)))
           example_chunks (B "0") crlf); try done.
  - repeat constructor; try done; by apply (bool_decide_unpack _); vm_compute.
  - by apply (bool_decide_unpack _); vm_compute.
Defined.

Lemma truncated_chunk_delivers_garbage_witness :
  read_content (fun _ => None) zeros false pipe_read pipe_read_until 2
    (HandleNextChunk (chunk_state false (B "Wi")) [] 0 4) (B "k", read_eof)
  = Some (Failed ReadFailure_ ([] ++ [(0, B "Wi" ++ B "k" ++ zeros 1)])).
Proof.
  apply (truncated_chunk_delivers_garbage (fun _ => None) zeros false fst snd pipe_read pipe_read_until
           pipe_read_ok pipe_read_until_ok (chunk_state false (B "Wi")) [] 0 4 (B "k", read_eof) 0); done.
Defined.
