(* ===== verification/HttpMachine.v ===== *)
(** * The HTTP request state machine ([http/detail/http_request_state_machine.hpp], [http/detail/state_*.hpp])

    A [boost::msm] machine: an event selects a row of the transition table, the state's
    exit and entry actions run, and the events that an entry action sends wait in a
    queue until the transition is over.  An asynchronous operation is a record of the
    state data and of the race preventer it was started with; its completion is an
    event from outside.  The network, the user's POST interface and Boost's string
    functions are parameters or inputs. *)
From S2P Require Import Prelude Errors Boost Base64 Url HttpHeaders HttpContent.

Open Scope Z_scope.

(** [http/http_config.hpp:22-27 RedirectPolicy] *)
Inductive RedirectPolicy := Deny | DenyDowngrade | Allow.

#[export] Instance RedirectPolicy_eq_dec : EqDecision RedirectPolicy.
Proof. solve_decision. Defined.

(** [http/http_config.hpp:38-44 Proxy] *)
Record Proxy := { proxy_host : str; proxy_port : Z; username : str; password : str }.

(** [http/detail/http_request_state_machine.hpp:273-342 states] *)
Inductive state :=
  | Unstarted | Initializing | Resolve | Connect | ProxyConnect | SSLHandshake | SendHeader
  | SendPost | ReadHeaders | ParseHeaders | Redirect | ReadContent | Error_ | FinalError
  | Complete.

#[export] Instance state_eq_dec : EqDecision state.
Proof. solve_decision. Defined.

(** [http/detail/http_request_events.hpp:24-62 ConfigEvent] *)
Inductive config :=
  | ConfigRedirectPolicy (p : RedirectPolicy)
  | ConfigRequestMethod (method : str)
  | ConfigHeader (name value : str)
  | ConfigPostDataPipe (size : Z) (chunks : list (option str))
  | ConfigPostData (raw_data : str)
  | ConfigTimeout (timeout_seconds : Z).

(** [http/detail/http_request_events.hpp:64-124 events] *)
Inductive event :=
  | ConfigEvent (c : config)
  | StartEvent
  | ErrorEvent (code : error_code)
  | RestartEvent
  | InitializedEvent
  | ResolvedEvent
  | ConnectedEvent
  | HandshakeEvent
  | HeadersWrittenEvent
  | PostSent
  | HeadersReadEvent (h : HeadersRead)
  | RedirectEvent (redirect_url : str)
  | RedirectedEvent
  | HeadersParsedEvent (h : HeadersRead)
  | ContentReadEvent.

(** The calls of the user's [RequestResponseInterface]. *)
Inductive callback :=
  | RedirectHeaderReceived (url : str)
  | ResponseHeaderReceived (status : Z)
  | RequestResponseErrorEvent (ec : error_code)
  | RequestResponseCompleteEvent.

(** An operation under way: the state data and the race preventer it holds. *)
Record async_op := { op_state_data : nat; op_race_preventer : nat; op_state : state }.

(** What waits for the transmission delay: a chunk to be written, the next read of a body, or
    that of a chunk of it. *)
Inductive delayed_action :=
  | DelayedWrite (post_data : str)
  | DelayedBodyRead
  | DelayedChunkRead.

(** The machine.  [sent] is what was written to the socket, [contacted] the URLs a
    socket was made for and [improper] the events no row was found for (the machine
    asserts there): three logs the code does not keep.
    [http/detail/http_request_state_machine.hpp:640-702 HttpRequestMachine_] *)
Record Machine := {
  current : state;
  live_state_data : option nat;       (** [state_data_] of the current state *)
  next_id : nat;                      (** the next fresh object *)
  first_taken : gset nat;             (** race preventers whose [IsFirst] was called *)
  ops : list async_op;                (** operations started and not yet completed *)
  timer_ : option (nat * Z);          (** the timer's wait: race preventer, [timeout_id] *)
  transmission_delay_timer_enabled_ : bool;
  delay_wait : option (nat * delayed_action);  (** what waits for that timer, of which state data *)
  timeout_seconds_ : Z;
  timeout_id_ : Z;
  request_creation_time_ : Z;
  redirect_policy_ : RedirectPolicy;
  is_ssl_ : bool;
  socket_wrapper_ : option bool;      (** connected or connecting; is it an SSL stream? *)
  request_method_ : str;
  url_ : str;
  parsed_url_ : option Url;
  post_data_ : option str;
  post_interface_ : option (Z * list (option str));  (** size, what each call will return *)
  bytes_read_from_interface : Z;
  send_headers_ : list (str * str);
  http_proxy_ : option Proxy;
  https_proxy_ : option Proxy;
  callbacks : list callback;
  sent : list str;
  contacted : list Url;
  improper : list (state * event) }.

#[local] Instance Machine_members : Members Machine := fun m =>
  Build_Machine (current m) (live_state_data m) (next_id m) (first_taken m) (ops m) (timer_ m)
    (transmission_delay_timer_enabled_ m) (delay_wait m) (timeout_seconds_ m) (timeout_id_ m)
    (request_creation_time_ m) (redirect_policy_ m) (is_ssl_ m) (socket_wrapper_ m)
    (request_method_ m) (url_ m) (parsed_url_ m) (post_data_ m) (post_interface_ m)
    (bytes_read_from_interface m) (send_headers_ m) (http_proxy_ m) (https_proxy_ m)
    (callbacks m) (sent m) (contacted m) (improper m).

Definition set_current := ltac:(setter current).
Definition set_live_state_data := ltac:(setter live_state_data).
Definition set_next_id := ltac:(setter next_id).
Definition set_first_taken := ltac:(setter first_taken).
Definition set_ops := ltac:(setter ops).
Definition set_timer_ := ltac:(setter timer_).
Definition set_transmission_delay_timer_enabled_ := ltac:(setter transmission_delay_timer_enabled_).
Definition set_delay_wait := ltac:(setter delay_wait).
Definition set_timeout_seconds_ := ltac:(setter timeout_seconds_).
Definition set_timeout_id_ := ltac:(setter timeout_id_).
Definition set_request_creation_time_ := ltac:(setter request_creation_time_).
Definition set_redirect_policy_ := ltac:(setter redirect_policy_).
Definition set_is_ssl_ := ltac:(setter is_ssl_).
Definition set_socket_wrapper_ := ltac:(setter socket_wrapper_).
Definition set_request_method_ := ltac:(setter request_method_).
Definition set_url_ := ltac:(setter url_).
Definition set_parsed_url_ := ltac:(setter parsed_url_).
Definition set_post_data_ := ltac:(setter post_data_).
Definition set_post_interface_ := ltac:(setter post_interface_).
Definition set_bytes_read_from_interface := ltac:(setter bytes_read_from_interface).
Definition set_send_headers_ := ltac:(setter send_headers_).
Definition set_http_proxy_ := ltac:(setter http_proxy_).
Definition set_https_proxy_ := ltac:(setter https_proxy_).
Definition set_callbacks := ltac:(setter callbacks).
Definition set_sent := ltac:(setter sent).
Definition set_contacted := ltac:(setter contacted).
Definition set_improper := ltac:(setter improper).

Section Machine.
Context (boost : Boost).

(** ** Helpers *)

(** [http/detail/http_request_state_machine.hpp:591-595 UsingProxy] *)
Definition UsingProxy (m : Machine) : bool :=
  if is_ssl_ m then bool_decide (is_Some (https_proxy_ m)) else bool_decide (is_Some (http_proxy_ m)).

(** [http/detail/http_request_state_machine.hpp:598-606 CurrentProxy] *)
Definition CurrentProxy (m : Machine) : option Proxy :=
  if is_ssl_ m then https_proxy_ m else http_proxy_ m.

(** [http/detail/http_request_state_machine.hpp:448-456 Disconnect] *)
Definition Disconnect (m : Machine) : Machine := set_socket_wrapper_ None m.

(** [http/detail/http_request_state_machine.hpp:457-476 SetHeader] *)
Fixpoint SetHeader_in (name value : str) (headers : list (str * str)) : list (str * str) :=
  match headers with
  | [] => [(name, value)]
  | (n, v) :: headers =>
      if iequals boost n name then (n, value) :: headers else (n, v) :: SetHeader_in name value headers
  end.

(** [http/detail/http_request_state_machine.hpp:457-476 SetHeader] *)
Definition SetHeader (name value : str) (m : Machine) : Machine :=
  set_send_headers_ (SetHeader_in name value (send_headers_ m)) m.

(** [http/detail/http_request_state_machine.hpp:571-580 SetPostData] *)
Definition SetPostData (post_data : str) (m : Machine) : Machine :=
  set_request_method_ (B "POST")
    (SetHeader (B "Content-Length") (print_int (Z.of_nat (length post_data)))
       (set_post_interface_ None (set_post_data_ (Some post_data) m))).

(** [http/detail/http_request_state_machine.hpp:558-568 SetPostInterface] *)
Definition SetPostInterface (size : Z) (chunks : list (option str)) (m : Machine) : Machine :=
  set_request_method_ (B "POST")
    (SetHeader (B "Content-Length") (print_int size)
       (set_post_interface_ (Some (size, chunks)) (set_post_data_ None m))).

(** [http/detail/transition_config.hpp:18-74 ConfigEventHandler] *)
Definition ConfigEventAction (c : config) (m : Machine) : Machine :=
  match c with
  | ConfigRedirectPolicy p => set_redirect_policy_ p m
  | ConfigRequestMethod method => set_request_method_ method m
  | ConfigHeader name value => SetHeader name value m
  | ConfigPostDataPipe size chunks => SetPostInterface size chunks m
  | ConfigPostData raw_data => SetPostData raw_data m
  | ConfigTimeout t => set_timeout_seconds_ t m
  end.

(** ** Timeouts *)

(** [http/detail/http_request_state_machine.hpp:415-422 ClearAsyncTimeout] *)
Definition ClearAsyncTimeout (m : Machine) : Machine :=
  set_timer_ None (set_timeout_id_ (u32 (timeout_id_ m + 1)) m).

(** The operation of the current state data gets a new race preventer, and the timer
    waits with it.
    [http/detail/http_request_state_machine.hpp:423-447 SetAsyncTimeout] *)
Definition StartOperation (m : Machine) : Machine :=
  match live_state_data m with
  | None => m
  | Some sd =>
      let rp := next_id m in
      let m := set_next_id (S rp) m in
      let m := set_timeout_id_ (u32 (timeout_id_ m + 1)) m in
      let m := set_timer_ (Some (rp, timeout_id_ m)) m in
      set_ops (ops m ++ [{| op_state_data := sd; op_race_preventer := rp;
                            op_state := current m |}]) m
  end.

(** [make_shared] of the state's data. *)
Definition NewStateData (m : Machine) : Machine :=
  set_next_id (S (next_id m)) (set_live_state_data (Some (next_id m)) m).

(** ** Guards and the transition table *)

(** [http/detail/http_request_state_machine.hpp:142-149 IsSsl] *)
Definition IsSsl (m : Machine) : bool := is_ssl_ m.

(** [http/detail/http_request_state_machine.hpp:150-167 ProxyConnectRequired] *)
Definition ProxyConnectRequired (m : Machine) : bool :=
  match CurrentProxy m with
  | Some proxy => negb (bool_decide (username proxy = [])) || is_ssl_ m
  | None => false
  end.

(** [http/detail/http_request_state_machine.hpp:168-176 HasPost] *)
Definition HasPost (m : Machine) : bool :=
  bool_decide (is_Some (post_data_ m)) || bool_decide (is_Some (post_interface_ m)).

(** The row's target, with its guard.
    [http/detail/http_request_state_machine.hpp:481-530 transition_table] *)
Definition transition_table (s : state) (e : event) (m : Machine) : option state :=
  match s, e with
  | Unstarted, ConfigEvent _ => Some Unstarted
  | Unstarted, StartEvent => Some Initializing
  | Initializing, InitializedEvent => Some Resolve
  | Initializing, ErrorEvent _ => Some Error_
  | Resolve, ResolvedEvent => Some Connect
  | Resolve, ErrorEvent _ => Some Error_
  | Connect, ConnectedEvent =>
      if ProxyConnectRequired m then Some ProxyConnect
      else if IsSsl m then Some SSLHandshake else Some SendHeader
  | Connect, ErrorEvent _ => Some Error_
  | ProxyConnect, ConnectedEvent => if IsSsl m then Some SSLHandshake else Some SendHeader
  | ProxyConnect, ErrorEvent _ => Some Error_
  | SSLHandshake, HandshakeEvent => Some SendHeader
  | SSLHandshake, ErrorEvent _ => Some Error_
  | SendHeader, HeadersWrittenEvent => if HasPost m then Some SendPost else Some ReadHeaders
  | SendHeader, ErrorEvent _ => Some Error_
  | SendPost, PostSent => Some ReadHeaders
  | SendPost, ErrorEvent _ => Some Error_
  | ReadHeaders, HeadersReadEvent _ => Some ParseHeaders
  | ReadHeaders, ErrorEvent _ => Some Error_
  | ParseHeaders, HeadersParsedEvent _ => Some ReadContent
  | ParseHeaders, RedirectEvent _ => Some Redirect
  | ParseHeaders, ErrorEvent _ => Some Error_
  | Redirect, RedirectedEvent => Some Initializing
  | Redirect, ErrorEvent _ => Some Error_
  | ReadContent, ContentReadEvent => Some Complete
  | ReadContent, ErrorEvent _ => Some Error_
  | Error_, RestartEvent => Some Initializing
  | Error_, ErrorEvent _ => Some FinalError
  | _, _ => None
  end.

Definition is_terminal (s : state) : bool :=
  match s with FinalError | Complete => true | _ => false end.

(** ** Entry actions *)

(** The machine and the events sent, in order. *)
Definition entry_result : Type := Machine * list event.

(** [http/detail/state_initialize.hpp:25-92 DoInit] *)
Definition DoInit (m : Machine) : entry_result :=
  let m := Disconnect m in
  let parsed := match parsed_url_ m with Some u => Some u | None => ParseUrl (url_ m) end in
  match parsed with
  | None => (m, [ErrorEvent (http_code InvalidUrl)])
  | Some u =>
      let m := set_parsed_url_ (Some u) m in
      if bool_decide (scheme_ u = B "http") then
        (set_contacted (contacted m ++ [u]) (set_socket_wrapper_ (Some false) (set_is_ssl_ false m)),
         [InitializedEvent])
      else if bool_decide (scheme_ u = B "https") then
        (set_contacted (contacted m ++ [u]) (set_socket_wrapper_ (Some true) (set_is_ssl_ true m)),
         [InitializedEvent])
      else (m, [ErrorEvent (http_code InvalidUrl)])
  end.

Definition newline : str := ["013"; "010"]%char.

(** [user:password] of the proxy, encoded. *)
Definition basic_credentials (p : Proxy) : str :=
  Base64Encode (username p ++ B ":" ++ password p).

(** [http/detail/state_proxy_connect.hpp:227-287 on_entry] *)
Definition ProxyConnectText (m : Machine) (u : Url) : str :=
  let port := match port_ u with
              | [] => if bool_decide (scheme_ u = B "https") then B "443" else B "80"
              | port => port
              end in
  B "CONNECT " ++ host_ u ++ B ":" ++ port ++ B " HTTP/1.1" ++ newline
  ++ B "User-Agent: HttpRequester" ++ newline
  ++ match CurrentProxy m with
     | Some p => if bool_decide (username p = []) then []
                 else B "Proxy-Authorization: Basic " ++ basic_credentials p ++ newline
     | None => []
     end
  ++ newline.

(** One header line; over SSL the compression header is left out.
    [http/detail/state_send_header.hpp:125-138 on_entry] *)
Definition request_header_line (is_ssl : bool) (header : str * str) : str :=
  if is_ssl && iequals boost header.1 (B "accept-encoding") then []
  else header.1 ++ B ": " ++ header.2 ++ newline.

(** [http/detail/state_send_header.hpp:88-146 on_entry] *)
Definition RequestText (m : Machine) (u : Url) : str :=
  request_method_ m ++ B " " ++ (if UsingProxy m then full_url_ u else full_path_ u)
  ++ B " HTTP/1.1" ++ newline
  ++ B "Host: " ++ host_ u ++ newline
  ++ (if negb (is_ssl_ m) then
        match CurrentProxy m with
        | Some p => if bool_decide (username p = []) then []
                    else B "Proxy-Authorization: Basic " ++ basic_credentials p ++ newline
        | None => []
        end
      else [])
  ++ concat (request_header_line (is_ssl_ m) <$> send_headers_ m)
  ++ newline.

(** Reading of one chunk from the user's interface; it is written once the transmission
    delay is over.  After an exception the code goes
    on with a null chunk: two events are sent.
    [http/detail/state_send_post.hpp:81-161 PostViaInterface] *)
Definition PostViaInterface (m : Machine) : entry_result :=
  match post_interface_ m with
  | None => (m, [])
  | Some (size, chunks) =>
      let chunk := match chunks with c :: _ => c | [] => Some [] end in
      let m := set_post_interface_ (Some (size, tail chunks)) m in
      let thrown := match chunk with
                    | None => [ErrorEvent (http_code PostInterfaceReadFailure)]
                    | Some _ => []
                    end in
      match chunk with
      | Some ((_ :: _) as data) =>
          (set_delay_wait ((fun sd => (sd, DelayedWrite data)) <$> live_state_data m)
             (set_transmission_delay_timer_enabled_ true
                (set_bytes_read_from_interface
                   (u64 (bytes_read_from_interface m + Z.of_nat (length data))) m)), thrown)
      | _ =>
          if negb (bytes_read_from_interface m =? size)
          then (m, thrown ++ [ErrorEvent (http_code PostInterfaceReadFailure)])
          else (m, thrown ++ [PostSent])
      end
  end.

(** [http/detail/state_send_post.hpp:42-79 PostViaInterfaceDelayCallback] *)
Definition PostViaInterfaceDelayCallback (state_data : nat) (post_data : str) (m : Machine) : Machine :=
  if negb (bool_decide (live_state_data m = Some state_data)) then m
  else if transmission_delay_timer_enabled_ m
  then set_sent (sent m ++ [post_data])
         (StartOperation (set_transmission_delay_timer_enabled_ false m))
  else m.

(** [http/detail/state_send_post.hpp:230-266 on_entry] *)
Definition SendPost_on_entry (m : Machine) : entry_result :=
  let m := NewStateData m in
  match post_data_ m with
  | Some data => (set_sent (sent m ++ [data]) (StartOperation m), [])
  | None => PostViaInterface (set_bytes_read_from_interface 0 m)
  end.

(** [http/detail/state_parse_headers.hpp:25-113 on_entry] *)
Definition ParseHeaders_on_entry (h : HeadersRead) (m : Machine) : entry_result :=
  if (status_code h =? 301) || (status_code h =? 302) then
    match hr_headers h !! "location"%string with
    | None => (m, [ErrorEvent (http_code InvalidRedirectUrl)])
    | Some location =>
        match ParseUrl location with
        | None => (m, [ErrorEvent (http_code InvalidRedirectUrl)])
        | Some _ => (set_callbacks (callbacks m ++ [RedirectHeaderReceived location]) m,
                     [RedirectEvent location])
        end
    end
  else (set_callbacks (callbacks m ++ [ResponseHeaderReceived (status_code h)]) m,
        [HeadersParsedEvent h]).

(** [http/detail/state_redirect.hpp:25-90 on_entry] *)
Definition Redirect_on_entry (redirect_url : str) (m : Machine) : entry_result :=
  match ParseUrl redirect_url with
  | None => (m, [ErrorEvent (http_code InvalidRedirectUrl)])
  | Some u =>
      if bool_decide (redirect_policy_ m = Deny)
      then (m, [ErrorEvent (http_code RedirectPermissionDenied)])
      else if bool_decide (redirect_policy_ m = DenyDowngrade) && is_ssl_ m
              && bool_decide (scheme_ u = B "http")
      then (m, [ErrorEvent (http_code RedirectPermissionDenied)])
      else (Disconnect (set_url_ redirect_url (set_parsed_url_ (Some u) m)), [RedirectedEvent])
  end.

(** [http/detail/state_error.hpp:21-47 Error] *)
Definition Error_on_entry (now : Z) (code : error_code) (m : Machine) : entry_result :=
  let m := Disconnect m in
  let timeout := request_creation_time_ m + timeout_seconds_ m in
  if bool_decide (code = http_code IoTimeout) && (now <? timeout)
  then (m, [RestartEvent])
  else (m, [ErrorEvent code]).

(** The entry of [ReadContent]: an unsupported encoding is an error at once.
    [http/detail/state_read_content.hpp:900-969 on_entry] *)
Definition ReadContent_entry (h : HeadersRead) (m : Machine) : entry_result :=
  let m := NewStateData m in
  match ReadContent_on_entry (ParseTransferEncoding (split_commas boost) (trim boost) (hr_headers h))
          (ParseContentEncoding (split_commas boost) (trim boost) (hr_headers h))
          (hr_content_length h) (hr_read_buffer h) with
  | SendError _ _ => (m, [ErrorEvent (http_code UnsupportedEncoding)])
  | _ => (StartOperation m, [])
  end.

Definition write (text : str) (m : Machine) : Machine := set_sent (sent m ++ [text]) m.

(** [http/detail/http_request_state_machine.hpp:304-308 on_entry] *)
Definition CancelDelay (m : Machine) : Machine :=
  if transmission_delay_timer_enabled_ m
  then set_delay_wait None (set_transmission_delay_timer_enabled_ false m) else m.

(** The entry action of each state, for the event that led to it.
    [http/detail/http_request_state_machine.hpp:273-342 on_entry] *)
Definition on_entry (now : Z) (s : state) (e : event) (m : Machine) : entry_result :=
  match s, e with
  | Unstarted, _ => (m, [])
  | Initializing, _ => DoInit m
  | (Resolve | Connect | SSLHandshake | ReadHeaders), _ => (StartOperation (NewStateData m), [])
  | ProxyConnect, _ =>
      let m := NewStateData m in
      (StartOperation (match parsed_url_ m with Some u => write (ProxyConnectText m u) m | None => m end), [])
  | SendHeader, _ =>
      let m := NewStateData m in
      (StartOperation (match parsed_url_ m with Some u => write (RequestText m u) m | None => m end), [])
  | SendPost, _ => SendPost_on_entry m
  | ParseHeaders, HeadersReadEvent h => ParseHeaders_on_entry h m
  | Redirect, RedirectEvent url => Redirect_on_entry url m
  | ReadContent, HeadersParsedEvent h => ReadContent_entry h m
  | Error_, ErrorEvent code => Error_on_entry now code m
  | FinalError, ErrorEvent code =>
      (set_callbacks (callbacks m ++ [RequestResponseErrorEvent code])
         (CancelDelay (Disconnect m)), [])
  | Complete, _ =>
      (set_callbacks (callbacks m ++ [RequestResponseCompleteEvent]) (Disconnect m), [])
  | _, _ => (m, [])
  end.

(** The exit action: the state's data is marked cancelled and released. *)
Definition on_exit (m : Machine) : Machine := set_live_state_data None m.

(** ** Processing events *)

(** One event: a terminate state swallows it; without a row, [no_transition].
    [http/detail/http_request_state_machine.hpp:532-547 no_transition] *)
Definition process_one (now : Z) (e : event) (m : Machine) : entry_result :=
  if is_terminal (current m) then (m, [])
  else match transition_table (current m) e m with
  | None => (set_improper (improper m ++ [(current m, e)]) m, [])
  | Some target =>
      let m := on_exit m in
      let m := match current m, e with Unstarted, ConfigEvent c => ConfigEventAction c m | _, _ => m end in
      on_entry now target e (set_current target m)
  end.

(** Run to completion: the events an entry action sends are processed after it, in
    order.  Ten are more than any event leads to.
    [http/detail/http_request_state_machine.hpp:256-269 ProcessEvent] *)
Fixpoint process (fuel : nat) (now : Z) (queue : list event) (m : Machine) : option Machine :=
  match queue with
  | [] => Some m
  | e :: queue =>
      match fuel with
      | O => None
      | S fuel => let '(m, sent_events) := process_one now e m in
                  process fuel now (queue ++ sent_events) m
      end
  end.

Definition event_fuel : nat := 10.

(** [http/detail/http_request_state_machine.hpp:256-269 ProcessEvent] *)
Definition ProcessEvent (now : Z) (e : event) (m : Machine) : option Machine :=
  process event_fuel now [e] m.

(** ** Completions *)

(** [http/detail/http_request_state_machine.hpp:345-365 HandleAsyncTimeout] *)
Definition HandleAsyncTimeout (now : Z) (race_preventer : nat) (timeout_id : Z) (err : bool)
    (m : Machine) : option Machine :=
  if decide (race_preventer ∈ first_taken m) then Some m
  else
    let m := set_first_taken ({[race_preventer]} ∪ first_taken m) m in
    if negb err && (timeout_id_ m =? timeout_id)
    then ProcessEvent now (ErrorEvent (http_code IoTimeout)) m
    else Some m.

(** What the operation of a state reports, and the event its handler sends.
    [http/detail/state_resolve.hpp:40-83 HandleResolve] *)
Definition HandleResolve (err : bool) : event :=
  if err then ErrorEvent (http_code UnableToResolve) else ResolvedEvent.
(** [http/detail/state_connect.hpp:34-69 HandleConnect] *)
Definition HandleConnect (err : bool) : event :=
  if err then ErrorEvent (http_code UnableToConnect) else ConnectedEvent.
(** [http/detail/state_ssl_handshake.hpp:184-222 HandleHandshake] *)
Definition HandleHandshake (err : bool) : event :=
  if err then ErrorEvent (http_code SslHandshakeFailure) else HandshakeEvent.
(** [http/detail/state_send_header.hpp:40-83 HandleHeaderWrite] *)
Definition HandleHeaderWrite (err : bool) : event :=
  if err then ErrorEvent (http_code WriteFailure) else HeadersWrittenEvent.

(** What an operation reports. *)
Inductive report :=
  | Reported (err : bool)
  | ProxyAnswered (well_formed : bool) (status : Z)   (** the proxy's status line *)
  | HeadersArrived (read_buffer : str) (bytes_transferred : nat)
  | ContentEnded (r : option content_error)           (** how [HttpContent] ended *)
  | MoreContent                                       (** [HttpContent] reads on to the end of a line *)
  | MoreAfterDelay (chunk : bool).                    (** [HttpContent] reads more bytes *)

(** The last thing the handler of a completed operation does: send events, or start the
    state's next operation.
    [http/detail/state_proxy_connect.hpp:129-222 HandleProxyConnectWrite] *)
Definition HandleProxyConnectWrite (err : bool) (m : Machine) : entry_result :=
  if err then (m, [ErrorEvent (http_code UnableToConnectToProxy)]) else (StartOperation m, []).

(** [http/detail/state_proxy_connect.hpp:40-127 HandleProxyHeaderRead] *)
Definition HandleProxyHeaderRead (well_formed : bool) (status : Z) : event :=
  if well_formed && (status =? 200) then ConnectedEvent
  else ErrorEvent (http_code ProxyProtocolFailure).

(** [http/detail/state_read_headers.hpp:34-198 HandleHeaderRead] *)
Definition HandleHeaderRead (read_buffer : str) (bytes_transferred : nat) : event :=
  match ReadHeaderBuffer boost read_buffer bytes_transferred with
  | Some h => HeadersReadEvent h
  | None => ErrorEvent (http_code UnparsableHeaders)
  end.

(** [http/detail/state_send_post.hpp:163-212 HandlePostWrite] *)
Definition HandlePostWrite (err : bool) (m : Machine) : entry_result :=
  if err then (m, [ErrorEvent (http_code WriteFailure)])
  else match post_interface_ m with
       | Some _ => PostViaInterface m
       | None => (m, [PostSent])
       end.

(** [http/detail/state_read_content.hpp:421-450 HandleContentRead] *)
Definition DelayRead (chunk : bool) (m : Machine) : Machine :=
  set_delay_wait ((fun sd => (sd, if chunk then DelayedChunkRead else DelayedBodyRead))
                    <$> live_state_data m)
    (set_transmission_delay_timer_enabled_ true m).

(** [http/detail/state_read_content.hpp:468-503 HandleContentReadDelayCallback] *)
Definition HandleContentReadDelayCallback (state_data : nat) (m : Machine) : Machine :=
  if negb (bool_decide (live_state_data m = Some state_data)) then m
  else if transmission_delay_timer_enabled_ m
  then StartOperation (set_transmission_delay_timer_enabled_ false m)
  else m.

(** The flag stays set.
    [http/detail/state_read_content.hpp:624-661 HandleContentChunkSizeReadDelay] *)
Definition HandleContentChunkSizeReadDelay (state_data : nat) (m : Machine) : Machine :=
  if negb (bool_decide (live_state_data m = Some state_data)) then m
  else if transmission_delay_timer_enabled_ m then StartOperation m
  else m.

(** The delay is over.
    [http/detail/http_request_state_machine.hpp:401-414 SetTransactionDelayTimerWrapper] *)
Definition DelayCallback (state_data : nat) (d : delayed_action) (m : Machine) : Machine :=
  match d with
  | DelayedWrite post_data => PostViaInterfaceDelayCallback state_data post_data m
  | DelayedBodyRead => HandleContentReadDelayCallback state_data m
  | DelayedChunkRead => HandleContentChunkSizeReadDelay state_data m
  end.

(** The outcome of a completion in the state that started the operation; [None]: that
    state starts no operation with such a report. *)
Definition HandleReport (s : state) (r : report) (m : Machine) : option entry_result :=
  match s, r with
  | Resolve, Reported err => Some (m, [HandleResolve err])
  | Connect, Reported err => Some (m, [HandleConnect err])
  | ProxyConnect, Reported err => Some (HandleProxyConnectWrite err m)
  | ProxyConnect, ProxyAnswered ok status => Some (m, [HandleProxyHeaderRead ok status])
  | SSLHandshake, Reported err => Some (m, [HandleHandshake err])
  | SendHeader, Reported err => Some (m, [HandleHeaderWrite err])
  | SendPost, Reported err => Some (HandlePostWrite err m)
  | ReadHeaders, Reported true => Some (m, [ErrorEvent (http_code ReadFailure)])
  | ReadHeaders, HeadersArrived buffer n => Some (m, [HandleHeaderRead buffer n])
  | ReadContent, ContentEnded None => Some (m, [ContentReadEvent])
  | ReadContent, ContentEnded (Some CompressionFailure_) =>
      Some (m, [ErrorEvent (http_code CompressionFailure)])
  | ReadContent, ContentEnded (Some _) => Some (m, [ErrorEvent (http_code ReadFailure)])
  | ReadContent, MoreContent => Some (StartOperation m, [])
  | ReadContent, MoreAfterDelay chunk => Some (DelayRead chunk m, [])
  | _, _ => None
  end.

(** The events of a handler are sent one by one: each is processed to its end before
    the next is sent, since no transition is under way. *)
Fixpoint send_all (now : Z) (events : list event) (m : Machine) : option Machine :=
  match events with
  | [] => Some m
  | e :: events =>
      match ProcessEvent now e m with Some m => send_all now events m | None => None end
  end.

(** The head of every completion handler: skip when cancelled or when the timeout was
    first, stop the timer.
    [http/detail/state_connect.hpp:42-51 HandleConnect] *)
Definition HandleOperation (now : Z) (op : async_op) (r : report) (m : Machine) : option Machine :=
  if negb (bool_decide (live_state_data m = Some (op_state_data op))) then Some m
  else if decide (op_race_preventer op ∈ first_taken m) then Some m
  else
    let m := set_first_taken ({[op_race_preventer op]} ∪ first_taken m) m in
    let m := ClearAsyncTimeout m in
    match HandleReport (current m) r m with
    | None => Some m
    | Some (m, events) => send_all now events m
    end.

(** ** Runs *)

(** A machine as [HttpRequest::Create] makes it.
    [http/detail/http_request_state_machine.hpp:187-213 HttpRequestMachine_] *)
Definition NewMachine (now : Z) (url : str) (policy : RedirectPolicy)
    (headers : list (str * str)) (http_proxy https_proxy : option Proxy) : Machine :=
  {| current := Unstarted; live_state_data := None; next_id := 0; first_taken := ∅; ops := [];
     timer_ := None; transmission_delay_timer_enabled_ := false; delay_wait := None;
     timeout_seconds_ := 60; timeout_id_ := 0; request_creation_time_ := now;
     redirect_policy_ := policy; is_ssl_ := false; socket_wrapper_ := None;
     request_method_ := B "GET"; url_ := url; parsed_url_ := None; post_data_ := None;
     post_interface_ := None; bytes_read_from_interface := 0; send_headers_ := headers;
     http_proxy_ := http_proxy; https_proxy_ := https_proxy; callbacks := []; sent := [];
     contacted := []; improper := [] |}.

(** What can happen to a machine: configuration before the start, the start, a
    completion, a timeout, and [Cancel] or [Fail] by the user once started. *)
Inductive step : Machine -> Machine -> Prop :=
  | StepConfig now c m m' :
      current m = Unstarted -> ProcessEvent now (ConfigEvent c) m = Some m' -> step m m'
  | StepStart now m m' :
      current m = Unstarted -> ProcessEvent now StartEvent m = Some m' -> step m m'
  | StepOperation now op r before after m m' :
      ops m = before ++ op :: after ->
      HandleReport (op_state op) r m <> None ->
      HandleOperation now op r (set_ops (before ++ after) m) = Some m' -> step m m'
  | StepDelay sd d m :
      delay_wait m = Some (sd, d) ->
      step m (DelayCallback sd d (set_delay_wait None m))
  | StepTimeout now rp tid m m' :
      timer_ m = Some (rp, tid) ->
      HandleAsyncTimeout now rp tid false (set_timer_ None m) = Some m' -> step m m'
  | StepError now ec m m' :
      current m <> Unstarted -> ProcessEvent now (ErrorEvent ec) m = Some m' -> step m m'.

Inductive reachable (m0 : Machine) : Machine -> Prop :=
  | ReachStart : reachable m0 m0
  | ReachStep m m' : reachable m0 m -> step m m' -> reachable m0 m'.
End Machine.
