(* ===== verification/HttpMachineProofs.v ===== *)
(** * Lemmas on the HTTP request state machine

    How one event, a queue of events and one step change a machine: the frame of each
    operation, what the queue can hold, and induction over the reachable machines. *)
From S2P Require Import Prelude Errors Boost Base64 Url HttpHeaders HttpContent HttpMachine.

Open Scope Z_scope.

Section Proofs.
Context (boost : Boost).


#[local] Abbreviation ReadContent_entry := (HttpMachine.ReadContent_entry boost).
#[local] Abbreviation HandleReport := (HttpMachine.HandleReport boost).
#[local] Abbreviation on_entry := (HttpMachine.on_entry boost).
#[local] Abbreviation process_one := (HttpMachine.process_one boost).
#[local] Abbreviation process := (HttpMachine.process boost).
#[local] Abbreviation ProcessEvent := (HttpMachine.ProcessEvent boost).
#[local] Abbreviation send_all := (HttpMachine.send_all boost).
#[local] Abbreviation HandleOperation := (HttpMachine.HandleOperation boost).
#[local] Abbreviation HandleAsyncTimeout := (HttpMachine.HandleAsyncTimeout boost).
#[local] Abbreviation step := (HttpMachine.step boost).
#[local] Abbreviation reachable := (HttpMachine.reachable boost).

(** Evaluates an entry action on each of its branches. *)
Ltac entry_cases :=
  unfold HttpMachine.on_entry, DoInit, SendPost_on_entry, PostViaInterface,
    ParseHeaders_on_entry, Redirect_on_entry, Error_on_entry, HttpMachine.ReadContent_entry,
    CancelDelay, StartOperation, NewStateData, Disconnect, write in *;
  repeat first [ progress simplify_eq/= | case_match | case_decide ].

(** ** What stays the same *)

(** The fields that only events change. *)
Definition settled (m m' : Machine) : Prop :=
  current m' = current m /\ live_state_data m' = live_state_data m
  /\ redirect_policy_ m' = redirect_policy_ m /\ is_ssl_ m' = is_ssl_ m
  /\ parsed_url_ m' = parsed_url_ m /\ url_ m' = url_ m
  /\ callbacks m' = callbacks m /\ contacted m' = contacted m /\ improper m' = improper m
  /\ timeout_seconds_ m' = timeout_seconds_ m
  /\ request_creation_time_ m' = request_creation_time_ m.

#[export] Instance settled_refl : Reflexive settled.
Proof. intros m. by repeat split. Qed.

#[export] Instance settled_trans : Transitive settled.
Proof. unfold settled. intros a b c (?&?&?&?&?&?&?&?&?&?&?) (?&?&?&?&?&?&?&?&?&?&?). repeat split; congruence. Qed.

Ltac settle := repeat split.

Lemma StartOperation_settled m : settled m (StartOperation m).
Proof. unfold StartOperation. case_match; settle. Qed.

Lemma PostViaInterface_settled m : settled m (PostViaInterface m).1.
Proof. unfold PostViaInterface. repeat case_match; settle. Qed.

Lemma HandleReport_settled s r m m' q : HandleReport s r m = Some (m', q) -> settled m m'.
Proof.
  intros H. pose proof (PostViaInterface_settled m). pose proof (StartOperation_settled m).
  unfold HttpMachine.HandleReport, HandleProxyConnectWrite, HandlePostWrite in H.
  repeat case_match; simplify_eq; try done; by destruct (PostViaInterface m); simplify_eq.
Qed.

Lemma DelayCallback_settled sd d m : settled m (DelayCallback sd d m).
Proof.
  unfold DelayCallback, PostViaInterfaceDelayCallback, HandleContentReadDelayCallback,
    HandleContentChunkSizeReadDelay, StartOperation. repeat case_match; settle.
Qed.

Lemma process_cons now fuel e q m :
  process (S fuel) now (e :: q) m
  = let '(m', sent_events) := process_one now e m in process fuel now (q ++ sent_events) m'.
Proof. reflexivity. Qed.

(** ** Induction *)

Lemma process_ind (P : Machine -> Prop) now fuel :
  (forall e m, P m -> P (process_one now e m).1) ->
  forall q m m', process fuel now q m = Some m' -> P m -> P m'.
Proof.
  intros HP. induction fuel as [|fuel IH]; intros [|e q] m m' H Hm; simplify_eq/=; [done..|].
  destruct (process_one now e m) as [m1 q1] eqn:E.
  apply (IH _ _ _ H). specialize (HP e m Hm). by rewrite E in HP.
Qed.

Lemma send_all_ind (P : Machine -> Prop) now :
  (forall e m, P m -> P (process_one now e m).1) ->
  forall q m m', send_all now q m = Some m' -> P m -> P m'.
Proof.
  intros HP q. induction q as [|e q IH]; intros m m' H Hm; simplify_eq/=; [done|].
  destruct (ProcessEvent now e m) as [m1|] eqn:E; [|done].
  apply (IH _ _ H). by apply (process_ind P now event_fuel HP [e] m).
Qed.

(** A property that events preserve and that speaks of settled fields only holds of
    every reachable machine. *)
Lemma reachable_settled_ind (P : Machine -> Prop) m0 :
  P m0 ->
  (forall m m', settled m m' -> P m -> P m') ->
  (forall now e m, P m -> P (process_one now e m).1) ->
  forall m, reachable m0 m -> P m.
Proof.
  intros H0 Hset Hone m Hr. induction Hr as [|m m' _ IH Hs]; [done|].
  destruct Hs as [now c m m' _ H|now m m' _ H|now op r before after m m' _ _ H|sd d m _
    |now rp tid m m' _ H|now ec m m' _ H];
    try (by apply (process_ind P now event_fuel (Hone now) _ _ _ H)).
  - unfold HttpMachine.HandleOperation in H. repeat (case_match; simplify_eq).
    + by apply (Hset m); [settle|].
    + by apply (Hset m); [settle|].
    + match goal with HR : HandleReport _ _ _ = Some (?a, ?b) |- _ =>
        apply HandleReport_settled in HR;
        apply (send_all_ind P now (Hone now) _ _ _ H);
        apply (Hset m); [|done]; etrans; [|exact HR]; settle end.
    + apply (Hset m); [settle|done].
  - apply (Hset m); [|done]. etrans; [|apply DelayCallback_settled]. settle.
  - unfold HttpMachine.HandleAsyncTimeout in H. repeat (case_match; simplify_eq).
    + apply (Hset m); [settle|done].
    + apply (process_ind P now event_fuel (Hone now) _ _ _ H). apply (Hset m); [settle|done].
    + apply (Hset m); [settle|done].
Qed.

(** ** The callbacks that end a request *)

Definition is_end (c : callback) : bool :=
  match c with RequestResponseErrorEvent _ | RequestResponseCompleteEvent => true | _ => false end.

Definition ends (m : Machine) : list callback := filter is_end (callbacks m).

(** What the entry of a state tells the user at the end of a request. *)
Definition end_callback (s : state) (e : event) : list callback :=
  match s, e with
  | FinalError, ErrorEvent code => [RequestResponseErrorEvent code]
  | Complete, _ => [RequestResponseCompleteEvent]
  | _, _ => []
  end.

(** Which fields an entry action changes. *)
Record entry_frame (s : state) (e : event) (m m' : Machine) : Prop := {
  ef_current : current m' = current m;
  ef_improper : improper m' = improper m;
  ef_policy : redirect_policy_ m' = redirect_policy_ m;
  ef_timeout : timeout_seconds_ m' = timeout_seconds_ m;
  ef_creation : request_creation_time_ m' = request_creation_time_ m;
  ef_live : is_terminal s = true -> live_state_data m' = live_state_data m;
  ef_ends : ends m' = ends m ++ end_callback s e;
  ef_contacted : s <> Initializing -> contacted m' = contacted m /\ is_ssl_ m' = is_ssl_ m;
  ef_url : s <> Initializing -> s <> Redirect ->
    parsed_url_ m' = parsed_url_ m /\ url_ m' = url_ m }.

Lemma on_entry_frame now s e m : entry_frame s e m (on_entry now s e m).1.
Proof.
  unfold HttpMachine.on_entry, DoInit, SendPost_on_entry, PostViaInterface,
    ParseHeaders_on_entry, Redirect_on_entry, Error_on_entry, HttpMachine.ReadContent_entry,
    CancelDelay, StartOperation, NewStateData, Disconnect, write, ends.
  repeat case_match; split; cbn in *; intros; rewrite ?filter_app, ?app_nil_r; done.
Qed.

(** The rows into the two final states. *)
Lemma transition_final s e m t :
  transition_table s e m = Some t -> is_terminal t = true ->
  exists c, end_callback t e = [c] /\
    match t with FinalError => exists code, c = RequestResponseErrorEvent code
               | _ => c = RequestResponseCompleteEvent end.
Proof. destruct s, e; simpl; intros; repeat case_match; simplify_eq/=; eauto. Qed.

Definition end_inv (m : Machine) : Prop :=
  match current m with
  | FinalError => live_state_data m = None /\ exists code, ends m = [RequestResponseErrorEvent code]
  | Complete => live_state_data m = None /\ ends m = [RequestResponseCompleteEvent]
  | _ => ends m = []
  end.

(** The machine just before the entry action. *)
Definition before_entry (e : event) (t : state) (m : Machine) : Machine :=
  set_current t
    (match current m, e with
     | Unstarted, ConfigEvent c => ConfigEventAction boost c (on_exit m)
     | _, _ => on_exit m
     end).

Lemma process_one_cases now e m :
  (is_terminal (current m) = true /\ process_one now e m = (m, []))
  \/ (is_terminal (current m) = false /\ transition_table (current m) e m = None
      /\ process_one now e m = (set_improper (improper m ++ [(current m, e)]) m, []))
  \/ exists t, is_terminal (current m) = false /\ transition_table (current m) e m = Some t
      /\ process_one now e m = on_entry now t e (before_entry e t m).
Proof.
  unfold HttpMachine.process_one, before_entry. destruct (is_terminal (current m)); [by left|].
  destruct (transition_table (current m) e m) as [t|]; [|by right; left].
  right; right. exists t. done.
Qed.

Lemma ConfigEventAction_frame c m :
  let m' := ConfigEventAction boost c m in
  current m' = current m /\ live_state_data m' = live_state_data m
  /\ is_ssl_ m' = is_ssl_ m /\ parsed_url_ m' = parsed_url_ m /\ url_ m' = url_ m
  /\ callbacks m' = callbacks m /\ contacted m' = contacted m /\ improper m' = improper m
  /\ request_creation_time_ m' = request_creation_time_ m
  /\ ops m' = ops m /\ timer_ m' = timer_ m /\ delay_wait m' = delay_wait m
  /\ next_id m' = next_id m /\ first_taken m' = first_taken m.
Proof. by destruct c. Qed.

Lemma before_entry_frame e t m :
  let m' := before_entry e t m in
  current m' = t /\ live_state_data m' = None
  /\ is_ssl_ m' = is_ssl_ m /\ parsed_url_ m' = parsed_url_ m /\ url_ m' = url_ m
  /\ callbacks m' = callbacks m /\ contacted m' = contacted m /\ improper m' = improper m
  /\ request_creation_time_ m' = request_creation_time_ m
  /\ (current m <> Unstarted -> redirect_policy_ m' = redirect_policy_ m
      /\ timeout_seconds_ m' = timeout_seconds_ m).
Proof.
  unfold before_entry. destruct (current m) eqn:?, e; try (by repeat split).
  destruct (ConfigEventAction_frame c (on_exit m)) as (?&?&?&?&?&?&?&?&?&_). by repeat split.
Qed.

Lemma before_entry_ops e t m :
  let m' := before_entry e t m in
  ops m' = ops m /\ timer_ m' = timer_ m /\ delay_wait m' = delay_wait m
  /\ next_id m' = next_id m /\ first_taken m' = first_taken m.
Proof.
  unfold before_entry. destruct (current m) eqn:?, e; try (by repeat split).
  destruct (ConfigEventAction_frame c (on_exit m)) as (_&_&_&_&_&_&_&_&_&?). done.
Qed.

Lemma process_one_end_inv now e m : end_inv m -> end_inv (process_one now e m).1.
Proof.
  intros H. destruct (process_one_cases now e m) as [(_ & ->)|[(_ & _ & ->)|(t & Hc & Ht & ->)]];
    [exact H..|].
  destruct (before_entry_frame e t m) as (Hcur & Hlive & _ & _ & _ & Hcb & _).
  destruct (on_entry_frame now t e (before_entry e t m)) as [Ecur _ _ _ _ Elive Eends _ _].
  assert (ends m = []) as H0 by (unfold end_inv in H; by destruct (current m)).
  assert (ends (before_entry e t m) = []) as H1 by (unfold ends in *; by rewrite Hcb).
  rewrite H1 in Eends. unfold end_inv. rewrite Ecur, Hcur, Eends.
  destruct (is_terminal t) eqn:Hterm; [|by destruct t, e].
  rewrite Elive, Hlive by done.
  destruct (transition_final _ _ _ _ Ht Hterm) as (c & Hec & Hend). rewrite Hec.
  destruct t; try done. destruct Hend as [code ->]. eauto.
Qed.

(** ** Queues *)

Definition has_row (s : state) (e : event) : bool :=
  match s, e with
  | Unstarted, (ConfigEvent _ | StartEvent) | Initializing, (InitializedEvent | ErrorEvent _)
  | Resolve, (ResolvedEvent | ErrorEvent _) | Connect, (ConnectedEvent | ErrorEvent _)
  | ProxyConnect, (ConnectedEvent | ErrorEvent _) | SSLHandshake, (HandshakeEvent | ErrorEvent _)
  | SendHeader, (HeadersWrittenEvent | ErrorEvent _) | SendPost, (PostSent | ErrorEvent _)
  | ReadHeaders, (HeadersReadEvent _ | ErrorEvent _)
  | ParseHeaders, (HeadersParsedEvent _ | RedirectEvent _ | ErrorEvent _)
  | Redirect, (RedirectedEvent | ErrorEvent _) | ReadContent, (ContentReadEvent | ErrorEvent _)
  | Error_, (RestartEvent | ErrorEvent _) => true
  | _, _ => false
  end.

Lemma has_row_spec s e m : has_row s e = false <-> transition_table s e m = None.
Proof. destruct s, e; simpl; repeat case_match; naive_solver. Qed.

Definition is_timeout (code : error_code) : bool := bool_decide (code = http_code IoTimeout).

(** How many events an event leads to, itself included. *)
Definition weight (s : state) (e : event) : nat :=
  match s, e with
  | Error_, RestartEvent => 3
  | Error_, ErrorEvent _ => 1
  | _, ErrorEvent code => if is_timeout code then 4 else 2
  | _, HeadersReadEvent _ => 5
  | _, (RedirectEvent _ | HeadersWrittenEvent) => 4
  | _, (HeadersParsedEvent _ | RedirectedEvent | StartEvent) => 3
  | _, _ => 1
  end.

(** What follows the error of a POST interface that threw. *)
Definition post_end (e : event) : Prop := e = PostSent \/ exists code, e = ErrorEvent code.

(** The queues a machine can have, with a bound on what is left to process. *)
Inductive within (s : state) : nat -> list event -> Prop :=
  | W_nil n : within s n []
  | W_one n e : (weight s e <= n)%nat -> within s n [e]
  | W_thrown n code e : s = SendPost -> is_timeout code = false -> post_end e -> (3 <= n)%nat ->
      within s n [ErrorEvent code; e]
  | W_error n e code : s = Error_ -> post_end e -> (2 <= n)%nat -> within s n [e; ErrorEvent code]
  | W_final n q : is_terminal s = true -> (length q <= n)%nat -> within s n q.

(** No event of the queue lacks a row, but for what follows a throw. *)
Definition proper (s : state) (q : list event) : bool :=
  match q with [e] => has_row s e || is_terminal s | _ => true end.

Lemma weight_bound s e : (1 <= weight s e <= 5)%nat.
Proof. destruct s, e; simpl; try lia; case_match; lia. Qed.

Lemma on_entry_events now s t e m0 m :
  transition_table s e m0 = Some t ->
  let q := (on_entry now t e m).2 in within t (weight s e - 1) q /\ proper t q = true.
Proof.
  intros Ht.
  assert (forall e' : event, (weight t e' <= weight s e - 1)%nat -> has_row t e' = true ->
            within t (weight s e - 1) [e'] /\ proper t [e'] = true) as Hone.
  { intros e' H1 H2. split; [by constructor|]. simpl. by rewrite H2. }
  assert (within t (weight s e - 1) [] /\ proper t [] = true) as Hnil by (split; [constructor|done]).
  destruct s, e; simpl in Ht; repeat case_match; simplify_eq; try exact Hnil;
    simpl; unfold DoInit, SendPost_on_entry, PostViaInterface, ParseHeaders_on_entry,
      Redirect_on_entry, Error_on_entry, HttpMachine.ReadContent_entry, is_timeout in *;
    repeat case_match; simpl; try exact Hnil; try (apply Hone; simpl; [|done]);
    try done; try lia;
    split; try done; first
      [ apply W_one; simpl; lia
      | apply W_thrown; [done|reflexivity|unfold post_end; eauto|lia] ].
Qed.

Lemma within_mono s n n' q : within s n q -> (n <= n')%nat -> within s n' q.
Proof. destruct 1; intros; econstructor; eauto; lia. Qed.

(** One event of the queue: what is left is processed in fewer events, and it has rows. *)
Lemma process_one_within now n e q m :
  within (current m) n (e :: q) ->
  let '(m', q') := process_one now e m in
  (0 < n)%nat /\ within (current m') (n - 1) (q ++ q')
  /\ (proper (current m) (e :: q) = true ->
      proper (current m') (q ++ q') = true
      /\ (improper m' = improper m \/ improper m' = improper m ++ [(Error_, PostSent)])).
Proof.
  intros Hw.
  destruct (process_one_cases now e m) as [(Hc & ->)|[(Hc & Ht & ->)|(t & Hc & Ht & ->)]].
  - assert (length q < n)%nat as Hn.
    { inversion Hw; subst; simpl in *; try congruence; try lia.
      pose proof (weight_bound (current m) e). simpl. lia. }
    rewrite app_nil_r. repeat split; [lia|by apply W_final; [|lia]| |by left].
    unfold proper. rewrite Hc. destruct q as [|? []]; rewrite ?orb_true_r; done.
  - rewrite app_nil_r. simpl. apply has_row_spec in Ht.
    inversion Hw as [|? ? Hle|? code e' Hs ? ?|? ? code Hs Hp ?|]; subst; simpl in *.
    + pose proof (weight_bound (current m) e). rewrite Ht, Hc.
      repeat split; [lia|constructor|done..].
    + by rewrite Hs in Ht.
    + rewrite Hs in *. destruct Hp as [->|[? ->]]; [|done].
      repeat split; [lia|apply W_one; simpl; lia|by right].
    + congruence.
  - destruct (on_entry_events now _ _ _ _ (before_entry e t m) Ht) as [Hq Hpr].
    destruct (on_entry_frame now t e (before_entry e t m)) as [Ecur Eimp _ _ _ _ _ _ _].
    destruct (before_entry_frame e t m) as (Hcur & _ & _ & _ & _ & _ & _ & Himp & _).
    destruct (on_entry now t e (before_entry e t m)) as [m' q'] eqn:E. cbn [fst snd] in *.
    rewrite Ecur, Eimp, Hcur, Himp.
    inversion Hw as [|? ? Hle|? code e' Hs Hto ? ?|? ? code Hs Hp ?|]; subst; simpl in *;
      try congruence.
    + pose proof (weight_bound (current m) e).
      repeat split; [lia|by eapply within_mono, Nat.sub_le_mono_r| |by left]; done.
    + rewrite Hs in Ht. injection Ht as <-. cbn [HttpMachine.on_entry] in E.
      unfold Error_on_entry in E. unfold is_timeout in Hto. rewrite Hto in E.
      injection E as <- <-. repeat split; [lia|by apply W_error; [| |lia]|by left].
    + rewrite Hs in Ht. destruct Hp as [->|[? ->]]; [done|]. injection Ht as <-.
      injection E as <- <-. repeat split; [lia|apply W_final; simpl; [done|lia]|by left].
Qed.

(** Enough fuel always yields a machine; only a [PostSent] after a throw has no row. *)
Lemma process_within now fuel n q m :
  within (current m) n q -> (n <= fuel)%nat ->
  exists m', process fuel now q m = Some m'
    /\ (proper (current m) q = true ->
        exists k, improper m' = improper m ++ replicate k (Error_, PostSent)).
Proof.
  revert n q m. induction fuel as [|fuel IH]; intros n [|e q] m Hw Hn; simpl.
  1,3: exists m; split; [done|]; intros _; exists 0%nat; by rewrite app_nil_r.
  - pose proof (process_one_within now _ _ _ _ Hw) as H.
    destruct (process_one now e m). lia.
  - pose proof (process_one_within now _ _ _ _ Hw) as H.
    destruct (process_one now e m) as [m1 q1]. destruct H as (H0 & Hw1 & Hp).
    destruct (IH _ _ _ Hw1) as (m' & -> & Hm'); [lia|]. exists m'. split; [done|].
    intros Hpr. destruct (Hp Hpr) as (Hpr1 & Himp). destruct (Hm' Hpr1) as (k & ->).
    destruct Himp as [->| ->]; [by exists k|]. exists (S k). by rewrite <-app_assoc.
Qed.

(** [ProcessEvent] is total. *)
Lemma ProcessEvent_within now e m :
  exists m', ProcessEvent now e m = Some m'
    /\ (has_row (current m) e || is_terminal (current m) = true ->
        exists k, improper m' = improper m ++ replicate k (Error_, PostSent)).
Proof.
  apply (process_within now event_fuel 10); [|done].
  apply W_one. pose proof (weight_bound (current m) e). lia.
Qed.

(** ** What a machine waits for *)

(** Every identifier in use is below the next fresh one. *)
Definition ids_ok (m : Machine) : Prop :=
  (forall op, op ∈ ops m ->
    (op_state_data op < next_id m)%nat /\ (op_race_preventer op < next_id m)%nat)
  /\ (forall rp, rp ∈ first_taken m -> (rp < next_id m)%nat)
  /\ (forall sd, live_state_data m = Some sd -> (sd < next_id m)%nat)
  /\ (forall rp tid, timer_ m = Some (rp, tid) -> (rp < next_id m)%nat)
  /\ (forall sd data, delay_wait m = Some (sd, data) -> (sd < next_id m)%nat).

(** The operations of the current state data. *)
Definition live_ops (m : Machine) : list async_op :=
  filter (fun op => live_state_data m = Some (op_state_data op)) (ops m).

(** No chunk of the current state data waits. *)
Definition no_delay (m : Machine) : Prop :=
  forall sd data, delay_wait m = Some (sd, data) -> live_state_data m <> Some sd.

(** One operation is under way and the timer is set for it. *)
Definition armed (m : Machine) : Prop :=
  no_delay m /\ exists op, live_ops m = [op] /\ op_state op = current m
    /\ (op_race_preventer op ∉ first_taken m)
    /\ timer_ m = Some (op_race_preventer op, timeout_id_ m).

(** A chunk or a read waits for the transmission delay. *)
Definition delays (s : state) : bool := match s with SendPost | ReadContent => true | _ => false end.

Definition delayed (m : Machine) : Prop :=
  live_ops m = [] /\ transmission_delay_timer_enabled_ m = true /\ delays (current m) = true
  /\ exists sd data, delay_wait m = Some (sd, data) /\ live_state_data m = Some sd.

Definition ready (m : Machine) : Prop :=
  match current m with
  | Unstarted => live_state_data m = None /\ ops m = [] /\ timer_ m = None /\ delay_wait m = None
  | FinalError | Complete => live_state_data m = None
  | Initializing | ParseHeaders | Redirect | Error_ => False
  | _ => armed m \/ delayed m
  end.

Definition waiting (m : Machine) (q : list event) : Prop :=
  ids_ok m /\ (is_terminal (current m) = true -> live_state_data m = None)
  /\ (q = [] \/ current m = Unstarted -> ready m).

Lemma live_ops_fresh m sd : (forall op, op ∈ ops m -> (op_state_data op < sd)%nat) ->
  filter (fun op => Some sd = Some (op_state_data op)) (ops m) = [].
Proof.
  intros H. induction (ops m) as [|op l IH]; [done|]. rewrite filter_cons_False.
  - apply IH. intros ? ?. apply H. by constructor.
  - intros [= ->]. specialize (H op ltac:(constructor)). lia.
Qed.

(** An operation started when the state data has none. *)
Lemma StartOperation_armed m sd :
  ids_ok m -> live_state_data m = Some sd -> live_ops m = [] -> no_delay m ->
  ids_ok (StartOperation m) /\ armed (StartOperation m).
Proof.
  intros (Ho & Ht & Hl & Htm & Hd) Hsd Hnone Hnd. unfold StartOperation. rewrite Hsd. split.
  - split; [|split; [|split]]; simpl.
    + intros op [?%Ho| ->%list_elem_of_singleton]%elem_of_app; [lia|].
      specialize (Hl _ Hsd). simpl. lia.
    + intros ? ?%Ht. lia.
    + intros ? ?%Hl. lia.
    + split; [intros ? ? [= <- <-]; lia|]. intros ? ? ?%Hd. lia.
  - split; [exact Hnd|]. unfold live_ops in *. simpl.
    rewrite filter_app, Hnone, filter_cons_True by done.
    eexists; repeat split. simpl. intros ?%Ht. lia.
Qed.

Lemma NewStateData_ids m :
  ids_ok m -> ids_ok (NewStateData m) /\ live_ops (NewStateData m) = [] /\ no_delay (NewStateData m).
Proof.
  intros (Ho & Ht & Hl & Htm & Hd). split; [|split].
  - split; [|split; [|split]]; simpl.
    + intros ? ?%Ho. lia.
    + intros ? ?%Ht. lia.
    + intros ? [= <-]. lia.
    + split; [intros ? ? ?%Htm; lia|]. intros ? ? ?%Hd. lia.
  - unfold live_ops. simpl. apply live_ops_fresh. intros ? ?%Ho. lia.
  - unfold no_delay. simpl. intros sd data Hw%Hd [= E]. lia.
Qed.

Definition is_op_state (s : state) : bool :=
  match s with
  | Unstarted | Initializing | ParseHeaders | Redirect | Error_ | FinalError | Complete => false
  | _ => true
  end.

Lemma waiting_queue m e q :
  ids_ok m -> is_terminal (current m) = false -> current m <> Unstarted -> waiting m (e :: q).
Proof. intros ? Hc ?. unfold waiting. rewrite Hc. split; [done|]. split; [done|]. by intros [|]. Qed.

Lemma waiting_final m q :
  ids_ok m -> is_terminal (current m) = true -> live_state_data m = None -> waiting m q.
Proof. intros ? Hc ?. split; [done|]. unfold ready. by destruct (current m). Qed.

Lemma waiting_start m sd :
  ids_ok m -> live_state_data m = Some sd -> live_ops m = [] -> no_delay m ->
  is_op_state (current m) = true -> waiting (StartOperation m) [].
Proof.
  intros Hids Hl Hn Hnd Hs. destruct (StartOperation_armed m sd) as [? Ha]; [done..|].
  split; [done|]. destruct (StartOperation_settled m) as (Hc & _). unfold ready. rewrite Hc.
  destruct (current m); try done; (split; [done|by left]).
Qed.

Lemma waiting_delay m sd data :
  ids_ok m -> live_state_data m = Some sd -> live_ops m = [] -> delays (current m) = true ->
  transmission_delay_timer_enabled_ m = true -> delay_wait m = Some (sd, data) -> waiting m [].
Proof.
  intros ??? Hs ? Hd. assert (delayed m) as Hdel by (split_and!; eauto).
  split; [done|]. unfold ready. by destruct (current m); split; auto.
Qed.

Lemma set_delay_ids m d : ids_ok m ->
  ids_ok (set_delay_wait ((fun sd => (sd, d)) <$> live_state_data m) m).
Proof.
  intros (H1 & H2 & H3 & H4 & H5). do 4 (split; [done|]). cbn.
  destruct (live_state_data m) as [sd|] eqn:Hl; [|done]. intros ? ? [= <- _]. by apply H3.
Qed.

Lemma PostViaInterface_waiting m sd :
  ids_ok m -> live_state_data m = Some sd -> live_ops m = [] -> current m = SendPost ->
  post_interface_ m <> None ->
  waiting (PostViaInterface m).1 (PostViaInterface m).2.
Proof.
  intros Hids Hl Hn Hc Hp. unfold PostViaInterface.
  destruct (post_interface_ m) as [[size chunks]|]; [|done].
  destruct (match chunks with [] => Some [] | c :: _ => c end) as [[|c data]|];
    [repeat case_match; simpl; by apply waiting_queue; simpl; rewrite ?Hc| |
     repeat case_match; simpl; by apply waiting_queue; simpl; rewrite ?Hc].
  apply (waiting_delay _ sd (DelayedWrite (c :: data))); try done;
    [apply (set_delay_ids m), Hids|by simpl; rewrite Hc|by simpl; rewrite Hl].
Qed.

(** An entry action leaves an event in the queue or something to wait for. *)
Lemma on_entry_waiting now s t e m0 m :
  transition_table s e m0 = Some t -> t <> Unstarted -> (t = SendPost -> HasPost m = true) ->
  current m = t -> live_state_data m = None -> ids_ok m ->
  waiting (on_entry now t e m).1 (on_entry now t e m).2.
Proof.
  intros Ht Hu Hpost Hcur Hlive Hids.
  destruct (NewStateData_ids m Hids) as (Hids1 & Hno & Hnd).
  destruct t; try done; simpl.
  all: try (apply (waiting_start _ (next_id m)); [done..|by simpl; rewrite Hcur]).
  - unfold DoInit. repeat case_match; apply waiting_queue; simpl; by rewrite ?Hcur.
  - destruct (parsed_url_ m); apply (waiting_start _ (next_id m)); try done; simpl; by rewrite Hcur.
  - destruct (parsed_url_ m); apply (waiting_start _ (next_id m)); try done; simpl; by rewrite Hcur.
  - unfold SendPost_on_entry. destruct (post_data_ (NewStateData m)) as [data|] eqn:Hd.
    + assert (waiting (StartOperation (NewStateData m)) []) as W; [|exact W].
      apply (waiting_start _ (next_id m)); try done; simpl; by rewrite Hcur.
    + apply (PostViaInterface_waiting _ (next_id m)); try done.
      specialize (Hpost eq_refl). unfold HasPost in Hpost. simpl in *. rewrite Hd in Hpost.
      by destruct (post_interface_ m).
  - destruct s, e; simpl in Ht; repeat case_match; simplify_eq.
    unfold ParseHeaders_on_entry. repeat case_match; apply waiting_queue; simpl; by rewrite ?Hcur.
  - destruct s, e; simpl in Ht; repeat case_match; simplify_eq.
    unfold Redirect_on_entry. repeat case_match; apply waiting_queue; simpl; by rewrite ?Hcur.
  - destruct s, e; simpl in Ht; repeat case_match; simplify_eq.
    unfold HttpMachine.ReadContent_entry. case_match;
      try (apply waiting_queue; simpl; by rewrite ?Hcur);
      (apply (waiting_start _ (next_id m)); try done; simpl; by rewrite Hcur).
  - assert (exists c, e = ErrorEvent c) as [c ->].
    { destruct s, e; simpl in Ht; repeat case_match; simplify_eq; eauto. }
    unfold Error_on_entry. case_match; apply waiting_queue; simpl; by rewrite ?Hcur.
  - assert (exists c, e = ErrorEvent c) as [c ->].
    { destruct s, e; simpl in Ht; repeat case_match; simplify_eq; eauto. }
    unfold CancelDelay. simpl. case_match; apply waiting_final; simpl; rewrite ?Hcur; try done.
    destruct Hids as (?&?&?&?&_). do 4 (split; [done|]). by intros ? ?.
  - apply waiting_final; simpl; by rewrite ?Hcur.
Qed.

(** One event of the queue. *)
Lemma process_one_waiting now n e q m :
  within (current m) n (e :: q) -> proper (current m) (e :: q) = true ->
  waiting m (e :: q) ->
  waiting (process_one now e m).1 (q ++ (process_one now e m).2).
Proof.
  intros Hw Hp (Hids & Hterm & Hun).
  destruct (process_one_cases now e m) as [(Hc & ->)|[(Hc & Ht & ->)|(t & Hc & Ht & ->)]]; simpl.
  - apply waiting_final; auto.
  - apply has_row_spec in Ht. destruct q as [|e' q].
    { unfold proper in Hp. by rewrite Ht, Hc in Hp. }
    rewrite app_nil_r. split; [done|]. split; [done|]. intros [?|?]; [done|]. by apply Hun; right.
  - destruct (before_entry_frame e t m) as (Hcur & Hlive & _).
    destruct (before_entry_ops e t m) as (Ho & Htm & Hd & Hn & Hf).
    assert (ids_ok (before_entry e t m)) as Hids'.
    { destruct Hids as (?&?&?&?&?). unfold ids_ok. rewrite Ho, Htm, Hd, Hn, Hf, Hlive.
      by repeat (split; [done|]). }
    destruct (decide (t = Unstarted)) as [->|Ht'].
    { assert (current m = Unstarted) as Hm.
      { destruct (current m), e; simpl in Ht; repeat case_match; simplify_eq; done. }
      specialize (Hun (or_intror Hm)). unfold ready in Hun. rewrite Hm in Hun. destruct Hun as (?&?&?&?).
      simpl. rewrite app_nil_r. split; [done|].
      rewrite Hcur. unfold ready. rewrite Hcur, Ho, Htm, Hd, Hlive. done. }
    assert (t = SendPost -> HasPost (before_entry e t m) = true) as Hpost.
    { intros ->. destruct (current m) eqn:Hm, e; simpl in Ht; repeat case_match; simplify_eq.
      unfold before_entry. by rewrite Hm. }
    destruct (on_entry_waiting now _ _ _ _ _ Ht Ht' Hpost Hcur Hlive Hids') as (Hi & Hl & Hr).
    split; [done|]. split; [done|]. intros [[_ Hq]%app_eq_nil|Hu]; [auto|]. 
    destruct (on_entry_frame now t e (before_entry e t m)) as [Ecur _ _ _ _ _ _ _ _].
    congruence.
Qed.

Lemma process_waiting now fuel n q m m' :
  within (current m) n q -> proper (current m) q = true -> waiting m q ->
  process fuel now q m = Some m' -> waiting m' [].
Proof.
  revert n q m. induction fuel as [|fuel IH]; intros n [|e q] m Hw Hp Hm H; simplify_eq/=; [done..|].
  pose proof (process_one_waiting now _ _ _ _ Hw Hp Hm) as Hm1.
  pose proof (process_one_within now _ _ _ _ Hw) as H1.
  destruct (process_one now e m) as [m1 q1]. destruct H1 as (_ & Hw1 & Hp1).
  destruct (Hp1 Hp) as [Hp1' _]. by eapply IH.
Qed.

(** ** Every reachable machine *)

(** What is true between two events. *)
Definition sound (m : Machine) : Prop :=
  ids_ok m /\ ready m /\ Forall (eq (Error_, PostSent)) (improper m).

Lemma ProcessEvent_waiting now e m :
  waiting m [e] -> Forall (eq (Error_, PostSent)) (improper m) ->
  has_row (current m) e || is_terminal (current m) = true ->
  exists m', ProcessEvent now e m = Some m' /\ sound m'.
Proof.
  intros Hwait Hi Hp. destruct (ProcessEvent_within now e m) as (m' & E & Hk).
  exists m'. split; [done|]. destruct (Hk Hp) as [k Himp].
  destruct (process_waiting now event_fuel 10 [e] m m') as (Hids' & _ & Hr'); try done.
  - apply W_one. pose proof (weight_bound (current m) e). lia.
  - split; [done|]. split; [by apply Hr'; left|]. rewrite Himp. apply Forall_app. split; [done|].
    by apply Forall_replicate.
Qed.

Lemma sound_waiting m q : sound m -> waiting m q.
Proof.
  intros (? & Hr & _). split; [done|]. split; [|done]. unfold ready in Hr. by destruct (current m).
Qed.

(** An event that the machine's state has a row for. *)
Lemma ProcessEvent_sound now e m :
  sound m -> has_row (current m) e || is_terminal (current m) = true ->
  exists m', ProcessEvent now e m = Some m' /\ sound m'.
Proof. intros H. apply ProcessEvent_waiting; [by apply sound_waiting|apply H]. Qed.

Lemma process_one_error now code m :
  current m <> Unstarted -> current m <> Error_ -> is_terminal (current m) = false ->
  process_one now (ErrorEvent code) m
  = Error_on_entry now code (before_entry (ErrorEvent code) Error_ m).
Proof.
  intros Hu He Hc. unfold HttpMachine.process_one, before_entry. rewrite Hc.
  assert (transition_table (current m) (ErrorEvent code) m = Some Error_) as ->;
    [by destruct (current m)|done].
Qed.

Lemma process_one_final now code m :
  current m = Error_ ->
  exists m', process_one now (ErrorEvent code) m = (m', []) /\ current m' = FinalError
    /\ callbacks m' = callbacks m ++ [RequestResponseErrorEvent code].
Proof.
  intros He. unfold HttpMachine.process_one. rewrite He. cbn [is_terminal transition_table].
  destruct (on_entry_frame now FinalError (ErrorEvent code)
    (before_entry (ErrorEvent code) FinalError m)) as [Ecur _ _ _ _ _ _ _ _].
  eexists. split; [reflexivity|]. split.
  - cbn. unfold CancelDelay. by case_match.
  - cbn. by rewrite He.
Qed.

Lemma process_final now fuel code m :
  current m = Error_ ->
  exists m', process (S (S fuel)) now [ErrorEvent code] m = Some m' /\ current m' = FinalError
    /\ callbacks m' = callbacks m ++ [RequestResponseErrorEvent code].
Proof.
  intros He. destruct (process_one_final now code m He) as (m' & E & ?).
  exists m'. cbn [HttpMachine.process]. by rewrite E.
Qed.

(** An error that is not a timeout ends a request that was started. *)
Lemma fatal_error now code m :
  current m <> Unstarted -> is_terminal (current m) = false -> is_timeout code = false ->
  exists m', ProcessEvent now (ErrorEvent code) m = Some m' /\ current m' = FinalError
    /\ callbacks m' = callbacks m ++ [RequestResponseErrorEvent code].
Proof.
  intros Hu Hc Hto. unfold HttpMachine.ProcessEvent, event_fuel.
  destruct (decide (current m = Error_)) as [He|He]; [by apply process_final|].
  rewrite process_cons, process_one_error by done.
  unfold Error_on_entry. unfold is_timeout in Hto. rewrite Hto. cbn [andb app].
  destruct (before_entry_frame (ErrorEvent code) Error_ m) as (_ & _ & _ & _ & _ & <- & _).
  by apply (process_final now 7 code (Disconnect (before_entry (ErrorEvent code) Error_ m))).
Qed.

Lemma DoInit_ok m u :
  parsed_url_ m = Some u -> scheme_ u = B "http" \/ scheme_ u = B "https" ->
  exists m', DoInit m = (m', [InitializedEvent]) /\ current m' = current m
    /\ callbacks m' = callbacks m /\ contacted m' = contacted m ++ [u].
Proof.
  intros Hu Hs. unfold DoInit. cbn [parsed_url_ Disconnect set_socket_wrapper_]. rewrite Hu.
  destruct Hs as [-> | ->]; (eexists; split; [reflexivity|]); by repeat split.
Qed.

Lemma process_one_initialized now m :
  current m = Initializing ->
  exists m', process_one now InitializedEvent m = (m', []) /\ current m' = Resolve
    /\ callbacks m' = callbacks m /\ contacted m' = contacted m /\ timer_ m' <> None.
Proof.
  intros Hi. unfold HttpMachine.process_one. rewrite Hi. cbn [is_terminal transition_table].
  change (current (on_exit m)) with (current m). rewrite Hi. cbn [HttpMachine.on_entry].
  eexists. split; [reflexivity|]. by repeat split.
Qed.

(** A machine that starts over connects to its URL again. *)
Lemma process_restart now fuel m u :
  current m = Error_ -> parsed_url_ m = Some u -> scheme_ u = B "http" \/ scheme_ u = B "https" ->
  exists m', process (S (S fuel)) now [RestartEvent] m = Some m' /\ current m' = Resolve
    /\ callbacks m' = callbacks m /\ contacted m' = contacted m ++ [u] /\ timer_ m' <> None.
Proof.
  intros He Hu Hs.
  assert (process_one now RestartEvent m = DoInit (before_entry RestartEvent Initializing m)) as E.
  { unfold HttpMachine.process_one, before_entry. rewrite He. cbn [is_terminal transition_table].
    change (current (on_exit m)) with (current m). by rewrite He. }
  destruct (before_entry_frame RestartEvent Initializing m)
    as (Hc & _ & _ & Hp & _ & Hcb & Hcon & _).
  destruct (DoInit_ok (before_entry RestartEvent Initializing m) u) as (m1 & E1 & H1 & H2 & H3);
    [by rewrite Hp|done|].
  destruct (process_one_initialized now m1) as (m2 & E2 & H4 & H5 & H6 & H7); [by rewrite H1|].
  exists m2. cbn [HttpMachine.process]. rewrite E, E1. cbn [app]. rewrite E2.
  split; [by destruct fuel|]. split; [exact H4|]. split; [by rewrite H5, H2|].
  split; [by rewrite H6, H3, Hcon|exact H7].
Qed.

(** ** The steps *)

Lemma ready_live m sd : ready m -> live_state_data m = Some sd ->
  is_op_state (current m) = true /\ (armed m \/ delayed m).
Proof.
  unfold ready. intros H Hl.
  destruct (current m); done || (destruct H; congruence) || congruence.
Qed.

(** The operation that completes is the only one of the state data. *)
Lemma live_op_armed m op before after :
  ready m -> ops m = before ++ op :: after -> live_state_data m = Some (op_state_data op) ->
  is_op_state (current m) = true /\ op_state op = current m
  /\ (op_race_preventer op ∉ first_taken m) /\ no_delay m
  /\ filter (fun op => live_state_data m = Some (op_state_data op)) (before ++ after) = [].
Proof.
  intros Hr Ho Hl. destruct (ready_live _ _ Hr Hl) as [Hop [(Hnd & op' & Hlo & Hst & Hrp & _)|(Hlo & _)]].
  - unfold live_ops in Hlo. rewrite Ho, filter_app, filter_cons_True in Hlo by done.
    rewrite filter_app. apply (f_equal length) in Hlo as Hlen. rewrite length_app in Hlen.
    simpl in Hlen. destruct (filter _ before) eqn:E1; [|simpl in Hlen; lia].
    simpl in Hlo. injection Hlo as <- ->. done.
  - unfold live_ops in Hlo. rewrite Ho, filter_app, filter_cons_True in Hlo by done.
    by apply app_nil in Hlo as [_ ?].
Qed.

(** The other operations do not matter. *)
Lemma other_op_ready m op before after :
  ready m -> ops m = before ++ op :: after -> live_state_data m <> Some (op_state_data op) ->
  ready (set_ops (before ++ after) m).
Proof.
  intros Hr Ho Hl.
  assert (live_ops (set_ops (before ++ after) m) = live_ops m) as E.
  { unfold live_ops. simpl. by rewrite Ho, !filter_app, filter_cons_False by done. }
  unfold ready, armed, delayed, no_delay in *. rewrite E. simpl. destruct (current m); try done.
  destruct Hr as (_ & Hno & _). rewrite Ho in Hno. by apply app_nil in Hno as [_ ?].
Qed.

Lemma ids_remove m op before after :
  ids_ok m -> ops m = before ++ op :: after -> ids_ok (set_ops (before ++ after) m).
Proof.
  intros (H1 & H2) Ho. split; [|done]. simpl. intros op' Hin. apply H1. rewrite Ho.
  apply elem_of_app in Hin as [?|?]; apply elem_of_app; [by left|right; by constructor].
Qed.

(** What a handler does last: it waits again, sends one event, or throws. *)
Lemma HandleReport_cases s r m m' q :
  HandleReport s r m = Some (m', q) -> s = current m ->
  (m' = m /\ exists e, q = [e] /\ has_row s e = true)
  \/ (m' = StartOperation m /\ q = [])
  \/ (s = SendPost /\ post_interface_ m <> None /\ (m', q) = PostViaInterface m)
  \/ (s = ReadContent /\ exists chunk, m' = DelayRead chunk m /\ q = []).
Proof.
  intros H ->. unfold HttpMachine.HandleReport, HandleProxyConnectWrite, HandlePostWrite, HandleResolve,
    HandleConnect, HandleHandshake, HandleHeaderWrite, HandleHeaderRead, HandleProxyHeaderRead in H.
  repeat case_match; simplify_eq; (try by left; eauto); try (by right; left);
    try (by right; right; right; eauto); right; right; left; repeat split; congruence.
Qed.

Lemma PostViaInterface_events m :
  let q := (PostViaInterface m).2 in
  q = [] \/ (exists e, q = [e] /\ has_row SendPost e = true)
  \/ exists code e, q = [ErrorEvent code; e] /\ is_timeout code = false.
Proof. unfold PostViaInterface. repeat case_match; simpl; eauto 10. Qed.

Lemma HandleReport_some s r m m' : HandleReport s r m <> None -> HandleReport s r m' <> None.
Proof. unfold HttpMachine.HandleReport. repeat case_match; congruence. Qed.

Lemma waiting_events m e q e' q' : waiting m (e :: q) -> waiting m (e' :: q').
Proof. intros (? & ? & H). split; [done|]. split; [done|]. intros [?|?]; [done|]. by apply H; right. Qed.

(** The events of a handler, sent one by one. *)
Lemma send_all_sound now m q :
  waiting m q -> Forall (eq (Error_, PostSent)) (improper m) ->
  q = [] \/ (exists e, q = [e] /\ has_row (current m) e = true)
  \/ (current m = SendPost /\ exists code e, q = [ErrorEvent code; e] /\ is_timeout code = false) ->
  exists m', send_all now q m = Some m' /\ sound m'.
Proof.
  intros Hw Hi [->|[(e & -> & Hrow)|(Hc & code & e & -> & Hto)]]; simpl.
  - exists m. split; [done|]. destruct Hw as (? & _ & Hr). split; [done|]. split; [|done].
    apply Hr. by left.
  - destruct (ProcessEvent_waiting now e m) as (m' & -> & ?); eauto. by rewrite Hrow.
  - destruct (ProcessEvent_waiting now (ErrorEvent code) m) as (m1 & E & Hs); [|done|by rewrite Hc|].
    { by eapply waiting_events. }
    destruct (fatal_error now code m) as (m2 & E' & Hf & _); [by rewrite Hc..|done|].
    rewrite E in E'. simplify_eq. rewrite E.
    destruct (ProcessEvent_sound now e m2) as (m' & -> & ?); [done|by rewrite Hf, orb_true_r|eauto].
Qed.

Lemma HandleReport_sound now m sd r m' q :
  ids_ok m -> live_state_data m = Some sd -> live_ops m = [] -> no_delay m ->
  is_op_state (current m) = true -> Forall (eq (Error_, PostSent)) (improper m) ->
  HandleReport (current m) r m = Some (m', q) ->
  exists m2, send_all now q m' = Some m2 /\ sound m2.
Proof.
  intros Hids Hl Hn Hnd Hop Hi H. assert (is_terminal (current m) = false /\ current m <> Unstarted)
    as [Hnt Hnu] by by destruct (current m).
  destruct (HandleReport_settled _ _ _ _ _ H) as (Hcur & _ & _ & _ & _ & _ & _ & _ & Himp & _).
  rewrite <-Himp in Hi.
  destruct (HandleReport_cases _ _ _ _ _ H eq_refl)
    as [(-> & e & -> & Hrow)|[(-> & ->)|[(Hs & Hp & Hpv)|(Hs & chunk & -> & ->)]]].
  - apply send_all_sound; [|done|eauto]. by apply waiting_queue.
  - apply send_all_sound; [|done|by left]. by apply (waiting_start _ sd).
  - pose proof (PostViaInterface_waiting m sd Hids Hl Hn Hs Hp) as Hw.
    pose proof (PostViaInterface_events m) as Hev. simpl in Hev.
    rewrite <-Hpv in Hw, Hev. simpl in Hw, Hev. apply send_all_sound; [done..|].
    rewrite Hcur, Hs. destruct Hev as [?|[?|?]]; auto.
  - apply send_all_sound; [|done|by left].
    apply (waiting_delay _ sd (if chunk then DelayedChunkRead else DelayedBodyRead)); try done;
      [apply (set_delay_ids m), Hids|by rewrite Hcur, Hs|by simpl; rewrite Hl].
Qed.

Lemma HandleOperation_sound now m op before after r :
  sound m -> ops m = before ++ op :: after -> HandleReport (op_state op) r m <> None ->
  exists m', HandleOperation now op r (set_ops (before ++ after) m) = Some m' /\ sound m'.
Proof.
  intros (Hids & Hr & Hi) Ho Hrep. pose proof (ids_remove _ _ _ _ Hids Ho) as Hids1.
  unfold HttpMachine.HandleOperation. simpl. case_bool_decide as Hl; simpl.
  - destruct (live_op_armed _ _ _ _ Hr Ho Hl) as (Hop & Hst & Hrp & Hnd & Hnone).
    rewrite decide_False by done. set (m2 := ClearAsyncTimeout _).
    destruct (HandleReport (current m) r m2) as [[m3 q]|] eqn:E.
    + apply (HandleReport_sound now m2 (op_state_data op) r); try done.
      destruct Hids1 as (H1 & H2 & H3 & H4 & H5). split; [done|]. split; [|split; [done|split; [|done]]].
      * simpl. intros rp [->%elem_of_singleton|?]%elem_of_union; [|by apply H2].
        apply (proj1 Hids op). rewrite Ho. apply elem_of_app. right. by constructor.
      * by intros ? ? [=].
    + exfalso. apply (HandleReport_some _ _ _ m2) in Hrep. by rewrite Hst in Hrep.
  - eexists; split; [done|]. split; [done|]. split; [by eapply other_op_ready|done].
Qed.

(** Where the delay ends. *)
Lemma DelayCallback_starts sd d m :
  live_state_data m = Some sd -> transmission_delay_timer_enabled_ m = true ->
  exists m1 log, DelayCallback sd d m = set_sent log (StartOperation m1) /\
    (m1 = m \/ m1 = set_transmission_delay_timer_enabled_ false m).
Proof.
  intros Hl He. unfold DelayCallback, PostViaInterfaceDelayCallback,
    HandleContentReadDelayCallback, HandleContentChunkSizeReadDelay.
  rewrite bool_decide_eq_true_2, He by done. cbn [negb].
  assert (forall m, set_sent (sent m) m = m) as Hid by by intros [].
  destruct d; eexists _, _; (split; [first [reflexivity|symmetry; apply Hid]|by auto]).
Qed.

Lemma DelayCallback_stale sd d m : live_state_data m <> Some sd -> DelayCallback sd d m = m.
Proof.
  intros Hl. unfold DelayCallback, PostViaInterfaceDelayCallback,
    HandleContentReadDelayCallback, HandleContentChunkSizeReadDelay.
  rewrite bool_decide_eq_false_2 by done. by destruct d.
Qed.

Lemma delay_sound m sd d :
  sound m -> delay_wait m = Some (sd, d) -> sound (DelayCallback sd d (set_delay_wait None m)).
Proof.
  intros ((H1 & H2 & H3 & H4 & H5) & Hr & Hi) Hd.
  assert (ids_ok (set_delay_wait None m)) as Hids by (do 4 (split; [done|]); by intros ? ?).
  assert (no_delay (set_delay_wait None m)) as Hnd by by intros ? ?.
  destruct (decide (live_state_data m = Some sd)) as [Hl|Hl].
  - destruct (ready_live _ _ Hr Hl) as [Hop [(Hno & _)|(Hno & He & Hs & _)]]; [by destruct (Hno _ _ Hd)|].
    destruct (DelayCallback_starts sd d (set_delay_wait None m)) as (m1 & log & -> & Hm1); [done..|].
    assert (waiting (StartOperation m1) []) as (Hids' & _ & Hr')
      by (destruct Hm1 as [-> | ->]; by apply (waiting_start _ sd)).
    destruct (StartOperation_settled m1) as (_ & _ & _ & _ & _ & _ & _ & _ & Himp & _).
    split; [exact Hids'|]. split; [apply Hr'; by left|].
    cbn. rewrite Himp. by destruct Hm1 as [-> | ->].
  - rewrite DelayCallback_stale by done. split; [done|]. split; [|done]. unfold ready, armed, delayed in *. simpl in *.
    destruct (current m); try done; try (destruct Hr as [(_ & Hr)|(_ & _ & _ & ? & ? & ? & ?)];
      [by left|congruence]). by destruct Hr as (? & ? & ? & _).
Qed.

(** The timer that a machine waits for. *)
Lemma timeout_sound now m rp tid :
  sound m -> timer_ m = Some (rp, tid) ->
  exists m', HandleAsyncTimeout now rp tid false (set_timer_ None m) = Some m' /\ sound m'.
Proof.
  intros (Hids & Hr & Hi) Ht.
  assert (forall f, let m1 := set_first_taken f (set_timer_ None m) in
    (forall x, x ∈ f -> (x < next_id m)%nat) ->
    (~ armed m -> sound m1) /\ waiting m1 [ErrorEvent (http_code IoTimeout)]) as H.
  { intros f m1 Hf. assert (ids_ok m1) as Hids1.
    { destruct Hids as (H1 & H2 & H3 & H4 & H5). split; [done|]. split; [done|]. split; [done|].
      by split; [intros ? ? [=]|]. }
    split.
    - intros Hna. split; [done|]. split; [|done]. unfold ready in *. simpl.
      destruct (current m); try done; try (destruct Hr as [Ha|Hd]; [by destruct (Hna Ha)|right; exact Hd]).
      destruct Hr as (? & ? & ? & ?). done.
    - split; [done|]. unfold ready in *. simpl.
      split; [intros Hc; by destruct (current m)|]. intros [|Hc]; [done|].
      rewrite Hc in *. by destruct Hr as (? & ? & ? & ?). }
  assert (forall op, timer_ m = Some (op_race_preventer op, timeout_id_ m) ->
    (op_race_preventer op ∉ first_taken m) -> (rp ∉ first_taken m) /\ timeout_id_ m = tid) as Hop.
  { intros op Hop ?. rewrite Ht in Hop. by simplify_eq. }
  unfold HttpMachine.HandleAsyncTimeout. simpl. case_decide as Hrp.
  - eexists; split; [done|]. destruct (H (first_taken m)) as [Hs _]; [apply Hids|].
    assert (sound (set_first_taken (first_taken m) (set_timer_ None m))) as Hs'; [|exact Hs'].
    apply Hs. intros (_ & op & _ & _ & Ho1 & Ho2). by destruct (Hop _ Ho2 Ho1).
  - destruct (H ({[rp]} ∪ first_taken m)) as [Hs Hw].
    { intros x [->%elem_of_singleton|Hx]%elem_of_union; [|by apply (proj1 (proj2 Hids) x)].
      destruct Hids as (_ & _ & _ & H4 & _). by eapply H4. }
    case_match eqn:Hid.
    + apply ProcessEvent_waiting; [exact Hw|done|]. simpl. unfold ready in Hr.
      destruct (current m); try done. destruct Hr as (_ & _ & ? & _). congruence.
    + eexists; split; [done|]. apply Hs. intros (_ & op & _ & _ & Ho1 & Ho2).
      destruct (Hop _ Ho2 Ho1) as [_ <-]. by rewrite Z.eqb_refl in Hid.
Qed.

Lemma step_sound m m' : step m m' -> sound m -> sound m'.
Proof.
  intros Hs Hm. destruct Hs as [now c m m' Hc H|now m m' Hc H|now op r before after m m' Ho Hr H
    |sd d m Hd|now rp tid m m' Ht H|now ec m m' Hc H].
  - destruct (ProcessEvent_sound now (ConfigEvent c) m Hm) as (? & E & ?); [by rewrite Hc|].
    by simplify_eq.
  - destruct (ProcessEvent_sound now StartEvent m Hm) as (? & E & ?); [by rewrite Hc|].
    by simplify_eq.
  - destruct (HandleOperation_sound now _ _ _ _ _ Hm Ho Hr) as (? & E & ?). by simplify_eq.
  - by apply delay_sound.
  - destruct (timeout_sound now _ _ _ Hm Ht) as (? & E & ?). by simplify_eq.
  - destruct (ProcessEvent_sound now (ErrorEvent ec) m Hm) as (? & E & ?); [|by simplify_eq].
    destruct Hm as (_ & Hr & _). unfold ready in Hr. by destruct (current m).
Qed.

Lemma NewMachine_sound now url policy headers p1 p2 :
  sound (NewMachine now url policy headers p1 p2).
Proof.
  split; [|by split]. split; [by intros ? ?%elem_of_nil|]. split; [by intros ? ?%elem_of_empty|].
  by repeat split.
Qed.

Lemma reachable_sound m0 m : sound m0 -> reachable m0 m -> sound m.
Proof. intros H0. induction 1; [done|]. by eapply step_sound. Qed.

End Proofs.
