(* ===== verification/HttpMachineTheorems.v ===== *)
(** * What the HTTP request state machine guarantees

    A request ends with exactly one callback and always waits for something with a
    timer set; events are processed in a bounded number of transitions; redirects stay
    within the policy. *)
From S2P Require Import Prelude Errors Boost Base64 Url HttpHeaders HttpContent HttpMachine HttpMachineProofs.

Open Scope Z_scope.

Section Theorems.
Context (boost : Boost).

#[local] Abbreviation HandleReport := (HttpMachine.HandleReport boost).
#[local] Abbreviation on_entry := (HttpMachine.on_entry boost).
#[local] Abbreviation process_one := (HttpMachine.process_one boost).
#[local] Abbreviation step := (HttpMachine.step boost).
#[local] Abbreviation reachable := (HttpMachine.reachable boost).

(** ** Redirects *)

Definition https (u : Url) : Prop := scheme_ u = B "https".

(** Once an https URL is in the list, all that follow are. *)
Definition https_sticky (l : list Url) : Prop :=
  forall pre u post, l = pre ++ u :: post -> https u -> Forall https post.

Lemma https_sticky_snoc l v :
  https_sticky l -> (https v \/ Forall (fun u => ~ https u) l) -> https_sticky (l ++ [v]).
Proof.
  intros Hl Hv pre u post E Hu. destruct post as [|w post _] using rev_ind; [done|].
  rewrite app_comm_cons, app_assoc in E. apply app_inj_2 in E as [E [= <-]]; [|done].
  apply Forall_app. split; [by eapply Hl|]. constructor; [|done].
  destruct Hv as [?|Hv]; [done|]. rewrite E in Hv. by apply Forall_app in Hv as [_ [? _]%Forall_cons].
Qed.

Record policy_inv (url : str) (m : Machine) : Prop := {
  pi_start : current m = Unstarted ->
    contacted m = [] /\ is_ssl_ m = false /\ parsed_url_ m = None /\ url_ m = url;
  pi_sticky : redirect_policy_ m <> Allow -> https_sticky (contacted m);
  pi_ssl : redirect_policy_ m <> Allow ->
    is_ssl_ m = true \/ Forall (fun u => ~ https u) (contacted m);
  pi_parsed : redirect_policy_ m <> Allow -> is_ssl_ m = true ->
    exists u, parsed_url_ m = Some u /\ scheme_ u <> B "http";
  pi_deny : redirect_policy_ m = Deny ->
    url_ m = url /\ (parsed_url_ m = None \/ parsed_url_ m = ParseUrl url)
    /\ Forall (fun u => ParseUrl url = Some u) (contacted m) }.

(** [policy_inv] speaks of these fields only. *)
Lemma policy_inv_ext url m m' :
  contacted m' = contacted m -> is_ssl_ m' = is_ssl_ m -> parsed_url_ m' = parsed_url_ m ->
  url_ m' = url_ m -> redirect_policy_ m' = redirect_policy_ m ->
  (current m' = Unstarted -> current m = Unstarted) -> policy_inv url m -> policy_inv url m'.
Proof.
  intros Hc Hs Hp Hu Hr Hcur [H1 H2 H3 H4 H5].
  split; rewrite ?Hc, ?Hs, ?Hp, ?Hu, ?Hr; auto.
Qed.

Lemma DoInit_policy url m :
  policy_inv url m -> current m <> Unstarted -> policy_inv url (DoInit m).1.
Proof.
  intros [H1 H2 H3 H4 H5] Hc. unfold DoInit. cbn [parsed_url_ url_ Disconnect set_socket_wrapper_].
  destruct (match parsed_url_ m with Some u => Some u | None => ParseUrl (url_ m) end)
    as [u|] eqn:Eu; [|by split].
  assert (redirect_policy_ m = Deny -> ParseUrl url = Some u) as Hdeny.
  { intros Hd. destruct (H5 Hd) as (Hu & [Hn|Hp] & _).
    - by rewrite Hn, Hu in Eu.
    - rewrite <-Hp. destruct (parsed_url_ m); [by simplify_eq|]. rewrite Hu in Eu; congruence. }
  assert (redirect_policy_ m <> Allow -> scheme_ u = B "http" ->
    is_ssl_ m = false /\ Forall (fun u => ~ https u) (contacted m)) as Hhttp.
  { intros Ha Hs. destruct (is_ssl_ m) eqn:E.
    - destruct (H4 Ha eq_refl) as (u' & Hu' & Hn). rewrite Hu' in Eu. by simplify_eq.
    - by destruct (H3 Ha). }
  assert (redirect_policy_ m = Deny -> url_ m = url /\ (Some u = None \/ Some u = ParseUrl url)
    /\ Forall (fun u => ParseUrl url = Some u) (contacted m)) as Hd0.
  { intros Hd. split; [by apply H5|]. split; [right; by rewrite Hdeny|by apply H5]. }
  assert (redirect_policy_ m = Deny -> url_ m = url /\ (Some u = None \/ Some u = ParseUrl url)
    /\ Forall (fun u => ParseUrl url = Some u) (contacted m ++ [u])) as Hd1.
  { intros Hd. destruct (Hd0 Hd) as (? & ? & ?). do 2 (split; [done|]).
    apply Forall_app. by repeat constructor; auto. }
  case_bool_decide as Hs; [|case_bool_decide as Hs']; split; simpl; try done.
  - intros Ha. apply https_sticky_snoc; [auto|right; by apply Hhttp].
  - intros Ha. right. apply Forall_app. split; [by apply Hhttp|].
    constructor; [|done]. unfold https. by rewrite Hs.
  - intros Ha. apply https_sticky_snoc; [auto|by left].
  - by left.
  - intros Ha _. exists u. by rewrite Hs'.
  - intros Ha _. by exists u.
Qed.

Lemma Redirect_policy url target m :
  policy_inv url m -> current m <> Unstarted -> policy_inv url (Redirect_on_entry target m).1.
Proof.
  intros [H1 H2 H3 H4 H5] Hc. unfold Redirect_on_entry.
  destruct (ParseUrl target) as [u|]; [|by split].
  case_bool_decide as Hd; [by split|]. case_match eqn:Hdown; [by split|].
  split; simpl; [done|exact H2|exact H3| |done].
  intros Ha Hs. exists u. split; [done|]. intros Hh.
  rewrite Hs, !bool_decide_eq_true_2 in Hdown; [done..|].
  by destruct (redirect_policy_ m).
Qed.

Lemma process_one_policy url now e m : policy_inv url m -> policy_inv url (process_one now e m).1.
Proof.
  intros H. destruct (process_one_cases boost now e m)
    as [(_ & ->)|[(_ & _ & ->)|(t & Hc & Ht & ->)]]; [done|by apply (policy_inv_ext url m)|].
  destruct (before_entry_frame boost e t m)
    as (Hcur & _ & Hssl & Hparsed & Hurl & _ & Hcon & _ & _ & Hpol).
  set (m1 := before_entry boost e t m) in *.
  destruct (decide (current m = Unstarted)) as [Hu|Hu].
  - destruct (pi_start _ _ H Hu) as (H1 & H2 & H3 & H4).
    assert (policy_inv url m1) as Hm1.
    { split; rewrite ?Hcon, ?Hssl, ?Hparsed, ?Hurl, ?H1, ?H2, ?H3, ?H4; try done.
      - intros _ pre u post E. by destruct pre.
      - by right.
      - by split; [|split; [left|]]. }
    rewrite Hu in Ht. destruct e; try done; injection Ht as <-; [exact Hm1|].
    apply DoInit_policy; [done|by rewrite Hcur].
  - destruct (Hpol Hu) as [Hpol' _].
    assert (t <> Unstarted) as Ht'.
    { intros ->. destruct (current m), e; simpl in Ht; repeat case_match; simplify_eq; done. }
    assert (policy_inv url m1) as Hm1.
    { apply (policy_inv_ext url m); try done. }
    destruct (on_entry_frame boost now t e m1)
      as [Ecur _ Epol _ _ _ _ Econ Eurl].
    destruct (decide (t = Initializing)) as [->|Hi]; [apply DoInit_policy; by rewrite ?Hcur|].
    destruct (decide (t = Redirect)) as [->|Hr].
    + destruct e; try done. apply Redirect_policy; [done|by rewrite Hcur].
    + destruct (Econ Hi). destruct (Eurl Hi Hr).
      apply (policy_inv_ext url m1); try done. by rewrite Ecur.
Qed.

Lemma reachable_policy now url policy headers p1 p2 m :
  reachable (NewMachine now url policy headers p1 p2) m -> policy_inv url m.
Proof.
  apply (reachable_settled_ind boost).
  - split; simpl; try done.
    + intros _ pre u post E. by destruct pre.
    + by right.
    + by split; [|split; [left|]].
  - intros m1 m2 (?&?&?&?&?&?&?&?&_) Hm. apply (policy_inv_ext url m1); congruence.
  - intros now' e m1. apply process_one_policy.
Qed.

Lemma reachable_end_inv now url policy headers p1 p2 m :
  reachable (NewMachine now url policy headers p1 p2) m -> end_inv m.
Proof.
  revert m. apply reachable_settled_ind; [done| |].
  - intros m m' (Hc & Hl & _ & _ & _ & _ & Hcb & _). unfold end_inv, ends. by rewrite Hc, Hl, Hcb.
  - intros now' e m. apply process_one_end_inv.
Qed.

(** C2 A request ends with exactly one callback: [RequestResponseErrorEvent] in the state
    [FinalError], [RequestResponseCompleteEvent] in [Complete], none before. *)
Theorem request_ends_once now url policy headers p1 p2 m :
  reachable (NewMachine now url policy headers p1 p2) m ->
  let ended := filter is_end (callbacks m) in
  match current m with
  | FinalError => exists code, ended = [RequestResponseErrorEvent code]
  | Complete => ended = [RequestResponseCompleteEvent]
  | _ => ended = []
  end.
Proof.
  intros Hm%reachable_end_inv. unfold end_inv, ends in Hm. destruct (current m); try exact Hm; by destruct Hm.
Qed.

(** C3 A request that was started and has not ended always waits for exactly one
    thing: an operation of its current state with the timer set for it, or the
    transmission delay of a chunk or of a read.  It never hangs without a timeout. *)
Theorem started_request_waits now url policy headers p1 p2 m :
  reachable (NewMachine now url policy headers p1 p2) m ->
  current m <> Unstarted -> is_terminal (current m) = false -> armed m \/ delayed m.
Proof.
  intros H Hu Ht. destruct (reachable_sound _ _ _ (NewMachine_sound _ _ _ _ _ _) H)
    as (_ & Hr & _). unfold ready in Hr. by destruct (current m).
Qed.

(** The only event for which a reachable machine has no row (it asserts) is the
    [PostSent] that follows the exception of a POST interface. *)
Theorem transitions_proper now url policy headers p1 p2 m :
  reachable (NewMachine now url policy headers p1 p2) m ->
  Forall (fun p => p = (Error_, PostSent)) (improper m).
Proof.
  intros H. destruct (reachable_sound _ _ _ (NewMachine_sound _ _ _ _ _ _) H) as (_ & _ & Hi).
  by eapply Forall_impl.
Qed.

(** Every event is processed in a bounded number of transitions, whatever the state:
    the events that entry actions send never chase each other. *)
Theorem ProcessEvent_total now e m :
  exists m', ProcessEvent boost now e m = Some m'.
Proof.
  destruct (ProcessEvent_within boost now e m) as (m' & H & _). by exists m'.
Qed.

(** C11 With a policy other than [Allow], once a request has connected to an https URL it
    never connects to another scheme; with [Deny] it connects to its own URL only. *)
Theorem redirects_respect_policy now url policy headers p1 p2 m :
  reachable (NewMachine now url policy headers p1 p2) m ->
  (redirect_policy_ m <> Allow -> forall pre u post,
     contacted m = pre ++ u :: post -> scheme_ u = B "https" ->
     Forall (fun v => scheme_ v = B "https") post)
  /\ (redirect_policy_ m = Deny -> Forall (fun u => ParseUrl url = Some u) (contacted m)).
Proof.
  intros H. destruct (reachable_policy _ _ _ _ _ _ _ H) as [_ Hs _ _ Hd].
  split; [exact Hs|intros Hp; by apply Hd].
Qed.

(** An error other than an I/O timeout, in any state of a started request, ends it
    with that very error. *)
Theorem error_is_reported now code m :
  current m <> Unstarted -> is_terminal (current m) = false -> code <> http_code IoTimeout ->
  exists m', ProcessEvent boost now (ErrorEvent code) m = Some m'
    /\ current m' = FinalError /\ callbacks m' = callbacks m ++ [RequestResponseErrorEvent code].
Proof. intros ?? Hc. apply fatal_error; [done..|]. by apply bool_decide_eq_false_2. Qed.

Lemma ProcessEvent_ended now e m :
  is_terminal (current m) = true -> ProcessEvent boost now e m = Some m.
Proof.
  intros H. unfold ProcessEvent, event_fuel. cbn [process].
  unfold HttpMachine.process_one. rewrite H. done.
Qed.

(** After the end nothing is called back, written or connected any more, whatever
    completes, expires or is cancelled. *)
Theorem ended_request_is_silent now url policy headers p1 p2 m m' :
  reachable (NewMachine now url policy headers p1 p2) m ->
  is_terminal (current m) = true -> step m m' ->
  current m' = current m /\ callbacks m' = callbacks m /\ sent m' = sent m
  /\ contacted m' = contacted m.
Proof.
  intros H Ht Hs. destruct (reachable_sound _ _ _ (NewMachine_sound _ _ _ _ _ _) H)
    as (_ & Hr & _).
  assert (live_state_data m = None) as Hl by (unfold ready in Hr; by destruct (current m)).
  destruct Hs as [t c m m' Hc E|t m m' Hc E|t op r before after m m' _ _ E
    |sd d m _|t rp tid m m' _ E|t ec m m' _ E].
  - by rewrite Hc in Ht.
  - by rewrite Hc in Ht.
  - unfold HandleOperation in E. simpl in E. rewrite Hl in E. by simplify_eq/=.
  - rewrite DelayCallback_stale; [done|]. cbn. by rewrite Hl.
  - unfold HandleAsyncTimeout in E. repeat (case_match; simplify_eq); try done.
    rewrite ProcessEvent_ended in E by done. by simplify_eq.
  - rewrite ProcessEvent_ended in E by done. by simplify_eq.
Qed.

(** C38 When the timer fires: from the deadline on (creation plus timeout) the request
    ends with [IoTimeout]; before it the request starts over with its parsed URL, nothing
    is reported and the timer is set again. *)
Theorem timeout_restarts_or_fails now rp m :
  current m <> Unstarted -> current m <> Error_ -> is_terminal (current m) = false ->
  (rp ∉ first_taken m) ->
  let fired := HandleAsyncTimeout boost now rp (timeout_id_ m) false m in
  (request_creation_time_ m + timeout_seconds_ m <= now ->
   exists m', fired = Some m' /\ current m' = FinalError
     /\ callbacks m' = callbacks m ++ [RequestResponseErrorEvent (http_code IoTimeout)])
  /\ (forall u, now < request_creation_time_ m + timeout_seconds_ m ->
      parsed_url_ m = Some u -> scheme_ u = B "http" \/ scheme_ u = B "https" ->
      exists m', fired = Some m' /\ current m' = Resolve /\ callbacks m' = callbacks m
        /\ contacted m' = contacted m ++ [u] /\ timer_ m' <> None).
Proof.
  intros Hu He Ht Hrp. unfold HandleAsyncTimeout. rewrite decide_False by done. simpl.
  rewrite Z.eqb_refl. set (m1 := set_first_taken _ m).
  unfold ProcessEvent, event_fuel. rewrite process_cons, process_one_error by done. unfold Error_on_entry.
  destruct (before_entry_frame boost (ErrorEvent (http_code IoTimeout)) Error_ m1)
    as (Hcur & _ & _ & Hparsed & _ & Hcb & Hcon & _ & Hcre & Hto).
  destruct (Hto Hu) as [_ Hto']. rewrite bool_decide_eq_true_2 by done.
  change (request_creation_time_ (Disconnect ?x)) with (request_creation_time_ x).
  change (timeout_seconds_ (Disconnect ?x)) with (timeout_seconds_ x).
  rewrite Hcre, Hto'. split.
  - intros Hnow. destruct (Z.ltb_spec now (request_creation_time_ m1 + timeout_seconds_ m1)) as [Hlt|_];
      [simpl in Hlt; lia|].
    cbn [andb app]. change (callbacks m) with (callbacks m1). rewrite <-Hcb. by apply (process_final boost now 7 (http_code IoTimeout)
      (Disconnect (before_entry boost (ErrorEvent (http_code IoTimeout)) Error_ m1))).
  - intros u Hnow Hp Hs.
    destruct (Z.ltb_spec now (request_creation_time_ m1 + timeout_seconds_ m1)) as [_|Hge];
      [|simpl in Hge; lia].
    cbn [andb app]. change (callbacks m) with (callbacks m1).
    change (contacted m) with (contacted m1). rewrite <-Hcb, <-Hcon.
    apply (process_restart boost now 7
      (Disconnect (before_entry boost (ErrorEvent (http_code IoTimeout)) Error_ m1)) u); [done| |done].
    etrans; [exact Hparsed|done].
Qed.

End Theorems.

(** ** Request headers *)

Section Headers.
Context (boost : Boost) {laws : BoostLaws boost}.
#[local] Abbreviation lower := (to_lower boost).

Lemma SetHeader_in_names name value hs :
  lower <$> (SetHeader_in boost name value hs).*1
  = if decide (lower name ∈ lower <$> hs.*1) then lower <$> hs.*1
    else (lower <$> hs.*1) ++ [lower name].
Proof.
  induction hs as [|[n v] hs IH]; [done|].
  csimpl. rewrite iequals_lower. case_bool_decide as E; csimpl.
  - clear IH. case_decide as H; [done|]. destruct H. rewrite E. constructor.
  - rewrite IH. clear IH. repeat case_decide; try done.
    + match goal with H : ~ _ |- _ => destruct H; by constructor end.
    + match goal with H : _ ∈ _ :: _ |- _ => by apply elem_of_cons in H as [?|?] end.
Qed.

Lemma SetHeader_in_lookup name value hs n v :
  NoDup (lower <$> hs.*1) ->
  (n, v) ∈ SetHeader_in boost name value hs ->
  lower n = lower name /\ v = value \/ lower n <> lower name /\ (n, v) ∈ hs.
Proof.
  induction hs as [|[n' v'] hs IH]; simpl; intros Hnd Hin.
  - apply list_elem_of_singleton in Hin. simplify_eq. by left.
  - apply NoDup_cons in Hnd as [Hn Hnd]. rewrite iequals_lower in Hin. case_bool_decide as E.
    + apply elem_of_cons in Hin as [?|Hin]; simplify_eq; [by left|]. right.
      split; [|by constructor]. intros E'. apply Hn. rewrite E, <-E'.
      apply list_elem_of_fmap_2, (list_elem_of_fmap_2 fst _ _ Hin).
    + apply elem_of_cons in Hin as [?|Hin]; simplify_eq; [right; split; [done|constructor]|].
      destruct (IH Hnd Hin) as [?|[??]]; [by left|right; split; [done|by constructor]].
Qed.

(** [SetHeader] keeps the names distinct up to case, gives the header its new value
    and leaves the others alone. *)
Theorem SetHeader_sets name value m n v :
  NoDup (lower <$> (send_headers_ m).*1) ->
  let hs := send_headers_ (SetHeader boost name value m) in
  NoDup (lower <$> hs.*1) /\ (lower name ∈ lower <$> hs.*1)
  /\ ((n, v) ∈ hs ->
      lower n = lower name /\ v = value \/ lower n <> lower name /\ (n, v) ∈ send_headers_ m).
Proof.
  intros Hnd hs. subst hs. unfold SetHeader. simpl. rewrite SetHeader_in_names.
  split; [|split; [|by apply SetHeader_in_lookup]]; case_decide; try done.
  - apply NoDup_app. split; [done|]. split; [by intros ? ? ->%list_elem_of_singleton|].
    apply NoDup_singleton.
  - apply elem_of_app. right. by constructor.
Qed.

End Headers.

(** ** Concrete runs *)

Lemma SetHeader_sets_witness :
  let m := NewMachine 0 (B "http://h/") Deny [(B "a", B "1"); (B "b", B "2")] None None in
  send_headers_ (SetHeader c_locale (B "b") (B "3") m) = [(B "a", B "1"); (B "b", B "3")]
  /\ (to_lower c_locale (B "a") = to_lower c_locale (B "b") /\ B "1" = B "3"
      \/ to_lower c_locale (B "a") <> to_lower c_locale (B "b") /\ (B "a", B "1") ∈ send_headers_ m).
Proof.
  intros m. split; [by vm_compute|].
  apply (SetHeader_sets c_locale (B "b") (B "3") m (B "a") (B "1")).
  - by apply (bool_decide_unpack _); vm_compute.
  - by apply (bool_decide_unpack _); vm_compute.
Defined.

(** What happens to a machine, for the runs below: the first operation completes, the
    delay is over, the timer fires, the user cancels. *)
Inductive input :=
  | Config (c : config) | Start | Completes (r : report) | DelayOver | TimerFires (now : Z)
  | Fails (code : error_code).

Definition machine_input (i : input) (m : Machine) : option Machine :=
  let process now e := ProcessEvent c_locale now e m in
  match i with
  | Config c => if decide (current m = Unstarted) then process 0 (ConfigEvent c) else None
  | Start => if decide (current m = Unstarted) then process 0 StartEvent else None
  | Completes r =>
      match ops m with
      | op :: ops =>
          match HttpMachine.HandleReport c_locale (op_state op) r m with
          | Some _ => HandleOperation c_locale 0 op r (set_ops ops m)
          | None => None
          end
      | [] => None
      end
  | DelayOver =>
      match delay_wait m with
      | Some (sd, data) => Some (DelayCallback sd data (set_delay_wait None m))
      | None => None
      end
  | TimerFires now =>
      match timer_ m with
      | Some (rp, tid) =>
          HandleAsyncTimeout c_locale now rp tid false (set_timer_ None m)
      | None => None
      end
  | Fails code => if decide (current m = Unstarted) then None else process 0 (ErrorEvent code)
  end.

Fixpoint run_machine (inputs : list input) (m : Machine) : option Machine :=
  match inputs with
  | [] => Some m
  | i :: inputs => match machine_input i m with Some m => run_machine inputs m | None => None end
  end.

Lemma machine_input_step i m m' :
  machine_input i m = Some m' -> step c_locale m m'.
Proof.
  intros H. destruct i; simpl in H.
  - case_decide; [|done]. by eapply StepConfig.
  - case_decide; [|done]. by eapply StepStart.
  - destruct (ops m) as [|op l] eqn:E; [done|].
    destruct (HttpMachine.HandleReport c_locale (op_state op) r m) eqn:Er; [|done].
    eapply (StepOperation _ 0 op r [] l); [done|congruence|done].
  - destruct (delay_wait m) as [[sd data]|] eqn:E; simplify_eq. by apply StepDelay.
  - destruct (timer_ m) as [[rp tid]|] eqn:E; [|done]. by eapply StepTimeout.
  - case_decide; [done|]. by eapply StepError.
Qed.

Lemma run_machine_reachable m0 inputs m m' :
  reachable c_locale m0 m -> run_machine inputs m = Some m' ->
  reachable c_locale m0 m'.
Proof.
  revert m. induction inputs as [|i inputs IH]; intros m H E; simplify_eq/=; [done|].
  destruct (machine_input i m) as [m1|] eqn:E1; [|done].
  eapply IH; [|done]. eapply ReachStep; [done|]. by apply machine_input_step with i.
Qed.

Definition ok : report := Reported false.

Definition example_machine : Machine :=
  NewMachine 0 (B "https://h/a") DenyDowngrade [(B "Connection", B "close")] None None.

Definition response_text (status : str) (headers : list (str * str)) : str :=
  B "HTTP/1.1 " ++ status ++ newline ++ concat (render_header <$> headers) ++ newline.

Definition redirect_to (url : str) : report :=
  let text := response_text (B "302 Found") [(B "Location", url)] in HeadersArrived text (length text).

Definition response : report :=
  let text := response_text (B "200 OK") [] in HeadersArrived text (length text).

Definition connect_ssl : list input := [Completes ok; Completes ok; Completes ok; Completes ok].

(** A request, redirected once, from the start to its end. *)
Definition example_run : list input :=
  [Start] ++ connect_ssl ++ [Completes (redirect_to (B "https://i/b"))] ++ connect_ssl
  ++ [Completes response; Completes (ContentEnded None)].

Definition after (inputs : list input) (m : Machine) : Machine := default m (run_machine inputs m).

Lemma after_reachable inputs m :
  run_machine inputs m <> None -> reachable c_locale m (after inputs m).
Proof.
  unfold after. intros H. destruct (run_machine inputs m) eqn:E; [|done].
  by eapply run_machine_reachable; [constructor|].
Qed.

Lemma example_ends : run_machine example_run example_machine <> None.
Proof. by vm_compute. Qed.

Lemma request_ends_once_witness :
  let m := after example_run example_machine in
  current m = Complete /\ filter is_end (callbacks m) = [RequestResponseCompleteEvent].
Proof.
  pose proof (request_ends_once c_locale 0 (B "https://h/a") DenyDowngrade
    [(B "Connection", B "close")] None None _ (after_reachable _ example_machine example_ends)) as H.
  assert (current (after example_run example_machine) = Complete) as Hc by by vm_compute.
  rewrite Hc in H. by split.
Defined.

Lemma redirects_respect_policy_witness :
  exists u v, contacted (after example_run example_machine) = [u; v] /\ scheme_ u = B "https"
    /\ Forall (fun v => scheme_ v = B "https") [v].
Proof.
  destruct (redirects_respect_policy c_locale 0 (B "https://h/a") DenyDowngrade
    [(B "Connection", B "close")] None None _ (after_reachable _ example_machine example_ends))
    as [H _].
  do 2 eexists. split; [by vm_compute|]. split; [done|].
  eapply (H ltac:(by vm_compute) [] _ [_]); [by vm_compute|done].
Defined.

(** A downgrade is refused. *)
Definition downgrade_run : list input :=
  [Start] ++ connect_ssl ++ [Completes (redirect_to (B "http://i/b"))].

Example downgrade_refused :
  let m := after downgrade_run example_machine in
  current m = FinalError /\ length (contacted m) = 1%nat
  /\ filter is_end (callbacks m) = [RequestResponseErrorEvent (http_code RedirectPermissionDenied)].
Proof. by vm_compute. Qed.

Definition started : Machine := after [Start] example_machine.

Lemma started_reachable : reachable c_locale example_machine started.
Proof. apply after_reachable. by vm_compute. Qed.

Lemma started_request_waits_witness : current started = Resolve /\ (armed started \/ delayed started).
Proof.
  split; [by vm_compute|].
  apply (started_request_waits c_locale 0 (B "https://h/a") DenyDowngrade
    [(B "Connection", B "close")] None None _ started_reachable); by vm_compute.
Defined.

Lemma error_is_reported_witness :
  exists m', ProcessEvent c_locale 5 (ErrorEvent (http_code HttpCancelled)) started = Some m'
    /\ current m' = FinalError
    /\ callbacks m' = callbacks started ++ [RequestResponseErrorEvent (http_code HttpCancelled)].
Proof. apply (error_is_reported c_locale 5 (http_code HttpCancelled) started); by vm_compute. Defined.

Lemma timeout_restarts_or_fails_witness :
  timer_ started = Some (1%nat, timeout_id_ started)
  /\ exists m', HandleAsyncTimeout c_locale 60 1 (timeout_id_ started) false started
                = Some m' /\ current m' = FinalError
       /\ callbacks m' = callbacks started ++ [RequestResponseErrorEvent (http_code IoTimeout)].
Proof.
  split; [by vm_compute|].
  apply (timeout_restarts_or_fails c_locale 60 1 started); by vm_compute.
Defined.

(** The operation of a cancelled request completes. *)
Lemma ended_request_is_silent_witness :
  let m := after [Start; Fails (http_code HttpCancelled)] example_machine in
  let m' := after [Completes ok] m in
  ops m <> ops m' /\ current m' = FinalError /\ callbacks m' = callbacks m /\ sent m' = sent m
  /\ contacted m' = contacted m.
Proof.
  intros m m'. assert (reachable c_locale example_machine m) as Hr.
  { apply after_reachable. by vm_compute. }
  assert (current m = FinalError) as Hc by by vm_compute.
  assert (step c_locale m m') as Hs.
  { apply machine_input_step with (Completes ok). by vm_compute. }
  split; [by vm_compute|]. rewrite <-Hc.
  apply (ended_request_is_silent c_locale 0 (B "https://h/a") DenyDowngrade
    [(B "Connection", B "close")] None None m m' Hr); [by rewrite Hc|done].
Defined.

(** A POST interface that throws when all of its (zero) bytes were read. *)
Definition throwing_run : list input :=
  [Config (ConfigPostDataPipe 0 [None]); Start] ++ connect_ssl.

Lemma transitions_proper_witness :
  Forall (fun p => p = (Error_, PostSent)) (improper (after throwing_run example_machine)).
Proof.
  apply (transitions_proper c_locale 0 (B "https://h/a") DenyDowngrade
    [(B "Connection", B "close")] None None), after_reachable. by vm_compute.
Defined.

(** A POST interface that throws after the announced bytes does drive a machine into
    the event without a row: [PostViaInterface] goes on after the exception. *)
Theorem throwing_interface_is_improper :
  exists m, reachable c_locale example_machine m
    /\ improper m = [(Error_, PostSent)] /\ current m = FinalError.
Proof.
  exists (after throwing_run example_machine). split; [|by vm_compute].
  apply after_reachable. by vm_compute.
Qed.
