(* ===== verification/HttpRequest.v ===== *)
(** * Requests and their configuration ([http/http_config], [http/http_request])

    [HttpConfig] holds what all requests share; [HttpRequest] is the front of the machine of
    [HttpMachine]: its methods send events, and the form of [Create] that takes a function
    collects what the machine reports into one response.

    A service of Asio is its identity; the one that a configuration makes for itself is the
    next identity that is not in use, an argument.  The context of TLS and the analyser of the
    bandwidth are opaque values. *)
From S2P Require Import Prelude Errors Boost Url HttpHeaders HttpMachine HttpMachineProofs HttpMachineTheorems.

Open Scope Z_scope.

Module HttpConfig.

Abbreviation service := nat.

(** [http/http_config.hpp:28-32 SelfSigned] *)
Inductive SelfSigned := Denied | Permitted.

Section Config.
Context (boost : Boost) {analyser context : Type} (DefaultSslContext : context).

(** [http/http_config.hpp:312-335 HttpConfig] *)
Record HttpConfig := {
  io_service_ : option service;          (** [None] is the null pointer *)
  owned_io_service_ : option service;
  default_callback_io_service_ : option service;
  bandwidth_analyser_ : option analyser;
  ssl_ctx_ : option context;
  http_proxy_ : option Proxy;
  https_proxy_ : option Proxy;
  self_signed_certs_allowed_ : SelfSigned;
  redirect_policy_ : RedirectPolicy;
  default_headers_ : list (str * str);
  bandwidth_usage_percent_ : Z }.

(** [http/detail/default_http_headers.hpp:19-24 default_headers] *)
Definition default_headers : list (str * str) :=
  [(B "Accept", B "*/*"); (B "Accept-Encoding", B "gzip"); (B "User-Agent", B "HttpRequester");
   (B "Connection", B "close")].

(** [http/http_config.cpp:99-107 HttpConfig] *)
Definition new_HttpConfig : HttpConfig :=
  {| io_service_ := None; owned_io_service_ := None; default_callback_io_service_ := None;
     bandwidth_analyser_ := None; ssl_ctx_ := None; http_proxy_ := None; https_proxy_ := None;
     self_signed_certs_allowed_ := Denied; redirect_policy_ := Allow;
     default_headers_ := default_headers; bandwidth_usage_percent_ := 100 |}.

#[local] Instance HttpConfig_members : Members HttpConfig := fun c =>
  Build_HttpConfig (io_service_ c) (owned_io_service_ c) (default_callback_io_service_ c)
    (bandwidth_analyser_ c) (ssl_ctx_ c) (http_proxy_ c) (https_proxy_ c)
    (self_signed_certs_allowed_ c) (redirect_policy_ c) (default_headers_ c)
    (bandwidth_usage_percent_ c).

(** [http/http_config.cpp:113-121 SetWorkIoService] *)
Definition SetWorkIoService (ios : service) (c : HttpConfig) : HttpConfig :=
  set_field io_service_ (Some ios) (set_field owned_io_service_ None c).

(** The service, and the configuration, whose members are mutable.
    [http/http_config.cpp:123-132 GetWorkIoService] *)
Definition GetWorkIoService (fresh : service) (c : HttpConfig) : service * HttpConfig :=
  match io_service_ c with
  | Some ios => (ios, c)
  | None =>
      (fresh, set_field io_service_ (Some fresh) (set_field owned_io_service_ (Some fresh) c))
  end.

(** [http/http_config.cpp:146-151 SetDefaultCallbackIoService] *)
Definition SetDefaultCallbackIoService (ios : service) (c : HttpConfig) : HttpConfig :=
  set_field default_callback_io_service_ (Some ios) c.

(** [http/http_config.cpp:153-159 GetDefaultCallbackIoService] *)
Definition GetDefaultCallbackIoService (fresh : service) (c : HttpConfig) :
    service * HttpConfig :=
  match default_callback_io_service_ c with
  | Some ios => (ios, c)
  | None => GetWorkIoService fresh c
  end.

(** [http/http_config.cpp:68-71 Create] *)
Definition Create : HttpConfig := new_HttpConfig.

(** [http/http_config.cpp:73-80 Create] *)
Definition Create_work (io_service : service) : HttpConfig :=
  SetWorkIoService io_service new_HttpConfig.

(** [http/http_config.cpp:82-91 Create] *)
Definition Create_work_callback (io_service callback_io_service : service) : HttpConfig :=
  SetDefaultCallbackIoService callback_io_service (SetWorkIoService io_service new_HttpConfig).

(** The copy shares the service that the original owns.
    [http/http_config.cpp:93-97 Clone] *)
Definition Clone (c : HttpConfig) : HttpConfig := c.

(** [http/http_config.cpp:161-164 SetBandwidthAnalyser] *)
Definition SetBandwidthAnalyser (bwa : analyser) (c : HttpConfig) : HttpConfig :=
  set_field bandwidth_analyser_ (Some bwa) c.

(** [http/http_config.cpp:171-179 GetSslContext] *)
Definition GetSslContext (c : HttpConfig) : context * HttpConfig :=
  match ssl_ctx_ c with
  | Some ctx => (ctx, c)
  | None => (DefaultSslContext, set_field ssl_ctx_ (Some DefaultSslContext) c)
  end.

(** [http/http_config.cpp:181-186 SetSslContext] *)
Definition SetSslContext (ctx : context) (c : HttpConfig) : HttpConfig :=
  set_field ssl_ctx_ (Some ctx) c.

(** [http/http_config.hpp:205-205 SetHttpProxy] *)
Definition SetHttpProxy (proxy : Proxy) (c : HttpConfig) : HttpConfig :=
  set_field http_proxy_ (Some proxy) c.

(** [http/http_config.hpp:210-210 RemoveHttpProxy] *)
Definition RemoveHttpProxy (c : HttpConfig) : HttpConfig := set_field http_proxy_ None c.

(** [http/http_config.hpp:224-224 SetHttpsProxy] *)
Definition SetHttpsProxy (proxy : Proxy) (c : HttpConfig) : HttpConfig :=
  set_field https_proxy_ (Some proxy) c.

(** [http/http_config.hpp:229-229 RemoveHttpsProxy] *)
Definition RemoveHttpsProxy (c : HttpConfig) : HttpConfig := set_field https_proxy_ None c.

(** [http/http_config.hpp:248-253 AllowSelfSignedCertificate] *)
Definition AllowSelfSignedCertificate (self_signed : SelfSigned) (c : HttpConfig) : HttpConfig :=
  set_field self_signed_certs_allowed_ self_signed c.

(** [http/http_config.hpp:269-269 SetRedirectPolicy] *)
Definition SetRedirectPolicy (policy : RedirectPolicy) (c : HttpConfig) : HttpConfig :=
  set_field redirect_policy_ policy c.

(** [http/http_config.hpp:283-283 SetDefaultHeaders] *)
Definition SetDefaultHeaders (headers : list (str * str)) (c : HttpConfig) : HttpConfig :=
  set_field default_headers_ headers c.

(** [http/http_config.hpp:305-305 SetBandwidthUsagePercent] *)
Definition SetBandwidthUsagePercent (v : Z) (c : HttpConfig) : HttpConfig :=
  set_field bandwidth_usage_percent_ v c.

(** The first header of this name gets the value, or a new one is appended.
    [http/http_config.cpp:188-202 AddDefaultHeader] *)
Fixpoint add_header (key value : str) (headers : list (str * str)) : list (str * str) :=
  match headers with
  | [] => [(key, value)]
  | (n, v) :: headers =>
      if iequals boost n key then (n, value) :: headers else (n, v) :: add_header key value headers
  end.

(** [http/http_config.cpp:188-202 AddDefaultHeader] *)
Definition AddDefaultHeader (key value : str) (c : HttpConfig) : HttpConfig :=
  set_field default_headers_ (add_header key value (default_headers_ c)) c.

(** The machine of a new request, with the members that the configuration gives.
    [http/detail/http_request_state_machine.hpp:187-213 HttpRequestMachine_] *)
Definition request_machine (now : Z) (url : str) (c : HttpConfig) : Machine :=
  NewMachine now url (redirect_policy_ c) (default_headers_ c) (http_proxy_ c) (https_proxy_ c).

(** The proxy that a request for this scheme uses, and whether certificates that sign
    themselves are accepted.
    [http/detail/http_request_state_machine.hpp:127-139 CertAllowToVerifyMode] *)
Definition CertAllowToVerifyMode (allowed : SelfSigned) : bool :=
  match allowed with Denied => true | Permitted => false end.

(** ** What a configuration promises *)

(** The value of a header; names are compared without their case. *)
Fixpoint header (name : str) (headers : list (str * str)) : option str :=
  match headers with
  | [] => None
  | (n, v) :: headers => if iequals boost n name then Some v else header name headers
  end.

Context `{!BoostLaws boost}.

Lemma iequals_refl s : iequals boost s s = true.
Proof. rewrite iequals_lower. by apply bool_decide_eq_true. Qed.

Lemma iequals_trans a b c :
  iequals boost a b = true -> iequals boost a c = iequals boost b c.
Proof. rewrite !iequals_lower, bool_decide_eq_true. by intros ->. Qed.

Lemma iequals_sym a b : iequals boost a b = iequals boost b a.
Proof. rewrite !iequals_lower. by apply bool_decide_ext. Qed.

Lemma header_add_header key value name headers :
  header name (add_header key value headers) =
  if iequals boost key name then Some value else header name headers.
Proof.
  induction headers as [|[n v] headers IH]; cbn; [done|].
  destruct (iequals boost n key) eqn:Hk; cbn.
  - by rewrite (iequals_trans n key name Hk); destruct (iequals boost key name).
  - rewrite IH. destruct (iequals boost n name) eqn:Hn; [|done].
    destruct (iequals boost key name) eqn:Hkn; [|done].
    rewrite (iequals_trans n name key Hn), iequals_sym in Hk. congruence.
Qed.

(** No two headers of the same name. *)
Definition distinct (headers : list (str * str)) : Prop :=
  NoDup ((fun h => to_lower boost h.1) <$> headers).

Lemma add_header_distinct key value headers :
  distinct headers -> distinct (add_header key value headers).
Proof.
  unfold distinct. intros Hd.
  assert ((fun h => to_lower boost h.1) <$> add_header key value headers =
    if decide (to_lower boost key ∈ ((fun h => to_lower boost h.1) <$> headers))
    then (fun h => to_lower boost h.1) <$> headers
    else ((fun h => to_lower boost h.1) <$> headers) ++ [to_lower boost key]) as ->.
  { clear Hd. induction headers as [|[n v] headers IH]; cbn; [done|].
    rewrite iequals_lower. case_bool_decide as Hn; cbn.
    - rewrite decide_True; [done|]. rewrite Hn. by left.
    - rewrite IH. destruct (decide (to_lower boost key ∈ _)) as [H1|H1].
      + rewrite decide_True; [done|by right].
      + rewrite decide_False; [done|]. by intros [?|?]%elem_of_cons. }
  case_decide; [done|]. apply NoDup_app. split_and!; [done| |apply NoDup_singleton].
  by intros x Hx ->%list_elem_of_singleton.
Qed.

(** A default header that was set is sent by the requests created afterwards, with the value
    that was set last for its name in any case; the other headers stay as they were, and the
    headers of a configuration keep distinct names. *)
Theorem default_header_is_sent now url key value (c : HttpConfig) :
  let headers := send_headers_ (request_machine now url (AddDefaultHeader key value c)) in
  (forall name, header name headers =
     if iequals boost key name then Some value
     else header name (send_headers_ (request_machine now url c))) /\
  (distinct (default_headers_ c) -> distinct headers).
Proof. split; [intros name; apply header_add_header|apply add_header_distinct]. Qed.

End Config.
End HttpConfig.

(** ** The certificates of a server ([http/detail/state_ssl_handshake.hpp]) *)
Module CertificateVerifier.

(** The results of OpenSSL's verification that have a name here. *)
Inductive x509_result :=
  | X509_V_OK
  | X509_V_ERR_UNABLE_TO_GET_ISSUER_CERT
  | X509_V_ERR_UNABLE_TO_GET_CRL
  | X509_V_ERR_UNABLE_TO_DECRYPT_CERT_SIGNATURE
  | X509_V_ERR_UNABLE_TO_DECRYPT_CRL_SIGNATURE
  | X509_V_ERR_UNABLE_TO_DECODE_ISSUER_PUBLIC_KEY
  | X509_V_ERR_CERT_SIGNATURE_FAILURE
  | X509_V_ERR_CRL_SIGNATURE_FAILURE
  | X509_V_ERR_CERT_NOT_YET_VALID
  | X509_V_ERR_CERT_HAS_EXPIRED
  | X509_V_ERR_CRL_NOT_YET_VALID
  | X509_V_ERR_CRL_HAS_EXPIRED
  | X509_V_ERR_ERROR_IN_CERT_NOT_BEFORE_FIELD
  | X509_V_ERR_ERROR_IN_CERT_NOT_AFTER_FIELD
  | X509_V_ERR_ERROR_IN_CRL_LAST_UPDATE_FIELD
  | X509_V_ERR_ERROR_IN_CRL_NEXT_UPDATE_FIELD
  | X509_V_ERR_OUT_OF_MEM
  | X509_V_ERR_DEPTH_ZERO_SELF_SIGNED_CERT
  | X509_V_ERR_SELF_SIGNED_CERT_IN_CHAIN
  | X509_V_ERR_UNABLE_TO_GET_ISSUER_CERT_LOCALLY
  | X509_V_ERR_UNABLE_TO_VERIFY_LEAF_SIGNATURE
  | X509_V_ERR_CERT_CHAIN_TOO_LONG
  | X509_V_ERR_CERT_REVOKED
  | X509_V_ERR_APPLICATION_VERIFICATION
  | X509_V_other (n : Z).

#[export] Instance x509_result_eq_dec : EqDecision x509_result.
Proof. solve_decision. Defined.

(** [http/detail/state_ssl_handshake.hpp:27-31 IsSelfSignedError] *)
Definition IsSelfSignedError (error : x509_result) : bool :=
  bool_decide (error = X509_V_ERR_DEPTH_ZERO_SELF_SIGNED_CERT)
  || bool_decide (error = X509_V_ERR_SELF_SIGNED_CERT_IN_CHAIN).

(** [http/detail/state_ssl_handshake.hpp:33-68 openssl_error_string] *)
Definition openssl_error_string (error : x509_result) : str :=
  match error with
  | X509_V_OK => B "X509_V_OK"
  | X509_V_ERR_UNABLE_TO_GET_ISSUER_CERT => B "X509_V_ERR_UNABLE_TO_GET_ISSUER_CERT"
  | X509_V_ERR_UNABLE_TO_GET_CRL => B "X509_V_ERR_UNABLE_TO_GET_CRL"
  | X509_V_ERR_UNABLE_TO_DECRYPT_CERT_SIGNATURE =>
      B "X509_V_ERR_UNABLE_TO_DECRYPT_CERT_SIGNATURE"
  | X509_V_ERR_UNABLE_TO_DECRYPT_CRL_SIGNATURE => B "X509_V_ERR_UNABLE_TO_DECRYPT_CRL_SIGNATURE"
  | X509_V_ERR_UNABLE_TO_DECODE_ISSUER_PUBLIC_KEY =>
      B "X509_V_ERR_UNABLE_TO_DECODE_ISSUER_PUBLIC_KEY"
  | X509_V_ERR_CERT_SIGNATURE_FAILURE => B "X509_V_ERR_CERT_SIGNATURE_FAILURE"
  | X509_V_ERR_CRL_SIGNATURE_FAILURE => B "X509_V_ERR_CRL_SIGNATURE_FAILURE"
  | X509_V_ERR_CERT_NOT_YET_VALID => B "X509_V_ERR_CERT_NOT_YET_VALID"
  | X509_V_ERR_CERT_HAS_EXPIRED => B "X509_V_ERR_CERT_HAS_EXPIRED"
  | X509_V_ERR_CRL_NOT_YET_VALID => B "X509_V_ERR_CRL_NOT_YET_VALID"
  | X509_V_ERR_CRL_HAS_EXPIRED => B "X509_V_ERR_CRL_HAS_EXPIRED"
  | X509_V_ERR_ERROR_IN_CERT_NOT_BEFORE_FIELD => B "X509_V_ERR_ERROR_IN_CERT_NOT_BEFORE_FIELD"
  | X509_V_ERR_ERROR_IN_CERT_NOT_AFTER_FIELD => B "X509_V_ERR_ERROR_IN_CERT_NOT_AFTER_FIELD"
  | X509_V_ERR_ERROR_IN_CRL_LAST_UPDATE_FIELD => B "X509_V_ERR_ERROR_IN_CRL_LAST_UPDATE_FIELD"
  | X509_V_ERR_ERROR_IN_CRL_NEXT_UPDATE_FIELD => B "X509_V_ERR_ERROR_IN_CRL_NEXT_UPDATE_FIELD"
  | X509_V_ERR_OUT_OF_MEM => B "X509_V_ERR_OUT_OF_MEM"
  | X509_V_ERR_DEPTH_ZERO_SELF_SIGNED_CERT => B "X509_V_ERR_DEPTH_ZERO_SELF_SIGNED_CERT"
  | X509_V_ERR_SELF_SIGNED_CERT_IN_CHAIN => B "X509_V_ERR_SELF_SIGNED_CERT_IN_CHAIN"
  | X509_V_ERR_UNABLE_TO_GET_ISSUER_CERT_LOCALLY =>
      B "X509_V_ERR_UNABLE_TO_GET_ISSUER_CERT_LOCALLY"
  | X509_V_ERR_UNABLE_TO_VERIFY_LEAF_SIGNATURE => B "X509_V_ERR_UNABLE_TO_VERIFY_LEAF_SIGNATURE"
  | X509_V_ERR_CERT_CHAIN_TOO_LONG => B "X509_V_ERR_CERT_CHAIN_TOO_LONG"
  | X509_V_ERR_CERT_REVOKED => B "X509_V_ERR_CERT_REVOKED"
  | X509_V_ERR_APPLICATION_VERIFICATION => B "X509_V_ERR_APPLICATION_VERIFICATION"
  | X509_V_other n => B "Unknown error: " ++ print_int n
  end.

(** One call of OpenSSL: what Boost's check of the host name says, the result so far, the
    subject of the certificate at hand.  The text of the errors grows.
    [http/detail/state_ssl_handshake.hpp:85-152 DebugCertificateVerifier] *)
Definition verify (verify_peer : bool) (rfc2818_verification : bool) (current_error : x509_result)
    (failed_cert : option str) (error_output : str) : bool * str :=
  if negb verify_peer && IsSelfSignedError current_error then (true, error_output)
  else if bool_decide (current_error <> X509_V_OK) then
    (rfc2818_verification,
     error_output ++ openssl_error_string current_error ++
     match failed_cert with Some subject => B "At certificate: " ++ subject | None => [] end)
  else (rfc2818_verification, error_output).

(** The certificates of a handshake, from the root to the server's: OpenSSL goes on while the
    callback accepts. *)
Fixpoint verify_chain (verify_peer : bool) (checks : list (bool * x509_result * option str))
    (error_output : str) : bool * str :=
  match checks with
  | [] => (true, error_output)
  | (ok, error, cert) :: checks =>
      let '(accepted, error_output) := verify verify_peer ok error cert error_output in
      if accepted then verify_chain verify_peer checks error_output else (false, error_output)
  end.

(** The callback accepts a chain when every check of it is in order, except, where the
    configuration permits it, that a certificate signs itself; nothing else is excused. *)
Theorem only_self_signed_is_excused allowed checks error_output :
  (verify_chain (HttpConfig.CertAllowToVerifyMode allowed) checks error_output).1 = true <->
  Forall (fun '(ok, error, _) => ok = true \/
    (allowed = HttpConfig.Permitted /\ IsSelfSignedError error = true)) checks.
Proof.
  revert error_output. induction checks as [|[[ok error] cert] checks IH]; intros out; cbn; [done|].
  rewrite Forall_cons. unfold verify. destruct allowed; cbn [HttpConfig.CertAllowToVerifyMode negb andb].
  - assert (forall out', (if ok then verify_chain true checks out' else (false, out')).1 = true <->
      (ok = true \/ (HttpConfig.Denied = HttpConfig.Permitted /\ IsSelfSignedError error = true)) /\
      Forall (fun '(ok, error, _) => ok = true \/
        (HttpConfig.Denied = HttpConfig.Permitted /\ IsSelfSignedError error = true)) checks) as Hc.
    { intros out'. destruct ok; cbn; [rewrite IH; tauto|]. split; [done|]. by intros [[?|[? _]] _]. }
    by case_bool_decide; apply Hc.
  - destruct (IsSelfSignedError error); [rewrite IH; tauto|].
    case_bool_decide; destruct ok; rewrite ?IH; cbn; (split; [|tauto]); try tauto; done.
Qed.

(** What OpenSSL documents of a client's handshake: with [SSL_VERIFY_NONE] it is continued
    whatever the verification said. *)
Definition handshake_continues (verify_peer : bool) (checks : list (bool * x509_result * option str)) :
    bool :=
  negb verify_peer || (verify_chain verify_peer checks []).1.

(** So certificates are checked by default, and a configuration that permits certificates
    that sign themselves accepts every other one as well, which the callback does not. *)
Theorem permitted_is_unchecked checks :
  (handshake_continues (HttpConfig.CertAllowToVerifyMode HttpConfig.Denied) checks = true <->
     Forall (fun '(ok, _, _) => ok = true) checks) /\
  handshake_continues (HttpConfig.CertAllowToVerifyMode HttpConfig.Permitted) checks = true.
Proof.
  split; [|done]. unfold handshake_continues. cbn [HttpConfig.CertAllowToVerifyMode negb orb].
  change true with (HttpConfig.CertAllowToVerifyMode HttpConfig.Denied) at 1.
  rewrite only_self_signed_is_excused. apply Forall_iff. intros [[ok error] cert].
  split; [by intros [?|[? _]]|by left].
Qed.
End CertificateVerifier.

(** ** A request with a function as its callback *)
Module Handler.

(** What the machine reports ([RequestResponseInterface]). *)
Inductive response_event :=
  | RedirectHeaderReceived (new_url : str)
  | ResponseHeaderReceived (headers : HeadersRead)
  | ResponseContentReceived (buffer : str)
  | RequestResponseErrorEvent (error_code : error_code) (error_text : str)
  | RequestResponseCompleteEvent.

(** [http/http_request.hpp:47-62 CallbackResponse] *)
Record CallbackResponse := {
  error_code_ : error_code;
  error_text : option str;
  redirects : list str;
  headers : option HeadersRead;      (** [None]: default constructed *)
  content : str }.
#[local] Instance CallbackResponse_members : Members CallbackResponse := fun r =>
  Build_CallbackResponse (error_code_ r) (error_text r) (redirects r) (headers r) (content r).

(** Where the function is called: by the handler itself, on the work service of the
    configuration, or on the service that was given for callbacks. *)
Inductive place := OnWorkService | OnCallbackService.

(** [http/http_request.cpp:200-202 Handler] *)
Record Handler := {
  response_ : CallbackResponse;
  posted : nat;                                  (** tasks posted and not run *)
  called : list (place * CallbackResponse) }.
#[local] Instance Handler_members : Members Handler := fun h =>
  Build_Handler (response_ h) (posted h) (called h).

(** [http/http_request.cpp:114-122 Handler] *)
Definition new_Handler : Handler :=
  {| response_ := {| error_code_ := no_error; error_text := None; redirects := [];
                     headers := None; content := [] |};
     posted := 0; called := [] |}.

(** [http/http_request.cpp:132-197 Handler] *)
Definition report (e : response_event) (h : Handler) : Handler :=
  let r := response_ h in
  match e with
  | RedirectHeaderReceived new_url =>
      set_field response_ (set_field redirects (redirects r ++ [new_url]) r) h
  | ResponseHeaderReceived hs => set_field response_ (set_field headers (Some hs) r) h
  | ResponseContentReceived buffer =>
      set_field response_ (set_field content (content r ++ buffer) r) h
  | RequestResponseErrorEvent ec text =>
      set_field posted (S (posted h))
        (set_field response_ (set_field error_code_ ec (set_field error_text (Some text) r)) h)
  | RequestResponseCompleteEvent => set_field called (called h ++ [(OnWorkService, r)]) h
  end.

(** A posted task runs; it reads [response_] when it does.
    [http/http_request.cpp:184-188 RequestResponseErrorEvent] *)
Definition run_posted (h : Handler) : option Handler :=
  match posted h with
  | O => None
  | S n => Some (set_field posted n
                   (set_field called (called h ++ [(OnCallbackService, response_ h)]) h))
  end.

Definition is_end (e : response_event) : bool :=
  match e with
  | RequestResponseErrorEvent _ _ | RequestResponseCompleteEvent => true
  | _ => false
  end.

Definition redirect_of (e : response_event) : option str :=
  match e with RedirectHeaderReceived u => Some u | _ => None end.
Definition headers_of (e : response_event) : option HeadersRead :=
  match e with ResponseHeaderReceived hs => Some hs | _ => None end.
Definition content_of (e : response_event) : str :=
  match e with ResponseContentReceived buffer => buffer | _ => [] end.

(** What has been collected before the end. *)
Definition collected (es : list response_event) : CallbackResponse :=
  {| error_code_ := no_error; error_text := None; redirects := omap redirect_of es;
     headers := last (omap headers_of es); content := es ≫= content_of |}.

Lemma report_collected es :
  Forall (fun e => is_end e = false) es ->
  foldl (fun h e => report e h) new_Handler es =
  {| response_ := collected es; posted := 0; called := [] |}.
Proof.
  induction es as [|e es IH] using rev_ind; [done|].
  intros [Hes He%Forall_inv]%Forall_app. rewrite foldl_app, (IH Hes). unfold collected.
  rewrite !omap_app, bind_app. destruct e; cbn; try done; by rewrite ?app_nil_r, ?last_snoc.
Qed.

(** C12 The function is called once, with everything that was reported: all redirects, the last
    headers, the content whole and in order, and the error if there was one.  After an error
    it is called on the callbacks' service; after a success it is called at once, on the work
    service. *)
Theorem function_gets_reply pre e :
  Forall (fun e => is_end e = false) pre -> is_end e = true ->
  let h := foldl (fun h e => report e h) new_Handler (pre ++ [e]) in
  match e with
  | RequestResponseErrorEvent ec text =>
      called h = [] /\
      exists h', run_posted h = Some h' /\ run_posted h' = None /\
        called h' = [(OnCallbackService,
                      {| error_code_ := ec; error_text := Some text;
                         redirects := omap redirect_of pre;
                         headers := last (omap headers_of pre); content := pre ≫= content_of |})]
  | _ => run_posted h = None /\ called h = [(OnWorkService, collected pre)]
  end.
Proof.
  intros Hpre He. rewrite foldl_app, (report_collected pre Hpre). destruct e; try done.
  split; [done|]. eexists. by split.
Qed.

(** A redirect, headers and a body in two parts; one of these ends with an error. *)
Definition example_headers : HeadersRead :=
  {| raw_headers := []; http_version := B "HTTP/1.1"; status_code := 200;
     status_message := B "OK"; hr_content_length := 5; hr_headers := ∅;
     hr_read_buffer := [] |}.

Definition example_reports : list response_event :=
  [RedirectHeaderReceived (B "http://h/b"); ResponseHeaderReceived example_headers;
   ResponseContentReceived (B "he"); ResponseContentReceived (B "llo")].

Lemma function_gets_reply_witness :
  called (foldl (fun h e => report e h) new_Handler
            (example_reports ++ [RequestResponseCompleteEvent])) =
    [(OnWorkService,
      {| error_code_ := no_error; error_text := None; redirects := [B "http://h/b"];
         headers := Some example_headers; content := B "hello" |})] /\
  exists h',
    run_posted (foldl (fun h e => report e h) new_Handler
      (example_reports ++ [RequestResponseErrorEvent (http_code IoTimeout) (B "late")])) = Some h' /\
    length (called h') = 1%nat.
Proof.
  split.
  - exact (proj2 (function_gets_reply example_reports RequestResponseCompleteEvent
      ltac:(by repeat constructor) eq_refl)).
  - destruct (function_gets_reply example_reports
      (RequestResponseErrorEvent (http_code IoTimeout) (B "late"))
      ltac:(by repeat constructor) eq_refl) as (_ & h' & Hr & _ & Hc).
    exists h'. split; [exact Hr|]. by rewrite Hc.
Defined.
End Handler.

(** ** The methods of a request *)

(** [http/http_request.cpp:228-300 HttpRequest] *)
Inductive method :=
  | SetPostData (raw_data : str)
  | SetPostDataPipe (size : Z) (chunks : list (option str))
  | SetHeader (name value : str)
  | SetRequestMethod (method : str)
  | Start
  | Cancel
  | Fail_ (error_code : error_code)
  | SetTimeout (timeout : Z).

(** The event that a method sends.
    [http/http_request.cpp:228-300 HttpRequest] *)
Definition method_event (m : method) : event :=
  match m with
  | SetPostData raw_data => ConfigEvent (ConfigPostData raw_data)
  | SetPostDataPipe size chunks => ConfigEvent (ConfigPostDataPipe size chunks)
  | SetHeader name value => ConfigEvent (ConfigHeader name value)
  | SetRequestMethod method => ConfigEvent (ConfigRequestMethod method)
  | Start => StartEvent
  | Cancel => ErrorEvent (http_code HttpCancelled)
  | Fail_ ec => ErrorEvent ec
  | SetTimeout timeout => ConfigEvent (ConfigTimeout timeout)
  end.
