(* ===== verification/BandwidthDelay.v ===== *)
(** * The delay between transmissions ([http/detail/http_request_state_machine.hpp])

    A configuration may limit the share of the bandwidth that requests use: after a
    transmission that took some time the machine waits a multiple of that time.  The
    multiplier is a [float], that is, a binary number of 24 digits; times are integers of
    nanoseconds. *)
From Stdlib Require Import SpecFloat.
From S2P Require Import Prelude HttpRequest.

Open Scope Z_scope.

(** ** Single precision *)

Definition float_prec : Z := 24.
Definition float_emax : Z := 128.

(** An integer that is converted, to the nearest number. *)
Definition float_of_Z (z : Z) : spec_float := binary_normalize float_prec float_emax z 0 false.

Definition float_mul := SFmul float_prec float_emax.
Definition float_sub := SFsub float_prec float_emax.
Definition float_div := SFdiv float_prec float_emax.

(** The integral part of a number that is not negative. *)
Definition truncate (m : positive) (e : Z) : Z :=
  if 0 <=? e then Zpos m * 2 ^ e else Zpos m / 2 ^ (- e).

(** Conversion to [uint32_t]; [None]: the behaviour is undefined, the integral part is not
    one. *)
Definition uint32_of_float (x : spec_float) : option Z :=
  match x with
  | S754_zero _ => Some 0
  | S754_finite s m e =>
      let n := truncate m e in
      if s then if n =? 0 then Some 0 else None
      else if n <? 2 ^ 32 then Some n else None
  | _ => None
  end.

(** ** The delay *)

(** The asserts aside, a percentage out of range counts as the nearest one in it.
    [http/detail/http_request_state_machine.hpp:108-125 MultiplierFromPercent] *)
Definition MultiplierFromPercent (percent : spec_float) : spec_float :=
  let percent :=
    if SFltb (float_of_Z 100) percent then float_of_Z 100
    else if SFltb percent (float_of_Z 1) then float_of_Z 1
    else percent in
  float_div (float_sub (float_of_Z 100) percent) percent.

(** The multiplier of a machine.
    [http/detail/http_request_state_machine.hpp:187-213 HttpRequestMachine_] *)
Definition delay_multiplier {analyser context}
    (c : HttpConfig.HttpConfig (analyser:=analyser) (context:=context)) : spec_float :=
  MultiplierFromPercent (float_of_Z (HttpConfig.bandwidth_usage_percent_ c)).

(** Microseconds, from the length of the transmission in nanoseconds.
    [http/detail/http_request_state_machine.hpp:376-394 SetTransactionDelayTimer] *)
Definition delay_microseconds (delay_multiplier : spec_float) (length : Z) : option Z :=
  let mss := u32 (Z.quot length 1000) in
  uint32_of_float (float_mul (float_of_Z mss) delay_multiplier).

(** When the timer expires.
    [http/detail/http_request_state_machine.hpp:376-399 SetTransactionDelayTimer] *)
Definition SetTransactionDelayTimer (delay_multiplier : spec_float) (last_write_end length : Z) :
    option Z :=
  mss ← delay_microseconds delay_multiplier length; Some (last_write_end + 1000 * mss).

(** From the start and the end of a write.
    [http/detail/http_request_state_machine.hpp:368-375 SetTransactionDelayTimer] *)
Definition SetTransactionDelayTimer_write (delay_multiplier : spec_float)
    (last_write_start last_write_end : Z) : option Z :=
  SetTransactionDelayTimer delay_multiplier last_write_end (last_write_end - last_write_start).

(** ** Converted integers are finite *)

Lemma digits2_bound m k : 0 <= k -> Zpos m < 2 ^ k -> Zpos (digits2_pos m) <= k.
Proof.
  revert k. induction m as [m IH|m IH|]; intros k Hk Hm; cbn [digits2_pos].
  1, 2: destruct (decide (k = 0)) as [->|Hk0]; [simpl in Hm; lia|];
    rewrite Pos2Z.inj_succ; assert (Zpos (digits2_pos m) <= k - 1); [|lia];
    apply IH; [lia|]; replace k with (Z.succ (k - 1)) in Hm by lia;
    rewrite Z.pow_succ_r in Hm by lia; lia.
  destruct (decide (k = 0)) as [->|Hk0]; [simpl in Hm; lia|lia].
Qed.

Lemma digits2_lower m : 2 ^ (Zpos (digits2_pos m) - 1) <= Zpos m < 2 ^ Zpos (digits2_pos m).
Proof.
  induction m as [m IH|m IH|]; cbn [digits2_pos]; [..|done].
  all: rewrite Pos2Z.inj_succ, (Z.pow_succ_r 2 (Zpos (digits2_pos m))) by lia;
    replace (Z.succ (Zpos (digits2_pos m)) - 1) with (Z.succ (Zpos (digits2_pos m) - 1)) by lia;
    rewrite Z.pow_succ_r by lia; lia.
Qed.

(** Shifting to the right makes a number smaller. *)
Definition below (z : Z) (r : shr_record) : Prop := 0 <= shr_m r <= z.

Lemma shr_1_below z r : below z r -> below z (shr_1 r).
Proof. destruct r as [[|[]|[]] ? ?]; unfold below; simpl; lia. Qed.

Lemma iter_below z n r : below z r -> below z (SpecFloat.iter_pos shr_1 n r).
Proof.
  revert r. induction n as [n IH|n IH|]; intros r Hr; cbn [SpecFloat.iter_pos].
  - by apply IH, IH, shr_1_below.
  - by apply IH, IH.
  - by apply shr_1_below.
Qed.

Lemma Zdigits2_bound z k : 0 <= k -> 0 <= z < 2 ^ k -> 0 <= Zdigits2 z <= k.
Proof.
  intros Hk Hz. destruct z as [|m|m]; [simpl; lia| |lia]. cbn [Zdigits2].
  pose proof (digits2_bound m k Hk ltac:(lia)). lia.
Qed.

Lemma shr_fexp_bound z k e l :
  0 <= k -> 0 <= z < 2 ^ k -> 
  let '(r, e') := shr_fexp float_prec float_emax z e l in
  below z r /\ e' <= Z.max e (Z.max (k + e - 24) (-149)).
Proof.
  intros Hk Hz. pose proof (Zdigits2_bound z k Hk Hz) as Hd. unfold shr_fexp, shr.
  assert (below z (shr_record_of_loc z l)) as Hb
    by (unfold below; destruct l as [|[]]; simpl; lia).
  unfold fexp, emin, float_prec, float_emax.
  destruct (Z.max _ _ - e) as [|n|n] eqn:En; (split; [first [done|by apply iter_below]|lia]).
Qed.

Lemma rounded_bound z l : 0 <= z -> 0 <= round_nearest_even z l <= z + 1.
Proof. intros Hz. destruct l as [|[]]; simpl; try lia. destruct (Z.even z); lia. Qed.

Lemma round_aux_finite m e k :
  0 <= k <= 64 -> Zpos m < 2 ^ k -> e <= 0 ->
  match binary_round_aux float_prec float_emax false (Zpos m) e loc_Exact with
  | S754_zero _ | S754_finite false _ _ => True
  | _ => False
  end.
Proof.
  intros Hk Hm He. unfold binary_round_aux.
  pose proof (shr_fexp_bound (Zpos m) k e loc_Exact ltac:(lia) ltac:(lia)) as H1.
  destruct (shr_fexp _ _ (Zpos m) e loc_Exact) as [r1 e1]. destruct H1 as [[Hr0 Hr1] He1].
  set (z := round_nearest_even _ _). assert (0 <= z < 2 ^ (k + 1)) as Hz.
  { pose proof (rounded_bound (shr_m r1) (loc_of_shr_record r1) Hr0). fold z in H.
    rewrite Z.pow_add_r by lia. lia. }
  pose proof (shr_fexp_bound z (k + 1) e1 loc_Exact ltac:(lia) Hz) as H2.
  destruct (shr_fexp _ _ z e1 loc_Exact) as [r2 e2]. destruct H2 as [[Hr2 _] He2].
  destruct (shr_m r2) as [|m2|m2]; [done| |lia].
  destruct (Z.leb_spec e2 (float_emax - float_prec)); [done|].
  unfold float_emax, float_prec in *. lia.
Qed.

Lemma iter_xO m d : Zpos (Pos.iter xO m d) = Zpos m * 2 ^ Zpos d.
Proof.
  induction d as [|d IH] using Pos.peano_ind; [simpl; lia|].
  rewrite Pos.iter_succ, Pos2Z.inj_succ, Z.pow_succ_r by lia. lia.
Qed.

Lemma float_of_Z_finite n : 0 <= n < 2 ^ 32 ->
  match float_of_Z n with S754_zero _ | S754_finite false _ _ => True | _ => False end.
Proof.
  intros Hn. unfold float_of_Z, binary_normalize. destruct n as [|m|m]; [done| |lia].
  unfold binary_round, shl_align.
  destruct (fexp float_prec float_emax (Zpos (digits2_pos m) + 0) - 0) as [|d|d] eqn:Ed.
  1, 2: apply (round_aux_finite m 0 32); lia.
  apply (round_aux_finite _ _ 32); [lia| |lia].
  rewrite iter_xO. unfold fexp, emin, float_prec, float_emax in Ed.
  destruct (digits2_lower m) as [_ Hu].
  assert (Zpos d <= 24 - Zpos (digits2_pos m)) by lia.
  assert (2 ^ Zpos (digits2_pos m) * 2 ^ Zpos d <= 2 ^ 24).
  { rewrite <-Z.pow_add_r by lia. apply Z.pow_le_mono_r; lia. }
  assert (0 < 2 ^ Zpos d) by (apply Z.pow_pos_nonneg; lia). nia.
Qed.

(** ** What the delay is *)

(** A configuration as it is created lets requests use the whole bandwidth: no
    transmission is followed by a delay, however long it took. *)
Theorem full_bandwidth_never_waits {analyser context : Type} last_write_end length :
  SetTransactionDelayTimer
    (delay_multiplier (HttpConfig.new_HttpConfig (analyser:=analyser) (context:=context)))
    last_write_end length = Some last_write_end.
Proof.
  assert (delay_multiplier (HttpConfig.new_HttpConfig (analyser:=analyser) (context:=context)) =
    S754_zero false) as -> by by vm_compute.
  unfold SetTransactionDelayTimer, delay_microseconds.
  pose proof (float_of_Z_finite (u32 (Z.quot length 1000))
    ltac:(unfold u32; apply Z.mod_pos_bound; lia)) as Hf.
  destruct (float_of_Z _) as [s|s| |[|] m e]; try done; cbn; f_equal; lia.
Qed.

Definition percents : list Z := seqZ 1 99.

(** The number is the one of 24 digits that is nearest to [(100 - p) / p]. *)
Definition nearest (p : Z) (x : spec_float) : bool :=
  match x with
  | S754_finite false m e =>
      (e <? 0) && (2 ^ 23 <=? Zpos m) && (Zpos m <? 2 ^ 24) &&
      (2 * Z.abs (Zpos m * p - (100 - p) * 2 ^ (- e)) <=? p)
  | _ => false
  end.

Lemma all_nearest : forallb (fun p => nearest p (MultiplierFromPercent (float_of_Z p))) percents = true.
Proof. by vm_compute. Qed.

(** For every share below the whole bandwidth the multiplier is the rounded quotient of the
    share that is left and the share that is used; nothing counts as one per cent. *)
Theorem multiplier_is_nearest :
  (forall p, 1 <= p < 100 -> nearest p (MultiplierFromPercent (float_of_Z p)) = true) /\
  MultiplierFromPercent (float_of_Z 0) = MultiplierFromPercent (float_of_Z 1).
Proof.
  split; [|by vm_compute]. intros p Hp. pose proof all_nearest as Hall.
  rewrite forallb_forall in Hall. apply Hall, list_elem_of_In, elem_of_seqZ. lia.
Qed.

(** With one per cent, the delay after a write of 44 seconds is more than 71 minutes, which
    is not a [uint32_t] of microseconds: its conversion is undefined.  After 43 seconds it is 70
    minutes and 57 seconds. *)
Theorem long_write_delay_undefined :
  let multiplier := MultiplierFromPercent (float_of_Z 1) in
  delay_microseconds multiplier (44 * 10 ^ 9) = None /\
  delay_microseconds multiplier (43 * 10 ^ 9) = Some 4256999936.
Proof. by vm_compute. Qed.
