(* ===== verification/HttpWire.v ===== *)
(** * What a request sends ([http/detail/state_send_header.hpp],
    [http/detail/state_send_post.hpp])

    A server's side of a request: how the text of a request is read back, and what has been
    written to the socket when the reply is awaited.  The reader of the header lines is that of
    [HttpHeaders], which reads the lines of any message. *)
From S2P Require Import Prelude Errors Boost Base64 Url HttpHeaders HttpContent HttpMachine HttpMachineProofs HttpRequest.

Open Scope Z_scope.

Section Wire.
Context (boost : Boost) {laws : BoostLaws boost}.
#[local] Abbreviation reachable := (HttpMachine.reachable boost).
#[local] Abbreviation process_one := (HttpMachine.process_one boost).
#[local] Abbreviation HandleReport := (HttpMachine.HandleReport boost).
#[local] Abbreviation RequestText := (HttpMachine.RequestText boost).

(** ** Reading a request *)

(** The request line's method and target, its version as HTTP/1.1. *)
Definition read_request_line (line : str) : option (str * str) :=
  '(method, rest) ← split_at " " line;
  '(target, version) ← split_at " " rest;
  if decide (version = B "HTTP/1.1" ++ ["013"%char]) then Some (method, target) else None.

(** Method, target, headers and body. *)
Definition read_request (s : str) : option (str * str * HeaderMap * str) :=
  let '(line, rest) := getline s in
  '(method, target) ← read_request_line line;
  match header_loop boost (header_fuel rest) ∅ [] rest with
  | Lines headers body => Some (method, target, headers, body)
  | _ => None
  end.

(** What a request is for, and the headers it sends. *)
Definition target (m : Machine) (u : Url) : str :=
  if UsingProxy m then full_url_ u else full_path_ u.

Definition proxy_header (m : Machine) : list (str * str) :=
  if is_ssl_ m then []
  else match CurrentProxy m with
       | Some p => if bool_decide (username p = []) then []
                   else [(B "Proxy-Authorization", B "Basic " ++ basic_credentials p)]
       | None => []
       end.

Definition is_sent (is_ssl : bool) (h : str * str) : Prop :=
  is_ssl && iequals boost h.1 (B "accept-encoding") = false.
#[export] Instance is_sent_dec is_ssl h : Decision (is_sent is_ssl h).
Proof. unfold is_sent. apply _. Defined.

Definition sent_headers (m : Machine) (u : Url) : list (str * str) :=
  (B "Host", host_ u) :: proxy_header m ++ filter (is_sent (is_ssl_ m)) (send_headers_ m).

(** No blank and no end of line. *)
Definition one_word (s : str) : Prop := (" "%char ∉ s) /\ ("010"%char ∉ s).

Definition request_line (m : Machine) (u : Url) : str :=
  request_method_ m ++ " "%char :: target m u ++ " "%char :: B "HTTP/1.1" ++ ["013"%char].

Lemma RequestText_render m u :
  RequestText m u =
  request_line m u ++ "010"%char :: concat (render_header <$> sent_headers m u) ++ crlf_.
Proof.
  unfold HttpMachine.RequestText, request_line, target, sent_headers.
  rewrite fmap_cons, fmap_app. cbn [concat]. rewrite concat_app.
  assert (concat (request_header_line boost (is_ssl_ m) <$> send_headers_ m)
    = concat (render_header <$> filter (is_sent (is_ssl_ m)) (send_headers_ m))) as ->.
  { induction (send_headers_ m) as [|h hs IH]; [done|]. rewrite filter_cons.
    cbn [fmap list_fmap concat] in *. rewrite IH. unfold request_header_line at 1.
    case_decide as Hs; unfold is_sent in Hs; [by rewrite Hs|].
    by apply not_false_is_true in Hs as ->. }
  assert ((if negb (is_ssl_ m) then
      match CurrentProxy m with
      | Some p => if bool_decide (username p = []) then []
                  else B "Proxy-Authorization: Basic " ++ basic_credentials p ++ newline
      | None => []
      end else []) = concat (render_header <$> proxy_header m)) as ->.
  { unfold proxy_header. destruct (is_ssl_ m); [done|]. cbn [negb].
    destruct (CurrentProxy m) as [p|]; [|done]. case_bool_decide; [done|].
    cbn [fmap list_fmap concat]. unfold render_header. cbn [fst snd]. rewrite app_nil_r.
    by rewrite <-!app_assoc. }
  change (render_header (B "Host", host_ u)) with (B "Host" ++ B ": " ++ host_ u ++ newline).
  rewrite <-!app_assoc. cbn [app]. by rewrite <-!app_assoc.
Qed.

(** The text of a request and what follows it are read back: the method, the target, the
    headers, of each name the first, and the body. *)
Lemma read_request_text m u body :
  one_word (request_method_ m) -> one_word (target m u) ->
  Forall clean_header (sent_headers m u) ->
  read_request (RequestText m u ++ body) =
  Some (request_method_ m, target m u, header_map boost (sent_headers m u) ∅, body).
Proof.
  intros [Hm1 Hm2] [Ht1 Ht2] Hh. rewrite RequestText_render. unfold read_request.
  rewrite <-app_assoc. cbn [app]. rewrite getline_app.
  2: { unfold request_line. rewrite elem_of_app, elem_of_cons, elem_of_app, elem_of_cons.
       intros [?|[?|[?|[?|Hv]]]]; try done. revert Hv. apply (bool_decide_unpack _). by vm_compute. }
  unfold read_request_line, request_line.
  rewrite (proj2 (split_at_spec " " _ (request_method_ m) _)) by (split; [reflexivity|done]).
  cbn [mbind option_bind].
  rewrite (proj2 (split_at_spec " " _ (target m u) _)) by (split; [reflexivity|done]).
  cbn [mbind option_bind]. rewrite decide_True by done. cbn [mbind option_bind].
  rewrite <-app_assoc. by rewrite (header_loop_render boost _ _ _ _ _ Hh (header_fuel_enough _ _ Hh)).
Qed.

(** A header as the reader finds it: the first of its name. *)
Lemma header_map_lookup hs name headers :
  header_map boost hs headers !! header_key (to_lower boost name) =
  match headers !! header_key (to_lower boost name) with
  | Some v => Some v
  | None => HttpConfig.header boost name hs
  end.
Proof.
  revert headers. induction hs as [|[n v] hs IH]; intros headers; [by cbn; case_match|].
  change (header_map boost ((n, v) :: hs) headers)
    with (header_map boost hs (emplace (to_lower boost n) v headers)).
  rewrite IH. cbn [HttpConfig.header]. rewrite iequals_lower. unfold emplace.
  destruct (headers !! header_key (to_lower boost n)) as [w|] eqn:Hn; case_bool_decide as He.
  - by rewrite <-He, Hn.
  - done.
  - rewrite <-He, lookup_insert_eq, Hn. done.
  - rewrite lookup_insert_ne; [done|]. intros Hk. apply He.
    apply (f_equal String.list_ascii_of_string) in Hk. unfold header_key in Hk.
    by rewrite !String.list_ascii_of_string_of_list_ascii in Hk.
Qed.

(** ** What has been written when the reply is awaited *)

(** A chunk waits to be written. *)
Definition write_waits (m : Machine) : Prop :=
  exists sd data, delay_wait m = Some (sd, DelayedWrite data).

(** What a configured request keeps; there is no interface for the data. *)
Definition kept (m m' : Machine) : Prop :=
  request_method_ m' = request_method_ m /\ send_headers_ m' = send_headers_ m
  /\ http_proxy_ m' = http_proxy_ m /\ https_proxy_ m' = https_proxy_ m
  /\ post_data_ m' = post_data_ m
  /\ (post_interface_ m = None -> post_interface_ m' = None)
  /\ (post_interface_ m = None -> ~ write_waits m -> ~ write_waits m').

#[local] Instance kept_refl : Reflexive kept.
Proof. intros m. by repeat split. Qed.
#[local] Instance kept_trans : Transitive kept.
Proof. unfold kept. intros a b c ? ?. naive_solver congruence. Qed.

Lemma RequestText_kept m m' u :
  kept m m' -> is_ssl_ m' = is_ssl_ m -> RequestText m' u = RequestText m u.
Proof.
  intros (Hm & Hh & Hp & Hp' & _) Hs.
  unfold HttpMachine.RequestText, UsingProxy, CurrentProxy. by rewrite Hs, Hm, Hh, Hp, Hp'.
Qed.

(** What the entry of a state writes. *)
Definition entry_writes (s : state) (m : Machine) : list str :=
  match s with
  | ProxyConnect => option_list (ProxyConnectText m <$> parsed_url_ m)
  | SendHeader => option_list (RequestText m <$> parsed_url_ m)
  | SendPost => option_list (post_data_ m)
  | _ => []
  end.

Lemma on_entry_kept now s e m :
  kept m (HttpMachine.on_entry boost now s e m).1
  /\ sent (HttpMachine.on_entry boost now s e m).1 = sent m ++ entry_writes s m.
Proof.
  unfold kept, entry_writes, HttpMachine.on_entry, DoInit, SendPost_on_entry, PostViaInterface,
    ParseHeaders_on_entry, Redirect_on_entry, Error_on_entry, HttpMachine.ReadContent_entry,
    CancelDelay, StartOperation, NewStateData, Disconnect, write.
  destruct s; cbn -[ProxyConnectText HttpMachine.RequestText B app ReadContent_on_entry ParseUrl];
    repeat case_match; simplify_eq;
    split_and!; intros; rewrite ?app_nil_r; try done; simplify_eq/=.
  by intros (? & ? & ?).
Qed.

(** What a request wrote last, once its header is sent. *)
Definition last_writes (s : state) (text body : str) : option (list str) :=
  match s with
  | SendHeader => Some [text]
  | SendPost | ReadHeaders | ParseHeaders | ReadContent | Complete => Some [text; body]
  | _ => None
  end.

(** A request for these data, between its start and its end. *)
Record posts (method : str) (headers : list (str * str)) (p1 p2 : option Proxy) (body : str)
    (m : Machine) : Prop := {
  posts_method : request_method_ m = method;
  posts_headers : send_headers_ m = headers;
  posts_http_proxy : http_proxy_ m = p1;
  posts_https_proxy : https_proxy_ m = p2;
  posts_data : post_data_ m = Some body;
  posts_interface : post_interface_ m = None;
  posts_delay : ~ write_waits m;
  posts_started : current m <> Unstarted;
  posts_sent u writes :
    parsed_url_ m = Some u -> last_writes (current m) (RequestText m u) body = Some writes ->
    exists pre, sent m = pre ++ writes }.

(** No event is processed: nothing is written and the state stays. *)
Lemma posts_settled method headers p1 p2 body m m' :
  settled m m' -> kept m m' -> sent m' = sent m ->
  posts method headers p1 p2 body m -> posts method headers p1 p2 body m'.
Proof.
  intros (Hc & _ & _ & Hssl & Hp & _) Hk Hs [????? Hi Hd ? Hw].
  pose proof (fun u => RequestText_kept m m' u Hk Hssl) as Ht.
  destruct Hk as (? & ? & ? & ? & ? & Hki & Hkd).
  split; try congruence; [by apply Hki|by apply Hkd|].
  intros u writes. rewrite Hc, Hp, Hs, Ht. apply Hw.
Qed.

Lemma StartOperation_kept m : kept m (StartOperation m) /\ sent (StartOperation m) = sent m.
Proof. unfold StartOperation. by case_match; repeat split. Qed.

Lemma DelayRead_kept chunk m : kept m (DelayRead chunk m) /\ sent (DelayRead chunk m) = sent m.
Proof.
  split; [|done]. split_and!; try done. intros _ _ (sd & data & Hw). cbn in Hw.
  destruct (live_state_data m), chunk; by simplify_eq/=.
Qed.

Lemma HandleReport_kept s r m m' q :
  post_interface_ m = None -> HandleReport s r m = Some (m', q) -> kept m m' /\ sent m' = sent m.
Proof.
  intros Hp H. pose proof (StartOperation_kept m).
  unfold HttpMachine.HandleReport, HandleProxyConnectWrite, HandlePostWrite in H.
  rewrite Hp in H. repeat case_match; simplify_eq; first [done|apply DelayRead_kept|by repeat split].
Qed.

Lemma transition_writes s e m t text body writes :
  transition_table s e m = Some t -> s <> Unstarted -> t <> SendHeader ->
  post_data_ m = Some body -> last_writes t text body = Some writes ->
  exists before, last_writes s text body = Some before /\ writes = before ++ entry_writes t m.
Proof.
  intros Ht Hs Hh Hd Hw. destruct s, e; simpl in Ht; unfold HasPost in Ht; rewrite ?Hd in Ht;
    repeat case_match; simplify_eq; cbn in Hw; simplify_eq; unfold entry_writes; rewrite ?Hd;
    eexists; by (split; [done|]).
Qed.

Lemma process_one_posts method headers p1 p2 body now e m :
  posts method headers p1 p2 body m -> posts method headers p1 p2 body (process_one now e m).1.
Proof.
  intros Hp. destruct (process_one_cases boost now e m)
    as [(_ & ->)|[(_ & _ & ->)|(t & Hc & Ht & ->)]]; [done|by destruct Hp|].
  destruct (on_entry_frame boost now t e (before_entry boost e t m)) as [Ecur _ _ _ _ _ _ Econ Eurl].
  destruct (on_entry_kept now t e (before_entry boost e t m)) as [Hk Hs].
  assert (before_entry boost e t m = set_current t (on_exit m)) as Hb.
  { unfold before_entry. destruct Hp. by destruct (current m). }
  rewrite Hb in *. clear Hb. change (current (set_current t (on_exit m))) with t in Ecur.
  set (m' := (on_entry boost now t e _).1) in *.
  assert (kept m m') as Hkm by exact Hk.
  clear Hk. pose proof Hkm as (? & ? & ? & ? & ? & Hki & Hkd). destruct Hp as [????? Hi Hd Hu Hw].
  split; try congruence; [by apply Hki|by apply Hkd| |].
  - rewrite Ecur. intros ->. destruct (current m), e; simpl in Ht; repeat case_match; done.
  - intros u writes. rewrite Ecur, Hs. intros Hu' Hlast.
    assert (t <> Initializing /\ t <> Redirect) as [Hni Hnr] by by destruct t.
    destruct (Econ Hni) as [_ Hssl], (Eurl Hni Hnr) as [Hpu _].
    rewrite Hpu in Hu'. rewrite (RequestText_kept m m' u Hkm Hssl) in Hlast.
    destruct (decide (t = SendHeader)) as [->|Hnh].
    + cbn in Hlast. simplify_eq. exists (sent m). cbn [entry_writes]. by rewrite Hu'.
    + destruct (transition_writes _ _ _ _ _ _ _ Ht Hu Hnh posts_data0 Hlast) as (before & Hb1 & ->).
      destruct (Hw u before Hu' Hb1) as [pre Hpre]. exists pre.
      change (sent (set_current t (on_exit m))) with (sent m). rewrite Hpre, <-app_assoc. by destruct t.
Qed.

Lemma step_posts method headers p1 p2 body m m' :
  HttpMachine.step boost m m' ->
  posts method headers p1 p2 body m -> posts method headers p1 p2 body m'.
Proof.
  set (P := posts method headers p1 p2 body). intros Hs Hm.
  assert (forall now e m, P m -> P (process_one now e m).1) as Hone by (intros; by apply process_one_posts).
  assert (forall m', settled m m' -> kept m m' -> sent m' = sent m -> P m') as Hset
    by (intros; by eapply posts_settled).
  destruct Hs as [now c m m' _ H|now m m' _ H|now op r before after m m' _ _ H|sd d m Hd
    |now rp tid m m' _ H|now ec m m' _ H];
    try (by apply (process_ind boost P now event_fuel (Hone now) _ _ _ H)).
  - unfold HttpMachine.HandleOperation in H.
    repeat (case_match; simplify_eq); try (by apply Hset; repeat split).
    match goal with HR : HttpMachine.HandleReport _ _ _ _ = Some _ |- _ =>
      pose proof (HandleReport_settled boost _ _ _ _ _ HR) as Hst;
      apply HandleReport_kept in HR as [Hk Hw]; [|exact (posts_interface _ _ _ _ _ m Hm)] end.
    apply (send_all_ind boost P now (Hone now) _ _ _ H). apply Hset; [..|exact Hw].
    + etrans; [|exact Hst]. by repeat split.
    + etrans; [|exact Hk]. by repeat split.
  - assert (forall data, d <> DelayedWrite data) as Hnw
      by (intros data ->; destruct (posts_delay _ _ _ _ _ m Hm); by exists sd, data).
    assert (kept m (set_delay_wait None m)) as Hk0
      by (split_and!; try done; by intros _ _ (? & ? & ?)).
    destruct (StartOperation_kept (set_delay_wait None m)) as [Hk1 Hw1].
    destruct (StartOperation_kept (set_transmission_delay_timer_enabled_ false (set_delay_wait None m)))
      as [Hk2 Hw2].
    apply Hset; [etrans; [|apply DelayCallback_settled]; by repeat split|..];
      (destruct d; [by destruct (Hnw post_data)|..]; cbn [DelayCallback];
       unfold HandleContentReadDelayCallback, HandleContentChunkSizeReadDelay;
       repeat case_match; first [done|by etrans; [exact Hk0|]|exact Hw1|exact Hw2]).
  - unfold HttpMachine.HandleAsyncTimeout in H.
    repeat (case_match; simplify_eq); try (by apply Hset; repeat split).
    apply (process_ind boost P now event_fuel (Hone now) _ _ _ H). by apply Hset; repeat split.
Qed.

(** A request that is started with these data. *)
Lemma started_posts now m0 m1 body :
  current m0 = Unstarted -> post_data_ m0 = Some body -> post_interface_ m0 = None ->
  ~ write_waits m0 -> HttpMachine.ProcessEvent boost now StartEvent m0 = Some m1 ->
  posts (request_method_ m0) (send_headers_ m0) (http_proxy_ m0) (https_proxy_ m0) body m1.
Proof.
  intros Hc Hd Hi Hw H. unfold HttpMachine.ProcessEvent, event_fuel in H.
  rewrite process_cons in H. destruct (process_one now StartEvent m0) as [m q] eqn:E.
  eapply process_ind; [intros; by apply process_one_posts|exact H|].
  assert (process_one now StartEvent m0 =
    HttpMachine.on_entry boost now Initializing StartEvent (set_current Initializing (on_exit m0))) as E1
    by (unfold HttpMachine.process_one; cbn -[HttpMachine.on_entry]; by rewrite Hc).
  rewrite E1 in E. clear E1.
  pose proof (on_entry_kept now Initializing StartEvent (set_current Initializing (on_exit m0)))
    as [(? & ? & ? & ? & Hkp & Hki & Hkd) _].
  destruct (on_entry_frame boost now Initializing StartEvent (set_current Initializing (on_exit m0)))
    as [Ecur _ _ _ _ _ _ _ _].
  rewrite E in *. cbn [fst] in *.
  split; try done; [by rewrite Hkp|by apply Hki|by apply Hkd|by rewrite Ecur|].
  intros u writes _. by rewrite Ecur.
Qed.

Lemma reachable_posts now m0 m1 m body :
  current m0 = Unstarted -> post_data_ m0 = Some body -> post_interface_ m0 = None ->
  ~ write_waits m0 -> HttpMachine.ProcessEvent boost now StartEvent m0 = Some m1 ->
  reachable m1 m ->
  posts (request_method_ m0) (send_headers_ m0) (http_proxy_ m0) (https_proxy_ m0) body m.
Proof.
  intros Hc Hd Hi Hw H Hr. pose proof (started_posts now m0 m1 body Hc Hd Hi Hw H) as Hp.
  clear -Hp Hr. induction Hr as [|m m' _ IH Hs]; [done|]. by eapply step_posts.
Qed.

(** When the reply is awaited, header and data of the request have been written last, and
    the server reads them back. *)
Definition awaits_reply (s : state) : bool :=
  match s with ReadHeaders | ParseHeaders | ReadContent => true | _ => false end.

Lemma posted_is_read method headers p1 p2 body m u :
  posts method headers p1 p2 body m -> awaits_reply (current m) = true ->
  parsed_url_ m = Some u -> one_word method -> one_word (target m u) ->
  Forall clean_header (sent_headers m u) ->
  exists pre text, sent m = pre ++ [text; body] /\
    read_request (text ++ body) =
      Some (method, target m u, header_map boost (sent_headers m u) ∅, body).
Proof.
  intros [Hpm _ _ _ _ _ _ _ Hs] Ha Hu Hm Ht Hh.
  destruct (Hs u [RequestText m u; body] Hu) as [pre Hpre]; [by destruct (current m)|].
  exists pre, (RequestText m u). split; [done|]. rewrite <-Hpm in *. by apply read_request_text.
Qed.
End Wire.

(** ** Numbers as they are printed *)

Lemma take_digits_snoc acc a b : Forall (fun c => is_digit c = true) a ->
  take_digits acc (a ++ b) = take_digits (take_digits acc a).1 b.
Proof.
  intros Ha. revert acc. induction Ha as [|c a Hc _ IH]; intros acc; [done|]. cbn. by rewrite Hc, IH.
Qed.

Lemma digit_char n : (n < 10)%N ->
  is_digit (pretty_N_char n) = true /\ byteZ (pretty_N_char n) - 48 = Z.of_N n.
Proof.
  intros Hn. assert (n ∈ [0; 1; 2; 3; 4; 5; 6; 7; 8; 9]%N) as Hin.
  { repeat first [rewrite elem_of_cons]. lia. }
  repeat (apply elem_of_cons in Hin as [->|Hin]; [by split|]). by apply not_elem_of_nil in Hin.
Qed.

Lemma pretty_digits n s : exists ds,
  B (pretty_N_go n s) = ds ++ B s /\ Forall (fun c => is_digit c = true) ds /\
  (ds = [] -> n = 0%N) /\ digits_value ds = Z.of_N n.
Proof.
  revert s. induction (N.lt_wf_0 n) as [n _ IH]. intros s.
  destruct (decide (n = 0)%N) as [->|Hn].
  - exists []. by rewrite pretty_N_go_0.
  - destruct (digit_char (n `mod` 10)) as [Hd Hv]; [by apply N.mod_lt|].
    destruct (IH (n `div` 10)%N (N.div_lt n 10 ltac:(lia) ltac:(lia))
      (String (pretty_N_char (n `mod` 10)) s)) as (ds & Hs & Hds & _ & Hval).
    exists (ds ++ [pretty_N_char (n `mod` 10)]). rewrite pretty_N_go_step by lia. rewrite Hs.
    split_and!.
    + by rewrite <-app_assoc.
    + by apply Forall_app_2, Forall_singleton.
    + by destruct ds.
    + unfold digits_value in *. rewrite take_digits_snoc by done. cbn. rewrite Hd, Hval, Hv.
      cbn. pose proof (N.div_mod n 10 ltac:(lia)). lia.
Qed.

(** A length is printed as the digits of its value. *)
Lemma print_int_digits n : 0 <= n ->
  print_int n <> [] /\ Forall (fun c => is_digit c = true) (print_int n) /\
  digits_value (print_int n) = n.
Proof.
  intros Hn. destruct n as [|p|p]; [by repeat constructor| |lia].
  destruct (pretty_digits (Npos p) "") as (ds & Hs & Hd & Hnil & Hv).
  assert (print_int (Zpos p) = ds) as ->.
  { change (print_int (Zpos p)) with (B (pretty_N_go (Npos p) "")). by rewrite Hs, app_nil_r. }
  split_and!; [by intros ?%Hnil|done..].
Qed.
