(* ===== verification/UploadMachine.v ===== *)
(** * The state machine of one upload ([uploader/detail/upload_state_machine.hpp], [transition_*.hpp])

    A [boost::msm] machine: the source's exit action, the row's action and the target's
    entry action run in this order, and the events they send wait in a queue.  What the
    file system answers while one event is processed is an environment; the answers of
    the API and of the HTTP requests are inputs.  The calls to the upload manager are
    collected in [calls], for [UploadManager] to carry out.

    [ProcessEvent] goes through a strand.  Every handler that sends an event runs on the
    threads of that strand's service, where the dispatch is immediate, so the event joins
    the queue of the machine that is processing one: it is run to completion.

    The asserts of the code are not checks of the model: it is the program compiled with
    [NDEBUG].  Of the requests the machine keeps the file range that they send; their
    addresses, headers and data are those of [UploadRequests]. *)
From S2P Require Import Prelude Errors Stepping HashReader.

Open Scope Z_scope.

(** [uploader/detail/types.hpp:13-18 CountState] *)
Inductive CountState := CountNone | CountHashing | CountUploading.

(** [uploader/detail/types.hpp:20-25 ChunkState] *)
Inductive ChunkState := NeedsUpload | ChunkUploading | Uploaded.

#[export] Instance CountState_eq_dec : EqDecision CountState.
Proof. solve_decision. Defined.
#[export] Instance ChunkState_eq_dec : EqDecision ChunkState.
Proof. solve_decision. Defined.

(** [uploader/upload_request.hpp:26-37 OnDuplicateAction] *)
Inductive OnDuplicateAction := Fail_ | Replace | AutoRename.

#[export] Instance OnDuplicateAction_eq_dec : EqDecision OnDuplicateAction.
Proof. solve_decision. Defined.

(** [uploader/detail/upload_state_machine.hpp:235-472 states] *)
Inductive ustate :=
  | Initial | WaitForHashSignal | SetupHasher_ | Hashing | WaitForUploadSignal | InUploadCheck
  | InstantUpload_ | UploadFile | UploadChunk | PollUpload | CompleteWithSuccess
  | CompleteWithError.

#[export] Instance ustate_eq_dec : EqDecision ustate.
Proof. solve_decision. Defined.

(** The calls of [UploadStateMachineCallbackInterface].
    [uploader/detail/upload_state_machine.hpp:88-112 UploadStateMachineCallbackInterface] *)
Inductive manager_call :=
  | HandleAddToHash | HandleRemoveToHash | HandleAddToUpload | HandleRemoveToUpload
  | HandleComplete
  | IncrementHashingCount | DecrementHashingCount
  | IncrementUploadingCount | DecrementUploadingCount.

#[export] Instance manager_call_eq_dec : EqDecision manager_call.
Proof. solve_decision. Defined.

(** [uploader/upload_status.hpp:20-51 UploadState] *)
Inductive status :=
  | EnqueuedForHashing | HashingStatus | EnqueuedForUpload | Uploading | Polling
  | ErrorStatus (ec : error_code) (hash : option str)
  | CompleteStatus (quickkey filename hash : str) (new_revision : option Z).

(** ** Answers from outside *)

(** [upload/check]'s response: the fields the machine reads. *)
Record CheckResponse := {
  chk_error_code : error_code;
  file_exists : bool;
  hash_different : bool;
  duplicate_quickkey : option str;
  storage_limit_exceeded : bool;
  hash_exists : bool;
  resumable : option (Z * list Z) }.     (** number of units, bitmap words *)

Record InstantResponse := {
  inst_error_code : error_code; inst_quickkey : str; inst_filename : str; inst_revision : Z }.

(** [result] is not initialised by the response's constructor: after an error it is any
    number. *)
Record PollResponse := {
  poll_result : Z; fileerror : Z; poll_quickkey : option str; poll_revision : option Z;
  poll_filename : option str }.

(** The end of an HTTP request that sends a file or a chunk: the request's error, else
    the response's ([InitializeWithContent]) and the two values read from its body. *)
Record UploadResponse := {
  http_error_code : error_code;
  up_error_code : error_code;
  doupload_result : option Z;
  doupload_key : option str }.

(** What the operating system says while an event is processed. *)
Record Env := {
  env_stat : Stat;                 (** the file's size and time *)
  env_open : error_code;
  env_seek : error_code;
  env_read : str * error_code;
  env_stat_after : Stat;           (** after the read *)
  env_random : nat }.

Section Machine.
Context {H : Type} (h0 : H) (h_update : H -> str -> H) (h_digest : H -> str).
#[local] Abbreviation HasherState := (HashReader.HasherState (H := H) (D := str)).

(** [uploader/detail/upload_events.hpp:20-83 events] *)
Inductive event :=
  | Start
  | StartHash
  | StartUpload (upload_action_token : str)
  | Error (ec : error_code)
  | HeStartHash (st : HasherState)
  | HeReadNext (st : HasherState) (read_byte_pos : Z)
  | HeHashSuccess (st : HasherState) (sha256_hash : str)
  | HeError (ec : error_code)
  | NeedsSingleUpload
  | NeedsChunkUpload
  | InstantUpload
  | AlreadyUploaded (quickkey filename : str)
  | ChunkSuccess (chunk_id : nat) (upload_key : str)
  | SimpleUploadComplete (upload_key : str)
  | ChunkUploadComplete (upload_key : str)
  | InstantSuccess (quickkey filename : str) (new_device_revision : Z)
  | PollComplete (quickkey filename : str) (new_device_revision : Z).

(** What was started and will call back. *)
Inductive pending_op :=
  | PendingRead (st : HasherState) (read_byte_pos : Z)  (** posted *)
  | PendingCheck
  | PendingInstant
  | PendingUpload
  | PendingChunk (chunk_id : nat)
  | PendingPoll (upload_key : str)
  | PendingPollTimer (upload_key : str).

(** The machine.  [uploads] lists the ranges that requests were started for ([None] for
    the whole file) and [improper] the events no row was found for: logs the code does
    not keep.
    [uploader/detail/upload_state_machine.hpp:754-800 UploadStateMachine_] *)
Record Upload := {
  current : ustate;
  messages : list event;                 (** the queue of the back end *)
  connected : bool;                      (** [callback_interface_] is not null *)
  on_duplicate_action_ : OnDuplicateAction;
  filename : str;
  action_token_ : str;
  filesize_ : Z;
  mtime_ : Z;
  hash_ : str;
  chunk_ranges_ : list (Z * Z);
  chunk_hashes_ : list str;
  count_state_ : CountState;
  chunk_states_ : list ChunkState;
  upload_request_ : bool;                (** is there a request to cancel on exit? *)
  upload_key_ : str;
  pending : list pending_op;
  calls : list manager_call;
  statuses : list status;
  uploads : list (option nat * (Z * Z));
  improper : list (ustate * event) }.

#[local] Instance Upload_members : Members Upload := fun m =>
  Build_Upload (current m) (messages m) (connected m) (on_duplicate_action_ m) (filename m)
    (action_token_ m) (filesize_ m) (mtime_ m) (hash_ m) (chunk_ranges_ m) (chunk_hashes_ m)
    (count_state_ m) (chunk_states_ m) (upload_request_ m) (upload_key_ m) (pending m)
    (calls m) (statuses m) (uploads m) (improper m).

Definition set_current := ltac:(setter current).
Definition set_messages := ltac:(setter messages).
Definition set_connected := ltac:(setter connected).
Definition set_on_duplicate_action_ := ltac:(setter on_duplicate_action_).
Definition set_filename := ltac:(setter filename).
Definition set_action_token_ := ltac:(setter action_token_).
Definition set_filesize_ := ltac:(setter filesize_).
Definition set_mtime_ := ltac:(setter mtime_).
Definition set_hash_ := ltac:(setter hash_).
Definition set_chunk_ranges_ := ltac:(setter chunk_ranges_).
Definition set_chunk_hashes_ := ltac:(setter chunk_hashes_).
Definition set_count_state_ := ltac:(setter count_state_).
Definition set_chunk_states_ := ltac:(setter chunk_states_).
Definition set_upload_request_ := ltac:(setter upload_request_).
Definition set_upload_key_ := ltac:(setter upload_key_).
Definition set_pending := ltac:(setter pending).
Definition set_calls := ltac:(setter calls).
Definition set_statuses := ltac:(setter statuses).
Definition set_uploads := ltac:(setter uploads).
Definition set_improper := ltac:(setter improper).

(** ** Helpers *)

(** [uploader/detail/upload_state_machine.hpp:178-186 ProcessEvent] *)
Definition ProcessEvent (e : event) (m : Upload) : Upload := set_messages (messages m ++ [e]) m.

(** [CALLBACK_INTERFACE]: nothing once disconnected.
    [uploader/detail/upload_state_machine.hpp:118-127 CALLBACK_INTERFACE] *)
Definition callback (c : manager_call) (m : Upload) : Upload :=
  if connected m then set_calls (calls m ++ [c]) m else m.

(** [uploader/detail/upload_state_machine.hpp:743-747 SendStatus] *)
Definition SendStatus (s : status) (m : Upload) : Upload := set_statuses (statuses m ++ [s]) m.

Definition start (op : pending_op) (m : Upload) : Upload := set_pending (pending m ++ [op]) m.

(** [uploader/detail/upload_state_machine.hpp:200-233 SetCountState] *)
Definition SetCountState (cs : CountState) (m : Upload) : Upload :=
  let m := match count_state_ m with
           | CountNone => m
           | CountHashing => callback DecrementHashingCount m
           | CountUploading => callback DecrementUploadingCount m
           end in
  let m := match cs with
           | CountNone => m
           | CountHashing => callback IncrementHashingCount m
           | CountUploading => callback IncrementUploadingCount m
           end in
  set_count_state_ cs m.

(** One word of the bitmap: at most sixteen bits, the lowest first, until there is one
    state for each chunk.
    [uploader/detail/upload_state_machine.hpp:626-640 SetBitmap] *)
Fixpoint bitmap_word (bits : nat) (word : Z) (chunks : nat) (states : list ChunkState)
    : list ChunkState :=
  match bits with
  | O => states
  | S bits =>
      if (length states =? chunks)%nat then states
      else bitmap_word bits (Z.shiftr word 1) chunks
             (states ++ [if Z.testbit word 0 then Uploaded else NeedsUpload])
  end.

(** [uploader/detail/upload_state_machine.hpp:616-649 SetBitmap] *)
Definition SetBitmap (bitmap : list Z) (m : Upload) : Upload :=
  let chunks := length (chunk_ranges_ m) in
  let states := foldl (fun states word => bitmap_word 16 word chunks states) [] bitmap in
  set_chunk_states_ (states ++ replicate (chunks - length states) NeedsUpload) m.

(** [uploader/detail/upload_state_machine.hpp:677-690 SetChunkState] *)
Definition SetChunkState (chunk_id : nat) (s : ChunkState) (m : Upload) : Upload :=
  if (chunk_id <? length (chunk_states_ m))%nat
  then set_chunk_states_ (<[chunk_id := s]> (chunk_states_ m)) m
  else ProcessEvent (Error (upload_error LogicError)) m.

(** The chunks that need to be uploaded, in order.
    [uploader/detail/upload_state_machine.hpp:713-721 NextChunkToUpload] *)
Fixpoint incomplete_chunks (chunk_id : nat) (states : list ChunkState) : list nat :=
  match states with
  | [] => []
  | s :: states =>
      (if bool_decide (s = NeedsUpload) then [chunk_id] else [])
      ++ incomplete_chunks (S chunk_id) states
  end.

(** The random number is drawn from the indices of the list.
    [uploader/detail/upload_state_machine.hpp:708-731 NextChunkToUpload] *)
Definition NextChunkToUpload (random : nat) (m : Upload) : option nat :=
  let chunks := incomplete_chunks 0 (chunk_states_ m) in
  match chunks with
  | [] => None
  | _ => chunks !! (random mod length chunks)%nat
  end.

(** ** Actions *)

(** [uploader/detail/hasher_transitions.hpp:88-116 OpenFile] *)
Definition OpenFile (env : Env) (st : HasherState) (m : Upload) : Upload :=
  if is_error (env_open env) then ProcessEvent (HeError (env_open env)) m
  else ProcessEvent (HeReadNext st 0) m.

(** The event that a read sends, or the next read that it posts.
    [uploader/detail/hasher_transitions.hpp:118-193 ReadFile] *)
Definition ReadFileAction (env : Env) (st : HasherState) (pos : Z) (m : Upload) : Upload :=
  let '(buffer, ec) := env_read env in
  match ReadFile h0 h_update h_digest st pos (env_stat env) buffer ec (env_stat_after env) with
  | ReadNext st pos => start (PendingRead st pos) m
  | HashSuccess st hash => ProcessEvent (HeHashSuccess st hash) m
  | HashError ec => ProcessEvent (HeError ec) m
  | Threw => m
  end.

(** [uploader/detail/upload_state_machine.hpp:568-576 SetCompleteHashData] *)
Definition SaveHash (st : HasherState) (hash : str) (m : Upload) : Upload :=
  set_hash_ hash (set_chunk_ranges_ (chunk_ranges st) (set_chunk_hashes_ (chunk_hashes st) m)).

(** [uploader/detail/transition_check.hpp:104-172 Check] *)
Definition Check (m : Upload) : Upload := start PendingCheck m.

(** [uploader/detail/transition_instant_upload.hpp:24-97 DoInstantUpload] *)
Definition DoInstantUpload (m : Upload) : Upload := start PendingInstant m.

(** [uploader/detail/transition_upload.hpp:279-336 Upload] *)
Definition DoSimpleUpload (env : Env) (m : Upload) : Upload :=
  if is_error (env_open env) then ProcessEvent (Error (env_open env)) m
  else if is_error (env_seek env) then ProcessEvent (Error (env_seek env)) m
  else set_upload_request_ true
         (start PendingUpload (set_uploads (uploads m ++ [(None, (0, filesize_ m))]) m)).

(** The ends of the range are kept in two [int]s.
    [uploader/detail/transition_upload.hpp:504-566 UploadNextChunk] *)
Definition UploadNextChunk (env : Env) (chunk_id : nat) (m : Upload) : Upload :=
  if is_error (env_open env) then ProcessEvent (Error (env_open env)) m
  else
    let '(b, e) := default (0, 0) (chunk_ranges_ m !! chunk_id) in
    let '(b, e) := (i32 b, i32 e) in
    if is_error (env_seek env) then ProcessEvent (Error (env_seek env)) m
    else
      let m := SetChunkState chunk_id ChunkUploading m in
      set_upload_request_ true
        (start (PendingChunk chunk_id)
           (set_uploads (uploads m ++ [(Some chunk_id, (u64 b, u64 e))]) m)).

(** [uploader/detail/transition_upload.hpp:399-421 DoChunkUpload] *)
Definition DoChunkUpload (env : Env) (m : Upload) : Upload :=
  match NextChunkToUpload (env_random env) m with
  | Some chunk_id => UploadNextChunk env chunk_id m
  | None => ProcessEvent (ChunkUploadComplete (upload_key_ m)) m
  end.

(** [uploader/detail/transition_poll_upload.hpp:121-145 StartPoll] *)
Definition StartPoll (upload_key : str) (m : Upload) : Upload :=
  if bool_decide (upload_key = []) then ProcessEvent (Error (upload_error LogicError)) m
  else start (PendingPoll upload_key) m.

(** ** Entry and exit *)

(** [uploader/detail/upload_state_machine.hpp:240-279 on_exit] *)
Definition Initial_on_exit (env : Env) (m : Upload) : Upload :=
  match st_size (env_stat env) with
  | inr ec => ProcessEvent (Error ec) (set_filesize_ (2 ^ 64 - 1) m)
  | inl size =>
      let m := set_filesize_ size m in
      match st_mtime (env_stat env) with
      | inr ec => ProcessEvent (Error ec) (set_mtime_ (-1) m)
      | inl mtime =>
          let m := set_mtime_ mtime m in
          if size =? 0 then ProcessEvent (Error (upload_error ZeroByteFile)) m else m
      end
  end.

(** [uploader/detail/upload_state_machine.hpp:281-297 on_exit] *)
Definition on_exit (env : Env) (s : ustate) (m : Upload) : Upload :=
  match s with
  | Initial => Initial_on_exit env m
  | WaitForHashSignal => callback HandleRemoveToHash m
  | WaitForUploadSignal => callback HandleRemoveToUpload m
  | UploadChunk => set_upload_request_ false m
  | _ => m
  end.

(** [uploader/detail/upload_state_machine.hpp:299-318 on_entry] *)
Definition SetupHasher_on_entry (m : Upload) : Upload :=
  let m := SetCountState CountHashing m in
  match ChunkRanges (chunk_fuel (filesize_ m)) (filesize_ m) with
  | Some ranges => ProcessEvent (HeStartHash (SetupHasher h0 ranges (filesize_ m) (mtime_ m))) m
  | None => m          (** the loop does not end *)
  end.

(** [uploader/detail/upload_state_machine.hpp:320-470 on_entry] *)
Definition on_entry (s : ustate) (e : event) (m : Upload) : Upload :=
  match s, e with
  | WaitForHashSignal, _ => SendStatus EnqueuedForHashing (callback HandleAddToHash m)
  | SetupHasher_, _ => SetupHasher_on_entry m
  | Hashing, HeStartHash _ => SendStatus HashingStatus m
  | WaitForUploadSignal, _ => SendStatus EnqueuedForUpload (callback HandleAddToUpload m)
  | InUploadCheck, StartUpload token =>
      SendStatus Uploading (SetCountState CountUploading (set_action_token_ token m))
  | UploadChunk, ChunkSuccess chunk_id upload_key =>
      SetChunkState chunk_id Uploaded
        (if bool_decide (upload_key_ m = []) then set_upload_key_ upload_key m else m)
  | PollUpload, _ => SendStatus Polling m
  | CompleteWithSuccess, AlreadyUploaded quickkey name =>
      callback HandleComplete
        (SendStatus (CompleteStatus quickkey name (hash_ m) None) (SetCountState CountNone m))
  | CompleteWithSuccess, (InstantSuccess quickkey name revision | PollComplete quickkey name revision) =>
      callback HandleComplete
        (SendStatus (CompleteStatus quickkey name (hash_ m) (Some revision))
           (SetCountState CountNone m))
  | CompleteWithError, (Error ec | HeError ec) =>
      callback HandleComplete
        (SendStatus (ErrorStatus ec (if bool_decide (hash_ m = []) then None else Some (hash_ m)))
           (SetCountState CountNone m))
  | _, _ => m
  end.

(** ** The transition table *)

(** [uploader/detail/upload_state_machine.hpp:475-482 HasHash] *)
Definition HasHash (m : Upload) : bool := negb (bool_decide (hash_ m = [])).

(** The target of the row and its action.
    [uploader/detail/upload_state_machine.hpp:489-528 transition_table] *)
Definition transition_table (env : Env) (s : ustate) (e : event) (m : Upload)
    : option (ustate * (Upload -> Upload)) :=
  match s, e with
  | Initial, Start => Some (if HasHash m then WaitForUploadSignal else WaitForHashSignal, id)
  | Initial, Error _ => Some (CompleteWithError, id)
  | WaitForHashSignal, StartHash => Some (SetupHasher_, id)
  | WaitForHashSignal, Error _ => Some (CompleteWithError, id)
  | SetupHasher_, HeStartHash st => Some (Hashing, OpenFile env st)
  | Hashing, HeReadNext st pos => Some (Hashing, ReadFileAction env st pos)
  | Hashing, HeHashSuccess st hash => Some (WaitForUploadSignal, SaveHash st hash)
  | Hashing, HeError _ => Some (CompleteWithError, id)
  | WaitForUploadSignal, StartUpload _ => Some (InUploadCheck, Check)
  | WaitForUploadSignal, Error _ => Some (CompleteWithError, id)
  | InUploadCheck, NeedsSingleUpload => Some (UploadFile, DoSimpleUpload env)
  | InUploadCheck, NeedsChunkUpload => Some (UploadChunk, DoChunkUpload env)
  | InUploadCheck, InstantUpload => Some (InstantUpload_, DoInstantUpload)
  | InUploadCheck, AlreadyUploaded _ _ => Some (CompleteWithSuccess, id)
  | InUploadCheck, Error _ => Some (CompleteWithError, id)
  | InstantUpload_, InstantSuccess _ _ _ => Some (CompleteWithSuccess, id)
  | InstantUpload_, Error _ => Some (CompleteWithError, id)
  | UploadChunk, ChunkSuccess _ _ => Some (UploadChunk, DoChunkUpload env)
  | UploadChunk, ChunkUploadComplete key => Some (PollUpload, StartPoll key)
  | UploadChunk, Error _ => Some (CompleteWithError, id)
  | UploadFile, SimpleUploadComplete key => Some (PollUpload, StartPoll key)
  | UploadFile, Error _ => Some (CompleteWithError, id)
  | PollUpload, PollComplete _ _ _ => Some (CompleteWithSuccess, id)
  | PollUpload, Error _ => Some (CompleteWithError, id)
  | _, _ => None
  end.

Definition is_terminal (s : ustate) : bool :=
  match s with CompleteWithSuccess | CompleteWithError => true | _ => false end.

(** ** Processing events *)

(** One event: a terminate state swallows it; without a row it is lost (the back end
    asserts).
    [uploader/detail/upload_state_machine.hpp:530-541 no_transition] *)
Definition process_one (env : Env) (e : event) (m : Upload) : Upload :=
  if is_terminal (current m) then m
  else match transition_table env (current m) e m with
  | None => set_improper (improper m ++ [(current m, e)]) m
  | Some (target, action) =>
      on_entry target e (set_current target (action (on_exit env (current m) m)))
  end.

(** The queue is processed in order until it is empty. *)
Fixpoint process_messages (fuel : nat) (env : Env) (m : Upload) : option Upload :=
  match messages m with
  | [] => Some m
  | e :: messages =>
      match fuel with
      | O => None
      | S fuel => process_messages fuel env (process_one env e (set_messages messages m))
      end
  end.

Definition message_fuel : nat := 10.

(** [process_event] of the back end, from outside. *)
Definition process_event (env : Env) (e : event) (m : Upload) : option Upload :=
  process_messages message_fuel env (ProcessEvent e m).

(** ** Completions: the event that the answer leads to *)

(** [uploader/detail/transition_check.hpp:26-102 HandleCheck] *)
Definition HandleCheck (r : CheckResponse) (m : Upload) : Upload * event :=
  match (if file_exists r && negb (hash_different r) then duplicate_quickkey r else None) with
  | Some quickkey => (m, AlreadyUploaded quickkey (filename m))
  | None =>
      if storage_limit_exceeded r then (m, Error (upload_error InsufficientCloudStorage))
      else if file_exists r && bool_decide (on_duplicate_action_ m = Fail_)
      then (m, Error (upload_error FileExistInFolder))
      else if hash_exists r then (m, InstantUpload)
      else if (1 <? length (chunk_ranges_ m))%nat then
        match resumable r with
        | None => (m, NeedsSingleUpload)
        | Some (number_of_units, words) =>
            if negb (number_of_units =? Z.of_nat (length (chunk_ranges_ m)))
            then (m, NeedsSingleUpload)
            else (SetBitmap words m, NeedsChunkUpload)
        end
      else (m, NeedsSingleUpload)
  end.

(** [uploader/detail/transition_check.hpp:147-168 Check] *)
Definition HandleCheckResponse (r : CheckResponse) (m : Upload) : Upload * event :=
  if is_error (chk_error_code r) then (m, Error (chk_error_code r)) else HandleCheck r m.

(** [uploader/detail/transition_instant_upload.hpp:77-95 DoInstantUpload] *)
Definition HandleInstantResponse (r : InstantResponse) : event :=
  if is_error (inst_error_code r) then Error (inst_error_code r)
  else InstantSuccess (inst_quickkey r) (inst_filename r) (inst_revision r).

(** The event of a response to an upload, given the one of success.
    [uploader/detail/transition_upload.hpp:152-207 HandleUploadResponse] *)
Definition HandleUploadResponse (success : str -> event) (r : UploadResponse) : event :=
  if is_error (http_error_code r) then Error (http_error_code r)
  else if is_error (up_error_code r) then
    match doupload_result r with
    | Some e => Error (Ec cat_upload_response e)
    | None => Error (up_error_code r)
    end
  else match doupload_key r with
       | Some upload_key => success upload_key
       | None =>
           match doupload_result r with
           | Some e => Error (Ec cat_upload_response e)
           | None => Error (api_error ContentInvalidData)
           end
       end.

(** [uploader/detail/transition_upload.hpp:340-397 HandleChunkResponse] *)
Definition HandleChunkResponse (chunk_id : nat) (r : UploadResponse) : event :=
  HandleUploadResponse (ChunkSuccess chunk_id) r.

(** [uploader/detail/transition_poll_upload.hpp:35-67 HandlePollCompleteResponse] *)
Definition HandlePollCompleteResponse (quickkey : str) (r : PollResponse) (m : Upload) : event :=
  match poll_revision r with
  | None => Error (api_error ContentInvalidData)
  | Some revision => PollComplete quickkey (default (filename m) (poll_filename r)) revision
  end.

(** [None]: a timer is started.
    [uploader/detail/transition_poll_upload.hpp:82-119 HandlePollResponse] *)
Definition HandlePollResponse (r : PollResponse) (m : Upload) : option event :=
  if poll_result r <? 0 then Some (Error (Ec cat_poll_result (poll_result r)))
  else if negb (fileerror r =? 0) then Some (Error (Ec cat_poll_file_error (fileerror r)))
  else match poll_quickkey r with
       | Some quickkey => Some (HandlePollCompleteResponse quickkey r m)
       | None => None
       end.

(** ** Inputs *)

Inductive answer :=
  | AnswerRead
  | AnswerCheck (r : CheckResponse)
  | AnswerInstant (r : InstantResponse)
  | AnswerUpload (r : UploadResponse)
  | AnswerPoll (r : PollResponse)
  | AnswerTimer (cancelled : bool).

(** The callback of an operation that was pending; [None] is an answer of another
    kind.
    [uploader/detail/transition_poll_upload.hpp:69-80 RetryPoll] *)
Definition complete_op (env : Env) (op : pending_op) (a : answer) (m : Upload) : option Upload :=
  match op, a with
  | PendingRead st pos, AnswerRead => process_event env (HeReadNext st pos) m
  | PendingCheck, AnswerCheck r =>
      let '(m, e) := HandleCheckResponse r m in process_event env e m
  | PendingInstant, AnswerInstant r => process_event env (HandleInstantResponse r) m
  | PendingUpload, AnswerUpload r =>
      process_event env (HandleUploadResponse SimpleUploadComplete r) m
  | PendingChunk chunk_id, AnswerUpload r =>
      process_event env (HandleChunkResponse chunk_id r) m
  | PendingPoll key, AnswerPoll r =>
      match HandlePollResponse r m with
      | Some e => process_event env e m
      | None => Some (start (PendingPollTimer key) m)
      end
  | PendingPollTimer key, AnswerTimer cancelled =>
      if (cancelled : bool) then Some m
      else process_messages message_fuel env (StartPoll key m)
  | _, _ => None
  end.

(** What the manager and the outside do to a machine. *)
Inductive input :=
  | DoStart                                  (** [Add] *)
  | DoStartHash                              (** posted by [Tick_StartHashings] *)
  | DoStartUpload (token : str)              (** posted by [Tick_StartUploads] *)
  | DoModify (ec : error_code)               (** [ModifyUpload]: [UploadCancelled] or [Paused] *)
  | DoComplete (n : nat) (a : answer).       (** the n-th pending operation ends *)

Definition upload_input (env : Env) (i : input) (m : Upload) : option Upload :=
  match i with
  | DoStart => process_event env Start m
  | DoStartHash => process_event env StartHash m
  | DoStartUpload token => process_event env (StartUpload token) m
  | DoModify ec => process_event env (Error ec) m
  | DoComplete n a =>
      match pending m !! n with
      | Some op => complete_op env op a (set_pending (delete n (pending m)) m)
      | None => None
      end
  end.

(** [uploader/detail/upload_state_machine.hpp:151-176 UploadStateMachine_] *)
Definition NewUpload (name : str) (action : OnDuplicateAction) : Upload :=
  {| current := Initial; messages := []; connected := true; on_duplicate_action_ := action;
     filename := name; action_token_ := []; filesize_ := 0; mtime_ := 0; hash_ := [];
     chunk_ranges_ := []; chunk_hashes_ := []; count_state_ := CountNone; chunk_states_ := [];
     upload_request_ := false; upload_key_ := []; pending := []; calls := []; statuses := [];
     uploads := []; improper := [] |}.

End Machine.

#[global] Arguments SetBitmap : simpl never.
#[global] Arguments HandleCheckResponse : simpl never.
