(* ===== verification/UploadProofs.v ===== *)
(** * Lemmas on the upload state machine

    What each action adds to the queue, and how one event changes a machine. *)
From S2P Require Import Prelude Errors Stepping HashReader UploadMachine.

Open Scope Z_scope.

Section Proofs.
Context {H : Type} (h0 : H) (h_update : H -> str -> H) (h_digest : H -> str).

#[local] Abbreviation Upload := (UploadMachine.Upload (H := H)).
#[local] Abbreviation event := (UploadMachine.event (H := H)).
#[local] Abbreviation transition_table := (UploadMachine.transition_table h0 h_update h_digest).
#[local] Abbreviation on_entry := (UploadMachine.on_entry h0).
#[local] Abbreviation process_one := (UploadMachine.process_one h0 h_update h_digest).
#[local] Abbreviation process_messages := (UploadMachine.process_messages h0 h_update h_digest).
#[local] Abbreviation process_event := (UploadMachine.process_event h0 h_update h_digest).

(** ** Termination *)

(** A bound on how many events an event leads to, itself included. *)
Definition weight (e : event) : nat :=
  match e with
  | Start | HeReadNext _ _ | NeedsSingleUpload | SimpleUploadComplete _ | ChunkUploadComplete _ => 3
  | HeStartHash _ | NeedsChunkUpload => 4
  | StartHash => 5
  | ChunkSuccess _ _ => 6
  | _ => 2
  end.

Fixpoint weights (l : list event) : nat :=
  match l with [] => 0 | e :: l => weight e + weights l end.

Lemma weights_app a b : weights (a ++ b) = (weights a + weights b)%nat.
Proof. induction a; simpl; lia. Qed.

Lemma weights_length l : (2 * length l <= weights l)%nat.
Proof. induction l as [|e l IH]; simpl; [done|]. destruct e; simpl; lia. Qed.

(** From [m] to [m'] the queue grows by events of at most this weight and the state
    stays. *)
Definition emits (n : nat) (m m' : Upload) : Prop :=
  current m' = current m /\ exists l, messages m' = messages m ++ l /\ (weights l <= n)%nat.

Lemma emits_refl n m : emits n m m.
Proof. split; [done|]. exists []. by rewrite app_nil_r; split; [|simpl; lia]. Qed.

Lemma emits_trans a b m1 m2 m3 : emits a m1 m2 -> emits b m2 m3 -> emits (a + b) m1 m3.
Proof.
  intros [Hc1 (l1 & H1 & Hw1)] [Hc2 (l2 & H2 & Hw2)]. split; [congruence|].
  exists (l1 ++ l2). rewrite H2, H1, app_assoc, weights_app. split; [done|lia].
Qed.

Lemma emits_event n e m : (weight e <= n)%nat -> emits n m (ProcessEvent e m).
Proof. intros He. split; [done|]. exists [e]. by split; [|simpl; lia]. Qed.

(** What only changes other fields. *)
Lemma emits_same n m m' : current m' = current m -> messages m' = messages m -> emits n m m'.
Proof. intros Hc Hm. split; [done|]. exists []. by rewrite app_nil_r; split; [|simpl; lia]. Qed.

Lemma emits_mono a b m m' : (a <= b)%nat -> emits a m m' -> emits b m m'.
Proof. intros ? [? (l & ? & ?)]. split; [done|]. exists l. by split; [|lia]. Qed.

(** [emits] looks at two fields of the machines. *)
Lemma emits_ext n m1 m2 m1' m2' :
  current m1' = current m1 -> messages m1' = messages m1 ->
  current m2' = current m2 -> messages m2' = messages m2 -> emits n m1 m2 -> emits n m1' m2'.
Proof. unfold emits. intros -> -> -> ->. done. Qed.

Lemma callback_same c (m : Upload) : current (callback c m) = current m /\ messages (callback c m) = messages m.
Proof. unfold callback. by destruct (connected m). Qed.

Lemma SetCountState_same cs (m : Upload) :
  current (SetCountState cs m) = current m /\ messages (SetCountState cs m) = messages m.
Proof. unfold SetCountState, callback. destruct (count_state_ m), cs, (connected m); simpl; try done; by case_match. Qed.

Lemma Initial_on_exit_emits env m : emits 2 m (Initial_on_exit env m).
Proof.
  unfold Initial_on_exit. repeat case_match.
  - split; [done|]. eexists [_]. split; [done|simpl; lia].
  - apply emits_same; reflexivity.
  - split; [done|]. eexists [_]. split; [done|simpl; lia].
  - split; [done|]. eexists [_]. split; [done|simpl; lia].
Qed.

Lemma on_exit_emits env s m : s <> Initial -> emits 0 m (on_exit env s m).
Proof.
  intros Hs.
  destruct s; try done; try apply emits_refl; try (apply emits_same; reflexivity); simpl;
    match goal with |- emits _ _ (callback ?c m) => destruct (callback_same c m); by apply emits_same end.
Qed.

Lemma SetChunkState_emits i s m : emits 2 m (SetChunkState i s m).
Proof.
  unfold SetChunkState. case_match; [apply emits_same; reflexivity|by apply emits_event].
Qed.

Lemma UploadNextChunk_emits env i m : emits 2 m (UploadNextChunk env i m).
Proof.
  unfold UploadNextChunk. case_match; [by apply emits_event|].
  destruct (default (0, 0) _) as [b e]. case_match; [by apply emits_event|].
  eapply emits_ext; [..|apply (SetChunkState_emits i ChunkUploading)]; reflexivity.
Qed.

Lemma DoChunkUpload_emits env m : emits 3 m (DoChunkUpload env m).
Proof.
  unfold DoChunkUpload. case_match.
  - apply (emits_mono 2); [lia|]. apply UploadNextChunk_emits.
  - by apply emits_event.
Qed.

Lemma DoSimpleUpload_emits env m : emits 2 m (DoSimpleUpload env m).
Proof.
  unfold DoSimpleUpload. repeat case_match; try (by apply emits_event). apply emits_same; reflexivity.
Qed.

Lemma StartPoll_emits key m : emits 2 m (StartPoll key m).
Proof. unfold StartPoll. case_match; [by apply emits_event|apply emits_same; reflexivity]. Qed.

Lemma OpenFile_emits env st m : emits 3 m (OpenFile env st m).
Proof. unfold OpenFile. case_match; by apply emits_event; simpl; lia. Qed.

Lemma ReadFileAction_emits env st pos m : emits 2 m (ReadFileAction h0 h_update h_digest env st pos m).
Proof.
  unfold ReadFileAction. destruct (env_read env). case_match;
    try (by apply emits_event; simpl; lia); apply emits_same; reflexivity.
Qed.

(** How much the action of a row and the entry of its target add. *)
Definition action_weight (s : ustate) (e : event) : nat :=
  match s, e with
  | SetupHasher_, _ => 3
  | InUploadCheck, NeedsChunkUpload | UploadChunk, ChunkSuccess _ _ => 3
  | Hashing, HeReadNext _ _ | InUploadCheck, NeedsSingleUpload
  | UploadChunk, ChunkUploadComplete _ | UploadFile, SimpleUploadComplete _ => 2
  | _, _ => 0
  end.

Definition entry_weight (t : ustate) (e : event) : nat :=
  match t, e with SetupHasher_, _ => 4 | UploadChunk, ChunkSuccess _ _ => 2 | _, _ => 0 end.

Lemma row_action_emits env s e m t f m' :
  transition_table env s e m = Some (t, f) -> emits (action_weight s e) m' (f m').
Proof.
  intros Hr. destruct s, e; simpl in Hr; simplify_eq; try apply emits_refl; simpl;
    auto using OpenFile_emits, ReadFileAction_emits, DoSimpleUpload_emits, DoChunkUpload_emits,
      StartPoll_emits; apply emits_same; reflexivity.
Qed.

Lemma SetupHasher_emits m : emits 4 m (SetupHasher_on_entry h0 m).
Proof.
  unfold SetupHasher_on_entry. destruct (SetCountState_same CountHashing m) as [H1 H2].
  apply (emits_trans 0 4 _ (SetCountState CountHashing m)); [by apply emits_same|].
  case_match; [by apply emits_event|apply emits_refl].
Qed.

Lemma on_entry_emits t e m : emits (entry_weight t e) m (on_entry t e m).
Proof.
  assert (forall c m1, current m1 = current m -> messages m1 = messages m ->
    emits 0 m (callback c m1)) as Hcall.
  { intros c m1 H1 H2. destruct (callback_same c m1). apply emits_same; congruence. }
  destruct (SetCountState_same CountNone m) as [Hn1 Hn2].
  destruct t, e; try apply emits_refl; try (apply emits_same; reflexivity); try (by apply Hcall);
    try apply SetupHasher_emits.
  - destruct (SetCountState_same CountUploading (set_action_token_ upload_action_token m)).
    by apply emits_same.
  - simpl. case_match; [|apply SetChunkState_emits].
    by apply (emits_ext _ (set_upload_key_ upload_key m) _ _ _ eq_refl eq_refl eq_refl eq_refl),
      SetChunkState_emits.
Qed.

(** ** The queue gets shorter *)

Definition measure (m : Upload) : nat :=
  if is_terminal (current m) then length (messages m) else weights (messages m).

Lemma measure_le m : (length (messages m) <= measure m)%nat.
Proof. unfold measure. pose proof (weights_length (messages m)). case_match; lia. Qed.

Lemma row_weight env s e m t f :
  transition_table env s e m = Some (t, f) ->
  is_terminal s = false
  /\ if is_terminal t then (action_weight s e + entry_weight t e = 0)%nat
     else ((if decide (s = Initial) then 2 else 0) + action_weight s e + entry_weight t e < weight e)%nat.
Proof. destruct s, e; simpl; intros; simplify_eq; simpl; split; try done; repeat case_match; simpl; lia. Qed.

(** One event that is not lost: the state is the row's target. *)
Lemma process_one_row env e q m t f :
  messages m = e :: q -> transition_table env (current m) e m = Some (t, f) ->
  let m' := on_entry t e (set_current t (f (on_exit env (current m) (set_messages q m)))) in
  current m' = t
  /\ exists l, messages m' = q ++ l
    /\ (weights l <= (if decide (current m = Initial) then 2 else 0)
                     + action_weight (current m) e + entry_weight t e)%nat.
Proof.
  intros Hq Hr. set (m0 := set_messages q m).
  assert (emits (if decide (current m = Initial) then 2 else 0) m0 (on_exit env (current m) m0)) as He.
  { case_decide as Hi; [rewrite Hi; apply Initial_on_exit_emits|by apply on_exit_emits]. }
  pose proof (row_action_emits _ _ _ _ _ _ (on_exit env (current m) m0) Hr) as Ha.
  destruct (emits_trans _ _ _ _ _ He Ha) as (_ & l1 & H1 & Hw1).
  set (m1 := set_current t (f (on_exit env (current m) m0))).
  destruct (on_entry_emits t e m1) as (Hc & l2 & H2 & Hw2).
  split; [exact Hc|]. exists (l1 ++ l2). rewrite weights_app.
  split; [|lia]. rewrite H2. unfold m1. simpl. by rewrite H1, app_assoc.
Qed.

Lemma process_one_measure env e q m :
  messages m = e :: q -> (measure (process_one env e (set_messages q m)) < measure m)%nat.
Proof.
  intros Hq. unfold UploadMachine.process_one. simpl. unfold measure at 2. rewrite Hq.
  destruct (is_terminal (current m)) eqn:Hc; [unfold measure; simpl; rewrite Hc; lia|].
  destruct (transition_table env (current m) e (set_messages q m)) as [[t f]|] eqn:Hr.
  - destruct (process_one_row env e q m t f Hq) as (Hcur & l & Hl & Hw).
    { by rewrite <-Hr; destruct (current m), e. }
    destruct (row_weight _ _ _ _ _ _ Hr) as [_ Hrow].
    unfold measure. rewrite Hcur, Hl. simpl.
    pose proof (weights_length l). pose proof (weights_length q). destruct (is_terminal t).
    + rewrite length_app. destruct e; simpl; case_decide; lia.
    + rewrite weights_app. lia.
  - unfold measure. simpl. rewrite Hc. destruct e; simpl; lia.
Qed.

(** The queue is emptied. *)
Lemma process_messages_total env fuel m :
  (measure m <= fuel)%nat -> exists m', process_messages fuel env m = Some m' /\ messages m' = [].
Proof.
  revert m. induction fuel as [|fuel IH]; intros m Hm; simpl;
    destruct (messages m) as [|e q] eqn:Hq; eauto.
  - pose proof (measure_le m). rewrite Hq in *. simpl in *. lia.
  - apply IH. pose proof (process_one_measure env e q m Hq). lia.
Qed.

Lemma process_event_total env e m :
  messages m = [] -> exists m', process_event env e m = Some m' /\ messages m' = [].
Proof.
  intros Hq. apply process_messages_total. unfold measure, message_fuel. simpl. rewrite Hq. simpl.
  case_match; [lia|]. destruct e; simpl; lia.
Qed.

(** ** What an upload waits for *)

(** Nothing but the counts, the statuses and the calls differs. *)
Definition same_work (m m' : Upload) : Prop :=
  current m' = current m /\ messages m' = messages m /\ pending m' = pending m
  /\ chunk_states_ m' = chunk_states_ m /\ chunk_ranges_ m' = chunk_ranges_ m
  /\ uploads m' = uploads m /\ hash_ m' = hash_ m.

Lemma callback_work c m : same_work m (callback c m).
Proof. unfold callback. by case_match. Qed.

Lemma SetCountState_work cs m : same_work m (SetCountState cs m).
Proof.
  unfold SetCountState, callback. destruct (count_state_ m), cs; simpl; repeat case_match; done.
Qed.

(** The events that carry an upload on. *)
Definition progress (e : event) : bool :=
  match e with Start | StartHash | StartUpload _ | Error _ => false | _ => true end.

Definition outstanding (m : Upload) : list (pending_op (H := H) + event) :=
  (inl <$> pending m) ++ (inr <$> filter progress (messages m)).

Definition uploaded (states : list ChunkState) : Prop := Forall (eq Uploaded) states.

(** What the machine can wait for in each state. *)
Definition fits (m : Upload) (w : pending_op (H := H) + event) : Prop :=
  match w with
  | inr (HeStartHash _) => current m = SetupHasher_
  | inl (PendingRead _ _) | inr (HeReadNext _ _) | inr (HeHashSuccess _ _) | inr (HeError _) =>
      current m = Hashing
  | inl PendingCheck | inr NeedsSingleUpload | inr InstantUpload | inr (AlreadyUploaded _ _) =>
      current m = InUploadCheck /\ chunk_states_ m = []
  | inr NeedsChunkUpload =>
      current m = InUploadCheck /\ (forall j, chunk_states_ m !! j <> Some ChunkUploading)
  | inl PendingInstant | inr (InstantSuccess _ _ _) => current m = InstantUpload_
  | inl PendingUpload | inr (SimpleUploadComplete _) =>
      current m = UploadFile /\ chunk_states_ m = []
  | inl (PendingChunk id) | inr (ChunkSuccess id _) =>
      current m = UploadChunk /\ chunk_states_ m !! id = Some ChunkUploading
      /\ forall j, chunk_states_ m !! j = Some ChunkUploading -> j = id
  | inr (ChunkUploadComplete _) => current m = UploadChunk /\ uploaded (chunk_states_ m)
  | inl (PendingPoll _) | inl (PendingPollTimer _) | inr (PollComplete _ _ _) =>
      current m = PollUpload /\ uploaded (chunk_states_ m)
  | inr _ => False
  end.

(** Before the server was asked. *)
Definition early (s : ustate) : bool :=
  match s with
  | Initial | WaitForHashSignal | SetupHasher_ | Hashing | WaitForUploadSignal => true
  | _ => false
  end.

(** The states in which the machine itself has something under way, hashing apart. *)
Definition busy (s : ustate) : bool :=
  match s with
  | InUploadCheck | InstantUpload_ | UploadFile | UploadChunk | PollUpload => true
  | _ => false
  end.

Definition chunk_ids (m : Upload) : list nat := omap fst (uploads m).

Record work_inv (m : Upload) : Prop := {
  wi_fits : match outstanding m with [] => True | [w] => fits m w | _ => False end;
  wi_early : early (current m) = true -> chunk_ids m = [] /\ chunk_states_ m = [];
  wi_check : current m = InUploadCheck -> chunk_ids m = [];
  wi_chunks : forall id, id ∈ chunk_ids m ->
    exists s, chunk_states_ m !! id = Some s /\ s <> NeedsUpload;
  wi_busy : busy (current m) = true -> outstanding m <> [] \/ exists ec, Error ec ∈ messages m }.

(** At any moment. *)
Definition upload_inv (m : Upload) : Prop :=
  NoDup (chunk_ids m) /\ (is_terminal (current m) = false -> work_inv m).

Lemma work_inv_ext m m' : same_work m m' -> work_inv m -> work_inv m'.
Proof.
  intros (Hc & Hm & Hp & Hs & Hr & Hu & _) [H1 H2 H3 H4 H5].
  split; unfold fits, outstanding, chunk_ids in *; rewrite ?Hc, ?Hm, ?Hp, ?Hs, ?Hu; auto.
Qed.

Lemma upload_inv_ext m m' : same_work m m' -> upload_inv m -> upload_inv m'.
Proof.
  intros Hw [H1 H2]. pose proof Hw as (Hc & _ & _ & _ & _ & Hu & _).
  split; [by unfold chunk_ids; rewrite Hu|]. rewrite Hc. intros Ht. by eapply work_inv_ext, H2.
Qed.

(** ** The next chunk *)

Lemma incomplete_chunks_spec k states id :
  id ∈ incomplete_chunks k states <-> exists j, id = (k + j)%nat /\ states !! j = Some NeedsUpload.
Proof.
  revert k. induction states as [|s states IH]; intros k; simpl.
  - split; [by intros ?%elem_of_nil|by intros (j & _ & [=])].
  - rewrite elem_of_app, IH. split.
    + intros [Hin|(j & -> & Hj)].
      * case_bool_decide as Hs; [|by apply elem_of_nil in Hin].
        apply list_elem_of_singleton in Hin. exists 0%nat. simpl. split; [lia|congruence].
      * exists (S j). split; [lia|done].
    + intros ([|j] & -> & Hj); simpl in Hj.
      * left. simplify_eq. rewrite bool_decide_eq_true_2 by done. apply list_elem_of_singleton. lia.
      * right. exists j. split; [lia|done].
Qed.

Lemma NextChunk_some r (m : Upload) id :
  NextChunkToUpload r m = Some id -> chunk_states_ m !! id = Some NeedsUpload.
Proof.
  unfold NextChunkToUpload. intros Hn.
  assert (id ∈ incomplete_chunks 0 (chunk_states_ m)) as (j & -> & ?)%incomplete_chunks_spec; [|done].
  destruct (incomplete_chunks 0 (chunk_states_ m)) as [|c l]; [done|].
  by eapply list_elem_of_lookup_2.
Qed.

Lemma NextChunk_none r (m : Upload) :
  NextChunkToUpload r m = None -> forall j, chunk_states_ m !! j <> Some NeedsUpload.
Proof.
  unfold NextChunkToUpload. intros Hn j Hj.
  assert (j ∈ incomplete_chunks 0 (chunk_states_ m)) as Hin by (apply incomplete_chunks_spec; by exists j).
  destruct (incomplete_chunks 0 (chunk_states_ m)) as [|c l]; [by apply elem_of_nil in Hin|].
  apply lookup_ge_None in Hn. pose proof (Nat.mod_upper_bound r (length (c :: l))). simpl in *. lia.
Qed.

(** [DoChunkUpload] fails, starts on a chunk that needs it, or is done. *)
Lemma DoChunkUpload_cases env (m : Upload) :
  (exists ec, DoChunkUpload env m = ProcessEvent (Error ec) m)
  \/ (exists id r, chunk_states_ m !! id = Some NeedsUpload
      /\ DoChunkUpload env m
         = set_upload_request_ true (start (PendingChunk id)
             (set_uploads (uploads m ++ [(Some id, r)])
                (set_chunk_states_ (<[id := ChunkUploading]> (chunk_states_ m)) m))))
  \/ ((forall j, chunk_states_ m !! j <> Some NeedsUpload)
      /\ DoChunkUpload env m = ProcessEvent (ChunkUploadComplete (upload_key_ m)) m).
Proof.
  unfold DoChunkUpload. destruct (NextChunkToUpload (env_random env) m) as [id|] eqn:Hn.
  - apply NextChunk_some in Hn. unfold UploadNextChunk. case_match; [by left; eauto|].
    destruct (default (0, 0) (chunk_ranges_ m !! id)) as [b e]. case_match; [by left; eauto|].
    right; left. exists id, (u64 (i32 b), u64 (i32 e)). split; [done|]. unfold SetChunkState.
    apply lookup_lt_Some in Hn as Hl. destruct (Nat.ltb_spec id (length (chunk_states_ m))); [done|lia].
  - right; right. split; [by eapply NextChunk_none|done].
Qed.

Lemma DoChunkUpload_length env (m : Upload) :
  length (chunk_states_ (DoChunkUpload env m)) = length (chunk_states_ m).
Proof.
  destruct (DoChunkUpload_cases env m) as [(ec & ->)|[(id & r & _ & ->)|(_ & ->)]]; [done| |done].
  apply length_insert.
Qed.

(** ** One event keeps the invariant *)

Lemma on_exit_work env s (m : Upload) :
  let m' := on_exit env s m in
  current m' = current m /\ pending m' = pending m /\ chunk_states_ m' = chunk_states_ m
  /\ chunk_ranges_ m' = chunk_ranges_ m /\ uploads m' = uploads m /\ hash_ m' = hash_ m
  /\ exists l, messages m' = messages m ++ l /\ filter progress l = [].
Proof.
  assert (forall m1, same_work m m1 ->
    current m1 = current m /\ pending m1 = pending m /\ chunk_states_ m1 = chunk_states_ m
    /\ chunk_ranges_ m1 = chunk_ranges_ m /\ uploads m1 = uploads m /\ hash_ m1 = hash_ m
    /\ exists l, messages m1 = messages m ++ l /\ filter progress l = []) as Hsame.
  { intros m1 (?&?&?&?&?&?&?). repeat (split; [done|]). exists []. by rewrite app_nil_r. }
  destruct s; try (by apply Hsame); try (apply Hsame; apply callback_work).
  simpl. unfold Initial_on_exit. repeat case_match; simpl; repeat (split; [done|]);
    first [by exists []; rewrite app_nil_r|by eexists [_]].
Qed.

Lemma SendStatus_work st (m : Upload) : same_work m (SendStatus st m).
Proof. done. Qed.

#[export] Instance same_work_refl : Reflexive same_work.
Proof. done. Qed.
#[export] Instance same_work_trans : Transitive same_work.
Proof. unfold same_work. intros a b c (?&?&?&?&?&?&?) (?&?&?&?&?&?&?). repeat split; congruence. Qed.

Lemma on_entry_work t e (m : Upload) :
  t <> SetupHasher_ -> (t = UploadChunk -> forall id key, e <> ChunkSuccess id key) ->
  same_work m (on_entry t e m).
Proof.
  intros Ht Hc. destruct t, e; try done; simpl; try (by destruct (Hc eq_refl chunk_id upload_key));
    repeat first [etrans; [|apply SetCountState_work]|etrans; [|apply callback_work]
                 |etrans; [|apply SendStatus_work]]; by repeat split.
Qed.

(** The event of the queue is all that is outstanding. *)
Lemma progress_alone e q m :
  messages m = e :: q -> progress e = true -> work_inv m ->
  pending m = [] /\ filter progress q = [] /\ fits m (inr e).
Proof.
  intros Hq Hp [H1 _ _ _ _]. unfold outstanding in H1.
  rewrite Hq, filter_cons_True in H1 by (by rewrite Hp). csimpl in H1.
  destruct (pending m) as [|op [|]]; simpl in H1; try done.
  destruct (filter progress q); [done|]. done.
Qed.

Lemma nonprogress_outstanding e q m :
  messages m = e :: q -> progress e = false -> outstanding (set_messages q m) = outstanding m.
Proof.
  intros Hq Hp. unfold outstanding. simpl. rewrite Hq, filter_cons_False; [done|rewrite Hp; by intros []].
Qed.

(** The invariant of a machine in state [t], given what is outstanding in it. *)
Lemma work_inv_intro m w :
  outstanding m = w ->
  match w with [] => True | [w] => fits m w | _ => False end ->
  (early (current m) = true -> chunk_ids m = [] /\ chunk_states_ m = []) ->
  (current m = InUploadCheck -> chunk_ids m = []) ->
  (forall id, id ∈ chunk_ids m -> exists s, chunk_states_ m !! id = Some s /\ s <> NeedsUpload) ->
  (busy (current m) = true -> w <> [] \/ exists ec, Error ec ∈ messages m) -> work_inv m.
Proof. intros <-. by split. Qed.

Lemma idle_outstanding m :
  current m = Initial \/ current m = WaitForHashSignal \/ current m = WaitForUploadSignal ->
  work_inv m -> outstanding m = [].
Proof.
  intros Hc [H1 _ _ _ _]. destruct (outstanding m) as [|w [|]]; [done| |done]. exfalso.
  destruct w as [[]|[]]; simpl in H1; try done; destruct_and?;
    destruct Hc as [Hc|[Hc|Hc]]; congruence.
Qed.

(** Nothing is under way. *)
Definition quiet (m : Upload) : Prop := pending m = [] /\ filter progress (messages m) = [].

(** Nothing is under way and no chunk was dealt with. *)
Definition fresh (m : Upload) : Prop := quiet m /\ chunk_ids m = [] /\ chunk_states_ m = [].

Lemma quiet_outstanding m : quiet m -> outstanding m = [].
Proof. intros [Hp Hm]. unfold outstanding. by rewrite Hp, Hm. Qed.

Lemma quiet_start op m : quiet m -> outstanding (start op m) = [inl op].
Proof. intros [Hp Hm]. unfold outstanding. simpl. by rewrite Hp, Hm. Qed.

Lemma quiet_event e m :
  quiet m -> outstanding (ProcessEvent e m) = if progress e then [inr e] else [].
Proof.
  intros [Hp Hm]. unfold outstanding. simpl. rewrite Hp, filter_app, Hm.
  destruct (progress e) eqn:He; [by rewrite filter_cons_True by (by rewrite He)|].
  rewrite filter_cons_False by (rewrite He; by intros []). done.
Qed.

(** A machine that has no chunks yet and waits for at most one thing. *)
Lemma upload_inv_no_chunks m w :
  chunk_ids m = [] -> chunk_states_ m = [] -> outstanding m = w ->
  match w with [] => True | [w] => fits m w | _ => False end ->
  (busy (current m) = true -> w <> [] \/ exists ec, Error ec ∈ messages m) -> upload_inv m.
Proof.
  intros Hi Hs Ho Hw Hb. split; [rewrite Hi; constructor|]. intros _.
  apply (work_inv_intro m w); try done. rewrite Hi. by intros ? ?%elem_of_nil.
Qed.

Lemma fresh_idle m : fresh m -> busy (current m) = false -> upload_inv m.
Proof.
  intros (Hq & Hi & Hs) Hb. apply (upload_inv_no_chunks m []); auto using quiet_outstanding.
  by rewrite Hb.
Qed.

Lemma fresh_start op m : fresh m -> fits m (inl op) -> upload_inv (start op m).
Proof.
  intros (Hq & Hi & Hs) Hf. apply (upload_inv_no_chunks _ [inl op]); auto using quiet_start.
Qed.

Lemma fresh_event e m : fresh m -> progress e = true -> fits m (inr e) -> upload_inv (ProcessEvent e m).
Proof.
  intros (Hq & Hi & Hs) Hp Hf. apply (upload_inv_no_chunks _ [inr e]); auto.
  by rewrite quiet_event, Hp.
Qed.

Lemma error_in_queue e (l : list event) : e ∈ l ++ [e].
Proof. apply elem_of_app. right. by constructor. Qed.

Lemma fresh_error ec m : fresh m -> upload_inv (ProcessEvent (Error ec) m).
Proof.
  intros (Hq & Hi & Hs). apply (upload_inv_no_chunks _ []); auto.
  - by rewrite quiet_event.
  - intros _. right. exists ec. apply error_in_queue.
Qed.

(** A machine that uploads chunks or polls. *)
Lemma upload_inv_chunks m w :
  current m = UploadChunk \/ current m = PollUpload ->
  NoDup (chunk_ids m) -> outstanding m = w ->
  match w with [] => True | [w] => fits m w | _ => False end ->
  (forall id, id ∈ chunk_ids m -> exists s, chunk_states_ m !! id = Some s /\ s <> NeedsUpload) ->
  w <> [] \/ (exists ec, Error ec ∈ messages m) -> upload_inv m.
Proof.
  intros Hc Hnd Ho Hw Hids Hb. split; [done|]. intros _.
  apply (work_inv_intro m w); try done; destruct Hc as [-> | ->]; done.
Qed.

Lemma uploaded_all states :
  (forall j, states !! j <> Some NeedsUpload) -> (forall j, states !! j <> Some ChunkUploading) ->
  uploaded states.
Proof.
  intros H1 H2. apply Forall_lookup. intros j [] Hj; [by destruct (H1 j)|by destruct (H2 j)|done].
Qed.

(** What a chunk upload leaves behind, whatever chunk was the last one. *)
Lemma chunk_ids_snoc m ups id r :
  ups = uploads m ++ [(Some id, r)] -> omap fst ups = chunk_ids m ++ [id].
Proof. intros ->. unfold chunk_ids. by rewrite omap_app. Qed.

Ltac strip :=
  repeat first
    [ eapply upload_inv_ext; [apply SetCountState_work|]
    | eapply upload_inv_ext; [apply callback_work|]
    | eapply upload_inv_ext; [apply SendStatus_work|] ].

(** ** The rows, after the exit action *)

Lemma SetupHasher_row m :
  fresh m -> current m = SetupHasher_ -> upload_inv (SetupHasher_on_entry h0 m).
Proof.
  intros Hf Hc. unfold SetupHasher_on_entry.
  destruct (SetCountState_work CountHashing m) as (E1 & E2 & E3 & E4 & _ & E5 & _).
  assert (fresh (SetCountState CountHashing m)) as Hf'.
  { unfold fresh, quiet, chunk_ids. by rewrite E2, E3, E4, E5. }
  rewrite Hc in E1. destruct (ChunkRanges _ _); [by apply fresh_event|].
  apply fresh_idle; [done|by rewrite E1].
Qed.

Lemma OpenFile_row env st m : fresh m -> upload_inv (set_current Hashing (OpenFile env st m)).
Proof.
  intros Hf. unfold OpenFile. destruct (is_error _).
  - by apply (fresh_event (HeError _) (set_current Hashing m)).
  - by apply (fresh_event (HeReadNext st 0) (set_current Hashing m)).
Qed.

Lemma ReadFile_row env st pos m :
  fresh m -> upload_inv (set_current Hashing (ReadFileAction h0 h_update h_digest env st pos m)).
Proof.
  intros Hf. unfold ReadFileAction. destruct (env_read env) as [buffer ec].
  destruct (ReadFile _ _ _ _ _ _ _ _ _) as [st' pos'|st' hash|ec'|].
  - by apply (fresh_start (PendingRead st' pos') (set_current Hashing m)).
  - by apply (fresh_event (HeHashSuccess st' hash) (set_current Hashing m)).
  - by apply (fresh_event (HeError ec') (set_current Hashing m)).
  - by apply (fresh_idle (set_current Hashing m)).
Qed.

Lemma DoSimpleUpload_row env m :
  fresh m -> upload_inv (set_current UploadFile (DoSimpleUpload env m)).
Proof.
  intros Hf. unfold DoSimpleUpload. destruct (is_error (env_open env)).
  { by apply (fresh_error _ (set_current UploadFile m)). }
  destruct (is_error (env_seek env)).
  { by apply (fresh_error _ (set_current UploadFile m)). }
  destruct Hf as (Hq & Hi & Hs).
  apply (fresh_start PendingUpload (set_upload_request_ true (set_current UploadFile
    (set_uploads (uploads m ++ [(None, (0, filesize_ m))]) m)))); [|done].
  split; [done|]. split; [|done]. unfold chunk_ids in *. simpl. by rewrite omap_app, Hi.
Qed.

(** The chunk that a self-transition completes is marked after the next one is chosen. *)
Definition finish (d : option nat) (states : list ChunkState) : list ChunkState :=
  match d with Some i => <[i := Uploaded]> states | None => states end.

Lemma finish_lookup d states j s :
  finish d states !! j = Some s -> s = Uploaded \/ (states !! j = Some s /\ d <> Some j).
Proof.
  destruct d as [i|]; simpl; [|by right].
  intros [(_ & <- & _)|[? ?]]%list_lookup_insert_Some; [by left|right]. split; [done|congruence].
Qed.

Lemma finish_uploaded d states :
  (forall j, states !! j <> Some NeedsUpload) ->
  (forall j, states !! j = Some ChunkUploading -> d = Some j) -> uploaded (finish d states).
Proof.
  intros H1 H2. apply uploaded_all; intros j [?|[Hj Hd]]%finish_lookup; try done.
  - by apply (H1 j).
  - by apply Hd, H2.
Qed.

Lemma finish_started d states id s :
  states !! id = Some s -> s <> NeedsUpload ->
  exists s', finish d states !! id = Some s' /\ s' <> NeedsUpload.
Proof.
  intros Hid Hs. destruct d as [i|]; simpl; [|by exists s].
  destruct (decide (i = id)) as [->|Hne].
  - exists Uploaded. split; [|done]. apply list_lookup_insert_eq. by eapply lookup_lt_Some.
  - exists s. by rewrite list_lookup_insert_ne.
Qed.

Lemma finish_next d states id :
  states !! id = Some NeedsUpload ->
  (forall j, states !! j = Some ChunkUploading -> d = Some j) ->
  (forall i, d = Some i -> states !! i = Some ChunkUploading) ->
  let states' := finish d (<[id := ChunkUploading]> states) in
  states' !! id = Some ChunkUploading
  /\ forall j, states' !! j = Some ChunkUploading -> j = id.
Proof.
  intros Hid H1 H2. pose proof (lookup_lt_Some _ _ _ Hid) as Hlt. split.
  - destruct d as [i|]; simpl; [|by apply list_lookup_insert_eq].
    rewrite list_lookup_insert_ne; [by apply list_lookup_insert_eq|].
    intros ->. specialize (H2 id eq_refl). congruence.
  - intros j [?|[Hj Hd]]%finish_lookup; [done|].
    apply list_lookup_insert_Some in Hj as [(-> & _ & _)|[_ Hj]]; [done|]. by destruct Hd; apply H1.
Qed.

(** What [DoChunkUpload] leaves behind; [d] is the chunk that was completed. *)
Lemma DoChunkUpload_row env d m m' :
  quiet m -> NoDup (chunk_ids m) ->
  (forall id, id ∈ chunk_ids m -> exists s, chunk_states_ m !! id = Some s /\ s <> NeedsUpload) ->
  (forall j, chunk_states_ m !! j = Some ChunkUploading -> d = Some j) ->
  (forall i, d = Some i -> chunk_states_ m !! i = Some ChunkUploading) ->
  let m1 := DoChunkUpload env m in
  current m' = UploadChunk -> messages m' = messages m1 -> pending m' = pending m1 ->
  uploads m' = uploads m1 -> chunk_states_ m' = finish d (chunk_states_ m1) -> upload_inv m'.
Proof.
  intros Hq Hnd Hids H1 H2 m1 Ec Em Ep Eu Es.
  assert (chunk_ids m' = chunk_ids m1) as Ei by (unfold chunk_ids; by rewrite Eu).
  assert (outstanding m' = outstanding m1) as Eo by (unfold outstanding; by rewrite Em, Ep).
  unfold m1 in *. clear m1.
  destruct (DoChunkUpload_cases env m) as [(ec & E)|[(id & r & Hid & E)|(Hn & E)]]; rewrite E in *.
  - change (chunk_ids (ProcessEvent (Error ec) m)) with (chunk_ids m) in Ei.
    apply (upload_inv_chunks _ []); rewrite ?Eo, ?Ei; auto.
    + by apply (quiet_event (Error ec)).
    + intros id (s & Hs & Hne)%Hids. rewrite Es. by eapply finish_started.
    + right. exists ec. rewrite Em. apply error_in_queue.
  - assert (chunk_ids m' = chunk_ids m ++ [id]) as Ei'.
    { rewrite Ei. unfold chunk_ids at 1. simpl. by apply (chunk_ids_snoc m _ id r). }
    destruct (finish_next d (chunk_states_ m) id Hid H1 H2) as [Hf1 Hf2].
    apply (upload_inv_chunks _ [inl (PendingChunk id)]); rewrite ?Ei'; auto.
    + apply NoDup_app. split; [done|]. split; [|apply NoDup_singleton].
      intros i Hi ->%list_elem_of_singleton. apply Hids in Hi as (s & Hs & ?). congruence.
    + rewrite Eo. by apply (quiet_start (PendingChunk id)
        (set_uploads (uploads m ++ [(Some id, r)])
           (set_chunk_states_ (<[id := ChunkUploading]> (chunk_states_ m)) m))).
    + simpl. rewrite Es. simpl. by rewrite Ec.
    + intros i [Hi| ->%list_elem_of_singleton]%elem_of_app; rewrite Es; simpl; [|by eauto].
      apply Hids in Hi as (s & Hs & Hne). eapply finish_started; [|exact Hne].
      rewrite list_lookup_insert_ne; [done|]. intros ->. congruence.
  - change (chunk_ids (ProcessEvent (ChunkUploadComplete (upload_key_ m)) m)) with (chunk_ids m) in Ei.
    apply (upload_inv_chunks _ [inr (ChunkUploadComplete (upload_key_ m))]); rewrite ?Eo, ?Ei; auto.
    + by apply (quiet_event (ChunkUploadComplete _)).
    + simpl. split; [done|]. rewrite Es. by apply finish_uploaded.
    + intros id (s & Hs & Hne)%Hids. rewrite Es. by eapply finish_started.
Qed.

Lemma StartPoll_row key m :
  quiet m -> NoDup (chunk_ids m) -> uploaded (chunk_states_ m) ->
  (forall id, id ∈ chunk_ids m -> exists s, chunk_states_ m !! id = Some s /\ s <> NeedsUpload) ->
  upload_inv (set_current PollUpload (StartPoll key m)).
Proof.
  intros Hq Hnd Hu Hids. unfold StartPoll. case_bool_decide.
  - apply (upload_inv_chunks _ []); auto.
    + by apply (quiet_event (Error _)).
    + right. eexists. apply error_in_queue.
  - apply (upload_inv_chunks _ [inl (PendingPoll key)]); try done; auto.
    by apply (quiet_start (PendingPoll key)).
Qed.

(** The self-transition of [UploadChunk]. *)
Lemma ChunkSuccess_row env chunk_id key m :
  quiet m -> NoDup (chunk_ids m) ->
  (forall id, id ∈ chunk_ids m -> exists s, chunk_states_ m !! id = Some s /\ s <> NeedsUpload) ->
  chunk_states_ m !! chunk_id = Some ChunkUploading ->
  (forall j, chunk_states_ m !! j = Some ChunkUploading -> j = chunk_id) ->
  upload_inv (on_entry UploadChunk (ChunkSuccess chunk_id key)
    (set_current UploadChunk (DoChunkUpload env m))).
Proof.
  intros Hq Hnd Hids Hid Hother. unfold UploadMachine.on_entry.
  set (m2 := if bool_decide _ then _ else _).
  assert (current m2 = UploadChunk /\ messages m2 = messages (DoChunkUpload env m)
    /\ pending m2 = pending (DoChunkUpload env m) /\ uploads m2 = uploads (DoChunkUpload env m)
    /\ chunk_states_ m2 = chunk_states_ (DoChunkUpload env m)) as (E1 & E2 & E3 & E4 & E5)
    by (unfold m2; by case_bool_decide).
  unfold SetChunkState. rewrite E5, DoChunkUpload_length.
  apply lookup_lt_Some in Hid as Hlt. destruct (Nat.ltb_spec chunk_id (length (chunk_states_ m))); [|lia].
  apply (DoChunkUpload_row env (Some chunk_id) m); try done; simpl.
  - by intros j ->%Hother.
  - by intros i [= <-].
Qed.

(** What the invariant says when an event that carries the upload on is next. *)
Lemma row_quiet env e q m :
  messages m = e :: q -> work_inv m ->
  progress e = true
  \/ current m = Initial \/ current m = WaitForHashSignal \/ current m = WaitForUploadSignal ->
  let m1 := on_exit env (current m) (set_messages q m) in
  quiet m1 /\ (progress e = true -> fits m (inr e)).
Proof.
  intros Hq Hinv Hor m1.
  destruct (on_exit_work env (current m) (set_messages q m)) as (_ & Hp1 & _ & _ & _ & _ & l & Hm1 & Hl).
  fold m1 in Hp1, Hm1. unfold quiet. rewrite Hp1, Hm1, filter_app, Hl, app_nil_r. simpl.
  destruct (progress e) eqn:Hp.
  { by destruct (progress_alone e q m Hq Hp Hinv) as (? & ? & ?). }
  destruct Hor as [?|Hc]; [done|]. pose proof (idle_outstanding m Hc Hinv) as Ho.
  rewrite <-(nonprogress_outstanding e q m) in Ho by done.
  apply app_nil in Ho as [Ho1%fmap_nil_inv Ho2%fmap_nil_inv]. by split.
Qed.

Lemma row_upload_inv env e q m t f :
  messages m = e :: q -> is_terminal (current m) = false -> NoDup (chunk_ids m) -> work_inv m ->
  transition_table env (current m) e m = Some (t, f) -> is_terminal t = false ->
  upload_inv (on_entry t e (set_current t (f (on_exit env (current m) (set_messages q m))))).
Proof.
  intros Hq Hnt Hnd Hinv Hr Ht.
  pose proof (row_quiet env e q m Hq Hinv) as Hquiet. cbv zeta in Hquiet.
  destruct (on_exit_work env (current m) (set_messages q m)) as (_ & _ & Hs1 & _ & Hu1 & _ & _).
  set (m1 := on_exit env (current m) (set_messages q m)) in *. simpl in Hs1, Hu1.
  assert (chunk_ids m1 = chunk_ids m) as Hids by (unfold chunk_ids; by rewrite Hu1).
  destruct Hinv as [_ H2 H3 H4 _]. clearbody m1.
  assert (quiet m1 -> early (current m) = true -> fresh m1) as Hearly.
  { intros ? [Hi Hs]%H2. unfold fresh. by rewrite Hids, Hs1, Hi, Hs. }
  assert (quiet m1 -> current m = InUploadCheck -> chunk_states_ m = [] -> fresh m1) as Hcheck.
  { intros ? Hi%H3 Hs. unfold fresh. by rewrite Hids, Hs1, Hi, Hs. }
  rewrite <-Hids in H4, Hnd. setoid_rewrite <-Hs1 in H4.
  destruct (current m) eqn:Hc, e; simplify_eq/=; try done;
    destruct Hquiet as [Hm1 Hfit]; auto; try specialize (Hfit eq_refl).
  - destruct (HasHash _); simpl; strip; apply fresh_idle; by try apply Hearly.
  - by apply SetupHasher_row; [apply Hearly|].
  - strip. by apply OpenFile_row, Hearly.
  - by apply ReadFile_row, Hearly.
  - strip. apply (fresh_idle (set_current WaitForUploadSignal (SaveHash st sha256_hash m1)));
      [by apply Hearly|done].
  - strip. destruct (Hearly Hm1 eq_refl) as (? & ? & ?).
    by apply (fresh_start PendingCheck (set_current InUploadCheck
      (set_action_token_ upload_action_token m1))).
  - destruct Hfit. by apply DoSimpleUpload_row, Hcheck.
  - destruct Hfit as [_ Hs]. rewrite <-Hs1 in Hs.
    apply (DoChunkUpload_row env None m1); try done. intros j Hj. by destruct (Hs j).
  - destruct Hfit. by apply (fresh_start PendingInstant (set_current InstantUpload_ m1)); [apply Hcheck|].
  - destruct Hfit as [_ Hs]. rewrite <-Hs1 in Hs. strip.
    apply (StartPoll_row upload_key m1); try done.
    unfold uploaded. simpl. rewrite Hs. constructor.
  - destruct Hfit as (_ & Hid & Hother). rewrite <-Hs1 in Hid, Hother.
    by apply ChunkSuccess_row.
  - destruct Hfit as [_ Hu]. rewrite <-Hs1 in Hu.
    strip. by apply (StartPoll_row upload_key m1).
Qed.

(** What fits has a row. *)
Lemma fits_row env m e :
  progress e = true -> fits m (inr e) ->
  exists t f, transition_table env (current m) e m = Some (t, f).
Proof.
  intros Hp Hf. destruct e; simpl in Hf; try done; destruct_and?;
    match goal with Hc : current m = _ |- _ => rewrite Hc end; simpl; eauto.
Qed.

Lemma upload_inv_terminal m :
  is_terminal (current m) = true -> NoDup (chunk_ids m) -> upload_inv m.
Proof. intros Ht Hnd. split; [done|]. by rewrite Ht. Qed.

(** The entry of a terminate state and the rows that lead there start nothing. *)
Lemma row_terminal_uploads env e m t f m1 :
  transition_table env (current m) e m = Some (t, f) -> is_terminal t = true ->
  f m1 = m1 /\ t <> SetupHasher_ /\ t <> UploadChunk.
Proof.
  intros Hr Ht. destruct (current m), e; simpl in Hr; simplify_eq; try done;
    by destruct (HasHash m).
Qed.

Lemma process_one_upload_inv env e q m :
  messages m = e :: q -> upload_inv m -> upload_inv (process_one env e (set_messages q m)).
Proof.
  intros Hq [Hnd Hinv]. unfold UploadMachine.process_one. simpl.
  destruct (is_terminal (current m)) eqn:Hc; [by apply upload_inv_terminal|]. specialize (Hinv eq_refl).
  destruct (transition_table env (current m) e (set_messages q m)) as [[t f]|] eqn:Hr.
  - assert (transition_table env (current m) e m = Some (t, f)) as Hr'
      by by rewrite <-Hr; destruct (current m), e.
    destruct (is_terminal t) eqn:Ht; [|by apply row_upload_inv].
    destruct (row_terminal_uploads env e m t f
      (on_exit env (current m) (set_messages q m)) Hr' Ht) as (-> & ? & ?).
    destruct (on_exit_work env (current m) (set_messages q m)) as (_ & _ & _ & _ & Hu & _ & _).
    eapply upload_inv_ext; [by apply on_entry_work|]. apply upload_inv_terminal; [done|].
    unfold chunk_ids. simpl. by rewrite Hu.
  - destruct (progress e) eqn:Hp.
    { destruct (progress_alone e q m Hq Hp Hinv) as (_ & _ & Hf).
      destruct (fits_row env (set_messages q m) e Hp) as (t & f & Hr'); [by destruct e|].
      simpl in Hr'. congruence. }
    split; [done|]. intros _. destruct Hinv as [H1 H2 H3 H4 H5].
    assert (outstanding (set_improper (improper m ++ [(current m, e)]) (set_messages q m)) = outstanding m)
      as Ho by (by rewrite <-(nonprogress_outstanding e q m)).
    apply (work_inv_intro _ (outstanding m)); try done.
    intros Hb. destruct (H5 Hb) as [|(ec & Hec)]; [by left|]. right. exists ec. simpl.
    rewrite Hq in Hec. apply elem_of_cons in Hec as [<-|]; [|done].
    simpl in Hb. by destruct (current m).
Qed.

Lemma process_messages_upload_inv env fuel m m' :
  upload_inv m -> process_messages fuel env m = Some m' -> upload_inv m'.
Proof.
  revert m. induction fuel as [|fuel IH]; intros m Hinv; simpl; destruct (messages m) as [|e q] eqn:Hq;
    intros Hp; simplify_eq; [done|done|].
  by eapply IH; [|exact Hp]; apply process_one_upload_inv.
Qed.

End Proofs.
