(* ===== verification/UploadTheorems.v ===== *)
(** * One upload, from the first event to the last

    What holds of every machine that inputs lead to ([reachable]): it never waits for
    nothing while the server has work to do, it ends once, and the calls to the manager
    follow the manager's protocol ([phase_step]); and how the server's bitmap is read. *)
From S2P Require Import Prelude Errors Stepping HashReader UploadMachine UploadProofs.

Open Scope Z_scope.

(** ** What the manager may be told *)

Inductive waiting_list := NotWaiting | InToHash | InToUpload.

#[export] Instance waiting_list_eq_dec : EqDecision waiting_list.
Proof. solve_decision. Defined.

(** What the calls of one upload have told the manager. *)
Record phase := { in_list : waiting_list; counted : CountState; completed : bool }.

Definition first_phase : phase :=
  {| in_list := NotWaiting; counted := CountNone; completed := false |}.

(** The protocol: an upload is in at most one list, is counted at most once, leaves the
    list it is in, gives back the count it has, and completes when it has neither. *)
Definition phase_step (p : phase) (c : manager_call) : option phase :=
  if completed p then None
  else
    let list w := {| in_list := w; counted := counted p; completed := false |} in
    let count cs := {| in_list := in_list p; counted := cs; completed := false |} in
    match c, in_list p, counted p with
    | HandleAddToHash, NotWaiting, _ => Some (list InToHash)
    | HandleRemoveToHash, InToHash, _ => Some (list NotWaiting)
    | HandleAddToUpload, NotWaiting, _ => Some (list InToUpload)
    | HandleRemoveToUpload, InToUpload, _ => Some (list NotWaiting)
    | IncrementHashingCount, _, CountNone => Some (count CountHashing)
    | DecrementHashingCount, _, CountHashing => Some (count CountNone)
    | IncrementUploadingCount, _, CountNone => Some (count CountUploading)
    | DecrementUploadingCount, _, CountUploading => Some (count CountNone)
    | HandleComplete, NotWaiting, CountNone =>
        Some {| in_list := NotWaiting; counted := CountNone; completed := true |}
    | _, _, _ => None
    end.

Fixpoint phase_steps (p : phase) (calls : list manager_call) : option phase :=
  match calls with
  | [] => Some p
  | c :: calls => match phase_step p c with Some p => phase_steps p calls | None => None end
  end.

Lemma phase_steps_app p a b :
  phase_steps p (a ++ b) = match phase_steps p a with Some p => phase_steps p b | None => None end.
Proof. revert p. induction a as [|c a IH]; intros p; simpl; [done|]. by destruct (phase_step p c). Qed.

(** The list a state stands for. *)
Definition state_list (s : ustate) : waiting_list :=
  match s with
  | WaitForHashSignal => InToHash
  | WaitForUploadSignal => InToUpload
  | _ => NotWaiting
  end.

(** The count a state belongs to: a hashed file that waits for its upload still counts as
    hashing. *)
Definition state_count (s : ustate) : CountState :=
  match s with
  | SetupHasher_ | Hashing | WaitForUploadSignal => CountHashing
  | InUploadCheck | InstantUpload_ | UploadFile | UploadChunk | PollUpload => CountUploading
  | _ => CountNone
  end.

Definition is_final (s : status) : bool :=
  match s with ErrorStatus _ _ | CompleteStatus _ _ _ _ => true | _ => false end.

(** ** The bitmap of the server *)

Definition state_of_bit (b : bool) : ChunkState := if b then Uploaded else NeedsUpload.

Definition word_bits (n : nat) (w : Z) : list ChunkState :=
  (fun j => state_of_bit (Z.testbit w (Z.of_nat j))) <$> seq 0 n.

(** Bit [i] of a bitmap of 16-bit words. *)
Definition bitmap_bit (words : list Z) (i : nat) : bool :=
  match words !! (i / 16)%nat with
  | Some w => Z.testbit w (Z.of_nat (i mod 16))
  | None => false
  end.

Lemma word_bits_S n w : word_bits (S n) w = state_of_bit (Z.testbit w 0) :: word_bits n (Z.shiftr w 1).
Proof.
  unfold word_bits. cbn [seq fmap list_fmap]. f_equal. rewrite <-fmap_S_seq, <-list_fmap_compose.
  apply list_fmap_ext. intros _ j _. cbn [compose]. by rewrite Z.shiftr_spec, Nat2Z.inj_succ by lia.
Qed.

Lemma bitmap_word_spec n w chunks states :
  (length states <= chunks)%nat ->
  bitmap_word n w chunks states = take chunks (states ++ word_bits n w).
Proof.
  revert w states. induction n as [|n IH]; intros w states Hl; cbn [bitmap_word].
  - by rewrite app_nil_r, take_ge.
  - destruct (Nat.eqb_spec (length states) chunks) as [He|He].
    + subst chunks. by rewrite take_app_length.
    + rewrite IH by (rewrite length_app; simpl; lia). by rewrite word_bits_S, <-app_assoc.
Qed.

Lemma bitmap_words_spec words chunks states :
  (length states <= chunks)%nat ->
  foldl (fun states word => bitmap_word 16 word chunks states) states words
  = take chunks (states ++ flat_map (word_bits 16) words).
Proof.
  revert states. induction words as [|w words IH]; intros states Hl; cbn [foldl flat_map].
  - by rewrite app_nil_r, take_ge.
  - rewrite bitmap_word_spec by done. rewrite IH by (rewrite length_take; lia).
    set (l := states ++ word_bits 16 w). rewrite (app_assoc states). fold l.
    destruct (decide (length l <= chunks)%nat); [by rewrite (take_ge l) by done|].
    rewrite take_app_le by (rewrite length_take; lia). rewrite take_take, Nat.min_id.
    by rewrite take_app_le by lia.
Qed.

Lemma lookup_word_bits words i :
  flat_map (word_bits 16) words !! i
  = if decide (i < 16 * length words)%nat then Some (state_of_bit (bitmap_bit words i)) else None.
Proof.
  revert i. induction words as [|w words IH]; intros i; cbn [flat_map].
  - case_decide; [simpl in *; lia|done].
  - assert (length (word_bits 16 w) = 16)%nat as Hl by done.
    destruct (decide (i < 16)%nat).
    + rewrite lookup_app_l by lia. rewrite decide_True by (simpl; lia). unfold word_bits, bitmap_bit.
      by rewrite list_lookup_fmap, lookup_seq_lt, Nat.div_small, Nat.mod_small by lia.
    + rewrite lookup_app_r, Hl, IH by lia. unfold bitmap_bit. cbn [length].
      pose proof (Nat.div_add (i - 16) 1 16) as Hd. pose proof (Nat.Div0.mod_add (i - 16) 1 16) as Hm.
      replace (i - 16 + 1 * 16)%nat with i in * by lia. rewrite Hd, Hm, Nat.add_1_r by done.
      simpl. repeat case_decide; [done|lia|lia|done].
Qed.

Section Theorems.
Context {H : Type} (h0 : H) (h_update : H -> str -> H) (h_digest : H -> str).

#[local] Abbreviation Upload := (UploadMachine.Upload (H := H)).
#[local] Abbreviation event := (UploadMachine.event (H := H)).
#[local] Abbreviation transition_table := (UploadMachine.transition_table h0 h_update h_digest).
#[local] Abbreviation on_entry := (UploadMachine.on_entry h0).
#[local] Abbreviation process_one := (UploadMachine.process_one h0 h_update h_digest).
#[local] Abbreviation process_messages := (UploadMachine.process_messages h0 h_update h_digest).
#[local] Abbreviation process_event := (UploadMachine.process_event h0 h_update h_digest).
#[local] Abbreviation complete_op := (UploadMachine.complete_op h0 h_update h_digest).
#[local] Abbreviation upload_input := (UploadMachine.upload_input h0 h_update h_digest).

Definition phase_of (m : Upload) : phase :=
  {| in_list := state_list (current m); counted := count_state_ m;
     completed := is_terminal (current m) |}.

(** The calls and the statuses so far fit the state. *)
Record ledger (m : Upload) : Prop := {
  lg_connected : connected m = true;
  lg_calls : phase_steps first_phase (calls m) = Some (phase_of m);
  lg_final : length (filter (fun s => is_final s) (statuses m))
             = (if is_terminal (current m) then 1 else 0)%nat }.

(** ** Actions make no calls *)

Definition silent (m m' : Upload) : Prop :=
  current m' = current m /\ connected m' = connected m /\ calls m' = calls m
  /\ count_state_ m' = count_state_ m /\ statuses m' = statuses m.

#[export] Instance silent_refl : Reflexive silent.
Proof. done. Qed.
#[export] Instance silent_trans : Transitive silent.
Proof. unfold silent. intros a b c (?&?&?&?&?) (?&?&?&?&?). repeat split; congruence. Qed.

Lemma SetChunkState_silent i s (m : Upload) : silent m (SetChunkState i s m).
Proof. unfold SetChunkState. by case_match. Qed.

Lemma DoChunkUpload_silent env (m : Upload) : silent m (DoChunkUpload env m).
Proof.
  by destruct (DoChunkUpload_cases env m) as [(ec & ->)|[(id & r & _ & ->)|(_ & ->)]].
Qed.

Lemma row_silent env s e m t f m1 : transition_table env s e m = Some (t, f) -> silent m1 (f m1).
Proof.
  intros Hr. destruct s, e; simpl in Hr; simplify_eq; try done; simpl;
    try apply DoChunkUpload_silent;
    unfold OpenFile, ReadFileAction, DoSimpleUpload, StartPoll;
    repeat first [case_match|case_bool_decide]; done.
Qed.

Lemma ledger_silent m m' : silent m m' -> ledger m -> ledger m'.
Proof.
  intros (Hc & Hd & Hl & Hs & Ht) [H1 H2 H3].
  split; unfold phase_of; rewrite ?Hc, ?Hd, ?Hl, ?Hs, ?Ht; done.
Qed.

(** ** Entry and exit follow the protocol *)

(** Between the exit of a state and the entry of the next one. *)
Record between (m : Upload) : Prop := {
  bt_connected : connected m = true;
  bt_calls : phase_steps first_phase (calls m)
    = Some {| in_list := NotWaiting; counted := count_state_ m; completed := false |};
  bt_final : filter (fun s => is_final s) (statuses m) = [] }.

Lemma between_silent m m' : silent m m' -> between m -> between m'.
Proof. intros (_ & Hd & Hl & Hs & Ht) [H1 H2 H3]. split; by rewrite ?Hd, ?Hl, ?Hs, ?Ht. Qed.

Lemma between_set_current t m : between m -> between (set_current t m).
Proof. intros [H1 H2 H3]. by split. Qed.

(** A call that the protocol allows. *)
Lemma callback_steps c p p' (m : Upload) :
  connected m = true -> phase_steps first_phase (calls m) = Some p -> phase_step p c = Some p' ->
  phase_steps first_phase (calls (callback c m)) = Some p'.
Proof.
  intros Hc Hp Hs. unfold callback. rewrite Hc. simpl. rewrite phase_steps_app, Hp. simpl. by rewrite Hs.
Qed.

Lemma callback_other c (m : Upload) :
  current (callback c m) = current m /\ connected (callback c m) = connected m
  /\ count_state_ (callback c m) = count_state_ m /\ statuses (callback c m) = statuses m.
Proof. unfold callback. by destruct (connected m) eqn:E; simpl; rewrite ?E. Qed.

Lemma no_final_filter (l : list status) :
  length (filter (fun s => is_final s) l) = 0%nat -> filter (fun s => is_final s) l = [].
Proof. apply nil_length_inv. Qed.

(** Leaving a list. *)
Lemma leave_list c m w cs :
  connected m = true -> filter (fun s => is_final s) (statuses m) = [] -> count_state_ m = cs ->
  phase_steps first_phase (calls m) = Some {| in_list := w; counted := cs; completed := false |} ->
  (c = HandleRemoveToHash /\ w = InToHash \/ c = HandleRemoveToUpload /\ w = InToUpload) ->
  between (callback c m).
Proof.
  intros H1 H3 Hs H2 Hc. destruct (callback_other c m) as (E1 & E2 & E3 & E4).
  split; rewrite ?E2, ?E3, ?E4; [done| |done]. eapply callback_steps; [done|exact H2|].
  rewrite Hs. by destruct Hc as [[-> ->]|[-> ->]].
Qed.

Lemma on_exit_between env m :
  ledger m -> is_terminal (current m) = false -> between (on_exit env (current m) m).
Proof.
  intros [H1 H2 H3] Ht. rewrite Ht in H3. apply no_final_filter in H3. unfold phase_of in H2. rewrite Ht in H2.
  destruct (current m) eqn:Hc; try done; simpl in *; try (by split);
    try (eapply leave_list; eauto; fail).
  apply (between_silent m); [|by split]. unfold Initial_on_exit. by repeat case_match.
Qed.

Lemma SetCountState_between cs m :
  between m -> between (SetCountState cs m) /\ count_state_ (SetCountState cs m) = cs.
Proof.
  intros [H1 H2 H3]. split; [|done]. unfold SetCountState.
  set (m1 := match count_state_ m with CountNone => m | CountHashing => _ | CountUploading => _ end).
  assert (connected m1 = true /\ statuses m1 = statuses m /\ phase_steps first_phase (calls m1)
    = Some {| in_list := NotWaiting; counted := CountNone; completed := false |}) as (E1 & E2 & E3).
  { unfold m1. destruct (count_state_ m) eqn:Hs; [done| |];
      match goal with |- context [callback ?c _] => destruct (callback_other c m) as (_ & -> & _ & ->) end;
      (split; [done|]); (split; [done|]); by eapply callback_steps. }
  clearbody m1. destruct cs; simpl.
  - split; simpl; congruence.
  - destruct (callback_other IncrementHashingCount m1) as (_ & F1 & _ & F2).
    split; simpl; [congruence|by eapply callback_steps|congruence].
  - destruct (callback_other IncrementUploadingCount m1) as (_ & F1 & _ & F2).
    split; simpl; [congruence|by eapply callback_steps|congruence].
Qed.

Lemma SetCountState_statuses cs (m : Upload) : statuses (SetCountState cs m) = statuses m.
Proof.
  unfold SetCountState. destruct (count_state_ m), cs; cbn [statuses set_count_state_];
    by rewrite ?(proj2 (proj2 (proj2 (callback_other _ _)))).
Qed.

(** The end of an entry: the state's own calls are made. *)
Lemma between_ledger m :
  between m -> is_terminal (current m) = false -> state_list (current m) = NotWaiting -> ledger m.
Proof. intros [H1 H2 H3] Ht Hl. split; unfold phase_of; rewrite ?Hl, ?Ht; [done|done|by rewrite H3]. Qed.

Lemma enter_list c st w m :
  between m -> is_terminal (current m) = false -> state_list (current m) = w ->
  (c = HandleAddToHash /\ w = InToHash \/ c = HandleAddToUpload /\ w = InToUpload) ->
  is_final st = false -> ledger (SendStatus st (callback c m)).
Proof.
  intros [H1 H2 H3] Ht Hl Hc Hf. destruct (callback_other c m) as (E1 & E2 & E3 & E4).
  split; unfold SendStatus, phase_of; cbn [connected calls statuses current count_state_ set_statuses];
    rewrite ?E1, ?E2, ?E3, ?E4, ?Ht, ?Hl; [done| |].
  - eapply callback_steps; [done|exact H2|]. by destruct Hc as [[-> ->]|[-> ->]].
  - rewrite filter_app, H3, filter_cons_False; [done|rewrite Hf; by intros []].
Qed.

Lemma enter_terminal st m :
  between m -> is_terminal (current m) = true -> is_final st = true ->
  ledger (callback HandleComplete (SendStatus st (SetCountState CountNone m))).
Proof.
  intros Hb Ht Hf. destruct (SetCountState_between CountNone m Hb) as [[H1 H2 H3] Hn].
  destruct (SetCountState_same CountNone m) as [Hc _].
  set (m1 := SetCountState CountNone m) in *. clearbody m1.
  destruct (callback_other HandleComplete (SendStatus st m1)) as (E1 & E2 & E3 & E4).
  rewrite <-Hc in Ht.
  split; unfold phase_of; rewrite ?E1, ?E2, ?E3, ?E4; simpl; rewrite ?Ht; [done| |].
  - eapply callback_steps; [done|exact H2|]. rewrite Hn. unfold phase_step. simpl.
    by destruct (current m1).
  - rewrite filter_app, H3, filter_cons_True by (by rewrite Hf). done.
Qed.

Lemma ledger_status st m : is_final st = false -> ledger m -> ledger (SendStatus st m).
Proof.
  intros Hf [H1 H2 H3]. split; [done|done|]. simpl.
  rewrite filter_app, length_app, H3, (filter_cons_False _ st) by (rewrite Hf; by intros []).
  simpl. lia.
Qed.

Lemma on_entry_ledger env s e m0 t f m :
  transition_table env s e m0 = Some (t, f) -> between m -> current m = t ->
  ledger (on_entry t e m).
Proof.
  intros Hr Hb.
  assert (is_terminal (current m) = false -> state_list (current m) = NotWaiting -> ledger m) as Hplain
    by by apply between_ledger.
  destruct s, e; simpl in Hr; simplify_eq; intros Hc;
    try (match goal with |- context [HasHash m0] => destruct (HasHash m0) end; simpl in * );
    try (by apply Hplain; rewrite Hc); simpl; try (by apply enter_terminal; rewrite ?Hc);
    try (by eapply enter_list; rewrite ?Hc; eauto);
    try (by apply ledger_status, Hplain; rewrite ?Hc).
  - unfold SetupHasher_on_entry. destruct (SetCountState_between CountHashing m Hb) as [Hb' _].
    destruct (SetCountState_same CountHashing m) as [Hc' _]. rewrite Hc in Hc'.
    apply (ledger_silent (SetCountState CountHashing m)); [by destruct (ChunkRanges _ _)|].
    by apply between_ledger; rewrite ?Hc'.
  - apply ledger_status; [done|].
    destruct (SetCountState_between CountUploading (set_action_token_ upload_action_token m)) as [Hb' _];
      [by destruct Hb; split|].
    destruct (SetCountState_same CountUploading (set_action_token_ upload_action_token m)) as [Hc' _].
    change (current (set_action_token_ upload_action_token m)) with (current m) in Hc'.
    rewrite Hc in Hc'. by apply between_ledger; rewrite ?Hc'.
  - apply (ledger_silent m); [|by apply Hplain; rewrite Hc].
    etrans; [|apply SetChunkState_silent]. by case_bool_decide.
Qed.

Lemma process_one_ledger env e m : ledger m -> ledger (process_one env e m).
Proof.
  intros Hl. unfold UploadMachine.process_one. destruct (is_terminal (current m)) eqn:Ht; [done|].
  destruct (transition_table env (current m) e m) as [[t f]|] eqn:Hr; [|by destruct Hl].
  eapply on_entry_ledger; [exact Hr| |done]. apply between_set_current.
  eapply between_silent; [by eapply row_silent|]. by apply on_exit_between.
Qed.

Lemma process_messages_ledger env fuel m m' :
  ledger m -> process_messages fuel env m = Some m' -> ledger m'.
Proof.
  revert m. induction fuel as [|fuel IH]; intros m Hl; simpl; destruct (messages m) as [|e q] eqn:Hq;
    intros Hp; simplify_eq; [done|done|].
  eapply IH; [|exact Hp]. apply process_one_ledger. by eapply ledger_silent; [|exact Hl].
Qed.

(** ** Inputs *)

(** The wait between two polls is not cancelled: nothing else uses the timer. *)
Definition possible (i : input) : bool :=
  match i with DoComplete _ (AnswerTimer true) => false | _ => true end.

Inductive reachable : Upload -> Prop :=
  | reachable_new name action : reachable (NewUpload name action)
  | reachable_input env i m m' :
      reachable m -> possible i = true -> upload_input env i m = Some m' -> reachable m'.

(** An answer comes for the one operation that is pending. *)
Lemma pending_only n op (m : Upload) :
  upload_inv m -> is_terminal (current m) = false -> messages m = [] ->
  pending m !! n = Some op ->
  let m0 := set_pending (delete n (pending m)) m in
  quiet m0 /\ fits m0 (inl op).
Proof.
  intros [_ Hinv] Ht Hq Hn m0. destruct (Hinv Ht) as [H1 _ _ _ _].
  unfold outstanding in H1. rewrite Hq in H1. csimpl in H1. rewrite app_nil_r in H1.
  unfold m0, quiet. simpl. rewrite Hq.
  destruct (pending m) as [|op' [|]]; simpl in H1; [done| |done].
  destruct n; [|done]. simplify_eq/=. split; [done|]. by destruct op.
Qed.

(** What stays when something ends and the next thing starts. *)
Record rest (m m' : Upload) : Prop := {
  rs_current : current m' = current m;
  rs_states : chunk_states_ m' = chunk_states_ m;
  rs_uploads : uploads m' = uploads m }.

Lemma upload_inv_rest (m m' : Upload) w :
  upload_inv m -> rest m m' -> outstanding m' = w ->
  match w with [] => True | [w] => fits m' w | _ => False end ->
  (is_terminal (current m) = false -> w <> [] \/ exists ec, Error ec ∈ messages m') -> upload_inv m'.
Proof.
  intros [Hnd Hinv] [E1 E2 E3] Ho Hw Hb. unfold upload_inv, chunk_ids in *. rewrite E1, E3.
  split; [done|]. intros Ht. destruct (Hinv Ht) as [_ H2 H3 H4 _]. unfold chunk_ids in *.
  apply (work_inv_intro m' w); unfold chunk_ids; rewrite ?E1, ?E2, ?E3; auto.
Qed.

Lemma deliver e (m m' : Upload) :
  upload_inv m -> is_terminal (current m) = false -> rest m m' -> quiet m' ->
  (if progress e then fits m' (inr e) else exists ec, e = Error ec) ->
  upload_inv (ProcessEvent e m').
Proof.
  intros Hinv Ht Hr Hq He. apply (upload_inv_rest m _ (if progress e then [inr e] else []) Hinv).
  - by destruct Hr.
  - by apply quiet_event.
  - destruct (progress e); [|done]. destruct e; exact He.
  - intros _. destruct (progress e); [by left|]. right. destruct He as [ec ->]. exists ec.
    apply error_in_queue.
Qed.

Lemma bitmap_word_no_uploading bits word chunks states :
  ChunkUploading ∉ states -> ChunkUploading ∉ bitmap_word bits word chunks states.
Proof.
  revert word states. induction bits as [|bits IH]; intros word states Hs; simpl; [done|].
  case_match; [done|]. apply IH. rewrite elem_of_app. intros [|Hx%list_elem_of_singleton]; [done|].
  by case_match.
Qed.

Lemma bitmap_words_no_uploading words chunks states :
  ChunkUploading ∉ states ->
  ChunkUploading ∉ foldl (fun states word => bitmap_word 16 word chunks states) states words.
Proof.
  revert states. induction words as [|w words IH]; intros states Hs; cbn [foldl]; [done|].
  by apply IH, bitmap_word_no_uploading.
Qed.

Lemma SetBitmap_no_uploading bitmap (m : Upload) :
  ChunkUploading ∉ chunk_states_ (SetBitmap bitmap m).
Proof.
  unfold SetBitmap. cbn [chunk_states_ set_chunk_states_].
  intros [Hx|Hx]%elem_of_app.
  - revert Hx. apply bitmap_words_no_uploading, not_elem_of_nil.
  - by apply elem_of_replicate_inv in Hx.
Qed.

Lemma HandleUploadResponse_event success r e :
  HandleUploadResponse (H := H) success r = e ->
  (exists ec, e = Error ec) \/ (exists key, e = success key).
Proof. intros <-. unfold HandleUploadResponse. repeat case_match; eauto. Qed.

(** What [upload/check] answers. *)
Lemma HandleCheckResponse_cases r (m : Upload) :
  (exists e, HandleCheckResponse r m = (m, e)
     /\ ((exists ec, e = Error ec) \/ (exists k n, e = AlreadyUploaded k n) \/ e = InstantUpload
         \/ e = NeedsSingleUpload))
  \/ (exists units words, resumable r = Some (units, words)
      /\ HandleCheckResponse r m = (SetBitmap words m, NeedsChunkUpload)).
Proof.
  unfold HandleCheckResponse, HandleCheck.
  repeat case_match; simplify_eq; first [by right; eauto 10|left; eexists; split; [done|]; eauto 10].
Qed.

Lemma quiet_settled (m : Upload) : messages m = [] -> pending m = [] -> quiet m.
Proof. intros Hm Hp. split; [done|]. by rewrite Hm. Qed.

(** The bitmap replaces the states of the chunks before any was sent. *)
Lemma SetBitmap_deliver words (m0 m : Upload) :
  upload_inv m0 -> rest m0 m -> quiet m -> fits m (inl PendingCheck) ->
  upload_inv (ProcessEvent NeedsChunkUpload (SetBitmap words m)).
Proof.
  intros [Hnd Hinv] [E1 _ E3] [Hp Hm] [Hc Hs]. pose proof (SetBitmap_no_uploading words m) as Hno.
  destruct Hinv as [_ _ H3 _ _]; [by rewrite <-E1, Hc|]. rewrite <-E1 in H3. specialize (H3 Hc).
  unfold chunk_ids in H3, Hnd. rewrite <-E3 in H3, Hnd.
  split; [done|]. intros _.
  apply (work_inv_intro _ [inr NeedsChunkUpload]).
  - by apply (quiet_event NeedsChunkUpload (SetBitmap words m)).
  - split; [done|]. intros j Hj. by eapply Hno, list_elem_of_lookup_2.
  - change (current (ProcessEvent NeedsChunkUpload (SetBitmap words m))) with (current m). by rewrite Hc.
  - done.
  - change (chunk_ids (ProcessEvent NeedsChunkUpload (SetBitmap words m))) with (omap fst (uploads m)).
    rewrite H3. by intros ? ?%elem_of_nil.
  - by left.
Qed.

(** The answer of an operation, as an event or as the next operation. *)
Lemma complete_op_inv env op a (m0 m m' : Upload) :
  upload_inv m0 -> is_terminal (current m0) = false -> rest m0 m ->
  quiet m -> messages m = [] -> fits m (inl op) ->
  a <> AnswerTimer true -> complete_op env op a m = Some m' -> upload_inv m'.
Proof.
  intros Hinv Ht Hr Hq Hm Hf Ha Hc.
  assert (forall e, (if progress e then fits m (inr e) else exists ec, e = Error ec) ->
    process_event env e m = Some m' -> upload_inv m') as Hev.
  { intros e He. apply process_messages_upload_inv. by apply (deliver e m0 m). }
  assert (forall op, fits m (inl op) -> upload_inv (start op m)) as Hstart.
  { intros op' Hop. apply (upload_inv_rest m0 _ [inl op'] Hinv); auto;
      [by destruct Hr|by apply quiet_start]. }
  unfold UploadMachine.complete_op in Hc. destruct op, a; try done.
  - by eapply Hev, Hc.
  - destruct (HandleCheckResponse_cases r m) as [(e & E & He)|(units & words & _ & E)]; rewrite E in Hc.
    + eapply Hev, Hc. destruct He as [(? & ->)|[(? & ? & ->)|[->| ->]]]; simpl; eauto.
    + revert Hc. by eapply process_messages_upload_inv, SetBitmap_deliver.
  - eapply Hev, Hc. unfold HandleInstantResponse. destruct (is_error _); simpl; eauto.
  - destruct (HandleUploadResponse_event SimpleUploadComplete r _ eq_refl) as [(? & E)|(? & E)];
      rewrite E in Hc; eapply Hev, Hc; simpl; eauto.
  - destruct (HandleUploadResponse_event (ChunkSuccess chunk_id) r _ eq_refl) as [(? & E)|(? & E)];
      unfold HandleChunkResponse in Hc; rewrite E in Hc; eapply Hev, Hc; simpl; eauto.
  - destruct (HandlePollResponse r m) as [e|] eqn:E; [|simplify_eq; by apply Hstart].
    eapply Hev, Hc. unfold HandlePollResponse, HandlePollCompleteResponse in E.
    repeat case_match; simplify_eq; simpl; eauto.
  - destruct cancelled; [done|]. revert Hc. apply process_messages_upload_inv.
    unfold StartPoll. case_bool_decide; [|by apply Hstart].
    apply (deliver (Error _) m0 m); simpl; eauto.
Qed.

(** ** Reachable machines *)

Lemma deliver_plain env e (m m' : Upload) :
  upload_inv m -> messages m = [] -> progress e = false ->
  (busy (current m) = true -> pending m <> []) ->
  process_event env e m = Some m' -> upload_inv m'.
Proof.
  intros [Hnd Hinv] Hm Hp Hb. apply process_messages_upload_inv. split; [done|]. intros Ht.
  destruct (Hinv Ht) as [H1 H2 H3 H4 H5].
  assert (outstanding (ProcessEvent e m) = outstanding m) as Ho.
  { unfold outstanding. simpl. rewrite filter_app, filter_cons_False; [by rewrite app_nil_r|].
    rewrite Hp. by intros []. }
  apply (work_inv_intro _ (outstanding m)); auto. intros Hbusy. left.
  unfold outstanding. destruct (pending m); [by apply Hb in Hbusy|done].
Qed.

Lemma busy_pending (m : Upload) :
  upload_inv m -> messages m = [] -> busy (current m) = true -> exists op, pending m = [op] /\ fits m (inl op).
Proof.
  intros [_ Hinv] Hm Hb. destruct Hinv as [H1 _ _ _ H5]; [by destruct (current m)|].
  destruct (H5 Hb) as [Ho|(ec & Hec)]; [|rewrite Hm in Hec; by apply elem_of_nil in Hec].
  unfold outstanding in *. rewrite Hm in *. csimpl in *. rewrite app_nil_r in *.
  destruct (pending m) as [|op [|]]; simpl in *; try done. by exists op.
Qed.

Lemma terminal_messages env fuel (m m' : Upload) :
  is_terminal (current m) = true -> process_messages fuel env m = Some m' ->
  current m' = current m /\ pending m' = pending m /\ uploads m' = uploads m
  /\ calls m' = calls m /\ statuses m' = statuses m.
Proof.
  revert m. induction fuel as [|fuel IH]; intros m Ht; simpl; destruct (messages m) as [|e q]; intros Hp;
    simplify_eq; [done|done|].
  unfold UploadMachine.process_one in Hp. simpl in Hp. rewrite Ht in Hp. by apply IH in Hp.
Qed.

Lemma process_messages_empty env fuel (m m' : Upload) :
  process_messages fuel env m = Some m' -> messages m' = [].
Proof.
  revert m. induction fuel as [|fuel IH]; intros m; simpl; destruct (messages m) as [|e q] eqn:Hq;
    intros Hp; simplify_eq; [done|done|]. by eapply IH.
Qed.

Definition kept (m m' : Upload) : Prop := uploads m' = uploads m /\ hash_ m' = hash_ m.

(** What a completion does: some silent changes, then the queue is processed unless the
    next operation was started. *)
Lemma complete_op_shape env op a (m m' : Upload) :
  complete_op env op a m = Some m' ->
  exists m1, silent m m1 /\ kept m m1
    /\ ((exists fuel, process_messages fuel env m1 = Some m') \/ (m' = m1 /\ messages m1 = messages m)).
Proof.
  intros Hc.
  assert (forall e m1, silent m m1 -> kept m m1 -> process_event env e m1 = Some m' ->
    exists m1, silent m m1 /\ kept m m1
      /\ ((exists fuel, process_messages fuel env m1 = Some m') \/ (m' = m1 /\ messages m1 = messages m)))
    as Hev.
  { intros e m1 Hs Hu Hp. exists (ProcessEvent e m1). split; [etrans; [exact Hs|done]|].
    split; [done|]. left. by exists message_fuel. }
  unfold UploadMachine.complete_op in Hc. destruct op, a; try done; try (by eapply Hev).
  - destruct (HandleCheckResponse_cases r m) as [(e & E & _)|(u & w & _ & E)]; rewrite E in Hc;
      by eapply Hev, Hc.
  - destruct (HandlePollResponse r m); [by eapply Hev|]. simplify_eq.
    exists (start (PendingPollTimer upload_key) m). by split; [|split; [|right]].
  - destruct cancelled; simplify_eq.
    + exists m'. by split; [|split; [|right]].
    + exists (StartPoll upload_key m). split; [unfold StartPoll; by case_bool_decide|].
      split; [unfold StartPoll; by case_bool_decide|]. left. by exists message_fuel.
Qed.

Lemma upload_input_inv env i (m m' : Upload) :
  messages m = [] -> upload_inv m -> possible i = true -> upload_input env i m = Some m' ->
  messages m' = [] /\ upload_inv m'.
Proof.
  intros Hm Hinv Hpos Hi.
  assert (busy (current m) = true -> pending m <> []) as Hbusy.
  { intros Hb. destruct (busy_pending m Hinv Hm Hb) as (op & -> & _). done. }
  assert (forall e, progress e = false -> process_event env e m = Some m' ->
    messages m' = [] /\ upload_inv m') as Hplain.
  { intros e Hp Hev. split; [by eapply process_messages_empty|by eapply deliver_plain]. }
  destruct i as [| |token|ec|n a]; simpl in Hi; try (by eapply Hplain, Hi).
  destruct (pending m !! n) as [op|] eqn:Hn; [|done].
  set (m0 := set_pending (delete n (pending m)) m) in *.
  destruct (complete_op_shape _ _ _ _ _ Hi) as (m1 & (Hc1 & _) & [Hu1 _] & Hor).
  split.
  { destruct Hor as [[fuel Hp]|[-> ->]]; [by eapply process_messages_empty|done]. }
  destruct (is_terminal (current m)) eqn:Ht.
  - assert (current m' = current m /\ uploads m' = uploads m) as [E1 E2].
    { destruct Hor as [[fuel Hp]|[-> _]]; [|by rewrite Hc1, Hu1].
      apply terminal_messages in Hp as (E1 & _ & E2 & _); [by rewrite E1, E2, Hc1, Hu1|by rewrite Hc1]. }
    apply upload_inv_terminal; [by rewrite E1|]. unfold chunk_ids. rewrite E2. by destruct Hinv.
  - destruct (pending_only n op m Hinv Ht Hm Hn) as [Hq Hf].
    by eapply (complete_op_inv env op a m m0); try done; intros ->.
Qed.

(** ** Calls are only added *)

Lemma callback_prefix c (m : Upload) : calls m `prefix_of` calls (callback c m).
Proof. unfold callback. destruct (connected m); [by eexists|done]. Qed.

Lemma SetCountState_prefix cs (m : Upload) : calls m `prefix_of` calls (SetCountState cs m).
Proof.
  unfold SetCountState. simpl.
  destruct (count_state_ m), cs; simpl; repeat (etrans; [|apply callback_prefix]); done.
Qed.

Lemma on_exit_prefix env s (m : Upload) : calls m `prefix_of` calls (on_exit env s m).
Proof.
  destruct s; try done; try apply callback_prefix. simpl. unfold Initial_on_exit. by repeat case_match.
Qed.

Lemma SetupHasher_prefix (m : Upload) : calls m `prefix_of` calls (SetupHasher_on_entry h0 m).
Proof.
  unfold SetupHasher_on_entry. destruct (ChunkRanges _ _); apply (SetCountState_prefix CountHashing m).
Qed.

Lemma on_entry_prefix t e (m : Upload) : calls m `prefix_of` calls (on_entry t e m).
Proof.
  destruct t, e; try done; cbn [UploadMachine.on_entry];
    try apply SetupHasher_prefix; try apply callback_prefix;
    try (etrans; [|apply callback_prefix]; apply SetCountState_prefix).
  - apply (SetCountState_prefix CountUploading (set_action_token_ upload_action_token m)).
  - set (m1 := if bool_decide _ then _ else _).
    destruct (SetChunkState_silent chunk_id Uploaded m1) as (_ & _ & -> & _).
    unfold m1. by case_bool_decide.
Qed.

Lemma process_messages_prefix env fuel (m m' : Upload) :
  process_messages fuel env m = Some m' -> calls m `prefix_of` calls m'.
Proof.
  revert m. induction fuel as [|fuel IH]; intros m; simpl; destruct (messages m) as [|e q];
    intros Hp; simplify_eq; [done|done|].
  etrans; [|by eapply IH]. unfold UploadMachine.process_one. simpl. destruct (is_terminal (current m)); [done|].
  destruct (transition_table _ _ _ _) as [[t f]|] eqn:Hr; [|done].
  etrans; [|apply on_entry_prefix]. simpl.
  match goal with |- context [f ?m1] =>
    destruct (row_silent _ _ _ _ _ _ m1 Hr) as (_ & _ & -> & _) end.
  apply (on_exit_prefix env (current m) (set_messages q m)).
Qed.

Lemma upload_input_shape env i (m m' : Upload) :
  messages m = [] -> upload_input env i m = Some m' ->
  exists m1, silent m m1 /\ hash_ m1 = hash_ m
    /\ ((exists fuel, process_messages fuel env m1 = Some m') \/ (m' = m1 /\ messages m1 = [])).
Proof.
  intros Hm Hi. destruct i as [| |token|ec|n a]; simpl in Hi;
    try (by eexists; split; [|split; [|left; eexists; exact Hi]]).
  destruct (pending m !! n) as [op|]; [|done].
  apply complete_op_shape in Hi as (m1 & Hs & [_ Hh] & [Hp|[-> Hm1]]); exists m1;
    (split; [by etrans; [|exact Hs]|]); (split; [done|]).
  - by left.
  - right. by rewrite Hm1.
Qed.

(** ** The count is the state's *)

Definition count_fits (m : Upload) : Prop :=
  count_state_ m = state_count (current m) /\ (current m = Initial -> hash_ m = []).

Definition same_hash (m m' : Upload) : Prop := current m' = current m /\ hash_ m' = hash_ m.

Lemma callback_hash c (m : Upload) : hash_ (callback c m) = hash_ m /\ count_state_ (callback c m) = count_state_ m.
Proof. unfold callback. by destruct (connected m). Qed.

Lemma callback_count c (m : Upload) : count_state_ (callback c m) = count_state_ m.
Proof. apply callback_hash. Qed.

Lemma SetCountState_count cs (m : Upload) : count_state_ (SetCountState cs m) = cs.
Proof. done. Qed.

Lemma SetChunkState_count i s (m : Upload) : count_state_ (SetChunkState i s m) = count_state_ m.
Proof. apply SetChunkState_silent. Qed.

Lemma on_exit_count env s (m : Upload) : count_state_ (on_exit env s m) = count_state_ m.
Proof.
  destruct s; try done; try apply callback_hash. simpl. unfold Initial_on_exit. by repeat case_match.
Qed.

(** The entry of a row's target sets the count of the target, or the source has it. *)
Lemma on_entry_count env s e m0 t f (m : Upload) :
  transition_table env s e m0 = Some (t, f) -> (s = Initial -> hash_ m0 = []) ->
  count_state_ m = state_count s ->
  current m = t -> count_state_ (on_entry t e m) = state_count t /\ t <> Initial.
Proof.
  intros Hr Hh Hs.
  destruct s, e; simpl in Hr, Hs; simplify_eq; intros Hc; try (by split);
    try (split; [|done]; cbn [UploadMachine.on_entry];
         rewrite ?SetChunkState_count, ?callback_count; try case_bool_decide; done).
  - unfold HasHash. rewrite Hh, bool_decide_eq_true_2 by done. simpl. by rewrite callback_count.
  - split; [|done]. simpl. unfold SetupHasher_on_entry. by destruct (ChunkRanges _ _).
  - split; [|done]. simpl. by rewrite callback_count.
Qed.

Lemma process_one_count env e (m : Upload) : count_fits m -> count_fits (process_one env e m).
Proof.
  intros [Hc Hh]. unfold UploadMachine.process_one. destruct (is_terminal (current m)); [done|].
  destruct (transition_table env (current m) e m) as [[t f]|] eqn:Hr; [|done].
  set (m1 := set_current t (f (on_exit env (current m) m))).
  destruct (row_silent _ _ _ _ _ _ (on_exit env (current m) m) Hr) as (_ & _ & _ & Hf & _).
  destruct (on_entry_count env (current m) e m t f m1 Hr Hh) as [H1 H2]; [|done|].
  { unfold m1. simpl. by rewrite Hf, on_exit_count. }
  destruct (on_entry_emits h0 t e m1) as [Hcur _]. simpl in Hcur.
  split; rewrite Hcur; [exact H1|done].
Qed.

Lemma process_messages_count env fuel (m m' : Upload) :
  count_fits m -> process_messages fuel env m = Some m' -> count_fits m'.
Proof.
  revert m. induction fuel as [|fuel IH]; intros m Hl; simpl; destruct (messages m) as [|e q] eqn:Hq;
    intros Hp; simplify_eq; [done|done|].
  eapply IH; [|exact Hp]. by apply process_one_count.
Qed.

Lemma upload_input_kept env i (m m' : Upload) :
  messages m = [] -> upload_input env i m = Some m' ->
  (ledger m -> ledger m') /\ (count_fits m -> count_fits m') /\ calls m `prefix_of` calls m'.
Proof.
  intros Hm Hi. destruct (upload_input_shape env i m m' Hm Hi) as (m1 & Hs & Hh & Hor).
  assert (ledger m -> ledger m1) as Hl by by apply ledger_silent.
  assert (count_fits m -> count_fits m1) as Hcf.
  { intros [H1 H2]. destruct Hs as (E1 & _ & _ & E2 & _). unfold count_fits. by rewrite E1, E2, Hh. }
  destruct Hs as (_ & _ & Hcalls & _). rewrite <-Hcalls.
  destruct Hor as [[fuel Hp]|[-> _]]; [|done].
  split; [|split].
  - intros Hl'. eapply process_messages_ledger, Hp; auto.
  - intros Hc'. eapply process_messages_count, Hp; auto.
  - by eapply process_messages_prefix.
Qed.

Lemma new_upload_inv name action : upload_inv (NewUpload (H := H) name action).
Proof.
  split; [constructor|]. intros _. split; try done. simpl. by intros id ?%elem_of_nil.
Qed.

Lemma upload_reachable_inv (m : Upload) :
  reachable m -> messages m = [] /\ upload_inv m /\ ledger m /\ count_fits m.
Proof.
  induction 1 as [name action|env i m m' _ (Hm & Hinv & Hl & Hc) Hp Hi].
  - split; [done|]. split; [apply new_upload_inv|]. by repeat split.
  - destruct (upload_input_inv env i m m' Hm Hinv Hp Hi) as [Hm' Hinv'].
    destruct (upload_input_kept env i m m' Hm Hi) as (Hl' & Hc' & _). auto.
Qed.

(** ** Completions and endings *)

(** The answers that fit an operation. *)
Definition answers (op : pending_op (H := H)) (a : answer) : bool :=
  match op, a with
  | PendingRead _ _, AnswerRead | PendingCheck, AnswerCheck _ | PendingInstant, AnswerInstant _
  | PendingUpload, AnswerUpload _ | PendingChunk _, AnswerUpload _ | PendingPoll _, AnswerPoll _
  | PendingPollTimer _, AnswerTimer _ => true
  | _, _ => false
  end.

Lemma complete_op_total env op a (m : Upload) :
  messages m = [] -> answers op a = true -> exists m', complete_op env op a m = Some m'.
Proof.
  intros Hm Ha.
  assert (forall e m1, messages m1 = [] -> exists m', process_event env e m1 = Some m') as Hev.
  { intros e m1 Hm1. destruct (process_event_total h0 h_update h_digest env e m1 Hm1) as (m' & ? & _). eauto. }
  destruct op, a; try done; cbn [UploadMachine.complete_op]; try (by apply Hev).
  - destruct (HandleCheckResponse_cases r m) as [(e & -> & _)|(u & w & _ & ->)]; by apply Hev.
  - destruct (HandlePollResponse r m); [by apply Hev|eauto].
  - destruct cancelled; [eauto|].
    destruct (process_messages_total h0 h_update h_digest env message_fuel (StartPoll upload_key m)) as (m' & ? & _);
      [|by exists m'].
    unfold measure, StartPoll, message_fuel.
    case_bool_decide; simpl; rewrite Hm; simpl; case_match; simpl; lia.
Qed.

Lemma phase_steps_complete p calls p' :
  phase_steps p calls = Some p' ->
  (length (filter (fun c => bool_decide (c = HandleComplete)) calls) + (if completed p then 1 else 0)
   = if completed p' then 1 else 0)%nat.
Proof.
  revert p. induction calls as [|c calls IH]; intros p; simpl; [by intros [= ->]|].
  destruct (phase_step p c) as [p1|] eqn:Hs; [|done]. intros Hp. apply IH in Hp. rewrite <-Hp.
  unfold phase_step in Hs. destruct (completed p); [done|].
  destruct (decide (c = HandleComplete)) as [->|Hc].
  - rewrite filter_cons_True by done. destruct (in_list p), (counted p); simplify_eq. simpl. lia.
  - rewrite filter_cons_False by (by rewrite bool_decide_spec).
    destruct c, (in_list p), (counted p); simplify_eq; simpl; lia.
Qed.

(** ** Cancelling *)

Lemma process_messages_one env fuel e (m : Upload) :
  messages m = [e] -> messages (process_one env e (set_messages [] m)) = [] ->
  process_messages (S fuel) env m = Some (process_one env e (set_messages [] m)).
Proof. intros Hm Hq. simpl. rewrite Hm. destruct fuel; simpl; by rewrite Hq. Qed.

(** A terminate state swallows what is left in the queue. *)
Lemma process_messages_terminal env fuel (m : Upload) :
  is_terminal (current m) = true -> (length (messages m) <= fuel)%nat ->
  process_messages fuel env m = Some (set_messages [] m).
Proof.
  revert m. induction fuel as [|fuel IH]; intros m Ht Hl; simpl; destruct (messages m) as [|e q] eqn:Hq;
    simpl in Hl; try lia; try (f_equal; destruct m; simpl in *; by subst).
  unfold UploadMachine.process_one. simpl. rewrite Ht. rewrite IH; [done..|simpl; lia].
Qed.

(** ** Theorems *)

(** C4 An upload that the server works on is never forgotten: in the states from the check
    to the poll exactly one operation is pending, it is one that the state asks for, and
    every answer to it is processed to the end. *)
Theorem upload_never_stalls (m : Upload) :
  reachable m -> busy (current m) = true ->
  exists op, pending m = [op] /\ fits m (inl op)
    /\ forall env a, answers op a = true ->
         exists m', upload_input env (DoComplete 0 a) m = Some m' /\ messages m' = [].
Proof.
  intros Hr Hb. destruct (upload_reachable_inv m Hr) as (Hm & Hinv & _ & _).
  destruct (busy_pending m Hinv Hm Hb) as (op & Hp & Hf). exists op. do 2 (split; [done|]).
  intros env a Ha. destruct (complete_op_total env op a (set_pending [] m) Hm Ha) as (m' & Hm').
  exists m'. split; [simpl; by rewrite Hp|].
  apply complete_op_shape in Hm' as (m1 & _ & _ & [[fuel Hq]|[-> ->]]); [|done].
  by eapply process_messages_empty.
Qed.

(** C5 Refinement: the calls that an input makes a machine send are a run of the manager's
    protocol, from the phase of the old state to the phase of the new one. *)
Theorem upload_follows_protocol env i (m m' : Upload) :
  reachable m -> possible i = true -> upload_input env i m = Some m' ->
  exists cs, calls m' = calls m ++ cs /\ phase_steps (phase_of m) cs = Some (phase_of m').
Proof.
  intros Hr Hp Hi. destruct (upload_reachable_inv m Hr) as (Hm & _ & Hl & _).
  destruct (upload_input_kept env i m m' Hm Hi) as (Hl' & _ & [cs Hcs]).
  exists cs. split; [done|]. destruct (Hl' Hl) as [_ H2 _], Hl as [_ H1 _].
  by rewrite Hcs, phase_steps_app, H1 in H2.
Qed.

(** C30 An upload ends once: it has sent one final status and one [HandleComplete] when it
    is in a terminate state and none before, and it counts as hashing or uploading exactly
    in the states that do so. *)
Theorem upload_ends_once (m : Upload) :
  reachable m ->
  let ended := (if is_terminal (current m) then 1 else 0)%nat in
  length (filter (fun s => is_final s) (statuses m)) = ended
  /\ length (filter (fun c => bool_decide (c = HandleComplete)) (calls m)) = ended
  /\ count_state_ m = state_count (current m).
Proof.
  intros Hr ended. destruct (upload_reachable_inv m Hr) as (_ & _ & [_ Hl Hf] & [Hc _]).
  split; [done|]. split; [|done]. apply phase_steps_complete in Hl. simpl in Hl. unfold ended. lia.
Qed.

(** The bitmap is read as the server writes it: chunk [i] is on the server when bit
    [i mod 16] of word [i / 16] is set, and is missing when the bitmap is too short. *)
Theorem SetBitmap_spec words (m : Upload) :
  chunk_states_ (SetBitmap words m)
  = (fun i => state_of_bit (bitmap_bit words i)) <$> seq 0 (length (chunk_ranges_ m)).
Proof.
  unfold SetBitmap. cbn [chunk_states_ set_chunk_states_].
  set (n := length (chunk_ranges_ m)). rewrite bitmap_words_spec by (simpl; lia). cbn [app].
  apply list_eq. intros i. rewrite list_lookup_fmap.
  destruct (decide (i < n)%nat); [rewrite lookup_seq_lt by done|rewrite lookup_seq_ge by lia].
  2:{ apply lookup_ge_None. rewrite length_app, length_replicate, length_take. lia. }
  simpl. rewrite lookup_app, length_take, lookup_take_lt, lookup_word_bits by done.
  case_decide as Hi; [done|].
  assert (length (flat_map (word_bits 16) words) <= i)%nat as Hl.
  { apply lookup_ge_None. by rewrite lookup_word_bits, decide_False. }
  rewrite lookup_replicate_2 by (rewrite Nat.min_r; lia).
  unfold bitmap_bit. by rewrite lookup_ge_None_2 by (apply Nat.div_le_lower_bound; lia).
Qed.

(** Nothing is missing: [DoChunkUpload] announces the key it knows. *)
Lemma DoChunkUpload_done env (m : Upload) :
  (forall j, chunk_states_ m !! j <> Some NeedsUpload) ->
  DoChunkUpload env m = ProcessEvent (ChunkUploadComplete (upload_key_ m)) m.
Proof.
  intros Hn. unfold DoChunkUpload, NextChunkToUpload.
  destruct (incomplete_chunks 0 (chunk_states_ m)) as [|i l] eqn:E; [done|].
  assert (i ∈ incomplete_chunks 0 (chunk_states_ m)) as (j & -> & Hj)%incomplete_chunks_spec
    by (rewrite E; by constructor).
  by apply Hn in Hj.
Qed.

(** The last chunk came back. *)
Lemma last_chunk_step env id key (m : Upload) :
  current m = UploadChunk -> messages m = [] ->
  chunk_states_ m !! id = Some ChunkUploading ->
  (forall j, chunk_states_ m !! j <> Some NeedsUpload) ->
  let m1 := process_one env (ChunkSuccess id key) m in
  messages m1 = [ChunkUploadComplete (upload_key_ m)] /\ current m1 = UploadChunk
  /\ statuses m1 = statuses m /\ pending m1 = pending m /\ hash_ m1 = hash_ m.
Proof.
  intros Hc Hm Hid Hn. unfold UploadMachine.process_one.
  rewrite Hc. cbn [is_terminal UploadMachine.transition_table UploadMachine.on_entry on_exit].
  rewrite DoChunkUpload_done by done. unfold SetChunkState. apply lookup_lt_Some in Hid.
  case_bool_decide; simpl;
    (destruct (Nat.ltb_spec id (length (chunk_states_ m))); [|lia]); simpl; by rewrite Hm.
Qed.

Lemma process_messages_step env fuel e q (m : Upload) :
  messages m = e :: q ->
  process_messages (S fuel) env m = process_messages fuel env (process_one env e (set_messages q m)).
Proof. intros Hm. simpl. by rewrite Hm. Qed.

(** The announcement of the end of the chunks. *)
Lemma chunks_complete_step env key (m : Upload) :
  current m = UploadChunk ->
  process_one env (ChunkUploadComplete key) m
  = SendStatus Polling (set_current PollUpload (StartPoll key (set_upload_request_ false m))).
Proof. intros Hc. unfold UploadMachine.process_one. by rewrite Hc. Qed.

(** An error where the table has a row for it. *)
Lemma error_step env ec (m : Upload) :
  transition_table env (current m) (Error ec) m = Some (CompleteWithError, id) ->
  exists hash, let m1 := process_one env (Error ec) m in
    current m1 = CompleteWithError /\ statuses m1 = statuses m ++ [ErrorStatus ec hash].
Proof.
  intros Hr. unfold UploadMachine.process_one.
  assert (is_terminal (current m) = false) as -> by by destruct (current m).
  rewrite Hr. cbn [UploadMachine.on_entry id].
  set (m1 := set_current CompleteWithError (on_exit env (current m) m)).
  assert (statuses m1 = statuses m) as Hs.
  { unfold m1. simpl. destruct (current m); try done; try apply callback_other.
    simpl. unfold Initial_on_exit. by repeat case_match. }
  eexists. split.
  - rewrite (proj1 (callback_other _ _)). apply (SetCountState_same CountNone m1).
  - destruct (callback_other HandleComplete (SendStatus (ErrorStatus ec
      (if bool_decide (hash_ m1 = []) then None else Some (hash_ m1))) (SetCountState CountNone m1)))
      as (_ & _ & _ & ->).
    cbn [SendStatus statuses set_statuses]. by rewrite SetCountState_statuses, Hs.
Qed.

(** When the only chunk that was missing has been sent, the upload ends in an error
    although the server has the file: the key of the response is stored after the next
    step was chosen with the empty one.  When an earlier chunk left a key, the upload
    polls with that key. *)
Theorem last_chunk_uses_old_key env id key (m m' : Upload) :
  current m = UploadChunk -> messages m = [] ->
  chunk_states_ m !! id = Some ChunkUploading ->
  (forall j, chunk_states_ m !! j <> Some NeedsUpload) ->
  process_event env (ChunkSuccess id key) m = Some m' ->
  if bool_decide (upload_key_ m = []) then
    current m' = CompleteWithError
    /\ exists hash, statuses m' = statuses m ++ [Polling; ErrorStatus (upload_error LogicError) hash]
  else current m' = PollUpload /\ pending m' = pending m ++ [PendingPoll (upload_key_ m)].
Proof.
  intros Hc Hm Hid Hn Hp. unfold UploadMachine.process_event, message_fuel in Hp.
  rewrite (process_messages_step env 9 (ChunkSuccess id key) []) in Hp by (simpl; by rewrite Hm).
  set (m0 := set_messages [] (ProcessEvent (ChunkSuccess id key) m)) in Hp.
  destruct (last_chunk_step env id key m0) as (H1 & H2 & H3 & H4 & _); try done.
  set (m1 := process_one env (ChunkSuccess id key) m0) in *. clearbody m1.
  rewrite (process_messages_step env 8 _ [] m1 H1), chunks_complete_step in Hp by done.
  change (upload_key_ m0) with (upload_key_ m) in Hp. unfold StartPoll in Hp. case_bool_decide.
  - rewrite (process_messages_step env 7 (Error (upload_error LogicError)) []) in Hp by done.
    destruct (error_step env (upload_error LogicError) (set_messages [] (SendStatus Polling
      (set_current PollUpload (ProcessEvent (Error (upload_error LogicError))
         (set_upload_request_ false (set_messages [] m1))))))) as (hash & E1 & E2); [done|].
    apply terminal_messages in Hp as (F1 & _ & _ & _ & F2); [|by rewrite E1].
    split; [by rewrite F1|]. exists hash. rewrite F2, E2. cbn [statuses SendStatus set_statuses].
    change (statuses m0) with (statuses m) in H3. simpl. by rewrite H3, <-app_assoc.
  - assert (m' = SendStatus Polling (set_current PollUpload (start (PendingPoll (upload_key_ m))
      (set_upload_request_ false (set_messages [] m1))))) as -> by (by injection Hp as <-).
    split; [done|]. simpl. by rewrite H4.
Qed.

(** An error that is sent from outside. *)
Lemma error_input env ec (m m' : Upload) :
  messages m = [] -> process_event env (Error ec) m = Some m' ->
  match current m with
  | SetupHasher_ | Hashing | CompleteWithSuccess | CompleteWithError =>
      current m' = current m /\ pending m' = pending m /\ statuses m' = statuses m
  | _ => current m' = CompleteWithError
         /\ exists hash, statuses m' = statuses m ++ [ErrorStatus ec hash]
  end.
Proof.
  intros Hm Hi.
  unfold UploadMachine.process_event, message_fuel in Hi.
  rewrite (process_messages_step env 9 (Error ec) []) in Hi by (simpl; by rewrite Hm).
  set (m0 := set_messages [] (ProcessEvent (Error ec) m)) in Hi.
  assert (transition_table env (current m0) (Error ec) m0 = Some (CompleteWithError, id) ->
    current m' = CompleteWithError /\ exists hash, statuses m' = statuses m ++ [ErrorStatus ec hash]) as Hend.
  { intros Ht. destruct (error_step env ec m0 Ht) as (hash & E1 & E2).
    apply terminal_messages in Hi as (F1 & _ & _ & _ & F2); [|by rewrite E1].
    split; [by rewrite F1|]. exists hash. by rewrite F2, E2. }
  assert (process_one env (Error ec) m0 = m0
          \/ process_one env (Error ec) m0 = set_improper (improper m0 ++ [(current m0, Error ec)]) m0 ->
    current m' = current m /\ pending m' = pending m /\ statuses m' = statuses m) as Hlost.
  { intros [E|E]; rewrite E in Hi; by injection Hi as <-. }
  change (current m0) with (current m) in *.
  destruct (current m) eqn:Hc; try (by apply Hend); apply Hlost;
    unfold UploadMachine.process_one; change (current m0) with (current m); rewrite Hc; simpl; auto.
Qed.

(** Cancelling and pausing send an error.  It ends the upload with that error as its
    final status, except while the file is being hashed: the hashing states have no row
    for it, so the request is lost and the upload goes on. *)
Theorem cancel_ends_or_is_lost env ec (m m' : Upload) :
  reachable m -> upload_input env (DoModify ec) m = Some m' ->
  match current m with
  | SetupHasher_ | Hashing | CompleteWithSuccess | CompleteWithError =>
      current m' = current m /\ pending m' = pending m /\ statuses m' = statuses m
  | _ => current m' = CompleteWithError
         /\ exists hash, statuses m' = statuses m ++ [ErrorStatus ec hash]
  end.
Proof.
  intros Hr Hi. destruct (upload_reachable_inv m Hr) as (Hm & _). by apply (error_input env).
Qed.

(** ** Runs *)

(** Inputs one after the other. *)
Fixpoint upload_run (l : list (Env * input)) (m : Upload) : option Upload :=
  match l with
  | [] => Some m
  | (env, i) :: l =>
      if possible i then
        match upload_input env i m with Some m => upload_run l m | None => None end
      else None
  end.

Lemma upload_run_reachable l (m m' : Upload) :
  reachable m -> upload_run l m = Some m' -> reachable m'.
Proof.
  revert m. induction l as [|[env i] l IH]; intros m Hr; simpl; [by intros [= <-]|].
  destruct (possible i) eqn:Hp; [|done]. destruct (upload_input env i m) as [m1|] eqn:Hi; [|done].
  by apply IH, (reachable_input env i m).
Qed.
End Theorems.

(** ** A concrete upload: four chunks, the server has all but the third *)

Module Example_.

(** The hash is not looked at: the digest of any file is the same. *)
Definition digest (_ : unit) : str := B "cafe".

Definition stat : Stat := {| st_mtime := inl 7; st_size := inl (4 * 2 ^ 20) |}.

Definition env : Env :=
  {| env_stat := stat; env_open := no_error; env_seek := no_error;
     env_read := ([], file_error EndOfFile); env_stat_after := stat; env_random := 0 |}.

Definition check_missing (words : list Z) : CheckResponse :=
  {| chk_error_code := no_error; file_exists := false; hash_different := false;
     duplicate_quickkey := None; storage_limit_exceeded := false; hash_exists := false;
     resumable := Some (4, words) |}.

Definition uploaded_with (key : str) : UploadResponse :=
  {| http_error_code := no_error; up_error_code := no_error; doupload_result := None;
     doupload_key := Some key |}.

Definition start_inputs (words : list Z) : list (Env * input) :=
  (env,.) <$> [DoStart; DoStartHash; DoStartUpload (B "token"); DoComplete 0 (AnswerCheck (check_missing words))].

Definition new_upload : Upload (H := unit) := NewUpload (B "a.txt") Fail_.

(** After these inputs. *)
Definition after (l : list (Env * input)) : Upload :=
  default new_upload (upload_run tt (fun _ _ => tt) digest l new_upload).

Lemma after_upload_reachable l :
  is_Some (upload_run tt (fun _ _ => tt) digest l new_upload) ->
  reachable tt (fun _ _ => tt) digest (after l).
Proof.
  intros [m Hm]. unfold after. rewrite Hm. simpl. eapply upload_run_reachable, Hm. constructor.
Qed.

End Example_.

Import Example_.

(** ** Witnesses *)

#[local] Abbreviation ex_input := (UploadMachine.upload_input tt (fun _ _ => tt) digest).
#[local] Abbreviation ex_reachable := (reachable tt (fun _ _ => tt) digest).

(** One chunk is being sent. *)
Definition sending : Upload := after (start_inputs [11]).

(** Two chunks were missing and were sent. *)
Definition polling : Upload :=
  after (start_inputs [3]
         ++ [(env, DoComplete 0 (AnswerUpload (uploaded_with (B "key"))));
             (env, DoComplete 0 (AnswerUpload (uploaded_with (B "key"))))]).

Definition chunk_answer : input := DoComplete 0 (AnswerUpload (uploaded_with (B "key"))).

Lemma sending_reachable : ex_reachable sending.
Proof. apply after_upload_reachable. vm_compute. by eexists. Qed.

Lemma polling_reachable : ex_reachable polling.
Proof. apply after_upload_reachable. vm_compute. by eexists. Qed.

Lemma upload_never_stalls_witness :
  busy (current sending) = true
  /\ exists op, pending sending = [op] /\ fits sending (inl op)
    /\ forall env a, answers op a = true ->
         exists m', ex_input env (DoComplete 0 a) sending = Some m' /\ messages m' = [].
Proof.
  split; [vm_compute; reflexivity|].
  apply (upload_never_stalls tt (fun _ _ => tt) digest sending sending_reachable). vm_compute. reflexivity.
Defined.

Lemma upload_follows_protocol_witness :
  exists m', ex_input env chunk_answer sending = Some m'
    /\ exists cs, calls m' = calls sending ++ cs /\ phase_steps (phase_of sending) cs = Some (phase_of m').
Proof.
  eexists. split; [vm_compute; reflexivity|].
  apply (upload_follows_protocol tt (fun _ _ => tt) digest env chunk_answer sending);
    [exact sending_reachable|reflexivity|vm_compute; reflexivity].
Defined.

Lemma upload_ends_once_witness :
  let ended := (if is_terminal (current sending) then 1 else 0)%nat in
  length (filter (fun s => is_final s) (statuses sending)) = ended
  /\ length (filter (fun c => bool_decide (c = HandleComplete)) (calls sending)) = ended
  /\ count_state_ sending = state_count (current sending).
Proof. exact (upload_ends_once tt (fun _ _ => tt) digest sending sending_reachable). Defined.

(** The only missing chunk was sent. *)
Definition failed : Upload := after (start_inputs [11] ++ [(env, chunk_answer)]).

Lemma last_chunk_uses_old_key_witness :
  process_event tt (fun _ _ => tt) digest env (ChunkSuccess 2 (B "key")) (set_pending [] sending) = Some failed
  /\ current failed = CompleteWithError
  /\ exists hash, statuses failed = statuses sending ++ [Polling; ErrorStatus (upload_error LogicError) hash].
Proof.
  assert (process_event tt (fun _ _ => tt) digest env (ChunkSuccess 2 (B "key")) (set_pending [] sending)
          = Some failed) as Hp by (vm_compute; reflexivity).
  split; [exact Hp|].
  pose proof (last_chunk_uses_old_key tt (fun _ _ => tt) digest env 2 (B "key") (set_pending [] sending) failed
    ltac:(vm_compute; reflexivity) ltac:(vm_compute; reflexivity) ltac:(vm_compute; reflexivity)) as Ht.
  rewrite bool_decide_eq_true_2 in Ht by (vm_compute; reflexivity).
  apply Ht; [|exact Hp]. intros [|[|[|[|j]]]]; vm_compute; discriminate.
Defined.

Definition cancelled : Upload := after (start_inputs [11] ++ [(env, DoModify (upload_error UploadCancelled))]).

Lemma cancel_ends_or_is_lost_witness :
  ex_input env (DoModify (upload_error UploadCancelled)) sending = Some cancelled
  /\ current cancelled = CompleteWithError
  /\ exists hash, statuses cancelled = statuses sending ++ [ErrorStatus (upload_error UploadCancelled) hash].
Proof.
  assert (ex_input env (DoModify (upload_error UploadCancelled)) sending = Some cancelled) as Hi
    by (vm_compute; reflexivity).
  split; [exact Hi|].
  pose proof (cancel_ends_or_is_lost tt (fun _ _ => tt) digest env (upload_error UploadCancelled) sending cancelled
    sending_reachable Hi) as Ht.
  assert (current sending = UploadChunk) as Hc by (vm_compute; reflexivity). rewrite Hc in Ht. exact Ht.
Defined.
