(* ===== verification/UploadBitmap.v ===== *)
(** * The chunks that are sent are those the server is missing

    The reply to [upload/check] carries a bitmap with one bit for each chunk.  [answered]
    is the history of a machine that got one; [marked] ties the states of its chunks and
    the chunks it sent to the bitmap, and holds from the reply on. *)
From S2P Require Import Prelude Errors Stepping HashReader UploadMachine UploadProofs UploadTheorems.

Open Scope Z_scope.

(** The chunks of the file whose bit is clear, and those that the bitmap does not reach. *)
Definition missing_chunks {H} (words : list Z) (m : Upload (H := H)) : list nat :=
  filter (fun i => bitmap_bit words i = false) (seq 0 (length (chunk_ranges_ m))).

Section Bitmap.
Context {H : Type} (h0 : H) (h_update : H -> str -> H) (h_digest : H -> str).

#[local] Abbreviation Upload := (UploadMachine.Upload (H := H)).
#[local] Abbreviation event := (UploadMachine.event (H := H)).
#[local] Abbreviation transition_table := (UploadMachine.transition_table h0 h_update h_digest).
#[local] Abbreviation on_entry := (UploadMachine.on_entry h0).
#[local] Abbreviation process_one := (UploadMachine.process_one h0 h_update h_digest).
#[local] Abbreviation process_messages := (UploadMachine.process_messages h0 h_update h_digest).
#[local] Abbreviation process_event := (UploadMachine.process_event h0 h_update h_digest).
#[local] Abbreviation complete_op := (UploadMachine.complete_op h0 h_update h_digest).
#[local] Abbreviation upload_input := (UploadMachine.upload_input h0 h_update h_digest).
#[local] Abbreviation reachable := (UploadTheorems.reachable h0 h_update h_digest).

(** The machine got a reply that asks for the missing chunks, with this bitmap, and these
    are inputs that came since. *)
Inductive answered (words : list Z) : Upload -> Prop :=
  | answered_check env n r units m m' :
      reachable m -> current m = InUploadCheck -> pending m !! n = Some PendingCheck ->
      resumable r = Some (units, words) ->
      (HandleCheckResponse (H := H) r m).2 = NeedsChunkUpload ->
      upload_input env (DoComplete n (AnswerCheck r)) m = Some m' -> answered words m'
  | answered_input env i m m' :
      answered words m -> possible i = true -> upload_input env i m = Some m' ->
      answered words m'.

(** ** Events that touch no chunk *)

Definition tame (e : event) : bool :=
  match e with NeedsChunkUpload | ChunkSuccess _ _ => false | _ => true end.

(** From [m] to [m'] the queue grows by such events. *)
Definition adds_tame (m m' : Upload) : Prop :=
  exists l, messages m' = messages m ++ l /\ Forall (fun e => tame e = true) l.

Lemma adds_tame_same m m' : messages m' = messages m -> adds_tame m m'.
Proof. intros Hm. exists []. by rewrite app_nil_r. Qed.

Lemma adds_tame_trans m1 m2 m3 : adds_tame m1 m2 -> adds_tame m2 m3 -> adds_tame m1 m3.
Proof.
  intros (l1 & H1 & F1) (l2 & H2 & F2). exists (l1 ++ l2).
  rewrite H2, H1, app_assoc. split; [done|]. by apply Forall_app.
Qed.

Lemma light_tame (l : list event) n : (weights l <= n)%nat -> (n <= 3)%nat -> Forall (fun e => tame e = true) l.
Proof. induction l as [|e l IH]; simpl; intros; [done|]. constructor; [destruct e; simpl in *; done || lia|apply IH; lia]. Qed.

Lemma emits_tame n m m' : emits n m m' -> (n <= 3)%nat -> adds_tame m m'.
Proof. intros (_ & l & Hl & Hw) Hn. exists l. split; [done|]. by eapply light_tame. Qed.

Lemma on_exit_tame env s (m : Upload) : adds_tame m (on_exit env s m).
Proof.
  destruct (decide (s = Initial)) as [->|Hs].
  - eapply emits_tame; [apply Initial_on_exit_emits|lia].
  - eapply emits_tame; [by apply on_exit_emits|lia].
Qed.

Lemma row_tame env s e m t f m1 :
  transition_table env s e m = Some (t, f) -> adds_tame m1 (f m1).
Proof.
  intros Hr. eapply emits_tame; [by eapply row_action_emits|]. destruct s, e; simpl; lia.
Qed.

Lemma on_entry_tame t e (m : Upload) : adds_tame m (on_entry t e m).
Proof.
  destruct (decide (t = SetupHasher_)) as [->|Ht].
  - simpl. unfold SetupHasher_on_entry.
    destruct (SetCountState_same CountHashing m) as [_ Hm].
    apply (adds_tame_trans _ (SetCountState CountHashing m)).
    + by apply adds_tame_same.
    + destruct (ChunkRanges _ _); [|by apply adds_tame_same].
      eexists [_]. split; [done|]. by repeat constructor.
  - eapply emits_tame; [apply on_entry_emits|]. by destruct t, e; simpl; try lia.
Qed.

Lemma process_one_tame env e (m : Upload) : adds_tame m (process_one env e m).
Proof.
  unfold UploadMachine.process_one. destruct (is_terminal _); [by apply adds_tame_same|].
  destruct (transition_table env (current m) e m) as [[t f]|] eqn:Hr;
    [|by apply adds_tame_same].
  eapply adds_tame_trans; [apply (on_exit_tame env (current m))|].
  eapply adds_tame_trans; [by eapply row_tame|].
  apply (adds_tame_trans _ (set_current t (f (on_exit env (current m) m)))); [by apply adds_tame_same|].
  apply on_entry_tame.
Qed.

(** ** The chunks and the bitmap *)

Definition none_missing (m : Upload) : Prop := forall j, chunk_states_ m !! j <> Some NeedsUpload.

Record marked (words : list Z) (m : Upload) : Prop := {
  mk_length : length (chunk_states_ m) = length (chunk_ranges_ m);
  mk_sent : forall i, i ∈ chunk_ids m ->
    (i < length (chunk_ranges_ m))%nat /\ bitmap_bit words i = false;
  mk_unsent : forall i, (i < length (chunk_ranges_ m))%nat -> bitmap_bit words i = false ->
    i ∉ chunk_ids m -> chunk_states_ m !! i = Some NeedsUpload;
  mk_needed : forall i, chunk_states_ m !! i = Some NeedsUpload -> bitmap_bit words i = false;
  mk_no_check : PendingCheck ∉ pending m;
  mk_pending : forall id, PendingChunk id ∈ pending m -> id ∈ chunk_ids m;
  mk_success : forall id key, ChunkSuccess id key ∈ messages m -> id ∈ chunk_ids m;
  mk_complete : forall key, ChunkUploadComplete key ∈ messages m -> none_missing m }.

(** The states after the reply. *)
Definition late (s : ustate) : bool :=
  match s with UploadChunk | PollUpload | CompleteWithSuccess | CompleteWithError => true | _ => false end.

Definition all_sent (s : ustate) : bool :=
  match s with PollUpload | CompleteWithSuccess => true | _ => false end.

Record follows (words : list Z) (m : Upload) : Prop := {
  fw_marked : marked words m;
  fw_late : late (current m) = true;
  fw_all : all_sent (current m) = true -> none_missing m }.

(** [marked] reads five fields. *)
Lemma marked_ext words (m m' : Upload) :
  chunk_states_ m' = chunk_states_ m -> chunk_ranges_ m' = chunk_ranges_ m ->
  uploads m' = uploads m -> pending m' = pending m -> (forall e, e ∈ messages m' -> e ∈ messages m) ->
  marked words m -> marked words m'.
Proof.
  intros E1 E2 E3 E4 E5 []. split; unfold chunk_ids, none_missing in *; rewrite ?E1, ?E2, ?E3, ?E4; eauto.
Qed.

Lemma marked_work words (m m' : Upload) : same_work m m' -> marked words m -> marked words m'.
Proof. intros (_ & E1 & E2 & E3 & E4 & E5 & _). apply marked_ext; try done. by rewrite E1. Qed.

Lemma marked_event words e (m : Upload) :
  match e with
  | ChunkSuccess id _ => id ∈ chunk_ids m
  | ChunkUploadComplete _ => none_missing m
  | _ => True
  end -> marked words m -> marked words (ProcessEvent e m).
Proof.
  intros He []. split; try done.
  - intros id key [Hin|<-%list_elem_of_singleton]%elem_of_app; [by eapply mk_success0|done].
  - intros key [Hin|<-%list_elem_of_singleton]%elem_of_app; [by eapply mk_complete0|done].
Qed.

Lemma marked_start words op (m : Upload) :
  op <> PendingCheck -> (forall id, op <> PendingChunk id) -> marked words m -> marked words (start op m).
Proof.
  intros H1 H2 []. split; try done.
  - intros [Hin|Hin%list_elem_of_singleton]%elem_of_app; congruence.
  - intros id [Hin|Hin%list_elem_of_singleton]%elem_of_app; [by apply mk_pending0|by destruct (H2 id)].
Qed.

(** A chunk that was sent is marked. *)
Lemma marked_SetChunkState words id (m : Upload) :
  id ∈ chunk_ids m -> marked words m -> marked words (SetChunkState id Uploaded m).
Proof.
  intros Hid Hm. unfold SetChunkState. case_match; [|by apply marked_event].
  destruct Hm. split; unfold none_missing in *; simpl; try done.
  - by rewrite length_insert.
  - intros i Hi Hb Hn. rewrite list_lookup_insert_ne; [by apply mk_unsent0|by intros ->].
  - intros i [(_ & [=] & _)|[_ Hi]]%list_lookup_insert_Some. by apply mk_needed0.
  - intros key Hk j [(_ & [=] & _)|[_ Hj]]%list_lookup_insert_Some. by apply (mk_complete0 key Hk j).
Qed.

(** The next chunk is one that is missing. *)
Lemma marked_DoChunkUpload words env (m : Upload) :
  marked words m -> marked words (DoChunkUpload env m).
Proof.
  intros Hm.
  destruct (DoChunkUpload_cases env m) as [(ec & ->)|[(id & r & Hid & ->)|(Hn & ->)]];
    [by apply marked_event| |by apply marked_event].
  set (m' := set_upload_request_ true _).
  assert (chunk_ids m' = chunk_ids m ++ [id]) as Ei by by apply (chunk_ids_snoc m _ id r).
  assert (chunk_states_ m' = <[id := ChunkUploading]> (chunk_states_ m)) as Es by done.
  assert (chunk_ranges_ m' = chunk_ranges_ m) as Er by done.
  assert (pending m' = pending m ++ [PendingChunk id]) as Ep by done.
  assert (messages m' = messages m) as Em by done.
  clearbody m'. destruct Hm. pose proof (lookup_lt_Some _ _ _ Hid) as Hlt. rewrite mk_length0 in Hlt.
  split; unfold none_missing; rewrite ?Ei, ?Es, ?Er, ?Ep, ?Em;
    try setoid_rewrite elem_of_app; try setoid_rewrite list_elem_of_singleton.
  - by rewrite length_insert.
  - intros i [Hi| ->]; [by apply mk_sent0|]. split; [done|by apply mk_needed0].
  - intros i Hi Hb Hn. rewrite list_lookup_insert_ne by (intros ->; tauto). apply mk_unsent0; tauto.
  - intros i [(_ & [=] & _)|[_ Hi]]%list_lookup_insert_Some. by apply mk_needed0.
  - intros [Hin|[=]]. done.
  - intros i [Hin|[= ->]]; auto.
  - intros i key Hin. left. by eapply mk_success0.
  - intros key Hin. by destruct (mk_complete0 key Hin id).
Qed.

Lemma marked_StartPoll words key (m : Upload) : marked words m -> marked words (StartPoll key m).
Proof. intros Hm. unfold StartPoll. case_bool_decide; [by apply marked_event|by apply marked_start]. Qed.

Lemma marked_pop words e q (m : Upload) :
  messages m = e :: q -> marked words m -> marked words (set_messages q m).
Proof. intros Hq. apply marked_ext; try done. intros x Hx. rewrite Hq. by right. Qed.

(** ** Every event keeps the bond *)

Lemma follows_ext words (m m' : Upload) :
  same_work m m' -> follows words m -> follows words m'.
Proof.
  intros Hw [H1 H2 H3]. pose proof Hw as (Ec & _ & _ & Es & _).
  split; unfold none_missing in *; rewrite ?Ec, ?Es; auto. by eapply marked_work.
Qed.

(** The rows from the states after the reply. *)
Lemma process_one_follows words env e q (m : Upload) :
  messages m = e :: q -> follows words m -> follows words (process_one env e (set_messages q m)).
Proof.
  intros Hq [Hm Hl Ha]. pose proof (marked_pop words e q m Hq Hm) as Hm0.
  set (m0 := set_messages q m) in *.
  assert (late (current m0) = true) as Hl0 by done.
  assert (all_sent (current m0) = true -> none_missing m0) as Ha0 by done.
  assert (follows words m0) as H0 by by split.
  assert (forall id key, e = ChunkSuccess id key -> id ∈ chunk_ids m0) as Hid.
  { intros id key ->. apply (mk_success words m Hm id key). rewrite Hq. by left. }
  assert (forall key, e = ChunkUploadComplete key -> none_missing m0) as Hnone.
  { intros key ->. apply (mk_complete words m Hm key). rewrite Hq. by left. }
  clearbody m0. clear Hq Hm Hl Ha m q.
  assert (forall t m1, same_work m0 m1 ->
    t = CompleteWithError \/ (t = CompleteWithSuccess /\ none_missing m0) ->
    follows words (on_entry t e (set_current t m1))) as Hend.
  { intros t m1 Hw Ht. apply (follows_ext words (set_current t m1)).
    - apply on_entry_work; destruct Ht as [->|[-> _]]; done.
    - pose proof Hw as (_ & _ & _ & Es & _).
      split; [by apply (marked_ext words m1); try done; eapply marked_work|by destruct Ht as [->|[-> _]]|].
      intros Hs. unfold none_missing. simpl. rewrite Es. by destruct Ht as [->|[_ ?]]. }
  unfold UploadMachine.process_one.
  destruct (current m0) eqn:Hc; try done; destruct e;
    cbn [is_terminal UploadMachine.transition_table on_exit id];
    try exact H0; try (by apply (follows_ext words m0)); try (by apply Hend; auto).
  - (* the next chunk *)
    assert (marked words (DoChunkUpload env (set_upload_request_ false m0))) as Hd
      by (apply marked_DoChunkUpload; by revert Hm0; apply marked_ext).
    set (m1 := DoChunkUpload env _) in *.
    assert (chunk_id ∈ chunk_ids m1) as Hin.
    { specialize (Hid chunk_id upload_key eq_refl). unfold m1, chunk_ids.
      destruct (DoChunkUpload_cases env (set_upload_request_ false m0))
        as [(ec & ->)|[(id & r & _ & ->)|(_ & ->)]]; [done| |done].
      simpl. rewrite omap_app. apply elem_of_app. by left. }
    cbn [UploadMachine.on_entry]. set (m2 := if bool_decide _ then _ else _).
    assert (marked words m2 /\ current m2 = UploadChunk /\ chunk_id ∈ chunk_ids m2) as (Hm2 & Hc2 & Hin2)
      by (unfold m2; case_bool_decide; (split; [by revert Hd; apply marked_ext|done])).
    destruct (SetChunkState_emits chunk_id Uploaded m2) as [Hc3 _].
    split; [by apply marked_SetChunkState|by rewrite Hc3, Hc2|by rewrite Hc3, Hc2].
  - (* every chunk is there *)
    assert (none_missing m0) as Hn by by eapply Hnone.
    assert (marked words (StartPoll upload_key (set_upload_request_ false m0))) as Hd
      by (apply marked_StartPoll; by revert Hm0; apply marked_ext).
    split; [by revert Hd; apply marked_ext|done|]. intros _. simpl. unfold none_missing. simpl.
    unfold StartPoll. by case_bool_decide.
Qed.

Lemma process_messages_follows words env fuel (m m' : Upload) :
  follows words m -> process_messages fuel env m = Some m' -> follows words m'.
Proof.
  revert m. induction fuel as [|fuel IH]; intros m Hf; simpl; destruct (messages m) as [|e q] eqn:Hq;
    intros Hp; simplify_eq; [done|done|].
  eapply IH; [|exact Hp]. by apply process_one_follows.
Qed.

(** ** Inputs after the reply *)

Lemma follows_event words e (m : Upload) :
  match e with
  | ChunkSuccess id _ => id ∈ chunk_ids m
  | ChunkUploadComplete _ => none_missing m
  | _ => True
  end -> follows words m -> follows words (ProcessEvent e m).
Proof. intros He [H1 H2 H3]. split; [by apply marked_event|done|done]. Qed.

Lemma complete_op_follows words env op a (m m' : Upload) :
  follows words m -> op <> PendingCheck -> (forall id, op = PendingChunk id -> id ∈ chunk_ids m) ->
  complete_op env op a m = Some m' -> follows words m'.
Proof.
  intros Hf Hop Hid Hc.
  assert (forall e, match e with ChunkSuccess id _ => id ∈ chunk_ids m
      | ChunkUploadComplete _ => False | _ => True end ->
    process_event env e m = Some m' -> follows words m') as Hev.
  { intros e He. apply process_messages_follows, follows_event; [|done]. by destruct e. }
  unfold UploadMachine.complete_op in Hc. destruct op, a; try done.
  - by eapply Hev, Hc.
  - eapply Hev, Hc. unfold HandleInstantResponse. by destruct (is_error _).
  - destruct (HandleUploadResponse_event (H := H) SimpleUploadComplete r _ eq_refl) as [(? & E)|(? & E)];
      rewrite E in Hc; by eapply Hev, Hc.
  - destruct (HandleUploadResponse_event (H := H) (ChunkSuccess chunk_id) r _ eq_refl) as [(? & E)|(? & E)];
      unfold HandleChunkResponse in Hc; rewrite E in Hc; eapply Hev, Hc;
      [done|by apply Hid].
  - destruct (HandlePollResponse r m) as [e|] eqn:E.
    + eapply Hev, Hc. unfold HandlePollResponse, HandlePollCompleteResponse in E.
      by repeat case_match; simplify_eq.
    + simplify_eq. destruct Hf as [H1 H2 H3]. split; [by apply marked_start|done|done].
  - destruct cancelled; simplify_eq; [done|]. revert Hc. apply process_messages_follows.
    destruct Hf as [H1 H2 H3]. split; [by apply marked_StartPoll|..];
      unfold StartPoll; case_bool_decide; assumption.
Qed.

Lemma upload_input_follows words env i (m m' : Upload) :
  follows words m -> upload_input env i m = Some m' -> follows words m'.
Proof.
  intros Hf Hi. destruct i as [| |token|ec|n a]; simpl in Hi;
    try (revert Hi; apply process_messages_follows; by apply follows_event).
  destruct (pending m !! n) as [op|] eqn:Hn; [|done].
  apply list_elem_of_lookup_2 in Hn as Hin. destruct Hf as [Hm Hl Ha].
  eapply complete_op_follows, Hi.
  - split; [|done|done]. destruct Hm. split; try done.
    + intros Hx. apply mk_no_check0. by eapply elem_of_submseteq, (submseteq_delete _ n).
    + intros id Hx. apply mk_pending0. by eapply elem_of_submseteq, (submseteq_delete _ n).
  - intros ->. by destruct (mk_no_check words m Hm).
  - intros id ->. by apply (mk_pending words m Hm).
Qed.

(** ** The reply *)

Lemma SetBitmap_marked words (m : Upload) :
  chunk_ids m = [] -> pending m = [] -> messages m = [] -> marked words (SetBitmap words m).
Proof.
  intros Hi Hp Hq. pose proof (SetBitmap_spec words m) as Hs.
  assert (chunk_ranges_ (SetBitmap words m) = chunk_ranges_ m) as Er by done.
  assert (chunk_ids (SetBitmap words m) = chunk_ids m) as Ei by done.
  assert (pending (SetBitmap words m) = pending m) as Ep by done.
  assert (messages (SetBitmap words m) = messages m) as Em by done.
  rewrite Hi in Ei. rewrite Hp in Ep. rewrite Hq in Em.
  assert (forall i, chunk_states_ (SetBitmap words m) !! i
    = if decide (i < length (chunk_ranges_ m))%nat then Some (state_of_bit (bitmap_bit words i)) else None)
    as Hlook.
  { intros i. rewrite Hs, list_lookup_fmap. case_decide.
    - by rewrite lookup_seq_lt.
    - by rewrite lookup_seq_ge by lia. }
  generalize dependent (SetBitmap words m). intros m1 Hs Er Ei Ep Em Hlook.
  split; rewrite ?Ei, ?Ep, ?Em, ?Er; try (by intros; exfalso; eapply not_elem_of_nil).
  - by rewrite Hs, length_fmap, length_seq.
  - intros i Hl Hb _. rewrite Hlook, decide_True, Hb by done. done.
  - intros i. rewrite Hlook. case_decide; [|done]. by destruct (bitmap_bit words i).
  - apply not_elem_of_nil.
Qed.

(** The machine that was asked for its missing chunks. *)
Lemma reply_follows words env n r units (m m' : Upload) :
  reachable m -> current m = InUploadCheck -> pending m !! n = Some PendingCheck ->
  resumable r = Some (units, words) ->
  (HandleCheckResponse (H := H) r m).2 = NeedsChunkUpload ->
  upload_input env (DoComplete n (AnswerCheck r)) m = Some m' -> follows words m'.
Proof.
  intros Hr Hc Hn Hres Hev Hi. assert (is_terminal (current m) = false) as Ht by by rewrite Hc.
  destruct (upload_reachable_inv h0 h_update h_digest m Hr) as (Hq & Hinv & _ & _).
  destruct (pending_only n PendingCheck m Hinv Ht Hq Hn) as [[Hp _] _].
  pose proof Hinv as [_ Hwork]. specialize (Hwork Ht). pose proof (wi_check m Hwork Hc) as Hids.
  simpl in Hi. rewrite Hn in Hi. simpl in Hi, Hp. set (m0 := set_pending _ m) in *.
  assert ((HandleCheckResponse (H := H) r m0).2 = NeedsChunkUpload) as Hev0.
  { rewrite <-Hev. unfold HandleCheckResponse, HandleCheck. simpl. by repeat case_match. }
  destruct (HandleCheckResponse_cases r m0) as [(e & E & He)|(u & w & Hw & E)]; rewrite E in Hi, Hev0.
  { simpl in Hev0. subst e. by destruct He as [(? & ?)|[(? & ? & ?)|[?|?]]]. }
  rewrite Hres in Hw. injection Hw as <- <-.
  pose proof (SetBitmap_marked words m0 Hids Hp Hq) as Hmk. unfold UploadMachine.process_event, message_fuel in Hi.
  assert (current (SetBitmap words m0) = InUploadCheck) as Hc1 by done.
  assert (messages (SetBitmap words m0) = []) as Hq1 by done.
  clear E Hev0. revert Hi Hmk Hc1 Hq1. generalize (SetBitmap words m0). intros m1 Hi Hmk Hc1 Hq1.
  rewrite (process_messages_step h0 h_update h_digest env 9 NeedsChunkUpload []) in Hi by (simpl; by rewrite Hq1).
  eapply process_messages_follows, Hi. set (m2 := set_messages [] _).
  assert (marked words m2) as Hm2
    by (revert Hmk; apply marked_ext; try done; by intros ? ?%elem_of_nil).
  assert (current m2 = InUploadCheck) as Hc2 by done. clearbody m2.
  pose proof (marked_DoChunkUpload words env m2 Hm2) as Hd.
  unfold UploadMachine.process_one. rewrite Hc2. simpl.
  split; [by revert Hd; apply marked_ext|done|done].
Qed.

Lemma answered_follows words (m : Upload) : answered words m -> follows words m.
Proof. induction 1; [by eapply reply_follows|by eapply upload_input_follows]. Qed.

Lemma answered_reachable words (m : Upload) : answered words m -> reachable m.
Proof.
  induction 1 as [env n r units m m' Hr _ _ _ _ Hi|env i m m' _ IH Hp Hi].
  - by apply (UploadTheorems.reachable_input _ _ _ env (DoComplete n (AnswerCheck r)) m).
  - by apply (UploadTheorems.reachable_input _ _ _ env i m).
Qed.

(** ** Without such a reply no chunk is sent *)

Record unanswered (m : Upload) : Prop := {
  un_ids : chunk_ids m = [];
  un_current : current m <> UploadChunk;
  un_messages : Forall (fun e => tame e = true) (messages m);
  un_pending : forall id, PendingChunk id ∉ pending m }.

Lemma unanswered_ext (m m' : Upload) :
  uploads m' = uploads m -> current m' = current m -> messages m' = messages m ->
  pending m' = pending m -> unanswered m -> unanswered m'.
Proof. intros E1 E2 E3 E4 []. split; unfold chunk_ids in *; by rewrite ?E1, ?E2, ?E3, ?E4. Qed.

(** A row of a tame event from another state than [UploadChunk]. *)
Lemma row_unanswered env s e m t f (m1 : Upload) :
  transition_table env s e m = Some (t, f) -> s <> UploadChunk -> tame e = true ->
  t <> UploadChunk /\ chunk_ids (f m1) = chunk_ids m1
  /\ forall id, PendingChunk id ∈ pending (f m1) -> PendingChunk id ∈ pending m1.
Proof.
  intros Hr Hs He. destruct s, e; simpl in Hr; simplify_eq; try done; simpl;
    try (destruct (HasHash m); done);
    unfold OpenFile, ReadFileAction, DoSimpleUpload, StartPoll, Check, DoInstantUpload;
    repeat first [case_match|case_bool_decide]; (split; [done|]); unfold chunk_ids; simpl;
    rewrite ?omap_app; simpl; rewrite ?app_nil_r; (split; [done|]); try done;
    by intros id [?|[=]%list_elem_of_singleton]%elem_of_app.
Qed.

Lemma process_one_unanswered env e q (m : Upload) :
  messages m = e :: q -> unanswered m -> unanswered (process_one env e (set_messages q m)).
Proof.
  intros Hq [H1 H2 H3 H4]. rewrite Hq in H3. apply Forall_cons in H3 as [He H3].
  set (m0 := set_messages q m). assert (unanswered m0) as H0 by by split.
  destruct (process_one_tame env e m0) as (l & Hl & Hf).
  assert (Forall (fun e => tame e = true) (messages (process_one env e m0))) as Hmsg
    by (rewrite Hl; by apply Forall_app).
  assert (chunk_ids (process_one env e m0) = [] /\ current (process_one env e m0) <> UploadChunk
    /\ forall id, PendingChunk id ∉ pending (process_one env e m0)) as (? & ? & ?); [|by split].
  clear Hl Hf Hmsg. unfold UploadMachine.process_one.
  destruct (is_terminal (current m0)) eqn:Ht; [by destruct H0|].
  destruct (transition_table env (current m0) e m0) as [[t f]|] eqn:Hr; [|by destruct H0].
  destruct H0 as [F1 F2 _ F4].
  destruct (on_exit_work env (current m0) m0) as (_ & Ep & _ & _ & Eu & _).
  destruct (row_unanswered env (current m0) e m0 t f (on_exit env (current m0) m0) Hr F2 He)
    as (Ht' & Ei & Hp).
  set (m1 := set_current t (f (on_exit env (current m0) m0))).
  assert (chunk_ids m1 = [] /\ forall id, PendingChunk id ∉ pending m1) as [G1 G2].
  { split.
    - unfold m1. change (chunk_ids (f (on_exit env (current m0) m0)) = []). rewrite Ei.
      unfold chunk_ids. by rewrite Eu.
    - intros id Hid. apply (F4 id). rewrite <-Ep. by apply Hp. }
  destruct (on_entry_emits h0 t e m1) as [Hc _].
  split; [|split; [by rewrite Hc|]].
  - destruct (decide (t = SetupHasher_)) as [->|Hns].
    + simpl. unfold SetupHasher_on_entry.
      destruct (SetCountState_work CountHashing m1) as (_ & _ & _ & _ & _ & Eu1 & _).
      destruct (ChunkRanges _ _); unfold chunk_ids in *; simpl in *; by rewrite Eu1.
    + destruct (on_entry_work h0 t e m1 Hns ltac:(done)) as (_ & _ & _ & _ & _ & Eu1 & _).
      unfold chunk_ids in *. by rewrite Eu1.
  - destruct (decide (t = SetupHasher_)) as [->|Hns].
    + simpl. unfold SetupHasher_on_entry.
      destruct (SetCountState_work CountHashing m1) as (_ & _ & Ep1 & _).
      destruct (ChunkRanges _ _); simpl in *; by rewrite Ep1.
    + destruct (on_entry_work h0 t e m1 Hns ltac:(done)) as (_ & _ & Ep1 & _). by rewrite Ep1.
Qed.

Lemma process_messages_unanswered env fuel (m m' : Upload) :
  unanswered m -> process_messages fuel env m = Some m' -> unanswered m'.
Proof.
  revert m. induction fuel as [|fuel IH]; intros m Hf; simpl; destruct (messages m) as [|e q] eqn:Hq;
    intros Hp; simplify_eq; [done|done|].
  eapply IH; [|exact Hp]. by apply process_one_unanswered.
Qed.

Lemma unanswered_event e (m : Upload) :
  tame e = true -> unanswered m -> unanswered (ProcessEvent e m).
Proof. intros He []. split; try done. simpl. apply Forall_app. by split; [|constructor]. Qed.

Lemma unanswered_start op (m : Upload) :
  (forall id, op <> PendingChunk id) -> unanswered m -> unanswered (start op m).
Proof.
  intros Hop []. split; try done. simpl.
  intros id [Hin|Hin%list_elem_of_singleton]%elem_of_app; [by apply (un_pending0 id)|by apply (Hop id)].
Qed.

(** An operation ends: nothing is known of the chunks yet, or the reply was just that. *)
Lemma complete_op_unanswered env op a (m m' : Upload) :
  unanswered m -> (forall id, op <> PendingChunk id) -> op <> PendingCheck ->
  complete_op env op a m = Some m' -> unanswered m'.
Proof.
  intros Hu Hop Hck Hc.
  assert (forall e, tame e = true -> process_event env e m = Some m' -> unanswered m') as Hev.
  { intros e He. by apply process_messages_unanswered, unanswered_event. }
  unfold UploadMachine.complete_op in Hc. destruct op, a; try done.
  - by eapply Hev, Hc.
  - eapply Hev, Hc. unfold HandleInstantResponse. by destruct (is_error _).
  - destruct (HandleUploadResponse_event (H := H) SimpleUploadComplete r _ eq_refl) as [(? & E)|(? & E)];
      rewrite E in Hc; by eapply Hev, Hc.
  - by destruct (Hop chunk_id).
  - destruct (HandlePollResponse r m) as [e|] eqn:E; [|simplify_eq; by apply unanswered_start].
    eapply Hev, Hc. unfold HandlePollResponse, HandlePollCompleteResponse in E.
    by repeat case_match; simplify_eq.
  - destruct cancelled; simplify_eq; [done|]. revert Hc. apply process_messages_unanswered.
    unfold StartPoll. case_bool_decide; [by apply unanswered_event|by apply unanswered_start].
Qed.

Lemma reply_answers env n r (m m' : Upload) :
  reachable m -> unanswered m -> pending m !! n = Some PendingCheck ->
  upload_input env (DoComplete n (AnswerCheck r)) m = Some m' ->
  unanswered m' \/ exists words, answered words m'.
Proof.
  intros Hr Hu Hn Hi. destruct (upload_reachable_inv h0 h_update h_digest m Hr) as (Hq & Hinv & _ & _).
  pose proof Hi as Hi'. simpl in Hi'. rewrite Hn in Hi'. simpl in Hi'. set (m0 := set_pending _ m) in Hi'.
  assert (unanswered m0) as Hu0.
  { destruct Hu. split; try done. intros id Hid. apply (un_pending0 id).
    by eapply elem_of_submseteq, (submseteq_delete _ n). }
  destruct (is_terminal (current m)) eqn:Ht.
  - (* an answer that comes too late *)
    left. destruct (HandleCheckResponse r m0) as [m1 e] eqn:E.
    assert (current m1 = current m0 /\ uploads m1 = uploads m0 /\ pending m1 = pending m0) as (E1 & E2 & E3)
      by (destruct (HandleCheckResponse_cases r m0) as [(e' & E' & _)|(u & w & _ & E')];
          rewrite E' in E; by simplify_eq).
    pose proof (process_messages_empty _ _ _ _ _ _ _ Hi') as Hm'.
    apply terminal_messages in Hi' as (F1 & F2 & F3 & _); [|simpl; by rewrite E1].
    simpl in F1, F2, F3. destruct Hu0. split; unfold chunk_ids in *.
    + by rewrite F3, E2.
    + by rewrite F1, E1.
    + by rewrite Hm'.
    + by rewrite F2, E3.
  - destruct (pending_only n PendingCheck m Hinv Ht Hq Hn) as [_ [Hc _]]. simpl in Hc.
    destruct (HandleCheckResponse_cases r m0) as [(e & E & He)|(u & w & Hw & E)]; rewrite E in Hi'.
    + left. revert Hi'. apply process_messages_unanswered, unanswered_event; [|done].
      by destruct He as [(? & ->)|[(? & ? & ->)|[->| ->]]].
    + right. exists w. apply (answered_check w env n r u m m'); try done.
      assert ((HandleCheckResponse (H := H) r m).2 = (HandleCheckResponse (H := H) r m0).2) as ->
        by (unfold HandleCheckResponse, HandleCheck; simpl; by repeat case_match).
      by rewrite E.
Qed.

Lemma reachable_answered (m : Upload) :
  reachable m -> unanswered m \/ exists words, answered words m.
Proof.
  induction 1 as [name action|env i m m' Hr [Hu|[words Ha]] Hp Hi].
  - left. split; try done. simpl. intros id. apply not_elem_of_nil.
  - destruct i as [| |token|ec|n a];
      try (left; revert Hi; apply process_messages_unanswered; by apply unanswered_event).
    pose proof Hi as Hi'. simpl in Hi'. destruct (pending m !! n) as [op|] eqn:Hn; [|done].
    assert (op = PendingCheck \/ op <> PendingCheck) as [->|Hop] by (destruct op; auto).
    { destruct a; try done. by eapply reply_answers. }
    left. eapply complete_op_unanswered, Hi'.
    + destruct Hu. split; try done. intros id Hid. apply (un_pending0 id).
      by eapply elem_of_submseteq, (submseteq_delete _ n).
    + intros id ->. apply list_elem_of_lookup_2 in Hn. by apply (un_pending m Hu id).
    + done.
  - right. exists words. by eapply answered_input.
Qed.

(** ** The theorem *)

Lemma missing_chunks_spec words (m : Upload) i :
  i ∈ missing_chunks words m <-> (i < length (chunk_ranges_ m))%nat /\ bitmap_bit words i = false.
Proof. unfold missing_chunks. rewrite list_elem_of_filter, elem_of_seq. intuition lia. Qed.

(** C9 The chunks that are sent are those the server is missing, each once.  In every
    reachable state no chunk was sent twice; while the server works on the upload the
    chunks that were sent are marked so, and the upload polls only when every chunk is
    marked as uploaded.  Chunks are sent only after a reply to [upload/check] that asks for
    them, and from that reply on every chunk sent is one whose bit in the bitmap of the
    reply is clear, or that the bitmap does not reach; when the upload polls, and when it
    has succeeded, exactly those chunks were sent. *)
Theorem chunks_sent_once (m : Upload) :
  reachable m ->
  NoDup (chunk_ids m)
  /\ (busy (current m) = true ->
      forall id, id ∈ chunk_ids m -> exists s, chunk_states_ m !! id = Some s /\ s <> NeedsUpload)
  /\ (current m = PollUpload -> forall s, s ∈ chunk_states_ m -> s = Uploaded)
  /\ (chunk_ids m <> [] -> exists words, answered words m)
  /\ (forall words, answered words m ->
        (forall id, id ∈ chunk_ids m -> id ∈ missing_chunks words m)
        /\ (current m = PollUpload \/ current m = CompleteWithSuccess ->
            chunk_ids m ≡ₚ missing_chunks words m)).
Proof.
  intros Hr. destruct (upload_reachable_inv h0 h_update h_digest m Hr) as (Hm & Hinv & _ & _).
  pose proof Hinv as [Hnd Hwork]. split_and!.
  - done.
  - intros Hb. apply Hwork. by destruct (current m).
  - intros Hc s Hs. destruct (busy_pending m Hinv Hm) as (op & _ & Hf); [by rewrite Hc|].
    destruct op; simpl in Hf; destruct_and?; try congruence;
      match goal with Hu : uploaded _ |- _ => symmetry; by eapply Forall_forall in Hu end.
  - intros Hne. destruct (reachable_answered m Hr) as [[Hids _ _ _]|]; done.
  - intros words Ha%answered_follows. destruct Ha as [Hmk _ Hall].
    assert (forall id, id ∈ chunk_ids m -> id ∈ missing_chunks words m) as Hsub
      by (intros id ?; by apply missing_chunks_spec, (mk_sent words m Hmk)).
    split; [done|]. intros Hc. assert (none_missing m) as Hn by by apply Hall; destruct Hc as [-> | ->].
    apply NoDup_Permutation; [done|apply NoDup_filter, NoDup_seq|].
    intros id. split; [by apply Hsub|]. intros [Hl Hb]%missing_chunks_spec.
    destruct (decide (id ∈ chunk_ids m)) as [|Hno]; [done|]. exfalso.
    by apply (Hn id), (mk_unsent words m Hmk).
Qed.

End Bitmap.

(** ** At a concrete upload *)

Import Example_.

#[local] Abbreviation ex_answered := (answered tt (fun _ _ => tt) digest).

(** The reply says that chunks 2 and 3 are missing, and both were sent. *)
Lemma polling_answered : ex_answered [3] polling.
Proof.
  set (m := after (take 3 (start_inputs [3]))).
  assert (reachable tt (fun _ _ => tt) digest m) as Hm by (apply after_upload_reachable; vm_compute; by eexists).
  apply (answered_input _ _ _ _ env chunk_answer
    (after (start_inputs [3] ++ [(env, chunk_answer)]))); [|done|vm_compute; reflexivity].
  apply (answered_input _ _ _ _ env chunk_answer (after (start_inputs [3]))); [|done|vm_compute; reflexivity].
  apply (answered_check _ _ _ _ env 0 (check_missing [3]) 4 m);
    [exact Hm|vm_compute; reflexivity..].
Qed.

Lemma chunks_sent_once_witness :
  chunk_ids polling = [2; 3]%nat
  /\ missing_chunks [3] polling = [2; 3]%nat
  /\ ex_answered [3] polling
  /\ NoDup (chunk_ids polling)
  /\ (busy (current polling) = true ->
      forall id, id ∈ chunk_ids polling -> exists s, chunk_states_ polling !! id = Some s /\ s <> NeedsUpload)
  /\ (current polling = PollUpload -> forall s, s ∈ chunk_states_ polling -> s = Uploaded)
  /\ (chunk_ids polling <> [] -> exists words, ex_answered words polling)
  /\ (forall words, ex_answered words polling ->
        (forall id, id ∈ chunk_ids polling -> id ∈ missing_chunks words polling)
        /\ (current polling = PollUpload \/ current polling = CompleteWithSuccess ->
            chunk_ids polling ≡ₚ missing_chunks words polling)).
Proof.
  split; [vm_compute; reflexivity|]. split; [vm_compute; reflexivity|]. split; [exact polling_answered|].
  exact (chunks_sent_once tt (fun _ _ => tt) digest polling polling_reachable).
Defined.
