(* ===== verification/UploadCalls.v ===== *)
(** * What one input makes a machine do, seen from the manager

    A machine never goes back ([rank]), its hash is fixed once it is known, and an input
    increments a count only when it starts the hashing or the upload. *)
From S2P Require Import Prelude Errors Stepping HashReader UploadMachine UploadProofs UploadTheorems.

Open Scope Z_scope.

(** The order in which the states are passed. *)
Definition rank (s : ustate) : nat :=
  match s with
  | Initial => 0 | WaitForHashSignal => 1 | SetupHasher_ => 2 | Hashing => 3
  | WaitForUploadSignal => 4 | InUploadCheck => 5 | InstantUpload_ | UploadFile | UploadChunk => 6
  | PollUpload => 7 | CompleteWithSuccess | CompleteWithError => 8
  end.

Definition is_increment (c : manager_call) : bool :=
  match c with IncrementHashingCount | IncrementUploadingCount => true | _ => false end.

(** The events of the manager that start something. *)
Definition is_start {H} (e : event (H := H)) : bool :=
  match e with StartHash | StartUpload _ => true | _ => false end.

Section Calls.
Context {H : Type} (h0 : H) (h_update : H -> str -> H) (h_digest : H -> str).

#[local] Abbreviation Upload := (UploadMachine.Upload (H := H)).
#[local] Abbreviation event := (UploadMachine.event (H := H)).
#[local] Abbreviation transition_table := (UploadMachine.transition_table h0 h_update h_digest).
#[local] Abbreviation on_entry := (UploadMachine.on_entry h0).
#[local] Abbreviation process_one := (UploadMachine.process_one h0 h_update h_digest).
#[local] Abbreviation process_messages := (UploadMachine.process_messages h0 h_update h_digest).
#[local] Abbreviation process_event := (UploadMachine.process_event h0 h_update h_digest).
#[local] Abbreviation upload_input := (UploadMachine.upload_input h0 h_update h_digest).
#[local] Abbreviation reachable := (UploadTheorems.reachable h0 h_update h_digest).

(** ** States are passed in order *)

Lemma row_rank env s e m t f :
  transition_table env s e m = Some (t, f) -> (rank s <= rank t)%nat /\ (0 < rank t)%nat.
Proof. intros Hr. destruct s, e; simpl in Hr; simplify_eq; simpl; try lia; case_match; simpl; lia. Qed.

Lemma process_one_current env e (m : Upload) :
  current (process_one env e m) = current m
  \/ exists t f, transition_table env (current m) e m = Some (t, f) /\ current (process_one env e m) = t.
Proof.
  unfold UploadMachine.process_one. destruct (is_terminal (current m)); [by left|].
  destruct (transition_table env (current m) e m) as [[t f]|]; [|by left]. right. exists t, f.
  split; [done|]. apply (on_entry_emits h0 t e).
Qed.

Lemma process_messages_rank env fuel (m m' : Upload) :
  process_messages fuel env m = Some m' -> (rank (current m) <= rank (current m'))%nat.
Proof.
  revert m. induction fuel as [|fuel IH]; intros m; simpl; destruct (messages m) as [|e q];
    intros Hp; simplify_eq; [done|done|].
  apply IH in Hp. etrans; [|exact Hp].
  destruct (process_one_current env e (set_messages q m)) as [->|(t & f & Hr & ->)]; [done|].
  apply row_rank in Hr. simpl in Hr. lia.
Qed.

Lemma upload_input_rank env i (m m' : Upload) :
  messages m = [] -> upload_input env i m = Some m' -> (rank (current m) <= rank (current m'))%nat.
Proof.
  intros Hm Hi. destruct (upload_input_shape _ _ _ env i m m' Hm Hi) as (m1 & Hs & _ & Hor).
  destruct Hs as (<- & _). destruct Hor as [[fuel Hp]|[-> _]]; [|done]. by eapply process_messages_rank.
Qed.

(** ** The hash is fixed once it is known *)

Lemma SetCountState_hash cs (m : Upload) : hash_ (SetCountState cs m) = hash_ m.
Proof. apply SetCountState_work. Qed.

Lemma on_entry_hash t e (m : Upload) : hash_ (on_entry t e m) = hash_ m.
Proof.
  destruct t, e; try done; cbn [UploadMachine.on_entry];
    try (unfold SetupHasher_on_entry; destruct (ChunkRanges _ _));
    try (apply (SetCountState_hash CountHashing m)); try apply callback_hash.
  - apply (SetCountState_hash CountUploading (set_action_token_ upload_action_token m)).
  - unfold SetChunkState. by repeat case_match.
  - rewrite (proj1 (callback_hash _ _)). apply (SetCountState_hash CountNone m).
  - rewrite (proj1 (callback_hash _ _)). apply (SetCountState_hash CountNone m).
  - rewrite (proj1 (callback_hash _ _)). apply (SetCountState_hash CountNone m).
  - rewrite (proj1 (callback_hash _ _)). apply (SetCountState_hash CountNone m).
  - rewrite (proj1 (callback_hash _ _)). apply (SetCountState_hash CountNone m).
Qed.

Lemma row_hash env s e m t f m1 :
  transition_table env s e m = Some (t, f) -> (4 <= rank s)%nat -> hash_ (f m1) = hash_ m1.
Proof.
  intros Hr Hs. destruct s, e; simpl in Hr, Hs; simplify_eq; try done; try lia;
    try (unfold DoSimpleUpload, StartPoll; by repeat case_match);
    by destruct (DoChunkUpload_cases env m1) as [(ec & ->)|[(j & r & _ & ->)|(_ & ->)]].
Qed.

Lemma process_one_hash env e (m : Upload) :
  (4 <= rank (current m))%nat -> hash_ (process_one env e m) = hash_ m.
Proof.
  intros Hs. unfold UploadMachine.process_one. destruct (is_terminal (current m)); [done|].
  destruct (transition_table env (current m) e m) as [[t f]|] eqn:Hr; [|done].
  rewrite on_entry_hash. simpl. rewrite (row_hash env _ _ _ _ _ _ Hr Hs). apply on_exit_work.
Qed.

Lemma process_messages_hash env fuel (m m' : Upload) :
  (4 <= rank (current m))%nat -> process_messages fuel env m = Some m' -> hash_ m' = hash_ m.
Proof.
  revert m. induction fuel as [|fuel IH]; intros m Hs; simpl; destruct (messages m) as [|e q] eqn:Hq;
    intros Hp; simplify_eq; [done|done|].
  apply IH in Hp; [by rewrite Hp, process_one_hash|].
  destruct (process_one_current env e (set_messages q m)) as [->|(t & f & Hr & ->)]; [done|].
  apply row_rank in Hr. simpl in Hr. lia.
Qed.

Lemma upload_input_hash env i (m m' : Upload) :
  messages m = [] -> (4 <= rank (current m))%nat -> upload_input env i m = Some m' -> hash_ m' = hash_ m.
Proof.
  intros Hm Hs Hi. destruct (upload_input_shape _ _ _ env i m m' Hm Hi) as (m1 & (Hc & _) & Hh & Hor).
  rewrite <-Hh. destruct Hor as [[fuel Hp]|[-> _]]; [|done].
  eapply process_messages_hash, Hp. by rewrite Hc.
Qed.

(** ** Only a start increments a count *)

(** What is added to the queue is no start, what is added to the calls is no increment. *)
Definition adds (m m' : Upload) : Prop :=
  (exists l, messages m' = messages m ++ l /\ Forall (fun e => is_start e = false) l)
  /\ exists cs, calls m' = calls m ++ cs /\ Forall (fun c => is_increment c = false) cs.

#[local] Instance adds_refl : Reflexive adds.
Proof. intros m. split; exists []; by rewrite app_nil_r. Qed.

#[local] Instance adds_trans : Transitive adds.
Proof.
  intros a b c [(l1 & H1 & F1) (c1 & G1 & E1)] [(l2 & H2 & F2) (c2 & G2 & E2)].
  split; [exists (l1 ++ l2)|exists (c1 ++ c2)]; rewrite ?H2, ?H1, ?G2, ?G1, app_assoc;
    (split; [done|by apply Forall_app]).
Qed.

Lemma adds_event e (m : Upload) : is_start e = false -> adds m (ProcessEvent e m).
Proof. intros He. split; [exists [e]; by split; [|constructor]|exists []; by rewrite app_nil_r]. Qed.

Lemma adds_callback c (m : Upload) : is_increment c = false -> adds m (callback c m).
Proof.
  intros Hc. split; [exists []; by rewrite app_nil_r, (proj2 (callback_same c m))|].
  unfold callback. destruct (connected m); [exists [c]; by split; [|constructor]|exists []; by rewrite app_nil_r].
Qed.

(** The other fields do not matter. *)
Lemma adds_same m (m1 m2 : Upload) : messages m2 = messages m1 -> calls m2 = calls m1 -> adds m m1 -> adds m m2.
Proof. unfold adds. by intros -> ->. Qed.

Lemma adds_none (m : Upload) : adds m (SetCountState CountNone m).
Proof.
  unfold SetCountState. destruct (count_state_ m).
  - by apply (adds_same m m).
  - by apply (adds_same m _ _ eq_refl eq_refl), adds_callback.
  - by apply (adds_same m _ _ eq_refl eq_refl), adds_callback.
Qed.

Lemma adds_on_exit env s (m : Upload) : adds m (on_exit env s m).
Proof.
  destruct s; try done; try (by apply adds_callback); simpl.
  - unfold Initial_on_exit. repeat case_match; try (by apply (adds_same m m));
      (eapply (adds_same m (ProcessEvent (Error _) m)); [reflexivity|reflexivity|by apply adds_event]).
  - by apply (adds_same m m).
Qed.

Lemma adds_DoChunkUpload env (m : Upload) : adds m (DoChunkUpload env m).
Proof.
  destruct (DoChunkUpload_cases env m) as [(ec & ->)|[(j & r & _ & ->)|(_ & ->)]];
    [by apply adds_event|by apply (adds_same m m)|by apply adds_event].
Qed.

Lemma adds_row env s e m t f (m1 : Upload) : transition_table env s e m = Some (t, f) -> adds m1 (f m1).
Proof.
  intros Hr. destruct s, e; simpl in Hr; simplify_eq; try done; try apply adds_DoChunkUpload;
    try (by apply (adds_same m1 m1));
    unfold OpenFile, ReadFileAction, DoSimpleUpload, StartPoll; repeat case_match;
    try (by apply adds_event); try (by apply (adds_same m1 m1)); done.
Qed.

Lemma adds_complete st (m : Upload) :
  adds m (callback HandleComplete (SendStatus st (SetCountState CountNone m))).
Proof.
  etrans; [apply adds_none|]. etrans; [|by apply adds_callback].
  by apply (adds_same _ (SetCountState CountNone m)).
Qed.

Lemma adds_SetChunkState i st (m : Upload) : adds m (SetChunkState i st m).
Proof.
  unfold SetChunkState. case_match; [by apply (adds_same m m)|by apply adds_event].
Qed.

Lemma adds_on_entry t e (m : Upload) :
  is_start e = false -> t <> SetupHasher_ -> adds m (on_entry t e m).
Proof.
  intros He Ht. destruct t, e; try done; cbn [UploadMachine.on_entry]; try apply adds_complete;
    try (by apply (adds_same m m));
    try (by apply (adds_same m _ _ eq_refl eq_refl), adds_callback).
  etrans; [|apply adds_SetChunkState]. case_bool_decide; [by apply (adds_same m m)|done].
Qed.

Lemma adds_process_one env e (m : Upload) : is_start e = false -> adds m (process_one env e m).
Proof.
  intros He. unfold UploadMachine.process_one. destruct (is_terminal (current m)); [done|].
  destruct (transition_table env (current m) e m) as [[t f]|] eqn:Hr; [|by apply (adds_same m m)].
  etrans; [apply (adds_on_exit env (current m))|]. etrans; [by eapply adds_row|].
  etrans; [|apply adds_on_entry; [done|]].
  - by apply (adds_same (f (on_exit env (current m) m)) (f (on_exit env (current m) m))).
  - intros ->. destruct (current m), e; simpl in Hr; simplify_eq; try done; by destruct (HasHash m).
Qed.

Lemma adds_process_messages env fuel (m m' : Upload) :
  Forall (fun e => is_start e = false) (messages m) -> process_messages fuel env m = Some m' ->
  exists cs, calls m' = calls m ++ cs /\ Forall (fun c => is_increment c = false) cs.
Proof.
  revert m. induction fuel as [|fuel IH]; intros m Hs; simpl; destruct (messages m) as [|e q] eqn:Hq;
    intros Hp; simplify_eq; try (by exists []; rewrite app_nil_r).
  inversion Hs as [|? ? He Hq']; subst.
  destruct (adds_process_one env e (set_messages q m) He) as [(l & Hl & Fl) (cs & Hcs & Fcs)].
  apply IH in Hp as (cs' & Hcs' & Fcs').
  - exists (cs ++ cs'). rewrite Hcs', Hcs. simpl. by rewrite app_assoc, Forall_app.
  - rewrite Hl. by apply Forall_app.
Qed.

(** What a start does first. *)
Definition start_calls (i : input) (s : ustate) : list manager_call :=
  match i, s with
  | DoStartHash, WaitForHashSignal => [HandleRemoveToHash; IncrementHashingCount]
  | DoStartUpload _, WaitForUploadSignal =>
      [HandleRemoveToUpload; DecrementHashingCount; IncrementUploadingCount]
  | _, _ => []
  end.

Lemma start_hash_step env (m : Upload) :
  current m = WaitForHashSignal -> connected m = true -> count_state_ m = CountNone ->
  let m' := process_one env StartHash m in
  calls m' = calls m ++ [HandleRemoveToHash; IncrementHashingCount]
  /\ (messages m = [] -> Forall (fun e => is_start e = false) (messages m')).
Proof.
  intros Hc Hd Hn. unfold UploadMachine.process_one. rewrite Hc. simpl.
  unfold SetupHasher_on_entry, SetCountState, callback. rewrite Hd. simpl. rewrite Hn. simpl. rewrite Hd. simpl.
  destruct (ChunkRanges _ _); simpl; rewrite <-app_assoc; (split; [done|]); intros ->; simpl; auto.
Qed.

Lemma start_upload_step env token (m : Upload) :
  current m = WaitForUploadSignal -> connected m = true -> count_state_ m = CountHashing ->
  let m' := process_one env (StartUpload token) m in
  calls m' = calls m ++ [HandleRemoveToUpload; DecrementHashingCount; IncrementUploadingCount]
  /\ messages m' = messages m.
Proof.
  intros Hc Hd Hn. unfold UploadMachine.process_one. rewrite Hc. simpl.
  unfold SetCountState, callback. rewrite Hd. simpl. rewrite Hn. simpl. rewrite Hd. simpl. rewrite Hd. simpl.
  by rewrite <-!app_assoc.
Qed.

Lemma process_event_increments env e (m m' : Upload) :
  messages m = [] -> is_start e = false -> process_event env e m = Some m' ->
  exists cs, calls m' = calls m ++ cs /\ Forall (fun c => is_increment c = false) cs.
Proof.
  intros Hm He Hp. eapply adds_process_messages in Hp; [exact Hp|]. simpl. rewrite Hm. by constructor.
Qed.

Lemma complete_op_increments env op a (m m' : Upload) :
  messages m = [] -> complete_op h0 h_update h_digest env op a m = Some m' ->
  exists cs, calls m' = calls m ++ cs /\ Forall (fun c => is_increment c = false) cs.
Proof.
  intros Hm Hc. unfold complete_op in Hc.
  assert (forall e, is_start e = false -> process_event env e m = Some m' ->
    exists cs, calls m' = calls m ++ cs /\ Forall (fun c => is_increment c = false) cs) as Hev
    by (intros e; by apply process_event_increments).
  destruct op, a; try done.
  - by eapply Hev, Hc.
  - destruct (HandleCheckResponse_cases r m) as [(e & E & He)|(u & w & _ & E)]; rewrite E in Hc.
    + eapply Hev, Hc. by destruct He as [(? & ->)|[(? & ? & ->)|[->| ->]]].
    + by apply process_event_increments in Hc.
  - eapply Hev, Hc. unfold HandleInstantResponse. by destruct (is_error _).
  - destruct (HandleUploadResponse_event (H := H) SimpleUploadComplete r _ eq_refl) as [(? & E)|(? & E)];
      rewrite E in Hc; by eapply Hev, Hc.
  - destruct (HandleUploadResponse_event (H := H) (ChunkSuccess chunk_id) r _ eq_refl) as [(? & E)|(? & E)];
      unfold HandleChunkResponse in Hc; rewrite E in Hc; by eapply Hev, Hc.
  - destruct (HandlePollResponse r m) as [e|] eqn:E.
    + eapply Hev, Hc. unfold HandlePollResponse, HandlePollCompleteResponse in E.
      by repeat case_match; simplify_eq.
    + simplify_eq. exists []. by rewrite app_nil_r.
  - destruct cancelled; simplify_eq; [exists []; by rewrite app_nil_r|].
    apply adds_process_messages in Hc as (cs & Hcs & Fcs).
    + exists cs. split; [|done]. rewrite Hcs. unfold StartPoll. by case_bool_decide.
    + unfold StartPoll. case_bool_decide; simpl; rewrite Hm; by repeat constructor.
Qed.

Lemma set_messages_back e (m : Upload) : messages m = [] -> set_messages [] (ProcessEvent e m) = m.
Proof. destruct m. cbn. by intros ->. Qed.

(** An event without a row is lost. *)
Lemma lost_step env e (m : Upload) :
  transition_table env (current m) e m = None ->
  calls (process_one env e m) = calls m /\ messages (process_one env e m) = messages m.
Proof. intros Hr. unfold UploadMachine.process_one. rewrite Hr. by destruct (is_terminal (current m)). Qed.

(** The calls of an input: those of the start, if it is one, then no increment. *)
Lemma input_calls env i (m m' : Upload) :
  reachable m -> upload_input env i m = Some m' ->
  exists rest, calls m' = calls m ++ start_calls i (current m) ++ rest
    /\ Forall (fun c => is_increment c = false) rest.
Proof.
  intros Hr Hi. destruct (upload_reachable_inv _ _ _ m Hr) as (Hm & _ & [Hd _ _] & [Hcount _]).
  assert (forall e, process_event env e m = Some m' ->
    process_messages 9 env (process_one env e m) = Some m') as Hfirst.
  { intros e Hp. unfold UploadMachine.process_event, message_fuel in Hp.
    rewrite (process_messages_step _ _ _ env 9 e []) in Hp by (simpl; by rewrite Hm).
    by rewrite set_messages_back in Hp. }
  assert (forall e, is_start e = false -> process_event env e m = Some m' ->
    exists rest, calls m' = calls m ++ [] ++ rest /\ Forall (fun c => is_increment c = false) rest) as Hev
    by (intros e; by apply process_event_increments).
  destruct i as [| |token|ec|n a]; simpl in Hi.
  - by apply Hev in Hi.
  - destruct (decide (current m = WaitForHashSignal)) as [Hc|Hc].
    + rewrite Hc in *. destruct (start_hash_step env m Hc Hd Hcount) as [E F].
      apply Hfirst, adds_process_messages in Hi as (cs & Hcs & Fcs); [|by apply F].
      exists cs. by rewrite Hcs, E, <-app_assoc.
    + assert (start_calls DoStartHash (current m) = []) as -> by by destruct (current m).
      destruct (lost_step env StartHash m) as [E F]; [by destruct (current m)|].
      apply Hfirst, adds_process_messages in Hi as (cs & Hcs & Fcs); [|by rewrite F, Hm].
      exists cs. by rewrite Hcs, E.
  - destruct (decide (current m = WaitForUploadSignal)) as [Hc|Hc].
    + rewrite Hc in *. destruct (start_upload_step env token m Hc Hd Hcount) as [E F].
      apply Hfirst, adds_process_messages in Hi as (cs & Hcs & Fcs); [|by rewrite F, Hm].
      exists cs. by rewrite Hcs, E, <-app_assoc.
    + assert (start_calls (DoStartUpload token) (current m) = []) as -> by by destruct (current m).
      destruct (lost_step env (StartUpload token) m) as [E F]; [by destruct (current m)|].
      apply Hfirst, adds_process_messages in Hi as (cs & Hcs & Fcs); [|by rewrite F, Hm].
      exists cs. by rewrite Hcs, E.
  - by apply Hev in Hi.
  - destruct (pending m !! n) as [op|]; [|done]. by apply complete_op_increments in Hi.
Qed.

(** ** An upload that still waits *)

(** A machine that is still in its list made no calls. *)
Lemma process_messages_stays env fuel (m m' : Upload) s :
  s = WaitForHashSignal \/ s = WaitForUploadSignal ->
  current m = s -> current m' = s -> process_messages fuel env m = Some m' -> calls m' = calls m.
Proof.
  intros Hs. revert m. induction fuel as [|fuel IH]; intros m Hc Hc'; simpl;
    destruct (messages m) as [|e q] eqn:Hq; intros Hp; simplify_eq; [done|done|].
  pose proof (process_messages_rank _ _ _ _ Hp) as Hrank.
  destruct (transition_table env (current (set_messages q m)) e (set_messages q m)) as [[t f]|] eqn:Hr.
  - exfalso. assert (current (process_one env e (set_messages q m)) = t) as Ht.
    { destruct (process_one_current env e (set_messages q m)) as [E|(t' & f' & Hr' & E)]; [|congruence].
      unfold UploadMachine.process_one in E |- *. rewrite Hr in E |- *.
      destruct (is_terminal _) eqn:Hterm; [|apply (on_entry_emits h0 t e)].
      simpl in Hterm. by destruct Hs as [Hs|Hs]; rewrite Hs in Hterm. }
    rewrite Ht, Hc' in Hrank. clear Ht. simpl in Hr.
    destruct Hs as [Hs|Hs]; rewrite Hs in *; destruct e; simpl in Hr; simplify_eq; simpl in Hrank; lia.
  - destruct (lost_step env e (set_messages q m) Hr) as [E _]. change (calls m) with (calls (set_messages q m)).
    rewrite <-E. apply IH; [|done|done].
    destruct (process_one_current env e (set_messages q m)) as [->|(t & f & Hr' & _)]; [done|congruence].
Qed.

Lemma upload_input_stays env i (m m' : Upload) :
  messages m = [] -> current m = WaitForHashSignal \/ current m = WaitForUploadSignal ->
  current m' = current m -> upload_input env i m = Some m' -> calls m' = calls m.
Proof.
  intros Hm Hs Hc Hi. destruct (upload_input_shape _ _ _ env i m m' Hm Hi) as (m1 & (E1 & _ & E2 & _) & _ & Hor).
  rewrite <-E2. destruct Hor as [[fuel Hp]|[-> _]]; [|done].
  by eapply (process_messages_stays env fuel m1 m' (current m)).
Qed.

(** ** All that the manager needs to know about one input *)

Record input_facts (i : input) (m m' : Upload) (cs : list manager_call) : Prop := {
  if_reachable : reachable m';
  if_calls : calls m' = calls m ++ cs;
  if_phase : phase_steps (phase_of m) cs = Some (phase_of m');
  if_start : exists rest, cs = start_calls i (current m) ++ rest
      /\ Forall (fun c => is_increment c = false) rest;
  if_rank : (rank (current m) <= rank (current m'))%nat;
  if_hash : (4 <= rank (current m))%nat -> hash_ m' = hash_ m;
  if_stays : current m = WaitForHashSignal \/ current m = WaitForUploadSignal ->
      current m' = current m -> cs = [];
  if_count : count_state_ m = state_count (current m);
  if_count' : count_state_ m' = state_count (current m') }.

Lemma input_facts_intro env i (m m' : Upload) :
  reachable m -> possible i = true -> upload_input env i m = Some m' ->
  input_facts i m m' (drop (length (calls m)) (calls m')).
Proof.
  intros Hr Hp Hi. pose proof (reachable_input _ _ _ env i m m' Hr Hp Hi) as Hr'.
  destruct (upload_reachable_inv _ _ _ m Hr) as (Hm & _ & [_ Hl _] & [Hc _]).
  destruct (upload_reachable_inv _ _ _ m' Hr') as (_ & _ & [_ Hl' _] & [Hc' _]).
  destruct (input_calls env i m m' Hr Hi) as (rest & Hcs & Frest).
  rewrite Hcs, drop_app_length. split; try done.
  - rewrite Hcs, phase_steps_app, Hl in Hl'. exact Hl'.
  - by exists rest.
  - by eapply upload_input_rank.
  - intros Hk. by eapply upload_input_hash.
  - intros Hs Hcur. pose proof (upload_input_stays env i m m' Hm Hs Hcur Hi) as E.
    rewrite Hcs in E. rewrite <-(app_nil_r (calls m)) in E at 2. by apply app_inv_head in E.
Qed.
End Calls.
