(* ===== verification/UploadManager.v ===== *)
(** * The upload manager ([uploader/detail/upload_manager_impl.cpp])

    The queues, counters and token of [UploadManagerImpl] and the machines of its
    uploads.  Every handler of the manager runs under its lock and every event of a machine
    to completion, so the system is a sequence of inputs: a user's call, a posted task, an
    answer to an operation of a machine, the end of a token request, the retry timer.
    Posted tasks may run in any order.

    An upload is named by its position in [machines], which stands for the shared pointer
    and for the handle.  The calls of a machine reach the manager in the order in which the
    machine makes them. *)
From S2P Require Import Prelude Errors Stepping HashReader UploadMachine.

Open Scope Z_scope.

(** [uploader/detail/upload_manager_impl.cpp:19-19 kActionTokenRetry]
    In nanoseconds of the steady clock. *)
Definition kActionTokenRetry : Z := 15 * 10 ^ 9.

(** [uploader/detail/upload_manager_impl.cpp:22-22 kActionTokenLife] *)
Definition kActionTokenLife : Z := 1440 / 4 * 3 * 60 * 10 ^ 9.

(** [uploader/detail/upload_manager_impl.hpp:72-78 ActionTokenState] *)
Inductive ActionTokenState := TokenInvalid | TokenRetrieving | TokenError | TokenValid.

#[export] Instance ActionTokenState_eq_dec : EqDecision ActionTokenState.
Proof. solve_decision. Defined.

(** What is posted to the work service. *)
Inductive task :=
  | TickTask
  | StartHashTask (request : nat)
  | StartUploadTask (request : nat) (token : str)
  | ErrorTask (request : nat) (ec : error_code).      (** dispatched by [ModifyUpload] *)

(** [get_action_token]'s response. *)
Record ActionTokenResponse := { tok_error_code : error_code; tok_action_token : str }.

Section Manager.
Context {H : Type} (h0 : H) (h_update : H -> str -> H) (h_digest : H -> str).
#[local] Abbreviation Upload := (UploadMachine.Upload (H := H)).

(** [token_calls] counts the token requests that will call back, [retry_armed] says that
    the retry timer is waited for.
    [uploader/detail/upload_manager_impl.hpp:60-95 UploadManagerImpl] *)
Record Manager := {
  to_hash_ : list nat;
  to_upload_ : list nat;
  uploading_hashes_ : gset str;
  requests_ : gset nat;
  action_token_ : str;
  action_token_expires_ : Z;
  action_token_state_ : ActionTokenState;
  enqueued_to_start_hashings_ : gset nat;
  enqueued_to_start_uploads_ : gset nat;
  current_hashings_ : Z;
  current_uploads_ : Z;
  machines : list Upload;
  posted : list task;
  token_calls : nat;
  retry_armed : bool }.

#[local] Instance Manager_members : Members Manager := fun s =>
  Build_Manager (to_hash_ s) (to_upload_ s) (uploading_hashes_ s) (requests_ s)
    (action_token_ s) (action_token_expires_ s) (action_token_state_ s)
    (enqueued_to_start_hashings_ s) (enqueued_to_start_uploads_ s) (current_hashings_ s)
    (current_uploads_ s) (machines s) (posted s) (token_calls s) (retry_armed s).

Definition with_to_hash_ := ltac:(setter to_hash_).
Definition with_to_upload_ := ltac:(setter to_upload_).
Definition with_uploading_hashes_ := ltac:(setter uploading_hashes_).
Definition with_requests_ := ltac:(setter requests_).
Definition with_action_token_ := ltac:(setter action_token_).
Definition with_action_token_expires_ := ltac:(setter action_token_expires_).
Definition with_action_token_state_ := ltac:(setter action_token_state_).
Definition with_enqueued_to_start_hashings_ := ltac:(setter enqueued_to_start_hashings_).
Definition with_enqueued_to_start_uploads_ := ltac:(setter enqueued_to_start_uploads_).
Definition with_current_hashings_ := ltac:(setter current_hashings_).
Definition with_current_uploads_ := ltac:(setter current_uploads_).
Definition with_machines := ltac:(setter machines).
Definition with_posted := ltac:(setter posted).
Definition with_token_calls := ltac:(setter token_calls).
Definition with_retry_armed := ltac:(setter retry_armed).

Definition post (t : task) (s : Manager) : Manager := with_posted (posted s ++ [t]) s.

(** [std::find] and [erase]. *)
Fixpoint remove_first (id : nat) (l : list nat) : list nat :=
  match l with [] => [] | x :: l => if bool_decide (x = id) then l else x :: remove_first id l end.

(** [disable_enqueue_] is set by the destructor only.
    [uploader/detail/upload_manager_impl.cpp:173-182 EnqueueTick] *)
Definition EnqueueTick (s : Manager) : Manager := post TickTask s.

(** ** The calls of a machine *)

(** [uploader/detail/upload_manager_impl.cpp:359-369 HandleAddToHash] *)
Definition do_HandleAddToHash (id : nat) (s : Manager) : Manager :=
  EnqueueTick (with_to_hash_ (to_hash_ s ++ [id]) s).

(** [uploader/detail/upload_manager_impl.cpp:370-382 HandleRemoveToHash] *)
Definition do_HandleRemoveToHash (id : nat) (s : Manager) : Manager :=
  EnqueueTick (with_to_hash_ (remove_first id (to_hash_ s)) s).

(** [uploader/detail/upload_manager_impl.cpp:384-394 HandleAddToUpload] *)
Definition do_HandleAddToUpload (id : nat) (s : Manager) : Manager :=
  EnqueueTick (with_to_upload_ (to_upload_ s ++ [id]) s).

(** [uploader/detail/upload_manager_impl.cpp:395-408 HandleRemoveToUpload] *)
Definition do_HandleRemoveToUpload (id : nat) (s : Manager) : Manager :=
  EnqueueTick (with_to_upload_ (remove_first id (to_upload_ s)) s).

(** [uploader/detail/upload_manager_impl.cpp:410-432 HandleComplete] *)
Definition do_HandleComplete (id : nat) (hash : str) (s : Manager) : Manager :=
  let s := with_enqueued_to_start_hashings_ (enqueued_to_start_hashings_ s ∖ {[id]}) s in
  let s := with_enqueued_to_start_uploads_ (enqueued_to_start_uploads_ s ∖ {[id]}) s in
  let s := with_requests_ (requests_ s ∖ {[id]}) s in
  let s := if bool_decide (hash = []) then s
           else with_uploading_hashes_ (uploading_hashes_ s ∖ {[hash]}) s in
  EnqueueTick s.

(** [uploader/detail/upload_manager_impl.cpp:434-439 IncrementHashingCount] *)
Definition do_IncrementHashingCount (id : nat) (s : Manager) : Manager :=
  let s := with_current_hashings_ (u32 (current_hashings_ s + 1)) s in
  with_enqueued_to_start_hashings_ (enqueued_to_start_hashings_ s ∖ {[id]}) s.

(** [uploader/detail/upload_manager_impl.cpp:441-447 DecrementHashingCount] *)
Definition do_DecrementHashingCount (s : Manager) : Manager :=
  let s := EnqueueTick s in with_current_hashings_ (u32 (current_hashings_ s - 1)) s.

(** [uploader/detail/upload_manager_impl.cpp:449-454 IncrementUploadingCount] *)
Definition do_IncrementUploadingCount (id : nat) (s : Manager) : Manager :=
  let s := with_current_uploads_ (u32 (current_uploads_ s + 1)) s in
  with_enqueued_to_start_uploads_ (enqueued_to_start_uploads_ s ∖ {[id]}) s.

(** [uploader/detail/upload_manager_impl.cpp:456-462 DecrementUploadingCount] *)
Definition do_DecrementUploadingCount (s : Manager) : Manager :=
  let s := EnqueueTick s in with_current_uploads_ (u32 (current_uploads_ s - 1)) s.

(** The interface, implemented. *)
Definition apply_call (id : nat) (hash : str) (s : Manager) (c : manager_call) : Manager :=
  match c with
  | HandleAddToHash => do_HandleAddToHash id s
  | HandleRemoveToHash => do_HandleRemoveToHash id s
  | HandleAddToUpload => do_HandleAddToUpload id s
  | HandleRemoveToUpload => do_HandleRemoveToUpload id s
  | HandleComplete => do_HandleComplete id hash s
  | IncrementHashingCount => do_IncrementHashingCount id s
  | DecrementHashingCount => do_DecrementHashingCount s
  | IncrementUploadingCount => do_IncrementUploadingCount id s
  | DecrementUploadingCount => do_DecrementUploadingCount s
  end.

(** An input of machine [id], and the calls it leads to.  The hash is the machine's: it
    does not change between the calls of one input and [HandleComplete], which reads it. *)
Definition machine_input (env : Env) (id : nat) (i : input) (s : Manager) : option Manager :=
  match machines s !! id with
  | Some m =>
      match upload_input h0 h_update h_digest env i m with
      | Some m' =>
          Some (foldl (apply_call id (hash_ m')) (with_machines (<[id := m']> (machines s)) s)
                  (drop (length (calls m)) (calls m')))
      | None => None
      end
  | None => None
  end.

(** ** Ticks *)

Definition max_concurrent : Z := 2.

(** [uploader/detail/upload_manager_impl.cpp:184-205 Tick_StartHashings] *)
Fixpoint start_hashings (queue : list nat) (s : Manager) : Manager :=
  match queue with
  | [] => with_to_hash_ [] s
  | request :: queue =>
      if current_hashings_ s + Z.of_nat (size (enqueued_to_start_hashings_ s)) <? max_concurrent then
        let s := with_enqueued_to_start_hashings_ ({[request]} ∪ enqueued_to_start_hashings_ s) s in
        start_hashings queue (post (StartHashTask request) s)
      else with_to_hash_ (request :: queue) s
  end.

(** [uploader/detail/upload_manager_impl.cpp:184-205 Tick_StartHashings] *)
Definition Tick_StartHashings (s : Manager) : Manager := start_hashings (to_hash_ s) s.

(** [uploader/detail/upload_manager_impl.cpp:218-224 CanUploadMore] *)
Definition CanUploadMore (s : Manager) : bool :=
  current_uploads_ s + Z.of_nat (size (enqueued_to_start_uploads_ s)) <? max_concurrent.

Definition hash_of (id : nat) (s : Manager) : str :=
  match machines s !! id with Some m => hash_ m | None => [] end.

(** A request whose hash is not being uploaded.
    [uploader/detail/upload_manager_impl.cpp:268-272 Tick_StartUploads] *)
Definition startable (s : Manager) (request : nat) : bool :=
  bool_decide (hash_of request s ∉ uploading_hashes_ s).

(** [uploader/detail/upload_manager_impl.cpp:207-301 Tick_StartUploads] *)
Definition Tick_StartUploads (now : Z) (s : Manager) : Manager :=
  match to_upload_ s with
  | [] => s
  | _ =>
      if negb (bool_decide (action_token_state_ s = TokenValid)) || (action_token_expires_ s <? now) then
        if bool_decide (action_token_state_ s = TokenError) && (now <? action_token_expires_ s) then s
        else with_token_calls (S (token_calls s)) (with_action_token_state_ TokenRetrieving s)
      else if CanUploadMore s then
        match List.find (startable s) (to_upload_ s) with
        | Some request =>
            let s := with_to_upload_ (remove_first request (to_upload_ s)) s in
            let s := with_uploading_hashes_ ({[hash_of request s]} ∪ uploading_hashes_ s) s in
            let s := with_enqueued_to_start_uploads_ ({[request]} ∪ enqueued_to_start_uploads_ s) s in
            post (StartUploadTask request (action_token_ s)) s
        | None => s
        end
      else s
  end.

(** [uploader/detail/upload_manager_impl.cpp:166-171 Tick] *)
Definition Tick (now : Z) (s : Manager) : Manager := Tick_StartHashings (Tick_StartUploads now s).

(** ** Operations *)

(** [uploader/detail/upload_manager_impl.cpp:76-107 Add] *)
Definition Add (env : Env) (now : Z) (name : str) (on_duplicate_action : OnDuplicateAction)
    (s : Manager) : option Manager :=
  let id := length (machines s) in
  let s := with_machines (machines s ++ [NewUpload name on_duplicate_action]) s in
  let s := with_requests_ ({[id]} ∪ requests_ s) s in
  match machine_input env id DoStart s with
  | Some s => Some (Tick now s)
  | None => None
  end.

(** [ec] is [UploadCancelled] for [Cancel] and [Paused] for [Pause].
    [uploader/detail/upload_manager_impl.cpp:109-164 ModifyUpload] *)
Definition ModifyUpload (upload_handle : nat) (ec : error_code) (s : Manager) : Manager :=
  if bool_decide (upload_handle ∈ requests_ s) then post (ErrorTask upload_handle ec) s else s.

(** [uploader/detail/upload_manager_impl.cpp:303-338 HandleActionToken] *)
Definition HandleActionToken (now : Z) (r : ActionTokenResponse) (s : Manager) : Manager :=
  if is_error (tok_error_code r) then
    with_retry_armed true
      (with_action_token_expires_ (now + kActionTokenRetry) (with_action_token_state_ TokenError s))
  else
    Tick now
      (with_action_token_expires_ (now + kActionTokenLife)
         (with_action_token_ (tok_action_token r) (with_action_token_state_ TokenValid s))).

(** [uploader/detail/upload_manager_impl.cpp:340-356 ActionTokenRetry] *)
Definition ActionTokenRetry (now : Z) (cancelled : bool) (s : Manager) : Manager :=
  if negb cancelled && bool_decide (action_token_state_ s = TokenError) then
    Tick now (with_action_token_state_ TokenInvalid (with_action_token_ [] s))
  else s.

(** A posted task runs. *)
Definition run_task (env : Env) (now : Z) (t : task) (s : Manager) : option Manager :=
  match t with
  | TickTask => Some (Tick now s)
  | StartHashTask id => machine_input env id DoStartHash s
  | StartUploadTask id token => machine_input env id (DoStartUpload token) s
  | ErrorTask id ec => machine_input env id (DoModify ec) s
  end.

(** ** Inputs *)

(** Nothing cancels the timer of a machine. *)
Definition is_cancelled (a : answer) : bool := match a with AnswerTimer cancelled => cancelled | _ => false end.

Inductive manager_event :=
  | UserAdd (name : str) (on_duplicate_action : OnDuplicateAction)
  | UserModify (upload_handle : nat) (ec : error_code)
  | RunTask (n : nat)                              (** the n-th posted task *)
  | MachineAnswer (id n : nat) (a : answer)        (** the n-th operation of a machine ends *)
  | TokenResponse (r : ActionTokenResponse)
  | RetryTimer.

(** [None]: the event is not possible. *)
Definition manager_input (env : Env) (now : Z) (e : manager_event) (s : Manager) : option Manager :=
  match e with
  | UserAdd name action => Add env now name action s
  | UserModify handle ec => Some (ModifyUpload handle ec s)
  | RunTask n =>
      match posted s !! n with
      | Some t => run_task env now t (with_posted (delete n (posted s)) s)
      | None => None
      end
  | MachineAnswer id n a => if is_cancelled a then None else machine_input env id (DoComplete n a) s
  | TokenResponse r =>
      match token_calls s with
      | O => None
      | S n => Some (HandleActionToken now r (with_token_calls n s))
      end
  | RetryTimer =>
      if retry_armed s then Some (ActionTokenRetry now false (with_retry_armed false s)) else None
  end.

(** [uploader/detail/upload_manager_impl.cpp:39-52 UploadManagerImpl] *)
Definition NewManager : Manager :=
  {| to_hash_ := []; to_upload_ := []; uploading_hashes_ := ∅; requests_ := ∅; action_token_ := [];
     action_token_expires_ := 0; action_token_state_ := TokenInvalid;
     enqueued_to_start_hashings_ := ∅; enqueued_to_start_uploads_ := ∅; current_hashings_ := 0;
     current_uploads_ := 0; machines := []; posted := []; token_calls := 0; retry_armed := false |}.

End Manager.
