(* ===== verification/UploadManagerProofs.v ===== *)
(** * Lemmas on the upload manager

    What the calls of one machine do to the manager, as long as they follow the protocol
    of [UploadTheorems.phase_step]; and the invariant of the manager. *)
From S2P Require Import Prelude Errors Stepping HashReader UploadMachine UploadProofs UploadTheorems UploadCalls UploadManager.

Open Scope Z_scope.

Definition is_complete (c : manager_call) : bool := bool_decide (c = HandleComplete).

(** The calls that take an upload off the set of those about to hash or to upload. *)
Definition ends_hash_wait (c : manager_call) : bool :=
  match c with IncrementHashingCount | HandleComplete => true | _ => false end.
Definition ends_upload_wait (c : manager_call) : bool :=
  match c with IncrementUploadingCount | HandleComplete => true | _ => false end.

Definition one (b : bool) : Z := if b then 1 else 0.

Lemma elem_of_remove_first x id l : x ∈ remove_first id l -> x ∈ l.
Proof.
  induction l as [|y l IH]; simpl; [done|]. case_bool_decide; rewrite !elem_of_cons; [by right|].
  intros [->|Hx]; [by left|right; auto].
Qed.

Lemma remove_first_other x id l : x <> id -> x ∈ l -> x ∈ remove_first id l.
Proof.
  intros Hne. induction l as [|y l IH]; simpl; [done|]. rewrite elem_of_cons. intros Hx.
  case_bool_decide; [destruct Hx; [congruence|done]|]. rewrite elem_of_cons. destruct Hx; auto.
Qed.

Lemma NoDup_remove_first id l : NoDup l -> NoDup (remove_first id l) /\ id ∉ remove_first id l.
Proof.
  induction 1 as [|y l Hy Hl [IH1 IH2]]; simpl; [split; [constructor|apply not_elem_of_nil]|].
  case_bool_decide as Hd; [by subst|]. split.
  - constructor; [|done]. intros Hx%elem_of_remove_first. done.
  - rewrite elem_of_cons. intros [->|Hx]; auto.
Qed.

(** ** What a run of the protocol tells *)

Lemma phase_steps_counted p cs p' :
  phase_steps p cs = Some p' ->
  (counted p' = CountHashing -> counted p = CountHashing \/ IncrementHashingCount ∈ cs)
  /\ (counted p' = CountUploading -> counted p = CountUploading \/ IncrementUploadingCount ∈ cs).
Proof.
  revert p. induction cs as [|c cs IH]; intros p; simpl; [intros [= <-]; auto|].
  destruct (phase_step p c) as [p1|] eqn:Hs; [|done]. intros Hp. apply IH in Hp as [IH1 IH2].
  setoid_rewrite elem_of_cons.
  unfold phase_step in Hs. destruct (completed p); [done|].
  split; [intros [Hc|Hc]%IH1|intros [Hc|Hc]%IH2]; auto;
    destruct c, (in_list p), (counted p); simplify_eq; simpl in *; auto; discriminate.
Qed.

Lemma phase_steps_completed p cs p' :
  phase_steps p cs = Some p' -> completed p = false -> completed p' = existsb is_complete cs.
Proof.
  revert p. induction cs as [|c cs IH]; intros p; simpl; [by intros [= <-]|].
  destruct (phase_step p c) as [p1|] eqn:Hs; [|done]. intros Hp Hcomp.
  unfold phase_step in Hs. rewrite Hcomp in Hs.
  destruct (decide (c = HandleComplete)) as [->|Hc].
  - simpl. destruct (in_list p), (counted p); simplify_eq.
    destruct cs as [|c cs]; simpl in Hp; by simplify_eq.
  - unfold is_complete at 1. rewrite bool_decide_eq_false_2 by done. apply (IH p1 Hp).
    destruct c, (in_list p), (counted p); by simplify_eq.
Qed.

Lemma phase_steps_completed_nil p cs p' :
  phase_steps p cs = Some p' -> completed p = true -> cs = [].
Proof.
  intros Hp Hc. destruct cs as [|c cs]; [done|]. simpl in Hp. unfold phase_step in Hp. by rewrite Hc in Hp.
Qed.

Section Proofs.
Context {H : Type} (h0 : H) (h_update : H -> str -> H) (h_digest : H -> str).

#[local] Abbreviation Upload := (UploadMachine.Upload (H := H)).
#[local] Abbreviation Manager := (UploadManager.Manager (H := H)).
#[local] Abbreviation upload_input := (UploadMachine.upload_input h0 h_update h_digest).
#[local] Abbreviation reachable := (UploadTheorems.reachable h0 h_update h_digest).

(** ** One call after the other *)

(** What a run of calls leaves alone. *)
Record calls_frame (s s' : Manager) (cs : list manager_call) : Prop := {
  cf_machines : machines s' = machines s;
  cf_token : action_token_ s' = action_token_ s;
  cf_expires : action_token_expires_ s' = action_token_expires_ s;
  cf_state : action_token_state_ s' = action_token_state_ s;
  cf_token_calls : token_calls s' = token_calls s;
  cf_retry : retry_armed s' = retry_armed s;
  cf_posted : posted s' = posted s ++ replicate (length (filter (fun c => negb (is_increment c)) cs)) TickTask }.

Lemma apply_calls_frame id hash cs (s : Manager) :
  calls_frame s (foldl (apply_call id hash) s cs) cs.
Proof.
  revert s. induction cs as [|c cs IH]; intros s; [by split; rewrite ?app_nil_r|]. cbn [foldl].
  destruct (IH (apply_call id hash s c)) as [E1 E2 E3 E4 E5 E6 E7].
  assert (calls_frame s (apply_call id hash s c) [c]) as [F1 F2 F3 F4 F5 F6 F7].
  { destruct c; split; try done; simpl; try (by rewrite app_nil_r);
      unfold do_HandleComplete; by case_bool_decide. }
  split; try congruence. rewrite E7, F7, <-app_assoc, <-replicate_add. f_equal. f_equal.
  by rewrite <-length_app, <-filter_app.
Qed.

Lemma apply_calls_enqueued id hash cs (s : Manager) :
  let s' := foldl (apply_call id hash) s cs in
  enqueued_to_start_hashings_ s'
    = (if existsb ends_hash_wait cs then enqueued_to_start_hashings_ s ∖ {[id]}
       else enqueued_to_start_hashings_ s)
  /\ enqueued_to_start_uploads_ s'
    = (if existsb ends_upload_wait cs then enqueued_to_start_uploads_ s ∖ {[id]}
       else enqueued_to_start_uploads_ s)
  /\ uploading_hashes_ s'
    = (if existsb is_complete cs && negb (bool_decide (hash = []))
       then uploading_hashes_ s ∖ {[hash]} else uploading_hashes_ s).
Proof.
  revert s. induction cs as [|c cs IH]; intros s; [done|]. cbn [foldl existsb].
  destruct (IH (apply_call id hash s c)) as (-> & -> & ->). clear IH.
  split; [|split].
  - destruct c; simpl; try done; try (by destruct (existsb _ _); rewrite ?difference_twice_L).
    unfold do_HandleComplete. case_bool_decide; simpl; by destruct (existsb _ _); rewrite ?difference_twice_L.
  - destruct c; simpl; try done; try (by destruct (existsb _ _); rewrite ?difference_twice_L).
    unfold do_HandleComplete. case_bool_decide; simpl; by destruct (existsb _ _); rewrite ?difference_twice_L.
  - destruct c; simpl; try done.
    unfold do_HandleComplete. case_bool_decide; simpl; by destruct (existsb _ _); rewrite ?difference_twice_L.
Qed.

(** The lists and the counts, given the phase of upload [id]; [oh] and [ou] are the other
    uploads' shares of the counts. *)
Record accounted (id : nat) (oh ou : Z) (p : phase) (s : Manager) : Prop := {
  ac_nodup_h : NoDup (to_hash_ s);
  ac_nodup_u : NoDup (to_upload_ s);
  ac_h : id ∈ to_hash_ s -> in_list p = InToHash;
  ac_u : id ∈ to_upload_ s -> in_list p = InToUpload;
  ac_hashings : current_hashings_ s = oh + one (bool_decide (counted p = CountHashing));
  ac_uploads : current_uploads_ s = ou + one (bool_decide (counted p = CountUploading)) }.

Lemma NoDup_snoc (id : nat) l : NoDup l -> id ∉ l -> NoDup (l ++ [id]).
Proof.
  intros Hl Hid. apply NoDup_app. split; [done|]. split; [|apply NoDup_singleton].
  by intros x Hx ->%list_elem_of_singleton.
Qed.

Lemma apply_call_accounted id oh ou hash c p p' s :
  0 <= oh < 2 ^ 31 -> 0 <= ou < 2 ^ 31 -> phase_step p c = Some p' ->
  accounted id oh ou p s -> accounted id oh ou p' (apply_call id hash s c).
Proof.
  intros Hoh Hou Hp [H1 H2 H3 H4 H5 H6]. unfold phase_step in Hp.
  destruct (completed p) eqn:Hcomp; [done|].
  destruct c, (in_list p) eqn:Hl, (counted p) eqn:Hc; simplify_eq; simpl in *;
    unfold do_HandleComplete; try case_bool_decide; split; simpl;
    try done; try (intros Hx; first [apply H3 in Hx|apply H4 in Hx]; congruence);
    try (apply NoDup_snoc; [done|]; by intros ?%H3 || by intros ?%H4);
    try (by apply NoDup_remove_first);
    try (by intros ?%elem_of_app); try (by rewrite H5); try (by rewrite H6);
    try (rewrite ?H5, ?H6, u32_small; lia);
    try (rewrite elem_of_app; intros [?|?]; auto; fail);
    try (intros Hin; exfalso; revert Hin; by apply NoDup_remove_first).
Qed.

Lemma apply_calls_accounted id oh ou hash cs p p' s :
  0 <= oh < 2 ^ 31 -> 0 <= ou < 2 ^ 31 -> phase_steps p cs = Some p' ->
  accounted id oh ou p s -> accounted id oh ou p' (foldl (apply_call id hash) s cs).
Proof.
  intros Hoh Hou. revert p s. induction cs as [|c cs IH]; intros p s; simpl; [by intros [= <-]|].
  destruct (phase_step p c) as [p1|] eqn:Hp; [|done]. intros Hps Ha.
  eapply IH; [exact Hps|]. by eapply apply_call_accounted.
Qed.

(** Other uploads stay where they are. *)
Lemma apply_calls_others id hash cs x (s : Manager) :
  x <> id ->
  let s' := foldl (apply_call id hash) s cs in
  (x ∈ to_hash_ s' <-> x ∈ to_hash_ s) /\ (x ∈ to_upload_ s' <-> x ∈ to_upload_ s).
Proof.
  intros Hx. revert s. induction cs as [|c cs IH]; intros s; [done|]. cbn [foldl].
  destruct (IH (apply_call id hash s c)) as [-> ->].
  assert (forall l, x ∈ l ++ [id] <-> x ∈ l) as Hsnoc.
  { intros l. rewrite elem_of_app, list_elem_of_singleton. intuition. }
  assert (forall l, x ∈ remove_first id l <-> x ∈ l) as Hrem.
  { intros l. split; [apply elem_of_remove_first|by apply remove_first_other]. }
  destruct c; simpl; rewrite ?Hsnoc, ?Hrem; try done. unfold do_HandleComplete. by case_bool_decide.
Qed.

(** ** The invariant *)

Definition counting (cs : CountState) (ms : list Upload) : Z :=
  Z.of_nat (length (filter (fun m => bool_decide (count_state_ m = cs)) ms)).

Lemma counting_cons cs m ms :
  counting cs (m :: ms) = one (bool_decide (count_state_ m = cs)) + counting cs ms.
Proof.
  unfold counting. rewrite filter_cons. case_bool_decide; [rewrite decide_True by done|rewrite decide_False by auto];
    simpl; lia.
Qed.

Lemma counting_insert cs ms id m m' :
  ms !! id = Some m ->
  counting cs (<[id := m']> ms)
  = counting cs ms - one (bool_decide (count_state_ m = cs)) + one (bool_decide (count_state_ m' = cs)).
Proof.
  revert id. induction ms as [|x ms IH]; intros [|id]; [done|done| |]; simpl; intros Hm; rewrite !counting_cons.
  - simplify_eq. lia.
  - rewrite (IH id Hm). lia.
Qed.

Lemma counting_snoc cs ms m : counting cs (ms ++ [m]) = counting cs ms + one (bool_decide (count_state_ m = cs)).
Proof.
  induction ms as [|x ms IH]; simpl; rewrite !counting_cons; [unfold counting; simpl; lia|]. rewrite IH. lia.
Qed.

Lemma counting_nonneg cs ms : 0 <= counting cs ms.
Proof. unfold counting. lia. Qed.

Lemma counting_member cs ms id m :
  ms !! id = Some m -> count_state_ m = cs -> 1 <= counting cs ms.
Proof.
  revert id. induction ms as [|x ms IH]; intros [|id] Hm Hc; try done; simpl in Hm; rewrite counting_cons.
  - simplify_eq. rewrite bool_decide_eq_true_2 by done. pose proof (counting_nonneg (count_state_ m) ms). simpl. lia.
  - specialize (IH id Hm Hc). unfold one. case_match; lia.
Qed.

(** Machine [id] is in state [s]. *)
Definition in_state (s : Manager) (id : nat) (st : ustate) : Prop :=
  exists m, machines s !! id = Some m /\ current m = st.

(** [running] is the task that was taken off the queue and is being run. *)
Definition scheduled (running : option task) (s : Manager) (t : task) : Prop :=
  t ∈ posted s \/ running = Some t.

Record core (running : option task) (s : Manager) : Prop := {
  co_reachable : forall id m, machines s !! id = Some m -> reachable m;
  co_hashings : current_hashings_ s = counting CountHashing (machines s);
  co_uploads : current_uploads_ s = counting CountUploading (machines s);
  co_max_hashings : current_hashings_ s + Z.of_nat (size (enqueued_to_start_hashings_ s)) <= max_concurrent;
  co_max_uploads : current_uploads_ s + Z.of_nat (size (enqueued_to_start_uploads_ s)) <= max_concurrent;
  co_nodup : NoDup (to_hash_ s) /\ NoDup (to_upload_ s);
  co_to_hash : forall id, id ∈ to_hash_ s ->
    in_state s id WaitForHashSignal /\ id ∉ enqueued_to_start_hashings_ s;
  co_to_upload : forall id, id ∈ to_upload_ s ->
    in_state s id WaitForUploadSignal /\ id ∉ enqueued_to_start_uploads_ s;
  co_enq_hash : forall id, id ∈ enqueued_to_start_hashings_ s ->
    in_state s id WaitForHashSignal /\ scheduled running s (StartHashTask id);
  co_enq_upload : forall id, id ∈ enqueued_to_start_uploads_ s ->
    in_state s id WaitForUploadSignal /\ exists token, scheduled running s (StartUploadTask id token);
  co_start_hash : forall id, scheduled running s (StartHashTask id) ->
    exists m, machines s !! id = Some m /\ (1 <= rank (current m))%nat
      /\ (current m = WaitForHashSignal -> id ∈ enqueued_to_start_hashings_ s);
  co_start_upload : forall id token, scheduled running s (StartUploadTask id token) ->
    exists m, machines s !! id = Some m /\ (4 <= rank (current m))%nat
      /\ (current m = WaitForUploadSignal -> id ∈ enqueued_to_start_uploads_ s);
  co_hashes : forall h, h ∈ uploading_hashes_ s -> h <> [] ->
    exists id m, machines s !! id = Some m /\ hash_ m = h /\ (4 <= rank (current m))%nat
      /\ (id ∈ enqueued_to_start_uploads_ s \/ state_count (current m) = CountUploading);
  co_token : (action_token_state_ s = TokenRetrieving -> (0 < token_calls s)%nat)
    /\ (action_token_state_ s = TokenError -> retry_armed s = true) }.

(** ** One input of one machine *)

Section Input.
Context (running : option task) (s : Manager) (id : nat) (m m' : Upload) (i : input) (cs : list manager_call).
Hypothesis Hs : core running s.
Hypothesis Hm : machines s !! id = Some m.
Hypothesis Hf : input_facts h0 h_update h_digest i m m' cs.
Hypothesis Hhash : i = DoStartHash <-> running = Some (StartHashTask id).
Hypothesis Hhash_id : forall x, running = Some (StartHashTask x) -> x = id.
Hypothesis Hupload : forall token, i = DoStartUpload token <-> running = Some (StartUploadTask id token).
Hypothesis Hupload_id : forall x token, running = Some (StartUploadTask x token) -> x = id.

Let s1 : Manager := with_machines (<[id := m']> (machines s)) s.
Let s' : Manager := foldl (apply_call id (hash_ m')) s1 cs.

Lemma input_frame : calls_frame s1 s' cs.
Proof. apply apply_calls_frame. Qed.

Lemma input_machines : machines s' = <[id := m']> (machines s).
Proof. apply (cf_machines _ _ _ input_frame). Qed.

Lemma input_lookup x : machines s' !! x = if decide (x = id) then Some m' else machines s !! x.
Proof.
  rewrite input_machines. case_decide as Hx.
  - subst. apply list_lookup_insert_eq. by eapply lookup_lt_Some.
  - by apply list_lookup_insert_ne.
Qed.

Lemma input_in_state_other x st : x <> id -> in_state s x st -> in_state s' x st.
Proof. intros Hx (y & Hy & Hst). exists y. by rewrite input_lookup, decide_False. Qed.

Lemma input_in_state_self st : current m' = st -> in_state s' id st.
Proof. intros Hst. exists m'. by rewrite input_lookup, decide_True. Qed.

Lemma in_state_self st : in_state s id st -> current m = st.
Proof. intros (y & Hy & Hst). congruence. Qed.

Lemma input_posted t : scheduled None s' t -> t <> TickTask -> t ∈ posted s.
Proof.
  intros [Ht|]; [|done]. intros Hne.
  rewrite (cf_posted _ _ _ input_frame) in Ht.
  apply elem_of_app in Ht as [?|Ht]; [done|]. by apply elem_of_replicate_inv in Ht.
Qed.

Lemma posted_input t : t ∈ posted s -> scheduled None s' t.
Proof.
  intros Ht. left. rewrite (cf_posted _ _ _ input_frame).
  apply elem_of_app. by left.
Qed.

Lemma input_enqueued :
  enqueued_to_start_hashings_ s'
    = (if existsb ends_hash_wait cs then enqueued_to_start_hashings_ s ∖ {[id]}
       else enqueued_to_start_hashings_ s)
  /\ enqueued_to_start_uploads_ s'
    = (if existsb ends_upload_wait cs then enqueued_to_start_uploads_ s ∖ {[id]}
       else enqueued_to_start_uploads_ s)
  /\ uploading_hashes_ s'
    = (if existsb is_complete cs && negb (bool_decide (hash_ m' = []))
       then uploading_hashes_ s ∖ {[hash_ m']} else uploading_hashes_ s).
Proof. apply (apply_calls_enqueued id (hash_ m') cs s1). Qed.

Lemma enqueued_hash_sub x : x ∈ enqueued_to_start_hashings_ s' -> x ∈ enqueued_to_start_hashings_ s.
Proof. destruct input_enqueued as (-> & _). case_match; [|done]. rewrite elem_of_difference. by intros []. Qed.

Lemma enqueued_upload_sub x : x ∈ enqueued_to_start_uploads_ s' -> x ∈ enqueued_to_start_uploads_ s.
Proof. destruct input_enqueued as (_ & -> & _). case_match; [|done]. rewrite elem_of_difference. by intros []. Qed.

Lemma enqueued_hash_other x :
  x <> id -> x ∈ enqueued_to_start_hashings_ s -> x ∈ enqueued_to_start_hashings_ s'.
Proof.
  intros Hx Hin. destruct input_enqueued as (-> & _). case_match; [|done].
  rewrite elem_of_difference, elem_of_singleton. by split.
Qed.

Lemma enqueued_upload_other x :
  x <> id -> x ∈ enqueued_to_start_uploads_ s -> x ∈ enqueued_to_start_uploads_ s'.
Proof.
  intros Hx Hin. destruct input_enqueued as (_ & -> & _). case_match; [|done].
  rewrite elem_of_difference, elem_of_singleton. by split.
Qed.

(** Increments come from starts. *)
Lemma increments_hash : IncrementHashingCount ∈ cs -> i = DoStartHash /\ current m = WaitForHashSignal.
Proof.
  destruct (if_start _ _ _ _ _ _ _ Hf) as (rest & -> & Hrest).
  intros [Hin|Hin]%elem_of_app; [|rewrite Forall_forall in Hrest; by apply Hrest in Hin].
  destruct i, (current m); simpl in Hin; try (by apply elem_of_nil in Hin); [done|].
  rewrite !elem_of_cons, elem_of_nil in Hin. intuition discriminate.
Qed.

Lemma increments_upload :
  IncrementUploadingCount ∈ cs -> (exists token, i = DoStartUpload token) /\ current m = WaitForUploadSignal.
Proof.
  destruct (if_start _ _ _ _ _ _ _ Hf) as (rest & -> & Hrest).
  intros [Hin|Hin]%elem_of_app; [|rewrite Forall_forall in Hrest; by apply Hrest in Hin].
  destruct i, (current m); simpl in Hin; try (by apply elem_of_nil in Hin); [|by eauto].
  rewrite !elem_of_cons, elem_of_nil in Hin. intuition discriminate.
Qed.

Lemma counted_phase (x : Upload) : counted (phase_of x) = count_state_ x.
Proof. done. Qed.

Lemma input_counts :
  accounted id (counting CountHashing (machines s) - one (bool_decide (count_state_ m = CountHashing)))
    (counting CountUploading (machines s) - one (bool_decide (count_state_ m = CountUploading)))
    (phase_of m') s'.
Proof.
  destruct Hs as [_ Hh Hu Hbh Hbu [Hn1 Hn2] Hth Htu _ _ _ _ _ _]. unfold max_concurrent in *.
  pose proof (counting_nonneg CountHashing (machines s)). pose proof (counting_nonneg CountUploading (machines s)).
  assert (forall cs, 0 <= counting cs (machines s) - one (bool_decide (count_state_ m = cs))) as Hpos.
  { intros c. case_bool_decide as Hc; [|simpl; pose proof (counting_nonneg c (machines s)); lia].
    pose proof (counting_member c _ _ _ Hm Hc). simpl. lia. }
  pose proof (Hpos CountHashing). pose proof (Hpos CountUploading).
  assert (forall b, 0 <= one b) as Hone by by intros [].
  pose proof (Hone (bool_decide (count_state_ m = CountHashing))).
  pose proof (Hone (bool_decide (count_state_ m = CountUploading))).
  eapply apply_calls_accounted; [lia|lia|by eapply if_phase|].
  split; simpl; rewrite ?Hh, ?Hu; try done; try lia.
  - intros [Hst%in_state_self _]%Hth. by rewrite Hst.
  - intros [Hst%in_state_self _]%Htu. by rewrite Hst.
Qed.

(** ** Uploads that wait for their start *)

Lemma existsb_elem (f : manager_call -> bool) c : c ∈ cs -> f c = true -> existsb f cs = true.
Proof.
  intros Hc Hfc. apply existsb_exists. exists c. split; [|done]. by apply list_elem_of_In.
Qed.

Lemma complete_ends_waits :
  existsb is_complete cs = true -> existsb ends_hash_wait cs = true /\ existsb ends_upload_wait cs = true.
Proof.
  intros (c & Hc%list_elem_of_In & Hcc)%existsb_exists. apply bool_decide_eq_true in Hcc as ->.
  split; by apply (existsb_elem _ HandleComplete).
Qed.

(** The upload still waits for its start, or its wait has ended. *)
Lemma still_waits_hash :
  current m = WaitForHashSignal -> existsb ends_hash_wait cs = false -> current m' = WaitForHashSignal.
Proof.
  intros Hc He. destruct Hf as [_ _ Hp _ Hr _ _ Hcount Hcount'].
  pose proof (phase_steps_completed _ _ _ Hp) as Hcomp. simpl in Hcomp. rewrite Hc in Hcomp, Hr, Hcount.
  assert (existsb is_complete cs = false) as Hno.
  { apply not_true_is_false. intros [Hx _]%complete_ends_waits. congruence. }
  rewrite Hno in Hcomp. specialize (Hcomp eq_refl).
  destruct (phase_steps_counted _ _ _ Hp) as [H1 H2]. rewrite !counted_phase, Hcount, Hcount' in *.
  destruct (current m') eqn:Hc'; simpl in *; try done; try lia; exfalso;
    first [destruct (H1 eq_refl) as [|Hin]|destruct (H2 eq_refl) as [|Hin]]; try done;
    first [by rewrite (existsb_elem ends_hash_wait IncrementHashingCount Hin eq_refl) in He
          |apply increments_upload in Hin as [_ Hin]; congruence].
Qed.

Lemma still_waits_upload :
  current m = WaitForUploadSignal -> existsb ends_upload_wait cs = false -> current m' = WaitForUploadSignal.
Proof.
  intros Hc He. destruct Hf as [_ _ Hp _ Hr _ _ Hcount Hcount'].
  pose proof (phase_steps_completed _ _ _ Hp) as Hcomp. simpl in Hcomp. rewrite Hc in Hcomp, Hr, Hcount.
  assert (existsb is_complete cs = false) as Hno.
  { apply not_true_is_false. intros [_ Hx]%complete_ends_waits. congruence. }
  rewrite Hno in Hcomp. specialize (Hcomp eq_refl).
  destruct (phase_steps_counted _ _ _ Hp) as [H1 H2]. rewrite !counted_phase, Hcount, Hcount' in *.
  destruct (current m') eqn:Hc'; simpl in *; try done; try lia; exfalso;
    destruct (H2 eq_refl) as [|Hin]; try done;
    by rewrite (existsb_elem ends_upload_wait IncrementUploadingCount Hin eq_refl) in He.
Qed.

Lemma enqueued_hash_self :
  id ∈ enqueued_to_start_hashings_ s' ->
  existsb ends_hash_wait cs = false /\ id ∈ enqueued_to_start_hashings_ s.
Proof.
  destruct input_enqueued as (-> & _). case_match; [|done]. rewrite elem_of_difference.
  intros [_ Hx]. by rewrite elem_of_singleton in Hx.
Qed.

Lemma enqueued_upload_self :
  id ∈ enqueued_to_start_uploads_ s' ->
  existsb ends_upload_wait cs = false /\ id ∈ enqueued_to_start_uploads_ s.
Proof.
  destruct input_enqueued as (_ & -> & _). case_match; [|done]. rewrite elem_of_difference.
  intros [_ Hx]. by rewrite elem_of_singleton in Hx.
Qed.

Lemma start_hash_ends :
  i = DoStartHash -> current m = WaitForHashSignal -> existsb ends_hash_wait cs = true.
Proof.
  intros Hi Hc. destruct (if_start _ _ _ _ _ _ _ Hf) as (rest & -> & _). by rewrite Hi, Hc.
Qed.

Lemma start_upload_ends token :
  i = DoStartUpload token -> current m = WaitForUploadSignal -> existsb ends_upload_wait cs = true.
Proof.
  intros Hi Hc. destruct (if_start _ _ _ _ _ _ _ Hf) as (rest & -> & _). by rewrite Hi, Hc.
Qed.

Lemma stays_same :
  current m = WaitForHashSignal \/ current m = WaitForUploadSignal -> current m' = current m ->
  cs = [] /\ s' = s1.
Proof. intros Hw Hc. pose proof (if_stays _ _ _ _ _ _ _ Hf Hw Hc) as Hnil. unfold s'. by rewrite Hnil. Qed.

Lemma input_enq_hash x :
  x ∈ enqueued_to_start_hashings_ s' ->
  in_state s' x WaitForHashSignal /\ scheduled None s' (StartHashTask x).
Proof.
  intros Hx. destruct (co_enq_hash _ _ Hs x (enqueued_hash_sub x Hx)) as [Hst Hsch].
  destruct (decide (x = id)) as [->|Hne].
  - apply enqueued_hash_self in Hx as [He _]. apply in_state_self in Hst as Hc.
    split; [by apply input_in_state_self, still_waits_hash|].
    destruct Hsch as [Ht|Ht]; [by apply posted_input|].
    apply Hhash in Ht. rewrite (start_hash_ends Ht Hc) in He. done.
  - split; [by apply input_in_state_other|].
    destruct Hsch as [Ht|Ht]; [by apply posted_input|]. by apply Hhash_id in Ht.
Qed.

Lemma input_enq_upload x :
  x ∈ enqueued_to_start_uploads_ s' ->
  in_state s' x WaitForUploadSignal /\ exists token, scheduled None s' (StartUploadTask x token).
Proof.
  intros Hx. destruct (co_enq_upload _ _ Hs x (enqueued_upload_sub x Hx)) as (Hst & token & Hsch).
  destruct (decide (x = id)) as [->|Hne].
  - apply enqueued_upload_self in Hx as [He _]. apply in_state_self in Hst as Hc.
    split; [by apply input_in_state_self, still_waits_upload|]. exists token.
    destruct Hsch as [Ht|Ht]; [by apply posted_input|].
    apply Hupload in Ht. rewrite (start_upload_ends token Ht Hc) in He. done.
  - split; [by apply input_in_state_other|]. exists token.
    destruct Hsch as [Ht|Ht]; [by apply posted_input|]. by apply Hupload_id in Ht.
Qed.

Lemma input_start_hash x :
  scheduled None s' (StartHashTask x) ->
  exists y, machines s' !! x = Some y /\ (1 <= rank (current y))%nat
    /\ (current y = WaitForHashSignal -> x ∈ enqueued_to_start_hashings_ s').
Proof.
  intros Ht. apply input_posted in Ht; [|done].
  destruct (co_start_hash _ _ Hs x (or_introl Ht)) as (y & Hy & Hr & Hw).
  rewrite input_lookup. case_decide as Hx.
  - subst x. simplify_eq. exists m'. pose proof (if_rank _ _ _ _ _ _ _ Hf) as Hrank.
    split; [done|]. split; [lia|]. intros Hc'.
    assert (current m = WaitForHashSignal) as Hc.
    { rewrite Hc' in Hrank. simpl in Hrank. destruct (current m); simpl in *; try done; lia. }
    destruct stays_same as [_ ->]; [by left|congruence|]. by apply Hw.
  - exists y. split; [done|]. split; [done|]. intros Hc. by apply enqueued_hash_other, Hw.
Qed.

Lemma input_start_upload x token :
  scheduled None s' (StartUploadTask x token) ->
  exists y, machines s' !! x = Some y /\ (4 <= rank (current y))%nat
    /\ (current y = WaitForUploadSignal -> x ∈ enqueued_to_start_uploads_ s').
Proof.
  intros Ht. apply input_posted in Ht; [|done].
  destruct (co_start_upload _ _ Hs x token (or_introl Ht)) as (y & Hy & Hr & Hw).
  rewrite input_lookup. case_decide as Hx.
  - subst x. simplify_eq. exists m'. pose proof (if_rank _ _ _ _ _ _ _ Hf) as Hrank.
    split; [done|]. split; [lia|]. intros Hc'.
    assert (current m = WaitForUploadSignal) as Hc.
    { rewrite Hc' in Hrank. simpl in Hrank. destruct (current m); simpl in *; try done; lia. }
    destruct stays_same as [_ ->]; [by right|congruence|]. by apply Hw.
  - exists y. split; [done|]. split; [done|]. intros Hc. by apply enqueued_upload_other, Hw.
Qed.

Lemma input_current_hashings :
  current_hashings_ s' = counting CountHashing (machines s')
  /\ current_uploads_ s' = counting CountUploading (machines s').
Proof.
  destruct input_counts as [_ _ _ _ E1 E2]. rewrite counted_phase in *.
  by rewrite E1, E2, input_machines, !(counting_insert _ _ _ _ _ Hm).
Qed.

Lemma size_without (X : gset nat) x : x ∈ X -> Z.of_nat (size (X ∖ {[x]})) = Z.of_nat (size X) - 1.
Proof.
  intros Hx. rewrite size_difference by (by apply singleton_subseteq_l). rewrite size_singleton.
  assert (size X <> 0%nat); [|lia]. intros H0%size_empty_inv. by apply (H0 x) in Hx.
Qed.

(** An increment takes the upload off the set of those that were about to be counted. *)
Lemma input_max_hashings :
  current_hashings_ s' + Z.of_nat (size (enqueued_to_start_hashings_ s')) <= max_concurrent.
Proof.
  pose proof (co_max_hashings _ _ Hs) as Hb. rewrite (co_hashings _ _ Hs) in Hb.
  rewrite (proj1 input_current_hashings), input_machines, (counting_insert _ _ _ _ _ Hm).
  destruct (decide (IncrementHashingCount ∈ cs)) as [Hin|Hin].
  - destruct (increments_hash Hin) as [Hi Hc].
    destruct (co_start_hash _ _ Hs id) as (y & Hy & _ & Hw); [right; by apply Hhash|].
    rewrite Hm in Hy. injection Hy as <-. specialize (Hw Hc).
    destruct input_enqueued as (-> & _). rewrite (start_hash_ends Hi Hc), size_without by done.
    rewrite (if_count _ _ _ _ _ _ _ Hf), Hc. simpl. unfold one. case_match; lia.
  - assert (bool_decide (count_state_ m' = CountHashing) = true ->
      bool_decide (count_state_ m = CountHashing) = true) as Hmono.
    { rewrite !bool_decide_eq_true. intros Hc.
      by destruct (proj1 (phase_steps_counted _ _ _ (if_phase _ _ _ _ _ _ _ Hf)) Hc). }
    assert (size (enqueued_to_start_hashings_ s') <= size (enqueued_to_start_hashings_ s))%nat as Hsize
      by (apply subseteq_size; intros x; apply enqueued_hash_sub).
    destruct (bool_decide (count_state_ m' = CountHashing)); [rewrite Hmono by done|destruct (bool_decide _)]; simpl; lia.
Qed.

Lemma input_max_uploads :
  current_uploads_ s' + Z.of_nat (size (enqueued_to_start_uploads_ s')) <= max_concurrent.
Proof.
  pose proof (co_max_uploads _ _ Hs) as Hb. rewrite (co_uploads _ _ Hs) in Hb.
  rewrite (proj2 input_current_hashings), input_machines, (counting_insert _ _ _ _ _ Hm).
  destruct (decide (IncrementUploadingCount ∈ cs)) as [Hin|Hin].
  - destruct (increments_upload Hin) as [[token Hi] Hc].
    destruct (co_start_upload _ _ Hs id token) as (y & Hy & _ & Hw); [right; by apply Hupload|].
    rewrite Hm in Hy. injection Hy as <-. specialize (Hw Hc).
    destruct input_enqueued as (_ & -> & _). rewrite (start_upload_ends token Hi Hc), size_without by done.
    rewrite (if_count _ _ _ _ _ _ _ Hf), Hc. simpl. unfold one. case_match; lia.
  - assert (bool_decide (count_state_ m' = CountUploading) = true ->
      bool_decide (count_state_ m = CountUploading) = true) as Hmono.
    { rewrite !bool_decide_eq_true. intros Hc.
      by destruct (proj2 (phase_steps_counted _ _ _ (if_phase _ _ _ _ _ _ _ Hf)) Hc). }
    assert (size (enqueued_to_start_uploads_ s') <= size (enqueued_to_start_uploads_ s))%nat as Hsize
      by (apply subseteq_size; intros x; apply enqueued_upload_sub).
    destruct (bool_decide (count_state_ m' = CountUploading)); [rewrite Hmono by done|destruct (bool_decide _)]; simpl; lia.
Qed.

Lemma state_list_hash st : state_list st = InToHash -> st = WaitForHashSignal.
Proof. by destruct st. Qed.

Lemma state_list_upload st : state_list st = InToUpload -> st = WaitForUploadSignal.
Proof. by destruct st. Qed.

Lemma input_to_hash x :
  x ∈ to_hash_ s' -> in_state s' x WaitForHashSignal /\ x ∉ enqueued_to_start_hashings_ s'.
Proof.
  intros Hx. destruct (decide (x = id)) as [->|Hne].
  - pose proof (ac_h _ _ _ _ _ input_counts Hx) as Hc'%state_list_hash.
    split; [by apply input_in_state_self|]. intros Hin.
    apply enqueued_hash_sub in Hin. destruct (co_enq_hash _ _ Hs id Hin) as [Hst%in_state_self _].
    destruct stays_same as [_ E]; [by left|congruence|]. rewrite E in Hx. by apply (co_to_hash _ _ Hs) in Hx as [_ []].
  - apply (apply_calls_others id (hash_ m') cs x s1 Hne) in Hx.
    destruct (co_to_hash _ _ Hs x Hx) as [Hst Hno]. split; [by apply input_in_state_other|].
    by intros ?%enqueued_hash_sub.
Qed.

Lemma input_to_upload x :
  x ∈ to_upload_ s' -> in_state s' x WaitForUploadSignal /\ x ∉ enqueued_to_start_uploads_ s'.
Proof.
  intros Hx. destruct (decide (x = id)) as [->|Hne].
  - pose proof (ac_u _ _ _ _ _ input_counts Hx) as Hc'%state_list_upload.
    split; [by apply input_in_state_self|]. intros Hin.
    apply enqueued_upload_sub in Hin. destruct (co_enq_upload _ _ Hs id Hin) as [Hst%in_state_self _].
    destruct stays_same as [_ E]; [by right|congruence|]. rewrite E in Hx. by apply (co_to_upload _ _ Hs) in Hx as [_ []].
  - apply (apply_calls_others id (hash_ m') cs x s1 Hne) in Hx.
    destruct (co_to_upload _ _ Hs x Hx) as [Hst Hno]. split; [by apply input_in_state_other|].
    by intros ?%enqueued_upload_sub.
Qed.

(** A hash stays reserved as long as its upload goes on. *)
Lemma input_hashes h :
  h ∈ uploading_hashes_ s' -> h <> [] ->
  exists x y, machines s' !! x = Some y /\ hash_ y = h /\ (4 <= rank (current y))%nat
    /\ (x ∈ enqueued_to_start_uploads_ s' \/ state_count (current y) = CountUploading).
Proof.
  intros Hh Hne.
  assert (h ∈ uploading_hashes_ s) as Hh0.
  { revert Hh. destruct input_enqueued as (_ & _ & ->). case_match; [|done]. rewrite elem_of_difference. by intros []. }
  destruct (co_hashes _ _ Hs h Hh0 Hne) as (x & y & Hy & Hhy & Hr & Hor).
  exists x. setoid_rewrite input_lookup. case_decide as Hx.
  2:{ exists y. split; [done|]. split; [done|]. split; [done|]. destruct Hor as [Hin|]; [|by right].
      left. by apply enqueued_upload_other. }
  subst x. rewrite Hm in Hy. injection Hy as <-. exists m'.
  pose proof (if_rank _ _ _ _ _ _ _ Hf) as Hrank. pose proof (if_hash _ _ _ _ _ _ _ Hf Hr) as Eh.
  split; [done|]. split; [congruence|]. split; [lia|].
  assert (existsb is_complete cs = false) as Hno.
  { apply not_true_is_false. intros Hc. revert Hh. destruct input_enqueued as (_ & _ & ->).
    rewrite Hc, bool_decide_eq_false_2 by congruence. simpl. rewrite elem_of_difference, elem_of_singleton.
    intros [_ []]. congruence. }
  pose proof (phase_steps_completed _ _ _ (if_phase _ _ _ _ _ _ _ Hf)) as Hcomp. rewrite Hno in Hcomp.
  destruct Hor as [Hin|Hup].
  - destruct (co_enq_upload _ _ Hs id Hin) as [Hst%in_state_self _]. simpl in Hcomp. rewrite Hst in Hcomp, Hrank.
    specialize (Hcomp eq_refl).
    destruct (existsb ends_upload_wait cs) eqn:He.
    + right. apply existsb_exists in He as (c & Hc%list_elem_of_In & Hec).
      destruct (decide (c = HandleComplete)) as [->|]; [by rewrite (existsb_elem is_complete HandleComplete Hc eq_refl) in Hno|].
      destruct c; try done. apply increments_upload in Hc as Hi. destruct Hi as [[token Hi] _].
      destruct (decide (current m' = WaitForUploadSignal)) as [E|].
      * destruct stays_same as [Hnil _]; [by right|congruence|]. rewrite Hnil in Hc. by apply elem_of_nil in Hc.
      * destruct (current m'); simpl in *; try done; lia.
    + left. destruct input_enqueued as (_ & -> & _). by rewrite He.
  - right. assert (is_terminal (current m) = false) as Ht by by destruct (current m).
    specialize (Hcomp Ht). simpl in Hcomp.
    assert (5 <= rank (current m))%nat by (destruct (current m); simpl in *; try done; lia).
    destruct (current m'); simpl in *; try done; lia.
Qed.

Lemma input_core : core None s'.
Proof.
  split.
  - intros x y. rewrite input_lookup. case_decide; [|apply (co_reachable _ _ Hs)]. intros [= <-]. by eapply if_reachable.
  - apply input_current_hashings.
  - apply input_current_hashings.
  - apply input_max_hashings.
  - apply input_max_uploads.
  - destruct input_counts. by split.
  - apply input_to_hash.
  - apply input_to_upload.
  - apply input_enq_hash.
  - apply input_enq_upload.
  - apply input_start_hash.
  - apply input_start_upload.
  - apply input_hashes.
  - rewrite (cf_state _ _ _ input_frame), (cf_token_calls _ _ _ input_frame), (cf_retry _ _ _ input_frame).
    apply (co_token _ _ Hs).
Qed.
End Input.

(** ** Ticks *)

Lemma size_with (X : gset nat) x : (size ({[x]} ∪ X) <= S (size X))%nat.
Proof.
  rewrite size_union_alt, size_singleton. simpl. apply le_n_S, subseteq_size.
  intros y. rewrite elem_of_difference. by intros [].
Qed.

Lemma scheduled_post t t' s : scheduled None (post t s) t' <-> scheduled None s t' \/ t' = t.
Proof.
  unfold scheduled. simpl. rewrite elem_of_app, list_elem_of_singleton.
  split; [intros [[|]|]|intros [[|]|]]; auto; discriminate.
Qed.

(** The front of the queue is posted. *)
Lemma enqueue_hash_core request queue s :
  core None (with_to_hash_ (request :: queue) s) ->
  current_hashings_ s + Z.of_nat (size (enqueued_to_start_hashings_ s)) < max_concurrent ->
  core None (with_to_hash_ queue (post (StartHashTask request)
    (with_enqueued_to_start_hashings_ ({[request]} ∪ enqueued_to_start_hashings_ s) s))).
Proof.
  intros [H1 H2 H3 H4 H5 [Hn H6] H7 H8 H9 H10 H11 H12 H13 H14] Hlt. simpl in *.
  apply NoDup_cons in Hn as [Hr Hn].
  destruct (H7 request) as [Hst Hno]; [by constructor|].
  pose proof (size_with (enqueued_to_start_hashings_ s) request).
  split; simpl; try done; try lia.
  - intros id Hid. destruct (H7 id) as [Hst' Hno']; [by constructor|]. split; [done|].
    rewrite elem_of_union, elem_of_singleton. intros [->|]; done.
  - intros id. rewrite elem_of_union, elem_of_singleton. intros [->|Hid].
    + split; [done|]. apply scheduled_post. by right.
    + destruct (H9 id Hid). split; [done|]. apply scheduled_post. by left.
  - intros id Hid. destruct (H10 id Hid) as (? & token & ?). split; [done|]. exists token.
    apply scheduled_post. by left.
  - intros id [Hid|E]%scheduled_post.
    + destruct (H11 id Hid) as (y & ? & ? & Hw). exists y. split; [done|]. split; [done|]. intros Hc.
      apply elem_of_union. right. auto.
    + injection E as ->. destruct Hst as (y & Hy & Hc). exists y. rewrite Hc. split; [done|].
      split; [simpl; lia|]. intros _. apply elem_of_union. left. by apply elem_of_singleton.
  - intros id token [Hid|E]%scheduled_post; [|done]. by apply (H12 id token).
Qed.

(** What a run of [Tick_StartHashings] does not touch. *)
Record same_uploads (s s' : Manager) : Prop := {
  su_machines : machines s' = machines s;
  su_to_upload : to_upload_ s' = to_upload_ s;
  su_enqueued : enqueued_to_start_uploads_ s' = enqueued_to_start_uploads_ s;
  su_hashes : uploading_hashes_ s' = uploading_hashes_ s;
  su_count : current_uploads_ s' = current_uploads_ s;
  su_state : action_token_state_ s' = action_token_state_ s }.

Lemma start_hashings_core queue s :
  core None (with_to_hash_ queue s) ->
  let s' := start_hashings queue s in
  core None s' /\ same_uploads s s'
  /\ (to_hash_ s' <> [] ->
      max_concurrent <= current_hashings_ s' + Z.of_nat (size (enqueued_to_start_hashings_ s'))).
Proof.
  revert s. induction queue as [|request queue IH]; intros s Hc; cbn [start_hashings];
    [split; [exact Hc|]; split; [by split|intros []; done]|].
  case_match eqn:Hlt.
  - apply Z.ltb_lt in Hlt. destruct (IH _ (enqueue_hash_core request queue s Hc Hlt)) as (H1 & [] & H3).
    split; [exact H1|]. split; [by split|exact H3].
  - apply Z.ltb_ge in Hlt. split; [exact Hc|]. split; [by split|done].
Qed.

Lemma start_hashings_posted queue (s : Manager) t : t ∈ posted s -> t ∈ posted (start_hashings queue s).
Proof.
  revert s. induction queue as [|request queue IH]; intros s Ht; cbn [start_hashings]; [done|].
  case_match; [|done]. apply IH. simpl. apply elem_of_app. by left.
Qed.

Lemma hash_of_machine (s : Manager) id m : machines s !! id = Some m -> hash_of id s = hash_ m.
Proof. intros Hm. unfold hash_of. by rewrite Hm. Qed.

(** A request is taken off the list and posted. *)
Lemma enqueue_upload_core request s :
  core None s -> request ∈ to_upload_ s ->
  current_uploads_ s + Z.of_nat (size (enqueued_to_start_uploads_ s)) < max_concurrent ->
  core None (post (StartUploadTask request (action_token_ s))
    (with_enqueued_to_start_uploads_ ({[request]} ∪ enqueued_to_start_uploads_ s)
      (with_uploading_hashes_ ({[hash_of request s]} ∪ uploading_hashes_ s)
        (with_to_upload_ (remove_first request (to_upload_ s)) s)))).
Proof.
  intros [H1 H2 H3 H4 H5 [H6 Hn] H7 H8 H9 H10 H11 H12 H13 H14] Hin Hlt.
  destruct (H8 request Hin) as [Hst Hno]. destruct (NoDup_remove_first request _ Hn) as [Hn' Hrem].
  pose proof (size_with (enqueued_to_start_uploads_ s) request).
  split; simpl; try done; try lia.
  - intros id Hid. pose proof (elem_of_remove_first _ _ _ Hid) as Hid'. destruct (H8 id Hid') as [Hst' Hno'].
    split; [done|]. rewrite elem_of_union, elem_of_singleton. intros [->|]; done.
  - intros id Hid. destruct (H9 id Hid). split; [done|]. apply scheduled_post. by left.
  - intros id. rewrite elem_of_union, elem_of_singleton. intros [->|Hid].
    + split; [done|]. exists (action_token_ s). apply scheduled_post. by right.
    + destruct (H10 id Hid) as (? & token & ?). split; [done|]. exists token. apply scheduled_post. by left.
  - intros id [Hid|E]%scheduled_post; [|done]. by apply (H11 id).
  - intros id token [Hid|E]%scheduled_post.
    + destruct (H12 id token Hid) as (y & ? & ? & Hw). exists y. split; [done|]. split; [done|]. intros Hc.
      apply elem_of_union. right. auto.
    + injection E as -> ->. destruct Hst as (y & Hy & Hc). exists y. rewrite Hc. split; [done|].
      split; [simpl; lia|]. intros _. apply elem_of_union. left. by apply elem_of_singleton.
  - intros h. rewrite elem_of_union, elem_of_singleton. intros [->|Hh] Hne.
    + destruct Hst as (y & Hy & Hc). exists request, y. rewrite (hash_of_machine _ _ _ Hy), Hc.
      split; [done|]. split; [done|]. split; [simpl; lia|]. left. apply elem_of_union. left. by apply elem_of_singleton.
    + destruct (H13 h Hh Hne) as (x & y & ? & ? & ? & Hor). exists x, y. do 3 (split; [done|]).
      destruct Hor as [|]; [left; apply elem_of_union; by right|by right].
Qed.

(** ** Nothing is forgotten *)

(** Why the queues are not empty.  [scheduled running s TickTask]: a tick will look at them. *)
Definition hash_live (running : option task) (s : Manager) : Prop :=
  to_hash_ s <> [] ->
  scheduled running s TickTask
  \/ max_concurrent <= current_hashings_ s + Z.of_nat (size (enqueued_to_start_hashings_ s)).

Definition upload_live (running : option task) (s : Manager) : Prop :=
  to_upload_ s <> [] ->
  scheduled running s TickTask
  \/ (exists id, id ∈ enqueued_to_start_uploads_ s)
  \/ action_token_state_ s = TokenError \/ action_token_state_ s = TokenRetrieving
  \/ max_concurrent <= current_uploads_ s + Z.of_nat (size (enqueued_to_start_uploads_ s))
  \/ forall id, id ∈ to_upload_ s -> hash_of id s ∈ uploading_hashes_ s.

Lemma Tick_StartUploads_core now s :
  core None s -> core None (Tick_StartUploads now s) /\ upload_live None (Tick_StartUploads now s).
Proof.
  intros Hc. unfold Tick_StartUploads, upload_live.
  destruct (to_upload_ s) as [|r0 l0] eqn:Hq; [by rewrite Hq|]. rewrite <-Hq.
  case_match; [case_match eqn:He|].
  - split; [done|]. apply andb_true_iff in He as [He%bool_decide_eq_true _]. auto 6.
  - split; [|simpl; auto 6]. destruct Hc as [H1 H2 H3 H4 H5 H6 H7 H8 H9 H10 H11 H12 H13 H14].
    split; try done. simpl. split; [lia|done].
  - destruct (CanUploadMore s) eqn:Hmore.
    + apply Z.ltb_lt in Hmore. destruct (List.find (startable s) (to_upload_ s)) as [request|] eqn:Hfind.
      * apply List.find_some in Hfind as [Hin%list_elem_of_In _].
        split; [exact (enqueue_upload_core request s Hc Hin Hmore)|]. intros _. right; left. exists request. simpl.
        apply elem_of_union. left. by apply elem_of_singleton.
      * split; [done|]. intros _. do 5 right. intros id Hid%list_elem_of_In.
        pose proof (List.find_none _ _ Hfind id Hid) as Hs. unfold startable in Hs.
        apply bool_decide_eq_false in Hs. by apply dec_stable.
    + apply Z.ltb_ge in Hmore. split; [done|]. auto 8.
Qed.

Lemma Tick_core now s :
  core None s ->
  core None (Tick now s) /\ hash_live None (Tick now s) /\ upload_live None (Tick now s).
Proof.
  intros [Hc Hl]%(Tick_StartUploads_core now). unfold Tick, Tick_StartHashings.
  set (s1 := Tick_StartUploads now s) in *.
  assert (core None (with_to_hash_ (to_hash_ s1) s1)) as Hc1 by by destruct Hc.
  destruct (start_hashings_core (to_hash_ s1) s1 Hc1) as (H1 & [E1 E2 E3 E4 E5 E6] & H3).
  split; [exact H1|]. split; [intros Hne; right; by apply H3|].
  unfold upload_live, hash_of in *. rewrite E1, E2, E3, E4, E5, E6. intros Hne.
  destruct (Hl Hne) as [[Ht|]|Hrest]; [|done|by right].
  left. left. by apply start_hashings_posted.
Qed.

(** ** Every input keeps the invariant *)

Record inv (running : option task) (s : Manager) : Prop := {
  inv_core : core running s;
  inv_hash : hash_live running s;
  inv_upload : upload_live running s }.

(** An input whose calls are all increments makes no call. *)
Lemma calls_tick i m m' cs :
  input_facts h0 h_update h_digest i m m' cs ->
  cs = [] \/ filter (fun c => negb (is_increment c)) cs <> [].
Proof.
  intros Hf. destruct (if_start _ _ _ _ _ _ _ Hf) as (rest & -> & Hrest).
  destruct (start_calls i (current m)) as [|c l] eqn:Hstart.
  - simpl. destruct rest as [|c rest]; [by left|right]. inversion_clear Hrest as [|? ? Hc].
    by rewrite filter_cons_True by (by rewrite Hc).
  - right. destruct i, (current m); simpl in Hstart; try done; injection Hstart as <- <-; done.
Qed.

Lemma machine_input_inv env id i running s s' :
  inv running s -> running <> Some TickTask -> possible i = true ->
  (i = DoStartHash <-> running = Some (StartHashTask id)) ->
  (forall x, running = Some (StartHashTask x) -> x = id) ->
  (forall token, i = DoStartUpload token <-> running = Some (StartUploadTask id token)) ->
  (forall x token, running = Some (StartUploadTask x token) -> x = id) ->
  machine_input h0 h_update h_digest env id i s = Some s' -> inv None s'.
Proof.
  intros [Hc Hlh Hlu] Hrun Hpos R1 R2 R3 R4 Hi. unfold machine_input in Hi.
  destruct (machines s !! id) as [m|] eqn:Hm; [|done].
  destruct (UploadMachine.upload_input h0 h_update h_digest env i m) as [m'|] eqn:Hinput; [|done].
  pose proof (input_facts_intro _ _ _ env i m m' (co_reachable _ _ Hc id m Hm) Hpos Hinput) as Hf.
  set (cs := drop (length (calls m)) (calls m')) in *.
  pose proof (input_core running s id m m' i cs Hc Hm Hf R1 R2 R3 R4) as Hcore.
  pose proof (apply_calls_frame id (hash_ m') cs (with_machines (<[id:=m']> (machines s)) s)) as Hframe.
  injection Hi as Hi. rewrite Hi in Hcore, Hframe.
  destruct (calls_tick i m m' cs Hf) as [Hnil|Hticks].
  - rewrite Hnil in Hi. simpl in Hi. subst s'. split; [done| |].
    + intros Hne. destruct (Hlh Hne) as [[Ht|Ht]|]; [left; by left|done|by right].
    + intros Hne. destruct (Hlu Hne) as [[Ht|Ht]|[|[|[|[|Hall]]]]]; [left; by left|done|auto 6..|].
      do 5 right. intros x Hx. specialize (Hall x Hx). unfold hash_of in *. simpl.
      destruct (decide (x = id)) as [->|Hne'].
      * rewrite Hm in Hall. rewrite list_lookup_insert_eq by (by eapply lookup_lt_Some).
        rewrite (if_hash _ _ _ _ _ _ _ Hf); [done|].
        destruct (co_to_upload _ _ Hc id Hx) as [(y & Hy & Hst) _]. rewrite Hm in Hy. injection Hy as <-.
        rewrite Hst. simpl. lia.
      * by rewrite list_lookup_insert_ne.
  - assert (scheduled None s' TickTask) as Htick.
    { left. rewrite (cf_posted _ _ _ Hframe). apply elem_of_app. right.
      destruct (filter _ cs) as [|c l]; [done|]. by constructor. }
    by split; [|intros _; left|intros _; left].
Qed.

Lemma Tick_inv now s : core None s -> inv None (Tick now s).
Proof. intros Hc. destruct (Tick_core now s Hc) as (? & ? & ?). by split. Qed.

(** The fields that [core] does not read. *)
Lemma core_post running t s :
  core running s ->
  (forall id, t <> StartHashTask id) -> (forall id token, t <> StartUploadTask id token) ->
  core running (post t s).
Proof.
  intros [H1 H2 H3 H4 H5 H6 H7 H8 H9 H10 H11 H12 H13 H14] Ht1 Ht2.
  assert (forall t', scheduled running s t' -> scheduled running (post t s) t') as Hmono.
  { intros t' [|]; [left; apply elem_of_app; by left|by right]. }
  assert (forall t', scheduled running (post t s) t' -> scheduled running s t' \/ t' = t) as Hback.
  { intros t' [Hin|]; [|left; by right]. apply elem_of_app in Hin as [|Hin%list_elem_of_singleton]; [left; by left|by right]. }
  split; try done.
  - intros id Hid. destruct (H9 id Hid). auto.
  - intros id Hid. destruct (H10 id Hid) as (? & token & ?). eauto.
  - intros id [Hid|E]%Hback; [by apply H11|]. by destruct (Ht1 id).
  - intros id token [Hid|E]%Hback; [by apply (H12 id token)|]. by destruct (Ht2 id token).
Qed.

Lemma ModifyUpload_inv handle ec s : inv None s -> inv None (ModifyUpload handle ec s).
Proof.
  intros Hinv. unfold ModifyUpload. case_bool_decide; [|done]. destruct Hinv as [Hc Hh Hu].
  assert (forall t', scheduled None s t' -> scheduled None (post (ErrorTask handle ec) s) t') as Hmono.
  { intros t' [|]; [left; apply elem_of_app; by left|done]. }
  split; [by apply core_post|..].
  - intros Hne. destruct (Hh Hne); auto.
  - intros Hne. destruct (Hu Hne) as [|Hrest]; auto.
Qed.

(** A new machine. *)
Lemma core_add s name action :
  core None s ->
  core None (with_requests_ ({[length (machines s)]} ∪ requests_ s)
    (with_machines (machines s ++ [NewUpload name action]) s)).
Proof.
  intros [H1 H2 H3 H4 H5 H6 H7 H8 H9 H10 H11 H12 H13 H14].
  assert (forall id st, in_state s id st ->
    in_state (with_requests_ ({[length (machines s)]} ∪ requests_ s)
      (with_machines (machines s ++ [NewUpload name action]) s)) id st) as Hst.
  { intros id st (y & Hy & Hc). exists y. split; [by apply lookup_app_l_Some|done]. }
  split; try done.
  - intros id m. simpl. intros [Hm|[_ Hm]]%lookup_app_Some; [by eapply H1|].
    destruct (id - length (machines s))%nat; [|done]. injection Hm as <-. constructor.
  - simpl. rewrite counting_snoc, H2. simpl. lia.
  - simpl. rewrite counting_snoc, H3. simpl. lia.
  - intros id Hid. destruct (H7 id Hid). auto.
  - intros id Hid. destruct (H8 id Hid). auto.
  - intros id Hid. destruct (H9 id Hid). auto.
  - intros id Hid. destruct (H10 id Hid) as (? & token & ?). eauto.
  - intros id Hid. destruct (H11 id Hid) as (y & Hy & ?). exists y. split; [by apply lookup_app_l_Some|done].
  - intros id token Hid. destruct (H12 id token Hid) as (y & Hy & ?). exists y. split; [by apply lookup_app_l_Some|done].
  - intros h Hh Hne. destruct (H13 h Hh Hne) as (x & y & Hy & ?). exists x, y. split; [by apply lookup_app_l_Some|done].
Qed.
End Proofs.
