(* ===== verification/UploadManagerTheorems.v ===== *)
(** * The upload manager keeps its promises

    What holds in every state that the inputs of [UploadManager.manager_input] lead to. *)
From S2P Require Import Prelude Errors Stepping HashReader UploadMachine UploadProofs UploadTheorems UploadCalls UploadManager UploadManagerProofs.

Open Scope Z_scope.

Lemma filter_ext_Forall {A} (f g : A -> bool) l :
  Forall (fun x => f x = g x) l -> filter (fun x => f x) l = filter (fun x => g x) l.
Proof.
  induction 1 as [|x l Hx _ IH]; [done|]. rewrite !filter_cons, IH, Hx. done.
Qed.

Section Theorems.
Context {H : Type} (h0 : H) (h_update : H -> str -> H) (h_digest : H -> str).

#[local] Abbreviation Manager := (UploadManager.Manager (H := H)).
#[local] Abbreviation manager_input := (UploadManager.manager_input h0 h_update h_digest).
#[local] Abbreviation core := (UploadManagerProofs.core h0 h_update h_digest).
#[local] Abbreviation inv := (UploadManagerProofs.inv h0 h_update h_digest).

Lemma in_delete {A} (l : list A) n t t' : l !! n = Some t -> t' ∈ l -> t' ∈ delete n l \/ t' = t.
Proof.
  intros Hn Hin. apply list_elem_of_lookup in Hin as [k Hk].
  destruct (decide (k = n)) as [->|Hne]; [right; congruence|left].
  apply list_elem_of_lookup. destruct (decide (k < n)%nat).
  - exists k. by rewrite list_lookup_delete_lt.
  - exists (k - 1)%nat. rewrite list_lookup_delete_ge by lia. by replace (S (k - 1))%nat with k by lia.
Qed.

Lemma delete_in {A} (l : list A) n t' : t' ∈ delete n l -> t' ∈ l.
Proof.
  intros Hin. apply list_elem_of_lookup in Hin as [k Hk]. apply list_elem_of_lookup.
  destruct (decide (k < n)%nat).
  - exists k. by rewrite list_lookup_delete_lt in Hk.
  - exists (S k). by rewrite list_lookup_delete_ge in Hk by lia.
Qed.

(** A posted task is taken off the queue. *)
Lemma take_task n t s : inv None s -> posted s !! n = Some t -> inv (Some t) (with_posted (delete n (posted s)) s).
Proof.
  intros [Hc Hh Hu] Hn. set (s0 := with_posted (delete n (posted s)) s).
  assert (forall t', scheduled None s t' -> scheduled (Some t) s0 t') as Hto.
  { intros t' [Hin|]; [|done]. destruct (in_delete _ n t t' Hn Hin) as [|]; [by left|right; by f_equal]. }
  assert (forall t', scheduled (Some t) s0 t' -> scheduled None s t') as Hfrom.
  { intros t' [Hin|[= <-]]; left; [exact (delete_in _ _ _ Hin)|by eapply list_elem_of_lookup_2]. }
  split.
  - destruct Hc as [H1 H2 H3 H4 H5 H6 H7 H8 H9 H10 H11 H12 H13 H14]. split; try done.
    + intros id Hid. destruct (H9 id Hid). auto.
    + intros id Hid. destruct (H10 id Hid) as (? & token & ?). eauto.
    + intros id Hid. by apply H11, Hfrom.
    + intros id token Hid. by apply (H12 id token), Hfrom.
  - intros Hne. destruct (Hh Hne); auto.
  - intros Hne. destruct (Hu Hne); auto.
Qed.

Lemma core_tick s : core (Some TickTask) s -> core None s.
Proof.
  intros [H1 H2 H3 H4 H5 H6 H7 H8 H9 H10 H11 H12 H13 H14].
  assert (forall t, t <> TickTask -> scheduled (Some TickTask) s t -> scheduled None s t) as Hto
    by (intros t Ht [|[= <-]]; [by left|done]).
  split; try done.
  - intros id Hid. destruct (H9 id Hid). auto.
  - intros id Hid. destruct (H10 id Hid) as (? & token & ?). split; [done|]. exists token. auto.
  - intros id [Hid|]; [|done]. apply H11. by left.
  - intros id token [Hid|]; [|done]. apply (H12 id token). by left.
Qed.

Lemma run_task_inv env now t s s' :
  inv (Some t) s -> run_task h0 h_update h_digest env now t s = Some s' -> inv None s'.
Proof.
  intros Hinv Hr. destruct t as [|id|id token|id ec]; simpl in Hr.
  - injection Hr as <-. apply Tick_inv, core_tick. by destruct Hinv.
  - eapply (machine_input_inv _ _ _ env id DoStartHash); try done; naive_solver.
  - eapply (machine_input_inv _ _ _ env id (DoStartUpload token)); try done; naive_solver.
  - eapply (machine_input_inv _ _ _ env id (DoModify ec)); try done; naive_solver.
Qed.

Lemma core_ext s s' :
  core None s -> to_hash_ s' = to_hash_ s -> to_upload_ s' = to_upload_ s ->
  uploading_hashes_ s' = uploading_hashes_ s ->
  enqueued_to_start_hashings_ s' = enqueued_to_start_hashings_ s ->
  enqueued_to_start_uploads_ s' = enqueued_to_start_uploads_ s ->
  current_hashings_ s' = current_hashings_ s -> current_uploads_ s' = current_uploads_ s ->
  machines s' = machines s -> posted s' = posted s ->
  (action_token_state_ s' = TokenRetrieving -> (0 < token_calls s')%nat) ->
  (action_token_state_ s' = TokenError -> retry_armed s' = true) -> core None s'.
Proof.
  intros [H1 H2 H3 H4 H5 H6 H7 H8 H9 H10 H11 H12 H13 H14] E1 E2 E3 E4 E5 E6 E7 E8 E9 E10 E11.
  split; unfold in_state, scheduled in *; rewrite ?E1, ?E2, ?E3, ?E4, ?E5, ?E6, ?E7, ?E8, ?E9; auto.
Qed.

Lemma HandleActionToken_inv now r n s :
  inv None s -> token_calls s = S n -> inv None (HandleActionToken now r (with_token_calls n s)).
Proof.
  intros [Hc Hh Hu] Hn. unfold HandleActionToken. case_match.
  - split.
    + by eapply core_ext.
    + exact Hh.
    + intros Hne. right; right; by left.
  - apply Tick_inv. by eapply core_ext.
Qed.

Lemma ActionTokenRetry_inv now s :
  inv None s -> inv None (ActionTokenRetry now false (with_retry_armed false s)).
Proof.
  intros [Hc Hh Hu]. unfold ActionTokenRetry. simpl. case_bool_decide as Hst.
  - apply Tick_inv. by eapply core_ext.
  - split; [|exact Hh|exact Hu]. eapply core_ext; try done. by destruct (co_token _ _ _ _ _ Hc).
Qed.

Lemma add_inv name action s :
  inv None s ->
  inv None (with_requests_ ({[length (machines s)]} ∪ requests_ s)
    (with_machines (machines s ++ [NewUpload name action]) s)).
Proof.
  intros [Hc Hh Hu]. split; [by apply core_add|exact Hh|]. intros Hne.
  destruct (Hu Hne) as [|[|[|[|[|Hall]]]]]; [by left|by auto 6..|]. do 5 right. intros id Hid.
  specialize (Hall id Hid). unfold hash_of in *. simpl.
  destruct (co_to_upload _ _ _ _ _ Hc id Hid) as [(y & Hy & _) _].
  by rewrite (lookup_app_l_Some _ _ _ _ Hy), Hy in *.
Qed.

(** The machine inputs that no posted task stands for. *)
Lemma machine_input_plain env id i s s' :
  inv None s -> possible i = true -> i <> DoStartHash -> (forall token, i <> DoStartUpload token) ->
  machine_input h0 h_update h_digest env id i s = Some s' -> inv None s'.
Proof. intros Hinv Hp H1 H2. apply (machine_input_inv _ _ _ env id i None); naive_solver. Qed.

Lemma manager_input_inv env now e s s' :
  inv None s -> manager_input env now e s = Some s' -> inv None s'.
Proof.
  intros Hinv Hi. destruct e as [name action|handle ec|n|id n a|r|]; simpl in Hi.
  - unfold Add in Hi. destruct (machine_input _ _ _ _ _ _ _) as [s1|] eqn:Hm; [|done]. injection Hi as <-.
    apply Tick_inv. apply machine_input_plain in Hm; [by destruct Hm|exact (add_inv name action s Hinv)|done..].
  - injection Hi as <-. by apply ModifyUpload_inv.
  - destruct (posted s !! n) as [t|] eqn:Ht; [|done]. eapply run_task_inv, Hi. by apply take_task.
  - destruct (is_cancelled a) eqn:Ha; [done|]. apply machine_input_plain in Hi; try done.
    simpl. destruct a as [| | | | |[]]; done.
  - destruct (token_calls s) as [|n] eqn:Hn; [done|]. injection Hi as <-. by apply HandleActionToken_inv.
  - destruct (retry_armed s); [|done]. injection Hi as <-. by apply ActionTokenRetry_inv.
Qed.

(** ** Reachable states *)

Inductive manager_reachable : Manager -> Prop :=
  | manager_new : manager_reachable NewManager
  | manager_step env now e s s' :
      manager_reachable s -> manager_input env now e s = Some s' -> manager_reachable s'.

Lemma new_inv : inv None NewManager.
Proof.
  split; [|intros []; done|intros []; done]. split; try done; simpl;
    try (rewrite size_empty; unfold max_concurrent; lia); try (by split; constructor);
    try (by intros id ?%elem_of_nil); try (by intros id ?%not_elem_of_empty).
  - intros id [?%elem_of_nil|]; done.
  - intros id token [?%elem_of_nil|]; done.
Qed.

Lemma manager_reachable_inv s : manager_reachable s -> inv None s.
Proof. induction 1 as [|env now e s s' _ IH Hi]; [apply new_inv|]. by eapply manager_input_inv. Qed.

(** Machines in the states of a count. *)
Definition in_count (cs : CountState) (s : Manager) : Z :=
  Z.of_nat (length (filter (fun m => bool_decide (state_count (current m) = cs)) (machines s))).

Lemma counting_in_count cs s : core None s -> counting cs (machines s) = in_count cs s.
Proof.
  intros Hc. unfold counting, in_count. do 2 f_equal. apply filter_ext_Forall.
  apply Forall_lookup. intros i m Hm. apply (co_reachable _ _ _ _ _ Hc) in Hm.
  destruct (upload_reachable_inv _ _ _ m Hm) as (_ & _ & _ & [-> _]). done.
Qed.

Lemma in_count_member cs s : 1 <= in_count cs s -> exists id m, machines s !! id = Some m /\ state_count (current m) = cs.
Proof.
  unfold in_count. intros Hl.
  destruct (filter (fun m => bool_decide (state_count (current m) = cs)) (machines s)) as [|m l] eqn:Hf; [simpl in Hl; lia|].
  assert (m ∈ filter (fun m => bool_decide (state_count (current m) = cs)) (machines s)) as Hin
    by (rewrite Hf; by constructor).
  apply list_elem_of_filter in Hin as [Hst%bool_decide_unpack Hin].
  apply list_elem_of_lookup in Hin as [id Hid]. by exists id, m.
Qed.

(** C8 At most two files are hashed and at most two are uploaded at any time, those that
    are about to start included; the counters never wrap and are the numbers of machines
    in the states they count. *)
Theorem at_most_two_at_once s :
  manager_reachable s ->
  current_hashings_ s = in_count CountHashing s
  /\ current_uploads_ s = in_count CountUploading s
  /\ in_count CountHashing s + Z.of_nat (size (enqueued_to_start_hashings_ s)) <= 2
  /\ in_count CountUploading s + Z.of_nat (size (enqueued_to_start_uploads_ s)) <= 2.
Proof.
  intros [Hc _ _]%manager_reachable_inv. rewrite <-!counting_in_count by done.
  pose proof (co_max_hashings _ _ _ _ _ Hc). pose proof (co_max_uploads _ _ _ _ _ Hc).
  rewrite <-(co_hashings _ _ _ _ _ Hc), <-(co_uploads _ _ _ _ _ Hc). done.
Qed.

Lemma no_posted_enqueued s :
  core None s -> posted s = [] ->
  enqueued_to_start_hashings_ s = ∅ /\ enqueued_to_start_uploads_ s = ∅.
Proof.
  intros Hc Hp. split; apply leibniz_equiv, elem_of_equiv_empty; intros id Hid.
  - destruct (co_enq_hash _ _ _ _ _ Hc id Hid) as [_ [Ht|]]; [|done]. rewrite Hp in Ht. by apply elem_of_nil in Ht.
  - destruct (co_enq_upload _ _ _ _ _ Hc id Hid) as (_ & token & [Ht|]); [|done]. rewrite Hp in Ht. by apply elem_of_nil in Ht.
Qed.

Lemma busy_operation s id m :
  core None s -> machines s !! id = Some m -> state_count (current m) = CountUploading ->
  exists op, pending m = [op].
Proof.
  intros Hc Hm Hst. apply (co_reachable _ _ _ _ _ Hc) in Hm.
  destruct (upload_reachable_inv _ _ _ m Hm) as (Hq & Hinv & _).
  destruct (busy_pending m Hinv Hq) as (op & Hop & _); [by destruct (current m)|by exists op].
Qed.

(** C7 The queues are not forgotten.  When nothing is posted any more: files wait to be
    hashed only because two already count as hashing; uploads wait only for an upload
    token, for the retry after a failed one, or for an upload that has an operation under
    way. *)
Theorem manager_never_stalls s :
  manager_reachable s -> posted s = [] ->
  (to_hash_ s <> [] -> in_count CountHashing s = 2)
  /\ (to_upload_ s <> [] -> (forall id, id ∈ to_upload_ s -> hash_of id s <> []) ->
      (0 < token_calls s)%nat \/ retry_armed s = true
      \/ exists id m op, machines s !! id = Some m /\ state_count (current m) = CountUploading
           /\ pending m = [op]).
Proof.
  intros [Hc Hh Hu]%manager_reachable_inv Hp.
  destruct (no_posted_enqueued s Hc Hp) as [E1 E2].
  pose proof (co_max_hashings _ _ _ _ _ Hc) as Hb1. pose proof (co_max_uploads _ _ _ _ _ Hc) as Hb2.
  rewrite (co_hashings _ _ _ _ _ Hc), counting_in_count, E1, size_empty in Hb1 by done.
  rewrite (co_uploads _ _ _ _ _ Hc), counting_in_count, E2, size_empty in Hb2 by done.
  unfold hash_live, upload_live in *.
  rewrite (co_hashings _ _ _ _ _ Hc), counting_in_count, E1, size_empty in Hh by done.
  rewrite (co_uploads _ _ _ _ _ Hc), counting_in_count, E2, size_empty in Hu by done.
  unfold scheduled in *. rewrite Hp in Hh, Hu. unfold max_concurrent in *.
  split.
  - intros Hne. destruct (Hh Hne) as [[?%elem_of_nil|]|]; [done|done|lia].
  - intros Hne Hhash. destruct (co_token _ _ _ _ _ Hc) as [Ht1 Ht2].
    assert (forall id m, machines s !! id = Some m -> state_count (current m) = CountUploading ->
      exists id m op, machines s !! id = Some m /\ state_count (current m) = CountUploading /\ pending m = [op])
      as Hbusy.
    { intros id m Hm Hst. destruct (busy_operation s id m Hc Hm Hst) as [op Hop]. by exists id, m, op. }
    destruct (Hu Hne) as [[?%elem_of_nil|]|[[id ?%not_elem_of_empty]|[|[|[|Hall]]]]]; try done; auto.
    + right; right. destruct (in_count_member CountUploading s) as (id & m & Hm & Hst); [lia|]. by eapply Hbusy.
    + destruct (to_upload_ s) as [|id l] eqn:Hq; [done|]. right; right.
      destruct (co_hashes _ _ _ _ _ Hc (hash_of id s)) as (x & m & Hm & _ & _ & [Hin|Hst]).
      * apply Hall. by constructor.
      * apply Hhash. by constructor.
      * rewrite E2 in Hin. by apply not_elem_of_empty in Hin.
      * by eapply Hbusy.
Qed.

(** A tick that finds no valid token asks for one even when a request for one is under
    way: every tick of the wait adds a request. *)
Theorem tick_asks_again now (s : Manager) :
  action_token_state_ s = TokenRetrieving -> to_upload_ s <> [] ->
  token_calls (Tick_StartUploads now s) = S (token_calls s).
Proof.
  intros Hst Hne. unfold Tick_StartUploads. rewrite Hst. by destruct (to_upload_ s).
Qed.

(** ** Runs *)

Fixpoint manager_run (env : Env) (now : Z) (l : list manager_event) (s : Manager) : option Manager :=
  match l with
  | [] => Some s
  | e :: l => match manager_input env now e s with Some s => manager_run env now l s | None => None end
  end.

Lemma manager_run_reachable env now l s s' :
  manager_reachable s -> manager_run env now l s = Some s' -> manager_reachable s'.
Proof.
  revert s. induction l as [|e l IH]; intros s Hr; simpl; [by intros [= <-]|].
  destruct (manager_input env now e s) as [s1|] eqn:Hi; [|done]. by apply IH, (manager_step env now e s).
Qed.
End Theorems.

(** ** Three files with the same contents *)

Import Example_.

#[local] Abbreviation ex_run := (manager_run tt (fun _ _ => tt) digest env 1).
#[local] Abbreviation ex_manager_reachable := (manager_reachable tt (fun _ _ => tt) digest).

Module Managers.

Definition add : manager_event := UserAdd (B "a.txt") Fail_.
Definition token_response : manager_event :=
  TokenResponse {| tok_error_code := no_error; tok_action_token := B "token" |}.

Definition state_after (l : list manager_event) : Manager := default NewManager (ex_run l NewManager).

(** All are added, two are hashed, the ticks ask for a token. *)
Definition hashed_inputs : list manager_event := [add; add; add] ++ replicate 9 (RunTask 0).

(** The token comes, the first is started and the third is hashed. *)
Definition started_inputs : list manager_event := hashed_inputs ++ [token_response] ++ replicate 6 (RunTask 0).

(** The second, which waits for the first to end, is cancelled. *)
Definition cancelled_inputs : list manager_event :=
  started_inputs ++ [UserModify 1 (upload_error UploadCancelled)] ++ replicate 7 (RunTask 0).

Definition hashed : Manager := state_after hashed_inputs.
Definition started : Manager := state_after started_inputs.
Definition cancelled : Manager := state_after cancelled_inputs.

Lemma state_after_reachable l : is_Some (ex_run l NewManager) -> ex_manager_reachable (state_after l).
Proof.
  intros [s Hs]. unfold state_after. rewrite Hs. eapply manager_run_reachable, Hs. constructor.
Qed.

Lemma hashed_manager_reachable : ex_manager_reachable hashed.
Proof. apply state_after_reachable. vm_compute. by eexists. Qed.

Lemma started_manager_reachable : ex_manager_reachable started.
Proof. apply state_after_reachable. vm_compute. by eexists. Qed.

Lemma cancelled_manager_reachable : ex_manager_reachable cancelled.
Proof. apply state_after_reachable. vm_compute. by eexists. Qed.

End Managers.

Lemma at_most_two_at_once_witness :
  current_hashings_ Managers.started = in_count CountHashing Managers.started
  /\ current_uploads_ Managers.started = in_count CountUploading Managers.started
  /\ in_count CountHashing Managers.started
     + Z.of_nat (size (enqueued_to_start_hashings_ Managers.started)) <= 2
  /\ in_count CountUploading Managers.started
     + Z.of_nat (size (enqueued_to_start_uploads_ Managers.started)) <= 2.
Proof.
  exact (at_most_two_at_once tt (fun _ _ => tt) digest Managers.started Managers.started_manager_reachable).
Defined.

Lemma manager_never_stalls_witness :
  posted Managers.started = [] /\ to_upload_ Managers.started = [1; 2]%nat
  /\ ((0 < token_calls Managers.started)%nat \/ retry_armed Managers.started = true
      \/ exists id m op, machines Managers.started !! id = Some m
           /\ state_count (current m) = CountUploading /\ pending m = [op]).
Proof.
  assert (posted Managers.started = []) as Hp by (vm_compute; reflexivity).
  assert (to_upload_ Managers.started = [1; 2]%nat) as Hq by (vm_compute; reflexivity).
  split; [exact Hp|]. split; [exact Hq|].
  apply (manager_never_stalls tt (fun _ _ => tt) digest Managers.started Managers.started_manager_reachable Hp).
  - rewrite Hq. discriminate.
  - rewrite Hq. intros id [->|[->|Hx%elem_of_nil]%elem_of_cons]%elem_of_cons;
      [vm_compute; discriminate|vm_compute; discriminate|destruct Hx].
Defined.

Lemma tick_asks_again_witness :
  token_calls Managers.hashed = 6%nat /\ token_calls (Tick_StartUploads 1 Managers.hashed) = 7%nat.
Proof.
  assert (token_calls Managers.hashed = 6%nat) as Hn by (vm_compute; reflexivity).
  split; [exact Hn|]. rewrite <-Hn.
  apply (tick_asks_again 1 Managers.hashed); vm_compute; [reflexivity|discriminate].
Defined.

(** Cancelling an upload that waits because its contents are being uploaded releases
    the hash of the upload that goes on: two uploads of the same contents then run at the
    same time. *)
Theorem cancelled_duplicate_frees_hash :
  exists s i j mi mj,
    manager_run tt (fun _ _ => tt) digest env 1 Managers.cancelled_inputs NewManager = Some s /\ i <> j
    /\ machines s !! i = Some mi /\ machines s !! j = Some mj
    /\ current mi = InUploadCheck /\ current mj = InUploadCheck /\ hash_ mi = hash_ mj.
Proof.
  exists Managers.cancelled, 0%nat, 2%nat. do 2 eexists. split; [vm_compute; reflexivity|].
  split; [discriminate|]. split; [vm_compute; reflexivity|]. split; [vm_compute; reflexivity|].
  split; [reflexivity|]. split; reflexivity.
Qed.
