(* ===== verification/UploadShutdown.v ===== *)
(** * The end of the upload manager ([uploader/detail/upload_manager_impl.cpp])

    The destructor disconnects the machines of the uploads that have not ended and sends each
    of them an error.  It runs when nothing holds the manager any more: a posted tick or start
    of a machine, a request for a token and the wait of the retry timer do. *)
From S2P Require Import Prelude Errors Stepping HashReader UploadMachine UploadProofs UploadTheorems UploadCalls UploadManager UploadManagerProofs UploadManagerTheorems.

Open Scope Z_scope.

Section Shutdown.
Context {H : Type} (h0 : H) (h_update : H -> str -> H) (h_digest : H -> str).
#[local] Abbreviation Upload := (UploadMachine.Upload (H := H)).
#[local] Abbreviation Manager := (UploadManager.Manager (H := H)).
#[local] Abbreviation upload_input := (UploadMachine.upload_input h0 h_update h_digest).
#[local] Abbreviation process_one := (UploadMachine.process_one h0 h_update h_digest).
#[local] Abbreviation process_messages := (UploadMachine.process_messages h0 h_update h_digest).
#[local] Abbreviation process_event := (UploadMachine.process_event h0 h_update h_digest).
#[local] Abbreviation manager_reachable := (UploadManagerTheorems.manager_reachable h0 h_update h_digest).

(** [uploader/detail/upload_state_machine.hpp:543-546 Disconnect] *)
Definition Disconnect (m : Upload) : Upload := set_connected false m.

(** Whether a task holds the manager.
    [uploader/detail/upload_manager_impl.cpp:171-210 EnqueueTick] *)
Definition holds_manager (t : task) : bool :=
  match t with ErrorTask _ _ => false | _ => true end.

Definition held (s : Manager) : bool :=
  existsb holds_manager (posted s) || (0 <? token_calls s)%nat || retry_armed s.

(** The machines in the order of the set of their pointers.
    [uploader/detail/upload_manager_impl.cpp:66-73 UploadManagerImpl] *)
Fixpoint cancel_all (env : nat -> Env) (requests : list nat) (machines : list Upload) :
    option (list Upload) :=
  match requests with
  | [] => Some machines
  | request :: requests =>
      match machines !! request with
      | Some m =>
          m' ← process_event (env request) (Error (upload_error UploadCancelled)) (Disconnect m);
          cancel_all env requests (<[request := m']> machines)
      | None => cancel_all env requests machines
      end
  end.

(** What is left: the machines.  [None]: the manager is held, or a machine ran out of fuel.
    [uploader/detail/upload_manager_impl.cpp:54-74 UploadManagerImpl] *)
Definition Destroy (env : nat -> Env) (requests : list nat) (s : Manager) : option (list Upload) :=
  if held s then None else cancel_all env requests (machines s).

(** ** A disconnected machine calls nobody *)

Definition uncalled (m m' : Upload) : Prop :=
  connected m = false -> connected m' = false /\ calls m' = calls m.

#[local] Instance uncalled_refl : Reflexive uncalled.
Proof. done. Qed.
#[local] Instance uncalled_trans : Transitive uncalled.
Proof. unfold uncalled. intros a b c Hab Hbc Ha. destruct (Hab Ha) as [Hb <-]. by apply Hbc. Qed.

Lemma silent_uncalled m m' : silent m m' -> uncalled m m'.
Proof. intros (_ & Hc & Hl & _) Hm. by rewrite Hc, Hl. Qed.

Lemma callback_uncalled c m : uncalled m (callback c m).
Proof. unfold callback. intros Hm. by rewrite Hm. Qed.

Lemma SetCountState_uncalled cs m : uncalled m (SetCountState cs m).
Proof.
  unfold SetCountState. etrans; [|by apply silent_uncalled].
  destruct (count_state_ m), cs; simpl; repeat (etrans; [|apply callback_uncalled]); done.
Qed.

Lemma on_exit_uncalled env s m : uncalled m (on_exit env s m).
Proof.
  destruct s; try done; try apply callback_uncalled. simpl. unfold Initial_on_exit. by repeat case_match.
Qed.

Lemma on_entry_uncalled t e m : uncalled m (UploadMachine.on_entry h0 t e m).
Proof.
  destruct t, e; try done; cbn [UploadMachine.on_entry];
    try (unfold SetupHasher_on_entry; case_match;
         apply (SetCountState_uncalled CountHashing m));
    try apply callback_uncalled;
    try (etrans; [|apply callback_uncalled]; apply SetCountState_uncalled).
  - apply (SetCountState_uncalled CountUploading (set_action_token_ upload_action_token m)).
  - apply silent_uncalled. etrans; [|apply SetChunkState_silent]. by case_bool_decide.
Qed.

Lemma process_one_uncalled env e m : uncalled m (process_one env e m).
Proof.
  unfold UploadMachine.process_one. destruct (is_terminal (current m)); [done|].
  destruct (UploadMachine.transition_table _ _ _ _ _ _ _) as [[t f]|] eqn:Hr; [|done].
  etrans; [apply (on_exit_uncalled env (current m))|].
  etrans; [apply silent_uncalled, (row_silent _ _ _ _ _ _ _ _ _ _ Hr)|].
  apply (on_entry_uncalled t e (set_current t _)).
Qed.

Lemma process_messages_uncalled env fuel m m' :
  process_messages fuel env m = Some m' -> uncalled m m'.
Proof.
  revert m. induction fuel as [|fuel IH]; intros m; simpl; destruct (messages m) as [|e q];
    intros Hp; simplify_eq; [done|done|].
  etrans; [|by eapply IH]. apply (process_one_uncalled env e (set_messages q m)).
Qed.

(** Whatever happens to a disconnected machine. *)
Lemma upload_input_uncalled env i m m' :
  messages m = [] -> upload_input env i m = Some m' -> uncalled m m'.
Proof.
  intros Hm Hi. destruct (upload_input_shape _ _ _ env i m m' Hm Hi) as (m1 & Hs & _ & [[fuel Hp]|[-> _]]).
  - etrans; [by apply silent_uncalled|]. by eapply process_messages_uncalled.
  - by apply silent_uncalled.
Qed.

(** ** Every upload that has not ended is cancelled *)

(** What the destructor makes of a machine. *)
Definition shut_down (m m' : Upload) : Prop :=
  connected m' = false /\ calls m' = calls m /\ messages m' = [] /\
  match current m with
  | SetupHasher_ | Hashing | CompleteWithSuccess | CompleteWithError =>
      current m' = current m /\ pending m' = pending m /\ statuses m' = statuses m
  | _ => current m' = CompleteWithError /\
      exists hash, statuses m' = statuses m ++ [ErrorStatus (upload_error UploadCancelled) hash]
  end.

Lemma cancel_one env m : messages m = [] ->
  exists m', process_event env (Error (upload_error UploadCancelled)) (Disconnect m) = Some m' /\
    shut_down m m'.
Proof.
  intros Hm. destruct (process_event_total h0 h_update h_digest env
    (Error (upload_error UploadCancelled)) (Disconnect m) Hm) as (m' & Hp & _).
  exists m'. split; [exact Hp|].
  destruct (process_messages_uncalled env _ _ _ Hp ltac:(done)) as [Hc Hl]. split; [done|].
  split; [done|]. split; [exact (process_messages_empty _ _ _ _ _ _ _ Hp)|].
  exact (error_input _ _ _ env _ (Disconnect m) m' Hm Hp).
Qed.

Lemma cancel_all_spec env requests ms :
  NoDup requests -> Forall (fun m => messages m = []) ms ->
  exists ms', cancel_all env requests ms = Some ms' /\ length ms' = length ms /\
    forall id m, ms !! id = Some m -> exists m', ms' !! id = Some m' /\
      if decide (id ∈ requests) then shut_down m m' else m' = m.
Proof.
  intros Hnd. revert ms. induction Hnd as [|request requests Hr _ IH]; intros ms Hms; cbn [cancel_all].
  { exists ms. split; [done|]. split; [done|]. intros id m Hm. exists m.
    by rewrite decide_False by apply not_elem_of_nil. }
  destruct (ms !! request) as [m|] eqn:Hm.
  - destruct (cancel_one (env request) m) as (m' & -> & Hs); [exact (Forall_lookup_1 _ _ _ _ Hms Hm)|].
    cbn [mbind option_bind]. destruct (IH (<[request := m']> ms)) as (ms' & Hc & Hl & Hall).
    { apply Forall_insert; [done|]. by destruct Hs as (_ & _ & ? & _). }
    exists ms'. split; [exact Hc|]. rewrite length_insert in Hl. split; [done|]. intros id x Hx.
    destruct (decide (id = request)) as [->|Hne].
    + destruct (Hall request m') as (y & Hy & Hd); [apply list_lookup_insert_eq; by eapply lookup_lt_Some|].
      rewrite decide_False in Hd by done. exists y. rewrite decide_True by by left.
      by simplify_eq.
    + destruct (Hall id x) as (y & Hy & Hd); [by rewrite list_lookup_insert_ne|].
      exists y. split; [done|]. destruct (decide (id ∈ requests)).
      * by rewrite decide_True by by right.
      * rewrite decide_False; [done|]. by intros [?|?]%elem_of_cons.
  - destruct (IH ms Hms) as (ms' & Hc & Hl & Hall). exists ms'. split; [done|]. split; [done|].
    intros id x Hx. destruct (Hall id x Hx) as (y & Hy & Hd). exists y. split; [done|].
    assert (id <> request) by congruence. destruct (decide (id ∈ requests)).
    + by rewrite decide_True by by right.
    + rewrite decide_False; [done|]. by intros [?|?]%elem_of_cons.
Qed.

(** When nothing holds the manager, its destructor ends with every machine disconnected that had
    not told it of its end: an upload that waits, is checked, is sent or is polled ends
    with the error that it was cancelled, and one that has ended stays as it is.  An upload whose file
    is being hashed stays as it is too: the error is lost there.  Nobody is called. *)
Theorem destroyed_manager_cancels env requests (s : Manager) :
  manager_reachable s -> held s = false -> requests ≡ₚ elements (requests_ s) ->
  exists ms, Destroy env requests s = Some ms /\ length ms = length (machines s) /\
    forall id m, machines s !! id = Some m -> exists m', ms !! id = Some m' /\
      if decide (id ∈ requests_ s) then shut_down m m' else m' = m.
Proof.
  intros [Hc _ _]%manager_reachable_inv Hh Hp. unfold Destroy. rewrite Hh.
  destruct (cancel_all_spec env requests (machines s)) as (ms & Hd & Hl & Hall).
  - rewrite Hp. apply NoDup_elements.
  - apply Forall_lookup. intros id m Hm.
    apply (co_reachable _ _ _ _ _ Hc) in Hm. by destruct (upload_reachable_inv _ _ _ m Hm).
  - exists ms. split; [done|]. split; [done|]. intros id m Hm.
    destruct (Hall id m Hm) as (m' & Hm' & Hs). exists m'. split; [done|].
    assert (id ∈ requests <-> id ∈ requests_ s) as Hiff by by rewrite Hp, elem_of_elements.
    destruct (decide (id ∈ requests)), (decide (id ∈ requests_ s)); naive_solver.
Qed.
End Shutdown.

(** ** A file is being hashed when the manager goes *)

Import Example_.
Import Managers.

(** The first read gives a byte. *)
Definition reading : Env :=
  {| env_stat := stat; env_open := no_error; env_seek := no_error;
     env_read := (B "x", no_error); env_stat_after := stat; env_random := 0 |}.

Definition hashing : Manager :=
  default NewManager
    (manager_run tt (fun _ _ => tt) digest reading 1 (add :: replicate 3 (RunTask 0)) NewManager).

Lemma hashing_reachable : UploadManagerTheorems.manager_reachable tt (fun _ _ => tt) digest hashing.
Proof.
  unfold hashing. destruct (manager_run _ _ _ _ _ _ _) as [s|] eqn:Hs; [|by vm_compute in Hs].
  eapply manager_run_reachable, Hs. constructor.
Qed.

(** The same when an upload that waits for its file to be hashed is left. *)
Lemma destroyed_manager_cancels_witness :
  exists m m', machines hashing = [m] /\
    Destroy tt (fun _ _ => tt) digest (fun _ => reading) [0%nat] hashing = Some [m'] /\ shut_down m m'.
Proof.
  destruct (destroyed_manager_cancels tt (fun _ _ => tt) digest (fun _ => reading) [0%nat] hashing)
    as (ms & Hd & Hl & Hall); [apply hashing_reachable|by vm_compute..|].
  destruct (machines hashing) as [|m [|]] eqn:Em; [by vm_compute in Em| |by vm_compute in Em].
  destruct (Hall 0%nat m eq_refl) as (m' & Hm' & Hs).
  rewrite decide_True in Hs by (apply (bool_decide_unpack _); by vm_compute).
  exists m, m'. split; [done|]. split; [|done]. rewrite Hd. f_equal.
  destruct ms as [|x [|]]; [discriminate Hl| |discriminate Hl]. injection Hm' as ->. reflexivity.
Defined.

(** An upload whose file is being hashed when the manager goes is never heard of again: its
    next read, the last, ends with the upload waiting for a signal that nobody is left to send,
    with nothing under way and without a final status. *)
Theorem hashed_upload_is_forgotten :
  exists m m', Destroy tt (fun _ _ => tt) digest (fun _ => reading) [0%nat] hashing = Some [m] /\
    upload_input tt (fun _ _ => tt) digest env (DoComplete 0 AnswerRead) m = Some m' /\
    current m' = WaitForUploadSignal /\ pending m' = [] /\ messages m' = [] /\
    filter (fun s => is_final s) (statuses m') = [].
Proof.
  do 2 eexists. split; [vm_compute; reflexivity|]. split; [vm_compute; reflexivity|].
  split_and!; vm_compute; reflexivity.
Qed.
