(* ===== verification/ApiRequests.v ===== *)
(** * Requests of the API ([api/detail/session_token_api_base_static],
    [api/detail/tokenless_api_base_static], [api/session_token_api_base.hpp])

    How the path, the query and the POST data of an API call are put together and signed with
    the session token.  A [std::map] of query parts is the list of its items in the order in
    which it is iterated. *)
From S2P Require Import Prelude Boost UrlEncode.

Open Scope Z_scope.

(** [api/types.hpp:17-23 RequestMethod] *)
Inductive RequestMethod := Get | Post.

Abbreviation query_part := (str * str)%type.

(** A digit of [%02x]. *)
Definition lower_hex_digit (n : Z) : ascii := Zbyte (if n <? 10 then n + 48 else n + 87).

(** [utils/md5_hasher.cpp:42-53 Digest] *)
Definition hex_byte (c : ascii) : str :=
  [lower_hex_digit (byteZ c / 16); lower_hex_digit (byteZ c mod 16)].

(** [query += separator + it.first + '=' + Encode(it.second)].
    [api/detail/session_token_api_base_static.cpp:63-64 MakePathAndQuery] *)
Definition add_part (separator : ascii) (encode : str -> str) (query : str) (it : query_part) :
    str :=
  query ++ [separator] ++ fst it ++ "="%char :: encode (snd it).

(** The loops whose separator is ['?'] first and then ['&'].
    [api/detail/tokenless_api_base_static.cpp:19-34 MakePathAndQuery] *)
Definition add_parts (encode : str -> str) (parts : list query_part) : str :=
  match parts with
  | [] => []
  | it :: parts => foldl (add_part "&" encode) (add_part "?" encode [] it) parts
  end.

(** The loop whose separator is empty first.
    [api/detail/tokenless_api_base_static.cpp:36-53 MakePost] *)
Definition TokenlessMakePost (parts : list query_part) : str :=
  match parts with
  | [] => []
  | it :: parts =>
      foldl (add_part "&" percent_plus_Encode) (fst it ++ "="%char :: percent_plus_Encode (snd it))
        parts
  end.

(** [api/detail/tokenless_api_base_static.cpp:14-34 MakePathAndQuery] *)
Definition TokenlessMakePathAndQuery (url_path : str) (parts : list query_part) : str :=
  url_path ++ add_parts percent_Encode parts.

(** [api/detail/session_token_api_base_static.hpp:47-53 SessionTokenApiBaseStatic] *)
Record SessionTokenApi := {
  session_token_ : str;
  time_ : str;
  secret_key_ : Z }.

(** [api/detail/session_token_api_base_static.cpp:22-31 SetSessionToken] *)
Definition SetSessionToken (session_token time : str) (secret_key : Z) (a : SessionTokenApi) :
    SessionTokenApi :=
  {| session_token_ := session_token; time_ := time; secret_key_ := secret_key |}.

Section Signature.
(** OpenSSL's MD5: the bytes of the digest. *)
Context (MD5 : str -> str).

(** [utils/md5_hasher.cpp:57-62 HashMd5] *)
Definition HashMd5 (s : str) : str := MD5 s ≫= hex_byte.

(** [api/detail/session_token_api_base_static.cpp:95-105 GetSignature] *)
Definition GetSignature (a : SessionTokenApi) (path_and_query : str) : str :=
  HashMd5 (print_int (Z.rem (secret_key_ a) 256) ++ time_ a ++ path_and_query).

(** [api/detail/session_token_api_base_static.cpp:33-76 MakePathAndQuery] *)
Definition MakePathAndQuery (method : RequestMethod) (a : SessionTokenApi) (url_path : str)
    (query_parts : list query_part) : str :=
  match method with
  | Post => url_path ++ add_parts percent_Encode query_parts
  | Get =>
      let query := B "?session_token=" ++ session_token_ a in
      let unencoded_query := foldl (add_part "&" id) query query_parts in
      let query := foldl (add_part "&" percent_Encode) query query_parts in
      let unencoded_url := url_path ++ unencoded_query in
      let sig := GetSignature a unencoded_url in
      url_path ++ query ++ B "&signature=" ++ sig
  end.

(** [api/detail/session_token_api_base_static.cpp:78-93 MakePost] *)
Definition MakePost (a : SessionTokenApi) (url_path : str) (query_parts : list query_part) :
    str :=
  let query := B "session_token=" ++ session_token_ a in
  let query := foldl (add_part "&" percent_Encode) query query_parts in
  let signature_full_path := url_path ++ "?"%char :: query in
  let sig := GetSignature a signature_full_path in
  query ++ B "&signature=" ++ sig.

(** [BuildUrl] of the class of the call gets the parts that are there and gives the path and
    all parts.
    [api/session_token_api_base.hpp:45-64 Url] *)
Definition Url (BuildUrl : list query_part -> str * list query_part) (method : RequestMethod)
    (a : SessionTokenApi) (hostname : str) : str :=
  let '(path, query_parts) := BuildUrl [(B "response_format", B "json")] in
  B "https://" ++ hostname ++ MakePathAndQuery method a path query_parts.

End Signature.

(** ** The server's side

    Query parts are separated by ['&'], each is a name, ['='] and an encoded value. *)

Fixpoint split_on (sep : ascii) (s : str) : list str :=
  match s with
  | [] => [[]]
  | c :: s =>
      if decide (c = sep) then [] :: split_on sep s
      else match split_on sep s with w :: ws => (c :: w) :: ws | [] => [[c]] end
  end.

Definition parse_part (decode : str -> option str) (s : str) : option query_part :=
  match split_at "=" s with
  | Some (k, v) => v' ← decode v; Some (k, v')
  | None => None
  end.

Definition parse_query (decode : str -> option str) (s : str) : option (list query_part) :=
  mapM (parse_part decode) (split_on "&" s).

(** What it verifies: the query decoded and put together again. *)
Definition reassemble (parts : list query_part) : str :=
  match parts with
  | [] => []
  | it :: parts => foldl (add_part "&" id) (fst it ++ "="%char :: snd it) parts
  end.

Section Server.
Context (MD5 : str -> str).

(** The last part is the signature of the path with what comes before it. *)
Definition signed_by (a : SessionTokenApi) (path : str) (parts : list query_part) : Prop :=
  exists signed, parts = signed ++ [(B "signature", GetSignature MD5 a (path ++ "?"%char :: reassemble signed))].

(** ** Parsing what was put together *)

Lemma split_on_plain sep s : (sep ∉ s) -> split_on sep s = [s].
Proof.
  induction s as [|c s IH]; [done|]. rewrite not_elem_of_cons. intros [Hc Hs]. cbn.
  rewrite decide_False by done. by rewrite IH.
Qed.

Lemma split_on_app sep s t : (sep ∉ s) -> split_on sep (s ++ sep :: t) = s :: split_on sep t.
Proof.
  induction s as [|c s IH]; cbn.
  - intros _. by rewrite decide_True.
  - rewrite not_elem_of_cons. intros [Hc Hs]. rewrite decide_False by done. by rewrite IH.
Qed.

(** An item as it is written. *)
Definition write_part (encode : str -> str) (it : query_part) : str :=
  fst it ++ "="%char :: encode (snd it).

Lemma parts_split encode first parts :
  ("&"%char ∉ first) -> Forall (fun it => "&"%char ∉ write_part encode it) parts ->
  split_on "&" (foldl (add_part "&" encode) first parts) = first :: (write_part encode <$> parts).
Proof.
  intros Hf Hp.
  assert (forall pre, foldl (add_part "&" encode) pre parts =
    pre ++ concat ((fun it => "&"%char :: write_part encode it) <$> parts)) as Hfold.
  { clear Hf Hp. induction parts as [|it parts IH]; intros pre; cbn; [by rewrite app_nil_r|].
    rewrite IH. unfold add_part, write_part. by rewrite <-!app_assoc. }
  rewrite Hfold. clear Hfold. revert first Hf.
  induction Hp as [|it parts Hit _ IH]; intros first Hf; cbn.
  - rewrite app_nil_r. by apply split_on_plain.
  - rewrite split_on_app by done. f_equal. by apply IH.
Qed.

Lemma split_at_key k v : ("="%char ∉ k) -> split_at "=" (k ++ "="%char :: v) = Some (k, v).
Proof. intros Hk. by apply split_at_spec. Qed.

Lemma plain_not_in c s : ~ plain c -> Forall plain s -> (c ∉ s).
Proof. intros Hc Hs Hin. rewrite Forall_forall in Hs. by apply Hc, Hs. Qed.

Lemma not_plain c : c ∈ ["&"; "="; "?"]%char -> ~ plain c.
Proof.
  intros Hc Hp. apply plain_not_special in Hp as (_ & _ & ? & ? & ? & _). set_solver.
Qed.

Lemma encode_plain plus s : Forall plain s -> UrlEncodeBase plus s = s.
Proof.
  induction 1 as [|c s Hc _ IH]; [done|]. rewrite UrlEncodeBase_cons, IH.
  unfold enc1. cbn. unfold plain in Hc. by rewrite Hc.
Qed.

Lemma encoded_no_ampersand plus s : ("&"%char ∉ UrlEncodeBase plus s).
Proof.
  rewrite list_elem_of_In. intros [Hp|[?|[? _]]]%encode_charset; [|done..].
  revert Hp. apply not_plain. set_solver.
Qed.

(** A part with a plain name is written without ampersands and parsed back. *)
Lemma write_part_parse plus it : Forall plain (fst it) ->
  ("&"%char ∉ write_part (UrlEncodeBase plus) it) /\
  parse_part UrlUnencodeBase (write_part (UrlEncodeBase plus) it) = Some it.
Proof.
  intros Hk. unfold write_part, parse_part. split.
  - rewrite elem_of_app, elem_of_cons. intros [Hin|[?|Hin]]; [|done|].
    + revert Hin. apply plain_not_in; [apply not_plain; set_solver|done].
    + by apply encoded_no_ampersand in Hin.
  - rewrite split_at_key by (apply plain_not_in; [apply not_plain; set_solver|done]).
    rewrite unencode_encode. by destruct it.
Qed.

Lemma write_parts_parse plus parts : Forall (fun it => Forall plain (fst it)) parts ->
  Forall (fun it => "&"%char ∉ write_part (UrlEncodeBase plus) it) parts /\
  mapM (parse_part UrlUnencodeBase) (write_part (UrlEncodeBase plus) <$> parts) = Some parts.
Proof.
  induction 1 as [|it parts Hit _ [IH1 IH2]]; [done|].
  destruct (write_part_parse plus it Hit) as [Ha Hp]. split; [by constructor|].
  cbn. by rewrite Hp, IH2.
Qed.

Lemma query_parse plus it parts : Forall plain (fst it) ->
  Forall (fun it => Forall plain (fst it)) parts ->
  parse_query UrlUnencodeBase
    (foldl (add_part "&" (UrlEncodeBase plus)) (write_part (UrlEncodeBase plus) it) parts) =
  Some (it :: parts).
Proof.
  intros Hit Hp. destruct (write_part_parse plus it Hit) as [Ha Hpi].
  destruct (write_parts_parse plus parts Hp) as [Has Hps].
  unfold parse_query. rewrite parts_split by done. cbn. by rewrite Hpi, Hps.
Qed.

Lemma hash_plain s : Forall plain (HashMd5 MD5 s).
Proof.
  unfold HashMd5. induction (MD5 s) as [|c bytes IH]; [constructor|]. rewrite bind_cons.
  apply Forall_app. split; [|exact IH]. clear IH.
  assert (forallb (fun c => negb (RequiresPercentEncoding c)) (hex_byte c) = true) as Hb
    by by_all_bytes c.
  apply List.Forall_forall. intros x Hx. rewrite forallb_forall in Hb.
  specialize (Hb x Hx). unfold plain. by destruct (RequiresPercentEncoding x).
Qed.

Lemma plain_name (s : string) :
  forallb (fun c => negb (RequiresPercentEncoding c)) (B s) = true -> Forall plain (B s).
Proof.
  rewrite forallb_forall. intros Hs. apply List.Forall_forall. intros x Hx.
  specialize (Hs x Hx). unfold plain. by destruct (RequiresPercentEncoding x).
Qed.

Lemma foldl_prefix encode pre first parts :
  foldl (add_part "&" encode) (pre ++ first) parts =
  pre ++ foldl (add_part "&" encode) first parts.
Proof.
  revert first. induction parts as [|it parts IH]; intros first; [done|]. cbn.
  rewrite <-IH. unfold add_part. by rewrite <-!app_assoc.
Qed.

(** The query up to the signature, and with it. *)
Lemma signed_query plus first sig parts : Forall plain sig ->
  foldl (add_part "&" (UrlEncodeBase plus)) first parts ++ B "&signature=" ++ sig =
  foldl (add_part "&" (UrlEncodeBase plus)) first (parts ++ [(B "signature", sig)]).
Proof.
  intros Hs. rewrite foldl_app. cbn. unfold add_part at 2. cbn [fst snd].
  by rewrite (encode_plain plus sig Hs).
Qed.

(** The query of a GET request parses back, by the separators and the decoder, to the
    session token, the query parts with their values and the signature, and the signature is
    the one of the path with the decoded parts put together again, as the server does. *)
Theorem get_request_verifies a path parts :
  ("?"%char ∉ path) -> Forall plain (session_token_ a) ->
  Forall (fun it => Forall plain (fst it)) parts ->
  exists query signed,
    split_at "?" (MakePathAndQuery MD5 Get a path parts) = Some (path, query) /\
    signed = (B "session_token", session_token_ a) :: parts /\
    parse_query percent_Decode query =
      Some (signed ++
        [(B "signature", GetSignature MD5 a (path ++ "?"%char :: reassemble signed))]).
Proof.
  intros Hpath Htok Hkeys. eexists _, _. split_and!; [|done|].
  - unfold MakePathAndQuery. cbn zeta. set (sig := GetSignature _ _ _).
    change (B "?session_token=" ++ session_token_ a)
      with (["?"%char] ++ (B "session_token=" ++ session_token_ a)).
    rewrite foldl_prefix, <-app_assoc. apply split_at_spec. split; [done|exact Hpath].
  - set (it := (B "session_token", session_token_ a)).
    set (sig := GetSignature _ _ _).
    assert (sig = GetSignature MD5 a (path ++ "?"%char :: reassemble (it :: parts))) as <-.
    { unfold sig. f_equal. f_equal. change (B "?session_token=" ++ session_token_ a)
        with (["?"%char] ++ (B "session_token=" ++ session_token_ a)).
      by rewrite foldl_prefix. }
    rewrite (signed_query PlusNo) by apply hash_plain.
    replace (B "session_token=" ++ session_token_ a) with (write_part (UrlEncodeBase PlusNo) it)
      by (unfold write_part; cbn [fst snd it]; by rewrite encode_plain).
    apply query_parse; [by apply plain_name|]. apply Forall_app. split; [done|].
    apply Forall_singleton. by apply plain_name.
Qed.

(** The same for the data of a POST request, whose signature is that of the data as sent. *)
Theorem post_request_parses a path parts :
  Forall plain (session_token_ a) -> Forall (fun it => Forall plain (fst it)) parts ->
  exists query,
    MakePost MD5 a path parts =
      query ++ B "&signature=" ++ GetSignature MD5 a (path ++ "?"%char :: query) /\
    parse_query percent_plus_Decode (MakePost MD5 a path parts) =
      Some ((B "session_token", session_token_ a) :: parts ++
        [(B "signature", GetSignature MD5 a (path ++ "?"%char :: query))]).
Proof.
  intros Htok Hkeys. eexists. split; [done|]. unfold MakePost. cbn zeta.
  set (sig := GetSignature _ _ _). rewrite (signed_query PlusNo) by apply hash_plain.
  set (it := (B "session_token", session_token_ a)).
  replace (B "session_token=" ++ session_token_ a) with (write_part (UrlEncodeBase PlusNo) it)
    by (unfold write_part; cbn [fst snd it]; by rewrite encode_plain).
  apply query_parse; [by apply plain_name|]. apply Forall_app. split; [done|].
  apply Forall_singleton. by apply plain_name.
Qed.

(** Without a token, the parts are what is parsed back, from a query and from POST data. *)
Theorem tokenless_request_parses path it parts :
  ("?"%char ∉ path) -> Forall (fun it => Forall plain (fst it)) (it :: parts) ->
  (exists query, split_at "?" (TokenlessMakePathAndQuery path (it :: parts)) = Some (path, query) /\
     parse_query percent_Decode query = Some (it :: parts)) /\
  parse_query percent_plus_Decode (TokenlessMakePost (it :: parts)) = Some (it :: parts).
Proof.
  intros Hpath [Hit Hkeys]%Forall_cons. split; [|by apply (query_parse PlusYes)].
  eexists. split; [|by apply (query_parse PlusNo)]. unfold TokenlessMakePathAndQuery, add_parts.
  change (add_part "?" percent_Encode [] it)
    with (["?"%char] ++ write_part (UrlEncodeBase PlusNo) it).
  rewrite foldl_prefix. apply split_at_spec. split; [done|exact Hpath].
Qed.

End Server.

(** A hash for the example: the first 16 characters. *)
Definition example_call : SessionTokenApi :=
  {| session_token_ := B "0af3"; time_ := B "1400000000.5"; secret_key_ := 70000 |}.

Lemma get_request_verifies_witness :
  MakePathAndQuery (take 16) Get example_call (B "/api/file/get_info.php")
    [(B "name", B "a&b=c d"); (B "response_format", B "json")] =
  B "/api/file/get_info.php?session_token=0af3&name=a%26b%3Dc%20d&response_format=json&signature=313132313430303030303030302e352f" /\
  exists query signed,
    split_at "?" (MakePathAndQuery (take 16) Get example_call (B "/api/file/get_info.php")
      [(B "name", B "a&b=c d"); (B "response_format", B "json")]) =
    Some (B "/api/file/get_info.php", query) /\
    parse_query percent_Decode query =
      Some (signed ++ [(B "signature", GetSignature (take 16) example_call
        (B "/api/file/get_info.php" ++ "?"%char :: reassemble signed))]).
Proof.
  split; [by vm_compute|].
  destruct (get_request_verifies (take 16) example_call (B "/api/file/get_info.php")
    [(B "name", B "a&b=c d"); (B "response_format", B "json")]) as (q & sg & Hs & _ & Hp).
  - by apply (bool_decide_unpack _); vm_compute.
  - by apply (plain_name "0af3").
  - apply Forall_cons. split; [by apply (plain_name "name")|].
    apply Forall_singleton. by apply (plain_name "response_format").
  - by exists q, sg.
Defined.
