(* ===== verification/PropertyTree.v ===== *)
(** * Property trees ([api/ptree_helpers], [api/type_helpers])

    How the values of a JSON reply are read.  Boost's property tree, its JSON parser, its
    conversion of a text to a number and Boost's dates are records of operations; the helpers
    of the SDK are definitions.

    A helper that sets a variable where it returns [true] is a function to [option]: [None]
    says that it returned [false].  Texts are UTF-8. *)
From S2P Require Import Prelude Boost.

Open Scope Z_scope.

(** The integer types that the replies have. *)
Inductive number := uint16 | uint32 | uint64 | int32 | int64.

(** What the code uses of [boost::property_tree]: reading a tree, [inr what] where
    [json_parser_error] is thrown, and writing it; [get_child], [None] where [ptree_bad_path]
    is thrown; the trees below, in order; the data of a node, and the number that it is. *)
Record Json := {
  ptree : Type;
  no_tree : ptree;
  read_json : str -> ptree + str;
  write_json : ptree -> str;
  get_child : ptree -> str -> option ptree;
  children : ptree -> list ptree;
  data : ptree -> str;
  to_number : number -> str -> option Z }.

(** What it uses of [boost::posix_time]: [None] where the parsers throw; the conversion is
    that of [us_central]. *)
Record PosixTime := {
  time_point : Type;
  not_a_date_time : time_point;
  time_point_eq_dec : EqDecision time_point;
  time_from_string : str -> option time_point;
  from_iso_string : str -> option time_point;
  local_to_utc : time_point -> time_point;
  to_iso_extended_string : time_point -> str }.

#[export] Existing Instance time_point_eq_dec.

Section Helpers.
Context (json : Json).

(** [pt.get_optional<std::wstring>] and, for numbers, [pt.get_optional<T>]. *)
Definition get_string (pt : ptree json) (path : str) : option str :=
  data json <$> get_child json pt path.

Definition get_number (w : number) (pt : ptree json) (path : str) : option Z :=
  branch ← get_child json pt path; to_number json w (data json branch).

Definition get_int32 : ptree json -> str -> option Z := get_number int32.

(** [result && ! result->empty()] *)
Definition not_empty (text : option str) : option str :=
  match text with Some [] => None | _ => text end.

(** [api/ptree_helpers.cpp:34-50 GetIfExists] *)
Definition GetIfExists (pt : ptree json) (property_path : str) : option str :=
  not_empty (get_string pt property_path).

(** [api/ptree_helpers.hpp:31-46 GetIfExists] *)
Definition GetIfExistsNumber (w : number) (pt : ptree json) (property_path : str) : option Z :=
  get_number w pt property_path.

(** [api/ptree_helpers.cpp:16-32 PropertyHasValueCaseInsensitive] *)
Definition PropertyHasValueCaseInsensitive (boost : Boost) (pt : ptree json)
    (property_path value : str) : bool :=
  match get_string pt property_path with
  | Some result => iequals boost result value
  | None => false
  end.

(** [api/ptree_helpers.cpp:132-141 PropertyHasValue] *)
Definition PropertyHasValue (pt : ptree json) (property_path value : str) : bool :=
  match get_string pt property_path with
  | Some result => bool_decide (result = value)
  | None => false
  end.

(** [api/ptree_helpers.hpp:97-124 GetIfExistsArrayFront] *)
Definition GetIfExistsArrayFront {T} (get_value_optional : ptree json -> option T)
    (pt : ptree json) (property_path : str) : option T :=
  child ← get_child json pt property_path;
  match children json child with
  | it :: _ => get_value_optional it
  | [] => None
  end.

(** [api/ptree_helpers.cpp:102-115 GetIfExistsArrayFront] *)
Definition GetIfExistsArrayFrontString (pt : ptree json) (property_path : str) : option str :=
  GetIfExistsArrayFront (fun it => Some (data json it)) pt property_path.

(** [api/ptree_helpers.hpp:155-168 GetValueIfExists] *)
Definition GetValueIfExistsNumber (w : number) (pt : ptree json) : option Z :=
  to_number json w (data json pt).

(** [api/ptree_helpers.cpp:117-130 GetValueIfExists] *)
Definition GetValueIfExists (pt : ptree json) : option str := not_empty (Some (data json pt)).

Context (time : PosixTime).

(** Not [not_a_date_time]. *)
Definition a_date (t : time_point time) : option (time_point time) :=
  if decide (t = not_a_date_time time) then None else Some t.

(** The server's local time, or else an ISO string.  Where it returns [false] the variable
    is set to [not_a_date_time].
    [api/ptree_helpers.cpp:52-100 GetIfExists] *)
Definition GetIfExistsTime (pt : ptree json) (property_path : str) : option (time_point time) :=
  result ← not_empty (get_string pt property_path);
  match time_from_string time result ≫= a_date with
  | Some to_set => Some (local_to_utc time to_set)
  | None => from_iso_string time result ≫= a_date
  end.

End Helpers.

(** ** Values of a request as text ([api/type_helpers]) *)

(** [api/type_helpers.cpp:9-14 AsString] *)
Definition AsStringTime (time : PosixTime) (value : time_point time) : str :=
  if decide (value <> not_a_date_time time) then to_iso_extended_string time value ++ B "Z"
  else [].

(** [api/type_helpers.hpp:75-92 AsStringContainerType] *)
Definition AsStringContainerType {T} (AsString : T -> str) (v : list T) : str :=
  match v with
  | [] => []
  | it :: v => foldl (fun text it => text ++ B "," ++ AsString it) (AsString it) v
  end.
