(* ===== verification/ApiResponses.v ===== *)
(** * Responses of the API ([api/response_base], [api/detail/api_base.hpp],
    [api/detail/requester_impl.hpp])

    From what an HTTP request reports to the response that the callback of an API call gets:
    the requester collects headers and content, the base class of a call parses the content
    and decides whether the call failed.

    The property tree and the JSON parser ([PropertyTree]), the messages of error codes and
    the class of the call are parameters. *)
From S2P Require Import Prelude Errors Boost PropertyTree.

Open Scope Z_scope.

Section Responses.
Context (json : Json) (boost : Boost) (message : error_code -> str).

(** [api/response_base.hpp:29-53 ResponseBase] *)
Record Response := {
  r_error_code : error_code;
  r_error_string : option str;
  r_api_error_string : option str;
  r_plaintext : str;
  r_pt : ptree json;
  r_url : str;
  r_debug : str }.

(** A default constructed response. *)
Definition new_response : Response :=
  {| r_error_code := no_error; r_error_string := None; r_api_error_string := None;
     r_plaintext := []; r_pt := no_tree json; r_url := []; r_debug := [] |}.

Definition with_error ec text (r : Response) : Response :=
  {| r_error_code := ec; r_error_string := Some text;
     r_api_error_string := r_api_error_string r; r_plaintext := r_plaintext r; r_pt := r_pt r;
     r_url := r_url r; r_debug := r_debug r |}.

#[local] Instance Response_members : Members Response := fun r =>
  Build_Response (r_error_code r) (r_error_string r) (r_api_error_string r) (r_plaintext r)
    (r_pt r) (r_url r) (r_debug r).

Definition with_api_error_string := ltac:(setter r_api_error_string).

Definition with_text url plaintext debug (r : Response) : Response :=
  {| r_error_code := r_error_code r; r_error_string := r_error_string r;
     r_api_error_string := r_api_error_string r; r_plaintext := plaintext; r_pt := r_pt r;
     r_url := url; r_debug := debug |}.

Definition with_pt := ltac:(setter r_pt).

Definition add_debug (text : str) (r : Response) : Response :=
  {| r_error_code := r_error_code r; r_error_string := r_error_string r;
     r_api_error_string := r_api_error_string r; r_plaintext := r_plaintext r; r_pt := r_pt r;
     r_url := r_url r; r_debug := r_debug r ++ text |}.

Definition newline : str := ["010"%char].

(** The text of an error that the server reported.
    [api/response_base.cpp:136-161 InitializeWithContent] *)
Definition api_error_text (fallback : str) (api_action api_message : option str) : str :=
  let text := default fallback api_message in
  match api_action with Some a => a ++ B ": " ++ text | None => text end.

(** The server's error, with [ec] where it gives no code.
    The order in which the code, the text and the message are set does not matter.
    [api/response_base.cpp:80-161 InitializeWithContent] *)
Definition report_api_error (ec : error_code) (fallback : str) (pt : ptree json)
    (r : Response) : Response :=
  let api_action := GetIfExists json pt (B "response.action") in
  let api_message := GetIfExists json pt (B "response.message") in
  let r := with_error ec (api_error_text fallback api_action api_message) r in
  let r := match api_message with
           | Some m => with_api_error_string (Some m) r
           | None => r
           end in
  match get_int32 json pt (B "response.error") with
  | Some api_code =>
      with_error (Ec cat_result api_code) (api_error_text fallback api_action api_message) r
  | None => r
  end.

(** [api/response_base.cpp:47-68 InitializeWithContent] *)
Definition parse_content (content : str) (r : Response) : bool * Response :=
  match read_json json content with
  | inl pt =>
      let r := with_pt pt r in
      let r := add_debug (B "Formatted JSON: ") r in
      let r := add_debug (write_json json pt) r in
      (true, if decide (last (r_debug r) = Some "010"%char) then r else add_debug newline r)
  | inr what => (false, with_error (api_error ContentInvalidFormat) what r)
  end.

(** [api/response_base.cpp:27-173 InitializeWithContent] *)
Definition InitializeWithContent (request_url debug_passthru : str) (status_code : Z)
    (content : str) : Response :=
  let r := with_text request_url content
             (B "Url: " ++ request_url ++ newline ++ debug_passthru ++
              B "Plaintext: " ++ content ++ newline) new_response in
  let '(parsing_success, r) := parse_content content r in
  let r :=
    if decide (status_code <> 200) then
      let ec := Ec cat_http_status status_code in
      if parsing_success then
        report_api_error ec (B "API returned bad HTTP status and no error message.") (r_pt r) r
      else with_error ec (message ec) r
    else if parsing_success then
      if PropertyHasValueCaseInsensitive json boost (r_pt r) (B "response.result") (B "success") then r
      else report_api_error (api_error UnknownApiError)
             (B "API returned bad result and no error message.") (r_pt r) r
    else r in
  let r := if is_error (r_error_code r)
           then add_debug (B "Error: " ++ message (r_error_code r) ++ newline) r else r in
  match r_error_string r with
  | Some text => add_debug (B "Error text: " ++ text ++ newline) r
  | None => r
  end.

(** [api/response_base.cpp:175-190 InitializeWithError] *)
Definition InitializeWithError (request_url debug_passthru : str) (ec : error_code)
    (error_str : str) : Response :=
  let r := with_error ec error_str new_response in
  with_text request_url []
    (B "Url: " ++ request_url ++ newline ++ debug_passthru ++
     B "Error: " ++ message ec ++ newline ++ B "Error text: " ++ error_str ++ newline) r.

(** ** The base class of a call *)

(** The class of the call: its text for debugging and its parser, which fills in what it
    extracts and may report an error. *)
Context (Data : Type) (no_data : Data) (debug_text_ : str)
  (ParseResponse : Response -> Response * Data).

(** [api/detail/api_base.hpp:56-92 HandleContent] *)
Definition HandleContent (url : str) (status_code : Z) (content : str) : Response * Data :=
  let response := InitializeWithContent url debug_text_ status_code content in
  if is_error (r_error_code response) then (response, no_data)
  else
    let '(response, data) := ParseResponse response in
    if is_error (r_error_code response) then
      let response :=
        add_debug (B "Error: " ++ message (r_error_code response) ++ newline) response in
      (match r_error_string response with
       | Some text => add_debug (B "Error text: " ++ text ++ newline) response
       | None => response
       end, data)
    else (response, data).

(** [api/detail/api_base.hpp:95-111 HandleError] *)
Definition HandleError (url : str) (ec : error_code) (error_string : str) : Response * Data :=
  (InitializeWithError url debug_text_ ec error_string, no_data).

(** ** The requester *)

(** What an HTTP request reports ([RequestResponseInterface]). *)
Inductive http_event :=
  | RedirectHeaderReceived
  | ResponseHeaderReceived (status_code : Z)
  | ResponseContentReceived (buffer : str)
  | RequestResponseErrorEvent (ec : error_code) (error_text : str)
  | RequestResponseCompleteEvent.

(** What the requester dispatches to the callbacks' [io_service]. *)
Inductive dispatched_action :=
  | ErrorAction (ec : error_code) (error_text : str)
  | ContentAction (status_code : Z).

(** [dispatched] has not run; [answered] are the calls of [cb_].
    [api/detail/requester_impl.hpp:240-253 RequesterImpl] *)
Record RequesterImpl := {
  content_ : str;
  url_ : str;
  headers_ : option Z;
  request_ : bool;       (** not null *)
  dispatched : list dispatched_action;
  answered : list (Response * Data) }.

(** [api/detail/requester_impl.hpp:189-212 Init] *)
Definition InitRequester (url : str) : RequesterImpl :=
  {| content_ := []; url_ := url; headers_ := None; request_ := true; dispatched := [];
     answered := [] |}.

Definition dispatch (a : dispatched_action) (s : RequesterImpl) : RequesterImpl :=
  {| content_ := content_ s; url_ := url_ s; headers_ := headers_ s; request_ := false;
     dispatched := dispatched s ++ [a]; answered := answered s |}.

(** [api/detail/requester_impl.hpp:116-184 RequesterImpl] *)
Definition handle_event (e : http_event) (s : RequesterImpl) : RequesterImpl :=
  match e with
  | RedirectHeaderReceived => s
  | ResponseHeaderReceived status_code =>
      {| content_ := content_ s; url_ := url_ s; headers_ := Some status_code;
         request_ := request_ s; dispatched := dispatched s; answered := answered s |}
  | ResponseContentReceived buffer =>
      {| content_ := content_ s ++ buffer; url_ := url_ s; headers_ := headers_ s;
         request_ := request_ s; dispatched := dispatched s; answered := answered s |}
  | RequestResponseErrorEvent ec error_text => dispatch (ErrorAction ec error_text) s
  | RequestResponseCompleteEvent =>
      match headers_ s with
      | None =>
          dispatch (ErrorAction (api_error ContentInvalidData)
                      (B "Content received with no headers.")) s
      | Some status_code => dispatch (ContentAction status_code) s
      end
  end.

(** A dispatched action runs; it reads [content_] when it does.
    [api/detail/requester_impl.hpp:139-155 RequestResponseErrorEvent] *)
Definition run_action (a : dispatched_action) (s : RequesterImpl) : Response * Data :=
  match a with
  | ErrorAction ec error_text => HandleError (url_ s) ec error_text
  | ContentAction status_code => HandleContent (url_ s) status_code (content_ s)
  end.

Inductive requester_input :=
  | Http (e : http_event)
  | RunAction.

Definition requester_step (x : requester_input) (s : RequesterImpl) : option RequesterImpl :=
  match x with
  | Http e => Some (handle_event e s)
  | RunAction =>
      match dispatched s with
      | a :: rest =>
          Some {| content_ := content_ s; url_ := url_ s; headers_ := headers_ s;
                  request_ := request_ s; dispatched := rest;
                  answered := answered s ++ [run_action a s] |}
      | [] => None
      end
  end.

End Responses.
