(* ===== verification/ApiResponsesTheorems.v ===== *)
(** * Responses of the API: what counts as failed, and what the callback gets

    For every reply of a server and any JSON library. *)
From S2P Require Import Prelude Errors Boost HttpMachine HttpMachineProofs HttpMachineTheorems PropertyTree ApiResponses.

Open Scope Z_scope.

Section Theorems.
Context (json : Json) (boost : Boost) (message : error_code -> str).

#[local] Abbreviation Initialize := (InitializeWithContent json boost message).
#[local] Abbreviation Response := (Response json).

(** The reply is well-formed JSON that says success, with status 200. *)
Definition successful (status_code : Z) (content : str) : Prop :=
  status_code = 200 /\ exists pt, read_json json content = inl pt /\
    PropertyHasValueCaseInsensitive json boost pt (B "response.result") (B "success") = true.

(** The code that the reply carries in [response.error]. *)
Definition api_code_of (content : str) : option Z :=
  match read_json json content with
  | inl pt => get_int32 json pt (B "response.error")
  | inr _ => None
  end.

(** The error code of a reply that is not successful. *)
Definition failure_code (status_code : Z) (content : str) : error_code :=
  match api_code_of content with
  | Some api_code => Ec cat_result api_code
  | None =>
      if decide (status_code <> 200) then Ec cat_http_status status_code
      else match read_json json content with
           | inl _ => api_error UnknownApiError
           | inr _ => api_error ContentInvalidFormat
           end
  end.

Lemma add_debug_fields text (r : Response) :
  r_error_code json (add_debug json text r) = r_error_code json r /\
  r_error_string json (add_debug json text r) = r_error_string json r /\
  r_pt json (add_debug json text r) = r_pt json r /\
  r_plaintext json (add_debug json text r) = r_plaintext json r.
Proof. done. Qed.

Lemma report_api_error_fields ec fallback pt (r : Response) :
  let r' := report_api_error json ec fallback pt r in
  r_error_code json r' =
    match get_int32 json pt (B "response.error") with
    | Some api_code => Ec cat_result api_code | None => ec end /\
  r_error_string json r' <> None /\
  r_plaintext json r' = r_plaintext json r /\ r_pt json r' = r_pt json r.
Proof.
  intros r'. unfold r', report_api_error.
  by destruct (GetIfExists json pt (B "response.message")), (get_int32 json pt _).
Qed.

Lemma parse_content_fields content (r : Response) :
  let '(ok, r') := parse_content json content r in
  r_plaintext json r' = r_plaintext json r /\
  match read_json json content with
  | inl pt => ok = true /\ r_pt json r' = pt /\ r_error_code json r' = r_error_code json r /\
              r_error_string json r' = r_error_string json r
  | inr what => ok = false /\ r_error_code json r' = api_error ContentInvalidFormat /\
                r_error_string json r' = Some what
  end.
Proof.
  unfold parse_content. destruct (read_json json content) as [pt|what]; [|done].
  cbn. by case_decide.
Qed.

Lemma successful_spec status_code content :
  successful status_code content <->
  match read_json json content with
  | inl pt => status_code = 200 /\
      PropertyHasValueCaseInsensitive json boost pt (B "response.result") (B "success") = true
  | inr _ => False
  end.
Proof.
  unfold successful. destruct (read_json json content) as [pt|what]; split.
  - intros [? (pt' & [= ->] & ?)]. done.
  - intros [? ?]. split; [done|]. by exists pt.
  - by intros [_ (pt' & [=] & _)].
  - done.
Qed.

Lemma initialized url debug status_code content :
  let r := Initialize url debug status_code content in
  r_plaintext json r = content /\
  (r_error_string json r = None <-> successful status_code content) /\
  (successful status_code content -> r_error_code json r = no_error) /\
  (~ successful status_code content ->
     r_error_code json r = failure_code status_code content).
Proof.
  unfold InitializeWithContent.
  set (r0 := with_text json url content _ _).
  assert (r_plaintext json r0 = content /\ r_error_code json r0 = no_error /\
          r_error_string json r0 = None) as (Hp0 & He0 & Hs0) by done.
  pose proof (parse_content_fields content r0) as Hp.
  destruct (parse_content json content r0) as [ok r1]. destruct Hp as [Hp1 Hp].
  set (r2 := if decide (status_code <> 200) then _ else _).
  set (r3 := if is_error (r_error_code json r2) then _ else r2).
  assert (r_error_code json r3 = r_error_code json r2 /\
          r_error_string json r3 = r_error_string json r2 /\
          r_plaintext json r3 = r_plaintext json r2) as (He3 & Hs3 & Hp3).
  { unfold r3. by destruct (is_error _). }
  enough (r_plaintext json r2 = content /\
    (r_error_string json r2 = None <-> successful status_code content) /\
    (successful status_code content -> r_error_code json r2 = no_error) /\
    (~ successful status_code content -> r_error_code json r2 = failure_code status_code content))
    as Henough.
  { cbn zeta. rewrite <-He3, <-Hs3, <-Hp3 in Henough.
    by destruct (r_error_string json r3) eqn:E; cbn; rewrite ?E. }
  clear r3 He3 Hs3 Hp3. pose proof (successful_spec status_code content) as Hsu.
  unfold failure_code, api_code_of. destruct (read_json json content) as [pt|what].
  - destruct Hp as (-> & Hpt & He1 & Hs1). unfold r2. rewrite Hpt. case_decide as Hst.
    + destruct (report_api_error_fields (Ec cat_http_status status_code)
        (B "API returned bad HTTP status and no error message.") pt r1)
        as (-> & Hs & -> & _). rewrite Hp1. split_and!; try tauto; done.
    + destruct (PropertyHasValueCaseInsensitive json boost pt (B "response.result")
        (B "success")) eqn:Hprop.
      * rewrite He1, Hs1, Hp1. split_and!; try tauto; done.
      * assert (~ successful status_code content) as Hno by by intros [_ ?]%Hsu.
        destruct (report_api_error_fields (api_error UnknownApiError)
          (B "API returned bad result and no error message.") pt r1)
          as (-> & Hs & -> & _). rewrite Hp1. split_and!; try tauto; done.
  - destruct Hp as (-> & He1 & Hs1). unfold r2. case_decide as Hst; cbn;
      rewrite ?He1, ?Hs1, ?Hp1; split_and!; intuition congruence.
Qed.

(** C39 A reply gives a response without an error text exactly if it is successful, and then
    without an error code; otherwise the error code is the one that the reply carries, or
    the HTTP status, or that the content is not JSON, or unknown. *)
Theorem replies_classified url debug status_code content :
  let r := Initialize url debug status_code content in
  r_plaintext json r = content /\
  (r_error_string json r = None <-> successful status_code content) /\
  (successful status_code content -> r_error_code json r = no_error) /\
  (~ successful status_code content ->
     r_error_code json r = failure_code status_code content).
Proof. apply initialized. Qed.

(** The tree of a response is what was parsed. *)
Lemma initialized_tree url debug status_code content pt : read_json json content = inl pt ->
  r_pt json (Initialize url debug status_code content) = pt.
Proof.
  intros Hpt. unfold InitializeWithContent.
  set (r0 := with_text json url content _ _). pose proof (parse_content_fields content r0) as Hp.
  destruct (parse_content json content r0) as [ok r1]. rewrite Hpt in Hp.
  destruct Hp as (_ & -> & Hp & _).
  set (r2 := if decide (status_code <> 200) then _ else _).
  assert (r_pt json r2 = pt) as Hr2.
  { subst r2. rewrite Hp. case_decide; [|destruct (PropertyHasValueCaseInsensitive _ _ _ _ _); [exact Hp|]].
    - by destruct (report_api_error_fields (Ec cat_http_status status_code)
        (B "API returned bad HTTP status and no error message.") pt r1) as (_ & _ & _ & ->).
    - by destruct (report_api_error_fields (api_error UnknownApiError)
        (B "API returned bad result and no error message.") pt r1) as (_ & _ & _ & ->). }
  set (r3 := if is_error (r_error_code json r2) then _ else r2).
  assert (r_pt json r3 = pt) as Hr3 by (unfold r3; by destruct (is_error _)).
  by destruct (r_error_string json r3).
Qed.

(** ** The requester *)

Context (Data : Type) (no_data : Data) (debug_text_ : str)
  (ParseResponse : Response -> Response * Data).
#[local] Abbreviation Requester := (RequesterImpl json Data).
#[local] Abbreviation HandleContent :=
  (HandleContent json boost message Data no_data debug_text_ ParseResponse).
#[local] Abbreviation HandleError := (HandleError json message Data no_data debug_text_).
#[local] Abbreviation handle := (handle_event json Data).
#[local] Abbreviation requester_step :=
  (requester_step json boost message Data no_data debug_text_ ParseResponse).

Definition ends_request (e : http_event) : bool :=
  match e with
  | RequestResponseErrorEvent _ _ | RequestResponseCompleteEvent => true | _ => false
  end.

Definition content_of (e : http_event) : str :=
  match e with ResponseContentReceived buffer => buffer | _ => [] end.

Definition status_of (e : http_event) : option Z :=
  match e with ResponseHeaderReceived status_code => Some status_code | _ => None end.

(** What the requester has before the request has ended. *)
Lemma collected (pre : list http_event) url :
  Forall (fun e => ends_request e = false) pre ->
  let s := foldl (fun s e => handle e s) (InitRequester json Data url) pre in
  content_ json Data s = pre ≫= content_of /\ headers_ json Data s = last (omap status_of pre) /\
  url_ json Data s = url /\ dispatched json Data s = [] /\ answered json Data s = [].
Proof.
  induction pre as [|e pre IH] using rev_ind; [done|].
  intros [Hpre He%Forall_inv]%Forall_app. specialize (IH Hpre) as (Hc & Hh & Hu & Hd & Ha).
  rewrite foldl_app, bind_app, omap_app. cbn [foldl].
  destruct e; cbn in He; try done; cbn; rewrite ?app_nil_r; try done.
  - rewrite last_snoc. done.
  - by rewrite Hc.
Qed.

(** When a request has ended, the callback gets the response that was parsed from the
    last headers and the whole content, in order, or an error: the one that the request ended
    with, or that there were no headers. *)
Theorem requester_answers url pre e :
  Forall (fun e => ends_request e = false) pre -> ends_request e = true ->
  let s := foldl (fun s e => handle e s) (InitRequester json Data url) (pre ++ [e]) in
  exists s', requester_step RunAction s = Some s' /\ dispatched json Data s' = [] /\
    answered json Data s' =
      [match e, last (omap status_of pre) with
       | RequestResponseErrorEvent ec text, _ => HandleError url ec text
       | _, Some status_code => HandleContent url status_code (pre ≫= content_of)
       | _, None =>
           HandleError url (api_error ContentInvalidData) (B "Content received with no headers.")
       end].
Proof.
  intros Hpre He. destruct (collected pre url Hpre) as (Hc & Hh & Hu & Hd & Ha).
  rewrite foldl_app. cbn [foldl]. set (s := foldl _ _ pre) in *. destruct e; try done.
  - eexists. cbn. rewrite Hd. split; [done|]. split; [done|]. cbn. by rewrite Ha, Hu.
  - cbn. rewrite Hh. destruct (last (omap status_of pre)); cbn; rewrite Hd; eexists;
      (split; [done|]); (split; [done|]); cbn; by rewrite Ha, Hu, ?Hc.
Qed.

Fixpoint requester_run (xs : list requester_input) (s : Requester) : option Requester :=
  match xs with
  | [] => Some s
  | x :: xs => s' ← requester_step x s; requester_run xs s'
  end.

Definition http_events (xs : list requester_input) : list http_event :=
  omap (fun x => match x with Http e => Some e | RunAction => None end) xs.

(** The requester hears what the machine of its request reports; the log of the machine has
    no content. *)
Definition reported (e : http_event) : bool :=
  match e with ResponseContentReceived _ => false | _ => true end.

Definition same_report (e : http_event) (c : HttpMachine.callback) : Prop :=
  match e, c with
  | RedirectHeaderReceived, HttpMachine.RedirectHeaderReceived _ => True
  | ResponseHeaderReceived h, HttpMachine.ResponseHeaderReceived h' => h = h'
  | RequestResponseErrorEvent ec _, HttpMachine.RequestResponseErrorEvent ec' => ec = ec'
  | RequestResponseCompleteEvent, HttpMachine.RequestResponseCompleteEvent => True
  | _, _ => False
  end.

Lemma requester_run_counts xs (s s' : Requester) :
  requester_run xs s = Some s' ->
  (length (dispatched json Data s') + length (answered json Data s') =
   length (dispatched json Data s) + length (answered json Data s) +
   length (filter (fun e => ends_request e) (http_events xs)))%nat.
Proof.
  revert s. induction xs as [|x xs IH]; intros s; cbn -[filter]; [intros [= <-]; cbn; lia|].
  destruct x as [e|]; cbn -[filter].
  - intros Hr%IH. rewrite Hr, filter_cons. clear.
    destruct e; cbn; fold (http_events xs);
      [| | | |destruct (headers_ json Data s); cbn]; rewrite ?length_app; simpl; lia.
  - destruct (dispatched json Data s) as [|a rest]; [done|]. cbn. intros Hr%IH.
    cbn -[filter] in Hr. rewrite length_app in Hr. fold (http_events xs).
    simpl length in *. lia.
Qed.

Lemma same_report_ends es cs :
  Forall2 same_report (filter (fun e => reported e) es) cs ->
  length (filter (fun e => ends_request e) es) = length (filter is_end cs).
Proof.
  revert cs. induction es as [|e es IH]; intros cs.
  - intros ->%Forall2_nil_inv_l. done.
  - rewrite !filter_cons. destruct e; cbn -[filter]; try apply IH.
    all: intros (c & cs' & Hc & Hf & ->)%Forall2_cons_inv_l; rewrite filter_cons;
      destruct c; cbn -[filter] in *; try done; first [exact (IH cs' Hf)|exact (f_equal S (IH cs' Hf))].
Qed.

(** C27 A call of the API calls back once: the requester that hears what the machine of its
    HTTP request reports has, once the machine has ended, one response called back or waiting
    for its [io_service], and before none. *)
Theorem api_call_answers_once now url policy headers p1 p2 m xs s :
  HttpMachine.reachable boost (NewMachine now url policy headers p1 p2) m ->
  requester_run xs (InitRequester json Data url) = Some s ->
  Forall2 same_report (filter (fun e => reported e) (http_events xs)) (callbacks m) ->
  (length (dispatched json Data s) + length (answered json Data s) =
   if is_terminal (current m) then 1 else 0)%nat.
Proof.
  intros Hm%reachable_end_inv Hs%requester_run_counts He%same_report_ends.
  rewrite Hs, He. cbn. unfold end_inv, ends in Hm.
  destruct (current m); try (by rewrite Hm).
  - destruct Hm as [_ [code Hm]]. by rewrite Hm.
  - destruct Hm as [_ Hm]. by rewrite Hm.
Qed.

End Theorems.

(** ** Examples: a tree is its text; ["zero"] carries the error code 0. *)
Module Replies.

Definition text_json : Json :=
  {| ptree := str; no_tree := [];
     read_json s := if decide (s = []) then inr (B "expected value") else inl s;
     write_json s := s;
     get_child s path :=
       if decide (path = B "response.result") then Some s
       else if decide (path = B "response.message") then Some (B "oops")
       else if decide (path = B "response.error" /\ s = B "zero") then Some (B "0") else None;
     children s := [];
     data s := s;
     to_number w s := if decide (s = B "0") then Some 0 else None |}.

Definition no_message (ec : error_code) : str := [].

Definition parse (r : Response text_json) : Response text_json * nat :=
  (r, length (r_plaintext text_json r)).

Definition reply (status_code : Z) (content : str) : Response text_json :=
  InitializeWithContent text_json c_locale no_message (B "https://h/a") [] status_code content.

(** What the requester of the example machine hears. *)
Definition heard : list requester_input :=
  [Http RedirectHeaderReceived; Http (ResponseHeaderReceived 200);
   Http (ResponseContentReceived (B "Succ")); Http (ResponseContentReceived (B "ess"));
   Http RequestResponseCompleteEvent].

End Replies.

Lemma replies_classified_witness :
  r_error_string Replies.text_json (Replies.reply 200 (B "Success")) = None /\
  r_error_code Replies.text_json (Replies.reply 500 (B "bad")) = Ec cat_http_status 500 /\
  r_error_code Replies.text_json (Replies.reply 200 (B "zero")) = Ec cat_result 0.
Proof.
  pose proof (replies_classified Replies.text_json c_locale Replies.no_message
    (B "https://h/a") []) as Hr. split_and!.
  - apply (Hr 200 (B "Success")). split; [done|]. by exists (B "Success").
  - destruct (Hr 500 (B "bad")) as (_ & _ & _ & Hf). apply Hf. by intros [? _].
  - destruct (Hr 200 (B "zero")) as (_ & _ & _ & Hf). apply Hf.
    intros [_ (pt & Hpt & Hs)]. vm_compute in Hpt. injection Hpt as <-. by vm_compute in Hs.
Defined.

Lemma requester_answers_witness :
  exists s', requester_step Replies.text_json c_locale Replies.no_message nat 0%nat []
      Replies.parse RunAction
      (foldl (fun s e => handle_event Replies.text_json nat e s)
        (InitRequester Replies.text_json nat (B "https://h/a"))
        ([ResponseHeaderReceived 200; ResponseContentReceived (B "Succ");
          ResponseContentReceived (B "ess")] ++ [RequestResponseCompleteEvent])) = Some s' /\
    snd <$> answered Replies.text_json nat s' = [7%nat].
Proof.
  destruct (requester_answers Replies.text_json c_locale Replies.no_message nat 0%nat []
    Replies.parse (B "https://h/a")
    [ResponseHeaderReceived 200; ResponseContentReceived (B "Succ");
     ResponseContentReceived (B "ess")] RequestResponseCompleteEvent) as (s' & Hs & _ & Ha).
  - by repeat constructor.
  - done.
  - exists s'. split; [exact Hs|]. rewrite Ha. by vm_compute.
Defined.

Lemma api_call_answers_once_witness :
  exists s, requester_run Replies.text_json c_locale Replies.no_message nat 0%nat []
      Replies.parse (Replies.heard ++ [RunAction])
      (InitRequester Replies.text_json nat (B "https://h/a")) = Some s /\
    length (answered Replies.text_json nat s) = 1%nat /\
    (length (dispatched Replies.text_json nat s) + length (answered Replies.text_json nat s) =
     1)%nat.
Proof.
  destruct (requester_run Replies.text_json c_locale Replies.no_message nat 0%nat []
      Replies.parse (Replies.heard ++ [RunAction])
      (InitRequester Replies.text_json nat (B "https://h/a"))) as [s|] eqn:Hs;
    [|by vm_compute in Hs].
  exists s. split; [done|].
  pose proof (api_call_answers_once Replies.text_json c_locale Replies.no_message nat 0%nat []
    Replies.parse 0 (B "https://h/a") DenyDowngrade [(B "Connection", B "close")] None None
    (after example_run example_machine) _ s (after_reachable _ example_machine example_ends) Hs)
    as Hone.
  assert (is_terminal (current (after example_run example_machine)) = true) as Hterm
    by by vm_compute.
  rewrite Hterm in Hone. split; [|apply Hone].
  - vm_compute in Hs. injection Hs as <-. by vm_compute.
  - vm_compute. by repeat constructor.
Defined.
