(* ===== verification/Endpoint.v ===== *)
(** * The classes of the calls ([api/templates], [api/gen_api_template.py])

    The request and the response of a call are classes that the repository's generator wrote
    from a description.  Their code has a few forms, which are the definitions of this file:
    the statements of [ParseResponse] and of [...FromPropertyBranch], each of which reads one
    value and sets one member, and the assignments of [GetPostData]. *)
From S2P Require Import Prelude Errors ApiRequests PropertyTree ApiResponses.

Open Scope Z_scope.

(** The libraries that the calls use, and the value of a scalar that a constructor leaves
    uninitialised. *)
Class Libraries := {
  the_json : Json;
  the_time : PosixTime;
  indeterminate : forall T : Set, Inhabited T -> T }.

Abbreviation ptime := (time_point the_time).
Abbreviation not_a_date := (not_a_date_time the_time).
Abbreviation tree := (ptree the_json).
Abbreviation ResponseBase := (Response the_json).

(** ** Statements of the parsers *)

(** A statement goes on or returns. *)
Inductive flow (V : Type) `{Libraries} :=
  | Next (response : ResponseBase) (value : V)
  | Return (response : ResponseBase) (value : V).
Arguments Next {V _} response value.
Arguments Return {V _} response value.

Section Statements.
Context `{Libraries}.

(** It reads the tree and has the base of the response and the value whose members it
    sets. *)
Definition statement (V : Type) := tree -> ResponseBase -> V -> flow V.

(** An overload of [GetIfExists]: the value that it sets, and what it leaves in the variable
    where it returns [false]. *)
Record getter (T : Type) := {
  if_exists : tree -> str -> option T;
  otherwise : T -> T }.
#[global] Arguments if_exists {T} g pt path : rename.
#[global] Arguments otherwise {T} g to_set : rename.

Definition std_string : getter str :=
  {| if_exists := GetIfExists the_json; otherwise := id |}.
Definition an (w : number) : getter Z :=
  {| if_exists := GetIfExistsNumber the_json w; otherwise := id |}.
Definition a_ptime : getter ptime :=
  {| if_exists := GetIfExistsTime the_json the_time; otherwise _ := not_a_date |}.

(** [api/detail/api_base.hpp:158-167 SetError] *)
Definition return_error (text : str) (r : ResponseBase) : ResponseBase :=
  with_error the_json (api_error ContentInvalidData) text r.

Definition quoted (key : string) : str := "034"%char :: B key ++ ["034"%char].
Definition missing (key : string) : str := B "missing " ++ quoted key.

(** A case of an enumeration: the first whose text it is. *)
Fixpoint api_value {E} (cases : list (string * E)) (text : str) : option E :=
  match cases with
  | [] => None
  | (api, e) :: cases => if decide (text = B api) then Some e else api_value cases text
  end.

Section Forms.
Context {V : Type}.

Definition assign {T} (f : V -> T) `{!Setter f} (x : T) : statement V :=
  fun pt r v => Next r (set_field f x v).

(** [api/gen_api_template.py:1252-1261 create_content_parse_single] *)
Definition required {T} (g : getter T) (key : string) (f : V -> T) `{!Setter f} :
    statement V :=
  fun pt r v =>
    match if_exists g pt (B key) with
    | Some x => Next r (set_field f x v)
    | None => Return (return_error (missing key) r) (set_field f (otherwise g (f v)) v)
    end.

(** [api/gen_api_template.py:1232-1237 create_content_parse_single] *)
Definition with_default {T} (g : getter T) (key : string) (f : V -> T) `{!Setter f} :
    statement V :=
  fun pt r v =>
    match if_exists g pt (B key) with
    | Some x => Next r (set_field f x v)
    | None => Next r (set_field f (otherwise g (f v)) v)
    end.

(** [api/gen_api_template.py:1239-1250 create_content_parse_single] *)
Definition optional {T} (g : getter T) (key : string) (f : V -> option T) `{!Setter f} :
    statement V :=
  fun pt r v =>
    match if_exists g pt (B key) with
    | Some optarg => Next r (set_field f (Some optarg) v)
    | None => Next r v
    end.

(** [api/gen_api_template.py:1217-1226 create_content_parse_array_front] *)
Definition required_front {T} (GetIfExistsArrayFront : tree -> str -> option T) (key : string)
    (f : V -> T) `{!Setter f} : statement V :=
  fun pt r v =>
    match GetIfExistsArrayFront pt (B key) with
    | Some x => Next r (set_field f x v)
    | None => Return (return_error (missing key) r) v
    end.

(** [api/gen_api_template.py:1066-1126 create_content_enum_parse] *)
Definition required_enum {E} (cases : list (string * E)) (key : string) (f : V -> E)
    `{!Setter f} : statement V :=
  fun pt r v =>
    match GetIfExists the_json pt (B key) with
    | Some optval =>
        match api_value cases optval with
        | Some e => Next r (set_field f e v)
        | None => Return (return_error (B "invalid value in " ++ B key) r) v
        end
    | None => Return (return_error (B "no value in " ++ B key) r) v
    end.

(** The member is an enumeration, or the option of one: [into] is what is assigned.
    [api/gen_api_template.py:1066-1126 create_content_enum_parse] *)
Definition optional_enum {E T} (into : E -> T) (cases : list (string * E)) (key : string)
    (f : V -> T) `{!Setter f} : statement V :=
  fun pt r v =>
    match GetIfExists the_json pt (B key) ≫= api_value cases with
    | Some e => Next r (set_field f (into e) v)
    | None => Next r v
    end.

(** [...FromPropertyBranch]: whether it returns [true], and what it did. *)
Definition branch_parser (S : Type) := ResponseBase -> S -> tree -> bool * ResponseBase * S.

(** [api/gen_api_template.py:1017-1055 create_content_struct_parse] *)
Definition required_struct {S} (FromPropertyBranch : branch_parser S) (optarg : S)
    (key : string) (f : V -> S) `{!Setter f} : statement V :=
  fun pt r v =>
    match get_child the_json pt (B key) with
    | Some branch =>
        match FromPropertyBranch r optarg branch with
        | (true, r, optarg) => Next r (set_field f optarg v)
        | (false, r, _) => Return (return_error (missing key) r) v
        end
    | None => Return (return_error (missing key) r) v
    end.

(** [api/gen_api_template.py:1017-1055 create_content_struct_parse] *)
Definition optional_struct {S} (FromPropertyBranch : branch_parser S) (optarg : S)
    (key : string) (f : V -> option S) `{!Setter f} : statement V :=
  fun pt r v =>
    match get_child the_json pt (B key) with
    | Some branch =>
        match FromPropertyBranch r optarg branch with
        | (true, r, optarg) => Next r (set_field f (Some optarg) v)
        | (false, r, _) => Next r v
        end
    | None => Next r v
    end.

(** The loop over a branch: every element that was parsed is pushed back. *)
Fixpoint push_structs {S} (FromPropertyBranch : branch_parser S) (optarg : S)
    (branch : list tree) (r : ResponseBase) (to : list S) : ResponseBase * list S :=
  match branch with
  | [] => (r, to)
  | it :: branch =>
      match FromPropertyBranch r optarg it with
      | (true, r, x) => push_structs FromPropertyBranch optarg branch r (to ++ [x])
      | (false, r, _) => push_structs FromPropertyBranch optarg branch r to
      end
  end.

(** [api/gen_api_template.py:976-1015 create_content_struct_parse] *)
Definition optional_structs {S} (FromPropertyBranch : branch_parser S) (optarg : S)
    (key : string) (f : V -> list S) `{!Setter f} : statement V :=
  fun pt r v =>
    match get_child the_json pt (B key) with
    | Some branch =>
        let '(r, to) :=
          push_structs FromPropertyBranch optarg (children the_json branch) r (f v) in
        Next r (set_field f to v)
    | None => Next r v
    end.

(** The loop that returns at the first element that was not parsed. *)
Fixpoint push_all_structs {S} (FromPropertyBranch : branch_parser S) (optarg : S)
    (branch : list tree) (r : ResponseBase) (to : list S) : bool * ResponseBase * list S :=
  match branch with
  | [] => (true, r, to)
  | it :: branch =>
      match FromPropertyBranch r optarg it with
      | (true, r, x) => push_all_structs FromPropertyBranch optarg branch r (to ++ [x])
      | (false, r, _) => (false, r, to)
      end
  end.

(** [api/gen_api_template.py:976-1015 create_content_struct_parse] *)
Definition required_structs {S} (FromPropertyBranch : branch_parser S) (optarg : S)
    (key : string) (f : V -> list S) `{!Setter f} : statement V :=
  fun pt r v =>
    match get_child the_json pt (B key) with
    | Some branch =>
        match push_all_structs FromPropertyBranch optarg (children the_json branch) r (f v) with
        | (true, r, to) => Next r (set_field f to v)
        | (false, r, to) => Return r (set_field f to v)
        end
    | None => Return (return_error (missing key) r) v
    end.

(** The loop over the values of an array, up to the first that is not one. *)
Fixpoint push_values {T} (GetValueIfExists : tree -> option T) (branch : list tree)
    (to : list T) : bool * list T :=
  match branch with
  | [] => (true, to)
  | it :: branch =>
      match GetValueIfExists it with
      | Some result => push_values GetValueIfExists branch (to ++ [result])
      | None => (false, to)
      end
  end.

(** [api/gen_api_template.py:1128-1190 create_content_parse_array] *)
Definition required_array {T} (GetValueIfExists : tree -> option T) (key : string)
    (f : V -> list T) `{!Setter f} : statement V :=
  fun pt r v =>
    match get_child the_json pt (B key) with
    | Some branch =>
        if decide (children the_json branch = []) then
          Return (return_error (B "missing value in " ++ B key) r) v
        else
          match push_values GetValueIfExists (children the_json branch) (f v) with
          | (true, to) => Next r (set_field f to v)
          | (false, to) =>
              Return (return_error (B "invalid value in " ++ B key) r) (set_field f to v)
          end
    | None => Return (return_error (missing key) r) v
    end.

(** [api/gen_api_template.py:1128-1190 create_content_parse_array] *)
Definition optional_array {T} (GetValueIfExists : tree -> option T) (key : string)
    (f : V -> list T) `{!Setter f} : statement V :=
  fun pt r v =>
    match get_child the_json pt (B key) with
    | Some branch =>
        Next r (set_field f (push_values GetValueIfExists (children the_json branch) (f v)).2 v)
    | None => Next r v
    end.

(** The statements of a function, in order. *)
Fixpoint block (body : list (statement V)) : statement V :=
  match body with
  | [] => fun pt r v => Next r v
  | s :: body =>
      fun pt r v =>
        match s pt r v with
        | Next r v => block body pt r v
        | Return r v => Return r v
        end
  end.

(** [...FromPropertyBranch] with this body.
    [api/gen_api_template.py:1385-1428 get_data_type_struct_extractor] *)
Definition FromPropertyBranch (body : list (statement V)) : branch_parser V :=
  fun r v pt =>
    if decide (children the_json pt = []) then (false, r, v)
    else match block body pt r v with
         | Next r v => (true, r, v)
         | Return r v => (false, r, v)
         end.

(** [ParseResponse] with this body. *)
Definition parse_response (body : list (statement V)) (r : ResponseBase) (v : V) :
    ResponseBase * V :=
  match block body (r_pt the_json r) r v with
  | Next r v => (r, v)
  | Return r v => (r, v)
  end.

End Forms.

(** ** Requests *)

(** [mf::utils::to_string] and the overloads of [AsString]. *)
Definition AsString_string (value : str) : str := value.
Definition AsString_ptime : ptime -> str := AsStringTime the_time.

End Statements.

(** The order of [std::string]. *)
Fixpoint str_lt (a b : str) : bool :=
  match a, b with
  | _, [] => false
  | [], _ => true
  | x :: a, y :: b => (byteZ x <? byteZ y) || ((byteZ x =? byteZ y) && str_lt a b)
  end.

(** [parts[key] = value] of a map ordered by its keys. *)
Fixpoint set_part (key value : str) (parts : list query_part) : list query_part :=
  match parts with
  | [] => [(key, value)]
  | it :: rest =>
      if decide (key = fst it) then (key, value) :: rest
      else if str_lt key (fst it) then (key, value) :: parts
      else it :: set_part key value rest
  end.

(** The assignments of [GetPostData]: [None] where an optional member is not set. *)
Definition make_parts (assignments : list (string * option str)) : list query_part :=
  foldl (fun parts it => match snd it with
                         | Some value => set_part (B (fst it)) value parts
                         | None => parts
                         end) [] assignments.

(** ** Calls

    What the classes of a call have in common, for statements about all of them. *)
Record api_call `{Libraries} := {
  call_Impl : Type;
  call_Response : Type;
  call_method : RequestMethod;
  call_uses_token : bool;       (** [SessionTokenApiBase] or [TokenlessApiBase] *)
  call_BuildUrl : list query_part -> str * list query_part;
  call_parts : call_Impl -> list query_part;
  call_GetPostData : (str -> str) -> SessionTokenApi -> call_Impl -> str;
  call_new : call_Response;
  call_ParseResponse : ResponseBase -> call_Response -> ResponseBase * call_Response }.
Arguments Build_api_call {_ call_Impl call_Response}.
