(* ===== verification/EndpointSpec.v ===== *)
(** * What the parser of a call promises ([api/templates/apis])

    The description of a call lists the members of its response: the path of each in the JSON
    reply, its type, and whether it is required.  Here a description is a list of clauses
    with a meaning that has no control flow: which replies it [accepts], and which values a
    member has then.  [Parses] and [ParsesResponse] say that code implements a description;
    the instances of this file show it for every statement of [Endpoint] and put them
    together, so that for a class it follows by instance search. *)
From S2P Require Import Prelude Errors UrlEncode ApiRequests PropertyTree ApiResponses Endpoint.

Section Descriptions.
Context `{Libraries}.

(** ** The value at a path *)

Definition string_at (pt : tree) (path : str) : option str :=
  branch ← get_child the_json pt path;
  if decide (data the_json branch = []) then None else Some (data the_json branch).

Definition number_at (w : number) (pt : tree) (path : str) : option Z :=
  branch ← get_child the_json pt path; to_number the_json w (data the_json branch).

(** The time in the zone of the server, or an ISO string. *)
Definition time_at (pt : tree) (path : str) : option ptime :=
  text ← string_at pt path;
  head (option_list (local_to_utc the_time <$>
          (time_from_string the_time text ≫= a_date the_time)) ++
        option_list (from_iso_string the_time text ≫= a_date the_time)).

Definition enum_at {E} (cases : list (string * E)) (pt : tree) (path : str) : option E :=
  text ← string_at pt path; api_value cases text.

(** The first element of an array. *)
Definition front_at (pt : tree) (path : str) : option str :=
  branch ← get_child the_json pt path; data the_json <$> head (children the_json branch).

(** An element of an array. *)
Definition string_here (pt : tree) : option str :=
  if decide (data the_json pt = []) then None else Some (data the_json pt).

Definition number_here (w : number) (pt : tree) : option Z :=
  to_number the_json w (data the_json pt).

(** The values before the first that is none. *)
Fixpoint values {T} (here : tree -> option T) (l : list tree) : list T :=
  match l with
  | [] => []
  | it :: l => match here it with Some x => x :: values here l | None => [] end
  end.

(** ** Clauses *)

(** [regular]: no element of a required array of structures is an empty branch. *)
Record clause (V : Type) := {
  accepts : tree -> Prop;
  decodes : tree -> V -> Prop;
  regular : tree -> Prop }.
#[global] Arguments accepts {V} c pt : rename.
#[global] Arguments decodes {V} c pt v : rename.
#[global] Arguments regular {V} c pt : rename.

#[local] Abbreviation description V := (list (clause V)).

Definition accepted {V} (d : description V) (pt : tree) : Prop :=
  Forall (fun c => accepts c pt) d.
Definition decoded {V} (d : description V) (pt : tree) (v : V) : Prop :=
  Forall (fun c => decodes c pt v) d.
Definition well_formed {V} (d : description V) (pt : tree) : Prop :=
  Forall (fun c => regular c pt) d.

Definition not_empty_branch (pt : tree) : Prop := children the_json pt <> [].
#[global] Instance not_empty_branch_dec pt : Decision (not_empty_branch pt).
Proof. unfold not_empty_branch. destruct (children the_json pt); [right|left]; congruence. Defined.

Section Clauses.
Context {V : Type}.

Definition Required {T} (at_path : tree -> str -> option T) (key : string) (f : V -> T) :
    clause V :=
  {| accepts pt := is_Some (at_path pt (B key));
     decodes pt v := at_path pt (B key) = Some (f v);
     regular pt := True |}.

Definition Optional {T} (at_path : tree -> str -> option T) (key : string)
    (f : V -> option T) : clause V :=
  {| accepts pt := True;
     decodes pt v := f v = at_path pt (B key);
     regular pt := True |}.

Definition Default {T} (d : T) (at_path : tree -> str -> option T) (key : string)
    (f : V -> T) : clause V :=
  {| accepts pt := True;
     decodes pt v := f v = default d (at_path pt (B key));
     regular pt := True |}.

Definition RequiredStruct {S} (d : description S) (key : string) (f : V -> S) : clause V :=
  {| accepts pt := exists branch, get_child the_json pt (B key) = Some branch /\
       not_empty_branch branch /\ accepted d branch;
     decodes pt v := exists branch, get_child the_json pt (B key) = Some branch /\
       decoded d branch (f v);
     regular pt := forall branch, get_child the_json pt (B key) = Some branch ->
       not_empty_branch branch -> well_formed d branch |}.

(** A branch that is there and empty counts as missing. *)
Definition OptionalStruct {S} (d : description S) (key : string) (f : V -> option S) :
    clause V :=
  {| accepts pt := forall branch, get_child the_json pt (B key) = Some branch ->
       not_empty_branch branch -> accepted d branch;
     decodes pt v :=
       match f v with
       | Some s => exists branch, get_child the_json pt (B key) = Some branch /\
                     not_empty_branch branch /\ decoded d branch s
       | None => forall branch, get_child the_json pt (B key) = Some branch ->
                   ~ not_empty_branch branch
       end;
     regular pt := forall branch, get_child the_json pt (B key) = Some branch ->
       not_empty_branch branch -> well_formed d branch |}.

(** The elements that are not empty. *)
Definition OptionalStructs {S} (d : description S) (key : string) (f : V -> list S) :
    clause V :=
  {| accepts pt := forall branch, get_child the_json pt (B key) = Some branch ->
       Forall (accepted d) (filter not_empty_branch (children the_json branch));
     decodes pt v :=
       match get_child the_json pt (B key) with
       | Some branch =>
           Forall2 (decoded d) (filter not_empty_branch (children the_json branch)) (f v)
       | None => f v = []
       end;
     regular pt := forall branch, get_child the_json pt (B key) = Some branch ->
       Forall (well_formed d) (filter not_empty_branch (children the_json branch)) |}.

Definition RequiredStructs {S} (d : description S) (key : string) (f : V -> list S) :
    clause V :=
  {| accepts pt := exists branch, get_child the_json pt (B key) = Some branch /\
       Forall (fun it => not_empty_branch it /\ accepted d it) (children the_json branch);
     decodes pt v := exists branch, get_child the_json pt (B key) = Some branch /\
       Forall2 (decoded d) (children the_json branch) (f v);
     regular pt := forall branch, get_child the_json pt (B key) = Some branch ->
       Forall (fun it => not_empty_branch it /\ well_formed d it) (children the_json branch) |}.

Definition RequiredArray {T} (here : tree -> option T) (key : string) (f : V -> list T) :
    clause V :=
  {| accepts pt := exists branch, get_child the_json pt (B key) = Some branch /\
       not_empty_branch branch /\ Forall (fun it => is_Some (here it)) (children the_json branch);
     decodes pt v := exists branch, get_child the_json pt (B key) = Some branch /\
       mapM here (children the_json branch) = Some (f v);
     regular pt := True |}.

Definition OptionalArray {T} (here : tree -> option T) (key : string) (f : V -> list T) :
    clause V :=
  {| accepts pt := True;
     decodes pt v :=
       f v = match get_child the_json pt (B key) with
             | Some branch => values here (children the_json branch)
             | None => []
             end;
     regular pt := True |}.

End Clauses.

(** ** Parameters of a request as text *)

(** A time in UTC; nothing for [not_a_date_time]. *)
Definition iso_time (t : ptime) : str :=
  match a_date the_time t with
  | Some t => to_iso_extended_string the_time t ++ B "Z"
  | None => []
  end.

Fixpoint comma_separated {T} (text : T -> str) (l : list T) : str :=
  match l with
  | [] => []
  | [x] => text x
  | x :: l => text x ++ B "," ++ comma_separated text l
  end.

(** ** Code that implements a description *)

Definition failed (r : ResponseBase) : Prop :=
  r_error_code the_json r = api_error ContentInvalidData /\
  r_error_string the_json r <> None.

Definition response_of {V} (x : flow V) : ResponseBase :=
  match x with Next r _ => r | Return r _ => r end.
Definition value_of {V} (x : flow V) : V :=
  match x with Next _ v => v | Return _ v => v end.

(** A statement that sets the member [f], which has its value of [v0] before. *)
Class Does {V T} (s : statement V) (v0 : V) (c : clause V) (f : V -> T) : Prop := {
  does_cases pt r v : f v = f v0 -> regular c pt ->
    (accepts c pt /\ exists v', s pt r v = Next r v' /\ decodes c pt v') \/
    (~ accepts c pt /\ failed (response_of (s pt r v)));
  does_fail pt r v : failed r -> failed (response_of (s pt r v));
  does_only pt v v' : f v = f v' -> decodes c pt v -> decodes c pt v';
  does_regular pt : accepts c pt -> regular c pt }.

(** What a body does that starts with [v0]. *)
Class Implements {V} (body : list (statement V)) (v0 : V) (d : description V) : Prop := {
  implements_cases pt r : well_formed d pt ->
    (accepted d pt /\ exists v, block body pt r v0 = Next r v /\ decoded d pt v) \/
    (~ accepted d pt /\ failed (response_of (block body pt r v0)));
  implements_fail pt r : failed r -> failed (response_of (block body pt r v0));
  implements_regular pt : accepted d pt -> well_formed d pt }.

(** A [...FromPropertyBranch] that is given [optarg]. *)
Class Parses {S} (p : branch_parser S) (optarg : S) (d : description S) : Prop := {
  parses_empty r pt : ~ not_empty_branch pt -> p r optarg pt = (false, r, optarg);
  parses_cases r pt : not_empty_branch pt -> well_formed d pt ->
    (accepted d pt /\ exists s, p r optarg pt = (true, r, s) /\ decoded d pt s) \/
    (~ accepted d pt /\ failed (p r optarg pt).1.2);
  parses_fail r pt : failed r -> failed (p r optarg pt).1.2;
  parses_regular pt : accepted d pt -> well_formed d pt }.

(** A [ParseResponse] that is given a new response. *)
Class ParsesResponse {V} (p : ResponseBase -> V -> ResponseBase * V) (new : V)
    (d : description V) : Prop := {
  parses_response r : let pt := r_pt the_json r in
    well_formed d pt ->
    (accepted d pt /\ exists v, p r new = (r, v) /\ decoded d pt v) \/
    (~ accepted d pt /\ failed (p r new).1);
  parses_response_regular pt : accepted d pt -> well_formed d pt }.

(** A call with these parameters: the path, whether it is signed with a session token, the
    parameters of the request, [None] where an optional one is not set, and the response. *)
Class ImplementsCall (c : api_call) (api : string) (token : bool)
    (params : call_Impl c -> list (string * option str))
    (d : description (call_Response c)) : Prop := {
  implements_response : ParsesResponse (call_ParseResponse c) (call_new c) d;
  implements_url parts : call_BuildUrl c parts = (B api ++ B ".php", parts);
  implements_token : call_uses_token c = token;
  implements_post MD5 a i : call_method c = Post ->
    call_GetPostData c MD5 a i =
      if token then MakePost MD5 a (B api ++ B ".php") (call_parts c i)
      else TokenlessMakePost (call_parts c i);
  implements_params i key value :
    (key, value) ∈ call_parts c i <-> exists k, key = B k /\ (k, Some value) ∈ params i;
  implements_order i : StronglySorted str_lt (call_parts c i).*1;
  implements_keys i : Forall (Forall plain) (call_parts c i).*1 }.

(** *** Members *)

Class Sets {V T} (f : V -> T) `{!Setter f} : Prop := sets x v : f (set_field f x v) = x.
(** [f'] is another member than [f]. *)
Class Leaves {V T T'} (f : V -> T) `{!Setter f} (f' : V -> T') : Prop :=
  leaves x v : f' (set_field f x v) = f' v.
Class Starts {V T} (f : V -> T) (v0 : V) (x : T) : Prop := starts : f v0 = x.

#[global] Arguments sets {V T} f {_ _} x v : rename.
#[global] Arguments leaves {V T T'} f {_} f' {_} x v : rename.
#[global] Arguments starts {V T} f v0 x {_} : rename.

(** The default is not lost where the text is not a value of the type. *)
Class Remains {T} (g : getter T) (d : T) : Prop := remains : otherwise g d = d.

(** A statement leaves a member as it is. *)
Class Keeps {V T} (s : statement V) (f : V -> T) : Prop :=
  keeps pt r v : f (value_of (s pt r v)) = f v.

End Descriptions.

Abbreviation description V := (list (clause V)).

#[export] Hint Extern 1 (Sets _) => (intros ??; reflexivity) : typeclass_instances.
#[export] Hint Extern 1 (Leaves _ _) => (intros ??; reflexivity) : typeclass_instances.
#[export] Hint Extern 1 (Remains _ _) => reflexivity : typeclass_instances.
#[export] Hint Extern 1 (Starts _ _ _) => reflexivity : typeclass_instances.
