(* ===== verification/EndpointProofs.v ===== *)
(** * The statements of the parsers implement the clauses of the descriptions

    One instance of [Does] and of [Keeps] for each form of statement, and the lemmas that put
    the statements of a body together. *)
From S2P Require Import Prelude Errors UrlEncode ApiRequests PropertyTree ApiResponses Endpoint EndpointSpec.

Section Proofs.
Context `{Libraries}.

(** ** Getters *)

Class Computes {T} (g : getter T) (at_path : tree -> str -> option T) : Prop :=
  computes pt path : if_exists g pt path = at_path pt path.

Lemma GetIfExists_string_at pt path : GetIfExists the_json pt path = string_at pt path.
Proof.
  unfold GetIfExists, get_string, string_at. destruct (get_child _ _ _) as [b|]; [|done]. cbn.
  by destruct (data the_json b).
Qed.

#[global] Instance string_computes : Computes std_string string_at.
Proof. intros pt path. apply GetIfExists_string_at. Qed.

#[global] Instance number_computes w : Computes (an w) (number_at w).
Proof. by intros pt path. Qed.

#[global] Instance time_computes : Computes a_ptime time_at.
Proof.
  intros pt path. cbn. unfold GetIfExistsTime, time_at.
  rewrite <-GetIfExists_string_at. unfold GetIfExists. destruct (not_empty _) as [t|]; [|done].
  cbn. by destruct (time_from_string the_time t ≫= a_date the_time), (from_iso_string the_time t ≫= a_date the_time).
Qed.

Lemma enum_at_GetIfExists {E} (cases : list (string * E)) pt path :
  GetIfExists the_json pt path ≫= api_value cases = enum_at cases pt path.
Proof. by rewrite GetIfExists_string_at. Qed.

Lemma front_at_computes pt path : GetIfExistsArrayFrontString the_json pt path = front_at pt path.
Proof.
  unfold GetIfExistsArrayFrontString, GetIfExistsArrayFront, front_at.
  destruct (get_child _ _ _) as [b|]; [|done]. cbn. by destruct (children _ b).
Qed.

Lemma string_here_computes pt : GetValueIfExists the_json pt = string_here pt.
Proof. unfold GetValueIfExists, string_here. cbn. by destruct (data the_json pt). Qed.

(** What is read at an element. *)
Class Finds {T} (g here : tree -> option T) : Prop := finds pt : g pt = here pt.
#[global] Instance string_finds : Finds (GetValueIfExists the_json) string_here.
Proof. intros pt. apply string_here_computes. Qed.
#[global] Instance number_finds w : Finds (GetValueIfExistsNumber the_json w) (number_here w).
Proof. by intros pt. Qed.

(** ** Failed responses stay failed *)

Lemma return_error_failed text r : failed (return_error text r).
Proof. done. Qed.
Hint Resolve return_error_failed : core.

Section Forms.
Context {V : Type}.

#[local] Abbreviation fails s :=
  (forall (pt : tree) (r : ResponseBase) (v : V), failed r -> failed (response_of (s pt r v))).

(** A statement that never fails, and one that may. *)
Lemma does_always {T} (s : statement V) v0 (c : clause V) (f : V -> T) :
  (forall pt, accepts c pt) -> (forall pt, regular c pt) ->
  (forall pt r v, f v = f v0 -> exists v', s pt r v = Next r v' /\ decodes c pt v') ->
  (forall pt r v, response_of (s pt r v) = r) ->
  (forall pt v v', f v = f v' -> decodes c pt v -> decodes c pt v') ->
  Does s v0 c f.
Proof.
  intros Ha Hr Hs Hf Ho. split; [|by intros; rewrite Hf|done|done].
  intros pt r v Hv _. left. split; [done|]. by apply Hs.
Qed.

#[global] Instance required_does {T} (g : getter T) at_path key (f : V -> T) `{!Setter f}
    `{!Sets f, !Computes g at_path} v0 :
  Does (required g key f) v0 (Required at_path key f) f.
Proof.
  split; cbn; [|intros pt r v|by intros pt v v' <-|done]; unfold required; rewrite ?computes.
  - intros pt r v _ _. rewrite computes. destruct (at_path pt (B key)) as [x|] eqn:E.
    + left. split; [done|]. eexists. by rewrite (sets f).
    + right. split; [by intros [? [=]]|]. cbn. auto.
  - by destruct (at_path pt (B key)).
Qed.

#[global] Instance with_default_does {T} (g : getter T) at_path key (f : V -> T) `{!Setter f}
    `{!Sets f, !Computes g at_path} v0 d `{!Starts f v0 d, !Remains g d} :
  Does (with_default g key f) v0 (Default d at_path key f) f.
Proof.
  apply does_always; cbn; [done..| | |by intros pt v v' <-];
    intros pt r v; unfold with_default; rewrite computes.
  - intros Hv. rewrite Hv, (starts f v0 d), (remains : otherwise g d = d).
    destruct (at_path pt (B key)); eexists; by rewrite (sets f).
  - by destruct (at_path pt (B key)).
Qed.

#[global] Instance optional_does {T} (g : getter T) at_path key (f : V -> option T) `{!Setter f}
    `{!Sets f, !Computes g at_path} v0 `{!Starts f v0 None} :
  Does (optional g key f) v0 (Optional at_path key f) f.
Proof.
  apply does_always; cbn; [done..| | |by intros pt v v' <-];
    intros pt r v; unfold optional; rewrite computes.
  - intros Hv. rewrite (starts f v0 None) in Hv.
    destruct (at_path pt (B key)); eexists; [by rewrite (sets f)|done].
  - by destruct (at_path pt (B key)).
Qed.

#[global] Instance required_front_does key (f : V -> str) `{!Setter f} `{!Sets f} v0 :
  Does (required_front (GetIfExistsArrayFrontString the_json) key f) v0
    (Required front_at key f) f.
Proof.
  split; cbn; [|intros pt r v|by intros pt v v' <-|done]; unfold required_front.
  - intros pt r v _ _. rewrite front_at_computes. destruct (front_at pt (B key)) as [x|] eqn:E.
    + left. split; [done|]. eexists. by rewrite (sets f).
    + right. split; [by intros [? [=]]|]. cbn. auto.
  - by destruct (GetIfExistsArrayFrontString _ pt (B key)).
Qed.

#[global] Instance required_enum_does {E} cases key (f : V -> E) `{!Setter f} `{!Sets f} v0 :
  Does (required_enum cases key f) v0 (Required (enum_at cases) key f) f.
Proof.
  split; cbn; [|intros pt r v|by intros pt v v' <-|done]; unfold required_enum.
  - intros pt r v _ _. rewrite <-enum_at_GetIfExists.
    destruct (GetIfExists the_json pt (B key)) as [text|]; cbn;
      [destruct (api_value cases text) as [e|]|].
    + left. split; [done|]. eexists. by rewrite (sets f).
    + right. split; [by intros [? [=]]|done].
    + right. split; [by intros [? [=]]|done].
  - destruct (GetIfExists the_json pt (B key)) as [text|]; [|done].
    by destruct (api_value cases text).
Qed.

Lemma optional_enum_next {E T} (into : E -> T) cases key (f : V -> T) `{!Setter f} pt r v :
  optional_enum into cases key f pt r v =
  Next r match enum_at cases pt (B key) with
         | Some e => set_field f (into e) v | None => v end.
Proof.
  unfold optional_enum. rewrite enum_at_GetIfExists. by destruct (enum_at cases pt (B key)).
Qed.

#[global] Instance default_enum_does {E} cases key (f : V -> E) `{!Setter f} `{!Sets f}
    v0 d `{!Starts f v0 d} :
  Does (optional_enum id cases key f) v0 (Default d (enum_at cases) key f) f.
Proof.
  apply does_always; cbn; [done..| | |by intros pt v v' <-]; intros pt r v;
    rewrite optional_enum_next; [|done].
  intros Hv. eexists. split; [done|]. destruct (enum_at cases pt (B key)); cbn.
  - by rewrite (sets f).
  - by rewrite Hv, (starts f v0 d).
Qed.

#[global] Instance optional_enum_does {E} cases key (f : V -> option E) `{!Setter f} `{!Sets f}
    v0 `{!Starts f v0 None} :
  Does (optional_enum Some cases key f) v0 (Optional (enum_at cases) key f) f.
Proof.
  apply does_always; cbn; [done..| | |by intros pt v v' <-]; intros pt r v;
    rewrite optional_enum_next; [|done].
  intros Hv. eexists. split; [done|]. destruct (enum_at cases pt (B key)); cbn.
  - by rewrite (sets f).
  - by rewrite Hv, (starts f v0 None).
Qed.

(** ** Structures *)

Section Structs.
Context {S : Type} (p : branch_parser S) (optarg : S) (d : description S)
  `{!Parses p optarg d}.

(** What the parser does at any branch. *)
Lemma parses_branch r b : (not_empty_branch b -> well_formed d b) ->
  (~ not_empty_branch b /\ p r optarg b = (false, r, optarg)) \/
  (not_empty_branch b /\ accepted d b /\
     exists s, p r optarg b = (true, r, s) /\ decoded d b s) \/
  (not_empty_branch b /\ ~ accepted d b /\ failed (p r optarg b).1.2).
Proof.
  intros Hw. destruct (decide (not_empty_branch b)) as [Hb|Hb].
  - right. destruct (parses_cases r b Hb (Hw Hb)) as [[? ?]|[? ?]]; [by left|by right].
  - left. split; [done|]. by apply parses_empty.
Qed.

#[global] Instance required_struct_does key (f : V -> S) `{!Setter f} `{!Sets f} v0 :
  Does (required_struct p optarg key f) v0 (RequiredStruct d key f) f.
Proof.
  split; cbn; unfold required_struct.
  - intros pt r v _ Hw. destruct (get_child the_json pt (B key)) as [b|]; cbn.
    2: { right. split; [by intros (? & [=] & _)|done]. }
    destruct (parses_branch r b (Hw b eq_refl)) as [[Hb ->]|[(Hb & Ha & s & -> & Hs)|(Hb & Ha & Hf)]].
    + right. split; [by intros (? & [= <-] & ? & _)|done].
    + left. split; [by exists b|]. eexists. split; [done|]. exists b. by rewrite (sets f).
    + right. split; [by intros (? & [= <-] & _ & ?)|].
      destruct (p r optarg b) as [[[] r'] s]; done.
  - intros pt r v Hf. destruct (get_child the_json pt (B key)) as [b|]; [|done].
    pose proof (parses_fail r b Hf) as Hf'. by destruct (p r optarg b) as [[[] r'] s].
  - intros pt v v' <-. done.
  - intros pt (b & Hb & _ & Ha) b' Hb' _. rewrite Hb in Hb'. injection Hb' as <-.
    by apply parses_regular.
Qed.

#[global] Instance optional_struct_does key (f : V -> option S) `{!Setter f} `{!Sets f} v0
    `{!Starts f v0 None} :
  Does (optional_struct p optarg key f) v0 (OptionalStruct d key f) f.
Proof.
  split; cbn; unfold optional_struct.
  - intros pt r v Hv Hw. rewrite (starts f v0 None) in Hv.
    destruct (get_child the_json pt (B key)) as [b|]; cbn.
    2: { left. split; [by intros ? [=]|]. eexists. split; [done|]. by rewrite Hv. }
    destruct (parses_branch r b (Hw b eq_refl)) as [[Hb ->]|[(Hb & Ha & s & -> & Hs)|(Hb & Ha & Hf)]].
    + left. split; [by intros ? [= <-] ?|]. eexists. split; [done|]. rewrite Hv. by intros ? [= <-].
    + left. split; [by intros ? [= <-] _|]. eexists. split; [done|].
      rewrite (sets f). by exists b.
    + right. split; [by intros Hall; apply Ha, Hall|].
      destruct (p r optarg b) as [[[] r'] s]; done.
  - intros pt r v Hf. destruct (get_child the_json pt (B key)) as [b|]; [|done].
    pose proof (parses_fail r b Hf) as Hf'. by destruct (p r optarg b) as [[[] r'] s].
  - intros pt v v' <-. done.
  - intros pt Hall b Hb Hne. apply parses_regular. by apply Hall.
Qed.

Lemma push_structs_fail l r to : failed r -> failed (push_structs p optarg l r to).1.
Proof.
  revert r to. induction l as [|b l IH]; intros r to Hf; [done|]. cbn.
  pose proof (parses_fail r b Hf) as Hf'. destruct (p r optarg b) as [[[] r'] s]; by apply IH.
Qed.

Lemma push_structs_cases l r to : Forall (well_formed d) (filter not_empty_branch l) ->
  (Forall (accepted d) (filter not_empty_branch l) /\
     exists ss, push_structs p optarg l r to = (r, to ++ ss) /\
       Forall2 (decoded d) (filter not_empty_branch l) ss) \/
  (~ Forall (accepted d) (filter not_empty_branch l) /\
     failed (push_structs p optarg l r to).1).
Proof.
  revert to. induction l as [|b l IH]; intros to; cbn -[filter].
  { left. split; [done|]. exists []. by rewrite app_nil_r. }
  rewrite filter_cons. intros Hw.
  destruct (parses_branch r b) as [[Hb Hp]|[(Hb & Ha & s & Hp & Hs)|(Hb & Ha & Hf)]].
  { intros Hb. rewrite decide_True in Hw by done. by apply Forall_inv in Hw. }
  - rewrite Hp, decide_False in * by done. by apply IH.
  - rewrite Hp, decide_True in * by done. apply Forall_cons in Hw as [_ Hw].
    destruct (IH (to ++ [s]) Hw) as [(Hall & ss & -> & Hss)|[Hall Hf]].
    + left. split; [by constructor|]. exists (s :: ss). rewrite <-app_assoc. split; [done|].
      by constructor.
    + right. split; [|done]. by intros [_ ?]%Forall_cons.
  - rewrite decide_True by done. right. split; [by intros [? _]%Forall_cons|].
    destruct (p r optarg b) as [[[] r'] s]; by apply push_structs_fail.
Qed.

#[global] Instance optional_structs_does key (f : V -> list S) `{!Setter f} `{!Sets f} v0
    `{!Starts f v0 nil} :
  Does (optional_structs p optarg key f) v0 (OptionalStructs d key f) f.
Proof.
  split; cbn -[filter]; unfold optional_structs.
  - intros pt r v Hv Hw. rewrite (starts f v0 []) in Hv. rewrite Hv.
    destruct (get_child the_json pt (B key)) as [b|]; cbn -[filter].
    2: { left. split; [by intros ? [=]|]. by eexists. }
    destruct (push_structs_cases (children the_json b) r [] (Hw b eq_refl))
      as [(Ha & ss & -> & Hss)|[Ha Hf]].
    + left. split; [by intros ? [= <-]|]. eexists. split; [done|]. by rewrite (sets f).
    + right. split; [by intros Hall; apply Ha, Hall|]. by destruct (push_structs _ _ _ _ _).
  - intros pt r v Hf. destruct (get_child the_json pt (B key)) as [b|]; [|done].
    pose proof (push_structs_fail (children the_json b) r (f v) Hf). by destruct (push_structs _ _ _ _ _).
  - intros pt v v' <-. done.
  - intros pt Hall b Hb. eapply Forall_impl; [by apply Hall|]. apply parses_regular.
Qed.

Lemma push_all_structs_fail l r to : failed r -> failed (push_all_structs p optarg l r to).1.2.
Proof.
  revert r to. induction l as [|b l IH]; intros r to Hf; [done|]. cbn.
  pose proof (parses_fail r b Hf) as Hf'. destruct (p r optarg b) as [[[] r'] s]; [by apply IH|done].
Qed.

Lemma push_all_structs_cases l r to :
  Forall (fun it => not_empty_branch it /\ well_formed d it) l ->
  (Forall (fun it => not_empty_branch it /\ accepted d it) l /\
     exists ss, push_all_structs p optarg l r to = (true, r, to ++ ss) /\
       Forall2 (decoded d) l ss) \/
  (~ Forall (fun it => not_empty_branch it /\ accepted d it) l /\
     failed (push_all_structs p optarg l r to).1.2).
Proof.
  intros Hw. revert to. induction Hw as [|b l [Hb Hwb] _ IH]; intros to; cbn.
  { left. split; [done|]. exists []. by rewrite app_nil_r. }
  destruct (parses_branch r b (fun _ => Hwb)) as [[? _]|[(_ & Ha & s & -> & Hs)|(_ & Ha & Hf)]];
    [done| |].
  - destruct (IH (to ++ [s])) as [(Hall & ss & -> & Hss)|[Hall Hf]].
    + left. split; [by constructor|]. exists (s :: ss). rewrite <-app_assoc. split; [done|].
      by constructor.
    + right. split; [|done]. by intros [_ ?]%Forall_cons.
  - right. split; [by intros [[_ ?] _]%Forall_cons|].
    destruct (p r optarg b) as [[[] r'] s]; [by apply push_all_structs_fail|done].
Qed.

#[global] Instance required_structs_does key (f : V -> list S) `{!Setter f} `{!Sets f} v0
    `{!Starts f v0 nil} :
  Does (required_structs p optarg key f) v0 (RequiredStructs d key f) f.
Proof.
  split; cbn; unfold required_structs.
  - intros pt r v Hv Hw. rewrite (starts f v0 []) in Hv. rewrite Hv.
    destruct (get_child the_json pt (B key)) as [b|]; cbn.
    2: { right. split; [by intros (? & [=] & _)|done]. }
    destruct (push_all_structs_cases (children the_json b) r [] (Hw b eq_refl))
      as [(Ha & ss & -> & Hss)|[Ha Hf]].
    + left. split; [by exists b|]. eexists. split; [done|]. exists b. by rewrite (sets f).
    + right. split; [by intros (? & [= <-] & ?)|]. by destruct (push_all_structs _ _ _ _ _) as [[[] ?] ?].
  - intros pt r v Hf. destruct (get_child the_json pt (B key)) as [b|]; [|done].
    pose proof (push_all_structs_fail (children the_json b) r (f v) Hf).
    by destruct (push_all_structs _ _ _ _ _) as [[[] ?] ?].
  - intros pt v v' <-. done.
  - intros pt (b & Hb & Ha) b' Hb'. rewrite Hb in Hb'. injection Hb' as <-.
    eapply Forall_impl; [done|]. intros it [? ?]. split; [done|]. by apply parses_regular.
Qed.

End Structs.

(** ** Arrays *)

Section Arrays.
Context {T : Type} (g here : tree -> option T) `{!Finds g here}.

Lemma push_values_values l to : (push_values g l to).2 = to ++ values here l.
Proof.
  revert to. induction l as [|b l IH]; intros to; cbn; [by rewrite app_nil_r|].
  rewrite finds. destruct (here b); [|by rewrite app_nil_r]. by rewrite IH, <-app_assoc.
Qed.

Lemma push_values_all l to :
  (push_values g l to).1 = bool_decide (Forall (fun it => is_Some (here it)) l) /\
  (Forall (fun it => is_Some (here it)) l -> mapM here l = Some (values here l)).
Proof.
  revert to. induction l as [|b l IH]; intros to; cbn -[bool_decide]; [by rewrite bool_decide_true|].
  rewrite finds. destruct (here b) as [x|] eqn:Eb; cbn -[bool_decide].
  - destruct (IH (to ++ [x])) as [-> Hm]. split.
    + apply bool_decide_ext. rewrite Forall_cons, Eb. naive_solver.
    + intros [_ ->%Hm]%Forall_cons. done.
  - split; [|by intros [[? ?] _]%Forall_cons; congruence].
    rewrite bool_decide_false; [done|]. intros [[? ?] _]%Forall_cons. congruence.
Qed.

#[global] Instance required_array_does key (f : V -> list T) `{!Setter f} `{!Sets f} v0
    `{!Starts f v0 nil} :
  Does (required_array g key f) v0 (RequiredArray here key f) f.
Proof.
  split; cbn; unfold required_array.
  - intros pt r v Hv _. rewrite (starts f v0 []) in Hv. rewrite Hv.
    destruct (get_child the_json pt (B key)) as [b|]; cbn.
    2: { right. split; [by intros (? & [=] & _)|done]. }
    case_decide as Hb; [right; split; [by intros (? & [= <-] & ? & _)|done]|].
    destruct (push_values_all (children the_json b) []) as [Hok Hm].
    pose proof (push_values_values (children the_json b) []) as Hv2.
    destruct (push_values g (children the_json b) []) as [ok to]. cbn in Hok, Hv2. subst ok to.
    case_bool_decide as Hall.
    + left. split; [by exists b|]. eexists. split; [done|]. exists b. rewrite (sets f). auto.
    + right. split; [by intros (? & [= <-] & _ & ?)|done].
  - intros pt r v Hf. destruct (get_child the_json pt (B key)) as [b|]; [|done].
    case_decide; [done|]. by destruct (push_values _ _ _) as [[] ?].
  - intros pt v v' <-. done.
  - done.
Qed.

#[global] Instance optional_array_does key (f : V -> list T) `{!Setter f} `{!Sets f} v0
    `{!Starts f v0 nil} :
  Does (optional_array g key f) v0 (OptionalArray here key f) f.
Proof.
  apply does_always; cbn; [done..| | |by intros pt v v' <-]; intros pt r v;
    unfold optional_array.
  - intros Hv. rewrite (starts f v0 []) in Hv. rewrite Hv.
    destruct (get_child the_json pt (B key)) as [b|]; cbn; eexists; [|done].
    split; [done|]. by rewrite (sets f), push_values_values.
  - by destruct (get_child the_json pt (B key)).
Qed.

End Arrays.

(** ** A statement keeps the members that it does not set *)

Section Keeping.
Context {T T' : Type} (f : V -> T) (f' : V -> T') `{!Setter f} `{!Leaves f f'}.

#[local] Ltac keep s :=
  intros pt r v; unfold s; repeat case_match; simplify_eq/=;
  first [done|apply (leaves f f')].

#[global] Instance required_keeps g key : Keeps (required g key f) f'.
Proof. keep (@required). Qed.
#[global] Instance with_default_keeps g key : Keeps (with_default g key f) f'.
Proof. keep (@with_default). Qed.
#[global] Instance required_front_keeps g key : Keeps (required_front g key f) f'.
Proof. keep (@required_front). Qed.
#[global] Instance required_enum_keeps cases key : Keeps (required_enum cases key f) f'.
Proof. keep (@required_enum). Qed.
#[global] Instance optional_enum_keeps {E} (into : E -> T) cases key :
  Keeps (optional_enum into cases key f) f'.
Proof. keep (@optional_enum). Qed.
#[global] Instance required_struct_keeps p optarg key :
  Keeps (required_struct p optarg key f) f'.
Proof. keep (@required_struct). Qed.
End Keeping.

Section KeepingOptions.
Context {T T' : Type} (f : V -> option T) (f' : V -> T') `{!Setter f} `{!Leaves f f'}.

#[global] Instance optional_keeps g key : Keeps (optional g key f) f'.
Proof. intros pt r v. unfold optional. case_match; [apply (leaves f f')|done]. Qed.
#[global] Instance optional_struct_keeps p optarg key :
  Keeps (optional_struct p optarg key f) f'.
Proof.
  intros pt r v. unfold optional_struct. repeat case_match; simplify_eq/=;
    first [done|apply (leaves f f')].
Qed.
End KeepingOptions.

Section KeepingLists.
Context {T T' : Type} (f : V -> list T) (f' : V -> T') `{!Setter f} `{!Leaves f f'}.

#[local] Ltac keep s :=
  intros pt r v; unfold s; repeat (case_match || case_decide); simplify_eq/=;
  first [done|apply (leaves f f')].

#[global] Instance optional_structs_keeps p optarg key :
  Keeps (optional_structs p optarg key f) f'.
Proof. keep (@optional_structs). Qed.
#[global] Instance required_structs_keeps p optarg key :
  Keeps (required_structs p optarg key f) f'.
Proof. keep (@required_structs). Qed.
#[global] Instance required_array_keeps g key : Keeps (required_array g key f) f'.
Proof. keep (@required_array). Qed.
#[global] Instance optional_array_keeps g key : Keeps (optional_array g key f) f'.
Proof. keep (@optional_array). Qed.
End KeepingLists.

(** ** Bodies *)

Lemma block_keeps {T} (f : V -> T) body :
  Forall (fun s => Keeps s f) body -> Keeps (block body) f.
Proof.
  induction 1 as [|s body Hs _ IH]; intros pt r v; [done|]. cbn.
  specialize (Hs pt r v). destruct (s pt r v) as [r' v'|r' v']; [|done]. rewrite IH. exact Hs.
Qed.

(** The members that are still as in the start. *)
Definition as_in {T} (f : V -> T) (v0 : V) (rest : V -> Prop) : V -> Prop :=
  fun v => f v = f v0 /\ rest v.

Class Stable (s : statement V) (I : V -> Prop) : Prop :=
  stable pt r v : I v -> I (value_of (s pt r v)).
#[global] Instance stable_true s : Stable s (fun _ => True).
Proof. by intros pt r v. Qed.
#[global] Instance stable_as_in {T} s (f : V -> T) v0 rest :
  Keeps s f -> Stable s rest -> Stable s (as_in f v0 rest).
Proof.
  intros Hf Hr pt r v [Hv Hrest]. split; [by rewrite (Hf pt r v)|by apply Hr].
Qed.

(** The statements do the clauses, each sets a member of its own. *)
Class Steps (body : list (statement V)) (v0 : V) (d : description V) (I : V -> Prop) : Prop := {
  steps_start : I v0;
  steps_cases pt r v : I v -> well_formed d pt ->
    (accepted d pt /\ exists v', block body pt r v = Next r v' /\ decoded d pt v') \/
    (~ accepted d pt /\ failed (response_of (block body pt r v)));
  steps_fail pt r v : failed r -> failed (response_of (block body pt r v));
  steps_regular pt : accepted d pt -> well_formed d pt }.

#[global] Instance steps_nil v0 : Steps [] v0 [] (fun _ => True).
Proof.
  split; [done| |done|by constructor].
  intros pt r v _ _. left. split; [by constructor|]. exists v. split; [done|by constructor].
Qed.

Class AllKeep {T} (body : list (statement V)) (f : V -> T) : Prop :=
  all_keep : Forall (fun s => Keeps s f) body.
#[global] Instance all_keep_nil {T} (f : V -> T) : AllKeep [] f.
Proof. by constructor. Qed.
#[global] Instance all_keep_cons {T} s body (f : V -> T) :
  Keeps s f -> AllKeep body f -> AllKeep (s :: body) f.
Proof. by constructor. Qed.

#[global] Instance steps_cons {T} s body v0 c d (f : V -> T) I :
  Does s v0 c f -> AllKeep body f -> Steps body v0 d I -> Stable s I ->
  Steps (s :: body) v0 (c :: d) (as_in f v0 I).
Proof.
  intros Hs Hk Hb Hst. split.
  - split; [done|]. apply (steps_start (d:=d)).
  - intros pt r v [Hv HI] [Hwc Hwd]%Forall_cons. cbn.
    specialize (Hst pt r v HI).
    destruct (does_cases pt r v Hv Hwc) as [(Ha & v1 & E & Hd)|[Ha Hf]].
    + rewrite E in *. cbn in Hst.
      destruct (steps_cases (d:=d) pt r v1 Hst Hwd) as [(Had & v2 & E2 & Hd2)|[Had Hf]].
      * left. split; [by constructor|]. exists v2. split; [done|]. constructor; [|done].
        apply (does_only pt v1 v2); [|done].
        pose proof (block_keeps f body Hk pt r v1) as Hk2. by rewrite E2 in Hk2.
      * right. split; [|done]. by intros [_ ?]%Forall_cons.
    + right. split; [by intros [? _]%Forall_cons|].
      destruct (s pt r v) as [r1 v1|r1 v1]; [|done]. by apply (steps_fail (d:=d)).
  - intros pt r v Hf%(does_fail (c:=c) pt r v). cbn.
    destruct (s pt r v) as [r1 v1|r1 v1]; [|done]. by apply (steps_fail (d:=d)).
  - intros pt [Hc Hd]%Forall_cons. constructor; [by apply does_regular|].
    by apply (steps_regular (I:=I)).
Qed.

Lemma steps_implement body v0 d I : Steps body v0 d I -> Implements body v0 d.
Proof.
  intros Hs. split.
  - intros pt r. apply (steps_cases (I:=I)), (steps_start (d:=d)).
  - intros pt r. apply (steps_fail (d:=d)).
  - apply (steps_regular (I:=I)).
Qed.

(** The assignments of the defaults come first. *)
Lemma assign_implements {T} (f : V -> T) `{!Setter f} x body v0 d :
  Implements body (set_field f x v0) d -> Implements (assign f x :: body) v0 d.
Proof.
  intros Hb. split.
  - exact (implements_cases (body:=body) (v0:=set_field f x v0)).
  - exact (implements_fail (body:=body) (v0:=set_field f x v0) (d:=d)).
  - apply (implements_regular (body:=body) (v0:=set_field f x v0)).
Qed.

Lemma branch_parses body optarg (d : description V) :
  Implements body optarg d -> Parses (FromPropertyBranch body) optarg d.
Proof.
  intros Hb. split; unfold FromPropertyBranch.
  - intros r pt Hpt. case_decide; [done|]. by destruct Hpt.
  - intros r pt Hpt Hw. case_decide; [done|].
    destruct (implements_cases pt r Hw) as [(Ha & v & -> & Hd)|[Ha Hf]].
    + left. eauto.
    + right. split; [done|]. by destruct (block body pt r optarg).
  - intros r pt Hf. case_decide; [done|].
    apply (implements_fail (body:=body) (v0:=optarg) (d:=d) pt) in Hf.
    by destruct (block body pt r optarg).
  - apply (implements_regular (body:=body) (v0:=optarg)).
Qed.

Lemma response_parses body new (d : description V) :
  Implements body new d -> ParsesResponse (parse_response body) new d.
Proof.
  intros Hb. split; [|apply (implements_regular (body:=body) (v0:=new))].
  intros r pt Hw. unfold parse_response. fold pt.
  destruct (implements_cases pt r Hw) as [(Ha & v & -> & Hd)|[Ha Hf]].
  - left. eauto.
  - right. split; [done|]. by destruct (block body pt r new).
Qed.

End Forms.
End Proofs.

(** ** The parts of a request *)

Lemma str_lt_cons x a y b :
  str_lt (x :: a) (y :: b) <-> (byteZ x < byteZ y)%Z \/ x = y /\ str_lt a b.
Proof.
  cbn. rewrite orb_True, andb_True, !Is_true_true, Z.ltb_lt, Z.eqb_eq.
  split; (intros [?|[Hxy ?]]; [by left|right]); (split; [|done]).
  - by apply byteZ_inj.
  - by rewrite Hxy.
Qed.

Lemma str_lt_irrefl a : ~ str_lt a a.
Proof.
  induction a as [|x a IH]; [by intros []|]. rewrite str_lt_cons. intros [?|[_ ?]]; [lia|done].
Qed.

Lemma str_lt_trans a b c : str_lt a b -> str_lt b c -> str_lt a c.
Proof.
  revert b c. induction a as [|x a IH]; intros [|y b] [|z c]; try done.
  rewrite !str_lt_cons. intros [?|[-> ?]] [?|[-> ?]]; [left; lia|by left|by left|].
  right. split; [done|]. by apply IH with b.
Qed.

Lemma str_lt_total a b : a = b \/ str_lt a b \/ str_lt b a.
Proof.
  revert b. induction a as [|x a IH]; intros [|y b]; [by left|by right; left|by right; right|].
  rewrite !str_lt_cons. destruct (Z.lt_trichotomy (byteZ x) (byteZ y)) as [?|[Hxy|?]]; [tauto| |tauto].
  apply byteZ_inj in Hxy as ->. destruct (IH b) as [->|[?|?]]; tauto.
Qed.

#[local] Abbreviation ordered parts := (StronglySorted str_lt parts.*1).

Lemma set_part_keys k v m x : x ∈ (set_part k v m).*1 <-> x = k \/ x ∈ m.*1.
Proof.
  induction m as [|[k' v'] m IH]; cbn; [set_solver|].
  case_decide as Hk; [subst; set_solver|]. destruct (str_lt k k'); set_solver.
Qed.

Lemma set_part_ordered k v m : ordered m -> ordered (set_part k v m).
Proof.
  induction m as [|[k' v'] m IH]; cbn; intros Hm; [by repeat constructor|].
  apply StronglySorted_inv in Hm as [Hm Hlt].
  case_decide as Hk; [subst; by constructor|]. destruct (str_lt k k') eqn:E.
  - constructor; [by constructor|]. constructor; [cbn; by rewrite E|].
    eapply Forall_impl; [exact Hlt|]. intros x. apply (str_lt_trans k k' x). by rewrite E.
  - constructor; [by apply IH|]. apply Forall_forall. intros x [->|Hx]%set_part_keys.
    + destruct (str_lt_total k k') as [?|[H|?]]; [done| |done]. by rewrite E in H.
    + rewrite Forall_forall in Hlt. by apply Hlt.
Qed.

Lemma set_part_elem k v m it : ordered m ->
  it ∈ set_part k v m <-> it = (k, v) \/ it.1 <> k /\ it ∈ m.
Proof.
  destruct it as [x y]. induction m as [|[k' v'] m IH]; cbn; intros Hm; [set_solver|].
  apply StronglySorted_inv in Hm as [Hm Hlt]. rewrite Forall_forall in Hlt.
  assert (forall z, (x, z) ∈ m -> str_lt k' x) as Hin.
  { intros z Hz. apply Hlt. apply list_elem_of_fmap. by exists (x, z). }
  case_decide as Hk; [subst k'|destruct (str_lt k k') eqn:E]; rewrite !elem_of_cons.
  - split.
    + intros [?|Hm']; [by left|]. right. split; [|by right]. intros ->.
      by apply (str_lt_irrefl k), (Hin y).
    + intros [?|[Hne [[= -> ->]|?]]]; [by left|done|by right].
  - split; [|tauto]. intros [?|Hm']; [by left|]. right. split; [|done]. intros ->.
    destruct Hm' as [[= -> _]|Hm']; [done|]. apply Hin in Hm'.
    apply (str_lt_irrefl k), (str_lt_trans k k' k); [by rewrite E|done].
  - rewrite IH by done. split; [|naive_solver]. intros [[= -> ->]|[?|?]]; [|tauto..].
    right. split; [congruence|by left].
Qed.

#[global] Instance B_inj : Inj (=) (=) B.
Proof.
  intros s t Hst. apply (f_equal String.string_of_list_ascii) in Hst. unfold B in Hst.
  by rewrite !String.string_of_list_ascii_of_string in Hst.
Qed.

(** Every parameter that is set is a part, once and in order, and there are no others. *)
Lemma make_parts_spec l : NoDup l.*1 ->
  ordered (make_parts l) /\
  forall key value, (key, value) ∈ make_parts l <-> exists k, key = B k /\ (k, Some value) ∈ l.
Proof.
  induction l as [|[k o] l IH] using rev_ind; intros Hnd.
  { split; [constructor|]. intros key value. split; [by intros ?%elem_of_nil|].
    by intros (? & _ & ?%elem_of_nil). }
  rewrite fmap_app in Hnd. apply NoDup_app in Hnd as (Hl & Hk & _). specialize (IH Hl) as [Ho He].
  unfold make_parts. rewrite foldl_snoc. fold (make_parts l). cbn.
  destruct o as [v|]; [split; [by apply set_part_ordered|]|split; [done|]]; intros key value.
  - rewrite set_part_elem, He by done. split.
    + intros [[= -> ->]|[_ (k' & -> & ?)]]; [exists k; set_solver|exists k'; set_solver].
    + intros (k' & -> & [Hin|[= -> ->]%list_elem_of_singleton]%elem_of_app); [|by left]. right.
      split; [|by exists k']. cbn. intros ->%(inj B).
      apply (Hk k); [|set_solver]. apply list_elem_of_fmap. by exists (k, Some value).
  - rewrite He. split; intros (k' & -> & Hin); exists k'; (split; [done|]); [set_solver|].
    apply elem_of_app in Hin as [?|[= ]%list_elem_of_singleton]. done.
Qed.

Definition plain_key (k : string) : bool :=
  forallb (fun c => negb (RequiresPercentEncoding c)) (B k).

Section Calls.
Context `{Libraries}.

Lemma AsString_ptime_iso t : AsString_ptime t = iso_time t.
Proof.
  unfold AsString_ptime, AsStringTime, iso_time, a_date. by repeat case_decide.
Qed.

Lemma AsStringContainerType_comma {T} (f g : T -> str) l :
  (forall x, f x = g x) -> AsStringContainerType f l = comma_separated g l.
Proof.
  intros Hfg. destruct l as [|x l]; [done|]. cbn -[app].
  assert (forall pre, foldl (fun text it => text ++ B "," ++ f it) (pre ++ f x) l =
    pre ++ comma_separated g (x :: l)) as Hall; [|exact (Hall [])].
  revert x. induction l as [|y l IH]; intros x pre; cbn -[app]; [by rewrite Hfg|].
  specialize (IH y (pre ++ f x ++ B ",")). cbn -[app] in IH.
  rewrite <-!app_assoc in *. by rewrite IH, Hfg.
Qed.

Lemma call_implements c api token params d assignments :
  ParsesResponse (call_ParseResponse c) (call_new c) d ->
  (forall parts, call_BuildUrl c parts = (B api ++ B ".php", parts)) ->
  call_uses_token c = token ->
  (forall MD5 a i, call_method c = Post ->
    call_GetPostData c MD5 a i =
      if token then MakePost MD5 a (B api ++ B ".php") (call_parts c i)
      else TokenlessMakePost (call_parts c i)) ->
  (forall i, call_parts c i = make_parts (assignments i)) ->
  (forall i, assignments i = params i) ->
  (forall i, NoDup (params i).*1 /\ forallb plain_key (params i).*1 = true) ->
  ImplementsCall c api token params d.
Proof.
  intros Hr Hu Ht Hpost Ha Hp Hk.
  assert (forall i, call_parts c i = make_parts (params i)) as Hm by (intros i; by rewrite Ha, Hp).
  split; [done..| | |]; intros i; destruct (Hk i) as [Hnd Hplain];
    destruct (make_parts_spec _ Hnd) as [Ho He].
  - by rewrite Hm.
  - by rewrite Hm.
  - rewrite Hm. apply Forall_forall. intros x ([key value] & -> & Hin)%list_elem_of_fmap.
    apply He in Hin as (k & -> & Hin). cbn. apply plain_name.
    rewrite forallb_forall in Hplain. apply Hplain, list_elem_of_In.
    apply list_elem_of_fmap. by exists (k, Some value).
Qed.

End Calls.

(** Shows that a body implements its description. *)
Ltac implement :=
  lazymatch goal with
  | |- Implements (assign _ _ :: _) _ _ => apply assign_implements; implement
  | |- Implements _ _ _ => eapply steps_implement; apply _
  end.

(** The parser of a class and of one of its structures. *)
Ltac parse_class :=
  lazymatch goal with
  | |- Parses ?p _ ?d => unfold p, d; apply branch_parses; implement
  | |- ParsesResponse ?p _ ?d => unfold p, d; apply response_parses; implement
  end.

(** The text of a parameter is as described. *)
Ltac same_text :=
  first
    [ reflexivity
    | apply AsString_ptime_iso
    | apply AsStringContainerType_comma; intros ?; same_text
    | match goal with |- ?f ?x = ?g ?x => destruct x; reflexivity end ].

Ltac same_params :=
  lazymatch goal with
  | |- _ :: _ = _ :: _ =>
      apply f_equal2;
      [ apply f_equal2; [reflexivity|];
        first [reflexivity|apply option_fmap_ext; intros ?; same_text|apply f_equal; same_text]
      | same_params ]
  | |- _ => reflexivity
  end.

Ltac implement_call :=
  lazymatch goal with
  | |- ImplementsCall ?c _ _ ?params _ =>
      eapply (call_implements c);
      [ apply _
      | intros ?; reflexivity
      | reflexivity
      | intros ???; first [reflexivity|discriminate]
      | intros ?; reflexivity
      | intros ?; cbv beta; unfold params; same_params
      | intros ?; split; [apply (bool_decide_unpack _); vm_compute; reflexivity|vm_compute; reflexivity] ]
  end.
