(* ===== verification/ApiBilling.v ===== *)
(** * The calls [billing/...] ([api/billing])

    One module for each class, with the description it was generated from. *)
From S2P Require Import Prelude Errors ApiRequests PropertyTree ApiResponses Endpoint EndpointSpec EndpointProofs.

Open Scope Z_scope.

(** ** [api/billing/cancel_plan/v1_1.cpp] *)
Module billing_cancel_plan_v1_1.

(** [api/billing/cancel_plan/v1_1.hpp:29-35 CancellationReason] *)
Inductive CancellationReason : Set := CancellationReason_No | CancellationReason_Yes.
#[global] Instance CancellationReason_inhabited : Inhabited CancellationReason :=
  populate CancellationReason_No.

(** [api/billing/cancel_plan/v1_1.cpp:24-31 AsString] *)
Definition AsString_CancellationReason (value : CancellationReason) : str :=
  match value with
  | CancellationReason_No => B "0"
  | CancellationReason_Yes => B "1"
  end.

Section Call.
Context `{Libraries}.

(** [api/billing/cancel_plan/v1_1.hpp:44-51 Response] *)
Record Response := {
  Response_cancel_date : ptime;
  Response_confirmation : str;
  Response_last_invoice : option str }.
#[local] Instance Response_members : Members Response := fun v =>
  Build_Response (Response_cancel_date v) (Response_confirmation v) (Response_last_invoice v).
Definition new_Response : Response :=
  {| Response_cancel_date := not_a_date; Response_confirmation := [];
     Response_last_invoice := None |}.

(** [api/billing/cancel_plan/v1_1.cpp:90-130 Impl::ParseResponse] *)
Definition ParseResponse : ResponseBase -> Response -> ResponseBase * Response :=
  parse_response
  [ required a_ptime "response.cancel_date" Response_cancel_date;
    required std_string "response.confirmation" Response_confirmation;
    optional std_string "response.last_invoice" Response_last_invoice].

(** [api/billing/cancel_plan/v1_1.cpp:43-43 api_path] *)
Definition api_path : str := B "/api/1.1/billing/cancel_plan".

(** [api/billing/cancel_plan/v1_1.cpp:47-76 Impl] *)
Record Impl := {
  comments_ : option str;
  uploading_problems_ : option CancellationReason;
  downloading_problems_ : option CancellationReason;
  switching_to_other_service_ : option CancellationReason;
  download_speed_insufficient_ : option CancellationReason;
  out_of_money_ : option CancellationReason;
  too_expensive_ : option CancellationReason;
  no_longer_needed_ : option CancellationReason;
  lacking_features_ : option CancellationReason;
  lacking_service_ : option CancellationReason;
  cc_expiration_ : option str }.
#[local] Instance Impl_members : Members Impl := fun v =>
  Build_Impl (comments_ v) (uploading_problems_ v) (downloading_problems_ v)
    (switching_to_other_service_ v) (download_speed_insufficient_ v) (out_of_money_ v)
    (too_expensive_ v) (no_longer_needed_ v) (lacking_features_ v) (lacking_service_ v)
    (cc_expiration_ v).

(** [api/billing/cancel_plan/v1_1.cpp:78-80 Impl::Impl] *)
Definition new_Impl : Impl :=
  {| comments_ := None; uploading_problems_ := None; downloading_problems_ := None;
     switching_to_other_service_ := None; download_speed_insufficient_ := None;
     out_of_money_ := None; too_expensive_ := None; no_longer_needed_ := None;
     lacking_features_ := None; lacking_service_ := None; cc_expiration_ := None |}.

(** [api/billing/cancel_plan/v1_1.cpp:208-211 Request::SetComments] *)
Definition SetComments (comments : str) (i : Impl) : Impl :=
  set_field comments_ (Some comments) i.

(** [api/billing/cancel_plan/v1_1.cpp:213-216 Request::SetUploadingProblems] *)
Definition SetUploadingProblems (uploading_problems : CancellationReason) (i : Impl) : Impl :=
  set_field uploading_problems_ (Some uploading_problems) i.

(** [api/billing/cancel_plan/v1_1.cpp:218-221 Request::SetDownloadingProblems] *)
Definition SetDownloadingProblems (downloading_problems : CancellationReason) (i : Impl) : Impl :=
  set_field downloading_problems_ (Some downloading_problems) i.

(** [api/billing/cancel_plan/v1_1.cpp:223-226 Request::SetSwitchingToOtherService] *)
Definition SetSwitchingToOtherService (switching_to_other_service : CancellationReason) (i : Impl) : Impl :=
  set_field switching_to_other_service_ (Some switching_to_other_service) i.

(** [api/billing/cancel_plan/v1_1.cpp:228-231 Request::SetDownloadSpeedInsufficient] *)
Definition SetDownloadSpeedInsufficient (download_speed_insufficient : CancellationReason) (i : Impl) : Impl :=
  set_field download_speed_insufficient_ (Some download_speed_insufficient) i.

(** [api/billing/cancel_plan/v1_1.cpp:233-236 Request::SetOutOfMoney] *)
Definition SetOutOfMoney (out_of_money : CancellationReason) (i : Impl) : Impl :=
  set_field out_of_money_ (Some out_of_money) i.

(** [api/billing/cancel_plan/v1_1.cpp:238-241 Request::SetTooExpensive] *)
Definition SetTooExpensive (too_expensive : CancellationReason) (i : Impl) : Impl :=
  set_field too_expensive_ (Some too_expensive) i.

(** [api/billing/cancel_plan/v1_1.cpp:243-246 Request::SetNoLongerNeeded] *)
Definition SetNoLongerNeeded (no_longer_needed : CancellationReason) (i : Impl) : Impl :=
  set_field no_longer_needed_ (Some no_longer_needed) i.

(** [api/billing/cancel_plan/v1_1.cpp:248-251 Request::SetLackingFeatures] *)
Definition SetLackingFeatures (lacking_features : CancellationReason) (i : Impl) : Impl :=
  set_field lacking_features_ (Some lacking_features) i.

(** [api/billing/cancel_plan/v1_1.cpp:253-256 Request::SetLackingService] *)
Definition SetLackingService (lacking_service : CancellationReason) (i : Impl) : Impl :=
  set_field lacking_service_ (Some lacking_service) i.

(** [api/billing/cancel_plan/v1_1.cpp:258-261 Request::SetCcExpiration] *)
Definition SetCcExpiration (cc_expiration : str) (i : Impl) : Impl :=
  set_field cc_expiration_ (Some cc_expiration) i.

(** [api/billing/cancel_plan/v1_1.cpp:82-88 Impl::BuildUrl] *)
Definition BuildUrl (query_parts : list query_part) : str * list query_part :=
  (api_path ++ B ".php", query_parts).

(** [api/billing/cancel_plan/v1_1.cpp:72-75 Impl::GetRequestMethod] *)
Definition GetRequestMethod : RequestMethod := Post.

(** The assignments to [parts].
    [api/billing/cancel_plan/v1_1.cpp:132-162 Impl::GetPostData] *)
Definition post_parts (i : Impl) : list query_part := make_parts
  [("comments", comments_ i);
   ("x_uploading", AsString_CancellationReason <$> uploading_problems_ i);
   ("x_downloading", AsString_CancellationReason <$> downloading_problems_ i);
   ("x_switching", AsString_CancellationReason <$> switching_to_other_service_ i);
   ("x_speed", AsString_CancellationReason <$> download_speed_insufficient_ i);
   ("x_money_problems", AsString_CancellationReason <$> out_of_money_ i);
   ("x_too_expensive", AsString_CancellationReason <$> too_expensive_ i);
   ("x_technophobe", AsString_CancellationReason <$> no_longer_needed_ i);
   ("x_lacking_features", AsString_CancellationReason <$> lacking_features_ i);
   ("x_lacking_service", AsString_CancellationReason <$> lacking_service_ i);
   ("x_other", cc_expiration_ i)].

(** [api/billing/cancel_plan/v1_1.cpp:132-162 Impl::GetPostData] *)
Definition GetPostData (MD5 : str -> str) (a : SessionTokenApi) (i : Impl) : str :=
  MakePost MD5 a (api_path ++ B ".php") (post_parts i).

(** *** The description *)

(** [api/templates/apis/billing/v1_1/cancel_plan.json:76-93 return_params] *)
Definition Response_described : description Response :=
  [ Required time_at "response.cancel_date" Response_cancel_date;
    Required string_at "response.confirmation" Response_confirmation;
    Optional string_at "response.last_invoice" Response_last_invoice].

(** [api/templates/apis/billing/v1_1/cancel_plan.json:5-17 CancellationReason] *)
Definition AsDescribed_CancellationReason (value : CancellationReason) : str :=
  match value with
  | CancellationReason_No => B "0"
  | CancellationReason_Yes => B "1"
  end.

(** [api/templates/apis/billing/v1_1/cancel_plan.json:19-75 input_params] *)
Definition params_described (i : Impl) : list (string * option str) :=
  [("comments", comments_ i);
   ("x_uploading", (AsDescribed_CancellationReason) <$> uploading_problems_ i);
   ("x_downloading", (AsDescribed_CancellationReason) <$> downloading_problems_ i);
   ("x_switching", (AsDescribed_CancellationReason) <$> switching_to_other_service_ i);
   ("x_speed", (AsDescribed_CancellationReason) <$> download_speed_insufficient_ i);
   ("x_money_problems", (AsDescribed_CancellationReason) <$> out_of_money_ i);
   ("x_too_expensive", (AsDescribed_CancellationReason) <$> too_expensive_ i);
   ("x_technophobe", (AsDescribed_CancellationReason) <$> no_longer_needed_ i);
   ("x_lacking_features", (AsDescribed_CancellationReason) <$> lacking_features_ i);
   ("x_lacking_service", (AsDescribed_CancellationReason) <$> lacking_service_ i);
   ("x_other", cc_expiration_ i)].

#[global] Instance Response_parses :
  ParsesResponse ParseResponse new_Response Response_described.
Proof. parse_class. Qed.

Definition call : api_call := {|
  call_method := GetRequestMethod;
  call_uses_token := true;
  call_BuildUrl := BuildUrl;
  call_parts := post_parts;
  call_GetPostData := GetPostData;
  call_new := new_Response;
  call_ParseResponse := ParseResponse |}.

#[global] Instance call_implements :
  ImplementsCall call "/api/1.1/billing/cancel_plan" true params_described Response_described.
Proof. implement_call. Qed.

End Call.
End billing_cancel_plan_v1_1.

(** ** [api/billing/change_plan/v1_1.cpp] *)
Module billing_change_plan_v1_1.

(** [api/billing/change_plan/v1_1.hpp:29-35 InfoOnly] *)
Inductive InfoOnly : Set := InfoOnly_No | InfoOnly_Yes.
#[global] Instance InfoOnly_inhabited : Inhabited InfoOnly := populate InfoOnly_No.

(** [api/billing/change_plan/v1_1.cpp:24-31 AsString] *)
Definition AsString_InfoOnly (value : InfoOnly) : str :=
  match value with
  | InfoOnly_No => B "no"
  | InfoOnly_Yes => B "yes"
  end.

Section Call.
Context `{Libraries}.

(** [api/billing/change_plan/v1_1.hpp:44-57 Response] *)
Record Response := {
  Response_next_billing : option str;
  Response_info_only : InfoOnly;
  Response_new_pid : Z;
  Response_amount : str;
  Response_interval : Z }.
#[local] Instance Response_members : Members Response := fun v =>
  Build_Response (Response_next_billing v) (Response_info_only v) (Response_new_pid v)
    (Response_amount v) (Response_interval v).
Definition new_Response : Response :=
  {| Response_next_billing := None; Response_info_only := indeterminate InfoOnly _;
     Response_new_pid := indeterminate Z _; Response_amount := [];
     Response_interval := indeterminate Z _ |}.

(** [api/billing/change_plan/v1_1.cpp:91-163 Impl::ParseResponse] *)
Definition ParseResponse : ResponseBase -> Response -> ResponseBase * Response :=
  parse_response
  [ optional std_string "response.nextbilling" Response_next_billing;
    required_enum [("no", InfoOnly_No); ("yes", InfoOnly_Yes)]
       "response.info_only" Response_info_only;
    required (an uint32) "response.newpid" Response_new_pid;
    required std_string "response.amount" Response_amount;
    required (an uint32) "response.interval" Response_interval].

(** [api/billing/change_plan/v1_1.cpp:43-43 api_path] *)
Definition api_path : str := B "/api/1.1/billing/change_plan".

(** [api/billing/change_plan/v1_1.cpp:47-72 Impl] *)
Record Impl := {
  product_id_ : Z;
  info_only_ : InfoOnly;
  subdomain_ : option str;
  company_ : option str }.
#[local] Instance Impl_members : Members Impl := fun v =>
  Build_Impl (product_id_ v) (info_only_ v) (subdomain_ v) (company_ v).

(** [api/billing/change_plan/v1_1.cpp:74-81 Impl::Impl] *)
Definition new_Impl (product_id : Z) (info_only : InfoOnly) : Impl :=
  {| product_id_ := product_id; info_only_ := info_only; subdomain_ := None; company_ := None |}.

(** [api/billing/change_plan/v1_1.cpp:228-231 Request::SetSubdomain] *)
Definition SetSubdomain (subdomain : str) (i : Impl) : Impl :=
  set_field subdomain_ (Some subdomain) i.

(** [api/billing/change_plan/v1_1.cpp:233-236 Request::SetCompany] *)
Definition SetCompany (company : str) (i : Impl) : Impl := set_field company_ (Some company) i.

(** [api/billing/change_plan/v1_1.cpp:83-89 Impl::BuildUrl] *)
Definition BuildUrl (query_parts : list query_part) : str * list query_part :=
  (api_path ++ B ".php", query_parts).

(** [api/billing/change_plan/v1_1.cpp:68-71 Impl::GetRequestMethod] *)
Definition GetRequestMethod : RequestMethod := Post.

(** The assignments to [parts].
    [api/billing/change_plan/v1_1.cpp:165-179 Impl::GetPostData] *)
Definition post_parts (i : Impl) : list query_part := make_parts
  [("product_id", Some (print_int (product_id_ i)));
   ("info_only", Some (AsString_InfoOnly (info_only_ i)));
   ("subdomain", subdomain_ i);
   ("company", company_ i)].

(** [api/billing/change_plan/v1_1.cpp:165-179 Impl::GetPostData] *)
Definition GetPostData (MD5 : str -> str) (a : SessionTokenApi) (i : Impl) : str :=
  MakePost MD5 a (api_path ++ B ".php") (post_parts i).

(** *** The description *)

(** [api/templates/apis/billing/v1_1/change_plan.json:43-70 return_params] *)
Definition Response_described : description Response :=
  [ Optional string_at "response.nextbilling" Response_next_billing;
    Required (enum_at [("no", InfoOnly_No); ("yes", InfoOnly_Yes)])
       "response.info_only" Response_info_only;
    Required (number_at uint32) "response.newpid" Response_new_pid;
    Required string_at "response.amount" Response_amount;
    Required (number_at uint32) "response.interval" Response_interval].

(** [api/templates/apis/billing/v1_1/change_plan.json:5-17 InfoOnly] *)
Definition AsDescribed_InfoOnly (value : InfoOnly) : str :=
  match value with
  | InfoOnly_No => B "no"
  | InfoOnly_Yes => B "yes"
  end.

(** [api/templates/apis/billing/v1_1/change_plan.json:19-42 input_params] *)
Definition params_described (i : Impl) : list (string * option str) :=
  [("product_id", Some (print_int (product_id_ i)));
   ("info_only", Some ((AsDescribed_InfoOnly) (info_only_ i)));
   ("subdomain", subdomain_ i);
   ("company", company_ i)].

#[global] Instance Response_parses :
  ParsesResponse ParseResponse new_Response Response_described.
Proof. parse_class. Qed.

Definition call : api_call := {|
  call_method := GetRequestMethod;
  call_uses_token := true;
  call_BuildUrl := BuildUrl;
  call_parts := post_parts;
  call_GetPostData := GetPostData;
  call_new := new_Response;
  call_ParseResponse := ParseResponse |}.

#[global] Instance call_implements :
  ImplementsCall call "/api/1.1/billing/change_plan" true params_described Response_described.
Proof. implement_call. Qed.

End Call.
End billing_change_plan_v1_1.

(** ** [api/billing/get_invoice/v1_1.cpp] *)
Module billing_get_invoice_v1_1.

(** [api/billing/get_invoice/v1_1.hpp:29-35 Activity] *)
Inductive Activity : Set := Activity_Inactive | Activity_Active.
#[global] Instance Activity_inhabited : Inhabited Activity := populate Activity_Inactive.

(** [api/billing/get_invoice/v1_1.hpp:37-43 Legacy] *)
Inductive Legacy : Set := Legacy_No | Legacy_Yes.
#[global] Instance Legacy_inhabited : Inhabited Legacy := populate Legacy_No.

(** [api/billing/get_invoice/v1_1.hpp:45-51 Recurring] *)
Inductive Recurring : Set := Recurring_NonRecurring | Recurring_Recurring.
#[global] Instance Recurring_inhabited : Inhabited Recurring := populate Recurring_NonRecurring.

(** [api/billing/get_invoice/v1_1.hpp:53-59 ResellerEntitled] *)
Inductive ResellerEntitled : Set := ResellerEntitled_No | ResellerEntitled_Yes.
#[global] Instance ResellerEntitled_inhabited : Inhabited ResellerEntitled :=
  populate ResellerEntitled_No.

(** [api/billing/get_invoice/v1_1.hpp:61-67 Trial] *)
Inductive Trial : Set := Trial_NonTrial | Trial_Trial.
#[global] Instance Trial_inhabited : Inhabited Trial := populate Trial_NonTrial.

(** [api/billing/get_invoice/v1_1.hpp:69-75 UsesCredits] *)
Inductive UsesCredits : Set := UsesCredits_No | UsesCredits_Yes.
#[global] Instance UsesCredits_inhabited : Inhabited UsesCredits := populate UsesCredits_No.

(** [api/billing/get_invoice/v1_1.hpp:77-83 Yearly] *)
Inductive Yearly : Set := Yearly_NotYearly | Yearly_Yearly.
#[global] Instance Yearly_inhabited : Inhabited Yearly := populate Yearly_NotYearly.

Section Call.
Context `{Libraries}.

(** [api/billing/get_invoice/v1_1.hpp:97-158 Product] *)
Record Product := {
  Product_product_id : Z;
  Product_description : str;
  Product_short_description : str;
  Product_initial_amount : str;
  Product_initial_units : Z;
  Product_is_recurring : Recurring;
  Product_recurring_amount : str;
  Product_recurring_units : Z;
  Product_free_months : Z;
  Product_trial : Trial;
  Product_active : Activity;
  Product_frequency_text : str;
  Product_uses_credits : UsesCredits;
  Product_reseller_entitlement : ResellerEntitled;
  Product_payment_methods : str;
  Product_interval : Z;
  Product_legacy : Legacy;
  Product_product_class : Z;
  Product_product_family : Z;
  Product_base_storage : Z }.
#[local] Instance Product_members : Members Product := fun v =>
  Build_Product (Product_product_id v) (Product_description v) (Product_short_description v)
    (Product_initial_amount v) (Product_initial_units v) (Product_is_recurring v)
    (Product_recurring_amount v) (Product_recurring_units v) (Product_free_months v)
    (Product_trial v) (Product_active v) (Product_frequency_text v) (Product_uses_credits v)
    (Product_reseller_entitlement v) (Product_payment_methods v) (Product_interval v)
    (Product_legacy v) (Product_product_class v) (Product_product_family v)
    (Product_base_storage v).
Definition new_Product : Product :=
  {| Product_product_id := indeterminate Z _; Product_description := [];
     Product_short_description := []; Product_initial_amount := [];
     Product_initial_units := indeterminate Z _;
     Product_is_recurring := indeterminate Recurring _; Product_recurring_amount := [];
     Product_recurring_units := indeterminate Z _; Product_free_months := indeterminate Z _;
     Product_trial := indeterminate Trial _; Product_active := indeterminate Activity _;
     Product_frequency_text := []; Product_uses_credits := indeterminate UsesCredits _;
     Product_reseller_entitlement := indeterminate ResellerEntitled _;
     Product_payment_methods := []; Product_interval := indeterminate Z _;
     Product_legacy := indeterminate Legacy _; Product_product_class := indeterminate Z _;
     Product_product_family := indeterminate Z _; Product_base_storage := indeterminate Z _ |}.

(** [api/billing/get_invoice/v1_1.cpp:28-260 ProductFromPropertyBranch] *)
Definition ProductFromPropertyBranch : branch_parser Product := FromPropertyBranch
  [ assign Product_is_recurring Recurring_NonRecurring;
    assign Product_recurring_units 0;
    assign Product_free_months 0;
    assign Product_trial Trial_NonTrial;
    assign Product_active Activity_Inactive;
    assign Product_frequency_text [];
    assign Product_uses_credits UsesCredits_No;
    assign Product_reseller_entitlement ResellerEntitled_No;
    assign Product_interval 0;
    assign Product_legacy Legacy_No;
    assign Product_base_storage 0;
    required (an uint32) "product_id" Product_product_id;
    required std_string "description" Product_description;
    required std_string "short_description" Product_short_description;
    required std_string "initial_amount" Product_initial_amount;
    required (an uint64) "initial_units" Product_initial_units;
    optional_enum id [("0", Recurring_NonRecurring); ("1", Recurring_Recurring)]
       "is_recurring" Product_is_recurring;
    required std_string "recurring_amount" Product_recurring_amount;
    with_default (an uint32) "recurring_units" Product_recurring_units;
    with_default (an uint32) "free_months" Product_free_months;
    optional_enum id [("0", Trial_NonTrial); ("1", Trial_Trial)] "trial" Product_trial;
    optional_enum id [("0", Activity_Inactive); ("1", Activity_Active)] "active" Product_active;
    with_default std_string "frequency_text" Product_frequency_text;
    optional_enum id [("0", UsesCredits_No); ("1", UsesCredits_Yes)]
       "uses_credits" Product_uses_credits;
    optional_enum id [("0", ResellerEntitled_No); ("1", ResellerEntitled_Yes)]
       "reseller_entitlement" Product_reseller_entitlement;
    required std_string "payment_methods" Product_payment_methods;
    with_default (an uint32) "interval" Product_interval;
    optional_enum id [("0", Legacy_No); ("1", Legacy_Yes)] "legacy" Product_legacy;
    required (an uint32) "product_class" Product_product_class;
    required (an uint32) "product_family" Product_product_family;
    with_default (an uint64) "base_storage" Product_base_storage].

(** [api/billing/get_invoice/v1_1.hpp:159-223 Response] *)
Record Response := {
  Response_invoice_id : Z;
  Response_invoice_num : str;
  Response_payment_method : str;
  Response_recurring_status : str;
  Response_recurring_profile_id : Z;
  Response_created_datetime : ptime;
  Response_company_id : option Z;
  Response_product_id : Z;
  Response_product_description : str;
  Response_country : str;
  Response_initial_amount : str;
  Response_initial_tax : str;
  Response_initial_total : str;
  Response_recurring_amount : str;
  Response_recurring_tax : str;
  Response_recurring_total : str;
  Response_recurring_startdate : ptime;
  Response_recurring_enddate : ptime;
  Response_next_bandwidth : ptime;
  Response_previous_invoice_id : option Z;
  Response_promo_code : str;
  Response_product : Product }.
#[local] Instance Response_members : Members Response := fun v =>
  Build_Response (Response_invoice_id v) (Response_invoice_num v) (Response_payment_method v)
    (Response_recurring_status v) (Response_recurring_profile_id v) (Response_created_datetime v)
    (Response_company_id v) (Response_product_id v) (Response_product_description v)
    (Response_country v) (Response_initial_amount v) (Response_initial_tax v)
    (Response_initial_total v) (Response_recurring_amount v) (Response_recurring_tax v)
    (Response_recurring_total v) (Response_recurring_startdate v) (Response_recurring_enddate v)
    (Response_next_bandwidth v) (Response_previous_invoice_id v) (Response_promo_code v)
    (Response_product v).
Definition new_Response : Response :=
  {| Response_invoice_id := indeterminate Z _; Response_invoice_num := [];
     Response_payment_method := []; Response_recurring_status := [];
     Response_recurring_profile_id := indeterminate Z _; Response_created_datetime := not_a_date;
     Response_company_id := None; Response_product_id := indeterminate Z _;
     Response_product_description := []; Response_country := []; Response_initial_amount := [];
     Response_initial_tax := []; Response_initial_total := []; Response_recurring_amount := [];
     Response_recurring_tax := []; Response_recurring_total := [];
     Response_recurring_startdate := not_a_date; Response_recurring_enddate := not_a_date;
     Response_next_bandwidth := not_a_date; Response_previous_invoice_id := None;
     Response_promo_code := []; Response_product := new_Product |}.

(** [api/billing/get_invoice/v1_1.cpp:306-534 Impl::ParseResponse] *)
Definition ParseResponse : ResponseBase -> Response -> ResponseBase * Response :=
  parse_response
  [ assign Response_recurring_startdate not_a_date;
    assign Response_recurring_enddate not_a_date;
    assign Response_next_bandwidth not_a_date;
    required (an uint32) "response.invoice.invoice_id" Response_invoice_id;
    required std_string "response.invoice.invoice_num" Response_invoice_num;
    required std_string "response.invoice.payment_method" Response_payment_method;
    required std_string "response.invoice.recurring_status" Response_recurring_status;
    required (an uint32) "response.invoice.recurring_profile_id" Response_recurring_profile_id;
    required a_ptime "response.invoice.date_created" Response_created_datetime;
    optional (an uint32) "response.invoice.company_id" Response_company_id;
    required (an uint32) "response.invoice.product_id" Response_product_id;
    required std_string "response.invoice.product_description" Response_product_description;
    required std_string "response.invoice.country" Response_country;
    required std_string "response.invoice.initial_amount" Response_initial_amount;
    required std_string "response.invoice.initial_tax" Response_initial_tax;
    required std_string "response.invoice.initial_total" Response_initial_total;
    required std_string "response.invoice.recurring_amount" Response_recurring_amount;
    required std_string "response.invoice.recurring_tax" Response_recurring_tax;
    required std_string "response.invoice.recurring_total" Response_recurring_total;
    with_default a_ptime "response.invoice.recurring_startdate" Response_recurring_startdate;
    with_default a_ptime "response.invoice.recurring_enddate" Response_recurring_enddate;
    with_default a_ptime "response.invoice.next_bandwidth" Response_next_bandwidth;
    optional (an uint32) "response.invoice.previous_invoice" Response_previous_invoice_id;
    required std_string "response.invoice.promo_code" Response_promo_code;
    required_struct ProductFromPropertyBranch new_Product "response.invoice.product"
       Response_product].

(** [api/billing/get_invoice/v1_1.cpp:270-270 api_path] *)
Definition api_path : str := B "/api/1.1/billing/get_invoice".

(** [api/billing/get_invoice/v1_1.cpp:274-292 Impl] *)
Record Impl := { }.

(** [api/billing/get_invoice/v1_1.cpp:294-296 Impl::Impl] *)
Definition new_Impl : Impl :=
  Build_Impl.

(** [api/billing/get_invoice/v1_1.cpp:298-304 Impl::BuildUrl] *)
Definition BuildUrl (query_parts : list query_part) : str * list query_part :=
  (api_path ++ B ".php", query_parts).

(** [api/billing/get_invoice/v1_1.cpp:288-291 Impl::GetRequestMethod] *)
Definition GetRequestMethod : RequestMethod := Post.

(** The assignments to [parts].
    [api/billing/get_invoice/v1_1.cpp:536-544 Impl::GetPostData] *)
Definition post_parts (i : Impl) : list query_part := make_parts
  [].

(** [api/billing/get_invoice/v1_1.cpp:536-544 Impl::GetPostData] *)
Definition GetPostData (MD5 : str -> str) (a : SessionTokenApi) (i : Impl) : str :=
  MakePost MD5 a (api_path ++ B ".php") (post_parts i).

(** *** The description *)

(** [api/templates/apis/billing/v1_1/get_invoice.json:98-213 Product] *)
Definition Product_described : description Product :=
  [ Required (number_at uint32) "product_id" Product_product_id;
    Required string_at "description" Product_description;
    Required string_at "short_description" Product_short_description;
    Required string_at "initial_amount" Product_initial_amount;
    Required (number_at uint64) "initial_units" Product_initial_units;
    Default Recurring_NonRecurring (enum_at [("0", Recurring_NonRecurring);
       ("1", Recurring_Recurring)]) "is_recurring" Product_is_recurring;
    Required string_at "recurring_amount" Product_recurring_amount;
    Default 0 (number_at uint32) "recurring_units" Product_recurring_units;
    Default 0 (number_at uint32) "free_months" Product_free_months;
    Default Trial_NonTrial (enum_at [("0", Trial_NonTrial); ("1", Trial_Trial)])
       "trial" Product_trial;
    Default Activity_Inactive (enum_at [("0", Activity_Inactive); ("1", Activity_Active)])
       "active" Product_active;
    Default [] string_at "frequency_text" Product_frequency_text;
    Default UsesCredits_No (enum_at [("0", UsesCredits_No); ("1", UsesCredits_Yes)])
       "uses_credits" Product_uses_credits;
    Default ResellerEntitled_No (enum_at [("0", ResellerEntitled_No);
       ("1", ResellerEntitled_Yes)]) "reseller_entitlement" Product_reseller_entitlement;
    Required string_at "payment_methods" Product_payment_methods;
    Default 0 (number_at uint32) "interval" Product_interval;
    Default Legacy_No (enum_at [("0", Legacy_No); ("1", Legacy_Yes)]) "legacy" Product_legacy;
    Required (number_at uint32) "product_class" Product_product_class;
    Required (number_at uint32) "product_family" Product_product_family;
    Default 0 (number_at uint64) "base_storage" Product_base_storage].

(** [api/templates/apis/billing/v1_1/get_invoice.json:215-331 return_params] *)
Definition Response_described : description Response :=
  [ Required (number_at uint32) "response.invoice.invoice_id" Response_invoice_id;
    Required string_at "response.invoice.invoice_num" Response_invoice_num;
    Required string_at "response.invoice.payment_method" Response_payment_method;
    Required string_at "response.invoice.recurring_status" Response_recurring_status;
    Required (number_at uint32) "response.invoice.recurring_profile_id"
       Response_recurring_profile_id;
    Required time_at "response.invoice.date_created" Response_created_datetime;
    Optional (number_at uint32) "response.invoice.company_id" Response_company_id;
    Required (number_at uint32) "response.invoice.product_id" Response_product_id;
    Required string_at "response.invoice.product_description" Response_product_description;
    Required string_at "response.invoice.country" Response_country;
    Required string_at "response.invoice.initial_amount" Response_initial_amount;
    Required string_at "response.invoice.initial_tax" Response_initial_tax;
    Required string_at "response.invoice.initial_total" Response_initial_total;
    Required string_at "response.invoice.recurring_amount" Response_recurring_amount;
    Required string_at "response.invoice.recurring_tax" Response_recurring_tax;
    Required string_at "response.invoice.recurring_total" Response_recurring_total;
    Default not_a_date time_at "response.invoice.recurring_startdate"
       Response_recurring_startdate;
    Default not_a_date time_at "response.invoice.recurring_enddate" Response_recurring_enddate;
    Default not_a_date time_at "response.invoice.next_bandwidth" Response_next_bandwidth;
    Optional (number_at uint32) "response.invoice.previous_invoice" Response_previous_invoice_id;
    Required string_at "response.invoice.promo_code" Response_promo_code;
    RequiredStruct Product_described "response.invoice.product" Response_product].

(** [api/templates/apis/billing/v1_1/get_invoice.json:1-332 input_params] *)
Definition params_described (i : Impl) : list (string * option str) :=
  [].

#[global] Instance Product_parses : Parses ProductFromPropertyBranch new_Product
  Product_described.
Proof. parse_class. Qed.
#[global] Instance Response_parses :
  ParsesResponse ParseResponse new_Response Response_described.
Proof. parse_class. Qed.

Definition call : api_call := {|
  call_method := GetRequestMethod;
  call_uses_token := true;
  call_BuildUrl := BuildUrl;
  call_parts := post_parts;
  call_GetPostData := GetPostData;
  call_new := new_Response;
  call_ParseResponse := ParseResponse |}.

#[global] Instance call_implements :
  ImplementsCall call "/api/1.1/billing/get_invoice" true params_described Response_described.
Proof. implement_call. Qed.

End Call.
End billing_get_invoice_v1_1.

(** ** [api/billing/get_plans/v1_1.cpp] *)
Module billing_get_plans_v1_1.

(** [api/billing/get_plans/v1_1.hpp:29-35 Recurring] *)
Inductive Recurring : Set := Recurring_NonRecurring | Recurring_Recurring.
#[global] Instance Recurring_inhabited : Inhabited Recurring := populate Recurring_NonRecurring.

Section Call.
Context `{Libraries}.

(** [api/billing/get_plans/v1_1.hpp:44-81 Plan] *)
Record Plan := {
  Plan_product_id : Z;
  Plan_description : str;
  Plan_short_description : str;
  Plan_initial_amount : str;
  Plan_initial_units : Z;
  Plan_is_recurring : Recurring;
  Plan_recurring_amount : str;
  Plan_recurring_units : Z;
  Plan_frequency_text : str;
  Plan_product_class : Z;
  Plan_free_months : Z;
  Plan_base_storage : Z }.
#[local] Instance Plan_members : Members Plan := fun v =>
  Build_Plan (Plan_product_id v) (Plan_description v) (Plan_short_description v)
    (Plan_initial_amount v) (Plan_initial_units v) (Plan_is_recurring v) (Plan_recurring_amount v)
    (Plan_recurring_units v) (Plan_frequency_text v) (Plan_product_class v) (Plan_free_months v)
    (Plan_base_storage v).
Definition new_Plan : Plan :=
  {| Plan_product_id := indeterminate Z _; Plan_description := []; Plan_short_description := [];
     Plan_initial_amount := []; Plan_initial_units := indeterminate Z _;
     Plan_is_recurring := indeterminate Recurring _; Plan_recurring_amount := [];
     Plan_recurring_units := indeterminate Z _; Plan_frequency_text := [];
     Plan_product_class := indeterminate Z _; Plan_free_months := indeterminate Z _;
     Plan_base_storage := indeterminate Z _ |}.

(** [api/billing/get_plans/v1_1.cpp:28-153 PlanFromPropertyBranch] *)
Definition PlanFromPropertyBranch : branch_parser Plan := FromPropertyBranch
  [ assign Plan_is_recurring Recurring_NonRecurring;
    assign Plan_recurring_units 0;
    assign Plan_frequency_text [];
    assign Plan_product_class 0;
    assign Plan_free_months 0;
    assign Plan_base_storage 0;
    required (an uint32) "product_id" Plan_product_id;
    required std_string "description" Plan_description;
    required std_string "short_description" Plan_short_description;
    required std_string "initial_amount" Plan_initial_amount;
    required (an uint64) "initial_units" Plan_initial_units;
    optional_enum id [("0", Recurring_NonRecurring); ("1", Recurring_Recurring)]
       "is_recurring" Plan_is_recurring;
    required std_string "recurring_amount" Plan_recurring_amount;
    with_default (an uint32) "recurring_units" Plan_recurring_units;
    with_default std_string "frequency_text" Plan_frequency_text;
    with_default (an uint32) "product_class" Plan_product_class;
    with_default (an uint32) "free_months" Plan_free_months;
    with_default (an uint64) "base_storage" Plan_base_storage].

(** [api/billing/get_plans/v1_1.hpp:82-83 Response] *)
Record Response := {
  Response_plans : list Plan }.
#[local] Instance Response_members : Members Response := fun v =>
  Build_Response (Response_plans v).
Definition new_Response : Response :=
  {| Response_plans := [] |}.

(** [api/billing/get_plans/v1_1.cpp:201-236 Impl::ParseResponse] *)
Definition ParseResponse : ResponseBase -> Response -> ResponseBase * Response :=
  parse_response
  [ required_structs PlanFromPropertyBranch new_Plan "response.products" Response_plans].

(** [api/billing/get_plans/v1_1.cpp:163-163 api_path] *)
Definition api_path : str := B "/api/1.1/billing/get_plans".

(** [api/billing/get_plans/v1_1.cpp:167-187 Impl] *)
Record Impl := {
  product_id_ : option Z;
  family_ : option Z }.
#[local] Instance Impl_members : Members Impl := fun v =>
  Build_Impl (product_id_ v) (family_ v).

(** [api/billing/get_plans/v1_1.cpp:189-191 Impl::Impl] *)
Definition new_Impl : Impl :=
  {| product_id_ := None; family_ := None |}.

(** [api/billing/get_plans/v1_1.cpp:287-290 Request::SetProductId] *)
Definition SetProductId (product_id : Z) (i : Impl) : Impl :=
  set_field product_id_ (Some product_id) i.

(** [api/billing/get_plans/v1_1.cpp:292-295 Request::SetFamily] *)
Definition SetFamily (family : Z) (i : Impl) : Impl := set_field family_ (Some family) i.

(** [api/billing/get_plans/v1_1.cpp:193-199 Impl::BuildUrl] *)
Definition BuildUrl (query_parts : list query_part) : str * list query_part :=
  (api_path ++ B ".php", query_parts).

(** [api/billing/get_plans/v1_1.cpp:183-186 Impl::GetRequestMethod] *)
Definition GetRequestMethod : RequestMethod := Post.

(** The assignments to [parts].
    [api/billing/get_plans/v1_1.cpp:238-250 Impl::GetPostData] *)
Definition post_parts (i : Impl) : list query_part := make_parts
  [("product_id", print_int <$> product_id_ i);
   ("family", print_int <$> family_ i)].

(** [api/billing/get_plans/v1_1.cpp:238-250 Impl::GetPostData] *)
Definition GetPostData (i : Impl) : str := TokenlessMakePost (post_parts i).

(** *** The description *)

(** [api/templates/apis/billing/v1_1/get_plans.json:21-91 Plan] *)
Definition Plan_described : description Plan :=
  [ Required (number_at uint32) "product_id" Plan_product_id;
    Required string_at "description" Plan_description;
    Required string_at "short_description" Plan_short_description;
    Required string_at "initial_amount" Plan_initial_amount;
    Required (number_at uint64) "initial_units" Plan_initial_units;
    Default Recurring_NonRecurring (enum_at [("0", Recurring_NonRecurring);
       ("1", Recurring_Recurring)]) "is_recurring" Plan_is_recurring;
    Required string_at "recurring_amount" Plan_recurring_amount;
    Default 0 (number_at uint32) "recurring_units" Plan_recurring_units;
    Default [] string_at "frequency_text" Plan_frequency_text;
    Default 0 (number_at uint32) "product_class" Plan_product_class;
    Default 0 (number_at uint32) "free_months" Plan_free_months;
    Default 0 (number_at uint64) "base_storage" Plan_base_storage].

(** [api/templates/apis/billing/v1_1/get_plans.json:105-112 return_params] *)
Definition Response_described : description Response :=
  [ RequiredStructs Plan_described "response.products" Response_plans].

(** [api/templates/apis/billing/v1_1/get_plans.json:93-104 input_params] *)
Definition params_described (i : Impl) : list (string * option str) :=
  [("product_id", print_int <$> product_id_ i);
   ("family", print_int <$> family_ i)].

#[global] Instance Plan_parses : Parses PlanFromPropertyBranch new_Plan Plan_described.
Proof. parse_class. Qed.
#[global] Instance Response_parses :
  ParsesResponse ParseResponse new_Response Response_described.
Proof. parse_class. Qed.

Definition call : api_call := {|
  call_method := GetRequestMethod;
  call_uses_token := false;
  call_BuildUrl := BuildUrl;
  call_parts := post_parts;
  call_GetPostData := (fun _ _ => GetPostData);
  call_new := new_Response;
  call_ParseResponse := ParseResponse |}.

#[global] Instance call_implements :
  ImplementsCall call "/api/1.1/billing/get_plans" false params_described Response_described.
Proof. implement_call. Qed.

End Call.
End billing_get_plans_v1_1.

(** ** [api/billing/get_products/v1_1.cpp] *)
Module billing_get_products_v1_1.

(** [api/billing/get_products/v1_1.hpp:29-35 Recurring] *)
Inductive Recurring : Set := Recurring_NonRecurring | Recurring_Recurring.
#[global] Instance Recurring_inhabited : Inhabited Recurring := populate Recurring_NonRecurring.

(** [api/billing/get_products/v1_1.hpp:37-43 Trial] *)
Inductive Trial : Set := Trial_NoTrial | Trial_Trial.
#[global] Instance Trial_inhabited : Inhabited Trial := populate Trial_NoTrial.

(** [api/billing/get_products/v1_1.hpp:45-51 Activity] *)
Inductive Activity : Set := Activity_Inactive | Activity_Active.
#[global] Instance Activity_inhabited : Inhabited Activity := populate Activity_Inactive.

(** [api/billing/get_products/v1_1.hpp:53-59 UsesCredits] *)
Inductive UsesCredits : Set := UsesCredits_NoCredits | UsesCredits_Credits.
#[global] Instance UsesCredits_inhabited : Inhabited UsesCredits :=
  populate UsesCredits_NoCredits.

(** [api/billing/get_products/v1_1.hpp:61-67 YearlyOnly] *)
Inductive YearlyOnly : Set := YearlyOnly_No | YearlyOnly_Yes.
#[global] Instance YearlyOnly_inhabited : Inhabited YearlyOnly := populate YearlyOnly_No.

(** [api/billing/get_products/v1_1.hpp:69-75 Legacy] *)
Inductive Legacy : Set := Legacy_No | Legacy_Yes.
#[global] Instance Legacy_inhabited : Inhabited Legacy := populate Legacy_No.

(** [api/billing/get_products/v1_1.cpp:24-31 AsString] *)
Definition AsString_Recurring (value : Recurring) : str :=
  match value with
  | Recurring_NonRecurring => B "0"
  | Recurring_Recurring => B "1"
  end.

(** [api/billing/get_products/v1_1.cpp:32-39 AsString] *)
Definition AsString_Activity (value : Activity) : str :=
  match value with
  | Activity_Inactive => B "0"
  | Activity_Active => B "1"
  end.

(** [api/billing/get_products/v1_1.cpp:40-47 AsString] *)
Definition AsString_Legacy (value : Legacy) : str :=
  match value with
  | Legacy_No => B "0"
  | Legacy_Yes => B "1"
  end.

Section Call.
Context `{Libraries}.

(** [api/billing/get_products/v1_1.hpp:84-148 Product] *)
Record Product := {
  Product_product_id : Z;
  Product_description : str;
  Product_short_description : str;
  Product_initial_amount : str;
  Product_initial_units : Z;
  Product_is_recurring : Recurring;
  Product_recurring_amount : str;
  Product_recurring_units : Z;
  Product_free_months : Z;
  Product_trial : Trial;
  Product_active : Activity;
  Product_frequency_text : str;
  Product_uses_credits : UsesCredits;
  Product_reseller_entitlement : Z;
  Product_payment_methods : str;
  Product_yearly_only : YearlyOnly;
  Product_interval : Z;
  Product_legacy : Legacy;
  Product_product_class : Z;
  Product_product_family : Z;
  Product_base_storage : Z }.
#[local] Instance Product_members : Members Product := fun v =>
  Build_Product (Product_product_id v) (Product_description v) (Product_short_description v)
    (Product_initial_amount v) (Product_initial_units v) (Product_is_recurring v)
    (Product_recurring_amount v) (Product_recurring_units v) (Product_free_months v)
    (Product_trial v) (Product_active v) (Product_frequency_text v) (Product_uses_credits v)
    (Product_reseller_entitlement v) (Product_payment_methods v) (Product_yearly_only v)
    (Product_interval v) (Product_legacy v) (Product_product_class v) (Product_product_family v)
    (Product_base_storage v).
Definition new_Product : Product :=
  {| Product_product_id := indeterminate Z _; Product_description := [];
     Product_short_description := []; Product_initial_amount := [];
     Product_initial_units := indeterminate Z _;
     Product_is_recurring := indeterminate Recurring _; Product_recurring_amount := [];
     Product_recurring_units := indeterminate Z _; Product_free_months := indeterminate Z _;
     Product_trial := indeterminate Trial _; Product_active := indeterminate Activity _;
     Product_frequency_text := []; Product_uses_credits := indeterminate UsesCredits _;
     Product_reseller_entitlement := indeterminate Z _; Product_payment_methods := [];
     Product_yearly_only := indeterminate YearlyOnly _; Product_interval := indeterminate Z _;
     Product_legacy := indeterminate Legacy _; Product_product_class := indeterminate Z _;
     Product_product_family := indeterminate Z _; Product_base_storage := indeterminate Z _ |}.

(** [api/billing/get_products/v1_1.cpp:55-294 ProductFromPropertyBranch] *)
Definition ProductFromPropertyBranch : branch_parser Product := FromPropertyBranch
  [ assign Product_is_recurring Recurring_NonRecurring;
    assign Product_recurring_units 0;
    assign Product_trial Trial_NoTrial;
    assign Product_active Activity_Inactive;
    assign Product_frequency_text [];
    assign Product_uses_credits UsesCredits_NoCredits;
    assign Product_reseller_entitlement (-1);
    assign Product_yearly_only YearlyOnly_No;
    assign Product_legacy Legacy_No;
    assign Product_product_class 0;
    assign Product_product_family 0;
    assign Product_base_storage 0;
    required (an uint32) "product_id" Product_product_id;
    required std_string "description" Product_description;
    required std_string "short_description" Product_short_description;
    required std_string "initial_amount" Product_initial_amount;
    required (an uint64) "initial_units" Product_initial_units;
    optional_enum id [("0", Recurring_NonRecurring); ("1", Recurring_Recurring)]
       "is_recurring" Product_is_recurring;
    required std_string "recurring_amount" Product_recurring_amount;
    with_default (an uint32) "recurring_units" Product_recurring_units;
    required (an uint32) "free_months" Product_free_months;
    optional_enum id [("0", Trial_NoTrial); ("1", Trial_Trial)] "trial" Product_trial;
    optional_enum id [("0", Activity_Inactive); ("1", Activity_Active)] "active" Product_active;
    with_default std_string "frequency_text" Product_frequency_text;
    optional_enum id [("0", UsesCredits_NoCredits); ("1", UsesCredits_Credits)]
       "uses_credits" Product_uses_credits;
    with_default (an int32) "reseller_entitlement" Product_reseller_entitlement;
    required std_string "payment_methods" Product_payment_methods;
    optional_enum id [("0", YearlyOnly_No); ("1", YearlyOnly_Yes)]
       "yearly_only" Product_yearly_only;
    required (an uint32) "interval" Product_interval;
    optional_enum id [("0", Legacy_No); ("1", Legacy_Yes)] "legacy" Product_legacy;
    with_default (an uint32) "product_class" Product_product_class;
    with_default (an uint32) "product_family" Product_product_family;
    with_default (an uint64) "base_storage" Product_base_storage].

(** [api/billing/get_products/v1_1.hpp:149-150 Response] *)
Record Response := {
  Response_products : list Product }.
#[local] Instance Response_members : Members Response := fun v =>
  Build_Response (Response_products v).
Definition new_Response : Response :=
  {| Response_products := [] |}.

(** [api/billing/get_products/v1_1.cpp:347-382 Impl::ParseResponse] *)
Definition ParseResponse : ResponseBase -> Response -> ResponseBase * Response :=
  parse_response
  [ required_structs ProductFromPropertyBranch new_Product "response.products" Response_products].

(** [api/billing/get_products/v1_1.cpp:304-304 api_path] *)
Definition api_path : str := B "/api/1.1/billing/get_products".

(** [api/billing/get_products/v1_1.cpp:308-333 Impl] *)
Record Impl := {
  active_ : option Activity;
  legacy_ : option Legacy;
  interval_ : option Z;
  recurring_ : option Recurring;
  product_class_ : option Z;
  product_family_ : option Z;
  product_id_ : option Z }.
#[local] Instance Impl_members : Members Impl := fun v =>
  Build_Impl (active_ v) (legacy_ v) (interval_ v) (recurring_ v) (product_class_ v)
    (product_family_ v) (product_id_ v).

(** [api/billing/get_products/v1_1.cpp:335-337 Impl::Impl] *)
Definition new_Impl : Impl :=
  {| active_ := None; legacy_ := None; interval_ := None; recurring_ := None;
     product_class_ := None; product_family_ := None; product_id_ := None |}.

(** [api/billing/get_products/v1_1.cpp:443-446 Request::SetActive] *)
Definition SetActive (active : Activity) (i : Impl) : Impl := set_field active_ (Some active) i.

(** [api/billing/get_products/v1_1.cpp:448-451 Request::SetLegacy] *)
Definition SetLegacy (legacy : Legacy) (i : Impl) : Impl := set_field legacy_ (Some legacy) i.

(** [api/billing/get_products/v1_1.cpp:453-456 Request::SetInterval] *)
Definition SetInterval (interval : Z) (i : Impl) : Impl := set_field interval_ (Some interval) i.

(** [api/billing/get_products/v1_1.cpp:458-461 Request::SetRecurring] *)
Definition SetRecurring (recurring : Recurring) (i : Impl) : Impl :=
  set_field recurring_ (Some recurring) i.

(** [api/billing/get_products/v1_1.cpp:463-466 Request::SetProductClass] *)
Definition SetProductClass (product_class : Z) (i : Impl) : Impl :=
  set_field product_class_ (Some product_class) i.

(** [api/billing/get_products/v1_1.cpp:468-471 Request::SetProductFamily] *)
Definition SetProductFamily (product_family : Z) (i : Impl) : Impl :=
  set_field product_family_ (Some product_family) i.

(** [api/billing/get_products/v1_1.cpp:473-476 Request::SetProductId] *)
Definition SetProductId (product_id : Z) (i : Impl) : Impl :=
  set_field product_id_ (Some product_id) i.

(** [api/billing/get_products/v1_1.cpp:339-345 Impl::BuildUrl] *)
Definition BuildUrl (query_parts : list query_part) : str * list query_part :=
  (api_path ++ B ".php", query_parts).

(** [api/billing/get_products/v1_1.cpp:329-332 Impl::GetRequestMethod] *)
Definition GetRequestMethod : RequestMethod := Post.

(** The assignments to [parts].
    [api/billing/get_products/v1_1.cpp:384-406 Impl::GetPostData] *)
Definition post_parts (i : Impl) : list query_part := make_parts
  [("active", AsString_Activity <$> active_ i);
   ("legacy", AsString_Legacy <$> legacy_ i);
   ("interval", print_int <$> interval_ i);
   ("recurring", AsString_Recurring <$> recurring_ i);
   ("product_class", print_int <$> product_class_ i);
   ("product_family", print_int <$> product_family_ i);
   ("product_id", print_int <$> product_id_ i)].

(** [api/billing/get_products/v1_1.cpp:384-406 Impl::GetPostData] *)
Definition GetPostData (i : Impl) : str := TokenlessMakePost (post_parts i).

(** *** The description *)

(** [api/templates/apis/billing/v1_1/get_products.json:86-207 Product] *)
Definition Product_described : description Product :=
  [ Required (number_at uint32) "product_id" Product_product_id;
    Required string_at "description" Product_description;
    Required string_at "short_description" Product_short_description;
    Required string_at "initial_amount" Product_initial_amount;
    Required (number_at uint64) "initial_units" Product_initial_units;
    Default Recurring_NonRecurring (enum_at [("0", Recurring_NonRecurring);
       ("1", Recurring_Recurring)]) "is_recurring" Product_is_recurring;
    Required string_at "recurring_amount" Product_recurring_amount;
    Default 0 (number_at uint32) "recurring_units" Product_recurring_units;
    Required (number_at uint32) "free_months" Product_free_months;
    Default Trial_NoTrial (enum_at [("0", Trial_NoTrial); ("1", Trial_Trial)])
       "trial" Product_trial;
    Default Activity_Inactive (enum_at [("0", Activity_Inactive); ("1", Activity_Active)])
       "active" Product_active;
    Default [] string_at "frequency_text" Product_frequency_text;
    Default UsesCredits_NoCredits (enum_at [("0", UsesCredits_NoCredits);
       ("1", UsesCredits_Credits)]) "uses_credits" Product_uses_credits;
    Default (-1) (number_at int32) "reseller_entitlement" Product_reseller_entitlement;
    Required string_at "payment_methods" Product_payment_methods;
    Default YearlyOnly_No (enum_at [("0", YearlyOnly_No); ("1", YearlyOnly_Yes)])
       "yearly_only" Product_yearly_only;
    Required (number_at uint32) "interval" Product_interval;
    Default Legacy_No (enum_at [("0", Legacy_No); ("1", Legacy_Yes)]) "legacy" Product_legacy;
    Default 0 (number_at uint32) "product_class" Product_product_class;
    Default 0 (number_at uint32) "product_family" Product_product_family;
    Default 0 (number_at uint64) "base_storage" Product_base_storage].

(** [api/templates/apis/billing/v1_1/get_products.json:246-253 return_params] *)
Definition Response_described : description Response :=
  [ RequiredStructs Product_described "response.products" Response_products].

(** [api/templates/apis/billing/v1_1/get_products.json:6-18 Recurring] *)
Definition AsDescribed_Recurring (value : Recurring) : str :=
  match value with
  | Recurring_NonRecurring => B "0"
  | Recurring_Recurring => B "1"
  end.

(** [api/templates/apis/billing/v1_1/get_products.json:32-44 Activity] *)
Definition AsDescribed_Activity (value : Activity) : str :=
  match value with
  | Activity_Inactive => B "0"
  | Activity_Active => B "1"
  end.

(** [api/templates/apis/billing/v1_1/get_products.json:71-83 Legacy] *)
Definition AsDescribed_Legacy (value : Legacy) : str :=
  match value with
  | Legacy_No => B "0"
  | Legacy_Yes => B "1"
  end.

(** [api/templates/apis/billing/v1_1/get_products.json:209-245 input_params] *)
Definition params_described (i : Impl) : list (string * option str) :=
  [("active", (AsDescribed_Activity) <$> active_ i);
   ("legacy", (AsDescribed_Legacy) <$> legacy_ i);
   ("interval", print_int <$> interval_ i);
   ("recurring", (AsDescribed_Recurring) <$> recurring_ i);
   ("product_class", print_int <$> product_class_ i);
   ("product_family", print_int <$> product_family_ i);
   ("product_id", print_int <$> product_id_ i)].

#[global] Instance Product_parses : Parses ProductFromPropertyBranch new_Product
  Product_described.
Proof. parse_class. Qed.
#[global] Instance Response_parses :
  ParsesResponse ParseResponse new_Response Response_described.
Proof. parse_class. Qed.

Definition call : api_call := {|
  call_method := GetRequestMethod;
  call_uses_token := false;
  call_BuildUrl := BuildUrl;
  call_parts := post_parts;
  call_GetPostData := (fun _ _ => GetPostData);
  call_new := new_Response;
  call_ParseResponse := ParseResponse |}.

#[global] Instance call_implements :
  ImplementsCall call "/api/1.1/billing/get_products" false params_described Response_described.
Proof. implement_call. Qed.

End Call.
End billing_get_products_v1_1.

(** ** [api/billing/purchase_plan/v1_1.cpp] *)
Module billing_purchase_plan_v1_1.

(** [api/billing/purchase_plan/v1_1.hpp:29-35 PaymentMethod] *)
Inductive PaymentMethod : Set := PaymentMethod_NewCredit | PaymentMethod_PreviousCredit.
#[global] Instance PaymentMethod_inhabited : Inhabited PaymentMethod :=
  populate PaymentMethod_NewCredit.

(** [api/billing/purchase_plan/v1_1.hpp:37-43 KeepCard] *)
Inductive KeepCard : Set := KeepCard_DiscardCard | KeepCard_KeepCard.
#[global] Instance KeepCard_inhabited : Inhabited KeepCard := populate KeepCard_DiscardCard.

(** [api/billing/purchase_plan/v1_1.cpp:24-31 AsString] *)
Definition AsString_PaymentMethod (value : PaymentMethod) : str :=
  match value with
  | PaymentMethod_NewCredit => B "newcredit"
  | PaymentMethod_PreviousCredit => B "prevcredit"
  end.

(** [api/billing/purchase_plan/v1_1.cpp:32-39 AsString] *)
Definition AsString_KeepCard (value : KeepCard) : str :=
  match value with
  | KeepCard_DiscardCard => B "0"
  | KeepCard_KeepCard => B "1"
  end.

Section Call.
Context `{Libraries}.

(** [api/billing/purchase_plan/v1_1.hpp:56-72 Response] *)
Record Response := {
  Response_invoice : Z;
  Response_created_datetime : ptime;
  Response_total : str;
  Response_product_id : Z;
  Response_premium : Z;
  Response_previous_invoice_datetime : ptime }.
#[local] Instance Response_members : Members Response := fun v =>
  Build_Response (Response_invoice v) (Response_created_datetime v) (Response_total v)
    (Response_product_id v) (Response_premium v) (Response_previous_invoice_datetime v).
Definition new_Response : Response :=
  {| Response_invoice := indeterminate Z _; Response_created_datetime := not_a_date;
     Response_total := []; Response_product_id := indeterminate Z _;
     Response_premium := indeterminate Z _; Response_previous_invoice_datetime := not_a_date |}.

(** [api/billing/purchase_plan/v1_1.cpp:106-166 Impl::ParseResponse] *)
Definition ParseResponse : ResponseBase -> Response -> ResponseBase * Response :=
  parse_response
  [ assign Response_created_datetime not_a_date;
    assign Response_previous_invoice_datetime not_a_date;
    required (an uint64) "response.invoice" Response_invoice;
    with_default a_ptime "created" Response_created_datetime;
    required std_string "response.total" Response_total;
    required (an uint32) "response.product" Response_product_id;
    required (an uint32) "response.premium" Response_premium;
    with_default a_ptime "lastpremium" Response_previous_invoice_datetime].

(** [api/billing/purchase_plan/v1_1.cpp:51-51 api_path] *)
Definition api_path : str := B "/api/1.1/billing/purchase_plan".

(** [api/billing/purchase_plan/v1_1.cpp:55-92 Impl] *)
Record Impl := {
  product_id_ : option Z;
  payment_method_ : option PaymentMethod;
  first_name_info_ : option str;
  last_name_info_ : option str;
  address1_info_ : option str;
  city_info_ : option str;
  zip_info_ : option str;
  state_info_ : option str;
  country_info_ : option str;
  region_info_ : option str;
  postal_code_info_ : option str;
  card_number_ : option str;
  card_code_ : option str;
  exp_month_ : option str;
  exp_year_ : option str;
  keep_card_ : option KeepCard;
  prev_card_code_ : option str;
  subdomain_ : option str;
  company_ : option str }.
#[local] Instance Impl_members : Members Impl := fun v =>
  Build_Impl (product_id_ v) (payment_method_ v) (first_name_info_ v) (last_name_info_ v)
    (address1_info_ v) (city_info_ v) (zip_info_ v) (state_info_ v) (country_info_ v)
    (region_info_ v) (postal_code_info_ v) (card_number_ v) (card_code_ v) (exp_month_ v)
    (exp_year_ v) (keep_card_ v) (prev_card_code_ v) (subdomain_ v) (company_ v).

(** [api/billing/purchase_plan/v1_1.cpp:94-96 Impl::Impl] *)
Definition new_Impl : Impl :=
  {| product_id_ := None; payment_method_ := None; first_name_info_ := None;
     last_name_info_ := None; address1_info_ := None; city_info_ := None; zip_info_ := None;
     state_info_ := None; country_info_ := None; region_info_ := None; postal_code_info_ := None;
     card_number_ := None; card_code_ := None; exp_month_ := None; exp_year_ := None;
     keep_card_ := None; prev_card_code_ := None; subdomain_ := None; company_ := None |}.

(** [api/billing/purchase_plan/v1_1.cpp:260-263 Request::SetProductId] *)
Definition SetProductId (product_id : Z) (i : Impl) : Impl :=
  set_field product_id_ (Some product_id) i.

(** [api/billing/purchase_plan/v1_1.cpp:265-268 Request::SetPaymentMethod] *)
Definition SetPaymentMethod (payment_method : PaymentMethod) (i : Impl) : Impl :=
  set_field payment_method_ (Some payment_method) i.

(** [api/billing/purchase_plan/v1_1.cpp:270-273 Request::SetFirstNameInfo] *)
Definition SetFirstNameInfo (first_name_info : str) (i : Impl) : Impl :=
  set_field first_name_info_ (Some first_name_info) i.

(** [api/billing/purchase_plan/v1_1.cpp:275-278 Request::SetLastNameInfo] *)
Definition SetLastNameInfo (last_name_info : str) (i : Impl) : Impl :=
  set_field last_name_info_ (Some last_name_info) i.

(** [api/billing/purchase_plan/v1_1.cpp:280-283 Request::SetAddress1Info] *)
Definition SetAddress1Info (address1_info : str) (i : Impl) : Impl :=
  set_field address1_info_ (Some address1_info) i.

(** [api/billing/purchase_plan/v1_1.cpp:285-288 Request::SetCityInfo] *)
Definition SetCityInfo (city_info : str) (i : Impl) : Impl :=
  set_field city_info_ (Some city_info) i.

(** [api/billing/purchase_plan/v1_1.cpp:290-293 Request::SetZipInfo] *)
Definition SetZipInfo (zip_info : str) (i : Impl) : Impl :=
  set_field zip_info_ (Some zip_info) i.

(** [api/billing/purchase_plan/v1_1.cpp:295-298 Request::SetStateInfo] *)
Definition SetStateInfo (state_info : str) (i : Impl) : Impl :=
  set_field state_info_ (Some state_info) i.

(** [api/billing/purchase_plan/v1_1.cpp:300-303 Request::SetCountryInfo] *)
Definition SetCountryInfo (country_info : str) (i : Impl) : Impl :=
  set_field country_info_ (Some country_info) i.

(** [api/billing/purchase_plan/v1_1.cpp:305-308 Request::SetRegionInfo] *)
Definition SetRegionInfo (region_info : str) (i : Impl) : Impl :=
  set_field region_info_ (Some region_info) i.

(** [api/billing/purchase_plan/v1_1.cpp:310-313 Request::SetPostalCodeInfo] *)
Definition SetPostalCodeInfo (postal_code_info : str) (i : Impl) : Impl :=
  set_field postal_code_info_ (Some postal_code_info) i.

(** [api/billing/purchase_plan/v1_1.cpp:315-318 Request::SetCardNumber] *)
Definition SetCardNumber (card_number : str) (i : Impl) : Impl :=
  set_field card_number_ (Some card_number) i.

(** [api/billing/purchase_plan/v1_1.cpp:320-323 Request::SetCardCode] *)
Definition SetCardCode (card_code : str) (i : Impl) : Impl :=
  set_field card_code_ (Some card_code) i.

(** [api/billing/purchase_plan/v1_1.cpp:325-328 Request::SetExpMonth] *)
Definition SetExpMonth (exp_month : str) (i : Impl) : Impl :=
  set_field exp_month_ (Some exp_month) i.

(** [api/billing/purchase_plan/v1_1.cpp:330-333 Request::SetExpYear] *)
Definition SetExpYear (exp_year : str) (i : Impl) : Impl :=
  set_field exp_year_ (Some exp_year) i.

(** [api/billing/purchase_plan/v1_1.cpp:335-338 Request::SetKeepCard] *)
Definition SetKeepCard (keep_card : KeepCard) (i : Impl) : Impl :=
  set_field keep_card_ (Some keep_card) i.

(** [api/billing/purchase_plan/v1_1.cpp:340-343 Request::SetPrevCardCode] *)
Definition SetPrevCardCode (prev_card_code : str) (i : Impl) : Impl :=
  set_field prev_card_code_ (Some prev_card_code) i.

(** [api/billing/purchase_plan/v1_1.cpp:345-348 Request::SetSubdomain] *)
Definition SetSubdomain (subdomain : str) (i : Impl) : Impl :=
  set_field subdomain_ (Some subdomain) i.

(** [api/billing/purchase_plan/v1_1.cpp:350-353 Request::SetCompany] *)
Definition SetCompany (company : str) (i : Impl) : Impl := set_field company_ (Some company) i.

(** [api/billing/purchase_plan/v1_1.cpp:98-104 Impl::BuildUrl] *)
Definition BuildUrl (query_parts : list query_part) : str * list query_part :=
  (api_path ++ B ".php", query_parts).

(** [api/billing/purchase_plan/v1_1.cpp:88-91 Impl::GetRequestMethod] *)
Definition GetRequestMethod : RequestMethod := Post.

(** The assignments to [parts].
    [api/billing/purchase_plan/v1_1.cpp:168-214 Impl::GetPostData] *)
Definition post_parts (i : Impl) : list query_part := make_parts
  [("pid", print_int <$> product_id_ i);
   ("payment_method", AsString_PaymentMethod <$> payment_method_ i);
   ("first_name_info", first_name_info_ i);
   ("last_name_info", last_name_info_ i);
   ("address1_info", address1_info_ i);
   ("city_info", city_info_ i);
   ("zip_info", zip_info_ i);
   ("state_info", state_info_ i);
   ("country_info", country_info_ i);
   ("region_info", region_info_ i);
   ("postal_code_info", postal_code_info_ i);
   ("card_number", card_number_ i);
   ("card_code", card_code_ i);
   ("exp_month", exp_month_ i);
   ("exp_year", exp_year_ i);
   ("keep_card", AsString_KeepCard <$> keep_card_ i);
   ("prev_card_code", prev_card_code_ i);
   ("subdomain", subdomain_ i);
   ("company", company_ i)].

(** [api/billing/purchase_plan/v1_1.cpp:168-214 Impl::GetPostData] *)
Definition GetPostData (MD5 : str -> str) (a : SessionTokenApi) (i : Impl) : str :=
  MakePost MD5 a (api_path ++ B ".php") (post_parts i).

(** *** The description *)

(** [api/templates/apis/billing/v1_1/purchase_plan.json:129-162 return_params] *)
Definition Response_described : description Response :=
  [ Required (number_at uint64) "response.invoice" Response_invoice;
    Default not_a_date time_at "created" Response_created_datetime;
    Required string_at "response.total" Response_total;
    Required (number_at uint32) "response.product" Response_product_id;
    Required (number_at uint32) "response.premium" Response_premium;
    Default not_a_date time_at "lastpremium" Response_previous_invoice_datetime].

(** [api/templates/apis/billing/v1_1/purchase_plan.json:5-17 PaymentMethod] *)
Definition AsDescribed_PaymentMethod (value : PaymentMethod) : str :=
  match value with
  | PaymentMethod_NewCredit => B "newcredit"
  | PaymentMethod_PreviousCredit => B "prevcredit"
  end.

(** [api/templates/apis/billing/v1_1/purchase_plan.json:18-30 KeepCard] *)
Definition AsDescribed_KeepCard (value : KeepCard) : str :=
  match value with
  | KeepCard_DiscardCard => B "0"
  | KeepCard_KeepCard => B "1"
  end.

(** [api/templates/apis/billing/v1_1/purchase_plan.json:32-128 input_params] *)
Definition params_described (i : Impl) : list (string * option str) :=
  [("pid", print_int <$> product_id_ i);
   ("payment_method", (AsDescribed_PaymentMethod) <$> payment_method_ i);
   ("first_name_info", first_name_info_ i);
   ("last_name_info", last_name_info_ i);
   ("address1_info", address1_info_ i);
   ("city_info", city_info_ i);
   ("zip_info", zip_info_ i);
   ("state_info", state_info_ i);
   ("country_info", country_info_ i);
   ("region_info", region_info_ i);
   ("postal_code_info", postal_code_info_ i);
   ("card_number", card_number_ i);
   ("card_code", card_code_ i);
   ("exp_month", exp_month_ i);
   ("exp_year", exp_year_ i);
   ("keep_card", (AsDescribed_KeepCard) <$> keep_card_ i);
   ("prev_card_code", prev_card_code_ i);
   ("subdomain", subdomain_ i);
   ("company", company_ i)].

#[global] Instance Response_parses :
  ParsesResponse ParseResponse new_Response Response_described.
Proof. parse_class. Qed.

Definition call : api_call := {|
  call_method := GetRequestMethod;
  call_uses_token := true;
  call_BuildUrl := BuildUrl;
  call_parts := post_parts;
  call_GetPostData := GetPostData;
  call_new := new_Response;
  call_ParseResponse := ParseResponse |}.

#[global] Instance call_implements :
  ImplementsCall call "/api/1.1/billing/purchase_plan" true params_described Response_described.
Proof. implement_call. Qed.

End Call.
End billing_purchase_plan_v1_1.
