(* ===== verification/ApiContact.v ===== *)
(** * The calls [contact/...] ([api/contact])

    One module for each class, with the description it was generated from. *)
From S2P Require Import Prelude Errors ApiRequests PropertyTree ApiResponses Endpoint EndpointSpec EndpointProofs.

Open Scope Z_scope.

(** ** [api/contact/add/v1_1.cpp] *)
Module contact_add_v1_1.

(** [api/contact/add/v1_1.hpp:29-39 ContactType] *)
Inductive ContactType : Set :=
  ContactType_MediaFire | ContactType_FaceBook | ContactType_GMail | ContactType_Twitter.
#[global] Instance ContactType_inhabited : Inhabited ContactType :=
  populate ContactType_MediaFire.

(** [api/contact/add/v1_1.hpp:41-49 Gender] *)
Inductive Gender : Set := Gender_Male | Gender_Female | Gender_None.
#[global] Instance Gender_inhabited : Inhabited Gender := populate Gender_Male.

(** [api/contact/add/v1_1.cpp:24-35 AsString] *)
Definition AsString_ContactType (value : ContactType) : str :=
  match value with
  | ContactType_MediaFire => B "mediafire"
  | ContactType_FaceBook => B "facebook"
  | ContactType_GMail => B "gmail"
  | ContactType_Twitter => B "twitter"
  end.

(** [api/contact/add/v1_1.cpp:36-45 AsString] *)
Definition AsString_Gender (value : Gender) : str :=
  match value with
  | Gender_Male => B "male"
  | Gender_Female => B "female"
  | Gender_None => B "none"
  end.

Section Call.
Context `{Libraries}.

(** [api/contact/add/v1_1.hpp:55-58 Response] *)
Record Response := { }.
Definition new_Response : Response :=
  Build_Response.

(** [api/contact/add/v1_1.cpp:107-118 Impl::ParseResponse] *)
Definition ParseResponse : ResponseBase -> Response -> ResponseBase * Response :=
  parse_response [].

(** [api/contact/add/v1_1.cpp:57-57 api_path] *)
Definition api_path : str := B "/api/1.1/contact/add".

(** [api/contact/add/v1_1.cpp:61-93 Impl] *)
Record Impl := {
  contact_type_ : option ContactType;
  contact_key_ : option str;
  display_name_ : option str;
  first_name_ : option str;
  last_name_ : option str;
  avatar_url_ : option str;
  source_user_id_ : option str;
  email_ : option str;
  phone_number_ : option str;
  birthdate_ : option str;
  location_ : option str;
  gender_ : option Gender;
  website_ : option str;
  group_id_ : option str }.
#[local] Instance Impl_members : Members Impl := fun v =>
  Build_Impl (contact_type_ v) (contact_key_ v) (display_name_ v) (first_name_ v) (last_name_ v)
    (avatar_url_ v) (source_user_id_ v) (email_ v) (phone_number_ v) (birthdate_ v) (location_ v)
    (gender_ v) (website_ v) (group_id_ v).

(** [api/contact/add/v1_1.cpp:95-97 Impl::Impl] *)
Definition new_Impl : Impl :=
  {| contact_type_ := None; contact_key_ := None; display_name_ := None; first_name_ := None;
     last_name_ := None; avatar_url_ := None; source_user_id_ := None; email_ := None;
     phone_number_ := None; birthdate_ := None; location_ := None; gender_ := None;
     website_ := None; group_id_ := None |}.

(** [api/contact/add/v1_1.cpp:202-205 Request::SetContactType] *)
Definition SetContactType (contact_type : ContactType) (i : Impl) : Impl :=
  set_field contact_type_ (Some contact_type) i.

(** [api/contact/add/v1_1.cpp:207-210 Request::SetContactKey] *)
Definition SetContactKey (contact_key : str) (i : Impl) : Impl :=
  set_field contact_key_ (Some contact_key) i.

(** [api/contact/add/v1_1.cpp:212-215 Request::SetDisplayName] *)
Definition SetDisplayName (display_name : str) (i : Impl) : Impl :=
  set_field display_name_ (Some display_name) i.

(** [api/contact/add/v1_1.cpp:217-220 Request::SetFirstName] *)
Definition SetFirstName (first_name : str) (i : Impl) : Impl :=
  set_field first_name_ (Some first_name) i.

(** [api/contact/add/v1_1.cpp:222-225 Request::SetLastName] *)
Definition SetLastName (last_name : str) (i : Impl) : Impl :=
  set_field last_name_ (Some last_name) i.

(** [api/contact/add/v1_1.cpp:227-230 Request::SetAvatarUrl] *)
Definition SetAvatarUrl (avatar_url : str) (i : Impl) : Impl :=
  set_field avatar_url_ (Some avatar_url) i.

(** [api/contact/add/v1_1.cpp:232-235 Request::SetSourceUserId] *)
Definition SetSourceUserId (source_user_id : str) (i : Impl) : Impl :=
  set_field source_user_id_ (Some source_user_id) i.

(** [api/contact/add/v1_1.cpp:237-240 Request::SetEmail] *)
Definition SetEmail (email : str) (i : Impl) : Impl := set_field email_ (Some email) i.

(** [api/contact/add/v1_1.cpp:242-245 Request::SetPhoneNumber] *)
Definition SetPhoneNumber (phone_number : str) (i : Impl) : Impl :=
  set_field phone_number_ (Some phone_number) i.

(** [api/contact/add/v1_1.cpp:247-250 Request::SetBirthdate] *)
Definition SetBirthdate (birthdate : str) (i : Impl) : Impl :=
  set_field birthdate_ (Some birthdate) i.

(** [api/contact/add/v1_1.cpp:252-255 Request::SetLocation] *)
Definition SetLocation (location : str) (i : Impl) : Impl :=
  set_field location_ (Some location) i.

(** [api/contact/add/v1_1.cpp:257-260 Request::SetGender] *)
Definition SetGender (gender : Gender) (i : Impl) : Impl := set_field gender_ (Some gender) i.

(** [api/contact/add/v1_1.cpp:262-265 Request::SetWebsite] *)
Definition SetWebsite (website : str) (i : Impl) : Impl := set_field website_ (Some website) i.

(** [api/contact/add/v1_1.cpp:267-270 Request::SetGroupId] *)
Definition SetGroupId (group_id : str) (i : Impl) : Impl :=
  set_field group_id_ (Some group_id) i.

(** [api/contact/add/v1_1.cpp:99-105 Impl::BuildUrl] *)
Definition BuildUrl (query_parts : list query_part) : str * list query_part :=
  (api_path ++ B ".php", query_parts).

(** [api/contact/add/v1_1.cpp:89-92 Impl::GetRequestMethod] *)
Definition GetRequestMethod : RequestMethod := Post.

(** The assignments to [parts].
    [api/contact/add/v1_1.cpp:120-156 Impl::GetPostData] *)
Definition post_parts (i : Impl) : list query_part := make_parts
  [("contact_type", AsString_ContactType <$> contact_type_ i);
   ("contact_key", contact_key_ i);
   ("display_name", display_name_ i);
   ("first_name", first_name_ i);
   ("last_name", last_name_ i);
   ("avatar", avatar_url_ i);
   ("source_uid", source_user_id_ i);
   ("email", email_ i);
   ("phone", phone_number_ i);
   ("birthdate", birthdate_ i);
   ("location", location_ i);
   ("gender", AsString_Gender <$> gender_ i);
   ("website", website_ i);
   ("group_id", group_id_ i)].

(** [api/contact/add/v1_1.cpp:120-156 Impl::GetPostData] *)
Definition GetPostData (MD5 : str -> str) (a : SessionTokenApi) (i : Impl) : str :=
  MakePost MD5 a (api_path ++ B ".php") (post_parts i).

(** *** The description *)

(** [api/templates/apis/contact/v1_1/add.json:1-116 return_params] *)
Definition Response_described : description Response := [].

(** [api/templates/apis/contact/v1_1/add.json:5-25 ContactType] *)
Definition AsDescribed_ContactType (value : ContactType) : str :=
  match value with
  | ContactType_MediaFire => B "mediafire"
  | ContactType_FaceBook => B "facebook"
  | ContactType_GMail => B "gmail"
  | ContactType_Twitter => B "twitter"
  end.

(** [api/templates/apis/contact/v1_1/add.json:26-42 Gender] *)
Definition AsDescribed_Gender (value : Gender) : str :=
  match value with
  | Gender_Male => B "male"
  | Gender_Female => B "female"
  | Gender_None => B "none"
  end.

(** [api/templates/apis/contact/v1_1/add.json:44-115 input_params] *)
Definition params_described (i : Impl) : list (string * option str) :=
  [("contact_type", (AsDescribed_ContactType) <$> contact_type_ i);
   ("contact_key", contact_key_ i);
   ("display_name", display_name_ i);
   ("first_name", first_name_ i);
   ("last_name", last_name_ i);
   ("avatar", avatar_url_ i);
   ("source_uid", source_user_id_ i);
   ("email", email_ i);
   ("phone", phone_number_ i);
   ("birthdate", birthdate_ i);
   ("location", location_ i);
   ("gender", (AsDescribed_Gender) <$> gender_ i);
   ("website", website_ i);
   ("group_id", group_id_ i)].

#[global] Instance Response_parses :
  ParsesResponse ParseResponse new_Response Response_described.
Proof. parse_class. Qed.

Definition call : api_call := {|
  call_method := GetRequestMethod;
  call_uses_token := true;
  call_BuildUrl := BuildUrl;
  call_parts := post_parts;
  call_GetPostData := GetPostData;
  call_new := new_Response;
  call_ParseResponse := ParseResponse |}.

#[global] Instance call_implements :
  ImplementsCall call "/api/1.1/contact/add" true params_described Response_described.
Proof. implement_call. Qed.

End Call.
End contact_add_v1_1.

(** ** [api/contact/fetch/v0.cpp] *)
Module contact_fetch_v0.

Section Call.
Context `{Libraries}.

(** [api/contact/fetch/v0.hpp:36-40 Contact] *)
Record Contact := {
  Contact_contact_key : str }.
#[local] Instance Contact_members : Members Contact := fun v =>
  Build_Contact (Contact_contact_key v).
Definition new_Contact : Contact :=
  {| Contact_contact_key := [] |}.

(** [api/contact/fetch/v0.cpp:28-57 ContactFromPropertyBranch] *)
Definition ContactFromPropertyBranch : branch_parser Contact := FromPropertyBranch
  [ required std_string "contact_key" Contact_contact_key].

(** [api/contact/fetch/v0.hpp:41-42 Response] *)
Record Response := {
  Response_contacts : list Contact }.
#[local] Instance Response_members : Members Response := fun v =>
  Build_Response (Response_contacts v).
Definition new_Response : Response :=
  {| Response_contacts := [] |}.

(** [api/contact/fetch/v0.cpp:103-132 Impl::ParseResponse] *)
Definition ParseResponse : ResponseBase -> Response -> ResponseBase * Response :=
  parse_response
  [ optional_structs ContactFromPropertyBranch new_Contact "response.contacts" Response_contacts].

(** [api/contact/fetch/v0.cpp:67-67 api_path] *)
Definition api_path : str := B "/api/contact/fetch".

(** [api/contact/fetch/v0.cpp:71-89 Impl] *)
Record Impl := { }.

(** [api/contact/fetch/v0.cpp:91-93 Impl::Impl] *)
Definition new_Impl : Impl :=
  Build_Impl.

(** [api/contact/fetch/v0.cpp:95-101 Impl::BuildUrl] *)
Definition BuildUrl (query_parts : list query_part) : str * list query_part :=
  (api_path ++ B ".php", query_parts).

(** [api/contact/fetch/v0.cpp:85-88 Impl::GetRequestMethod] *)
Definition GetRequestMethod : RequestMethod := Post.

(** The assignments to [parts].
    [api/contact/fetch/v0.cpp:134-142 Impl::GetPostData] *)
Definition post_parts (i : Impl) : list query_part := make_parts
  [].

(** [api/contact/fetch/v0.cpp:134-142 Impl::GetPostData] *)
Definition GetPostData (MD5 : str -> str) (a : SessionTokenApi) (i : Impl) : str :=
  MakePost MD5 a (api_path ++ B ".php") (post_parts i).

(** *** The description *)

(** [api/templates/apis/contact/v0/fetch.json:5-14 Contact] *)
Definition Contact_described : description Contact :=
  [ Required string_at "contact_key" Contact_contact_key].

(** [api/templates/apis/contact/v0/fetch.json:16-24 return_params] *)
Definition Response_described : description Response :=
  [ OptionalStructs Contact_described "response.contacts" Response_contacts].

(** [api/templates/apis/contact/v0/fetch.json:1-25 input_params] *)
Definition params_described (i : Impl) : list (string * option str) :=
  [].

#[global] Instance Contact_parses : Parses ContactFromPropertyBranch new_Contact
  Contact_described.
Proof. parse_class. Qed.
#[global] Instance Response_parses :
  ParsesResponse ParseResponse new_Response Response_described.
Proof. parse_class. Qed.

Definition call : api_call := {|
  call_method := GetRequestMethod;
  call_uses_token := true;
  call_BuildUrl := BuildUrl;
  call_parts := post_parts;
  call_GetPostData := GetPostData;
  call_new := new_Response;
  call_ParseResponse := ParseResponse |}.

#[global] Instance call_implements :
  ImplementsCall call "/api/contact/fetch" true params_described Response_described.
Proof. implement_call. Qed.

End Call.
End contact_fetch_v0.
