(* ===== verification/ApiDevice.v ===== *)
(** * The calls [device/...] ([api/device])

    One module for each class, with the description it was generated from. *)
From S2P Require Import Prelude Errors ApiRequests PropertyTree ApiResponses Endpoint EndpointSpec EndpointProofs.

Open Scope Z_scope.

(** ** [api/device/get_changes/v0.cpp] *)
Module device_get_changes_v0.

Section Call.
Context `{Libraries}.

(** [api/device/get_changes/v0.hpp:36-49 File] *)
Record File := {
  File_quickkey : str;
  File_parent_folderkey : option str;
  File_revision : Z;
  File_created_datetime : ptime }.
#[local] Instance File_members : Members File := fun v =>
  Build_File (File_quickkey v) (File_parent_folderkey v) (File_revision v)
    (File_created_datetime v).
Definition new_File : File :=
  {| File_quickkey := []; File_parent_folderkey := None; File_revision := indeterminate Z _;
     File_created_datetime := not_a_date |}.

(** [api/device/get_changes/v0.hpp:50-63 Folder] *)
Record Folder := {
  Folder_folderkey : str;
  Folder_parent_folderkey : option str;
  Folder_revision : Z;
  Folder_created_datetime : ptime }.
#[local] Instance Folder_members : Members Folder := fun v =>
  Build_Folder (Folder_folderkey v) (Folder_parent_folderkey v) (Folder_revision v)
    (Folder_created_datetime v).
Definition new_Folder : Folder :=
  {| Folder_folderkey := []; Folder_parent_folderkey := None;
     Folder_revision := indeterminate Z _; Folder_created_datetime := not_a_date |}.

(** [api/device/get_changes/v0.cpp:28-85 FileFromPropertyBranch] *)
Definition FileFromPropertyBranch : branch_parser File := FromPropertyBranch
  [ assign File_created_datetime not_a_date;
    required std_string "quickkey" File_quickkey;
    optional std_string "parent_folderkey" File_parent_folderkey;
    required (an uint32) "revision" File_revision;
    with_default a_ptime "created" File_created_datetime].

(** [api/device/get_changes/v0.cpp:88-145 FolderFromPropertyBranch] *)
Definition FolderFromPropertyBranch : branch_parser Folder := FromPropertyBranch
  [ assign Folder_created_datetime not_a_date;
    required std_string "folderkey" Folder_folderkey;
    optional std_string "parent_folderkey" Folder_parent_folderkey;
    required (an uint32) "revision" Folder_revision;
    with_default a_ptime "created" Folder_created_datetime].

(** [api/device/get_changes/v0.hpp:64-80 Response] *)
Record Response := {
  Response_device_revision : Z;
  Response_changes_list_block : Z;
  Response_updated_files : list File;
  Response_deleted_files : list File;
  Response_updated_folders : list Folder;
  Response_deleted_folders : list Folder }.
#[local] Instance Response_members : Members Response := fun v =>
  Build_Response (Response_device_revision v) (Response_changes_list_block v)
    (Response_updated_files v) (Response_deleted_files v) (Response_updated_folders v)
    (Response_deleted_folders v).
Definition new_Response : Response :=
  {| Response_device_revision := indeterminate Z _;
     Response_changes_list_block := indeterminate Z _; Response_updated_files := [];
     Response_deleted_files := []; Response_updated_folders := [];
     Response_deleted_folders := [] |}.

(** [api/device/get_changes/v0.cpp:197-301 Impl::ParseResponse] *)
Definition ParseResponse : ResponseBase -> Response -> ResponseBase * Response :=
  parse_response
  [ required (an uint32) "response.device_revision" Response_device_revision;
    required (an uint32) "response.changes_list_block" Response_changes_list_block;
    optional_structs FileFromPropertyBranch new_File "response.updated.files"
       Response_updated_files;
    optional_structs FileFromPropertyBranch new_File "response.deleted.files"
       Response_deleted_files;
    optional_structs FolderFromPropertyBranch new_Folder "response.updated.folders"
       Response_updated_folders;
    optional_structs FolderFromPropertyBranch new_Folder "response.deleted.folders"
       Response_deleted_folders].

(** [api/device/get_changes/v0.cpp:155-155 api_path] *)
Definition api_path : str := B "/api/device/get_changes".

(** [api/device/get_changes/v0.cpp:159-180 Impl] *)
Record Impl := {
  revision_ : Z }.
#[local] Instance Impl_members : Members Impl := fun v =>
  Build_Impl (revision_ v).

(** [api/device/get_changes/v0.cpp:182-187 Impl::Impl] *)
Definition new_Impl (revision : Z) : Impl :=
  {| revision_ := revision |}.

(** [api/device/get_changes/v0.cpp:189-195 Impl::BuildUrl] *)
Definition BuildUrl (query_parts : list query_part) : str * list query_part :=
  (api_path ++ B ".php", query_parts).

(** [api/device/get_changes/v0.cpp:176-179 Impl::GetRequestMethod] *)
Definition GetRequestMethod : RequestMethod := Post.

(** The assignments to [parts].
    [api/device/get_changes/v0.cpp:303-312 Impl::GetPostData] *)
Definition post_parts (i : Impl) : list query_part := make_parts
  [("revision", Some (print_int (revision_ i)))].

(** [api/device/get_changes/v0.cpp:303-312 Impl::GetPostData] *)
Definition GetPostData (MD5 : str -> str) (a : SessionTokenApi) (i : Impl) : str :=
  MakePost MD5 a (api_path ++ B ".php") (post_parts i).

(** *** The description *)

(** [api/templates/apis/device/v0/get_changes.json:5-31 File] *)
Definition File_described : description File :=
  [ Required string_at "quickkey" File_quickkey;
    Optional string_at "parent_folderkey" File_parent_folderkey;
    Required (number_at uint32) "revision" File_revision;
    Default not_a_date time_at "created" File_created_datetime].

(** [api/templates/apis/device/v0/get_changes.json:32-58 Folder] *)
Definition Folder_described : description Folder :=
  [ Required string_at "folderkey" Folder_folderkey;
    Optional string_at "parent_folderkey" Folder_parent_folderkey;
    Required (number_at uint32) "revision" Folder_revision;
    Default not_a_date time_at "created" Folder_created_datetime].

(** [api/templates/apis/device/v0/get_changes.json:67-106 return_params] *)
Definition Response_described : description Response :=
  [ Required (number_at uint32) "response.device_revision" Response_device_revision;
    Required (number_at uint32) "response.changes_list_block" Response_changes_list_block;
    OptionalStructs File_described "response.updated.files" Response_updated_files;
    OptionalStructs File_described "response.deleted.files" Response_deleted_files;
    OptionalStructs Folder_described "response.updated.folders" Response_updated_folders;
    OptionalStructs Folder_described "response.deleted.folders" Response_deleted_folders].

(** [api/templates/apis/device/v0/get_changes.json:60-66 input_params] *)
Definition params_described (i : Impl) : list (string * option str) :=
  [("revision", Some (print_int (revision_ i)))].

#[global] Instance File_parses : Parses FileFromPropertyBranch new_File File_described.
Proof. parse_class. Qed.
#[global] Instance Folder_parses : Parses FolderFromPropertyBranch new_Folder Folder_described.
Proof. parse_class. Qed.
#[global] Instance Response_parses :
  ParsesResponse ParseResponse new_Response Response_described.
Proof. parse_class. Qed.

Definition call : api_call := {|
  call_method := GetRequestMethod;
  call_uses_token := true;
  call_BuildUrl := BuildUrl;
  call_parts := post_parts;
  call_GetPostData := GetPostData;
  call_new := new_Response;
  call_ParseResponse := ParseResponse |}.

#[global] Instance call_implements :
  ImplementsCall call "/api/device/get_changes" true params_described Response_described.
Proof. implement_call. Qed.

End Call.
End device_get_changes_v0.

(** ** [api/device/get_foreign_changes/v0.cpp] *)
Module device_get_foreign_changes_v0.

Section Call.
Context `{Libraries}.

(** [api/device/get_foreign_changes/v0.hpp:36-49 File] *)
Record File := {
  File_quickkey : str;
  File_parent_folderkey : option str;
  File_revision : Z;
  File_created_datetime : ptime }.
#[local] Instance File_members : Members File := fun v =>
  Build_File (File_quickkey v) (File_parent_folderkey v) (File_revision v)
    (File_created_datetime v).
Definition new_File : File :=
  {| File_quickkey := []; File_parent_folderkey := None; File_revision := indeterminate Z _;
     File_created_datetime := not_a_date |}.

(** [api/device/get_foreign_changes/v0.hpp:50-63 Folder] *)
Record Folder := {
  Folder_folderkey : str;
  Folder_parent_folderkey : option str;
  Folder_revision : Z;
  Folder_created_datetime : ptime }.
#[local] Instance Folder_members : Members Folder := fun v =>
  Build_Folder (Folder_folderkey v) (Folder_parent_folderkey v) (Folder_revision v)
    (Folder_created_datetime v).
Definition new_Folder : Folder :=
  {| Folder_folderkey := []; Folder_parent_folderkey := None;
     Folder_revision := indeterminate Z _; Folder_created_datetime := not_a_date |}.

(** [api/device/get_foreign_changes/v0.cpp:28-85 FileFromPropertyBranch] *)
Definition FileFromPropertyBranch : branch_parser File := FromPropertyBranch
  [ assign File_created_datetime not_a_date;
    required std_string "quickkey" File_quickkey;
    optional std_string "parent_folderkey" File_parent_folderkey;
    required (an uint32) "revision" File_revision;
    with_default a_ptime "created" File_created_datetime].

(** [api/device/get_foreign_changes/v0.cpp:88-145 FolderFromPropertyBranch] *)
Definition FolderFromPropertyBranch : branch_parser Folder := FromPropertyBranch
  [ assign Folder_created_datetime not_a_date;
    required std_string "folderkey" Folder_folderkey;
    optional std_string "parent_folderkey" Folder_parent_folderkey;
    required (an uint32) "revision" Folder_revision;
    with_default a_ptime "created" Folder_created_datetime].

(** [api/device/get_foreign_changes/v0.hpp:64-80 Response] *)
Record Response := {
  Response_device_revision : Z;
  Response_changes_list_block : Z;
  Response_updated_files : list File;
  Response_deleted_files : list File;
  Response_updated_folders : list Folder;
  Response_deleted_folders : list Folder }.
#[local] Instance Response_members : Members Response := fun v =>
  Build_Response (Response_device_revision v) (Response_changes_list_block v)
    (Response_updated_files v) (Response_deleted_files v) (Response_updated_folders v)
    (Response_deleted_folders v).
Definition new_Response : Response :=
  {| Response_device_revision := indeterminate Z _;
     Response_changes_list_block := indeterminate Z _; Response_updated_files := [];
     Response_deleted_files := []; Response_updated_folders := [];
     Response_deleted_folders := [] |}.

(** [api/device/get_foreign_changes/v0.cpp:201-305 Impl::ParseResponse] *)
Definition ParseResponse : ResponseBase -> Response -> ResponseBase * Response :=
  parse_response
  [ required (an uint32) "response.device_revision" Response_device_revision;
    required (an uint32) "response.changes_list_block" Response_changes_list_block;
    optional_structs FileFromPropertyBranch new_File "response.updated.files"
       Response_updated_files;
    optional_structs FileFromPropertyBranch new_File "response.deleted.files"
       Response_deleted_files;
    optional_structs FolderFromPropertyBranch new_Folder "response.updated.folders"
       Response_updated_folders;
    optional_structs FolderFromPropertyBranch new_Folder "response.deleted.folders"
       Response_deleted_folders].

(** [api/device/get_foreign_changes/v0.cpp:155-155 api_path] *)
Definition api_path : str := B "/api/device/get_foreign_changes".

(** [api/device/get_foreign_changes/v0.cpp:159-182 Impl] *)
Record Impl := {
  revision_ : Z;
  contact_key_ : str }.
#[local] Instance Impl_members : Members Impl := fun v =>
  Build_Impl (revision_ v) (contact_key_ v).

(** [api/device/get_foreign_changes/v0.cpp:184-191 Impl::Impl] *)
Definition new_Impl (revision : Z) (contact_key : str) : Impl :=
  {| revision_ := revision; contact_key_ := contact_key |}.

(** [api/device/get_foreign_changes/v0.cpp:193-199 Impl::BuildUrl] *)
Definition BuildUrl (query_parts : list query_part) : str * list query_part :=
  (api_path ++ B ".php", query_parts).

(** [api/device/get_foreign_changes/v0.cpp:178-181 Impl::GetRequestMethod] *)
Definition GetRequestMethod : RequestMethod := Post.

(** The assignments to [parts].
    [api/device/get_foreign_changes/v0.cpp:307-317 Impl::GetPostData] *)
Definition post_parts (i : Impl) : list query_part := make_parts
  [("revision", Some (print_int (revision_ i)));
   ("contact_key", Some (contact_key_ i))].

(** [api/device/get_foreign_changes/v0.cpp:307-317 Impl::GetPostData] *)
Definition GetPostData (MD5 : str -> str) (a : SessionTokenApi) (i : Impl) : str :=
  MakePost MD5 a (api_path ++ B ".php") (post_parts i).

End Call.
End device_get_foreign_changes_v0.

(** ** [api/device/get_foreign_changes/v1_3.cpp] *)
Module device_get_foreign_changes_v1_3.

Section Call.
Context `{Libraries}.

(** [api/device/get_foreign_changes/v1_3.hpp:36-49 File] *)
Record File := {
  File_quickkey : str;
  File_parent_folderkey : option str;
  File_revision : Z;
  File_created_datetime : ptime }.
#[local] Instance File_members : Members File := fun v =>
  Build_File (File_quickkey v) (File_parent_folderkey v) (File_revision v)
    (File_created_datetime v).
Definition new_File : File :=
  {| File_quickkey := []; File_parent_folderkey := None; File_revision := indeterminate Z _;
     File_created_datetime := not_a_date |}.

(** [api/device/get_foreign_changes/v1_3.hpp:50-63 Folder] *)
Record Folder := {
  Folder_folderkey : str;
  Folder_parent_folderkey : option str;
  Folder_revision : Z;
  Folder_created_datetime : ptime }.
#[local] Instance Folder_members : Members Folder := fun v =>
  Build_Folder (Folder_folderkey v) (Folder_parent_folderkey v) (Folder_revision v)
    (Folder_created_datetime v).
Definition new_Folder : Folder :=
  {| Folder_folderkey := []; Folder_parent_folderkey := None;
     Folder_revision := indeterminate Z _; Folder_created_datetime := not_a_date |}.

(** [api/device/get_foreign_changes/v1_3.cpp:28-85 FileFromPropertyBranch] *)
Definition FileFromPropertyBranch : branch_parser File := FromPropertyBranch
  [ assign File_created_datetime not_a_date;
    required std_string "quickkey" File_quickkey;
    optional std_string "parent_folderkey" File_parent_folderkey;
    required (an uint32) "revision" File_revision;
    with_default a_ptime "created" File_created_datetime].

(** [api/device/get_foreign_changes/v1_3.cpp:88-145 FolderFromPropertyBranch] *)
Definition FolderFromPropertyBranch : branch_parser Folder := FromPropertyBranch
  [ assign Folder_created_datetime not_a_date;
    required std_string "folderkey" Folder_folderkey;
    optional std_string "parent_folderkey" Folder_parent_folderkey;
    required (an uint32) "revision" Folder_revision;
    with_default a_ptime "created" Folder_created_datetime].

(** [api/device/get_foreign_changes/v1_3.hpp:64-80 Response] *)
Record Response := {
  Response_device_revision : Z;
  Response_changes_list_block : Z;
  Response_updated_files : list File;
  Response_deleted_files : list File;
  Response_updated_folders : list Folder;
  Response_deleted_folders : list Folder }.
#[local] Instance Response_members : Members Response := fun v =>
  Build_Response (Response_device_revision v) (Response_changes_list_block v)
    (Response_updated_files v) (Response_deleted_files v) (Response_updated_folders v)
    (Response_deleted_folders v).
Definition new_Response : Response :=
  {| Response_device_revision := indeterminate Z _;
     Response_changes_list_block := indeterminate Z _; Response_updated_files := [];
     Response_deleted_files := []; Response_updated_folders := [];
     Response_deleted_folders := [] |}.

(** [api/device/get_foreign_changes/v1_3.cpp:201-305 Impl::ParseResponse] *)
Definition ParseResponse : ResponseBase -> Response -> ResponseBase * Response :=
  parse_response
  [ required (an uint32) "response.device_revision" Response_device_revision;
    required (an uint32) "response.changes_list_block" Response_changes_list_block;
    optional_structs FileFromPropertyBranch new_File "response.updated.files"
       Response_updated_files;
    optional_structs FileFromPropertyBranch new_File "response.deleted.files"
       Response_deleted_files;
    optional_structs FolderFromPropertyBranch new_Folder "response.updated.folders"
       Response_updated_folders;
    optional_structs FolderFromPropertyBranch new_Folder "response.deleted.folders"
       Response_deleted_folders].

(** [api/device/get_foreign_changes/v1_3.cpp:155-155 api_path] *)
Definition api_path : str := B "/api/1.3/device/get_foreign_changes".

(** [api/device/get_foreign_changes/v1_3.cpp:159-182 Impl] *)
Record Impl := {
  revision_ : Z;
  contact_key_ : str }.
#[local] Instance Impl_members : Members Impl := fun v =>
  Build_Impl (revision_ v) (contact_key_ v).

(** [api/device/get_foreign_changes/v1_3.cpp:184-191 Impl::Impl] *)
Definition new_Impl (revision : Z) (contact_key : str) : Impl :=
  {| revision_ := revision; contact_key_ := contact_key |}.

(** [api/device/get_foreign_changes/v1_3.cpp:193-199 Impl::BuildUrl] *)
Definition BuildUrl (query_parts : list query_part) : str * list query_part :=
  (api_path ++ B ".php", query_parts).

(** [api/device/get_foreign_changes/v1_3.cpp:178-181 Impl::GetRequestMethod] *)
Definition GetRequestMethod : RequestMethod := Post.

(** The assignments to [parts].
    [api/device/get_foreign_changes/v1_3.cpp:307-317 Impl::GetPostData] *)
Definition post_parts (i : Impl) : list query_part := make_parts
  [("revision", Some (print_int (revision_ i)));
   ("contact_key", Some (contact_key_ i))].

(** [api/device/get_foreign_changes/v1_3.cpp:307-317 Impl::GetPostData] *)
Definition GetPostData (MD5 : str -> str) (a : SessionTokenApi) (i : Impl) : str :=
  MakePost MD5 a (api_path ++ B ".php") (post_parts i).

(** *** The description *)

(** [api/templates/apis/device/v1_3/get_foreign_changes.json:5-31 File] *)
Definition File_described : description File :=
  [ Required string_at "quickkey" File_quickkey;
    Optional string_at "parent_folderkey" File_parent_folderkey;
    Required (number_at uint32) "revision" File_revision;
    Default not_a_date time_at "created" File_created_datetime].

(** [api/templates/apis/device/v1_3/get_foreign_changes.json:32-58 Folder] *)
Definition Folder_described : description Folder :=
  [ Required string_at "folderkey" Folder_folderkey;
    Optional string_at "parent_folderkey" Folder_parent_folderkey;
    Required (number_at uint32) "revision" Folder_revision;
    Default not_a_date time_at "created" Folder_created_datetime].

(** [api/templates/apis/device/v1_3/get_foreign_changes.json:72-111 return_params] *)
Definition Response_described : description Response :=
  [ Required (number_at uint32) "response.device_revision" Response_device_revision;
    Required (number_at uint32) "response.changes_list_block" Response_changes_list_block;
    OptionalStructs File_described "response.updated.files" Response_updated_files;
    OptionalStructs File_described "response.deleted.files" Response_deleted_files;
    OptionalStructs Folder_described "response.updated.folders" Response_updated_folders;
    OptionalStructs Folder_described "response.deleted.folders" Response_deleted_folders].

(** [api/templates/apis/device/v1_3/get_foreign_changes.json:60-71 input_params] *)
Definition params_described (i : Impl) : list (string * option str) :=
  [("revision", Some (print_int (revision_ i)));
   ("contact_key", Some (contact_key_ i))].

#[global] Instance File_parses : Parses FileFromPropertyBranch new_File File_described.
Proof. parse_class. Qed.
#[global] Instance Folder_parses : Parses FolderFromPropertyBranch new_Folder Folder_described.
Proof. parse_class. Qed.
#[global] Instance Response_parses :
  ParsesResponse ParseResponse new_Response Response_described.
Proof. parse_class. Qed.

Definition call : api_call := {|
  call_method := GetRequestMethod;
  call_uses_token := true;
  call_BuildUrl := BuildUrl;
  call_parts := post_parts;
  call_GetPostData := GetPostData;
  call_new := new_Response;
  call_ParseResponse := ParseResponse |}.

#[global] Instance call_implements :
  ImplementsCall call "/api/1.3/device/get_foreign_changes" true params_described Response_described.
Proof. implement_call. Qed.

End Call.
End device_get_foreign_changes_v1_3.

(** ** [api/device/get_foreign_resources/v0.cpp] *)
Module device_get_foreign_resources_v0.

(** [api/device/get_foreign_resources/v0.hpp:29-35 ContentType] *)
Inductive ContentType : Set := ContentType_Folders | ContentType_Files.
#[global] Instance ContentType_inhabited : Inhabited ContentType := populate ContentType_Folders.

(** [api/device/get_foreign_resources/v0.hpp:37-43 ShareLinkEnabled] *)
Inductive ShareLinkEnabled : Set := ShareLinkEnabled_LinkDisabled | ShareLinkEnabled_LinkEnabled.
#[global] Instance ShareLinkEnabled_inhabited : Inhabited ShareLinkEnabled :=
  populate ShareLinkEnabled_LinkDisabled.

(** [api/device/get_foreign_resources/v0.hpp:45-51 SyncToDesktopFilter] *)
Inductive SyncToDesktopFilter : Set :=
  SyncToDesktopFilter_All | SyncToDesktopFilter_DesktopSyncedOnly.
#[global] Instance SyncToDesktopFilter_inhabited : Inhabited SyncToDesktopFilter :=
  populate SyncToDesktopFilter_All.

(** [api/device/get_foreign_resources/v0.cpp:24-31 AsString] *)
Definition AsString_ContentType (value : ContentType) : str :=
  match value with
  | ContentType_Folders => B "folders"
  | ContentType_Files => B "files"
  end.

(** [api/device/get_foreign_resources/v0.cpp:32-39 AsString] *)
Definition AsString_SyncToDesktopFilter (value : SyncToDesktopFilter) : str :=
  match value with
  | SyncToDesktopFilter_All => B "0"
  | SyncToDesktopFilter_DesktopSyncedOnly => B "1"
  end.

Section Call.
Context `{Libraries}.

(** [api/device/get_foreign_resources/v0.hpp:60-106 File] *)
Record File := {
  File_attributes : Z;
  File_created_datetime : ptime;
  File_shared_datetime : ptime;
  File_description : option str;
  File_filename : str;
  File_filetype : str;
  File_hash : str;
  File_mimetype : str;
  File_options : Z;
  File_permissions : option Z;
  File_quickkey : str;
  File_revision : Z;
  File_share_link_enabled : ShareLinkEnabled;
  File_sharer : str;
  File_filesize : Z }.
#[local] Instance File_members : Members File := fun v =>
  Build_File (File_attributes v) (File_created_datetime v) (File_shared_datetime v)
    (File_description v) (File_filename v) (File_filetype v) (File_hash v) (File_mimetype v)
    (File_options v) (File_permissions v) (File_quickkey v) (File_revision v)
    (File_share_link_enabled v) (File_sharer v) (File_filesize v).
Definition new_File : File :=
  {| File_attributes := indeterminate Z _; File_created_datetime := not_a_date;
     File_shared_datetime := not_a_date; File_description := None; File_filename := [];
     File_filetype := []; File_hash := []; File_mimetype := []; File_options := indeterminate Z _;
     File_permissions := None; File_quickkey := []; File_revision := indeterminate Z _;
     File_share_link_enabled := indeterminate ShareLinkEnabled _; File_sharer := [];
     File_filesize := indeterminate Z _ |}.

(** [api/device/get_foreign_resources/v0.hpp:107-144 Folder] *)
Record Folder := {
  Folder_attributes : Z;
  Folder_created_datetime : ptime;
  Folder_shared_datetime : ptime;
  Folder_description : option str;
  Folder_folderkey : str;
  Folder_name : str;
  Folder_options : Z;
  Folder_permissions : option Z;
  Folder_resource_key : option str;
  Folder_revision : Z;
  Folder_share_link_enabled : ShareLinkEnabled;
  Folder_sharer : str }.
#[local] Instance Folder_members : Members Folder := fun v =>
  Build_Folder (Folder_attributes v) (Folder_created_datetime v) (Folder_shared_datetime v)
    (Folder_description v) (Folder_folderkey v) (Folder_name v) (Folder_options v)
    (Folder_permissions v) (Folder_resource_key v) (Folder_revision v)
    (Folder_share_link_enabled v) (Folder_sharer v).
Definition new_Folder : Folder :=
  {| Folder_attributes := indeterminate Z _; Folder_created_datetime := not_a_date;
     Folder_shared_datetime := not_a_date; Folder_description := None; Folder_folderkey := [];
     Folder_name := []; Folder_options := indeterminate Z _; Folder_permissions := None;
     Folder_resource_key := None; Folder_revision := indeterminate Z _;
     Folder_share_link_enabled := indeterminate ShareLinkEnabled _; Folder_sharer := [] |}.

(** [api/device/get_foreign_resources/v0.cpp:47-213 FileFromPropertyBranch] *)
Definition FileFromPropertyBranch : branch_parser File := FromPropertyBranch
  [ assign File_mimetype [];
    assign File_share_link_enabled ShareLinkEnabled_LinkDisabled;
    required (an uint32) "attributes" File_attributes;
    required a_ptime "created" File_created_datetime;
    required a_ptime "date_shared" File_shared_datetime;
    optional std_string "desc" File_description;
    required std_string "filename" File_filename;
    required std_string "filetype" File_filetype;
    required std_string "md5" File_hash;
    with_default std_string "mimetype" File_mimetype;
    required (an uint32) "options" File_options;
    optional (an uint32) "permissions" File_permissions;
    required std_string "quickkey" File_quickkey;
    required (an uint32) "revision" File_revision;
    optional_enum id [("0", ShareLinkEnabled_LinkDisabled); ("1", ShareLinkEnabled_LinkEnabled)]
       "share_link_enabled" File_share_link_enabled;
    required std_string "sharer" File_sharer;
    required (an uint64) "size" File_filesize].

(** [api/device/get_foreign_resources/v0.cpp:216-360 FolderFromPropertyBranch] *)
Definition FolderFromPropertyBranch : branch_parser Folder := FromPropertyBranch
  [ assign Folder_share_link_enabled ShareLinkEnabled_LinkDisabled;
    required (an uint32) "attributes" Folder_attributes;
    required a_ptime "created" Folder_created_datetime;
    required a_ptime "date_shared" Folder_shared_datetime;
    optional std_string "desc" Folder_description;
    required std_string "folderkey" Folder_folderkey;
    required std_string "name" Folder_name;
    required (an uint32) "options" Folder_options;
    optional (an uint32) "permissions" Folder_permissions;
    optional std_string "resource_key" Folder_resource_key;
    required (an uint32) "revision" Folder_revision;
    optional_enum id [("0", ShareLinkEnabled_LinkDisabled); ("1", ShareLinkEnabled_LinkEnabled)]
       "share_link_enabled" Folder_share_link_enabled;
    required std_string "sharer" Folder_sharer].

(** [api/device/get_foreign_resources/v0.hpp:145-149 Response] *)
Record Response := {
  Response_files : list File;
  Response_folders : list Folder }.
#[local] Instance Response_members : Members Response := fun v =>
  Build_Response (Response_files v) (Response_folders v).
Definition new_Response : Response :=
  {| Response_files := []; Response_folders := [] |}.

(** [api/device/get_foreign_resources/v0.cpp:425-473 Impl::ParseResponse] *)
Definition ParseResponse : ResponseBase -> Response -> ResponseBase * Response :=
  parse_response
  [ optional_structs FileFromPropertyBranch new_File "response.files" Response_files;
    optional_structs FolderFromPropertyBranch new_Folder "response.folders" Response_folders].

(** [api/device/get_foreign_resources/v0.cpp:370-370 api_path] *)
Definition api_path : str := B "/api/device/get_foreign_resources".

(** [api/device/get_foreign_resources/v0.cpp:374-401 Impl] *)
Record Impl := {
  chunk_number_ : option Z;
  content_type_ : option ContentType;
  filter_ : option str;
  sync_to_desktop_filter_ : option SyncToDesktopFilter }.
#[local] Instance Impl_members : Members Impl := fun v =>
  Build_Impl (chunk_number_ v) (content_type_ v) (filter_ v) (sync_to_desktop_filter_ v).

(** [api/device/get_foreign_resources/v0.cpp:403-405 Impl::Impl] *)
Definition new_Impl : Impl :=
  {| chunk_number_ := None; content_type_ := None; filter_ := None;
     sync_to_desktop_filter_ := None |}.

(** [api/device/get_foreign_resources/v0.cpp:408-415 Impl::Impl] *)
Definition new_Impl_2 (chunk_number : Z) (content_type : ContentType) : Impl :=
  {| chunk_number_ := Some chunk_number; content_type_ := Some content_type; filter_ := None;
     sync_to_desktop_filter_ := None |}.

(** [api/device/get_foreign_resources/v0.cpp:546-549 Request::SetChunkNumber] *)
Definition SetChunkNumber (chunk_number : Z) (i : Impl) : Impl :=
  set_field chunk_number_ (Some chunk_number) i.

(** [api/device/get_foreign_resources/v0.cpp:551-554 Request::SetContentType] *)
Definition SetContentType (content_type : ContentType) (i : Impl) : Impl :=
  set_field content_type_ (Some content_type) i.

(** [api/device/get_foreign_resources/v0.cpp:556-559 Request::SetFilter] *)
Definition SetFilter (filter : str) (i : Impl) : Impl := set_field filter_ (Some filter) i.

(** [api/device/get_foreign_resources/v0.cpp:561-564 Request::SetSyncToDesktopFilter] *)
Definition SetSyncToDesktopFilter (sync_to_desktop_filter : SyncToDesktopFilter) (i : Impl) : Impl :=
  set_field sync_to_desktop_filter_ (Some sync_to_desktop_filter) i.

(** [api/device/get_foreign_resources/v0.cpp:417-423 Impl::BuildUrl] *)
Definition BuildUrl (query_parts : list query_part) : str * list query_part :=
  (api_path ++ B ".php", query_parts).

(** [api/device/get_foreign_resources/v0.cpp:397-400 Impl::GetRequestMethod] *)
Definition GetRequestMethod : RequestMethod := Post.

(** The assignments to [parts].
    [api/device/get_foreign_resources/v0.cpp:475-491 Impl::GetPostData] *)
Definition post_parts (i : Impl) : list query_part := make_parts
  [("chunk", print_int <$> chunk_number_ i);
   ("type", AsString_ContentType <$> content_type_ i);
   ("filter", filter_ i);
   ("sync", AsString_SyncToDesktopFilter <$> sync_to_desktop_filter_ i)].

(** [api/device/get_foreign_resources/v0.cpp:475-491 Impl::GetPostData] *)
Definition GetPostData (MD5 : str -> str) (a : SessionTokenApi) (i : Impl) : str :=
  MakePost MD5 a (api_path ++ B ".php") (post_parts i).

(** *** The description *)

(** [api/templates/apis/device/v0/get_foreign_resources.json:46-129 File] *)
Definition File_described : description File :=
  [ Required (number_at uint32) "attributes" File_attributes;
    Required time_at "created" File_created_datetime;
    Required time_at "date_shared" File_shared_datetime;
    Optional string_at "desc" File_description;
    Required string_at "filename" File_filename;
    Required string_at "filetype" File_filetype;
    Required string_at "md5" File_hash;
    Default [] string_at "mimetype" File_mimetype;
    Required (number_at uint32) "options" File_options;
    Optional (number_at uint32) "permissions" File_permissions;
    Required string_at "quickkey" File_quickkey;
    Required (number_at uint32) "revision" File_revision;
    Default ShareLinkEnabled_LinkDisabled (enum_at [("0", ShareLinkEnabled_LinkDisabled);
       ("1", ShareLinkEnabled_LinkEnabled)]) "share_link_enabled" File_share_link_enabled;
    Required string_at "sharer" File_sharer;
    Required (number_at uint64) "size" File_filesize].

(** [api/templates/apis/device/v0/get_foreign_resources.json:130-198 Folder] *)
Definition Folder_described : description Folder :=
  [ Required (number_at uint32) "attributes" Folder_attributes;
    Required time_at "created" Folder_created_datetime;
    Required time_at "date_shared" Folder_shared_datetime;
    Optional string_at "desc" Folder_description;
    Required string_at "folderkey" Folder_folderkey;
    Required string_at "name" Folder_name;
    Required (number_at uint32) "options" Folder_options;
    Optional (number_at uint32) "permissions" Folder_permissions;
    Optional string_at "resource_key" Folder_resource_key;
    Required (number_at uint32) "revision" Folder_revision;
    Default ShareLinkEnabled_LinkDisabled (enum_at [("0", ShareLinkEnabled_LinkDisabled);
       ("1", ShareLinkEnabled_LinkEnabled)]) "share_link_enabled" Folder_share_link_enabled;
    Required string_at "sharer" Folder_sharer].

(** [api/templates/apis/device/v0/get_foreign_resources.json:231-246 return_params] *)
Definition Response_described : description Response :=
  [ OptionalStructs File_described "response.files" Response_files;
    OptionalStructs Folder_described "response.folders" Response_folders].

(** [api/templates/apis/device/v0/get_foreign_resources.json:5-17 ContentType] *)
Definition AsDescribed_ContentType (value : ContentType) : str :=
  match value with
  | ContentType_Folders => B "folders"
  | ContentType_Files => B "files"
  end.

(** [api/templates/apis/device/v0/get_foreign_resources.json:31-43 SyncToDesktopFilter] *)
Definition AsDescribed_SyncToDesktopFilter (value : SyncToDesktopFilter) : str :=
  match value with
  | SyncToDesktopFilter_All => B "0"
  | SyncToDesktopFilter_DesktopSyncedOnly => B "1"
  end.

(** [api/templates/apis/device/v0/get_foreign_resources.json:209-230 input_params] *)
Definition params_described (i : Impl) : list (string * option str) :=
  [("chunk", print_int <$> chunk_number_ i);
   ("type", (AsDescribed_ContentType) <$> content_type_ i);
   ("filter", filter_ i);
   ("sync", (AsDescribed_SyncToDesktopFilter) <$> sync_to_desktop_filter_ i)].

#[global] Instance File_parses : Parses FileFromPropertyBranch new_File File_described.
Proof. parse_class. Qed.
#[global] Instance Folder_parses : Parses FolderFromPropertyBranch new_Folder Folder_described.
Proof. parse_class. Qed.
#[global] Instance Response_parses :
  ParsesResponse ParseResponse new_Response Response_described.
Proof. parse_class. Qed.

Definition call : api_call := {|
  call_method := GetRequestMethod;
  call_uses_token := true;
  call_BuildUrl := BuildUrl;
  call_parts := post_parts;
  call_GetPostData := GetPostData;
  call_new := new_Response;
  call_ParseResponse := ParseResponse |}.

#[global] Instance call_implements :
  ImplementsCall call "/api/device/get_foreign_resources" true params_described Response_described.
Proof. implement_call. Qed.

End Call.
End device_get_foreign_resources_v0.

(** ** [api/device/get_patch/v0.cpp] *)
Module device_get_patch_v0.

Section Call.
Context `{Libraries}.

(** [api/device/get_patch/v0.hpp:36-40 Response] *)
Record Response := {
  Response_patch_link : str;
  Response_patch_hash : str }.
#[local] Instance Response_members : Members Response := fun v =>
  Build_Response (Response_patch_link v) (Response_patch_hash v).
Definition new_Response : Response :=
  {| Response_patch_link := []; Response_patch_hash := [] |}.

(** [api/device/get_patch/v0.cpp:82-110 Impl::ParseResponse] *)
Definition ParseResponse : ResponseBase -> Response -> ResponseBase * Response :=
  parse_response
  [ required std_string "response.patch_link" Response_patch_link;
    required std_string "response.patch_hash" Response_patch_hash].

(** [api/device/get_patch/v0.cpp:32-32 api_path] *)
Definition api_path : str := B "/api/device/get_patch".

(** [api/device/get_patch/v0.cpp:36-61 Impl] *)
Record Impl := {
  quickkey_ : str;
  source_revision_ : Z;
  target_revision_ : Z }.
#[local] Instance Impl_members : Members Impl := fun v =>
  Build_Impl (quickkey_ v) (source_revision_ v) (target_revision_ v).

(** [api/device/get_patch/v0.cpp:63-72 Impl::Impl] *)
Definition new_Impl (quickkey : str) (source_revision : Z) (target_revision : Z) : Impl :=
  {| quickkey_ := quickkey; source_revision_ := source_revision;
     target_revision_ := target_revision |}.

(** [api/device/get_patch/v0.cpp:74-80 Impl::BuildUrl] *)
Definition BuildUrl (query_parts : list query_part) : str * list query_part :=
  (api_path ++ B ".php", query_parts).

(** [api/device/get_patch/v0.cpp:57-60 Impl::GetRequestMethod] *)
Definition GetRequestMethod : RequestMethod := Post.

(** The assignments to [parts].
    [api/device/get_patch/v0.cpp:112-123 Impl::GetPostData] *)
Definition post_parts (i : Impl) : list query_part := make_parts
  [("quick_key", Some (quickkey_ i));
   ("source_revision", Some (print_int (source_revision_ i)));
   ("target_revision", Some (print_int (target_revision_ i)))].

(** [api/device/get_patch/v0.cpp:112-123 Impl::GetPostData] *)
Definition GetPostData (MD5 : str -> str) (a : SessionTokenApi) (i : Impl) : str :=
  MakePost MD5 a (api_path ++ B ".php") (post_parts i).

(** *** The description *)

(** [api/templates/apis/device/v0/get_patch.json:21-32 return_params] *)
Definition Response_described : description Response :=
  [ Required string_at "response.patch_link" Response_patch_link;
    Required string_at "response.patch_hash" Response_patch_hash].

(** [api/templates/apis/device/v0/get_patch.json:4-20 input_params] *)
Definition params_described (i : Impl) : list (string * option str) :=
  [("quick_key", Some (quickkey_ i));
   ("source_revision", Some (print_int (source_revision_ i)));
   ("target_revision", Some (print_int (target_revision_ i)))].

#[global] Instance Response_parses :
  ParsesResponse ParseResponse new_Response Response_described.
Proof. parse_class. Qed.

Definition call : api_call := {|
  call_method := GetRequestMethod;
  call_uses_token := true;
  call_BuildUrl := BuildUrl;
  call_parts := post_parts;
  call_GetPostData := GetPostData;
  call_new := new_Response;
  call_ParseResponse := ParseResponse |}.

#[global] Instance call_implements :
  ImplementsCall call "/api/device/get_patch" true params_described Response_described.
Proof. implement_call. Qed.

End Call.
End device_get_patch_v0.

(** ** [api/device/get_resource_shares/v0.cpp] *)
Module device_get_resource_shares_v0.

(** [api/device/get_resource_shares/v0.hpp:29-37 Permissions] *)
Inductive Permissions : Set := Permissions_Read | Permissions_ReadWrite | Permissions_Manage.
#[global] Instance Permissions_inhabited : Inhabited Permissions := populate Permissions_Read.

Section Call.
Context `{Libraries}.

(** [api/device/get_resource_shares/v0.hpp:46-65 Share] *)
Record Share := {
  Share_contact_key : Z;
  Share_contact_type : Z;
  Share_contact_indirect : Z;
  Share_display_name : str;
  Share_avatar : option str;
  Share_share_permissions : Permissions }.
#[local] Instance Share_members : Members Share := fun v =>
  Build_Share (Share_contact_key v) (Share_contact_type v) (Share_contact_indirect v)
    (Share_display_name v) (Share_avatar v) (Share_share_permissions v).
Definition new_Share : Share :=
  {| Share_contact_key := indeterminate Z _; Share_contact_type := indeterminate Z _;
     Share_contact_indirect := indeterminate Z _; Share_display_name := []; Share_avatar := None;
     Share_share_permissions := indeterminate Permissions _ |}.

(** [api/device/get_resource_shares/v0.cpp:28-121 ShareFromPropertyBranch] *)
Definition ShareFromPropertyBranch : branch_parser Share := FromPropertyBranch
  [ required (an uint32) "contact_key" Share_contact_key;
    required (an uint32) "contact_type" Share_contact_type;
    required (an uint32) "contact_indirect" Share_contact_indirect;
    required std_string "display_name" Share_display_name;
    optional std_string "avatar" Share_avatar;
    required_enum [("1", Permissions_Read); ("2", Permissions_ReadWrite);
       ("4", Permissions_Manage)] "permissions" Share_share_permissions].

(** [api/device/get_resource_shares/v0.hpp:66-67 Response] *)
Record Response := {
  Response_shares : list Share }.
#[local] Instance Response_members : Members Response := fun v =>
  Build_Response (Response_shares v).
Definition new_Response : Response :=
  {| Response_shares := [] |}.

(** [api/device/get_resource_shares/v0.cpp:181-210 Impl::ParseResponse] *)
Definition ParseResponse : ResponseBase -> Response -> ResponseBase * Response :=
  parse_response
  [ optional_structs ShareFromPropertyBranch new_Share "response.shares" Response_shares].

(** [api/device/get_resource_shares/v0.cpp:131-131 api_path] *)
Definition api_path : str := B "/api/device/get_resource_shares".

(** [api/device/get_resource_shares/v0.cpp:135-160 Impl] *)
Record Impl := {
  quickkey_ : str;
  source_revision_ : Z;
  target_revision_ : Z }.
#[local] Instance Impl_members : Members Impl := fun v =>
  Build_Impl (quickkey_ v) (source_revision_ v) (target_revision_ v).

(** [api/device/get_resource_shares/v0.cpp:162-171 Impl::Impl] *)
Definition new_Impl (quickkey : str) (source_revision : Z) (target_revision : Z) : Impl :=
  {| quickkey_ := quickkey; source_revision_ := source_revision;
     target_revision_ := target_revision |}.

(** [api/device/get_resource_shares/v0.cpp:173-179 Impl::BuildUrl] *)
Definition BuildUrl (query_parts : list query_part) : str * list query_part :=
  (api_path ++ B ".php", query_parts).

(** [api/device/get_resource_shares/v0.cpp:156-159 Impl::GetRequestMethod] *)
Definition GetRequestMethod : RequestMethod := Post.

(** The assignments to [parts].
    [api/device/get_resource_shares/v0.cpp:212-223 Impl::GetPostData] *)
Definition post_parts (i : Impl) : list query_part := make_parts
  [("quick_key", Some (quickkey_ i));
   ("source_revision", Some (print_int (source_revision_ i)));
   ("target_revision", Some (print_int (target_revision_ i)))].

(** [api/device/get_resource_shares/v0.cpp:212-223 Impl::GetPostData] *)
Definition GetPostData (MD5 : str -> str) (a : SessionTokenApi) (i : Impl) : str :=
  MakePost MD5 a (api_path ++ B ".php") (post_parts i).

(** *** The description *)

(** [api/templates/apis/device/v0/get_resource_shares.json:24-59 Share] *)
Definition Share_described : description Share :=
  [ Required (number_at uint32) "contact_key" Share_contact_key;
    Required (number_at uint32) "contact_type" Share_contact_type;
    Required (number_at uint32) "contact_indirect" Share_contact_indirect;
    Required string_at "display_name" Share_display_name;
    Optional string_at "avatar" Share_avatar;
    Required (enum_at [("1", Permissions_Read); ("2", Permissions_ReadWrite);
       ("4", Permissions_Manage)]) "permissions" Share_share_permissions].

(** [api/templates/apis/device/v0/get_resource_shares.json:78-86 return_params] *)
Definition Response_described : description Response :=
  [ OptionalStructs Share_described "response.shares" Response_shares].

(** [api/templates/apis/device/v0/get_resource_shares.json:61-77 input_params] *)
Definition params_described (i : Impl) : list (string * option str) :=
  [("quick_key", Some (quickkey_ i));
   ("source_revision", Some (print_int (source_revision_ i)));
   ("target_revision", Some (print_int (target_revision_ i)))].

#[global] Instance Share_parses : Parses ShareFromPropertyBranch new_Share Share_described.
Proof. parse_class. Qed.
#[global] Instance Response_parses :
  ParsesResponse ParseResponse new_Response Response_described.
Proof. parse_class. Qed.

Definition call : api_call := {|
  call_method := GetRequestMethod;
  call_uses_token := true;
  call_BuildUrl := BuildUrl;
  call_parts := post_parts;
  call_GetPostData := GetPostData;
  call_new := new_Response;
  call_ParseResponse := ParseResponse |}.

#[global] Instance call_implements :
  ImplementsCall call "/api/device/get_resource_shares" true params_described Response_described.
Proof. implement_call. Qed.

End Call.
End device_get_resource_shares_v0.

(** ** [api/device/get_status/v0.cpp] *)
Module device_get_status_v0.

(** [api/device/get_status/v0.hpp:29-35 AsyncJobs] *)
Inductive AsyncJobs : Set := AsyncJobs_Stopped | AsyncJobs_Running.
#[global] Instance AsyncJobs_inhabited : Inhabited AsyncJobs := populate AsyncJobs_Stopped.

Section Call.
Context `{Libraries}.

(** [api/device/get_status/v0.hpp:44-48 Response] *)
Record Response := {
  Response_async_jobs_in_progress : AsyncJobs;
  Response_device_revision : Z }.
#[local] Instance Response_members : Members Response := fun v =>
  Build_Response (Response_async_jobs_in_progress v) (Response_device_revision v).
Definition new_Response : Response :=
  {| Response_async_jobs_in_progress := indeterminate AsyncJobs _;
     Response_device_revision := indeterminate Z _ |}.

(** [api/device/get_status/v0.cpp:69-111 Impl::ParseResponse] *)
Definition ParseResponse : ResponseBase -> Response -> ResponseBase * Response :=
  parse_response
  [ required_enum [("no", AsyncJobs_Stopped); ("yes", AsyncJobs_Running)]
       "response.async_jobs_in_progress" Response_async_jobs_in_progress;
    required (an uint32) "response.device_revision" Response_device_revision].

(** [api/device/get_status/v0.cpp:32-32 api_path] *)
Definition api_path : str := B "/api/device/get_status".

(** [api/device/get_status/v0.cpp:36-55 Impl] *)
Record Impl := {
  device_id_ : option Z }.
#[local] Instance Impl_members : Members Impl := fun v =>
  Build_Impl (device_id_ v).

(** [api/device/get_status/v0.cpp:57-59 Impl::Impl] *)
Definition new_Impl : Impl :=
  {| device_id_ := None |}.

(** [api/device/get_status/v0.cpp:169-172 Request::SetDeviceId] *)
Definition SetDeviceId (device_id : Z) (i : Impl) : Impl :=
  set_field device_id_ (Some device_id) i.

(** [api/device/get_status/v0.cpp:61-67 Impl::BuildUrl] *)
Definition BuildUrl (query_parts : list query_part) : str * list query_part :=
  (api_path ++ B ".php", query_parts).

(** [api/device/get_status/v0.cpp:51-54 Impl::GetRequestMethod] *)
Definition GetRequestMethod : RequestMethod := Post.

(** The assignments to [parts].
    [api/device/get_status/v0.cpp:113-123 Impl::GetPostData] *)
Definition post_parts (i : Impl) : list query_part := make_parts
  [("device_id", print_int <$> device_id_ i)].

(** [api/device/get_status/v0.cpp:113-123 Impl::GetPostData] *)
Definition GetPostData (MD5 : str -> str) (a : SessionTokenApi) (i : Impl) : str :=
  MakePost MD5 a (api_path ++ B ".php") (post_parts i).

(** *** The description *)

(** [api/templates/apis/device/v0/get_status.json:26-37 return_params] *)
Definition Response_described : description Response :=
  [ Required (enum_at [("no", AsyncJobs_Stopped); ("yes", AsyncJobs_Running)])
       "response.async_jobs_in_progress" Response_async_jobs_in_progress;
    Required (number_at uint32) "response.device_revision" Response_device_revision].

(** [api/templates/apis/device/v0/get_status.json:19-25 input_params] *)
Definition params_described (i : Impl) : list (string * option str) :=
  [("device_id", print_int <$> device_id_ i)].

#[global] Instance Response_parses :
  ParsesResponse ParseResponse new_Response Response_described.
Proof. parse_class. Qed.

Definition call : api_call := {|
  call_method := GetRequestMethod;
  call_uses_token := true;
  call_BuildUrl := BuildUrl;
  call_parts := post_parts;
  call_GetPostData := GetPostData;
  call_new := new_Response;
  call_ParseResponse := ParseResponse |}.

#[global] Instance call_implements :
  ImplementsCall call "/api/device/get_status" true params_described Response_described.
Proof. implement_call. Qed.

End Call.
End device_get_status_v0.

(** ** [api/device/get_updates/v0.cpp] *)
Module device_get_updates_v0.

Section Call.
Context `{Libraries}.

(** [api/device/get_updates/v0.hpp:36-52 Update] *)
Record Update := {
  Update_source_revision : Z;
  Update_source_hash : str;
  Update_target_revision : Z;
  Update_target_hash : str;
  Update_timestamp : ptime }.
#[local] Instance Update_members : Members Update := fun v =>
  Build_Update (Update_source_revision v) (Update_source_hash v) (Update_target_revision v)
    (Update_target_hash v) (Update_timestamp v).
Definition new_Update : Update :=
  {| Update_source_revision := indeterminate Z _; Update_source_hash := [];
     Update_target_revision := indeterminate Z _; Update_target_hash := [];
     Update_timestamp := not_a_date |}.

(** [api/device/get_updates/v0.cpp:28-93 UpdateFromPropertyBranch] *)
Definition UpdateFromPropertyBranch : branch_parser Update := FromPropertyBranch
  [ required (an uint32) "source_revision" Update_source_revision;
    required std_string "source_hash" Update_source_hash;
    required (an uint32) "target_revision" Update_target_revision;
    required std_string "target_hash" Update_target_hash;
    required a_ptime "timestamp" Update_timestamp].

(** [api/device/get_updates/v0.hpp:53-57 Response] *)
Record Response := {
  Response_current_revision : Z;
  Response_updates : list Update }.
#[local] Instance Response_members : Members Response := fun v =>
  Build_Response (Response_current_revision v) (Response_updates v).
Definition new_Response : Response :=
  {| Response_current_revision := indeterminate Z _; Response_updates := [] |}.

(** [api/device/get_updates/v0.cpp:150-188 Impl::ParseResponse] *)
Definition ParseResponse : ResponseBase -> Response -> ResponseBase * Response :=
  parse_response
  [ required (an uint32) "response.current_revision" Response_current_revision;
    optional_structs UpdateFromPropertyBranch new_Update "response.updates" Response_updates].

(** [api/device/get_updates/v0.cpp:103-103 api_path] *)
Definition api_path : str := B "/api/device/get_updates".

(** [api/device/get_updates/v0.cpp:107-131 Impl] *)
Record Impl := {
  quickkey_ : str;
  revision_ : Z;
  target_revision_ : option Z }.
#[local] Instance Impl_members : Members Impl := fun v =>
  Build_Impl (quickkey_ v) (revision_ v) (target_revision_ v).

(** [api/device/get_updates/v0.cpp:133-140 Impl::Impl] *)
Definition new_Impl (quickkey : str) (revision : Z) : Impl :=
  {| quickkey_ := quickkey; revision_ := revision; target_revision_ := None |}.

(** [api/device/get_updates/v0.cpp:251-254 Request::SetTargetRevision] *)
Definition SetTargetRevision (target_revision : Z) (i : Impl) : Impl :=
  set_field target_revision_ (Some target_revision) i.

(** [api/device/get_updates/v0.cpp:142-148 Impl::BuildUrl] *)
Definition BuildUrl (query_parts : list query_part) : str * list query_part :=
  (api_path ++ B ".php", query_parts).

(** [api/device/get_updates/v0.cpp:127-130 Impl::GetRequestMethod] *)
Definition GetRequestMethod : RequestMethod := Post.

(** The assignments to [parts].
    [api/device/get_updates/v0.cpp:190-202 Impl::GetPostData] *)
Definition post_parts (i : Impl) : list query_part := make_parts
  [("quick_key", Some (quickkey_ i));
   ("revision", Some (print_int (revision_ i)));
   ("target_revision", print_int <$> target_revision_ i)].

(** [api/device/get_updates/v0.cpp:190-202 Impl::GetPostData] *)
Definition GetPostData (MD5 : str -> str) (a : SessionTokenApi) (i : Impl) : str :=
  MakePost MD5 a (api_path ++ B ".php") (post_parts i).

(** *** The description *)

(** [api/templates/apis/device/v0/get_updates.json:5-34 Update] *)
Definition Update_described : description Update :=
  [ Required (number_at uint32) "source_revision" Update_source_revision;
    Required string_at "source_hash" Update_source_hash;
    Required (number_at uint32) "target_revision" Update_target_revision;
    Required string_at "target_hash" Update_target_hash;
    Required time_at "timestamp" Update_timestamp].

(** [api/templates/apis/device/v0/get_updates.json:55-68 return_params] *)
Definition Response_described : description Response :=
  [ Required (number_at uint32) "response.current_revision" Response_current_revision;
    OptionalStructs Update_described "response.updates" Response_updates].

(** [api/templates/apis/device/v0/get_updates.json:36-54 input_params] *)
Definition params_described (i : Impl) : list (string * option str) :=
  [("quick_key", Some (quickkey_ i));
   ("revision", Some (print_int (revision_ i)));
   ("target_revision", print_int <$> target_revision_ i)].

#[global] Instance Update_parses : Parses UpdateFromPropertyBranch new_Update Update_described.
Proof. parse_class. Qed.
#[global] Instance Response_parses :
  ParsesResponse ParseResponse new_Response Response_described.
Proof. parse_class. Qed.

Definition call : api_call := {|
  call_method := GetRequestMethod;
  call_uses_token := true;
  call_BuildUrl := BuildUrl;
  call_parts := post_parts;
  call_GetPostData := GetPostData;
  call_new := new_Response;
  call_ParseResponse := ParseResponse |}.

#[global] Instance call_implements :
  ImplementsCall call "/api/device/get_updates" true params_described Response_described.
Proof. implement_call. Qed.

End Call.
End device_get_updates_v0.

(** ** [api/device/get_user_shares/v0.cpp] *)
Module device_get_user_shares_v0.

(** [api/device/get_user_shares/v0.hpp:29-35 ContactIndirect] *)
Inductive ContactIndirect : Set := ContactIndirect_Direct | ContactIndirect_Indirect.
#[global] Instance ContactIndirect_inhabited : Inhabited ContactIndirect :=
  populate ContactIndirect_Direct.

(** [api/device/get_user_shares/v0.hpp:37-45 Permissions] *)
Inductive Permissions : Set := Permissions_Read | Permissions_ReadWrite | Permissions_Manage.
#[global] Instance Permissions_inhabited : Inhabited Permissions := populate Permissions_Read.

Section Call.
Context `{Libraries}.

(** [api/device/get_user_shares/v0.hpp:54-79 Share] *)
Record Share := {
  Share_contact_key : Z;
  Share_contact_indirect : ContactIndirect;
  Share_contact_type : Z;
  Share_display_name : str;
  Share_avatar : option str;
  Share_resource_key : str;
  Share_attributes : Z;
  Share_share_permissions : Permissions }.
#[local] Instance Share_members : Members Share := fun v =>
  Build_Share (Share_contact_key v) (Share_contact_indirect v) (Share_contact_type v)
    (Share_display_name v) (Share_avatar v) (Share_resource_key v) (Share_attributes v)
    (Share_share_permissions v).
Definition new_Share : Share :=
  {| Share_contact_key := indeterminate Z _;
     Share_contact_indirect := indeterminate ContactIndirect _;
     Share_contact_type := indeterminate Z _; Share_display_name := []; Share_avatar := None;
     Share_resource_key := []; Share_attributes := indeterminate Z _;
     Share_share_permissions := indeterminate Permissions _ |}.

(** [api/device/get_user_shares/v0.cpp:28-153 ShareFromPropertyBranch] *)
Definition ShareFromPropertyBranch : branch_parser Share := FromPropertyBranch
  [ required (an uint32) "contact_key" Share_contact_key;
    required_enum [("0", ContactIndirect_Direct); ("1", ContactIndirect_Indirect)]
       "contact_indirect" Share_contact_indirect;
    required (an uint32) "contact_type" Share_contact_type;
    required std_string "display_name" Share_display_name;
    optional std_string "avatar" Share_avatar;
    required std_string "resource_key" Share_resource_key;
    required (an uint32) "attributes" Share_attributes;
    required_enum [("1", Permissions_Read); ("2", Permissions_ReadWrite);
       ("4", Permissions_Manage)] "permissions" Share_share_permissions].

(** [api/device/get_user_shares/v0.hpp:80-81 Response] *)
Record Response := {
  Response_shares : list Share }.
#[local] Instance Response_members : Members Response := fun v =>
  Build_Response (Response_shares v).
Definition new_Response : Response :=
  {| Response_shares := [] |}.

(** [api/device/get_user_shares/v0.cpp:201-230 Impl::ParseResponse] *)
Definition ParseResponse : ResponseBase -> Response -> ResponseBase * Response :=
  parse_response
  [ optional_structs ShareFromPropertyBranch new_Share "response.shares" Response_shares].

(** [api/device/get_user_shares/v0.cpp:163-163 api_path] *)
Definition api_path : str := B "/api/device/get_user_shares".

(** [api/device/get_user_shares/v0.cpp:167-187 Impl] *)
Record Impl := {
  contacts_ : option str;
  limit_ : option Z }.
#[local] Instance Impl_members : Members Impl := fun v =>
  Build_Impl (contacts_ v) (limit_ v).

(** [api/device/get_user_shares/v0.cpp:189-191 Impl::Impl] *)
Definition new_Impl : Impl :=
  {| contacts_ := None; limit_ := None |}.

(** [api/device/get_user_shares/v0.cpp:290-293 Request::SetContacts] *)
Definition SetContacts (contacts : str) (i : Impl) : Impl :=
  set_field contacts_ (Some contacts) i.

(** [api/device/get_user_shares/v0.cpp:295-298 Request::SetLimit] *)
Definition SetLimit (limit : Z) (i : Impl) : Impl := set_field limit_ (Some limit) i.

(** [api/device/get_user_shares/v0.cpp:193-199 Impl::BuildUrl] *)
Definition BuildUrl (query_parts : list query_part) : str * list query_part :=
  (api_path ++ B ".php", query_parts).

(** [api/device/get_user_shares/v0.cpp:183-186 Impl::GetRequestMethod] *)
Definition GetRequestMethod : RequestMethod := Post.

(** The assignments to [parts].
    [api/device/get_user_shares/v0.cpp:232-244 Impl::GetPostData] *)
Definition post_parts (i : Impl) : list query_part := make_parts
  [("contacts", contacts_ i);
   ("limit", print_int <$> limit_ i)].

(** [api/device/get_user_shares/v0.cpp:232-244 Impl::GetPostData] *)
Definition GetPostData (MD5 : str -> str) (a : SessionTokenApi) (i : Impl) : str :=
  MakePost MD5 a (api_path ++ B ".php") (post_parts i).

(** *** The description *)

(** [api/templates/apis/device/v0/get_user_shares.json:37-82 Share] *)
Definition Share_described : description Share :=
  [ Required (number_at uint32) "contact_key" Share_contact_key;
    Required (enum_at [("0", ContactIndirect_Direct); ("1", ContactIndirect_Indirect)])
       "contact_indirect" Share_contact_indirect;
    Required (number_at uint32) "contact_type" Share_contact_type;
    Required string_at "display_name" Share_display_name;
    Optional string_at "avatar" Share_avatar;
    Required string_at "resource_key" Share_resource_key;
    Required (number_at uint32) "attributes" Share_attributes;
    Required (enum_at [("1", Permissions_Read); ("2", Permissions_ReadWrite);
       ("4", Permissions_Manage)]) "permissions" Share_share_permissions].

(** [api/templates/apis/device/v0/get_user_shares.json:96-104 return_params] *)
Definition Response_described : description Response :=
  [ OptionalStructs Share_described "response.shares" Response_shares].

(** [api/templates/apis/device/v0/get_user_shares.json:84-95 input_params] *)
Definition params_described (i : Impl) : list (string * option str) :=
  [("contacts", contacts_ i);
   ("limit", print_int <$> limit_ i)].

#[global] Instance Share_parses : Parses ShareFromPropertyBranch new_Share Share_described.
Proof. parse_class. Qed.
#[global] Instance Response_parses :
  ParsesResponse ParseResponse new_Response Response_described.
Proof. parse_class. Qed.

Definition call : api_call := {|
  call_method := GetRequestMethod;
  call_uses_token := true;
  call_BuildUrl := BuildUrl;
  call_parts := post_parts;
  call_GetPostData := GetPostData;
  call_new := new_Response;
  call_ParseResponse := ParseResponse |}.

#[global] Instance call_implements :
  ImplementsCall call "/api/device/get_user_shares" true params_described Response_described.
Proof. implement_call. Qed.

End Call.
End device_get_user_shares_v0.

(** ** [api/device/share_resources/v0.cpp] *)
Module device_share_resources_v0.

(** [api/device/share_resources/v0.hpp:29-37 Permissions] *)
Inductive Permissions : Set := Permissions_Read | Permissions_ReadWrite | Permissions_Manage.
#[global] Instance Permissions_inhabited : Inhabited Permissions := populate Permissions_Read.

(** [api/device/share_resources/v0.cpp:24-33 AsString] *)
Definition AsString_Permissions (value : Permissions) : str :=
  match value with
  | Permissions_Read => B "1"
  | Permissions_ReadWrite => B "2"
  | Permissions_Manage => B "4"
  end.

Section Call.
Context `{Libraries}.

(** [api/device/share_resources/v0.hpp:46-47 Response] *)
Record Response := {
  Response_device_revision : Z }.
#[local] Instance Response_members : Members Response := fun v =>
  Build_Response (Response_device_revision v).
Definition new_Response : Response :=
  {| Response_device_revision := indeterminate Z _ |}.

(** [api/device/share_resources/v0.cpp:96-115 Impl::ParseResponse] *)
Definition ParseResponse : ResponseBase -> Response -> ResponseBase * Response :=
  parse_response
  [ required (an uint32) "response.device_revision" Response_device_revision].

(** [api/device/share_resources/v0.cpp:45-45 api_path] *)
Definition api_path : str := B "/api/device/share_resources".

(** [api/device/share_resources/v0.cpp:49-77 Impl] *)
Record Impl := {
  resources_ : str;
  contacts_ : str;
  permissions_ : option Permissions;
  message_ : option str;
  fb_access_token_ : option str;
  tw_oauth_token_ : option str;
  tw_oauth_token_secret_ : option str }.
#[local] Instance Impl_members : Members Impl := fun v =>
  Build_Impl (resources_ v) (contacts_ v) (permissions_ v) (message_ v) (fb_access_token_ v)
    (tw_oauth_token_ v) (tw_oauth_token_secret_ v).

(** [api/device/share_resources/v0.cpp:79-86 Impl::Impl] *)
Definition new_Impl (resources : str) (contacts : str) : Impl :=
  {| resources_ := resources; contacts_ := contacts; permissions_ := None; message_ := None;
     fb_access_token_ := None; tw_oauth_token_ := None; tw_oauth_token_secret_ := None |}.

(** [api/device/share_resources/v0.cpp:186-189 Request::SetPermissions] *)
Definition SetPermissions (permissions : Permissions) (i : Impl) : Impl :=
  set_field permissions_ (Some permissions) i.

(** [api/device/share_resources/v0.cpp:191-194 Request::SetMessage] *)
Definition SetMessage (message : str) (i : Impl) : Impl := set_field message_ (Some message) i.

(** [api/device/share_resources/v0.cpp:196-199 Request::SetFbAccessToken] *)
Definition SetFbAccessToken (fb_access_token : str) (i : Impl) : Impl :=
  set_field fb_access_token_ (Some fb_access_token) i.

(** [api/device/share_resources/v0.cpp:201-204 Request::SetTwOauthToken] *)
Definition SetTwOauthToken (tw_oauth_token : str) (i : Impl) : Impl :=
  set_field tw_oauth_token_ (Some tw_oauth_token) i.

(** [api/device/share_resources/v0.cpp:206-209 Request::SetTwOauthTokenSecret] *)
Definition SetTwOauthTokenSecret (tw_oauth_token_secret : str) (i : Impl) : Impl :=
  set_field tw_oauth_token_secret_ (Some tw_oauth_token_secret) i.

(** [api/device/share_resources/v0.cpp:88-94 Impl::BuildUrl] *)
Definition BuildUrl (query_parts : list query_part) : str * list query_part :=
  (api_path ++ B ".php", query_parts).

(** [api/device/share_resources/v0.cpp:73-76 Impl::GetRequestMethod] *)
Definition GetRequestMethod : RequestMethod := Post.

(** The assignments to [parts].
    [api/device/share_resources/v0.cpp:117-137 Impl::GetPostData] *)
Definition post_parts (i : Impl) : list query_part := make_parts
  [("resources", Some (resources_ i));
   ("contacts", Some (contacts_ i));
   ("permissions", AsString_Permissions <$> permissions_ i);
   ("message", message_ i);
   ("fb_access_token", fb_access_token_ i);
   ("tw_oauth_token", tw_oauth_token_ i);
   ("tw_oauth_token_secret", tw_oauth_token_secret_ i)].

(** [api/device/share_resources/v0.cpp:117-137 Impl::GetPostData] *)
Definition GetPostData (MD5 : str -> str) (a : SessionTokenApi) (i : Impl) : str :=
  MakePost MD5 a (api_path ++ B ".php") (post_parts i).

(** *** The description *)

(** [api/templates/apis/device/v0/share_resources.json:62-68 return_params] *)
Definition Response_described : description Response :=
  [ Required (number_at uint32) "response.device_revision" Response_device_revision].

(** [api/templates/apis/device/v0/share_resources.json:5-21 Permissions] *)
Definition AsDescribed_Permissions (value : Permissions) : str :=
  match value with
  | Permissions_Read => B "1"
  | Permissions_ReadWrite => B "2"
  | Permissions_Manage => B "4"
  end.

(** [api/templates/apis/device/v0/share_resources.json:23-61 input_params] *)
Definition params_described (i : Impl) : list (string * option str) :=
  [("resources", Some (resources_ i));
   ("contacts", Some (contacts_ i));
   ("permissions", (AsDescribed_Permissions) <$> permissions_ i);
   ("message", message_ i);
   ("fb_access_token", fb_access_token_ i);
   ("tw_oauth_token", tw_oauth_token_ i);
   ("tw_oauth_token_secret", tw_oauth_token_secret_ i)].

#[global] Instance Response_parses :
  ParsesResponse ParseResponse new_Response Response_described.
Proof. parse_class. Qed.

Definition call : api_call := {|
  call_method := GetRequestMethod;
  call_uses_token := true;
  call_BuildUrl := BuildUrl;
  call_parts := post_parts;
  call_GetPostData := GetPostData;
  call_new := new_Response;
  call_ParseResponse := ParseResponse |}.

#[global] Instance call_implements :
  ImplementsCall call "/api/device/share_resources" true params_described Response_described.
Proof. implement_call. Qed.

End Call.
End device_share_resources_v0.

(** ** [api/device/unshare_resource/v0.cpp] *)
Module device_unshare_resource_v0.

Section Call.
Context `{Libraries}.

(** [api/device/unshare_resource/v0.hpp:36-37 Response] *)
Record Response := {
  Response_device_revision : Z }.
#[local] Instance Response_members : Members Response := fun v =>
  Build_Response (Response_device_revision v).
Definition new_Response : Response :=
  {| Response_device_revision := indeterminate Z _ |}.

(** [api/device/unshare_resource/v0.cpp:75-94 Impl::ParseResponse] *)
Definition ParseResponse : ResponseBase -> Response -> ResponseBase * Response :=
  parse_response
  [ required (an uint32) "response.device_revision" Response_device_revision].

(** [api/device/unshare_resource/v0.cpp:32-32 api_path] *)
Definition api_path : str := B "/api/device/unshare_resource".

(** [api/device/unshare_resource/v0.cpp:36-58 Impl] *)
Record Impl := {
  resource_ : str;
  contact_ : option str }.
#[local] Instance Impl_members : Members Impl := fun v =>
  Build_Impl (resource_ v) (contact_ v).

(** [api/device/unshare_resource/v0.cpp:60-65 Impl::Impl] *)
Definition new_Impl (resource : str) : Impl :=
  {| resource_ := resource; contact_ := None |}.

(** [api/device/unshare_resource/v0.cpp:155-158 Request::SetContact] *)
Definition SetContact (contact : str) (i : Impl) : Impl := set_field contact_ (Some contact) i.

(** [api/device/unshare_resource/v0.cpp:67-73 Impl::BuildUrl] *)
Definition BuildUrl (query_parts : list query_part) : str * list query_part :=
  (api_path ++ B ".php", query_parts).

(** [api/device/unshare_resource/v0.cpp:54-57 Impl::GetRequestMethod] *)
Definition GetRequestMethod : RequestMethod := Post.

(** The assignments to [parts].
    [api/device/unshare_resource/v0.cpp:96-107 Impl::GetPostData] *)
Definition post_parts (i : Impl) : list query_part := make_parts
  [("resource", Some (resource_ i));
   ("contact", contact_ i)].

(** [api/device/unshare_resource/v0.cpp:96-107 Impl::GetPostData] *)
Definition GetPostData (MD5 : str -> str) (a : SessionTokenApi) (i : Impl) : str :=
  MakePost MD5 a (api_path ++ B ".php") (post_parts i).

(** *** The description *)

(** [api/templates/apis/device/v0/unshare_resource.json:18-24 return_params] *)
Definition Response_described : description Response :=
  [ Required (number_at uint32) "response.device_revision" Response_device_revision].

(** [api/templates/apis/device/v0/unshare_resource.json:4-17 input_params] *)
Definition params_described (i : Impl) : list (string * option str) :=
  [("resource", Some (resource_ i));
   ("contact", contact_ i)].

#[global] Instance Response_parses :
  ParsesResponse ParseResponse new_Response Response_described.
Proof. parse_class. Qed.

Definition call : api_call := {|
  call_method := GetRequestMethod;
  call_uses_token := true;
  call_BuildUrl := BuildUrl;
  call_parts := post_parts;
  call_GetPostData := GetPostData;
  call_new := new_Response;
  call_ParseResponse := ParseResponse |}.

#[global] Instance call_implements :
  ImplementsCall call "/api/device/unshare_resource" true params_described Response_described.
Proof. implement_call. Qed.

End Call.
End device_unshare_resource_v0.
