(* ===== verification/ApiFile.v ===== *)
(** * The calls [file/...] ([api/file])

    One module for each class, with the description it was generated from. *)
From S2P Require Import Prelude Errors ApiRequests PropertyTree ApiResponses Endpoint EndpointSpec EndpointProofs.

Open Scope Z_scope.

(** ** [api/file/configure_one_time_key/v1_1.cpp] *)
Module file_configure_one_time_key_v1_1.

(** [api/file/configure_one_time_key/v1_1.hpp:29-35 NofifyOwnerByEmail] *)
Inductive NofifyOwnerByEmail : Set := NofifyOwnerByEmail_Yes | NofifyOwnerByEmail_No.
#[global] Instance NofifyOwnerByEmail_inhabited : Inhabited NofifyOwnerByEmail :=
  populate NofifyOwnerByEmail_Yes.

(** [api/file/configure_one_time_key/v1_1.hpp:37-43 BurnAfterUse] *)
Inductive BurnAfterUse : Set := BurnAfterUse_No | BurnAfterUse_Yes.
#[global] Instance BurnAfterUse_inhabited : Inhabited BurnAfterUse := populate BurnAfterUse_No.

(** [api/file/configure_one_time_key/v1_1.cpp:24-31 AsString] *)
Definition AsString_NofifyOwnerByEmail (value : NofifyOwnerByEmail) : str :=
  match value with
  | NofifyOwnerByEmail_Yes => B "yes"
  | NofifyOwnerByEmail_No => B "no"
  end.

(** [api/file/configure_one_time_key/v1_1.cpp:32-39 AsString] *)
Definition AsString_BurnAfterUse (value : BurnAfterUse) : str :=
  match value with
  | BurnAfterUse_No => B "no"
  | BurnAfterUse_Yes => B "yes"
  end.

Section Call.
Context `{Libraries}.

(** [api/file/configure_one_time_key/v1_1.hpp:55-56 Response] *)
Record Response := {
  Response_one_time_key_request_count : Z }.
#[local] Instance Response_members : Members Response := fun v =>
  Build_Response (Response_one_time_key_request_count v).
Definition new_Response : Response :=
  {| Response_one_time_key_request_count := 0 |}.

(** [api/file/configure_one_time_key/v1_1.cpp:99-116 Impl::ParseResponse] *)
Definition ParseResponse : ResponseBase -> Response -> ResponseBase * Response :=
  parse_response
  [ assign Response_one_time_key_request_count 0;
    with_default (an uint32) "response.one_time_key_request_count"
       Response_one_time_key_request_count].

(** [api/file/configure_one_time_key/v1_1.cpp:51-51 api_path] *)
Definition api_path : str := B "/api/1.1/file/configure_one_time_key".

(** [api/file/configure_one_time_key/v1_1.cpp:55-82 Impl] *)
Record Impl := {
  token_ : str;
  duration_minutes_ : option Z;
  email_notification_ : option NofifyOwnerByEmail;
  success_callback_url_ : option str;
  error_callback_url_ : option str;
  bind_ip_ : option str;
  burn_after_use_ : option BurnAfterUse }.
#[local] Instance Impl_members : Members Impl := fun v =>
  Build_Impl (token_ v) (duration_minutes_ v) (email_notification_ v) (success_callback_url_ v)
    (error_callback_url_ v) (bind_ip_ v) (burn_after_use_ v).

(** [api/file/configure_one_time_key/v1_1.cpp:84-89 Impl::Impl] *)
Definition new_Impl (token : str) : Impl :=
  {| token_ := token; duration_minutes_ := None; email_notification_ := None;
     success_callback_url_ := None; error_callback_url_ := None; bind_ip_ := None;
     burn_after_use_ := None |}.

(** [api/file/configure_one_time_key/v1_1.cpp:187-190 Request::SetDurationMinutes] *)
Definition SetDurationMinutes (duration_minutes : Z) (i : Impl) : Impl :=
  set_field duration_minutes_ (Some duration_minutes) i.

(** [api/file/configure_one_time_key/v1_1.cpp:192-195 Request::SetEmailNotification] *)
Definition SetEmailNotification (email_notification : NofifyOwnerByEmail) (i : Impl) : Impl :=
  set_field email_notification_ (Some email_notification) i.

(** [api/file/configure_one_time_key/v1_1.cpp:197-200 Request::SetSuccessCallbackUrl] *)
Definition SetSuccessCallbackUrl (success_callback_url : str) (i : Impl) : Impl :=
  set_field success_callback_url_ (Some success_callback_url) i.

(** [api/file/configure_one_time_key/v1_1.cpp:202-205 Request::SetErrorCallbackUrl] *)
Definition SetErrorCallbackUrl (error_callback_url : str) (i : Impl) : Impl :=
  set_field error_callback_url_ (Some error_callback_url) i.

(** [api/file/configure_one_time_key/v1_1.cpp:207-210 Request::SetBindIp] *)
Definition SetBindIp (bind_ip : str) (i : Impl) : Impl := set_field bind_ip_ (Some bind_ip) i.

(** [api/file/configure_one_time_key/v1_1.cpp:212-215 Request::SetBurnAfterUse] *)
Definition SetBurnAfterUse (burn_after_use : BurnAfterUse) (i : Impl) : Impl :=
  set_field burn_after_use_ (Some burn_after_use) i.

(** [api/file/configure_one_time_key/v1_1.cpp:91-97 Impl::BuildUrl] *)
Definition BuildUrl (query_parts : list query_part) : str * list query_part :=
  (api_path ++ B ".php", query_parts).

(** [api/file/configure_one_time_key/v1_1.cpp:78-81 Impl::GetRequestMethod] *)
Definition GetRequestMethod : RequestMethod := Post.

(** The assignments to [parts].
    [api/file/configure_one_time_key/v1_1.cpp:118-139 Impl::GetPostData] *)
Definition post_parts (i : Impl) : list query_part := make_parts
  [("token", Some (token_ i));
   ("duration", print_int <$> duration_minutes_ i);
   ("email_notification", AsString_NofifyOwnerByEmail <$> email_notification_ i);
   ("success_callback_url", success_callback_url_ i);
   ("error_callback_url", error_callback_url_ i);
   ("bind_ip", bind_ip_ i);
   ("burn_after_use", AsString_BurnAfterUse <$> burn_after_use_ i)].

(** [api/file/configure_one_time_key/v1_1.cpp:118-139 Impl::GetPostData] *)
Definition GetPostData (MD5 : str -> str) (a : SessionTokenApi) (i : Impl) : str :=
  MakePost MD5 a (api_path ++ B ".php") (post_parts i).

(** *** The description *)

(** [api/templates/apis/file/v1_1/configure_one_time_key.json:77-84 return_params] *)
Definition Response_described : description Response :=
  [ Default 0 (number_at uint32) "response.one_time_key_request_count"
       Response_one_time_key_request_count].

(** [api/templates/apis/file/v1_1/configure_one_time_key.json:5-17 NofifyOwnerByEmail] *)
Definition AsDescribed_NofifyOwnerByEmail (value : NofifyOwnerByEmail) : str :=
  match value with
  | NofifyOwnerByEmail_Yes => B "yes"
  | NofifyOwnerByEmail_No => B "no"
  end.

(** [api/templates/apis/file/v1_1/configure_one_time_key.json:18-30 BurnAfterUse] *)
Definition AsDescribed_BurnAfterUse (value : BurnAfterUse) : str :=
  match value with
  | BurnAfterUse_No => B "no"
  | BurnAfterUse_Yes => B "yes"
  end.

(** [api/templates/apis/file/v1_1/configure_one_time_key.json:32-76 input_params] *)
Definition params_described (i : Impl) : list (string * option str) :=
  [("token", Some (token_ i));
   ("duration", print_int <$> duration_minutes_ i);
   ("email_notification", (AsDescribed_NofifyOwnerByEmail) <$> email_notification_ i);
   ("success_callback_url", success_callback_url_ i);
   ("error_callback_url", error_callback_url_ i);
   ("bind_ip", bind_ip_ i);
   ("burn_after_use", (AsDescribed_BurnAfterUse) <$> burn_after_use_ i)].

#[global] Instance Response_parses :
  ParsesResponse ParseResponse new_Response Response_described.
Proof. parse_class. Qed.

Definition call : api_call := {|
  call_method := GetRequestMethod;
  call_uses_token := true;
  call_BuildUrl := BuildUrl;
  call_parts := post_parts;
  call_GetPostData := GetPostData;
  call_new := new_Response;
  call_ParseResponse := ParseResponse |}.

#[global] Instance call_implements :
  ImplementsCall call "/api/1.1/file/configure_one_time_key" true params_described Response_described.
Proof. implement_call. Qed.

End Call.
End file_configure_one_time_key_v1_1.

(** ** [api/file/configure_one_time_key/v1_3.cpp] *)
Module file_configure_one_time_key_v1_3.

(** [api/file/configure_one_time_key/v1_3.hpp:29-35 NofifyOwnerByEmail] *)
Inductive NofifyOwnerByEmail : Set := NofifyOwnerByEmail_Yes | NofifyOwnerByEmail_No.
#[global] Instance NofifyOwnerByEmail_inhabited : Inhabited NofifyOwnerByEmail :=
  populate NofifyOwnerByEmail_Yes.

(** [api/file/configure_one_time_key/v1_3.hpp:37-43 BurnAfterUse] *)
Inductive BurnAfterUse : Set := BurnAfterUse_No | BurnAfterUse_Yes.
#[global] Instance BurnAfterUse_inhabited : Inhabited BurnAfterUse := populate BurnAfterUse_No.

(** [api/file/configure_one_time_key/v1_3.cpp:24-31 AsString] *)
Definition AsString_NofifyOwnerByEmail (value : NofifyOwnerByEmail) : str :=
  match value with
  | NofifyOwnerByEmail_Yes => B "yes"
  | NofifyOwnerByEmail_No => B "no"
  end.

(** [api/file/configure_one_time_key/v1_3.cpp:32-39 AsString] *)
Definition AsString_BurnAfterUse (value : BurnAfterUse) : str :=
  match value with
  | BurnAfterUse_No => B "no"
  | BurnAfterUse_Yes => B "yes"
  end.

Section Call.
Context `{Libraries}.

(** [api/file/configure_one_time_key/v1_3.hpp:55-56 Response] *)
Record Response := {
  Response_one_time_key_request_count : Z }.
#[local] Instance Response_members : Members Response := fun v =>
  Build_Response (Response_one_time_key_request_count v).
Definition new_Response : Response :=
  {| Response_one_time_key_request_count := 0 |}.

(** [api/file/configure_one_time_key/v1_3.cpp:99-116 Impl::ParseResponse] *)
Definition ParseResponse : ResponseBase -> Response -> ResponseBase * Response :=
  parse_response
  [ assign Response_one_time_key_request_count 0;
    with_default (an uint32) "response.one_time_key_request_count"
       Response_one_time_key_request_count].

(** [api/file/configure_one_time_key/v1_3.cpp:51-51 api_path] *)
Definition api_path : str := B "/api/1.3/file/configure_one_time_key".

(** [api/file/configure_one_time_key/v1_3.cpp:55-82 Impl] *)
Record Impl := {
  token_ : str;
  duration_minutes_ : option Z;
  email_notification_ : option NofifyOwnerByEmail;
  success_callback_url_ : option str;
  error_callback_url_ : option str;
  bind_ip_ : option str;
  burn_after_use_ : option BurnAfterUse }.
#[local] Instance Impl_members : Members Impl := fun v =>
  Build_Impl (token_ v) (duration_minutes_ v) (email_notification_ v) (success_callback_url_ v)
    (error_callback_url_ v) (bind_ip_ v) (burn_after_use_ v).

(** [api/file/configure_one_time_key/v1_3.cpp:84-89 Impl::Impl] *)
Definition new_Impl (token : str) : Impl :=
  {| token_ := token; duration_minutes_ := None; email_notification_ := None;
     success_callback_url_ := None; error_callback_url_ := None; bind_ip_ := None;
     burn_after_use_ := None |}.

(** [api/file/configure_one_time_key/v1_3.cpp:187-190 Request::SetDurationMinutes] *)
Definition SetDurationMinutes (duration_minutes : Z) (i : Impl) : Impl :=
  set_field duration_minutes_ (Some duration_minutes) i.

(** [api/file/configure_one_time_key/v1_3.cpp:192-195 Request::SetEmailNotification] *)
Definition SetEmailNotification (email_notification : NofifyOwnerByEmail) (i : Impl) : Impl :=
  set_field email_notification_ (Some email_notification) i.

(** [api/file/configure_one_time_key/v1_3.cpp:197-200 Request::SetSuccessCallbackUrl] *)
Definition SetSuccessCallbackUrl (success_callback_url : str) (i : Impl) : Impl :=
  set_field success_callback_url_ (Some success_callback_url) i.

(** [api/file/configure_one_time_key/v1_3.cpp:202-205 Request::SetErrorCallbackUrl] *)
Definition SetErrorCallbackUrl (error_callback_url : str) (i : Impl) : Impl :=
  set_field error_callback_url_ (Some error_callback_url) i.

(** [api/file/configure_one_time_key/v1_3.cpp:207-210 Request::SetBindIp] *)
Definition SetBindIp (bind_ip : str) (i : Impl) : Impl := set_field bind_ip_ (Some bind_ip) i.

(** [api/file/configure_one_time_key/v1_3.cpp:212-215 Request::SetBurnAfterUse] *)
Definition SetBurnAfterUse (burn_after_use : BurnAfterUse) (i : Impl) : Impl :=
  set_field burn_after_use_ (Some burn_after_use) i.

(** [api/file/configure_one_time_key/v1_3.cpp:91-97 Impl::BuildUrl] *)
Definition BuildUrl (query_parts : list query_part) : str * list query_part :=
  (api_path ++ B ".php", query_parts).

(** [api/file/configure_one_time_key/v1_3.cpp:78-81 Impl::GetRequestMethod] *)
Definition GetRequestMethod : RequestMethod := Post.

(** The assignments to [parts].
    [api/file/configure_one_time_key/v1_3.cpp:118-139 Impl::GetPostData] *)
Definition post_parts (i : Impl) : list query_part := make_parts
  [("token", Some (token_ i));
   ("duration", print_int <$> duration_minutes_ i);
   ("email_notification", AsString_NofifyOwnerByEmail <$> email_notification_ i);
   ("success_callback_url", success_callback_url_ i);
   ("error_callback_url", error_callback_url_ i);
   ("bind_ip", bind_ip_ i);
   ("burn_after_use", AsString_BurnAfterUse <$> burn_after_use_ i)].

(** [api/file/configure_one_time_key/v1_3.cpp:118-139 Impl::GetPostData] *)
Definition GetPostData (MD5 : str -> str) (a : SessionTokenApi) (i : Impl) : str :=
  MakePost MD5 a (api_path ++ B ".php") (post_parts i).

(** *** The description *)

(** [api/templates/apis/file/v1_3/configure_one_time_key.json:77-84 return_params] *)
Definition Response_described : description Response :=
  [ Default 0 (number_at uint32) "response.one_time_key_request_count"
       Response_one_time_key_request_count].

(** [api/templates/apis/file/v1_3/configure_one_time_key.json:5-17 NofifyOwnerByEmail] *)
Definition AsDescribed_NofifyOwnerByEmail (value : NofifyOwnerByEmail) : str :=
  match value with
  | NofifyOwnerByEmail_Yes => B "yes"
  | NofifyOwnerByEmail_No => B "no"
  end.

(** [api/templates/apis/file/v1_3/configure_one_time_key.json:18-30 BurnAfterUse] *)
Definition AsDescribed_BurnAfterUse (value : BurnAfterUse) : str :=
  match value with
  | BurnAfterUse_No => B "no"
  | BurnAfterUse_Yes => B "yes"
  end.

(** [api/templates/apis/file/v1_3/configure_one_time_key.json:32-76 input_params] *)
Definition params_described (i : Impl) : list (string * option str) :=
  [("token", Some (token_ i));
   ("duration", print_int <$> duration_minutes_ i);
   ("email_notification", (AsDescribed_NofifyOwnerByEmail) <$> email_notification_ i);
   ("success_callback_url", success_callback_url_ i);
   ("error_callback_url", error_callback_url_ i);
   ("bind_ip", bind_ip_ i);
   ("burn_after_use", (AsDescribed_BurnAfterUse) <$> burn_after_use_ i)].

#[global] Instance Response_parses :
  ParsesResponse ParseResponse new_Response Response_described.
Proof. parse_class. Qed.

Definition call : api_call := {|
  call_method := GetRequestMethod;
  call_uses_token := true;
  call_BuildUrl := BuildUrl;
  call_parts := post_parts;
  call_GetPostData := GetPostData;
  call_new := new_Response;
  call_ParseResponse := ParseResponse |}.

#[global] Instance call_implements :
  ImplementsCall call "/api/1.3/file/configure_one_time_key" true params_described Response_described.
Proof. implement_call. Qed.

End Call.
End file_configure_one_time_key_v1_3.

(** ** [api/file/copy/v0.cpp] *)
Module file_copy_v0.

Section Call.
Context `{Libraries}.

(** [api/file/copy/v0.hpp:36-40 Response] *)
Record Response := {
  Response_device_revision : Z;
  Response_quickkey : str }.
#[local] Instance Response_members : Members Response := fun v =>
  Build_Response (Response_device_revision v) (Response_quickkey v).
Definition new_Response : Response :=
  {| Response_device_revision := indeterminate Z _; Response_quickkey := [] |}.

(** [api/file/copy/v0.cpp:75-103 Impl::ParseResponse] *)
Definition ParseResponse : ResponseBase -> Response -> ResponseBase * Response :=
  parse_response
  [ required (an uint32) "response.device_revision" Response_device_revision;
    required_front (GetIfExistsArrayFrontString the_json) "response.new_quickkeys"
       Response_quickkey].

(** [api/file/copy/v0.cpp:32-32 api_path] *)
Definition api_path : str := B "/api/file/copy".

(** [api/file/copy/v0.cpp:36-58 Impl] *)
Record Impl := {
  quickkey_ : str;
  target_parent_folderkey_ : option str }.
#[local] Instance Impl_members : Members Impl := fun v =>
  Build_Impl (quickkey_ v) (target_parent_folderkey_ v).

(** [api/file/copy/v0.cpp:60-65 Impl::Impl] *)
Definition new_Impl (quickkey : str) : Impl :=
  {| quickkey_ := quickkey; target_parent_folderkey_ := None |}.

(** [api/file/copy/v0.cpp:164-167 Request::SetTargetParentFolderkey] *)
Definition SetTargetParentFolderkey (target_parent_folderkey : str) (i : Impl) : Impl :=
  set_field target_parent_folderkey_ (Some target_parent_folderkey) i.

(** [api/file/copy/v0.cpp:67-73 Impl::BuildUrl] *)
Definition BuildUrl (query_parts : list query_part) : str * list query_part :=
  (api_path ++ B ".php", query_parts).

(** [api/file/copy/v0.cpp:54-57 Impl::GetRequestMethod] *)
Definition GetRequestMethod : RequestMethod := Post.

(** The assignments to [parts].
    [api/file/copy/v0.cpp:105-116 Impl::GetPostData] *)
Definition post_parts (i : Impl) : list query_part := make_parts
  [("quick_key", Some (quickkey_ i));
   ("folder_key", target_parent_folderkey_ i)].

(** [api/file/copy/v0.cpp:105-116 Impl::GetPostData] *)
Definition GetPostData (MD5 : str -> str) (a : SessionTokenApi) (i : Impl) : str :=
  MakePost MD5 a (api_path ++ B ".php") (post_parts i).

(** *** The description *)

(** [api/templates/apis/file/v0/copy.json:18-30 return_params] *)
Definition Response_described : description Response :=
  [ Required (number_at uint32) "response.device_revision" Response_device_revision;
    Required front_at "response.new_quickkeys" Response_quickkey].

(** [api/templates/apis/file/v0/copy.json:4-17 input_params] *)
Definition params_described (i : Impl) : list (string * option str) :=
  [("quick_key", Some (quickkey_ i));
   ("folder_key", target_parent_folderkey_ i)].

#[global] Instance Response_parses :
  ParsesResponse ParseResponse new_Response Response_described.
Proof. parse_class. Qed.

Definition call : api_call := {|
  call_method := GetRequestMethod;
  call_uses_token := true;
  call_BuildUrl := BuildUrl;
  call_parts := post_parts;
  call_GetPostData := GetPostData;
  call_new := new_Response;
  call_ParseResponse := ParseResponse |}.

#[global] Instance call_implements :
  ImplementsCall call "/api/file/copy" true params_described Response_described.
Proof. implement_call. Qed.

End Call.
End file_copy_v0.

(** ** [api/file/copy/v1_3.cpp] *)
Module file_copy_v1_3.

Section Call.
Context `{Libraries}.

(** [api/file/copy/v1_3.hpp:36-40 Response] *)
Record Response := {
  Response_new_device_revision : option Z;
  Response_quickkey : str }.
#[local] Instance Response_members : Members Response := fun v =>
  Build_Response (Response_new_device_revision v) (Response_quickkey v).
Definition new_Response : Response :=
  {| Response_new_device_revision := None; Response_quickkey := [] |}.

(** [api/file/copy/v1_3.cpp:75-106 Impl::ParseResponse] *)
Definition ParseResponse : ResponseBase -> Response -> ResponseBase * Response :=
  parse_response
  [ optional (an uint32) "response.new_device_revision" Response_new_device_revision;
    required_front (GetIfExistsArrayFrontString the_json) "response.new_quickkeys"
       Response_quickkey].

(** [api/file/copy/v1_3.cpp:32-32 api_path] *)
Definition api_path : str := B "/api/1.3/file/copy".

(** [api/file/copy/v1_3.cpp:36-58 Impl] *)
Record Impl := {
  quickkey_ : str;
  target_parent_folderkey_ : option str }.
#[local] Instance Impl_members : Members Impl := fun v =>
  Build_Impl (quickkey_ v) (target_parent_folderkey_ v).

(** [api/file/copy/v1_3.cpp:60-65 Impl::Impl] *)
Definition new_Impl (quickkey : str) : Impl :=
  {| quickkey_ := quickkey; target_parent_folderkey_ := None |}.

(** [api/file/copy/v1_3.cpp:167-170 Request::SetTargetParentFolderkey] *)
Definition SetTargetParentFolderkey (target_parent_folderkey : str) (i : Impl) : Impl :=
  set_field target_parent_folderkey_ (Some target_parent_folderkey) i.

(** [api/file/copy/v1_3.cpp:67-73 Impl::BuildUrl] *)
Definition BuildUrl (query_parts : list query_part) : str * list query_part :=
  (api_path ++ B ".php", query_parts).

(** [api/file/copy/v1_3.cpp:54-57 Impl::GetRequestMethod] *)
Definition GetRequestMethod : RequestMethod := Post.

(** The assignments to [parts].
    [api/file/copy/v1_3.cpp:108-119 Impl::GetPostData] *)
Definition post_parts (i : Impl) : list query_part := make_parts
  [("quick_key", Some (quickkey_ i));
   ("folder_key", target_parent_folderkey_ i)].

(** [api/file/copy/v1_3.cpp:108-119 Impl::GetPostData] *)
Definition GetPostData (MD5 : str -> str) (a : SessionTokenApi) (i : Impl) : str :=
  MakePost MD5 a (api_path ++ B ".php") (post_parts i).

(** *** The description *)

(** [api/templates/apis/file/v1_3/copy.json:18-31 return_params] *)
Definition Response_described : description Response :=
  [ Optional (number_at uint32) "response.new_device_revision" Response_new_device_revision;
    Required front_at "response.new_quickkeys" Response_quickkey].

(** [api/templates/apis/file/v1_3/copy.json:4-17 input_params] *)
Definition params_described (i : Impl) : list (string * option str) :=
  [("quick_key", Some (quickkey_ i));
   ("folder_key", target_parent_folderkey_ i)].

#[global] Instance Response_parses :
  ParsesResponse ParseResponse new_Response Response_described.
Proof. parse_class. Qed.

Definition call : api_call := {|
  call_method := GetRequestMethod;
  call_uses_token := true;
  call_BuildUrl := BuildUrl;
  call_parts := post_parts;
  call_GetPostData := GetPostData;
  call_new := new_Response;
  call_ParseResponse := ParseResponse |}.

#[global] Instance call_implements :
  ImplementsCall call "/api/1.3/file/copy" true params_described Response_described.
Proof. implement_call. Qed.

End Call.
End file_copy_v1_3.

(** ** [api/file/create/v0.cpp] *)
Module file_create_v0.

Section Call.
Context `{Libraries}.

(** [api/file/create/v0.hpp:36-46 Links] *)
Record Links := {
  Links_edit : option str;
  Links_normal_download : option str;
  Links_view : option str }.
#[local] Instance Links_members : Members Links := fun v =>
  Build_Links (Links_edit v) (Links_normal_download v) (Links_view v).
Definition new_Links : Links :=
  {| Links_edit := None; Links_normal_download := None; Links_view := None |}.

(** [api/file/create/v0.cpp:28-84 LinksFromPropertyBranch] *)
Definition LinksFromPropertyBranch : branch_parser Links := FromPropertyBranch
  [ optional std_string "edit" Links_edit;
    optional std_string "normal_download" Links_normal_download;
    optional std_string "view" Links_view].

(** [api/file/create/v0.hpp:47-69 Response] *)
Record Response := {
  Response_device_revision : Z;
  Response_quickkey : str;
  Response_filename : str;
  Response_created_datetime : ptime;
  Response_filesize : Z;
  Response_filetype : str;
  Response_flag : Z;
  Response_links : Links }.
#[local] Instance Response_members : Members Response := fun v =>
  Build_Response (Response_device_revision v) (Response_quickkey v) (Response_filename v)
    (Response_created_datetime v) (Response_filesize v) (Response_filetype v) (Response_flag v)
    (Response_links v).
Definition new_Response : Response :=
  {| Response_device_revision := indeterminate Z _; Response_quickkey := [];
     Response_filename := []; Response_created_datetime := not_a_date;
     Response_filesize := indeterminate Z _; Response_filetype := [];
     Response_flag := indeterminate Z _; Response_links := new_Links |}.

(** [api/file/create/v0.cpp:134-236 Impl::ParseResponse] *)
Definition ParseResponse : ResponseBase -> Response -> ResponseBase * Response :=
  parse_response
  [ required (an uint32) "response.device_revision" Response_device_revision;
    required std_string "response.fileinfo.quickkey" Response_quickkey;
    required std_string "response.fileinfo.filename" Response_filename;
    required a_ptime "response.fileinfo.created" Response_created_datetime;
    required (an uint64) "response.fileinfo.size" Response_filesize;
    required std_string "response.fileinfo.filetype" Response_filetype;
    required (an uint32) "response.fileinfo.flag" Response_flag;
    required_struct LinksFromPropertyBranch new_Links "response.fileinfo.links" Response_links].

(** [api/file/create/v0.cpp:94-94 api_path] *)
Definition api_path : str := B "/api/file/create".

(** [api/file/create/v0.cpp:98-120 Impl] *)
Record Impl := {
  filename_ : option str;
  file_extension_ : option str;
  parent_folderkey_ : option str;
  mtime_ : option ptime }.
#[local] Instance Impl_members : Members Impl := fun v =>
  Build_Impl (filename_ v) (file_extension_ v) (parent_folderkey_ v) (mtime_ v).

(** [api/file/create/v0.cpp:122-124 Impl::Impl] *)
Definition new_Impl : Impl :=
  {| filename_ := None; file_extension_ := None; parent_folderkey_ := None; mtime_ := None |}.

(** [api/file/create/v0.cpp:300-303 Request::SetFilename] *)
Definition SetFilename (filename : str) (i : Impl) : Impl :=
  set_field filename_ (Some filename) i.

(** [api/file/create/v0.cpp:305-308 Request::SetFileExtension] *)
Definition SetFileExtension (file_extension : str) (i : Impl) : Impl :=
  set_field file_extension_ (Some file_extension) i.

(** [api/file/create/v0.cpp:310-313 Request::SetParentFolderkey] *)
Definition SetParentFolderkey (parent_folderkey : str) (i : Impl) : Impl :=
  set_field parent_folderkey_ (Some parent_folderkey) i.

(** [api/file/create/v0.cpp:315-318 Request::SetMtime] *)
Definition SetMtime (mtime : ptime) (i : Impl) : Impl := set_field mtime_ (Some mtime) i.

(** [api/file/create/v0.cpp:126-132 Impl::BuildUrl] *)
Definition BuildUrl (query_parts : list query_part) : str * list query_part :=
  (api_path ++ B ".php", query_parts).

(** [api/file/create/v0.cpp:116-119 Impl::GetRequestMethod] *)
Definition GetRequestMethod : RequestMethod := Post.

(** The assignments to [parts].
    [api/file/create/v0.cpp:238-254 Impl::GetPostData] *)
Definition post_parts (i : Impl) : list query_part := make_parts
  [("filename", filename_ i);
   ("file_extension", file_extension_ i);
   ("parent_key", parent_folderkey_ i);
   ("mtime", AsString_ptime <$> mtime_ i)].

(** [api/file/create/v0.cpp:238-254 Impl::GetPostData] *)
Definition GetPostData (MD5 : str -> str) (a : SessionTokenApi) (i : Impl) : str :=
  MakePost MD5 a (api_path ++ B ".php") (post_parts i).

(** *** The description *)

(** [api/templates/apis/file/v0/create.json:5-27 Links] *)
Definition Links_described : description Links :=
  [ Optional string_at "edit" Links_edit;
    Optional string_at "normal_download" Links_normal_download;
    Optional string_at "view" Links_view].

(** [api/templates/apis/file/v0/create.json:51-92 return_params] *)
Definition Response_described : description Response :=
  [ Required (number_at uint32) "response.device_revision" Response_device_revision;
    Required string_at "response.fileinfo.quickkey" Response_quickkey;
    Required string_at "response.fileinfo.filename" Response_filename;
    Required time_at "response.fileinfo.created" Response_created_datetime;
    Required (number_at uint64) "response.fileinfo.size" Response_filesize;
    Required string_at "response.fileinfo.filetype" Response_filetype;
    Required (number_at uint32) "response.fileinfo.flag" Response_flag;
    RequiredStruct Links_described "response.fileinfo.links" Response_links].

(** [api/templates/apis/file/v0/create.json:29-50 input_params] *)
Definition params_described (i : Impl) : list (string * option str) :=
  [("filename", filename_ i);
   ("file_extension", file_extension_ i);
   ("parent_key", parent_folderkey_ i);
   ("mtime", iso_time <$> mtime_ i)].

#[global] Instance Links_parses : Parses LinksFromPropertyBranch new_Links Links_described.
Proof. parse_class. Qed.
#[global] Instance Response_parses :
  ParsesResponse ParseResponse new_Response Response_described.
Proof. parse_class. Qed.

Definition call : api_call := {|
  call_method := GetRequestMethod;
  call_uses_token := true;
  call_BuildUrl := BuildUrl;
  call_parts := post_parts;
  call_GetPostData := GetPostData;
  call_new := new_Response;
  call_ParseResponse := ParseResponse |}.

#[global] Instance call_implements :
  ImplementsCall call "/api/file/create" true params_described Response_described.
Proof. implement_call. Qed.

End Call.
End file_create_v0.

(** ** [api/file/create/v1_2.cpp] *)
Module file_create_v1_2.

(** [api/file/create/v1_2.hpp:29-35 FileType] *)
Inductive FileType : Set := FileType_Default | FileType_Text.
#[global] Instance FileType_inhabited : Inhabited FileType := populate FileType_Default.

(** [api/file/create/v1_2.hpp:37-43 PasswordProtected] *)
Inductive PasswordProtected : Set := PasswordProtected_Unprotected | PasswordProtected_Protected.
#[global] Instance PasswordProtected_inhabited : Inhabited PasswordProtected :=
  populate PasswordProtected_Unprotected.

(** [api/file/create/v1_2.hpp:45-51 Privacy] *)
Inductive Privacy : Set := Privacy_Public | Privacy_Private.
#[global] Instance Privacy_inhabited : Inhabited Privacy := populate Privacy_Public.

(** [api/file/create/v1_2.cpp:24-31 AsString] *)
Definition AsString_FileType (value : FileType) : str :=
  match value with
  | FileType_Default => B ""
  | FileType_Text => B "text"
  end.

Section Call.
Context `{Libraries}.

(** [api/file/create/v1_2.hpp:64-101 Links] *)
Record Links := {
  Links_direct_download : option str;
  Links_edit : option str;
  Links_listen : option str;
  Links_normal_download : option str;
  Links_one_time_download : option str;
  Links_one_time_listen : option str;
  Links_one_time_watch : option str;
  Links_one_time_view : option str;
  Links_read : option str;
  Links_streaming : option str;
  Links_view : option str;
  Links_watch : option str }.
#[local] Instance Links_members : Members Links := fun v =>
  Build_Links (Links_direct_download v) (Links_edit v) (Links_listen v) (Links_normal_download v)
    (Links_one_time_download v) (Links_one_time_listen v) (Links_one_time_watch v)
    (Links_one_time_view v) (Links_read v) (Links_streaming v) (Links_view v) (Links_watch v).
Definition new_Links : Links :=
  {| Links_direct_download := None; Links_edit := None; Links_listen := None;
     Links_normal_download := None; Links_one_time_download := None;
     Links_one_time_listen := None; Links_one_time_watch := None; Links_one_time_view := None;
     Links_read := None; Links_streaming := None; Links_view := None; Links_watch := None |}.

(** [api/file/create/v1_2.cpp:39-203 LinksFromPropertyBranch] *)
Definition LinksFromPropertyBranch : branch_parser Links := FromPropertyBranch
  [ optional std_string "direct_download" Links_direct_download;
    optional std_string "edit" Links_edit;
    optional std_string "listen" Links_listen;
    optional std_string "normal_download" Links_normal_download;
    optional std_string "one_time.download" Links_one_time_download;
    optional std_string "one_time.listen" Links_one_time_listen;
    optional std_string "one_time.watch" Links_one_time_watch;
    optional std_string "one_time.view" Links_one_time_view;
    optional std_string "read" Links_read;
    optional std_string "streaming" Links_streaming;
    optional std_string "view" Links_view;
    optional std_string "watch" Links_watch].

(** [api/file/create/v1_2.hpp:102-145 Response] *)
Record Response := {
  Response_created_datetime : ptime;
  Response_description : str;
  Response_device_revision : Z;
  Response_downloads : Z;
  Response_filehash : str;
  Response_filename : str;
  Response_filesize : Z;
  Response_filetype : str;
  Response_file_revision : Z;
  Response_flag : Z;
  Response_links : Links;
  Response_mimetype : str;
  Response_password_protected : PasswordProtected;
  Response_privacy : Privacy;
  Response_quickkey : str }.
#[local] Instance Response_members : Members Response := fun v =>
  Build_Response (Response_created_datetime v) (Response_description v)
    (Response_device_revision v) (Response_downloads v) (Response_filehash v)
    (Response_filename v) (Response_filesize v) (Response_filetype v) (Response_file_revision v)
    (Response_flag v) (Response_links v) (Response_mimetype v) (Response_password_protected v)
    (Response_privacy v) (Response_quickkey v).
Definition new_Response : Response :=
  {| Response_created_datetime := not_a_date; Response_description := [];
     Response_device_revision := indeterminate Z _; Response_downloads := indeterminate Z _;
     Response_filehash := []; Response_filename := []; Response_filesize := indeterminate Z _;
     Response_filetype := []; Response_file_revision := indeterminate Z _;
     Response_flag := indeterminate Z _; Response_links := new_Links; Response_mimetype := [];
     Response_password_protected := indeterminate PasswordProtected _;
     Response_privacy := indeterminate Privacy _; Response_quickkey := [] |}.

(** [api/file/create/v1_2.cpp:254-443 Impl::ParseResponse] *)
Definition ParseResponse : ResponseBase -> Response -> ResponseBase * Response :=
  parse_response
  [ assign Response_description [];
    assign Response_mimetype [];
    required a_ptime "response.fileinfo.created" Response_created_datetime;
    with_default std_string "response.fileinfo.description" Response_description;
    required (an uint32) "response.device_revision" Response_device_revision;
    required (an uint32) "response.fileinfo.downloads" Response_downloads;
    required std_string "response.fileinfo.hash" Response_filehash;
    required std_string "response.fileinfo.filename" Response_filename;
    required (an uint64) "response.fileinfo.size" Response_filesize;
    required std_string "response.fileinfo.filetype" Response_filetype;
    required (an uint32) "response.fileinfo.revision" Response_file_revision;
    required (an uint32) "response.fileinfo.flag" Response_flag;
    required_struct LinksFromPropertyBranch new_Links "response.fileinfo.links" Response_links;
    with_default std_string "response.fileinfo.mimetype" Response_mimetype;
    required_enum [("no", PasswordProtected_Unprotected); ("yes", PasswordProtected_Protected)]
       "response.fileinfo.password_protected" Response_password_protected;
    required_enum [("public", Privacy_Public); ("private", Privacy_Private)]
       "response.fileinfo.privacy" Response_privacy;
    required std_string "response.fileinfo.quickkey" Response_quickkey].

(** [api/file/create/v1_2.cpp:213-213 api_path] *)
Definition api_path : str := B "/api/1.2/file/create".

(** [api/file/create/v1_2.cpp:217-240 Impl] *)
Record Impl := {
  filename_ : option str;
  file_extension_ : option str;
  parent_folderkey_ : option str;
  mtime_ : option ptime;
  file_type_ : option FileType }.
#[local] Instance Impl_members : Members Impl := fun v =>
  Build_Impl (filename_ v) (file_extension_ v) (parent_folderkey_ v) (mtime_ v) (file_type_ v).

(** [api/file/create/v1_2.cpp:242-244 Impl::Impl] *)
Definition new_Impl : Impl :=
  {| filename_ := None; file_extension_ := None; parent_folderkey_ := None; mtime_ := None;
     file_type_ := None |}.

(** [api/file/create/v1_2.cpp:509-512 Request::SetFilename] *)
Definition SetFilename (filename : str) (i : Impl) : Impl :=
  set_field filename_ (Some filename) i.

(** [api/file/create/v1_2.cpp:514-517 Request::SetFileExtension] *)
Definition SetFileExtension (file_extension : str) (i : Impl) : Impl :=
  set_field file_extension_ (Some file_extension) i.

(** [api/file/create/v1_2.cpp:519-522 Request::SetParentFolderkey] *)
Definition SetParentFolderkey (parent_folderkey : str) (i : Impl) : Impl :=
  set_field parent_folderkey_ (Some parent_folderkey) i.

(** [api/file/create/v1_2.cpp:524-527 Request::SetMtime] *)
Definition SetMtime (mtime : ptime) (i : Impl) : Impl := set_field mtime_ (Some mtime) i.

(** [api/file/create/v1_2.cpp:529-532 Request::SetFileType] *)
Definition SetFileType (file_type : FileType) (i : Impl) : Impl :=
  set_field file_type_ (Some file_type) i.

(** [api/file/create/v1_2.cpp:246-252 Impl::BuildUrl] *)
Definition BuildUrl (query_parts : list query_part) : str * list query_part :=
  (api_path ++ B ".php", query_parts).

(** [api/file/create/v1_2.cpp:236-239 Impl::GetRequestMethod] *)
Definition GetRequestMethod : RequestMethod := Post.

(** The assignments to [parts].
    [api/file/create/v1_2.cpp:445-463 Impl::GetPostData] *)
Definition post_parts (i : Impl) : list query_part := make_parts
  [("filename", filename_ i);
   ("file_extension", file_extension_ i);
   ("parent_key", parent_folderkey_ i);
   ("mtime", AsString_ptime <$> mtime_ i);
   ("type", AsString_FileType <$> file_type_ i)].

(** [api/file/create/v1_2.cpp:445-463 Impl::GetPostData] *)
Definition GetPostData (MD5 : str -> str) (a : SessionTokenApi) (i : Impl) : str :=
  MakePost MD5 a (api_path ++ B ".php") (post_parts i).

(** *** The description *)

(** [api/templates/apis/file/v1_2/create.json:46-122 Links] *)
Definition Links_described : description Links :=
  [ Optional string_at "direct_download" Links_direct_download;
    Optional string_at "edit" Links_edit;
    Optional string_at "listen" Links_listen;
    Optional string_at "normal_download" Links_normal_download;
    Optional string_at "one_time.download" Links_one_time_download;
    Optional string_at "one_time.listen" Links_one_time_listen;
    Optional string_at "one_time.watch" Links_one_time_watch;
    Optional string_at "one_time.view" Links_one_time_view;
    Optional string_at "read" Links_read;
    Optional string_at "streaming" Links_streaming;
    Optional string_at "view" Links_view;
    Optional string_at "watch" Links_watch].

(** [api/templates/apis/file/v1_2/create.json:151-229 return_params] *)
Definition Response_described : description Response :=
  [ Required time_at "response.fileinfo.created" Response_created_datetime;
    Default [] string_at "response.fileinfo.description" Response_description;
    Required (number_at uint32) "response.device_revision" Response_device_revision;
    Required (number_at uint32) "response.fileinfo.downloads" Response_downloads;
    Required string_at "response.fileinfo.hash" Response_filehash;
    Required string_at "response.fileinfo.filename" Response_filename;
    Required (number_at uint64) "response.fileinfo.size" Response_filesize;
    Required string_at "response.fileinfo.filetype" Response_filetype;
    Required (number_at uint32) "response.fileinfo.revision" Response_file_revision;
    Required (number_at uint32) "response.fileinfo.flag" Response_flag;
    RequiredStruct Links_described "response.fileinfo.links" Response_links;
    Default [] string_at "response.fileinfo.mimetype" Response_mimetype;
    Required (enum_at [("no", PasswordProtected_Unprotected);
       ("yes", PasswordProtected_Protected)]) "response.fileinfo.password_protected"
       Response_password_protected;
    Required (enum_at [("public", Privacy_Public); ("private", Privacy_Private)])
       "response.fileinfo.privacy" Response_privacy;
    Required string_at "response.fileinfo.quickkey" Response_quickkey].

(** [api/templates/apis/file/v1_2/create.json:5-17 FileType] *)
Definition AsDescribed_FileType (value : FileType) : str :=
  match value with
  | FileType_Default => B ""
  | FileType_Text => B "text"
  end.

(** [api/templates/apis/file/v1_2/create.json:124-150 input_params] *)
Definition params_described (i : Impl) : list (string * option str) :=
  [("filename", filename_ i);
   ("file_extension", file_extension_ i);
   ("parent_key", parent_folderkey_ i);
   ("mtime", iso_time <$> mtime_ i);
   ("type", (AsDescribed_FileType) <$> file_type_ i)].

#[global] Instance Links_parses : Parses LinksFromPropertyBranch new_Links Links_described.
Proof. parse_class. Qed.
#[global] Instance Response_parses :
  ParsesResponse ParseResponse new_Response Response_described.
Proof. parse_class. Qed.

Definition call : api_call := {|
  call_method := GetRequestMethod;
  call_uses_token := true;
  call_BuildUrl := BuildUrl;
  call_parts := post_parts;
  call_GetPostData := GetPostData;
  call_new := new_Response;
  call_ParseResponse := ParseResponse |}.

#[global] Instance call_implements :
  ImplementsCall call "/api/1.2/file/create" true params_described Response_described.
Proof. implement_call. Qed.

End Call.
End file_create_v1_2.

(** ** [api/file/create/v1_3.cpp] *)
Module file_create_v1_3.

(** [api/file/create/v1_3.hpp:29-35 FileType] *)
Inductive FileType : Set := FileType_Default | FileType_Text.
#[global] Instance FileType_inhabited : Inhabited FileType := populate FileType_Default.

(** [api/file/create/v1_3.hpp:37-43 PasswordProtected] *)
Inductive PasswordProtected : Set := PasswordProtected_Unprotected | PasswordProtected_Protected.
#[global] Instance PasswordProtected_inhabited : Inhabited PasswordProtected :=
  populate PasswordProtected_Unprotected.

(** [api/file/create/v1_3.hpp:45-51 Privacy] *)
Inductive Privacy : Set := Privacy_Public | Privacy_Private.
#[global] Instance Privacy_inhabited : Inhabited Privacy := populate Privacy_Public.

(** [api/file/create/v1_3.cpp:24-31 AsString] *)
Definition AsString_FileType (value : FileType) : str :=
  match value with
  | FileType_Default => B ""
  | FileType_Text => B "text"
  end.

Section Call.
Context `{Libraries}.

(** [api/file/create/v1_3.hpp:64-101 Links] *)
Record Links := {
  Links_direct_download : option str;
  Links_edit : option str;
  Links_listen : option str;
  Links_normal_download : option str;
  Links_one_time_download : option str;
  Links_one_time_listen : option str;
  Links_one_time_watch : option str;
  Links_one_time_view : option str;
  Links_read : option str;
  Links_streaming : option str;
  Links_view : option str;
  Links_watch : option str }.
#[local] Instance Links_members : Members Links := fun v =>
  Build_Links (Links_direct_download v) (Links_edit v) (Links_listen v) (Links_normal_download v)
    (Links_one_time_download v) (Links_one_time_listen v) (Links_one_time_watch v)
    (Links_one_time_view v) (Links_read v) (Links_streaming v) (Links_view v) (Links_watch v).
Definition new_Links : Links :=
  {| Links_direct_download := None; Links_edit := None; Links_listen := None;
     Links_normal_download := None; Links_one_time_download := None;
     Links_one_time_listen := None; Links_one_time_watch := None; Links_one_time_view := None;
     Links_read := None; Links_streaming := None; Links_view := None; Links_watch := None |}.

(** [api/file/create/v1_3.cpp:39-203 LinksFromPropertyBranch] *)
Definition LinksFromPropertyBranch : branch_parser Links := FromPropertyBranch
  [ optional std_string "direct_download" Links_direct_download;
    optional std_string "edit" Links_edit;
    optional std_string "listen" Links_listen;
    optional std_string "normal_download" Links_normal_download;
    optional std_string "one_time.download" Links_one_time_download;
    optional std_string "one_time.listen" Links_one_time_listen;
    optional std_string "one_time.watch" Links_one_time_watch;
    optional std_string "one_time.view" Links_one_time_view;
    optional std_string "read" Links_read;
    optional std_string "streaming" Links_streaming;
    optional std_string "view" Links_view;
    optional std_string "watch" Links_watch].

(** [api/file/create/v1_3.hpp:102-145 Response] *)
Record Response := {
  Response_created_datetime : ptime;
  Response_description : str;
  Response_new_device_revision : option Z;
  Response_downloads : Z;
  Response_filehash : str;
  Response_filename : str;
  Response_filesize : Z;
  Response_filetype : str;
  Response_file_revision : Z;
  Response_flag : Z;
  Response_links : Links;
  Response_mimetype : str;
  Response_password_protected : PasswordProtected;
  Response_privacy : Privacy;
  Response_quickkey : str }.
#[local] Instance Response_members : Members Response := fun v =>
  Build_Response (Response_created_datetime v) (Response_description v)
    (Response_new_device_revision v) (Response_downloads v) (Response_filehash v)
    (Response_filename v) (Response_filesize v) (Response_filetype v) (Response_file_revision v)
    (Response_flag v) (Response_links v) (Response_mimetype v) (Response_password_protected v)
    (Response_privacy v) (Response_quickkey v).
Definition new_Response : Response :=
  {| Response_created_datetime := not_a_date; Response_description := [];
     Response_new_device_revision := None; Response_downloads := indeterminate Z _;
     Response_filehash := []; Response_filename := []; Response_filesize := indeterminate Z _;
     Response_filetype := []; Response_file_revision := indeterminate Z _;
     Response_flag := indeterminate Z _; Response_links := new_Links; Response_mimetype := [];
     Response_password_protected := indeterminate PasswordProtected _;
     Response_privacy := indeterminate Privacy _; Response_quickkey := [] |}.

(** [api/file/create/v1_3.cpp:254-446 Impl::ParseResponse] *)
Definition ParseResponse : ResponseBase -> Response -> ResponseBase * Response :=
  parse_response
  [ assign Response_description [];
    assign Response_mimetype [];
    required a_ptime "response.fileinfo.created" Response_created_datetime;
    with_default std_string "response.fileinfo.description" Response_description;
    optional (an uint32) "response.new_device_revision" Response_new_device_revision;
    required (an uint32) "response.fileinfo.downloads" Response_downloads;
    required std_string "response.fileinfo.hash" Response_filehash;
    required std_string "response.fileinfo.filename" Response_filename;
    required (an uint64) "response.fileinfo.size" Response_filesize;
    required std_string "response.fileinfo.filetype" Response_filetype;
    required (an uint32) "response.fileinfo.revision" Response_file_revision;
    required (an uint32) "response.fileinfo.flag" Response_flag;
    required_struct LinksFromPropertyBranch new_Links "response.fileinfo.links" Response_links;
    with_default std_string "response.fileinfo.mimetype" Response_mimetype;
    required_enum [("no", PasswordProtected_Unprotected); ("yes", PasswordProtected_Protected)]
       "response.fileinfo.password_protected" Response_password_protected;
    required_enum [("public", Privacy_Public); ("private", Privacy_Private)]
       "response.fileinfo.privacy" Response_privacy;
    required std_string "response.fileinfo.quickkey" Response_quickkey].

(** [api/file/create/v1_3.cpp:213-213 api_path] *)
Definition api_path : str := B "/api/1.3/file/create".

(** [api/file/create/v1_3.cpp:217-240 Impl] *)
Record Impl := {
  filename_ : option str;
  file_extension_ : option str;
  parent_folderkey_ : option str;
  mtime_ : option ptime;
  file_type_ : option FileType }.
#[local] Instance Impl_members : Members Impl := fun v =>
  Build_Impl (filename_ v) (file_extension_ v) (parent_folderkey_ v) (mtime_ v) (file_type_ v).

(** [api/file/create/v1_3.cpp:242-244 Impl::Impl] *)
Definition new_Impl : Impl :=
  {| filename_ := None; file_extension_ := None; parent_folderkey_ := None; mtime_ := None;
     file_type_ := None |}.

(** [api/file/create/v1_3.cpp:512-515 Request::SetFilename] *)
Definition SetFilename (filename : str) (i : Impl) : Impl :=
  set_field filename_ (Some filename) i.

(** [api/file/create/v1_3.cpp:517-520 Request::SetFileExtension] *)
Definition SetFileExtension (file_extension : str) (i : Impl) : Impl :=
  set_field file_extension_ (Some file_extension) i.

(** [api/file/create/v1_3.cpp:522-525 Request::SetParentFolderkey] *)
Definition SetParentFolderkey (parent_folderkey : str) (i : Impl) : Impl :=
  set_field parent_folderkey_ (Some parent_folderkey) i.

(** [api/file/create/v1_3.cpp:527-530 Request::SetMtime] *)
Definition SetMtime (mtime : ptime) (i : Impl) : Impl := set_field mtime_ (Some mtime) i.

(** [api/file/create/v1_3.cpp:532-535 Request::SetFileType] *)
Definition SetFileType (file_type : FileType) (i : Impl) : Impl :=
  set_field file_type_ (Some file_type) i.

(** [api/file/create/v1_3.cpp:246-252 Impl::BuildUrl] *)
Definition BuildUrl (query_parts : list query_part) : str * list query_part :=
  (api_path ++ B ".php", query_parts).

(** [api/file/create/v1_3.cpp:236-239 Impl::GetRequestMethod] *)
Definition GetRequestMethod : RequestMethod := Post.

(** The assignments to [parts].
    [api/file/create/v1_3.cpp:448-466 Impl::GetPostData] *)
Definition post_parts (i : Impl) : list query_part := make_parts
  [("filename", filename_ i);
   ("file_extension", file_extension_ i);
   ("parent_key", parent_folderkey_ i);
   ("mtime", AsString_ptime <$> mtime_ i);
   ("type", AsString_FileType <$> file_type_ i)].

(** [api/file/create/v1_3.cpp:448-466 Impl::GetPostData] *)
Definition GetPostData (MD5 : str -> str) (a : SessionTokenApi) (i : Impl) : str :=
  MakePost MD5 a (api_path ++ B ".php") (post_parts i).

(** *** The description *)

(** [api/templates/apis/file/v1_3/create.json:46-122 Links] *)
Definition Links_described : description Links :=
  [ Optional string_at "direct_download" Links_direct_download;
    Optional string_at "edit" Links_edit;
    Optional string_at "listen" Links_listen;
    Optional string_at "normal_download" Links_normal_download;
    Optional string_at "one_time.download" Links_one_time_download;
    Optional string_at "one_time.listen" Links_one_time_listen;
    Optional string_at "one_time.watch" Links_one_time_watch;
    Optional string_at "one_time.view" Links_one_time_view;
    Optional string_at "read" Links_read;
    Optional string_at "streaming" Links_streaming;
    Optional string_at "view" Links_view;
    Optional string_at "watch" Links_watch].

(** [api/templates/apis/file/v1_3/create.json:151-230 return_params] *)
Definition Response_described : description Response :=
  [ Required time_at "response.fileinfo.created" Response_created_datetime;
    Default [] string_at "response.fileinfo.description" Response_description;
    Optional (number_at uint32) "response.new_device_revision" Response_new_device_revision;
    Required (number_at uint32) "response.fileinfo.downloads" Response_downloads;
    Required string_at "response.fileinfo.hash" Response_filehash;
    Required string_at "response.fileinfo.filename" Response_filename;
    Required (number_at uint64) "response.fileinfo.size" Response_filesize;
    Required string_at "response.fileinfo.filetype" Response_filetype;
    Required (number_at uint32) "response.fileinfo.revision" Response_file_revision;
    Required (number_at uint32) "response.fileinfo.flag" Response_flag;
    RequiredStruct Links_described "response.fileinfo.links" Response_links;
    Default [] string_at "response.fileinfo.mimetype" Response_mimetype;
    Required (enum_at [("no", PasswordProtected_Unprotected);
       ("yes", PasswordProtected_Protected)]) "response.fileinfo.password_protected"
       Response_password_protected;
    Required (enum_at [("public", Privacy_Public); ("private", Privacy_Private)])
       "response.fileinfo.privacy" Response_privacy;
    Required string_at "response.fileinfo.quickkey" Response_quickkey].

(** [api/templates/apis/file/v1_3/create.json:5-17 FileType] *)
Definition AsDescribed_FileType (value : FileType) : str :=
  match value with
  | FileType_Default => B ""
  | FileType_Text => B "text"
  end.

(** [api/templates/apis/file/v1_3/create.json:124-150 input_params] *)
Definition params_described (i : Impl) : list (string * option str) :=
  [("filename", filename_ i);
   ("file_extension", file_extension_ i);
   ("parent_key", parent_folderkey_ i);
   ("mtime", iso_time <$> mtime_ i);
   ("type", (AsDescribed_FileType) <$> file_type_ i)].

#[global] Instance Links_parses : Parses LinksFromPropertyBranch new_Links Links_described.
Proof. parse_class. Qed.
#[global] Instance Response_parses :
  ParsesResponse ParseResponse new_Response Response_described.
Proof. parse_class. Qed.

Definition call : api_call := {|
  call_method := GetRequestMethod;
  call_uses_token := true;
  call_BuildUrl := BuildUrl;
  call_parts := post_parts;
  call_GetPostData := GetPostData;
  call_new := new_Response;
  call_ParseResponse := ParseResponse |}.

#[global] Instance call_implements :
  ImplementsCall call "/api/1.3/file/create" true params_described Response_described.
Proof. implement_call. Qed.

End Call.
End file_create_v1_3.

(** ** [api/file/file_delete/v0.cpp] *)
Module file_file_delete_v0.

Section Call.
Context `{Libraries}.

(** [api/file/file_delete/v0.hpp:36-37 Response] *)
Record Response := {
  Response_device_revision : Z }.
#[local] Instance Response_members : Members Response := fun v =>
  Build_Response (Response_device_revision v).
Definition new_Response : Response :=
  {| Response_device_revision := indeterminate Z _ |}.

(** [api/file/file_delete/v0.cpp:74-93 Impl::ParseResponse] *)
Definition ParseResponse : ResponseBase -> Response -> ResponseBase * Response :=
  parse_response
  [ required (an uint32) "response.device_revision" Response_device_revision].

(** [api/file/file_delete/v0.cpp:32-32 api_path] *)
Definition api_path : str := B "/api/file/delete".

(** [api/file/file_delete/v0.cpp:36-57 Impl] *)
Record Impl := {
  quickkey_ : str }.
#[local] Instance Impl_members : Members Impl := fun v =>
  Build_Impl (quickkey_ v).

(** [api/file/file_delete/v0.cpp:59-64 Impl::Impl] *)
Definition new_Impl (quickkey : str) : Impl :=
  {| quickkey_ := quickkey |}.

(** [api/file/file_delete/v0.cpp:66-72 Impl::BuildUrl] *)
Definition BuildUrl (query_parts : list query_part) : str * list query_part :=
  (api_path ++ B ".php", query_parts).

(** [api/file/file_delete/v0.cpp:53-56 Impl::GetRequestMethod] *)
Definition GetRequestMethod : RequestMethod := Post.

(** The assignments to [parts].
    [api/file/file_delete/v0.cpp:95-104 Impl::GetPostData] *)
Definition post_parts (i : Impl) : list query_part := make_parts
  [("quick_key", Some (quickkey_ i))].

(** [api/file/file_delete/v0.cpp:95-104 Impl::GetPostData] *)
Definition GetPostData (MD5 : str -> str) (a : SessionTokenApi) (i : Impl) : str :=
  MakePost MD5 a (api_path ++ B ".php") (post_parts i).

(** *** The description *)

(** [api/templates/apis/file/v0/delete.json:11-17 return_params] *)
Definition Response_described : description Response :=
  [ Required (number_at uint32) "response.device_revision" Response_device_revision].

(** [api/templates/apis/file/v0/delete.json:4-10 input_params] *)
Definition params_described (i : Impl) : list (string * option str) :=
  [("quick_key", Some (quickkey_ i))].

#[global] Instance Response_parses :
  ParsesResponse ParseResponse new_Response Response_described.
Proof. parse_class. Qed.

Definition call : api_call := {|
  call_method := GetRequestMethod;
  call_uses_token := true;
  call_BuildUrl := BuildUrl;
  call_parts := post_parts;
  call_GetPostData := GetPostData;
  call_new := new_Response;
  call_ParseResponse := ParseResponse |}.

#[global] Instance call_implements :
  ImplementsCall call "/api/file/delete" true params_described Response_described.
Proof. implement_call. Qed.

End Call.
End file_file_delete_v0.

(** ** [api/file/file_delete/v1_3.cpp] *)
Module file_file_delete_v1_3.

Section Call.
Context `{Libraries}.

(** [api/file/file_delete/v1_3.hpp:36-37 Response] *)
Record Response := {
  Response_new_device_revision : option Z }.
#[local] Instance Response_members : Members Response := fun v =>
  Build_Response (Response_new_device_revision v).
Definition new_Response : Response :=
  {| Response_new_device_revision := None |}.

(** [api/file/file_delete/v1_3.cpp:74-96 Impl::ParseResponse] *)
Definition ParseResponse : ResponseBase -> Response -> ResponseBase * Response :=
  parse_response
  [ optional (an uint32) "response.new_device_revision" Response_new_device_revision].

(** [api/file/file_delete/v1_3.cpp:32-32 api_path] *)
Definition api_path : str := B "/api/1.3/file/delete".

(** [api/file/file_delete/v1_3.cpp:36-57 Impl] *)
Record Impl := {
  quickkey_ : str }.
#[local] Instance Impl_members : Members Impl := fun v =>
  Build_Impl (quickkey_ v).

(** [api/file/file_delete/v1_3.cpp:59-64 Impl::Impl] *)
Definition new_Impl (quickkey : str) : Impl :=
  {| quickkey_ := quickkey |}.

(** [api/file/file_delete/v1_3.cpp:66-72 Impl::BuildUrl] *)
Definition BuildUrl (query_parts : list query_part) : str * list query_part :=
  (api_path ++ B ".php", query_parts).

(** [api/file/file_delete/v1_3.cpp:53-56 Impl::GetRequestMethod] *)
Definition GetRequestMethod : RequestMethod := Post.

(** The assignments to [parts].
    [api/file/file_delete/v1_3.cpp:98-107 Impl::GetPostData] *)
Definition post_parts (i : Impl) : list query_part := make_parts
  [("quick_key", Some (quickkey_ i))].

(** [api/file/file_delete/v1_3.cpp:98-107 Impl::GetPostData] *)
Definition GetPostData (MD5 : str -> str) (a : SessionTokenApi) (i : Impl) : str :=
  MakePost MD5 a (api_path ++ B ".php") (post_parts i).

(** *** The description *)

(** [api/templates/apis/file/v1_3/delete.json:11-18 return_params] *)
Definition Response_described : description Response :=
  [ Optional (number_at uint32) "response.new_device_revision" Response_new_device_revision].

(** [api/templates/apis/file/v1_3/delete.json:4-10 input_params] *)
Definition params_described (i : Impl) : list (string * option str) :=
  [("quick_key", Some (quickkey_ i))].

#[global] Instance Response_parses :
  ParsesResponse ParseResponse new_Response Response_described.
Proof. parse_class. Qed.

Definition call : api_call := {|
  call_method := GetRequestMethod;
  call_uses_token := true;
  call_BuildUrl := BuildUrl;
  call_parts := post_parts;
  call_GetPostData := GetPostData;
  call_new := new_Response;
  call_ParseResponse := ParseResponse |}.

#[global] Instance call_implements :
  ImplementsCall call "/api/1.3/file/delete" true params_described Response_described.
Proof. implement_call. Qed.

End Call.
End file_file_delete_v1_3.

(** ** [api/file/get_info/v0.cpp] *)
Module file_get_info_v0.

(** [api/file/get_info/v0.hpp:29-35 Privacy] *)
Inductive Privacy : Set := Privacy_Public | Privacy_Private.
#[global] Instance Privacy_inhabited : Inhabited Privacy := populate Privacy_Public.

(** [api/file/get_info/v0.hpp:37-43 PasswordProtected] *)
Inductive PasswordProtected : Set := PasswordProtected_Unprotected | PasswordProtected_Protected.
#[global] Instance PasswordProtected_inhabited : Inhabited PasswordProtected :=
  populate PasswordProtected_Unprotected.

(** [api/file/get_info/v0.hpp:45-51 SharedByUser] *)
Inductive SharedByUser : Set := SharedByUser_Unshared | SharedByUser_Shared.
#[global] Instance SharedByUser_inhabited : Inhabited SharedByUser :=
  populate SharedByUser_Unshared.

(** [api/file/get_info/v0.hpp:53-59 ExplicitShare] *)
Inductive ExplicitShare : Set := ExplicitShare_No | ExplicitShare_Yes.
#[global] Instance ExplicitShare_inhabited : Inhabited ExplicitShare := populate ExplicitShare_No.

(** [api/file/get_info/v0.hpp:61-67 Permission] *)
Inductive Permission : Set := Permission_Allowed | Permission_Denied.
#[global] Instance Permission_inhabited : Inhabited Permission := populate Permission_Allowed.

Section Call.
Context `{Libraries}.

(** [api/file/get_info/v0.hpp:81-94 Permissions] *)
Record Permissions := {
  Permissions_value : Z;
  Permissions_explicit_share : ExplicitShare;
  Permissions_read_permission : Permission;
  Permissions_write_permission : Permission }.
#[local] Instance Permissions_members : Members Permissions := fun v =>
  Build_Permissions (Permissions_value v) (Permissions_explicit_share v)
    (Permissions_read_permission v) (Permissions_write_permission v).
Definition new_Permissions : Permissions :=
  {| Permissions_value := indeterminate Z _;
     Permissions_explicit_share := indeterminate ExplicitShare _;
     Permissions_read_permission := indeterminate Permission _;
     Permissions_write_permission := indeterminate Permission _ |}.

(** [api/file/get_info/v0.cpp:28-126 PermissionsFromPropertyBranch] *)
Definition PermissionsFromPropertyBranch : branch_parser Permissions := FromPropertyBranch
  [ required (an uint32) "value" Permissions_value;
    required_enum [("0", ExplicitShare_No); ("1", ExplicitShare_Yes)]
       "explicit" Permissions_explicit_share;
    required_enum [("1", Permission_Allowed); ("0", Permission_Denied)]
       "read" Permissions_read_permission;
    required_enum [("1", Permission_Allowed); ("0", Permission_Denied)]
       "write" Permissions_write_permission].

(** [api/file/get_info/v0.hpp:95-144 Response] *)
Record Response := {
  Response_quickkey : str;
  Response_filename : str;
  Response_created_datetime : ptime;
  Response_deleted_datetime : ptime;
  Response_download_count : option Z;
  Response_filesize : Z;
  Response_privacy : Privacy;
  Response_password_protected : PasswordProtected;
  Response_hash : str;
  Response_filetype : str;
  Response_mimetype : str;
  Response_owner_name : str;
  Response_shared_by_user : SharedByUser;
  Response_permissions : option Permissions;
  Response_parent_folderkey : option str;
  Response_revision : Z;
  Response_flag : Z }.
#[local] Instance Response_members : Members Response := fun v =>
  Build_Response (Response_quickkey v) (Response_filename v) (Response_created_datetime v)
    (Response_deleted_datetime v) (Response_download_count v) (Response_filesize v)
    (Response_privacy v) (Response_password_protected v) (Response_hash v) (Response_filetype v)
    (Response_mimetype v) (Response_owner_name v) (Response_shared_by_user v)
    (Response_permissions v) (Response_parent_folderkey v) (Response_revision v)
    (Response_flag v).
Definition new_Response : Response :=
  {| Response_quickkey := []; Response_filename := []; Response_created_datetime := not_a_date;
     Response_deleted_datetime := not_a_date; Response_download_count := None;
     Response_filesize := indeterminate Z _; Response_privacy := indeterminate Privacy _;
     Response_password_protected := indeterminate PasswordProtected _; Response_hash := [];
     Response_filetype := []; Response_mimetype := []; Response_owner_name := [];
     Response_shared_by_user := SharedByUser_Unshared; Response_permissions := None;
     Response_parent_folderkey := None; Response_revision := indeterminate Z _;
     Response_flag := indeterminate Z _ |}.

(** [api/file/get_info/v0.cpp:178-386 Impl::ParseResponse] *)
Definition ParseResponse : ResponseBase -> Response -> ResponseBase * Response :=
  parse_response
  [ assign Response_deleted_datetime not_a_date;
    assign Response_mimetype [];
    assign Response_shared_by_user SharedByUser_Unshared;
    required std_string "response.file_info.quickkey" Response_quickkey;
    required std_string "response.file_info.filename" Response_filename;
    required a_ptime "response.file_info.created" Response_created_datetime;
    with_default a_ptime "response.file_info.delete_date" Response_deleted_datetime;
    optional (an uint32) "response.file_info.downloads" Response_download_count;
    required (an uint64) "response.file_info.size" Response_filesize;
    required_enum [("public", Privacy_Public); ("private", Privacy_Private)]
       "response.file_info.privacy" Response_privacy;
    required_enum [("no", PasswordProtected_Unprotected); ("yes", PasswordProtected_Protected)]
       "response.file_info.password_protected" Response_password_protected;
    required std_string "response.file_info.hash" Response_hash;
    required std_string "response.file_info.filetype" Response_filetype;
    with_default std_string "response.file_info.mimetype" Response_mimetype;
    required std_string "response.file_info.owner_name" Response_owner_name;
    optional_enum id [("", SharedByUser_Unshared); ("1", SharedByUser_Shared)]
       "response.file_info.shared_by_user" Response_shared_by_user;
    optional_struct PermissionsFromPropertyBranch new_Permissions
       "response.file_info.permissions" Response_permissions;
    optional std_string "response.file_info.parent_folderkey" Response_parent_folderkey;
    required (an uint32) "response.file_info.revision" Response_revision;
    required (an uint32) "response.file_info.flag" Response_flag].

(** [api/file/get_info/v0.cpp:136-136 api_path] *)
Definition api_path : str := B "/api/file/get_info".

(** [api/file/get_info/v0.cpp:140-161 Impl] *)
Record Impl := {
  quickkey_ : str }.
#[local] Instance Impl_members : Members Impl := fun v =>
  Build_Impl (quickkey_ v).

(** [api/file/get_info/v0.cpp:163-168 Impl::Impl] *)
Definition new_Impl (quickkey : str) : Impl :=
  {| quickkey_ := quickkey |}.

(** [api/file/get_info/v0.cpp:170-176 Impl::BuildUrl] *)
Definition BuildUrl (query_parts : list query_part) : str * list query_part :=
  (api_path ++ B ".php", query_parts).

(** [api/file/get_info/v0.cpp:157-160 Impl::GetRequestMethod] *)
Definition GetRequestMethod : RequestMethod := Post.

(** The assignments to [parts].
    [api/file/get_info/v0.cpp:388-397 Impl::GetPostData] *)
Definition post_parts (i : Impl) : list query_part := make_parts
  [("quick_key", Some (quickkey_ i))].

(** [api/file/get_info/v0.cpp:388-397 Impl::GetPostData] *)
Definition GetPostData (MD5 : str -> str) (a : SessionTokenApi) (i : Impl) : str :=
  MakePost MD5 a (api_path ++ B ".php") (post_parts i).

(** *** The description *)

(** [api/templates/apis/file/v0/get_info.json:72-96 Permissions] *)
Definition Permissions_described : description Permissions :=
  [ Required (number_at uint32) "value" Permissions_value;
    Required (enum_at [("0", ExplicitShare_No); ("1", ExplicitShare_Yes)])
       "explicit" Permissions_explicit_share;
    Required (enum_at [("1", Permission_Allowed); ("0", Permission_Denied)])
       "read" Permissions_read_permission;
    Required (enum_at [("1", Permission_Allowed); ("0", Permission_Denied)])
       "write" Permissions_write_permission].

(** [api/templates/apis/file/v0/get_info.json:105-197 return_params] *)
Definition Response_described : description Response :=
  [ Required string_at "response.file_info.quickkey" Response_quickkey;
    Required string_at "response.file_info.filename" Response_filename;
    Required time_at "response.file_info.created" Response_created_datetime;
    Default not_a_date time_at "response.file_info.delete_date" Response_deleted_datetime;
    Optional (number_at uint32) "response.file_info.downloads" Response_download_count;
    Required (number_at uint64) "response.file_info.size" Response_filesize;
    Required (enum_at [("public", Privacy_Public); ("private", Privacy_Private)])
       "response.file_info.privacy" Response_privacy;
    Required (enum_at [("no", PasswordProtected_Unprotected);
       ("yes", PasswordProtected_Protected)]) "response.file_info.password_protected"
       Response_password_protected;
    Required string_at "response.file_info.hash" Response_hash;
    Required string_at "response.file_info.filetype" Response_filetype;
    Default [] string_at "response.file_info.mimetype" Response_mimetype;
    Required string_at "response.file_info.owner_name" Response_owner_name;
    Default SharedByUser_Unshared (enum_at [("", SharedByUser_Unshared);
       ("1", SharedByUser_Shared)]) "response.file_info.shared_by_user" Response_shared_by_user;
    OptionalStruct Permissions_described "response.file_info.permissions" Response_permissions;
    Optional string_at "response.file_info.parent_folderkey" Response_parent_folderkey;
    Required (number_at uint32) "response.file_info.revision" Response_revision;
    Required (number_at uint32) "response.file_info.flag" Response_flag].

(** [api/templates/apis/file/v0/get_info.json:98-104 input_params] *)
Definition params_described (i : Impl) : list (string * option str) :=
  [("quick_key", Some (quickkey_ i))].

#[global] Instance Permissions_parses : Parses PermissionsFromPropertyBranch new_Permissions
  Permissions_described.
Proof. parse_class. Qed.
#[global] Instance Response_parses :
  ParsesResponse ParseResponse new_Response Response_described.
Proof. parse_class. Qed.

Definition call : api_call := {|
  call_method := GetRequestMethod;
  call_uses_token := true;
  call_BuildUrl := BuildUrl;
  call_parts := post_parts;
  call_GetPostData := GetPostData;
  call_new := new_Response;
  call_ParseResponse := ParseResponse |}.

#[global] Instance call_implements :
  ImplementsCall call "/api/file/get_info" true params_described Response_described.
Proof. implement_call. Qed.

End Call.
End file_get_info_v0.

(** ** [api/file/get_info/v1_1.cpp] *)
Module file_get_info_v1_1.

(** [api/file/get_info/v1_1.hpp:29-35 ExplicitShare] *)
Inductive ExplicitShare : Set := ExplicitShare_No | ExplicitShare_Yes.
#[global] Instance ExplicitShare_inhabited : Inhabited ExplicitShare := populate ExplicitShare_No.

(** [api/file/get_info/v1_1.hpp:37-43 Privacy] *)
Inductive Privacy : Set := Privacy_Public | Privacy_Private.
#[global] Instance Privacy_inhabited : Inhabited Privacy := populate Privacy_Public.

(** [api/file/get_info/v1_1.hpp:45-51 PasswordProtected] *)
Inductive PasswordProtected : Set := PasswordProtected_Unprotected | PasswordProtected_Protected.
#[global] Instance PasswordProtected_inhabited : Inhabited PasswordProtected :=
  populate PasswordProtected_Unprotected.

(** [api/file/get_info/v1_1.hpp:53-59 Permission] *)
Inductive Permission : Set := Permission_Allowed | Permission_Denied.
#[global] Instance Permission_inhabited : Inhabited Permission := populate Permission_Allowed.

(** [api/file/get_info/v1_1.hpp:61-67 SharedByUser] *)
Inductive SharedByUser : Set := SharedByUser_Unshared | SharedByUser_Shared.
#[global] Instance SharedByUser_inhabited : Inhabited SharedByUser :=
  populate SharedByUser_Unshared.

Section Call.
Context `{Libraries}.

(** [api/file/get_info/v1_1.hpp:81-118 Links] *)
Record Links := {
  Links_direct_download : option str;
  Links_edit : option str;
  Links_listen : option str;
  Links_normal_download : option str;
  Links_one_time_download : option str;
  Links_one_time_listen : option str;
  Links_one_time_watch : option str;
  Links_one_time_view : option str;
  Links_read : option str;
  Links_streaming : option str;
  Links_view : option str;
  Links_watch : option str }.
#[local] Instance Links_members : Members Links := fun v =>
  Build_Links (Links_direct_download v) (Links_edit v) (Links_listen v) (Links_normal_download v)
    (Links_one_time_download v) (Links_one_time_listen v) (Links_one_time_watch v)
    (Links_one_time_view v) (Links_read v) (Links_streaming v) (Links_view v) (Links_watch v).
Definition new_Links : Links :=
  {| Links_direct_download := None; Links_edit := None; Links_listen := None;
     Links_normal_download := None; Links_one_time_download := None;
     Links_one_time_listen := None; Links_one_time_watch := None; Links_one_time_view := None;
     Links_read := None; Links_streaming := None; Links_view := None; Links_watch := None |}.

(** [api/file/get_info/v1_1.hpp:119-132 Permissions] *)
Record Permissions := {
  Permissions_value : Z;
  Permissions_explicit_share : ExplicitShare;
  Permissions_read_permission : Permission;
  Permissions_write_permission : Permission }.
#[local] Instance Permissions_members : Members Permissions := fun v =>
  Build_Permissions (Permissions_value v) (Permissions_explicit_share v)
    (Permissions_read_permission v) (Permissions_write_permission v).
Definition new_Permissions : Permissions :=
  {| Permissions_value := indeterminate Z _;
     Permissions_explicit_share := indeterminate ExplicitShare _;
     Permissions_read_permission := indeterminate Permission _;
     Permissions_write_permission := indeterminate Permission _ |}.

(** [api/file/get_info/v1_1.cpp:28-192 LinksFromPropertyBranch] *)
Definition LinksFromPropertyBranch : branch_parser Links := FromPropertyBranch
  [ optional std_string "direct_download" Links_direct_download;
    optional std_string "edit" Links_edit;
    optional std_string "listen" Links_listen;
    optional std_string "normal_download" Links_normal_download;
    optional std_string "one_time.download" Links_one_time_download;
    optional std_string "one_time.listen" Links_one_time_listen;
    optional std_string "one_time.watch" Links_one_time_watch;
    optional std_string "one_time.view" Links_one_time_view;
    optional std_string "read" Links_read;
    optional std_string "streaming" Links_streaming;
    optional std_string "view" Links_view;
    optional std_string "watch" Links_watch].

(** [api/file/get_info/v1_1.cpp:195-293 PermissionsFromPropertyBranch] *)
Definition PermissionsFromPropertyBranch : branch_parser Permissions := FromPropertyBranch
  [ required (an uint32) "value" Permissions_value;
    required_enum [("0", ExplicitShare_No); ("1", ExplicitShare_Yes)]
       "explicit" Permissions_explicit_share;
    required_enum [("1", Permission_Allowed); ("0", Permission_Denied)]
       "read" Permissions_read_permission;
    required_enum [("1", Permission_Allowed); ("0", Permission_Denied)]
       "write" Permissions_write_permission].

(** [api/file/get_info/v1_1.hpp:133-185 Response] *)
Record Response := {
  Response_quickkey : str;
  Response_filename : str;
  Response_created_datetime : ptime;
  Response_deleted_datetime : ptime;
  Response_download_count : option Z;
  Response_filesize : Z;
  Response_privacy : Privacy;
  Response_password_protected : PasswordProtected;
  Response_hash : str;
  Response_filetype : str;
  Response_mimetype : str;
  Response_owner_name : str;
  Response_shared_by_user : SharedByUser;
  Response_permissions : option Permissions;
  Response_parent_folderkey : option str;
  Response_revision : Z;
  Response_flag : Z;
  Response_links : Links }.
#[local] Instance Response_members : Members Response := fun v =>
  Build_Response (Response_quickkey v) (Response_filename v) (Response_created_datetime v)
    (Response_deleted_datetime v) (Response_download_count v) (Response_filesize v)
    (Response_privacy v) (Response_password_protected v) (Response_hash v) (Response_filetype v)
    (Response_mimetype v) (Response_owner_name v) (Response_shared_by_user v)
    (Response_permissions v) (Response_parent_folderkey v) (Response_revision v) (Response_flag v)
    (Response_links v).
Definition new_Response : Response :=
  {| Response_quickkey := []; Response_filename := []; Response_created_datetime := not_a_date;
     Response_deleted_datetime := not_a_date; Response_download_count := None;
     Response_filesize := indeterminate Z _; Response_privacy := indeterminate Privacy _;
     Response_password_protected := indeterminate PasswordProtected _; Response_hash := [];
     Response_filetype := []; Response_mimetype := []; Response_owner_name := [];
     Response_shared_by_user := SharedByUser_Unshared; Response_permissions := None;
     Response_parent_folderkey := None; Response_revision := indeterminate Z _;
     Response_flag := indeterminate Z _; Response_links := new_Links |}.

(** [api/file/get_info/v1_1.cpp:345-582 Impl::ParseResponse] *)
Definition ParseResponse : ResponseBase -> Response -> ResponseBase * Response :=
  parse_response
  [ assign Response_deleted_datetime not_a_date;
    assign Response_mimetype [];
    assign Response_shared_by_user SharedByUser_Unshared;
    required std_string "response.file_info.quickkey" Response_quickkey;
    required std_string "response.file_info.filename" Response_filename;
    required a_ptime "response.file_info.created" Response_created_datetime;
    with_default a_ptime "response.file_info.delete_date" Response_deleted_datetime;
    optional (an uint32) "response.file_info.downloads" Response_download_count;
    required (an uint64) "response.file_info.size" Response_filesize;
    required_enum [("public", Privacy_Public); ("private", Privacy_Private)]
       "response.file_info.privacy" Response_privacy;
    required_enum [("no", PasswordProtected_Unprotected); ("yes", PasswordProtected_Protected)]
       "response.file_info.password_protected" Response_password_protected;
    required std_string "response.file_info.hash" Response_hash;
    required std_string "response.file_info.filetype" Response_filetype;
    with_default std_string "response.file_info.mimetype" Response_mimetype;
    required std_string "response.file_info.owner_name" Response_owner_name;
    optional_enum id [("", SharedByUser_Unshared); ("1", SharedByUser_Shared)]
       "response.file_info.shared_by_user" Response_shared_by_user;
    optional_struct PermissionsFromPropertyBranch new_Permissions
       "response.file_info.permissions" Response_permissions;
    optional std_string "response.file_info.parent_folderkey" Response_parent_folderkey;
    required (an uint32) "response.file_info.revision" Response_revision;
    required (an uint32) "response.file_info.flag" Response_flag;
    required_struct LinksFromPropertyBranch new_Links "response.file_info.links" Response_links].

(** [api/file/get_info/v1_1.cpp:303-303 api_path] *)
Definition api_path : str := B "/api/1.1/file/get_info".

(** [api/file/get_info/v1_1.cpp:307-328 Impl] *)
Record Impl := {
  quickkey_ : str }.
#[local] Instance Impl_members : Members Impl := fun v =>
  Build_Impl (quickkey_ v).

(** [api/file/get_info/v1_1.cpp:330-335 Impl::Impl] *)
Definition new_Impl (quickkey : str) : Impl :=
  {| quickkey_ := quickkey |}.

(** [api/file/get_info/v1_1.cpp:337-343 Impl::BuildUrl] *)
Definition BuildUrl (query_parts : list query_part) : str * list query_part :=
  (api_path ++ B ".php", query_parts).

(** [api/file/get_info/v1_1.cpp:324-327 Impl::GetRequestMethod] *)
Definition GetRequestMethod : RequestMethod := Post.

(** The assignments to [parts].
    [api/file/get_info/v1_1.cpp:584-593 Impl::GetPostData] *)
Definition post_parts (i : Impl) : list query_part := make_parts
  [("quick_key", Some (quickkey_ i))].

(** [api/file/get_info/v1_1.cpp:584-593 Impl::GetPostData] *)
Definition GetPostData (MD5 : str -> str) (a : SessionTokenApi) (i : Impl) : str :=
  MakePost MD5 a (api_path ++ B ".php") (post_parts i).

(** *** The description *)

(** [api/templates/apis/file/v1_1/get_info.json:73-149 Links] *)
Definition Links_described : description Links :=
  [ Optional string_at "direct_download" Links_direct_download;
    Optional string_at "edit" Links_edit;
    Optional string_at "listen" Links_listen;
    Optional string_at "normal_download" Links_normal_download;
    Optional string_at "one_time.download" Links_one_time_download;
    Optional string_at "one_time.listen" Links_one_time_listen;
    Optional string_at "one_time.watch" Links_one_time_watch;
    Optional string_at "one_time.view" Links_one_time_view;
    Optional string_at "read" Links_read;
    Optional string_at "streaming" Links_streaming;
    Optional string_at "view" Links_view;
    Optional string_at "watch" Links_watch].

(** [api/templates/apis/file/v1_1/get_info.json:150-174 Permissions] *)
Definition Permissions_described : description Permissions :=
  [ Required (number_at uint32) "value" Permissions_value;
    Required (enum_at [("0", ExplicitShare_No); ("1", ExplicitShare_Yes)])
       "explicit" Permissions_explicit_share;
    Required (enum_at [("1", Permission_Allowed); ("0", Permission_Denied)])
       "read" Permissions_read_permission;
    Required (enum_at [("1", Permission_Allowed); ("0", Permission_Denied)])
       "write" Permissions_write_permission].

(** [api/templates/apis/file/v1_1/get_info.json:183-280 return_params] *)
Definition Response_described : description Response :=
  [ Required string_at "response.file_info.quickkey" Response_quickkey;
    Required string_at "response.file_info.filename" Response_filename;
    Required time_at "response.file_info.created" Response_created_datetime;
    Default not_a_date time_at "response.file_info.delete_date" Response_deleted_datetime;
    Optional (number_at uint32) "response.file_info.downloads" Response_download_count;
    Required (number_at uint64) "response.file_info.size" Response_filesize;
    Required (enum_at [("public", Privacy_Public); ("private", Privacy_Private)])
       "response.file_info.privacy" Response_privacy;
    Required (enum_at [("no", PasswordProtected_Unprotected);
       ("yes", PasswordProtected_Protected)]) "response.file_info.password_protected"
       Response_password_protected;
    Required string_at "response.file_info.hash" Response_hash;
    Required string_at "response.file_info.filetype" Response_filetype;
    Default [] string_at "response.file_info.mimetype" Response_mimetype;
    Required string_at "response.file_info.owner_name" Response_owner_name;
    Default SharedByUser_Unshared (enum_at [("", SharedByUser_Unshared);
       ("1", SharedByUser_Shared)]) "response.file_info.shared_by_user" Response_shared_by_user;
    OptionalStruct Permissions_described "response.file_info.permissions" Response_permissions;
    Optional string_at "response.file_info.parent_folderkey" Response_parent_folderkey;
    Required (number_at uint32) "response.file_info.revision" Response_revision;
    Required (number_at uint32) "response.file_info.flag" Response_flag;
    RequiredStruct Links_described "response.file_info.links" Response_links].

(** [api/templates/apis/file/v1_1/get_info.json:176-182 input_params] *)
Definition params_described (i : Impl) : list (string * option str) :=
  [("quick_key", Some (quickkey_ i))].

#[global] Instance Links_parses : Parses LinksFromPropertyBranch new_Links Links_described.
Proof. parse_class. Qed.
#[global] Instance Permissions_parses : Parses PermissionsFromPropertyBranch new_Permissions
  Permissions_described.
Proof. parse_class. Qed.
#[global] Instance Response_parses :
  ParsesResponse ParseResponse new_Response Response_described.
Proof. parse_class. Qed.

Definition call : api_call := {|
  call_method := GetRequestMethod;
  call_uses_token := true;
  call_BuildUrl := BuildUrl;
  call_parts := post_parts;
  call_GetPostData := GetPostData;
  call_new := new_Response;
  call_ParseResponse := ParseResponse |}.

#[global] Instance call_implements :
  ImplementsCall call "/api/1.1/file/get_info" true params_described Response_described.
Proof. implement_call. Qed.

End Call.
End file_get_info_v1_1.

(** ** [api/file/get_links/v0.cpp] *)
Module file_get_links_v0.

(** [api/file/get_links/v0.hpp:30-36 Recurring] *)
Inductive Recurring : Set := Recurring_NonRecurring | Recurring_Recurring.
#[global] Instance Recurring_inhabited : Inhabited Recurring := populate Recurring_NonRecurring.

(** [api/file/get_links/v0.hpp:38-54 LinkType] *)
Inductive LinkType : Set :=
  LinkType_View | LinkType_Edit | LinkType_Listen | LinkType_Watch | LinkType_NormalDownload |
  LinkType_DirectDownload | LinkType_OneTimeDownload.
#[global] Instance LinkType_inhabited : Inhabited LinkType := populate LinkType_View.

(** [api/file/get_links/v0.cpp:24-41 AsString] *)
Definition AsString_LinkType (value : LinkType) : str :=
  match value with
  | LinkType_View => B "view"
  | LinkType_Edit => B "edit"
  | LinkType_Listen => B "listen"
  | LinkType_Watch => B "watch"
  | LinkType_NormalDownload => B "normal_download"
  | LinkType_DirectDownload => B "direct_download"
  | LinkType_OneTimeDownload => B "one_time_download"
  end.

Section Call.
Context `{Libraries}.

(** [api/file/get_links/v0.hpp:67-107 Links] *)
Record Links := {
  Links_direct_download : option str;
  Links_direct_download_error_message : option str;
  Links_direct_download_error : option Z;
  Links_edit : option str;
  Links_edit_error_message : option str;
  Links_listen : option str;
  Links_normal_download : option str;
  Links_one_time_download : option str;
  Links_one_time_download_error_message : option str;
  Links_quickkey : str;
  Links_view : option str;
  Links_watch : option str;
  Links_error : option str }.
#[local] Instance Links_members : Members Links := fun v =>
  Build_Links (Links_direct_download v) (Links_direct_download_error_message v)
    (Links_direct_download_error v) (Links_edit v) (Links_edit_error_message v) (Links_listen v)
    (Links_normal_download v) (Links_one_time_download v)
    (Links_one_time_download_error_message v) (Links_quickkey v) (Links_view v) (Links_watch v)
    (Links_error v).
Definition new_Links : Links :=
  {| Links_direct_download := None; Links_direct_download_error_message := None;
     Links_direct_download_error := None; Links_edit := None; Links_edit_error_message := None;
     Links_listen := None; Links_normal_download := None; Links_one_time_download := None;
     Links_one_time_download_error_message := None; Links_quickkey := []; Links_view := None;
     Links_watch := None; Links_error := None |}.

(** [api/file/get_links/v0.cpp:49-222 LinksFromPropertyBranch] *)
Definition LinksFromPropertyBranch : branch_parser Links := FromPropertyBranch
  [ optional std_string "direct_download" Links_direct_download;
    optional std_string "direct_download_error_message" Links_direct_download_error_message;
    optional (an int32) "direct_download_error" Links_direct_download_error;
    optional std_string "edit" Links_edit;
    optional std_string "edit_error_message" Links_edit_error_message;
    optional std_string "listen" Links_listen;
    optional std_string "normal_download" Links_normal_download;
    optional std_string "one_time_download" Links_one_time_download;
    optional std_string "one_time_download_error_message" Links_one_time_download_error_message;
    required std_string "quickkey" Links_quickkey;
    optional std_string "view" Links_view;
    optional std_string "watch" Links_watch;
    optional std_string "error" Links_error].

(** [api/file/get_links/v0.hpp:108-115 Response] *)
Record Response := {
  Response_links : list Links;
  Response_one_time_download_request_count : Z;
  Response_direct_download_free_bandwidth : Z }.
#[local] Instance Response_members : Members Response := fun v =>
  Build_Response (Response_links v) (Response_one_time_download_request_count v)
    (Response_direct_download_free_bandwidth v).
Definition new_Response : Response :=
  {| Response_links := []; Response_one_time_download_request_count := 0;
     Response_direct_download_free_bandwidth := 0 |}.

(** [api/file/get_links/v0.cpp:275-324 Impl::ParseResponse] *)
Definition ParseResponse : ResponseBase -> Response -> ResponseBase * Response :=
  parse_response
  [ assign Response_one_time_download_request_count 0;
    assign Response_direct_download_free_bandwidth 0;
    required_structs LinksFromPropertyBranch new_Links "response.links" Response_links;
    with_default (an uint32) "response.one_time_download_request_count"
       Response_one_time_download_request_count;
    with_default (an uint32) "response.direct_download_free_bandwidth"
       Response_direct_download_free_bandwidth].

(** [api/file/get_links/v0.cpp:232-232 api_path] *)
Definition api_path : str := B "/api/file/get_links".

(** [api/file/get_links/v0.cpp:236-258 Impl] *)
Record Impl := {
  quickkeys_ : list str;
  link_types_ : option (list LinkType) }.
#[local] Instance Impl_members : Members Impl := fun v =>
  Build_Impl (quickkeys_ v) (link_types_ v).

(** [api/file/get_links/v0.cpp:260-265 Impl::Impl] *)
Definition new_Impl (quickkeys : list str) : Impl :=
  {| quickkeys_ := quickkeys; link_types_ := None |}.

(** [api/file/get_links/v0.cpp:385-388 Request::SetLinkTypes] *)
Definition SetLinkTypes (link_types : list LinkType) (i : Impl) : Impl :=
  set_field link_types_ (Some link_types) i.

(** [api/file/get_links/v0.cpp:267-273 Impl::BuildUrl] *)
Definition BuildUrl (query_parts : list query_part) : str * list query_part :=
  (api_path ++ B ".php", query_parts).

(** [api/file/get_links/v0.cpp:254-257 Impl::GetRequestMethod] *)
Definition GetRequestMethod : RequestMethod := Post.

(** The assignments to [parts].
    [api/file/get_links/v0.cpp:326-337 Impl::GetPostData] *)
Definition post_parts (i : Impl) : list query_part := make_parts
  [("quick_key", Some ((AsStringContainerType AsString_string) (quickkeys_ i)));
   ("link_type", (AsStringContainerType AsString_LinkType) <$> link_types_ i)].

(** [api/file/get_links/v0.cpp:326-337 Impl::GetPostData] *)
Definition GetPostData (MD5 : str -> str) (a : SessionTokenApi) (i : Impl) : str :=
  MakePost MD5 a (api_path ++ B ".php") (post_parts i).

(** *** The description *)

(** [api/templates/apis/file/v0/get_links.json:56-137 Links] *)
Definition Links_described : description Links :=
  [ Optional string_at "direct_download" Links_direct_download;
    Optional string_at "direct_download_error_message" Links_direct_download_error_message;
    Optional (number_at int32) "direct_download_error" Links_direct_download_error;
    Optional string_at "edit" Links_edit;
    Optional string_at "edit_error_message" Links_edit_error_message;
    Optional string_at "listen" Links_listen;
    Optional string_at "normal_download" Links_normal_download;
    Optional string_at "one_time_download" Links_one_time_download;
    Optional string_at "one_time_download_error_message" Links_one_time_download_error_message;
    Required string_at "quickkey" Links_quickkey;
    Optional string_at "view" Links_view;
    Optional string_at "watch" Links_watch;
    Optional string_at "error" Links_error].

(** [api/templates/apis/file/v0/get_links.json:153-172 return_params] *)
Definition Response_described : description Response :=
  [ RequiredStructs Links_described "response.links" Response_links;
    Default 0 (number_at uint32) "response.one_time_download_request_count"
       Response_one_time_download_request_count;
    Default 0 (number_at uint32) "response.direct_download_free_bandwidth"
       Response_direct_download_free_bandwidth].

(** [api/templates/apis/file/v0/get_links.json:21-53 LinkType] *)
Definition AsDescribed_LinkType (value : LinkType) : str :=
  match value with
  | LinkType_View => B "view"
  | LinkType_Edit => B "edit"
  | LinkType_Listen => B "listen"
  | LinkType_Watch => B "watch"
  | LinkType_NormalDownload => B "normal_download"
  | LinkType_DirectDownload => B "direct_download"
  | LinkType_OneTimeDownload => B "one_time_download"
  end.

(** [api/templates/apis/file/v0/get_links.json:139-152 input_params] *)
Definition params_described (i : Impl) : list (string * option str) :=
  [("quick_key", Some ((comma_separated id) (quickkeys_ i)));
   ("link_type", (comma_separated (AsDescribed_LinkType)) <$> link_types_ i)].

#[global] Instance Links_parses : Parses LinksFromPropertyBranch new_Links Links_described.
Proof. parse_class. Qed.
#[global] Instance Response_parses :
  ParsesResponse ParseResponse new_Response Response_described.
Proof. parse_class. Qed.

Definition call : api_call := {|
  call_method := GetRequestMethod;
  call_uses_token := true;
  call_BuildUrl := BuildUrl;
  call_parts := post_parts;
  call_GetPostData := GetPostData;
  call_new := new_Response;
  call_ParseResponse := ParseResponse |}.

#[global] Instance call_implements :
  ImplementsCall call "/api/file/get_links" true params_described Response_described.
Proof. implement_call. Qed.

End Call.
End file_get_links_v0.

(** ** [api/file/get_links/v1_3.cpp] *)
Module file_get_links_v1_3.

(** [api/file/get_links/v1_3.hpp:30-36 Recurring] *)
Inductive Recurring : Set := Recurring_NonRecurring | Recurring_Recurring.
#[global] Instance Recurring_inhabited : Inhabited Recurring := populate Recurring_NonRecurring.

(** [api/file/get_links/v1_3.hpp:38-54 LinkType] *)
Inductive LinkType : Set :=
  LinkType_View | LinkType_Edit | LinkType_Listen | LinkType_Watch | LinkType_NormalDownload |
  LinkType_DirectDownload | LinkType_OneTimeDownload.
#[global] Instance LinkType_inhabited : Inhabited LinkType := populate LinkType_View.

(** [api/file/get_links/v1_3.cpp:24-41 AsString] *)
Definition AsString_LinkType (value : LinkType) : str :=
  match value with
  | LinkType_View => B "view"
  | LinkType_Edit => B "edit"
  | LinkType_Listen => B "listen"
  | LinkType_Watch => B "watch"
  | LinkType_NormalDownload => B "normal_download"
  | LinkType_DirectDownload => B "direct_download"
  | LinkType_OneTimeDownload => B "one_time_download"
  end.

Section Call.
Context `{Libraries}.

(** [api/file/get_links/v1_3.hpp:67-119 Links] *)
Record Links := {
  Links_quickkey : str;
  Links_direct_download : option str;
  Links_direct_download_error_message : option str;
  Links_direct_download_error : option Z;
  Links_edit : option str;
  Links_edit_error_message : option str;
  Links_listen : option str;
  Links_normal_download : option str;
  Links_one_time_download : option str;
  Links_one_time_download_error_message : option str;
  Links_one_time_listen : option str;
  Links_one_time_watch : option str;
  Links_one_time_view : option str;
  Links_read : option str;
  Links_streaming : option str;
  Links_view : option str;
  Links_watch : option str }.
#[local] Instance Links_members : Members Links := fun v =>
  Build_Links (Links_quickkey v) (Links_direct_download v) (Links_direct_download_error_message v)
    (Links_direct_download_error v) (Links_edit v) (Links_edit_error_message v) (Links_listen v)
    (Links_normal_download v) (Links_one_time_download v)
    (Links_one_time_download_error_message v) (Links_one_time_listen v) (Links_one_time_watch v)
    (Links_one_time_view v) (Links_read v) (Links_streaming v) (Links_view v) (Links_watch v).
Definition new_Links : Links :=
  {| Links_quickkey := []; Links_direct_download := None;
     Links_direct_download_error_message := None; Links_direct_download_error := None;
     Links_edit := None; Links_edit_error_message := None; Links_listen := None;
     Links_normal_download := None; Links_one_time_download := None;
     Links_one_time_download_error_message := None; Links_one_time_listen := None;
     Links_one_time_watch := None; Links_one_time_view := None; Links_read := None;
     Links_streaming := None; Links_view := None; Links_watch := None |}.

(** [api/file/get_links/v1_3.cpp:49-270 LinksFromPropertyBranch] *)
Definition LinksFromPropertyBranch : branch_parser Links := FromPropertyBranch
  [ required std_string "quickkey" Links_quickkey;
    optional std_string "direct_download" Links_direct_download;
    optional std_string "direct_download_error_message" Links_direct_download_error_message;
    optional (an int32) "direct_download_error" Links_direct_download_error;
    optional std_string "edit" Links_edit;
    optional std_string "edit_error_message" Links_edit_error_message;
    optional std_string "listen" Links_listen;
    optional std_string "normal_download" Links_normal_download;
    optional std_string "one_time.download" Links_one_time_download;
    optional std_string "one_time.download_error_message" Links_one_time_download_error_message;
    optional std_string "one_time.listen" Links_one_time_listen;
    optional std_string "one_time.watch" Links_one_time_watch;
    optional std_string "one_time.view" Links_one_time_view;
    optional std_string "read" Links_read;
    optional std_string "streaming" Links_streaming;
    optional std_string "view" Links_view;
    optional std_string "watch" Links_watch].

(** [api/file/get_links/v1_3.hpp:120-127 Response] *)
Record Response := {
  Response_links : list Links;
  Response_one_time_download_request_count : Z;
  Response_direct_download_free_bandwidth : Z }.
#[local] Instance Response_members : Members Response := fun v =>
  Build_Response (Response_links v) (Response_one_time_download_request_count v)
    (Response_direct_download_free_bandwidth v).
Definition new_Response : Response :=
  {| Response_links := []; Response_one_time_download_request_count := 0;
     Response_direct_download_free_bandwidth := 0 |}.

(** [api/file/get_links/v1_3.cpp:323-372 Impl::ParseResponse] *)
Definition ParseResponse : ResponseBase -> Response -> ResponseBase * Response :=
  parse_response
  [ assign Response_one_time_download_request_count 0;
    assign Response_direct_download_free_bandwidth 0;
    required_structs LinksFromPropertyBranch new_Links "response.links" Response_links;
    with_default (an uint32) "response.one_time_download_request_count"
       Response_one_time_download_request_count;
    with_default (an uint32) "response.direct_download_free_bandwidth"
       Response_direct_download_free_bandwidth].

(** [api/file/get_links/v1_3.cpp:280-280 api_path] *)
Definition api_path : str := B "/api/1.3/file/get_links".

(** [api/file/get_links/v1_3.cpp:284-306 Impl] *)
Record Impl := {
  quickkeys_ : list str;
  link_types_ : option (list LinkType) }.
#[local] Instance Impl_members : Members Impl := fun v =>
  Build_Impl (quickkeys_ v) (link_types_ v).

(** [api/file/get_links/v1_3.cpp:308-313 Impl::Impl] *)
Definition new_Impl (quickkeys : list str) : Impl :=
  {| quickkeys_ := quickkeys; link_types_ := None |}.

(** [api/file/get_links/v1_3.cpp:433-436 Request::SetLinkTypes] *)
Definition SetLinkTypes (link_types : list LinkType) (i : Impl) : Impl :=
  set_field link_types_ (Some link_types) i.

(** [api/file/get_links/v1_3.cpp:315-321 Impl::BuildUrl] *)
Definition BuildUrl (query_parts : list query_part) : str * list query_part :=
  (api_path ++ B ".php", query_parts).

(** [api/file/get_links/v1_3.cpp:302-305 Impl::GetRequestMethod] *)
Definition GetRequestMethod : RequestMethod := Post.

(** The assignments to [parts].
    [api/file/get_links/v1_3.cpp:374-385 Impl::GetPostData] *)
Definition post_parts (i : Impl) : list query_part := make_parts
  [("quick_key", Some ((AsStringContainerType AsString_string) (quickkeys_ i)));
   ("link_type", (AsStringContainerType AsString_LinkType) <$> link_types_ i)].

(** [api/file/get_links/v1_3.cpp:374-385 Impl::GetPostData] *)
Definition GetPostData (MD5 : str -> str) (a : SessionTokenApi) (i : Impl) : str :=
  MakePost MD5 a (api_path ++ B ".php") (post_parts i).

(** *** The description *)

(** [api/templates/apis/file/v1_3/get_links.json:56-161 Links] *)
Definition Links_described : description Links :=
  [ Required string_at "quickkey" Links_quickkey;
    Optional string_at "direct_download" Links_direct_download;
    Optional string_at "direct_download_error_message" Links_direct_download_error_message;
    Optional (number_at int32) "direct_download_error" Links_direct_download_error;
    Optional string_at "edit" Links_edit;
    Optional string_at "edit_error_message" Links_edit_error_message;
    Optional string_at "listen" Links_listen;
    Optional string_at "normal_download" Links_normal_download;
    Optional string_at "one_time.download" Links_one_time_download;
    Optional string_at "one_time.download_error_message" Links_one_time_download_error_message;
    Optional string_at "one_time.listen" Links_one_time_listen;
    Optional string_at "one_time.watch" Links_one_time_watch;
    Optional string_at "one_time.view" Links_one_time_view;
    Optional string_at "read" Links_read;
    Optional string_at "streaming" Links_streaming;
    Optional string_at "view" Links_view;
    Optional string_at "watch" Links_watch].

(** [api/templates/apis/file/v1_3/get_links.json:177-196 return_params] *)
Definition Response_described : description Response :=
  [ RequiredStructs Links_described "response.links" Response_links;
    Default 0 (number_at uint32) "response.one_time_download_request_count"
       Response_one_time_download_request_count;
    Default 0 (number_at uint32) "response.direct_download_free_bandwidth"
       Response_direct_download_free_bandwidth].

(** [api/templates/apis/file/v1_3/get_links.json:21-53 LinkType] *)
Definition AsDescribed_LinkType (value : LinkType) : str :=
  match value with
  | LinkType_View => B "view"
  | LinkType_Edit => B "edit"
  | LinkType_Listen => B "listen"
  | LinkType_Watch => B "watch"
  | LinkType_NormalDownload => B "normal_download"
  | LinkType_DirectDownload => B "direct_download"
  | LinkType_OneTimeDownload => B "one_time_download"
  end.

(** [api/templates/apis/file/v1_3/get_links.json:163-176 input_params] *)
Definition params_described (i : Impl) : list (string * option str) :=
  [("quick_key", Some ((comma_separated id) (quickkeys_ i)));
   ("link_type", (comma_separated (AsDescribed_LinkType)) <$> link_types_ i)].

#[global] Instance Links_parses : Parses LinksFromPropertyBranch new_Links Links_described.
Proof. parse_class. Qed.
#[global] Instance Response_parses :
  ParsesResponse ParseResponse new_Response Response_described.
Proof. parse_class. Qed.

Definition call : api_call := {|
  call_method := GetRequestMethod;
  call_uses_token := true;
  call_BuildUrl := BuildUrl;
  call_parts := post_parts;
  call_GetPostData := GetPostData;
  call_new := new_Response;
  call_ParseResponse := ParseResponse |}.

#[global] Instance call_implements :
  ImplementsCall call "/api/1.3/file/get_links" true params_described Response_described.
Proof. implement_call. Qed.

End Call.
End file_get_links_v1_3.

(** ** [api/file/get_versions/v0.cpp] *)
Module file_get_versions_v0.

(** [api/file/get_versions/v0.hpp:29-35 AtHead] *)
Inductive AtHead : Set := AtHead_Yes | AtHead_No.
#[global] Instance AtHead_inhabited : Inhabited AtHead := populate AtHead_Yes.

Section Call.
Context `{Libraries}.

(** [api/file/get_versions/v0.hpp:44-54 FileVersion] *)
Record FileVersion := {
  FileVersion_revision : Z;
  FileVersion_date : ptime;
  FileVersion_at_head : AtHead }.
#[local] Instance FileVersion_members : Members FileVersion := fun v =>
  Build_FileVersion (FileVersion_revision v) (FileVersion_date v) (FileVersion_at_head v).
Definition new_FileVersion : FileVersion :=
  {| FileVersion_revision := indeterminate Z _; FileVersion_date := not_a_date;
     FileVersion_at_head := indeterminate AtHead _ |}.

(** [api/file/get_versions/v0.cpp:28-82 FileVersionFromPropertyBranch] *)
Definition FileVersionFromPropertyBranch : branch_parser FileVersion := FromPropertyBranch
  [ assign FileVersion_at_head AtHead_No;
    required (an uint32) "revision" FileVersion_revision;
    required a_ptime "date" FileVersion_date;
    optional_enum id [("yes", AtHead_Yes); ("no", AtHead_No)] "head" FileVersion_at_head].

(** [api/file/get_versions/v0.hpp:55-56 Response] *)
Record Response := {
  Response_file_versions : list FileVersion }.
#[local] Instance Response_members : Members Response := fun v =>
  Build_Response (Response_file_versions v).
Definition new_Response : Response :=
  {| Response_file_versions := [] |}.

(** [api/file/get_versions/v0.cpp:134-163 Impl::ParseResponse] *)
Definition ParseResponse : ResponseBase -> Response -> ResponseBase * Response :=
  parse_response
  [ optional_structs FileVersionFromPropertyBranch new_FileVersion "response.file_versions"
       Response_file_versions].

(** [api/file/get_versions/v0.cpp:92-92 api_path] *)
Definition api_path : str := B "/api/file/get_versions".

(** [api/file/get_versions/v0.cpp:96-117 Impl] *)
Record Impl := {
  quickkey_ : str }.
#[local] Instance Impl_members : Members Impl := fun v =>
  Build_Impl (quickkey_ v).

(** [api/file/get_versions/v0.cpp:119-124 Impl::Impl] *)
Definition new_Impl (quickkey : str) : Impl :=
  {| quickkey_ := quickkey |}.

(** [api/file/get_versions/v0.cpp:126-132 Impl::BuildUrl] *)
Definition BuildUrl (query_parts : list query_part) : str * list query_part :=
  (api_path ++ B ".php", query_parts).

(** [api/file/get_versions/v0.cpp:113-116 Impl::GetRequestMethod] *)
Definition GetRequestMethod : RequestMethod := Post.

(** The assignments to [parts].
    [api/file/get_versions/v0.cpp:165-174 Impl::GetPostData] *)
Definition post_parts (i : Impl) : list query_part := make_parts
  [("quick_key", Some (quickkey_ i))].

(** [api/file/get_versions/v0.cpp:165-174 Impl::GetPostData] *)
Definition GetPostData (MD5 : str -> str) (a : SessionTokenApi) (i : Impl) : str :=
  MakePost MD5 a (api_path ++ B ".php") (post_parts i).

(** *** The description *)

(** [api/templates/apis/file/v0/get_versions.json:20-40 FileVersion] *)
Definition FileVersion_described : description FileVersion :=
  [ Required (number_at uint32) "revision" FileVersion_revision;
    Required time_at "date" FileVersion_date;
    Default AtHead_No (enum_at [("yes", AtHead_Yes); ("no", AtHead_No)])
       "head" FileVersion_at_head].

(** [api/templates/apis/file/v0/get_versions.json:49-57 return_params] *)
Definition Response_described : description Response :=
  [ OptionalStructs FileVersion_described "response.file_versions" Response_file_versions].

(** [api/templates/apis/file/v0/get_versions.json:42-48 input_params] *)
Definition params_described (i : Impl) : list (string * option str) :=
  [("quick_key", Some (quickkey_ i))].

#[global] Instance FileVersion_parses : Parses FileVersionFromPropertyBranch new_FileVersion
  FileVersion_described.
Proof. parse_class. Qed.
#[global] Instance Response_parses :
  ParsesResponse ParseResponse new_Response Response_described.
Proof. parse_class. Qed.

Definition call : api_call := {|
  call_method := GetRequestMethod;
  call_uses_token := true;
  call_BuildUrl := BuildUrl;
  call_parts := post_parts;
  call_GetPostData := GetPostData;
  call_new := new_Response;
  call_ParseResponse := ParseResponse |}.

#[global] Instance call_implements :
  ImplementsCall call "/api/file/get_versions" true params_described Response_described.
Proof. implement_call. Qed.

End Call.
End file_get_versions_v0.

(** ** [api/file/get_versions/v1_3.cpp] *)
Module file_get_versions_v1_3.

(** [api/file/get_versions/v1_3.hpp:29-35 AtHead] *)
Inductive AtHead : Set := AtHead_Yes | AtHead_No.
#[global] Instance AtHead_inhabited : Inhabited AtHead := populate AtHead_Yes.

Section Call.
Context `{Libraries}.

(** [api/file/get_versions/v1_3.hpp:44-54 FileVersion] *)
Record FileVersion := {
  FileVersion_revision : Z;
  FileVersion_date : ptime;
  FileVersion_at_head : AtHead }.
#[local] Instance FileVersion_members : Members FileVersion := fun v =>
  Build_FileVersion (FileVersion_revision v) (FileVersion_date v) (FileVersion_at_head v).
Definition new_FileVersion : FileVersion :=
  {| FileVersion_revision := indeterminate Z _; FileVersion_date := not_a_date;
     FileVersion_at_head := indeterminate AtHead _ |}.

(** [api/file/get_versions/v1_3.cpp:28-82 FileVersionFromPropertyBranch] *)
Definition FileVersionFromPropertyBranch : branch_parser FileVersion := FromPropertyBranch
  [ assign FileVersion_at_head AtHead_No;
    required (an uint32) "revision" FileVersion_revision;
    required a_ptime "date" FileVersion_date;
    optional_enum id [("yes", AtHead_Yes); ("no", AtHead_No)] "head" FileVersion_at_head].

(** [api/file/get_versions/v1_3.hpp:55-56 Response] *)
Record Response := {
  Response_file_versions : list FileVersion }.
#[local] Instance Response_members : Members Response := fun v =>
  Build_Response (Response_file_versions v).
Definition new_Response : Response :=
  {| Response_file_versions := [] |}.

(** [api/file/get_versions/v1_3.cpp:134-163 Impl::ParseResponse] *)
Definition ParseResponse : ResponseBase -> Response -> ResponseBase * Response :=
  parse_response
  [ optional_structs FileVersionFromPropertyBranch new_FileVersion "response.file_versions"
       Response_file_versions].

(** [api/file/get_versions/v1_3.cpp:92-92 api_path] *)
Definition api_path : str := B "/api/1.3/file/get_versions".

(** [api/file/get_versions/v1_3.cpp:96-117 Impl] *)
Record Impl := {
  quickkey_ : str }.
#[local] Instance Impl_members : Members Impl := fun v =>
  Build_Impl (quickkey_ v).

(** [api/file/get_versions/v1_3.cpp:119-124 Impl::Impl] *)
Definition new_Impl (quickkey : str) : Impl :=
  {| quickkey_ := quickkey |}.

(** [api/file/get_versions/v1_3.cpp:126-132 Impl::BuildUrl] *)
Definition BuildUrl (query_parts : list query_part) : str * list query_part :=
  (api_path ++ B ".php", query_parts).

(** [api/file/get_versions/v1_3.cpp:113-116 Impl::GetRequestMethod] *)
Definition GetRequestMethod : RequestMethod := Post.

(** The assignments to [parts].
    [api/file/get_versions/v1_3.cpp:165-174 Impl::GetPostData] *)
Definition post_parts (i : Impl) : list query_part := make_parts
  [("quick_key", Some (quickkey_ i))].

(** [api/file/get_versions/v1_3.cpp:165-174 Impl::GetPostData] *)
Definition GetPostData (MD5 : str -> str) (a : SessionTokenApi) (i : Impl) : str :=
  MakePost MD5 a (api_path ++ B ".php") (post_parts i).

(** *** The description *)

(** [api/templates/apis/file/v1_3/get_versions.json:20-40 FileVersion] *)
Definition FileVersion_described : description FileVersion :=
  [ Required (number_at uint32) "revision" FileVersion_revision;
    Required time_at "date" FileVersion_date;
    Default AtHead_No (enum_at [("yes", AtHead_Yes); ("no", AtHead_No)])
       "head" FileVersion_at_head].

(** [api/templates/apis/file/v1_3/get_versions.json:49-57 return_params] *)
Definition Response_described : description Response :=
  [ OptionalStructs FileVersion_described "response.file_versions" Response_file_versions].

(** [api/templates/apis/file/v1_3/get_versions.json:42-48 input_params] *)
Definition params_described (i : Impl) : list (string * option str) :=
  [("quick_key", Some (quickkey_ i))].

#[global] Instance FileVersion_parses : Parses FileVersionFromPropertyBranch new_FileVersion
  FileVersion_described.
Proof. parse_class. Qed.
#[global] Instance Response_parses :
  ParsesResponse ParseResponse new_Response Response_described.
Proof. parse_class. Qed.

Definition call : api_call := {|
  call_method := GetRequestMethod;
  call_uses_token := true;
  call_BuildUrl := BuildUrl;
  call_parts := post_parts;
  call_GetPostData := GetPostData;
  call_new := new_Response;
  call_ParseResponse := ParseResponse |}.

#[global] Instance call_implements :
  ImplementsCall call "/api/1.3/file/get_versions" true params_described Response_described.
Proof. implement_call. Qed.

End Call.
End file_get_versions_v1_3.

(** ** [api/file/move/v0.cpp] *)
Module file_move_v0.

Section Call.
Context `{Libraries}.

(** [api/file/move/v0.hpp:36-37 Response] *)
Record Response := {
  Response_device_revision : option Z }.
#[local] Instance Response_members : Members Response := fun v =>
  Build_Response (Response_device_revision v).
Definition new_Response : Response :=
  {| Response_device_revision := None |}.

(** [api/file/move/v0.cpp:78-100 Impl::ParseResponse] *)
Definition ParseResponse : ResponseBase -> Response -> ResponseBase * Response :=
  parse_response
  [ optional (an uint32) "response.device_revision" Response_device_revision].

(** [api/file/move/v0.cpp:32-32 api_path] *)
Definition api_path : str := B "/api/file/move".

(** [api/file/move/v0.cpp:36-59 Impl] *)
Record Impl := {
  quickkey_ : str;
  target_parent_folderkey_ : str }.
#[local] Instance Impl_members : Members Impl := fun v =>
  Build_Impl (quickkey_ v) (target_parent_folderkey_ v).

(** [api/file/move/v0.cpp:61-68 Impl::Impl] *)
Definition new_Impl (quickkey : str) (target_parent_folderkey : str) : Impl :=
  {| quickkey_ := quickkey; target_parent_folderkey_ := target_parent_folderkey |}.

(** [api/file/move/v0.cpp:70-76 Impl::BuildUrl] *)
Definition BuildUrl (query_parts : list query_part) : str * list query_part :=
  (api_path ++ B ".php", query_parts).

(** [api/file/move/v0.cpp:55-58 Impl::GetRequestMethod] *)
Definition GetRequestMethod : RequestMethod := Post.

(** The assignments to [parts].
    [api/file/move/v0.cpp:102-112 Impl::GetPostData] *)
Definition post_parts (i : Impl) : list query_part := make_parts
  [("quick_key", Some (quickkey_ i));
   ("folder_key", Some (target_parent_folderkey_ i))].

(** [api/file/move/v0.cpp:102-112 Impl::GetPostData] *)
Definition GetPostData (MD5 : str -> str) (a : SessionTokenApi) (i : Impl) : str :=
  MakePost MD5 a (api_path ++ B ".php") (post_parts i).

(** *** The description *)

(** [api/templates/apis/file/v0/move.json:16-23 return_params] *)
Definition Response_described : description Response :=
  [ Optional (number_at uint32) "response.device_revision" Response_device_revision].

(** [api/templates/apis/file/v0/move.json:4-15 input_params] *)
Definition params_described (i : Impl) : list (string * option str) :=
  [("quick_key", Some (quickkey_ i));
   ("folder_key", Some (target_parent_folderkey_ i))].

#[global] Instance Response_parses :
  ParsesResponse ParseResponse new_Response Response_described.
Proof. parse_class. Qed.

Definition call : api_call := {|
  call_method := GetRequestMethod;
  call_uses_token := true;
  call_BuildUrl := BuildUrl;
  call_parts := post_parts;
  call_GetPostData := GetPostData;
  call_new := new_Response;
  call_ParseResponse := ParseResponse |}.

#[global] Instance call_implements :
  ImplementsCall call "/api/file/move" true params_described Response_described.
Proof. implement_call. Qed.

End Call.
End file_move_v0.

(** ** [api/file/move/v1_3.cpp] *)
Module file_move_v1_3.

Section Call.
Context `{Libraries}.

(** [api/file/move/v1_3.hpp:36-37 Response] *)
Record Response := {
  Response_new_device_revision : option Z }.
#[local] Instance Response_members : Members Response := fun v =>
  Build_Response (Response_new_device_revision v).
Definition new_Response : Response :=
  {| Response_new_device_revision := None |}.

(** [api/file/move/v1_3.cpp:78-100 Impl::ParseResponse] *)
Definition ParseResponse : ResponseBase -> Response -> ResponseBase * Response :=
  parse_response
  [ optional (an uint32) "response.new_device_revision" Response_new_device_revision].

(** [api/file/move/v1_3.cpp:32-32 api_path] *)
Definition api_path : str := B "/api/1.3/file/move".

(** [api/file/move/v1_3.cpp:36-59 Impl] *)
Record Impl := {
  quickkey_ : str;
  target_parent_folderkey_ : str }.
#[local] Instance Impl_members : Members Impl := fun v =>
  Build_Impl (quickkey_ v) (target_parent_folderkey_ v).

(** [api/file/move/v1_3.cpp:61-68 Impl::Impl] *)
Definition new_Impl (quickkey : str) (target_parent_folderkey : str) : Impl :=
  {| quickkey_ := quickkey; target_parent_folderkey_ := target_parent_folderkey |}.

(** [api/file/move/v1_3.cpp:70-76 Impl::BuildUrl] *)
Definition BuildUrl (query_parts : list query_part) : str * list query_part :=
  (api_path ++ B ".php", query_parts).

(** [api/file/move/v1_3.cpp:55-58 Impl::GetRequestMethod] *)
Definition GetRequestMethod : RequestMethod := Post.

(** The assignments to [parts].
    [api/file/move/v1_3.cpp:102-112 Impl::GetPostData] *)
Definition post_parts (i : Impl) : list query_part := make_parts
  [("quick_key", Some (quickkey_ i));
   ("folder_key", Some (target_parent_folderkey_ i))].

(** [api/file/move/v1_3.cpp:102-112 Impl::GetPostData] *)
Definition GetPostData (MD5 : str -> str) (a : SessionTokenApi) (i : Impl) : str :=
  MakePost MD5 a (api_path ++ B ".php") (post_parts i).

(** *** The description *)

(** [api/templates/apis/file/v1_3/move.json:16-23 return_params] *)
Definition Response_described : description Response :=
  [ Optional (number_at uint32) "response.new_device_revision" Response_new_device_revision].

(** [api/templates/apis/file/v1_3/move.json:4-15 input_params] *)
Definition params_described (i : Impl) : list (string * option str) :=
  [("quick_key", Some (quickkey_ i));
   ("folder_key", Some (target_parent_folderkey_ i))].

#[global] Instance Response_parses :
  ParsesResponse ParseResponse new_Response Response_described.
Proof. parse_class. Qed.

Definition call : api_call := {|
  call_method := GetRequestMethod;
  call_uses_token := true;
  call_BuildUrl := BuildUrl;
  call_parts := post_parts;
  call_GetPostData := GetPostData;
  call_new := new_Response;
  call_ParseResponse := ParseResponse |}.

#[global] Instance call_implements :
  ImplementsCall call "/api/1.3/file/move" true params_described Response_described.
Proof. implement_call. Qed.

End Call.
End file_move_v1_3.

(** ** [api/file/one_time_key/v1_1.cpp] *)
Module file_one_time_key_v1_1.

(** [api/file/one_time_key/v1_1.hpp:29-35 NofifyOwnerByEmail] *)
Inductive NofifyOwnerByEmail : Set := NofifyOwnerByEmail_Yes | NofifyOwnerByEmail_No.
#[global] Instance NofifyOwnerByEmail_inhabited : Inhabited NofifyOwnerByEmail :=
  populate NofifyOwnerByEmail_Yes.

(** [api/file/one_time_key/v1_1.hpp:37-43 BurnAfterUse] *)
Inductive BurnAfterUse : Set := BurnAfterUse_No | BurnAfterUse_Yes.
#[global] Instance BurnAfterUse_inhabited : Inhabited BurnAfterUse := populate BurnAfterUse_No.

(** [api/file/one_time_key/v1_1.hpp:45-51 GetCountsOnly] *)
Inductive GetCountsOnly : Set := GetCountsOnly_Yes | GetCountsOnly_No.
#[global] Instance GetCountsOnly_inhabited : Inhabited GetCountsOnly :=
  populate GetCountsOnly_Yes.

(** [api/file/one_time_key/v1_1.cpp:24-31 AsString] *)
Definition AsString_NofifyOwnerByEmail (value : NofifyOwnerByEmail) : str :=
  match value with
  | NofifyOwnerByEmail_Yes => B "yes"
  | NofifyOwnerByEmail_No => B "no"
  end.

(** [api/file/one_time_key/v1_1.cpp:32-39 AsString] *)
Definition AsString_BurnAfterUse (value : BurnAfterUse) : str :=
  match value with
  | BurnAfterUse_No => B "no"
  | BurnAfterUse_Yes => B "yes"
  end.

(** [api/file/one_time_key/v1_1.cpp:40-47 AsString] *)
Definition AsString_GetCountsOnly (value : GetCountsOnly) : str :=
  match value with
  | GetCountsOnly_Yes => B "yes"
  | GetCountsOnly_No => B "no"
  end.

Section Call.
Context `{Libraries}.

(** [api/file/one_time_key/v1_1.hpp:64-83 Response] *)
Record Response := {
  Response_one_time_key_request_count : Z;
  Response_one_time_key_request_max_count : Z;
  Response_token : str;
  Response_download_link : option str;
  Response_view_link : option str;
  Response_watch_link : option str;
  Response_listen_link : option str }.
#[local] Instance Response_members : Members Response := fun v =>
  Build_Response (Response_one_time_key_request_count v)
    (Response_one_time_key_request_max_count v) (Response_token v) (Response_download_link v)
    (Response_view_link v) (Response_watch_link v) (Response_listen_link v).
Definition new_Response : Response :=
  {| Response_one_time_key_request_count := 0; Response_one_time_key_request_max_count := 0;
     Response_token := []; Response_download_link := None; Response_view_link := None;
     Response_watch_link := None; Response_listen_link := None |}.

(** [api/file/one_time_key/v1_1.cpp:103-184 Impl::ParseResponse] *)
Definition ParseResponse : ResponseBase -> Response -> ResponseBase * Response :=
  parse_response
  [ assign Response_one_time_key_request_count 0;
    assign Response_one_time_key_request_max_count 0;
    with_default (an uint32) "response.one_time_key_request_count"
       Response_one_time_key_request_count;
    with_default (an uint32) "response.one_time_key_request_max_count"
       Response_one_time_key_request_max_count;
    required std_string "response.token" Response_token;
    optional std_string "response.links.download" Response_download_link;
    optional std_string "response.links.view" Response_view_link;
    optional std_string "response.links.watch" Response_watch_link;
    optional std_string "response.links.listen" Response_listen_link].

(** [api/file/one_time_key/v1_1.cpp:59-59 api_path] *)
Definition api_path : str := B "/api/1.1/file/one_time_key".

(** [api/file/one_time_key/v1_1.cpp:63-89 Impl] *)
Record Impl := {
  quickkey_ : option str;
  get_counts_only_ : option GetCountsOnly;
  duration_minutes_ : option Z;
  nofify_owner_on_access_ : option NofifyOwnerByEmail;
  success_callback_url_ : option str;
  error_callback_url_ : option str;
  bind_ip_ : option str;
  burn_after_use_ : option BurnAfterUse }.
#[local] Instance Impl_members : Members Impl := fun v =>
  Build_Impl (quickkey_ v) (get_counts_only_ v) (duration_minutes_ v) (nofify_owner_on_access_ v)
    (success_callback_url_ v) (error_callback_url_ v) (bind_ip_ v) (burn_after_use_ v).

(** [api/file/one_time_key/v1_1.cpp:91-93 Impl::Impl] *)
Definition new_Impl : Impl :=
  {| quickkey_ := None; get_counts_only_ := None; duration_minutes_ := None;
     nofify_owner_on_access_ := None; success_callback_url_ := None; error_callback_url_ := None;
     bind_ip_ := None; burn_after_use_ := None |}.

(** [api/file/one_time_key/v1_1.cpp:256-259 Request::SetQuickkey] *)
Definition SetQuickkey (quickkey : str) (i : Impl) : Impl :=
  set_field quickkey_ (Some quickkey) i.

(** [api/file/one_time_key/v1_1.cpp:261-264 Request::SetGetCountsOnly] *)
Definition SetGetCountsOnly (get_counts_only : GetCountsOnly) (i : Impl) : Impl :=
  set_field get_counts_only_ (Some get_counts_only) i.

(** [api/file/one_time_key/v1_1.cpp:266-269 Request::SetDurationMinutes] *)
Definition SetDurationMinutes (duration_minutes : Z) (i : Impl) : Impl :=
  set_field duration_minutes_ (Some duration_minutes) i.

(** [api/file/one_time_key/v1_1.cpp:271-274 Request::SetNofifyOwnerOnAccess] *)
Definition SetNofifyOwnerOnAccess (nofify_owner_on_access : NofifyOwnerByEmail) (i : Impl) : Impl :=
  set_field nofify_owner_on_access_ (Some nofify_owner_on_access) i.

(** [api/file/one_time_key/v1_1.cpp:276-279 Request::SetSuccessCallbackUrl] *)
Definition SetSuccessCallbackUrl (success_callback_url : str) (i : Impl) : Impl :=
  set_field success_callback_url_ (Some success_callback_url) i.

(** [api/file/one_time_key/v1_1.cpp:281-284 Request::SetErrorCallbackUrl] *)
Definition SetErrorCallbackUrl (error_callback_url : str) (i : Impl) : Impl :=
  set_field error_callback_url_ (Some error_callback_url) i.

(** [api/file/one_time_key/v1_1.cpp:286-289 Request::SetBindIp] *)
Definition SetBindIp (bind_ip : str) (i : Impl) : Impl := set_field bind_ip_ (Some bind_ip) i.

(** [api/file/one_time_key/v1_1.cpp:291-294 Request::SetBurnAfterUse] *)
Definition SetBurnAfterUse (burn_after_use : BurnAfterUse) (i : Impl) : Impl :=
  set_field burn_after_use_ (Some burn_after_use) i.

(** [api/file/one_time_key/v1_1.cpp:95-101 Impl::BuildUrl] *)
Definition BuildUrl (query_parts : list query_part) : str * list query_part :=
  (api_path ++ B ".php", query_parts).

(** [api/file/one_time_key/v1_1.cpp:85-88 Impl::GetRequestMethod] *)
Definition GetRequestMethod : RequestMethod := Post.

(** The assignments to [parts].
    [api/file/one_time_key/v1_1.cpp:186-210 Impl::GetPostData] *)
Definition post_parts (i : Impl) : list query_part := make_parts
  [("quick_key", quickkey_ i);
   ("get_counts_only", AsString_GetCountsOnly <$> get_counts_only_ i);
   ("duration", print_int <$> duration_minutes_ i);
   ("email_notification", AsString_NofifyOwnerByEmail <$> nofify_owner_on_access_ i);
   ("success_callback_url", success_callback_url_ i);
   ("error_callback_url", error_callback_url_ i);
   ("bind_ip", bind_ip_ i);
   ("burn_after_use", AsString_BurnAfterUse <$> burn_after_use_ i)].

(** [api/file/one_time_key/v1_1.cpp:186-210 Impl::GetPostData] *)
Definition GetPostData (MD5 : str -> str) (a : SessionTokenApi) (i : Impl) : str :=
  MakePost MD5 a (api_path ++ B ".php") (post_parts i).

(** *** The description *)

(** [api/templates/apis/file/v1_1/one_time_key.json:95-138 return_params] *)
Definition Response_described : description Response :=
  [ Default 0 (number_at uint32) "response.one_time_key_request_count"
       Response_one_time_key_request_count;
    Default 0 (number_at uint32) "response.one_time_key_request_max_count"
       Response_one_time_key_request_max_count;
    Required string_at "response.token" Response_token;
    Optional string_at "response.links.download" Response_download_link;
    Optional string_at "response.links.view" Response_view_link;
    Optional string_at "response.links.watch" Response_watch_link;
    Optional string_at "response.links.listen" Response_listen_link].

(** [api/templates/apis/file/v1_1/one_time_key.json:5-17 NofifyOwnerByEmail] *)
Definition AsDescribed_NofifyOwnerByEmail (value : NofifyOwnerByEmail) : str :=
  match value with
  | NofifyOwnerByEmail_Yes => B "yes"
  | NofifyOwnerByEmail_No => B "no"
  end.

(** [api/templates/apis/file/v1_1/one_time_key.json:18-30 BurnAfterUse] *)
Definition AsDescribed_BurnAfterUse (value : BurnAfterUse) : str :=
  match value with
  | BurnAfterUse_No => B "no"
  | BurnAfterUse_Yes => B "yes"
  end.

(** [api/templates/apis/file/v1_1/one_time_key.json:31-43 GetCountsOnly] *)
Definition AsDescribed_GetCountsOnly (value : GetCountsOnly) : str :=
  match value with
  | GetCountsOnly_Yes => B "yes"
  | GetCountsOnly_No => B "no"
  end.

(** [api/templates/apis/file/v1_1/one_time_key.json:45-94 input_params] *)
Definition params_described (i : Impl) : list (string * option str) :=
  [("quick_key", quickkey_ i);
   ("get_counts_only", (AsDescribed_GetCountsOnly) <$> get_counts_only_ i);
   ("duration", print_int <$> duration_minutes_ i);
   ("email_notification", (AsDescribed_NofifyOwnerByEmail) <$> nofify_owner_on_access_ i);
   ("success_callback_url", success_callback_url_ i);
   ("error_callback_url", error_callback_url_ i);
   ("bind_ip", bind_ip_ i);
   ("burn_after_use", (AsDescribed_BurnAfterUse) <$> burn_after_use_ i)].

#[global] Instance Response_parses :
  ParsesResponse ParseResponse new_Response Response_described.
Proof. parse_class. Qed.

Definition call : api_call := {|
  call_method := GetRequestMethod;
  call_uses_token := true;
  call_BuildUrl := BuildUrl;
  call_parts := post_parts;
  call_GetPostData := GetPostData;
  call_new := new_Response;
  call_ParseResponse := ParseResponse |}.

#[global] Instance call_implements :
  ImplementsCall call "/api/1.1/file/one_time_key" true params_described Response_described.
Proof. implement_call. Qed.

End Call.
End file_one_time_key_v1_1.

(** ** [api/file/one_time_key/v1_3.cpp] *)
Module file_one_time_key_v1_3.

(** [api/file/one_time_key/v1_3.hpp:29-35 NofifyOwnerByEmail] *)
Inductive NofifyOwnerByEmail : Set := NofifyOwnerByEmail_Yes | NofifyOwnerByEmail_No.
#[global] Instance NofifyOwnerByEmail_inhabited : Inhabited NofifyOwnerByEmail :=
  populate NofifyOwnerByEmail_Yes.

(** [api/file/one_time_key/v1_3.hpp:37-43 BurnAfterUse] *)
Inductive BurnAfterUse : Set := BurnAfterUse_No | BurnAfterUse_Yes.
#[global] Instance BurnAfterUse_inhabited : Inhabited BurnAfterUse := populate BurnAfterUse_No.

(** [api/file/one_time_key/v1_3.hpp:45-51 GetCountsOnly] *)
Inductive GetCountsOnly : Set := GetCountsOnly_Yes | GetCountsOnly_No.
#[global] Instance GetCountsOnly_inhabited : Inhabited GetCountsOnly :=
  populate GetCountsOnly_Yes.

(** [api/file/one_time_key/v1_3.cpp:24-31 AsString] *)
Definition AsString_NofifyOwnerByEmail (value : NofifyOwnerByEmail) : str :=
  match value with
  | NofifyOwnerByEmail_Yes => B "yes"
  | NofifyOwnerByEmail_No => B "no"
  end.

(** [api/file/one_time_key/v1_3.cpp:32-39 AsString] *)
Definition AsString_BurnAfterUse (value : BurnAfterUse) : str :=
  match value with
  | BurnAfterUse_No => B "no"
  | BurnAfterUse_Yes => B "yes"
  end.

(** [api/file/one_time_key/v1_3.cpp:40-47 AsString] *)
Definition AsString_GetCountsOnly (value : GetCountsOnly) : str :=
  match value with
  | GetCountsOnly_Yes => B "yes"
  | GetCountsOnly_No => B "no"
  end.

Section Call.
Context `{Libraries}.

(** [api/file/one_time_key/v1_3.hpp:64-83 Response] *)
Record Response := {
  Response_one_time_key_request_count : Z;
  Response_one_time_key_request_max_count : Z;
  Response_token : str;
  Response_download_link : option str;
  Response_view_link : option str;
  Response_watch_link : option str;
  Response_listen_link : option str }.
#[local] Instance Response_members : Members Response := fun v =>
  Build_Response (Response_one_time_key_request_count v)
    (Response_one_time_key_request_max_count v) (Response_token v) (Response_download_link v)
    (Response_view_link v) (Response_watch_link v) (Response_listen_link v).
Definition new_Response : Response :=
  {| Response_one_time_key_request_count := 0; Response_one_time_key_request_max_count := 0;
     Response_token := []; Response_download_link := None; Response_view_link := None;
     Response_watch_link := None; Response_listen_link := None |}.

(** [api/file/one_time_key/v1_3.cpp:103-184 Impl::ParseResponse] *)
Definition ParseResponse : ResponseBase -> Response -> ResponseBase * Response :=
  parse_response
  [ assign Response_one_time_key_request_count 0;
    assign Response_one_time_key_request_max_count 0;
    with_default (an uint32) "response.one_time_key_request_count"
       Response_one_time_key_request_count;
    with_default (an uint32) "response.one_time_key_request_max_count"
       Response_one_time_key_request_max_count;
    required std_string "response.token" Response_token;
    optional std_string "response.links.download" Response_download_link;
    optional std_string "response.links.view" Response_view_link;
    optional std_string "response.links.watch" Response_watch_link;
    optional std_string "response.links.listen" Response_listen_link].

(** [api/file/one_time_key/v1_3.cpp:59-59 api_path] *)
Definition api_path : str := B "/api/1.3/file/one_time_key".

(** [api/file/one_time_key/v1_3.cpp:63-89 Impl] *)
Record Impl := {
  quickkey_ : option str;
  get_counts_only_ : option GetCountsOnly;
  duration_minutes_ : option Z;
  nofify_owner_on_access_ : option NofifyOwnerByEmail;
  success_callback_url_ : option str;
  error_callback_url_ : option str;
  bind_ip_ : option str;
  burn_after_use_ : option BurnAfterUse }.
#[local] Instance Impl_members : Members Impl := fun v =>
  Build_Impl (quickkey_ v) (get_counts_only_ v) (duration_minutes_ v) (nofify_owner_on_access_ v)
    (success_callback_url_ v) (error_callback_url_ v) (bind_ip_ v) (burn_after_use_ v).

(** [api/file/one_time_key/v1_3.cpp:91-93 Impl::Impl] *)
Definition new_Impl : Impl :=
  {| quickkey_ := None; get_counts_only_ := None; duration_minutes_ := None;
     nofify_owner_on_access_ := None; success_callback_url_ := None; error_callback_url_ := None;
     bind_ip_ := None; burn_after_use_ := None |}.

(** [api/file/one_time_key/v1_3.cpp:256-259 Request::SetQuickkey] *)
Definition SetQuickkey (quickkey : str) (i : Impl) : Impl :=
  set_field quickkey_ (Some quickkey) i.

(** [api/file/one_time_key/v1_3.cpp:261-264 Request::SetGetCountsOnly] *)
Definition SetGetCountsOnly (get_counts_only : GetCountsOnly) (i : Impl) : Impl :=
  set_field get_counts_only_ (Some get_counts_only) i.

(** [api/file/one_time_key/v1_3.cpp:266-269 Request::SetDurationMinutes] *)
Definition SetDurationMinutes (duration_minutes : Z) (i : Impl) : Impl :=
  set_field duration_minutes_ (Some duration_minutes) i.

(** [api/file/one_time_key/v1_3.cpp:271-274 Request::SetNofifyOwnerOnAccess] *)
Definition SetNofifyOwnerOnAccess (nofify_owner_on_access : NofifyOwnerByEmail) (i : Impl) : Impl :=
  set_field nofify_owner_on_access_ (Some nofify_owner_on_access) i.

(** [api/file/one_time_key/v1_3.cpp:276-279 Request::SetSuccessCallbackUrl] *)
Definition SetSuccessCallbackUrl (success_callback_url : str) (i : Impl) : Impl :=
  set_field success_callback_url_ (Some success_callback_url) i.

(** [api/file/one_time_key/v1_3.cpp:281-284 Request::SetErrorCallbackUrl] *)
Definition SetErrorCallbackUrl (error_callback_url : str) (i : Impl) : Impl :=
  set_field error_callback_url_ (Some error_callback_url) i.

(** [api/file/one_time_key/v1_3.cpp:286-289 Request::SetBindIp] *)
Definition SetBindIp (bind_ip : str) (i : Impl) : Impl := set_field bind_ip_ (Some bind_ip) i.

(** [api/file/one_time_key/v1_3.cpp:291-294 Request::SetBurnAfterUse] *)
Definition SetBurnAfterUse (burn_after_use : BurnAfterUse) (i : Impl) : Impl :=
  set_field burn_after_use_ (Some burn_after_use) i.

(** [api/file/one_time_key/v1_3.cpp:95-101 Impl::BuildUrl] *)
Definition BuildUrl (query_parts : list query_part) : str * list query_part :=
  (api_path ++ B ".php", query_parts).

(** [api/file/one_time_key/v1_3.cpp:85-88 Impl::GetRequestMethod] *)
Definition GetRequestMethod : RequestMethod := Post.

(** The assignments to [parts].
    [api/file/one_time_key/v1_3.cpp:186-210 Impl::GetPostData] *)
Definition post_parts (i : Impl) : list query_part := make_parts
  [("quick_key", quickkey_ i);
   ("get_counts_only", AsString_GetCountsOnly <$> get_counts_only_ i);
   ("duration", print_int <$> duration_minutes_ i);
   ("email_notification", AsString_NofifyOwnerByEmail <$> nofify_owner_on_access_ i);
   ("success_callback_url", success_callback_url_ i);
   ("error_callback_url", error_callback_url_ i);
   ("bind_ip", bind_ip_ i);
   ("burn_after_use", AsString_BurnAfterUse <$> burn_after_use_ i)].

(** [api/file/one_time_key/v1_3.cpp:186-210 Impl::GetPostData] *)
Definition GetPostData (MD5 : str -> str) (a : SessionTokenApi) (i : Impl) : str :=
  MakePost MD5 a (api_path ++ B ".php") (post_parts i).

(** *** The description *)

(** [api/templates/apis/file/v1_3/one_time_key.json:95-138 return_params] *)
Definition Response_described : description Response :=
  [ Default 0 (number_at uint32) "response.one_time_key_request_count"
       Response_one_time_key_request_count;
    Default 0 (number_at uint32) "response.one_time_key_request_max_count"
       Response_one_time_key_request_max_count;
    Required string_at "response.token" Response_token;
    Optional string_at "response.links.download" Response_download_link;
    Optional string_at "response.links.view" Response_view_link;
    Optional string_at "response.links.watch" Response_watch_link;
    Optional string_at "response.links.listen" Response_listen_link].

(** [api/templates/apis/file/v1_3/one_time_key.json:5-17 NofifyOwnerByEmail] *)
Definition AsDescribed_NofifyOwnerByEmail (value : NofifyOwnerByEmail) : str :=
  match value with
  | NofifyOwnerByEmail_Yes => B "yes"
  | NofifyOwnerByEmail_No => B "no"
  end.

(** [api/templates/apis/file/v1_3/one_time_key.json:18-30 BurnAfterUse] *)
Definition AsDescribed_BurnAfterUse (value : BurnAfterUse) : str :=
  match value with
  | BurnAfterUse_No => B "no"
  | BurnAfterUse_Yes => B "yes"
  end.

(** [api/templates/apis/file/v1_3/one_time_key.json:31-43 GetCountsOnly] *)
Definition AsDescribed_GetCountsOnly (value : GetCountsOnly) : str :=
  match value with
  | GetCountsOnly_Yes => B "yes"
  | GetCountsOnly_No => B "no"
  end.

(** [api/templates/apis/file/v1_3/one_time_key.json:45-94 input_params] *)
Definition params_described (i : Impl) : list (string * option str) :=
  [("quick_key", quickkey_ i);
   ("get_counts_only", (AsDescribed_GetCountsOnly) <$> get_counts_only_ i);
   ("duration", print_int <$> duration_minutes_ i);
   ("email_notification", (AsDescribed_NofifyOwnerByEmail) <$> nofify_owner_on_access_ i);
   ("success_callback_url", success_callback_url_ i);
   ("error_callback_url", error_callback_url_ i);
   ("bind_ip", bind_ip_ i);
   ("burn_after_use", (AsDescribed_BurnAfterUse) <$> burn_after_use_ i)].

#[global] Instance Response_parses :
  ParsesResponse ParseResponse new_Response Response_described.
Proof. parse_class. Qed.

Definition call : api_call := {|
  call_method := GetRequestMethod;
  call_uses_token := true;
  call_BuildUrl := BuildUrl;
  call_parts := post_parts;
  call_GetPostData := GetPostData;
  call_new := new_Response;
  call_ParseResponse := ParseResponse |}.

#[global] Instance call_implements :
  ImplementsCall call "/api/1.3/file/one_time_key" true params_described Response_described.
Proof. implement_call. Qed.

End Call.
End file_one_time_key_v1_3.

(** ** [api/file/purge/v0.cpp] *)
Module file_purge_v0.

Section Call.
Context `{Libraries}.

(** [api/file/purge/v0.hpp:36-37 Response] *)
Record Response := {
  Response_device_revision : option Z }.
#[local] Instance Response_members : Members Response := fun v =>
  Build_Response (Response_device_revision v).
Definition new_Response : Response :=
  {| Response_device_revision := None |}.

(** [api/file/purge/v0.cpp:74-96 Impl::ParseResponse] *)
Definition ParseResponse : ResponseBase -> Response -> ResponseBase * Response :=
  parse_response
  [ optional (an uint32) "response.device_revision" Response_device_revision].

(** [api/file/purge/v0.cpp:32-32 api_path] *)
Definition api_path : str := B "/api/file/purge".

(** [api/file/purge/v0.cpp:36-57 Impl] *)
Record Impl := {
  quickkeys_ : list str }.
#[local] Instance Impl_members : Members Impl := fun v =>
  Build_Impl (quickkeys_ v).

(** [api/file/purge/v0.cpp:59-64 Impl::Impl] *)
Definition new_Impl (quickkeys : list str) : Impl :=
  {| quickkeys_ := quickkeys |}.

(** [api/file/purge/v0.cpp:66-72 Impl::BuildUrl] *)
Definition BuildUrl (query_parts : list query_part) : str * list query_part :=
  (api_path ++ B ".php", query_parts).

(** [api/file/purge/v0.cpp:53-56 Impl::GetRequestMethod] *)
Definition GetRequestMethod : RequestMethod := Post.

(** The assignments to [parts].
    [api/file/purge/v0.cpp:98-107 Impl::GetPostData] *)
Definition post_parts (i : Impl) : list query_part := make_parts
  [("quick_key", Some ((AsStringContainerType AsString_string) (quickkeys_ i)))].

(** [api/file/purge/v0.cpp:98-107 Impl::GetPostData] *)
Definition GetPostData (MD5 : str -> str) (a : SessionTokenApi) (i : Impl) : str :=
  MakePost MD5 a (api_path ++ B ".php") (post_parts i).

(** *** The description *)

(** [api/templates/apis/file/v0/purge.json:11-18 return_params] *)
Definition Response_described : description Response :=
  [ Optional (number_at uint32) "response.device_revision" Response_device_revision].

(** [api/templates/apis/file/v0/purge.json:4-10 input_params] *)
Definition params_described (i : Impl) : list (string * option str) :=
  [("quick_key", Some ((comma_separated id) (quickkeys_ i)))].

#[global] Instance Response_parses :
  ParsesResponse ParseResponse new_Response Response_described.
Proof. parse_class. Qed.

Definition call : api_call := {|
  call_method := GetRequestMethod;
  call_uses_token := true;
  call_BuildUrl := BuildUrl;
  call_parts := post_parts;
  call_GetPostData := GetPostData;
  call_new := new_Response;
  call_ParseResponse := ParseResponse |}.

#[global] Instance call_implements :
  ImplementsCall call "/api/file/purge" true params_described Response_described.
Proof. implement_call. Qed.

End Call.
End file_purge_v0.

(** ** [api/file/purge/v1_3.cpp] *)
Module file_purge_v1_3.

Section Call.
Context `{Libraries}.

(** [api/file/purge/v1_3.hpp:36-37 Response] *)
Record Response := {
  Response_new_device_revision : option Z }.
#[local] Instance Response_members : Members Response := fun v =>
  Build_Response (Response_new_device_revision v).
Definition new_Response : Response :=
  {| Response_new_device_revision := None |}.

(** [api/file/purge/v1_3.cpp:74-96 Impl::ParseResponse] *)
Definition ParseResponse : ResponseBase -> Response -> ResponseBase * Response :=
  parse_response
  [ optional (an uint32) "response.new_device_revision" Response_new_device_revision].

(** [api/file/purge/v1_3.cpp:32-32 api_path] *)
Definition api_path : str := B "/api/1.3/file/purge".

(** [api/file/purge/v1_3.cpp:36-57 Impl] *)
Record Impl := {
  quickkeys_ : list str }.
#[local] Instance Impl_members : Members Impl := fun v =>
  Build_Impl (quickkeys_ v).

(** [api/file/purge/v1_3.cpp:59-64 Impl::Impl] *)
Definition new_Impl (quickkeys : list str) : Impl :=
  {| quickkeys_ := quickkeys |}.

(** [api/file/purge/v1_3.cpp:66-72 Impl::BuildUrl] *)
Definition BuildUrl (query_parts : list query_part) : str * list query_part :=
  (api_path ++ B ".php", query_parts).

(** [api/file/purge/v1_3.cpp:53-56 Impl::GetRequestMethod] *)
Definition GetRequestMethod : RequestMethod := Post.

(** The assignments to [parts].
    [api/file/purge/v1_3.cpp:98-107 Impl::GetPostData] *)
Definition post_parts (i : Impl) : list query_part := make_parts
  [("quick_key", Some ((AsStringContainerType AsString_string) (quickkeys_ i)))].

(** [api/file/purge/v1_3.cpp:98-107 Impl::GetPostData] *)
Definition GetPostData (MD5 : str -> str) (a : SessionTokenApi) (i : Impl) : str :=
  MakePost MD5 a (api_path ++ B ".php") (post_parts i).

(** *** The description *)

(** [api/templates/apis/file/v1_3/purge.json:11-18 return_params] *)
Definition Response_described : description Response :=
  [ Optional (number_at uint32) "response.new_device_revision" Response_new_device_revision].

(** [api/templates/apis/file/v1_3/purge.json:4-10 input_params] *)
Definition params_described (i : Impl) : list (string * option str) :=
  [("quick_key", Some ((comma_separated id) (quickkeys_ i)))].

#[global] Instance Response_parses :
  ParsesResponse ParseResponse new_Response Response_described.
Proof. parse_class. Qed.

Definition call : api_call := {|
  call_method := GetRequestMethod;
  call_uses_token := true;
  call_BuildUrl := BuildUrl;
  call_parts := post_parts;
  call_GetPostData := GetPostData;
  call_new := new_Response;
  call_ParseResponse := ParseResponse |}.

#[global] Instance call_implements :
  ImplementsCall call "/api/1.3/file/purge" true params_described Response_described.
Proof. implement_call. Qed.

End Call.
End file_purge_v1_3.

(** ** [api/file/recently_modified/v0.cpp] *)
Module file_recently_modified_v0.

Section Call.
Context `{Libraries}.

(** [api/file/recently_modified/v0.hpp:36-37 Response] *)
Record Response := {
  Response_quickkeys : list str }.
#[local] Instance Response_members : Members Response := fun v =>
  Build_Response (Response_quickkeys v).
Definition new_Response : Response :=
  {| Response_quickkeys := [] |}.

(** [api/file/recently_modified/v0.cpp:69-104 Impl::ParseResponse] *)
Definition ParseResponse : ResponseBase -> Response -> ResponseBase * Response :=
  parse_response
  [ optional_array (GetValueIfExists the_json) "response.quickkeys" Response_quickkeys].

(** [api/file/recently_modified/v0.cpp:32-32 api_path] *)
Definition api_path : str := B "/api/file/recently_modified".

(** [api/file/recently_modified/v0.cpp:36-55 Impl] *)
Record Impl := {
  number_of_files_ : option Z }.
#[local] Instance Impl_members : Members Impl := fun v =>
  Build_Impl (number_of_files_ v).

(** [api/file/recently_modified/v0.cpp:57-59 Impl::Impl] *)
Definition new_Impl : Impl :=
  {| number_of_files_ := None |}.

(** [api/file/recently_modified/v0.cpp:162-165 Request::SetNumberOfFiles] *)
Definition SetNumberOfFiles (number_of_files : Z) (i : Impl) : Impl :=
  set_field number_of_files_ (Some number_of_files) i.

(** [api/file/recently_modified/v0.cpp:61-67 Impl::BuildUrl] *)
Definition BuildUrl (query_parts : list query_part) : str * list query_part :=
  (api_path ++ B ".php", query_parts).

(** [api/file/recently_modified/v0.cpp:51-54 Impl::GetRequestMethod] *)
Definition GetRequestMethod : RequestMethod := Post.

(** The assignments to [parts].
    [api/file/recently_modified/v0.cpp:106-116 Impl::GetPostData] *)
Definition post_parts (i : Impl) : list query_part := make_parts
  [("number_of_files", print_int <$> number_of_files_ i)].

(** [api/file/recently_modified/v0.cpp:106-116 Impl::GetPostData] *)
Definition GetPostData (MD5 : str -> str) (a : SessionTokenApi) (i : Impl) : str :=
  MakePost MD5 a (api_path ++ B ".php") (post_parts i).

(** *** The description *)

(** [api/templates/apis/file/v0/recently_modified.json:11-19 return_params] *)
Definition Response_described : description Response :=
  [ OptionalArray string_here "response.quickkeys" Response_quickkeys].

(** [api/templates/apis/file/v0/recently_modified.json:4-10 input_params] *)
Definition params_described (i : Impl) : list (string * option str) :=
  [("number_of_files", print_int <$> number_of_files_ i)].

#[global] Instance Response_parses :
  ParsesResponse ParseResponse new_Response Response_described.
Proof. parse_class. Qed.

Definition call : api_call := {|
  call_method := GetRequestMethod;
  call_uses_token := true;
  call_BuildUrl := BuildUrl;
  call_parts := post_parts;
  call_GetPostData := GetPostData;
  call_new := new_Response;
  call_ParseResponse := ParseResponse |}.

#[global] Instance call_implements :
  ImplementsCall call "/api/file/recently_modified" true params_described Response_described.
Proof. implement_call. Qed.

End Call.
End file_recently_modified_v0.

(** ** [api/file/recently_modified/v1_3.cpp] *)
Module file_recently_modified_v1_3.

Section Call.
Context `{Libraries}.

(** [api/file/recently_modified/v1_3.hpp:36-37 Response] *)
Record Response := {
  Response_quickkeys : list str }.
#[local] Instance Response_members : Members Response := fun v =>
  Build_Response (Response_quickkeys v).
Definition new_Response : Response :=
  {| Response_quickkeys := [] |}.

(** [api/file/recently_modified/v1_3.cpp:69-104 Impl::ParseResponse] *)
Definition ParseResponse : ResponseBase -> Response -> ResponseBase * Response :=
  parse_response
  [ optional_array (GetValueIfExists the_json) "response.quickkeys" Response_quickkeys].

(** [api/file/recently_modified/v1_3.cpp:32-32 api_path] *)
Definition api_path : str := B "/api/1.3/file/recently_modified".

(** [api/file/recently_modified/v1_3.cpp:36-55 Impl] *)
Record Impl := {
  number_of_files_ : option Z }.
#[local] Instance Impl_members : Members Impl := fun v =>
  Build_Impl (number_of_files_ v).

(** [api/file/recently_modified/v1_3.cpp:57-59 Impl::Impl] *)
Definition new_Impl : Impl :=
  {| number_of_files_ := None |}.

(** [api/file/recently_modified/v1_3.cpp:162-165 Request::SetNumberOfFiles] *)
Definition SetNumberOfFiles (number_of_files : Z) (i : Impl) : Impl :=
  set_field number_of_files_ (Some number_of_files) i.

(** [api/file/recently_modified/v1_3.cpp:61-67 Impl::BuildUrl] *)
Definition BuildUrl (query_parts : list query_part) : str * list query_part :=
  (api_path ++ B ".php", query_parts).

(** [api/file/recently_modified/v1_3.cpp:51-54 Impl::GetRequestMethod] *)
Definition GetRequestMethod : RequestMethod := Post.

(** The assignments to [parts].
    [api/file/recently_modified/v1_3.cpp:106-116 Impl::GetPostData] *)
Definition post_parts (i : Impl) : list query_part := make_parts
  [("number_of_files", print_int <$> number_of_files_ i)].

(** [api/file/recently_modified/v1_3.cpp:106-116 Impl::GetPostData] *)
Definition GetPostData (MD5 : str -> str) (a : SessionTokenApi) (i : Impl) : str :=
  MakePost MD5 a (api_path ++ B ".php") (post_parts i).

(** *** The description *)

(** [api/templates/apis/file/v1_3/recently_modified.json:11-19 return_params] *)
Definition Response_described : description Response :=
  [ OptionalArray string_here "response.quickkeys" Response_quickkeys].

(** [api/templates/apis/file/v1_3/recently_modified.json:4-10 input_params] *)
Definition params_described (i : Impl) : list (string * option str) :=
  [("number_of_files", print_int <$> number_of_files_ i)].

#[global] Instance Response_parses :
  ParsesResponse ParseResponse new_Response Response_described.
Proof. parse_class. Qed.

Definition call : api_call := {|
  call_method := GetRequestMethod;
  call_uses_token := true;
  call_BuildUrl := BuildUrl;
  call_parts := post_parts;
  call_GetPostData := GetPostData;
  call_new := new_Response;
  call_ParseResponse := ParseResponse |}.

#[global] Instance call_implements :
  ImplementsCall call "/api/1.3/file/recently_modified" true params_described Response_described.
Proof. implement_call. Qed.

End Call.
End file_recently_modified_v1_3.

(** ** [api/file/restore/v0.cpp] *)
Module file_restore_v0.

(** [api/file/restore/v0.hpp:29-35 Asynchronous] *)
Inductive Asynchronous : Set := Asynchronous_Synchronous | Asynchronous_Asynchronous.
#[global] Instance Asynchronous_inhabited : Inhabited Asynchronous :=
  populate Asynchronous_Synchronous.

Section Call.
Context `{Libraries}.

(** [api/file/restore/v0.hpp:47-48 Response] *)
Record Response := {
  Response_asynchronous : Asynchronous }.
#[local] Instance Response_members : Members Response := fun v =>
  Build_Response (Response_asynchronous v).
Definition new_Response : Response :=
  {| Response_asynchronous := Asynchronous_Synchronous |}.

(** [api/file/restore/v0.cpp:78-104 Impl::ParseResponse] *)
Definition ParseResponse : ResponseBase -> Response -> ResponseBase * Response :=
  parse_response
  [ assign Response_asynchronous Asynchronous_Synchronous;
    optional_enum id [("no", Asynchronous_Synchronous); ("yes", Asynchronous_Asynchronous)]
       "response.asynchronous" Response_asynchronous].

(** [api/file/restore/v0.cpp:32-32 api_path] *)
Definition api_path : str := B "/api/file/restore".

(** [api/file/restore/v0.cpp:36-59 Impl] *)
Record Impl := {
  quickkey_ : str;
  revision_ : Z }.
#[local] Instance Impl_members : Members Impl := fun v =>
  Build_Impl (quickkey_ v) (revision_ v).

(** [api/file/restore/v0.cpp:61-68 Impl::Impl] *)
Definition new_Impl (quickkey : str) (revision : Z) : Impl :=
  {| quickkey_ := quickkey; revision_ := revision |}.

(** [api/file/restore/v0.cpp:70-76 Impl::BuildUrl] *)
Definition BuildUrl (query_parts : list query_part) : str * list query_part :=
  (api_path ++ B ".php", query_parts).

(** [api/file/restore/v0.cpp:55-58 Impl::GetRequestMethod] *)
Definition GetRequestMethod : RequestMethod := Post.

(** The assignments to [parts].
    [api/file/restore/v0.cpp:106-116 Impl::GetPostData] *)
Definition post_parts (i : Impl) : list query_part := make_parts
  [("quick_key", Some (quickkey_ i));
   ("revision", Some (print_int (revision_ i)))].

(** [api/file/restore/v0.cpp:106-116 Impl::GetPostData] *)
Definition GetPostData (MD5 : str -> str) (a : SessionTokenApi) (i : Impl) : str :=
  MakePost MD5 a (api_path ++ B ".php") (post_parts i).

(** *** The description *)

(** [api/templates/apis/file/v0/restore.json:31-38 return_params] *)
Definition Response_described : description Response :=
  [ Default Asynchronous_Synchronous (enum_at [("no", Asynchronous_Synchronous);
       ("yes", Asynchronous_Asynchronous)]) "response.asynchronous" Response_asynchronous].

(** [api/templates/apis/file/v0/restore.json:19-30 input_params] *)
Definition params_described (i : Impl) : list (string * option str) :=
  [("quick_key", Some (quickkey_ i));
   ("revision", Some (print_int (revision_ i)))].

#[global] Instance Response_parses :
  ParsesResponse ParseResponse new_Response Response_described.
Proof. parse_class. Qed.

Definition call : api_call := {|
  call_method := GetRequestMethod;
  call_uses_token := true;
  call_BuildUrl := BuildUrl;
  call_parts := post_parts;
  call_GetPostData := GetPostData;
  call_new := new_Response;
  call_ParseResponse := ParseResponse |}.

#[global] Instance call_implements :
  ImplementsCall call "/api/file/restore" true params_described Response_described.
Proof. implement_call. Qed.

End Call.
End file_restore_v0.

(** ** [api/file/restore/v1_3.cpp] *)
Module file_restore_v1_3.

(** [api/file/restore/v1_3.hpp:29-35 Asynchronous] *)
Inductive Asynchronous : Set := Asynchronous_Synchronous | Asynchronous_Asynchronous.
#[global] Instance Asynchronous_inhabited : Inhabited Asynchronous :=
  populate Asynchronous_Synchronous.

Section Call.
Context `{Libraries}.

(** [api/file/restore/v1_3.hpp:47-48 Response] *)
Record Response := {
  Response_asynchronous : Asynchronous }.
#[local] Instance Response_members : Members Response := fun v =>
  Build_Response (Response_asynchronous v).
Definition new_Response : Response :=
  {| Response_asynchronous := Asynchronous_Synchronous |}.

(** [api/file/restore/v1_3.cpp:78-104 Impl::ParseResponse] *)
Definition ParseResponse : ResponseBase -> Response -> ResponseBase * Response :=
  parse_response
  [ assign Response_asynchronous Asynchronous_Synchronous;
    optional_enum id [("no", Asynchronous_Synchronous); ("yes", Asynchronous_Asynchronous)]
       "response.asynchronous" Response_asynchronous].

(** [api/file/restore/v1_3.cpp:32-32 api_path] *)
Definition api_path : str := B "/api/1.3/file/restore".

(** [api/file/restore/v1_3.cpp:36-59 Impl] *)
Record Impl := {
  quickkey_ : str;
  revision_ : Z }.
#[local] Instance Impl_members : Members Impl := fun v =>
  Build_Impl (quickkey_ v) (revision_ v).

(** [api/file/restore/v1_3.cpp:61-68 Impl::Impl] *)
Definition new_Impl (quickkey : str) (revision : Z) : Impl :=
  {| quickkey_ := quickkey; revision_ := revision |}.

(** [api/file/restore/v1_3.cpp:70-76 Impl::BuildUrl] *)
Definition BuildUrl (query_parts : list query_part) : str * list query_part :=
  (api_path ++ B ".php", query_parts).

(** [api/file/restore/v1_3.cpp:55-58 Impl::GetRequestMethod] *)
Definition GetRequestMethod : RequestMethod := Post.

(** The assignments to [parts].
    [api/file/restore/v1_3.cpp:106-116 Impl::GetPostData] *)
Definition post_parts (i : Impl) : list query_part := make_parts
  [("quick_key", Some (quickkey_ i));
   ("revision", Some (print_int (revision_ i)))].

(** [api/file/restore/v1_3.cpp:106-116 Impl::GetPostData] *)
Definition GetPostData (MD5 : str -> str) (a : SessionTokenApi) (i : Impl) : str :=
  MakePost MD5 a (api_path ++ B ".php") (post_parts i).

(** *** The description *)

(** [api/templates/apis/file/v1_3/restore.json:31-38 return_params] *)
Definition Response_described : description Response :=
  [ Default Asynchronous_Synchronous (enum_at [("no", Asynchronous_Synchronous);
       ("yes", Asynchronous_Asynchronous)]) "response.asynchronous" Response_asynchronous].

(** [api/templates/apis/file/v1_3/restore.json:19-30 input_params] *)
Definition params_described (i : Impl) : list (string * option str) :=
  [("quick_key", Some (quickkey_ i));
   ("revision", Some (print_int (revision_ i)))].

#[global] Instance Response_parses :
  ParsesResponse ParseResponse new_Response Response_described.
Proof. parse_class. Qed.

Definition call : api_call := {|
  call_method := GetRequestMethod;
  call_uses_token := true;
  call_BuildUrl := BuildUrl;
  call_parts := post_parts;
  call_GetPostData := GetPostData;
  call_new := new_Response;
  call_ParseResponse := ParseResponse |}.

#[global] Instance call_implements :
  ImplementsCall call "/api/1.3/file/restore" true params_described Response_described.
Proof. implement_call. Qed.

End Call.
End file_restore_v1_3.

(** ** [api/file/update/v0.cpp] *)
Module file_update_v0.

(** [api/file/update/v0.hpp:29-35 Privacy] *)
Inductive Privacy : Set := Privacy_Public | Privacy_Private.
#[global] Instance Privacy_inhabited : Inhabited Privacy := populate Privacy_Public.

(** [api/file/update/v0.cpp:24-31 AsString] *)
Definition AsString_Privacy (value : Privacy) : str :=
  match value with
  | Privacy_Public => B "public"
  | Privacy_Private => B "private"
  end.

Section Call.
Context `{Libraries}.

(** [api/file/update/v0.hpp:44-45 Response] *)
Record Response := {
  Response_device_revision : option Z }.
#[local] Instance Response_members : Members Response := fun v =>
  Build_Response (Response_device_revision v).
Definition new_Response : Response :=
  {| Response_device_revision := None |}.

(** [api/file/update/v0.cpp:89-111 Impl::ParseResponse] *)
Definition ParseResponse : ResponseBase -> Response -> ResponseBase * Response :=
  parse_response
  [ optional (an uint32) "response.device_revision" Response_device_revision].

(** [api/file/update/v0.cpp:43-43 api_path] *)
Definition api_path : str := B "/api/file/update".

(** [api/file/update/v0.cpp:47-72 Impl] *)
Record Impl := {
  quickkey_ : str;
  filename_ : option str;
  description_ : option str;
  privacy_ : option Privacy;
  mtime_ : option ptime }.
#[local] Instance Impl_members : Members Impl := fun v =>
  Build_Impl (quickkey_ v) (filename_ v) (description_ v) (privacy_ v) (mtime_ v).

(** [api/file/update/v0.cpp:74-79 Impl::Impl] *)
Definition new_Impl (quickkey : str) : Impl :=
  {| quickkey_ := quickkey; filename_ := None; description_ := None; privacy_ := None;
     mtime_ := None |}.

(** [api/file/update/v0.cpp:178-181 Request::SetFilename] *)
Definition SetFilename (filename : str) (i : Impl) : Impl :=
  set_field filename_ (Some filename) i.

(** [api/file/update/v0.cpp:183-186 Request::SetDescription] *)
Definition SetDescription (description : str) (i : Impl) : Impl :=
  set_field description_ (Some description) i.

(** [api/file/update/v0.cpp:188-191 Request::SetPrivacy] *)
Definition SetPrivacy (privacy : Privacy) (i : Impl) : Impl :=
  set_field privacy_ (Some privacy) i.

(** [api/file/update/v0.cpp:193-196 Request::SetMtime] *)
Definition SetMtime (mtime : ptime) (i : Impl) : Impl := set_field mtime_ (Some mtime) i.

(** [api/file/update/v0.cpp:81-87 Impl::BuildUrl] *)
Definition BuildUrl (query_parts : list query_part) : str * list query_part :=
  (api_path ++ B ".php", query_parts).

(** [api/file/update/v0.cpp:68-71 Impl::GetRequestMethod] *)
Definition GetRequestMethod : RequestMethod := Post.

(** The assignments to [parts].
    [api/file/update/v0.cpp:113-130 Impl::GetPostData] *)
Definition post_parts (i : Impl) : list query_part := make_parts
  [("quick_key", Some (quickkey_ i));
   ("filename", filename_ i);
   ("description", description_ i);
   ("privacy", AsString_Privacy <$> privacy_ i);
   ("mtime", AsString_ptime <$> mtime_ i)].

(** [api/file/update/v0.cpp:113-130 Impl::GetPostData] *)
Definition GetPostData (MD5 : str -> str) (a : SessionTokenApi) (i : Impl) : str :=
  MakePost MD5 a (api_path ++ B ".php") (post_parts i).

(** *** The description *)

(** [api/templates/apis/file/v0/update.json:48-55 return_params] *)
Definition Response_described : description Response :=
  [ Optional (number_at uint32) "response.device_revision" Response_device_revision].

(** [api/templates/apis/file/v0/update.json:5-17 Privacy] *)
Definition AsDescribed_Privacy (value : Privacy) : str :=
  match value with
  | Privacy_Public => B "public"
  | Privacy_Private => B "private"
  end.

(** [api/templates/apis/file/v0/update.json:19-47 input_params] *)
Definition params_described (i : Impl) : list (string * option str) :=
  [("quick_key", Some (quickkey_ i));
   ("filename", filename_ i);
   ("description", description_ i);
   ("privacy", (AsDescribed_Privacy) <$> privacy_ i);
   ("mtime", iso_time <$> mtime_ i)].

#[global] Instance Response_parses :
  ParsesResponse ParseResponse new_Response Response_described.
Proof. parse_class. Qed.

Definition call : api_call := {|
  call_method := GetRequestMethod;
  call_uses_token := true;
  call_BuildUrl := BuildUrl;
  call_parts := post_parts;
  call_GetPostData := GetPostData;
  call_new := new_Response;
  call_ParseResponse := ParseResponse |}.

#[global] Instance call_implements :
  ImplementsCall call "/api/file/update" true params_described Response_described.
Proof. implement_call. Qed.

End Call.
End file_update_v0.

(** ** [api/file/update/v1_3.cpp] *)
Module file_update_v1_3.

(** [api/file/update/v1_3.hpp:29-35 Privacy] *)
Inductive Privacy : Set := Privacy_Public | Privacy_Private.
#[global] Instance Privacy_inhabited : Inhabited Privacy := populate Privacy_Public.

(** [api/file/update/v1_3.cpp:24-31 AsString] *)
Definition AsString_Privacy (value : Privacy) : str :=
  match value with
  | Privacy_Public => B "public"
  | Privacy_Private => B "private"
  end.

Section Call.
Context `{Libraries}.

(** [api/file/update/v1_3.hpp:44-45 Response] *)
Record Response := {
  Response_new_device_revision : option Z }.
#[local] Instance Response_members : Members Response := fun v =>
  Build_Response (Response_new_device_revision v).
Definition new_Response : Response :=
  {| Response_new_device_revision := None |}.

(** [api/file/update/v1_3.cpp:89-111 Impl::ParseResponse] *)
Definition ParseResponse : ResponseBase -> Response -> ResponseBase * Response :=
  parse_response
  [ optional (an uint32) "response.new_device_revision" Response_new_device_revision].

(** [api/file/update/v1_3.cpp:43-43 api_path] *)
Definition api_path : str := B "/api/1.3/file/update".

(** [api/file/update/v1_3.cpp:47-72 Impl] *)
Record Impl := {
  quickkey_ : str;
  filename_ : option str;
  description_ : option str;
  privacy_ : option Privacy;
  mtime_ : option ptime }.
#[local] Instance Impl_members : Members Impl := fun v =>
  Build_Impl (quickkey_ v) (filename_ v) (description_ v) (privacy_ v) (mtime_ v).

(** [api/file/update/v1_3.cpp:74-79 Impl::Impl] *)
Definition new_Impl (quickkey : str) : Impl :=
  {| quickkey_ := quickkey; filename_ := None; description_ := None; privacy_ := None;
     mtime_ := None |}.

(** [api/file/update/v1_3.cpp:178-181 Request::SetFilename] *)
Definition SetFilename (filename : str) (i : Impl) : Impl :=
  set_field filename_ (Some filename) i.

(** [api/file/update/v1_3.cpp:183-186 Request::SetDescription] *)
Definition SetDescription (description : str) (i : Impl) : Impl :=
  set_field description_ (Some description) i.

(** [api/file/update/v1_3.cpp:188-191 Request::SetPrivacy] *)
Definition SetPrivacy (privacy : Privacy) (i : Impl) : Impl :=
  set_field privacy_ (Some privacy) i.

(** [api/file/update/v1_3.cpp:193-196 Request::SetMtime] *)
Definition SetMtime (mtime : ptime) (i : Impl) : Impl := set_field mtime_ (Some mtime) i.

(** [api/file/update/v1_3.cpp:81-87 Impl::BuildUrl] *)
Definition BuildUrl (query_parts : list query_part) : str * list query_part :=
  (api_path ++ B ".php", query_parts).

(** [api/file/update/v1_3.cpp:68-71 Impl::GetRequestMethod] *)
Definition GetRequestMethod : RequestMethod := Post.

(** The assignments to [parts].
    [api/file/update/v1_3.cpp:113-130 Impl::GetPostData] *)
Definition post_parts (i : Impl) : list query_part := make_parts
  [("quick_key", Some (quickkey_ i));
   ("filename", filename_ i);
   ("description", description_ i);
   ("privacy", AsString_Privacy <$> privacy_ i);
   ("mtime", AsString_ptime <$> mtime_ i)].

(** [api/file/update/v1_3.cpp:113-130 Impl::GetPostData] *)
Definition GetPostData (MD5 : str -> str) (a : SessionTokenApi) (i : Impl) : str :=
  MakePost MD5 a (api_path ++ B ".php") (post_parts i).

(** *** The description *)

(** [api/templates/apis/file/v1_3/update.json:48-55 return_params] *)
Definition Response_described : description Response :=
  [ Optional (number_at uint32) "response.new_device_revision" Response_new_device_revision].

(** [api/templates/apis/file/v1_3/update.json:5-17 Privacy] *)
Definition AsDescribed_Privacy (value : Privacy) : str :=
  match value with
  | Privacy_Public => B "public"
  | Privacy_Private => B "private"
  end.

(** [api/templates/apis/file/v1_3/update.json:19-47 input_params] *)
Definition params_described (i : Impl) : list (string * option str) :=
  [("quick_key", Some (quickkey_ i));
   ("filename", filename_ i);
   ("description", description_ i);
   ("privacy", (AsDescribed_Privacy) <$> privacy_ i);
   ("mtime", iso_time <$> mtime_ i)].

#[global] Instance Response_parses :
  ParsesResponse ParseResponse new_Response Response_described.
Proof. parse_class. Qed.

Definition call : api_call := {|
  call_method := GetRequestMethod;
  call_uses_token := true;
  call_BuildUrl := BuildUrl;
  call_parts := post_parts;
  call_GetPostData := GetPostData;
  call_new := new_Response;
  call_ParseResponse := ParseResponse |}.

#[global] Instance call_implements :
  ImplementsCall call "/api/1.3/file/update" true params_described Response_described.
Proof. implement_call. Qed.

End Call.
End file_update_v1_3.

(** ** [api/file/update_file/v0.cpp] *)
Module file_update_file_v0.

Section Call.
Context `{Libraries}.

(** [api/file/update_file/v0.hpp:36-37 Response] *)
Record Response := {
  Response_device_revision : option Z }.
#[local] Instance Response_members : Members Response := fun v =>
  Build_Response (Response_device_revision v).
Definition new_Response : Response :=
  {| Response_device_revision := None |}.

(** [api/file/update_file/v0.cpp:78-100 Impl::ParseResponse] *)
Definition ParseResponse : ResponseBase -> Response -> ResponseBase * Response :=
  parse_response
  [ optional (an uint32) "response.device_revision" Response_device_revision].

(** [api/file/update_file/v0.cpp:32-32 api_path] *)
Definition api_path : str := B "/api/file/update_file".

(** [api/file/update_file/v0.cpp:36-59 Impl] *)
Record Impl := {
  from_quickkey_ : str;
  to_quickkey_ : str }.
#[local] Instance Impl_members : Members Impl := fun v =>
  Build_Impl (from_quickkey_ v) (to_quickkey_ v).

(** [api/file/update_file/v0.cpp:61-68 Impl::Impl] *)
Definition new_Impl (from_quickkey : str) (to_quickkey : str) : Impl :=
  {| from_quickkey_ := from_quickkey; to_quickkey_ := to_quickkey |}.

(** [api/file/update_file/v0.cpp:70-76 Impl::BuildUrl] *)
Definition BuildUrl (query_parts : list query_part) : str * list query_part :=
  (api_path ++ B ".php", query_parts).

(** [api/file/update_file/v0.cpp:55-58 Impl::GetRequestMethod] *)
Definition GetRequestMethod : RequestMethod := Post.

(** The assignments to [parts].
    [api/file/update_file/v0.cpp:102-112 Impl::GetPostData] *)
Definition post_parts (i : Impl) : list query_part := make_parts
  [("from_quickkey", Some (from_quickkey_ i));
   ("to_quickkey", Some (to_quickkey_ i))].

(** [api/file/update_file/v0.cpp:102-112 Impl::GetPostData] *)
Definition GetPostData (MD5 : str -> str) (a : SessionTokenApi) (i : Impl) : str :=
  MakePost MD5 a (api_path ++ B ".php") (post_parts i).

(** *** The description *)

(** [api/templates/apis/file/v0/update_file.json:16-23 return_params] *)
Definition Response_described : description Response :=
  [ Optional (number_at uint32) "response.device_revision" Response_device_revision].

(** [api/templates/apis/file/v0/update_file.json:4-15 input_params] *)
Definition params_described (i : Impl) : list (string * option str) :=
  [("from_quickkey", Some (from_quickkey_ i));
   ("to_quickkey", Some (to_quickkey_ i))].

#[global] Instance Response_parses :
  ParsesResponse ParseResponse new_Response Response_described.
Proof. parse_class. Qed.

Definition call : api_call := {|
  call_method := GetRequestMethod;
  call_uses_token := true;
  call_BuildUrl := BuildUrl;
  call_parts := post_parts;
  call_GetPostData := GetPostData;
  call_new := new_Response;
  call_ParseResponse := ParseResponse |}.

#[global] Instance call_implements :
  ImplementsCall call "/api/file/update_file" true params_described Response_described.
Proof. implement_call. Qed.

End Call.
End file_update_file_v0.

(** ** [api/file/update_file/v1_3.cpp] *)
Module file_update_file_v1_3.

Section Call.
Context `{Libraries}.

(** [api/file/update_file/v1_3.hpp:36-37 Response] *)
Record Response := {
  Response_new_device_revision : option Z }.
#[local] Instance Response_members : Members Response := fun v =>
  Build_Response (Response_new_device_revision v).
Definition new_Response : Response :=
  {| Response_new_device_revision := None |}.

(** [api/file/update_file/v1_3.cpp:78-100 Impl::ParseResponse] *)
Definition ParseResponse : ResponseBase -> Response -> ResponseBase * Response :=
  parse_response
  [ optional (an uint32) "response.new_device_revision" Response_new_device_revision].

(** [api/file/update_file/v1_3.cpp:32-32 api_path] *)
Definition api_path : str := B "/api/1.3/file/update_file".

(** [api/file/update_file/v1_3.cpp:36-59 Impl] *)
Record Impl := {
  from_quickkey_ : str;
  to_quickkey_ : str }.
#[local] Instance Impl_members : Members Impl := fun v =>
  Build_Impl (from_quickkey_ v) (to_quickkey_ v).

(** [api/file/update_file/v1_3.cpp:61-68 Impl::Impl] *)
Definition new_Impl (from_quickkey : str) (to_quickkey : str) : Impl :=
  {| from_quickkey_ := from_quickkey; to_quickkey_ := to_quickkey |}.

(** [api/file/update_file/v1_3.cpp:70-76 Impl::BuildUrl] *)
Definition BuildUrl (query_parts : list query_part) : str * list query_part :=
  (api_path ++ B ".php", query_parts).

(** [api/file/update_file/v1_3.cpp:55-58 Impl::GetRequestMethod] *)
Definition GetRequestMethod : RequestMethod := Post.

(** The assignments to [parts].
    [api/file/update_file/v1_3.cpp:102-112 Impl::GetPostData] *)
Definition post_parts (i : Impl) : list query_part := make_parts
  [("from_quickkey", Some (from_quickkey_ i));
   ("to_quickkey", Some (to_quickkey_ i))].

(** [api/file/update_file/v1_3.cpp:102-112 Impl::GetPostData] *)
Definition GetPostData (MD5 : str -> str) (a : SessionTokenApi) (i : Impl) : str :=
  MakePost MD5 a (api_path ++ B ".php") (post_parts i).

(** *** The description *)

(** [api/templates/apis/file/v1_3/update_file.json:16-23 return_params] *)
Definition Response_described : description Response :=
  [ Optional (number_at uint32) "response.new_device_revision" Response_new_device_revision].

(** [api/templates/apis/file/v1_3/update_file.json:4-15 input_params] *)
Definition params_described (i : Impl) : list (string * option str) :=
  [("from_quickkey", Some (from_quickkey_ i));
   ("to_quickkey", Some (to_quickkey_ i))].

#[global] Instance Response_parses :
  ParsesResponse ParseResponse new_Response Response_described.
Proof. parse_class. Qed.

Definition call : api_call := {|
  call_method := GetRequestMethod;
  call_uses_token := true;
  call_BuildUrl := BuildUrl;
  call_parts := post_parts;
  call_GetPostData := GetPostData;
  call_new := new_Response;
  call_ParseResponse := ParseResponse |}.

#[global] Instance call_implements :
  ImplementsCall call "/api/1.3/file/update_file" true params_described Response_described.
Proof. implement_call. Qed.

End Call.
End file_update_file_v1_3.
