(* ===== verification/ApiFolder.v ===== *)
(** * The calls [folder/...] ([api/folder])

    One module for each class, with the description it was generated from. *)
From S2P Require Import Prelude Errors ApiRequests PropertyTree ApiResponses Endpoint EndpointSpec EndpointProofs.

Open Scope Z_scope.

(** ** [api/folder/copy/v0.cpp] *)
Module folder_copy_v0.

(** [api/folder/copy/v0.hpp:29-35 Asynchronous] *)
Inductive Asynchronous : Set := Asynchronous_Synchronous | Asynchronous_Asynchronous.
#[global] Instance Asynchronous_inhabited : Inhabited Asynchronous :=
  populate Asynchronous_Synchronous.

Section Call.
Context `{Libraries}.

(** [api/folder/copy/v0.hpp:47-54 Response] *)
Record Response := {
  Response_asynchronous : Asynchronous;
  Response_device_revision : Z;
  Response_folderkey : str }.
#[local] Instance Response_members : Members Response := fun v =>
  Build_Response (Response_asynchronous v) (Response_device_revision v) (Response_folderkey v).
Definition new_Response : Response :=
  {| Response_asynchronous := Asynchronous_Synchronous;
     Response_device_revision := indeterminate Z _; Response_folderkey := [] |}.

(** [api/folder/copy/v0.cpp:78-122 Impl::ParseResponse] *)
Definition ParseResponse : ResponseBase -> Response -> ResponseBase * Response :=
  parse_response
  [ assign Response_asynchronous Asynchronous_Synchronous;
    optional_enum id [("no", Asynchronous_Synchronous); ("yes", Asynchronous_Asynchronous)]
       "response.asynchronous" Response_asynchronous;
    required (an uint32) "response.device_revision" Response_device_revision;
    required_front (GetIfExistsArrayFrontString the_json) "response.new_folderkeys"
       Response_folderkey].

(** [api/folder/copy/v0.cpp:32-32 api_path] *)
Definition api_path : str := B "/api/folder/copy".

(** [api/folder/copy/v0.cpp:36-59 Impl] *)
Record Impl := {
  folderkey_ : str;
  target_parent_folderkey_ : str }.
#[local] Instance Impl_members : Members Impl := fun v =>
  Build_Impl (folderkey_ v) (target_parent_folderkey_ v).

(** [api/folder/copy/v0.cpp:61-68 Impl::Impl] *)
Definition new_Impl (folderkey : str) (target_parent_folderkey : str) : Impl :=
  {| folderkey_ := folderkey; target_parent_folderkey_ := target_parent_folderkey |}.

(** [api/folder/copy/v0.cpp:70-76 Impl::BuildUrl] *)
Definition BuildUrl (query_parts : list query_part) : str * list query_part :=
  (api_path ++ B ".php", query_parts).

(** [api/folder/copy/v0.cpp:55-58 Impl::GetRequestMethod] *)
Definition GetRequestMethod : RequestMethod := Post.

(** The assignments to [parts].
    [api/folder/copy/v0.cpp:124-134 Impl::GetPostData] *)
Definition post_parts (i : Impl) : list query_part := make_parts
  [("folder_key_src", Some (folderkey_ i));
   ("folder_key_dst", Some (target_parent_folderkey_ i))].

(** [api/folder/copy/v0.cpp:124-134 Impl::GetPostData] *)
Definition GetPostData (MD5 : str -> str) (a : SessionTokenApi) (i : Impl) : str :=
  MakePost MD5 a (api_path ++ B ".php") (post_parts i).

(** *** The description *)

(** [api/templates/apis/folder/v0/copy.json:31-49 return_params] *)
Definition Response_described : description Response :=
  [ Default Asynchronous_Synchronous (enum_at [("no", Asynchronous_Synchronous);
       ("yes", Asynchronous_Asynchronous)]) "response.asynchronous" Response_asynchronous;
    Required (number_at uint32) "response.device_revision" Response_device_revision;
    Required front_at "response.new_folderkeys" Response_folderkey].

(** [api/templates/apis/folder/v0/copy.json:19-30 input_params] *)
Definition params_described (i : Impl) : list (string * option str) :=
  [("folder_key_src", Some (folderkey_ i));
   ("folder_key_dst", Some (target_parent_folderkey_ i))].

#[global] Instance Response_parses :
  ParsesResponse ParseResponse new_Response Response_described.
Proof. parse_class. Qed.

Definition call : api_call := {|
  call_method := GetRequestMethod;
  call_uses_token := true;
  call_BuildUrl := BuildUrl;
  call_parts := post_parts;
  call_GetPostData := GetPostData;
  call_new := new_Response;
  call_ParseResponse := ParseResponse |}.

#[global] Instance call_implements :
  ImplementsCall call "/api/folder/copy" true params_described Response_described.
Proof. implement_call. Qed.

End Call.
End folder_copy_v0.

(** ** [api/folder/create/v0.cpp] *)
Module folder_create_v0.

(** [api/folder/create/v0.hpp:29-35 OnNameCollision] *)
Inductive OnNameCollision : Set :=
  OnNameCollision_Rename | OnNameCollision_ReturnExistingFolderkey.
#[global] Instance OnNameCollision_inhabited : Inhabited OnNameCollision :=
  populate OnNameCollision_Rename.

(** [api/folder/create/v0.hpp:37-43 FileDrop] *)
Inductive FileDrop : Set := FileDrop_Disabled | FileDrop_Enabled.
#[global] Instance FileDrop_inhabited : Inhabited FileDrop := populate FileDrop_Disabled.

(** [api/folder/create/v0.hpp:45-51 Privacy] *)
Inductive Privacy : Set := Privacy_Public | Privacy_Private.
#[global] Instance Privacy_inhabited : Inhabited Privacy := populate Privacy_Public.

(** [api/folder/create/v0.cpp:24-31 AsString] *)
Definition AsString_OnNameCollision (value : OnNameCollision) : str :=
  match value with
  | OnNameCollision_Rename => B "yes"
  | OnNameCollision_ReturnExistingFolderkey => B "no"
  end.

Section Call.
Context `{Libraries}.

(** [api/folder/create/v0.hpp:60-76 Response] *)
Record Response := {
  Response_folderkey : str;
  Response_uploadkey : str;
  Response_name : str;
  Response_created_datetime : ptime;
  Response_privacy : Privacy;
  Response_revision : Z }.
#[local] Instance Response_members : Members Response := fun v =>
  Build_Response (Response_folderkey v) (Response_uploadkey v) (Response_name v)
    (Response_created_datetime v) (Response_privacy v) (Response_revision v).
Definition new_Response : Response :=
  {| Response_folderkey := []; Response_uploadkey := []; Response_name := [];
     Response_created_datetime := not_a_date; Response_privacy := indeterminate Privacy _;
     Response_revision := indeterminate Z _ |}.

(** [api/folder/create/v0.cpp:88-166 Impl::ParseResponse] *)
Definition ParseResponse : ResponseBase -> Response -> ResponseBase * Response :=
  parse_response
  [ required std_string "response.folder_key" Response_folderkey;
    required std_string "response.upload_key" Response_uploadkey;
    required std_string "response.name" Response_name;
    required a_ptime "response.created" Response_created_datetime;
    required_enum [("public", Privacy_Public); ("private", Privacy_Private)]
       "response.privacy" Response_privacy;
    required (an uint32) "response.revision" Response_revision].

(** [api/folder/create/v0.cpp:43-43 api_path] *)
Definition api_path : str := B "/api/folder/create".

(** [api/folder/create/v0.cpp:47-71 Impl] *)
Record Impl := {
  foldername_ : str;
  parent_folderkey_ : option str;
  mtime_ : option ptime;
  rename_on_name_collision_ : option OnNameCollision }.
#[local] Instance Impl_members : Members Impl := fun v =>
  Build_Impl (foldername_ v) (parent_folderkey_ v) (mtime_ v) (rename_on_name_collision_ v).

(** [api/folder/create/v0.cpp:73-78 Impl::Impl] *)
Definition new_Impl (foldername : str) : Impl :=
  {| foldername_ := foldername; parent_folderkey_ := None; mtime_ := None;
     rename_on_name_collision_ := None |}.

(** [api/folder/create/v0.cpp:231-234 Request::SetParentFolderkey] *)
Definition SetParentFolderkey (parent_folderkey : str) (i : Impl) : Impl :=
  set_field parent_folderkey_ (Some parent_folderkey) i.

(** [api/folder/create/v0.cpp:236-239 Request::SetMtime] *)
Definition SetMtime (mtime : ptime) (i : Impl) : Impl := set_field mtime_ (Some mtime) i.

(** [api/folder/create/v0.cpp:241-244 Request::SetRenameOnNameCollision] *)
Definition SetRenameOnNameCollision (rename_on_name_collision : OnNameCollision) (i : Impl) : Impl :=
  set_field rename_on_name_collision_ (Some rename_on_name_collision) i.

(** [api/folder/create/v0.cpp:80-86 Impl::BuildUrl] *)
Definition BuildUrl (query_parts : list query_part) : str * list query_part :=
  (api_path ++ B ".php", query_parts).

(** [api/folder/create/v0.cpp:67-70 Impl::GetRequestMethod] *)
Definition GetRequestMethod : RequestMethod := Post.

(** The assignments to [parts].
    [api/folder/create/v0.cpp:168-183 Impl::GetPostData] *)
Definition post_parts (i : Impl) : list query_part := make_parts
  [("foldername", Some (foldername_ i));
   ("parent_key", parent_folderkey_ i);
   ("mtime", AsString_ptime <$> mtime_ i);
   ("allow_duplicate_name", AsString_OnNameCollision <$> rename_on_name_collision_ i)].

(** [api/folder/create/v0.cpp:168-183 Impl::GetPostData] *)
Definition GetPostData (MD5 : str -> str) (a : SessionTokenApi) (i : Impl) : str :=
  MakePost MD5 a (api_path ++ B ".php") (post_parts i).

(** *** The description *)

(** [api/templates/apis/folder/v0/create.json:69-100 return_params] *)
Definition Response_described : description Response :=
  [ Required string_at "response.folder_key" Response_folderkey;
    Required string_at "response.upload_key" Response_uploadkey;
    Required string_at "response.name" Response_name;
    Required time_at "response.created" Response_created_datetime;
    Required (enum_at [("public", Privacy_Public); ("private", Privacy_Private)])
       "response.privacy" Response_privacy;
    Required (number_at uint32) "response.revision" Response_revision].

(** [api/templates/apis/folder/v0/create.json:5-17 OnNameCollision] *)
Definition AsDescribed_OnNameCollision (value : OnNameCollision) : str :=
  match value with
  | OnNameCollision_Rename => B "yes"
  | OnNameCollision_ReturnExistingFolderkey => B "no"
  end.

(** [api/templates/apis/folder/v0/create.json:45-68 input_params] *)
Definition params_described (i : Impl) : list (string * option str) :=
  [("foldername", Some (foldername_ i));
   ("parent_key", parent_folderkey_ i);
   ("mtime", iso_time <$> mtime_ i);
   ("allow_duplicate_name", (AsDescribed_OnNameCollision) <$> rename_on_name_collision_ i)].

#[global] Instance Response_parses :
  ParsesResponse ParseResponse new_Response Response_described.
Proof. parse_class. Qed.

Definition call : api_call := {|
  call_method := GetRequestMethod;
  call_uses_token := true;
  call_BuildUrl := BuildUrl;
  call_parts := post_parts;
  call_GetPostData := GetPostData;
  call_new := new_Response;
  call_ParseResponse := ParseResponse |}.

#[global] Instance call_implements :
  ImplementsCall call "/api/folder/create" true params_described Response_described.
Proof. implement_call. Qed.

End Call.
End folder_create_v0.

(** ** [api/folder/folder_delete/v0.cpp] *)
Module folder_folder_delete_v0.

(** [api/folder/folder_delete/v0.hpp:29-35 Asynchronous] *)
Inductive Asynchronous : Set := Asynchronous_Synchronous | Asynchronous_Asynchronous.
#[global] Instance Asynchronous_inhabited : Inhabited Asynchronous :=
  populate Asynchronous_Synchronous.

Section Call.
Context `{Libraries}.

(** [api/folder/folder_delete/v0.hpp:47-51 Response] *)
Record Response := {
  Response_asynchronous : Asynchronous;
  Response_device_revision : Z }.
#[local] Instance Response_members : Members Response := fun v =>
  Build_Response (Response_asynchronous v) (Response_device_revision v).
Definition new_Response : Response :=
  {| Response_asynchronous := Asynchronous_Synchronous;
     Response_device_revision := indeterminate Z _ |}.

(** [api/folder/folder_delete/v0.cpp:74-109 Impl::ParseResponse] *)
Definition ParseResponse : ResponseBase -> Response -> ResponseBase * Response :=
  parse_response
  [ assign Response_asynchronous Asynchronous_Synchronous;
    optional_enum id [("no", Asynchronous_Synchronous); ("yes", Asynchronous_Asynchronous)]
       "response.asynchronous" Response_asynchronous;
    required (an uint32) "response.device_revision" Response_device_revision].

(** [api/folder/folder_delete/v0.cpp:32-32 api_path] *)
Definition api_path : str := B "/api/folder/delete".

(** [api/folder/folder_delete/v0.cpp:36-57 Impl] *)
Record Impl := {
  folderkeys_ : str }.
#[local] Instance Impl_members : Members Impl := fun v =>
  Build_Impl (folderkeys_ v).

(** [api/folder/folder_delete/v0.cpp:59-64 Impl::Impl] *)
Definition new_Impl (folderkeys : str) : Impl :=
  {| folderkeys_ := folderkeys |}.

(** [api/folder/folder_delete/v0.cpp:66-72 Impl::BuildUrl] *)
Definition BuildUrl (query_parts : list query_part) : str * list query_part :=
  (api_path ++ B ".php", query_parts).

(** [api/folder/folder_delete/v0.cpp:53-56 Impl::GetRequestMethod] *)
Definition GetRequestMethod : RequestMethod := Post.

(** The assignments to [parts].
    [api/folder/folder_delete/v0.cpp:111-120 Impl::GetPostData] *)
Definition post_parts (i : Impl) : list query_part := make_parts
  [("folder_key", Some (folderkeys_ i))].

(** [api/folder/folder_delete/v0.cpp:111-120 Impl::GetPostData] *)
Definition GetPostData (MD5 : str -> str) (a : SessionTokenApi) (i : Impl) : str :=
  MakePost MD5 a (api_path ++ B ".php") (post_parts i).

(** *** The description *)

(** [api/templates/apis/folder/v0/delete.json:26-38 return_params] *)
Definition Response_described : description Response :=
  [ Default Asynchronous_Synchronous (enum_at [("no", Asynchronous_Synchronous);
       ("yes", Asynchronous_Asynchronous)]) "response.asynchronous" Response_asynchronous;
    Required (number_at uint32) "response.device_revision" Response_device_revision].

(** [api/templates/apis/folder/v0/delete.json:19-25 input_params] *)
Definition params_described (i : Impl) : list (string * option str) :=
  [("folder_key", Some (folderkeys_ i))].

#[global] Instance Response_parses :
  ParsesResponse ParseResponse new_Response Response_described.
Proof. parse_class. Qed.

Definition call : api_call := {|
  call_method := GetRequestMethod;
  call_uses_token := true;
  call_BuildUrl := BuildUrl;
  call_parts := post_parts;
  call_GetPostData := GetPostData;
  call_new := new_Response;
  call_ParseResponse := ParseResponse |}.

#[global] Instance call_implements :
  ImplementsCall call "/api/folder/delete" true params_described Response_described.
Proof. implement_call. Qed.

End Call.
End folder_folder_delete_v0.

(** ** [api/folder/get_content/v0.cpp] *)
Module folder_get_content_v0.

(** [api/folder/get_content/v0.hpp:29-35 ContentType] *)
Inductive ContentType : Set := ContentType_Folders | ContentType_Files.
#[global] Instance ContentType_inhabited : Inhabited ContentType := populate ContentType_Folders.

(** [api/folder/get_content/v0.hpp:37-47 OrderBy] *)
Inductive OrderBy : Set := OrderBy_Name | OrderBy_Created | OrderBy_Size | OrderBy_Downloads.
#[global] Instance OrderBy_inhabited : Inhabited OrderBy := populate OrderBy_Name.

(** [api/folder/get_content/v0.hpp:49-55 OrderDirection] *)
Inductive OrderDirection : Set := OrderDirection_Ascending | OrderDirection_Descending.
#[global] Instance OrderDirection_inhabited : Inhabited OrderDirection :=
  populate OrderDirection_Ascending.

(** [api/folder/get_content/v0.hpp:57-65 Details] *)
Inductive Details : Set := Details_NoDetails | Details_PopulateDetails | Details_ShallowDetails.
#[global] Instance Details_inhabited : Inhabited Details := populate Details_NoDetails.

(** [api/folder/get_content/v0.hpp:67-73 Privacy] *)
Inductive Privacy : Set := Privacy_Public | Privacy_Private.
#[global] Instance Privacy_inhabited : Inhabited Privacy := populate Privacy_Public.

(** [api/folder/get_content/v0.hpp:75-81 FileDrop] *)
Inductive FileDrop : Set := FileDrop_Disabled | FileDrop_Enabled.
#[global] Instance FileDrop_inhabited : Inhabited FileDrop := populate FileDrop_Disabled.

(** [api/folder/get_content/v0.hpp:83-89 PasswordProtected] *)
Inductive PasswordProtected : Set := PasswordProtected_Unprotected | PasswordProtected_Protected.
#[global] Instance PasswordProtected_inhabited : Inhabited PasswordProtected :=
  populate PasswordProtected_Unprotected.

(** [api/folder/get_content/v0.hpp:91-97 SharedByUser] *)
Inductive SharedByUser : Set := SharedByUser_Unshared | SharedByUser_Shared.
#[global] Instance SharedByUser_inhabited : Inhabited SharedByUser :=
  populate SharedByUser_Unshared.

(** [api/folder/get_content/v0.hpp:99-105 SharedWithUser] *)
Inductive SharedWithUser : Set := SharedWithUser_UserIsOwner | SharedWithUser_SharedWithUser.
#[global] Instance SharedWithUser_inhabited : Inhabited SharedWithUser :=
  populate SharedWithUser_UserIsOwner.

(** [api/folder/get_content/v0.hpp:107-113 ExplicitShare] *)
Inductive ExplicitShare : Set := ExplicitShare_No | ExplicitShare_Yes.
#[global] Instance ExplicitShare_inhabited : Inhabited ExplicitShare := populate ExplicitShare_No.

(** [api/folder/get_content/v0.hpp:115-121 Permission] *)
Inductive Permission : Set := Permission_Allowed | Permission_Denied.
#[global] Instance Permission_inhabited : Inhabited Permission := populate Permission_Allowed.

(** [api/folder/get_content/v0.cpp:24-31 AsString] *)
Definition AsString_ContentType (value : ContentType) : str :=
  match value with
  | ContentType_Folders => B "folders"
  | ContentType_Files => B "files"
  end.

(** [api/folder/get_content/v0.cpp:32-43 AsString] *)
Definition AsString_OrderBy (value : OrderBy) : str :=
  match value with
  | OrderBy_Name => B "name"
  | OrderBy_Created => B "created"
  | OrderBy_Size => B "size"
  | OrderBy_Downloads => B "downloads"
  end.

(** [api/folder/get_content/v0.cpp:44-51 AsString] *)
Definition AsString_OrderDirection (value : OrderDirection) : str :=
  match value with
  | OrderDirection_Ascending => B "asc"
  | OrderDirection_Descending => B "desc"
  end.

(** [api/folder/get_content/v0.cpp:52-61 AsString] *)
Definition AsString_Details (value : Details) : str :=
  match value with
  | Details_NoDetails => B "no"
  | Details_PopulateDetails => B "yes"
  | Details_ShallowDetails => B "shallow"
  end.

Section Call.
Context `{Libraries}.

(** [api/folder/get_content/v0.hpp:130-146 Links] *)
Record Links := {
  Links_direct_download : option str;
  Links_edit : option str;
  Links_normal_download : option str;
  Links_one_time_download : option str;
  Links_view : option str }.
#[local] Instance Links_members : Members Links := fun v =>
  Build_Links (Links_direct_download v) (Links_edit v) (Links_normal_download v)
    (Links_one_time_download v) (Links_view v).
Definition new_Links : Links :=
  {| Links_direct_download := None; Links_edit := None; Links_normal_download := None;
     Links_one_time_download := None; Links_view := None |}.

(** [api/folder/get_content/v0.hpp:147-160 Permissions] *)
Record Permissions := {
  Permissions_value : Z;
  Permissions_explicit_share : ExplicitShare;
  Permissions_read_permission : Permission;
  Permissions_write_permission : Permission }.
#[local] Instance Permissions_members : Members Permissions := fun v =>
  Build_Permissions (Permissions_value v) (Permissions_explicit_share v)
    (Permissions_read_permission v) (Permissions_write_permission v).
Definition new_Permissions : Permissions :=
  {| Permissions_value := indeterminate Z _;
     Permissions_explicit_share := indeterminate ExplicitShare _;
     Permissions_read_permission := indeterminate Permission _;
     Permissions_write_permission := indeterminate Permission _ |}.

(** [api/folder/get_content/v0.hpp:161-219 File] *)
Record File := {
  File_created_datetime : ptime;
  File_deleted_datetime : ptime;
  File_description : option str;
  File_download_count : Z;
  File_filename : str;
  File_filesize : Z;
  File_filetype : str;
  File_flag : Z;
  File_hash : str;
  File_links : Links;
  File_mimetype : str;
  File_password_protected : PasswordProtected;
  File_permissions : option Permissions;
  File_privacy : Privacy;
  File_quickkey : str;
  File_revision : Z;
  File_shared_by_user : SharedByUser;
  File_shared_with_user : SharedWithUser;
  File_views : Z }.
#[local] Instance File_members : Members File := fun v =>
  Build_File (File_created_datetime v) (File_deleted_datetime v) (File_description v)
    (File_download_count v) (File_filename v) (File_filesize v) (File_filetype v) (File_flag v)
    (File_hash v) (File_links v) (File_mimetype v) (File_password_protected v)
    (File_permissions v) (File_privacy v) (File_quickkey v) (File_revision v)
    (File_shared_by_user v) (File_shared_with_user v) (File_views v).
Definition new_File : File :=
  {| File_created_datetime := not_a_date; File_deleted_datetime := not_a_date;
     File_description := None; File_download_count := indeterminate Z _; File_filename := [];
     File_filesize := indeterminate Z _; File_filetype := []; File_flag := indeterminate Z _;
     File_hash := []; File_links := new_Links; File_mimetype := [];
     File_password_protected := indeterminate PasswordProtected _; File_permissions := None;
     File_privacy := indeterminate Privacy _; File_quickkey := [];
     File_revision := indeterminate Z _; File_shared_by_user := indeterminate SharedByUser _;
     File_shared_with_user := indeterminate SharedWithUser _; File_views := indeterminate Z _ |}.

(** [api/folder/get_content/v0.hpp:220-275 Folder] *)
Record Folder := {
  Folder_created_datetime : ptime;
  Folder_deleted_datetime : ptime;
  Folder_description : option str;
  Folder_file_count : Z;
  Folder_filedrop : FileDrop;
  Folder_flag : Z;
  Folder_folder_count : Z;
  Folder_folderkey : str;
  Folder_name : str;
  Folder_permissions : option Permissions;
  Folder_privacy : Privacy;
  Folder_revision : Z;
  Folder_shared_by_user : SharedByUser;
  Folder_shared_with_user : SharedWithUser;
  Folder_tags : option str;
  Folder_total_files : option Z;
  Folder_total_folders : option Z;
  Folder_total_size : option Z }.
#[local] Instance Folder_members : Members Folder := fun v =>
  Build_Folder (Folder_created_datetime v) (Folder_deleted_datetime v) (Folder_description v)
    (Folder_file_count v) (Folder_filedrop v) (Folder_flag v) (Folder_folder_count v)
    (Folder_folderkey v) (Folder_name v) (Folder_permissions v) (Folder_privacy v)
    (Folder_revision v) (Folder_shared_by_user v) (Folder_shared_with_user v) (Folder_tags v)
    (Folder_total_files v) (Folder_total_folders v) (Folder_total_size v).
Definition new_Folder : Folder :=
  {| Folder_created_datetime := not_a_date; Folder_deleted_datetime := not_a_date;
     Folder_description := None; Folder_file_count := indeterminate Z _;
     Folder_filedrop := indeterminate FileDrop _; Folder_flag := indeterminate Z _;
     Folder_folder_count := indeterminate Z _; Folder_folderkey := []; Folder_name := [];
     Folder_permissions := None; Folder_privacy := indeterminate Privacy _;
     Folder_revision := indeterminate Z _; Folder_shared_by_user := indeterminate SharedByUser _;
     Folder_shared_with_user := indeterminate SharedWithUser _; Folder_tags := None;
     Folder_total_files := None; Folder_total_folders := None; Folder_total_size := None |}.

(** [api/folder/get_content/v0.cpp:69-149 LinksFromPropertyBranch] *)
Definition LinksFromPropertyBranch : branch_parser Links := FromPropertyBranch
  [ optional std_string "direct_download" Links_direct_download;
    optional std_string "edit" Links_edit;
    optional std_string "normal_download" Links_normal_download;
    optional std_string "one_time_download" Links_one_time_download;
    optional std_string "view" Links_view].

(** [api/folder/get_content/v0.cpp:152-250 PermissionsFromPropertyBranch] *)
Definition PermissionsFromPropertyBranch : branch_parser Permissions := FromPropertyBranch
  [ required (an uint32) "value" Permissions_value;
    required_enum [("0", ExplicitShare_No); ("1", ExplicitShare_Yes)]
       "explicit" Permissions_explicit_share;
    required_enum [("1", Permission_Allowed); ("0", Permission_Denied)]
       "read" Permissions_read_permission;
    required_enum [("1", Permission_Allowed); ("0", Permission_Denied)]
       "write" Permissions_write_permission].

(** [api/folder/get_content/v0.cpp:253-513 FileFromPropertyBranch] *)
Definition FileFromPropertyBranch : branch_parser File := FromPropertyBranch
  [ assign File_deleted_datetime not_a_date;
    assign File_mimetype [];
    assign File_shared_by_user SharedByUser_Unshared;
    assign File_shared_with_user SharedWithUser_UserIsOwner;
    required a_ptime "created" File_created_datetime;
    with_default a_ptime "delete_date" File_deleted_datetime;
    optional std_string "description" File_description;
    required (an uint32) "downloads" File_download_count;
    required std_string "filename" File_filename;
    required (an uint64) "size" File_filesize;
    required std_string "filetype" File_filetype;
    required (an uint32) "flag" File_flag;
    required std_string "hash" File_hash;
    required_struct LinksFromPropertyBranch new_Links "links" File_links;
    with_default std_string "mimetype" File_mimetype;
    required_enum [("no", PasswordProtected_Unprotected); ("yes", PasswordProtected_Protected)]
       "password_protected" File_password_protected;
    optional_struct PermissionsFromPropertyBranch new_Permissions "permissions" File_permissions;
    required_enum [("public", Privacy_Public); ("private", Privacy_Private)]
       "privacy" File_privacy;
    required std_string "quickkey" File_quickkey;
    required (an uint32) "revision" File_revision;
    optional_enum id [("", SharedByUser_Unshared); ("1", SharedByUser_Shared)]
       "shared_by_user" File_shared_by_user;
    optional_enum id [("no", SharedWithUser_UserIsOwner);
       ("yes", SharedWithUser_SharedWithUser)] "shared" File_shared_with_user;
    required (an uint32) "views" File_views].

(** [api/folder/get_content/v0.cpp:516-761 FolderFromPropertyBranch] *)
Definition FolderFromPropertyBranch : branch_parser Folder := FromPropertyBranch
  [ assign Folder_deleted_datetime not_a_date;
    assign Folder_shared_by_user SharedByUser_Unshared;
    assign Folder_shared_with_user SharedWithUser_UserIsOwner;
    required a_ptime "created" Folder_created_datetime;
    with_default a_ptime "delete_date" Folder_deleted_datetime;
    optional std_string "description" Folder_description;
    required (an uint32) "file_count" Folder_file_count;
    required_enum [("no", FileDrop_Disabled); ("yes", FileDrop_Enabled)]
       "dropbox_enabled" Folder_filedrop;
    required (an uint32) "flag" Folder_flag;
    required (an uint32) "folder_count" Folder_folder_count;
    required std_string "folderkey" Folder_folderkey;
    required std_string "name" Folder_name;
    optional_struct PermissionsFromPropertyBranch new_Permissions "permissions"
       Folder_permissions;
    required_enum [("public", Privacy_Public); ("private", Privacy_Private)]
       "privacy" Folder_privacy;
    required (an uint32) "revision" Folder_revision;
    optional_enum id [("", SharedByUser_Unshared); ("1", SharedByUser_Shared)]
       "shared_by_user" Folder_shared_by_user;
    optional_enum id [("no", SharedWithUser_UserIsOwner);
       ("yes", SharedWithUser_SharedWithUser)] "shared" Folder_shared_with_user;
    optional std_string "tags" Folder_tags;
    optional (an uint32) "total_files" Folder_total_files;
    optional (an uint32) "total_folders" Folder_total_folders;
    optional (an uint64) "total_size" Folder_total_size].

(** [api/folder/get_content/v0.hpp:276-289 Response] *)
Record Response := {
  Response_chunk_size : Z;
  Response_content_type : ContentType;
  Response_chunk_number : Z;
  Response_files : list File;
  Response_folders : list Folder }.
#[local] Instance Response_members : Members Response := fun v =>
  Build_Response (Response_chunk_size v) (Response_content_type v) (Response_chunk_number v)
    (Response_files v) (Response_folders v).
Definition new_Response : Response :=
  {| Response_chunk_size := indeterminate Z _;
     Response_content_type := indeterminate ContentType _;
     Response_chunk_number := indeterminate Z _; Response_files := []; Response_folders := [] |}.

(** [api/folder/get_content/v0.cpp:826-915 Impl::ParseResponse] *)
Definition ParseResponse : ResponseBase -> Response -> ResponseBase * Response :=
  parse_response
  [ required (an uint32) "response.folder_content.chunk_size" Response_chunk_size;
    required_enum [("folders", ContentType_Folders); ("files", ContentType_Files)]
       "response.folder_content.content_type" Response_content_type;
    required (an uint32) "response.folder_content.chunk_number" Response_chunk_number;
    optional_structs FileFromPropertyBranch new_File "response.folder_content.files"
       Response_files;
    optional_structs FolderFromPropertyBranch new_Folder "response.folder_content.folders"
       Response_folders].

(** [api/folder/get_content/v0.cpp:771-771 api_path] *)
Definition api_path : str := B "/api/folder/get_content".

(** [api/folder/get_content/v0.cpp:775-805 Impl] *)
Record Impl := {
  folder_key_ : str;
  chunk_number_ : Z;
  content_type_ : ContentType;
  device_id_ : option Z;
  order_by_ : option OrderBy;
  order_direction_ : option OrderDirection;
  filter_ : option str;
  details_ : option Details }.
#[local] Instance Impl_members : Members Impl := fun v =>
  Build_Impl (folder_key_ v) (chunk_number_ v) (content_type_ v) (device_id_ v) (order_by_ v)
    (order_direction_ v) (filter_ v) (details_ v).

(** [api/folder/get_content/v0.cpp:807-816 Impl::Impl] *)
Definition new_Impl (folder_key : str) (chunk_number : Z) (content_type : ContentType) : Impl :=
  {| folder_key_ := folder_key; chunk_number_ := chunk_number; content_type_ := content_type;
     device_id_ := None; order_by_ := None; order_direction_ := None; filter_ := None;
     details_ := None |}.

(** [api/folder/get_content/v0.cpp:988-991 Request::SetDeviceId] *)
Definition SetDeviceId (device_id : Z) (i : Impl) : Impl :=
  set_field device_id_ (Some device_id) i.

(** [api/folder/get_content/v0.cpp:993-996 Request::SetOrderBy] *)
Definition SetOrderBy (order_by : OrderBy) (i : Impl) : Impl :=
  set_field order_by_ (Some order_by) i.

(** [api/folder/get_content/v0.cpp:998-1001 Request::SetOrderDirection] *)
Definition SetOrderDirection (order_direction : OrderDirection) (i : Impl) : Impl :=
  set_field order_direction_ (Some order_direction) i.

(** [api/folder/get_content/v0.cpp:1003-1006 Request::SetFilter] *)
Definition SetFilter (filter : str) (i : Impl) : Impl := set_field filter_ (Some filter) i.

(** [api/folder/get_content/v0.cpp:1008-1011 Request::SetDetails] *)
Definition SetDetails (details : Details) (i : Impl) : Impl :=
  set_field details_ (Some details) i.

(** [api/folder/get_content/v0.cpp:818-824 Impl::BuildUrl] *)
Definition BuildUrl (query_parts : list query_part) : str * list query_part :=
  (api_path ++ B ".php", query_parts).

(** [api/folder/get_content/v0.cpp:801-804 Impl::GetRequestMethod] *)
Definition GetRequestMethod : RequestMethod := Post.

(** The assignments to [parts].
    [api/folder/get_content/v0.cpp:917-938 Impl::GetPostData] *)
Definition post_parts (i : Impl) : list query_part := make_parts
  [("folder_key", Some (folder_key_ i));
   ("chunk", Some (print_int (chunk_number_ i)));
   ("content_type", Some (AsString_ContentType (content_type_ i)));
   ("device_id", print_int <$> device_id_ i);
   ("order_by", AsString_OrderBy <$> order_by_ i);
   ("order_direction", AsString_OrderDirection <$> order_direction_ i);
   ("filter", filter_ i);
   ("details", AsString_Details <$> details_ i)].

(** [api/folder/get_content/v0.cpp:917-938 Impl::GetPostData] *)
Definition GetPostData (MD5 : str -> str) (a : SessionTokenApi) (i : Impl) : str :=
  MakePost MD5 a (api_path ++ B ".php") (post_parts i).

(** *** The description *)

(** [api/templates/apis/folder/v0/get_content.json:162-196 Links] *)
Definition Links_described : description Links :=
  [ Optional string_at "direct_download" Links_direct_download;
    Optional string_at "edit" Links_edit;
    Optional string_at "normal_download" Links_normal_download;
    Optional string_at "one_time_download" Links_one_time_download;
    Optional string_at "view" Links_view].

(** [api/templates/apis/folder/v0/get_content.json:197-221 Permissions] *)
Definition Permissions_described : description Permissions :=
  [ Required (number_at uint32) "value" Permissions_value;
    Required (enum_at [("0", ExplicitShare_No); ("1", ExplicitShare_Yes)])
       "explicit" Permissions_explicit_share;
    Required (enum_at [("1", Permission_Allowed); ("0", Permission_Denied)])
       "read" Permissions_read_permission;
    Required (enum_at [("1", Permission_Allowed); ("0", Permission_Denied)])
       "write" Permissions_write_permission].

(** [api/templates/apis/folder/v0/get_content.json:222-327 File] *)
Definition File_described : description File :=
  [ Required time_at "created" File_created_datetime;
    Default not_a_date time_at "delete_date" File_deleted_datetime;
    Optional string_at "description" File_description;
    Required (number_at uint32) "downloads" File_download_count;
    Required string_at "filename" File_filename;
    Required (number_at uint64) "size" File_filesize;
    Required string_at "filetype" File_filetype;
    Required (number_at uint32) "flag" File_flag;
    Required string_at "hash" File_hash;
    RequiredStruct Links_described "links" File_links;
    Default [] string_at "mimetype" File_mimetype;
    Required (enum_at [("no", PasswordProtected_Unprotected);
       ("yes", PasswordProtected_Protected)]) "password_protected" File_password_protected;
    OptionalStruct Permissions_described "permissions" File_permissions;
    Required (enum_at [("public", Privacy_Public); ("private", Privacy_Private)])
       "privacy" File_privacy;
    Required string_at "quickkey" File_quickkey;
    Required (number_at uint32) "revision" File_revision;
    Default SharedByUser_Unshared (enum_at [("", SharedByUser_Unshared);
       ("1", SharedByUser_Shared)]) "shared_by_user" File_shared_by_user;
    Default SharedWithUser_UserIsOwner (enum_at [("no", SharedWithUser_UserIsOwner);
       ("yes", SharedWithUser_SharedWithUser)]) "shared" File_shared_with_user;
    Required (number_at uint32) "views" File_views].

(** [api/templates/apis/folder/v0/get_content.json:328-431 Folder] *)
Definition Folder_described : description Folder :=
  [ Required time_at "created" Folder_created_datetime;
    Default not_a_date time_at "delete_date" Folder_deleted_datetime;
    Optional string_at "description" Folder_description;
    Required (number_at uint32) "file_count" Folder_file_count;
    Required (enum_at [("no", FileDrop_Disabled); ("yes", FileDrop_Enabled)])
       "dropbox_enabled" Folder_filedrop;
    Required (number_at uint32) "flag" Folder_flag;
    Required (number_at uint32) "folder_count" Folder_folder_count;
    Required string_at "folderkey" Folder_folderkey;
    Required string_at "name" Folder_name;
    OptionalStruct Permissions_described "permissions" Folder_permissions;
    Required (enum_at [("public", Privacy_Public); ("private", Privacy_Private)])
       "privacy" Folder_privacy;
    Required (number_at uint32) "revision" Folder_revision;
    Default SharedByUser_Unshared (enum_at [("", SharedByUser_Unshared);
       ("1", SharedByUser_Shared)]) "shared_by_user" Folder_shared_by_user;
    Default SharedWithUser_UserIsOwner (enum_at [("no", SharedWithUser_UserIsOwner);
       ("yes", SharedWithUser_SharedWithUser)]) "shared" Folder_shared_with_user;
    Optional string_at "tags" Folder_tags;
    Optional (number_at uint32) "total_files" Folder_total_files;
    Optional (number_at uint32) "total_folders" Folder_total_folders;
    Optional (number_at uint64) "total_size" Folder_total_size].

(** [api/templates/apis/folder/v0/get_content.json:477-507 return_params] *)
Definition Response_described : description Response :=
  [ Required (number_at uint32) "response.folder_content.chunk_size" Response_chunk_size;
    Required (enum_at [("folders", ContentType_Folders); ("files", ContentType_Files)])
       "response.folder_content.content_type" Response_content_type;
    Required (number_at uint32) "response.folder_content.chunk_number" Response_chunk_number;
    OptionalStructs File_described "response.folder_content.files" Response_files;
    OptionalStructs Folder_described "response.folder_content.folders" Response_folders].

(** [api/templates/apis/folder/v0/get_content.json:5-17 ContentType] *)
Definition AsDescribed_ContentType (value : ContentType) : str :=
  match value with
  | ContentType_Folders => B "folders"
  | ContentType_Files => B "files"
  end.

(** [api/templates/apis/folder/v0/get_content.json:18-38 OrderBy] *)
Definition AsDescribed_OrderBy (value : OrderBy) : str :=
  match value with
  | OrderBy_Name => B "name"
  | OrderBy_Created => B "created"
  | OrderBy_Size => B "size"
  | OrderBy_Downloads => B "downloads"
  end.

(** [api/templates/apis/folder/v0/get_content.json:39-51 OrderDirection] *)
Definition AsDescribed_OrderDirection (value : OrderDirection) : str :=
  match value with
  | OrderDirection_Ascending => B "asc"
  | OrderDirection_Descending => B "desc"
  end.

(** [api/templates/apis/folder/v0/get_content.json:52-68 Details] *)
Definition AsDescribed_Details (value : Details) : str :=
  match value with
  | Details_NoDetails => B "no"
  | Details_PopulateDetails => B "yes"
  | Details_ShallowDetails => B "shallow"
  end.

(** [api/templates/apis/folder/v0/get_content.json:433-476 input_params] *)
Definition params_described (i : Impl) : list (string * option str) :=
  [("folder_key", Some (folder_key_ i));
   ("chunk", Some (print_int (chunk_number_ i)));
   ("content_type", Some ((AsDescribed_ContentType) (content_type_ i)));
   ("device_id", print_int <$> device_id_ i);
   ("order_by", (AsDescribed_OrderBy) <$> order_by_ i);
   ("order_direction", (AsDescribed_OrderDirection) <$> order_direction_ i);
   ("filter", filter_ i);
   ("details", (AsDescribed_Details) <$> details_ i)].

#[global] Instance Links_parses : Parses LinksFromPropertyBranch new_Links Links_described.
Proof. parse_class. Qed.
#[global] Instance Permissions_parses : Parses PermissionsFromPropertyBranch new_Permissions
  Permissions_described.
Proof. parse_class. Qed.
#[global] Instance File_parses : Parses FileFromPropertyBranch new_File File_described.
Proof. parse_class. Qed.
#[global] Instance Folder_parses : Parses FolderFromPropertyBranch new_Folder Folder_described.
Proof. parse_class. Qed.
#[global] Instance Response_parses :
  ParsesResponse ParseResponse new_Response Response_described.
Proof. parse_class. Qed.

Definition call : api_call := {|
  call_method := GetRequestMethod;
  call_uses_token := true;
  call_BuildUrl := BuildUrl;
  call_parts := post_parts;
  call_GetPostData := GetPostData;
  call_new := new_Response;
  call_ParseResponse := ParseResponse |}.

#[global] Instance call_implements :
  ImplementsCall call "/api/folder/get_content" true params_described Response_described.
Proof. implement_call. Qed.

End Call.
End folder_get_content_v0.

(** ** [api/folder/get_content/v1_0.cpp] *)
Module folder_get_content_v1_0.

(** [api/folder/get_content/v1_0.hpp:29-35 ContentType] *)
Inductive ContentType : Set := ContentType_Folders | ContentType_Files.
#[global] Instance ContentType_inhabited : Inhabited ContentType := populate ContentType_Folders.

(** [api/folder/get_content/v1_0.hpp:37-47 OrderBy] *)
Inductive OrderBy : Set := OrderBy_Name | OrderBy_Created | OrderBy_Size | OrderBy_Downloads.
#[global] Instance OrderBy_inhabited : Inhabited OrderBy := populate OrderBy_Name.

(** [api/folder/get_content/v1_0.hpp:49-55 OrderDirection] *)
Inductive OrderDirection : Set := OrderDirection_Ascending | OrderDirection_Descending.
#[global] Instance OrderDirection_inhabited : Inhabited OrderDirection :=
  populate OrderDirection_Ascending.

(** [api/folder/get_content/v1_0.hpp:57-65 Details] *)
Inductive Details : Set := Details_NoDetails | Details_PopulateDetails | Details_ShallowDetails.
#[global] Instance Details_inhabited : Inhabited Details := populate Details_NoDetails.

(** [api/folder/get_content/v1_0.hpp:67-73 Privacy] *)
Inductive Privacy : Set := Privacy_Public | Privacy_Private.
#[global] Instance Privacy_inhabited : Inhabited Privacy := populate Privacy_Public.

(** [api/folder/get_content/v1_0.hpp:75-81 FileDrop] *)
Inductive FileDrop : Set := FileDrop_Disabled | FileDrop_Enabled.
#[global] Instance FileDrop_inhabited : Inhabited FileDrop := populate FileDrop_Disabled.

(** [api/folder/get_content/v1_0.hpp:83-89 PasswordProtected] *)
Inductive PasswordProtected : Set := PasswordProtected_Unprotected | PasswordProtected_Protected.
#[global] Instance PasswordProtected_inhabited : Inhabited PasswordProtected :=
  populate PasswordProtected_Unprotected.

(** [api/folder/get_content/v1_0.hpp:91-97 SharedByUser] *)
Inductive SharedByUser : Set := SharedByUser_Unshared | SharedByUser_Shared.
#[global] Instance SharedByUser_inhabited : Inhabited SharedByUser :=
  populate SharedByUser_Unshared.

(** [api/folder/get_content/v1_0.hpp:99-105 SharedWithUser] *)
Inductive SharedWithUser : Set := SharedWithUser_UserIsOwner | SharedWithUser_SharedWithUser.
#[global] Instance SharedWithUser_inhabited : Inhabited SharedWithUser :=
  populate SharedWithUser_UserIsOwner.

(** [api/folder/get_content/v1_0.hpp:107-113 ExplicitShare] *)
Inductive ExplicitShare : Set := ExplicitShare_No | ExplicitShare_Yes.
#[global] Instance ExplicitShare_inhabited : Inhabited ExplicitShare := populate ExplicitShare_No.

(** [api/folder/get_content/v1_0.hpp:115-121 Permission] *)
Inductive Permission : Set := Permission_Allowed | Permission_Denied.
#[global] Instance Permission_inhabited : Inhabited Permission := populate Permission_Allowed.

(** [api/folder/get_content/v1_0.cpp:24-31 AsString] *)
Definition AsString_ContentType (value : ContentType) : str :=
  match value with
  | ContentType_Folders => B "folders"
  | ContentType_Files => B "files"
  end.

(** [api/folder/get_content/v1_0.cpp:32-43 AsString] *)
Definition AsString_OrderBy (value : OrderBy) : str :=
  match value with
  | OrderBy_Name => B "name"
  | OrderBy_Created => B "created"
  | OrderBy_Size => B "size"
  | OrderBy_Downloads => B "downloads"
  end.

(** [api/folder/get_content/v1_0.cpp:44-51 AsString] *)
Definition AsString_OrderDirection (value : OrderDirection) : str :=
  match value with
  | OrderDirection_Ascending => B "asc"
  | OrderDirection_Descending => B "desc"
  end.

(** [api/folder/get_content/v1_0.cpp:52-61 AsString] *)
Definition AsString_Details (value : Details) : str :=
  match value with
  | Details_NoDetails => B "no"
  | Details_PopulateDetails => B "yes"
  | Details_ShallowDetails => B "shallow"
  end.

Section Call.
Context `{Libraries}.

(** [api/folder/get_content/v1_0.hpp:130-146 Links] *)
Record Links := {
  Links_direct_download : option str;
  Links_edit : option str;
  Links_normal_download : option str;
  Links_one_time_download : option str;
  Links_view : option str }.
#[local] Instance Links_members : Members Links := fun v =>
  Build_Links (Links_direct_download v) (Links_edit v) (Links_normal_download v)
    (Links_one_time_download v) (Links_view v).
Definition new_Links : Links :=
  {| Links_direct_download := None; Links_edit := None; Links_normal_download := None;
     Links_one_time_download := None; Links_view := None |}.

(** [api/folder/get_content/v1_0.hpp:147-160 Permissions] *)
Record Permissions := {
  Permissions_value : Z;
  Permissions_explicit_share : ExplicitShare;
  Permissions_read_permission : Permission;
  Permissions_write_permission : Permission }.
#[local] Instance Permissions_members : Members Permissions := fun v =>
  Build_Permissions (Permissions_value v) (Permissions_explicit_share v)
    (Permissions_read_permission v) (Permissions_write_permission v).
Definition new_Permissions : Permissions :=
  {| Permissions_value := indeterminate Z _;
     Permissions_explicit_share := indeterminate ExplicitShare _;
     Permissions_read_permission := indeterminate Permission _;
     Permissions_write_permission := indeterminate Permission _ |}.

(** [api/folder/get_content/v1_0.hpp:161-219 File] *)
Record File := {
  File_created_datetime : ptime;
  File_deleted_datetime : ptime;
  File_description : option str;
  File_download_count : Z;
  File_filename : str;
  File_filesize : Z;
  File_filetype : str;
  File_flag : Z;
  File_hash : str;
  File_links : Links;
  File_mimetype : str;
  File_password_protected : PasswordProtected;
  File_permissions : option Permissions;
  File_privacy : Privacy;
  File_quickkey : str;
  File_revision : Z;
  File_shared_by_user : SharedByUser;
  File_shared_with_user : SharedWithUser;
  File_views : Z }.
#[local] Instance File_members : Members File := fun v =>
  Build_File (File_created_datetime v) (File_deleted_datetime v) (File_description v)
    (File_download_count v) (File_filename v) (File_filesize v) (File_filetype v) (File_flag v)
    (File_hash v) (File_links v) (File_mimetype v) (File_password_protected v)
    (File_permissions v) (File_privacy v) (File_quickkey v) (File_revision v)
    (File_shared_by_user v) (File_shared_with_user v) (File_views v).
Definition new_File : File :=
  {| File_created_datetime := not_a_date; File_deleted_datetime := not_a_date;
     File_description := None; File_download_count := indeterminate Z _; File_filename := [];
     File_filesize := indeterminate Z _; File_filetype := []; File_flag := indeterminate Z _;
     File_hash := []; File_links := new_Links; File_mimetype := [];
     File_password_protected := indeterminate PasswordProtected _; File_permissions := None;
     File_privacy := indeterminate Privacy _; File_quickkey := [];
     File_revision := indeterminate Z _; File_shared_by_user := indeterminate SharedByUser _;
     File_shared_with_user := indeterminate SharedWithUser _; File_views := indeterminate Z _ |}.

(** [api/folder/get_content/v1_0.hpp:220-275 Folder] *)
Record Folder := {
  Folder_created_datetime : ptime;
  Folder_deleted_datetime : ptime;
  Folder_description : option str;
  Folder_file_count : Z;
  Folder_filedrop : FileDrop;
  Folder_flag : Z;
  Folder_folder_count : Z;
  Folder_folderkey : str;
  Folder_name : str;
  Folder_permissions : option Permissions;
  Folder_privacy : Privacy;
  Folder_revision : Z;
  Folder_shared_by_user : SharedByUser;
  Folder_shared_with_user : SharedWithUser;
  Folder_tags : option str;
  Folder_total_files : option Z;
  Folder_total_folders : option Z;
  Folder_total_size : option Z }.
#[local] Instance Folder_members : Members Folder := fun v =>
  Build_Folder (Folder_created_datetime v) (Folder_deleted_datetime v) (Folder_description v)
    (Folder_file_count v) (Folder_filedrop v) (Folder_flag v) (Folder_folder_count v)
    (Folder_folderkey v) (Folder_name v) (Folder_permissions v) (Folder_privacy v)
    (Folder_revision v) (Folder_shared_by_user v) (Folder_shared_with_user v) (Folder_tags v)
    (Folder_total_files v) (Folder_total_folders v) (Folder_total_size v).
Definition new_Folder : Folder :=
  {| Folder_created_datetime := not_a_date; Folder_deleted_datetime := not_a_date;
     Folder_description := None; Folder_file_count := indeterminate Z _;
     Folder_filedrop := indeterminate FileDrop _; Folder_flag := indeterminate Z _;
     Folder_folder_count := indeterminate Z _; Folder_folderkey := []; Folder_name := [];
     Folder_permissions := None; Folder_privacy := indeterminate Privacy _;
     Folder_revision := indeterminate Z _; Folder_shared_by_user := indeterminate SharedByUser _;
     Folder_shared_with_user := indeterminate SharedWithUser _; Folder_tags := None;
     Folder_total_files := None; Folder_total_folders := None; Folder_total_size := None |}.

(** [api/folder/get_content/v1_0.cpp:69-149 LinksFromPropertyBranch] *)
Definition LinksFromPropertyBranch : branch_parser Links := FromPropertyBranch
  [ optional std_string "direct_download" Links_direct_download;
    optional std_string "edit" Links_edit;
    optional std_string "normal_download" Links_normal_download;
    optional std_string "one_time_download" Links_one_time_download;
    optional std_string "view" Links_view].

(** [api/folder/get_content/v1_0.cpp:152-250 PermissionsFromPropertyBranch] *)
Definition PermissionsFromPropertyBranch : branch_parser Permissions := FromPropertyBranch
  [ required (an uint32) "value" Permissions_value;
    required_enum [("0", ExplicitShare_No); ("1", ExplicitShare_Yes)]
       "explicit" Permissions_explicit_share;
    required_enum [("1", Permission_Allowed); ("0", Permission_Denied)]
       "read" Permissions_read_permission;
    required_enum [("1", Permission_Allowed); ("0", Permission_Denied)]
       "write" Permissions_write_permission].

(** [api/folder/get_content/v1_0.cpp:253-513 FileFromPropertyBranch] *)
Definition FileFromPropertyBranch : branch_parser File := FromPropertyBranch
  [ assign File_deleted_datetime not_a_date;
    assign File_mimetype [];
    assign File_shared_by_user SharedByUser_Unshared;
    assign File_shared_with_user SharedWithUser_UserIsOwner;
    required a_ptime "created" File_created_datetime;
    with_default a_ptime "delete_date" File_deleted_datetime;
    optional std_string "description" File_description;
    required (an uint32) "downloads" File_download_count;
    required std_string "filename" File_filename;
    required (an uint64) "size" File_filesize;
    required std_string "filetype" File_filetype;
    required (an uint32) "flag" File_flag;
    required std_string "hash" File_hash;
    required_struct LinksFromPropertyBranch new_Links "links" File_links;
    with_default std_string "mimetype" File_mimetype;
    required_enum [("no", PasswordProtected_Unprotected); ("yes", PasswordProtected_Protected)]
       "password_protected" File_password_protected;
    optional_struct PermissionsFromPropertyBranch new_Permissions "permissions" File_permissions;
    required_enum [("public", Privacy_Public); ("private", Privacy_Private)]
       "privacy" File_privacy;
    required std_string "quickkey" File_quickkey;
    required (an uint32) "revision" File_revision;
    optional_enum id [("", SharedByUser_Unshared); ("1", SharedByUser_Shared)]
       "shared_by_user" File_shared_by_user;
    optional_enum id [("no", SharedWithUser_UserIsOwner);
       ("yes", SharedWithUser_SharedWithUser)] "shared" File_shared_with_user;
    required (an uint32) "views" File_views].

(** [api/folder/get_content/v1_0.cpp:516-761 FolderFromPropertyBranch] *)
Definition FolderFromPropertyBranch : branch_parser Folder := FromPropertyBranch
  [ assign Folder_deleted_datetime not_a_date;
    assign Folder_shared_by_user SharedByUser_Unshared;
    assign Folder_shared_with_user SharedWithUser_UserIsOwner;
    required a_ptime "created" Folder_created_datetime;
    with_default a_ptime "delete_date" Folder_deleted_datetime;
    optional std_string "description" Folder_description;
    required (an uint32) "file_count" Folder_file_count;
    required_enum [("no", FileDrop_Disabled); ("yes", FileDrop_Enabled)]
       "dropbox_enabled" Folder_filedrop;
    required (an uint32) "flag" Folder_flag;
    required (an uint32) "folder_count" Folder_folder_count;
    required std_string "folderkey" Folder_folderkey;
    required std_string "name" Folder_name;
    optional_struct PermissionsFromPropertyBranch new_Permissions "permissions"
       Folder_permissions;
    required_enum [("public", Privacy_Public); ("private", Privacy_Private)]
       "privacy" Folder_privacy;
    required (an uint32) "revision" Folder_revision;
    optional_enum id [("", SharedByUser_Unshared); ("1", SharedByUser_Shared)]
       "shared_by_user" Folder_shared_by_user;
    optional_enum id [("no", SharedWithUser_UserIsOwner);
       ("yes", SharedWithUser_SharedWithUser)] "shared" Folder_shared_with_user;
    optional std_string "tags" Folder_tags;
    optional (an uint32) "total_files" Folder_total_files;
    optional (an uint32) "total_folders" Folder_total_folders;
    optional (an uint64) "total_size" Folder_total_size].

(** [api/folder/get_content/v1_0.hpp:276-289 Response] *)
Record Response := {
  Response_chunk_size : Z;
  Response_content_type : ContentType;
  Response_chunk_number : Z;
  Response_files : list File;
  Response_folders : list Folder }.
#[local] Instance Response_members : Members Response := fun v =>
  Build_Response (Response_chunk_size v) (Response_content_type v) (Response_chunk_number v)
    (Response_files v) (Response_folders v).
Definition new_Response : Response :=
  {| Response_chunk_size := indeterminate Z _;
     Response_content_type := indeterminate ContentType _;
     Response_chunk_number := indeterminate Z _; Response_files := []; Response_folders := [] |}.

(** [api/folder/get_content/v1_0.cpp:826-915 Impl::ParseResponse] *)
Definition ParseResponse : ResponseBase -> Response -> ResponseBase * Response :=
  parse_response
  [ required (an uint32) "response.folder_content.chunk_size" Response_chunk_size;
    required_enum [("folders", ContentType_Folders); ("files", ContentType_Files)]
       "response.folder_content.content_type" Response_content_type;
    required (an uint32) "response.folder_content.chunk_number" Response_chunk_number;
    optional_structs FileFromPropertyBranch new_File "response.folder_content.files"
       Response_files;
    optional_structs FolderFromPropertyBranch new_Folder "response.folder_content.folders"
       Response_folders].

(** [api/folder/get_content/v1_0.cpp:771-771 api_path] *)
Definition api_path : str := B "/api/1.0/folder/get_content".

(** [api/folder/get_content/v1_0.cpp:775-805 Impl] *)
Record Impl := {
  folder_key_ : str;
  chunk_number_ : Z;
  content_type_ : ContentType;
  device_id_ : option Z;
  order_by_ : option OrderBy;
  order_direction_ : option OrderDirection;
  filter_ : option str;
  details_ : option Details }.
#[local] Instance Impl_members : Members Impl := fun v =>
  Build_Impl (folder_key_ v) (chunk_number_ v) (content_type_ v) (device_id_ v) (order_by_ v)
    (order_direction_ v) (filter_ v) (details_ v).

(** [api/folder/get_content/v1_0.cpp:807-816 Impl::Impl] *)
Definition new_Impl (folder_key : str) (chunk_number : Z) (content_type : ContentType) : Impl :=
  {| folder_key_ := folder_key; chunk_number_ := chunk_number; content_type_ := content_type;
     device_id_ := None; order_by_ := None; order_direction_ := None; filter_ := None;
     details_ := None |}.

(** [api/folder/get_content/v1_0.cpp:988-991 Request::SetDeviceId] *)
Definition SetDeviceId (device_id : Z) (i : Impl) : Impl :=
  set_field device_id_ (Some device_id) i.

(** [api/folder/get_content/v1_0.cpp:993-996 Request::SetOrderBy] *)
Definition SetOrderBy (order_by : OrderBy) (i : Impl) : Impl :=
  set_field order_by_ (Some order_by) i.

(** [api/folder/get_content/v1_0.cpp:998-1001 Request::SetOrderDirection] *)
Definition SetOrderDirection (order_direction : OrderDirection) (i : Impl) : Impl :=
  set_field order_direction_ (Some order_direction) i.

(** [api/folder/get_content/v1_0.cpp:1003-1006 Request::SetFilter] *)
Definition SetFilter (filter : str) (i : Impl) : Impl := set_field filter_ (Some filter) i.

(** [api/folder/get_content/v1_0.cpp:1008-1011 Request::SetDetails] *)
Definition SetDetails (details : Details) (i : Impl) : Impl :=
  set_field details_ (Some details) i.

(** [api/folder/get_content/v1_0.cpp:818-824 Impl::BuildUrl] *)
Definition BuildUrl (query_parts : list query_part) : str * list query_part :=
  (api_path ++ B ".php", query_parts).

(** [api/folder/get_content/v1_0.cpp:801-804 Impl::GetRequestMethod] *)
Definition GetRequestMethod : RequestMethod := Post.

(** The assignments to [parts].
    [api/folder/get_content/v1_0.cpp:917-938 Impl::GetPostData] *)
Definition post_parts (i : Impl) : list query_part := make_parts
  [("folder_key", Some (folder_key_ i));
   ("chunk", Some (print_int (chunk_number_ i)));
   ("content_type", Some (AsString_ContentType (content_type_ i)));
   ("device_id", print_int <$> device_id_ i);
   ("order_by", AsString_OrderBy <$> order_by_ i);
   ("order_direction", AsString_OrderDirection <$> order_direction_ i);
   ("filter", filter_ i);
   ("details", AsString_Details <$> details_ i)].

(** [api/folder/get_content/v1_0.cpp:917-938 Impl::GetPostData] *)
Definition GetPostData (MD5 : str -> str) (a : SessionTokenApi) (i : Impl) : str :=
  MakePost MD5 a (api_path ++ B ".php") (post_parts i).

End Call.
End folder_get_content_v1_0.

(** ** [api/folder/get_content/v1_2.cpp] *)
Module folder_get_content_v1_2.

(** [api/folder/get_content/v1_2.hpp:29-35 ContentType] *)
Inductive ContentType : Set := ContentType_Folders | ContentType_Files.
#[global] Instance ContentType_inhabited : Inhabited ContentType := populate ContentType_Folders.

(** [api/folder/get_content/v1_2.hpp:37-47 OrderBy] *)
Inductive OrderBy : Set := OrderBy_Name | OrderBy_Created | OrderBy_Size | OrderBy_Downloads.
#[global] Instance OrderBy_inhabited : Inhabited OrderBy := populate OrderBy_Name.

(** [api/folder/get_content/v1_2.hpp:49-55 OrderDirection] *)
Inductive OrderDirection : Set := OrderDirection_Ascending | OrderDirection_Descending.
#[global] Instance OrderDirection_inhabited : Inhabited OrderDirection :=
  populate OrderDirection_Ascending.

(** [api/folder/get_content/v1_2.hpp:57-65 Details] *)
Inductive Details : Set := Details_NoDetails | Details_PopulateDetails | Details_ShallowDetails.
#[global] Instance Details_inhabited : Inhabited Details := populate Details_NoDetails.

(** [api/folder/get_content/v1_2.hpp:67-73 Privacy] *)
Inductive Privacy : Set := Privacy_Public | Privacy_Private.
#[global] Instance Privacy_inhabited : Inhabited Privacy := populate Privacy_Public.

(** [api/folder/get_content/v1_2.hpp:75-81 ExplicitShare] *)
Inductive ExplicitShare : Set := ExplicitShare_No | ExplicitShare_Yes.
#[global] Instance ExplicitShare_inhabited : Inhabited ExplicitShare := populate ExplicitShare_No.

(** [api/folder/get_content/v1_2.hpp:83-89 FileDrop] *)
Inductive FileDrop : Set := FileDrop_Disabled | FileDrop_Enabled.
#[global] Instance FileDrop_inhabited : Inhabited FileDrop := populate FileDrop_Disabled.

(** [api/folder/get_content/v1_2.hpp:91-97 PasswordProtected] *)
Inductive PasswordProtected : Set := PasswordProtected_Unprotected | PasswordProtected_Protected.
#[global] Instance PasswordProtected_inhabited : Inhabited PasswordProtected :=
  populate PasswordProtected_Unprotected.

(** [api/folder/get_content/v1_2.hpp:99-105 Permission] *)
Inductive Permission : Set := Permission_Allowed | Permission_Denied.
#[global] Instance Permission_inhabited : Inhabited Permission := populate Permission_Allowed.

(** [api/folder/get_content/v1_2.hpp:107-113 SharedByUser] *)
Inductive SharedByUser : Set := SharedByUser_Unshared | SharedByUser_Shared.
#[global] Instance SharedByUser_inhabited : Inhabited SharedByUser :=
  populate SharedByUser_Unshared.

(** [api/folder/get_content/v1_2.hpp:115-121 SharedWithUser] *)
Inductive SharedWithUser : Set := SharedWithUser_UserIsOwner | SharedWithUser_SharedWithUser.
#[global] Instance SharedWithUser_inhabited : Inhabited SharedWithUser :=
  populate SharedWithUser_UserIsOwner.

(** [api/folder/get_content/v1_2.hpp:123-129 ChunksRemaining] *)
Inductive ChunksRemaining : Set := ChunksRemaining_MoreChunks | ChunksRemaining_LastChunk.
#[global] Instance ChunksRemaining_inhabited : Inhabited ChunksRemaining :=
  populate ChunksRemaining_MoreChunks.

(** [api/folder/get_content/v1_2.cpp:24-31 AsString] *)
Definition AsString_ContentType (value : ContentType) : str :=
  match value with
  | ContentType_Folders => B "folders"
  | ContentType_Files => B "files"
  end.

(** [api/folder/get_content/v1_2.cpp:32-43 AsString] *)
Definition AsString_OrderBy (value : OrderBy) : str :=
  match value with
  | OrderBy_Name => B "name"
  | OrderBy_Created => B "created"
  | OrderBy_Size => B "size"
  | OrderBy_Downloads => B "downloads"
  end.

(** [api/folder/get_content/v1_2.cpp:44-51 AsString] *)
Definition AsString_OrderDirection (value : OrderDirection) : str :=
  match value with
  | OrderDirection_Ascending => B "asc"
  | OrderDirection_Descending => B "desc"
  end.

(** [api/folder/get_content/v1_2.cpp:52-61 AsString] *)
Definition AsString_Details (value : Details) : str :=
  match value with
  | Details_NoDetails => B "no"
  | Details_PopulateDetails => B "yes"
  | Details_ShallowDetails => B "shallow"
  end.

Section Call.
Context `{Libraries}.

(** [api/folder/get_content/v1_2.hpp:138-154 Links] *)
Record Links := {
  Links_direct_download : option str;
  Links_edit : option str;
  Links_normal_download : option str;
  Links_one_time_download : option str;
  Links_view : option str }.
#[local] Instance Links_members : Members Links := fun v =>
  Build_Links (Links_direct_download v) (Links_edit v) (Links_normal_download v)
    (Links_one_time_download v) (Links_view v).
Definition new_Links : Links :=
  {| Links_direct_download := None; Links_edit := None; Links_normal_download := None;
     Links_one_time_download := None; Links_view := None |}.

(** [api/folder/get_content/v1_2.hpp:155-168 Permissions] *)
Record Permissions := {
  Permissions_value : Z;
  Permissions_explicit_share : ExplicitShare;
  Permissions_read_permission : Permission;
  Permissions_write_permission : Permission }.
#[local] Instance Permissions_members : Members Permissions := fun v =>
  Build_Permissions (Permissions_value v) (Permissions_explicit_share v)
    (Permissions_read_permission v) (Permissions_write_permission v).
Definition new_Permissions : Permissions :=
  {| Permissions_value := indeterminate Z _;
     Permissions_explicit_share := indeterminate ExplicitShare _;
     Permissions_read_permission := indeterminate Permission _;
     Permissions_write_permission := indeterminate Permission _ |}.

(** [api/folder/get_content/v1_2.hpp:169-227 File] *)
Record File := {
  File_created_datetime : ptime;
  File_deleted_datetime : ptime;
  File_description : option str;
  File_download_count : Z;
  File_filename : str;
  File_filesize : Z;
  File_filetype : str;
  File_flag : Z;
  File_hash : str;
  File_links : Links;
  File_mimetype : str;
  File_password_protected : PasswordProtected;
  File_permissions : option Permissions;
  File_privacy : Privacy;
  File_quickkey : str;
  File_revision : Z;
  File_shared_by_user : SharedByUser;
  File_shared_with_user : SharedWithUser;
  File_views : Z }.
#[local] Instance File_members : Members File := fun v =>
  Build_File (File_created_datetime v) (File_deleted_datetime v) (File_description v)
    (File_download_count v) (File_filename v) (File_filesize v) (File_filetype v) (File_flag v)
    (File_hash v) (File_links v) (File_mimetype v) (File_password_protected v)
    (File_permissions v) (File_privacy v) (File_quickkey v) (File_revision v)
    (File_shared_by_user v) (File_shared_with_user v) (File_views v).
Definition new_File : File :=
  {| File_created_datetime := not_a_date; File_deleted_datetime := not_a_date;
     File_description := None; File_download_count := indeterminate Z _; File_filename := [];
     File_filesize := indeterminate Z _; File_filetype := []; File_flag := indeterminate Z _;
     File_hash := []; File_links := new_Links; File_mimetype := [];
     File_password_protected := indeterminate PasswordProtected _; File_permissions := None;
     File_privacy := indeterminate Privacy _; File_quickkey := [];
     File_revision := indeterminate Z _; File_shared_by_user := indeterminate SharedByUser _;
     File_shared_with_user := indeterminate SharedWithUser _; File_views := indeterminate Z _ |}.

(** [api/folder/get_content/v1_2.hpp:228-283 Folder] *)
Record Folder := {
  Folder_created_datetime : ptime;
  Folder_deleted_datetime : ptime;
  Folder_description : option str;
  Folder_file_count : Z;
  Folder_filedrop : FileDrop;
  Folder_flag : Z;
  Folder_folder_count : Z;
  Folder_folderkey : str;
  Folder_name : str;
  Folder_permissions : option Permissions;
  Folder_privacy : Privacy;
  Folder_revision : Z;
  Folder_shared_by_user : SharedByUser;
  Folder_shared_with_user : SharedWithUser;
  Folder_tags : option str;
  Folder_total_files : option Z;
  Folder_total_folders : option Z;
  Folder_total_size : option Z }.
#[local] Instance Folder_members : Members Folder := fun v =>
  Build_Folder (Folder_created_datetime v) (Folder_deleted_datetime v) (Folder_description v)
    (Folder_file_count v) (Folder_filedrop v) (Folder_flag v) (Folder_folder_count v)
    (Folder_folderkey v) (Folder_name v) (Folder_permissions v) (Folder_privacy v)
    (Folder_revision v) (Folder_shared_by_user v) (Folder_shared_with_user v) (Folder_tags v)
    (Folder_total_files v) (Folder_total_folders v) (Folder_total_size v).
Definition new_Folder : Folder :=
  {| Folder_created_datetime := not_a_date; Folder_deleted_datetime := not_a_date;
     Folder_description := None; Folder_file_count := indeterminate Z _;
     Folder_filedrop := indeterminate FileDrop _; Folder_flag := indeterminate Z _;
     Folder_folder_count := indeterminate Z _; Folder_folderkey := []; Folder_name := [];
     Folder_permissions := None; Folder_privacy := indeterminate Privacy _;
     Folder_revision := indeterminate Z _; Folder_shared_by_user := indeterminate SharedByUser _;
     Folder_shared_with_user := indeterminate SharedWithUser _; Folder_tags := None;
     Folder_total_files := None; Folder_total_folders := None; Folder_total_size := None |}.

(** [api/folder/get_content/v1_2.cpp:69-149 LinksFromPropertyBranch] *)
Definition LinksFromPropertyBranch : branch_parser Links := FromPropertyBranch
  [ optional std_string "direct_download" Links_direct_download;
    optional std_string "edit" Links_edit;
    optional std_string "normal_download" Links_normal_download;
    optional std_string "one_time_download" Links_one_time_download;
    optional std_string "view" Links_view].

(** [api/folder/get_content/v1_2.cpp:152-250 PermissionsFromPropertyBranch] *)
Definition PermissionsFromPropertyBranch : branch_parser Permissions := FromPropertyBranch
  [ required (an uint32) "value" Permissions_value;
    required_enum [("0", ExplicitShare_No); ("1", ExplicitShare_Yes)]
       "explicit" Permissions_explicit_share;
    required_enum [("1", Permission_Allowed); ("0", Permission_Denied)]
       "read" Permissions_read_permission;
    required_enum [("1", Permission_Allowed); ("0", Permission_Denied)]
       "write" Permissions_write_permission].

(** [api/folder/get_content/v1_2.cpp:253-513 FileFromPropertyBranch] *)
Definition FileFromPropertyBranch : branch_parser File := FromPropertyBranch
  [ assign File_deleted_datetime not_a_date;
    assign File_mimetype [];
    assign File_shared_by_user SharedByUser_Unshared;
    assign File_shared_with_user SharedWithUser_UserIsOwner;
    required a_ptime "created" File_created_datetime;
    with_default a_ptime "delete_date" File_deleted_datetime;
    optional std_string "description" File_description;
    required (an uint32) "downloads" File_download_count;
    required std_string "filename" File_filename;
    required (an uint64) "size" File_filesize;
    required std_string "filetype" File_filetype;
    required (an uint32) "flag" File_flag;
    required std_string "hash" File_hash;
    required_struct LinksFromPropertyBranch new_Links "links" File_links;
    with_default std_string "mimetype" File_mimetype;
    required_enum [("no", PasswordProtected_Unprotected); ("yes", PasswordProtected_Protected)]
       "password_protected" File_password_protected;
    optional_struct PermissionsFromPropertyBranch new_Permissions "permissions" File_permissions;
    required_enum [("public", Privacy_Public); ("private", Privacy_Private)]
       "privacy" File_privacy;
    required std_string "quickkey" File_quickkey;
    required (an uint32) "revision" File_revision;
    optional_enum id [("", SharedByUser_Unshared); ("1", SharedByUser_Shared)]
       "shared_by_user" File_shared_by_user;
    optional_enum id [("no", SharedWithUser_UserIsOwner);
       ("yes", SharedWithUser_SharedWithUser)] "shared" File_shared_with_user;
    required (an uint32) "views" File_views].

(** [api/folder/get_content/v1_2.cpp:516-761 FolderFromPropertyBranch] *)
Definition FolderFromPropertyBranch : branch_parser Folder := FromPropertyBranch
  [ assign Folder_deleted_datetime not_a_date;
    assign Folder_shared_by_user SharedByUser_Unshared;
    assign Folder_shared_with_user SharedWithUser_UserIsOwner;
    required a_ptime "created" Folder_created_datetime;
    with_default a_ptime "delete_date" Folder_deleted_datetime;
    optional std_string "description" Folder_description;
    required (an uint32) "file_count" Folder_file_count;
    required_enum [("no", FileDrop_Disabled); ("yes", FileDrop_Enabled)]
       "dropbox_enabled" Folder_filedrop;
    required (an uint32) "flag" Folder_flag;
    required (an uint32) "folder_count" Folder_folder_count;
    required std_string "folderkey" Folder_folderkey;
    required std_string "name" Folder_name;
    optional_struct PermissionsFromPropertyBranch new_Permissions "permissions"
       Folder_permissions;
    required_enum [("public", Privacy_Public); ("private", Privacy_Private)]
       "privacy" Folder_privacy;
    required (an uint32) "revision" Folder_revision;
    optional_enum id [("", SharedByUser_Unshared); ("1", SharedByUser_Shared)]
       "shared_by_user" Folder_shared_by_user;
    optional_enum id [("no", SharedWithUser_UserIsOwner);
       ("yes", SharedWithUser_SharedWithUser)] "shared" Folder_shared_with_user;
    optional std_string "tags" Folder_tags;
    optional (an uint32) "total_files" Folder_total_files;
    optional (an uint32) "total_folders" Folder_total_folders;
    optional (an uint64) "total_size" Folder_total_size].

(** [api/folder/get_content/v1_2.hpp:284-300 Response] *)
Record Response := {
  Response_chunk_size : Z;
  Response_content_type : ContentType;
  Response_chunk_number : Z;
  Response_chunks_remaining : ChunksRemaining;
  Response_files : list File;
  Response_folders : list Folder }.
#[local] Instance Response_members : Members Response := fun v =>
  Build_Response (Response_chunk_size v) (Response_content_type v) (Response_chunk_number v)
    (Response_chunks_remaining v) (Response_files v) (Response_folders v).
Definition new_Response : Response :=
  {| Response_chunk_size := indeterminate Z _;
     Response_content_type := indeterminate ContentType _;
     Response_chunk_number := indeterminate Z _;
     Response_chunks_remaining := indeterminate ChunksRemaining _; Response_files := [];
     Response_folders := [] |}.

(** [api/folder/get_content/v1_2.cpp:827-939 Impl::ParseResponse] *)
Definition ParseResponse : ResponseBase -> Response -> ResponseBase * Response :=
  parse_response
  [ required (an uint32) "response.folder_content.chunk_size" Response_chunk_size;
    required_enum [("folders", ContentType_Folders); ("files", ContentType_Files)]
       "response.folder_content.content_type" Response_content_type;
    required (an uint32) "response.folder_content.chunk_number" Response_chunk_number;
    required_enum [("yes", ChunksRemaining_MoreChunks); ("no", ChunksRemaining_LastChunk)]
       "response.folder_content.more_chunks" Response_chunks_remaining;
    optional_structs FileFromPropertyBranch new_File "response.folder_content.files"
       Response_files;
    optional_structs FolderFromPropertyBranch new_Folder "response.folder_content.folders"
       Response_folders].

(** [api/folder/get_content/v1_2.cpp:771-771 api_path] *)
Definition api_path : str := B "/api/1.2/folder/get_content".

(** [api/folder/get_content/v1_2.cpp:775-806 Impl] *)
Record Impl := {
  folder_key_ : str;
  chunk_number_ : Z;
  content_type_ : ContentType;
  device_id_ : option Z;
  order_by_ : option OrderBy;
  order_direction_ : option OrderDirection;
  filter_ : option str;
  details_ : option Details;
  chunk_size_ : option Z }.
#[local] Instance Impl_members : Members Impl := fun v =>
  Build_Impl (folder_key_ v) (chunk_number_ v) (content_type_ v) (device_id_ v) (order_by_ v)
    (order_direction_ v) (filter_ v) (details_ v) (chunk_size_ v).

(** [api/folder/get_content/v1_2.cpp:808-817 Impl::Impl] *)
Definition new_Impl (folder_key : str) (chunk_number : Z) (content_type : ContentType) : Impl :=
  {| folder_key_ := folder_key; chunk_number_ := chunk_number; content_type_ := content_type;
     device_id_ := None; order_by_ := None; order_direction_ := None; filter_ := None;
     details_ := None; chunk_size_ := None |}.

(** [api/folder/get_content/v1_2.cpp:1014-1017 Request::SetDeviceId] *)
Definition SetDeviceId (device_id : Z) (i : Impl) : Impl :=
  set_field device_id_ (Some device_id) i.

(** [api/folder/get_content/v1_2.cpp:1019-1022 Request::SetOrderBy] *)
Definition SetOrderBy (order_by : OrderBy) (i : Impl) : Impl :=
  set_field order_by_ (Some order_by) i.

(** [api/folder/get_content/v1_2.cpp:1024-1027 Request::SetOrderDirection] *)
Definition SetOrderDirection (order_direction : OrderDirection) (i : Impl) : Impl :=
  set_field order_direction_ (Some order_direction) i.

(** [api/folder/get_content/v1_2.cpp:1029-1032 Request::SetFilter] *)
Definition SetFilter (filter : str) (i : Impl) : Impl := set_field filter_ (Some filter) i.

(** [api/folder/get_content/v1_2.cpp:1034-1037 Request::SetDetails] *)
Definition SetDetails (details : Details) (i : Impl) : Impl :=
  set_field details_ (Some details) i.

(** [api/folder/get_content/v1_2.cpp:1039-1042 Request::SetChunkSize] *)
Definition SetChunkSize (chunk_size : Z) (i : Impl) : Impl :=
  set_field chunk_size_ (Some chunk_size) i.

(** [api/folder/get_content/v1_2.cpp:819-825 Impl::BuildUrl] *)
Definition BuildUrl (query_parts : list query_part) : str * list query_part :=
  (api_path ++ B ".php", query_parts).

(** [api/folder/get_content/v1_2.cpp:802-805 Impl::GetRequestMethod] *)
Definition GetRequestMethod : RequestMethod := Post.

(** The assignments to [parts].
    [api/folder/get_content/v1_2.cpp:941-964 Impl::GetPostData] *)
Definition post_parts (i : Impl) : list query_part := make_parts
  [("folder_key", Some (folder_key_ i));
   ("chunk", Some (print_int (chunk_number_ i)));
   ("content_type", Some (AsString_ContentType (content_type_ i)));
   ("device_id", print_int <$> device_id_ i);
   ("order_by", AsString_OrderBy <$> order_by_ i);
   ("order_direction", AsString_OrderDirection <$> order_direction_ i);
   ("filter", filter_ i);
   ("details", AsString_Details <$> details_ i);
   ("chunk_size", print_int <$> chunk_size_ i)].

(** [api/folder/get_content/v1_2.cpp:941-964 Impl::GetPostData] *)
Definition GetPostData (MD5 : str -> str) (a : SessionTokenApi) (i : Impl) : str :=
  MakePost MD5 a (api_path ++ B ".php") (post_parts i).

(** *** The description *)

(** [api/templates/apis/folder/v1_2/get_content.json:176-210 Links] *)
Definition Links_described : description Links :=
  [ Optional string_at "direct_download" Links_direct_download;
    Optional string_at "edit" Links_edit;
    Optional string_at "normal_download" Links_normal_download;
    Optional string_at "one_time_download" Links_one_time_download;
    Optional string_at "view" Links_view].

(** [api/templates/apis/folder/v1_2/get_content.json:211-235 Permissions] *)
Definition Permissions_described : description Permissions :=
  [ Required (number_at uint32) "value" Permissions_value;
    Required (enum_at [("0", ExplicitShare_No); ("1", ExplicitShare_Yes)])
       "explicit" Permissions_explicit_share;
    Required (enum_at [("1", Permission_Allowed); ("0", Permission_Denied)])
       "read" Permissions_read_permission;
    Required (enum_at [("1", Permission_Allowed); ("0", Permission_Denied)])
       "write" Permissions_write_permission].

(** [api/templates/apis/folder/v1_2/get_content.json:236-341 File] *)
Definition File_described : description File :=
  [ Required time_at "created" File_created_datetime;
    Default not_a_date time_at "delete_date" File_deleted_datetime;
    Optional string_at "description" File_description;
    Required (number_at uint32) "downloads" File_download_count;
    Required string_at "filename" File_filename;
    Required (number_at uint64) "size" File_filesize;
    Required string_at "filetype" File_filetype;
    Required (number_at uint32) "flag" File_flag;
    Required string_at "hash" File_hash;
    RequiredStruct Links_described "links" File_links;
    Default [] string_at "mimetype" File_mimetype;
    Required (enum_at [("no", PasswordProtected_Unprotected);
       ("yes", PasswordProtected_Protected)]) "password_protected" File_password_protected;
    OptionalStruct Permissions_described "permissions" File_permissions;
    Required (enum_at [("public", Privacy_Public); ("private", Privacy_Private)])
       "privacy" File_privacy;
    Required string_at "quickkey" File_quickkey;
    Required (number_at uint32) "revision" File_revision;
    Default SharedByUser_Unshared (enum_at [("", SharedByUser_Unshared);
       ("1", SharedByUser_Shared)]) "shared_by_user" File_shared_by_user;
    Default SharedWithUser_UserIsOwner (enum_at [("no", SharedWithUser_UserIsOwner);
       ("yes", SharedWithUser_SharedWithUser)]) "shared" File_shared_with_user;
    Required (number_at uint32) "views" File_views].

(** [api/templates/apis/folder/v1_2/get_content.json:342-445 Folder] *)
Definition Folder_described : description Folder :=
  [ Required time_at "created" Folder_created_datetime;
    Default not_a_date time_at "delete_date" Folder_deleted_datetime;
    Optional string_at "description" Folder_description;
    Required (number_at uint32) "file_count" Folder_file_count;
    Required (enum_at [("no", FileDrop_Disabled); ("yes", FileDrop_Enabled)])
       "dropbox_enabled" Folder_filedrop;
    Required (number_at uint32) "flag" Folder_flag;
    Required (number_at uint32) "folder_count" Folder_folder_count;
    Required string_at "folderkey" Folder_folderkey;
    Required string_at "name" Folder_name;
    OptionalStruct Permissions_described "permissions" Folder_permissions;
    Required (enum_at [("public", Privacy_Public); ("private", Privacy_Private)])
       "privacy" Folder_privacy;
    Required (number_at uint32) "revision" Folder_revision;
    Default SharedByUser_Unshared (enum_at [("", SharedByUser_Unshared);
       ("1", SharedByUser_Shared)]) "shared_by_user" Folder_shared_by_user;
    Default SharedWithUser_UserIsOwner (enum_at [("no", SharedWithUser_UserIsOwner);
       ("yes", SharedWithUser_SharedWithUser)]) "shared" Folder_shared_with_user;
    Optional string_at "tags" Folder_tags;
    Optional (number_at uint32) "total_files" Folder_total_files;
    Optional (number_at uint32) "total_folders" Folder_total_folders;
    Optional (number_at uint64) "total_size" Folder_total_size].

(** [api/templates/apis/folder/v1_2/get_content.json:496-531 return_params] *)
Definition Response_described : description Response :=
  [ Required (number_at uint32) "response.folder_content.chunk_size" Response_chunk_size;
    Required (enum_at [("folders", ContentType_Folders); ("files", ContentType_Files)])
       "response.folder_content.content_type" Response_content_type;
    Required (number_at uint32) "response.folder_content.chunk_number" Response_chunk_number;
    Required (enum_at [("yes", ChunksRemaining_MoreChunks); ("no", ChunksRemaining_LastChunk)])
       "response.folder_content.more_chunks" Response_chunks_remaining;
    OptionalStructs File_described "response.folder_content.files" Response_files;
    OptionalStructs Folder_described "response.folder_content.folders" Response_folders].

(** [api/templates/apis/folder/v1_2/get_content.json:6-18 ContentType] *)
Definition AsDescribed_ContentType (value : ContentType) : str :=
  match value with
  | ContentType_Folders => B "folders"
  | ContentType_Files => B "files"
  end.

(** [api/templates/apis/folder/v1_2/get_content.json:19-39 OrderBy] *)
Definition AsDescribed_OrderBy (value : OrderBy) : str :=
  match value with
  | OrderBy_Name => B "name"
  | OrderBy_Created => B "created"
  | OrderBy_Size => B "size"
  | OrderBy_Downloads => B "downloads"
  end.

(** [api/templates/apis/folder/v1_2/get_content.json:40-52 OrderDirection] *)
Definition AsDescribed_OrderDirection (value : OrderDirection) : str :=
  match value with
  | OrderDirection_Ascending => B "asc"
  | OrderDirection_Descending => B "desc"
  end.

(** [api/templates/apis/folder/v1_2/get_content.json:53-69 Details] *)
Definition AsDescribed_Details (value : Details) : str :=
  match value with
  | Details_NoDetails => B "no"
  | Details_PopulateDetails => B "yes"
  | Details_ShallowDetails => B "shallow"
  end.

(** [api/templates/apis/folder/v1_2/get_content.json:447-495 input_params] *)
Definition params_described (i : Impl) : list (string * option str) :=
  [("folder_key", Some (folder_key_ i));
   ("chunk", Some (print_int (chunk_number_ i)));
   ("content_type", Some ((AsDescribed_ContentType) (content_type_ i)));
   ("device_id", print_int <$> device_id_ i);
   ("order_by", (AsDescribed_OrderBy) <$> order_by_ i);
   ("order_direction", (AsDescribed_OrderDirection) <$> order_direction_ i);
   ("filter", filter_ i);
   ("details", (AsDescribed_Details) <$> details_ i);
   ("chunk_size", print_int <$> chunk_size_ i)].

#[global] Instance Links_parses : Parses LinksFromPropertyBranch new_Links Links_described.
Proof. parse_class. Qed.
#[global] Instance Permissions_parses : Parses PermissionsFromPropertyBranch new_Permissions
  Permissions_described.
Proof. parse_class. Qed.
#[global] Instance File_parses : Parses FileFromPropertyBranch new_File File_described.
Proof. parse_class. Qed.
#[global] Instance Folder_parses : Parses FolderFromPropertyBranch new_Folder Folder_described.
Proof. parse_class. Qed.
#[global] Instance Response_parses :
  ParsesResponse ParseResponse new_Response Response_described.
Proof. parse_class. Qed.

Definition call : api_call := {|
  call_method := GetRequestMethod;
  call_uses_token := true;
  call_BuildUrl := BuildUrl;
  call_parts := post_parts;
  call_GetPostData := GetPostData;
  call_new := new_Response;
  call_ParseResponse := ParseResponse |}.

#[global] Instance call_implements :
  ImplementsCall call "/api/1.2/folder/get_content" true params_described Response_described.
Proof. implement_call. Qed.

End Call.
End folder_get_content_v1_2.

(** ** [api/folder/get_info/v0.cpp] *)
Module folder_get_info_v0.

(** [api/folder/get_info/v0.hpp:29-37 Details] *)
Inductive Details : Set := Details_NoDetails | Details_FullDetails | Details_ShallowDetails.
#[global] Instance Details_inhabited : Inhabited Details := populate Details_NoDetails.

(** [api/folder/get_info/v0.hpp:39-45 FileDrop] *)
Inductive FileDrop : Set := FileDrop_Disabled | FileDrop_Enabled.
#[global] Instance FileDrop_inhabited : Inhabited FileDrop := populate FileDrop_Disabled.

(** [api/folder/get_info/v0.hpp:47-53 SharedByUser] *)
Inductive SharedByUser : Set := SharedByUser_Unshared | SharedByUser_Shared.
#[global] Instance SharedByUser_inhabited : Inhabited SharedByUser :=
  populate SharedByUser_Unshared.

(** [api/folder/get_info/v0.hpp:55-61 ExplicitShare] *)
Inductive ExplicitShare : Set := ExplicitShare_No | ExplicitShare_Yes.
#[global] Instance ExplicitShare_inhabited : Inhabited ExplicitShare := populate ExplicitShare_No.

(** [api/folder/get_info/v0.hpp:63-69 Permission] *)
Inductive Permission : Set := Permission_Allowed | Permission_Denied.
#[global] Instance Permission_inhabited : Inhabited Permission := populate Permission_Allowed.

(** [api/folder/get_info/v0.cpp:24-33 AsString] *)
Definition AsString_Details (value : Details) : str :=
  match value with
  | Details_NoDetails => B "no"
  | Details_FullDetails => B "yes"
  | Details_ShallowDetails => B "shallow"
  end.

Section Call.
Context `{Libraries}.

(** [api/folder/get_info/v0.hpp:83-96 Permissions] *)
Record Permissions := {
  Permissions_value : Z;
  Permissions_explicit_share : ExplicitShare;
  Permissions_read_permission : Permission;
  Permissions_write_permission : Permission }.
#[local] Instance Permissions_members : Members Permissions := fun v =>
  Build_Permissions (Permissions_value v) (Permissions_explicit_share v)
    (Permissions_read_permission v) (Permissions_write_permission v).
Definition new_Permissions : Permissions :=
  {| Permissions_value := indeterminate Z _;
     Permissions_explicit_share := indeterminate ExplicitShare _;
     Permissions_read_permission := indeterminate Permission _;
     Permissions_write_permission := indeterminate Permission _ |}.

(** [api/folder/get_info/v0.cpp:41-139 PermissionsFromPropertyBranch] *)
Definition PermissionsFromPropertyBranch : branch_parser Permissions := FromPropertyBranch
  [ required (an uint32) "value" Permissions_value;
    required_enum [("0", ExplicitShare_No); ("1", ExplicitShare_Yes)]
       "explicit" Permissions_explicit_share;
    required_enum [("1", Permission_Allowed); ("0", Permission_Denied)]
       "read" Permissions_read_permission;
    required_enum [("1", Permission_Allowed); ("0", Permission_Denied)]
       "write" Permissions_write_permission].

(** [api/folder/get_info/v0.hpp:97-155 Response] *)
Record Response := {
  Response_folderkey : str;
  Response_name : str;
  Response_description : option str;
  Response_created_datetime : ptime;
  Response_deleted_datetime : ptime;
  Response_parent_folderkey : option str;
  Response_custom_url : option str;
  Response_filedrop : option FileDrop;
  Response_file_count : Z;
  Response_folder_count : Z;
  Response_size : option Z;
  Response_total_folders : option Z;
  Response_total_files : option Z;
  Response_total_size : option Z;
  Response_shared_by_user : SharedByUser;
  Response_permissions : option Permissions;
  Response_owner_name : option str;
  Response_avatar : option str;
  Response_flag : Z;
  Response_revision : Z }.
#[local] Instance Response_members : Members Response := fun v =>
  Build_Response (Response_folderkey v) (Response_name v) (Response_description v)
    (Response_created_datetime v) (Response_deleted_datetime v) (Response_parent_folderkey v)
    (Response_custom_url v) (Response_filedrop v) (Response_file_count v)
    (Response_folder_count v) (Response_size v) (Response_total_folders v)
    (Response_total_files v) (Response_total_size v) (Response_shared_by_user v)
    (Response_permissions v) (Response_owner_name v) (Response_avatar v) (Response_flag v)
    (Response_revision v).
Definition new_Response : Response :=
  {| Response_folderkey := []; Response_name := []; Response_description := None;
     Response_created_datetime := not_a_date; Response_deleted_datetime := not_a_date;
     Response_parent_folderkey := None; Response_custom_url := None; Response_filedrop := None;
     Response_file_count := indeterminate Z _; Response_folder_count := indeterminate Z _;
     Response_size := None; Response_total_folders := None; Response_total_files := None;
     Response_total_size := None; Response_shared_by_user := SharedByUser_Unshared;
     Response_permissions := None; Response_owner_name := None; Response_avatar := None;
     Response_flag := indeterminate Z _; Response_revision := indeterminate Z _ |}.

(** [api/folder/get_info/v0.cpp:193-427 Impl::ParseResponse] *)
Definition ParseResponse : ResponseBase -> Response -> ResponseBase * Response :=
  parse_response
  [ assign Response_created_datetime not_a_date;
    assign Response_deleted_datetime not_a_date;
    assign Response_shared_by_user SharedByUser_Unshared;
    required std_string "response.folder_info.folderkey" Response_folderkey;
    required std_string "response.folder_info.name" Response_name;
    optional std_string "response.folder_info.description" Response_description;
    with_default a_ptime "response.folder_info.created" Response_created_datetime;
    with_default a_ptime "response.folder_info.delete_date" Response_deleted_datetime;
    optional std_string "response.folder_info.parent_folderkey" Response_parent_folderkey;
    optional std_string "response.folder_info.custom_url" Response_custom_url;
    optional_enum Some [("no", FileDrop_Disabled); ("yes", FileDrop_Enabled)]
       "response.folder_info.dropbox_enabled" Response_filedrop;
    required (an uint32) "response.folder_info.file_count" Response_file_count;
    required (an uint32) "response.folder_info.folder_count" Response_folder_count;
    optional (an uint64) "response.folder_info.size" Response_size;
    optional (an uint32) "response.folder_info.total_folders" Response_total_folders;
    optional (an uint32) "response.folder_info.total_files" Response_total_files;
    optional (an uint64) "response.folder_info.total_size" Response_total_size;
    optional_enum id [("", SharedByUser_Unshared); ("1", SharedByUser_Shared)]
       "response.folder_info.shared_by_user" Response_shared_by_user;
    optional_struct PermissionsFromPropertyBranch new_Permissions "permissions"
       Response_permissions;
    optional std_string "response.folder_info.owner_name" Response_owner_name;
    optional std_string "response.folder_info.avatar" Response_avatar;
    required (an uint32) "response.folder_info.flag" Response_flag;
    required (an uint32) "response.folder_info.revision" Response_revision].

(** [api/folder/get_info/v0.cpp:149-149 api_path] *)
Definition api_path : str := B "/api/folder/get_info".

(** [api/folder/get_info/v0.cpp:153-176 Impl] *)
Record Impl := {
  folderkey_ : str;
  details_ : option Details;
  device_id_ : option Z }.
#[local] Instance Impl_members : Members Impl := fun v =>
  Build_Impl (folderkey_ v) (details_ v) (device_id_ v).

(** [api/folder/get_info/v0.cpp:178-183 Impl::Impl] *)
Definition new_Impl (folderkey : str) : Impl :=
  {| folderkey_ := folderkey; details_ := None; device_id_ := None |}.

(** [api/folder/get_info/v0.cpp:490-493 Request::SetDetails] *)
Definition SetDetails (details : Details) (i : Impl) : Impl :=
  set_field details_ (Some details) i.

(** [api/folder/get_info/v0.cpp:495-498 Request::SetDeviceId] *)
Definition SetDeviceId (device_id : Z) (i : Impl) : Impl :=
  set_field device_id_ (Some device_id) i.

(** [api/folder/get_info/v0.cpp:185-191 Impl::BuildUrl] *)
Definition BuildUrl (query_parts : list query_part) : str * list query_part :=
  (api_path ++ B ".php", query_parts).

(** [api/folder/get_info/v0.cpp:172-175 Impl::GetRequestMethod] *)
Definition GetRequestMethod : RequestMethod := Post.

(** The assignments to [parts].
    [api/folder/get_info/v0.cpp:429-442 Impl::GetPostData] *)
Definition post_parts (i : Impl) : list query_part := make_parts
  [("folder_key", Some (folderkey_ i));
   ("details", AsString_Details <$> details_ i);
   ("device_id", print_int <$> device_id_ i)].

(** [api/folder/get_info/v0.cpp:429-442 Impl::GetPostData] *)
Definition GetPostData (MD5 : str -> str) (a : SessionTokenApi) (i : Impl) : str :=
  MakePost MD5 a (api_path ++ B ".php") (post_parts i).

(** *** The description *)

(** [api/templates/apis/folder/v0/get_info.json:76-100 Permissions] *)
Definition Permissions_described : description Permissions :=
  [ Required (number_at uint32) "value" Permissions_value;
    Required (enum_at [("0", ExplicitShare_No); ("1", ExplicitShare_Yes)])
       "explicit" Permissions_explicit_share;
    Required (enum_at [("1", Permission_Allowed); ("0", Permission_Denied)])
       "read" Permissions_read_permission;
    Required (enum_at [("1", Permission_Allowed); ("0", Permission_Denied)])
       "write" Permissions_write_permission].

(** [api/templates/apis/folder/v0/get_info.json:121-236 return_params] *)
Definition Response_described : description Response :=
  [ Required string_at "response.folder_info.folderkey" Response_folderkey;
    Required string_at "response.folder_info.name" Response_name;
    Optional string_at "response.folder_info.description" Response_description;
    Default not_a_date time_at "response.folder_info.created" Response_created_datetime;
    Default not_a_date time_at "response.folder_info.delete_date" Response_deleted_datetime;
    Optional string_at "response.folder_info.parent_folderkey" Response_parent_folderkey;
    Optional string_at "response.folder_info.custom_url" Response_custom_url;
    Optional (enum_at [("no", FileDrop_Disabled); ("yes", FileDrop_Enabled)])
       "response.folder_info.dropbox_enabled" Response_filedrop;
    Required (number_at uint32) "response.folder_info.file_count" Response_file_count;
    Required (number_at uint32) "response.folder_info.folder_count" Response_folder_count;
    Optional (number_at uint64) "response.folder_info.size" Response_size;
    Optional (number_at uint32) "response.folder_info.total_folders" Response_total_folders;
    Optional (number_at uint32) "response.folder_info.total_files" Response_total_files;
    Optional (number_at uint64) "response.folder_info.total_size" Response_total_size;
    Default SharedByUser_Unshared (enum_at [("", SharedByUser_Unshared);
       ("1", SharedByUser_Shared)]) "response.folder_info.shared_by_user" Response_shared_by_user;
    OptionalStruct Permissions_described "permissions" Response_permissions;
    Optional string_at "response.folder_info.owner_name" Response_owner_name;
    Optional string_at "response.folder_info.avatar" Response_avatar;
    Required (number_at uint32) "response.folder_info.flag" Response_flag;
    Required (number_at uint32) "response.folder_info.revision" Response_revision].

(** [api/templates/apis/folder/v0/get_info.json:5-21 Details] *)
Definition AsDescribed_Details (value : Details) : str :=
  match value with
  | Details_NoDetails => B "no"
  | Details_FullDetails => B "yes"
  | Details_ShallowDetails => B "shallow"
  end.

(** [api/templates/apis/folder/v0/get_info.json:102-120 input_params] *)
Definition params_described (i : Impl) : list (string * option str) :=
  [("folder_key", Some (folderkey_ i));
   ("details", (AsDescribed_Details) <$> details_ i);
   ("device_id", print_int <$> device_id_ i)].

#[global] Instance Permissions_parses : Parses PermissionsFromPropertyBranch new_Permissions
  Permissions_described.
Proof. parse_class. Qed.
#[global] Instance Response_parses :
  ParsesResponse ParseResponse new_Response Response_described.
Proof. parse_class. Qed.

Definition call : api_call := {|
  call_method := GetRequestMethod;
  call_uses_token := true;
  call_BuildUrl := BuildUrl;
  call_parts := post_parts;
  call_GetPostData := GetPostData;
  call_new := new_Response;
  call_ParseResponse := ParseResponse |}.

#[global] Instance call_implements :
  ImplementsCall call "/api/folder/get_info" true params_described Response_described.
Proof. implement_call. Qed.

End Call.
End folder_get_info_v0.

(** ** [api/folder/move/v0.cpp] *)
Module folder_move_v0.

(** [api/folder/move/v0.hpp:29-35 Asynchronous] *)
Inductive Asynchronous : Set := Asynchronous_Synchronous | Asynchronous_Asynchronous.
#[global] Instance Asynchronous_inhabited : Inhabited Asynchronous :=
  populate Asynchronous_Synchronous.

Section Call.
Context `{Libraries}.

(** [api/folder/move/v0.hpp:47-51 Response] *)
Record Response := {
  Response_asynchronous : Asynchronous;
  Response_device_revision : option Z }.
#[local] Instance Response_members : Members Response := fun v =>
  Build_Response (Response_asynchronous v) (Response_device_revision v).
Definition new_Response : Response :=
  {| Response_asynchronous := Asynchronous_Synchronous; Response_device_revision := None |}.

(** [api/folder/move/v0.cpp:78-116 Impl::ParseResponse] *)
Definition ParseResponse : ResponseBase -> Response -> ResponseBase * Response :=
  parse_response
  [ assign Response_asynchronous Asynchronous_Synchronous;
    optional_enum id [("no", Asynchronous_Synchronous); ("yes", Asynchronous_Asynchronous)]
       "response.asynchronous" Response_asynchronous;
    optional (an uint32) "response.device_revision" Response_device_revision].

(** [api/folder/move/v0.cpp:32-32 api_path] *)
Definition api_path : str := B "/api/folder/move".

(** [api/folder/move/v0.cpp:36-59 Impl] *)
Record Impl := {
  folderkey_ : str;
  target_parent_folderkey_ : str }.
#[local] Instance Impl_members : Members Impl := fun v =>
  Build_Impl (folderkey_ v) (target_parent_folderkey_ v).

(** [api/folder/move/v0.cpp:61-68 Impl::Impl] *)
Definition new_Impl (folderkey : str) (target_parent_folderkey : str) : Impl :=
  {| folderkey_ := folderkey; target_parent_folderkey_ := target_parent_folderkey |}.

(** [api/folder/move/v0.cpp:70-76 Impl::BuildUrl] *)
Definition BuildUrl (query_parts : list query_part) : str * list query_part :=
  (api_path ++ B ".php", query_parts).

(** [api/folder/move/v0.cpp:55-58 Impl::GetRequestMethod] *)
Definition GetRequestMethod : RequestMethod := Post.

(** The assignments to [parts].
    [api/folder/move/v0.cpp:118-128 Impl::GetPostData] *)
Definition post_parts (i : Impl) : list query_part := make_parts
  [("folder_key_src", Some (folderkey_ i));
   ("folder_key_dst", Some (target_parent_folderkey_ i))].

(** [api/folder/move/v0.cpp:118-128 Impl::GetPostData] *)
Definition GetPostData (MD5 : str -> str) (a : SessionTokenApi) (i : Impl) : str :=
  MakePost MD5 a (api_path ++ B ".php") (post_parts i).

(** *** The description *)

(** [api/templates/apis/folder/v0/move.json:31-44 return_params] *)
Definition Response_described : description Response :=
  [ Default Asynchronous_Synchronous (enum_at [("no", Asynchronous_Synchronous);
       ("yes", Asynchronous_Asynchronous)]) "response.asynchronous" Response_asynchronous;
    Optional (number_at uint32) "response.device_revision" Response_device_revision].

(** [api/templates/apis/folder/v0/move.json:19-30 input_params] *)
Definition params_described (i : Impl) : list (string * option str) :=
  [("folder_key_src", Some (folderkey_ i));
   ("folder_key_dst", Some (target_parent_folderkey_ i))].

#[global] Instance Response_parses :
  ParsesResponse ParseResponse new_Response Response_described.
Proof. parse_class. Qed.

Definition call : api_call := {|
  call_method := GetRequestMethod;
  call_uses_token := true;
  call_BuildUrl := BuildUrl;
  call_parts := post_parts;
  call_GetPostData := GetPostData;
  call_new := new_Response;
  call_ParseResponse := ParseResponse |}.

#[global] Instance call_implements :
  ImplementsCall call "/api/folder/move" true params_described Response_described.
Proof. implement_call. Qed.

End Call.
End folder_move_v0.

(** ** [api/folder/update/v0.cpp] *)
Module folder_update_v0.

(** [api/folder/update/v0.hpp:29-35 Asynchronous] *)
Inductive Asynchronous : Set := Asynchronous_Synchronous | Asynchronous_Asynchronous.
#[global] Instance Asynchronous_inhabited : Inhabited Asynchronous :=
  populate Asynchronous_Synchronous.

(** [api/folder/update/v0.hpp:37-43 Privacy] *)
Inductive Privacy : Set := Privacy_Public | Privacy_Private.
#[global] Instance Privacy_inhabited : Inhabited Privacy := populate Privacy_Public.

(** [api/folder/update/v0.hpp:45-51 PrivacyRecursive] *)
Inductive PrivacyRecursive : Set := PrivacyRecursive_NonRecursive | PrivacyRecursive_Recursive.
#[global] Instance PrivacyRecursive_inhabited : Inhabited PrivacyRecursive :=
  populate PrivacyRecursive_NonRecursive.

(** [api/folder/update/v0.cpp:24-31 AsString] *)
Definition AsString_Privacy (value : Privacy) : str :=
  match value with
  | Privacy_Public => B "public"
  | Privacy_Private => B "private"
  end.

(** [api/folder/update/v0.cpp:32-39 AsString] *)
Definition AsString_PrivacyRecursive (value : PrivacyRecursive) : str :=
  match value with
  | PrivacyRecursive_NonRecursive => B "no"
  | PrivacyRecursive_Recursive => B "yes"
  end.

Section Call.
Context `{Libraries}.

(** [api/folder/update/v0.hpp:63-67 Response] *)
Record Response := {
  Response_asynchronous : Asynchronous;
  Response_device_revision : option Z }.
#[local] Instance Response_members : Members Response := fun v =>
  Build_Response (Response_asynchronous v) (Response_device_revision v).
Definition new_Response : Response :=
  {| Response_asynchronous := Asynchronous_Synchronous; Response_device_revision := None |}.

(** [api/folder/update/v0.cpp:98-136 Impl::ParseResponse] *)
Definition ParseResponse : ResponseBase -> Response -> ResponseBase * Response :=
  parse_response
  [ assign Response_asynchronous Asynchronous_Synchronous;
    optional_enum id [("no", Asynchronous_Synchronous); ("yes", Asynchronous_Asynchronous)]
       "response.asynchronous" Response_asynchronous;
    optional (an uint32) "response.device_revision" Response_device_revision].

(** [api/folder/update/v0.cpp:51-51 api_path] *)
Definition api_path : str := B "/api/folder/update".

(** [api/folder/update/v0.cpp:55-81 Impl] *)
Record Impl := {
  folderkey_ : str;
  foldername_ : option str;
  description_ : option str;
  privacy_ : option Privacy;
  privacy_recursive_ : option PrivacyRecursive;
  mtime_ : option ptime }.
#[local] Instance Impl_members : Members Impl := fun v =>
  Build_Impl (folderkey_ v) (foldername_ v) (description_ v) (privacy_ v) (privacy_recursive_ v)
    (mtime_ v).

(** [api/folder/update/v0.cpp:83-88 Impl::Impl] *)
Definition new_Impl (folderkey : str) : Impl :=
  {| folderkey_ := folderkey; foldername_ := None; description_ := None; privacy_ := None;
     privacy_recursive_ := None; mtime_ := None |}.

(** [api/folder/update/v0.cpp:205-208 Request::SetFoldername] *)
Definition SetFoldername (foldername : str) (i : Impl) : Impl :=
  set_field foldername_ (Some foldername) i.

(** [api/folder/update/v0.cpp:210-213 Request::SetDescription] *)
Definition SetDescription (description : str) (i : Impl) : Impl :=
  set_field description_ (Some description) i.

(** [api/folder/update/v0.cpp:215-218 Request::SetPrivacy] *)
Definition SetPrivacy (privacy : Privacy) (i : Impl) : Impl :=
  set_field privacy_ (Some privacy) i.

(** [api/folder/update/v0.cpp:220-223 Request::SetPrivacyRecursive] *)
Definition SetPrivacyRecursive (privacy_recursive : PrivacyRecursive) (i : Impl) : Impl :=
  set_field privacy_recursive_ (Some privacy_recursive) i.

(** [api/folder/update/v0.cpp:225-228 Request::SetMtime] *)
Definition SetMtime (mtime : ptime) (i : Impl) : Impl := set_field mtime_ (Some mtime) i.

(** [api/folder/update/v0.cpp:90-96 Impl::BuildUrl] *)
Definition BuildUrl (query_parts : list query_part) : str * list query_part :=
  (api_path ++ B ".php", query_parts).

(** [api/folder/update/v0.cpp:77-80 Impl::GetRequestMethod] *)
Definition GetRequestMethod : RequestMethod := Post.

(** The assignments to [parts].
    [api/folder/update/v0.cpp:138-157 Impl::GetPostData] *)
Definition post_parts (i : Impl) : list query_part := make_parts
  [("folder_key", Some (folderkey_ i));
   ("foldername", foldername_ i);
   ("description", description_ i);
   ("privacy", AsString_Privacy <$> privacy_ i);
   ("privacy_recursive", AsString_PrivacyRecursive <$> privacy_recursive_ i);
   ("mtime", AsString_ptime <$> mtime_ i)].

(** [api/folder/update/v0.cpp:138-157 Impl::GetPostData] *)
Definition GetPostData (MD5 : str -> str) (a : SessionTokenApi) (i : Impl) : str :=
  MakePost MD5 a (api_path ++ B ".php") (post_parts i).

(** *** The description *)

(** [api/templates/apis/folder/v0/update.json:79-92 return_params] *)
Definition Response_described : description Response :=
  [ Default Asynchronous_Synchronous (enum_at [("no", Asynchronous_Synchronous);
       ("yes", Asynchronous_Asynchronous)]) "response.asynchronous" Response_asynchronous;
    Optional (number_at uint32) "response.device_revision" Response_device_revision].

(** [api/templates/apis/folder/v0/update.json:18-30 Privacy] *)
Definition AsDescribed_Privacy (value : Privacy) : str :=
  match value with
  | Privacy_Public => B "public"
  | Privacy_Private => B "private"
  end.

(** [api/templates/apis/folder/v0/update.json:31-43 PrivacyRecursive] *)
Definition AsDescribed_PrivacyRecursive (value : PrivacyRecursive) : str :=
  match value with
  | PrivacyRecursive_NonRecursive => B "no"
  | PrivacyRecursive_Recursive => B "yes"
  end.

(** [api/templates/apis/folder/v0/update.json:45-78 input_params] *)
Definition params_described (i : Impl) : list (string * option str) :=
  [("folder_key", Some (folderkey_ i));
   ("foldername", foldername_ i);
   ("description", description_ i);
   ("privacy", (AsDescribed_Privacy) <$> privacy_ i);
   ("privacy_recursive", (AsDescribed_PrivacyRecursive) <$> privacy_recursive_ i);
   ("mtime", iso_time <$> mtime_ i)].

#[global] Instance Response_parses :
  ParsesResponse ParseResponse new_Response Response_described.
Proof. parse_class. Qed.

Definition call : api_call := {|
  call_method := GetRequestMethod;
  call_uses_token := true;
  call_BuildUrl := BuildUrl;
  call_parts := post_parts;
  call_GetPostData := GetPostData;
  call_new := new_Response;
  call_ParseResponse := ParseResponse |}.

#[global] Instance call_implements :
  ImplementsCall call "/api/folder/update" true params_described Response_described.
Proof. implement_call. Qed.

End Call.
End folder_update_v0.
