(* ===== verification/ApiNotifications.v ===== *)
(** * The calls [notifications/...] ([api/notifications])

    One module for each class, with the description it was generated from. *)
From S2P Require Import Prelude Errors ApiRequests PropertyTree ApiResponses Endpoint EndpointSpec EndpointProofs.

Open Scope Z_scope.

(** ** [api/notifications/get_cache/v0.cpp] *)
Module notifications_get_cache_v0.

(** [api/notifications/get_cache/v0.hpp:29-35 Viewable] *)
Inductive Viewable : Set := Viewable_Hidden | Viewable_Viewable.
#[global] Instance Viewable_inhabited : Inhabited Viewable := populate Viewable_Hidden.

Section Call.
Context `{Libraries}.

(** [api/notifications/get_cache/v0.hpp:44-60 Notification] *)
Record Notification := {
  Notification_actor : str;
  Notification_timestamp : ptime;
  Notification_message : str;
  Notification_resource : option str;
  Notification_viewable : Viewable }.
#[local] Instance Notification_members : Members Notification := fun v =>
  Build_Notification (Notification_actor v) (Notification_timestamp v) (Notification_message v)
    (Notification_resource v) (Notification_viewable v).
Definition new_Notification : Notification :=
  {| Notification_actor := []; Notification_timestamp := not_a_date; Notification_message := [];
     Notification_resource := None; Notification_viewable := indeterminate Viewable _ |}.

(** [api/notifications/get_cache/v0.cpp:28-101 NotificationFromPropertyBranch] *)
Definition NotificationFromPropertyBranch : branch_parser Notification := FromPropertyBranch
  [ assign Notification_timestamp not_a_date;
    assign Notification_viewable Viewable_Hidden;
    required std_string "actor" Notification_actor;
    with_default a_ptime "timestamp" Notification_timestamp;
    required std_string "message" Notification_message;
    optional std_string "resource" Notification_resource;
    optional_enum id [("0", Viewable_Hidden); ("1", Viewable_Viewable)]
       "viewable" Notification_viewable].

(** [api/notifications/get_cache/v0.hpp:61-65 Response] *)
Record Response := {
  Response_notifications : list Notification;
  Response_number_older : Z }.
#[local] Instance Response_members : Members Response := fun v =>
  Build_Response (Response_notifications v) (Response_number_older v).
Definition new_Response : Response :=
  {| Response_notifications := []; Response_number_older := indeterminate Z _ |}.

(** [api/notifications/get_cache/v0.cpp:149-187 Impl::ParseResponse] *)
Definition ParseResponse : ResponseBase -> Response -> ResponseBase * Response :=
  parse_response
  [ optional_structs NotificationFromPropertyBranch new_Notification "response.notifications"
       Response_notifications;
    required (an uint32) "response.num_older" Response_number_older].

(** [api/notifications/get_cache/v0.cpp:111-111 api_path] *)
Definition api_path : str := B "/api/notifications/get_cache".

(** [api/notifications/get_cache/v0.cpp:115-135 Impl] *)
Record Impl := {
  start_ : option Z;
  limit_ : option Z }.
#[local] Instance Impl_members : Members Impl := fun v =>
  Build_Impl (start_ v) (limit_ v).

(** [api/notifications/get_cache/v0.cpp:137-139 Impl::Impl] *)
Definition new_Impl : Impl :=
  {| start_ := None; limit_ := None |}.

(** [api/notifications/get_cache/v0.cpp:247-250 Request::SetStart] *)
Definition SetStart (start : Z) (i : Impl) : Impl := set_field start_ (Some start) i.

(** [api/notifications/get_cache/v0.cpp:252-255 Request::SetLimit] *)
Definition SetLimit (limit : Z) (i : Impl) : Impl := set_field limit_ (Some limit) i.

(** [api/notifications/get_cache/v0.cpp:141-147 Impl::BuildUrl] *)
Definition BuildUrl (query_parts : list query_part) : str * list query_part :=
  (api_path ++ B ".php", query_parts).

(** [api/notifications/get_cache/v0.cpp:131-134 Impl::GetRequestMethod] *)
Definition GetRequestMethod : RequestMethod := Post.

(** The assignments to [parts].
    [api/notifications/get_cache/v0.cpp:189-201 Impl::GetPostData] *)
Definition post_parts (i : Impl) : list query_part := make_parts
  [("start", print_int <$> start_ i);
   ("limit", print_int <$> limit_ i)].

(** [api/notifications/get_cache/v0.cpp:189-201 Impl::GetPostData] *)
Definition GetPostData (MD5 : str -> str) (a : SessionTokenApi) (i : Impl) : str :=
  MakePost MD5 a (api_path ++ B ".php") (post_parts i).

(** *** The description *)

(** [api/templates/apis/notifications/v0/get_cache.json:20-52 Notification] *)
Definition Notification_described : description Notification :=
  [ Required string_at "actor" Notification_actor;
    Default not_a_date time_at "timestamp" Notification_timestamp;
    Required string_at "message" Notification_message;
    Optional string_at "resource" Notification_resource;
    Default Viewable_Hidden (enum_at [("0", Viewable_Hidden); ("1", Viewable_Viewable)])
       "viewable" Notification_viewable].

(** [api/templates/apis/notifications/v0/get_cache.json:66-79 return_params] *)
Definition Response_described : description Response :=
  [ OptionalStructs Notification_described "response.notifications" Response_notifications;
    Required (number_at uint32) "response.num_older" Response_number_older].

(** [api/templates/apis/notifications/v0/get_cache.json:54-65 input_params] *)
Definition params_described (i : Impl) : list (string * option str) :=
  [("start", print_int <$> start_ i);
   ("limit", print_int <$> limit_ i)].

#[global] Instance Notification_parses : Parses NotificationFromPropertyBranch new_Notification
  Notification_described.
Proof. parse_class. Qed.
#[global] Instance Response_parses :
  ParsesResponse ParseResponse new_Response Response_described.
Proof. parse_class. Qed.

Definition call : api_call := {|
  call_method := GetRequestMethod;
  call_uses_token := true;
  call_BuildUrl := BuildUrl;
  call_parts := post_parts;
  call_GetPostData := GetPostData;
  call_new := new_Response;
  call_ParseResponse := ParseResponse |}.

#[global] Instance call_implements :
  ImplementsCall call "/api/notifications/get_cache" true params_described Response_described.
Proof. implement_call. Qed.

End Call.
End notifications_get_cache_v0.

(** ** [api/notifications/peek_cache/v0.cpp] *)
Module notifications_peek_cache_v0.

Section Call.
Context `{Libraries}.

(** [api/notifications/peek_cache/v0.hpp:36-43 Response] *)
Record Response := {
  Response_total : Z;
  Response_unread : Z;
  Response_last_timestamp : Z }.
#[local] Instance Response_members : Members Response := fun v =>
  Build_Response (Response_total v) (Response_unread v) (Response_last_timestamp v).
Definition new_Response : Response :=
  {| Response_total := indeterminate Z _; Response_unread := indeterminate Z _;
     Response_last_timestamp := indeterminate Z _ |}.

(** [api/notifications/peek_cache/v0.cpp:68-105 Impl::ParseResponse] *)
Definition ParseResponse : ResponseBase -> Response -> ResponseBase * Response :=
  parse_response
  [ required (an uint32) "response.num_total" Response_total;
    required (an uint32) "response.num_unread" Response_unread;
    required (an uint64) "response.last_timestamp" Response_last_timestamp].

(** [api/notifications/peek_cache/v0.cpp:32-32 api_path] *)
Definition api_path : str := B "/api/notifications/peek_cache".

(** [api/notifications/peek_cache/v0.cpp:36-54 Impl] *)
Record Impl := { }.

(** [api/notifications/peek_cache/v0.cpp:56-58 Impl::Impl] *)
Definition new_Impl : Impl :=
  Build_Impl.

(** [api/notifications/peek_cache/v0.cpp:60-66 Impl::BuildUrl] *)
Definition BuildUrl (query_parts : list query_part) : str * list query_part :=
  (api_path ++ B ".php", query_parts).

(** [api/notifications/peek_cache/v0.cpp:50-53 Impl::GetRequestMethod] *)
Definition GetRequestMethod : RequestMethod := Post.

(** The assignments to [parts].
    [api/notifications/peek_cache/v0.cpp:107-115 Impl::GetPostData] *)
Definition post_parts (i : Impl) : list query_part := make_parts
  [].

(** [api/notifications/peek_cache/v0.cpp:107-115 Impl::GetPostData] *)
Definition GetPostData (MD5 : str -> str) (a : SessionTokenApi) (i : Impl) : str :=
  MakePost MD5 a (api_path ++ B ".php") (post_parts i).

(** *** The description *)

(** [api/templates/apis/notifications/v0/peek_cache.json:4-20 return_params] *)
Definition Response_described : description Response :=
  [ Required (number_at uint32) "response.num_total" Response_total;
    Required (number_at uint32) "response.num_unread" Response_unread;
    Required (number_at uint64) "response.last_timestamp" Response_last_timestamp].

(** [api/templates/apis/notifications/v0/peek_cache.json:1-21 input_params] *)
Definition params_described (i : Impl) : list (string * option str) :=
  [].

#[global] Instance Response_parses :
  ParsesResponse ParseResponse new_Response Response_described.
Proof. parse_class. Qed.

Definition call : api_call := {|
  call_method := GetRequestMethod;
  call_uses_token := true;
  call_BuildUrl := BuildUrl;
  call_parts := post_parts;
  call_GetPostData := GetPostData;
  call_new := new_Response;
  call_ParseResponse := ParseResponse |}.

#[global] Instance call_implements :
  ImplementsCall call "/api/notifications/peek_cache" true params_described Response_described.
Proof. implement_call. Qed.

End Call.
End notifications_peek_cache_v0.
