(* ===== verification/ApiSystem.v ===== *)
(** * The calls [system/...] ([api/system])

    One module for each class, with the description it was generated from. *)
From S2P Require Import Prelude Errors ApiRequests PropertyTree ApiResponses Endpoint EndpointSpec EndpointProofs.

Open Scope Z_scope.

(** ** [api/system/get_editable_media/v0.cpp] *)
Module system_get_editable_media_v0.

Section Call.
Context `{Libraries}.

(** [api/system/get_editable_media/v0.hpp:35-36 Response] *)
Record Response := {
  Response_editable_extensions : list str }.
#[local] Instance Response_members : Members Response := fun v =>
  Build_Response (Response_editable_extensions v).
Definition new_Response : Response :=
  {| Response_editable_extensions := [] |}.

(** [api/system/get_editable_media/v0.cpp:66-113 Impl::ParseResponse] *)
Definition ParseResponse : ResponseBase -> Response -> ResponseBase * Response :=
  parse_response
  [ required_array (GetValueIfExists the_json) "response.editable.extensions"
       Response_editable_extensions].

(** [api/system/get_editable_media/v0.cpp:32-32 api_path] *)
Definition api_path : str := B "/api/system/get_editable_media".

(** [api/system/get_editable_media/v0.cpp:36-52 Impl] *)
Record Impl := { }.

(** [api/system/get_editable_media/v0.cpp:54-56 Impl::Impl] *)
Definition new_Impl : Impl :=
  Build_Impl.

(** [api/system/get_editable_media/v0.cpp:58-64 Impl::BuildUrl] *)
Definition BuildUrl (query_parts : list query_part) : str * list query_part :=
  (api_path ++ B ".php", query_parts).

(** [api/system/get_editable_media/v0.cpp:48-51 Impl::GetRequestMethod] *)
Definition GetRequestMethod : RequestMethod := Get.

(** *** The description *)

(** [api/templates/apis/system/v0/get_editable_media.json:5-12 return_params] *)
Definition Response_described : description Response :=
  [ RequiredArray string_here "response.editable.extensions" Response_editable_extensions].

(** [api/templates/apis/system/v0/get_editable_media.json:1-13 input_params] *)
Definition params_described (i : Impl) : list (string * option str) :=
  [].

#[global] Instance Response_parses :
  ParsesResponse ParseResponse new_Response Response_described.
Proof. parse_class. Qed.

Definition call : api_call := {|
  call_method := GetRequestMethod;
  call_uses_token := false;
  call_BuildUrl := BuildUrl;
  call_parts := (fun _ : Impl => make_parts []);
  call_GetPostData := (fun _ _ _ => []);
  call_new := new_Response;
  call_ParseResponse := ParseResponse |}.

#[global] Instance call_implements :
  ImplementsCall call "/api/system/get_editable_media" false params_described Response_described.
Proof. implement_call. Qed.

End Call.
End system_get_editable_media_v0.

(** ** [api/system/get_info/v0.cpp] *)
Module system_get_info_v0.

Section Call.
Context `{Libraries}.

(** [api/system/get_info/v0.hpp:35-45 ImageSize] *)
Record ImageSize := {
  ImageSize_width : Z;
  ImageSize_height : Z;
  ImageSize_thumbnail_designation : str }.
#[local] Instance ImageSize_members : Members ImageSize := fun v =>
  Build_ImageSize (ImageSize_width v) (ImageSize_height v) (ImageSize_thumbnail_designation v).
Definition new_ImageSize : ImageSize :=
  {| ImageSize_width := indeterminate Z _; ImageSize_height := indeterminate Z _;
     ImageSize_thumbnail_designation := [] |}.

(** [api/system/get_info/v0.hpp:46-56 TermsOfService] *)
Record TermsOfService := {
  TermsOfService_revision : str;
  TermsOfService_terms : str;
  TermsOfService_date : ptime }.
#[local] Instance TermsOfService_members : Members TermsOfService := fun v =>
  Build_TermsOfService (TermsOfService_revision v) (TermsOfService_terms v)
    (TermsOfService_date v).
Definition new_TermsOfService : TermsOfService :=
  {| TermsOfService_revision := []; TermsOfService_terms := [];
     TermsOfService_date := not_a_date |}.

(** [api/system/get_info/v0.cpp:28-75 ImageSizeFromPropertyBranch] *)
Definition ImageSizeFromPropertyBranch : branch_parser ImageSize := FromPropertyBranch
  [ required (an uint32) "width" ImageSize_width;
    required (an uint32) "height" ImageSize_height;
    required std_string "thumbnail" ImageSize_thumbnail_designation].

(** [api/system/get_info/v0.cpp:78-125 TermsOfServiceFromPropertyBranch] *)
Definition TermsOfServiceFromPropertyBranch : branch_parser TermsOfService := FromPropertyBranch
  [ required std_string "revision" TermsOfService_revision;
    required std_string "terms" TermsOfService_terms;
    required a_ptime "date" TermsOfService_date].

(** [api/system/get_info/v0.hpp:57-85 Response] *)
Record Response := {
  Response_current_api_version : str;
  Response_timezone : str;
  Response_timezone_offset : Z;
  Response_viewable_extensions : list str;
  Response_editable_extensions : list str;
  Response_image_sizes : list ImageSize;
  Response_terms_of_service : TermsOfService;
  Response_max_keys : Z;
  Response_max_objects : Z;
  Response_max_image_size : Z }.
#[local] Instance Response_members : Members Response := fun v =>
  Build_Response (Response_current_api_version v) (Response_timezone v)
    (Response_timezone_offset v) (Response_viewable_extensions v) (Response_editable_extensions v)
    (Response_image_sizes v) (Response_terms_of_service v) (Response_max_keys v)
    (Response_max_objects v) (Response_max_image_size v).
Definition new_Response : Response :=
  {| Response_current_api_version := []; Response_timezone := [];
     Response_timezone_offset := indeterminate Z _; Response_viewable_extensions := [];
     Response_editable_extensions := []; Response_image_sizes := [];
     Response_terms_of_service := new_TermsOfService; Response_max_keys := indeterminate Z _;
     Response_max_objects := indeterminate Z _; Response_max_image_size := indeterminate Z _ |}.

(** [api/system/get_info/v0.cpp:169-361 Impl::ParseResponse] *)
Definition ParseResponse : ResponseBase -> Response -> ResponseBase * Response :=
  parse_response
  [ required std_string "response.current_api_version" Response_current_api_version;
    required std_string "response.timezone" Response_timezone;
    required (an int32) "response.timezone_offset" Response_timezone_offset;
    required_array (GetValueIfExists the_json) "response.viewable.extensions"
       Response_viewable_extensions;
    required_array (GetValueIfExists the_json) "response.editable.extensions"
       Response_editable_extensions;
    required_structs ImageSizeFromPropertyBranch new_ImageSize "response.image_sizes"
       Response_image_sizes;
    required_struct TermsOfServiceFromPropertyBranch new_TermsOfService
       "response.terms_of_service" Response_terms_of_service;
    required (an uint32) "response.max_keys" Response_max_keys;
    required (an uint32) "response.max_objects" Response_max_objects;
    required (an uint64) "response.max_image_size" Response_max_image_size].

(** [api/system/get_info/v0.cpp:135-135 api_path] *)
Definition api_path : str := B "/api/system/get_info".

(** [api/system/get_info/v0.cpp:139-155 Impl] *)
Record Impl := { }.

(** [api/system/get_info/v0.cpp:157-159 Impl::Impl] *)
Definition new_Impl : Impl :=
  Build_Impl.

(** [api/system/get_info/v0.cpp:161-167 Impl::BuildUrl] *)
Definition BuildUrl (query_parts : list query_part) : str * list query_part :=
  (api_path ++ B ".php", query_parts).

(** [api/system/get_info/v0.cpp:151-154 Impl::GetRequestMethod] *)
Definition GetRequestMethod : RequestMethod := Get.

(** *** The description *)

(** [api/templates/apis/system/v0/get_info.json:6-25 ImageSize] *)
Definition ImageSize_described : description ImageSize :=
  [ Required (number_at uint32) "width" ImageSize_width;
    Required (number_at uint32) "height" ImageSize_height;
    Required string_at "thumbnail" ImageSize_thumbnail_designation].

(** [api/templates/apis/system/v0/get_info.json:26-45 TermsOfService] *)
Definition TermsOfService_described : description TermsOfService :=
  [ Required string_at "revision" TermsOfService_revision;
    Required string_at "terms" TermsOfService_terms;
    Required time_at "date" TermsOfService_date].

(** [api/templates/apis/system/v0/get_info.json:47-101 return_params] *)
Definition Response_described : description Response :=
  [ Required string_at "response.current_api_version" Response_current_api_version;
    Required string_at "response.timezone" Response_timezone;
    Required (number_at int32) "response.timezone_offset" Response_timezone_offset;
    RequiredArray string_here "response.viewable.extensions" Response_viewable_extensions;
    RequiredArray string_here "response.editable.extensions" Response_editable_extensions;
    RequiredStructs ImageSize_described "response.image_sizes" Response_image_sizes;
    RequiredStruct TermsOfService_described "response.terms_of_service" Response_terms_of_service;
    Required (number_at uint32) "response.max_keys" Response_max_keys;
    Required (number_at uint32) "response.max_objects" Response_max_objects;
    Required (number_at uint64) "response.max_image_size" Response_max_image_size].

(** [api/templates/apis/system/v0/get_info.json:1-102 input_params] *)
Definition params_described (i : Impl) : list (string * option str) :=
  [].

#[global] Instance ImageSize_parses : Parses ImageSizeFromPropertyBranch new_ImageSize
  ImageSize_described.
Proof. parse_class. Qed.
#[global] Instance TermsOfService_parses : Parses TermsOfServiceFromPropertyBranch
  new_TermsOfService TermsOfService_described.
Proof. parse_class. Qed.
#[global] Instance Response_parses :
  ParsesResponse ParseResponse new_Response Response_described.
Proof. parse_class. Qed.

Definition call : api_call := {|
  call_method := GetRequestMethod;
  call_uses_token := false;
  call_BuildUrl := BuildUrl;
  call_parts := (fun _ : Impl => make_parts []);
  call_GetPostData := (fun _ _ _ => []);
  call_new := new_Response;
  call_ParseResponse := ParseResponse |}.

#[global] Instance call_implements :
  ImplementsCall call "/api/system/get_info" false params_described Response_described.
Proof. implement_call. Qed.

End Call.
End system_get_info_v0.

(** ** [api/system/get_limits/v0.cpp] *)
Module system_get_limits_v0.

Section Call.
Context `{Libraries}.

(** [api/system/get_limits/v0.hpp:35-63 Response] *)
Record Response := {
  Response_max_objects : Z;
  Response_max_keys : Z;
  Response_max_image_size : Z;
  Response_zip_max_filesize : Z;
  Response_zip_max_total_filesize : Z;
  Response_folder_content_chunk_size : Z;
  Response_folder_depth_limit : Z;
  Response_limit_search_results : Z;
  Response_daily_shares_limit : Z;
  Response_device_changes_list_limit : Z }.
#[local] Instance Response_members : Members Response := fun v =>
  Build_Response (Response_max_objects v) (Response_max_keys v) (Response_max_image_size v)
    (Response_zip_max_filesize v) (Response_zip_max_total_filesize v)
    (Response_folder_content_chunk_size v) (Response_folder_depth_limit v)
    (Response_limit_search_results v) (Response_daily_shares_limit v)
    (Response_device_changes_list_limit v).
Definition new_Response : Response :=
  {| Response_max_objects := indeterminate Z _; Response_max_keys := indeterminate Z _;
     Response_max_image_size := indeterminate Z _; Response_zip_max_filesize := indeterminate Z _;
     Response_zip_max_total_filesize := indeterminate Z _;
     Response_folder_content_chunk_size := indeterminate Z _;
     Response_folder_depth_limit := indeterminate Z _;
     Response_limit_search_results := indeterminate Z _;
     Response_daily_shares_limit := indeterminate Z _;
     Response_device_changes_list_limit := indeterminate Z _ |}.

(** [api/system/get_limits/v0.cpp:66-166 Impl::ParseResponse] *)
Definition ParseResponse : ResponseBase -> Response -> ResponseBase * Response :=
  parse_response
  [ required (an uint32) "response.limits.max_objects" Response_max_objects;
    required (an uint32) "response.limits.max_keys" Response_max_keys;
    required (an uint64) "response.limits.max_image_size" Response_max_image_size;
    required (an uint64) "response.limits.zip_max_filesize" Response_zip_max_filesize;
    required (an uint64) "response.limits.zip_max_total_filesize" Response_zip_max_total_filesize;
    required (an uint32) "response.limits.folder_content_chunk_size"
       Response_folder_content_chunk_size;
    required (an uint32) "response.limits.folder_depth_limit" Response_folder_depth_limit;
    required (an uint32) "response.limits.limit_search_results" Response_limit_search_results;
    required (an uint32) "response.limits.daily_shares_limit" Response_daily_shares_limit;
    required (an uint32) "response.limits.device_changes_list_limit"
       Response_device_changes_list_limit].

(** [api/system/get_limits/v0.cpp:32-32 api_path] *)
Definition api_path : str := B "/api/system/get_limits".

(** [api/system/get_limits/v0.cpp:36-52 Impl] *)
Record Impl := { }.

(** [api/system/get_limits/v0.cpp:54-56 Impl::Impl] *)
Definition new_Impl : Impl :=
  Build_Impl.

(** [api/system/get_limits/v0.cpp:58-64 Impl::BuildUrl] *)
Definition BuildUrl (query_parts : list query_part) : str * list query_part :=
  (api_path ++ B ".php", query_parts).

(** [api/system/get_limits/v0.cpp:48-51 Impl::GetRequestMethod] *)
Definition GetRequestMethod : RequestMethod := Get.

(** *** The description *)

(** [api/templates/apis/system/v0/get_limits.json:5-56 return_params] *)
Definition Response_described : description Response :=
  [ Required (number_at uint32) "response.limits.max_objects" Response_max_objects;
    Required (number_at uint32) "response.limits.max_keys" Response_max_keys;
    Required (number_at uint64) "response.limits.max_image_size" Response_max_image_size;
    Required (number_at uint64) "response.limits.zip_max_filesize" Response_zip_max_filesize;
    Required (number_at uint64) "response.limits.zip_max_total_filesize"
       Response_zip_max_total_filesize;
    Required (number_at uint32) "response.limits.folder_content_chunk_size"
       Response_folder_content_chunk_size;
    Required (number_at uint32) "response.limits.folder_depth_limit" Response_folder_depth_limit;
    Required (number_at uint32) "response.limits.limit_search_results"
       Response_limit_search_results;
    Required (number_at uint32) "response.limits.daily_shares_limit" Response_daily_shares_limit;
    Required (number_at uint32) "response.limits.device_changes_list_limit"
       Response_device_changes_list_limit].

(** [api/templates/apis/system/v0/get_limits.json:1-57 input_params] *)
Definition params_described (i : Impl) : list (string * option str) :=
  [].

#[global] Instance Response_parses :
  ParsesResponse ParseResponse new_Response Response_described.
Proof. parse_class. Qed.

Definition call : api_call := {|
  call_method := GetRequestMethod;
  call_uses_token := false;
  call_BuildUrl := BuildUrl;
  call_parts := (fun _ : Impl => make_parts []);
  call_GetPostData := (fun _ _ _ => []);
  call_new := new_Response;
  call_ParseResponse := ParseResponse |}.

#[global] Instance call_implements :
  ImplementsCall call "/api/system/get_limits" false params_described Response_described.
Proof. implement_call. Qed.

End Call.
End system_get_limits_v0.

(** ** [api/system/get_mime_types/v0.cpp] *)
Module system_get_mime_types_v0.

(** [api/system/get_mime_types/v0.hpp:28-52 Category] *)
Inductive Category : Set :=
  Category_Unknown | Category_Image | Category_Video | Category_Audio | Category_Document |
  Category_Application | Category_Archive | Category_Data | Category_Development |
  Category_Spreadsheet | Category_Presentation.
#[global] Instance Category_inhabited : Inhabited Category := populate Category_Unknown.

(** [api/system/get_mime_types/v0.hpp:54-64 ViewSystem] *)
Inductive ViewSystem : Set :=
  ViewSystem_None | ViewSystem_Pdf2html | ViewSystem_Pdf_js | ViewSystem_Zoho.
#[global] Instance ViewSystem_inhabited : Inhabited ViewSystem := populate ViewSystem_None.

(** [api/system/get_mime_types/v0.hpp:66-74 EditSystem] *)
Inductive EditSystem : Set := EditSystem_None | EditSystem_Ace | EditSystem_Zoho.
#[global] Instance EditSystem_inhabited : Inhabited EditSystem := populate EditSystem_None.

Section Call.
Context `{Libraries}.

(** [api/system/get_mime_types/v0.hpp:83-99 MimeType] *)
Record MimeType := {
  MimeType_mimetype : str;
  MimeType_extension : str;
  MimeType_category : option Category;
  MimeType_view_system : option ViewSystem;
  MimeType_edit_system : option EditSystem }.
#[local] Instance MimeType_members : Members MimeType := fun v =>
  Build_MimeType (MimeType_mimetype v) (MimeType_extension v) (MimeType_category v)
    (MimeType_view_system v) (MimeType_edit_system v).
Definition new_MimeType : MimeType :=
  {| MimeType_mimetype := []; MimeType_extension := []; MimeType_category := None;
     MimeType_view_system := None; MimeType_edit_system := None |}.

(** [api/system/get_mime_types/v0.cpp:28-135 MimeTypeFromPropertyBranch] *)
Definition MimeTypeFromPropertyBranch : branch_parser MimeType := FromPropertyBranch
  [ required std_string "mimetype" MimeType_mimetype;
    required std_string "extension" MimeType_extension;
    optional_enum Some [("unknown", Category_Unknown); ("image", Category_Image);
       ("video", Category_Video); ("audio", Category_Audio); ("document", Category_Document);
       ("application", Category_Application); ("archive", Category_Archive); ("data",
       Category_Data); ("development", Category_Development); ("spreadsheet",
       Category_Spreadsheet); ("presentation", Category_Presentation)] "type" MimeType_category;
    optional_enum Some [("0", ViewSystem_None); ("1", ViewSystem_Pdf2html);
       ("2", ViewSystem_Pdf_js); ("3", ViewSystem_Zoho)] "view" MimeType_view_system;
    optional_enum Some [("0", EditSystem_None); ("1", EditSystem_Ace); ("2", EditSystem_Zoho)]
       "edit" MimeType_edit_system].

(** [api/system/get_mime_types/v0.hpp:100-101 Response] *)
Record Response := {
  Response_mimetypes : list MimeType }.
#[local] Instance Response_members : Members Response := fun v =>
  Build_Response (Response_mimetypes v).
Definition new_Response : Response :=
  {| Response_mimetypes := [] |}.

(** [api/system/get_mime_types/v0.cpp:179-214 Impl::ParseResponse] *)
Definition ParseResponse : ResponseBase -> Response -> ResponseBase * Response :=
  parse_response
  [ required_structs MimeTypeFromPropertyBranch new_MimeType "response.mime_types"
       Response_mimetypes].

(** [api/system/get_mime_types/v0.cpp:145-145 api_path] *)
Definition api_path : str := B "/api/system/get_mime_types".

(** [api/system/get_mime_types/v0.cpp:149-165 Impl] *)
Record Impl := { }.

(** [api/system/get_mime_types/v0.cpp:167-169 Impl::Impl] *)
Definition new_Impl : Impl :=
  Build_Impl.

(** [api/system/get_mime_types/v0.cpp:171-177 Impl::BuildUrl] *)
Definition BuildUrl (query_parts : list query_part) : str * list query_part :=
  (api_path ++ B ".php", query_parts).

(** [api/system/get_mime_types/v0.cpp:161-164 Impl::GetRequestMethod] *)
Definition GetRequestMethod : RequestMethod := Get.

(** *** The description *)

(** [api/templates/apis/system/v0/get_mime_types.json:95-127 MimeType] *)
Definition MimeType_described : description MimeType :=
  [ Required string_at "mimetype" MimeType_mimetype;
    Required string_at "extension" MimeType_extension;
    Optional (enum_at [("unknown", Category_Unknown); ("image", Category_Image);
       ("video", Category_Video); ("audio", Category_Audio); ("document", Category_Document);
       ("application", Category_Application); ("archive", Category_Archive); ("data",
       Category_Data); ("development", Category_Development); ("spreadsheet",
       Category_Spreadsheet); ("presentation", Category_Presentation)]) "type" MimeType_category;
    Optional (enum_at [("0", ViewSystem_None); ("1", ViewSystem_Pdf2html);
       ("2", ViewSystem_Pdf_js); ("3", ViewSystem_Zoho)]) "view" MimeType_view_system;
    Optional (enum_at [("0", EditSystem_None); ("1", EditSystem_Ace); ("2", EditSystem_Zoho)])
       "edit" MimeType_edit_system].

(** [api/templates/apis/system/v0/get_mime_types.json:129-136 return_params] *)
Definition Response_described : description Response :=
  [ RequiredStructs MimeType_described "response.mime_types" Response_mimetypes].

(** [api/templates/apis/system/v0/get_mime_types.json:1-137 input_params] *)
Definition params_described (i : Impl) : list (string * option str) :=
  [].

#[global] Instance MimeType_parses : Parses MimeTypeFromPropertyBranch new_MimeType
  MimeType_described.
Proof. parse_class. Qed.
#[global] Instance Response_parses :
  ParsesResponse ParseResponse new_Response Response_described.
Proof. parse_class. Qed.

Definition call : api_call := {|
  call_method := GetRequestMethod;
  call_uses_token := false;
  call_BuildUrl := BuildUrl;
  call_parts := (fun _ : Impl => make_parts []);
  call_GetPostData := (fun _ _ _ => []);
  call_new := new_Response;
  call_ParseResponse := ParseResponse |}.

#[global] Instance call_implements :
  ImplementsCall call "/api/system/get_mime_types" false params_described Response_described.
Proof. implement_call. Qed.

End Call.
End system_get_mime_types_v0.

(** ** [api/system/get_status/v0.cpp] *)
Module system_get_status_v0.

Section Call.
Context `{Libraries}.

(** [api/system/get_status/v0.hpp:35-39 Response] *)
Record Response := {
  Response_database : Z;
  Response_memcache : Z }.
#[local] Instance Response_members : Members Response := fun v =>
  Build_Response (Response_database v) (Response_memcache v).
Definition new_Response : Response :=
  {| Response_database := indeterminate Z _; Response_memcache := indeterminate Z _ |}.

(** [api/system/get_status/v0.cpp:66-94 Impl::ParseResponse] *)
Definition ParseResponse : ResponseBase -> Response -> ResponseBase * Response :=
  parse_response
  [ required (an int32) "response.database" Response_database;
    required (an int32) "response.memcache" Response_memcache].

(** [api/system/get_status/v0.cpp:32-32 api_path] *)
Definition api_path : str := B "/api/system/get_status".

(** [api/system/get_status/v0.cpp:36-52 Impl] *)
Record Impl := { }.

(** [api/system/get_status/v0.cpp:54-56 Impl::Impl] *)
Definition new_Impl : Impl :=
  Build_Impl.

(** [api/system/get_status/v0.cpp:58-64 Impl::BuildUrl] *)
Definition BuildUrl (query_parts : list query_part) : str * list query_part :=
  (api_path ++ B ".php", query_parts).

(** [api/system/get_status/v0.cpp:48-51 Impl::GetRequestMethod] *)
Definition GetRequestMethod : RequestMethod := Get.

(** *** The description *)

(** [api/templates/apis/system/v0/get_status.json:5-16 return_params] *)
Definition Response_described : description Response :=
  [ Required (number_at int32) "response.database" Response_database;
    Required (number_at int32) "response.memcache" Response_memcache].

(** [api/templates/apis/system/v0/get_status.json:1-17 input_params] *)
Definition params_described (i : Impl) : list (string * option str) :=
  [].

#[global] Instance Response_parses :
  ParsesResponse ParseResponse new_Response Response_described.
Proof. parse_class. Qed.

Definition call : api_call := {|
  call_method := GetRequestMethod;
  call_uses_token := false;
  call_BuildUrl := BuildUrl;
  call_parts := (fun _ : Impl => make_parts []);
  call_GetPostData := (fun _ _ _ => []);
  call_new := new_Response;
  call_ParseResponse := ParseResponse |}.

#[global] Instance call_implements :
  ImplementsCall call "/api/system/get_status" false params_described Response_described.
Proof. implement_call. Qed.

End Call.
End system_get_status_v0.

(** ** [api/system/get_supported_media/v0.cpp] *)
Module system_get_supported_media_v0.

Section Call.
Context `{Libraries}.

(** [api/system/get_supported_media/v0.hpp:35-36 Response] *)
Record Response := {
  Response_viewable_extensions : list str }.
#[local] Instance Response_members : Members Response := fun v =>
  Build_Response (Response_viewable_extensions v).
Definition new_Response : Response :=
  {| Response_viewable_extensions := [] |}.

(** [api/system/get_supported_media/v0.cpp:66-113 Impl::ParseResponse] *)
Definition ParseResponse : ResponseBase -> Response -> ResponseBase * Response :=
  parse_response
  [ required_array (GetValueIfExists the_json) "response.viewable.extensions"
       Response_viewable_extensions].

(** [api/system/get_supported_media/v0.cpp:32-32 api_path] *)
Definition api_path : str := B "/api/system/get_supported_media".

(** [api/system/get_supported_media/v0.cpp:36-52 Impl] *)
Record Impl := { }.

(** [api/system/get_supported_media/v0.cpp:54-56 Impl::Impl] *)
Definition new_Impl : Impl :=
  Build_Impl.

(** [api/system/get_supported_media/v0.cpp:58-64 Impl::BuildUrl] *)
Definition BuildUrl (query_parts : list query_part) : str * list query_part :=
  (api_path ++ B ".php", query_parts).

(** [api/system/get_supported_media/v0.cpp:48-51 Impl::GetRequestMethod] *)
Definition GetRequestMethod : RequestMethod := Get.

(** *** The description *)

(** [api/templates/apis/system/v0/get_supported_media.json:5-12 return_params] *)
Definition Response_described : description Response :=
  [ RequiredArray string_here "response.viewable.extensions" Response_viewable_extensions].

(** [api/templates/apis/system/v0/get_supported_media.json:1-13 input_params] *)
Definition params_described (i : Impl) : list (string * option str) :=
  [].

#[global] Instance Response_parses :
  ParsesResponse ParseResponse new_Response Response_described.
Proof. parse_class. Qed.

Definition call : api_call := {|
  call_method := GetRequestMethod;
  call_uses_token := false;
  call_BuildUrl := BuildUrl;
  call_parts := (fun _ : Impl => make_parts []);
  call_GetPostData := (fun _ _ _ => []);
  call_new := new_Response;
  call_ParseResponse := ParseResponse |}.

#[global] Instance call_implements :
  ImplementsCall call "/api/system/get_supported_media" false params_described Response_described.
Proof. implement_call. Qed.

End Call.
End system_get_supported_media_v0.

(** ** [api/system/get_version/v0.cpp] *)
Module system_get_version_v0.

Section Call.
Context `{Libraries}.

(** [api/system/get_version/v0.hpp:35-36 Response] *)
Record Response := {
  Response_current_api_version : str }.
#[local] Instance Response_members : Members Response := fun v =>
  Build_Response (Response_current_api_version v).
Definition new_Response : Response :=
  {| Response_current_api_version := [] |}.

(** [api/system/get_version/v0.cpp:66-85 Impl::ParseResponse] *)
Definition ParseResponse : ResponseBase -> Response -> ResponseBase * Response :=
  parse_response
  [ required std_string "response.current_api_version" Response_current_api_version].

(** [api/system/get_version/v0.cpp:32-32 api_path] *)
Definition api_path : str := B "/api/system/get_version".

(** [api/system/get_version/v0.cpp:36-52 Impl] *)
Record Impl := { }.

(** [api/system/get_version/v0.cpp:54-56 Impl::Impl] *)
Definition new_Impl : Impl :=
  Build_Impl.

(** [api/system/get_version/v0.cpp:58-64 Impl::BuildUrl] *)
Definition BuildUrl (query_parts : list query_part) : str * list query_part :=
  (api_path ++ B ".php", query_parts).

(** [api/system/get_version/v0.cpp:48-51 Impl::GetRequestMethod] *)
Definition GetRequestMethod : RequestMethod := Get.

(** *** The description *)

(** [api/templates/apis/system/v0/get_version.json:5-11 return_params] *)
Definition Response_described : description Response :=
  [ Required string_at "response.current_api_version" Response_current_api_version].

(** [api/templates/apis/system/v0/get_version.json:1-12 input_params] *)
Definition params_described (i : Impl) : list (string * option str) :=
  [].

#[global] Instance Response_parses :
  ParsesResponse ParseResponse new_Response Response_described.
Proof. parse_class. Qed.

Definition call : api_call := {|
  call_method := GetRequestMethod;
  call_uses_token := false;
  call_BuildUrl := BuildUrl;
  call_parts := (fun _ : Impl => make_parts []);
  call_GetPostData := (fun _ _ _ => []);
  call_new := new_Response;
  call_ParseResponse := ParseResponse |}.

#[global] Instance call_implements :
  ImplementsCall call "/api/system/get_version" false params_described Response_described.
Proof. implement_call. Qed.

End Call.
End system_get_version_v0.
