(* ===== verification/ApiUpload.v ===== *)
(** * The calls [upload/...] ([api/upload])

    One module for each class, with the description it was generated from. *)
From S2P Require Import Prelude Errors ApiRequests PropertyTree ApiResponses Endpoint EndpointSpec EndpointProofs.

Open Scope Z_scope.

(** ** [api/upload/add_web_upload/v1_3.cpp] *)
Module upload_add_web_upload_v1_3.

Section Call.
Context `{Libraries}.

(** [api/upload/add_web_upload/v1_3.hpp:36-38 Response] *)
Record Response := {
  Response_upload_key : str }.
#[local] Instance Response_members : Members Response := fun v =>
  Build_Response (Response_upload_key v).
Definition new_Response : Response :=
  {| Response_upload_key := [] |}.

(** [api/upload/add_web_upload/v1_3.cpp:79-98 Impl::ParseResponse] *)
Definition ParseResponse : ResponseBase -> Response -> ResponseBase * Response :=
  parse_response
  [ required std_string "response.upload_key" Response_upload_key].

(** [api/upload/add_web_upload/v1_3.cpp:32-32 api_path] *)
Definition api_path : str := B "/api/1.3/upload/add_web_upload".

(** [api/upload/add_web_upload/v1_3.cpp:36-60 Impl] *)
Record Impl := {
  url_ : str;
  filename_ : str;
  folder_key_ : option str }.
#[local] Instance Impl_members : Members Impl := fun v =>
  Build_Impl (url_ v) (filename_ v) (folder_key_ v).

(** [api/upload/add_web_upload/v1_3.cpp:62-69 Impl::Impl] *)
Definition new_Impl (url : str) (filename : str) : Impl :=
  {| url_ := url; filename_ := filename; folder_key_ := None |}.

(** [api/upload/add_web_upload/v1_3.cpp:161-164 Request::SetFolderKey] *)
Definition SetFolderKey (folder_key : str) (i : Impl) : Impl :=
  set_field folder_key_ (Some folder_key) i.

(** [api/upload/add_web_upload/v1_3.cpp:71-77 Impl::BuildUrl] *)
Definition BuildUrl (query_parts : list query_part) : str * list query_part :=
  (api_path ++ B ".php", query_parts).

(** [api/upload/add_web_upload/v1_3.cpp:56-59 Impl::GetRequestMethod] *)
Definition GetRequestMethod : RequestMethod := Post.

(** The assignments to [parts].
    [api/upload/add_web_upload/v1_3.cpp:100-112 Impl::GetPostData] *)
Definition post_parts (i : Impl) : list query_part := make_parts
  [("url", Some (url_ i));
   ("filename", Some (filename_ i));
   ("folder_key", folder_key_ i)].

(** [api/upload/add_web_upload/v1_3.cpp:100-112 Impl::GetPostData] *)
Definition GetPostData (MD5 : str -> str) (a : SessionTokenApi) (i : Impl) : str :=
  MakePost MD5 a (api_path ++ B ".php") (post_parts i).

(** *** The description *)

(** [api/templates/apis/upload/v1_3/add_web_upload.json:26-33 return_params] *)
Definition Response_described : description Response :=
  [ Required string_at "response.upload_key" Response_upload_key].

(** [api/templates/apis/upload/v1_3/add_web_upload.json:4-25 input_params] *)
Definition params_described (i : Impl) : list (string * option str) :=
  [("url", Some (url_ i));
   ("filename", Some (filename_ i));
   ("folder_key", folder_key_ i)].

#[global] Instance Response_parses :
  ParsesResponse ParseResponse new_Response Response_described.
Proof. parse_class. Qed.

Definition call : api_call := {|
  call_method := GetRequestMethod;
  call_uses_token := true;
  call_BuildUrl := BuildUrl;
  call_parts := post_parts;
  call_GetPostData := GetPostData;
  call_new := new_Response;
  call_ParseResponse := ParseResponse |}.

#[global] Instance call_implements :
  ImplementsCall call "/api/1.3/upload/add_web_upload" true params_described Response_described.
Proof. implement_call. Qed.

End Call.
End upload_add_web_upload_v1_3.

(** ** [api/upload/check/v0.cpp] *)
Module upload_check_v0.

(** [api/upload/check/v0.hpp:29-35 Resumable] *)
Inductive Resumable : Set := Resumable_NotResumable | Resumable_Resumable.
#[global] Instance Resumable_inhabited : Inhabited Resumable := populate Resumable_NotResumable.

(** [api/upload/check/v0.hpp:37-43 HashAlreadyInSystem] *)
Inductive HashAlreadyInSystem : Set := HashAlreadyInSystem_No | HashAlreadyInSystem_Yes.
#[global] Instance HashAlreadyInSystem_inhabited : Inhabited HashAlreadyInSystem :=
  populate HashAlreadyInSystem_No.

(** [api/upload/check/v0.hpp:45-51 HashAlreadyInAccount] *)
Inductive HashAlreadyInAccount : Set :=
  HashAlreadyInAccount_HashNewToAccount | HashAlreadyInAccount_HashExistsInAccount.
#[global] Instance HashAlreadyInAccount_inhabited : Inhabited HashAlreadyInAccount :=
  populate HashAlreadyInAccount_HashNewToAccount.

(** [api/upload/check/v0.hpp:53-59 HashAlreadyInFolder] *)
Inductive HashAlreadyInFolder : Set :=
  HashAlreadyInFolder_HashNewToFolder | HashAlreadyInFolder_HashExistsInFolder.
#[global] Instance HashAlreadyInFolder_inhabited : Inhabited HashAlreadyInFolder :=
  populate HashAlreadyInFolder_HashNewToFolder.

(** [api/upload/check/v0.hpp:61-67 FilenameInFolder] *)
Inductive FilenameInFolder : Set := FilenameInFolder_No | FilenameInFolder_Yes.
#[global] Instance FilenameInFolder_inhabited : Inhabited FilenameInFolder :=
  populate FilenameInFolder_No.

(** [api/upload/check/v0.hpp:69-75 FileExistsWithDifferentHash] *)
Inductive FileExistsWithDifferentHash : Set :=
  FileExistsWithDifferentHash_No | FileExistsWithDifferentHash_Yes.
#[global] Instance FileExistsWithDifferentHash_inhabited : Inhabited FileExistsWithDifferentHash
  := populate FileExistsWithDifferentHash_No.

(** [api/upload/check/v0.hpp:77-83 StorageLimitExceeded] *)
Inductive StorageLimitExceeded : Set := StorageLimitExceeded_No | StorageLimitExceeded_Yes.
#[global] Instance StorageLimitExceeded_inhabited : Inhabited StorageLimitExceeded :=
  populate StorageLimitExceeded_No.

(** [api/upload/check/v0.hpp:85-93 ActionOnDuplicate] *)
Inductive ActionOnDuplicate : Set :=
  ActionOnDuplicate_Skip | ActionOnDuplicate_Keep | ActionOnDuplicate_Replace.
#[global] Instance ActionOnDuplicate_inhabited : Inhabited ActionOnDuplicate :=
  populate ActionOnDuplicate_Skip.

(** [api/upload/check/v0.hpp:95-101 VersionControl] *)
Inductive VersionControl : Set := VersionControl_KeepRevision | VersionControl_Required.
#[global] Instance VersionControl_inhabited : Inhabited VersionControl :=
  populate VersionControl_KeepRevision.

(** [api/upload/check/v0.hpp:103-109 AllUnitsReady] *)
Inductive AllUnitsReady : Set := AllUnitsReady_No | AllUnitsReady_Yes.
#[global] Instance AllUnitsReady_inhabited : Inhabited AllUnitsReady := populate AllUnitsReady_No.

(** [api/upload/check/v0.cpp:24-31 AsString] *)
Definition AsString_Resumable (value : Resumable) : str :=
  match value with
  | Resumable_NotResumable => B "no"
  | Resumable_Resumable => B "yes"
  end.

Section Call.
Context `{Libraries}.

(** [api/upload/check/v0.hpp:129-145 ResumableData] *)
Record ResumableData := {
  ResumableData_number_of_units : Z;
  ResumableData_all_units_ready : AllUnitsReady;
  ResumableData_unit_size : Z;
  ResumableData_bitmap_count : option Z;
  ResumableData_words : list Z }.
#[local] Instance ResumableData_members : Members ResumableData := fun v =>
  Build_ResumableData (ResumableData_number_of_units v) (ResumableData_all_units_ready v)
    (ResumableData_unit_size v) (ResumableData_bitmap_count v) (ResumableData_words v).
Definition new_ResumableData : ResumableData :=
  {| ResumableData_number_of_units := indeterminate Z _;
     ResumableData_all_units_ready := indeterminate AllUnitsReady _;
     ResumableData_unit_size := indeterminate Z _; ResumableData_bitmap_count := None;
     ResumableData_words := [] |}.

(** [api/upload/check/v0.cpp:39-142 ResumableDataFromPropertyBranch] *)
Definition ResumableDataFromPropertyBranch : branch_parser ResumableData := FromPropertyBranch
  [ assign ResumableData_all_units_ready AllUnitsReady_No;
    required (an uint32) "number_of_units" ResumableData_number_of_units;
    optional_enum id [("no", AllUnitsReady_No); ("yes", AllUnitsReady_Yes)]
       "all_units_ready" ResumableData_all_units_ready;
    required (an uint64) "unit_size" ResumableData_unit_size;
    optional (an uint32) "bitmap.count" ResumableData_bitmap_count;
    required_array (GetValueIfExistsNumber the_json uint16) "bitmap.words" ResumableData_words].

(** [api/upload/check/v0.hpp:146-177 Response] *)
Record Response := {
  Response_hash_exists : HashAlreadyInSystem;
  Response_hash_in_account : HashAlreadyInAccount;
  Response_hash_in_folder : HashAlreadyInFolder;
  Response_file_exists : FilenameInFolder;
  Response_hash_different : FileExistsWithDifferentHash;
  Response_duplicate_quickkey : option str;
  Response_available_space : Z;
  Response_used_storage_size : Z;
  Response_storage_limit : Z;
  Response_storage_limit_exceeded : StorageLimitExceeded;
  Response_resumable : option ResumableData }.
#[local] Instance Response_members : Members Response := fun v =>
  Build_Response (Response_hash_exists v) (Response_hash_in_account v) (Response_hash_in_folder v)
    (Response_file_exists v) (Response_hash_different v) (Response_duplicate_quickkey v)
    (Response_available_space v) (Response_used_storage_size v) (Response_storage_limit v)
    (Response_storage_limit_exceeded v) (Response_resumable v).
Definition new_Response : Response :=
  {| Response_hash_exists := HashAlreadyInSystem_No;
     Response_hash_in_account := HashAlreadyInAccount_HashNewToAccount;
     Response_hash_in_folder := HashAlreadyInFolder_HashNewToFolder;
     Response_file_exists := FilenameInFolder_No;
     Response_hash_different := FileExistsWithDifferentHash_No;
     Response_duplicate_quickkey := None; Response_available_space := 0;
     Response_used_storage_size := 0; Response_storage_limit := 0;
     Response_storage_limit_exceeded := StorageLimitExceeded_No; Response_resumable := None |}.

(** [api/upload/check/v0.cpp:200-356 Impl::ParseResponse] *)
Definition ParseResponse : ResponseBase -> Response -> ResponseBase * Response :=
  parse_response
  [ assign Response_hash_exists HashAlreadyInSystem_No;
    assign Response_hash_in_account HashAlreadyInAccount_HashNewToAccount;
    assign Response_hash_in_folder HashAlreadyInFolder_HashNewToFolder;
    assign Response_file_exists FilenameInFolder_No;
    assign Response_hash_different FileExistsWithDifferentHash_No;
    assign Response_available_space 0;
    assign Response_used_storage_size 0;
    assign Response_storage_limit 0;
    assign Response_storage_limit_exceeded StorageLimitExceeded_No;
    optional_enum id [("no", HashAlreadyInSystem_No); ("yes", HashAlreadyInSystem_Yes)]
       "response.hash_exists" Response_hash_exists;
    optional_enum id [("no", HashAlreadyInAccount_HashNewToAccount);
       ("yes", HashAlreadyInAccount_HashExistsInAccount)] "response.in_account"
       Response_hash_in_account;
    optional_enum id [("no", HashAlreadyInFolder_HashNewToFolder);
       ("yes", HashAlreadyInFolder_HashExistsInFolder)] "response.in_folder"
       Response_hash_in_folder;
    optional_enum id [("no", FilenameInFolder_No); ("yes", FilenameInFolder_Yes)]
       "response.file_exists" Response_file_exists;
    optional_enum id [("no", FileExistsWithDifferentHash_No);
       ("yes", FileExistsWithDifferentHash_Yes)] "response.different_hash"
       Response_hash_different;
    optional std_string "response.duplicate_quickkey" Response_duplicate_quickkey;
    with_default (an uint64) "response.available_space" Response_available_space;
    with_default (an uint64) "response.used_storage_size" Response_used_storage_size;
    with_default (an uint64) "response.storage_limit" Response_storage_limit;
    optional_enum id [("no", StorageLimitExceeded_No); ("yes", StorageLimitExceeded_Yes)]
       "response.storage_limit_exceeded" Response_storage_limit_exceeded;
    optional_struct ResumableDataFromPropertyBranch new_ResumableData "response.resumable_upload"
       Response_resumable].

(** [api/upload/check/v0.cpp:152-152 api_path] *)
Definition api_path : str := B "/api/upload/check".

(** [api/upload/check/v0.cpp:156-183 Impl] *)
Record Impl := {
  filename_ : str;
  hash_ : option str;
  filesize_ : option Z;
  target_parent_folderkey_ : option str;
  target_filedrop_ : option str;
  path_ : option str;
  resumable_ : option Resumable }.
#[local] Instance Impl_members : Members Impl := fun v =>
  Build_Impl (filename_ v) (hash_ v) (filesize_ v) (target_parent_folderkey_ v)
    (target_filedrop_ v) (path_ v) (resumable_ v).

(** [api/upload/check/v0.cpp:185-190 Impl::Impl] *)
Definition new_Impl (filename : str) : Impl :=
  {| filename_ := filename; hash_ := None; filesize_ := None; target_parent_folderkey_ := None;
     target_filedrop_ := None; path_ := None; resumable_ := None |}.

(** [api/upload/check/v0.cpp:427-430 Request::SetHash] *)
Definition SetHash (hash : str) (i : Impl) : Impl := set_field hash_ (Some hash) i.

(** [api/upload/check/v0.cpp:432-435 Request::SetFilesize] *)
Definition SetFilesize (filesize : Z) (i : Impl) : Impl := set_field filesize_ (Some filesize) i.

(** [api/upload/check/v0.cpp:437-440 Request::SetTargetParentFolderkey] *)
Definition SetTargetParentFolderkey (target_parent_folderkey : str) (i : Impl) : Impl :=
  set_field target_parent_folderkey_ (Some target_parent_folderkey) i.

(** [api/upload/check/v0.cpp:442-445 Request::SetTargetFiledrop] *)
Definition SetTargetFiledrop (target_filedrop : str) (i : Impl) : Impl :=
  set_field target_filedrop_ (Some target_filedrop) i.

(** [api/upload/check/v0.cpp:447-450 Request::SetPath] *)
Definition SetPath (path : str) (i : Impl) : Impl := set_field path_ (Some path) i.

(** [api/upload/check/v0.cpp:452-455 Request::SetResumable] *)
Definition SetResumable (resumable : Resumable) (i : Impl) : Impl :=
  set_field resumable_ (Some resumable) i.

(** [api/upload/check/v0.cpp:192-198 Impl::BuildUrl] *)
Definition BuildUrl (query_parts : list query_part) : str * list query_part :=
  (api_path ++ B ".php", query_parts).

(** [api/upload/check/v0.cpp:179-182 Impl::GetRequestMethod] *)
Definition GetRequestMethod : RequestMethod := Post.

(** The assignments to [parts].
    [api/upload/check/v0.cpp:358-379 Impl::GetPostData] *)
Definition post_parts (i : Impl) : list query_part := make_parts
  [("filename", Some (filename_ i));
   ("hash", hash_ i);
   ("size", print_int <$> filesize_ i);
   ("folder_key", target_parent_folderkey_ i);
   ("filedrop_key", target_filedrop_ i);
   ("path", path_ i);
   ("resumable", AsString_Resumable <$> resumable_ i)].

(** [api/upload/check/v0.cpp:358-379 Impl::GetPostData] *)
Definition GetPostData (MD5 : str -> str) (a : SessionTokenApi) (i : Impl) : str :=
  MakePost MD5 a (api_path ++ B ".php") (post_parts i).

(** *** The description *)

(** [api/templates/apis/upload/v0/check.json:141-173 ResumableData] *)
Definition ResumableData_described : description ResumableData :=
  [ Required (number_at uint32) "number_of_units" ResumableData_number_of_units;
    Default AllUnitsReady_No (enum_at [("no", AllUnitsReady_No); ("yes", AllUnitsReady_Yes)])
       "all_units_ready" ResumableData_all_units_ready;
    Required (number_at uint64) "unit_size" ResumableData_unit_size;
    Optional (number_at uint32) "bitmap.count" ResumableData_bitmap_count;
    RequiredArray (number_here uint16) "bitmap.words" ResumableData_words].

(** [api/templates/apis/upload/v0/check.json:214-281 return_params] *)
Definition Response_described : description Response :=
  [ Default HashAlreadyInSystem_No (enum_at [("no", HashAlreadyInSystem_No);
       ("yes", HashAlreadyInSystem_Yes)]) "response.hash_exists" Response_hash_exists;
    Default HashAlreadyInAccount_HashNewToAccount (enum_at [("no",
       HashAlreadyInAccount_HashNewToAccount); ("yes",
       HashAlreadyInAccount_HashExistsInAccount)]) "response.in_account" Response_hash_in_account;
    Default HashAlreadyInFolder_HashNewToFolder (enum_at [("no",
       HashAlreadyInFolder_HashNewToFolder); ("yes", HashAlreadyInFolder_HashExistsInFolder)])
       "response.in_folder" Response_hash_in_folder;
    Default FilenameInFolder_No (enum_at [("no", FilenameInFolder_No);
       ("yes", FilenameInFolder_Yes)]) "response.file_exists" Response_file_exists;
    Default FileExistsWithDifferentHash_No (enum_at [("no", FileExistsWithDifferentHash_No);
       ("yes", FileExistsWithDifferentHash_Yes)]) "response.different_hash"
       Response_hash_different;
    Optional string_at "response.duplicate_quickkey" Response_duplicate_quickkey;
    Default 0 (number_at uint64) "response.available_space" Response_available_space;
    Default 0 (number_at uint64) "response.used_storage_size" Response_used_storage_size;
    Default 0 (number_at uint64) "response.storage_limit" Response_storage_limit;
    Default StorageLimitExceeded_No (enum_at [("no", StorageLimitExceeded_No);
       ("yes", StorageLimitExceeded_Yes)]) "response.storage_limit_exceeded"
       Response_storage_limit_exceeded;
    OptionalStruct ResumableData_described "response.resumable_upload" Response_resumable].

(** [api/templates/apis/upload/v0/check.json:5-17 Resumable] *)
Definition AsDescribed_Resumable (value : Resumable) : str :=
  match value with
  | Resumable_NotResumable => B "no"
  | Resumable_Resumable => B "yes"
  end.

(** [api/templates/apis/upload/v0/check.json:175-213 input_params] *)
Definition params_described (i : Impl) : list (string * option str) :=
  [("filename", Some (filename_ i));
   ("hash", hash_ i);
   ("size", print_int <$> filesize_ i);
   ("folder_key", target_parent_folderkey_ i);
   ("filedrop_key", target_filedrop_ i);
   ("path", path_ i);
   ("resumable", (AsDescribed_Resumable) <$> resumable_ i)].

#[global] Instance ResumableData_parses : Parses ResumableDataFromPropertyBranch
  new_ResumableData ResumableData_described.
Proof. parse_class. Qed.
#[global] Instance Response_parses :
  ParsesResponse ParseResponse new_Response Response_described.
Proof. parse_class. Qed.

Definition call : api_call := {|
  call_method := GetRequestMethod;
  call_uses_token := true;
  call_BuildUrl := BuildUrl;
  call_parts := post_parts;
  call_GetPostData := GetPostData;
  call_new := new_Response;
  call_ParseResponse := ParseResponse |}.

#[global] Instance call_implements :
  ImplementsCall call "/api/upload/check" true params_described Response_described.
Proof. implement_call. Qed.

End Call.
End upload_check_v0.

(** ** [api/upload/check/v1_2.cpp] *)
Module upload_check_v1_2.

(** [api/upload/check/v1_2.hpp:29-35 Resumable] *)
Inductive Resumable : Set := Resumable_NotResumable | Resumable_Resumable.
#[global] Instance Resumable_inhabited : Inhabited Resumable := populate Resumable_NotResumable.

(** [api/upload/check/v1_2.hpp:37-43 HashAlreadyInSystem] *)
Inductive HashAlreadyInSystem : Set := HashAlreadyInSystem_No | HashAlreadyInSystem_Yes.
#[global] Instance HashAlreadyInSystem_inhabited : Inhabited HashAlreadyInSystem :=
  populate HashAlreadyInSystem_No.

(** [api/upload/check/v1_2.hpp:45-51 HashAlreadyInAccount] *)
Inductive HashAlreadyInAccount : Set :=
  HashAlreadyInAccount_HashNewToAccount | HashAlreadyInAccount_HashExistsInAccount.
#[global] Instance HashAlreadyInAccount_inhabited : Inhabited HashAlreadyInAccount :=
  populate HashAlreadyInAccount_HashNewToAccount.

(** [api/upload/check/v1_2.hpp:53-59 HashAlreadyInFolder] *)
Inductive HashAlreadyInFolder : Set :=
  HashAlreadyInFolder_HashNewToFolder | HashAlreadyInFolder_HashExistsInFolder.
#[global] Instance HashAlreadyInFolder_inhabited : Inhabited HashAlreadyInFolder :=
  populate HashAlreadyInFolder_HashNewToFolder.

(** [api/upload/check/v1_2.hpp:61-67 FilenameInFolder] *)
Inductive FilenameInFolder : Set := FilenameInFolder_No | FilenameInFolder_Yes.
#[global] Instance FilenameInFolder_inhabited : Inhabited FilenameInFolder :=
  populate FilenameInFolder_No.

(** [api/upload/check/v1_2.hpp:69-75 FileExistsWithDifferentHash] *)
Inductive FileExistsWithDifferentHash : Set :=
  FileExistsWithDifferentHash_No | FileExistsWithDifferentHash_Yes.
#[global] Instance FileExistsWithDifferentHash_inhabited : Inhabited FileExistsWithDifferentHash
  := populate FileExistsWithDifferentHash_No.

(** [api/upload/check/v1_2.hpp:77-83 StorageLimitExceeded] *)
Inductive StorageLimitExceeded : Set := StorageLimitExceeded_No | StorageLimitExceeded_Yes.
#[global] Instance StorageLimitExceeded_inhabited : Inhabited StorageLimitExceeded :=
  populate StorageLimitExceeded_No.

(** [api/upload/check/v1_2.hpp:85-93 ActionOnDuplicate] *)
Inductive ActionOnDuplicate : Set :=
  ActionOnDuplicate_Skip | ActionOnDuplicate_Keep | ActionOnDuplicate_Replace.
#[global] Instance ActionOnDuplicate_inhabited : Inhabited ActionOnDuplicate :=
  populate ActionOnDuplicate_Skip.

(** [api/upload/check/v1_2.hpp:95-101 VersionControl] *)
Inductive VersionControl : Set := VersionControl_KeepRevision | VersionControl_Required.
#[global] Instance VersionControl_inhabited : Inhabited VersionControl :=
  populate VersionControl_KeepRevision.

(** [api/upload/check/v1_2.hpp:103-109 AllUnitsReady] *)
Inductive AllUnitsReady : Set := AllUnitsReady_No | AllUnitsReady_Yes.
#[global] Instance AllUnitsReady_inhabited : Inhabited AllUnitsReady := populate AllUnitsReady_No.

(** [api/upload/check/v1_2.cpp:24-31 AsString] *)
Definition AsString_Resumable (value : Resumable) : str :=
  match value with
  | Resumable_NotResumable => B "no"
  | Resumable_Resumable => B "yes"
  end.

Section Call.
Context `{Libraries}.

(** [api/upload/check/v1_2.hpp:129-148 ResumableData] *)
Record ResumableData := {
  ResumableData_number_of_units : Z;
  ResumableData_all_units_ready : AllUnitsReady;
  ResumableData_unit_size : Z;
  ResumableData_bitmap_count : option Z;
  ResumableData_words : list Z;
  ResumableData_upload_key : option str }.
#[local] Instance ResumableData_members : Members ResumableData := fun v =>
  Build_ResumableData (ResumableData_number_of_units v) (ResumableData_all_units_ready v)
    (ResumableData_unit_size v) (ResumableData_bitmap_count v) (ResumableData_words v)
    (ResumableData_upload_key v).
Definition new_ResumableData : ResumableData :=
  {| ResumableData_number_of_units := indeterminate Z _;
     ResumableData_all_units_ready := indeterminate AllUnitsReady _;
     ResumableData_unit_size := indeterminate Z _; ResumableData_bitmap_count := None;
     ResumableData_words := []; ResumableData_upload_key := None |}.

(** [api/upload/check/v1_2.cpp:39-154 ResumableDataFromPropertyBranch] *)
Definition ResumableDataFromPropertyBranch : branch_parser ResumableData := FromPropertyBranch
  [ assign ResumableData_all_units_ready AllUnitsReady_No;
    required (an uint32) "number_of_units" ResumableData_number_of_units;
    optional_enum id [("no", AllUnitsReady_No); ("yes", AllUnitsReady_Yes)]
       "all_units_ready" ResumableData_all_units_ready;
    required (an uint64) "unit_size" ResumableData_unit_size;
    optional (an uint32) "bitmap.count" ResumableData_bitmap_count;
    required_array (GetValueIfExistsNumber the_json uint16) "bitmap.words" ResumableData_words;
    optional std_string "upload_key" ResumableData_upload_key].

(** [api/upload/check/v1_2.hpp:149-180 Response] *)
Record Response := {
  Response_hash_exists : HashAlreadyInSystem;
  Response_hash_in_account : HashAlreadyInAccount;
  Response_hash_in_folder : HashAlreadyInFolder;
  Response_file_exists : FilenameInFolder;
  Response_hash_different : FileExistsWithDifferentHash;
  Response_duplicate_quickkey : option str;
  Response_available_space : Z;
  Response_used_storage_size : Z;
  Response_storage_limit : Z;
  Response_storage_limit_exceeded : StorageLimitExceeded;
  Response_resumable : option ResumableData }.
#[local] Instance Response_members : Members Response := fun v =>
  Build_Response (Response_hash_exists v) (Response_hash_in_account v) (Response_hash_in_folder v)
    (Response_file_exists v) (Response_hash_different v) (Response_duplicate_quickkey v)
    (Response_available_space v) (Response_used_storage_size v) (Response_storage_limit v)
    (Response_storage_limit_exceeded v) (Response_resumable v).
Definition new_Response : Response :=
  {| Response_hash_exists := HashAlreadyInSystem_No;
     Response_hash_in_account := HashAlreadyInAccount_HashNewToAccount;
     Response_hash_in_folder := HashAlreadyInFolder_HashNewToFolder;
     Response_file_exists := FilenameInFolder_No;
     Response_hash_different := FileExistsWithDifferentHash_No;
     Response_duplicate_quickkey := None; Response_available_space := 0;
     Response_used_storage_size := 0; Response_storage_limit := 0;
     Response_storage_limit_exceeded := StorageLimitExceeded_No; Response_resumable := None |}.

(** [api/upload/check/v1_2.cpp:212-368 Impl::ParseResponse] *)
Definition ParseResponse : ResponseBase -> Response -> ResponseBase * Response :=
  parse_response
  [ assign Response_hash_exists HashAlreadyInSystem_No;
    assign Response_hash_in_account HashAlreadyInAccount_HashNewToAccount;
    assign Response_hash_in_folder HashAlreadyInFolder_HashNewToFolder;
    assign Response_file_exists FilenameInFolder_No;
    assign Response_hash_different FileExistsWithDifferentHash_No;
    assign Response_available_space 0;
    assign Response_used_storage_size 0;
    assign Response_storage_limit 0;
    assign Response_storage_limit_exceeded StorageLimitExceeded_No;
    optional_enum id [("no", HashAlreadyInSystem_No); ("yes", HashAlreadyInSystem_Yes)]
       "response.hash_exists" Response_hash_exists;
    optional_enum id [("no", HashAlreadyInAccount_HashNewToAccount);
       ("yes", HashAlreadyInAccount_HashExistsInAccount)] "response.in_account"
       Response_hash_in_account;
    optional_enum id [("no", HashAlreadyInFolder_HashNewToFolder);
       ("yes", HashAlreadyInFolder_HashExistsInFolder)] "response.in_folder"
       Response_hash_in_folder;
    optional_enum id [("no", FilenameInFolder_No); ("yes", FilenameInFolder_Yes)]
       "response.file_exists" Response_file_exists;
    optional_enum id [("no", FileExistsWithDifferentHash_No);
       ("yes", FileExistsWithDifferentHash_Yes)] "response.different_hash"
       Response_hash_different;
    optional std_string "response.duplicate_quickkey" Response_duplicate_quickkey;
    with_default (an uint64) "response.available_space" Response_available_space;
    with_default (an uint64) "response.used_storage_size" Response_used_storage_size;
    with_default (an uint64) "response.storage_limit" Response_storage_limit;
    optional_enum id [("no", StorageLimitExceeded_No); ("yes", StorageLimitExceeded_Yes)]
       "response.storage_limit_exceeded" Response_storage_limit_exceeded;
    optional_struct ResumableDataFromPropertyBranch new_ResumableData "response.resumable_upload"
       Response_resumable].

(** [api/upload/check/v1_2.cpp:164-164 api_path] *)
Definition api_path : str := B "/api/1.2/upload/check".

(** [api/upload/check/v1_2.cpp:168-195 Impl] *)
Record Impl := {
  filename_ : str;
  hash_ : option str;
  filesize_ : option Z;
  target_parent_folderkey_ : option str;
  target_filedrop_ : option str;
  path_ : option str;
  resumable_ : option Resumable }.
#[local] Instance Impl_members : Members Impl := fun v =>
  Build_Impl (filename_ v) (hash_ v) (filesize_ v) (target_parent_folderkey_ v)
    (target_filedrop_ v) (path_ v) (resumable_ v).

(** [api/upload/check/v1_2.cpp:197-202 Impl::Impl] *)
Definition new_Impl (filename : str) : Impl :=
  {| filename_ := filename; hash_ := None; filesize_ := None; target_parent_folderkey_ := None;
     target_filedrop_ := None; path_ := None; resumable_ := None |}.

(** [api/upload/check/v1_2.cpp:439-442 Request::SetHash] *)
Definition SetHash (hash : str) (i : Impl) : Impl := set_field hash_ (Some hash) i.

(** [api/upload/check/v1_2.cpp:444-447 Request::SetFilesize] *)
Definition SetFilesize (filesize : Z) (i : Impl) : Impl := set_field filesize_ (Some filesize) i.

(** [api/upload/check/v1_2.cpp:449-452 Request::SetTargetParentFolderkey] *)
Definition SetTargetParentFolderkey (target_parent_folderkey : str) (i : Impl) : Impl :=
  set_field target_parent_folderkey_ (Some target_parent_folderkey) i.

(** [api/upload/check/v1_2.cpp:454-457 Request::SetTargetFiledrop] *)
Definition SetTargetFiledrop (target_filedrop : str) (i : Impl) : Impl :=
  set_field target_filedrop_ (Some target_filedrop) i.

(** [api/upload/check/v1_2.cpp:459-462 Request::SetPath] *)
Definition SetPath (path : str) (i : Impl) : Impl := set_field path_ (Some path) i.

(** [api/upload/check/v1_2.cpp:464-467 Request::SetResumable] *)
Definition SetResumable (resumable : Resumable) (i : Impl) : Impl :=
  set_field resumable_ (Some resumable) i.

(** [api/upload/check/v1_2.cpp:204-210 Impl::BuildUrl] *)
Definition BuildUrl (query_parts : list query_part) : str * list query_part :=
  (api_path ++ B ".php", query_parts).

(** [api/upload/check/v1_2.cpp:191-194 Impl::GetRequestMethod] *)
Definition GetRequestMethod : RequestMethod := Post.

(** The assignments to [parts].
    [api/upload/check/v1_2.cpp:370-391 Impl::GetPostData] *)
Definition post_parts (i : Impl) : list query_part := make_parts
  [("filename", Some (filename_ i));
   ("hash", hash_ i);
   ("size", print_int <$> filesize_ i);
   ("folder_key", target_parent_folderkey_ i);
   ("filedrop_key", target_filedrop_ i);
   ("path", path_ i);
   ("resumable", AsString_Resumable <$> resumable_ i)].

(** [api/upload/check/v1_2.cpp:370-391 Impl::GetPostData] *)
Definition GetPostData (MD5 : str -> str) (a : SessionTokenApi) (i : Impl) : str :=
  MakePost MD5 a (api_path ++ B ".php") (post_parts i).

(** *** The description *)

(** [api/templates/apis/upload/v1_2/check.json:141-179 ResumableData] *)
Definition ResumableData_described : description ResumableData :=
  [ Required (number_at uint32) "number_of_units" ResumableData_number_of_units;
    Default AllUnitsReady_No (enum_at [("no", AllUnitsReady_No); ("yes", AllUnitsReady_Yes)])
       "all_units_ready" ResumableData_all_units_ready;
    Required (number_at uint64) "unit_size" ResumableData_unit_size;
    Optional (number_at uint32) "bitmap.count" ResumableData_bitmap_count;
    RequiredArray (number_here uint16) "bitmap.words" ResumableData_words;
    Optional string_at "upload_key" ResumableData_upload_key].

(** [api/templates/apis/upload/v1_2/check.json:220-287 return_params] *)
Definition Response_described : description Response :=
  [ Default HashAlreadyInSystem_No (enum_at [("no", HashAlreadyInSystem_No);
       ("yes", HashAlreadyInSystem_Yes)]) "response.hash_exists" Response_hash_exists;
    Default HashAlreadyInAccount_HashNewToAccount (enum_at [("no",
       HashAlreadyInAccount_HashNewToAccount); ("yes",
       HashAlreadyInAccount_HashExistsInAccount)]) "response.in_account" Response_hash_in_account;
    Default HashAlreadyInFolder_HashNewToFolder (enum_at [("no",
       HashAlreadyInFolder_HashNewToFolder); ("yes", HashAlreadyInFolder_HashExistsInFolder)])
       "response.in_folder" Response_hash_in_folder;
    Default FilenameInFolder_No (enum_at [("no", FilenameInFolder_No);
       ("yes", FilenameInFolder_Yes)]) "response.file_exists" Response_file_exists;
    Default FileExistsWithDifferentHash_No (enum_at [("no", FileExistsWithDifferentHash_No);
       ("yes", FileExistsWithDifferentHash_Yes)]) "response.different_hash"
       Response_hash_different;
    Optional string_at "response.duplicate_quickkey" Response_duplicate_quickkey;
    Default 0 (number_at uint64) "response.available_space" Response_available_space;
    Default 0 (number_at uint64) "response.used_storage_size" Response_used_storage_size;
    Default 0 (number_at uint64) "response.storage_limit" Response_storage_limit;
    Default StorageLimitExceeded_No (enum_at [("no", StorageLimitExceeded_No);
       ("yes", StorageLimitExceeded_Yes)]) "response.storage_limit_exceeded"
       Response_storage_limit_exceeded;
    OptionalStruct ResumableData_described "response.resumable_upload" Response_resumable].

(** [api/templates/apis/upload/v1_2/check.json:5-17 Resumable] *)
Definition AsDescribed_Resumable (value : Resumable) : str :=
  match value with
  | Resumable_NotResumable => B "no"
  | Resumable_Resumable => B "yes"
  end.

(** [api/templates/apis/upload/v1_2/check.json:181-219 input_params] *)
Definition params_described (i : Impl) : list (string * option str) :=
  [("filename", Some (filename_ i));
   ("hash", hash_ i);
   ("size", print_int <$> filesize_ i);
   ("folder_key", target_parent_folderkey_ i);
   ("filedrop_key", target_filedrop_ i);
   ("path", path_ i);
   ("resumable", (AsDescribed_Resumable) <$> resumable_ i)].

#[global] Instance ResumableData_parses : Parses ResumableDataFromPropertyBranch
  new_ResumableData ResumableData_described.
Proof. parse_class. Qed.
#[global] Instance Response_parses :
  ParsesResponse ParseResponse new_Response Response_described.
Proof. parse_class. Qed.

Definition call : api_call := {|
  call_method := GetRequestMethod;
  call_uses_token := true;
  call_BuildUrl := BuildUrl;
  call_parts := post_parts;
  call_GetPostData := GetPostData;
  call_new := new_Response;
  call_ParseResponse := ParseResponse |}.

#[global] Instance call_implements :
  ImplementsCall call "/api/1.2/upload/check" true params_described Response_described.
Proof. implement_call. Qed.

End Call.
End upload_check_v1_2.

(** ** [api/upload/check/v1_3.cpp] *)
Module upload_check_v1_3.

(** [api/upload/check/v1_3.hpp:29-35 Resumable] *)
Inductive Resumable : Set := Resumable_NotResumable | Resumable_Resumable.
#[global] Instance Resumable_inhabited : Inhabited Resumable := populate Resumable_NotResumable.

(** [api/upload/check/v1_3.hpp:37-43 HashAlreadyInSystem] *)
Inductive HashAlreadyInSystem : Set := HashAlreadyInSystem_No | HashAlreadyInSystem_Yes.
#[global] Instance HashAlreadyInSystem_inhabited : Inhabited HashAlreadyInSystem :=
  populate HashAlreadyInSystem_No.

(** [api/upload/check/v1_3.hpp:45-51 HashAlreadyInAccount] *)
Inductive HashAlreadyInAccount : Set :=
  HashAlreadyInAccount_HashNewToAccount | HashAlreadyInAccount_HashExistsInAccount.
#[global] Instance HashAlreadyInAccount_inhabited : Inhabited HashAlreadyInAccount :=
  populate HashAlreadyInAccount_HashNewToAccount.

(** [api/upload/check/v1_3.hpp:53-59 HashAlreadyInFolder] *)
Inductive HashAlreadyInFolder : Set :=
  HashAlreadyInFolder_HashNewToFolder | HashAlreadyInFolder_HashExistsInFolder.
#[global] Instance HashAlreadyInFolder_inhabited : Inhabited HashAlreadyInFolder :=
  populate HashAlreadyInFolder_HashNewToFolder.

(** [api/upload/check/v1_3.hpp:61-67 FilenameInFolder] *)
Inductive FilenameInFolder : Set := FilenameInFolder_No | FilenameInFolder_Yes.
#[global] Instance FilenameInFolder_inhabited : Inhabited FilenameInFolder :=
  populate FilenameInFolder_No.

(** [api/upload/check/v1_3.hpp:69-75 FileExistsWithDifferentHash] *)
Inductive FileExistsWithDifferentHash : Set :=
  FileExistsWithDifferentHash_No | FileExistsWithDifferentHash_Yes.
#[global] Instance FileExistsWithDifferentHash_inhabited : Inhabited FileExistsWithDifferentHash
  := populate FileExistsWithDifferentHash_No.

(** [api/upload/check/v1_3.hpp:77-83 StorageLimitExceeded] *)
Inductive StorageLimitExceeded : Set := StorageLimitExceeded_No | StorageLimitExceeded_Yes.
#[global] Instance StorageLimitExceeded_inhabited : Inhabited StorageLimitExceeded :=
  populate StorageLimitExceeded_No.

(** [api/upload/check/v1_3.hpp:85-93 ActionOnDuplicate] *)
Inductive ActionOnDuplicate : Set :=
  ActionOnDuplicate_Skip | ActionOnDuplicate_Keep | ActionOnDuplicate_Replace.
#[global] Instance ActionOnDuplicate_inhabited : Inhabited ActionOnDuplicate :=
  populate ActionOnDuplicate_Skip.

(** [api/upload/check/v1_3.hpp:95-101 VersionControl] *)
Inductive VersionControl : Set := VersionControl_KeepRevision | VersionControl_Required.
#[global] Instance VersionControl_inhabited : Inhabited VersionControl :=
  populate VersionControl_KeepRevision.

(** [api/upload/check/v1_3.hpp:103-109 AllUnitsReady] *)
Inductive AllUnitsReady : Set := AllUnitsReady_No | AllUnitsReady_Yes.
#[global] Instance AllUnitsReady_inhabited : Inhabited AllUnitsReady := populate AllUnitsReady_No.

(** [api/upload/check/v1_3.cpp:24-31 AsString] *)
Definition AsString_Resumable (value : Resumable) : str :=
  match value with
  | Resumable_NotResumable => B "no"
  | Resumable_Resumable => B "yes"
  end.

Section Call.
Context `{Libraries}.

(** [api/upload/check/v1_3.hpp:129-148 ResumableData] *)
Record ResumableData := {
  ResumableData_number_of_units : Z;
  ResumableData_all_units_ready : AllUnitsReady;
  ResumableData_unit_size : Z;
  ResumableData_bitmap_count : option Z;
  ResumableData_words : list Z;
  ResumableData_upload_key : option str }.
#[local] Instance ResumableData_members : Members ResumableData := fun v =>
  Build_ResumableData (ResumableData_number_of_units v) (ResumableData_all_units_ready v)
    (ResumableData_unit_size v) (ResumableData_bitmap_count v) (ResumableData_words v)
    (ResumableData_upload_key v).
Definition new_ResumableData : ResumableData :=
  {| ResumableData_number_of_units := indeterminate Z _;
     ResumableData_all_units_ready := indeterminate AllUnitsReady _;
     ResumableData_unit_size := indeterminate Z _; ResumableData_bitmap_count := None;
     ResumableData_words := []; ResumableData_upload_key := None |}.

(** [api/upload/check/v1_3.cpp:39-154 ResumableDataFromPropertyBranch] *)
Definition ResumableDataFromPropertyBranch : branch_parser ResumableData := FromPropertyBranch
  [ assign ResumableData_all_units_ready AllUnitsReady_No;
    required (an uint32) "number_of_units" ResumableData_number_of_units;
    optional_enum id [("no", AllUnitsReady_No); ("yes", AllUnitsReady_Yes)]
       "all_units_ready" ResumableData_all_units_ready;
    required (an uint64) "unit_size" ResumableData_unit_size;
    optional (an uint32) "bitmap.count" ResumableData_bitmap_count;
    required_array (GetValueIfExistsNumber the_json uint16) "bitmap.words" ResumableData_words;
    optional std_string "upload_key" ResumableData_upload_key].

(** [api/upload/check/v1_3.hpp:149-180 Response] *)
Record Response := {
  Response_hash_exists : HashAlreadyInSystem;
  Response_hash_in_account : HashAlreadyInAccount;
  Response_hash_in_folder : HashAlreadyInFolder;
  Response_file_exists : FilenameInFolder;
  Response_hash_different : FileExistsWithDifferentHash;
  Response_duplicate_quickkey : option str;
  Response_available_space : Z;
  Response_used_storage_size : Z;
  Response_storage_limit : Z;
  Response_storage_limit_exceeded : StorageLimitExceeded;
  Response_resumable : option ResumableData }.
#[local] Instance Response_members : Members Response := fun v =>
  Build_Response (Response_hash_exists v) (Response_hash_in_account v) (Response_hash_in_folder v)
    (Response_file_exists v) (Response_hash_different v) (Response_duplicate_quickkey v)
    (Response_available_space v) (Response_used_storage_size v) (Response_storage_limit v)
    (Response_storage_limit_exceeded v) (Response_resumable v).
Definition new_Response : Response :=
  {| Response_hash_exists := HashAlreadyInSystem_No;
     Response_hash_in_account := HashAlreadyInAccount_HashNewToAccount;
     Response_hash_in_folder := HashAlreadyInFolder_HashNewToFolder;
     Response_file_exists := FilenameInFolder_No;
     Response_hash_different := FileExistsWithDifferentHash_No;
     Response_duplicate_quickkey := None; Response_available_space := 0;
     Response_used_storage_size := 0; Response_storage_limit := 0;
     Response_storage_limit_exceeded := StorageLimitExceeded_No; Response_resumable := None |}.

(** [api/upload/check/v1_3.cpp:212-368 Impl::ParseResponse] *)
Definition ParseResponse : ResponseBase -> Response -> ResponseBase * Response :=
  parse_response
  [ assign Response_hash_exists HashAlreadyInSystem_No;
    assign Response_hash_in_account HashAlreadyInAccount_HashNewToAccount;
    assign Response_hash_in_folder HashAlreadyInFolder_HashNewToFolder;
    assign Response_file_exists FilenameInFolder_No;
    assign Response_hash_different FileExistsWithDifferentHash_No;
    assign Response_available_space 0;
    assign Response_used_storage_size 0;
    assign Response_storage_limit 0;
    assign Response_storage_limit_exceeded StorageLimitExceeded_No;
    optional_enum id [("no", HashAlreadyInSystem_No); ("yes", HashAlreadyInSystem_Yes)]
       "response.hash_exists" Response_hash_exists;
    optional_enum id [("no", HashAlreadyInAccount_HashNewToAccount);
       ("yes", HashAlreadyInAccount_HashExistsInAccount)] "response.in_account"
       Response_hash_in_account;
    optional_enum id [("no", HashAlreadyInFolder_HashNewToFolder);
       ("yes", HashAlreadyInFolder_HashExistsInFolder)] "response.in_folder"
       Response_hash_in_folder;
    optional_enum id [("no", FilenameInFolder_No); ("yes", FilenameInFolder_Yes)]
       "response.file_exists" Response_file_exists;
    optional_enum id [("no", FileExistsWithDifferentHash_No);
       ("yes", FileExistsWithDifferentHash_Yes)] "response.different_hash"
       Response_hash_different;
    optional std_string "response.duplicate_quickkey" Response_duplicate_quickkey;
    with_default (an uint64) "response.available_space" Response_available_space;
    with_default (an uint64) "response.used_storage_size" Response_used_storage_size;
    with_default (an uint64) "response.storage_limit" Response_storage_limit;
    optional_enum id [("no", StorageLimitExceeded_No); ("yes", StorageLimitExceeded_Yes)]
       "response.storage_limit_exceeded" Response_storage_limit_exceeded;
    optional_struct ResumableDataFromPropertyBranch new_ResumableData "response.resumable_upload"
       Response_resumable].

(** [api/upload/check/v1_3.cpp:164-164 api_path] *)
Definition api_path : str := B "/api/1.3/upload/check".

(** [api/upload/check/v1_3.cpp:168-195 Impl] *)
Record Impl := {
  filename_ : str;
  hash_ : option str;
  filesize_ : option Z;
  target_parent_folderkey_ : option str;
  target_filedrop_ : option str;
  path_ : option str;
  resumable_ : option Resumable }.
#[local] Instance Impl_members : Members Impl := fun v =>
  Build_Impl (filename_ v) (hash_ v) (filesize_ v) (target_parent_folderkey_ v)
    (target_filedrop_ v) (path_ v) (resumable_ v).

(** [api/upload/check/v1_3.cpp:197-202 Impl::Impl] *)
Definition new_Impl (filename : str) : Impl :=
  {| filename_ := filename; hash_ := None; filesize_ := None; target_parent_folderkey_ := None;
     target_filedrop_ := None; path_ := None; resumable_ := None |}.

(** [api/upload/check/v1_3.cpp:439-442 Request::SetHash] *)
Definition SetHash (hash : str) (i : Impl) : Impl := set_field hash_ (Some hash) i.

(** [api/upload/check/v1_3.cpp:444-447 Request::SetFilesize] *)
Definition SetFilesize (filesize : Z) (i : Impl) : Impl := set_field filesize_ (Some filesize) i.

(** [api/upload/check/v1_3.cpp:449-452 Request::SetTargetParentFolderkey] *)
Definition SetTargetParentFolderkey (target_parent_folderkey : str) (i : Impl) : Impl :=
  set_field target_parent_folderkey_ (Some target_parent_folderkey) i.

(** [api/upload/check/v1_3.cpp:454-457 Request::SetTargetFiledrop] *)
Definition SetTargetFiledrop (target_filedrop : str) (i : Impl) : Impl :=
  set_field target_filedrop_ (Some target_filedrop) i.

(** [api/upload/check/v1_3.cpp:459-462 Request::SetPath] *)
Definition SetPath (path : str) (i : Impl) : Impl := set_field path_ (Some path) i.

(** [api/upload/check/v1_3.cpp:464-467 Request::SetResumable] *)
Definition SetResumable (resumable : Resumable) (i : Impl) : Impl :=
  set_field resumable_ (Some resumable) i.

(** [api/upload/check/v1_3.cpp:204-210 Impl::BuildUrl] *)
Definition BuildUrl (query_parts : list query_part) : str * list query_part :=
  (api_path ++ B ".php", query_parts).

(** [api/upload/check/v1_3.cpp:191-194 Impl::GetRequestMethod] *)
Definition GetRequestMethod : RequestMethod := Post.

(** The assignments to [parts].
    [api/upload/check/v1_3.cpp:370-391 Impl::GetPostData] *)
Definition post_parts (i : Impl) : list query_part := make_parts
  [("filename", Some (filename_ i));
   ("hash", hash_ i);
   ("size", print_int <$> filesize_ i);
   ("folder_key", target_parent_folderkey_ i);
   ("filedrop_key", target_filedrop_ i);
   ("path", path_ i);
   ("resumable", AsString_Resumable <$> resumable_ i)].

(** [api/upload/check/v1_3.cpp:370-391 Impl::GetPostData] *)
Definition GetPostData (MD5 : str -> str) (a : SessionTokenApi) (i : Impl) : str :=
  MakePost MD5 a (api_path ++ B ".php") (post_parts i).

(** *** The description *)

(** [api/templates/apis/upload/v1_3/check.json:141-179 ResumableData] *)
Definition ResumableData_described : description ResumableData :=
  [ Required (number_at uint32) "number_of_units" ResumableData_number_of_units;
    Default AllUnitsReady_No (enum_at [("no", AllUnitsReady_No); ("yes", AllUnitsReady_Yes)])
       "all_units_ready" ResumableData_all_units_ready;
    Required (number_at uint64) "unit_size" ResumableData_unit_size;
    Optional (number_at uint32) "bitmap.count" ResumableData_bitmap_count;
    RequiredArray (number_here uint16) "bitmap.words" ResumableData_words;
    Optional string_at "upload_key" ResumableData_upload_key].

(** [api/templates/apis/upload/v1_3/check.json:220-287 return_params] *)
Definition Response_described : description Response :=
  [ Default HashAlreadyInSystem_No (enum_at [("no", HashAlreadyInSystem_No);
       ("yes", HashAlreadyInSystem_Yes)]) "response.hash_exists" Response_hash_exists;
    Default HashAlreadyInAccount_HashNewToAccount (enum_at [("no",
       HashAlreadyInAccount_HashNewToAccount); ("yes",
       HashAlreadyInAccount_HashExistsInAccount)]) "response.in_account" Response_hash_in_account;
    Default HashAlreadyInFolder_HashNewToFolder (enum_at [("no",
       HashAlreadyInFolder_HashNewToFolder); ("yes", HashAlreadyInFolder_HashExistsInFolder)])
       "response.in_folder" Response_hash_in_folder;
    Default FilenameInFolder_No (enum_at [("no", FilenameInFolder_No);
       ("yes", FilenameInFolder_Yes)]) "response.file_exists" Response_file_exists;
    Default FileExistsWithDifferentHash_No (enum_at [("no", FileExistsWithDifferentHash_No);
       ("yes", FileExistsWithDifferentHash_Yes)]) "response.different_hash"
       Response_hash_different;
    Optional string_at "response.duplicate_quickkey" Response_duplicate_quickkey;
    Default 0 (number_at uint64) "response.available_space" Response_available_space;
    Default 0 (number_at uint64) "response.used_storage_size" Response_used_storage_size;
    Default 0 (number_at uint64) "response.storage_limit" Response_storage_limit;
    Default StorageLimitExceeded_No (enum_at [("no", StorageLimitExceeded_No);
       ("yes", StorageLimitExceeded_Yes)]) "response.storage_limit_exceeded"
       Response_storage_limit_exceeded;
    OptionalStruct ResumableData_described "response.resumable_upload" Response_resumable].

(** [api/templates/apis/upload/v1_3/check.json:5-17 Resumable] *)
Definition AsDescribed_Resumable (value : Resumable) : str :=
  match value with
  | Resumable_NotResumable => B "no"
  | Resumable_Resumable => B "yes"
  end.

(** [api/templates/apis/upload/v1_3/check.json:181-219 input_params] *)
Definition params_described (i : Impl) : list (string * option str) :=
  [("filename", Some (filename_ i));
   ("hash", hash_ i);
   ("size", print_int <$> filesize_ i);
   ("folder_key", target_parent_folderkey_ i);
   ("filedrop_key", target_filedrop_ i);
   ("path", path_ i);
   ("resumable", (AsDescribed_Resumable) <$> resumable_ i)].

#[global] Instance ResumableData_parses : Parses ResumableDataFromPropertyBranch
  new_ResumableData ResumableData_described.
Proof. parse_class. Qed.
#[global] Instance Response_parses :
  ParsesResponse ParseResponse new_Response Response_described.
Proof. parse_class. Qed.

Definition call : api_call := {|
  call_method := GetRequestMethod;
  call_uses_token := true;
  call_BuildUrl := BuildUrl;
  call_parts := post_parts;
  call_GetPostData := GetPostData;
  call_new := new_Response;
  call_ParseResponse := ParseResponse |}.

#[global] Instance call_implements :
  ImplementsCall call "/api/1.3/upload/check" true params_described Response_described.
Proof. implement_call. Qed.

End Call.
End upload_check_v1_3.

(** ** [api/upload/get_web_uploads/v1_3.cpp] *)
Module upload_get_web_uploads_v1_3.

(** [api/upload/get_web_uploads/v1_3.hpp:29-35 Filter] *)
Inductive Filter : Set := Filter_ActiveOnly | Filter_ActiveAndInactive.
#[global] Instance Filter_inhabited : Inhabited Filter := populate Filter_ActiveOnly.

(** [api/upload/get_web_uploads/v1_3.hpp:37-43 Activity] *)
Inductive Activity : Set := Activity_Inactive | Activity_Active.
#[global] Instance Activity_inhabited : Inhabited Activity := populate Activity_Inactive.

(** [api/upload/get_web_uploads/v1_3.hpp:45-63 Status] *)
Inductive Status : Set :=
  Status_Unknown | Status_Entered | Status_Started | Status_Transferring | Status_Downloaded |
  Status_VerificationWaiting | Status_Verifying | Status_Complete.
#[global] Instance Status_inhabited : Inhabited Status := populate Status_Unknown.

(** [api/upload/get_web_uploads/v1_3.cpp:24-31 AsString] *)
Definition AsString_Filter (value : Filter) : str :=
  match value with
  | Filter_ActiveOnly => B "no"
  | Filter_ActiveAndInactive => B "yes"
  end.

Section Call.
Context `{Libraries}.

(** [api/upload/get_web_uploads/v1_3.hpp:72-110 WebUpload] *)
Record WebUpload := {
  WebUpload_uploadkey : str;
  WebUpload_activity : Activity;
  WebUpload_quickkey : option str;
  WebUpload_filename : str;
  WebUpload_created_datetime : option ptime;
  WebUpload_status_code : Status;
  WebUpload_status_text : str;
  WebUpload_error_code : Z;
  WebUpload_url : str;
  WebUpload_eta : str;
  WebUpload_filesize : option Z;
  WebUpload_percent_complete : Z }.
#[local] Instance WebUpload_members : Members WebUpload := fun v =>
  Build_WebUpload (WebUpload_uploadkey v) (WebUpload_activity v) (WebUpload_quickkey v)
    (WebUpload_filename v) (WebUpload_created_datetime v) (WebUpload_status_code v)
    (WebUpload_status_text v) (WebUpload_error_code v) (WebUpload_url v) (WebUpload_eta v)
    (WebUpload_filesize v) (WebUpload_percent_complete v).
Definition new_WebUpload : WebUpload :=
  {| WebUpload_uploadkey := []; WebUpload_activity := indeterminate Activity _;
     WebUpload_quickkey := None; WebUpload_filename := []; WebUpload_created_datetime := None;
     WebUpload_status_code := indeterminate Status _; WebUpload_status_text := [];
     WebUpload_error_code := indeterminate Z _; WebUpload_url := []; WebUpload_eta := [];
     WebUpload_filesize := None; WebUpload_percent_complete := indeterminate Z _ |}.

(** [api/upload/get_web_uploads/v1_3.cpp:39-203 WebUploadFromPropertyBranch] *)
Definition WebUploadFromPropertyBranch : branch_parser WebUpload := FromPropertyBranch
  [ assign WebUpload_status_code Status_Unknown;
    assign WebUpload_status_text [];
    assign WebUpload_error_code 0;
    assign WebUpload_percent_complete 0;
    required std_string "uploadkey" WebUpload_uploadkey;
    required_enum [("no", Activity_Inactive); ("yes", Activity_Active)]
       "active" WebUpload_activity;
    optional std_string "quickkey" WebUpload_quickkey;
    required std_string "filename" WebUpload_filename;
    optional a_ptime "created" WebUpload_created_datetime;
    optional_enum id [("", Status_Unknown); ("1", Status_Entered); ("2", Status_Started);
       ("3", Status_Transferring); ("4", Status_Downloaded); ("5", Status_VerificationWaiting);
       ("6", Status_Verifying); ("99", Status_Complete)] "status_code" WebUpload_status_code;
    with_default std_string "status" WebUpload_status_text;
    with_default (an int32) "error_status" WebUpload_error_code;
    required std_string "url" WebUpload_url;
    required std_string "eta" WebUpload_eta;
    optional (an uint64) "size" WebUpload_filesize;
    with_default (an int32) "percentage" WebUpload_percent_complete].

(** [api/upload/get_web_uploads/v1_3.hpp:111-112 Response] *)
Record Response := {
  Response_web_uploads : list WebUpload }.
#[local] Instance Response_members : Members Response := fun v =>
  Build_Response (Response_web_uploads v).
Definition new_Response : Response :=
  {| Response_web_uploads := [] |}.

(** [api/upload/get_web_uploads/v1_3.cpp:251-286 Impl::ParseResponse] *)
Definition ParseResponse : ResponseBase -> Response -> ResponseBase * Response :=
  parse_response
  [ required_structs WebUploadFromPropertyBranch new_WebUpload "response.web_uploads"
       Response_web_uploads].

(** [api/upload/get_web_uploads/v1_3.cpp:213-213 api_path] *)
Definition api_path : str := B "/api/1.3/upload/get_web_uploads".

(** [api/upload/get_web_uploads/v1_3.cpp:217-237 Impl] *)
Record Impl := {
  filter_ : option Filter;
  upload_key_ : option str }.
#[local] Instance Impl_members : Members Impl := fun v =>
  Build_Impl (filter_ v) (upload_key_ v).

(** [api/upload/get_web_uploads/v1_3.cpp:239-241 Impl::Impl] *)
Definition new_Impl : Impl :=
  {| filter_ := None; upload_key_ := None |}.

(** [api/upload/get_web_uploads/v1_3.cpp:346-349 Request::SetFilter] *)
Definition SetFilter (filter : Filter) (i : Impl) : Impl := set_field filter_ (Some filter) i.

(** [api/upload/get_web_uploads/v1_3.cpp:351-354 Request::SetUploadKey] *)
Definition SetUploadKey (upload_key : str) (i : Impl) : Impl :=
  set_field upload_key_ (Some upload_key) i.

(** [api/upload/get_web_uploads/v1_3.cpp:243-249 Impl::BuildUrl] *)
Definition BuildUrl (query_parts : list query_part) : str * list query_part :=
  (api_path ++ B ".php", query_parts).

(** [api/upload/get_web_uploads/v1_3.cpp:233-236 Impl::GetRequestMethod] *)
Definition GetRequestMethod : RequestMethod := Post.

(** The assignments to [parts].
    [api/upload/get_web_uploads/v1_3.cpp:288-300 Impl::GetPostData] *)
Definition post_parts (i : Impl) : list query_part := make_parts
  [("all_web_uploads", AsString_Filter <$> filter_ i);
   ("upload_key", upload_key_ i)].

(** [api/upload/get_web_uploads/v1_3.cpp:288-300 Impl::GetPostData] *)
Definition GetPostData (MD5 : str -> str) (a : SessionTokenApi) (i : Impl) : str :=
  MakePost MD5 a (api_path ++ B ".php") (post_parts i).

(** *** The description *)

(** [api/templates/apis/upload/v1_3/get_web_uploads.json:70-143 WebUpload] *)
Definition WebUpload_described : description WebUpload :=
  [ Required string_at "uploadkey" WebUpload_uploadkey;
    Required (enum_at [("no", Activity_Inactive); ("yes", Activity_Active)])
       "active" WebUpload_activity;
    Optional string_at "quickkey" WebUpload_quickkey;
    Required string_at "filename" WebUpload_filename;
    Optional time_at "created" WebUpload_created_datetime;
    Default Status_Unknown (enum_at [("", Status_Unknown); ("1", Status_Entered);
       ("2", Status_Started); ("3", Status_Transferring); ("4", Status_Downloaded); ("5",
       Status_VerificationWaiting); ("6", Status_Verifying); ("99", Status_Complete)])
       "status_code" WebUpload_status_code;
    Default [] string_at "status" WebUpload_status_text;
    Default 0 (number_at int32) "error_status" WebUpload_error_code;
    Required string_at "url" WebUpload_url;
    Required string_at "eta" WebUpload_eta;
    Optional (number_at uint64) "size" WebUpload_filesize;
    Default 0 (number_at int32) "percentage" WebUpload_percent_complete].

(** [api/templates/apis/upload/v1_3/get_web_uploads.json:159-167 return_params] *)
Definition Response_described : description Response :=
  [ RequiredStructs WebUpload_described "response.web_uploads" Response_web_uploads].

(** [api/templates/apis/upload/v1_3/get_web_uploads.json:5-17 Filter] *)
Definition AsDescribed_Filter (value : Filter) : str :=
  match value with
  | Filter_ActiveOnly => B "no"
  | Filter_ActiveAndInactive => B "yes"
  end.

(** [api/templates/apis/upload/v1_3/get_web_uploads.json:145-158 input_params] *)
Definition params_described (i : Impl) : list (string * option str) :=
  [("all_web_uploads", (AsDescribed_Filter) <$> filter_ i);
   ("upload_key", upload_key_ i)].

#[global] Instance WebUpload_parses : Parses WebUploadFromPropertyBranch new_WebUpload
  WebUpload_described.
Proof. parse_class. Qed.
#[global] Instance Response_parses :
  ParsesResponse ParseResponse new_Response Response_described.
Proof. parse_class. Qed.

Definition call : api_call := {|
  call_method := GetRequestMethod;
  call_uses_token := true;
  call_BuildUrl := BuildUrl;
  call_parts := post_parts;
  call_GetPostData := GetPostData;
  call_new := new_Response;
  call_ParseResponse := ParseResponse |}.

#[global] Instance call_implements :
  ImplementsCall call "/api/1.3/upload/get_web_uploads" true params_described Response_described.
Proof. implement_call. Qed.

End Call.
End upload_get_web_uploads_v1_3.

(** ** [api/upload/instant/v0.cpp] *)
Module upload_instant_v0.

(** [api/upload/instant/v0.hpp:29-37 ActionOnDuplicate] *)
Inductive ActionOnDuplicate : Set :=
  ActionOnDuplicate_Skip | ActionOnDuplicate_Keep | ActionOnDuplicate_Replace.
#[global] Instance ActionOnDuplicate_inhabited : Inhabited ActionOnDuplicate :=
  populate ActionOnDuplicate_Skip.

(** [api/upload/instant/v0.cpp:24-33 AsString] *)
Definition AsString_ActionOnDuplicate (value : ActionOnDuplicate) : str :=
  match value with
  | ActionOnDuplicate_Skip => B "skip"
  | ActionOnDuplicate_Keep => B "keep"
  | ActionOnDuplicate_Replace => B "replace"
  end.

Section Call.
Context `{Libraries}.

(** [api/upload/instant/v0.hpp:46-50 Response] *)
Record Response := {
  Response_quickkey : str;
  Response_filename : str }.
#[local] Instance Response_members : Members Response := fun v =>
  Build_Response (Response_quickkey v) (Response_filename v).
Definition new_Response : Response :=
  {| Response_quickkey := []; Response_filename := [] |}.

(** [api/upload/instant/v0.cpp:102-130 Impl::ParseResponse] *)
Definition ParseResponse : ResponseBase -> Response -> ResponseBase * Response :=
  parse_response
  [ required std_string "response.quickkey" Response_quickkey;
    required std_string "response.filename" Response_filename].

(** [api/upload/instant/v0.cpp:45-45 api_path] *)
Definition api_path : str := B "/api/upload/instant".

(** [api/upload/instant/v0.cpp:49-81 Impl] *)
Record Impl := {
  filename_ : str;
  hash_ : str;
  filesize_ : Z;
  quickkey_ : option str;
  target_parent_folderkey_ : option str;
  target_filedrop_ : option str;
  target_path_ : option str;
  mtime_ : option ptime;
  action_on_duplicate_ : option ActionOnDuplicate;
  previous_hash_ : option str }.
#[local] Instance Impl_members : Members Impl := fun v =>
  Build_Impl (filename_ v) (hash_ v) (filesize_ v) (quickkey_ v) (target_parent_folderkey_ v)
    (target_filedrop_ v) (target_path_ v) (mtime_ v) (action_on_duplicate_ v) (previous_hash_ v).

(** [api/upload/instant/v0.cpp:83-92 Impl::Impl] *)
Definition new_Impl (filename : str) (hash : str) (filesize : Z) : Impl :=
  {| filename_ := filename; hash_ := hash; filesize_ := filesize; quickkey_ := None;
     target_parent_folderkey_ := None; target_filedrop_ := None; target_path_ := None;
     mtime_ := None; action_on_duplicate_ := None; previous_hash_ := None |}.

(** [api/upload/instant/v0.cpp:207-210 Request::SetQuickkey] *)
Definition SetQuickkey (quickkey : str) (i : Impl) : Impl :=
  set_field quickkey_ (Some quickkey) i.

(** [api/upload/instant/v0.cpp:212-215 Request::SetTargetParentFolderkey] *)
Definition SetTargetParentFolderkey (target_parent_folderkey : str) (i : Impl) : Impl :=
  set_field target_parent_folderkey_ (Some target_parent_folderkey) i.

(** [api/upload/instant/v0.cpp:217-220 Request::SetTargetFiledrop] *)
Definition SetTargetFiledrop (target_filedrop : str) (i : Impl) : Impl :=
  set_field target_filedrop_ (Some target_filedrop) i.

(** [api/upload/instant/v0.cpp:222-225 Request::SetTargetPath] *)
Definition SetTargetPath (target_path : str) (i : Impl) : Impl :=
  set_field target_path_ (Some target_path) i.

(** [api/upload/instant/v0.cpp:227-230 Request::SetMtime] *)
Definition SetMtime (mtime : ptime) (i : Impl) : Impl := set_field mtime_ (Some mtime) i.

(** [api/upload/instant/v0.cpp:232-235 Request::SetActionOnDuplicate] *)
Definition SetActionOnDuplicate (action_on_duplicate : ActionOnDuplicate) (i : Impl) : Impl :=
  set_field action_on_duplicate_ (Some action_on_duplicate) i.

(** [api/upload/instant/v0.cpp:237-240 Request::SetPreviousHash] *)
Definition SetPreviousHash (previous_hash : str) (i : Impl) : Impl :=
  set_field previous_hash_ (Some previous_hash) i.

(** [api/upload/instant/v0.cpp:94-100 Impl::BuildUrl] *)
Definition BuildUrl (query_parts : list query_part) : str * list query_part :=
  (api_path ++ B ".php", query_parts).

(** [api/upload/instant/v0.cpp:77-80 Impl::GetRequestMethod] *)
Definition GetRequestMethod : RequestMethod := Post.

(** The assignments to [parts].
    [api/upload/instant/v0.cpp:132-157 Impl::GetPostData] *)
Definition post_parts (i : Impl) : list query_part := make_parts
  [("filename", Some (filename_ i));
   ("hash", Some (hash_ i));
   ("size", Some (print_int (filesize_ i)));
   ("quickkey", quickkey_ i);
   ("folder_key", target_parent_folderkey_ i);
   ("filedrop_key", target_filedrop_ i);
   ("path", target_path_ i);
   ("mtime", AsString_ptime <$> mtime_ i);
   ("action_on_duplicate", AsString_ActionOnDuplicate <$> action_on_duplicate_ i);
   ("previous_hash", previous_hash_ i)].

(** [api/upload/instant/v0.cpp:132-157 Impl::GetPostData] *)
Definition GetPostData (MD5 : str -> str) (a : SessionTokenApi) (i : Impl) : str :=
  MakePost MD5 a (api_path ++ B ".php") (post_parts i).

(** *** The description *)

(** [api/templates/apis/upload/v0/instant.json:77-88 return_params] *)
Definition Response_described : description Response :=
  [ Required string_at "response.quickkey" Response_quickkey;
    Required string_at "response.filename" Response_filename].

(** [api/templates/apis/upload/v0/instant.json:5-21 ActionOnDuplicate] *)
Definition AsDescribed_ActionOnDuplicate (value : ActionOnDuplicate) : str :=
  match value with
  | ActionOnDuplicate_Skip => B "skip"
  | ActionOnDuplicate_Keep => B "keep"
  | ActionOnDuplicate_Replace => B "replace"
  end.

(** [api/templates/apis/upload/v0/instant.json:23-76 input_params] *)
Definition params_described (i : Impl) : list (string * option str) :=
  [("filename", Some (filename_ i));
   ("hash", Some (hash_ i));
   ("size", Some (print_int (filesize_ i)));
   ("quickkey", quickkey_ i);
   ("folder_key", target_parent_folderkey_ i);
   ("filedrop_key", target_filedrop_ i);
   ("path", target_path_ i);
   ("mtime", iso_time <$> mtime_ i);
   ("action_on_duplicate", (AsDescribed_ActionOnDuplicate) <$> action_on_duplicate_ i);
   ("previous_hash", previous_hash_ i)].

#[global] Instance Response_parses :
  ParsesResponse ParseResponse new_Response Response_described.
Proof. parse_class. Qed.

Definition call : api_call := {|
  call_method := GetRequestMethod;
  call_uses_token := true;
  call_BuildUrl := BuildUrl;
  call_parts := post_parts;
  call_GetPostData := GetPostData;
  call_new := new_Response;
  call_ParseResponse := ParseResponse |}.

#[global] Instance call_implements :
  ImplementsCall call "/api/upload/instant" true params_described Response_described.
Proof. implement_call. Qed.

End Call.
End upload_instant_v0.

(** ** [api/upload/instant/v1_3.cpp] *)
Module upload_instant_v1_3.

(** [api/upload/instant/v1_3.hpp:29-37 ActionOnDuplicate] *)
Inductive ActionOnDuplicate : Set :=
  ActionOnDuplicate_Skip | ActionOnDuplicate_Keep | ActionOnDuplicate_Replace.
#[global] Instance ActionOnDuplicate_inhabited : Inhabited ActionOnDuplicate :=
  populate ActionOnDuplicate_Skip.

(** [api/upload/instant/v1_3.cpp:24-33 AsString] *)
Definition AsString_ActionOnDuplicate (value : ActionOnDuplicate) : str :=
  match value with
  | ActionOnDuplicate_Skip => B "skip"
  | ActionOnDuplicate_Keep => B "keep"
  | ActionOnDuplicate_Replace => B "replace"
  end.

Section Call.
Context `{Libraries}.

(** [api/upload/instant/v1_3.hpp:46-53 Response] *)
Record Response := {
  Response_quickkey : str;
  Response_filename : str;
  Response_new_device_revision : Z }.
#[local] Instance Response_members : Members Response := fun v =>
  Build_Response (Response_quickkey v) (Response_filename v) (Response_new_device_revision v).
Definition new_Response : Response :=
  {| Response_quickkey := []; Response_filename := [];
     Response_new_device_revision := indeterminate Z _ |}.

(** [api/upload/instant/v1_3.cpp:102-139 Impl::ParseResponse] *)
Definition ParseResponse : ResponseBase -> Response -> ResponseBase * Response :=
  parse_response
  [ required std_string "response.quickkey" Response_quickkey;
    required std_string "response.filename" Response_filename;
    required (an uint32) "response.new_device_revision" Response_new_device_revision].

(** [api/upload/instant/v1_3.cpp:45-45 api_path] *)
Definition api_path : str := B "/api/1.3/upload/instant".

(** [api/upload/instant/v1_3.cpp:49-81 Impl] *)
Record Impl := {
  filename_ : str;
  hash_ : str;
  filesize_ : Z;
  quickkey_ : option str;
  target_parent_folderkey_ : option str;
  target_filedrop_ : option str;
  target_path_ : option str;
  mtime_ : option ptime;
  action_on_duplicate_ : option ActionOnDuplicate;
  previous_hash_ : option str }.
#[local] Instance Impl_members : Members Impl := fun v =>
  Build_Impl (filename_ v) (hash_ v) (filesize_ v) (quickkey_ v) (target_parent_folderkey_ v)
    (target_filedrop_ v) (target_path_ v) (mtime_ v) (action_on_duplicate_ v) (previous_hash_ v).

(** [api/upload/instant/v1_3.cpp:83-92 Impl::Impl] *)
Definition new_Impl (filename : str) (hash : str) (filesize : Z) : Impl :=
  {| filename_ := filename; hash_ := hash; filesize_ := filesize; quickkey_ := None;
     target_parent_folderkey_ := None; target_filedrop_ := None; target_path_ := None;
     mtime_ := None; action_on_duplicate_ := None; previous_hash_ := None |}.

(** [api/upload/instant/v1_3.cpp:216-219 Request::SetQuickkey] *)
Definition SetQuickkey (quickkey : str) (i : Impl) : Impl :=
  set_field quickkey_ (Some quickkey) i.

(** [api/upload/instant/v1_3.cpp:221-224 Request::SetTargetParentFolderkey] *)
Definition SetTargetParentFolderkey (target_parent_folderkey : str) (i : Impl) : Impl :=
  set_field target_parent_folderkey_ (Some target_parent_folderkey) i.

(** [api/upload/instant/v1_3.cpp:226-229 Request::SetTargetFiledrop] *)
Definition SetTargetFiledrop (target_filedrop : str) (i : Impl) : Impl :=
  set_field target_filedrop_ (Some target_filedrop) i.

(** [api/upload/instant/v1_3.cpp:231-234 Request::SetTargetPath] *)
Definition SetTargetPath (target_path : str) (i : Impl) : Impl :=
  set_field target_path_ (Some target_path) i.

(** [api/upload/instant/v1_3.cpp:236-239 Request::SetMtime] *)
Definition SetMtime (mtime : ptime) (i : Impl) : Impl := set_field mtime_ (Some mtime) i.

(** [api/upload/instant/v1_3.cpp:241-244 Request::SetActionOnDuplicate] *)
Definition SetActionOnDuplicate (action_on_duplicate : ActionOnDuplicate) (i : Impl) : Impl :=
  set_field action_on_duplicate_ (Some action_on_duplicate) i.

(** [api/upload/instant/v1_3.cpp:246-249 Request::SetPreviousHash] *)
Definition SetPreviousHash (previous_hash : str) (i : Impl) : Impl :=
  set_field previous_hash_ (Some previous_hash) i.

(** [api/upload/instant/v1_3.cpp:94-100 Impl::BuildUrl] *)
Definition BuildUrl (query_parts : list query_part) : str * list query_part :=
  (api_path ++ B ".php", query_parts).

(** [api/upload/instant/v1_3.cpp:77-80 Impl::GetRequestMethod] *)
Definition GetRequestMethod : RequestMethod := Post.

(** The assignments to [parts].
    [api/upload/instant/v1_3.cpp:141-166 Impl::GetPostData] *)
Definition post_parts (i : Impl) : list query_part := make_parts
  [("filename", Some (filename_ i));
   ("hash", Some (hash_ i));
   ("size", Some (print_int (filesize_ i)));
   ("quickkey", quickkey_ i);
   ("folder_key", target_parent_folderkey_ i);
   ("filedrop_key", target_filedrop_ i);
   ("path", target_path_ i);
   ("mtime", AsString_ptime <$> mtime_ i);
   ("action_on_duplicate", AsString_ActionOnDuplicate <$> action_on_duplicate_ i);
   ("previous_hash", previous_hash_ i)].

(** [api/upload/instant/v1_3.cpp:141-166 Impl::GetPostData] *)
Definition GetPostData (MD5 : str -> str) (a : SessionTokenApi) (i : Impl) : str :=
  MakePost MD5 a (api_path ++ B ".php") (post_parts i).

(** *** The description *)

(** [api/templates/apis/upload/v1_3/instant.json:77-93 return_params] *)
Definition Response_described : description Response :=
  [ Required string_at "response.quickkey" Response_quickkey;
    Required string_at "response.filename" Response_filename;
    Required (number_at uint32) "response.new_device_revision" Response_new_device_revision].

(** [api/templates/apis/upload/v1_3/instant.json:5-21 ActionOnDuplicate] *)
Definition AsDescribed_ActionOnDuplicate (value : ActionOnDuplicate) : str :=
  match value with
  | ActionOnDuplicate_Skip => B "skip"
  | ActionOnDuplicate_Keep => B "keep"
  | ActionOnDuplicate_Replace => B "replace"
  end.

(** [api/templates/apis/upload/v1_3/instant.json:23-76 input_params] *)
Definition params_described (i : Impl) : list (string * option str) :=
  [("filename", Some (filename_ i));
   ("hash", Some (hash_ i));
   ("size", Some (print_int (filesize_ i)));
   ("quickkey", quickkey_ i);
   ("folder_key", target_parent_folderkey_ i);
   ("filedrop_key", target_filedrop_ i);
   ("path", target_path_ i);
   ("mtime", iso_time <$> mtime_ i);
   ("action_on_duplicate", (AsDescribed_ActionOnDuplicate) <$> action_on_duplicate_ i);
   ("previous_hash", previous_hash_ i)].

#[global] Instance Response_parses :
  ParsesResponse ParseResponse new_Response Response_described.
Proof. parse_class. Qed.

Definition call : api_call := {|
  call_method := GetRequestMethod;
  call_uses_token := true;
  call_BuildUrl := BuildUrl;
  call_parts := post_parts;
  call_GetPostData := GetPostData;
  call_new := new_Response;
  call_ParseResponse := ParseResponse |}.

#[global] Instance call_implements :
  ImplementsCall call "/api/1.3/upload/instant" true params_described Response_described.
Proof. implement_call. Qed.

End Call.
End upload_instant_v1_3.

(** ** [api/upload/poll_upload/v0.cpp] *)
Module upload_poll_upload_v0.

Section Call.
Context `{Libraries}.

(** [api/upload/poll_upload/v0.hpp:39-61 Response] *)
Record Response := {
  Response_result : Z;
  Response_status : option Z;
  Response_fileerror : Z;
  Response_filename : option str;
  Response_description : option str;
  Response_quickkey : option str;
  Response_filesize : option Z;
  Response_revision : option str }.
#[local] Instance Response_members : Members Response := fun v =>
  Build_Response (Response_result v) (Response_status v) (Response_fileerror v)
    (Response_filename v) (Response_description v) (Response_quickkey v) (Response_filesize v)
    (Response_revision v).
Definition new_Response : Response :=
  {| Response_result := indeterminate Z _; Response_status := None; Response_fileerror := 0;
     Response_filename := None; Response_description := None; Response_quickkey := None;
     Response_filesize := None; Response_revision := None |}.

(** [api/upload/poll_upload/v0.cpp:74-172 Impl::ParseResponse] *)
Definition ParseResponse : ResponseBase -> Response -> ResponseBase * Response :=
  parse_response
  [ assign Response_fileerror 0;
    required (an int32) "response.doupload.result" Response_result;
    optional (an int32) "response.doupload.status" Response_status;
    with_default (an int32) "response.doupload.fileerror" Response_fileerror;
    optional std_string "response.doupload.filename" Response_filename;
    optional std_string "response.doupload.description" Response_description;
    optional std_string "response.doupload.quickkey" Response_quickkey;
    optional (an uint64) "response.doupload.size" Response_filesize;
    optional std_string "response.doupload.revision" Response_revision].

(** [api/upload/poll_upload/v0.cpp:32-32 api_path] *)
Definition api_path : str := B "/api/upload/poll_upload".

(** [api/upload/poll_upload/v0.cpp:36-57 Impl] *)
Record Impl := {
  key_ : str }.
#[local] Instance Impl_members : Members Impl := fun v =>
  Build_Impl (key_ v).

(** [api/upload/poll_upload/v0.cpp:59-64 Impl::Impl] *)
Definition new_Impl (key : str) : Impl :=
  {| key_ := key |}.

(** [api/upload/poll_upload/v0.cpp:66-72 Impl::BuildUrl] *)
Definition BuildUrl (query_parts : list query_part) : str * list query_part :=
  (api_path ++ B ".php", query_parts).

(** [api/upload/poll_upload/v0.cpp:53-56 Impl::GetRequestMethod] *)
Definition GetRequestMethod : RequestMethod := Post.

(** The assignments to [parts].
    [api/upload/poll_upload/v0.cpp:174-183 Impl::GetPostData] *)
Definition post_parts (i : Impl) : list query_part := make_parts
  [("key", Some (key_ i))].

(** [api/upload/poll_upload/v0.cpp:174-183 Impl::GetPostData] *)
Definition GetPostData (MD5 : str -> str) (a : SessionTokenApi) (i : Impl) : str :=
  MakePost MD5 a (api_path ++ B ".php") (post_parts i).

(** *** The description *)

(** [api/templates/apis/upload/v0/poll_upload.json:11-60 return_params] *)
Definition Response_described : description Response :=
  [ Required (number_at int32) "response.doupload.result" Response_result;
    Optional (number_at int32) "response.doupload.status" Response_status;
    Default 0 (number_at int32) "response.doupload.fileerror" Response_fileerror;
    Optional string_at "response.doupload.filename" Response_filename;
    Optional string_at "response.doupload.description" Response_description;
    Optional string_at "response.doupload.quickkey" Response_quickkey;
    Optional (number_at uint64) "response.doupload.size" Response_filesize;
    Optional string_at "response.doupload.revision" Response_revision].

(** [api/templates/apis/upload/v0/poll_upload.json:4-10 input_params] *)
Definition params_described (i : Impl) : list (string * option str) :=
  [("key", Some (key_ i))].

#[global] Instance Response_parses :
  ParsesResponse ParseResponse new_Response Response_described.
Proof. parse_class. Qed.

Definition call : api_call := {|
  call_method := GetRequestMethod;
  call_uses_token := true;
  call_BuildUrl := BuildUrl;
  call_parts := post_parts;
  call_GetPostData := GetPostData;
  call_new := new_Response;
  call_ParseResponse := ParseResponse |}.

#[global] Instance call_implements :
  ImplementsCall call "/api/upload/poll_upload" true params_described Response_described.
Proof. implement_call. Qed.

End Call.
End upload_poll_upload_v0.

(** ** [api/upload/poll_upload/v1_3.cpp] *)
Module upload_poll_upload_v1_3.

(** [api/upload/poll_upload/v1_3.hpp:29-35 AllUnitsReady] *)
Inductive AllUnitsReady : Set := AllUnitsReady_No | AllUnitsReady_Yes.
#[global] Instance AllUnitsReady_inhabited : Inhabited AllUnitsReady := populate AllUnitsReady_No.

Section Call.
Context `{Libraries}.

(** [api/upload/poll_upload/v1_3.hpp:47-66 ResumableData] *)
Record ResumableData := {
  ResumableData_number_of_units : Z;
  ResumableData_all_units_ready : AllUnitsReady;
  ResumableData_unit_size : Z;
  ResumableData_bitmap_count : option Z;
  ResumableData_words : list Z;
  ResumableData_upload_key : option str }.
#[local] Instance ResumableData_members : Members ResumableData := fun v =>
  Build_ResumableData (ResumableData_number_of_units v) (ResumableData_all_units_ready v)
    (ResumableData_unit_size v) (ResumableData_bitmap_count v) (ResumableData_words v)
    (ResumableData_upload_key v).
Definition new_ResumableData : ResumableData :=
  {| ResumableData_number_of_units := indeterminate Z _;
     ResumableData_all_units_ready := indeterminate AllUnitsReady _;
     ResumableData_unit_size := indeterminate Z _; ResumableData_bitmap_count := None;
     ResumableData_words := []; ResumableData_upload_key := None |}.

(** [api/upload/poll_upload/v1_3.cpp:28-143 ResumableDataFromPropertyBranch] *)
Definition ResumableDataFromPropertyBranch : branch_parser ResumableData := FromPropertyBranch
  [ assign ResumableData_all_units_ready AllUnitsReady_No;
    required (an uint32) "number_of_units" ResumableData_number_of_units;
    optional_enum id [("no", AllUnitsReady_No); ("yes", AllUnitsReady_Yes)]
       "all_units_ready" ResumableData_all_units_ready;
    required (an uint64) "unit_size" ResumableData_unit_size;
    optional (an uint32) "bitmap.count" ResumableData_bitmap_count;
    required_array (GetValueIfExistsNumber the_json uint16) "bitmap.words" ResumableData_words;
    optional std_string "upload_key" ResumableData_upload_key].

(** [api/upload/poll_upload/v1_3.hpp:67-98 Response] *)
Record Response := {
  Response_result : Z;
  Response_fileerror : Z;
  Response_created : option ptime;
  Response_description : option str;
  Response_filename : option str;
  Response_hash : option str;
  Response_quickkey : option str;
  Response_resumable : option ResumableData;
  Response_revision : option Z;
  Response_filesize : option Z;
  Response_status : option Z }.
#[local] Instance Response_members : Members Response := fun v =>
  Build_Response (Response_result v) (Response_fileerror v) (Response_created v)
    (Response_description v) (Response_filename v) (Response_hash v) (Response_quickkey v)
    (Response_resumable v) (Response_revision v) (Response_filesize v) (Response_status v).
Definition new_Response : Response :=
  {| Response_result := indeterminate Z _; Response_fileerror := 0; Response_created := None;
     Response_description := None; Response_filename := None; Response_hash := None;
     Response_quickkey := None; Response_resumable := None; Response_revision := None;
     Response_filesize := None; Response_status := None |}.

(** [api/upload/poll_upload/v1_3.cpp:195-334 Impl::ParseResponse] *)
Definition ParseResponse : ResponseBase -> Response -> ResponseBase * Response :=
  parse_response
  [ assign Response_fileerror 0;
    required (an int32) "response.doupload.result" Response_result;
    with_default (an int32) "response.doupload.fileerror" Response_fileerror;
    optional a_ptime "response.doupload.created" Response_created;
    optional std_string "response.doupload.description" Response_description;
    optional std_string "response.doupload.filename" Response_filename;
    optional std_string "response.doupload.hash" Response_hash;
    optional std_string "response.doupload.quickkey" Response_quickkey;
    optional_struct ResumableDataFromPropertyBranch new_ResumableData
       "response.doupload.resumable_upload" Response_resumable;
    optional (an uint32) "response.doupload.revision" Response_revision;
    optional (an uint64) "response.doupload.size" Response_filesize;
    optional (an int32) "response.doupload.status" Response_status].

(** [api/upload/poll_upload/v1_3.cpp:153-153 api_path] *)
Definition api_path : str := B "/api/1.3/upload/poll_upload".

(** [api/upload/poll_upload/v1_3.cpp:157-178 Impl] *)
Record Impl := {
  key_ : str }.
#[local] Instance Impl_members : Members Impl := fun v =>
  Build_Impl (key_ v).

(** [api/upload/poll_upload/v1_3.cpp:180-185 Impl::Impl] *)
Definition new_Impl (key : str) : Impl :=
  {| key_ := key |}.

(** [api/upload/poll_upload/v1_3.cpp:187-193 Impl::BuildUrl] *)
Definition BuildUrl (query_parts : list query_part) : str * list query_part :=
  (api_path ++ B ".php", query_parts).

(** [api/upload/poll_upload/v1_3.cpp:174-177 Impl::GetRequestMethod] *)
Definition GetRequestMethod : RequestMethod := Post.

(** The assignments to [parts].
    [api/upload/poll_upload/v1_3.cpp:336-345 Impl::GetPostData] *)
Definition post_parts (i : Impl) : list query_part := make_parts
  [("key", Some (key_ i))].

(** [api/upload/poll_upload/v1_3.cpp:336-345 Impl::GetPostData] *)
Definition GetPostData (MD5 : str -> str) (a : SessionTokenApi) (i : Impl) : str :=
  MakePost MD5 a (api_path ++ B ".php") (post_parts i).

(** *** The description *)

(** [api/templates/apis/upload/v1_3/poll_upload.json:20-58 ResumableData] *)
Definition ResumableData_described : description ResumableData :=
  [ Required (number_at uint32) "number_of_units" ResumableData_number_of_units;
    Default AllUnitsReady_No (enum_at [("no", AllUnitsReady_No); ("yes", AllUnitsReady_Yes)])
       "all_units_ready" ResumableData_all_units_ready;
    Required (number_at uint64) "unit_size" ResumableData_unit_size;
    Optional (number_at uint32) "bitmap.count" ResumableData_bitmap_count;
    RequiredArray (number_here uint16) "bitmap.words" ResumableData_words;
    Optional string_at "upload_key" ResumableData_upload_key].

(** [api/templates/apis/upload/v1_3/poll_upload.json:67-134 return_params] *)
Definition Response_described : description Response :=
  [ Required (number_at int32) "response.doupload.result" Response_result;
    Default 0 (number_at int32) "response.doupload.fileerror" Response_fileerror;
    Optional time_at "response.doupload.created" Response_created;
    Optional string_at "response.doupload.description" Response_description;
    Optional string_at "response.doupload.filename" Response_filename;
    Optional string_at "response.doupload.hash" Response_hash;
    Optional string_at "response.doupload.quickkey" Response_quickkey;
    OptionalStruct ResumableData_described "response.doupload.resumable_upload"
       Response_resumable;
    Optional (number_at uint32) "response.doupload.revision" Response_revision;
    Optional (number_at uint64) "response.doupload.size" Response_filesize;
    Optional (number_at int32) "response.doupload.status" Response_status].

(** [api/templates/apis/upload/v1_3/poll_upload.json:60-66 input_params] *)
Definition params_described (i : Impl) : list (string * option str) :=
  [("key", Some (key_ i))].

#[global] Instance ResumableData_parses : Parses ResumableDataFromPropertyBranch
  new_ResumableData ResumableData_described.
Proof. parse_class. Qed.
#[global] Instance Response_parses :
  ParsesResponse ParseResponse new_Response Response_described.
Proof. parse_class. Qed.

Definition call : api_call := {|
  call_method := GetRequestMethod;
  call_uses_token := true;
  call_BuildUrl := BuildUrl;
  call_parts := post_parts;
  call_GetPostData := GetPostData;
  call_new := new_Response;
  call_ParseResponse := ParseResponse |}.

#[global] Instance call_implements :
  ImplementsCall call "/api/1.3/upload/poll_upload" true params_described Response_described.
Proof. implement_call. Qed.

End Call.
End upload_poll_upload_v1_3.

(** ** [api/upload/pre_upload/v0.cpp] *)
Module upload_pre_upload_v0.

(** [api/upload/pre_upload/v0.hpp:29-35 Resumability] *)
Inductive Resumability : Set := Resumability_NotResumable | Resumability_Resumable.
#[global] Instance Resumability_inhabited : Inhabited Resumability :=
  populate Resumability_NotResumable.

(** [api/upload/pre_upload/v0.hpp:37-45 ActionOnDuplicate] *)
Inductive ActionOnDuplicate : Set :=
  ActionOnDuplicate_Skip | ActionOnDuplicate_Keep | ActionOnDuplicate_Replace.
#[global] Instance ActionOnDuplicate_inhabited : Inhabited ActionOnDuplicate :=
  populate ActionOnDuplicate_Skip.

(** [api/upload/pre_upload/v0.hpp:47-53 StorageLimit] *)
Inductive StorageLimit : Set := StorageLimit_WithinBounds | StorageLimit_Exceeded.
#[global] Instance StorageLimit_inhabited : Inhabited StorageLimit :=
  populate StorageLimit_WithinBounds.

(** [api/upload/pre_upload/v0.hpp:55-61 DuplicateName] *)
Inductive DuplicateName : Set :=
  DuplicateName_NoPreexistingName | DuplicateName_DuplicateNameExists.
#[global] Instance DuplicateName_inhabited : Inhabited DuplicateName :=
  populate DuplicateName_NoPreexistingName.

(** [api/upload/pre_upload/v0.hpp:63-69 UnitsReady] *)
Inductive UnitsReady : Set := UnitsReady_NotReady | UnitsReady_AllUnitsReady.
#[global] Instance UnitsReady_inhabited : Inhabited UnitsReady := populate UnitsReady_NotReady.

(** [api/upload/pre_upload/v0.hpp:71-77 KnownByCloud] *)
Inductive KnownByCloud : Set := KnownByCloud_Known | KnownByCloud_Unknown.
#[global] Instance KnownByCloud_inhabited : Inhabited KnownByCloud := populate KnownByCloud_Known.

(** [api/upload/pre_upload/v0.cpp:24-31 AsString] *)
Definition AsString_Resumability (value : Resumability) : str :=
  match value with
  | Resumability_NotResumable => B "no"
  | Resumability_Resumable => B "yes"
  end.

(** [api/upload/pre_upload/v0.cpp:32-41 AsString] *)
Definition AsString_ActionOnDuplicate (value : ActionOnDuplicate) : str :=
  match value with
  | ActionOnDuplicate_Skip => B "skip"
  | ActionOnDuplicate_Keep => B "keep"
  | ActionOnDuplicate_Replace => B "replace"
  end.

Section Call.
Context `{Libraries}.

(** [api/upload/pre_upload/v0.hpp:86-123 Response] *)
Record Response := {
  Response_storage_limit_exceeded : option StorageLimit;
  Response_storage_limit : option Z;
  Response_used_storage_size : option Z;
  Response_known_by_cloud : option KnownByCloud;
  Response_quickkey : option str;
  Response_duplicate_quickkey : option str;
  Response_duplicate_name : option DuplicateName;
  Response_upload_key : option str;
  Response_all_units_ready : option UnitsReady;
  Response_number_of_units : option Z;
  Response_unit_size : option Z;
  Response_bitmap_count : option Z;
  Response_bitmap_words : list Z }.
#[local] Instance Response_members : Members Response := fun v =>
  Build_Response (Response_storage_limit_exceeded v) (Response_storage_limit v)
    (Response_used_storage_size v) (Response_known_by_cloud v) (Response_quickkey v)
    (Response_duplicate_quickkey v) (Response_duplicate_name v) (Response_upload_key v)
    (Response_all_units_ready v) (Response_number_of_units v) (Response_unit_size v)
    (Response_bitmap_count v) (Response_bitmap_words v).
Definition new_Response : Response :=
  {| Response_storage_limit_exceeded := None; Response_storage_limit := None;
     Response_used_storage_size := None; Response_known_by_cloud := None;
     Response_quickkey := None; Response_duplicate_quickkey := None;
     Response_duplicate_name := None; Response_upload_key := None;
     Response_all_units_ready := None; Response_number_of_units := None;
     Response_unit_size := None; Response_bitmap_count := None; Response_bitmap_words := [] |}.

(** [api/upload/pre_upload/v0.cpp:98-289 Impl::ParseResponse] *)
Definition ParseResponse : ResponseBase -> Response -> ResponseBase * Response :=
  parse_response
  [ optional_enum Some [("no", StorageLimit_WithinBounds); ("yes", StorageLimit_Exceeded)]
       "response.storage_limit_exceeded" Response_storage_limit_exceeded;
    optional (an uint64) "response.storage_limit" Response_storage_limit;
    optional (an uint64) "response.used_storage_size" Response_used_storage_size;
    optional_enum Some [("no", KnownByCloud_Known); ("yes", KnownByCloud_Unknown)]
       "response.new_hash" Response_known_by_cloud;
    optional std_string "response.quickkey" Response_quickkey;
    optional std_string "response.duplicate_quickkey" Response_duplicate_quickkey;
    optional_enum Some [("no", DuplicateName_NoPreexistingName);
       ("yes", DuplicateName_DuplicateNameExists)] "response.duplicate_name"
       Response_duplicate_name;
    optional std_string "response.resumable_upload.upload_key" Response_upload_key;
    optional_enum Some [("no", UnitsReady_NotReady); ("yes", UnitsReady_AllUnitsReady)]
       "response.resumable_upload.all_units_ready" Response_all_units_ready;
    optional (an uint32) "response.resumable_upload.number_of_units" Response_number_of_units;
    optional (an uint64) "response.resumable_upload.unit_size" Response_unit_size;
    optional (an uint32) "response.resumable_upload.bitmap.count" Response_bitmap_count;
    optional_array (GetValueIfExistsNumber the_json uint16)
       "response.resumable_upload.bitmap.words" Response_bitmap_words].

(** [api/upload/pre_upload/v0.cpp:53-53 api_path] *)
Definition api_path : str := B "/api/upload/pre_upload".

(** [api/upload/pre_upload/v0.cpp:57-84 Impl] *)
Record Impl := {
  resumable_ : option Resumability;
  filename_ : option str;
  quickkey_ : option str;
  hash_ : option str;
  filesize_ : option Z;
  upload_folder_key_ : option str;
  relative_path_ : option str;
  action_on_duplicate_ : option ActionOnDuplicate;
  mtime_ : option ptime }.
#[local] Instance Impl_members : Members Impl := fun v =>
  Build_Impl (resumable_ v) (filename_ v) (quickkey_ v) (hash_ v) (filesize_ v)
    (upload_folder_key_ v) (relative_path_ v) (action_on_duplicate_ v) (mtime_ v).

(** [api/upload/pre_upload/v0.cpp:86-88 Impl::Impl] *)
Definition new_Impl : Impl :=
  {| resumable_ := None; filename_ := None; quickkey_ := None; hash_ := None; filesize_ := None;
     upload_folder_key_ := None; relative_path_ := None; action_on_duplicate_ := None;
     mtime_ := None |}.

(** [api/upload/pre_upload/v0.cpp:363-366 Request::SetResumable] *)
Definition SetResumable (resumable : Resumability) (i : Impl) : Impl :=
  set_field resumable_ (Some resumable) i.

(** [api/upload/pre_upload/v0.cpp:368-371 Request::SetFilename] *)
Definition SetFilename (filename : str) (i : Impl) : Impl :=
  set_field filename_ (Some filename) i.

(** [api/upload/pre_upload/v0.cpp:373-376 Request::SetQuickkey] *)
Definition SetQuickkey (quickkey : str) (i : Impl) : Impl :=
  set_field quickkey_ (Some quickkey) i.

(** [api/upload/pre_upload/v0.cpp:378-381 Request::SetHash] *)
Definition SetHash (hash : str) (i : Impl) : Impl := set_field hash_ (Some hash) i.

(** [api/upload/pre_upload/v0.cpp:383-386 Request::SetFilesize] *)
Definition SetFilesize (filesize : Z) (i : Impl) : Impl := set_field filesize_ (Some filesize) i.

(** [api/upload/pre_upload/v0.cpp:388-391 Request::SetUploadFolderKey] *)
Definition SetUploadFolderKey (upload_folder_key : str) (i : Impl) : Impl :=
  set_field upload_folder_key_ (Some upload_folder_key) i.

(** [api/upload/pre_upload/v0.cpp:393-396 Request::SetRelativePath] *)
Definition SetRelativePath (relative_path : str) (i : Impl) : Impl :=
  set_field relative_path_ (Some relative_path) i.

(** [api/upload/pre_upload/v0.cpp:398-401 Request::SetActionOnDuplicate] *)
Definition SetActionOnDuplicate (action_on_duplicate : ActionOnDuplicate) (i : Impl) : Impl :=
  set_field action_on_duplicate_ (Some action_on_duplicate) i.

(** [api/upload/pre_upload/v0.cpp:403-406 Request::SetMtime] *)
Definition SetMtime (mtime : ptime) (i : Impl) : Impl := set_field mtime_ (Some mtime) i.

(** [api/upload/pre_upload/v0.cpp:90-96 Impl::BuildUrl] *)
Definition BuildUrl (query_parts : list query_part) : str * list query_part :=
  (api_path ++ B ".php", query_parts).

(** [api/upload/pre_upload/v0.cpp:80-83 Impl::GetRequestMethod] *)
Definition GetRequestMethod : RequestMethod := Post.

(** The assignments to [parts].
    [api/upload/pre_upload/v0.cpp:291-317 Impl::GetPostData] *)
Definition post_parts (i : Impl) : list query_part := make_parts
  [("resumable", AsString_Resumability <$> resumable_ i);
   ("filename", filename_ i);
   ("quick_key", quickkey_ i);
   ("hash", hash_ i);
   ("size", print_int <$> filesize_ i);
   ("upload_folder_key", upload_folder_key_ i);
   ("path", relative_path_ i);
   ("action_on_duplicate", AsString_ActionOnDuplicate <$> action_on_duplicate_ i);
   ("mtime", AsString_ptime <$> mtime_ i)].

(** [api/upload/pre_upload/v0.cpp:291-317 Impl::GetPostData] *)
Definition GetPostData (MD5 : str -> str) (a : SessionTokenApi) (i : Impl) : str :=
  MakePost MD5 a (api_path ++ B ".php") (post_parts i).

(** *** The description *)

(** [api/templates/apis/upload/v0/pre_upload.json:135-215 return_params] *)
Definition Response_described : description Response :=
  [ Optional (enum_at [("no", StorageLimit_WithinBounds); ("yes", StorageLimit_Exceeded)])
       "response.storage_limit_exceeded" Response_storage_limit_exceeded;
    Optional (number_at uint64) "response.storage_limit" Response_storage_limit;
    Optional (number_at uint64) "response.used_storage_size" Response_used_storage_size;
    Optional (enum_at [("no", KnownByCloud_Known); ("yes", KnownByCloud_Unknown)])
       "response.new_hash" Response_known_by_cloud;
    Optional string_at "response.quickkey" Response_quickkey;
    Optional string_at "response.duplicate_quickkey" Response_duplicate_quickkey;
    Optional (enum_at [("no", DuplicateName_NoPreexistingName);
       ("yes", DuplicateName_DuplicateNameExists)]) "response.duplicate_name"
       Response_duplicate_name;
    Optional string_at "response.resumable_upload.upload_key" Response_upload_key;
    Optional (enum_at [("no", UnitsReady_NotReady); ("yes", UnitsReady_AllUnitsReady)])
       "response.resumable_upload.all_units_ready" Response_all_units_ready;
    Optional (number_at uint32) "response.resumable_upload.number_of_units"
       Response_number_of_units;
    Optional (number_at uint64) "response.resumable_upload.unit_size" Response_unit_size;
    Optional (number_at uint32) "response.resumable_upload.bitmap.count" Response_bitmap_count;
    OptionalArray (number_here uint16) "response.resumable_upload.bitmap.words"
       Response_bitmap_words].

(** [api/templates/apis/upload/v0/pre_upload.json:5-17 Resumability] *)
Definition AsDescribed_Resumability (value : Resumability) : str :=
  match value with
  | Resumability_NotResumable => B "no"
  | Resumability_Resumable => B "yes"
  end.

(** [api/templates/apis/upload/v0/pre_upload.json:18-34 ActionOnDuplicate] *)
Definition AsDescribed_ActionOnDuplicate (value : ActionOnDuplicate) : str :=
  match value with
  | ActionOnDuplicate_Skip => B "skip"
  | ActionOnDuplicate_Keep => B "keep"
  | ActionOnDuplicate_Replace => B "replace"
  end.

(** [api/templates/apis/upload/v0/pre_upload.json:88-134 input_params] *)
Definition params_described (i : Impl) : list (string * option str) :=
  [("resumable", (AsDescribed_Resumability) <$> resumable_ i);
   ("filename", filename_ i);
   ("quick_key", quickkey_ i);
   ("hash", hash_ i);
   ("size", print_int <$> filesize_ i);
   ("upload_folder_key", upload_folder_key_ i);
   ("path", relative_path_ i);
   ("action_on_duplicate", (AsDescribed_ActionOnDuplicate) <$> action_on_duplicate_ i);
   ("mtime", iso_time <$> mtime_ i)].

#[global] Instance Response_parses :
  ParsesResponse ParseResponse new_Response Response_described.
Proof. parse_class. Qed.

Definition call : api_call := {|
  call_method := GetRequestMethod;
  call_uses_token := true;
  call_BuildUrl := BuildUrl;
  call_parts := post_parts;
  call_GetPostData := GetPostData;
  call_new := new_Response;
  call_ParseResponse := ParseResponse |}.

#[global] Instance call_implements :
  ImplementsCall call "/api/upload/pre_upload" true params_described Response_described.
Proof. implement_call. Qed.

End Call.
End upload_pre_upload_v0.
