(* ===== verification/ApiUser.v ===== *)
(** * The calls [user/...] ([api/user])

    One module for each class, with the description it was generated from. *)
From S2P Require Import Prelude Errors ApiRequests PropertyTree ApiResponses Endpoint EndpointSpec EndpointProofs.

Open Scope Z_scope.

(** ** [api/user/accept_tos/v1_3.cpp] *)
Module user_accept_tos_v1_3.

Section Call.
Context `{Libraries}.

(** [api/user/accept_tos/v1_3.hpp:33-36 Response] *)
Record Response := { }.
Definition new_Response : Response :=
  Build_Response.

(** [api/user/accept_tos/v1_3.cpp:74-85 Impl::ParseResponse] *)
Definition ParseResponse : ResponseBase -> Response -> ResponseBase * Response :=
  parse_response [].

(** [api/user/accept_tos/v1_3.cpp:32-32 api_path] *)
Definition api_path : str := B "/api/1.3/user/accept_tos".

(** [api/user/accept_tos/v1_3.cpp:36-57 Impl] *)
Record Impl := {
  acceptance_token_ : str }.
#[local] Instance Impl_members : Members Impl := fun v =>
  Build_Impl (acceptance_token_ v).

(** [api/user/accept_tos/v1_3.cpp:59-64 Impl::Impl] *)
Definition new_Impl (acceptance_token : str) : Impl :=
  {| acceptance_token_ := acceptance_token |}.

(** [api/user/accept_tos/v1_3.cpp:66-72 Impl::BuildUrl] *)
Definition BuildUrl (query_parts : list query_part) : str * list query_part :=
  (api_path ++ B ".php", query_parts).

(** [api/user/accept_tos/v1_3.cpp:53-56 Impl::GetRequestMethod] *)
Definition GetRequestMethod : RequestMethod := Post.

(** The assignments to [parts].
    [api/user/accept_tos/v1_3.cpp:87-96 Impl::GetPostData] *)
Definition post_parts (i : Impl) : list query_part := make_parts
  [("acceptance_token", Some (acceptance_token_ i))].

(** [api/user/accept_tos/v1_3.cpp:87-96 Impl::GetPostData] *)
Definition GetPostData (MD5 : str -> str) (a : SessionTokenApi) (i : Impl) : str :=
  MakePost MD5 a (api_path ++ B ".php") (post_parts i).

(** *** The description *)

(** [api/templates/apis/user/v1_3/accept_tos.json:1-12 return_params] *)
Definition Response_described : description Response := [].

(** [api/templates/apis/user/v1_3/accept_tos.json:4-11 input_params] *)
Definition params_described (i : Impl) : list (string * option str) :=
  [("acceptance_token", Some (acceptance_token_ i))].

#[global] Instance Response_parses :
  ParsesResponse ParseResponse new_Response Response_described.
Proof. parse_class. Qed.

Definition call : api_call := {|
  call_method := GetRequestMethod;
  call_uses_token := true;
  call_BuildUrl := BuildUrl;
  call_parts := post_parts;
  call_GetPostData := GetPostData;
  call_new := new_Response;
  call_ParseResponse := ParseResponse |}.

#[global] Instance call_implements :
  ImplementsCall call "/api/1.3/user/accept_tos" true params_described Response_described.
Proof. implement_call. Qed.

End Call.
End user_accept_tos_v1_3.

(** ** [api/user/destroy_action_token/v1_0.cpp] *)
Module user_destroy_action_token_v1_0.

Section Call.
Context `{Libraries}.

(** [api/user/destroy_action_token/v1_0.hpp:33-36 Response] *)
Record Response := { }.
Definition new_Response : Response :=
  Build_Response.

(** [api/user/destroy_action_token/v1_0.cpp:74-85 Impl::ParseResponse] *)
Definition ParseResponse : ResponseBase -> Response -> ResponseBase * Response :=
  parse_response [].

(** [api/user/destroy_action_token/v1_0.cpp:32-32 api_path] *)
Definition api_path : str := B "/api/1.0/user/destroy_action_token".

(** [api/user/destroy_action_token/v1_0.cpp:36-57 Impl] *)
Record Impl := {
  action_token_ : str }.
#[local] Instance Impl_members : Members Impl := fun v =>
  Build_Impl (action_token_ v).

(** [api/user/destroy_action_token/v1_0.cpp:59-64 Impl::Impl] *)
Definition new_Impl (action_token : str) : Impl :=
  {| action_token_ := action_token |}.

(** [api/user/destroy_action_token/v1_0.cpp:66-72 Impl::BuildUrl] *)
Definition BuildUrl (query_parts : list query_part) : str * list query_part :=
  (api_path ++ B ".php", query_parts).

(** [api/user/destroy_action_token/v1_0.cpp:53-56 Impl::GetRequestMethod] *)
Definition GetRequestMethod : RequestMethod := Post.

(** The assignments to [parts].
    [api/user/destroy_action_token/v1_0.cpp:87-96 Impl::GetPostData] *)
Definition post_parts (i : Impl) : list query_part := make_parts
  [("action_token", Some (action_token_ i))].

(** [api/user/destroy_action_token/v1_0.cpp:87-96 Impl::GetPostData] *)
Definition GetPostData (MD5 : str -> str) (a : SessionTokenApi) (i : Impl) : str :=
  MakePost MD5 a (api_path ++ B ".php") (post_parts i).

(** *** The description *)

(** [api/templates/apis/user/v1_0/destroy_action_token.json:1-11 return_params] *)
Definition Response_described : description Response := [].

(** [api/templates/apis/user/v1_0/destroy_action_token.json:4-10 input_params] *)
Definition params_described (i : Impl) : list (string * option str) :=
  [("action_token", Some (action_token_ i))].

#[global] Instance Response_parses :
  ParsesResponse ParseResponse new_Response Response_described.
Proof. parse_class. Qed.

Definition call : api_call := {|
  call_method := GetRequestMethod;
  call_uses_token := true;
  call_BuildUrl := BuildUrl;
  call_parts := post_parts;
  call_GetPostData := GetPostData;
  call_new := new_Response;
  call_ParseResponse := ParseResponse |}.

#[global] Instance call_implements :
  ImplementsCall call "/api/1.0/user/destroy_action_token" true params_described Response_described.
Proof. implement_call. Qed.

End Call.
End user_destroy_action_token_v1_0.

(** ** [api/user/destroy_action_token/v1_3.cpp] *)
Module user_destroy_action_token_v1_3.

Section Call.
Context `{Libraries}.

(** [api/user/destroy_action_token/v1_3.hpp:33-36 Response] *)
Record Response := { }.
Definition new_Response : Response :=
  Build_Response.

(** [api/user/destroy_action_token/v1_3.cpp:74-85 Impl::ParseResponse] *)
Definition ParseResponse : ResponseBase -> Response -> ResponseBase * Response :=
  parse_response [].

(** [api/user/destroy_action_token/v1_3.cpp:32-32 api_path] *)
Definition api_path : str := B "/api/1.3/user/destroy_action_token".

(** [api/user/destroy_action_token/v1_3.cpp:36-57 Impl] *)
Record Impl := {
  action_token_ : str }.
#[local] Instance Impl_members : Members Impl := fun v =>
  Build_Impl (action_token_ v).

(** [api/user/destroy_action_token/v1_3.cpp:59-64 Impl::Impl] *)
Definition new_Impl (action_token : str) : Impl :=
  {| action_token_ := action_token |}.

(** [api/user/destroy_action_token/v1_3.cpp:66-72 Impl::BuildUrl] *)
Definition BuildUrl (query_parts : list query_part) : str * list query_part :=
  (api_path ++ B ".php", query_parts).

(** [api/user/destroy_action_token/v1_3.cpp:53-56 Impl::GetRequestMethod] *)
Definition GetRequestMethod : RequestMethod := Post.

(** The assignments to [parts].
    [api/user/destroy_action_token/v1_3.cpp:87-96 Impl::GetPostData] *)
Definition post_parts (i : Impl) : list query_part := make_parts
  [("action_token", Some (action_token_ i))].

(** [api/user/destroy_action_token/v1_3.cpp:87-96 Impl::GetPostData] *)
Definition GetPostData (MD5 : str -> str) (a : SessionTokenApi) (i : Impl) : str :=
  MakePost MD5 a (api_path ++ B ".php") (post_parts i).

(** *** The description *)

(** [api/templates/apis/user/v1_3/destroy_action_token.json:1-11 return_params] *)
Definition Response_described : description Response := [].

(** [api/templates/apis/user/v1_3/destroy_action_token.json:4-10 input_params] *)
Definition params_described (i : Impl) : list (string * option str) :=
  [("action_token", Some (action_token_ i))].

#[global] Instance Response_parses :
  ParsesResponse ParseResponse new_Response Response_described.
Proof. parse_class. Qed.

Definition call : api_call := {|
  call_method := GetRequestMethod;
  call_uses_token := true;
  call_BuildUrl := BuildUrl;
  call_parts := post_parts;
  call_GetPostData := GetPostData;
  call_new := new_Response;
  call_ParseResponse := ParseResponse |}.

#[global] Instance call_implements :
  ImplementsCall call "/api/1.3/user/destroy_action_token" true params_described Response_described.
Proof. implement_call. Qed.

End Call.
End user_destroy_action_token_v1_3.

(** ** [api/user/fetch_tos/v1_3.cpp] *)
Module user_fetch_tos_v1_3.

(** [api/user/fetch_tos/v1_3.hpp:29-35 TOSAccepted] *)
Inductive TOSAccepted : Set := TOSAccepted_No | TOSAccepted_Yes.
#[global] Instance TOSAccepted_inhabited : Inhabited TOSAccepted := populate TOSAccepted_No.

Section Call.
Context `{Libraries}.

(** [api/user/fetch_tos/v1_3.hpp:47-60 Response] *)
Record Response := {
  Response_revision : str;
  Response_terms : str;
  Response_date : ptime;
  Response_user_accepted_terms : TOSAccepted;
  Response_acceptance_token : str }.
#[local] Instance Response_members : Members Response := fun v =>
  Build_Response (Response_revision v) (Response_terms v) (Response_date v)
    (Response_user_accepted_terms v) (Response_acceptance_token v).
Definition new_Response : Response :=
  {| Response_revision := []; Response_terms := []; Response_date := not_a_date;
     Response_user_accepted_terms := TOSAccepted_No; Response_acceptance_token := [] |}.

(** [api/user/fetch_tos/v1_3.cpp:68-130 Impl::ParseResponse] *)
Definition ParseResponse : ResponseBase -> Response -> ResponseBase * Response :=
  parse_response
  [ assign Response_user_accepted_terms TOSAccepted_No;
    required std_string "response.terms_of_service.revision" Response_revision;
    required std_string "response.terms_of_service.terms" Response_terms;
    required a_ptime "response.terms_of_service.date" Response_date;
    optional_enum id [("no", TOSAccepted_No); ("yes", TOSAccepted_Yes)]
       "response.terms_of_service.user_accepted_terms" Response_user_accepted_terms;
    required std_string "response.terms_of_service.acceptance_token" Response_acceptance_token].

(** [api/user/fetch_tos/v1_3.cpp:32-32 api_path] *)
Definition api_path : str := B "/api/1.3/user/fetch_tos".

(** [api/user/fetch_tos/v1_3.cpp:36-54 Impl] *)
Record Impl := { }.

(** [api/user/fetch_tos/v1_3.cpp:56-58 Impl::Impl] *)
Definition new_Impl : Impl :=
  Build_Impl.

(** [api/user/fetch_tos/v1_3.cpp:60-66 Impl::BuildUrl] *)
Definition BuildUrl (query_parts : list query_part) : str * list query_part :=
  (api_path ++ B ".php", query_parts).

(** [api/user/fetch_tos/v1_3.cpp:50-53 Impl::GetRequestMethod] *)
Definition GetRequestMethod : RequestMethod := Post.

(** The assignments to [parts].
    [api/user/fetch_tos/v1_3.cpp:132-140 Impl::GetPostData] *)
Definition post_parts (i : Impl) : list query_part := make_parts
  [].

(** [api/user/fetch_tos/v1_3.cpp:132-140 Impl::GetPostData] *)
Definition GetPostData (MD5 : str -> str) (a : SessionTokenApi) (i : Impl) : str :=
  MakePost MD5 a (api_path ++ B ".php") (post_parts i).

(** *** The description *)

(** [api/templates/apis/user/v1_3/fetch_tos.json:19-51 return_params] *)
Definition Response_described : description Response :=
  [ Required string_at "response.terms_of_service.revision" Response_revision;
    Required string_at "response.terms_of_service.terms" Response_terms;
    Required time_at "response.terms_of_service.date" Response_date;
    Default TOSAccepted_No (enum_at [("no", TOSAccepted_No); ("yes", TOSAccepted_Yes)])
       "response.terms_of_service.user_accepted_terms" Response_user_accepted_terms;
    Required string_at "response.terms_of_service.acceptance_token" Response_acceptance_token].

(** [api/templates/apis/user/v1_3/fetch_tos.json:1-52 input_params] *)
Definition params_described (i : Impl) : list (string * option str) :=
  [].

#[global] Instance Response_parses :
  ParsesResponse ParseResponse new_Response Response_described.
Proof. parse_class. Qed.

Definition call : api_call := {|
  call_method := GetRequestMethod;
  call_uses_token := true;
  call_BuildUrl := BuildUrl;
  call_parts := post_parts;
  call_GetPostData := GetPostData;
  call_new := new_Response;
  call_ParseResponse := ParseResponse |}.

#[global] Instance call_implements :
  ImplementsCall call "/api/1.3/user/fetch_tos" true params_described Response_described.
Proof. implement_call. Qed.

End Call.
End user_fetch_tos_v1_3.

(** ** [api/user/get_action_token/v1_0.cpp] *)
Module user_get_action_token_v1_0.

(** [api/user/get_action_token/v1_0.hpp:29-35 Type] *)
Inductive Type_ : Set := Type_Image | Type_Upload.
#[global] Instance Type_inhabited : Inhabited Type_ := populate Type_Image.

(** [api/user/get_action_token/v1_0.cpp:24-31 AsString] *)
Definition AsString_Type (value : Type_) : str :=
  match value with
  | Type_Image => B "image"
  | Type_Upload => B "upload"
  end.

Section Call.
Context `{Libraries}.

(** [api/user/get_action_token/v1_0.hpp:44-45 Response] *)
Record Response := {
  Response_action_token : str }.
#[local] Instance Response_members : Members Response := fun v =>
  Build_Response (Response_action_token v).
Definition new_Response : Response :=
  {| Response_action_token := [] |}.

(** [api/user/get_action_token/v1_0.cpp:86-105 Impl::ParseResponse] *)
Definition ParseResponse : ResponseBase -> Response -> ResponseBase * Response :=
  parse_response
  [ required std_string "response.action_token" Response_action_token].

(** [api/user/get_action_token/v1_0.cpp:43-43 api_path] *)
Definition api_path : str := B "/api/1.0/user/get_action_token".

(** [api/user/get_action_token/v1_0.cpp:47-69 Impl] *)
Record Impl := {
  type_ : Type_;
  lifespan_ : option Z }.
#[local] Instance Impl_members : Members Impl := fun v =>
  Build_Impl (type_ v) (lifespan_ v).

(** [api/user/get_action_token/v1_0.cpp:71-76 Impl::Impl] *)
Definition new_Impl (type : Type_) : Impl :=
  {| type_ := type; lifespan_ := None |}.

(** [api/user/get_action_token/v1_0.cpp:166-169 Request::SetLifespan] *)
Definition SetLifespan (lifespan : Z) (i : Impl) : Impl := set_field lifespan_ (Some lifespan) i.

(** [api/user/get_action_token/v1_0.cpp:78-84 Impl::BuildUrl] *)
Definition BuildUrl (query_parts : list query_part) : str * list query_part :=
  (api_path ++ B ".php", query_parts).

(** [api/user/get_action_token/v1_0.cpp:65-68 Impl::GetRequestMethod] *)
Definition GetRequestMethod : RequestMethod := Post.

(** The assignments to [parts].
    [api/user/get_action_token/v1_0.cpp:107-118 Impl::GetPostData] *)
Definition post_parts (i : Impl) : list query_part := make_parts
  [("type", Some (AsString_Type (type_ i)));
   ("lifespan", print_int <$> lifespan_ i)].

(** [api/user/get_action_token/v1_0.cpp:107-118 Impl::GetPostData] *)
Definition GetPostData (MD5 : str -> str) (a : SessionTokenApi) (i : Impl) : str :=
  MakePost MD5 a (api_path ++ B ".php") (post_parts i).

(** *** The description *)

(** [api/templates/apis/user/v1_0/get_action_token.json:35-41 return_params] *)
Definition Response_described : description Response :=
  [ Required string_at "response.action_token" Response_action_token].

(** [api/templates/apis/user/v1_0/get_action_token.json:5-17 Type] *)
Definition AsDescribed_Type (value : Type_) : str :=
  match value with
  | Type_Image => B "image"
  | Type_Upload => B "upload"
  end.

(** [api/templates/apis/user/v1_0/get_action_token.json:19-34 input_params] *)
Definition params_described (i : Impl) : list (string * option str) :=
  [("type", Some ((AsDescribed_Type) (type_ i)));
   ("lifespan", print_int <$> lifespan_ i)].

#[global] Instance Response_parses :
  ParsesResponse ParseResponse new_Response Response_described.
Proof. parse_class. Qed.

Definition call : api_call := {|
  call_method := GetRequestMethod;
  call_uses_token := true;
  call_BuildUrl := BuildUrl;
  call_parts := post_parts;
  call_GetPostData := GetPostData;
  call_new := new_Response;
  call_ParseResponse := ParseResponse |}.

#[global] Instance call_implements :
  ImplementsCall call "/api/1.0/user/get_action_token" true params_described Response_described.
Proof. implement_call. Qed.

End Call.
End user_get_action_token_v1_0.

(** ** [api/user/get_action_token/v1_3.cpp] *)
Module user_get_action_token_v1_3.

(** [api/user/get_action_token/v1_3.hpp:29-35 Type] *)
Inductive Type_ : Set := Type_Image | Type_Upload.
#[global] Instance Type_inhabited : Inhabited Type_ := populate Type_Image.

(** [api/user/get_action_token/v1_3.cpp:24-31 AsString] *)
Definition AsString_Type (value : Type_) : str :=
  match value with
  | Type_Image => B "image"
  | Type_Upload => B "upload"
  end.

Section Call.
Context `{Libraries}.

(** [api/user/get_action_token/v1_3.hpp:44-45 Response] *)
Record Response := {
  Response_action_token : str }.
#[local] Instance Response_members : Members Response := fun v =>
  Build_Response (Response_action_token v).
Definition new_Response : Response :=
  {| Response_action_token := [] |}.

(** [api/user/get_action_token/v1_3.cpp:86-105 Impl::ParseResponse] *)
Definition ParseResponse : ResponseBase -> Response -> ResponseBase * Response :=
  parse_response
  [ required std_string "response.action_token" Response_action_token].

(** [api/user/get_action_token/v1_3.cpp:43-43 api_path] *)
Definition api_path : str := B "/api/1.3/user/get_action_token".

(** [api/user/get_action_token/v1_3.cpp:47-69 Impl] *)
Record Impl := {
  type_ : Type_;
  lifespan_ : option Z }.
#[local] Instance Impl_members : Members Impl := fun v =>
  Build_Impl (type_ v) (lifespan_ v).

(** [api/user/get_action_token/v1_3.cpp:71-76 Impl::Impl] *)
Definition new_Impl (type : Type_) : Impl :=
  {| type_ := type; lifespan_ := None |}.

(** [api/user/get_action_token/v1_3.cpp:166-169 Request::SetLifespan] *)
Definition SetLifespan (lifespan : Z) (i : Impl) : Impl := set_field lifespan_ (Some lifespan) i.

(** [api/user/get_action_token/v1_3.cpp:78-84 Impl::BuildUrl] *)
Definition BuildUrl (query_parts : list query_part) : str * list query_part :=
  (api_path ++ B ".php", query_parts).

(** [api/user/get_action_token/v1_3.cpp:65-68 Impl::GetRequestMethod] *)
Definition GetRequestMethod : RequestMethod := Post.

(** The assignments to [parts].
    [api/user/get_action_token/v1_3.cpp:107-118 Impl::GetPostData] *)
Definition post_parts (i : Impl) : list query_part := make_parts
  [("type", Some (AsString_Type (type_ i)));
   ("lifespan", print_int <$> lifespan_ i)].

(** [api/user/get_action_token/v1_3.cpp:107-118 Impl::GetPostData] *)
Definition GetPostData (MD5 : str -> str) (a : SessionTokenApi) (i : Impl) : str :=
  MakePost MD5 a (api_path ++ B ".php") (post_parts i).

(** *** The description *)

(** [api/templates/apis/user/v1_3/get_action_token.json:35-41 return_params] *)
Definition Response_described : description Response :=
  [ Required string_at "response.action_token" Response_action_token].

(** [api/templates/apis/user/v1_3/get_action_token.json:5-17 Type] *)
Definition AsDescribed_Type (value : Type_) : str :=
  match value with
  | Type_Image => B "image"
  | Type_Upload => B "upload"
  end.

(** [api/templates/apis/user/v1_3/get_action_token.json:19-34 input_params] *)
Definition params_described (i : Impl) : list (string * option str) :=
  [("type", Some ((AsDescribed_Type) (type_ i)));
   ("lifespan", print_int <$> lifespan_ i)].

#[global] Instance Response_parses :
  ParsesResponse ParseResponse new_Response Response_described.
Proof. parse_class. Qed.

Definition call : api_call := {|
  call_method := GetRequestMethod;
  call_uses_token := true;
  call_BuildUrl := BuildUrl;
  call_parts := post_parts;
  call_GetPostData := GetPostData;
  call_new := new_Response;
  call_ParseResponse := ParseResponse |}.

#[global] Instance call_implements :
  ImplementsCall call "/api/1.3/user/get_action_token" true params_described Response_described.
Proof. implement_call. Qed.

End Call.
End user_get_action_token_v1_3.

(** ** [api/user/get_avatar/v1_3.cpp] *)
Module user_get_avatar_v1_3.

Section Call.
Context `{Libraries}.

(** [api/user/get_avatar/v1_3.hpp:36-37 Response] *)
Record Response := {
  Response_avatar_url : str }.
#[local] Instance Response_members : Members Response := fun v =>
  Build_Response (Response_avatar_url v).
Definition new_Response : Response :=
  {| Response_avatar_url := [] |}.

(** [api/user/get_avatar/v1_3.cpp:68-87 Impl::ParseResponse] *)
Definition ParseResponse : ResponseBase -> Response -> ResponseBase * Response :=
  parse_response
  [ required std_string "response.avatar" Response_avatar_url].

(** [api/user/get_avatar/v1_3.cpp:32-32 api_path] *)
Definition api_path : str := B "/api/1.3/user/get_avatar".

(** [api/user/get_avatar/v1_3.cpp:36-54 Impl] *)
Record Impl := { }.

(** [api/user/get_avatar/v1_3.cpp:56-58 Impl::Impl] *)
Definition new_Impl : Impl :=
  Build_Impl.

(** [api/user/get_avatar/v1_3.cpp:60-66 Impl::BuildUrl] *)
Definition BuildUrl (query_parts : list query_part) : str * list query_part :=
  (api_path ++ B ".php", query_parts).

(** [api/user/get_avatar/v1_3.cpp:50-53 Impl::GetRequestMethod] *)
Definition GetRequestMethod : RequestMethod := Post.

(** The assignments to [parts].
    [api/user/get_avatar/v1_3.cpp:89-97 Impl::GetPostData] *)
Definition post_parts (i : Impl) : list query_part := make_parts
  [].

(** [api/user/get_avatar/v1_3.cpp:89-97 Impl::GetPostData] *)
Definition GetPostData (MD5 : str -> str) (a : SessionTokenApi) (i : Impl) : str :=
  MakePost MD5 a (api_path ++ B ".php") (post_parts i).

(** *** The description *)

(** [api/templates/apis/user/v1_3/get_avatar.json:4-11 return_params] *)
Definition Response_described : description Response :=
  [ Required string_at "response.avatar" Response_avatar_url].

(** [api/templates/apis/user/v1_3/get_avatar.json:1-12 input_params] *)
Definition params_described (i : Impl) : list (string * option str) :=
  [].

#[global] Instance Response_parses :
  ParsesResponse ParseResponse new_Response Response_described.
Proof. parse_class. Qed.

Definition call : api_call := {|
  call_method := GetRequestMethod;
  call_uses_token := true;
  call_BuildUrl := BuildUrl;
  call_parts := post_parts;
  call_GetPostData := GetPostData;
  call_new := new_Response;
  call_ParseResponse := ParseResponse |}.

#[global] Instance call_implements :
  ImplementsCall call "/api/1.3/user/get_avatar" true params_described Response_described.
Proof. implement_call. Qed.

End Call.
End user_get_avatar_v1_3.

(** ** [api/user/get_info/v0.cpp] *)
Module user_get_info_v0.

(** [api/user/get_info/v0.hpp:29-37 Gender] *)
Inductive Gender : Set := Gender_Unknown | Gender_Male | Gender_Female.
#[global] Instance Gender_inhabited : Inhabited Gender := populate Gender_Unknown.

(** [api/user/get_info/v0.hpp:39-45 AccountType] *)
Inductive AccountType : Set := AccountType_Basic | AccountType_Premium.
#[global] Instance AccountType_inhabited : Inhabited AccountType := populate AccountType_Basic.

(** [api/user/get_info/v0.hpp:47-53 Validated] *)
Inductive Validated : Set := Validated_NotValidated | Validated_Validated.
#[global] Instance Validated_inhabited : Inhabited Validated := populate Validated_NotValidated.

(** [api/user/get_info/v0.hpp:55-61 LimitExceeded] *)
Inductive LimitExceeded : Set := LimitExceeded_WithinBounds | LimitExceeded_Exceeded.
#[global] Instance LimitExceeded_inhabited : Inhabited LimitExceeded :=
  populate LimitExceeded_WithinBounds.

(** [api/user/get_info/v0.hpp:63-69 FacebookLinked] *)
Inductive FacebookLinked : Set := FacebookLinked_Unlinked | FacebookLinked_Linked.
#[global] Instance FacebookLinked_inhabited : Inhabited FacebookLinked :=
  populate FacebookLinked_Unlinked.

(** [api/user/get_info/v0.hpp:71-77 TwitterLinked] *)
Inductive TwitterLinked : Set := TwitterLinked_Unlinked | TwitterLinked_Linked.
#[global] Instance TwitterLinked_inhabited : Inhabited TwitterLinked :=
  populate TwitterLinked_Unlinked.

Section Call.
Context `{Libraries}.

(** [api/user/get_info/v0.hpp:93-208 Response] *)
Record Response := {
  Response_ekey : str;
  Response_email : str;
  Response_first_name : str;
  Response_last_name : str;
  Response_display_name : str;
  Response_gender : Gender;
  Response_birth_date : ptime;
  Response_location : option str;
  Response_website : option str;
  Response_account_type : AccountType;
  Response_bandwidth : Z;
  Response_created_datetime : ptime;
  Response_validated : Validated;
  Response_max_upload_size : Z;
  Response_max_instant_upload_size : Z;
  Response_tos_accepted : option str;
  Response_used_storage_size : Z;
  Response_base_storage : Z;
  Response_bonus_storage : Z;
  Response_storage_limit : Z;
  Response_storage_limit_exceeded : LimitExceeded;
  Response_options : Z;
  Response_facebook_id : option str;
  Response_facebook_date_created : option str;
  Response_facebook_url : option str;
  Response_facebook_name : option str;
  Response_facebook_firstname : option str;
  Response_facebook_lastname : option str;
  Response_facebook_hometown : option str;
  Response_facebook_location : option str;
  Response_facebook_i18n : option str;
  Response_facebook_timezone : option Z;
  Response_facebook_linked : option FacebookLinked;
  Response_twitter_id : option str;
  Response_twitter_date_created : option str;
  Response_twitter_screen_name : option str;
  Response_twitter_name : option str;
  Response_twitter_i18n : option str;
  Response_twitter_linked : option TwitterLinked }.
#[local] Instance Response_members : Members Response := fun v =>
  Build_Response (Response_ekey v) (Response_email v) (Response_first_name v)
    (Response_last_name v) (Response_display_name v) (Response_gender v) (Response_birth_date v)
    (Response_location v) (Response_website v) (Response_account_type v) (Response_bandwidth v)
    (Response_created_datetime v) (Response_validated v) (Response_max_upload_size v)
    (Response_max_instant_upload_size v) (Response_tos_accepted v) (Response_used_storage_size v)
    (Response_base_storage v) (Response_bonus_storage v) (Response_storage_limit v)
    (Response_storage_limit_exceeded v) (Response_options v) (Response_facebook_id v)
    (Response_facebook_date_created v) (Response_facebook_url v) (Response_facebook_name v)
    (Response_facebook_firstname v) (Response_facebook_lastname v) (Response_facebook_hometown v)
    (Response_facebook_location v) (Response_facebook_i18n v) (Response_facebook_timezone v)
    (Response_facebook_linked v) (Response_twitter_id v) (Response_twitter_date_created v)
    (Response_twitter_screen_name v) (Response_twitter_name v) (Response_twitter_i18n v)
    (Response_twitter_linked v).
Definition new_Response : Response :=
  {| Response_ekey := []; Response_email := []; Response_first_name := [];
     Response_last_name := []; Response_display_name := []; Response_gender := Gender_Unknown;
     Response_birth_date := not_a_date; Response_location := None; Response_website := None;
     Response_account_type := indeterminate AccountType _;
     Response_bandwidth := indeterminate Z _; Response_created_datetime := not_a_date;
     Response_validated := indeterminate Validated _;
     Response_max_upload_size := indeterminate Z _;
     Response_max_instant_upload_size := indeterminate Z _; Response_tos_accepted := None;
     Response_used_storage_size := indeterminate Z _; Response_base_storage := indeterminate Z _;
     Response_bonus_storage := indeterminate Z _; Response_storage_limit := indeterminate Z _;
     Response_storage_limit_exceeded := indeterminate LimitExceeded _;
     Response_options := indeterminate Z _; Response_facebook_id := None;
     Response_facebook_date_created := None; Response_facebook_url := None;
     Response_facebook_name := None; Response_facebook_firstname := None;
     Response_facebook_lastname := None; Response_facebook_hometown := None;
     Response_facebook_location := None; Response_facebook_i18n := None;
     Response_facebook_timezone := None; Response_facebook_linked := None;
     Response_twitter_id := None; Response_twitter_date_created := None;
     Response_twitter_screen_name := None; Response_twitter_name := None;
     Response_twitter_i18n := None; Response_twitter_linked := None |}.

(** [api/user/get_info/v0.cpp:68-538 Impl::ParseResponse] *)
Definition ParseResponse : ResponseBase -> Response -> ResponseBase * Response :=
  parse_response
  [ assign Response_first_name [];
    assign Response_last_name [];
    assign Response_gender Gender_Unknown;
    assign Response_birth_date not_a_date;
    assign Response_created_datetime not_a_date;
    required std_string "response.user_info.ekey" Response_ekey;
    required std_string "response.user_info.email" Response_email;
    with_default std_string "response.user_info.first_name" Response_first_name;
    with_default std_string "response.user_info.last_name" Response_last_name;
    required std_string "response.user_info.display_name" Response_display_name;
    optional_enum id [("unknown", Gender_Unknown); ("male", Gender_Male);
       ("female", Gender_Female)] "response.user_info.gender" Response_gender;
    with_default a_ptime "response.user_info.birth_date" Response_birth_date;
    optional std_string "response.user_info.location" Response_location;
    optional std_string "response.user_info.website" Response_website;
    required_enum [("No", AccountType_Basic); ("Yes", AccountType_Premium)]
       "response.user_info.premium" Response_account_type;
    required (an int64) "response.user_info.bandwidth" Response_bandwidth;
    with_default a_ptime "response.user_info.created" Response_created_datetime;
    required_enum [("No", Validated_NotValidated); ("Yes", Validated_Validated)]
       "response.user_info.validated" Response_validated;
    required (an uint64) "response.user_info.max_upload_size" Response_max_upload_size;
    required (an uint64) "response.user_info.max_instant_upload_size"
       Response_max_instant_upload_size;
    optional std_string "response.user_info.tos_accepted" Response_tos_accepted;
    required (an uint64) "response.user_info.used_storage_size" Response_used_storage_size;
    required (an uint64) "response.user_info.base_storage" Response_base_storage;
    required (an uint64) "response.user_info.bonus_storage" Response_bonus_storage;
    required (an uint64) "response.user_info.storage_limit" Response_storage_limit;
    required_enum [("no", LimitExceeded_WithinBounds); ("yes", LimitExceeded_Exceeded)]
       "response.user_info.storage_limit_exceeded" Response_storage_limit_exceeded;
    required (an uint32) "response.user_info.options" Response_options;
    optional std_string "response.user_info.facebook.facebook_id" Response_facebook_id;
    optional std_string "response.user_info.facebook.date_created" Response_facebook_date_created;
    optional std_string "response.user_info.facebook.facebook_url" Response_facebook_url;
    optional std_string "response.user_info.facebook.name" Response_facebook_name;
    optional std_string "response.user_info.facebook.firstname" Response_facebook_firstname;
    optional std_string "response.user_info.facebook.lastname" Response_facebook_lastname;
    optional std_string "response.user_info.facebook.hometown" Response_facebook_hometown;
    optional std_string "response.user_info.facebook.location" Response_facebook_location;
    optional std_string "response.user_info.facebook.i18n" Response_facebook_i18n;
    optional (an int32) "response.user_info.facebook.timezone" Response_facebook_timezone;
    optional_enum Some [("no", FacebookLinked_Unlinked); ("yes", FacebookLinked_Linked)]
       "response.user_info.facebook.linked" Response_facebook_linked;
    optional std_string "response.user_info.twitter.twitter_id" Response_twitter_id;
    optional std_string "response.user_info.twitter.date_created" Response_twitter_date_created;
    optional std_string "response.user_info.twitter.screen_name" Response_twitter_screen_name;
    optional std_string "response.user_info.twitter.name" Response_twitter_name;
    optional std_string "response.user_info.twitter.i18n" Response_twitter_i18n;
    optional_enum Some [("no", TwitterLinked_Unlinked); ("yes", TwitterLinked_Linked)]
       "response.user_info.twitter.linked" Response_twitter_linked].

(** [api/user/get_info/v0.cpp:32-32 api_path] *)
Definition api_path : str := B "/api/user/get_info".

(** [api/user/get_info/v0.cpp:36-54 Impl] *)
Record Impl := { }.

(** [api/user/get_info/v0.cpp:56-58 Impl::Impl] *)
Definition new_Impl : Impl :=
  Build_Impl.

(** [api/user/get_info/v0.cpp:60-66 Impl::BuildUrl] *)
Definition BuildUrl (query_parts : list query_part) : str * list query_part :=
  (api_path ++ B ".php", query_parts).

(** [api/user/get_info/v0.cpp:50-53 Impl::GetRequestMethod] *)
Definition GetRequestMethod : RequestMethod := Post.

(** The assignments to [parts].
    [api/user/get_info/v0.cpp:540-548 Impl::GetPostData] *)
Definition post_parts (i : Impl) : list query_part := make_parts
  [].

(** [api/user/get_info/v0.cpp:540-548 Impl::GetPostData] *)
Definition GetPostData (MD5 : str -> str) (a : SessionTokenApi) (i : Impl) : str :=
  MakePost MD5 a (api_path ++ B ".php") (post_parts i).

(** *** The description *)

(** [api/templates/apis/user/v0/get_info.json:88-309 return_params] *)
Definition Response_described : description Response :=
  [ Required string_at "response.user_info.ekey" Response_ekey;
    Required string_at "response.user_info.email" Response_email;
    Default [] string_at "response.user_info.first_name" Response_first_name;
    Default [] string_at "response.user_info.last_name" Response_last_name;
    Required string_at "response.user_info.display_name" Response_display_name;
    Default Gender_Unknown (enum_at [("unknown", Gender_Unknown); ("male", Gender_Male);
       ("female", Gender_Female)]) "response.user_info.gender" Response_gender;
    Default not_a_date time_at "response.user_info.birth_date" Response_birth_date;
    Optional string_at "response.user_info.location" Response_location;
    Optional string_at "response.user_info.website" Response_website;
    Required (enum_at [("No", AccountType_Basic); ("Yes", AccountType_Premium)])
       "response.user_info.premium" Response_account_type;
    Required (number_at int64) "response.user_info.bandwidth" Response_bandwidth;
    Default not_a_date time_at "response.user_info.created" Response_created_datetime;
    Required (enum_at [("No", Validated_NotValidated); ("Yes", Validated_Validated)])
       "response.user_info.validated" Response_validated;
    Required (number_at uint64) "response.user_info.max_upload_size" Response_max_upload_size;
    Required (number_at uint64) "response.user_info.max_instant_upload_size"
       Response_max_instant_upload_size;
    Optional string_at "response.user_info.tos_accepted" Response_tos_accepted;
    Required (number_at uint64) "response.user_info.used_storage_size" Response_used_storage_size;
    Required (number_at uint64) "response.user_info.base_storage" Response_base_storage;
    Required (number_at uint64) "response.user_info.bonus_storage" Response_bonus_storage;
    Required (number_at uint64) "response.user_info.storage_limit" Response_storage_limit;
    Required (enum_at [("no", LimitExceeded_WithinBounds); ("yes", LimitExceeded_Exceeded)])
       "response.user_info.storage_limit_exceeded" Response_storage_limit_exceeded;
    Required (number_at uint32) "response.user_info.options" Response_options;
    Optional string_at "response.user_info.facebook.facebook_id" Response_facebook_id;
    Optional string_at "response.user_info.facebook.date_created" Response_facebook_date_created;
    Optional string_at "response.user_info.facebook.facebook_url" Response_facebook_url;
    Optional string_at "response.user_info.facebook.name" Response_facebook_name;
    Optional string_at "response.user_info.facebook.firstname" Response_facebook_firstname;
    Optional string_at "response.user_info.facebook.lastname" Response_facebook_lastname;
    Optional string_at "response.user_info.facebook.hometown" Response_facebook_hometown;
    Optional string_at "response.user_info.facebook.location" Response_facebook_location;
    Optional string_at "response.user_info.facebook.i18n" Response_facebook_i18n;
    Optional (number_at int32) "response.user_info.facebook.timezone" Response_facebook_timezone;
    Optional (enum_at [("no", FacebookLinked_Unlinked); ("yes", FacebookLinked_Linked)])
       "response.user_info.facebook.linked" Response_facebook_linked;
    Optional string_at "response.user_info.twitter.twitter_id" Response_twitter_id;
    Optional string_at "response.user_info.twitter.date_created" Response_twitter_date_created;
    Optional string_at "response.user_info.twitter.screen_name" Response_twitter_screen_name;
    Optional string_at "response.user_info.twitter.name" Response_twitter_name;
    Optional string_at "response.user_info.twitter.i18n" Response_twitter_i18n;
    Optional (enum_at [("no", TwitterLinked_Unlinked); ("yes", TwitterLinked_Linked)])
       "response.user_info.twitter.linked" Response_twitter_linked].

(** [api/templates/apis/user/v0/get_info.json:1-310 input_params] *)
Definition params_described (i : Impl) : list (string * option str) :=
  [].

#[global] Instance Response_parses :
  ParsesResponse ParseResponse new_Response Response_described.
Proof. parse_class. Qed.

Definition call : api_call := {|
  call_method := GetRequestMethod;
  call_uses_token := true;
  call_BuildUrl := BuildUrl;
  call_parts := post_parts;
  call_GetPostData := GetPostData;
  call_new := new_Response;
  call_ParseResponse := ParseResponse |}.

#[global] Instance call_implements :
  ImplementsCall call "/api/user/get_info" true params_described Response_described.
Proof. implement_call. Qed.

End Call.
End user_get_info_v0.

(** ** [api/user/get_info/v1_3.cpp] *)
Module user_get_info_v1_3.

(** [api/user/get_info/v1_3.hpp:29-37 Gender] *)
Inductive Gender : Set := Gender_Unknown | Gender_Male | Gender_Female.
#[global] Instance Gender_inhabited : Inhabited Gender := populate Gender_Unknown.

(** [api/user/get_info/v1_3.hpp:39-45 AccountType] *)
Inductive AccountType : Set := AccountType_Basic | AccountType_Premium.
#[global] Instance AccountType_inhabited : Inhabited AccountType := populate AccountType_Basic.

(** [api/user/get_info/v1_3.hpp:47-53 Validated] *)
Inductive Validated : Set := Validated_NotValidated | Validated_Validated.
#[global] Instance Validated_inhabited : Inhabited Validated := populate Validated_NotValidated.

(** [api/user/get_info/v1_3.hpp:55-61 LimitExceeded] *)
Inductive LimitExceeded : Set := LimitExceeded_WithinBounds | LimitExceeded_Exceeded.
#[global] Instance LimitExceeded_inhabited : Inhabited LimitExceeded :=
  populate LimitExceeded_WithinBounds.

(** [api/user/get_info/v1_3.hpp:63-69 Linked] *)
Inductive Linked : Set := Linked_No | Linked_Yes.
#[global] Instance Linked_inhabited : Inhabited Linked := populate Linked_No.

Section Call.
Context `{Libraries}.

(** [api/user/get_info/v1_3.hpp:85-119 Facebook] *)
Record Facebook := {
  Facebook_id : option str;
  Facebook_date_created : option str;
  Facebook_url : option str;
  Facebook_name : option str;
  Facebook_firstname : option str;
  Facebook_lastname : option str;
  Facebook_hometown : option str;
  Facebook_location : option str;
  Facebook_i18n : option str;
  Facebook_timezone : option Z;
  Facebook_linked : option Linked }.
#[local] Instance Facebook_members : Members Facebook := fun v =>
  Build_Facebook (Facebook_id v) (Facebook_date_created v) (Facebook_url v) (Facebook_name v)
    (Facebook_firstname v) (Facebook_lastname v) (Facebook_hometown v) (Facebook_location v)
    (Facebook_i18n v) (Facebook_timezone v) (Facebook_linked v).
Definition new_Facebook : Facebook :=
  {| Facebook_id := None; Facebook_date_created := None; Facebook_url := None;
     Facebook_name := None; Facebook_firstname := None; Facebook_lastname := None;
     Facebook_hometown := None; Facebook_location := None; Facebook_i18n := None;
     Facebook_timezone := None; Facebook_linked := None |}.

(** [api/user/get_info/v1_3.hpp:120-139 Twitter] *)
Record Twitter := {
  Twitter_id : option str;
  Twitter_date_created : option str;
  Twitter_screen_name : option str;
  Twitter_name : option str;
  Twitter_i18n : option str;
  Twitter_linked : option Linked }.
#[local] Instance Twitter_members : Members Twitter := fun v =>
  Build_Twitter (Twitter_id v) (Twitter_date_created v) (Twitter_screen_name v) (Twitter_name v)
    (Twitter_i18n v) (Twitter_linked v).
Definition new_Twitter : Twitter :=
  {| Twitter_id := None; Twitter_date_created := None; Twitter_screen_name := None;
     Twitter_name := None; Twitter_i18n := None; Twitter_linked := None |}.

(** [api/user/get_info/v1_3.hpp:140-171 Gmail] *)
Record Gmail := {
  Gmail_id : option str;
  Gmail_created : option ptime;
  Gmail_email : option str;
  Gmail_url : option str;
  Gmail_name : option str;
  Gmail_first_name : option str;
  Gmail_last_name : option str;
  Gmail_i18n : option str;
  Gmail_synced : option ptime;
  Gmail_linked : option Linked }.
#[local] Instance Gmail_members : Members Gmail := fun v =>
  Build_Gmail (Gmail_id v) (Gmail_created v) (Gmail_email v) (Gmail_url v) (Gmail_name v)
    (Gmail_first_name v) (Gmail_last_name v) (Gmail_i18n v) (Gmail_synced v) (Gmail_linked v).
Definition new_Gmail : Gmail :=
  {| Gmail_id := None; Gmail_created := None; Gmail_email := None; Gmail_url := None;
     Gmail_name := None; Gmail_first_name := None; Gmail_last_name := None; Gmail_i18n := None;
     Gmail_synced := None; Gmail_linked := None |}.

(** [api/user/get_info/v1_3.cpp:28-183 FacebookFromPropertyBranch] *)
Definition FacebookFromPropertyBranch : branch_parser Facebook := FromPropertyBranch
  [ optional std_string "facebook_id" Facebook_id;
    optional std_string "date_created" Facebook_date_created;
    optional std_string "facebook_url" Facebook_url;
    optional std_string "name" Facebook_name;
    optional std_string "firstname" Facebook_firstname;
    optional std_string "lastname" Facebook_lastname;
    optional std_string "hometown" Facebook_hometown;
    optional std_string "location" Facebook_location;
    optional std_string "i18n" Facebook_i18n;
    optional (an int32) "timezone" Facebook_timezone;
    optional_enum Some [("no", Linked_No); ("yes", Linked_Yes)] "linked" Facebook_linked].

(** [api/user/get_info/v1_3.cpp:186-281 TwitterFromPropertyBranch] *)
Definition TwitterFromPropertyBranch : branch_parser Twitter := FromPropertyBranch
  [ optional std_string "twitter_id" Twitter_id;
    optional std_string "date_created" Twitter_date_created;
    optional std_string "screen_name" Twitter_screen_name;
    optional std_string "name" Twitter_name;
    optional std_string "i18n" Twitter_i18n;
    optional_enum Some [("no", Linked_No); ("yes", Linked_Yes)] "linked" Twitter_linked].

(** [api/user/get_info/v1_3.cpp:284-427 GmailFromPropertyBranch] *)
Definition GmailFromPropertyBranch : branch_parser Gmail := FromPropertyBranch
  [ optional std_string "gmail_id" Gmail_id;
    optional a_ptime "created" Gmail_created;
    optional std_string "email" Gmail_email;
    optional std_string "gmail_url" Gmail_url;
    optional std_string "name" Gmail_name;
    optional std_string "firstname" Gmail_first_name;
    optional std_string "lastname" Gmail_last_name;
    optional std_string "i18n" Gmail_i18n;
    optional a_ptime "synced" Gmail_synced;
    optional_enum Some [("no", Linked_No); ("yes", Linked_Yes)] "linked" Gmail_linked].

(** [api/user/get_info/v1_3.hpp:172-239 Response] *)
Record Response := {
  Response_ekey : str;
  Response_email : str;
  Response_first_name : str;
  Response_last_name : str;
  Response_display_name : str;
  Response_gender : Gender;
  Response_birth_date : ptime;
  Response_location : option str;
  Response_website : option str;
  Response_account_type : AccountType;
  Response_bandwidth : Z;
  Response_created_datetime : ptime;
  Response_validated : Validated;
  Response_tos_accepted : option str;
  Response_used_storage_size : Z;
  Response_base_storage : Z;
  Response_bonus_storage : Z;
  Response_storage_limit : Z;
  Response_storage_limit_exceeded : LimitExceeded;
  Response_options : Z;
  Response_facebook : option Facebook;
  Response_twitter : option Twitter;
  Response_gmail : option Gmail }.
#[local] Instance Response_members : Members Response := fun v =>
  Build_Response (Response_ekey v) (Response_email v) (Response_first_name v)
    (Response_last_name v) (Response_display_name v) (Response_gender v) (Response_birth_date v)
    (Response_location v) (Response_website v) (Response_account_type v) (Response_bandwidth v)
    (Response_created_datetime v) (Response_validated v) (Response_tos_accepted v)
    (Response_used_storage_size v) (Response_base_storage v) (Response_bonus_storage v)
    (Response_storage_limit v) (Response_storage_limit_exceeded v) (Response_options v)
    (Response_facebook v) (Response_twitter v) (Response_gmail v).
Definition new_Response : Response :=
  {| Response_ekey := []; Response_email := []; Response_first_name := [];
     Response_last_name := []; Response_display_name := []; Response_gender := Gender_Unknown;
     Response_birth_date := not_a_date; Response_location := None; Response_website := None;
     Response_account_type := indeterminate AccountType _;
     Response_bandwidth := indeterminate Z _; Response_created_datetime := not_a_date;
     Response_validated := indeterminate Validated _; Response_tos_accepted := None;
     Response_used_storage_size := indeterminate Z _; Response_base_storage := indeterminate Z _;
     Response_bonus_storage := indeterminate Z _; Response_storage_limit := indeterminate Z _;
     Response_storage_limit_exceeded := indeterminate LimitExceeded _;
     Response_options := indeterminate Z _; Response_facebook := None; Response_twitter := None;
     Response_gmail := None |}.

(** [api/user/get_info/v1_3.cpp:473-766 Impl::ParseResponse] *)
Definition ParseResponse : ResponseBase -> Response -> ResponseBase * Response :=
  parse_response
  [ assign Response_first_name [];
    assign Response_last_name [];
    assign Response_gender Gender_Unknown;
    assign Response_birth_date not_a_date;
    assign Response_created_datetime not_a_date;
    required std_string "response.user_info.ekey" Response_ekey;
    required std_string "response.user_info.email" Response_email;
    with_default std_string "response.user_info.first_name" Response_first_name;
    with_default std_string "response.user_info.last_name" Response_last_name;
    required std_string "response.user_info.display_name" Response_display_name;
    optional_enum id [("unknown", Gender_Unknown); ("male", Gender_Male);
       ("female", Gender_Female)] "response.user_info.gender" Response_gender;
    with_default a_ptime "response.user_info.birth_date" Response_birth_date;
    optional std_string "response.user_info.location" Response_location;
    optional std_string "response.user_info.website" Response_website;
    required_enum [("no", AccountType_Basic); ("yes", AccountType_Premium)]
       "response.user_info.premium" Response_account_type;
    required (an int64) "response.user_info.bandwidth" Response_bandwidth;
    with_default a_ptime "response.user_info.created" Response_created_datetime;
    required_enum [("no", Validated_NotValidated); ("yes", Validated_Validated)]
       "response.user_info.validated" Response_validated;
    optional std_string "response.user_info.tos_accepted" Response_tos_accepted;
    required (an uint64) "response.user_info.used_storage_size" Response_used_storage_size;
    required (an uint64) "response.user_info.base_storage" Response_base_storage;
    required (an uint64) "response.user_info.bonus_storage" Response_bonus_storage;
    required (an uint64) "response.user_info.storage_limit" Response_storage_limit;
    required_enum [("no", LimitExceeded_WithinBounds); ("yes", LimitExceeded_Exceeded)]
       "response.user_info.storage_limit_exceeded" Response_storage_limit_exceeded;
    required (an uint32) "response.user_info.options" Response_options;
    optional_struct FacebookFromPropertyBranch new_Facebook "response.user_info.facebook"
       Response_facebook;
    optional_struct TwitterFromPropertyBranch new_Twitter "response.user_info.twitter"
       Response_twitter;
    optional_struct GmailFromPropertyBranch new_Gmail "response.user_info.gmail" Response_gmail].

(** [api/user/get_info/v1_3.cpp:437-437 api_path] *)
Definition api_path : str := B "/api/1.3/user/get_info".

(** [api/user/get_info/v1_3.cpp:441-459 Impl] *)
Record Impl := { }.

(** [api/user/get_info/v1_3.cpp:461-463 Impl::Impl] *)
Definition new_Impl : Impl :=
  Build_Impl.

(** [api/user/get_info/v1_3.cpp:465-471 Impl::BuildUrl] *)
Definition BuildUrl (query_parts : list query_part) : str * list query_part :=
  (api_path ++ B ".php", query_parts).

(** [api/user/get_info/v1_3.cpp:455-458 Impl::GetRequestMethod] *)
Definition GetRequestMethod : RequestMethod := Post.

(** The assignments to [parts].
    [api/user/get_info/v1_3.cpp:768-776 Impl::GetPostData] *)
Definition post_parts (i : Impl) : list query_part := make_parts
  [].

(** [api/user/get_info/v1_3.cpp:768-776 Impl::GetPostData] *)
Definition GetPostData (MD5 : str -> str) (a : SessionTokenApi) (i : Impl) : str :=
  MakePost MD5 a (api_path ++ B ".php") (post_parts i).

(** *** The description *)

(** [api/templates/apis/user/v1_3/get_info.json:76-146 Facebook] *)
Definition Facebook_described : description Facebook :=
  [ Optional string_at "facebook_id" Facebook_id;
    Optional string_at "date_created" Facebook_date_created;
    Optional string_at "facebook_url" Facebook_url;
    Optional string_at "name" Facebook_name;
    Optional string_at "firstname" Facebook_firstname;
    Optional string_at "lastname" Facebook_lastname;
    Optional string_at "hometown" Facebook_hometown;
    Optional string_at "location" Facebook_location;
    Optional string_at "i18n" Facebook_i18n;
    Optional (number_at int32) "timezone" Facebook_timezone;
    Optional (enum_at [("no", Linked_No); ("yes", Linked_Yes)]) "linked" Facebook_linked].

(** [api/templates/apis/user/v1_3/get_info.json:147-187 Twitter] *)
Definition Twitter_described : description Twitter :=
  [ Optional string_at "twitter_id" Twitter_id;
    Optional string_at "date_created" Twitter_date_created;
    Optional string_at "screen_name" Twitter_screen_name;
    Optional string_at "name" Twitter_name;
    Optional string_at "i18n" Twitter_i18n;
    Optional (enum_at [("no", Linked_No); ("yes", Linked_Yes)]) "linked" Twitter_linked].

(** [api/templates/apis/user/v1_3/get_info.json:188-252 Gmail] *)
Definition Gmail_described : description Gmail :=
  [ Optional string_at "gmail_id" Gmail_id;
    Optional time_at "created" Gmail_created;
    Optional string_at "email" Gmail_email;
    Optional string_at "gmail_url" Gmail_url;
    Optional string_at "name" Gmail_name;
    Optional string_at "firstname" Gmail_first_name;
    Optional string_at "lastname" Gmail_last_name;
    Optional string_at "i18n" Gmail_i18n;
    Optional time_at "synced" Gmail_synced;
    Optional (enum_at [("no", Linked_No); ("yes", Linked_Yes)]) "linked" Gmail_linked].

(** [api/templates/apis/user/v1_3/get_info.json:254-381 return_params] *)
Definition Response_described : description Response :=
  [ Required string_at "response.user_info.ekey" Response_ekey;
    Required string_at "response.user_info.email" Response_email;
    Default [] string_at "response.user_info.first_name" Response_first_name;
    Default [] string_at "response.user_info.last_name" Response_last_name;
    Required string_at "response.user_info.display_name" Response_display_name;
    Default Gender_Unknown (enum_at [("unknown", Gender_Unknown); ("male", Gender_Male);
       ("female", Gender_Female)]) "response.user_info.gender" Response_gender;
    Default not_a_date time_at "response.user_info.birth_date" Response_birth_date;
    Optional string_at "response.user_info.location" Response_location;
    Optional string_at "response.user_info.website" Response_website;
    Required (enum_at [("no", AccountType_Basic); ("yes", AccountType_Premium)])
       "response.user_info.premium" Response_account_type;
    Required (number_at int64) "response.user_info.bandwidth" Response_bandwidth;
    Default not_a_date time_at "response.user_info.created" Response_created_datetime;
    Required (enum_at [("no", Validated_NotValidated); ("yes", Validated_Validated)])
       "response.user_info.validated" Response_validated;
    Optional string_at "response.user_info.tos_accepted" Response_tos_accepted;
    Required (number_at uint64) "response.user_info.used_storage_size" Response_used_storage_size;
    Required (number_at uint64) "response.user_info.base_storage" Response_base_storage;
    Required (number_at uint64) "response.user_info.bonus_storage" Response_bonus_storage;
    Required (number_at uint64) "response.user_info.storage_limit" Response_storage_limit;
    Required (enum_at [("no", LimitExceeded_WithinBounds); ("yes", LimitExceeded_Exceeded)])
       "response.user_info.storage_limit_exceeded" Response_storage_limit_exceeded;
    Required (number_at uint32) "response.user_info.options" Response_options;
    OptionalStruct Facebook_described "response.user_info.facebook" Response_facebook;
    OptionalStruct Twitter_described "response.user_info.twitter" Response_twitter;
    OptionalStruct Gmail_described "response.user_info.gmail" Response_gmail].

(** [api/templates/apis/user/v1_3/get_info.json:1-382 input_params] *)
Definition params_described (i : Impl) : list (string * option str) :=
  [].

#[global] Instance Facebook_parses : Parses FacebookFromPropertyBranch new_Facebook
  Facebook_described.
Proof. parse_class. Qed.
#[global] Instance Twitter_parses : Parses TwitterFromPropertyBranch new_Twitter
  Twitter_described.
Proof. parse_class. Qed.
#[global] Instance Gmail_parses : Parses GmailFromPropertyBranch new_Gmail Gmail_described.
Proof. parse_class. Qed.
#[global] Instance Response_parses :
  ParsesResponse ParseResponse new_Response Response_described.
Proof. parse_class. Qed.

Definition call : api_call := {|
  call_method := GetRequestMethod;
  call_uses_token := true;
  call_BuildUrl := BuildUrl;
  call_parts := post_parts;
  call_GetPostData := GetPostData;
  call_new := new_Response;
  call_ParseResponse := ParseResponse |}.

#[global] Instance call_implements :
  ImplementsCall call "/api/1.3/user/get_info" true params_described Response_described.
Proof. implement_call. Qed.

End Call.
End user_get_info_v1_3.

(** ** [api/user/get_limits/v0.cpp] *)
Module user_get_limits_v0.

Section Call.
Context `{Libraries}.

(** [api/user/get_limits/v0.hpp:36-73 Response] *)
Record Response := {
  Response_storage_base : Z;
  Response_storage_bonus : Z;
  Response_storage_limit : Z;
  Response_storage_used : Z;
  Response_bandwidth_limit : Z;
  Response_bandwidth_used : Z;
  Response_collaboration_limit : Z;
  Response_collaboration_today : Z;
  Response_one_time_downloads_limit : Z;
  Response_one_time_downloads_today : Z;
  Response_streaming_bandwidth_limit : Z;
  Response_streaming_bandwidth_today : Z;
  Response_upload_size_limit : Z }.
#[local] Instance Response_members : Members Response := fun v =>
  Build_Response (Response_storage_base v) (Response_storage_bonus v) (Response_storage_limit v)
    (Response_storage_used v) (Response_bandwidth_limit v) (Response_bandwidth_used v)
    (Response_collaboration_limit v) (Response_collaboration_today v)
    (Response_one_time_downloads_limit v) (Response_one_time_downloads_today v)
    (Response_streaming_bandwidth_limit v) (Response_streaming_bandwidth_today v)
    (Response_upload_size_limit v).
Definition new_Response : Response :=
  {| Response_storage_base := indeterminate Z _; Response_storage_bonus := indeterminate Z _;
     Response_storage_limit := indeterminate Z _; Response_storage_used := indeterminate Z _;
     Response_bandwidth_limit := indeterminate Z _; Response_bandwidth_used := indeterminate Z _;
     Response_collaboration_limit := indeterminate Z _;
     Response_collaboration_today := indeterminate Z _;
     Response_one_time_downloads_limit := indeterminate Z _;
     Response_one_time_downloads_today := indeterminate Z _;
     Response_streaming_bandwidth_limit := indeterminate Z _;
     Response_streaming_bandwidth_today := indeterminate Z _;
     Response_upload_size_limit := indeterminate Z _ |}.

(** [api/user/get_limits/v0.cpp:68-195 Impl::ParseResponse] *)
Definition ParseResponse : ResponseBase -> Response -> ResponseBase * Response :=
  parse_response
  [ required (an uint64) "response.storage_base" Response_storage_base;
    required (an uint64) "response.storage_bonus" Response_storage_bonus;
    required (an uint64) "response.storage_limit" Response_storage_limit;
    required (an uint64) "response.storage_used" Response_storage_used;
    required (an uint64) "response.bandwidth_limit" Response_bandwidth_limit;
    required (an uint64) "response.bandwidth_used" Response_bandwidth_used;
    required (an uint32) "response.collaboration_limit" Response_collaboration_limit;
    required (an uint32) "response.collaboration_today" Response_collaboration_today;
    required (an uint32) "response.one_time_downloads_limit" Response_one_time_downloads_limit;
    required (an uint32) "response.one_time_downloads_today" Response_one_time_downloads_today;
    required (an uint64) "response.streaming_bandwidth_limit" Response_streaming_bandwidth_limit;
    required (an uint64) "response.streaming_bandwidth_today" Response_streaming_bandwidth_today;
    required (an uint64) "response.upload_size_limit" Response_upload_size_limit].

(** [api/user/get_limits/v0.cpp:32-32 api_path] *)
Definition api_path : str := B "/api/user/get_limits".

(** [api/user/get_limits/v0.cpp:36-54 Impl] *)
Record Impl := { }.

(** [api/user/get_limits/v0.cpp:56-58 Impl::Impl] *)
Definition new_Impl : Impl :=
  Build_Impl.

(** [api/user/get_limits/v0.cpp:60-66 Impl::BuildUrl] *)
Definition BuildUrl (query_parts : list query_part) : str * list query_part :=
  (api_path ++ B ".php", query_parts).

(** [api/user/get_limits/v0.cpp:50-53 Impl::GetRequestMethod] *)
Definition GetRequestMethod : RequestMethod := Post.

(** The assignments to [parts].
    [api/user/get_limits/v0.cpp:197-205 Impl::GetPostData] *)
Definition post_parts (i : Impl) : list query_part := make_parts
  [].

(** [api/user/get_limits/v0.cpp:197-205 Impl::GetPostData] *)
Definition GetPostData (MD5 : str -> str) (a : SessionTokenApi) (i : Impl) : str :=
  MakePost MD5 a (api_path ++ B ".php") (post_parts i).

(** *** The description *)

(** [api/templates/apis/user/v0/get_limits.json:4-70 return_params] *)
Definition Response_described : description Response :=
  [ Required (number_at uint64) "response.storage_base" Response_storage_base;
    Required (number_at uint64) "response.storage_bonus" Response_storage_bonus;
    Required (number_at uint64) "response.storage_limit" Response_storage_limit;
    Required (number_at uint64) "response.storage_used" Response_storage_used;
    Required (number_at uint64) "response.bandwidth_limit" Response_bandwidth_limit;
    Required (number_at uint64) "response.bandwidth_used" Response_bandwidth_used;
    Required (number_at uint32) "response.collaboration_limit" Response_collaboration_limit;
    Required (number_at uint32) "response.collaboration_today" Response_collaboration_today;
    Required (number_at uint32) "response.one_time_downloads_limit"
       Response_one_time_downloads_limit;
    Required (number_at uint32) "response.one_time_downloads_today"
       Response_one_time_downloads_today;
    Required (number_at uint64) "response.streaming_bandwidth_limit"
       Response_streaming_bandwidth_limit;
    Required (number_at uint64) "response.streaming_bandwidth_today"
       Response_streaming_bandwidth_today;
    Required (number_at uint64) "response.upload_size_limit" Response_upload_size_limit].

(** [api/templates/apis/user/v0/get_limits.json:1-71 input_params] *)
Definition params_described (i : Impl) : list (string * option str) :=
  [].

#[global] Instance Response_parses :
  ParsesResponse ParseResponse new_Response Response_described.
Proof. parse_class. Qed.

Definition call : api_call := {|
  call_method := GetRequestMethod;
  call_uses_token := true;
  call_BuildUrl := BuildUrl;
  call_parts := post_parts;
  call_GetPostData := GetPostData;
  call_new := new_Response;
  call_ParseResponse := ParseResponse |}.

#[global] Instance call_implements :
  ImplementsCall call "/api/user/get_limits" true params_described Response_described.
Proof. implement_call. Qed.

End Call.
End user_get_limits_v0.

(** ** [api/user/get_limits/v1_3.cpp] *)
Module user_get_limits_v1_3.

Section Call.
Context `{Libraries}.

(** [api/user/get_limits/v1_3.hpp:51-88 Response] *)
Record Response := {
  Response_storage_base : Z;
  Response_storage_bonus : Z;
  Response_storage_limit : Z;
  Response_storage_used : Z;
  Response_bandwidth_limit : Z;
  Response_bandwidth_used : Z;
  Response_collaboration_limit : Z;
  Response_collaboration_today : Z;
  Response_one_time_downloads_limit : Z;
  Response_one_time_downloads_today : Z;
  Response_streaming_bandwidth_limit : Z;
  Response_streaming_bandwidth_today : Z;
  Response_upload_size_limit : Z }.
#[local] Instance Response_members : Members Response := fun v =>
  Build_Response (Response_storage_base v) (Response_storage_bonus v) (Response_storage_limit v)
    (Response_storage_used v) (Response_bandwidth_limit v) (Response_bandwidth_used v)
    (Response_collaboration_limit v) (Response_collaboration_today v)
    (Response_one_time_downloads_limit v) (Response_one_time_downloads_today v)
    (Response_streaming_bandwidth_limit v) (Response_streaming_bandwidth_today v)
    (Response_upload_size_limit v).
Definition new_Response : Response :=
  {| Response_storage_base := 0; Response_storage_bonus := 0; Response_storage_limit := 0;
     Response_storage_used := 0; Response_bandwidth_limit := 0; Response_bandwidth_used := 0;
     Response_collaboration_limit := 0; Response_collaboration_today := 0;
     Response_one_time_downloads_limit := 0; Response_one_time_downloads_today := 0;
     Response_streaming_bandwidth_limit := 0; Response_streaming_bandwidth_today := 0;
     Response_upload_size_limit := 0 |}.

(** [api/user/get_limits/v1_3.cpp:68-169 Impl::ParseResponse] *)
Definition ParseResponse : ResponseBase -> Response -> ResponseBase * Response :=
  parse_response
  [ assign Response_storage_base 0;
    assign Response_storage_bonus 0;
    assign Response_storage_limit 0;
    assign Response_storage_used 0;
    assign Response_bandwidth_limit 0;
    assign Response_bandwidth_used 0;
    assign Response_collaboration_limit 0;
    assign Response_collaboration_today 0;
    assign Response_one_time_downloads_limit 0;
    assign Response_one_time_downloads_today 0;
    assign Response_streaming_bandwidth_limit 0;
    assign Response_streaming_bandwidth_today 0;
    assign Response_upload_size_limit 0;
    with_default (an uint64) "response.storage_base" Response_storage_base;
    with_default (an uint64) "response.storage_bonus" Response_storage_bonus;
    with_default (an uint64) "response.storage_limit" Response_storage_limit;
    with_default (an uint64) "response.storage_used" Response_storage_used;
    with_default (an uint64) "response.bandwidth_limit" Response_bandwidth_limit;
    with_default (an uint64) "response.bandwidth_used" Response_bandwidth_used;
    with_default (an uint64) "response.collaboration_limit" Response_collaboration_limit;
    with_default (an uint64) "response.collaboration_today" Response_collaboration_today;
    with_default (an uint64) "response.one_time_downloads_limit"
       Response_one_time_downloads_limit;
    with_default (an uint64) "response.one_time_downloads_today"
       Response_one_time_downloads_today;
    with_default (an uint64) "response.streaming_bandwidth_limit"
       Response_streaming_bandwidth_limit;
    with_default (an uint64) "response.streaming_bandwidth_today"
       Response_streaming_bandwidth_today;
    with_default (an uint64) "response.upload_size_limit" Response_upload_size_limit].

(** [api/user/get_limits/v1_3.cpp:32-32 api_path] *)
Definition api_path : str := B "/api/1.3/user/get_limits".

(** [api/user/get_limits/v1_3.cpp:36-54 Impl] *)
Record Impl := { }.

(** [api/user/get_limits/v1_3.cpp:56-58 Impl::Impl] *)
Definition new_Impl : Impl :=
  Build_Impl.

(** [api/user/get_limits/v1_3.cpp:60-66 Impl::BuildUrl] *)
Definition BuildUrl (query_parts : list query_part) : str * list query_part :=
  (api_path ++ B ".php", query_parts).

(** [api/user/get_limits/v1_3.cpp:50-53 Impl::GetRequestMethod] *)
Definition GetRequestMethod : RequestMethod := Post.

(** The assignments to [parts].
    [api/user/get_limits/v1_3.cpp:171-179 Impl::GetPostData] *)
Definition post_parts (i : Impl) : list query_part := make_parts
  [].

(** [api/user/get_limits/v1_3.cpp:171-179 Impl::GetPostData] *)
Definition GetPostData (MD5 : str -> str) (a : SessionTokenApi) (i : Impl) : str :=
  MakePost MD5 a (api_path ++ B ".php") (post_parts i).

(** *** The description *)

(** [api/templates/apis/user/v1_3/get_limits.json:4-83 return_params] *)
Definition Response_described : description Response :=
  [ Default 0 (number_at uint64) "response.storage_base" Response_storage_base;
    Default 0 (number_at uint64) "response.storage_bonus" Response_storage_bonus;
    Default 0 (number_at uint64) "response.storage_limit" Response_storage_limit;
    Default 0 (number_at uint64) "response.storage_used" Response_storage_used;
    Default 0 (number_at uint64) "response.bandwidth_limit" Response_bandwidth_limit;
    Default 0 (number_at uint64) "response.bandwidth_used" Response_bandwidth_used;
    Default 0 (number_at uint64) "response.collaboration_limit" Response_collaboration_limit;
    Default 0 (number_at uint64) "response.collaboration_today" Response_collaboration_today;
    Default 0 (number_at uint64) "response.one_time_downloads_limit"
       Response_one_time_downloads_limit;
    Default 0 (number_at uint64) "response.one_time_downloads_today"
       Response_one_time_downloads_today;
    Default 0 (number_at uint64) "response.streaming_bandwidth_limit"
       Response_streaming_bandwidth_limit;
    Default 0 (number_at uint64) "response.streaming_bandwidth_today"
       Response_streaming_bandwidth_today;
    Default 0 (number_at uint64) "response.upload_size_limit" Response_upload_size_limit].

(** [api/templates/apis/user/v1_3/get_limits.json:1-84 input_params] *)
Definition params_described (i : Impl) : list (string * option str) :=
  [].

#[global] Instance Response_parses :
  ParsesResponse ParseResponse new_Response Response_described.
Proof. parse_class. Qed.

Definition call : api_call := {|
  call_method := GetRequestMethod;
  call_uses_token := true;
  call_BuildUrl := BuildUrl;
  call_parts := post_parts;
  call_GetPostData := GetPostData;
  call_new := new_Response;
  call_ParseResponse := ParseResponse |}.

#[global] Instance call_implements :
  ImplementsCall call "/api/1.3/user/get_limits" true params_described Response_described.
Proof. implement_call. Qed.

End Call.
End user_get_limits_v1_3.

(** ** [api/user/get_settings/v1_3.cpp] *)
Module user_get_settings_v1_3.

(** [api/user/get_settings/v1_3.hpp:29-35 DownloadPage] *)
Inductive DownloadPage : Set := DownloadPage_Skipped | DownloadPage_NotSkipped.
#[global] Instance DownloadPage_inhabited : Inhabited DownloadPage :=
  populate DownloadPage_Skipped.

(** [api/user/get_settings/v1_3.hpp:37-43 EmailValidation] *)
Inductive EmailValidation : Set := EmailValidation_NeedsValidation | EmailValidation_Validated.
#[global] Instance EmailValidation_inhabited : Inhabited EmailValidation :=
  populate EmailValidation_NeedsValidation.

(** [api/user/get_settings/v1_3.hpp:45-51 InstantUploads] *)
Inductive InstantUploads : Set := InstantUploads_Disabled | InstantUploads_Enabled.
#[global] Instance InstantUploads_inhabited : Inhabited InstantUploads :=
  populate InstantUploads_Disabled.

(** [api/user/get_settings/v1_3.hpp:53-59 AutoBandwidth] *)
Inductive AutoBandwidth : Set := AutoBandwidth_NoAction | AutoBandwidth_PurchaseMoreAutomatically.
#[global] Instance AutoBandwidth_inhabited : Inhabited AutoBandwidth :=
  populate AutoBandwidth_NoAction.

(** [api/user/get_settings/v1_3.hpp:61-67 StorageLimit] *)
Inductive StorageLimit : Set := StorageLimit_InBounds | StorageLimit_Exceeded.
#[global] Instance StorageLimit_inhabited : Inhabited StorageLimit :=
  populate StorageLimit_InBounds.

(** [api/user/get_settings/v1_3.hpp:69-77 ShareLinkStatus] *)
Inductive ShareLinkStatus : Set :=
  ShareLinkStatus_Disabled | ShareLinkStatus_Enabled | ShareLinkStatus_Inherit.
#[global] Instance ShareLinkStatus_inhabited : Inhabited ShareLinkStatus :=
  populate ShareLinkStatus_Disabled.

(** [api/user/get_settings/v1_3.hpp:79-85 CollectMetadata] *)
Inductive CollectMetadata : Set := CollectMetadata_No | CollectMetadata_Yes.
#[global] Instance CollectMetadata_inhabited : Inhabited CollectMetadata :=
  populate CollectMetadata_No.

Section Call.
Context `{Libraries}.

(** [api/user/get_settings/v1_3.hpp:108-147 Response] *)
Record Response := {
  Response_email_address_validated : EmailValidation;
  Response_instant_uploads : InstantUploads;
  Response_show_download_page_me_from_me : DownloadPage;
  Response_show_download_page_me_from_others : DownloadPage;
  Response_show_download_page_others_from_me : DownloadPage;
  Response_auto_bandwidth : AutoBandwidth;
  Response_used_storage_size : Z;
  Response_storage_limit : Z;
  Response_storage_limit_exceeded : StorageLimit;
  Response_previous_file_versions : Z;
  Response_share_link_status : ShareLinkStatus;
  Response_collect_metadata : CollectMetadata }.
#[local] Instance Response_members : Members Response := fun v =>
  Build_Response (Response_email_address_validated v) (Response_instant_uploads v)
    (Response_show_download_page_me_from_me v) (Response_show_download_page_me_from_others v)
    (Response_show_download_page_others_from_me v) (Response_auto_bandwidth v)
    (Response_used_storage_size v) (Response_storage_limit v) (Response_storage_limit_exceeded v)
    (Response_previous_file_versions v) (Response_share_link_status v)
    (Response_collect_metadata v).
Definition new_Response : Response :=
  {| Response_email_address_validated := EmailValidation_NeedsValidation;
     Response_instant_uploads := InstantUploads_Disabled;
     Response_show_download_page_me_from_me := DownloadPage_NotSkipped;
     Response_show_download_page_me_from_others := DownloadPage_NotSkipped;
     Response_show_download_page_others_from_me := DownloadPage_NotSkipped;
     Response_auto_bandwidth := AutoBandwidth_NoAction; Response_used_storage_size := 0;
     Response_storage_limit := 0; Response_storage_limit_exceeded := StorageLimit_InBounds;
     Response_previous_file_versions := 0; Response_share_link_status := ShareLinkStatus_Inherit;
     Response_collect_metadata := CollectMetadata_No |}.

(** [api/user/get_settings/v1_3.cpp:68-245 Impl::ParseResponse] *)
Definition ParseResponse : ResponseBase -> Response -> ResponseBase * Response :=
  parse_response
  [ assign Response_email_address_validated EmailValidation_NeedsValidation;
    assign Response_instant_uploads InstantUploads_Disabled;
    assign Response_show_download_page_me_from_me DownloadPage_NotSkipped;
    assign Response_show_download_page_me_from_others DownloadPage_NotSkipped;
    assign Response_show_download_page_others_from_me DownloadPage_NotSkipped;
    assign Response_auto_bandwidth AutoBandwidth_NoAction;
    assign Response_used_storage_size 0;
    assign Response_storage_limit 0;
    assign Response_storage_limit_exceeded StorageLimit_InBounds;
    assign Response_previous_file_versions 0;
    assign Response_share_link_status ShareLinkStatus_Inherit;
    assign Response_collect_metadata CollectMetadata_No;
    optional_enum id [("no", EmailValidation_NeedsValidation);
       ("yes", EmailValidation_Validated)] "response.settings.validated"
       Response_email_address_validated;
    optional_enum id [("no", InstantUploads_Disabled); ("yes", InstantUploads_Enabled)]
       "response.settings.instant_uploads_enabled" Response_instant_uploads;
    optional_enum id [("no", DownloadPage_Skipped); ("yes", DownloadPage_NotSkipped)]
       "response.settings.show_download_page.me_from_me" Response_show_download_page_me_from_me;
    optional_enum id [("no", DownloadPage_Skipped); ("yes", DownloadPage_NotSkipped)]
       "response.settings.show_download_page.me_from_others"
       Response_show_download_page_me_from_others;
    optional_enum id [("no", DownloadPage_Skipped); ("yes", DownloadPage_NotSkipped)]
       "response.settings.show_download_page.others_from_me"
       Response_show_download_page_others_from_me;
    optional_enum id [("no", AutoBandwidth_NoAction);
       ("yes", AutoBandwidth_PurchaseMoreAutomatically)]
       "response.settings.auto_bandwidth.enabled" Response_auto_bandwidth;
    with_default (an uint64) "response.settings.used_storage_size" Response_used_storage_size;
    with_default (an uint64) "response.settings.storage_limit" Response_storage_limit;
    optional_enum id [("no", StorageLimit_InBounds); ("yes", StorageLimit_Exceeded)]
       "response.settings.storage_limit_exceeded" Response_storage_limit_exceeded;
    with_default (an uint32) "response.settings.previous_file_versions"
       Response_previous_file_versions;
    optional_enum id [("disabled", ShareLinkStatus_Disabled);
       ("enabled", ShareLinkStatus_Enabled); ("inherit", ShareLinkStatus_Inherit)]
       "response.settings.share_link_status" Response_share_link_status;
    optional_enum id [("no", CollectMetadata_No); ("yes", CollectMetadata_Yes)]
       "response.settings.collect_metadata" Response_collect_metadata].

(** [api/user/get_settings/v1_3.cpp:32-32 api_path] *)
Definition api_path : str := B "/api/1.3/user/get_settings".

(** [api/user/get_settings/v1_3.cpp:36-54 Impl] *)
Record Impl := { }.

(** [api/user/get_settings/v1_3.cpp:56-58 Impl::Impl] *)
Definition new_Impl : Impl :=
  Build_Impl.

(** [api/user/get_settings/v1_3.cpp:60-66 Impl::BuildUrl] *)
Definition BuildUrl (query_parts : list query_part) : str * list query_part :=
  (api_path ++ B ".php", query_parts).

(** [api/user/get_settings/v1_3.cpp:50-53 Impl::GetRequestMethod] *)
Definition GetRequestMethod : RequestMethod := Post.

(** The assignments to [parts].
    [api/user/get_settings/v1_3.cpp:247-255 Impl::GetPostData] *)
Definition post_parts (i : Impl) : list query_part := make_parts
  [].

(** [api/user/get_settings/v1_3.cpp:247-255 Impl::GetPostData] *)
Definition GetPostData (MD5 : str -> str) (a : SessionTokenApi) (i : Impl) : str :=
  MakePost MD5 a (api_path ++ B ".php") (post_parts i).

(** *** The description *)

(** [api/templates/apis/user/v1_3/get_settings.json:101-186 return_params] *)
Definition Response_described : description Response :=
  [ Default EmailValidation_NeedsValidation (enum_at [("no", EmailValidation_NeedsValidation);
       ("yes", EmailValidation_Validated)]) "response.settings.validated"
       Response_email_address_validated;
    Default InstantUploads_Disabled (enum_at [("no", InstantUploads_Disabled);
       ("yes", InstantUploads_Enabled)]) "response.settings.instant_uploads_enabled"
       Response_instant_uploads;
    Default DownloadPage_NotSkipped (enum_at [("no", DownloadPage_Skipped);
       ("yes", DownloadPage_NotSkipped)]) "response.settings.show_download_page.me_from_me"
       Response_show_download_page_me_from_me;
    Default DownloadPage_NotSkipped (enum_at [("no", DownloadPage_Skipped);
       ("yes", DownloadPage_NotSkipped)]) "response.settings.show_download_page.me_from_others"
       Response_show_download_page_me_from_others;
    Default DownloadPage_NotSkipped (enum_at [("no", DownloadPage_Skipped);
       ("yes", DownloadPage_NotSkipped)]) "response.settings.show_download_page.others_from_me"
       Response_show_download_page_others_from_me;
    Default AutoBandwidth_NoAction (enum_at [("no", AutoBandwidth_NoAction);
       ("yes", AutoBandwidth_PurchaseMoreAutomatically)])
       "response.settings.auto_bandwidth.enabled" Response_auto_bandwidth;
    Default 0 (number_at uint64) "response.settings.used_storage_size" Response_used_storage_size;
    Default 0 (number_at uint64) "response.settings.storage_limit" Response_storage_limit;
    Default StorageLimit_InBounds (enum_at [("no", StorageLimit_InBounds);
       ("yes", StorageLimit_Exceeded)]) "response.settings.storage_limit_exceeded"
       Response_storage_limit_exceeded;
    Default 0 (number_at uint32) "response.settings.previous_file_versions"
       Response_previous_file_versions;
    Default ShareLinkStatus_Inherit (enum_at [("disabled", ShareLinkStatus_Disabled);
       ("enabled", ShareLinkStatus_Enabled); ("inherit", ShareLinkStatus_Inherit)])
       "response.settings.share_link_status" Response_share_link_status;
    Default CollectMetadata_No (enum_at [("no", CollectMetadata_No);
       ("yes", CollectMetadata_Yes)]) "response.settings.collect_metadata"
       Response_collect_metadata].

(** [api/templates/apis/user/v1_3/get_settings.json:1-187 input_params] *)
Definition params_described (i : Impl) : list (string * option str) :=
  [].

#[global] Instance Response_parses :
  ParsesResponse ParseResponse new_Response Response_described.
Proof. parse_class. Qed.

Definition call : api_call := {|
  call_method := GetRequestMethod;
  call_uses_token := true;
  call_BuildUrl := BuildUrl;
  call_parts := post_parts;
  call_GetPostData := GetPostData;
  call_new := new_Response;
  call_ParseResponse := ParseResponse |}.

#[global] Instance call_implements :
  ImplementsCall call "/api/1.3/user/get_settings" true params_described Response_described.
Proof. implement_call. Qed.

End Call.
End user_get_settings_v1_3.

(** ** [api/user/link_facebook/v0.cpp] *)
Module user_link_facebook_v0.

Section Call.
Context `{Libraries}.

(** [api/user/link_facebook/v0.hpp:33-36 Response] *)
Record Response := { }.
Definition new_Response : Response :=
  Build_Response.

(** [api/user/link_facebook/v0.cpp:74-85 Impl::ParseResponse] *)
Definition ParseResponse : ResponseBase -> Response -> ResponseBase * Response :=
  parse_response [].

(** [api/user/link_facebook/v0.cpp:32-32 api_path] *)
Definition api_path : str := B "/api/user/link_facebook".

(** [api/user/link_facebook/v0.cpp:36-57 Impl] *)
Record Impl := {
  access_token_ : str }.
#[local] Instance Impl_members : Members Impl := fun v =>
  Build_Impl (access_token_ v).

(** [api/user/link_facebook/v0.cpp:59-64 Impl::Impl] *)
Definition new_Impl (access_token : str) : Impl :=
  {| access_token_ := access_token |}.

(** [api/user/link_facebook/v0.cpp:66-72 Impl::BuildUrl] *)
Definition BuildUrl (query_parts : list query_part) : str * list query_part :=
  (api_path ++ B ".php", query_parts).

(** [api/user/link_facebook/v0.cpp:53-56 Impl::GetRequestMethod] *)
Definition GetRequestMethod : RequestMethod := Post.

(** The assignments to [parts].
    [api/user/link_facebook/v0.cpp:87-96 Impl::GetPostData] *)
Definition post_parts (i : Impl) : list query_part := make_parts
  [("fb_access_token", Some (access_token_ i))].

(** [api/user/link_facebook/v0.cpp:87-96 Impl::GetPostData] *)
Definition GetPostData (MD5 : str -> str) (a : SessionTokenApi) (i : Impl) : str :=
  MakePost MD5 a (api_path ++ B ".php") (post_parts i).

(** *** The description *)

(** [api/templates/apis/user/v0/link_facebook.json:1-11 return_params] *)
Definition Response_described : description Response := [].

(** [api/templates/apis/user/v0/link_facebook.json:4-10 input_params] *)
Definition params_described (i : Impl) : list (string * option str) :=
  [("fb_access_token", Some (access_token_ i))].

#[global] Instance Response_parses :
  ParsesResponse ParseResponse new_Response Response_described.
Proof. parse_class. Qed.

Definition call : api_call := {|
  call_method := GetRequestMethod;
  call_uses_token := true;
  call_BuildUrl := BuildUrl;
  call_parts := post_parts;
  call_GetPostData := GetPostData;
  call_new := new_Response;
  call_ParseResponse := ParseResponse |}.

#[global] Instance call_implements :
  ImplementsCall call "/api/user/link_facebook" true params_described Response_described.
Proof. implement_call. Qed.

End Call.
End user_link_facebook_v0.

(** ** [api/user/link_facebook/v1_3.cpp] *)
Module user_link_facebook_v1_3.

Section Call.
Context `{Libraries}.

(** [api/user/link_facebook/v1_3.hpp:33-36 Response] *)
Record Response := { }.
Definition new_Response : Response :=
  Build_Response.

(** [api/user/link_facebook/v1_3.cpp:74-85 Impl::ParseResponse] *)
Definition ParseResponse : ResponseBase -> Response -> ResponseBase * Response :=
  parse_response [].

(** [api/user/link_facebook/v1_3.cpp:32-32 api_path] *)
Definition api_path : str := B "/api/1.3/user/link_facebook".

(** [api/user/link_facebook/v1_3.cpp:36-57 Impl] *)
Record Impl := {
  access_token_ : str }.
#[local] Instance Impl_members : Members Impl := fun v =>
  Build_Impl (access_token_ v).

(** [api/user/link_facebook/v1_3.cpp:59-64 Impl::Impl] *)
Definition new_Impl (access_token : str) : Impl :=
  {| access_token_ := access_token |}.

(** [api/user/link_facebook/v1_3.cpp:66-72 Impl::BuildUrl] *)
Definition BuildUrl (query_parts : list query_part) : str * list query_part :=
  (api_path ++ B ".php", query_parts).

(** [api/user/link_facebook/v1_3.cpp:53-56 Impl::GetRequestMethod] *)
Definition GetRequestMethod : RequestMethod := Post.

(** The assignments to [parts].
    [api/user/link_facebook/v1_3.cpp:87-96 Impl::GetPostData] *)
Definition post_parts (i : Impl) : list query_part := make_parts
  [("fb_access_token", Some (access_token_ i))].

(** [api/user/link_facebook/v1_3.cpp:87-96 Impl::GetPostData] *)
Definition GetPostData (MD5 : str -> str) (a : SessionTokenApi) (i : Impl) : str :=
  MakePost MD5 a (api_path ++ B ".php") (post_parts i).

(** *** The description *)

(** [api/templates/apis/user/v1_3/link_facebook.json:1-11 return_params] *)
Definition Response_described : description Response := [].

(** [api/templates/apis/user/v1_3/link_facebook.json:4-10 input_params] *)
Definition params_described (i : Impl) : list (string * option str) :=
  [("fb_access_token", Some (access_token_ i))].

#[global] Instance Response_parses :
  ParsesResponse ParseResponse new_Response Response_described.
Proof. parse_class. Qed.

Definition call : api_call := {|
  call_method := GetRequestMethod;
  call_uses_token := true;
  call_BuildUrl := BuildUrl;
  call_parts := post_parts;
  call_GetPostData := GetPostData;
  call_new := new_Response;
  call_ParseResponse := ParseResponse |}.

#[global] Instance call_implements :
  ImplementsCall call "/api/1.3/user/link_facebook" true params_described Response_described.
Proof. implement_call. Qed.

End Call.
End user_link_facebook_v1_3.

(** ** [api/user/link_gmail/v1_3.cpp] *)
Module user_link_gmail_v1_3.

Section Call.
Context `{Libraries}.

(** [api/user/link_gmail/v1_3.hpp:33-36 Response] *)
Record Response := { }.
Definition new_Response : Response :=
  Build_Response.

(** [api/user/link_gmail/v1_3.cpp:74-85 Impl::ParseResponse] *)
Definition ParseResponse : ResponseBase -> Response -> ResponseBase * Response :=
  parse_response [].

(** [api/user/link_gmail/v1_3.cpp:32-32 api_path] *)
Definition api_path : str := B "/api/1.3/user/link_gmail".

(** [api/user/link_gmail/v1_3.cpp:36-57 Impl] *)
Record Impl := {
  access_token_ : str }.
#[local] Instance Impl_members : Members Impl := fun v =>
  Build_Impl (access_token_ v).

(** [api/user/link_gmail/v1_3.cpp:59-64 Impl::Impl] *)
Definition new_Impl (access_token : str) : Impl :=
  {| access_token_ := access_token |}.

(** [api/user/link_gmail/v1_3.cpp:66-72 Impl::BuildUrl] *)
Definition BuildUrl (query_parts : list query_part) : str * list query_part :=
  (api_path ++ B ".php", query_parts).

(** [api/user/link_gmail/v1_3.cpp:53-56 Impl::GetRequestMethod] *)
Definition GetRequestMethod : RequestMethod := Post.

(** The assignments to [parts].
    [api/user/link_gmail/v1_3.cpp:87-96 Impl::GetPostData] *)
Definition post_parts (i : Impl) : list query_part := make_parts
  [("gm_access_token", Some (access_token_ i))].

(** [api/user/link_gmail/v1_3.cpp:87-96 Impl::GetPostData] *)
Definition GetPostData (MD5 : str -> str) (a : SessionTokenApi) (i : Impl) : str :=
  MakePost MD5 a (api_path ++ B ".php") (post_parts i).

(** *** The description *)

(** [api/templates/apis/user/v1_3/link_gmail.json:1-11 return_params] *)
Definition Response_described : description Response := [].

(** [api/templates/apis/user/v1_3/link_gmail.json:4-10 input_params] *)
Definition params_described (i : Impl) : list (string * option str) :=
  [("gm_access_token", Some (access_token_ i))].

#[global] Instance Response_parses :
  ParsesResponse ParseResponse new_Response Response_described.
Proof. parse_class. Qed.

Definition call : api_call := {|
  call_method := GetRequestMethod;
  call_uses_token := true;
  call_BuildUrl := BuildUrl;
  call_parts := post_parts;
  call_GetPostData := GetPostData;
  call_new := new_Response;
  call_ParseResponse := ParseResponse |}.

#[global] Instance call_implements :
  ImplementsCall call "/api/1.3/user/link_gmail" true params_described Response_described.
Proof. implement_call. Qed.

End Call.
End user_link_gmail_v1_3.

(** ** [api/user/link_twitter/v0.cpp] *)
Module user_link_twitter_v0.

Section Call.
Context `{Libraries}.

(** [api/user/link_twitter/v0.hpp:33-36 Response] *)
Record Response := { }.
Definition new_Response : Response :=
  Build_Response.

(** [api/user/link_twitter/v0.cpp:78-89 Impl::ParseResponse] *)
Definition ParseResponse : ResponseBase -> Response -> ResponseBase * Response :=
  parse_response [].

(** [api/user/link_twitter/v0.cpp:32-32 api_path] *)
Definition api_path : str := B "/api/user/link_twitter".

(** [api/user/link_twitter/v0.cpp:36-59 Impl] *)
Record Impl := {
  oauth_token_ : str;
  oauth_token_secret_ : str }.
#[local] Instance Impl_members : Members Impl := fun v =>
  Build_Impl (oauth_token_ v) (oauth_token_secret_ v).

(** [api/user/link_twitter/v0.cpp:61-68 Impl::Impl] *)
Definition new_Impl (oauth_token : str) (oauth_token_secret : str) : Impl :=
  {| oauth_token_ := oauth_token; oauth_token_secret_ := oauth_token_secret |}.

(** [api/user/link_twitter/v0.cpp:70-76 Impl::BuildUrl] *)
Definition BuildUrl (query_parts : list query_part) : str * list query_part :=
  (api_path ++ B ".php", query_parts).

(** [api/user/link_twitter/v0.cpp:55-58 Impl::GetRequestMethod] *)
Definition GetRequestMethod : RequestMethod := Post.

(** The assignments to [parts].
    [api/user/link_twitter/v0.cpp:91-101 Impl::GetPostData] *)
Definition post_parts (i : Impl) : list query_part := make_parts
  [("tw_oauth_token", Some (oauth_token_ i));
   ("tw_oauth_token_secret", Some (oauth_token_secret_ i))].

(** [api/user/link_twitter/v0.cpp:91-101 Impl::GetPostData] *)
Definition GetPostData (MD5 : str -> str) (a : SessionTokenApi) (i : Impl) : str :=
  MakePost MD5 a (api_path ++ B ".php") (post_parts i).

(** *** The description *)

(** [api/templates/apis/user/v0/link_twitter.json:1-16 return_params] *)
Definition Response_described : description Response := [].

(** [api/templates/apis/user/v0/link_twitter.json:4-15 input_params] *)
Definition params_described (i : Impl) : list (string * option str) :=
  [("tw_oauth_token", Some (oauth_token_ i));
   ("tw_oauth_token_secret", Some (oauth_token_secret_ i))].

#[global] Instance Response_parses :
  ParsesResponse ParseResponse new_Response Response_described.
Proof. parse_class. Qed.

Definition call : api_call := {|
  call_method := GetRequestMethod;
  call_uses_token := true;
  call_BuildUrl := BuildUrl;
  call_parts := post_parts;
  call_GetPostData := GetPostData;
  call_new := new_Response;
  call_ParseResponse := ParseResponse |}.

#[global] Instance call_implements :
  ImplementsCall call "/api/user/link_twitter" true params_described Response_described.
Proof. implement_call. Qed.

End Call.
End user_link_twitter_v0.

(** ** [api/user/link_twitter/v1_3.cpp] *)
Module user_link_twitter_v1_3.

Section Call.
Context `{Libraries}.

(** [api/user/link_twitter/v1_3.hpp:33-36 Response] *)
Record Response := { }.
Definition new_Response : Response :=
  Build_Response.

(** [api/user/link_twitter/v1_3.cpp:78-89 Impl::ParseResponse] *)
Definition ParseResponse : ResponseBase -> Response -> ResponseBase * Response :=
  parse_response [].

(** [api/user/link_twitter/v1_3.cpp:32-32 api_path] *)
Definition api_path : str := B "/api/1.3/user/link_twitter".

(** [api/user/link_twitter/v1_3.cpp:36-59 Impl] *)
Record Impl := {
  oauth_token_ : str;
  oauth_token_secret_ : str }.
#[local] Instance Impl_members : Members Impl := fun v =>
  Build_Impl (oauth_token_ v) (oauth_token_secret_ v).

(** [api/user/link_twitter/v1_3.cpp:61-68 Impl::Impl] *)
Definition new_Impl (oauth_token : str) (oauth_token_secret : str) : Impl :=
  {| oauth_token_ := oauth_token; oauth_token_secret_ := oauth_token_secret |}.

(** [api/user/link_twitter/v1_3.cpp:70-76 Impl::BuildUrl] *)
Definition BuildUrl (query_parts : list query_part) : str * list query_part :=
  (api_path ++ B ".php", query_parts).

(** [api/user/link_twitter/v1_3.cpp:55-58 Impl::GetRequestMethod] *)
Definition GetRequestMethod : RequestMethod := Post.

(** The assignments to [parts].
    [api/user/link_twitter/v1_3.cpp:91-101 Impl::GetPostData] *)
Definition post_parts (i : Impl) : list query_part := make_parts
  [("tw_oauth_token", Some (oauth_token_ i));
   ("tw_oauth_token_secret", Some (oauth_token_secret_ i))].

(** [api/user/link_twitter/v1_3.cpp:91-101 Impl::GetPostData] *)
Definition GetPostData (MD5 : str -> str) (a : SessionTokenApi) (i : Impl) : str :=
  MakePost MD5 a (api_path ++ B ".php") (post_parts i).

(** *** The description *)

(** [api/templates/apis/user/v1_3/link_twitter.json:1-16 return_params] *)
Definition Response_described : description Response := [].

(** [api/templates/apis/user/v1_3/link_twitter.json:4-15 input_params] *)
Definition params_described (i : Impl) : list (string * option str) :=
  [("tw_oauth_token", Some (oauth_token_ i));
   ("tw_oauth_token_secret", Some (oauth_token_secret_ i))].

#[global] Instance Response_parses :
  ParsesResponse ParseResponse new_Response Response_described.
Proof. parse_class. Qed.

Definition call : api_call := {|
  call_method := GetRequestMethod;
  call_uses_token := true;
  call_BuildUrl := BuildUrl;
  call_parts := post_parts;
  call_GetPostData := GetPostData;
  call_new := new_Response;
  call_ParseResponse := ParseResponse |}.

#[global] Instance call_implements :
  ImplementsCall call "/api/1.3/user/link_twitter" true params_described Response_described.
Proof. implement_call. Qed.

End Call.
End user_link_twitter_v1_3.

(** ** [api/user/set_avatar/v1_3.cpp] *)
Module user_set_avatar_v1_3.

(** [api/user/set_avatar/v1_3.hpp:29-35 Action] *)
Inductive Action : Set := Action_SetDefault | Action_Remove.
#[global] Instance Action_inhabited : Inhabited Action := populate Action_SetDefault.

(** [api/user/set_avatar/v1_3.cpp:24-31 AsString] *)
Definition AsString_Action (value : Action) : str :=
  match value with
  | Action_SetDefault => B "set_default"
  | Action_Remove => B "remove"
  end.

Section Call.
Context `{Libraries}.

(** [api/user/set_avatar/v1_3.hpp:44-48 Response] *)
Record Response := {
  Response_quickkey : option str;
  Response_new_device_revision : option Z }.
#[local] Instance Response_members : Members Response := fun v =>
  Build_Response (Response_quickkey v) (Response_new_device_revision v).
Definition new_Response : Response :=
  {| Response_quickkey := None; Response_new_device_revision := None |}.

(** [api/user/set_avatar/v1_3.cpp:82-116 Impl::ParseResponse] *)
Definition ParseResponse : ResponseBase -> Response -> ResponseBase * Response :=
  parse_response
  [ optional std_string "response.quick_key" Response_quickkey;
    optional (an uint64) "response.new_device_revision" Response_new_device_revision].

(** [api/user/set_avatar/v1_3.cpp:43-43 api_path] *)
Definition api_path : str := B "/api/1.3/user/set_avatar".

(** [api/user/set_avatar/v1_3.cpp:47-68 Impl] *)
Record Impl := {
  action_ : option Action;
  quickkey_ : option str;
  url_ : option str }.
#[local] Instance Impl_members : Members Impl := fun v =>
  Build_Impl (action_ v) (quickkey_ v) (url_ v).

(** [api/user/set_avatar/v1_3.cpp:70-72 Impl::Impl] *)
Definition new_Impl : Impl :=
  {| action_ := None; quickkey_ := None; url_ := None |}.

(** [api/user/set_avatar/v1_3.cpp:178-181 Request::SetAction] *)
Definition SetAction (action : Action) (i : Impl) : Impl := set_field action_ (Some action) i.

(** [api/user/set_avatar/v1_3.cpp:183-186 Request::SetQuickkey] *)
Definition SetQuickkey (quickkey : str) (i : Impl) : Impl :=
  set_field quickkey_ (Some quickkey) i.

(** [api/user/set_avatar/v1_3.cpp:188-191 Request::SetUrl] *)
Definition SetUrl (url : str) (i : Impl) : Impl := set_field url_ (Some url) i.

(** [api/user/set_avatar/v1_3.cpp:74-80 Impl::BuildUrl] *)
Definition BuildUrl (query_parts : list query_part) : str * list query_part :=
  (api_path ++ B ".php", query_parts).

(** [api/user/set_avatar/v1_3.cpp:64-67 Impl::GetRequestMethod] *)
Definition GetRequestMethod : RequestMethod := Post.

(** The assignments to [parts].
    [api/user/set_avatar/v1_3.cpp:118-132 Impl::GetPostData] *)
Definition post_parts (i : Impl) : list query_part := make_parts
  [("action", AsString_Action <$> action_ i);
   ("quick_key", quickkey_ i);
   ("url", url_ i)].

(** [api/user/set_avatar/v1_3.cpp:118-132 Impl::GetPostData] *)
Definition GetPostData (MD5 : str -> str) (a : SessionTokenApi) (i : Impl) : str :=
  MakePost MD5 a (api_path ++ B ".php") (post_parts i).

(** *** The description *)

(** [api/templates/apis/user/v1_3/set_avatar.json:39-54 return_params] *)
Definition Response_described : description Response :=
  [ Optional string_at "response.quick_key" Response_quickkey;
    Optional (number_at uint64) "response.new_device_revision" Response_new_device_revision].

(** [api/templates/apis/user/v1_3/set_avatar.json:5-17 Action] *)
Definition AsDescribed_Action (value : Action) : str :=
  match value with
  | Action_SetDefault => B "set_default"
  | Action_Remove => B "remove"
  end.

(** [api/templates/apis/user/v1_3/set_avatar.json:19-38 input_params] *)
Definition params_described (i : Impl) : list (string * option str) :=
  [("action", (AsDescribed_Action) <$> action_ i);
   ("quick_key", quickkey_ i);
   ("url", url_ i)].

#[global] Instance Response_parses :
  ParsesResponse ParseResponse new_Response Response_described.
Proof. parse_class. Qed.

Definition call : api_call := {|
  call_method := GetRequestMethod;
  call_uses_token := true;
  call_BuildUrl := BuildUrl;
  call_parts := post_parts;
  call_GetPostData := GetPostData;
  call_new := new_Response;
  call_ParseResponse := ParseResponse |}.

#[global] Instance call_implements :
  ImplementsCall call "/api/1.3/user/set_avatar" true params_described Response_described.
Proof. implement_call. Qed.

End Call.
End user_set_avatar_v1_3.

(** ** [api/user/set_settings/v1_3.cpp] *)
Module user_set_settings_v1_3.

(** [api/user/set_settings/v1_3.hpp:29-37 ShareLinkStatus] *)
Inductive ShareLinkStatus : Set :=
  ShareLinkStatus_Disabled | ShareLinkStatus_Enabled | ShareLinkStatus_Inherit.
#[global] Instance ShareLinkStatus_inhabited : Inhabited ShareLinkStatus :=
  populate ShareLinkStatus_Disabled.

(** [api/user/set_settings/v1_3.hpp:39-45 CollectMetadata] *)
Inductive CollectMetadata : Set := CollectMetadata_No | CollectMetadata_Yes.
#[global] Instance CollectMetadata_inhabited : Inhabited CollectMetadata :=
  populate CollectMetadata_No.

(** [api/user/set_settings/v1_3.cpp:24-33 AsString] *)
Definition AsString_ShareLinkStatus (value : ShareLinkStatus) : str :=
  match value with
  | ShareLinkStatus_Disabled => B "disabled"
  | ShareLinkStatus_Enabled => B "enabled"
  | ShareLinkStatus_Inherit => B "inherit"
  end.

(** [api/user/set_settings/v1_3.cpp:34-41 AsString] *)
Definition AsString_CollectMetadata (value : CollectMetadata) : str :=
  match value with
  | CollectMetadata_No => B "no"
  | CollectMetadata_Yes => B "yes"
  end.

Section Call.
Context `{Libraries}.

(** [api/user/set_settings/v1_3.hpp:51-54 Response] *)
Record Response := { }.
Definition new_Response : Response :=
  Build_Response.

(** [api/user/set_settings/v1_3.cpp:92-103 Impl::ParseResponse] *)
Definition ParseResponse : ResponseBase -> Response -> ResponseBase * Response :=
  parse_response [].

(** [api/user/set_settings/v1_3.cpp:53-53 api_path] *)
Definition api_path : str := B "/api/1.3/user/set_settings".

(** [api/user/set_settings/v1_3.cpp:57-78 Impl] *)
Record Impl := {
  previous_file_versions_ : option Z;
  default_share_link_status_ : option ShareLinkStatus;
  collect_metadata_ : option CollectMetadata }.
#[local] Instance Impl_members : Members Impl := fun v =>
  Build_Impl (previous_file_versions_ v) (default_share_link_status_ v) (collect_metadata_ v).

(** [api/user/set_settings/v1_3.cpp:80-82 Impl::Impl] *)
Definition new_Impl : Impl :=
  {| previous_file_versions_ := None; default_share_link_status_ := None;
     collect_metadata_ := None |}.

(** [api/user/set_settings/v1_3.cpp:165-168 Request::SetPreviousFileVersions] *)
Definition SetPreviousFileVersions (previous_file_versions : Z) (i : Impl) : Impl :=
  set_field previous_file_versions_ (Some previous_file_versions) i.

(** [api/user/set_settings/v1_3.cpp:170-173 Request::SetDefaultShareLinkStatus] *)
Definition SetDefaultShareLinkStatus (default_share_link_status : ShareLinkStatus) (i : Impl) : Impl :=
  set_field default_share_link_status_ (Some default_share_link_status) i.

(** [api/user/set_settings/v1_3.cpp:175-178 Request::SetCollectMetadata] *)
Definition SetCollectMetadata (collect_metadata : CollectMetadata) (i : Impl) : Impl :=
  set_field collect_metadata_ (Some collect_metadata) i.

(** [api/user/set_settings/v1_3.cpp:84-90 Impl::BuildUrl] *)
Definition BuildUrl (query_parts : list query_part) : str * list query_part :=
  (api_path ++ B ".php", query_parts).

(** [api/user/set_settings/v1_3.cpp:74-77 Impl::GetRequestMethod] *)
Definition GetRequestMethod : RequestMethod := Post.

(** The assignments to [parts].
    [api/user/set_settings/v1_3.cpp:105-119 Impl::GetPostData] *)
Definition post_parts (i : Impl) : list query_part := make_parts
  [("previous_file_versions", print_int <$> previous_file_versions_ i);
   ("default_share_link_status", AsString_ShareLinkStatus <$> default_share_link_status_ i);
   ("collect_metadata", AsString_CollectMetadata <$> collect_metadata_ i)].

(** [api/user/set_settings/v1_3.cpp:105-119 Impl::GetPostData] *)
Definition GetPostData (MD5 : str -> str) (a : SessionTokenApi) (i : Impl) : str :=
  MakePost MD5 a (api_path ++ B ".php") (post_parts i).

(** *** The description *)

(** [api/templates/apis/user/v1_3/set_settings.json:1-56 return_params] *)
Definition Response_described : description Response := [].

(** [api/templates/apis/user/v1_3/set_settings.json:5-21 ShareLinkStatus] *)
Definition AsDescribed_ShareLinkStatus (value : ShareLinkStatus) : str :=
  match value with
  | ShareLinkStatus_Disabled => B "disabled"
  | ShareLinkStatus_Enabled => B "enabled"
  | ShareLinkStatus_Inherit => B "inherit"
  end.

(** [api/templates/apis/user/v1_3/set_settings.json:22-34 CollectMetadata] *)
Definition AsDescribed_CollectMetadata (value : CollectMetadata) : str :=
  match value with
  | CollectMetadata_No => B "no"
  | CollectMetadata_Yes => B "yes"
  end.

(** [api/templates/apis/user/v1_3/set_settings.json:36-55 input_params] *)
Definition params_described (i : Impl) : list (string * option str) :=
  [("previous_file_versions", print_int <$> previous_file_versions_ i);
   ("default_share_link_status", (AsDescribed_ShareLinkStatus) <$> default_share_link_status_ i);
   ("collect_metadata", (AsDescribed_CollectMetadata) <$> collect_metadata_ i)].

#[global] Instance Response_parses :
  ParsesResponse ParseResponse new_Response Response_described.
Proof. parse_class. Qed.

Definition call : api_call := {|
  call_method := GetRequestMethod;
  call_uses_token := true;
  call_BuildUrl := BuildUrl;
  call_parts := post_parts;
  call_GetPostData := GetPostData;
  call_new := new_Response;
  call_ParseResponse := ParseResponse |}.

#[global] Instance call_implements :
  ImplementsCall call "/api/1.3/user/set_settings" true params_described Response_described.
Proof. implement_call. Qed.

End Call.
End user_set_settings_v1_3.

(** ** [api/user/unlink_facebook/v0.cpp] *)
Module user_unlink_facebook_v0.

Section Call.
Context `{Libraries}.

(** [api/user/unlink_facebook/v0.hpp:33-36 Response] *)
Record Response := { }.
Definition new_Response : Response :=
  Build_Response.

(** [api/user/unlink_facebook/v0.cpp:68-79 Impl::ParseResponse] *)
Definition ParseResponse : ResponseBase -> Response -> ResponseBase * Response :=
  parse_response [].

(** [api/user/unlink_facebook/v0.cpp:32-32 api_path] *)
Definition api_path : str := B "/api/user/unlink_facebook".

(** [api/user/unlink_facebook/v0.cpp:36-54 Impl] *)
Record Impl := { }.

(** [api/user/unlink_facebook/v0.cpp:56-58 Impl::Impl] *)
Definition new_Impl : Impl :=
  Build_Impl.

(** [api/user/unlink_facebook/v0.cpp:60-66 Impl::BuildUrl] *)
Definition BuildUrl (query_parts : list query_part) : str * list query_part :=
  (api_path ++ B ".php", query_parts).

(** [api/user/unlink_facebook/v0.cpp:50-53 Impl::GetRequestMethod] *)
Definition GetRequestMethod : RequestMethod := Post.

(** The assignments to [parts].
    [api/user/unlink_facebook/v0.cpp:81-89 Impl::GetPostData] *)
Definition post_parts (i : Impl) : list query_part := make_parts
  [].

(** [api/user/unlink_facebook/v0.cpp:81-89 Impl::GetPostData] *)
Definition GetPostData (MD5 : str -> str) (a : SessionTokenApi) (i : Impl) : str :=
  MakePost MD5 a (api_path ++ B ".php") (post_parts i).

(** *** The description *)

(** [api/templates/apis/user/v0/unlink_facebook.json:1-4 return_params] *)
Definition Response_described : description Response := [].

(** [api/templates/apis/user/v0/unlink_facebook.json:1-4 input_params] *)
Definition params_described (i : Impl) : list (string * option str) :=
  [].

#[global] Instance Response_parses :
  ParsesResponse ParseResponse new_Response Response_described.
Proof. parse_class. Qed.

Definition call : api_call := {|
  call_method := GetRequestMethod;
  call_uses_token := true;
  call_BuildUrl := BuildUrl;
  call_parts := post_parts;
  call_GetPostData := GetPostData;
  call_new := new_Response;
  call_ParseResponse := ParseResponse |}.

#[global] Instance call_implements :
  ImplementsCall call "/api/user/unlink_facebook" true params_described Response_described.
Proof. implement_call. Qed.

End Call.
End user_unlink_facebook_v0.

(** ** [api/user/unlink_facebook/v1_3.cpp] *)
Module user_unlink_facebook_v1_3.

Section Call.
Context `{Libraries}.

(** [api/user/unlink_facebook/v1_3.hpp:33-36 Response] *)
Record Response := { }.
Definition new_Response : Response :=
  Build_Response.

(** [api/user/unlink_facebook/v1_3.cpp:68-79 Impl::ParseResponse] *)
Definition ParseResponse : ResponseBase -> Response -> ResponseBase * Response :=
  parse_response [].

(** [api/user/unlink_facebook/v1_3.cpp:32-32 api_path] *)
Definition api_path : str := B "/api/1.3/user/unlink_facebook".

(** [api/user/unlink_facebook/v1_3.cpp:36-54 Impl] *)
Record Impl := { }.

(** [api/user/unlink_facebook/v1_3.cpp:56-58 Impl::Impl] *)
Definition new_Impl : Impl :=
  Build_Impl.

(** [api/user/unlink_facebook/v1_3.cpp:60-66 Impl::BuildUrl] *)
Definition BuildUrl (query_parts : list query_part) : str * list query_part :=
  (api_path ++ B ".php", query_parts).

(** [api/user/unlink_facebook/v1_3.cpp:50-53 Impl::GetRequestMethod] *)
Definition GetRequestMethod : RequestMethod := Post.

(** The assignments to [parts].
    [api/user/unlink_facebook/v1_3.cpp:81-89 Impl::GetPostData] *)
Definition post_parts (i : Impl) : list query_part := make_parts
  [].

(** [api/user/unlink_facebook/v1_3.cpp:81-89 Impl::GetPostData] *)
Definition GetPostData (MD5 : str -> str) (a : SessionTokenApi) (i : Impl) : str :=
  MakePost MD5 a (api_path ++ B ".php") (post_parts i).

(** *** The description *)

(** [api/templates/apis/user/v1_3/unlink_facebook.json:1-4 return_params] *)
Definition Response_described : description Response := [].

(** [api/templates/apis/user/v1_3/unlink_facebook.json:1-4 input_params] *)
Definition params_described (i : Impl) : list (string * option str) :=
  [].

#[global] Instance Response_parses :
  ParsesResponse ParseResponse new_Response Response_described.
Proof. parse_class. Qed.

Definition call : api_call := {|
  call_method := GetRequestMethod;
  call_uses_token := true;
  call_BuildUrl := BuildUrl;
  call_parts := post_parts;
  call_GetPostData := GetPostData;
  call_new := new_Response;
  call_ParseResponse := ParseResponse |}.

#[global] Instance call_implements :
  ImplementsCall call "/api/1.3/user/unlink_facebook" true params_described Response_described.
Proof. implement_call. Qed.

End Call.
End user_unlink_facebook_v1_3.

(** ** [api/user/unlink_twitter/v0.cpp] *)
Module user_unlink_twitter_v0.

Section Call.
Context `{Libraries}.

(** [api/user/unlink_twitter/v0.hpp:33-36 Response] *)
Record Response := { }.
Definition new_Response : Response :=
  Build_Response.

(** [api/user/unlink_twitter/v0.cpp:68-79 Impl::ParseResponse] *)
Definition ParseResponse : ResponseBase -> Response -> ResponseBase * Response :=
  parse_response [].

(** [api/user/unlink_twitter/v0.cpp:32-32 api_path] *)
Definition api_path : str := B "/api/user/unlink_twitter".

(** [api/user/unlink_twitter/v0.cpp:36-54 Impl] *)
Record Impl := { }.

(** [api/user/unlink_twitter/v0.cpp:56-58 Impl::Impl] *)
Definition new_Impl : Impl :=
  Build_Impl.

(** [api/user/unlink_twitter/v0.cpp:60-66 Impl::BuildUrl] *)
Definition BuildUrl (query_parts : list query_part) : str * list query_part :=
  (api_path ++ B ".php", query_parts).

(** [api/user/unlink_twitter/v0.cpp:50-53 Impl::GetRequestMethod] *)
Definition GetRequestMethod : RequestMethod := Post.

(** The assignments to [parts].
    [api/user/unlink_twitter/v0.cpp:81-89 Impl::GetPostData] *)
Definition post_parts (i : Impl) : list query_part := make_parts
  [].

(** [api/user/unlink_twitter/v0.cpp:81-89 Impl::GetPostData] *)
Definition GetPostData (MD5 : str -> str) (a : SessionTokenApi) (i : Impl) : str :=
  MakePost MD5 a (api_path ++ B ".php") (post_parts i).

(** *** The description *)

(** [api/templates/apis/user/v0/unlink_twitter.json:1-4 return_params] *)
Definition Response_described : description Response := [].

(** [api/templates/apis/user/v0/unlink_twitter.json:1-4 input_params] *)
Definition params_described (i : Impl) : list (string * option str) :=
  [].

#[global] Instance Response_parses :
  ParsesResponse ParseResponse new_Response Response_described.
Proof. parse_class. Qed.

Definition call : api_call := {|
  call_method := GetRequestMethod;
  call_uses_token := true;
  call_BuildUrl := BuildUrl;
  call_parts := post_parts;
  call_GetPostData := GetPostData;
  call_new := new_Response;
  call_ParseResponse := ParseResponse |}.

#[global] Instance call_implements :
  ImplementsCall call "/api/user/unlink_twitter" true params_described Response_described.
Proof. implement_call. Qed.

End Call.
End user_unlink_twitter_v0.

(** ** [api/user/unlink_twitter/v1_3.cpp] *)
Module user_unlink_twitter_v1_3.

Section Call.
Context `{Libraries}.

(** [api/user/unlink_twitter/v1_3.hpp:33-36 Response] *)
Record Response := { }.
Definition new_Response : Response :=
  Build_Response.

(** [api/user/unlink_twitter/v1_3.cpp:68-79 Impl::ParseResponse] *)
Definition ParseResponse : ResponseBase -> Response -> ResponseBase * Response :=
  parse_response [].

(** [api/user/unlink_twitter/v1_3.cpp:32-32 api_path] *)
Definition api_path : str := B "/api/1.3/user/unlink_twitter".

(** [api/user/unlink_twitter/v1_3.cpp:36-54 Impl] *)
Record Impl := { }.

(** [api/user/unlink_twitter/v1_3.cpp:56-58 Impl::Impl] *)
Definition new_Impl : Impl :=
  Build_Impl.

(** [api/user/unlink_twitter/v1_3.cpp:60-66 Impl::BuildUrl] *)
Definition BuildUrl (query_parts : list query_part) : str * list query_part :=
  (api_path ++ B ".php", query_parts).

(** [api/user/unlink_twitter/v1_3.cpp:50-53 Impl::GetRequestMethod] *)
Definition GetRequestMethod : RequestMethod := Post.

(** The assignments to [parts].
    [api/user/unlink_twitter/v1_3.cpp:81-89 Impl::GetPostData] *)
Definition post_parts (i : Impl) : list query_part := make_parts
  [].

(** [api/user/unlink_twitter/v1_3.cpp:81-89 Impl::GetPostData] *)
Definition GetPostData (MD5 : str -> str) (a : SessionTokenApi) (i : Impl) : str :=
  MakePost MD5 a (api_path ++ B ".php") (post_parts i).

(** *** The description *)

(** [api/templates/apis/user/v1_3/unlink_twitter.json:1-4 return_params] *)
Definition Response_described : description Response := [].

(** [api/templates/apis/user/v1_3/unlink_twitter.json:1-4 input_params] *)
Definition params_described (i : Impl) : list (string * option str) :=
  [].

#[global] Instance Response_parses :
  ParsesResponse ParseResponse new_Response Response_described.
Proof. parse_class. Qed.

Definition call : api_call := {|
  call_method := GetRequestMethod;
  call_uses_token := true;
  call_BuildUrl := BuildUrl;
  call_parts := post_parts;
  call_GetPostData := GetPostData;
  call_new := new_Response;
  call_ParseResponse := ParseResponse |}.

#[global] Instance call_implements :
  ImplementsCall call "/api/1.3/user/unlink_twitter" true params_described Response_described.
Proof. implement_call. Qed.

End Call.
End user_unlink_twitter_v1_3.

(** ** [api/user/update/v1_3.cpp] *)
Module user_update_v1_3.

(** [api/user/update/v1_3.hpp:29-37 Gender] *)
Inductive Gender : Set := Gender_Male | Gender_Female | Gender_None.
#[global] Instance Gender_inhabited : Inhabited Gender := populate Gender_Male.

(** [api/user/update/v1_3.hpp:39-45 ReceiveNewsletter] *)
Inductive ReceiveNewsletter : Set := ReceiveNewsletter_No | ReceiveNewsletter_Yes.
#[global] Instance ReceiveNewsletter_inhabited : Inhabited ReceiveNewsletter :=
  populate ReceiveNewsletter_No.

(** [api/user/update/v1_3.hpp:47-57 PrimaryUsage] *)
Inductive PrimaryUsage : Set :=
  PrimaryUsage_None | PrimaryUsage_Home | PrimaryUsage_Work | PrimaryUsage_School.
#[global] Instance PrimaryUsage_inhabited : Inhabited PrimaryUsage := populate PrimaryUsage_None.

(** [api/user/update/v1_3.cpp:24-33 AsString] *)
Definition AsString_Gender (value : Gender) : str :=
  match value with
  | Gender_Male => B "male"
  | Gender_Female => B "female"
  | Gender_None => B "none"
  end.

(** [api/user/update/v1_3.cpp:34-41 AsString] *)
Definition AsString_ReceiveNewsletter (value : ReceiveNewsletter) : str :=
  match value with
  | ReceiveNewsletter_No => B "no"
  | ReceiveNewsletter_Yes => B "yes"
  end.

(** [api/user/update/v1_3.cpp:42-53 AsString] *)
Definition AsString_PrimaryUsage (value : PrimaryUsage) : str :=
  match value with
  | PrimaryUsage_None => B "none"
  | PrimaryUsage_Home => B "home"
  | PrimaryUsage_Work => B "work"
  | PrimaryUsage_School => B "school"
  end.

Section Call.
Context `{Libraries}.

(** [api/user/update/v1_3.hpp:63-66 Response] *)
Record Response := { }.
Definition new_Response : Response :=
  Build_Response.

(** [api/user/update/v1_3.cpp:116-127 Impl::ParseResponse] *)
Definition ParseResponse : ResponseBase -> Response -> ResponseBase * Response :=
  parse_response [].

(** [api/user/update/v1_3.cpp:65-65 api_path] *)
Definition api_path : str := B "/api/1.3/user/update".

(** [api/user/update/v1_3.cpp:69-102 Impl] *)
Record Impl := {
  current_password_ : option str;
  subdomain_ : option str;
  company_name_ : option str;
  email_ : option str;
  password_ : option str;
  first_name_ : option str;
  last_name_ : option str;
  display_name_ : option str;
  birth_date_ : option str;
  gender_ : option Gender;
  website_ : option str;
  location_ : option str;
  receive_newsletter_ : option ReceiveNewsletter;
  primary_usage_ : option PrimaryUsage;
  timezone_ : option str }.
#[local] Instance Impl_members : Members Impl := fun v =>
  Build_Impl (current_password_ v) (subdomain_ v) (company_name_ v) (email_ v) (password_ v)
    (first_name_ v) (last_name_ v) (display_name_ v) (birth_date_ v) (gender_ v) (website_ v)
    (location_ v) (receive_newsletter_ v) (primary_usage_ v) (timezone_ v).

(** [api/user/update/v1_3.cpp:104-106 Impl::Impl] *)
Definition new_Impl : Impl :=
  {| current_password_ := None; subdomain_ := None; company_name_ := None; email_ := None;
     password_ := None; first_name_ := None; last_name_ := None; display_name_ := None;
     birth_date_ := None; gender_ := None; website_ := None; location_ := None;
     receive_newsletter_ := None; primary_usage_ := None; timezone_ := None |}.

(** [api/user/update/v1_3.cpp:213-216 Request::SetCurrentPassword] *)
Definition SetCurrentPassword (current_password : str) (i : Impl) : Impl :=
  set_field current_password_ (Some current_password) i.

(** [api/user/update/v1_3.cpp:218-221 Request::SetSubdomain] *)
Definition SetSubdomain (subdomain : str) (i : Impl) : Impl :=
  set_field subdomain_ (Some subdomain) i.

(** [api/user/update/v1_3.cpp:223-226 Request::SetCompanyName] *)
Definition SetCompanyName (company_name : str) (i : Impl) : Impl :=
  set_field company_name_ (Some company_name) i.

(** [api/user/update/v1_3.cpp:228-231 Request::SetEmail] *)
Definition SetEmail (email : str) (i : Impl) : Impl := set_field email_ (Some email) i.

(** [api/user/update/v1_3.cpp:233-236 Request::SetPassword] *)
Definition SetPassword (password : str) (i : Impl) : Impl :=
  set_field password_ (Some password) i.

(** [api/user/update/v1_3.cpp:238-241 Request::SetFirstName] *)
Definition SetFirstName (first_name : str) (i : Impl) : Impl :=
  set_field first_name_ (Some first_name) i.

(** [api/user/update/v1_3.cpp:243-246 Request::SetLastName] *)
Definition SetLastName (last_name : str) (i : Impl) : Impl :=
  set_field last_name_ (Some last_name) i.

(** [api/user/update/v1_3.cpp:248-251 Request::SetDisplayName] *)
Definition SetDisplayName (display_name : str) (i : Impl) : Impl :=
  set_field display_name_ (Some display_name) i.

(** [api/user/update/v1_3.cpp:253-256 Request::SetBirthDate] *)
Definition SetBirthDate (birth_date : str) (i : Impl) : Impl :=
  set_field birth_date_ (Some birth_date) i.

(** [api/user/update/v1_3.cpp:258-261 Request::SetGender] *)
Definition SetGender (gender : Gender) (i : Impl) : Impl := set_field gender_ (Some gender) i.

(** [api/user/update/v1_3.cpp:263-266 Request::SetWebsite] *)
Definition SetWebsite (website : str) (i : Impl) : Impl := set_field website_ (Some website) i.

(** [api/user/update/v1_3.cpp:268-271 Request::SetLocation] *)
Definition SetLocation (location : str) (i : Impl) : Impl :=
  set_field location_ (Some location) i.

(** [api/user/update/v1_3.cpp:273-276 Request::SetReceiveNewsletter] *)
Definition SetReceiveNewsletter (receive_newsletter : ReceiveNewsletter) (i : Impl) : Impl :=
  set_field receive_newsletter_ (Some receive_newsletter) i.

(** [api/user/update/v1_3.cpp:278-281 Request::SetPrimaryUsage] *)
Definition SetPrimaryUsage (primary_usage : PrimaryUsage) (i : Impl) : Impl :=
  set_field primary_usage_ (Some primary_usage) i.

(** [api/user/update/v1_3.cpp:283-286 Request::SetTimezone] *)
Definition SetTimezone (timezone : str) (i : Impl) : Impl :=
  set_field timezone_ (Some timezone) i.

(** [api/user/update/v1_3.cpp:108-114 Impl::BuildUrl] *)
Definition BuildUrl (query_parts : list query_part) : str * list query_part :=
  (api_path ++ B ".php", query_parts).

(** [api/user/update/v1_3.cpp:98-101 Impl::GetRequestMethod] *)
Definition GetRequestMethod : RequestMethod := Post.

(** The assignments to [parts].
    [api/user/update/v1_3.cpp:129-167 Impl::GetPostData] *)
Definition post_parts (i : Impl) : list query_part := make_parts
  [("current_password", current_password_ i);
   ("subdomain", subdomain_ i);
   ("company_name", company_name_ i);
   ("email", email_ i);
   ("password", password_ i);
   ("first_name", first_name_ i);
   ("last_name", last_name_ i);
   ("display_name", display_name_ i);
   ("birth_date", birth_date_ i);
   ("gender", AsString_Gender <$> gender_ i);
   ("website", website_ i);
   ("location", location_ i);
   ("receive_newsletter", AsString_ReceiveNewsletter <$> receive_newsletter_ i);
   ("primary_usage", AsString_PrimaryUsage <$> primary_usage_ i);
   ("timezone", timezone_ i)].

(** [api/user/update/v1_3.cpp:129-167 Impl::GetPostData] *)
Definition GetPostData (MD5 : str -> str) (a : SessionTokenApi) (i : Impl) : str :=
  MakePost MD5 a (api_path ++ B ".php") (post_parts i).

(** *** The description *)

(** [api/templates/apis/user/v1_3/update.json:1-149 return_params] *)
Definition Response_described : description Response := [].

(** [api/templates/apis/user/v1_3/update.json:5-21 Gender] *)
Definition AsDescribed_Gender (value : Gender) : str :=
  match value with
  | Gender_Male => B "male"
  | Gender_Female => B "female"
  | Gender_None => B "none"
  end.

(** [api/templates/apis/user/v1_3/update.json:22-34 ReceiveNewsletter] *)
Definition AsDescribed_ReceiveNewsletter (value : ReceiveNewsletter) : str :=
  match value with
  | ReceiveNewsletter_No => B "no"
  | ReceiveNewsletter_Yes => B "yes"
  end.

(** [api/templates/apis/user/v1_3/update.json:35-55 PrimaryUsage] *)
Definition AsDescribed_PrimaryUsage (value : PrimaryUsage) : str :=
  match value with
  | PrimaryUsage_None => B "none"
  | PrimaryUsage_Home => B "home"
  | PrimaryUsage_Work => B "work"
  | PrimaryUsage_School => B "school"
  end.

(** [api/templates/apis/user/v1_3/update.json:57-148 input_params] *)
Definition params_described (i : Impl) : list (string * option str) :=
  [("current_password", current_password_ i);
   ("subdomain", subdomain_ i);
   ("company_name", company_name_ i);
   ("email", email_ i);
   ("password", password_ i);
   ("first_name", first_name_ i);
   ("last_name", last_name_ i);
   ("display_name", display_name_ i);
   ("birth_date", birth_date_ i);
   ("gender", (AsDescribed_Gender) <$> gender_ i);
   ("website", website_ i);
   ("location", location_ i);
   ("receive_newsletter", (AsDescribed_ReceiveNewsletter) <$> receive_newsletter_ i);
   ("primary_usage", (AsDescribed_PrimaryUsage) <$> primary_usage_ i);
   ("timezone", timezone_ i)].

#[global] Instance Response_parses :
  ParsesResponse ParseResponse new_Response Response_described.
Proof. parse_class. Qed.

Definition call : api_call := {|
  call_method := GetRequestMethod;
  call_uses_token := true;
  call_BuildUrl := BuildUrl;
  call_parts := post_parts;
  call_GetPostData := GetPostData;
  call_new := new_Response;
  call_ParseResponse := ParseResponse |}.

#[global] Instance call_implements :
  ImplementsCall call "/api/1.3/user/update" true params_described Response_described.
Proof. implement_call. Qed.

End Call.
End user_update_v1_3.

(** ** [api/user/user_register/v0.cpp] *)
Module user_user_register_v0.

Section Call.
Context `{Libraries}.

(** [api/user/user_register/v0.hpp:36-47 Response] *)
Record Response := {
  Response_email : str;
  Response_created_datetime : ptime;
  Response_pkey : str;
  Response_temporary_password : option str }.
#[local] Instance Response_members : Members Response := fun v =>
  Build_Response (Response_email v) (Response_created_datetime v) (Response_pkey v)
    (Response_temporary_password v).
Definition new_Response : Response :=
  {| Response_email := []; Response_created_datetime := not_a_date; Response_pkey := [];
     Response_temporary_password := None |}.

(** [api/user/user_register/v0.cpp:80-129 Impl::ParseResponse] *)
Definition ParseResponse : ResponseBase -> Response -> ResponseBase * Response :=
  parse_response
  [ required std_string "response.email" Response_email;
    required a_ptime "response.created" Response_created_datetime;
    required std_string "response.pkey" Response_pkey;
    optional std_string "response.temp_pw" Response_temporary_password].

(** [api/user/user_register/v0.cpp:32-32 api_path] *)
Definition api_path : str := B "/api/user/register".

(** [api/user/user_register/v0.cpp:36-63 Impl] *)
Record Impl := {
  application_id_ : str;
  email_ : option str;
  password_ : option str;
  fb_access_token_ : option str;
  first_name_ : option str;
  last_name_ : option str;
  display_name_ : option str }.
#[local] Instance Impl_members : Members Impl := fun v =>
  Build_Impl (application_id_ v) (email_ v) (password_ v) (fb_access_token_ v) (first_name_ v)
    (last_name_ v) (display_name_ v).

(** [api/user/user_register/v0.cpp:65-70 Impl::Impl] *)
Definition new_Impl (application_id : str) : Impl :=
  {| application_id_ := application_id; email_ := None; password_ := None;
     fb_access_token_ := None; first_name_ := None; last_name_ := None; display_name_ := None |}.

(** [api/user/user_register/v0.cpp:191-194 Request::SetEmail] *)
Definition SetEmail (email : str) (i : Impl) : Impl := set_field email_ (Some email) i.

(** [api/user/user_register/v0.cpp:196-199 Request::SetPassword] *)
Definition SetPassword (password : str) (i : Impl) : Impl :=
  set_field password_ (Some password) i.

(** [api/user/user_register/v0.cpp:201-204 Request::SetFbAccessToken] *)
Definition SetFbAccessToken (fb_access_token : str) (i : Impl) : Impl :=
  set_field fb_access_token_ (Some fb_access_token) i.

(** [api/user/user_register/v0.cpp:206-209 Request::SetFirstName] *)
Definition SetFirstName (first_name : str) (i : Impl) : Impl :=
  set_field first_name_ (Some first_name) i.

(** [api/user/user_register/v0.cpp:211-214 Request::SetLastName] *)
Definition SetLastName (last_name : str) (i : Impl) : Impl :=
  set_field last_name_ (Some last_name) i.

(** [api/user/user_register/v0.cpp:216-219 Request::SetDisplayName] *)
Definition SetDisplayName (display_name : str) (i : Impl) : Impl :=
  set_field display_name_ (Some display_name) i.

(** [api/user/user_register/v0.cpp:72-78 Impl::BuildUrl] *)
Definition BuildUrl (query_parts : list query_part) : str * list query_part :=
  (api_path ++ B ".php", query_parts).

(** [api/user/user_register/v0.cpp:59-62 Impl::GetRequestMethod] *)
Definition GetRequestMethod : RequestMethod := Post.

(** The assignments to [parts].
    [api/user/user_register/v0.cpp:131-152 Impl::GetPostData] *)
Definition post_parts (i : Impl) : list query_part := make_parts
  [("application_id", Some (application_id_ i));
   ("email", email_ i);
   ("password", password_ i);
   ("fb_access_token", fb_access_token_ i);
   ("first_name", first_name_ i);
   ("last_name", last_name_ i);
   ("display_name", display_name_ i)].

(** [api/user/user_register/v0.cpp:131-152 Impl::GetPostData] *)
Definition GetPostData (i : Impl) : str := TokenlessMakePost (post_parts i).

(** *** The description *)

(** [api/templates/apis/user/v0/register.json:44-70 return_params] *)
Definition Response_described : description Response :=
  [ Required string_at "response.email" Response_email;
    Required time_at "response.created" Response_created_datetime;
    Required string_at "response.pkey" Response_pkey;
    Optional string_at "response.temp_pw" Response_temporary_password].

(** [api/templates/apis/user/v0/register.json:5-43 input_params] *)
Definition params_described (i : Impl) : list (string * option str) :=
  [("application_id", Some (application_id_ i));
   ("email", email_ i);
   ("password", password_ i);
   ("fb_access_token", fb_access_token_ i);
   ("first_name", first_name_ i);
   ("last_name", last_name_ i);
   ("display_name", display_name_ i)].

#[global] Instance Response_parses :
  ParsesResponse ParseResponse new_Response Response_described.
Proof. parse_class. Qed.

Definition call : api_call := {|
  call_method := GetRequestMethod;
  call_uses_token := false;
  call_BuildUrl := BuildUrl;
  call_parts := post_parts;
  call_GetPostData := (fun _ _ => GetPostData);
  call_new := new_Response;
  call_ParseResponse := ParseResponse |}.

#[global] Instance call_implements :
  ImplementsCall call "/api/user/register" false params_described Response_described.
Proof. implement_call. Qed.

End Call.
End user_user_register_v0.

(** ** [api/user/user_register/v1_3.cpp] *)
Module user_user_register_v1_3.

Section Call.
Context `{Libraries}.

(** [api/user/user_register/v1_3.hpp:36-47 Response] *)
Record Response := {
  Response_email : str;
  Response_created_datetime : ptime;
  Response_pkey : str;
  Response_temporary_password : option str }.
#[local] Instance Response_members : Members Response := fun v =>
  Build_Response (Response_email v) (Response_created_datetime v) (Response_pkey v)
    (Response_temporary_password v).
Definition new_Response : Response :=
  {| Response_email := []; Response_created_datetime := not_a_date; Response_pkey := [];
     Response_temporary_password := None |}.

(** [api/user/user_register/v1_3.cpp:80-129 Impl::ParseResponse] *)
Definition ParseResponse : ResponseBase -> Response -> ResponseBase * Response :=
  parse_response
  [ required std_string "response.email" Response_email;
    required a_ptime "response.created" Response_created_datetime;
    required std_string "response.pkey" Response_pkey;
    optional std_string "response.temp_pw" Response_temporary_password].

(** [api/user/user_register/v1_3.cpp:32-32 api_path] *)
Definition api_path : str := B "/api/1.3/user/register".

(** [api/user/user_register/v1_3.cpp:36-63 Impl] *)
Record Impl := {
  application_id_ : str;
  email_ : option str;
  password_ : option str;
  fb_access_token_ : option str;
  first_name_ : option str;
  last_name_ : option str;
  display_name_ : option str }.
#[local] Instance Impl_members : Members Impl := fun v =>
  Build_Impl (application_id_ v) (email_ v) (password_ v) (fb_access_token_ v) (first_name_ v)
    (last_name_ v) (display_name_ v).

(** [api/user/user_register/v1_3.cpp:65-70 Impl::Impl] *)
Definition new_Impl (application_id : str) : Impl :=
  {| application_id_ := application_id; email_ := None; password_ := None;
     fb_access_token_ := None; first_name_ := None; last_name_ := None; display_name_ := None |}.

(** [api/user/user_register/v1_3.cpp:191-194 Request::SetEmail] *)
Definition SetEmail (email : str) (i : Impl) : Impl := set_field email_ (Some email) i.

(** [api/user/user_register/v1_3.cpp:196-199 Request::SetPassword] *)
Definition SetPassword (password : str) (i : Impl) : Impl :=
  set_field password_ (Some password) i.

(** [api/user/user_register/v1_3.cpp:201-204 Request::SetFbAccessToken] *)
Definition SetFbAccessToken (fb_access_token : str) (i : Impl) : Impl :=
  set_field fb_access_token_ (Some fb_access_token) i.

(** [api/user/user_register/v1_3.cpp:206-209 Request::SetFirstName] *)
Definition SetFirstName (first_name : str) (i : Impl) : Impl :=
  set_field first_name_ (Some first_name) i.

(** [api/user/user_register/v1_3.cpp:211-214 Request::SetLastName] *)
Definition SetLastName (last_name : str) (i : Impl) : Impl :=
  set_field last_name_ (Some last_name) i.

(** [api/user/user_register/v1_3.cpp:216-219 Request::SetDisplayName] *)
Definition SetDisplayName (display_name : str) (i : Impl) : Impl :=
  set_field display_name_ (Some display_name) i.

(** [api/user/user_register/v1_3.cpp:72-78 Impl::BuildUrl] *)
Definition BuildUrl (query_parts : list query_part) : str * list query_part :=
  (api_path ++ B ".php", query_parts).

(** [api/user/user_register/v1_3.cpp:59-62 Impl::GetRequestMethod] *)
Definition GetRequestMethod : RequestMethod := Post.

(** The assignments to [parts].
    [api/user/user_register/v1_3.cpp:131-152 Impl::GetPostData] *)
Definition post_parts (i : Impl) : list query_part := make_parts
  [("application_id", Some (application_id_ i));
   ("email", email_ i);
   ("password", password_ i);
   ("fb_access_token", fb_access_token_ i);
   ("first_name", first_name_ i);
   ("last_name", last_name_ i);
   ("display_name", display_name_ i)].

(** [api/user/user_register/v1_3.cpp:131-152 Impl::GetPostData] *)
Definition GetPostData (i : Impl) : str := TokenlessMakePost (post_parts i).

(** *** The description *)

(** [api/templates/apis/user/v1_3/register.json:44-70 return_params] *)
Definition Response_described : description Response :=
  [ Required string_at "response.email" Response_email;
    Required time_at "response.created" Response_created_datetime;
    Required string_at "response.pkey" Response_pkey;
    Optional string_at "response.temp_pw" Response_temporary_password].

(** [api/templates/apis/user/v1_3/register.json:5-43 input_params] *)
Definition params_described (i : Impl) : list (string * option str) :=
  [("application_id", Some (application_id_ i));
   ("email", email_ i);
   ("password", password_ i);
   ("fb_access_token", fb_access_token_ i);
   ("first_name", first_name_ i);
   ("last_name", last_name_ i);
   ("display_name", display_name_ i)].

#[global] Instance Response_parses :
  ParsesResponse ParseResponse new_Response Response_described.
Proof. parse_class. Qed.

Definition call : api_call := {|
  call_method := GetRequestMethod;
  call_uses_token := false;
  call_BuildUrl := BuildUrl;
  call_parts := post_parts;
  call_GetPostData := (fun _ _ => GetPostData);
  call_new := new_Response;
  call_ParseResponse := ParseResponse |}.

#[global] Instance call_implements :
  ImplementsCall call "/api/1.3/user/register" false params_described Response_described.
Proof. implement_call. Qed.

End Call.
End user_user_register_v1_3.
