(* ===== verification/ApiCalls.v ===== *)
(** * All calls

    The classes of the calls with the descriptions that they were generated from.  Two classes
    have no description in [api/templates/apis]: device/get_foreign_changes of version 0 and
    folder/get_content of version 1.0. *)
From S2P Require Import Prelude ApiRequests Endpoint EndpointSpec EndpointProofs ApiBilling ApiContact ApiDevice ApiFile ApiFolder ApiNotifications ApiSystem ApiUpload ApiUser.

Section Calls.
Context `{Libraries}.

(** A class and its description: the path, whether it is signed with a session token, the
    parameters of the request, and the response. *)
Record described_call := describe {
  the_call : api_call;
  its_api : string;
  its_token : bool;
  its_parameters : call_Impl the_call -> list (string * option str);
  its_response : description (call_Response the_call) }.

Definition all_calls : list described_call :=
  [ describe billing_cancel_plan_v1_1.call "/api/1.1/billing/cancel_plan" true
      billing_cancel_plan_v1_1.params_described billing_cancel_plan_v1_1.Response_described;
    describe billing_change_plan_v1_1.call "/api/1.1/billing/change_plan" true
      billing_change_plan_v1_1.params_described billing_change_plan_v1_1.Response_described;
    describe billing_get_invoice_v1_1.call "/api/1.1/billing/get_invoice" true
      billing_get_invoice_v1_1.params_described billing_get_invoice_v1_1.Response_described;
    describe billing_get_plans_v1_1.call "/api/1.1/billing/get_plans" false
      billing_get_plans_v1_1.params_described billing_get_plans_v1_1.Response_described;
    describe billing_get_products_v1_1.call "/api/1.1/billing/get_products" false
      billing_get_products_v1_1.params_described billing_get_products_v1_1.Response_described;
    describe billing_purchase_plan_v1_1.call "/api/1.1/billing/purchase_plan" true
      billing_purchase_plan_v1_1.params_described billing_purchase_plan_v1_1.Response_described;
    describe contact_add_v1_1.call "/api/1.1/contact/add" true
      contact_add_v1_1.params_described contact_add_v1_1.Response_described;
    describe contact_fetch_v0.call "/api/contact/fetch" true
      contact_fetch_v0.params_described contact_fetch_v0.Response_described;
    describe device_get_changes_v0.call "/api/device/get_changes" true
      device_get_changes_v0.params_described device_get_changes_v0.Response_described;
    describe device_get_foreign_changes_v1_3.call "/api/1.3/device/get_foreign_changes" true
      device_get_foreign_changes_v1_3.params_described device_get_foreign_changes_v1_3.Response_described;
    describe device_get_foreign_resources_v0.call "/api/device/get_foreign_resources" true
      device_get_foreign_resources_v0.params_described device_get_foreign_resources_v0.Response_described;
    describe device_get_patch_v0.call "/api/device/get_patch" true
      device_get_patch_v0.params_described device_get_patch_v0.Response_described;
    describe device_get_resource_shares_v0.call "/api/device/get_resource_shares" true
      device_get_resource_shares_v0.params_described device_get_resource_shares_v0.Response_described;
    describe device_get_status_v0.call "/api/device/get_status" true
      device_get_status_v0.params_described device_get_status_v0.Response_described;
    describe device_get_updates_v0.call "/api/device/get_updates" true
      device_get_updates_v0.params_described device_get_updates_v0.Response_described;
    describe device_get_user_shares_v0.call "/api/device/get_user_shares" true
      device_get_user_shares_v0.params_described device_get_user_shares_v0.Response_described;
    describe device_share_resources_v0.call "/api/device/share_resources" true
      device_share_resources_v0.params_described device_share_resources_v0.Response_described;
    describe device_unshare_resource_v0.call "/api/device/unshare_resource" true
      device_unshare_resource_v0.params_described device_unshare_resource_v0.Response_described;
    describe file_configure_one_time_key_v1_1.call "/api/1.1/file/configure_one_time_key" true
      file_configure_one_time_key_v1_1.params_described file_configure_one_time_key_v1_1.Response_described;
    describe file_configure_one_time_key_v1_3.call "/api/1.3/file/configure_one_time_key" true
      file_configure_one_time_key_v1_3.params_described file_configure_one_time_key_v1_3.Response_described;
    describe file_copy_v0.call "/api/file/copy" true
      file_copy_v0.params_described file_copy_v0.Response_described;
    describe file_copy_v1_3.call "/api/1.3/file/copy" true
      file_copy_v1_3.params_described file_copy_v1_3.Response_described;
    describe file_create_v0.call "/api/file/create" true
      file_create_v0.params_described file_create_v0.Response_described;
    describe file_create_v1_2.call "/api/1.2/file/create" true
      file_create_v1_2.params_described file_create_v1_2.Response_described;
    describe file_create_v1_3.call "/api/1.3/file/create" true
      file_create_v1_3.params_described file_create_v1_3.Response_described;
    describe file_file_delete_v0.call "/api/file/delete" true
      file_file_delete_v0.params_described file_file_delete_v0.Response_described;
    describe file_file_delete_v1_3.call "/api/1.3/file/delete" true
      file_file_delete_v1_3.params_described file_file_delete_v1_3.Response_described;
    describe file_get_info_v0.call "/api/file/get_info" true
      file_get_info_v0.params_described file_get_info_v0.Response_described;
    describe file_get_info_v1_1.call "/api/1.1/file/get_info" true
      file_get_info_v1_1.params_described file_get_info_v1_1.Response_described;
    describe file_get_links_v0.call "/api/file/get_links" true
      file_get_links_v0.params_described file_get_links_v0.Response_described;
    describe file_get_links_v1_3.call "/api/1.3/file/get_links" true
      file_get_links_v1_3.params_described file_get_links_v1_3.Response_described;
    describe file_get_versions_v0.call "/api/file/get_versions" true
      file_get_versions_v0.params_described file_get_versions_v0.Response_described;
    describe file_get_versions_v1_3.call "/api/1.3/file/get_versions" true
      file_get_versions_v1_3.params_described file_get_versions_v1_3.Response_described;
    describe file_move_v0.call "/api/file/move" true
      file_move_v0.params_described file_move_v0.Response_described;
    describe file_move_v1_3.call "/api/1.3/file/move" true
      file_move_v1_3.params_described file_move_v1_3.Response_described;
    describe file_one_time_key_v1_1.call "/api/1.1/file/one_time_key" true
      file_one_time_key_v1_1.params_described file_one_time_key_v1_1.Response_described;
    describe file_one_time_key_v1_3.call "/api/1.3/file/one_time_key" true
      file_one_time_key_v1_3.params_described file_one_time_key_v1_3.Response_described;
    describe file_purge_v0.call "/api/file/purge" true
      file_purge_v0.params_described file_purge_v0.Response_described;
    describe file_purge_v1_3.call "/api/1.3/file/purge" true
      file_purge_v1_3.params_described file_purge_v1_3.Response_described;
    describe file_recently_modified_v0.call "/api/file/recently_modified" true
      file_recently_modified_v0.params_described file_recently_modified_v0.Response_described;
    describe file_recently_modified_v1_3.call "/api/1.3/file/recently_modified" true
      file_recently_modified_v1_3.params_described file_recently_modified_v1_3.Response_described;
    describe file_restore_v0.call "/api/file/restore" true
      file_restore_v0.params_described file_restore_v0.Response_described;
    describe file_restore_v1_3.call "/api/1.3/file/restore" true
      file_restore_v1_3.params_described file_restore_v1_3.Response_described;
    describe file_update_v0.call "/api/file/update" true
      file_update_v0.params_described file_update_v0.Response_described;
    describe file_update_v1_3.call "/api/1.3/file/update" true
      file_update_v1_3.params_described file_update_v1_3.Response_described;
    describe file_update_file_v0.call "/api/file/update_file" true
      file_update_file_v0.params_described file_update_file_v0.Response_described;
    describe file_update_file_v1_3.call "/api/1.3/file/update_file" true
      file_update_file_v1_3.params_described file_update_file_v1_3.Response_described;
    describe folder_copy_v0.call "/api/folder/copy" true
      folder_copy_v0.params_described folder_copy_v0.Response_described;
    describe folder_create_v0.call "/api/folder/create" true
      folder_create_v0.params_described folder_create_v0.Response_described;
    describe folder_folder_delete_v0.call "/api/folder/delete" true
      folder_folder_delete_v0.params_described folder_folder_delete_v0.Response_described;
    describe folder_get_content_v0.call "/api/folder/get_content" true
      folder_get_content_v0.params_described folder_get_content_v0.Response_described;
    describe folder_get_content_v1_2.call "/api/1.2/folder/get_content" true
      folder_get_content_v1_2.params_described folder_get_content_v1_2.Response_described;
    describe folder_get_info_v0.call "/api/folder/get_info" true
      folder_get_info_v0.params_described folder_get_info_v0.Response_described;
    describe folder_move_v0.call "/api/folder/move" true
      folder_move_v0.params_described folder_move_v0.Response_described;
    describe folder_update_v0.call "/api/folder/update" true
      folder_update_v0.params_described folder_update_v0.Response_described;
    describe notifications_get_cache_v0.call "/api/notifications/get_cache" true
      notifications_get_cache_v0.params_described notifications_get_cache_v0.Response_described;
    describe notifications_peek_cache_v0.call "/api/notifications/peek_cache" true
      notifications_peek_cache_v0.params_described notifications_peek_cache_v0.Response_described;
    describe system_get_editable_media_v0.call "/api/system/get_editable_media" false
      system_get_editable_media_v0.params_described system_get_editable_media_v0.Response_described;
    describe system_get_info_v0.call "/api/system/get_info" false
      system_get_info_v0.params_described system_get_info_v0.Response_described;
    describe system_get_limits_v0.call "/api/system/get_limits" false
      system_get_limits_v0.params_described system_get_limits_v0.Response_described;
    describe system_get_mime_types_v0.call "/api/system/get_mime_types" false
      system_get_mime_types_v0.params_described system_get_mime_types_v0.Response_described;
    describe system_get_status_v0.call "/api/system/get_status" false
      system_get_status_v0.params_described system_get_status_v0.Response_described;
    describe system_get_supported_media_v0.call "/api/system/get_supported_media" false
      system_get_supported_media_v0.params_described system_get_supported_media_v0.Response_described;
    describe system_get_version_v0.call "/api/system/get_version" false
      system_get_version_v0.params_described system_get_version_v0.Response_described;
    describe upload_add_web_upload_v1_3.call "/api/1.3/upload/add_web_upload" true
      upload_add_web_upload_v1_3.params_described upload_add_web_upload_v1_3.Response_described;
    describe upload_check_v0.call "/api/upload/check" true
      upload_check_v0.params_described upload_check_v0.Response_described;
    describe upload_check_v1_2.call "/api/1.2/upload/check" true
      upload_check_v1_2.params_described upload_check_v1_2.Response_described;
    describe upload_check_v1_3.call "/api/1.3/upload/check" true
      upload_check_v1_3.params_described upload_check_v1_3.Response_described;
    describe upload_get_web_uploads_v1_3.call "/api/1.3/upload/get_web_uploads" true
      upload_get_web_uploads_v1_3.params_described upload_get_web_uploads_v1_3.Response_described;
    describe upload_instant_v0.call "/api/upload/instant" true
      upload_instant_v0.params_described upload_instant_v0.Response_described;
    describe upload_instant_v1_3.call "/api/1.3/upload/instant" true
      upload_instant_v1_3.params_described upload_instant_v1_3.Response_described;
    describe upload_poll_upload_v0.call "/api/upload/poll_upload" true
      upload_poll_upload_v0.params_described upload_poll_upload_v0.Response_described;
    describe upload_poll_upload_v1_3.call "/api/1.3/upload/poll_upload" true
      upload_poll_upload_v1_3.params_described upload_poll_upload_v1_3.Response_described;
    describe upload_pre_upload_v0.call "/api/upload/pre_upload" true
      upload_pre_upload_v0.params_described upload_pre_upload_v0.Response_described;
    describe user_accept_tos_v1_3.call "/api/1.3/user/accept_tos" true
      user_accept_tos_v1_3.params_described user_accept_tos_v1_3.Response_described;
    describe user_destroy_action_token_v1_0.call "/api/1.0/user/destroy_action_token" true
      user_destroy_action_token_v1_0.params_described user_destroy_action_token_v1_0.Response_described;
    describe user_destroy_action_token_v1_3.call "/api/1.3/user/destroy_action_token" true
      user_destroy_action_token_v1_3.params_described user_destroy_action_token_v1_3.Response_described;
    describe user_fetch_tos_v1_3.call "/api/1.3/user/fetch_tos" true
      user_fetch_tos_v1_3.params_described user_fetch_tos_v1_3.Response_described;
    describe user_get_action_token_v1_0.call "/api/1.0/user/get_action_token" true
      user_get_action_token_v1_0.params_described user_get_action_token_v1_0.Response_described;
    describe user_get_action_token_v1_3.call "/api/1.3/user/get_action_token" true
      user_get_action_token_v1_3.params_described user_get_action_token_v1_3.Response_described;
    describe user_get_avatar_v1_3.call "/api/1.3/user/get_avatar" true
      user_get_avatar_v1_3.params_described user_get_avatar_v1_3.Response_described;
    describe user_get_info_v0.call "/api/user/get_info" true
      user_get_info_v0.params_described user_get_info_v0.Response_described;
    describe user_get_info_v1_3.call "/api/1.3/user/get_info" true
      user_get_info_v1_3.params_described user_get_info_v1_3.Response_described;
    describe user_get_limits_v0.call "/api/user/get_limits" true
      user_get_limits_v0.params_described user_get_limits_v0.Response_described;
    describe user_get_limits_v1_3.call "/api/1.3/user/get_limits" true
      user_get_limits_v1_3.params_described user_get_limits_v1_3.Response_described;
    describe user_get_settings_v1_3.call "/api/1.3/user/get_settings" true
      user_get_settings_v1_3.params_described user_get_settings_v1_3.Response_described;
    describe user_link_facebook_v0.call "/api/user/link_facebook" true
      user_link_facebook_v0.params_described user_link_facebook_v0.Response_described;
    describe user_link_facebook_v1_3.call "/api/1.3/user/link_facebook" true
      user_link_facebook_v1_3.params_described user_link_facebook_v1_3.Response_described;
    describe user_link_gmail_v1_3.call "/api/1.3/user/link_gmail" true
      user_link_gmail_v1_3.params_described user_link_gmail_v1_3.Response_described;
    describe user_link_twitter_v0.call "/api/user/link_twitter" true
      user_link_twitter_v0.params_described user_link_twitter_v0.Response_described;
    describe user_link_twitter_v1_3.call "/api/1.3/user/link_twitter" true
      user_link_twitter_v1_3.params_described user_link_twitter_v1_3.Response_described;
    describe user_set_avatar_v1_3.call "/api/1.3/user/set_avatar" true
      user_set_avatar_v1_3.params_described user_set_avatar_v1_3.Response_described;
    describe user_set_settings_v1_3.call "/api/1.3/user/set_settings" true
      user_set_settings_v1_3.params_described user_set_settings_v1_3.Response_described;
    describe user_unlink_facebook_v0.call "/api/user/unlink_facebook" true
      user_unlink_facebook_v0.params_described user_unlink_facebook_v0.Response_described;
    describe user_unlink_facebook_v1_3.call "/api/1.3/user/unlink_facebook" true
      user_unlink_facebook_v1_3.params_described user_unlink_facebook_v1_3.Response_described;
    describe user_unlink_twitter_v0.call "/api/user/unlink_twitter" true
      user_unlink_twitter_v0.params_described user_unlink_twitter_v0.Response_described;
    describe user_unlink_twitter_v1_3.call "/api/1.3/user/unlink_twitter" true
      user_unlink_twitter_v1_3.params_described user_unlink_twitter_v1_3.Response_described;
    describe user_update_v1_3.call "/api/1.3/user/update" true
      user_update_v1_3.params_described user_update_v1_3.Response_described;
    describe user_user_register_v0.call "/api/user/register" false
      user_user_register_v0.params_described user_user_register_v0.Response_described;
    describe user_user_register_v1_3.call "/api/1.3/user/register" false
      user_user_register_v1_3.params_described user_user_register_v1_3.Response_described].

Lemma all_calls_implemented :
  Forall (fun c => ImplementsCall (the_call c) (its_api c) (its_token c) (its_parameters c)
                     (its_response c)) all_calls.
Proof. unfold all_calls. repeat (apply Forall_cons_2; [apply _|]). apply Forall_nil_2. Qed.

End Calls.
