(* ===== verification/ApiCallsTheorems.v ===== *)
(** * All calls: replies and requests are as described

    The statements are about every class of a call and the description it was generated
    from; the proofs need of a class only that it implements its description. *)
From S2P Require Import Prelude Errors Boost UrlEncode ApiRequests PropertyTree ApiResponses ApiResponsesTheorems Endpoint EndpointSpec EndpointProofs ApiFile ApiCalls.

Open Scope Z_scope.

Section Theorems.
Context `{Libraries}.

(** What the callback of the call [c] gets for a reply of the server. *)
Definition reply_to (boost : Boost) (message : error_code -> str) (debug : str) (c : api_call)
    (url : str) (status_code : Z) (content : str) : ResponseBase * call_Response c :=
  HandleContent the_json boost message (call_Response c) (call_new c) debug
    (fun r => call_ParseResponse c r (call_new c)) url status_code content.

Section Reply.
Context (boost : Boost) (message : error_code -> str) (debug : str).

Lemma reply_fields c url status_code content :
  let r0 := InitializeWithContent the_json boost message url debug status_code content in
  let '(r, v) := reply_to boost message debug c url status_code content in
  if is_error (r_error_code the_json r0) then r = r0 /\ v = call_new c
  else
    let '(r1, v1) := call_ParseResponse c r0 (call_new c) in
    v = v1 /\ r_error_code the_json r = r_error_code the_json r1 /\
    r_error_string the_json r = r_error_string the_json r1.
Proof.
  cbn zeta. unfold reply_to, HandleContent. set (r0 := InitializeWithContent _ _ _ _ _ _ _).
  destruct (is_error (r_error_code the_json r0)); [done|].
  destruct (call_ParseResponse c r0 (call_new c)) as [r1 v1].
  destruct (is_error (r_error_code the_json r1)); [|done]. cbn.
  by destruct (r_error_string the_json r1) eqn:E; cbn; rewrite ?E.
Qed.

(** What a call promises about a reply, given its description. *)
Lemma described_reply c api token params d url status_code content :
  ImplementsCall c api token params d ->
  let '(r, v) := reply_to boost message debug c url status_code content in
  (forall pt, successful the_json boost status_code content ->
     read_json the_json content = inl pt -> well_formed d pt ->
     (accepted d pt /\ r_error_code the_json r = no_error /\
        r_error_string the_json r = None /\ decoded d pt v) \/
     (~ accepted d pt /\ failed r)) /\
  (~ successful the_json boost status_code content ->
     is_error (failure_code the_json status_code content) ->
     r_error_code the_json r = failure_code the_json status_code content /\
     r_error_string the_json r <> None /\ v = call_new c).
Proof.
  intros Hc. pose proof (reply_fields c url status_code content) as Hr.
  pose proof (initialized the_json boost message url debug status_code content) as Hi.
  pose proof (initialized_tree the_json boost message url debug status_code content) as Ht.
  cbn zeta in Hr, Hi. set (r0 := InitializeWithContent _ _ _ _ _ _ _) in *.
  destruct (reply_to _ _ _ c url status_code content) as [r v].
  destruct Hi as (_ & Hs & Hok & Hf). split.
  - intros pt Hsu Hpt Hw. rewrite (Hok Hsu) in Hr. cbn in Hr. specialize (Ht pt Hpt).
    destruct (implements_response (ImplementsCall:=Hc)) as [Hp _].
    specialize (Hp r0). rewrite Ht in Hp. cbn zeta in Hp.
    destruct (Hp Hw) as [(Ha & v1 & E & Hd)|[Ha Hfail]].
    + rewrite E in Hr. destruct Hr as (-> & -> & ->). left. rewrite (Hok Hsu), (proj2 Hs Hsu). done.
    + destruct (call_ParseResponse c r0 (call_new c)) as [r1 v1].
      destruct Hr as (-> & Hr1 & Hr2). right. split; [done|]. unfold failed. by rewrite Hr1, Hr2.
  - intros Hsu He. rewrite (Hf Hsu) in Hr. destruct (is_error _); [|done].
    destruct Hr as [-> ->]. split; [by apply Hf|]. split; [|done]. by intros ?%Hs.
Qed.

(** A reply that failed with the code 0 is read like a successful one. *)
Lemma described_code_zero c api token params d url status_code content pt :
  ImplementsCall c api token params d ->
  ~ successful the_json boost status_code content ->
  ~ is_error (failure_code the_json status_code content) ->
  read_json the_json content = inl pt -> well_formed d pt ->
  let '(r, v) := reply_to boost message debug c url status_code content in
  (accepted d pt /\ r_error_code the_json r = failure_code the_json status_code content /\
     r_error_string the_json r <> None /\ decoded d pt v) \/
  (~ accepted d pt /\ failed r).
Proof.
  intros Hc Hsu He Hpt Hw. pose proof (reply_fields c url status_code content) as Hr.
  pose proof (initialized the_json boost message url debug status_code content) as Hi.
  pose proof (initialized_tree the_json boost message url debug status_code content pt Hpt) as Ht.
  cbn zeta in Hr, Hi. set (r0 := InitializeWithContent _ _ _ _ _ _ _) in *.
  destruct (reply_to _ _ _ c url status_code content) as [r v].
  destruct Hi as (_ & Hs & _ & Hf). specialize (Hf Hsu). rewrite Hf in Hr.
  destruct (is_error _); [by destruct He|].
  destruct (implements_response (ImplementsCall:=Hc)) as [Hp _].
  specialize (Hp r0). rewrite Ht in Hp. cbn zeta in Hp.
  destruct (Hp Hw) as [(Ha & v1 & E & Hd)|[Ha Hfail]].
  - rewrite E in Hr. destruct Hr as (-> & -> & ->). left. rewrite Hf. split_and!; try done.
    by intros ?%Hs.
  - destruct (call_ParseResponse c r0 (call_new c)) as [r1 v1].
    destruct Hr as (-> & Hr1 & Hr2). right. split; [done|]. unfold failed. by rewrite Hr1, Hr2.
Qed.

End Reply.

(** C15 For every call and every reply of the server: a successful reply whose tree the
    description of the call accepts gives a response without an error, with every member as
    the description reads it from the tree; one that it does not accept, in which a required
    member is missing or not of its type, gives the error that the content is invalid, with
    a text.  Any other reply whose error code is not 0 gives that error, with a text, and a
    response in which nothing is set.  One whose error code is 0, which the server can send
    as [response.error], is read like a successful one although it failed, if its content
    can be parsed: a tree that the description accepts gives the members, with the code 0
    and a text.  Trees in which an element of a required array is an empty branch are left
    out. *)
Theorem replies_as_described :
  Forall (fun c => forall boost message debug url status_code content,
    let '(r, v) := reply_to boost message debug (the_call c) url status_code content in
    (forall pt, successful the_json boost status_code content ->
       read_json the_json content = inl pt -> well_formed (its_response c) pt ->
       (accepted (its_response c) pt /\ r_error_code the_json r = no_error /\
          r_error_string the_json r = None /\ decoded (its_response c) pt v) \/
       (~ accepted (its_response c) pt /\ failed r)) /\
    (~ successful the_json boost status_code content ->
       is_error (failure_code the_json status_code content) ->
       r_error_code the_json r = failure_code the_json status_code content /\
       r_error_string the_json r <> None /\ v = call_new (the_call c)) /\
    (forall pt, ~ successful the_json boost status_code content ->
       ~ is_error (failure_code the_json status_code content) ->
       read_json the_json content = inl pt -> well_formed (its_response c) pt ->
       (accepted (its_response c) pt /\
          r_error_code the_json r = failure_code the_json status_code content /\
          r_error_string the_json r <> None /\ decoded (its_response c) pt v) \/
       (~ accepted (its_response c) pt /\ failed r))) all_calls.
Proof.
  eapply Forall_impl; [exact all_calls_implemented|]. intros c Hc boost message debug url
    status_code content. cbv beta in Hc.
  pose proof (described_reply boost message debug _ _ _ _ _ url status_code content Hc) as Hd.
  pose proof (fun pt => described_code_zero boost message debug _ _ _ _ _ url status_code content
    pt Hc) as Hz.
  destruct (reply_to _ _ _ _ _ _ _) as [r v]. by destruct Hd.
Qed.

(** ** Requests *)

(** The parts of POST data, as the server reads them. *)
Definition read_post (body : str) : option (list query_part) :=
  match body with [] => Some [] | _ => parse_query percent_plus_Decode body end.

Lemma read_post_parse body parts :
  parse_query percent_plus_Decode body = Some parts -> read_post body = Some parts.
Proof. by destruct body. Qed.

Lemma tokenless_post_parses parts : Forall (Forall plain) parts.*1 ->
  read_post (TokenlessMakePost parts) = Some parts.
Proof.
  destruct parts as [|it parts]; [done|]. rewrite Forall_fmap. intros [Hit Hp]%Forall_cons.
  apply read_post_parse. exact (query_parse id PlusYes it parts Hit Hp).
Qed.

Lemma session_post_parses MD5 a path parts :
  Forall plain (session_token_ a) -> Forall (Forall plain) parts.*1 ->
  exists query,
    MakePost MD5 a path parts =
      query ++ B "&signature=" ++ GetSignature MD5 a (path ++ "?"%char :: query) /\
    read_post (MakePost MD5 a path parts) =
      Some ((B "session_token", session_token_ a) :: parts ++
        [(B "signature", GetSignature MD5 a (path ++ "?"%char :: query))]).
Proof.
  rewrite Forall_fmap. intros Htok Hkeys.
  destruct (post_request_parses MD5 a path parts Htok Hkeys) as (query & Hp & Hq).
  exists query. split; [exact Hp|]. by apply read_post_parse.
Qed.

(** The data of a call that posts, as its description has it. *)
Definition described_post (c : described_call) (MD5 : str -> str) (a : SessionTokenApi)
    (i : call_Impl (the_call c)) (body : str) : Prop :=
  exists parts,
    (forall key value, (key, value) ∈ parts <->
       exists k, key = B k /\ (k, Some value) ∈ its_parameters c i) /\
    StronglySorted str_lt parts.*1 /\
    if its_token c then
      exists query sig, body = query ++ B "&signature=" ++ sig /\
        sig = GetSignature MD5 a ((B (its_api c) ++ B ".php") ++ "?"%char :: query) /\
        read_post body =
          Some ((B "session_token", session_token_ a) :: parts ++ [(B "signature", sig)])
    else read_post body = Some parts.

Lemma call_described_post c MD5 a i :
  ImplementsCall (the_call c) (its_api c) (its_token c) (its_parameters c) (its_response c) ->
  call_method (the_call c) = Post -> Forall plain (session_token_ a) ->
  described_post c MD5 a i (call_GetPostData (the_call c) MD5 a i).
Proof.
  intros Hc Hpost Htok. exists (call_parts (the_call c) i).
  split; [apply Hc|]. split; [apply Hc|].
  rewrite (implements_post (ImplementsCall:=Hc) MD5 a i Hpost).
  pose proof (implements_keys (ImplementsCall:=Hc) i) as Hk. destruct (its_token c).
  - destruct (session_post_parses MD5 a (B (its_api c) ++ B ".php") _ Htok Hk) as (query & Hp & Hq).
    eexists query, _. split; [exact Hp|]. split; [done|exact Hq].
  - by apply tokenless_post_parses.
Qed.

(** C16 The data that a call posts is read back by the server as the parameters of its
    description: those that are set, each once, in the order of their names, and no others;
    a call that needs a session token has the token before them and after them the
    signature of the path of the description with the data as posted. *)
Theorem requests_as_described :
  Forall (fun c => forall MD5 a i,
    call_method (the_call c) = Post -> Forall plain (session_token_ a) ->
    exists parts,
      (forall key value, (key, value) ∈ parts <->
         exists k, key = B k /\ (k, Some value) ∈ its_parameters c i) /\
      StronglySorted str_lt parts.*1 /\
      let body := call_GetPostData (the_call c) MD5 a i in
      if its_token c then
        exists query sig, body = query ++ B "&signature=" ++ sig /\
          sig = GetSignature MD5 a ((B (its_api c) ++ B ".php") ++ "?"%char :: query) /\
          read_post body =
            Some ((B "session_token", session_token_ a) :: parts ++ [(B "signature", sig)])
      else read_post body = Some parts) all_calls.
Proof.
  eapply Forall_impl; [exact all_calls_implemented|]. intros c Hc MD5 a i Hpost Htok.
  exact (call_described_post c MD5 a i Hc Hpost Htok).
Qed.

(** ** An empty element of a required array

    The comment in the loop of a required array says that the error has been set where an
    element was not parsed; for an empty element it has not. *)

Lemma push_all_structs_cut {S} (p : branch_parser S) optarg d `{!Parses p optarg d}
    pre e post r to :
  Forall (fun it => not_empty_branch it /\ accepted d it) pre -> ~ not_empty_branch e ->
  exists ss, push_all_structs p optarg (pre ++ e :: post) r to = (false, r, to ++ ss) /\
    Forall2 (decoded d) pre ss.
Proof.
  intros Hpre He. revert to. induction Hpre as [|it pre [Hne Ha] _ IH]; intros to; cbn.
  - exists []. rewrite (parses_empty r e He), app_nil_r. done.
  - destruct (parses_cases r it Hne (parses_regular it Ha)) as [(_ & s & -> & Hs)|[? _]]; [|done].
    destruct (IH (to ++ [s])) as (ss & -> & Hss). exists (s :: ss).
    rewrite <-app_assoc. split; [done|]. by constructor.
Qed.

(** A reply of file/get_links with an empty element in its links is cut there: the links
    before it are returned, those after it and everything that follows in the reply are not,
    and there is no error. *)
Theorem links_cut_at_empty_element r branch pre e post :
  get_child the_json (r_pt the_json r) (B "response.links") = Some branch ->
  children the_json branch = pre ++ e :: post ->
  Forall (fun it => not_empty_branch it /\ accepted file_get_links_v1_3.Links_described it) pre ->
  ~ not_empty_branch e ->
  exists v,
    file_get_links_v1_3.ParseResponse r file_get_links_v1_3.new_Response = (r, v) /\
    Forall2 (decoded file_get_links_v1_3.Links_described) pre (file_get_links_v1_3.Response_links v) /\
    file_get_links_v1_3.Response_one_time_download_request_count v = 0 /\
    file_get_links_v1_3.Response_direct_download_free_bandwidth v = 0.
Proof.
  intros Hb Hc Hpre He.
  destruct (push_all_structs_cut file_get_links_v1_3.LinksFromPropertyBranch
    file_get_links_v1_3.new_Links file_get_links_v1_3.Links_described pre e post r [] Hpre He)
    as (ss & E & Hss).
  eexists. unfold file_get_links_v1_3.ParseResponse, parse_response. cbn [block assign].
  unfold required_structs. rewrite Hb, Hc. cbn -[push_all_structs]. rewrite E. done.
Qed.

End Theorems.
