(* ===== verification/ApiSession.v ===== *)
(** * The calls that log in ([api/user/get_session_token], [api/user/get_login_token],
    [api/user/renew_session_token], [api/app_constants.cpp])

    These classes are written by hand.  They have no session token: the credentials and the
    application are signed instead. *)
From S2P Require Import Prelude Errors SessionLocker Boost UrlEncode ApiRequests PropertyTree ApiResponses ApiResponsesTheorems Endpoint EndpointSpec EndpointProofs.

Open Scope Z_scope.

Section Signatures.
(** OpenSSL's SHA-1, and the constants of the application. *)
Context (SHA1 : str -> str) (kAppId kAppKey : str).

(** [utils/sha1_hasher.cpp:33-65 HashSha1] *)
Definition HashSha1 (s : str) : str := SHA1 s ≫= hex_byte.

(** [api/app_constants.cpp:32-61 BuildSignature] *)
Definition BuildSignature (token : str) : str := HashSha1 (token ++ kAppId ++ kAppKey).

(** [std::map::emplace]: a key that is there keeps its value. *)
Definition emplace (key : string) (value : str) (parts : list query_part) : list query_part :=
  if decide (B key ∈ parts.*1) then parts else set_part (B key) value parts.

(** [api/user/get_session_token/v1_3.cpp:40-87 CredentialsParts] *)
Definition CredentialsParts (credentials : Credentials) : list query_part :=
  match credentials with
  | Email email password =>
      emplace "signature" (BuildSignature (email ++ password))
        (emplace "password" password (emplace "email" email []))
  | Ekey ekey password =>
      emplace "signature" (BuildSignature (ekey ++ password))
        (emplace "password" password (emplace "ekey" ekey []))
  | Facebook fb_access_token =>
      emplace "signature" (BuildSignature fb_access_token)
        (emplace "fb_access_token" fb_access_token [])
  end.

(** [query_parts.insert(first, last)] *)
Definition insert_parts (parts from : list query_part) : list query_part :=
  foldl (fun parts it =>
           if decide (fst it ∈ parts.*1) then parts else set_part (fst it) (snd it) parts)
    parts from.

(** [api/user/get_session_token/v1_3.cpp:27-38 AssembleQueryParts] *)
Definition AssembleQueryParts (parts : list query_part) : str := add_parts percent_Encode parts.

(** [api/user/get_session_token/v1_3.hpp:28-32 TokenVersion] *)
Inductive TokenVersion := TV_One | TV_Two.

(** [api/user/get_session_token/v1_3.cpp:88-95 AsString] *)
Definition AsString_TokenVersion (value : TokenVersion) : str :=
  match value with TV_One => B "1" | TV_Two => B "2" end.

(** [api/user/get_session_token/v1_3.hpp:94-98 Request] *)
Record TokenRequest := { credentials_ : Credentials; token_version_ : TokenVersion }.

(** [api/user/get_session_token/v1_3.cpp:98-102 Request::Request] *)
Definition new_TokenRequest (credentials : Credentials) : TokenRequest :=
  {| credentials_ := credentials; token_version_ := TV_Two |}.

(** [api/user/get_session_token/v1_3.hpp:92-92 SetTokenVersion] *)
Definition SetTokenVersion (version : TokenVersion) (r : TokenRequest) : TokenRequest :=
  {| credentials_ := credentials_ r; token_version_ := version |}.

(** [api/user/get_session_token/v1_3.cpp:106-126 Request::Url] *)
Definition token_query_parts (r : TokenRequest) : list query_part :=
  let parts := if decide (kAppId = []) then [] else emplace "application_id" kAppId [] in
  let parts := emplace "token_version" (AsString_TokenVersion (token_version_ r)) parts in
  let parts := emplace "response_format" (B "json") parts in
  insert_parts parts (CredentialsParts (credentials_ r)).

(** [api/user/get_session_token/v1_3.cpp:104-132 Request::Url] *)
Definition get_session_token_v1_3_Url (hostname : str) (r : TokenRequest) : str :=
  B "https://" ++ hostname ++ B "/api/1.3/user/get_session_token.php" ++
  AssembleQueryParts (token_query_parts r).

(** [api/user/get_session_token/v0.cpp:104-132 Request::Url] *)
Definition get_session_token_v0_Url (hostname : str) (r : TokenRequest) : str :=
  B "https://" ++ hostname ++ B "/api/user/get_session_token.php" ++
  AssembleQueryParts (token_query_parts r).

(** [api/user/get_login_token.cpp:89-111 Request::Url] *)
Definition get_login_token_Url (hostname : str) (credentials : Credentials) : str :=
  let parts := if decide (kAppId = []) then [] else emplace "application_id" kAppId [] in
  let parts := emplace "response_format" (B "json") parts in
  B "https://" ++ hostname ++ B "/api/user/get_login_token.php" ++
  AssembleQueryParts (insert_parts parts (CredentialsParts credentials)).

End Signatures.

(** [api/user/renew_session_token.cpp:28-40 Request::Url] *)
Definition renew_session_token_Url (hostname session_token : str) : str :=
  B "https://" ++ hostname ++ B "/api/user/renew_session_token.php" ++
  B "?session_token=" ++ percent_Encode session_token ++ B "&response_format=json".

Section Replies.
Context `{Libraries} (boost : Boost) (message : error_code -> str).

(** [api/user/get_session_token/v1_3.hpp:38-53 Response] *)
Record TokenReply := {
  Response_session_token : str;
  Response_ekey : str;
  Response_pkey : str;
  Response_time : str;
  Response_secret_key : Z }.
#[local] Instance TokenReply_members : Members TokenReply := fun v =>
  Build_TokenReply (Response_session_token v) (Response_ekey v) (Response_pkey v)
    (Response_time v) (Response_secret_key v).
Definition new_TokenReply : TokenReply :=
  {| Response_session_token := []; Response_ekey := []; Response_pkey := [];
     Response_time := []; Response_secret_key := indeterminate Z _ |}.

(** [api/user/get_session_token/v1_3.cpp:134-168 Request::HandleContent] *)
Definition get_session_token_HandleContent (url : str) (status_code : Z) (content : str) :
    ResponseBase * TokenReply :=
  let r := InitializeWithContent the_json boost message url [] status_code content in
  let pt := r_pt the_json r in
  let v := new_TokenReply in
  let v := if GetIfExists the_json pt (B "response.pkey") is Some x
           then set_field Response_pkey x v else v in
  let v := if GetIfExistsNumber the_json int32 pt (B "response.secret_key") is Some x
           then set_field Response_secret_key x v else v in
  let v := if GetIfExists the_json pt (B "response.time") is Some x
           then set_field Response_time x v else v in
  if is_error (r_error_code the_json r) then (r, v)
  else
    let '(r, v) :=
      match GetIfExists the_json pt (B "response.session_token") with
      | Some x => (r, set_field Response_session_token x v)
      | None => (return_error (B "missing session token") r, v)
      end in
    match GetIfExists the_json pt (B "response.ekey") with
    | Some x => (r, set_field Response_ekey x v)
    | None => (return_error (missing "response.ekey") r, v)
    end.

(** [api/user/get_session_token/v1_3.cpp:170-180 Request::HandleError] *)
Definition get_session_token_HandleError (url : str) (ec : error_code) (error_string : str) :
    ResponseBase * TokenReply :=
  (InitializeWithError the_json message url [] ec error_string, new_TokenReply).

(** The token and [pkey].
    [api/user/get_login_token.cpp:113-147 Request::HandleContent] *)
Definition get_login_token_HandleContent (url : str) (status_code : Z) (content : str) :
    ResponseBase * (str * str) :=
  let r := InitializeWithContent the_json boost message url [] status_code content in
  let pt := r_pt the_json r in
  if is_error (r_error_code the_json r) then (r, ([], []))
  else
    let pkey := default [] (GetIfExists the_json pt (B "response.pkey")) in
    match GetIfExists the_json pt (B "response.login_token") with
    | Some login_token => (r, (login_token, pkey))
    | None => (return_error (B "missing session token") r, ([], pkey))
    end.

(** [api/user/renew_session_token.cpp:42-74 Request::HandleContent] *)
Definition renew_session_token_HandleContent (url : str) (status_code : Z) (content : str) :
    ResponseBase * str :=
  let r := InitializeWithContent the_json boost message url [] status_code content in
  if is_error (r_error_code the_json r) then (r, [])
  else
    match GetIfExists the_json (r_pt the_json r) (B "response.session_token") with
    | Some session_token => (r, session_token)
    | None => (return_error (B "missing session token") r, [])
    end.

(** What the callback of user/get_session_token gets for a successful reply: an error exactly if
    there is no session token or no ekey; otherwise both, and of the rest what is there.  A
    missing secret key is no error, and the member keeps the value that it had before it was
    initialised. *)
Theorem session_token_reply url status_code content pt :
  successful the_json boost status_code content -> read_json the_json content = inl pt ->
  let '(r, v) := get_session_token_HandleContent url status_code content in
  (r_error_string the_json r = None <->
     is_Some (string_at pt (B "response.session_token")) /\
     is_Some (string_at pt (B "response.ekey"))) /\
  (r_error_string the_json r = None ->
     r_error_code the_json r = no_error /\
     string_at pt (B "response.session_token") = Some (Response_session_token v) /\
     string_at pt (B "response.ekey") = Some (Response_ekey v)) /\
  (r_error_string the_json r <> None -> failed r) /\
  Response_pkey v = default [] (string_at pt (B "response.pkey")) /\
  Response_time v = default [] (string_at pt (B "response.time")) /\
  Response_secret_key v =
    default (indeterminate Z _) (number_at int32 pt (B "response.secret_key")).
Proof.
  intros Hsu Hpt. unfold get_session_token_HandleContent.
  pose proof (initialized the_json boost message url [] status_code content) as Hi.
  pose proof (initialized_tree the_json boost message url [] status_code content pt Hpt) as Ht.
  cbn zeta in Hi. set (r0 := InitializeWithContent _ _ _ _ _ _ _) in *. clearbody r0.
  destruct Hi as (_ & Hs & Hok & _). apply proj2 in Hs. specialize (Hs Hsu).
  specialize (Hok Hsu). rewrite Ht, Hok, !GetIfExists_string_at. cbn zeta.
  change (GetIfExistsNumber the_json int32 pt) with (number_at int32 pt).
  destruct (string_at pt (B "response.session_token")), (string_at pt (B "response.ekey"));
    destruct (string_at pt (B "response.pkey")), (string_at pt (B "response.time")),
      (number_at int32 pt (B "response.secret_key")); cbn; rewrite ?Hs, ?Hok;
    (split_and!; [split; [|try done]; try (by intros [=]); try (by intros [[? [=]] ?]); try (by intros [? [? [=]]])|done..]).
Qed.

End Replies.

Section Login.
Context (SHA1 : str -> str) (kAppId kAppKey : str).

#[local] Abbreviation signature_of token := (HashSha1 SHA1 (token ++ kAppId ++ kAppKey)).

(** What the credentials are as parameters, with their signature. *)
Definition credential_parameters (credentials : Credentials) : list (string * str) :=
  match credentials with
  | Email email password =>
      [("email", email); ("password", password); ("signature", signature_of (email ++ password))]
  | Ekey ekey password =>
      [("ekey", ekey); ("password", password); ("signature", signature_of (ekey ++ password))]
  | Facebook token => [("fb_access_token", token); ("signature", signature_of token)]
  end.

(** The parameters of the call that gets a session token. *)
Definition token_parameters (r : TokenRequest) : list (string * str) :=
  (if decide (kAppId = []) then [] else [("application_id", kAppId)]) ++
  [("token_version", AsString_TokenVersion (token_version_ r)); ("response_format", B "json")] ++
  credential_parameters (credentials_ r).

#[local] Abbreviation ordered parts := (StronglySorted str_lt parts.*1).

Lemma emplace_ordered k v m : ordered m -> ordered (emplace k v m).
Proof. unfold emplace. case_decide; [done|]. apply set_part_ordered. Qed.

Lemma insert_parts_ordered m from : ordered m -> ordered (insert_parts m from).
Proof.
  revert m. induction from as [|it from IH]; intros m Hm; [done|]. cbn. apply IH.
  case_decide; [done|]. by apply set_part_ordered.
Qed.

Lemma fresh_elem k v m it : ordered m -> k ∉ m.*1 ->
  it ∈ set_part k v m <-> it = (k, v) \/ it ∈ m.
Proof.
  intros Hm Hk. rewrite set_part_elem by done. split; [tauto|]. intros [?|Hin]; [by left|].
  right. split; [|done]. intros <-. apply Hk, list_elem_of_fmap. by exists it.
Qed.

Lemma emplace_elem k v m it : ordered m -> B k ∉ m.*1 ->
  it ∈ emplace k v m <-> it = (B k, v) \/ it ∈ m.
Proof. intros Hm Hk. unfold emplace. rewrite decide_False by done. by apply fresh_elem. Qed.

Lemma insert_parts_elem m from it : ordered m -> NoDup (m.*1 ++ from.*1) ->
  it ∈ insert_parts m from <-> it ∈ m \/ it ∈ from.
Proof.
  revert m. induction from as [|[k v] from IH]; intros m Hm Hnd; cbn.
  { rewrite elem_of_nil. tauto. }
  cbn in Hnd. assert (k ∉ m.*1) as Hk.
  { intros Hin. apply NoDup_app in Hnd as (_ & Hnd & _). apply (Hnd k Hin). by left. }
  rewrite decide_False by done. rewrite IH.
  - rewrite fresh_elem, elem_of_cons by done. tauto.
  - by apply set_part_ordered.
  - apply NoDup_app in Hnd as (Hm1 & Hd & [Hkf Hf]%NoDup_cons). apply NoDup_app. split_and!; [| |done].
    + assert (forall l, k ∉ l.*1 -> NoDup l.*1 -> NoDup (set_part k v l).*1) as Hset; [|by apply Hset].
      clear. induction l as [|[k' v'] l IH]; cbn; [by repeat constructor; set_solver|].
      intros Hk Hl. apply not_elem_of_cons in Hk as [Hk Hkl].
      rewrite decide_False by done. destruct (str_lt k k'); cbn.
      { constructor; [|done]. by apply not_elem_of_cons. }
      apply NoDup_cons in Hl as [Hkl' Hl]. constructor; [|by apply IH].
      intros [->|?]%set_part_keys; done.
    + intros x [->|Hx]%set_part_keys; [done|]. intros Hxf. apply (Hd x Hx). by right.
Qed.

#[local] Ltac fresh_key := apply (bool_decide_unpack _); vm_compute; exact I.
#[local] Ltac in_order :=
  repeat first [apply insert_parts_ordered | apply emplace_ordered]; apply SSorted_nil.

Lemma token_query_parts_spec r :
  (forall it, it ∈ token_query_parts SHA1 kAppId kAppKey r <->
     it ∈ prod_map B id <$> token_parameters r) /\
  ordered (token_query_parts SHA1 kAppId kAppKey r) /\
  Forall (fun it => Forall plain (fst it)) (token_query_parts SHA1 kAppId kAppKey r) /\
  token_query_parts SHA1 kAppId kAppKey r <> [].
Proof.
  assert (forall it, it ∈ token_query_parts SHA1 kAppId kAppKey r <->
     it ∈ prod_map B id <$> token_parameters r) as He.
  { intros it. unfold token_query_parts, token_parameters, CredentialsParts, credential_parameters,
      BuildSignature.
    generalize (AsString_TokenVersion (token_version_ r)) as version. intros version.
    destruct (credentials_ r) as [email password|ekey password|token];
      generalize (signature_of (email ++ password)) || generalize (signature_of (ekey ++ password))
        || generalize (signature_of token); intros sig;
      destruct (decide (kAppId = [])) as [_|_];
      rewrite insert_parts_elem by (in_order || fresh_key);
      rewrite !emplace_elem by (in_order || fresh_key);
      rewrite ?fmap_app, ?elem_of_app; cbn [fmap list_fmap prod_map fst snd id];
      rewrite !elem_of_cons, ?elem_of_nil; tauto. }
  split; [exact He|]. split; [in_order || (unfold token_query_parts; case_decide; in_order)|]. split.
  - apply Forall_forall. intros it Hin%He.
    apply list_elem_of_fmap in Hin as ([k v] & -> & Hin). cbn. apply plain_name.
    assert (Forall (fun it : string * str => plain_key (fst it) = true) (token_parameters r)) as Hall.
    { unfold token_parameters, credential_parameters. destruct (credentials_ r), (decide (kAppId = []));
        repeat constructor. }
    rewrite Forall_forall in Hall. exact (Hall _ Hin).
  - intros E. apply (not_elem_of_nil (B "response_format", B "json")). rewrite <-E, He.
    unfold token_parameters. rewrite !fmap_app. set_solver.
Qed.

(** The URL that gets a session token has the parameters of its credentials, each once and in
    order, as the server reads them, among them the signature of the credentials with the
    identifier and the key of the application. *)
Theorem login_request_signed hostname r :
  "?"%char ∉ hostname ->
  exists query parts,
    split_at "?" (get_session_token_v1_3_Url SHA1 kAppId kAppKey hostname r) =
      Some (B "https://" ++ hostname ++ B "/api/1.3/user/get_session_token.php", query) /\
    parse_query percent_Decode query = Some parts /\
    (forall it, it ∈ parts <-> it ∈ prod_map B id <$> token_parameters r) /\
    StronglySorted str_lt parts.*1.
Proof.
  intros Hh. destruct (token_query_parts_spec r) as (He & Ho & Hk & Hne).
  unfold get_session_token_v1_3_Url, AssembleQueryParts.
  destruct (token_query_parts SHA1 kAppId kAppKey r) as [|it parts]; [done|].
  destruct (tokenless_request_parses id
    (B "https://" ++ hostname ++ B "/api/1.3/user/get_session_token.php") it parts) as [(query & Hs & Hq) _].
  - rewrite !elem_of_app. intros [Hin|[?|Hin]]; [|done|]; revert Hin; fresh_key.
  - done.
  - exists query, (it :: parts). split_and!; [|done..].
    unfold TokenlessMakePathAndQuery in Hs. by rewrite <-!app_assoc in Hs.
Qed.

End Login.
