(* ===== verification/ApiExamples.v ===== *)
(** * The calls on concrete replies

    A property tree as an inductive type, the other libraries as simple functions, and the
    theorems about the calls applied to concrete replies and requests. *)
From S2P Require Import Prelude Errors SessionLocker Boost UrlEncode ApiRequests PropertyTree ApiResponses ApiResponsesTheorems Endpoint EndpointSpec EndpointProofs ApiFile ApiFolder ApiCalls ApiCallsTheorems ApiSession.

Open Scope Z_scope.

Module Replies.

(** The key under which a node is, its text and what is below it. *)
#[warnings="-register-all"]
Inductive tree := Node (key text : str) (branches : list tree).

Definition key_of '(Node key _ _) : str := key.
Definition below '(Node _ _ branches) : list tree := branches.

Definition find_branch (key : str) (t : tree) : option tree :=
  head (filter (fun it => key_of it = key) (below t)).

Definition find_path (t : tree) (path : str) : option tree :=
  foldl (fun t key => t ≫= find_branch key) (Some t) (split_on "." path).

Definition digit (c : ascii) : option Z :=
  if (48 <=? byteZ c) && (byteZ c <=? 57) then Some (byteZ c - 48) else None.

Definition decimal (s : str) : option Z :=
  if decide (s = []) then None
  else digits ← mapM digit s; Some (foldl (fun n d => 10 * n + d) 0 digits).

Definition under (key : string) '(Node _ text branches) : tree := Node (B key) text branches.
Definition leaf (s : string) : tree := Node [] (B s) [].
Definition object (l : list (string * tree)) : tree :=
  Node [] [] ((fun it => under (fst it) (snd it)) <$> l).
Definition array (l : list tree) : tree := Node [] [] l.

(** The replies that the parser of the example knows. *)
Definition json (replies : list (str * tree)) : Json :=
  {| ptree := tree; no_tree := Node [] [] [];
     read_json s := match head (filter (fun it => fst it = s) replies) with
                    | Some it => inl (snd it) | None => inr (B "expected value") end;
     write_json t := [];
     get_child := find_path;
     children := below;
     data '(Node _ text _) := text;
     to_number w s := decimal s |}.

Definition time : PosixTime :=
  {| time_point := option str; not_a_date_time := None; time_point_eq_dec := _;
     time_from_string s := Some (Some s); from_iso_string s := None;
     local_to_utc t := t; to_iso_extended_string t := default [] t |}.

Definition file (name : string) : tree :=
  object [("created", leaf "2014-07-01 10:00:00"); ("downloads", leaf "3");
          ("filename", leaf name); ("size", leaf "18446744073709551615");
          ("filetype", leaf "text"); ("flag", leaf "1"); ("hash", leaf "e3b0");
          ("links", object [("view", leaf "http://h/view")]);
          ("password_protected", leaf "no"); ("privacy", leaf "public");
          ("quickkey", leaf "q1"); ("revision", leaf "7"); ("shared", leaf "yes");
          ("views", leaf "0")].

Definition listing (files : list tree) : tree :=
  object [("response", object
    [("result", leaf "Success");
     ("folder_content", object
        [("chunk_size", leaf "100"); ("content_type", leaf "files");
         ("chunk_number", leaf "1"); ("more_chunks", leaf "no");
         ("files", array files)])])].

Definition link (quickkey : string) : tree := object [("quickkey", leaf quickkey)].

Definition links : tree :=
  object [("response", object
    [("result", leaf "Success"); ("links", array [link "a"; leaf ""; link "b"]);
     ("one_time_download_request_count", leaf "5")])].

Definition login : tree :=
  object [("response", object
    [("result", leaf "Success"); ("session_token", leaf "0af3"); ("ekey", leaf "e1")])].

(** Two files; a file that has nothing but a name; links with an empty element; a session
    token without a secret key. *)
Definition two_files : tree := listing [file "a.txt"; file "b.txt"].
Definition no_size : tree := listing [object [("filename", leaf "a.txt")]].

#[export] Instance libraries : Libraries :=
  {| the_json := json [(B "two files", two_files); (B "no size", no_size); (B "links", links);
                        (B "login", login)];
     the_time := time;
     indeterminate := fun T i => inhabitant |}.

Definition silent (ec : error_code) : str := [].

(** Listing a folder: the call, and what its callback gets for a content. *)
Definition get_content : described_call :=
  describe folder_get_content_v1_2.call "/api/1.2/folder/get_content" true
    folder_get_content_v1_2.params_described folder_get_content_v1_2.Response_described.

Definition get (content : string) :=
  reply_to c_locale silent [] folder_get_content_v1_2.call (B "https://h/a") 200 (B content).

Lemma get_content_known : get_content ∈ all_calls.
Proof. by repeat constructor. Qed.

Lemma successful_reply content :
  match read_json the_json (B content) with
  | inl pt => PropertyHasValueCaseInsensitive the_json c_locale pt (B "response.result")
                (B "success")
  | inr _ => false
  end = true ->
  successful the_json c_locale 200 (B content).
Proof.
  intros Hb. split; [done|]. destruct (read_json the_json (B content)) as [pt|]; [|done].
  by exists pt.
Qed.

(** The replies give a response where they should. *)
Example two_files_listed :
  (fun it => folder_get_content_v1_2.File_filename it) <$>
    folder_get_content_v1_2.Response_files (get "two files").2 = [B "a.txt"; B "b.txt"].
Proof. by vm_compute. Qed.

Example no_size_fails : r_error_string the_json (get "no size").1 = Some (missing "created").
Proof. by vm_compute. Qed.

(** Every branch is well formed for a description without required arrays. *)
Ltac all_regular :=
  repeat first
    [ apply Forall_nil_2 | apply Forall_cons_2 | exact I
    | progress cbn [regular Required Optional Default OptionalArray RequiredArray]
    | match goal with
      | |- regular (OptionalStruct _ _ _) _ => intros ? _ _
      | |- regular (RequiredStruct _ _ _) _ => intros ? _ _
      | |- regular (OptionalStructs _ _ _) _ => intros ? _; apply Forall_true; intros ?
      end
    | match goal with |- well_formed ?d _ => unfold well_formed, d end ].

Lemma listing_well_formed pt : well_formed folder_get_content_v1_2.Response_described pt.
Proof. all_regular. Qed.

End Replies.
Import Replies.

Lemma replies_as_described_witness :
  (let '(r, v) := get "two files" in
   r_error_code the_json r = no_error /\
   decoded folder_get_content_v1_2.Response_described two_files v) /\
  failed (get "no size").1.
Proof.
  pose proof (proj1 (Forall_forall _ _) replies_as_described get_content get_content_known
    c_locale silent [] (B "https://h/a") 200) as Hr. split.
  - specialize (Hr (B "two files")). unfold get.
    destruct (reply_to _ _ _ _ _ _ (B "two files")) as [r v] eqn:E.
    destruct Hr as [Hr _]. destruct (Hr two_files) as [(_ & ? & _ & ?)|[_ [Hf _]]]; [| | |done|].
    + by apply successful_reply.
    + done.
    + apply listing_well_formed.
    + exfalso. apply (f_equal fst) in E. cbn [fst] in E. subst r. by vm_compute in Hf.
  - specialize (Hr (B "no size")). unfold get.
    destruct (reply_to _ _ _ _ _ _ (B "no size")) as [r v] eqn:E.
    destruct Hr as [Hr _]. destruct (Hr no_size) as [(_ & _ & Hs & _)|[_ Hf]]; [| | | |done].
    + by apply successful_reply.
    + done.
    + apply listing_well_formed.
    + exfalso. apply (f_equal fst) in E. cbn [fst] in E. subst r. by vm_compute in Hs.
Defined.

(** A request for the first chunk of the files, with all details. *)
Definition first_chunk : folder_get_content_v1_2.Impl :=
  folder_get_content_v1_2.SetDetails folder_get_content_v1_2.Details_PopulateDetails
    (folder_get_content_v1_2.new_Impl (B "k&1") 1 folder_get_content_v1_2.ContentType_Files).

Lemma requests_as_described_witness :
  exists parts sig,
    read_post (folder_get_content_v1_2.GetPostData (take 16) example_call first_chunk) =
      Some ((B "session_token", B "0af3") :: parts ++ [(B "signature", sig)]) /\
    (B "folder_key", B "k&1") ∈ parts /\ (B "details", B "yes") ∈ parts.
Proof.
  destruct (proj1 (Forall_forall _ _) requests_as_described get_content get_content_known
    (take 16) example_call first_chunk) as (parts & Hp & _ & query & sig & _ & _ & Hr).
  - done.
  - by apply (plain_name "0af3").
  - exists parts, sig. split; [exact Hr|]. split; apply Hp.
    + exists "folder_key"%string. split; [done|]. by repeat constructor.
    + exists "details"%string. split; [done|]. by repeat constructor.
Defined.

Definition links_reply : ResponseBase :=
  with_pt (@the_json libraries) links (new_response (@the_json libraries)).

Lemma links_cut_at_empty_element_witness :
  exists v, file_get_links_v1_3.ParseResponse links_reply file_get_links_v1_3.new_Response =
      (links_reply, v) /\
    length (file_get_links_v1_3.Response_links v) = 1%nat /\
    file_get_links_v1_3.Response_one_time_download_request_count v = 0.
Proof.
  destruct (links_cut_at_empty_element links_reply
    (under "links" (array [link "a"; leaf ""; link "b"])) [link "a"] (leaf "") [link "b"])
    as (v & Hv & Hl & Hn & _).
  - by vm_compute.
  - done.
  - repeat constructor; try (by vm_compute); eexists; by vm_compute.
  - by intros [].
  - exists v. split; [exact Hv|]. split; [|exact Hn]. by apply Forall2_length in Hl.
Defined.

Definition email_login : TokenRequest := new_TokenRequest (Email (B "a@b.c") (B "p&w")).

Lemma login_request_signed_witness :
  exists query parts,
    split_at "?" (get_session_token_v1_3_Url (take 20) (B "42") (B "key") (B "www.mediafire.com")
      email_login) =
      Some (B "https://www.mediafire.com/api/1.3/user/get_session_token.php", query) /\
    parse_query percent_Decode query = Some parts /\ (B "password", B "p&w") ∈ parts.
Proof.
  destruct (login_request_signed (take 20) (B "42") (B "key") (B "www.mediafire.com") email_login)
    as (query & parts & Hs & Hp & He & _).
  - apply (bool_decide_unpack _). by vm_compute.
  - exists query, parts. split; [exact Hs|]. split; [exact Hp|]. apply He. by repeat constructor.
Defined.

Lemma session_token_reply_witness :
  let '(r, v) := get_session_token_HandleContent c_locale silent (B "https://h/a") 200 (B "login") in
  r_error_string the_json r = None /\ Response_session_token v = B "0af3" /\
  Response_secret_key v = indeterminate Z _.
Proof.
  pose proof (session_token_reply c_locale silent (B "https://h/a") 200 (B "login") login) as Hr.
  destruct (get_session_token_HandleContent _ _ _ _ _) as [r v].
  destruct Hr as (Hs & Ht & _ & _ & _ & Hk).
  - by apply successful_reply.
  - done.
  - assert (r_error_string the_json r = None) as Hn.
    { apply Hs. split; eexists; by vm_compute. }
    split; [exact Hn|]. split.
    + destruct (Ht Hn) as (_ & Htok & _).
      assert (string_at login (B "response.session_token") = Some (B "0af3")) as E by by vm_compute.
      rewrite E in Htok. by injection Htok as <-.
    + rewrite Hk. by vm_compute.
Defined.
