(* ===== verification/ApiWire.v ===== *)
(** * From a call to the wire ([api/detail/requester_impl.hpp], [http/http_request])

    [Init] makes the HTTP request of a call and gives it the data of the call.  Here the call
    ([Endpoint]), the configuration ([HttpConfig]), the machine of the request ([HttpMachine])
    and what it writes ([HttpWire]) meet: what the server reads is what the call describes.
    Header names are compared in the locale that a program starts with. *)
From S2P Require Import Prelude Errors Boost Base64 UrlEncode ApiRequests PropertyTree ApiResponses ApiResponsesTheorems Endpoint EndpointSpec EndpointProofs ApiCalls ApiCallsTheorems ApiFolder ApiExamples Url HttpHeaders HttpContent HttpMachine HttpMachineProofs HttpMachineTheorems HttpRequest HttpWire.

Open Scope Z_scope.

#[local] Abbreviation boost := c_locale.
#[local] Abbreviation header := (HttpConfig.header boost).

(** ** The request of a call *)

(** The method that the class of a call has for its data, if any.
    [api/detail/requester_impl.hpp:45-84 SetupPossiblePostInput] *)
Inductive post_input :=
  | GetPostData (sb : str)
  | GetPostDataPipe (size : Z) (chunks : list (option str))
  | NoPostInput.

(** [api/detail/requester_impl.hpp:50-84 SetupPossiblePostInput] *)
Definition SetupPossiblePostInput (p : post_input) : list method :=
  match p with
  | GetPostData sb =>
      [SetPostData sb; SetHeader (B "Content-Type") (B "application/x-www-form-urlencoded")]
  | GetPostDataPipe size chunks =>
      [SetPostDataPipe size chunks;
       SetHeader (B "Content-Type") (B "application/x-www-form-urlencoded")]
  | NoPostInput => []
  end.

Section Init.
Context {analyser context : Type}.
Context (now : Z) (config : HttpConfig.HttpConfig (analyser:=analyser) (context:=context)).

(** [None]: the machine ran out of fuel, which [ProcessEvent_total] excludes.
    [api/detail/requester_impl.hpp:189-213 Init] *)
Definition Init (url : str) (p : post_input) (start : bool) : option Machine :=
  send_all boost now
    (method_event <$> SetupPossiblePostInput p ++ (if start then [Start] else []))
    (HttpConfig.request_machine now url config).
End Init.

(** The URL of a call.
    [api/session_token_api_base.hpp:45-64 Url] *)
Definition call_url `{Libraries} (c : api_call) (MD5 : str -> str) (a : SessionTokenApi)
    (hostname : str) : str :=
  if call_uses_token c then ApiRequests.Url MD5 (call_BuildUrl c) (call_method c) a hostname
  else
    let '(path, query_parts) := call_BuildUrl c [(B "response_format", B "json")] in
    B "https://" ++ hostname ++ TokenlessMakePathAndQuery path query_parts.

(** A text without blanks. *)
Lemma clean_graphic s : s <> [] -> Forall (fun c => isspace c = false) s -> clean s.
Proof.
  intros Hn Hs. split; [done|]. split; [|split].
  - intros Hin. rewrite Forall_forall in Hs. by specialize (Hs _ Hin).
  - apply skip_space_id. intros c s' ->. by apply Forall_inv in Hs.
  - apply skip_space_id. intros c s' E. assert (c ∈ s) as Hin.
    { apply list_elem_of_In, in_rev. rewrite E. by left. }
    rewrite Forall_forall in Hs. by apply Hs.
Qed.

(** ** The URL *)

Section Address.
Context `{Libraries}.

(** The URL of a call that posts, with its parts. *)
Definition call_address (c : described_call) (hostname : str) : Parts :=
  {| p_scheme := B "https"; p_login := None; p_host := hostname; p_port := None;
     p_path := drop 1 (B (its_api c)) ++ B ".php"; p_query := Some (B "response_format=json");
     p_fragment := None |}.

(** A path with its slash and no separator in it. *)
Definition absolute (api : string) : bool :=
  bool_decide (take 1 (B api) = B "/") &&
  forallb (fun x => negb (isspace x) && negb (bool_decide (x ∈ B "?#"))) (B api).

Lemma all_calls_absolute : Forall (fun c => absolute (its_api c) = true) all_calls.
Proof. unfold all_calls. repeat (apply Forall_cons_2; [by vm_compute|]). apply Forall_nil_2. Qed.

Lemma call_url_text c MD5 a hostname :
  ImplementsCall (the_call c) (its_api c) (its_token c) (its_parameters c) (its_response c) ->
  call_method (the_call c) = Post -> absolute (its_api c) = true ->
  call_url (the_call c) MD5 a hostname = render (call_address c hostname).
Proof.
  intros Hc Hpost [Hs%bool_decide_eq_true _]%andb_true_iff. unfold call_url.
  assert (exists api, B (its_api c) = "/"%char :: api) as [api Hapi].
  { exists (drop 1 (B (its_api c))). rewrite <-(take_drop 1 (B (its_api c))) at 1. by rewrite Hs. }
  unfold render, call_address, authority, path_text, ApiRequests.Url.
  cbn [p_scheme p_login p_host p_port p_path p_query p_fragment].
  rewrite !(implements_url (ImplementsCall:=Hc)), Hpost.
  unfold MakePathAndQuery, TokenlessMakePathAndQuery.
  assert (add_parts percent_Encode [(B "response_format", B "json")] = B "?response_format=json")
    as -> by by vm_compute.
  rewrite Hapi. cbn [opt_part drop]. rewrite !app_nil_r, drop_0.
  destruct (call_uses_token _); by rewrite <-!app_assoc.
Qed.

Lemma absolute_path api : absolute api = true -> exists path,
  B api = "/"%char :: path /\ Forall (fun x => isspace x = false) path /\ avoids (B "?#") path.
Proof.
  intros [Hs%bool_decide_eq_true Hall]%andb_true_iff.
  destruct (B api) as [|x path]; [done|]. cbn in Hs. injection Hs as ->. exists path.
  split; [done|]. cbn [forallb] in Hall. apply andb_true_iff in Hall as [_ Hall].
  rewrite forallb_forall in Hall. setoid_rewrite <-list_elem_of_In in Hall. split.
  - apply Forall_forall. intros x Hx. specialize (Hall x Hx).
    apply andb_true_iff in Hall as [Hall _]. by destruct (isspace x).
  - apply Forall_forall. intros x Hx Hin. specialize (Hall x Hin).
    apply andb_true_iff in Hall as [_ Hall]. rewrite bool_decide_eq_true_2 in Hall; done.
Qed.

Lemma call_address_ok c hostname : absolute (its_api c) = true -> avoids (B ":/@") hostname ->
  parts_ok (call_address c hostname).
Proof.
  intros (path & Hapi & _ & Hp)%absolute_path Hh. unfold parts_ok, call_address.
  cbn [p_scheme p_login p_host p_port p_path p_query]. rewrite Hapi. split_and!; try done.
  - by apply (bool_decide_unpack _); vm_compute.
  - cbn [drop]. rewrite drop_0. unfold avoids in *. rewrite Forall_forall in *.
    intros x Hx. rewrite not_elem_of_app. split; [by apply Hp|]. revert x Hx. apply Forall_forall.
    by apply (bool_decide_unpack _); vm_compute.
  - by apply (bool_decide_unpack _); vm_compute.
Qed.

Lemma call_address_graphic c hostname : absolute (its_api c) = true ->
  Forall (fun x => isspace x = false) hostname ->
  Forall (fun x => isspace x = false) (render (call_address c hostname)) /\
  Forall (fun x => isspace x = false) (path_text (call_address c hostname)).
Proof.
  intros (path & Hapi & Hp & _)%absolute_path Hh.
  assert (Forall (fun x => isspace x = false) (path_text (call_address c hostname))) as Ht.
  { unfold path_text, call_address. cbn [p_path p_query p_fragment opt_part]. rewrite Hapi.
    cbn [drop]. rewrite drop_0, !Forall_app. split_and!; done || by repeat constructor. }
  split; [|done]. unfold render, authority, call_address. cbn [p_scheme p_login p_host p_port opt_part].
  rewrite !Forall_app. split_and!; first [done|by repeat constructor|exact Ht].
Qed.

Lemma graphic_one_word s : Forall (fun x => isspace x = false) s -> one_word s.
Proof. rewrite Forall_forall. intros Hs. split; intros Hin; by specialize (Hs _ Hin). Qed.

(** The URL of a call that posts: [https], the host as it was given, the path of the
    description, nothing in the query but the format of the reply. *)
Theorem call_url_is_read :
  Forall (fun c => forall MD5 a hostname,
    call_method (the_call c) = Post ->
    hostname <> [] -> Forall (fun x => isspace x = false) hostname -> avoids (B ":/@") hostname ->
    exists u, ParseUrl (call_url (the_call c) MD5 a hostname) = Some u /\
      scheme_ u = B "https" /\ host_ u = hostname /\ port_ u = [] /\
      path_ u = B (its_api c) ++ B ".php" /\ query_ u = B "response_format=json" /\
      clean (host_ u) /\ forall m, one_word (target m u)) all_calls.
Proof.
  pose proof (proj2 (Forall_and _ _) (conj all_calls_implemented all_calls_absolute)) as Hall.
  eapply Forall_impl; [exact Hall|]. intros c [Hc Habs] MD5 a hostname Hpost Hn Hg Hav.
  exists (parsed (call_address c hostname)).
  rewrite (call_url_text c MD5 a hostname Hc Hpost Habs), ParseUrl_parts
    by by apply call_address_ok.
  destruct (call_address_graphic c hostname Habs Hg) as [Hr Hp].
  apply absolute_path in Habs as (api & Hapi & _ & _).
  split_and!; try done.
  - cbn [parsed path_ call_address p_path]. by rewrite Hapi.
  - by apply clean_graphic.
  - intros m. apply graphic_one_word. unfold target. by destruct (UsingProxy m).
Qed.
End Address.

(** ** Headers *)

Lemma SetHeader_in_add name value hs :
  SetHeader_in boost name value hs = HttpConfig.add_header boost name value hs.
Proof.
  induction hs as [|[n v] hs IH]; [done|]. cbn [SetHeader_in HttpConfig.add_header]. by rewrite IH.
Qed.

(** The headers of a request with these data. *)
Definition post_headers (body : str) (hs : list (str * str)) : list (str * str) :=
  HttpConfig.add_header boost (B "Content-Type") (B "application/x-www-form-urlencoded")
    (HttpConfig.add_header boost (B "Content-Length") (print_int (Z.of_nat (length body))) hs).

Lemma clean_header_add key value hs :
  clean key -> (":"%char ∉ key) -> clean value ->
  Forall clean_header hs -> Forall clean_header (HttpConfig.add_header boost key value hs).
Proof.
  intros Hk Hc Hv Hhs.
  induction Hhs as [|[n v] hs (Hn & Hnc & Hnv) Hhs IH]; cbn [HttpConfig.add_header].
  - by apply Forall_singleton.
  - by destruct (iequals boost n key); constructor.
Qed.

Lemma digit_graphic c : is_digit c = true -> isspace c = false.
Proof. by_all_bytes c. Qed.

Lemma post_headers_clean body hs : Forall clean_header hs -> Forall clean_header (post_headers body hs).
Proof.
  intros Hhs. unfold post_headers.
  assert (forall s, B s <> [] -> forallb (fun c => negb (isspace c)) (B s) = true -> clean (B s)) as Hs.
  { intros s Hn Hf. apply clean_graphic; [done|]. apply List.Forall_forall. intros c Hc.
    rewrite forallb_forall in Hf. specialize (Hf c Hc). by destruct (isspace c). }
  repeat apply clean_header_add; try done; try (by apply Hs).
  1, 2: by apply (bool_decide_unpack _); vm_compute.
  destruct (print_int_digits (Z.of_nat (length body)) ltac:(lia)) as (Hn & Hd & _).
  apply clean_graphic; [done|]. eapply Forall_impl; [exact Hd|]. intros c. apply digit_graphic.
Qed.

(** The value of a header of a list. *)
Lemma header_app name a b :
  header name (a ++ b) = match header name a with Some v => Some v | None => header name b end.
Proof.
  induction a as [|[n v] a IH]; [done|].
  cbn [app HttpConfig.header]. by destruct (iequals boost n name).
Qed.

Lemma header_filter is_ssl name hs : iequals boost name (B "accept-encoding") = false ->
  header name (filter (is_sent boost is_ssl) hs) = header name hs.
Proof.
  intros Hn. induction hs as [|[n v] hs IH]; [done|]. rewrite filter_cons. cbn [HttpConfig.header].
  case_decide as Hs.
  - cbn [HttpConfig.header]. by rewrite IH.
  - destruct (iequals boost n name) eqn:E; [|done]. destruct Hs. unfold is_sent. cbn [fst].
    rewrite (HttpConfig.iequals_trans boost n name _ E), Hn. by rewrite andb_false_r.
Qed.

(** The proxy's header. *)
Lemma b64char_graphic i : isspace (b64char i) = false.
Proof.
  unfold b64char. destruct (nth_in_or_default (Z.to_nat i) base64_chars pad_char) as [Hin| ->]; [|done].
  assert (forallb (fun c => negb (isspace c)) base64_chars = true) as Hall by by vm_compute.
  rewrite forallb_forall in Hall. specialize (Hall _ Hin). by destruct (isspace _).
Qed.

Lemma Base64Encode_graphic s : Forall (fun c => isspace c = false) (Base64Encode s).
Proof.
  induction s as [|a|a b|a b c s IH] using list_ind3; cbn [Base64Encode];
    repeat (constructor; [first [apply b64char_graphic|done]|]); done.
Qed.

Lemma Base64Encode_nonempty s : s <> [] -> Base64Encode s <> [].
Proof. by destruct s as [|a [|b [|c s]]]. Qed.

Lemma proxy_header_clean m : Forall clean_header (proxy_header m).
Proof.
  unfold proxy_header. destruct (is_ssl_ m); [done|]. destruct (CurrentProxy m) as [p|]; [|done].
  case_bool_decide as Hu; [done|]. apply Forall_singleton. split_and!; cbn [fst snd].
  - by apply clean_graphic; [|repeat constructor].
  - by apply (bool_decide_unpack _); vm_compute.
  - unfold basic_credentials. set (s := username p ++ B ":" ++ password p).
    assert (s <> []) as Hs by by (subst s; destruct (username p)).
    pose proof (Base64Encode_graphic s) as Hg. pose proof (Base64Encode_nonempty s Hs) as Hn.
    destruct (clean_graphic _ Hn Hg) as (_ & Hnl & Hl & Hr). split_and!.
    + done.
    + rewrite not_elem_of_app. split; [by apply (bool_decide_unpack _); vm_compute|done].
    + done.
    + rewrite rev_app_distr. apply skip_space_clean_app; [|done].
      intros E. apply Hn. by rewrite <-(rev_involutive (Base64Encode s)), E.
Qed.

(** ** The data on the wire *)

Section Wire.
Context {analyser context : Type}.
Context (now : Z) (config : HttpConfig.HttpConfig (analyser:=analyser) (context:=context)).
#[local] Abbreviation Init := (Init now config).

Lemma ConfigEvent_processed c m : current m = Unstarted ->
  ProcessEvent boost now (ConfigEvent c) m =
  Some (set_current Unstarted (ConfigEventAction boost c (on_exit m))).
Proof.
  intros Hc. unfold ProcessEvent, event_fuel. rewrite process_cons. unfold process_one.
  rewrite Hc. cbn [is_terminal transition_table]. change (current (on_exit m)) with (current m).
  by rewrite Hc.
Qed.

(** The machine when it is started. *)
Lemma Init_starts url body m1 : Init url (GetPostData body) true = Some m1 ->
  exists m0, current m0 = Unstarted /\ post_data_ m0 = Some body /\ post_interface_ m0 = None /\
    ~ write_waits m0 /\ request_method_ m0 = B "POST" /\ url_ m0 = url /\
    send_headers_ m0 = post_headers body (HttpConfig.default_headers_ config) /\
    ProcessEvent boost now StartEvent m0 = Some m1.
Proof.
  unfold ApiWire.Init. set (m := HttpConfig.request_machine now url config).
  cbn [SetupPossiblePostInput app fmap list_fmap method_event send_all].
  rewrite ConfigEvent_processed by done. rewrite ConfigEvent_processed by done.
  set (m0 := set_current Unstarted _). intros H. exists m0.
  destruct (ProcessEvent boost now StartEvent m0) as [m2|] eqn:E; [|done]. injection H as <-.
  split_and!; try done. by intros (? & ? & ?).
Qed.


(** What the server finds under a name that is neither the host's nor the proxy's. *)
Lemma sent_header m u name :
  iequals boost (B "Host") name = false -> iequals boost (B "Proxy-Authorization") name = false ->
  iequals boost name (B "accept-encoding") = false ->
  header_map boost (sent_headers boost m u) ∅ !! header_key (to_lower boost name) =
  header name (send_headers_ m).
Proof.
  intros Hh Hp Ha. rewrite (header_map_lookup boost), lookup_empty. unfold sent_headers.
  cbn [HttpConfig.header]. rewrite Hh, header_app, header_filter by done.
  unfold proxy_header. destruct (is_ssl_ m); [done|]. destruct (CurrentProxy m); [|done].
  case_bool_decide; [done|]. cbn [HttpConfig.header]. by rewrite Hp.
Qed.

Lemma post_headers_value name body hs :
  header name (post_headers body hs) =
  if iequals boost (B "Content-Type") name then Some (B "application/x-www-form-urlencoded")
  else if iequals boost (B "Content-Length") name
  then Some (print_int (Z.of_nat (length body))) else header name hs.
Proof. unfold post_headers. by rewrite !(HttpConfig.header_add_header boost). Qed.

(** A place that a request can be written for. *)
Definition addressable (m : Machine) (u : Url) : Prop := one_word (target m u) /\ clean (host_ u).

Lemma posted_data_is_read url body m1 m u :
  Init url (GetPostData body) true = Some m1 -> HttpMachine.reachable boost m1 m ->
  awaits_reply (current m) = true -> parsed_url_ m = Some u -> addressable m u ->
  Forall clean_header (HttpConfig.default_headers_ config) ->
  exists pre text headers, sent m = pre ++ [text; body] /\
    read_request boost (text ++ body) = Some (B "POST", target m u, headers, body) /\
    headers !! "content-type"%string = Some (B "application/x-www-form-urlencoded") /\
    (exists digits, headers !! "content-length"%string = Some digits /\
       digits_value digits = Z.of_nat (length body)).
Proof.
  intros HI Hr Ha Hu [Ht Hh] Hd.
  destruct (Init_starts url body m1 HI) as (m0 & Hc & Hp & Hpi & Hw & Hm & _ & Hhs & HS).
  pose proof (reachable_posts boost now m0 m1 m body Hc Hp Hpi Hw HS Hr) as Hposts.
  rewrite Hm, Hhs in Hposts. pose proof (posts_headers _ _ _ _ _ _ _ Hposts) as Hsend.
  pose proof (post_headers_clean body _ Hd) as Hclean.
  destruct (posted_is_read boost _ _ _ _ body m u Hposts Ha Hu) as (pre & text & Hsent & Hread).
  - split; by apply (bool_decide_unpack _); vm_compute.
  - done.
  - unfold sent_headers. constructor; [|apply Forall_app; split; [apply proxy_header_clean|]].
    + split_and!; [by apply clean_graphic; [|repeat constructor]| |done].
      by apply (bool_decide_unpack _); vm_compute.
    + rewrite Hsend. rewrite Forall_forall in *. intros h [_ Hin]%list_elem_of_filter. by apply Hclean.
  - exists pre, text, (header_map boost (sent_headers boost m u) ∅). split; [done|]. split; [done|].
    pose proof (fun name Ha Hb Hc => sent_header m u name Ha Hb Hc) as Hval. rewrite Hsend in Hval.
    setoid_rewrite post_headers_value in Hval. split.
    + by apply (Hval (B "content-type")).
    + exists (print_int (Z.of_nat (length body))). split; [by apply (Hval (B "content-length"))|].
      apply print_int_digits. lia.
Qed.

(** C17 A call that posts reaches the server: once the request that [Init] started for it
    awaits its reply, the last two things written are read by the server as a POST
    request for the place that the machine has connected to, with the type and the length of the data and
    the data whole, and the data as what the description of the call says. *)
Theorem call_reaches_server `{Libraries} :
  Forall (fun c => forall MD5 a i hostname m1 m u,
    call_method (the_call c) = Post -> Forall plain (session_token_ a) ->
    let body := call_GetPostData (the_call c) MD5 a i in
    Init (call_url (the_call c) MD5 a hostname) (GetPostData body) true = Some m1 ->
    HttpMachine.reachable boost m1 m -> awaits_reply (current m) = true ->
    parsed_url_ m = Some u -> addressable m u ->
    Forall clean_header (HttpConfig.default_headers_ config) ->
    exists pre text headers, sent m = pre ++ [text; body] /\
      read_request boost (text ++ body) = Some (B "POST", target m u, headers, body) /\
      headers !! "content-type"%string = Some (B "application/x-www-form-urlencoded") /\
      (exists digits, headers !! "content-length"%string = Some digits /\
         digits_value digits = Z.of_nat (length body)) /\
      described_post c MD5 a i body) all_calls.
Proof.
  eapply Forall_impl; [exact all_calls_implemented|].
  intros c Hc MD5 a i hostname m1 m u Hpost Htok body HI Hr Ha Hu Had Hd.
  destruct (posted_data_is_read _ body m1 m u HI Hr Ha Hu Had Hd) as (pre & text & hs & Hs & Hq & Ht & Hl).
  exists pre, text, hs. split_and!; try done. exact (call_described_post c MD5 a i Hc Hpost Htok).
Qed.
End Wire.

(** ** Example: a folder is listed *)
Module Listing.
Import ApiExamples.Replies.

Definition config : HttpConfig.HttpConfig (analyser:=unit) (context:=unit) :=
  HttpConfig.new_HttpConfig.

Definition body : str :=
  call_GetPostData folder_get_content_v1_2.call (take 16) example_call first_chunk.

Definition url : str := call_url folder_get_content_v1_2.call (take 16) example_call (B "www.host.com").

Definition started : Machine :=
  default example_machine (Init 0 config url (GetPostData body) true).

(** Resolved, connected, hands shaken, header and data written. *)
Definition awaiting : Machine :=
  default example_machine
    (run_machine [Completes ok; Completes ok; Completes ok; Completes ok; Completes ok] started).

Definition address : Url.Url := parsed (call_address get_content (B "www.host.com")).

Lemma awaiting_reachable : HttpMachine.reachable boost started awaiting.
Proof.
  unfold awaiting. destruct (run_machine _ started) as [m|] eqn:E; [|by vm_compute in E].
  eapply run_machine_reachable; [apply ReachStart|exact E].
Qed.

Lemma address_addressable : addressable awaiting address.
Proof.
  split; [|apply clean_graphic]; [|done|by repeat constructor].
  apply graphic_one_word. by repeat constructor.
Qed.

Lemma config_clean : Forall clean_header (HttpConfig.default_headers_ config).
Proof.
  repeat (apply Forall_cons_2; [split_and!;
    [by apply clean_graphic; [|repeat constructor]
    |by apply (bool_decide_unpack _); vm_compute
    |by apply clean_graphic; [|repeat constructor]]|]). apply Forall_nil_2.
Qed.

End Listing.

Lemma call_reaches_server_witness :
  exists pre text headers, sent Listing.awaiting = pre ++ [text; Listing.body] /\
    read_request boost (text ++ Listing.body) =
      Some (B "POST", B "/api/1.2/folder/get_content.php?response_format=json", headers,
            Listing.body) /\
    described_post ApiExamples.Replies.get_content (take 16) ApiRequests.example_call
      ApiExamples.first_chunk Listing.body.
Proof.
  destruct (proj1 (Forall_forall _ _) (call_reaches_server 0 Listing.config)
    ApiExamples.Replies.get_content ApiExamples.Replies.get_content_known (take 16)
    ApiRequests.example_call ApiExamples.first_chunk (B "www.host.com")
    Listing.started Listing.awaiting Listing.address)
    as (pre & text & hs & Hs & Hr & _ & _ & Hd).
  - done.
  - by apply (plain_name "0af3").
  - by vm_compute.
  - apply Listing.awaiting_reachable.
  - by vm_compute.
  - by vm_compute.
  - apply Listing.address_addressable.
  - apply Listing.config_clean.
  - exists pre, text, hs. by split_and!.
Defined.
