(* ===== verification/UploadRequests.v ===== *)
(** * What an upload sends ([uploader/detail/transition_upload], [transition_check.hpp],
    [transition_instant_upload.hpp])

    The requests that [UploadMachine] starts, with their contents: the address and the query,
    the headers, the part of the file that is sent as POST data, and the requests of the API
    calls.  The conversion of a time to its ISO form is Boost's and a parameter. *)
From S2P Require Import Prelude Errors Boost UrlEncode Stepping HashReader FileIO ApiRequests PropertyTree ApiResponses Endpoint ApiUpload HttpMachine UploadMachine.

Open Scope Z_scope.

(** [uploader/detail/upload_target.hpp:17-31 UploadTarget] *)
Inductive UploadTarget := ParentFolderKey (key : str) | CloudPath (path : str).

(** ** The POST data *)

(** [uploader/detail/transition_upload.hpp:142-149 UploadPostDataPipe] *)
Record UploadPostDataPipe := {
  file_ : FileIO;
  start_byte_ : Z;
  end_byte_ : Z;
  current_read_pos_ : Z }.

(** [uploader/detail/transition_upload.hpp:68-82 UploadPostDataPipe] *)
Definition new_pipe (file : FileIO) (start_byte end_byte : Z) : UploadPostDataPipe :=
  {| file_ := file; start_byte_ := start_byte; end_byte_ := end_byte;
     current_read_pos_ := start_byte |}.

(** [uploader/detail/transition_upload.hpp:84-84 PostDataSize] *)
Definition PostDataSize (p : UploadPostDataPipe) : Z := u64 (end_byte_ p - start_byte_ p).

#[local] Instance UploadPostDataPipe_members : Members UploadPostDataPipe := fun p =>
  Build_UploadPostDataPipe (file_ p) (start_byte_ p) (end_byte_ p) (current_read_pos_ p).

Definition with_file := ltac:(setter file_).
Definition with_read_pos := ltac:(setter current_read_pos_).

Definition max_buffer_size : Z := 1024 * 8.

(** [None] is the null pointer.
    [uploader/detail/transition_upload.hpp:86-140 RetreivePostDataChunk] *)
Definition RetreivePostDataChunk (p : UploadPostDataPipe) : option str * UploadPostDataPipe :=
  let '(ec, io) := if negb (Tell (file_ p) =? current_read_pos_ p)
                   then Seek Beginning (current_read_pos_ p) (file_ p)
                   else (no_error, file_ p) in
  let p := with_file io p in
  if is_error ec then (None, p)
  else
    let remaining_bytes := u64 (end_byte_ p - current_read_pos_ p) in
    if remaining_bytes =? 0 then (None, p)
    else
      let buffer_size := Z.min max_buffer_size remaining_bytes in
      let '(bytes, ec, io) := Read buffer_size (file_ p) in
      let p := with_file io p in
      if is_error ec then (None, p)
      else if negb (Z.of_nat (length bytes) =? buffer_size) then (None, p)
      else (Some bytes, with_read_pos (u64 (current_read_pos_ p + Z.of_nat (length bytes))) p).

(** What the calls return until the first null pointer. *)
Fixpoint pipe_chunks (fuel : nat) (p : UploadPostDataPipe) : list str :=
  match fuel with
  | O => []
  | S fuel =>
      match RetreivePostDataChunk p with
      | (Some bytes, p) => bytes :: pipe_chunks fuel p
      | (None, _) => []
      end
  end.

(** Enough calls for the range: each gives a buffer, the last one less. *)
Definition pipe_fuel (p : UploadPostDataPipe) : nat :=
  Z.to_nat (PostDataSize p / max_buffer_size + 1).

Section Requests.
Context {H : Type} (h0 : H) (h_update : H -> str -> H) (h_digest : H -> str).
Context (iso_extended_of_time_t : Z -> str).
#[local] Abbreviation Upload := (UploadMachine.Upload (H := H)).

(** ** The address *)

(** [uploader/detail/transition_upload.cpp:13-17 AsDateTime] *)
Definition AsDateTime (datetime : Z) : str := iso_extended_of_time_t datetime ++ B "Z".

(** [uploader/detail/transition_upload.cpp:25-39 AssembleQuery] *)
Definition query_piece (it : query_part) : str :=
  if bool_decide (snd it = []) then percent_Encode (fst it)
  else fst it ++ B "=" ++ percent_Encode (snd it).

(** [boost::join]. *)
Fixpoint join (sep : str) (pieces : list str) : str :=
  match pieces with
  | [] => []
  | [p] => p
  | p :: pieces => p ++ sep ++ join sep pieces
  end.

(** [uploader/detail/transition_upload.cpp:19-44 AssembleQuery] *)
Definition AssembleQuery (query_map : list query_part) : str :=
  B "?" ++ join (B "&") (query_piece <$> query_map).

(** [uploader/detail/transition_upload.hpp:43-63 TargetUrlVisitor] *)
Definition TargetUrlVisitor (target : UploadTarget) (query_map : list query_part) :
    list query_part :=
  match target with
  | ParentFolderKey key =>
      if bool_decide (key = []) then query_map else set_part (B "folder_key") key query_map
  | CloudPath path => set_part (B "path") path query_map
  end.

(** [uploader/detail/transition_upload.hpp:225-257 BuildUrl] *)
Definition query_map (target : UploadTarget) (m : Upload) : list query_part :=
  let parts := set_part (B "session_token") (action_token_ m) [] in
  let parts := set_part (B "response_format") (B "json") parts in
  let parts := match on_duplicate_action_ m with
               | Fail_ => parts
               | Replace => set_part (B "action_on_duplicate") (B "replace") parts
               | AutoRename => set_part (B "action_on_duplicate") (B "keep") parts
               end in
  let parts := set_part (B "mtime") (AsDateTime (mtime_ m)) parts in
  TargetUrlVisitor target parts.

(** [uploader/detail/transition_upload.hpp:220-258 BuildUrl] *)
Definition DoSimpleUpload_BuildUrl (target : UploadTarget) (m : Upload) : str :=
  B "http://www.mediafire.com/api/1.3/upload/simple.php" ++ AssembleQuery (query_map target m).

(** [uploader/detail/transition_upload.hpp:423-461 BuildUrl] *)
Definition DoChunkUpload_BuildUrl (target : UploadTarget) (m : Upload) : str :=
  B "http://www.mediafire.com/api/1.3/upload/resumable.php"
  ++ AssembleQuery (query_map target m).

(** ** Headers *)

(** What is set on the HTTP request, in order.
    [uploader/detail/transition_upload.hpp:260-276 SetHeaders] *)
Definition DoSimpleUpload_SetHeaders (m : Upload) : list config :=
  [ConfigHeader (B "Content-Type") (B "application/octet-stream");
   ConfigHeader (B "x-filename") (filename m);
   ConfigHeader (B "x-filesize") (print_int (filesize_ m))].

(** The ends of the chunk, each in an [int].
    [uploader/detail/transition_upload.hpp:470-471 SetHeaders] *)
Definition chunk_ends (chunk_id : nat) (m : Upload) : Z * Z :=
  let '(b, e) := default (0, 0) (chunk_ranges_ m !! chunk_id) in (i32 b, i32 e).

(** [uploader/detail/transition_upload.hpp:463-502 SetHeaders] *)
Definition DoChunkUpload_SetHeaders (chunk_id : nat) (m : Upload) : list config :=
  let '(b, e) := chunk_ends chunk_id m in
  [ConfigHeader (B "Content-Type") (B "application/octet-stream");
   ConfigHeader (B "x-filename") (filename m);
   ConfigHeader (B "x-filesize") (print_int (filesize_ m));
   ConfigHeader (B "x-filehash") (UploadMachine.hash_ m);
   ConfigHeader (B "x-unit-hash") (default [] (chunk_hashes_ m !! chunk_id));
   ConfigHeader (B "x-unit-id") (print_int (Z.of_nat chunk_id));
   ConfigHeader (B "x-unit-size") (print_int (i32 (e - b)))].

(** ** The requests *)

(** The configuration of an HTTP request: headers, then the POST data. *)
Definition with_pipe (p : UploadPostDataPipe) : config :=
  ConfigPostDataPipe (PostDataSize p) (Some <$> pipe_chunks (pipe_fuel p) p).

(** The address, the configuration and the pipe of the request that is started, or the error.
    [uploader/detail/transition_upload.hpp:279-336 Upload] *)
Definition Upload_request (target : UploadTarget) (opened : FileIO + error_code) (m : Upload) :
    str * list config * UploadPostDataPipe + error_code :=
  match opened with
  | inr ec => inr ec
  | inl io =>
      let '(ec, io) := Seek Beginning 0 io in
      if is_error ec then inr ec
      else
        let p := new_pipe io 0 (filesize_ m) in
        inl (DoSimpleUpload_BuildUrl target m, DoSimpleUpload_SetHeaders m ++ [with_pipe p], p)
  end.

(** [uploader/detail/transition_upload.hpp:504-566 UploadNextChunk] *)
Definition UploadNextChunk_request (target : UploadTarget) (opened : FileIO + error_code)
    (chunk_id : nat) (m : Upload) : str * list config * UploadPostDataPipe + error_code :=
  match opened with
  | inr ec => inr ec
  | inl io =>
      let '(b, e) := chunk_ends chunk_id m in
      let '(ec, io) := Seek Beginning (u64 b) io in
      if is_error ec then inr ec
      else
        let p := new_pipe io (u64 b) (u64 e) in
        inl (DoChunkUpload_BuildUrl target m,
             DoChunkUpload_SetHeaders chunk_id m ++ [with_pipe p], p)
  end.

End Requests.
