(* ===== verification/UploadRequestsTheorems.v ===== *)
(** * What an upload sends is the file

    The pipe gives the bytes of its range; the requests for the chunks carry the file, each
    with the size and the hash of what it carries, for files whose positions an [int] can
    hold; a chunk after that cannot be sent.  The query of a request is read back. *)
From S2P Require Import Prelude Errors Boost UrlEncode Stepping HashReader FileIO ApiRequests PropertyTree ApiResponses Endpoint ApiUpload HttpMachine UploadMachine UploadRequests.

Open Scope Z_scope.

(** ** The pipe *)

Lemma FileIO_Read_full file p n :
  0 <= p -> 0 <= n -> p + n <= Z.of_nat (length file) ->
  FileIO_Read file p n = (slice p (p + n) file, no_error).
Proof.
  intros Hp Hn Hl. unfold FileIO_Read, slice. replace (p + n - p) with n by lia.
  by rewrite (proj2 (Z.eqb_eq _ _)) by (rewrite length_take, length_drop; lia).
Qed.

(** A pipe on a file that is open where the pipe reads next. *)
Definition pipe_on (file : str) (p : UploadPostDataPipe) : Prop :=
  reads_from file (current_read_pos_ p) (file_ p) /\
  0 <= start_byte_ p /\ start_byte_ p <= current_read_pos_ p <= end_byte_ p /\
  end_byte_ p <= Z.of_nat (length file) < 2 ^ 63.

Lemma RetreivePostDataChunk_step file p :
  pipe_on file p ->
  let pos := current_read_pos_ p in
  let next := Z.min (pos + max_buffer_size) (end_byte_ p) in
  if decide (pos = end_byte_ p) then (RetreivePostDataChunk p).1 = None
  else exists p', RetreivePostDataChunk p = (Some (slice pos next file), p') /\
    pipe_on file p' /\ current_read_pos_ p' = next /\ end_byte_ p' = end_byte_ p.
Proof.
  intros (Hr & Hs & Hc & He) pos next. unfold RetreivePostDataChunk.
  assert (Tell (file_ p) = pos) as -> by apply Hr. fold pos. rewrite Z.eqb_refl. cbn [negb is_error no_error ec_value Z.eqb].
  cbn [with_file end_byte_ current_read_pos_ file_]. fold pos. rewrite u64_small by lia.
  case_decide as Hd.
  - by rewrite (proj2 (Z.eqb_eq _ _)) by lia.
  - rewrite (proj2 (Z.eqb_neq _ _)) by lia.
    set (n := Z.min max_buffer_size (end_byte_ p - pos)).
    assert (0 < n /\ pos + n = next) as [Hn Hnext] by (unfold n, next, max_buffer_size; lia).
    destruct (Read_is_FileIO_Read file pos n (file_ p)) as (io & HR & Hrd); [lia|lia|exact Hr|].
    rewrite FileIO_Read_full in HR, Hrd by (unfold next, max_buffer_size in *; lia).
    cbn [fst snd] in HR, Hrd. rewrite HR.
    assert (Z.of_nat (length (slice pos (pos + n) file)) = n) as Hl
      by (rewrite slice_length by (unfold next in *; lia); lia).
    rewrite Hl, Z.eqb_refl. cbn [negb is_error no_error ec_value Z.eqb].
    eexists. split; [by rewrite Hnext|]. cbn [with_read_pos with_file current_read_pos_].
    fold pos. rewrite u64_small by (unfold next in *; lia).
    split; [|done]. unfold pipe_on. cbn. rewrite Hnext in Hrd.
    split; [by apply Hrd|]. unfold next, max_buffer_size in *. lia.
Qed.

(** The calls give the bytes of the range in buffers of at most 8 KiB, none of them empty,
    and then the null pointer. *)
Lemma pipe_chunks_range fuel file p :
  pipe_on file p ->
  end_byte_ p - current_read_pos_ p <= max_buffer_size * Z.of_nat fuel ->
  concat (pipe_chunks fuel p) = slice (current_read_pos_ p) (end_byte_ p) file /\
  Forall (fun bytes => bytes <> [] /\ Z.of_nat (length bytes) <= max_buffer_size)
    (pipe_chunks fuel p).
Proof.
  revert p. induction fuel as [|fuel IH]; intros p Hp Hf.
  - destruct Hp as (_ & ? & ? & ?). replace (end_byte_ p) with (current_read_pos_ p) by lia.
    unfold slice. by rewrite Z.sub_diag.
  - pose proof (RetreivePostDataChunk_step file p Hp) as Hstep. cbn zeta in Hstep.
    cbn [pipe_chunks]. case_decide as Hd.
    + destruct (RetreivePostDataChunk p) as [[bytes|] p']; [done|].
      rewrite Hd. unfold slice. rewrite Z.sub_diag. by split.
    + destruct Hstep as (p' & -> & Hp' & Hc & He). destruct (IH p' Hp') as [Hcat Hall].
      { rewrite Hc, He. destruct Hp as (_ & ? & ? & ?). unfold max_buffer_size in *. lia. }
      destruct Hp as (_ & ? & ? & ?). cbn [concat]. rewrite Hcat, Hc, He.
      rewrite slice_app by (unfold max_buffer_size; lia). split; [done|].
      constructor; [|done].
      match goal with |- ?b <> [] /\ _ => assert (Z.of_nat (length b) =
        Z.min (current_read_pos_ p + max_buffer_size) (end_byte_ p) - current_read_pos_ p) as Hl
        by (apply slice_length; unfold max_buffer_size; lia) end.
      unfold max_buffer_size in *. split; [intros E; rewrite E in Hl; cbn in Hl; lia|lia].
Qed.

(** A pipe that starts at the start of a range which is in the file. *)
Lemma new_pipe_sends file b e io :
  reads_from file b io -> 0 <= b <= e -> e <= Z.of_nat (length file) < 2 ^ 63 ->
  let p := new_pipe io b e in
  PostDataSize p = e - b /\ concat (pipe_chunks (pipe_fuel p) p) = slice b e file /\
  Forall (fun bytes => bytes <> [] /\ Z.of_nat (length bytes) <= max_buffer_size)
    (pipe_chunks (pipe_fuel p) p).
Proof.
  intros Hr Hb He p.
  assert (PostDataSize p = e - b) as Hs by (apply u64_small; cbn; lia).
  split; [done|]. apply (pipe_chunks_range _ file p).
  - split; cbn; [done|lia].
  - unfold pipe_fuel. rewrite Hs. cbn [current_read_pos_ end_byte_ p new_pipe].
    assert (0 <= (e - b) / max_buffer_size) by (apply Z.div_pos; [lia|done]).
    rewrite Z2Nat.id by lia.
    pose proof (Z.mul_succ_div_gt (e - b) max_buffer_size ltac:(done)). lia.
Qed.

(** A file just opened, after going to a position that an [int] holds. *)
Lemma Seek_reads_from file p offset io :
  reads_from file p io -> 0 <= offset < 2 ^ 31 ->
  exists io', Seek Beginning (u64 (i32 offset)) io = (no_error, io') /\ reads_from file offset io'.
Proof.
  intros [Hc _ Hb _] Ho. rewrite i32_small, u64_small by lia.
  pose proof (Seek_Tell offset io ltac:(lia)) as Hs. rewrite decide_True in Hs by lia.
  destruct Hs as (io' & -> & Ht & Hc' & Hb' & He'). exists io'. split; [done|].
  split; [by rewrite Hc'|exact Ht|by rewrite Hb'|done].
Qed.

(** ** The requests *)

(** Ranges that follow each other from [s] cut out the file from [s]. *)
Lemma concat_slices file s r :
  0 <= s <= Z.of_nat (length file) ->
  match r with [] => s = Z.of_nat (length file) | (b, _) :: _ => b = s end ->
  (forall i b e, r !! i = Some (b, e) -> 0 <= b < e /\ e <= Z.of_nat (length file) /\
     match r !! S i with Some (b', _) => b' = e | None => e = Z.of_nat (length file) end) ->
  concat ((fun be => slice be.1 be.2 file) <$> r) = slice s (Z.of_nat (length file)) file.
Proof.
  revert s. induction r as [|[b e] r IH]; intros s Hs Hfirst Hr.
  - rewrite Hfirst. unfold slice. by rewrite Z.sub_diag.
  - destruct (Hr 0%nat b e eq_refl) as (Hb & He & Hnext). cbn [lookup list_lookup] in Hnext.
    cbn [fmap list_fmap concat fst snd]. rewrite (IH e); [|lia| |].
    + subst s. rewrite slice_app by lia. done.
    + destruct r as [|[b' e'] r]; cbn in Hnext; congruence.
    + intros i b' e' Hi. exact (Hr (S i) b' e' Hi).
Qed.

Lemma contiguous_slices file r :
  contiguous r (Z.of_nat (length file)) ->
  concat ((fun be => slice be.1 be.2 file) <$> r) = file.
Proof.
  intros (H0 & H1 & Hr). rewrite (concat_slices file 0); [|lia| |exact Hr].
  - unfold slice. rewrite Z.sub_0_r, Nat2Z.id. by rewrite drop_0, take_ge by lia.
  - destruct (decide (Z.of_nat (length file) = 0)) as [E|E].
    + by rewrite (H0 E), E.
    + destruct H1 as [e He]; [lia|]. destruct r as [|[b' e'] r]; [done|]. by injection He as -> ->.
Qed.

Section Requests.
Context {H : Type} (h0 : H) (h_update : H -> str -> H) (h_digest : H -> str).
Context (iso_extended_of_time_t : Z -> str).
Hypothesis h_update_app : forall h a b, h_update (h_update h a) b = h_update h (a ++ b).
Hypothesis h_update_nil : forall h, h_update h [] = h.
#[local] Abbreviation Upload := (UploadMachine.Upload (H := H)).

(** What is sent for a chunk: the headers, and the POST data of the pipe. *)
Lemma chunk_request_sends target file io chunk b e (m : Upload) :
  reads_from file 0 io -> chunk_ranges_ m !! chunk = Some (b, e) ->
  0 <= b < e -> e <= Z.of_nat (length file) -> Z.of_nat (length file) < 2 ^ 31 ->
  exists p,
    UploadNextChunk_request iso_extended_of_time_t target (inl io) chunk m =
      inl (DoChunkUpload_BuildUrl iso_extended_of_time_t target m,
           DoChunkUpload_SetHeaders chunk m ++ [with_pipe p], p) /\
    PostDataSize p = e - b /\
    concat (pipe_chunks (pipe_fuel p) p) = slice b e file.
Proof.
  intros Hr Hid Hb He Hl. unfold UploadNextChunk_request, chunk_ends. rewrite Hid. cbn [default from_option id].
  destruct (Seek_reads_from file 0 b io Hr) as (io' & -> & Hr'); [lia|].
  cbn [is_error no_error ec_value Z.eqb negb]. rewrite !i32_small, !u64_small by lia.
  destruct (new_pipe_sends file b e io' Hr') as (Hs & Hc & _); [lia|lia|].
  eexists. split; [done|]. by split.
Qed.

(** C10 Each chunk of a file of less than 2 GiB is one request, and the requests of all
    chunks carry the file: what the pipes of the requests give is, one after the other, the
    file as it was hashed.  The size that a request announces, in its header and to the HTTP
    request, is the length of what it carries, and the hash is the hash of it. *)
Theorem chunk_requests_carry_file file time :
  Z.of_nat (length file) < 2 ^ 31 ->
  exists ranges st,
    ChunkRanges (length ranges) (Z.of_nat (length file)) = Some ranges /\
    hash_file h0 h_update h_digest (Z.to_nat (Z.of_nat (length file) / buf_size)) file time ranges
      = Some (HashSuccess st (h_digest (h_update h0 file))) /\
    forall target io (m0 : Upload),
      reads_from file 0 io ->
      let m := SaveHash st (h_digest (h_update h0 file)) m0 in
      exists bodies, concat bodies = file /\ length bodies = length ranges /\
        forall chunk body, bodies !! chunk = Some body ->
          exists url headers p,
            UploadNextChunk_request iso_extended_of_time_t target (inl io) chunk m =
              inl (url, headers ++ [with_pipe p], p) /\
            concat (pipe_chunks (pipe_fuel p) p) = body /\
            PostDataSize p = Z.of_nat (length body) /\
            ConfigHeader (B "x-unit-id") (print_int (Z.of_nat chunk)) ∈ headers /\
            ConfigHeader (B "x-unit-size") (print_int (Z.of_nat (length body))) ∈ headers /\
            ConfigHeader (B "x-unit-hash") (h_digest (h_update h0 body)) ∈ headers /\
            ConfigHeader (B "x-filehash") (h_digest (h_update h0 file)) ∈ headers.
Proof.
  intros Hl. destruct (hash_file_hashes h0 h_update h_digest h_update_app h_update_nil file time)
    as (ranges & st & HR & Hh & Hch & Hrg & Hc & _); [lia|].
  exists ranges, st. split; [done|]. split; [done|]. intros target io m0 Hio m.
  exists ((fun be => slice be.1 be.2 file) <$> ranges).
  split; [by apply contiguous_slices|]. split; [apply length_fmap|].
  intros chunk body Hid. rewrite list_lookup_fmap in Hid.
  destruct (ranges !! chunk) as [[b e]|] eqn:Hbe; [|done]. injection Hid as <-. cbn [fst snd].
  assert (chunk_ranges_ m !! chunk = Some (b, e)) as Hm by (cbn; by rewrite Hrg).
  assert (chunk_hashes_ m !! chunk = Some (h_digest (h_update h0 (slice b e file)))) as Hhash.
  { cbn. by rewrite Hch, list_lookup_fmap, Hbe. }
  destruct Hc as (_ & _ & Hc). destruct (Hc _ _ _ Hbe) as (Hb & He & _).
  destruct (chunk_request_sends target file io chunk b e m) as (p & HU & Hs & Hcat); [done..|].
  pose proof (slice_length b e file ltac:(lia) He) as Hlen.
  do 2 eexists. exists p. split; [exact HU|]. rewrite Hlen. split; [done|]. split; [done|].
  unfold DoChunkUpload_SetHeaders, chunk_ends. rewrite Hm, Hhash. cbn [default from_option id].
  rewrite (i32_small b), (i32_small e), (i32_small (e - b)) by lia. cbn [UploadMachine.hash_ m SaveHash]. split_and!; set_solver.
Qed.

(** A simple upload carries the whole file, whatever its size. *)
Theorem simple_request_carries_file target file io (m : Upload) :
  reads_from file 0 io -> filesize_ m = Z.of_nat (length file) -> Z.of_nat (length file) < 2 ^ 63 ->
  exists p,
    Upload_request iso_extended_of_time_t target (inl io) m =
      inl (DoSimpleUpload_BuildUrl iso_extended_of_time_t target m,
           DoSimpleUpload_SetHeaders m ++ [with_pipe p], p) /\
    concat (pipe_chunks (pipe_fuel p) p) = file /\ PostDataSize p = Z.of_nat (length file) /\
    ConfigHeader (B "x-filesize") (print_int (Z.of_nat (length file))) ∈ DoSimpleUpload_SetHeaders m.
Proof.
  intros Hr Hs Hl. unfold Upload_request.
  destruct (Seek_reads_from file 0 0 io Hr) as (io' & Hk & Hr'); [lia|]. change (u64 (i32 0)) with 0 in Hk.
  rewrite Hk. cbn [is_error no_error ec_value Z.eqb negb].
  destruct (new_pipe_sends file 0 (filesize_ m) io' Hr') as (Hsz & Hc & _); [lia|lia|].
  eexists. split; [done|]. rewrite Hc, Hsz, Hs, Z.sub_0_r. split_and!; [|done|].
  - unfold slice. by rewrite Z.sub_0_r, Nat2Z.id, drop_0, take_ge by lia.
  - unfold DoSimpleUpload_SetHeaders. rewrite Hs. set_solver.
Qed.

(** A chunk that starts at 2 GiB or later cannot be sent: its position is negative as an
    [int], going to it fails, and the upload ends with an error. *)
Theorem late_chunk_fails target io chunk b e (m : Upload) :
  chunk_ranges_ m !! chunk = Some (b, e) -> 2 ^ 31 <= b < 2 ^ 32 ->
  exists ec, UploadNextChunk_request iso_extended_of_time_t target (inl io) chunk m = inr ec /\
    is_error ec = true.
Proof.
  intros Hid Hb. unfold UploadNextChunk_request, chunk_ends. rewrite Hid. cbn [default from_option id].
  assert (u64 (i32 b) = b - 2 ^ 32 + 2 ^ 64) as ->.
  { unfold i32. replace (b + 2 ^ 31) with (b - 2 ^ 31 + 1 * 2 ^ 32) by lia.
    rewrite Z_mod_plus_full, Z.mod_small by lia. unfold u64.
    rewrite <-(Z_mod_plus_full _ 1), Z.mod_small by lia. lia. }
  pose proof (Seek_Tell (b - 2 ^ 32 + 2 ^ 64) io ltac:(lia)) as Hs.
  rewrite decide_False in Hs by lia. destruct (Seek Beginning _ io) as [ec io']. cbn [fst] in Hs.
  destruct Hs as [Hs _]. rewrite Hs. by exists ec.
Qed.
End Requests.

(** ** Through the HTTP request *)

Section Http.
Context (boost : Boost).

(** The writes of [SendPost] when each of them succeeds: the delay before a write ends, the
    write is started, and its handler asks for the next buffer. *)
Fixpoint post_writes (n : nat) (r : entry_result) : entry_result :=
  match n, r with
  | S n, (m, []) =>
      match delay_wait m with
      | Some (sd, DelayedWrite data) =>
          post_writes n (HandlePostWrite false
            (ClearAsyncTimeout (PostViaInterfaceDelayCallback sd data (set_delay_wait None m))))
      | _ => r
      end
  | _, _ => r
  end.

(** One buffer: it is written and the next one is asked for. *)
Lemma post_write_step n data chunks size sd m :
  live_state_data m = Some sd -> post_interface_ m = Some (size, Some data :: chunks) ->
  data <> [] -> 0 <= bytes_read_from_interface m ->
  bytes_read_from_interface m + Z.of_nat (length data) < 2 ^ 64 ->
  exists m', post_writes (S n) (PostViaInterface m) = post_writes n (PostViaInterface m') /\
    live_state_data m' = Some sd /\ post_interface_ m' = Some (size, chunks) /\
    bytes_read_from_interface m' = bytes_read_from_interface m + Z.of_nat (length data) /\
    sent m' = sent m ++ [data].
Proof.
  intros Hsd Hp Hd Hb Hlt. unfold PostViaInterface at 1. rewrite Hp.
  destruct data as [|x data']; [done|]. set (data := x :: data') in *.
  set (m1 := set_post_interface_ _ m).
  set (m2 := set_bytes_read_from_interface _ m1).
  set (m3 := PostViaInterfaceDelayCallback sd data
    (set_delay_wait None (set_delay_wait (Some (sd, DelayedWrite data)) (set_transmission_delay_timer_enabled_ true m2)))).
  assert (live_state_data m1 = Some sd) as E1 by done. rewrite E1. cbn [fmap option_fmap option_map].
  cbn [post_writes]. cbn [set_delay_wait delay_wait]. fold m3.
  assert (m3 = set_sent (sent m2 ++ [data]) (StartOperation (set_transmission_delay_timer_enabled_ false
    (set_delay_wait None (set_transmission_delay_timer_enabled_ true m2))))) as E3.
  { subst m3. unfold PostViaInterfaceDelayCallback.
    rewrite bool_decide_eq_true_2 by done. done. }
  assert (live_state_data (ClearAsyncTimeout m3) = Some sd /\
    post_interface_ (ClearAsyncTimeout m3) = Some (size, chunks) /\
    bytes_read_from_interface (ClearAsyncTimeout m3) =
      u64 (bytes_read_from_interface m + Z.of_nat (length data)) /\
    sent (ClearAsyncTimeout m3) = sent m ++ [data]) as (Ha & Hb' & Hc & He).
  { rewrite E3. unfold StartOperation. cbn. rewrite Hsd. done. }
  exists (ClearAsyncTimeout m3). unfold HandlePostWrite. rewrite Hb'. rewrite u64_small in Hc by lia.
  by split_and!.
Qed.

Lemma post_writes_all chunks size sd m :
  live_state_data m = Some sd -> post_interface_ m = Some (size, Some <$> chunks) ->
  Forall (fun bytes => bytes <> []) chunks -> 0 <= bytes_read_from_interface m ->
  bytes_read_from_interface m + Z.of_nat (length (concat chunks)) = size -> size < 2 ^ 64 ->
  exists m', post_writes (length chunks) (PostViaInterface m) = (m', [PostSent]) /\
    sent m' = sent m ++ chunks.
Proof.
  revert m. induction chunks as [|data chunks IH]; intros m Hsd Hp Hc Hb Hs Hlt.
  - unfold PostViaInterface. rewrite Hp. cbn in *.
    rewrite (proj2 (Z.eqb_eq _ _)) by lia. cbn. eexists. split; [done|]. by rewrite app_nil_r.
  - apply Forall_cons in Hc as [Hne Hc]. cbn [concat] in Hs. rewrite length_app in Hs.
    destruct (post_write_step (length chunks) data (Some <$> chunks) size sd m)
      as (m1 & Hw & Hsd1 & Hp1 & Hb1 & Hs1); [done..|lia|lia|].
    destruct (IH m1 Hsd1 Hp1 Hc) as (m' & Hw' & Hs'); [lia|lia|done|].
    exists m'. cbn [length]. rewrite Hw. split; [done|]. by rewrite Hs', Hs1, <-app_assoc.
Qed.

Lemma SendPost_pipe m : post_data_ m = None ->
  SendPost_on_entry m = PostViaInterface (set_bytes_read_from_interface 0 (NewStateData m)).
Proof. intros Hp. unfold SendPost_on_entry. cbn. by rewrite Hp. Qed.

Lemma configured_pipe size chunks m :
  let m' := ConfigEventAction boost (ConfigPostDataPipe size chunks) m in
  post_data_ m' = None /\ post_interface_ m' = Some (size, chunks) /\ sent m' = sent m.
Proof. done. Qed.

(** A request configured with buffers of the announced size in all. *)
Lemma configured_post size chunks m :
  Forall (fun bytes => bytes <> []) chunks -> Z.of_nat (length (concat chunks)) = size ->
  size < 2 ^ 64 ->
  exists m', post_writes (length chunks)
      (SendPost_on_entry (ConfigEventAction boost (ConfigPostDataPipe size (Some <$> chunks)) m)) =
      (m', [PostSent]) /\
    sent m' = sent m ++ chunks.
Proof.
  intros Hc Hs Hl. destruct (configured_pipe size (Some <$> chunks) m) as (Hd & Hp & <-).
  set (m1 := ConfigEventAction _ _ _) in *. clearbody m1. rewrite (SendPost_pipe m1 Hd).
  set (m2 := set_bytes_read_from_interface 0 (NewStateData m1)).
  assert (sent m2 = sent m1) as <- by done.
  by apply (post_writes_all chunks size (next_id m1) m2).
Qed.

(** The HTTP request posts what the pipe gives: configured with a pipe on a range of the
    file, its state [SendPost] writes the bytes of the range, in order and nothing else, and
    goes on. *)
Theorem pipe_is_posted file b e io (m : Machine) :
  reads_from file b io -> 0 <= b <= e -> e <= Z.of_nat (length file) < 2 ^ 63 ->
  let p := new_pipe io b e in
  exists n m', post_writes n (SendPost_on_entry (ConfigEventAction boost (with_pipe p) m)) = (m', [PostSent]) /\
    exists bodies, sent m' = sent m ++ bodies /\ concat bodies = slice b e file.
Proof.
  intros Hr Hb He p. destruct (new_pipe_sends file b e io Hr Hb He) as (Hs & Hcat & Hall).
  fold p in Hs, Hcat, Hall. set (chunks := pipe_chunks (pipe_fuel p) p) in *.
  destruct (configured_post (e - b) chunks m) as (m' & Hw & Hm').
  - eapply Forall_impl; [exact Hall|]. by intros ? [? _].
  - rewrite Hcat. apply slice_length; lia.
  - lia.
  - exists (length chunks), m'. unfold with_pipe. rewrite Hs. split; [exact Hw|]. by exists chunks.
Qed.
End Http.

(** ** The query *)

(** What a server reads: a piece without a value is a name. *)
Definition parse_piece (s : str) : option query_part :=
  match split_at "=" s with
  | Some (k, v) => v' ← percent_Decode v; Some (k, v')
  | None => k ← percent_Decode s; Some (k, [])
  end.

Lemma split_at_none sep s : (sep ∉ s) -> split_at sep s = None.
Proof.
  intros Hs. destruct (split_at sep s) as [[a b]|] eqn:E; [|done].
  apply split_at_spec in E as [-> _]. set_solver.
Qed.

Lemma query_piece_parse it : Forall plain (fst it) ->
  ("&"%char ∉ query_piece it) /\ parse_piece (query_piece it) = Some it.
Proof.
  intros Hk. destruct it as [k v]. unfold query_piece, parse_piece. cbn [fst snd] in *.
  assert (("&"%char ∉ k) /\ ("="%char ∉ k)) as [Ha He]
    by (split; (apply plain_not_in; [apply not_plain; set_solver|done])).
  case_bool_decide as Hv.
  - subst v. unfold percent_Encode. rewrite encode_plain by done. split; [done|].
    rewrite split_at_none by done. unfold percent_Decode.
    rewrite <-(encode_plain PlusNo k) at 1 by done. by rewrite unencode_encode.
  - change (B "=" ++ percent_Encode v) with ("="%char :: percent_Encode v). split.
    + rewrite elem_of_app, elem_of_cons.
      intros [?|[?|Hin]]; [done|done|by apply encoded_no_ampersand in Hin].
    + rewrite split_at_key by done. unfold percent_Decode, percent_Encode. by rewrite unencode_encode.
Qed.

Lemma split_join pieces : pieces <> [] -> Forall (fun p => "&"%char ∉ p) pieces ->
  split_on "&" (join (B "&") pieces) = pieces.
Proof.
  intros Hne H. induction H as [|p pieces Hp Hps IH]; [done|]. destruct pieces as [|q pieces].
  - by apply split_on_plain.
  - change (join (B "&") (p :: q :: pieces)) with (p ++ "&"%char :: join (B "&") (q :: pieces)).
    rewrite split_on_app by done. by rewrite IH.
Qed.

Lemma AssembleQuery_parse qm : qm <> [] -> Forall (fun it => Forall plain (fst it)) qm ->
  exists query, AssembleQuery qm = B "?" ++ query /\ mapM parse_piece (split_on "&" query) = Some qm.
Proof.
  intros Hne Hk. eexists. split; [done|].
  assert (Forall (fun p => "&"%char ∉ p) (query_piece <$> qm)) as Ha.
  { apply Forall_fmap. eapply Forall_impl; [exact Hk|]. intros it Hit. by apply query_piece_parse. }
  rewrite split_join; [|by destruct qm|done].
  apply mapM_Some, Forall2_fmap_l, Forall_Forall2_diag. eapply Forall_impl; [exact Hk|].
  intros it Hit. by apply query_piece_parse.
Qed.

Section Query.
Context {H : Type} (iso_extended_of_time_t : Z -> str).

(** The parameters of an upload. *)
Definition upload_parameters (target : UploadTarget) (m : UploadMachine.Upload (H := H)) :
    list query_part :=
  match on_duplicate_action_ m with
  | Fail_ => []
  | Replace => [(B "action_on_duplicate", B "replace")]
  | AutoRename => [(B "action_on_duplicate", B "keep")]
  end ++
  match target with
  | ParentFolderKey ((_ :: _) as key) => [(B "folder_key", key)]
  | _ => []
  end ++
  [(B "mtime", AsDateTime iso_extended_of_time_t (mtime_ m))] ++
  match target with
  | CloudPath path => [(B "path", path)]
  | _ => []
  end ++
  [(B "response_format", B "json"); (B "session_token", action_token_ m)].

Lemma query_map_parameters target m :
  query_map iso_extended_of_time_t target m = upload_parameters target m.
Proof.
  unfold query_map, upload_parameters, TargetUrlVisitor.
  destruct (on_duplicate_action_ m), target as [[|c key]|path];
    try (rewrite bool_decide_eq_false_2 by done); reflexivity.
Qed.

(** The query of an upload request parses back to its parameters: the action token, the
    folder or the path, what to do with a duplicate, the time of the file. *)
Theorem upload_query_parses target m :
  exists query,
    DoSimpleUpload_BuildUrl iso_extended_of_time_t target m =
      B "http://www.mediafire.com/api/1.3/upload/simple.php?" ++ query /\
    DoChunkUpload_BuildUrl iso_extended_of_time_t target m =
      B "http://www.mediafire.com/api/1.3/upload/resumable.php?" ++ query /\
    mapM parse_piece (split_on "&" query) = Some (upload_parameters target m).
Proof.
  unfold DoSimpleUpload_BuildUrl, DoChunkUpload_BuildUrl. rewrite query_map_parameters.
  destruct (AssembleQuery_parse (upload_parameters target m)) as (query & -> & Hq).
  - unfold upload_parameters. by repeat case_match.
  - unfold upload_parameters. rewrite !Forall_app. split_and!; repeat case_match;
      repeat constructor; cbn [fst]; by apply plain_name.
  - by exists query.
Qed.
End Query.
