(* ===== verification/UploadReplies.v ===== *)
(** * The calls of an upload and how it reads their replies
    ([uploader/detail/transition_check.hpp], [transition_instant_upload.hpp],
    [transition_upload.hpp], [transition_poll_upload.hpp])

    The requests of the classes [upload/check], [upload/instant] and [upload/poll_upload] as
    the upload sets them, the fields it reads of their responses, and the values that it reads
    of the reply to an HTTP request of its own.  Composed with the classes, what the upload
    does next is a function of what the server sent. *)
From S2P Require Import Prelude Errors Boost ApiRequests PropertyTree ApiResponses ApiResponsesTheorems Endpoint EndpointSpec EndpointProofs ApiUpload ApiFile ApiCalls ApiCallsTheorems HashReader UploadMachine UploadRequests.

Open Scope Z_scope.

Section Replies.
Context `{lib : Libraries} {H : Type}.
#[local] Abbreviation Upload := (UploadMachine.Upload (H := H)).

(** ** Requests *)

(** [uploader/detail/transition_check.hpp:106-127 TargetSetter] *)
Definition Check_TargetSetter (target : UploadTarget) (request : upload_check_v1_3.Impl) :
    upload_check_v1_3.Impl :=
  match target with
  | ParentFolderKey key => upload_check_v1_3.SetTargetParentFolderkey key request
  | CloudPath path => upload_check_v1_3.SetPath path request
  end.

(** [uploader/detail/transition_check.hpp:129-150 Check] *)
Definition Check_request (target : UploadTarget) (m : Upload) : upload_check_v1_3.Impl :=
  let request := upload_check_v1_3.new_Impl (filename m) in
  let request := upload_check_v1_3.SetHash (UploadMachine.hash_ m) request in
  let request := upload_check_v1_3.SetFilesize (filesize_ m) request in
  let request := Check_TargetSetter target request in
  if (1 <? length (chunk_ranges_ m))%nat
  then upload_check_v1_3.SetResumable upload_check_v1_3.Resumable_Resumable request
  else request.

(** [uploader/detail/transition_instant_upload.hpp:26-44 TargetSetter] *)
Definition DoInstantUpload_TargetSetter (target : UploadTarget)
    (request : upload_instant_v1_3.Impl) : upload_instant_v1_3.Impl :=
  match target with
  | ParentFolderKey key => upload_instant_v1_3.SetTargetParentFolderkey key request
  | CloudPath path => upload_instant_v1_3.SetTargetPath path request
  end.

(** [uploader/detail/transition_instant_upload.hpp:46-76 DoInstantUpload] *)
Definition DoInstantUpload_request (target : UploadTarget) (m : Upload) :
    upload_instant_v1_3.Impl :=
  let request := upload_instant_v1_3.new_Impl (filename m) (UploadMachine.hash_ m) (filesize_ m) in
  let request :=
    match on_duplicate_action_ m with
    | Fail_ => request
    | Replace =>
        upload_instant_v1_3.SetActionOnDuplicate upload_instant_v1_3.ActionOnDuplicate_Replace
          request
    | AutoRename =>
        upload_instant_v1_3.SetActionOnDuplicate upload_instant_v1_3.ActionOnDuplicate_Keep
          request
    end in
  DoInstantUpload_TargetSetter target request.

(** [uploader/detail/transition_poll_upload.hpp:140-141 StartPoll] *)
Definition StartPoll_request (upload_key : str) : upload_poll_upload_v1_3.Impl :=
  upload_poll_upload_v1_3.new_Impl upload_key.

(** ** Responses *)

(** What [HandleCheck] reads.
    [uploader/detail/transition_check.hpp:37-92 HandleCheck] *)
Definition check_response (ec : error_code) (v : upload_check_v1_3.Response) : CheckResponse :=
  {| chk_error_code := ec;
     file_exists := match upload_check_v1_3.Response_file_exists v with
                    | upload_check_v1_3.FilenameInFolder_Yes => true
                    | upload_check_v1_3.FilenameInFolder_No => false
                    end;
     hash_different := match upload_check_v1_3.Response_hash_different v with
                       | upload_check_v1_3.FileExistsWithDifferentHash_Yes => true
                       | upload_check_v1_3.FileExistsWithDifferentHash_No => false
                       end;
     duplicate_quickkey := upload_check_v1_3.Response_duplicate_quickkey v;
     storage_limit_exceeded := match upload_check_v1_3.Response_storage_limit_exceeded v with
                               | upload_check_v1_3.StorageLimitExceeded_Yes => true
                               | upload_check_v1_3.StorageLimitExceeded_No => false
                               end;
     hash_exists := match upload_check_v1_3.Response_hash_exists v with
                    | upload_check_v1_3.HashAlreadyInSystem_Yes => true
                    | upload_check_v1_3.HashAlreadyInSystem_No => false
                    end;
     resumable := (fun d => (upload_check_v1_3.ResumableData_number_of_units d,
                             upload_check_v1_3.ResumableData_words d))
                  <$> upload_check_v1_3.Response_resumable v |}.

(** [uploader/detail/transition_instant_upload.hpp:82-94 DoInstantUpload] *)
Definition instant_response (ec : error_code) (v : upload_instant_v1_3.Response) :
    InstantResponse :=
  {| inst_error_code := ec; inst_quickkey := upload_instant_v1_3.Response_quickkey v;
     inst_filename := upload_instant_v1_3.Response_filename v;
     inst_revision := upload_instant_v1_3.Response_new_device_revision v |}.

(** [uploader/detail/transition_poll_upload.hpp:90-107 HandlePollResponse] *)
Definition poll_response (v : upload_poll_upload_v1_3.Response) : PollResponse :=
  {| poll_result := upload_poll_upload_v1_3.Response_result v;
     fileerror := upload_poll_upload_v1_3.Response_fileerror v;
     poll_quickkey := upload_poll_upload_v1_3.Response_quickkey v;
     poll_revision := upload_poll_upload_v1_3.Response_revision v;
     poll_filename := upload_poll_upload_v1_3.Response_filename v |}.

Section Library.
Context (boost : Boost) (message : error_code -> str).

(** What is read of the reply to a request that sent a file or a chunk.
    [uploader/detail/transition_upload.hpp:158-197 HandleUploadResponse] *)
Definition upload_response (http_ec : error_code) (url : str) (status_code : Z) (content : str) :
    UploadResponse :=
  let response := InitializeWithContent the_json boost message url [] status_code content in
  {| http_error_code := http_ec;
     up_error_code := r_error_code the_json response;
     doupload_result := GetIfExistsNumber the_json int32 (r_pt the_json response)
                          (B "response.doupload.result");
     doupload_key := GetIfExists the_json (r_pt the_json response)
                       (B "response.doupload.key") |}.

(** The reply to [upload/check], as the callback of the upload gets it. *)
Definition check_reply (debug url : str) (status_code : Z) (content : str) : CheckResponse :=
  let '(r, v) := reply_to boost message debug upload_check_v1_3.call url status_code content in
  check_response (r_error_code the_json r) v.

(** The same for [upload/instant]. *)
Definition instant_reply (debug url : str) (status_code : Z) (content : str) : InstantResponse :=
  let '(r, v) := reply_to boost message debug upload_instant_v1_3.call url status_code content in
  instant_response (r_error_code the_json r) v.

(** The same for [upload/poll_upload], whose error code is not read. *)
Definition poll_reply (debug url : str) (status_code : Z) (content : str) : PollResponse :=
  let '(r, v) := reply_to boost message debug upload_poll_upload_v1_3.call url status_code content in
  poll_response v.

(** ** What the upload does *)

(** C18 An upload acts on what the server said of the file: a successful reply to [upload/check]
    that is as described decides the next event by the values that the description reads from
    it, or ends the upload when a member is missing.  Any other reply whose error code is not
    0 ends the upload with that error; one whose error code is 0, and whose content can be
    parsed, is taken for a successful one. *)
Theorem check_reply_decides debug url status_code content (m : Upload) :
  let answer := HandleCheckResponse (check_reply debug url status_code content) m in
  (forall pt, successful the_json boost status_code content ->
     read_json the_json content = inl pt ->
     well_formed upload_check_v1_3.Response_described pt ->
     (exists v, decoded upload_check_v1_3.Response_described pt v /\
        answer = HandleCheck (check_response no_error v) m) \/
     (~ accepted upload_check_v1_3.Response_described pt /\
        answer = (m, Error (api_error ContentInvalidData)))) /\
  (~ successful the_json boost status_code content ->
     is_error (failure_code the_json status_code content) ->
     answer = (m, Error (failure_code the_json status_code content))) /\
  (forall pt, ~ successful the_json boost status_code content ->
     ~ is_error (failure_code the_json status_code content) ->
     read_json the_json content = inl pt ->
     well_formed upload_check_v1_3.Response_described pt ->
     (exists v, decoded upload_check_v1_3.Response_described pt v /\
        answer = HandleCheck (check_response (failure_code the_json status_code content) v) m) \/
     (~ accepted upload_check_v1_3.Response_described pt /\
        answer = (m, Error (api_error ContentInvalidData)))).
Proof.
  cbn zeta. pose proof (fun pt => described_code_zero boost message debug upload_check_v1_3.call
    _ _ _ _ url status_code content pt upload_check_v1_3.call_implements) as Hz. pose proof (described_reply boost message debug upload_check_v1_3.call _ _ _ _ url
    status_code content upload_check_v1_3.call_implements) as Hd.
  unfold check_reply. destruct (reply_to _ _ _ _ _ _ _) as [r v]. destruct Hd as [Hok Hf].
  unfold HandleCheckResponse. cbn [chk_error_code check_response]. split_and!.
  - intros pt Hs Hpt Hw. destruct (Hok pt Hs Hpt Hw) as [(Ha & -> & _ & Hv)|[Ha [-> _]]].
    + left. by exists v.
    + by right.
  - intros Hs He. destruct (Hf Hs He) as (-> & _ & _). by rewrite (Is_true_eq_true _ He).
  - intros pt Hs He Hpt Hw. destruct (Hz pt Hs He Hpt Hw) as [(Ha & -> & _ & Hv)|[Ha [-> _]]].
    + left. exists v. split; [done|]. by destruct (is_error _); [destruct He|].
    + by right.
Qed.

(** The reply to a chunk: without an error and with a key, the chunk was sent; a result that
    the server gives is preferred to the error of the reply, and used when there is no key. *)
Theorem chunk_reply_decides url status_code content chunk_id :
  let r := InitializeWithContent the_json boost message url [] status_code content in
  let result := GetIfExistsNumber the_json int32 (r_pt the_json r) (B "response.doupload.result") in
  let key := GetIfExists the_json (r_pt the_json r) (B "response.doupload.key") in
  let event := HandleChunkResponse chunk_id (upload_response no_error url status_code content) in
  (successful the_json boost status_code content ->
     event = match key, result with
             | Some key, _ => ChunkSuccess (H := H) chunk_id key
             | None, Some e => Error (Ec cat_upload_response e)
             | None, None => Error (api_error ContentInvalidData)
             end) /\
  (~ successful the_json boost status_code content ->
     is_error (failure_code the_json status_code content) ->
     event = Error (match result with
                    | Some e => Ec cat_upload_response e
                    | None => failure_code the_json status_code content
                    end)).
Proof.
  cbn zeta. pose proof (initialized the_json boost message url [] status_code content) as Hi.
  cbn zeta in Hi. destruct Hi as (_ & _ & Hok & Hf).
  unfold HandleChunkResponse, HandleUploadResponse, upload_response. cbn.
  set (r := InitializeWithContent _ _ _ _ _ _ _) in *. split.
  - intros Hs. rewrite (Hok Hs). cbn. by repeat case_match.
  - intros Hs He. rewrite (Hf Hs), (Is_true_eq_true _ He). by case_match.
Qed.

End Library.
End Replies.
