(* ===== verification/UploadExamples.v ===== *)
(** * Uploads on concrete files and replies

    The theorems about what an upload sends and reads, applied to a file of three bytes and to
    the replies of a small tree library. *)
From S2P Require Import Prelude Errors Boost UrlEncode ApiRequests PropertyTree ApiResponses ApiResponsesTheorems Endpoint EndpointSpec ApiUpload Stepping HashReader FileIO HttpMachine UploadMachine UploadRequests UploadRequestsTheorems UploadReplies ApiExamples.

Open Scope Z_scope.

Module Uploads.

(** A file of three bytes, open. *)
Definition abc : FileIO :=
  {| file_handle_ := {| contents := B "abc"; position := 0; feof := false; ferror := false;
                        bad := None; writable := false; appending := false |};
     size_hint_ := 3 |}.

Lemma abc_opened : reads_from (B "abc") 0 abc.
Proof. done. Qed.

(** Hashing that keeps the bytes. *)
Definition upload : UploadMachine.Upload (H := str) := NewUpload (B "abc.txt") Replace.

(** A reply to [upload/check] for contents that the server has. *)
Definition known : Replies.tree :=
  Replies.object [("response", Replies.object
    [("result", Replies.leaf "Success"); ("hash_exists", Replies.leaf "yes");
     ("available_space", Replies.leaf "100")])].

(** The same, in a reply that failed with the code 0. *)
Definition refused : Replies.tree :=
  Replies.object [("response", Replies.object
    [("result", Replies.leaf "Error"); ("error", Replies.leaf "0");
     ("hash_exists", Replies.leaf "yes"); ("available_space", Replies.leaf "100")])].

Definition libraries : Libraries :=
  {| the_json := Replies.json [(B "known", known); (B "refused", refused)];
     the_time := Replies.time;
     indeterminate := fun T i => inhabitant |}.

Lemma known_successful : successful (@the_json libraries) c_locale 200 (B "known").
Proof. split; [done|]. by exists known. Qed.

Lemma known_well_formed :
  @well_formed libraries _ (@upload_check_v1_3.Response_described libraries) known.
Proof. Replies.all_regular. Qed.

(** What the upload does with a reply to its check. *)
Definition next (status_code : Z) (content : string) : event :=
  (HandleCheckResponse (@check_reply libraries c_locale Replies.silent [] (B "https://h/a")
     status_code (B content)) upload).2.
End Uploads.
Import Uploads.

Lemma chunk_requests_carry_file_witness :
  Z.of_nat (length (B "abc")) < 2 ^ 31 /\
  exists ranges st bodies,
    ChunkRanges (length ranges) 3 = Some ranges /\
    concat bodies = B "abc" /\ length bodies = length ranges /\
    forall chunk body, bodies !! chunk = Some body ->
      exists url headers p,
        UploadNextChunk_request (fun _ => []) (CloudPath (B "/")) (inl abc) chunk
          (SaveHash st (B "abc") upload) = inl (url, headers ++ [with_pipe p], p) /\
        concat (pipe_chunks (pipe_fuel p) p) = body /\
        ConfigHeader (B "x-unit-hash") body ∈ headers.
Proof.
  split; [done|].
  destruct (chunk_requests_carry_file [] app id (fun _ => [])
    (fun h a b => eq_sym (app_assoc h a b)) (fun h => app_nil_r h) (B "abc") 7 ltac:(done))
    as (ranges & st & HR & _ & Hall).
  destruct (Hall (CloudPath (B "/")) abc upload abc_opened) as (bodies & Hc & Hl & Hb).
  exists ranges, st, bodies. split_and!; [exact HR|exact Hc|exact Hl|].
  intros chunk body Hbody. destruct (Hb chunk body Hbody) as (url & headers & p & Hu & Hp & _ & _ & _ & Hh & _).
  exists url, headers, p. split_and!; [exact Hu|exact Hp|exact Hh].
Defined.

Lemma check_reply_decides_witness :
  next 200 "known" = InstantUpload /\ next 500 "oops" = Error (Ec cat_http_status 500)
  /\ next 200 "refused" = InstantUpload.
Proof.
  split_and!.
  - destruct (@check_reply_decides libraries str c_locale Replies.silent [] (B "https://h/a") 200
      (B "known") upload) as [Hok _].
    destruct (Hok known known_successful eq_refl known_well_formed) as [(v & _ & E)|[_ E]];
      apply (f_equal snd) in E; by vm_compute in E |- *.
  - destruct (@check_reply_decides libraries str c_locale Replies.silent [] (B "https://h/a") 500
      (B "oops") upload) as [_ [Hf _]].
    unfold next. rewrite Hf; [done|by intros [? _]|done].
  - destruct (@check_reply_decides libraries str c_locale Replies.silent [] (B "https://h/a") 200
      (B "refused") upload) as [_ [_ Hz]].
    destruct (Hz refused) as [(v & _ & E)|[_ E]];
      [by intros (_ & pt & [= <-] & Hs)|by vm_compute|done|Replies.all_regular|..];
      apply (f_equal snd) in E; by vm_compute in E |- *.
Defined.
