(* ===== verification/Coroutine.v ===== *)
(** * Coroutines ([api/actions/coroutine.hpp])

    The actions of [api/actions/] derive from [Coroutine]: a body that yields while it waits
    and is resumed by the handlers of its calls.  A body is cut at its yields; its position
    says where it is, with the local variables that live across the yield.

    [CoroutineOps] and [CoroutineLaws] are what the users of an action rely on, whatever the
    action: the work manager posts [Start], answers of the session maintainer drive it, it
    ends by calling its callback once. *)
From S2P Require Import Prelude.

(** [Stuck]: resumed after its end (undefined for Boost's coroutines), or a loop that never
    yields.  The actions prove that it is not reached.
    [api/actions/coroutine.hpp:35-44 coro_] *)
Inductive position (L : Type) :=
  | NotStarted
  | Suspended (locals : L)
  | Complete
  | Stuck.
Arguments NotStarted {L}.
Arguments Suspended {L} locals.
Arguments Complete {L}.
Arguments Stuck {L}.

(** [coro_()], the body of both [Start] and [Resume]: runs to the next yield.
    [api/actions/coroutine.hpp:25-27 Start, Resume] *)
Definition coro {S L} (frame : S -> position L) (stuck : S -> S) (begin : S -> S)
    (continue : L -> S -> S) (s : S) : S :=
  match frame s with
  | NotStarted => begin s
  | Suspended l => continue l s
  | Complete | Stuck => stuck s
  end.

(** What a user of an action sees of it. *)
Inductive phase (R : Type) :=
  | Idle                  (** created, not started *)
  | Running
  | Ended (result : R).   (** the arguments of its callback *)
Arguments Idle {R}.
Arguments Running {R}.
Arguments Ended {R} result.

(** An action [W] that is driven by answers [A] and ends with [R].  [Answer] is [None] when
    no call that is under way can give this answer. *)
Class CoroutineOps (W A R : Type) := {
  Start : W -> W;
  Answer : A -> W -> option W;
  Cancel : W -> W;
  Phase : W -> phase R }.

(** The promise of an action with invariant [ok]: starting or answering it leaves it
    running or ended, while it runs some answer is awaited, an action that does not run is
    not answered, and cancelling does not end it by itself. *)
Class CoroutineLaws {W A R} `{CoroutineOps W A R} (ok : W -> Prop) := {
  start_ok w : ok w -> Phase w = Idle -> ok (Start w) /\ Phase (Start w) <> Idle;
  answer_ok a w w' :
    ok w -> Answer a w = Some w' -> ok w' /\ Phase w = Running /\ Phase w' <> Idle;
  running_awaits w : ok w -> Phase w = Running -> exists a, is_Some (Answer a w);
  cancel_ok w : ok w -> ok (Cancel w) /\ Phase (Cancel w) = Phase w }.

(** ** Work of two kinds

    A caller that queues actions of two classes sees their union. *)
Section Union.
Context {W1 A1 R1 W2 A2 R2 : Type} `{CoroutineOps W1 A1 R1} `{CoroutineOps W2 A2 R2}.

Definition phase_map {R R'} (f : R -> R') (p : phase R) : phase R' :=
  match p with Idle => Idle | Running => Running | Ended r => Ended (f r) end.

#[export] Instance sum_ops : CoroutineOps (W1 + W2) (A1 + A2) (R1 + R2) := {
  Start w := match w with inl w => inl (Start w) | inr w => inr (Start w) end;
  Answer a w :=
    match a, w with
    | inl a, inl w => inl <$> Answer a w
    | inr a, inr w => inr <$> Answer a w
    | _, _ => None
    end;
  Cancel w := match w with inl w => inl (Cancel w) | inr w => inr (Cancel w) end;
  Phase w :=
    match w with
    | inl w => phase_map inl (Phase w)
    | inr w => phase_map inr (Phase w)
    end }.

Definition sum_ok (ok1 : W1 -> Prop) (ok2 : W2 -> Prop) (w : W1 + W2) : Prop :=
  match w with inl w => ok1 w | inr w => ok2 w end.

Lemma phase_map_idle {R R'} (f : R -> R') p : phase_map f p = Idle <-> p = Idle.
Proof. by destruct p. Qed.

Lemma phase_map_running {R R'} (f : R -> R') p : phase_map f p = Running <-> p = Running.
Proof. by destruct p. Qed.

#[export] Instance sum_laws (ok1 : W1 -> Prop) (ok2 : W2 -> Prop) `{!CoroutineLaws ok1} `{!CoroutineLaws ok2} :
  CoroutineLaws (sum_ok ok1 ok2).
Proof.
  split.
  - intros [w|w] Hok; cbn; rewrite !phase_map_idle; by apply start_ok.
  - intros [a|a] [w|w] w' Hok; cbn; intros Ha; try done;
      apply fmap_Some in Ha as (w1 & Ha & ->); cbn; rewrite phase_map_idle, phase_map_running;
      by eapply answer_ok.
  - intros [w|w] Hok; cbn; rewrite phase_map_running; intros Hp;
      destruct (running_awaits w Hok Hp) as [a [w' Ha]].
    + exists (inl a), (inl w'). by rewrite Ha.
    + exists (inr a), (inr w'). by rewrite Ha.
  - intros [w|w] Hok; cbn; destruct (cancel_ok w Hok) as [? ->]; done.
Qed.

End Union.
