(* ===== verification/GetFolderContents.v ===== *)
(** * Listing a folder ([api/actions/get_folder_contents])

    [GetFolderContents] is a coroutine: its body calls folder/get_content once per chunk,
    yields until the calls have answered, and ends by calling the callback.  The body is cut
    at its yields: [frame] says where it waits and holds its local variables.  An answer
    arrives while its request is held; with files and folders asked for, the two answers of
    a round come in any order.

    [calls], [cancels] and [answers] record the calls of the session maintainer and of its
    requests and the answers received; the code does not read them. *)
From S2P Require Import Prelude Errors Coroutine.

Open Scope Z_scope.

(** [api/folder/get_content/v1_2.hpp:123-129 ChunksRemaining] *)
Inductive ChunksRemaining := MoreChunks | LastChunk.

#[export] Instance ChunksRemaining_eq_dec : EqDecision ChunksRemaining.
Proof. solve_decision. Defined.

(** [api/folder/get_content/v1_2.hpp:29-35 ContentType] *)
Inductive ContentType := ContentFolders | ContentFiles.

#[export] Instance ContentType_eq_dec : EqDecision ContentType.
Proof. solve_decision. Defined.

(** [api/actions/get_folder_contents.hpp:21-26 FilesOrFoldersOrBoth] *)
Inductive FilesOrFoldersOrBoth := Files | Folders | Both.

#[export] Instance FilesOrFoldersOrBoth_eq_dec : EqDecision FilesOrFoldersOrBoth.
Proof. solve_decision. Defined.

(** The request's constructor parameters.
    [api/folder/get_content/v1_2.hpp:334-338 Request] *)
Record Request := { req_folder_key : str; req_chunk_number : Z; req_content_type : ContentType }.

Section Contents.
Context {File Folder : Type}.

(** The fields of a response that the actions read.
    [api/folder/get_content/v1_2.hpp:135-301 Response] *)
Record Response := {
  rsp_error_code : error_code;
  rsp_error_string : option str;
  rsp_chunk_number : Z;
  rsp_chunks_remaining : ChunksRemaining;
  rsp_files : list File;
  rsp_folders : list Folder }.

(** [api/actions/get_folder_contents.hpp:39-52 ErrorType] *)
Record ErrorType := {
  err_folder_key : str;
  err_files_or_folders_or_both : FilesOrFoldersOrBoth;
  err_chunk_num : Z;
  err_error_code : error_code;
  err_error_string : option str }.

(** The local variables of the body while it waits: how many of the round's yields are
    left after this one, and the chunk numbers.
    [api/actions/get_folder_contents_impl.hpp:154-156 CoroutineBody] *)
Record Locals := { yields_left : nat; files_chunk_num : Z; folders_chunk_num : Z }.

(** [api/actions/get_folder_contents.hpp:88-106 GetFolderContents] *)
Record GetFolderContents := {
  folder_key_ : str;
  files_or_folders_or_both_ : FilesOrFoldersOrBoth;
  files_ : list File;
  folders_ : list Folder;
  errors_ : list ErrorType;
  file_chunks_remaining_ : bool;
  folder_chunks_remaining_ : bool;
  files_request_ : bool;      (** not null *)
  folders_request_ : bool;
  cancelled_ : bool;
  frame : position Locals;
  calls : list Request;
  cancels : list ContentType;
  answers : list (ContentType * Response);
  callbacks : list (list File * list Folder * list ErrorType) }.

#[local] Instance GetFolderContents_members : Members GetFolderContents := fun s =>
  Build_GetFolderContents (folder_key_ s) (files_or_folders_or_both_ s) (files_ s)
    (folders_ s) (errors_ s) (file_chunks_remaining_ s) (folder_chunks_remaining_ s)
    (files_request_ s) (folders_request_ s) (cancelled_ s) (frame s) (calls s) (cancels s)
    (answers s) (callbacks s).

Definition with_files_ := ltac:(setter files_).
Definition with_folders_ := ltac:(setter folders_).
Definition with_errors_ := ltac:(setter errors_).
Definition with_file_chunks_remaining_ := ltac:(setter file_chunks_remaining_).
Definition with_folder_chunks_remaining_ := ltac:(setter folder_chunks_remaining_).
Definition with_files_request_ := ltac:(setter files_request_).
Definition with_folders_request_ := ltac:(setter folders_request_).
Definition with_cancelled_ := ltac:(setter cancelled_).
Definition with_frame := ltac:(setter frame).
Definition with_calls := ltac:(setter calls).
Definition with_cancels := ltac:(setter cancels).
Definition with_answers := ltac:(setter answers).
Definition with_callbacks := ltac:(setter callbacks).

(** [api/actions/get_folder_contents_impl.hpp:33-55 GetFolderContents] *)
Definition Create (folder_key : str) (which : FilesOrFoldersOrBoth) : GetFolderContents :=
  {| folder_key_ := folder_key; files_or_folders_or_both_ := which;
     files_ := []; folders_ := []; errors_ := [];
     file_chunks_remaining_ := bool_decide (which = Files) || bool_decide (which = Both);
     folder_chunks_remaining_ := bool_decide (which = Folders) || bool_decide (which = Both);
     files_request_ := false; folders_request_ := false; cancelled_ := false;
     frame := NotStarted; calls := []; cancels := []; answers := []; callbacks := [] |}.

(** [api/actions/get_folder_contents_impl.hpp:57-67 Cancel] *)
Definition CancelContents (s : GetFolderContents) : GetFolderContents :=
  let s := with_cancelled_ true s in
  let s := if files_request_ s then with_cancels (cancels s ++ [ContentFiles]) s else s in
  if folders_request_ s then with_cancels (cancels s ++ [ContentFolders]) s else s.

(** [api/actions/get_folder_contents_impl.hpp:165-185 CoroutineBody] *)
Definition call_files (files_chunk_num : Z) (s : GetFolderContents) : GetFolderContents :=
  let s := with_calls (calls s ++ [{| req_folder_key := folder_key_ s;
                                     req_chunk_number := u32 files_chunk_num;
                                     req_content_type := ContentFiles |}]) s in
  let s := with_files_request_ true s in
  if cancelled_ s then with_cancels (cancels s ++ [ContentFiles]) s else s.

(** [api/actions/get_folder_contents_impl.hpp:188-208 CoroutineBody] *)
Definition call_folders (folders_chunk_num : Z) (s : GetFolderContents) : GetFolderContents :=
  let s := with_calls (calls s ++ [{| req_folder_key := folder_key_ s;
                                     req_chunk_number := u32 folders_chunk_num;
                                     req_content_type := ContentFolders |}]) s in
  let s := with_folders_request_ true s in
  if cancelled_ s then with_cancels (cancels s ++ [ContentFolders]) s else s.

(** The loop's test and a round up to its first yield, or the end of the body.  A round
    that calls nothing would not yield and would change nothing.
    [api/actions/get_folder_contents_impl.hpp:158-223 CoroutineBody] *)
Definition round (files_chunk_num folders_chunk_num : Z) (s : GetFolderContents) :
    GetFolderContents :=
  if (folder_chunks_remaining_ s || file_chunks_remaining_ s) && negb (cancelled_ s) then
    let which := files_or_folders_or_both_ s in
    let for_files :=
      (bool_decide (which = Files) || bool_decide (which = Both)) && file_chunks_remaining_ s in
    let s := if for_files then call_files files_chunk_num s else s in
    let for_folders :=
      (bool_decide (which = Folders) || bool_decide (which = Both))
      && folder_chunks_remaining_ s in
    let s := if for_folders then call_folders folders_chunk_num s else s in
    match (Nat.b2n for_files + Nat.b2n for_folders)%nat with
    | O => with_frame Stuck s
    | S n =>
        with_frame (Suspended {| yields_left := n; files_chunk_num := files_chunk_num;
                                 folders_chunk_num := folders_chunk_num |}) s
    end
  else
    with_frame Complete
      (with_callbacks (callbacks s ++ [(files_ s, folders_ s, errors_ s)]) s).

(** After a yield: the round's next yield, or the chunk numbers and the next round.
    [api/actions/get_folder_contents_impl.hpp:210-220 CoroutineBody] *)
Definition after_yield (l : Locals) (s : GetFolderContents) : GetFolderContents :=
  match yields_left l with
  | S n =>
      with_frame (Suspended {| yields_left := n; files_chunk_num := files_chunk_num l;
                               folders_chunk_num := folders_chunk_num l |}) s
  | O =>
      let folders_chunk_num :=
        if folder_chunks_remaining_ s then i32 (folders_chunk_num l + 1)
        else folders_chunk_num l in
      let files_chunk_num :=
        if file_chunks_remaining_ s then i32 (files_chunk_num l + 1)
        else files_chunk_num l in
      round files_chunk_num folders_chunk_num s
  end.

(** [api/actions/get_folder_contents_impl.hpp:141-156 CoroutineBody] *)
Definition Resume : GetFolderContents -> GetFolderContents :=
  coro frame (with_frame Stuck) (round 1 1) after_yield.

(** [api/actions/get_folder_contents_impl.hpp:69-100 HandleFolderGetContentsFiles] *)
Definition HandleFolderGetContentsFiles (response : Response) (s : GetFolderContents) :
    GetFolderContents :=
  let s := with_answers (answers s ++ [(ContentFiles, response)]) s in
  let s :=
    if is_error (rsp_error_code response) then
      with_errors_ (errors_ s ++
        [{| err_folder_key := folder_key_ s; err_files_or_folders_or_both := Files;
            err_chunk_num := rsp_chunk_number response;
            err_error_code := rsp_error_code response;
            err_error_string := rsp_error_string response |}]) s
    else
      let s := with_files_ (files_ s ++ rsp_files response) s in
      if decide (rsp_chunks_remaining response = LastChunk)
      then with_file_chunks_remaining_ false s else s in
  Resume (with_files_request_ false s).

(** [api/actions/get_folder_contents_impl.hpp:102-139 HandleFolderGetContentsFolders] *)
Definition HandleFolderGetContentsFolders (response : Response) (s : GetFolderContents) :
    GetFolderContents :=
  let s := with_answers (answers s ++ [(ContentFolders, response)]) s in
  let s :=
    if is_error (rsp_error_code response) then
      let error_str := default (B "No error string provided") (rsp_error_string response) in
      with_errors_ (errors_ s ++
        [{| err_folder_key := folder_key_ s; err_files_or_folders_or_both := Folders;
            err_chunk_num := rsp_chunk_number response;
            err_error_code := rsp_error_code response;
            err_error_string := Some error_str |}]) s
    else
      let s := with_folders_ (folders_ s ++ rsp_folders response) s in
      if decide (rsp_chunks_remaining response = LastChunk)
      then with_folder_chunks_remaining_ false s else s in
  Resume (with_folders_request_ false s).

(** An answer reaches the handler of the request that is held. *)
Definition answer (a : ContentType * Response) (s : GetFolderContents) :
    option GetFolderContents :=
  match a with
  | (ContentFiles, r) =>
      if files_request_ s then Some (HandleFolderGetContentsFiles r s) else None
  | (ContentFolders, r) =>
      if folders_request_ s then Some (HandleFolderGetContentsFolders r s) else None
  end.

#[export] Instance contents_ops :
  CoroutineOps GetFolderContents (ContentType * Response)
    (list File * list Folder * list ErrorType) := {
  Start := Resume;
  Answer := answer;
  Cancel := CancelContents;
  Phase s :=
    match callbacks s with
    | [] => match frame s with NotStarted => Idle | _ => Running end
    | r :: _ => Ended r
    end }.

End Contents.
