(* ===== verification/GetFolderContentsProofs.v ===== *)
(** * Listing a folder: what is asked, what is returned

    The invariant of [GetFolderContents] speaks of the two content types separately: the
    calls made for a type, their answers, whether a request is held and whether chunks
    remain. *)
From S2P Require Import Prelude Errors Coroutine GetFolderContents.

Open Scope Z_scope.

Section Proofs.
Context {File Folder : Type}.
#[local] Abbreviation Contents := (GetFolderContents (File := File) (Folder := Folder)).
#[local] Abbreviation Response := (Response (File := File) (Folder := Folder)).

(** ** The two content types *)

Definition wanted (ct : ContentType) (which : FilesOrFoldersOrBoth) : bool :=
  match ct with
  | ContentFiles => bool_decide (which = Files) || bool_decide (which = Both)
  | ContentFolders => bool_decide (which = Folders) || bool_decide (which = Both)
  end.

Definition remaining (ct : ContentType) (s : Contents) : bool :=
  match ct with
  | ContentFiles => file_chunks_remaining_ s
  | ContentFolders => folder_chunks_remaining_ s
  end.

Definition held (ct : ContentType) (s : Contents) : bool :=
  match ct with ContentFiles => files_request_ s | ContentFolders => folders_request_ s end.

Definition local_num (ct : ContentType) (l : Locals) : Z :=
  match ct with ContentFiles => files_chunk_num l | ContentFolders => folders_chunk_num l end.

Definition calls_of (ct : ContentType) (s : Contents) : list Request :=
  filter (fun r => req_content_type r = ct) (calls s).

Definition answers_of (ct : ContentType) (s : Contents) : list Response :=
  snd <$> filter (fun a => fst a = ct) (answers s).

Definition is_last (r : Response) : bool :=
  negb (is_error (rsp_error_code r)) && bool_decide (rsp_chunks_remaining r = LastChunk).

(** The request for a chunk. *)
Definition chunk_request (key : str) (ct : ContentType) (n : Z) : Request :=
  {| req_folder_key := key; req_chunk_number := u32 n; req_content_type := ct |}.

(** The error that a response leaves. *)
Definition error_of (key : str) (a : ContentType * Response) : option ErrorType :=
  let (ct, r) := a in
  if is_error (rsp_error_code r) then
    Some {| err_folder_key := key;
            err_files_or_folders_or_both :=
              match ct with ContentFiles => Files | ContentFolders => Folders end;
            err_chunk_num := rsp_chunk_number r;
            err_error_code := rsp_error_code r;
            err_error_string :=
              match ct with
              | ContentFiles => rsp_error_string r
              | ContentFolders =>
                  Some (default (B "No error string provided") (rsp_error_string r))
              end |}
  else None.

Definition good (r : Response) : Prop := is_error (rsp_error_code r) = false.

#[export] Instance good_dec r : Decision (good r).
Proof. unfold good. apply _. Defined.

(** One content type: the calls are for the chunks 1, 2, ..., each is answered before the
    next is made, and chunks remain until an answer is the last chunk. *)
Record stream (key : str) (want : bool) (ct : ContentType) (cs : list Request)
    (rs : list Response) (h rem : bool) : Prop := {
  st_calls : cs = chunk_request key ct <$> seqZ 1 (Z.of_nat (length cs));
  st_answers : (length rs + Nat.b2n h = length cs)%nat;
  st_rem : rem = want && forallb (fun r => negb (is_last r)) rs;
  st_held : h = true -> rem = true;
  st_stop : forallb (fun r => negb (is_last r)) (removelast rs) = true;
  st_unwanted : want = false -> cs = [] }.

Definition stream_of (ct : ContentType) (s : Contents) : Prop :=
  stream (folder_key_ s) (wanted ct (files_or_folders_or_both_ s)) ct (calls_of ct s)
    (answers_of ct s) (held ct s) (remaining ct s).

(** The data returned are those of the answers without an error, in order. *)
Record content (s : Contents) : Prop := {
  ct_streams ct : stream_of ct s;
  ct_files : files_ s = concat (rsp_files <$> filter good (answers_of ContentFiles s));
  ct_folders : folders_ s = concat (rsp_folders <$> filter good (answers_of ContentFolders s));
  ct_errors : errors_ s = omap (error_of (folder_key_ s)) (answers s) }.

Definition requests (s : Contents) : nat :=
  (Nat.b2n (files_request_ s) + Nat.b2n (folders_request_ s))%nat.

Definition frame_inv (s : Contents) : Prop :=
  match frame s with
  | NotStarted => calls s = [] /\ answers s = [] /\ requests s = O /\ callbacks s = []
  | Suspended l =>
      requests s = S (yields_left l) /\ callbacks s = [] /\
      forall ct, remaining ct s = true -> local_num ct l = i32 (Z.of_nat (length (calls_of ct s)))
  | Complete =>
      requests s = O /\ callbacks s = [(files_ s, folders_ s, errors_ s)] /\
      (cancelled_ s = true \/ forall ct, remaining ct s = false)
  | Stuck => False
  end.

Definition contents_inv (s : Contents) : Prop := content s /\ frame_inv s.

Lemma stream_call key want ct cs rs n :
  stream key want ct cs rs false true -> u32 n = u32 (Z.of_nat (length cs) + 1) ->
  stream key want ct (cs ++ [chunk_request key ct n]) rs true true.
Proof.
  intros [Hc Ha Hr _ Hs Hw] Hn.
  split; [|rewrite length_app; simpl in *; lia|done..|intros ->; by simpl in Hr].
  rewrite length_app, Nat2Z.inj_add. simpl. rewrite seqZ_app by lia.
  rewrite fmap_app, <-Hc. f_equal. simpl. unfold chunk_request. f_equal. f_equal.
  rewrite Hn. f_equal. lia.
Qed.

Lemma stream_answer key want ct cs rs rem r :
  stream key want ct cs rs true rem ->
  stream key want ct cs (rs ++ [r]) false (rem && negb (is_last r)).
Proof.
  intros [Hc Ha -> Hh Hs Hw]. split; [done| |..]; try done.
  - rewrite length_app. simpl in *. lia.
  - by rewrite forallb_app, andb_assoc; simpl; rewrite andb_true_r.
  - rewrite removelast_last. specialize (Hh eq_refl). apply andb_true_iff in Hh. tauto.
Qed.

Lemma u32_i32_succ n : u32 (i32 (i32 n + 1)) = u32 (n + 1).
Proof. unfold u32, i32. zdiv. Qed.

Lemma i32_i32_succ n : i32 (i32 n + 1) = i32 (n + 1).
Proof. unfold i32. zdiv. Qed.

Lemma u32_i32 n : u32 (i32 n) = u32 n.
Proof. unfold u32, i32. zdiv. Qed.

Lemma chunk_request_i32 key ct n : chunk_request key ct (i32 n) = chunk_request key ct n.
Proof. unfold chunk_request. by rewrite u32_i32. Qed.

(** ** A round *)

(** The body is about to test its loop: no request is held and the chunk numbers are those
    of the next chunks. *)
Definition at_loop (files_chunk_num folders_chunk_num : Z) (s : Contents) : Prop :=
  content s /\ requests s = O /\ callbacks s = [] /\
  forall ct, remaining ct s = true ->
    match ct with ContentFiles => files_chunk_num | ContentFolders => folders_chunk_num end
    = i32 (Z.of_nat (length (calls_of ct s)) + 1).

Lemma requests_zero (s : Contents) : requests s = O -> forall ct, held ct s = false.
Proof.
  unfold requests. destruct (files_request_ s) eqn:?, (folders_request_ s) eqn:?; try done.
  by intros _ [].
Qed.

(** Content depends only on what it speaks of. *)
Lemma content_ext (s s' : Contents) :
  folder_key_ s' = folder_key_ s ->
  files_or_folders_or_both_ s' = files_or_folders_or_both_ s ->
  files_ s' = files_ s -> folders_ s' = folders_ s -> errors_ s' = errors_ s ->
  answers s' = answers s -> (forall ct, stream_of ct s') -> content s -> content s'.
Proof.
  intros Hk Hw Hf Hd He Ha Hs [_ ? ? ?].
  split; [done|..]; unfold answers_of; rewrite ?Hf, ?Hd, ?He, ?Hk, Ha; done.
Qed.

Lemma call_files_spec n (s : Contents) :
  call_files n s =
  with_cancels (if cancelled_ s then cancels s ++ [ContentFiles] else cancels s)
    (with_files_request_ true
      (with_calls (calls s ++ [chunk_request (folder_key_ s) ContentFiles n]) s)).
Proof. unfold call_files. cbn. destruct (cancelled_ s); by destruct s. Qed.

Lemma call_folders_spec n (s : Contents) :
  call_folders n s =
  with_cancels (if cancelled_ s then cancels s ++ [ContentFolders] else cancels s)
    (with_folders_request_ true
      (with_calls (calls s ++ [chunk_request (folder_key_ s) ContentFolders n]) s)).
Proof. unfold call_folders. cbn. destruct (cancelled_ s); by destruct s. Qed.

Lemma filter_app_other {A} (P : A -> Prop) `{!forall x, Decision (P x)} (l : list A) x :
  ~ P x -> filter P (l ++ [x]) = filter P l.
Proof. intros. rewrite filter_app, filter_cons_False by done. by rewrite app_nil_r. Qed.

Lemma filter_app_this {A} (P : A -> Prop) `{!forall x, Decision (P x)} (l : list A) x :
  P x -> filter P (l ++ [x]) = filter P l ++ [x].
Proof. intros. by rewrite filter_app, filter_cons_True, filter_nil. Qed.

Lemma call_files_content n (s : Contents) :
  content s -> held ContentFiles s = false -> remaining ContentFiles s = true ->
  n = i32 (Z.of_nat (length (calls_of ContentFiles s)) + 1) -> content (call_files n s).
Proof.
  intros Hc Hh Hr ->. rewrite call_files_spec.
  apply (content_ext s); try done. pose proof (ct_streams _ Hc) as Hs.
  intros []; specialize (Hs ContentFiles) as Hf; specialize (Hs ContentFolders) as Hd;
    unfold stream_of, calls_of in *; cbn in *.
  - by rewrite filter_app_other.
  - rewrite filter_app_this by done. rewrite Hr, Hh in *. apply stream_call; [done|].
    by rewrite u32_i32.
Qed.

Lemma call_folders_content n (s : Contents) :
  content s -> held ContentFolders s = false -> remaining ContentFolders s = true ->
  n = i32 (Z.of_nat (length (calls_of ContentFolders s)) + 1) -> content (call_folders n s).
Proof.
  intros Hc Hh Hr ->. rewrite call_folders_spec.
  apply (content_ext s); try done. pose proof (ct_streams _ Hc) as Hs.
  intros []; specialize (Hs ContentFiles) as Hf; specialize (Hs ContentFolders) as Hd;
    unfold stream_of, calls_of in *; cbn in *.
  - rewrite filter_app_this by done. rewrite Hr, Hh in *. apply stream_call; [done|].
    by rewrite u32_i32.
  - by rewrite filter_app_other.
Qed.

Lemma content_frame v (s : Contents) : content s -> content (with_frame v s).
Proof. intros Hc. apply (content_ext s); try done. intros ct. apply (ct_streams _ Hc). Qed.

Lemma remaining_wanted ct (s : Contents) :
  content s -> remaining ct s = true -> wanted ct (files_or_folders_or_both_ s) = true.
Proof.
  intros Hc Hr. destruct (ct_streams _ Hc ct) as [_ _ Hrem _ _ _].
  rewrite Hr in Hrem. by destruct (wanted ct _).
Qed.

Lemma wanted_and_remaining ct (s : Contents) :
  content s -> wanted ct (files_or_folders_or_both_ s) && remaining ct s = remaining ct s.
Proof.
  intros Hc. destruct (remaining ct s) eqn:Hr; [|apply andb_false_r].
  by rewrite (remaining_wanted ct) by done.
Qed.

(** A round in terms of the flags alone: the guard on what was asked for is redundant. *)
Lemma round_calls f d (s : Contents) : content s -> cancelled_ s = false ->
  let s1 := if file_chunks_remaining_ s then call_files f s else s in
  let s2 := if folder_chunks_remaining_ s then call_folders d s1 else s1 in
  folder_chunks_remaining_ s || file_chunks_remaining_ s = true ->
  round f d s =
  with_frame
    (Suspended {| yields_left := (Nat.b2n (file_chunks_remaining_ s) +
                                  Nat.b2n (folder_chunks_remaining_ s) - 1)%nat;
                  files_chunk_num := f; folders_chunk_num := d |}) s2.
Proof.
  intros Hc Hn s1 s2 Hr. subst s1 s2.
  pose proof (wanted_and_remaining ContentFiles s Hc) as Hf.
  pose proof (wanted_and_remaining ContentFolders s Hc) as Hd. cbn in Hf, Hd.
  unfold round. rewrite Hr, Hn. cbn [negb andb]. rewrite Hf.
  destruct (file_chunks_remaining_ s) eqn:Ef.
  - rewrite call_files_spec. cbn. rewrite Hd.
    destruct (folder_chunks_remaining_ s) eqn:Ed; cbn; rewrite ?Ed; done.
  - rewrite Hd. destruct (folder_chunks_remaining_ s) eqn:Ed; done.
Qed.

(** What making the call of one type in a round does. *)
Definition called (ct : ContentType) (s s' : Contents) : Prop :=
  content s' /\ held ct s' = remaining ct s /\
  (remaining ct s = true ->
    length (calls_of ct s') = S (length (calls_of ct s))) /\
  (forall ct', remaining ct' s' = remaining ct' s) /\
  (forall ct', ct' <> ct -> held ct' s' = held ct' s /\ calls_of ct' s' = calls_of ct' s) /\
  callbacks s' = callbacks s.

Lemma call_files_called n (s : Contents) :
  content s -> held ContentFiles s = false ->
  (remaining ContentFiles s = true ->
    n = i32 (Z.of_nat (length (calls_of ContentFiles s)) + 1)) ->
  called ContentFiles s (if file_chunks_remaining_ s then call_files n s else s).
Proof.
  intros Hc Hh Hn. destruct (file_chunks_remaining_ s) eqn:Er; [|by split_and!; cbn; rewrite ?Er].
  split; [by auto using call_files_content|]. rewrite call_files_spec. unfold calls_of. cbn.
  split_and!; try done.
  - intros _. by rewrite filter_app_this, length_app, Nat.add_comm.
  - intros ct' Hct. split; [by destruct ct'|]. rewrite filter_app_other; auto.
Qed.

Lemma call_folders_called n (s : Contents) :
  content s -> held ContentFolders s = false ->
  (remaining ContentFolders s = true ->
    n = i32 (Z.of_nat (length (calls_of ContentFolders s)) + 1)) ->
  called ContentFolders s (if folder_chunks_remaining_ s then call_folders n s else s).
Proof.
  intros Hc Hh Hn. destruct (folder_chunks_remaining_ s) eqn:Er; [|by split_and!; cbn; rewrite ?Er].
  split; [by auto using call_folders_content|]. rewrite call_folders_spec. unfold calls_of. cbn.
  split_and!; try done.
  - intros _. by rewrite filter_app_this, length_app, Nat.add_comm.
  - intros ct' Hct. split; [by destruct ct'|]. rewrite filter_app_other; auto.
Qed.

Lemma requests_held (s : Contents) :
  requests s = (Nat.b2n (held ContentFiles s) + Nat.b2n (held ContentFolders s))%nat.
Proof. done. Qed.

Lemma round_inv f d (s : Contents) : at_loop f d s -> contents_inv (round f d s).
Proof.
  intros (Hc & Hq & Hcb & Hnum). pose proof (requests_zero s Hq) as Hh.
  destruct (folder_chunks_remaining_ s || file_chunks_remaining_ s) eqn:Hr;
    [destruct (cancelled_ s) eqn:Hcan|].
  2: {
    rewrite round_calls by done.
    pose proof (call_files_called f s Hc (Hh _) (Hnum ContentFiles))
      as (Hc1 & Hh1 & Hl1 & Hr1 & Ho1 & Hb1).
    set (s1 := if file_chunks_remaining_ s then _ else s) in *.
    destruct (Ho1 ContentFolders ltac:(done)) as [Hh1' Hl1'].
    pose proof (call_folders_called d s1 Hc1) as (Hc2 & Hh2 & Hl2 & Hr2 & Ho2 & Hb2).
    { by rewrite Hh1'. }
    { rewrite Hl1', Hr1. apply (Hnum ContentFolders). }
    change (folder_chunks_remaining_ s) with (remaining ContentFolders s) in *.
    change (file_chunks_remaining_ s) with (remaining ContentFiles s) in *.
    change (folder_chunks_remaining_ s1) with (remaining ContentFolders s1) in *.
    rewrite Hr1 in *. set (s2 := if remaining ContentFolders s then _ else s1) in *.
    destruct (Ho2 ContentFiles ltac:(done)) as [Hh2' Hl2'].
    split; [by apply content_frame|]. split; [|split].
    - change (requests _) with (requests s2). rewrite requests_held, Hh2, Hh2', Hh1. cbn.
      cbn in Hr. by destruct (folder_chunks_remaining_ s), (file_chunks_remaining_ s).
    - cbn. congruence.
    - intros ct Hrem. change (calls_of ct _) with (calls_of ct s2).
      change (remaining ct s2 = true) in Hrem. rewrite Hr2, Hr1 in Hrem.
      specialize (Hnum ct Hrem). destruct ct; cbn; rewrite Hnum.
      + rewrite Hl2, Hl1' by done. f_equal. lia.
      + rewrite Hl2', Hl1 by done. f_equal. lia. }
  all: unfold round; rewrite Hr, ?Hcan; cbn.
  all: split; [apply (content_ext s); try done; intros ct; apply (ct_streams _ Hc)|].
  all: unfold frame_inv; cbn; rewrite Hcb; repeat split; auto.
  right. apply orb_false_iff in Hr. intros []; cbn; apply Hr.
Qed.

(** ** Answers *)

(** The state in which a handler resumes the body. *)
Definition handled (ct : ContentType) (s s1 : Contents) : Prop :=
  content s1 /\ held ct s1 = false /\ frame s1 = frame s /\ callbacks s1 = callbacks s /\
  (forall ct', remaining ct' s1 = true -> remaining ct' s = true) /\
  (forall ct', ct' <> ct -> held ct' s1 = held ct' s) /\
  (forall ct', calls_of ct' s1 = calls_of ct' s).

Lemma stream_answered ct r (s s1 : Contents) :
  stream_of ct s -> held ct s = true ->
  folder_key_ s1 = folder_key_ s ->
  files_or_folders_or_both_ s1 = files_or_folders_or_both_ s ->
  calls s1 = calls s -> answers s1 = answers s ++ [(ct, r)] ->
  held ct s1 = false -> remaining ct s1 = remaining ct s && negb (is_last r) ->
  stream_of ct s1.
Proof.
  intros Hs Hh Hk Hw Hc Ha Hh1 Hr1.
  unfold stream_of, calls_of, answers_of. rewrite Hk, Hw, Hc, Ha, Hh1, Hr1.
  rewrite filter_app_this by done. rewrite fmap_app. apply stream_answer.
  unfold stream_of in Hs. by rewrite Hh in Hs.
Qed.

Lemma stream_other ct ct' r (s s1 : Contents) :
  ct' <> ct -> stream_of ct' s ->
  folder_key_ s1 = folder_key_ s ->
  files_or_folders_or_both_ s1 = files_or_folders_or_both_ s ->
  calls s1 = calls s -> answers s1 = answers s ++ [(ct, r)] ->
  held ct' s1 = held ct' s -> remaining ct' s1 = remaining ct' s -> stream_of ct' s1.
Proof.
  intros Hne Hs Hk Hw Hc Ha Hh Hr. unfold stream_of, calls_of, answers_of.
  rewrite Hk, Hw, Hc, Ha, Hh, Hr. rewrite filter_app_other; [done|]. cbn. congruence.
Qed.

Lemma good_this {D} (f : Response -> list D) (ct : ContentType) r l :
  concat (f <$> filter good (filter (fun a => fst a = ct) (l ++ [(ct, r)])).*2) =
  concat (f <$> filter good (filter (fun a => fst a = ct) l).*2) ++
  (if is_error (rsp_error_code r) then [] else f r).
Proof.
  rewrite filter_app_this, fmap_app, filter_app, fmap_app, concat_app by done. f_equal.
  cbn. unfold filter, list_filter. destruct (decide (good r)) as [Hg|Hg]; unfold good in Hg.
  - rewrite Hg. cbn. by rewrite app_nil_r.
  - by apply not_false_iff_true in Hg as ->.
Qed.

Lemma good_other {D} (f : Response -> list D) (ct ct' : ContentType) r l : ct' <> ct ->
  concat (f <$> filter good (filter (fun a => fst a = ct') (l ++ [(ct, r)])).*2) =
  concat (f <$> filter good (filter (fun a => fst a = ct') l).*2).
Proof. intros. rewrite filter_app_other; [done|]. cbn. congruence. Qed.

Ltac handled_content ct Hst Hf Hd Her He r s :=
  split; cbn; unfold answers_of; cbn;
  [ let ct' := fresh in
    intros ct'; destruct (decide (ct' = ct)) as [->|];
    [ apply (stream_answered _ r s); cbn; auto;
      unfold is_last; rewrite He; cbn;
      rewrite ?bool_decide_eq_true_2, ?bool_decide_eq_false_2 by done; cbn;
      by rewrite ?andb_true_r, ?andb_false_r
    | apply (stream_other ct _ r s); auto; by destruct ct' ]
  | rewrite ?good_this, ?good_other, ?He, ?app_nil_r by done;
    unfold answers_of in Hf; by rewrite Hf
  | rewrite ?good_this, ?good_other, ?He, ?app_nil_r by done;
    unfold answers_of in Hd; by rewrite Hd
  | rewrite omap_snoc, Her; cbn; rewrite He; by rewrite ?app_nil_r ].

Lemma files_handled r (s : Contents) :
  content s -> held ContentFiles s = true ->
  exists s1, HandleFolderGetContentsFiles r s = Resume s1 /\ handled ContentFiles s s1.
Proof.
  intros Hc Hh. eexists. split; [reflexivity|].
  assert (remaining ContentFiles s = true) as Hrem by by apply (ct_streams _ Hc).
  unfold handled. destruct (is_error (rsp_error_code r)) eqn:He; cbn;
    [|destruct (decide (rsp_chunks_remaining r = LastChunk)) as [Hl|Hl]]; cbn.
  all: split_and!; try done; try by intros [].
  all: destruct Hc as [Hst Hf Hd Her]; handled_content ContentFiles Hst Hf Hd Her He r s.
Qed.

Lemma folders_handled r (s : Contents) :
  content s -> held ContentFolders s = true ->
  exists s1, HandleFolderGetContentsFolders r s = Resume s1 /\ handled ContentFolders s s1.
Proof.
  intros Hc Hh. eexists. split; [reflexivity|].
  assert (remaining ContentFolders s = true) as Hrem by by apply (ct_streams _ Hc).
  unfold handled. destruct (is_error (rsp_error_code r)) eqn:He; cbn;
    [|destruct (decide (rsp_chunks_remaining r = LastChunk)) as [Hl|Hl]]; cbn.
  all: split_and!; try done; try by intros [].
  all: destruct Hc as [Hst Hf Hd Her]; handled_content ContentFolders Hst Hf Hd Her He r s.
Qed.

(** Resuming the body after an answer. *)
Lemma resume_inv ct (s s1 : Contents) :
  contents_inv s -> held ct s = true -> handled ct s s1 -> contents_inv (Resume s1).
Proof.
  intros [Hc Hfr] Hh (Hc1 & Hh1 & Hf1 & Hb1 & Hr1 & Ho1 & Hl1).
  assert (requests s = S (requests s1)) as Hreq.
  { rewrite !requests_held. destruct ct.
    - rewrite Hh, Hh1, (Ho1 ContentFiles) by done. cbn. lia.
    - rewrite Hh, Hh1, (Ho1 ContentFolders) by done. cbn. lia. }
  unfold frame_inv in Hfr. unfold Resume, coro. rewrite Hf1.
  destruct (frame s) as [|l| |]; [destruct Hfr as (_ & _ & ? & _); lia| |destruct Hfr; lia|done].
  destruct Hfr as (Hq & Hcb & Hnum). rewrite Hreq in Hq. injection Hq as Hq.
  unfold after_yield. destruct (yields_left l) as [|n] eqn:Hy.
  - apply round_inv. split; [done|]. split; [done|]. split; [congruence|].
    intros ct' Hrem. specialize (Hnum ct' (Hr1 _ Hrem)). rewrite Hl1.
    destruct ct'; cbn in *; rewrite Hrem, Hnum; apply i32_i32_succ.
  - split; [by apply content_frame|]. unfold frame_inv. cbn [frame with_frame].
    split_and!; [done|cbn; congruence|].
    intros ct' Hrem. change (remaining ct' s1 = true) in Hrem.
    change (calls_of ct' (with_frame _ s1)) with (calls_of ct' s1). rewrite Hl1, <-(Hnum ct') by auto.
    by destruct ct'.
Qed.

Lemma answer_inv a (s s' : Contents) :
  contents_inv s -> answer a s = Some s' -> contents_inv s'.
Proof.
  intros Hi. destruct a as [[] r]; cbn; case_match; intros [= <-].
  - destruct (folders_handled r s) as (s1 & -> & Hh); [apply Hi|done|].
    by eapply (resume_inv ContentFolders).
  - destruct (files_handled r s) as (s1 & -> & Hh); [apply Hi|done|].
    by eapply (resume_inv ContentFiles).
Qed.

Lemma start_inv (s : Contents) :
  contents_inv s -> frame s = NotStarted -> contents_inv (Resume s).
Proof.
  intros [Hc Hfr] Hf. unfold frame_inv in Hfr. rewrite Hf in Hfr.
  destruct Hfr as (Hca & Ha & Hq & Hcb). unfold Resume, coro. rewrite Hf.
  apply round_inv. split_and!; try done.
  intros ct _. unfold calls_of. rewrite Hca. by destruct ct.
Qed.

Lemma CancelContents_spec (s : Contents) :
  exists c, CancelContents s = with_cancels c (with_cancelled_ true s).
Proof. unfold CancelContents. cbn. repeat case_match; eexists; by destruct s. Qed.

Lemma cancel_inv (s : Contents) : contents_inv s -> contents_inv (CancelContents s).
Proof.
  intros [Hc Hfr]. destruct (CancelContents_spec s) as [c ->]. split.
  - apply (content_ext s); try done. intros ct. apply (ct_streams _ Hc).
  - unfold frame_inv in *. cbn. destruct (frame s); try done.
    destruct Hfr as (? & ? & _). auto.
Qed.

Lemma create_inv key which : contents_inv (Create key which).
Proof.
  split; [|done]. split; try done. intros []; split; cbn; try done;
    by rewrite andb_true_r.
Qed.

(** ** The promise of an action *)

Lemma round_started f d (s : Contents) : frame (round f d s) <> NotStarted.
Proof. unfold round. case_match; [|done]. cbn. by case_match. Qed.

Lemma resume_started (s : Contents) : frame (Resume s) <> NotStarted.
Proof.
  unfold Resume, coro. destruct (frame s); try done; [apply round_started|].
  unfold after_yield. case_match; [apply round_started|done].
Qed.

Lemma phase_frame (s : Contents) : contents_inv s ->
  Phase s = match frame s with
            | NotStarted => Idle
            | Suspended _ | Stuck => Running
            | Complete => Ended (files_ s, folders_ s, errors_ s)
            end.
Proof.
  intros [_ Hfr]. unfold frame_inv in Hfr. cbn. destruct (frame s); try done.
  - by destruct Hfr as (_ & _ & _ & ->).
  - by destruct Hfr as (_ & -> & _).
  - by destruct Hfr as (_ & -> & _).
Qed.

Lemma held_suspended ct (s : Contents) :
  contents_inv s -> held ct s = true -> exists l, frame s = Suspended l.
Proof.
  intros [_ Hfr] Hh. assert (requests s <> O) as Hq.
  { rewrite requests_held. destruct ct; rewrite Hh; cbn; lia. }
  unfold frame_inv in Hfr. destruct (frame s) as [|l| |]; try done; [|eauto|]; tauto.
Qed.

Lemma answer_held a (s s' : Contents) : answer a s = Some s' -> held (fst a) s = true.
Proof. destruct a as [[] r]; cbn; by case_match. Qed.

Lemma answer_phase a (s s' : Contents) :
  contents_inv s -> answer a s = Some s' -> Phase s = Running /\ Phase s' <> Idle.
Proof.
  intros Hi Ha. pose proof (answer_inv _ _ _ Hi Ha) as Hi'.
  destruct (held_suspended _ _ Hi (answer_held _ _ _ Ha)) as [l Hl].
  rewrite (phase_frame s), (phase_frame s') by done. rewrite Hl. split; [done|].
  assert (frame s' <> NotStarted) as Hne.
  { destruct a as [[] r]; cbn in Ha; case_match; simplify_eq; apply resume_started. }
  by destruct (frame s').
Qed.

(** An empty response without an error, to show that an answer is awaited. *)
Definition empty_response : Response :=
  {| rsp_error_code := no_error; rsp_error_string := None; rsp_chunk_number := 0;
     rsp_chunks_remaining := LastChunk; rsp_files := []; rsp_folders := [] |}.

Lemma running_held (s : Contents) :
  contents_inv s -> Phase s = Running -> exists ct, held ct s = true.
Proof.
  intros Hi Hp. rewrite (phase_frame s Hi) in Hp. destruct Hi as [_ Hfr].
  unfold frame_inv in Hfr. destruct (frame s); try done. destruct Hfr as (Hq & _).
  rewrite requests_held in Hq.
  destruct (held ContentFiles s) eqn:?; [by exists ContentFiles|].
  destruct (held ContentFolders s) eqn:?; [by exists ContentFolders|done].
Qed.

Lemma held_answer ct r (s : Contents) : held ct s = true -> is_Some (Answer (ct, r) s).
Proof. destruct ct; cbn; intros ->; eauto. Qed.

#[export] Instance contents_laws : CoroutineLaws contents_inv.
Proof.
  split.
  - intros s Hi Hp. rewrite (phase_frame s Hi) in Hp.
    assert (frame s = NotStarted) as Hf by (by destruct (frame s)).
    pose proof (start_inv s Hi Hf) as Hi'. split; [done|].
    change (Phase (Resume s) <> Idle). rewrite (phase_frame _ Hi').
    pose proof (resume_started s). by destruct (frame (Resume s)).
  - intros a s s' Hi Ha. split; [by apply (answer_inv a s)|by apply (answer_phase a s)].
  - intros s Hi Hp. destruct (running_held s Hi Hp) as [ct Hh].
    exists (ct, empty_response). by apply held_answer.
  - intros s Hi. pose proof (cancel_inv s Hi) as Hi'. split; [done|].
    change (Phase (CancelContents s) = Phase s). rewrite (phase_frame _ Hi), (phase_frame _ Hi').
    by destruct (CancelContents_spec s) as [c ->].
Qed.

(** The states that users and answers can lead to. *)
Inductive reachable (key : str) (which : FilesOrFoldersOrBoth) : Contents -> Prop :=
  | reach_created : reachable key which (Create key which)
  | reach_started s :
      reachable key which s -> Phase s = Idle -> reachable key which (Start s)
  | reach_answered a s s' :
      reachable key which s -> Answer a s = Some s' -> reachable key which s'
  | reach_cancelled s : reachable key which s -> reachable key which (Cancel s).

Lemma contents_reachable_inv key which s : reachable key which s -> contents_inv s.
Proof.
  induction 1 as [|s _ IH Hp|a s s' _ IH Ha|s _ IH].
  - apply create_inv.
  - exact (proj1 (start_ok (ok := contents_inv) s IH Hp)).
  - exact (proj1 (answer_ok (ok := contents_inv) a s s' IH Ha)).
  - exact (proj1 (cancel_ok (ok := contents_inv) s IH)).
Qed.

(** What was asked for does not change. *)
Definition asked (s : Contents) : str * FilesOrFoldersOrBoth :=
  (folder_key_ s, files_or_folders_or_both_ s).

Lemma resume_asked (s : Contents) : asked (Resume s) = asked s.
Proof.
  assert (forall f d s', asked (round f d s') = asked s') as Hr.
  { intros f d s'. unfold round, call_files, call_folders. by repeat case_match. }
  unfold Resume, coro. destruct (frame s); try done.
  unfold after_yield. by case_match; rewrite ?Hr.
Qed.

Lemma reachable_asked key which s : reachable key which s -> asked s = (key, which).
Proof.
  induction 1 as [|s _ IH Hp|a s s' _ IH Ha|s _ IH]; try done.
  - rewrite <-IH. apply resume_asked.
  - rewrite <-IH. destruct a as [[] r]; cbn in Ha; case_match; simplify_eq;
      unfold HandleFolderGetContentsFolders, HandleFolderGetContentsFiles;
      rewrite resume_asked; by repeat case_match.
  - rewrite <-IH. cbn. by destruct (CancelContents_spec s) as [c ->].
Qed.

Lemma resume_cancelled (s : Contents) : cancelled_ (Resume s) = cancelled_ s.
Proof.
  assert (forall f d (s' : Contents), cancelled_ (round f d s') = cancelled_ s') as Hr.
  { intros f d s'. unfold round, call_files, call_folders. by repeat case_match. }
  unfold Resume, coro. destruct (frame s); try done.
  unfold after_yield. by case_match; rewrite ?Hr.
Qed.

Lemma answer_cancelled a (s s' : Contents) :
  answer a s = Some s' -> cancelled_ s' = cancelled_ s.
Proof.
  intros Ha. destruct a as [[] r]; cbn in Ha; case_match; simplify_eq;
    unfold HandleFolderGetContentsFiles, HandleFolderGetContentsFolders;
    rewrite resume_cancelled; by repeat case_match.
Qed.

(** Resuming the body makes calls and records no answer. *)
Lemma resume_calls (s : Contents) :
  answers (Resume s) = answers s /\ calls s `prefix_of` calls (Resume s).
Proof.
  assert (forall f d (s' : Contents), answers (round f d s') = answers s' /\
    calls s' `prefix_of` calls (round f d s')) as Hr.
  { intros f d s'. unfold round, call_files, call_folders.
    repeat case_match; cbn; split; try done; rewrite <-?app_assoc; by eexists. }
  unfold Resume, coro. destruct (frame s); try done.
  unfold after_yield. case_match; [|done].
  destruct (folder_chunks_remaining_ s), (file_chunks_remaining_ s); apply Hr.
Qed.

Lemma answer_calls a (s s' : Contents) : answer a s = Some s' ->
  answers s' = answers s ++ [a] /\ calls s `prefix_of` calls s'.
Proof.
  intros Ha. destruct a as [[] r]; cbn in Ha; case_match; simplify_eq;
    unfold HandleFolderGetContentsFiles, HandleFolderGetContentsFolders;
    match goal with |- answers (Resume ?x) = _ /\ _ => destruct (resume_calls x) as [-> Hp] end;
    (split; [by repeat case_match|]); (etrans; [|exact Hp]); by repeat case_match.
Qed.

Lemma answer_handled a (s s' : Contents) : contents_inv s -> answer a s = Some s' ->
  exists s1, s' = Resume s1 /\ handled (fst a) s s1.
Proof.
  intros [Hc _] Ha. destruct a as [[] r]; cbn in Ha; case_match eqn:Hh; simplify_eq.
  - by apply folders_handled.
  - by apply files_handled.
Qed.

(** Once cancelled, no further chunk is asked for, and the last answer ends the listing. *)
Lemma cancelled_contents_end a (s s' : Contents) :
  contents_inv s -> cancelled_ s = true -> answer a s = Some s' ->
  (forall ct, calls_of ct s' = calls_of ct s) /\
  match frame s, frame s' with
  | Suspended l, Suspended l' => yields_left l = S (yields_left l')
  | Suspended l, Complete => yields_left l = O
  | _, _ => False
  end.
Proof.
  intros Hi Hcan Ha. pose proof (answer_cancelled _ _ _ Ha) as Hcan'.
  destruct (held_suspended _ _ Hi (answer_held _ _ _ Ha)) as [l Hl].
  destruct (answer_handled _ _ _ Hi Ha) as (s1 & -> & _ & _ & Hf & _ & _ & _ & Hcalls).
  rewrite resume_cancelled, Hcan in Hcan'. rewrite Hl in *. unfold Resume, coro. rewrite Hf.
  unfold after_yield. destruct (yields_left l) as [|k] eqn:Hy.
  - unfold round. rewrite Hcan', andb_false_r. split; [|done]. intros ct. by rewrite <-Hcalls.
  - split; [|done]. intros ct. by rewrite <-Hcalls.
Qed.

End Proofs.
