(* ===== verification/GetFolderContentsTheorems.v ===== *)
(** * Listing a folder: completeness

    What [GetFolderContents] returns, first for any answers, then for a server that serves
    each type in a number of chunks, and for one that fails. *)
From S2P Require Import Prelude Errors Coroutine GetFolderContents GetFolderContentsProofs.

Open Scope Z_scope.

Section Theorems.
Context {File Folder : Type}.
#[local] Abbreviation Contents := (GetFolderContents (File := File) (Folder := Folder)).
#[local] Abbreviation Response := (Response (File := File) (Folder := Folder)).

(** The calls of a type and their answers. *)
Lemma reachable_calls key which (s : Contents) ct : reachable key which s ->
  calls_of ct s = chunk_request key ct <$> seqZ 1 (Z.of_nat (length (calls_of ct s))) /\
  (length (answers_of ct s) + Nat.b2n (held ct s) = length (calls_of ct s))%nat.
Proof.
  intros Hr. pose proof (contents_reachable_inv _ _ _ Hr) as [Hc _].
  pose proof (reachable_asked _ _ _ Hr) as [= Hk _].
  destruct (ct_streams _ Hc ct) as [Hcs Ha _ _ _ _]. by rewrite <-Hk.
Qed.

(** C19 Every chunk that a listing asks for is the next one of its type, it is answered once,
    and the callback gets exactly the entries of the successful answers, in order, and one
    error for each failed answer. *)
Theorem contents_accounted key which (s : Contents) : reachable key which s ->
  (forall ct,
    calls_of ct s =
      chunk_request key ct <$> seqZ 1 (Z.of_nat (length (calls_of ct s))) /\
    (length (answers_of ct s) + Nat.b2n (held ct s) = length (calls_of ct s))%nat) /\
  match Phase s with
  | Ended (files, folders, errors) =>
      files = concat (rsp_files <$> filter good (answers_of ContentFiles s)) /\
      folders = concat (rsp_folders <$> filter good (answers_of ContentFolders s)) /\
      errors = omap (error_of key) (answers s) /\
      length (callbacks s) = 1%nat /\ forall ct, held ct s = false
  | _ => callbacks s = []
  end.
Proof.
  intros Hr. pose proof (contents_reachable_inv _ _ _ Hr) as Hi.
  pose proof (reachable_asked _ _ _ Hr) as [= Hk _].
  split; [intros ct; by apply (reachable_calls key which)|].
  rewrite (phase_frame s Hi). destruct Hi as [[Hst Hf Hd He] Hfr].
  unfold frame_inv in Hfr. destruct (frame s); [tauto..| |done].
  destruct Hfr as (Hq & Hcb & _). rewrite Hcb, <-Hk.
  split_and!; [done..|by apply requests_zero].
Qed.

(** ** A server *)

Section Server.
Context (server : Request -> Response).

(** The states reached when every request gets the server's answer. *)
Inductive served (key : str) (which : FilesOrFoldersOrBoth) : Contents -> Prop :=
  | served_created : served key which (Create key which)
  | served_started s : served key which s -> Phase s = Idle -> served key which (Start s)
  | served_answered ct req s s' :
      served key which s -> last (calls_of ct s) = Some req ->
      Answer (ct, server req) s = Some s' -> served key which s'
  | served_cancelled s : served key which s -> served key which (Cancel s).

(** The server has [n] chunks of a type. *)
Definition serves (key : str) (ct : ContentType) (n : Z) : Prop :=
  1 <= n < 2 ^ 32 /\
  forall k, 1 <= k <= n ->
    good (server (chunk_request key ct k)) /\
    rsp_chunks_remaining (server (chunk_request key ct k)) =
      if decide (k = n) then LastChunk else MoreChunks.

Definition chunk_answers (key : str) (ct : ContentType) (n : Z) : list Response :=
  server <$> (chunk_request key ct <$> seqZ 1 n).

Lemma served_reachable key which (s : Contents) : served key which s -> reachable key which s.
Proof.
  induction 1; [apply reach_created|by apply reach_started|by eapply reach_answered|
    by apply reach_cancelled].
Qed.

Lemma filter_prefix {A} (P : A -> Prop) `{!forall x, Decision (P x)} l l' :
  l `prefix_of` l' -> filter P l `prefix_of` filter P l'.
Proof. intros [k ->]. rewrite filter_app. by eexists. Qed.

Lemma seqZ_snoc n : 0 <= n -> seqZ 1 (n + 1) = seqZ 1 n ++ [n + 1].
Proof.
  intros. rewrite seqZ_app by lia. f_equal. rewrite seqZ_cons, seqZ_nil by lia.
  f_equal. lia.
Qed.

Lemma last_chunk_request key ct cs (req : Request) n :
  cs = chunk_request key ct <$> seqZ 1 (Z.of_nat (length cs)) -> length cs = S n ->
  last cs = Some req -> req = chunk_request key ct (Z.of_nat n + 1).
Proof.
  intros Hc Hn Hl. rewrite Hn, Nat2Z.inj_succ, <-Z.add_1_r, seqZ_snoc in Hc by lia.
  rewrite Hc, fmap_app in Hl. simpl in Hl. rewrite last_snoc in Hl. congruence.
Qed.

Lemma chunk_answers_snoc key ct n : 0 <= n ->
  chunk_answers key ct (n + 1) =
  chunk_answers key ct n ++ [server (chunk_request key ct (n + 1))].
Proof. intros. unfold chunk_answers. by rewrite seqZ_snoc, !fmap_app. Qed.

Lemma served_answers key which s ct : served key which s ->
  answers_of ct s = chunk_answers key ct (Z.of_nat (length (answers_of ct s))).
Proof.
  induction 1 as [|s Hs IH Hp|ct' req s s' Hs IH Hl Ha|s Hs IH]; [done|..].
  - unfold answers_of in *. cbn. by destruct (resume_calls s) as [-> _].
  - pose proof (served_reachable _ _ _ Hs) as Hr.
    destruct (answer_calls _ _ _ Ha) as [Hans _].
    assert (answers_of ct s' = answers_of ct s ++
              (if decide (ct' = ct) then [server req] else [])) as ->.
    { unfold answers_of. rewrite Hans. destruct (decide (ct' = ct)).
      - by rewrite filter_app_this, fmap_app.
      - by rewrite filter_app_other, app_nil_r. }
    destruct (decide (ct' = ct)) as [->|Hne]; [|by rewrite app_nil_r].
    destruct (reachable_calls _ _ _ ct Hr) as [Hc Hn].
    rewrite (answer_held _ _ _ Ha : held ct s = true) in Hn.
    pose proof (last_chunk_request key ct (calls_of ct s) req _ Hc
      (eq_sym (eq_trans (eq_sym (Nat.add_1_r _)) Hn)) Hl) as ->.
    rewrite length_app. simpl. rewrite Nat2Z.inj_add, chunk_answers_snoc by lia.
    by rewrite <-IH.
  - unfold answers_of in *. cbn. by destruct (CancelContents_spec s) as [c ->].
Qed.

Lemma chunk_answers_last key ct n a : serves key ct n -> 0 <= a ->
  forallb (fun r => negb (is_last r)) (chunk_answers key ct a) = bool_decide (a < n).
Proof.
  intros [Hn Hs] Ha.
  assert (forall k, 1 <= k <= n ->
    is_last (server (chunk_request key ct k)) = bool_decide (k = n)) as Hlast.
  { intros k Hk. destruct (Hs k Hk) as [Hg Hr]. unfold is_last. rewrite Hg, Hr. cbn.
    case_decide; [by rewrite !bool_decide_eq_true_2|by rewrite !bool_decide_eq_false_2]. }
  case_bool_decide as Hlt.
  - apply forallb_forall. intros r Hr. apply list_elem_of_In in Hr.
    apply list_elem_of_fmap in Hr as (q & -> & (k & -> & Hk%elem_of_seqZ)%list_elem_of_fmap).
    rewrite Hlast, bool_decide_eq_false_2; [done|lia..].
  - apply not_true_iff_false. rewrite forallb_forall. intros Hall.
    specialize (Hall (server (chunk_request key ct n))).
    rewrite Hlast, bool_decide_eq_true_2 in Hall by lia. discriminate Hall.
    apply list_elem_of_In. unfold chunk_answers. apply list_elem_of_fmap_2, list_elem_of_fmap_2.
    apply elem_of_seqZ. lia.
Qed.

(** How far a served listing has come in one type. *)
Lemma served_progress key which ct n s :
  served key which s -> wanted ct which = true -> serves key ct n ->
  Z.of_nat (length (answers_of ct s)) <= n /\
  remaining ct s = bool_decide (Z.of_nat (length (answers_of ct s)) < n).
Proof.
  intros Hs Hw Hn. pose proof (contents_reachable_inv _ _ _ (served_reachable _ _ _ Hs)) as [Hc _].
  pose proof (reachable_asked _ _ _ (served_reachable _ _ _ Hs)) as [= Hk Hwh].
  destruct (ct_streams _ Hc ct) as [_ _ Hr _ Hst _]. rewrite Hwh, Hw in Hr.
  rewrite (served_answers key which s ct Hs) in Hr, Hst.
  rewrite (chunk_answers_last _ _ n) in Hr by (done || lia). split; [|done].
  destruct (length (answers_of ct s)) as [|a]; [destruct Hn; lia|].
  rewrite Nat2Z.inj_succ, <-Z.add_1_r, chunk_answers_snoc, removelast_last,
    (chunk_answers_last _ _ n) in Hst by (done || lia).
  apply bool_decide_eq_true in Hst. lia.
Qed.

Lemma unwanted_answers key which ct s :
  served key which s -> wanted ct which = false -> answers_of ct s = [].
Proof.
  intros Hs Hw. pose proof (contents_reachable_inv _ _ _ (served_reachable _ _ _ Hs)) as [Hc _].
  pose proof (reachable_asked _ _ _ (served_reachable _ _ _ Hs)) as [= Hk Hwh].
  destruct (ct_streams _ Hc ct) as [_ Ha _ _ _ Hu]. rewrite Hwh in Hu. rewrite (Hu Hw) in Ha.
  apply nil_length_inv. simpl in Ha. lia.
Qed.

Lemma answers_split (s : Contents) :
  length (answers s) =
  (length (answers_of ContentFiles s) + length (answers_of ContentFolders s))%nat.
Proof.
  unfold answers_of. rewrite !length_fmap. induction (answers s) as [|[[] r] l IH]; [done|..];
    rewrite ?filter_cons_True, ?filter_cons_False by done; simpl; lia.
Qed.

(** The answers of a whole listing, and their number. *)
Definition all_answers (key : str) (which : FilesOrFoldersOrBoth) (n : ContentType -> Z)
    (ct : ContentType) : list Response :=
  if wanted ct which then chunk_answers key ct (n ct) else [].

Definition total_answers (which : FilesOrFoldersOrBoth) (n : ContentType -> Z) : Z :=
  (if wanted ContentFiles which then n ContentFiles else 0) +
  (if wanted ContentFolders which then n ContentFolders else 0).

Lemma served_bound key which n s ct :
  (forall ct, wanted ct which = true -> serves key ct (n ct)) -> served key which s ->
  Z.of_nat (length (answers_of ct s)) <= (if wanted ct which then n ct else 0).
Proof.
  intros Hn Hs. destruct (wanted ct which) eqn:Hw.
  - apply (served_progress key which ct (n ct) s Hs Hw (Hn ct Hw)).
  - by rewrite (unwanted_answers key which).
Qed.

Lemma served_end key which n s ct :
  (forall ct, wanted ct which = true -> serves key ct (n ct)) -> served key which s ->
  remaining ct s = false ->
  answers_of ct s = all_answers key which n ct /\
  Z.of_nat (length (answers_of ct s)) = (if wanted ct which then n ct else 0).
Proof.
  intros Hn Hs Hr. unfold all_answers. destruct (wanted ct which) eqn:Hw.
  - destruct (served_progress key which ct (n ct) s Hs Hw (Hn ct Hw)) as [Hle Hrem].
    rewrite Hr in Hrem. symmetry in Hrem. apply bool_decide_eq_false in Hrem.
    assert (Z.of_nat (length (answers_of ct s)) = n ct) as Heq by lia.
    split; [|done]. rewrite <-Heq. by eapply served_answers.
  - by rewrite (unwanted_answers key which).
Qed.

Lemma all_good key which n ct :
  (forall ct, wanted ct which = true -> serves key ct (n ct)) ->
  Forall good (all_answers key which n ct).
Proof.
  intros Hn. unfold all_answers. destruct (wanted ct which) eqn:Hw; [|done].
  destruct (Hn ct Hw) as [_ Hs]. apply Forall_fmap, Forall_fmap, Forall_forall.
  intros k Hk%elem_of_seqZ. apply Hs. lia.
Qed.

Lemma no_errors key (s : Contents) :
  (forall ct, Forall good (answers_of ct s)) -> omap (error_of key) (answers s) = [].
Proof.
  intros Hg. unfold answers_of in Hg. induction (answers s) as [|[ct r] l IH]; [done|].
  assert (good r) as Hr.
  { specialize (Hg ct). rewrite filter_cons_True in Hg by done. by inversion Hg. }
  cbn. rewrite Hr. apply IH. intros ct'. specialize (Hg ct').
  destruct (decide (ct = ct')).
  - rewrite filter_cons_True in Hg by done. by inversion Hg.
  - by rewrite filter_cons_False in Hg.
Qed.

Lemma filter_all {A} (P : A -> Prop) `{!forall x, Decision (P x)} l :
  Forall P l -> filter P l = l.
Proof. induction 1; [done|]. rewrite filter_cons_True by done. congruence. Qed.

(** The result of a listing that the server answered. *)
Lemma served_result key which n s result :
  (forall ct, wanted ct which = true -> serves key ct (n ct)) ->
  served key which s -> cancelled_ s = false -> Phase s = Ended result ->
  Z.of_nat (length (answers s)) = total_answers which n /\
  result = (concat (rsp_files <$> all_answers key which n ContentFiles),
            concat (rsp_folders <$> all_answers key which n ContentFolders), []).
Proof.
  intros Hn Hs Hcan Hp. pose proof (served_reachable _ _ _ Hs) as Hr.
  pose proof (contents_reachable_inv _ _ _ Hr) as Hi.
  rewrite (phase_frame s Hi) in Hp. destruct Hi as [Hc Hfr]. unfold frame_inv in Hfr.
  destruct (frame s); try done. injection Hp as <-.
  destruct Hfr as (_ & _ & [?|Hrem]); [congruence|].
  pose proof (fun ct => served_end key which n s ct Hn Hs (Hrem ct)) as Hend.
  pose proof (reachable_asked _ _ _ Hr) as [= Hk _].
  destruct (Hend ContentFiles) as [Hf Hlf], (Hend ContentFolders) as [Hd Hld].
  assert (forall ct, Forall good (answers_of ct s)) as Hg.
  { intros ct. rewrite (proj1 (Hend ct)). by apply all_good. }
  split; [rewrite answers_split; unfold total_answers; lia|].
  rewrite (ct_errors _ Hc), Hk, no_errors by done.
  by rewrite (ct_files _ Hc), (ct_folders _ Hc), !filter_all, Hf, Hd by done.
Qed.

(** C20 A listing that is not cancelled, of a folder whose server has its files and folders in
    a number of chunks, returns all of them in the order of the chunks and no error, after
    exactly as many answers as there are chunks; until then an answer is under way. *)
Theorem contents_complete key which n s :
  (forall ct, wanted ct which = true -> serves key ct (n ct)) ->
  served key which s -> cancelled_ s = false ->
  match Phase s with
  | Idle => answers s = []
  | Running =>
      Z.of_nat (length (answers s)) < total_answers which n /\
      exists ct req, last (calls_of ct s) = Some req /\ is_Some (Answer (ct, server req) s)
  | Ended result =>
      Z.of_nat (length (answers s)) = total_answers which n /\
      result = (concat (rsp_files <$> all_answers key which n ContentFiles),
                concat (rsp_folders <$> all_answers key which n ContentFolders), [])
  end.
Proof.
  intros Hn Hs Hcan. pose proof (served_reachable _ _ _ Hs) as Hr.
  pose proof (contents_reachable_inv _ _ _ Hr) as Hi.
  destruct (Phase s) as [| |result] eqn:Hp.
  - rewrite (phase_frame s Hi) in Hp. destruct Hi as [_ Hfr]. unfold frame_inv in Hfr.
    destruct (frame s); try done. tauto.
  - destruct (running_held s Hi Hp) as [ct Hh].
    destruct (reachable_calls _ _ _ ct Hr) as [_ Hlen]. split.
    + pose proof (served_bound key which n s ContentFiles Hn Hs).
      pose proof (served_bound key which n s ContentFolders Hn Hs).
      pose proof (st_held _ _ _ _ _ _ _ (ct_streams _ (proj1 Hi) ct) Hh) as Hrem.
      pose proof (remaining_wanted ct s (proj1 Hi) Hrem) as Hw.
      pose proof (reachable_asked _ _ _ Hr) as [= _ Hwh]. rewrite Hwh in Hw.
      destruct (served_progress key which ct (n ct) s Hs Hw (Hn ct Hw)) as [_ Hlt].
      rewrite Hrem in Hlt. symmetry in Hlt. apply bool_decide_eq_true in Hlt.
      rewrite answers_split. unfold total_answers. destruct ct; rewrite Hw in *; lia.
    + destruct (last (calls_of ct s)) as [req|] eqn:Hl.
      * exists ct, req. split; [done|]. by apply held_answer.
      * apply last_None in Hl. rewrite Hl, Hh in Hlen. simpl in Hlen. lia.
  - by apply (served_result key which n s result).
Qed.

Lemma failing_not_ended key which s :
  (forall req, is_error (rsp_error_code (server req)) = true) ->
  served key which s -> cancelled_ s = false -> forall r, Phase s <> Ended r.
Proof.
  intros Hfail Hs Hcan r Hp. pose proof (served_reachable _ _ _ Hs) as Hr.
  pose proof (contents_reachable_inv _ _ _ Hr) as Hi. rewrite (phase_frame s Hi) in Hp.
  destruct Hi as [Hc Hfr]. unfold frame_inv in Hfr. destruct (frame s); try done.
  destruct Hfr as (_ & _ & [?|Hrem]); [congruence|].
  assert (forall ct, wanted ct which = false) as Hw.
  { intros ct. destruct (ct_streams _ Hc ct) as [_ _ Hrm _ _ _].
    pose proof (reachable_asked _ _ _ Hr) as [= _ Hwh].
    rewrite Hrem, (served_answers key which s ct Hs), Hwh in Hrm.
    destruct (wanted ct which); [|done]. cbn in Hrm. symmetry in Hrm.
    apply not_true_iff_false in Hrm. destruct Hrm. apply forallb_forall. intros a Ha.
    apply list_elem_of_In, list_elem_of_fmap in Ha as (q & -> & _).
    unfold is_last. by rewrite Hfail. }
  pose proof (Hw ContentFiles). pose proof (Hw ContentFolders). by destruct which.
Qed.

(** An error never ends a listing: if every request fails, the listing asks for one chunk
    after the other and never calls back, however many errors there are. *)
Theorem failing_listing_never_ends key which s :
  (forall req, is_error (rsp_error_code (server req)) = true) ->
  served key which s -> cancelled_ s = false ->
  match Phase s with
  | Ended _ => False
  | Running =>
      exists ct req s', last (calls_of ct s) = Some req /\
        Answer (ct, server req) s = Some s' /\ served key which s' /\
        Phase s' = Running /\ length (answers s') = S (length (answers s)) /\
        cancelled_ s' = false
  | Idle => True
  end.
Proof.
  intros Hfail Hs Hcan. pose proof (served_reachable _ _ _ Hs) as Hr.
  pose proof (contents_reachable_inv _ _ _ Hr) as Hi.
  destruct (Phase s) as [| |result] eqn:Hp; [done|..].
  - destruct (running_held s Hi Hp) as [ct Hh].
    destruct (reachable_calls _ _ _ ct Hr) as [_ Hlen].
    destruct (last (calls_of ct s)) as [req|] eqn:Hl.
    2: { apply last_None in Hl. rewrite Hl, Hh in Hlen. simpl in Hlen. lia. }
    destruct (held_answer ct (server req) s Hh) as [s' Hs'].
    assert (served key which s') as Hsv by by eapply served_answered.
    pose proof (answer_cancelled _ _ _ Hs') as Hc'. rewrite Hcan in Hc'.
    exists ct, req, s'. split_and!; try done.
    + destruct (answer_phase _ _ _ Hi Hs') as [_ Hne].
      destruct (Phase s') as [| |r] eqn:Hp'; try done.
      by destruct (failing_not_ended key which s' Hfail Hsv Hc' r).
    + destruct (answer_calls _ _ _ Hs') as [-> _]. rewrite length_app. simpl. lia.
  - by destruct (failing_not_ended key which s Hfail Hs Hcan result).
Qed.

(** The server answers the request of a type that is under way. *)
Definition serve (ct : ContentType) (s : Contents) : option Contents :=
  match last (calls_of ct s) with Some req => Answer (ct, server req) s | None => None end.

Fixpoint serve_all (cts : list ContentType) (s : Contents) : option Contents :=
  match cts with
  | [] => Some s
  | ct :: cts => match serve ct s with Some s' => serve_all cts s' | None => None end
  end.

Lemma serve_all_served key which cts s s' :
  served key which s -> serve_all cts s = Some s' -> served key which s'.
Proof.
  revert s. induction cts as [|ct cts IH]; intros s Hs; cbn; [by intros [= <-]|].
  unfold serve. destruct (last (calls_of ct s)) as [req|] eqn:Hl; [|done].
  destruct (Answer _ s) as [s1|] eqn:Ha; [|done].
  apply IH. by apply (served_answered key which ct req s s1).
Qed.

End Server.
End Theorems.

(** ** Examples

    Two chunks of files and one of folders, the answers in either order. *)
Module Listings.

Definition server (req : Request) : Response (File := Z) (Folder := Z) :=
  {| rsp_error_code := no_error; rsp_error_string := None;
     rsp_chunk_number := req_chunk_number req;
     rsp_chunks_remaining :=
       match req_content_type req with
       | ContentFolders => LastChunk
       | ContentFiles => if decide (req_chunk_number req = 2) then LastChunk else MoreChunks
       end;
     rsp_files := [req_chunk_number req]; rsp_folders := [100 + req_chunk_number req] |}.

Definition chunks (ct : ContentType) : Z :=
  match ct with ContentFiles => 2 | ContentFolders => 1 end.

Definition failing (req : Request) : Response (File := Z) (Folder := Z) :=
  {| rsp_error_code := http_code IoTimeout; rsp_error_string := None;
     rsp_chunk_number := 0; rsp_chunks_remaining := MoreChunks;
     rsp_files := []; rsp_folders := [] |}.

Definition started : GetFolderContents (File := Z) (Folder := Z) := Start (Create (B "root") Both).

Definition listed (server : Request -> Response) (cts : list ContentType) :
    GetFolderContents (File := Z) (Folder := Z) :=
  default started (serve_all server cts started).

Lemma listed_served server cts :
  serve_all server cts started <> None -> served server (B "root") Both (listed server cts).
Proof.
  intros Hs. unfold listed. destruct (serve_all _ _ _) as [s|] eqn:Hr; [|done]. eapply serve_all_served; [|exact Hr].
  apply served_started; [apply served_created|done].
Qed.

End Listings.

Definition listed_both : GetFolderContents (File := Z) (Folder := Z) :=
  Listings.listed Listings.server [ContentFolders; ContentFiles; ContentFiles].

Lemma listed_both_served : served Listings.server (B "root") Both listed_both.
Proof. apply Listings.listed_served. by vm_compute. Qed.

Lemma listed_both_ended : Phase listed_both = Ended ([1; 2], [101], []).
Proof. by vm_compute. Qed.

Lemma contents_accounted_witness : length (callbacks listed_both) = 1%nat.
Proof.
  destruct (contents_accounted (B "root") Both listed_both) as [_ He].
  - apply (served_reachable Listings.server), listed_both_served.
  - rewrite listed_both_ended in He. apply He.
Defined.

Lemma chunks_served ct : serves Listings.server (B "root") ct (Listings.chunks ct).
Proof.
  destruct ct; (split; [by vm_compute|]); intros k Hk; cbn in Hk.
  - assert (k = 1) as -> by lia. by vm_compute.
  - assert (k = 1 \/ k = 2) as [->| ->] by lia; by vm_compute.
Qed.

Lemma contents_complete_witness : Z.of_nat (length (answers listed_both)) = 3.
Proof.
  pose proof (contents_complete Listings.server (B "root") Both Listings.chunks listed_both
    (fun ct _ => chunks_served ct) listed_both_served eq_refl) as Hc.
  rewrite listed_both_ended in Hc. exact (proj1 Hc).
Defined.

Definition listed_failing : GetFolderContents (File := Z) (Folder := Z) :=
  Listings.listed Listings.failing [ContentFiles; ContentFolders; ContentFiles].

Lemma failing_listing_never_ends_witness :
  length (errors_ listed_failing) = 3%nat /\
  exists s' : GetFolderContents (File := Z) (Folder := Z),
    length (answers s') = 4%nat /\ Phase s' = Running.
Proof.
  assert (served Listings.failing (B "root") Both listed_failing) as Hs
    by (apply Listings.listed_served; by vm_compute).
  assert (Phase listed_failing = Running) as Hp by by vm_compute.
  assert (length (answers listed_failing) = 3%nat) as Hl by by vm_compute.
  pose proof (failing_listing_never_ends Listings.failing (B "root") Both listed_failing
    (fun _ => eq_refl) Hs eq_refl) as Hf.
  rewrite Hp, Hl in Hf. destruct Hf as (ct & req & s' & _ & _ & _ & Hr & Hn & _).
  split; [by vm_compute|]. by exists s'.
Defined.
