(* ===== verification/FolderListing.v ===== *)
(** * Listing a folder over the generated call
    ([api/actions/get_folder_contents], [api/folder/get_content/v1_2])

    [GetFolderContents] is a template over the call folder/get_content; here it is put on the
    generated class of version 1.2: the request that a round of the listing makes, and the
    response that the callback of the call gets for the content of a reply.  Composed with
    the description of the call, a listing gives the entries that the replies of the server
    describe. *)
From S2P Require Import Prelude Errors Boost UrlEncode ApiRequests PropertyTree ApiResponses ApiResponsesTheorems Endpoint EndpointSpec EndpointProofs ApiFolder ApiCalls ApiCallsTheorems Coroutine GetFolderContents GetFolderContentsProofs GetFolderContentsTheorems ApiExamples.

Open Scope Z_scope.

Section Listing.
Context `{lib : Libraries} (boost : Boost) (message : error_code -> str) (debug : str).
#[local] Abbreviation File := folder_get_content_v1_2.File.
#[local] Abbreviation Folder := folder_get_content_v1_2.Folder.

(** ** Requests and responses *)

Definition content_type (ct : ContentType) : folder_get_content_v1_2.ContentType :=
  match ct with
  | ContentFiles => folder_get_content_v1_2.ContentType_Files
  | ContentFolders => folder_get_content_v1_2.ContentType_Folders
  end.

(** [RequestType(folder_key_, files_chunk_num, ContentType::Files)] and the same for folders.
    [api/actions/get_folder_contents_impl.hpp:175-178 CoroutineBody] *)
Definition RequestType (req : Request) : folder_get_content_v1_2.Impl :=
  folder_get_content_v1_2.new_Impl (req_folder_key req) (req_chunk_number req)
    (content_type (req_content_type req)).

(** What the handlers read of a response.
    [api/actions/get_folder_contents_impl.hpp:69-100 HandleFolderGetContentsFiles] *)
Definition ResponseType (r : ResponseBase) (v : folder_get_content_v1_2.Response) :
    GetFolderContents.Response (File := File) (Folder := Folder) :=
  {| rsp_error_code := r_error_code the_json r;
     rsp_error_string := r_error_string the_json r;
     rsp_chunk_number := folder_get_content_v1_2.Response_chunk_number v;
     rsp_chunks_remaining :=
       match folder_get_content_v1_2.Response_chunks_remaining v with
       | folder_get_content_v1_2.ChunksRemaining_MoreChunks => MoreChunks
       | folder_get_content_v1_2.ChunksRemaining_LastChunk => LastChunk
       end;
     rsp_files := folder_get_content_v1_2.Response_files v;
     rsp_folders := folder_get_content_v1_2.Response_folders v |}.

(** The server's side of a call: address, status and content of the reply. *)
Context (web : Request -> str * Z * str).

Definition reply (req : Request) : ResponseBase * folder_get_content_v1_2.Response :=
  let '(url, status_code, content) := web req in
  reply_to boost message debug folder_get_content_v1_2.call url status_code content.

Definition folder_server (req : Request) :
    GetFolderContents.Response (File := File) (Folder := Folder) :=
  ResponseType (reply req).1 (reply req).2.

(** ** What the replies describe *)

Definition more_chunks (pt : tree) : option folder_get_content_v1_2.ChunksRemaining :=
  enum_at [("yes"%string, folder_get_content_v1_2.ChunksRemaining_MoreChunks);
           ("no"%string, folder_get_content_v1_2.ChunksRemaining_LastChunk)]
    pt (B "response.folder_content.more_chunks").

(** A successful reply to the request, whose tree is as described and says whether the chunk is
    the last one. *)
Definition describes (req : Request) (last : bool) (pt : tree) : Prop :=
  let '(url, status_code, content) := web req in
  successful the_json boost status_code content /\ read_json the_json content = inl pt /\
  accepted folder_get_content_v1_2.Response_described pt /\
  more_chunks pt = Some (if last then folder_get_content_v1_2.ChunksRemaining_LastChunk
                         else folder_get_content_v1_2.ChunksRemaining_MoreChunks).

(** The entries of an array that are not empty. *)
Definition entries (key : string) (pt : tree) : list tree :=
  match get_child the_json pt (B key) with
  | Some branch => filter not_empty_branch (children the_json branch)
  | None => []
  end.

Definition file_entries : tree -> list tree := entries "response.folder_content.files".
Definition folder_entries : tree -> list tree := entries "response.folder_content.folders".

Lemma describes_reply req last pt : describes req last pt ->
  good (folder_server req) /\
  rsp_chunks_remaining (folder_server req) = (if last then LastChunk else MoreChunks) /\
  Forall2 (decoded folder_get_content_v1_2.File_described) (file_entries pt)
    (rsp_files (folder_server req)) /\
  Forall2 (decoded folder_get_content_v1_2.Folder_described) (folder_entries pt)
    (rsp_folders (folder_server req)).
Proof.
  unfold describes, folder_server, reply. destruct (web req) as [[url status_code] content].
  intros (Hs & Hpt & Ha & Hm).
  pose proof (described_reply boost message debug folder_get_content_v1_2.call _ _ _ _ url
    status_code content folder_get_content_v1_2.call_implements) as Hd.
  destruct (reply_to _ _ _ _ _ _ _) as [r v]. destruct Hd as [Hd _].
  destruct (Hd pt Hs Hpt (parses_response_regular _ Ha)) as [(_ & Hec & _ & Hv)|[Hn _]]; [|done].
  do 3 apply Forall_cons_1 in Hv as [_ Hv]. apply Forall_cons_1 in Hv as [Hmore Hv].
  apply Forall_cons_1 in Hv as [Hfiles Hv]. apply Forall_cons_1 in Hv as [Hfolders _].
  cbn [decodes Required OptionalStructs] in *.
  split_and!; unfold good; cbn [fst snd ResponseType rsp_error_code rsp_chunks_remaining rsp_files
    rsp_folders].
  - by rewrite Hec.
  - unfold more_chunks in Hm. rewrite Hm in Hmore. injection Hmore as <-. by destruct last.
  - unfold file_entries, entries. revert Hfiles.
    destruct (get_child the_json pt (B "response.folder_content.files")); [done|by intros ->].
  - unfold folder_entries, entries. revert Hfolders.
    destruct (get_child the_json pt (B "response.folder_content.folders")); [done|by intros ->].
Qed.

Lemma describes_serves key ct n tree_of :
  1 <= n < 2 ^ 32 ->
  (forall k, 1 <= k <= n ->
     describes (chunk_request key ct k) (bool_decide (k = n)) (tree_of k)) ->
  serves folder_server key ct n.
Proof.
  intros Hn Hd. split; [done|]. intros k Hk.
  destruct (describes_reply _ _ _ (Hd k Hk)) as (Hg & Hm & _). split; [done|].
  rewrite Hm. by case_bool_decide; case_decide.
Qed.

(** ** Listings *)

(** The trees of a listing's chunks, for a type that was asked for. *)
Definition chunk_trees (which : FilesOrFoldersOrBoth) (n : ContentType -> Z)
    (trees : ContentType -> Z -> tree) (ct : ContentType) : list tree :=
  if wanted ct which then trees ct <$> seqZ 1 (n ct) else [].

(** The entries of all answers decode those of the trees of the chunks. *)
Lemma answers_decode {T} (entries_of : tree -> list tree) (entries_in : _ -> list T) d
    key which n trees ct :
  (forall k, 1 <= k <= n ct -> wanted ct which = true ->
     Forall2 (decoded d) (entries_of (trees ct k))
       (entries_in (folder_server (chunk_request key ct k)))) ->
  Forall2 (decoded d) (chunk_trees which n trees ct ≫= entries_of)
    (concat (entries_in <$> all_answers folder_server key which n ct)).
Proof.
  intros Hd. unfold chunk_trees, all_answers, chunk_answers.
  destruct (wanted ct which); [|constructor].
  assert (Forall (fun k => 1 <= k <= n ct) (seqZ 1 (n ct))) as Hk.
  { apply Forall_forall. intros k ?%elem_of_seqZ. lia. }
  induction (seqZ 1 (n ct)) as [|k ks IH]; cbn; [constructor|].
  apply Forall_cons_1 in Hk as [Hk Hks]. apply Forall2_app; [by apply Hd|by apply IH].
Qed.

(** C21 A listing returns what the server described: when the replies to the chunks 1, 2, ... of
    each type that was asked for are as the call's description says, a listing that ends
    uncancelled gives one file for each entry of the files' chunks and one folder for each
    entry of the folders' chunks, in order, with the values that the description reads from
    the entry, and no error. *)
Theorem listing_returns_entries key which n trees s result :
  (forall ct, wanted ct which = true ->
     1 <= n ct < 2 ^ 32 /\
     forall k, 1 <= k <= n ct ->
       describes (chunk_request key ct k) (bool_decide (k = n ct)) (trees ct k)) ->
  served folder_server key which s -> cancelled_ s = false -> Phase s = Ended result ->
  let '(files, folders, errors) := result in
  Forall2 (decoded folder_get_content_v1_2.File_described)
    (chunk_trees which n trees ContentFiles ≫= file_entries) files /\
  Forall2 (decoded folder_get_content_v1_2.Folder_described)
    (chunk_trees which n trees ContentFolders ≫= folder_entries) folders /\
  errors = [].
Proof.
  intros Hd Hs Hc Hp.
  destruct (served_result folder_server key which n s result) as [_ ->]; [|done..|].
  { intros ct Hw. destruct (Hd ct Hw) as [Hn Hk]. by apply (describes_serves _ _ _ (trees ct)). }
  split_and!; [| |done]; apply answers_decode; intros k Hk Hw;
    by destruct (describes_reply _ _ _ (proj2 (Hd _ Hw) k Hk)) as (_ & _ & ? & ?).
Qed.

(** The POST data of a listing's request names the folder, the chunk and the type. *)
Theorem listing_request_parts MD5 a req :
  let body := folder_get_content_v1_2.GetPostData MD5 a (RequestType req) in
  body = MakePost MD5 a (B "/api/1.2/folder/get_content.php")
    [(B "chunk", print_int (req_chunk_number req));
     (B "content_type", match req_content_type req with
                        | ContentFiles => B "files" | ContentFolders => B "folders" end);
     (B "folder_key", req_folder_key req)].
Proof. cbn zeta. unfold folder_get_content_v1_2.GetPostData. f_equal. by destruct req as [? ? []]. Qed.

End Listing.

(** ** Two chunks of files *)

Module Chunks.

Definition chunk (number more : string) (files : list Replies.tree) : Replies.tree :=
  Replies.object [("response", Replies.object
    [("result", Replies.leaf "Success");
     ("folder_content", Replies.object
        [("chunk_size", Replies.leaf "100"); ("content_type", Replies.leaf "files");
         ("chunk_number", Replies.leaf number); ("more_chunks", Replies.leaf more);
         ("files", Replies.array files)])])]%string.

Definition first : Replies.tree := chunk "1" "yes" [Replies.file "a"; Replies.file "b"].
Definition second : Replies.tree := chunk "2" "no" [Replies.file "c"].

#[export] Instance libraries : Libraries :=
  {| the_json := Replies.json [(B "first", first); (B "second", second)];
     the_time := Replies.time; indeterminate := fun T i => inhabitant |}.

Definition content (k : Z) : str := if decide (k = 1) then B "first" else B "second".
Definition web (req : Request) : str * Z * str :=
  (B "https://h/a", 200, content (req_chunk_number req)).
Definition server := folder_server c_locale Replies.silent [] web.
Definition trees (ct : ContentType) (k : Z) : Replies.tree :=
  if decide (k = 1) then first else second.

Lemma described key k : 1 <= k <= 2 ->
  describes c_locale web (chunk_request key ContentFiles k) (bool_decide (k = 2))
    (trees ContentFiles k).
Proof.
  intros Hk. assert (u32 k = k) as Hu by (apply u32_small; lia).
  unfold describes, web. cbn [req_chunk_number chunk_request]. rewrite Hu.
  pose proof (described_reply c_locale Replies.silent [] folder_get_content_v1_2.call _ _ _ _
    (B "https://h/a") 200 (content k) folder_get_content_v1_2.call_implements) as Hd.
  assert (r_error_code the_json (reply_to c_locale Replies.silent [] folder_get_content_v1_2.call
    (B "https://h/a") 200 (content k)).1 = no_error /\
    successful the_json c_locale 200 (content k) /\
    read_json the_json (content k) = inl (trees ContentFiles k) /\
    more_chunks (trees ContentFiles k) = Some (if bool_decide (k = 2)
      then folder_get_content_v1_2.ChunksRemaining_LastChunk
      else folder_get_content_v1_2.ChunksRemaining_MoreChunks)) as (Hec & Hs & Hr & Hm).
  { unfold successful. assert (exists k', k = k' /\ (k' = 1 \/ k' = 2)) as (k' & -> & Hk')
      by (exists k; lia).
    split; [|split; [split; [reflexivity|exists (trees ContentFiles k'); split]|split]];
      destruct Hk' as [-> | ->]; vm_compute; reflexivity. }
  destruct (reply_to _ _ _ _ _ _ _) as [r v]. cbn [fst] in Hec. destruct Hd as [Hd _].
  split_and!; try done. destruct (Hd _ Hs Hr) as [(Ha & _)|[_ [Hf _]]]; [|done|by rewrite Hec in Hf].
  Replies.all_regular.
Qed.

Definition listed : GetFolderContents :=
  default (Create (B "root") Files)
    (serve_all server [ContentFiles; ContentFiles] (Start (Create (B "root") Files))).

Definition has_ended {A} (p : phase A) : bool := match p with Ended _ => true | _ => false end.

Lemma example_listed :
  serve_all server [ContentFiles; ContentFiles] (Start (Create (B "root") Files)) = Some listed.
Proof.
  assert (is_Some (serve_all server [ContentFiles; ContentFiles]
    (Start (Create (B "root") Files)))) as Hs by (apply (bool_decide_unpack _); vm_compute; reflexivity).
  unfold listed. destruct (serve_all _ _ _) as [s|]; [reflexivity|by destruct Hs].
Qed.

Lemma listed_ends : has_ended (Phase listed) = true.
Proof. vm_compute. reflexivity. Qed.

(** The three entries that the two replies have. *)
Definition three_files : list (ptree the_json) :=
  Replies.under "" <$> [Replies.file "a"; Replies.file "b"; Replies.file "c"].

End Chunks.
Import Chunks.

Lemma listing_returns_entries_witness :
  exists files, Phase Chunks.listed = Ended (files, [], []) /\
    Forall2 (decoded folder_get_content_v1_2.File_described) three_files files.
Proof.
  pose proof Chunks.listed_ends as He0.
  destruct (Phase Chunks.listed) as [| |[[files folders] errors]] eqn:Hp; [discriminate He0..|].
  pose proof (listing_returns_entries c_locale Replies.silent [] Chunks.web (B "root") Files
    (fun _ => 2) Chunks.trees Chunks.listed (files, folders, errors)) as Hl.
  destruct Hl as (Hf & Hd & He).
  - intros [] Hw; [done|]. split; [lia|]. intros k Hk. by apply Chunks.described.
  - apply (serve_all_served Chunks.server _ _ [ContentFiles; ContentFiles]
      (Start (Create (B "root") Files))); [|exact Chunks.example_listed].
    apply served_started; [apply served_created|done].
  - by vm_compute.
  - exact Hp.
  - exists files. apply Forall2_nil_inv_l in Hd. subst. split; [done|exact Hf].
Defined.
