(* ===== verification/WorkManager.v ===== *)
(** * The work manager and its callers ([api/actions/work_manager])

    [WorkManager] keeps a queue of coroutines and starts a bounded number of them on the
    [io_service].  [ExecuteWork] runs on the coroutine of its caller and yields once for
    each piece of work it started; the callback of a piece of work resumes the caller,
    and only after the caller has yielded again the work is removed from the list of what
    is in progress.

    A caller (an action such as [CloneCloudTree]) is seen through [CallerOps]; the work is
    seen through [CoroutineOps].  [system] composes one caller, its work manager and the
    work; a piece of work is named by its position in [works].  Posted tasks may run in any
    order. *)
From S2P Require Import Prelude Coroutine.

Open Scope Z_scope.

(** What the work manager posts. *)
Inductive task :=
  | StartTask (work : nat)
  | CancelTask.

#[export] Instance task_eq_dec : EqDecision task.
Proof. solve_decision. Defined.

(** A yield is [true] if it is not null; [io_service_] holds the tasks that were posted and
    have not run.
    [api/actions/work_manager.hpp:59-80 WorkManager] *)
Record WorkManager := {
  io_service_ : list task;
  work_queue_ : list (nat * bool);
  in_progress_list_ : list nat;
  max_concurrent_work_ : Z }.

#[local] Instance WorkManager_members : Members WorkManager := fun m =>
  Build_WorkManager (io_service_ m) (work_queue_ m) (in_progress_list_ m)
    (max_concurrent_work_ m).

Definition with_io_service_ := ltac:(setter io_service_).
Definition with_work_queue_ := ltac:(setter work_queue_).
Definition with_in_progress_list_ := ltac:(setter in_progress_list_).

(** [api/actions/work_manager.cpp:8-12 Create] *)
Definition CreateWorkManager : WorkManager :=
  {| io_service_ := []; work_queue_ := []; in_progress_list_ := [];
     max_concurrent_work_ := 10 |}.

(** [api/actions/work_manager.cpp:24-29 QueueWork] *)
Definition QueueWork (work : nat) (yield : bool) (m : WorkManager) : WorkManager :=
  with_work_queue_ (work_queue_ m ++ [(work, yield)]) m.

(** [api/actions/work_manager.cpp:14-22 QueueWork] *)
Definition QueueWorks (coroutines : list nat) (yield : bool) (m : WorkManager) : WorkManager :=
  foldl (fun m w => QueueWork w yield m) m coroutines.

(** [api/actions/work_manager.cpp:31-34 SetMaxConcurrentWork] *)
Definition SetMaxConcurrentWork (max_work : Z) (m : WorkManager) : WorkManager :=
  {| io_service_ := io_service_ m; work_queue_ := work_queue_ m;
     in_progress_list_ := in_progress_list_ m; max_concurrent_work_ := max_work |}.

(** The test of the inner loop: a [size_t] against an [int].
    [api/actions/work_manager.cpp:50-51 ExecuteWork] *)
Definition has_room (m : WorkManager) : bool :=
  Z.of_nat (length (in_progress_list_ m)) <? u64 (max_concurrent_work_ m).

(** The inner loop: starts what there is room for; its result says whether it started
    anything ([queue_more_work]).
    [api/actions/work_manager.cpp:44-79 ExecuteWork] *)
Fixpoint post_work (queue : list (nat * bool)) (m : WorkManager) (yield_queue : list bool) :
    WorkManager * list bool * bool :=
  match queue with
  | [] => (with_work_queue_ [] m, yield_queue, false)
  | (work, yield) :: rest =>
      if has_room m then
        let m := with_in_progress_list_ (in_progress_list_ m ++ [work]) m in
        let m := with_io_service_ (io_service_ m ++ [StartTask work]) m in
        let '(m, yield_queue, _) := post_work rest m (yield_queue ++ [yield]) in
        (m, yield_queue, true)
      else (with_work_queue_ queue m, yield_queue, false)
  end.

(** Where [ExecuteWork] is after it ran: it yielded, and holds the yields that are left and
    whether its last round started work, or it returned. *)
Inductive progress :=
  | Yielded (yield_queue : list bool) (queue_more_work : bool)
  | Returned.

(** The rest of a round: the next yield, and the loop's exit after a null yield.
    [api/actions/work_manager.cpp:42-94 ExecuteWork] *)
Fixpoint execute_loop (fuel : nat) (m : WorkManager) (yield_queue : list bool) :
    WorkManager * progress :=
  let '(m, yield_queue, queue_more_work) := post_work (work_queue_ m) m yield_queue in
  match yield_queue with
  | true :: yield_queue => (m, Yielded yield_queue queue_more_work)
  | false :: yield_queue =>
      if bool_decide (yield_queue = []) && negb queue_more_work then (m, Returned)
      else match fuel with
           | O => (m, Returned)
           | S fuel => execute_loop fuel m yield_queue
           end
  | [] => (m, Returned)
  end.

(** Every round takes one piece of work or one yield away: this many rounds are enough. *)
Definition execute_fuel (m : WorkManager) (yield_queue : list bool) : nat :=
  (length (work_queue_ m) + length yield_queue)%nat.

(** [api/actions/work_manager.cpp:36-40 ExecuteWork] *)
Definition ExecuteWork (m : WorkManager) : WorkManager * progress :=
  execute_loop (execute_fuel m []) m [].

(** [ExecuteWork] when its yield returns: the loop's exit, or the next round.
    [api/actions/work_manager.cpp:86-93 ExecuteWork] *)
Definition continue_work (yield_queue : list bool) (queue_more_work : bool)
    (m : WorkManager) : WorkManager * progress :=
  if bool_decide (yield_queue = []) && negb queue_more_work then (m, Returned)
  else execute_loop (execute_fuel m yield_queue) m yield_queue.

(** [api/actions/work_manager.cpp:97-101 Cancel] *)
Definition CancelWork (m : WorkManager) : WorkManager :=
  with_io_service_ (io_service_ m ++ [CancelTask]) m.

(** The completion handler: [list::remove] removes every occurrence.
    [api/actions/work_manager.cpp:59-64 ExecuteWork] *)
Definition work_completed (work : nat) (m : WorkManager) : WorkManager :=
  with_in_progress_list_ (filter (fun w => w <> work) (in_progress_list_ m)) m.

(** ** Callers *)

(** What the body of a caller does with its work manager. *)
Inductive action (W : Type) :=
  | Queue (work : W)        (** [QueueWork(work, &yield)] *)
  | CancelManager.          (** [Cancel()] of the work manager *)
Arguments Queue {W} work.
Arguments CancelManager {W}.

(** A caller [P] of work [W] that returns [R], with outcome [Out].  [Advance] runs the body
    up to its next call of [ExecuteWork] ([true]) or to its end ([false]); [Receive] is the
    callback of a piece of work, up to its [Resume]; [SetCancelled] is its [Cancel] without
    the call of the work manager. *)
Class CallerOps (P W R Out : Type) := {
  Advance : P -> P * list (action W) * bool;
  Receive : R -> P -> P;
  SetCancelled : P -> P;
  Outcome : P -> Out;
  Rank : P -> nat }.

(** The promise of a caller: its body calls [ExecuteWork] a bounded number of times before
    it has to wait, and the work that it queues is new. *)
Class CallerLaws {P W R Out A} `{CallerOps P W R Out} `{CoroutineOps W A R}
    (ok : W -> Prop) := {
  advance_rank p p' acts : Advance p = (p', acts, true) -> (Rank p' < Rank p)%nat;
  advance_fresh p p' acts exec w :
    Advance p = (p', acts, exec) -> Queue w ∈ acts -> ok w /\ Phase w = Idle }.

(** ** A caller, its manager and its work *)

Section System.
Context {P W R Out A : Type} `{CallerOps P W R Out} `{CoroutineOps W A R}.

(** Where the caller's coroutine is.  [CallerDone] says how many pieces of work the body
    queued after its last [ExecuteWork]. *)
Inductive caller_position :=
  | CallerNotStarted
  | InExecuteWork (yield_queue : list bool) (queue_more_work : bool)
  | CallerDone (queued_late : nat)
  | CallerStuck.

(** [outcomes] are the calls of the caller's callback, [dropped] the work that a
    cancellation took from the queue; [cancel_ran] says that a cancellation emptied the list
    of what is in progress. *)
Record system := {
  caller : P;
  place : caller_position;
  manager : WorkManager;
  works : list W;
  outcomes : list Out;
  dropped : list nat;
  cancel_ran : bool }.

#[local] Instance system_members : Members system := fun s =>
  Build_system (caller s) (place s) (manager s) (works s) (outcomes s) (dropped s)
    (cancel_ran s).

Definition with_caller := ltac:(setter caller).
Definition with_place := ltac:(setter place).
Definition with_manager := ltac:(setter manager).
Definition with_works := ltac:(setter works).
Definition with_outcomes := ltac:(setter outcomes).
Definition with_dropped := ltac:(setter dropped).
Definition with_cancel_ran := ltac:(setter cancel_ran).

Definition new_system (max_work : Z) (p : P) : system :=
  {| caller := p; place := CallerNotStarted;
     manager := SetMaxConcurrentWork max_work CreateWorkManager; works := [];
     outcomes := []; dropped := []; cancel_ran := false |}.

Definition run_action (a : action W) (s : system) : system :=
  match a with
  | Queue w =>
      with_manager (QueueWork (length (works s)) true (manager s))
        (with_works (works s ++ [w]) s)
  | CancelManager => with_manager (CancelWork (manager s)) s
  end.

Definition run_actions (acts : list (action W)) (s : system) : system :=
  foldl (fun s a => run_action a s) s acts.

(** The work that a turn of the body queues. *)
Definition new_work (acts : list (action W)) : list W :=
  omap (fun a => match a with Queue w => Some w | CancelManager => None end) acts.

Definition queued_by (acts : list (action W)) : nat := length (new_work acts).

(** The body from a point between two calls of [ExecuteWork] until it yields or ends.  When
    [ExecuteWork] returns without yielding it goes on; [Rank] bounds how often. *)
Fixpoint run_body (fuel : nat) (s : system) : system :=
  let '(p, acts, execute) := Advance (caller s) in
  let s := run_actions acts (with_caller p s) in
  if execute then
    let '(m, after) := ExecuteWork (manager s) in
    let s := with_manager m s in
    match after with
    | Yielded yield_queue more => with_place (InExecuteWork yield_queue more) s
    | Returned => match fuel with O => with_place CallerStuck s | S fuel => run_body fuel s end
    end
  else
    with_outcomes (outcomes s ++ [Outcome p]) (with_place (CallerDone (queued_by acts)) s).

(** [coro_()] of the caller. *)
Definition ResumeCaller (s : system) : system :=
  match place s with
  | CallerNotStarted => run_body (Rank (caller s)) s
  | InExecuteWork yield_queue more =>
      let '(m, after) := continue_work yield_queue more (manager s) in
      let s := with_manager m s in
      match after with
      | Yielded yield_queue more => with_place (InExecuteWork yield_queue more) s
      | Returned => run_body (Rank (caller s)) s
      end
  | CallerDone _ | CallerStuck => with_place CallerStuck s
  end.

(** A piece of work that ends calls its callback, which resumes the caller, and then the
    completion handler.
    [api/actions/coroutine.hpp:35-44 coro_] *)
Definition work_step (i : nat) (w : W) (s : system) : system :=
  let s := with_works (<[i := w]> (works s)) s in
  match Phase w with
  | Ended r =>
      let s := ResumeCaller (with_caller (Receive r (caller s)) s) in
      with_manager (work_completed i (manager s)) s
  | _ => s
  end.

(** The posted task of [WorkManager::Cancel].
    [api/actions/work_manager.cpp:97-119 Cancel] *)
Definition run_cancel (s : system) : system :=
  let m := manager s in
  let cancel ws i := alter Cancel i ws in
  let s := with_cancel_ran true (with_dropped (dropped s ++ (fst <$> work_queue_ m)) s) in
  let s := with_works (foldl cancel (works s) ((fst <$> work_queue_ m) ++ in_progress_list_ m)) s in
  with_manager (with_in_progress_list_ [] (with_work_queue_ [] m)) s.

Inductive input :=
  | StartCaller
  | CancelCaller
  | RunTask (k : nat)              (** the [k]-th posted task *)
  | AnswerWork (i : nat) (a : A).  (** an answer to a call of a piece of work *)

Definition system_step (x : input) (s : system) : option system :=
  match x with
  | StartCaller =>
      match place s with CallerNotStarted => Some (ResumeCaller s) | _ => None end
  | CancelCaller =>
      Some (with_manager (CancelWork (manager s)) (with_caller (SetCancelled (caller s)) s))
  | RunTask k =>
      t ← io_service_ (manager s) !! k;
      let s := with_manager (with_io_service_ (delete k (io_service_ (manager s)))
                              (manager s)) s in
      match t with
      | StartTask i => w ← works s !! i; Some (work_step i (Start w) s)
      | CancelTask => Some (run_cancel s)
      end
  | AnswerWork i a =>
      w ← works s !! i;
      w' ← Answer a w;
      Some (work_step i w' s)
  end.

Inductive reachable (max_work : Z) (p : P) : system -> Prop :=
  | reachable_new : reachable max_work p (new_system max_work p)
  | reachable_step x s s' :
      reachable max_work p s -> system_step x s = Some s' -> reachable max_work p s'.

Fixpoint run_system (xs : list input) (s : system) : option system :=
  match xs with
  | [] => Some s
  | x :: xs => s' ← system_step x s; run_system xs s'
  end.

End System.
