(* ===== verification/WorkManagerProofs.v ===== *)
(** * The work manager: invariant

    A piece of work is idle (queued, posted or dropped), running, or ended.  The work that
    is [live], posted or running, is what the caller still has to hear of: it waits in
    [ExecuteWork] with one yield fewer than that. *)
From S2P Require Import Prelude Coroutine WorkManager.

Open Scope Z_scope.

(** ** The inner loop *)

Definition started (t : task) : option nat :=
  match t with StartTask i => Some i | CancelTask => None end.

Definition starts (m : WorkManager) : list nat := omap started (io_service_ m).

Lemma omap_started (l : list nat) : omap started (StartTask <$> l) = l.
Proof. induction l as [|i l IH]; [done|]. cbn. by rewrite <-IH at 2. Qed.

(** What a run of the inner loop did: [k] is what it started. *)
Record posted (m m' : WorkManager) (k : list (nat * bool)) : Prop := {
  po_queue : work_queue_ m = k ++ work_queue_ m';
  po_progress : in_progress_list_ m' = in_progress_list_ m ++ (fst <$> k);
  po_starts : starts m' = starts m ++ (fst <$> k);
  po_max : max_concurrent_work_ m' = max_concurrent_work_ m;
  po_full : work_queue_ m' = [] \/ has_room m' = false;
  po_room : Z.of_nat (length (in_progress_list_ m')) <= u64 (max_concurrent_work_ m) \/ k = [] }.

Lemma post_work_spec queue m yq m' yq' more :
  post_work queue m yq = (m', yq', more) ->
  exists k, posted (with_work_queue_ queue m) m' k /\ yq' = yq ++ (snd <$> k) /\
    more = negb (bool_decide (k = [])).
Proof.
  revert m yq m' yq' more. induction queue as [|[w y] queue IH]; intros m yq m' yq' more; cbn.
  - intros [= <- <- <-]. exists []. rewrite app_nil_r. split; [|done].
    split; cbn; rewrite ?app_nil_r; auto.
  - destruct (has_room m) eqn:Hroom.
    + destruct (post_work _ _ _) as [[m1 yq1] more1] eqn:Hp. intros [= <- <- <-].
      destruct (IH _ _ _ _ _ Hp) as (k & Hk & -> & _). exists ((w, y) :: k).
      split; [|by rewrite <-app_assoc]. destruct Hk as [Hq Hi Hs Hm Hf Hr]. cbn in *.
      split; cbn; try done.
      * by rewrite Hq.
      * by rewrite Hi, <-app_assoc.
      * rewrite Hs. unfold starts. cbn. rewrite omap_app. cbn. by rewrite <-app_assoc.
      * left. destruct Hr as [Hr|Hr]; [done|]. rewrite Hi, Hr, app_nil_r, length_app.
        unfold has_room in Hroom. simpl. lia.
    + intros [= <- <- <-]. exists []. rewrite app_nil_r. split; [|done].
      split; cbn; rewrite ?app_nil_r; auto.
Qed.

(** ** The invariant *)

Section Invariant.
Context {P W R Out A : Type} `{CallerOps P W R Out} `{CoroutineOps W A R}
  (ok : W -> Prop) (max_work : Z) `{!CoroutineLaws ok} `{!CallerLaws (P := P) (Out := Out) (A := A) ok}.
#[local] Abbreviation system := (system (P := P) (W := W) (Out := Out)).

Definition is_running (w : W) : bool := match Phase w with Running => true | _ => false end.

Definition idle (ws : list W) (i : nat) : Prop := exists w, ws !! i = Some w /\ Phase w = Idle.

Definition running (ws : list W) (i : nat) : Prop :=
  exists w, ws !! i = Some w /\ Phase w = Running.

Definition ended (ws : list W) (i : nat) : Prop :=
  exists w r, ws !! i = Some w /\ Phase w = Ended r.

Definition running_set (ws : list W) : gset nat :=
  list_to_set (filter (fun i => (is_running <$> ws !! i) = Some true) (seq 0 (length ws))).

Lemma elem_of_running_set ws i : i ∈ running_set ws <-> running ws i.
Proof.
  unfold running_set, running. rewrite elem_of_list_to_set, list_elem_of_filter, elem_of_seq.
  split.
  - intros [Hr _]. apply fmap_Some in Hr as (w & Hw & Hr). exists w. split; [done|].
    unfold is_running in Hr. by destruct (Phase w).
  - intros (w & Hw & Hr). split; [|apply lookup_lt_Some in Hw; lia].
    rewrite Hw. cbn. unfold is_running. by rewrite Hr.
Qed.

(** The work that will still call back. *)
Definition live (s : system) : gset nat :=
  list_to_set (starts (manager s)) ∪ running_set (works s).

Lemma elem_of_live s i : i ∈ live s <-> i ∈ starts (manager s) \/ running (works s) i.
Proof. unfold live. by rewrite elem_of_union, elem_of_list_to_set, elem_of_running_set. Qed.

Definition queued (s : system) : list nat := fst <$> work_queue_ (manager s).

(** [extra] is the work that has ended and is not removed from the list yet. *)
Record bookkeeping (s : system) (extra : list nat) : Prop := {
  bk_ok : Forall ok (works s);
  bk_new : NoDup (queued s ++ starts (manager s) ++ dropped s);
  bk_idle i : i ∈ queued s ++ starts (manager s) ++ dropped s <-> idle (works s) i;
  bk_yields : Forall (fun q => snd q = true) (work_queue_ (manager s));
  bk_nodup : NoDup (in_progress_list_ (manager s));
  bk_progress i : i ∈ in_progress_list_ (manager s) -> i ∈ live s \/ i ∈ extra;
  bk_extra i : i ∈ extra -> ended (works s) i;
  bk_room : Z.of_nat (length (in_progress_list_ (manager s)))
            <= u64 (max_concurrent_work_ (manager s));
  bk_max : max_concurrent_work_ (manager s) = max_work;
  bk_all i : cancel_ran s = false -> i ∈ live s -> i ∈ in_progress_list_ (manager s) }.

(** With room for three pieces of work the queue is only left over where a yield is. *)
Definition roomy (s : system) : Prop := 3 <= u64 (max_concurrent_work_ (manager s)).

Definition place_inv (s : system) : Prop :=
  match place s with
  | CallerNotStarted => works s = [] /\ outcomes s = []
  | InExecuteWork yq _ =>
      Forall (fun y => y = true) yq /\ S (length yq) = size (live s) /\ outcomes s = [] /\
      (roomy s -> queued s <> [] -> yq <> [])
  | CallerDone n =>
      live s = ∅ /\ length (outcomes s) = 1%nat /\ (roomy s -> (length (queued s) <= n)%nat)
  | CallerStuck => False
  end.

Definition system_inv (s : system) : Prop := bookkeeping s [] /\ place_inv s.

Lemma ended_not_idle ws i : ended ws i -> ~ idle ws i.
Proof. intros (w & r & Hw & Hp) (w' & Hw' & Hp'). congruence. Qed.

Lemma ended_not_running ws i : ended ws i -> ~ running ws i.
Proof. intros (w & r & Hw & Hp) (w' & Hw' & Hp'). congruence. Qed.

Lemma starts_idle s extra i : bookkeeping s extra -> i ∈ starts (manager s) -> idle (works s) i.
Proof. intros Hb Hi. apply (bk_idle _ _ Hb). rewrite !elem_of_app. auto. Qed.

Lemma ended_not_live s extra i : bookkeeping s extra -> ended (works s) i -> i ∉ live s.
Proof.
  intros Hb He [Hs|Hr]%elem_of_live.
  - by eapply ended_not_idle, starts_idle.
  - by eapply ended_not_running.
Qed.

Lemma progress_bound s extra : bookkeeping s extra ->
  (length (in_progress_list_ (manager s)) <= size (live s) + length extra)%nat.
Proof.
  intros Hb. change (size (live s)) with (length (elements (live s))). rewrite <-length_app.
  apply submseteq_length, NoDup_submseteq; [apply Hb|].
  intros i Hi. rewrite elem_of_app, elem_of_elements. by apply Hb.
Qed.

(** What the loop of [ExecuteWork] leaves. *)
Definition executed (s s' : system) (extra : list nat) (after : progress) : Prop :=
  bookkeeping s' extra /\
  match after with
  | Yielded yq _ =>
      Forall (fun y => y = true) yq /\ S (length yq) = size (live s') /\
      (roomy s' -> queued s' <> [] -> yq <> [])
  | Returned => live s' = ∅ /\ (roomy s' -> queued s' = [])
  end.

Lemma posted_live s m k : posted (manager s) m k ->
  live (with_manager m s) = live s ∪ list_to_set (fst <$> k).
Proof.
  intros Hp. apply set_eq. intros i. unfold live. cbn.
  rewrite (po_starts _ _ _ Hp), list_to_set_app. set_solver.
Qed.

Lemma posted_bookkeeping s extra m k :
  bookkeeping s extra -> posted (manager s) m k -> bookkeeping (with_manager m s) extra.
Proof.
  intros [Hok Hnew Hidle Hy Hnd Hpr Hex Hroom Hmw Hall] Hp.
  pose proof (posted_live s m k Hp) as Hlive. destruct Hp as [Hq Hi Hs Hm Hf Hr].
  assert (queued (with_manager m s) ++ starts m ++ dropped s ≡ₚ
          queued s ++ starts (manager s) ++ dropped s) as Hperm.
  { unfold queued. cbn. rewrite Hq, Hs, fmap_app. solve_Permutation. }
  assert (forall i, i ∈ fst <$> k -> idle (works s) i) as Hk.
  { intros i Hik. apply Hidle. unfold queued. rewrite Hq, fmap_app. set_solver. }
  split; try done.
  - cbn. by rewrite Hperm.
  - intros i. cbn. by rewrite Hperm.
  - cbn. rewrite Hq in Hy. apply Forall_app in Hy as [_ Hy]. done.
  - cbn. rewrite Hi. apply NoDup_app. split_and!; [done| |].
    + intros i Hpi Hki.
      destruct (Hpr i Hpi) as [Hl|He]; [|by eapply ended_not_idle; eauto].
      apply elem_of_live in Hl as [Hl|(w & Hw & Hrun)].
      * unfold queued in Hnew. rewrite Hq, fmap_app in Hnew.
        apply NoDup_app in Hnew as (_ & Hd & _). apply (Hd i); set_solver.
      * destruct (Hk i Hki) as (w' & Hw' & Hidl). congruence.
    + unfold queued in Hnew. rewrite Hq, fmap_app in Hnew.
      by apply NoDup_app in Hnew as ([? _]%NoDup_app & _).
  - intros i. rewrite Hlive. cbn. rewrite Hi. intros [Hpi|Hki]%elem_of_app; [|set_solver].
    destruct (Hpr i Hpi); set_solver.
  - cbn. rewrite Hm. destruct Hr as [Hr| ->]; [done|]. cbn in Hi. rewrite app_nil_r in Hi.
    by rewrite Hi.
  - cbn. by rewrite Hm.
  - intros i Hc. rewrite Hlive. cbn. rewrite Hi. intros [Hl|Hl]%elem_of_union; set_solver.
Qed.

Lemma posted_size s extra m k : bookkeeping s extra -> posted (manager s) m k ->
  size (live (with_manager m s)) = (size (live s) + length k)%nat.
Proof.
  intros Hb Hp. rewrite (posted_live s m k Hp).
  assert (NoDup (fst <$> k) /\ forall i, i ∈ fst <$> k -> i ∉ live s) as [Hnd Hdis].
  { pose proof (bk_new _ _ Hb) as Hnew. unfold queued in Hnew.
    rewrite (po_queue _ _ _ Hp), fmap_app in Hnew.
    apply NoDup_app in Hnew as ([Hnk _]%NoDup_app & Hd & _). split; [done|].
    intros i Hik [Hl|(w & Hw & Hrun)]%elem_of_live.
    - apply (Hd i); set_solver.
    - destruct (proj1 (bk_idle _ _ Hb i)) as (w' & Hw' & Hidl); [|congruence].
      unfold queued. rewrite (po_queue _ _ _ Hp), fmap_app. set_solver. }
  rewrite size_union by set_solver. rewrite size_list_to_set by done. by rewrite length_fmap.
Qed.

(** Where the queue is left over there was no room. *)
Lemma posted_room s extra m k : bookkeeping (with_manager m s) extra ->
  (length extra <= 1)%nat -> posted (manager s) m k -> roomy (with_manager m s) ->
  work_queue_ m <> [] -> (2 <= size (live (with_manager m s)))%nat.
Proof.
  intros Hb Hex Hp Hroomy Hq. pose proof (progress_bound _ _ Hb) as Hpb.
  destruct (po_full _ _ _ Hp) as [?|Hr]; [done|]. unfold has_room, roomy in *. cbn in *. lia.
Qed.

Lemma executed_round s extra yq m k :
  bookkeeping s extra -> (length extra <= 1)%nat ->
  Forall (fun y => y = true) yq -> length yq = size (live s) -> posted (manager s) m k ->
  match yq ++ (snd <$> k) with
  | [] => executed s (with_manager m s) extra Returned
  | y :: yq' => y = true /\ forall more, executed s (with_manager m s) extra (Yielded yq' more)
  end.
Proof.
  intros Hb Hex Hyq Hlen Hpo.
  pose proof (posted_bookkeeping s extra m k Hb Hpo) as Hb1.
  pose proof (posted_size s extra m k Hb Hpo) as Hsz.
  pose proof (posted_room s extra m k Hb1 Hex Hpo) as Hroom.
  assert (Forall (fun y => y = true) (yq ++ (snd <$> k))) as Hyk.
  { apply Forall_app. split; [done|]. apply Forall_fmap.
    pose proof (bk_yields _ _ Hb) as Hy. rewrite (po_queue _ _ _ Hpo) in Hy.
    by apply Forall_app in Hy as [Hy _]. }
  assert (length (yq ++ (snd <$> k)) = size (live (with_manager m s))) as Hl1
    by (rewrite length_app, length_fmap; lia).
  assert (forall l : list nat, queued (with_manager m s) <> l ->
    l = [] -> work_queue_ m <> []) as Hqueue.
  { intros l Hl -> Hq. apply Hl. unfold queued. cbn. by rewrite Hq. }
  destruct (yq ++ (snd <$> k)) as [|y yq'] eqn:Hy; simpl in Hl1.
  - split; [done|]. split; [by apply leibniz_equiv, size_empty_iff|].
    intros Hr. destruct (decide (queued (with_manager m s) = [])) as [?|Hq]; [done|].
    specialize (Hroom Hr (Hqueue _ Hq eq_refl)). lia.
  - apply Forall_cons in Hyk as [-> Hyk]. split; [done|]. intros more. split; [done|].
    split_and!; [done|done|]. intros Hr Hq. specialize (Hroom Hr (Hqueue _ Hq eq_refl)).
    destruct yq'; [simpl in Hl1; lia|done].
Qed.

Lemma execute_loop_executed fuel s extra yq m after :
  bookkeeping s extra -> (length extra <= 1)%nat ->
  Forall (fun y => y = true) yq -> length yq = size (live s) ->
  execute_loop fuel (manager s) yq = (m, after) ->
  executed s (with_manager m s) extra after.
Proof.
  intros Hb Hex Hyq Hlen. destruct fuel as [|fuel]; cbn;
    destruct (post_work _ _ _) as [[m1 yq1] more] eqn:Hp;
    apply post_work_spec in Hp as (k & Hk & -> & ->);
    (assert (posted (manager s) m1 k) as Hpo by by destruct Hk; split);
    pose proof (executed_round s extra yq m1 k Hb Hex Hyq Hlen Hpo) as Hround;
    destruct (yq ++ (snd <$> k)) as [|y yq'].
  - by intros [= <- <-].
  - destruct Hround as [-> Hround]. by intros [= <- <-].
  - by intros [= <- <-].
  - destruct Hround as [-> Hround]. by intros [= <- <-].
Qed.

Lemma continue_work_executed s extra yq more m after :
  bookkeeping s extra -> (length extra <= 1)%nat ->
  Forall (fun y => y = true) yq -> length yq = size (live s) ->
  (roomy s -> queued s <> [] -> yq <> []) ->
  continue_work yq more (manager s) = (m, after) ->
  executed s (with_manager m s) extra after.
Proof.
  intros Hb Hex Hyq Hlen Hq. unfold continue_work.
  destruct (bool_decide (yq = []) && negb more) eqn:He; [|by apply execute_loop_executed].
  intros [= <- <-]. apply andb_true_iff in He as [Hy _]. apply bool_decide_eq_true in Hy as ->.
  replace (with_manager (manager s) s) with s by by destruct s. split; [done|].
  split; [by apply leibniz_equiv, size_empty_iff|].
  intros Hr. destruct (decide (queued s = [])) as [?|Hne]; [done|]. by destruct (Hq Hr Hne).
Qed.

(** ** The body of the caller *)

Lemma bookkeeping_ext s s' extra :
  manager s' = manager s -> works s' = works s -> dropped s' = dropped s ->
  cancel_ran s' = cancel_ran s -> bookkeeping s extra -> bookkeeping s' extra.
Proof.
  intros Hm Hw Hd Hc [? Hn Hi ? ? Hp He ? ? Hall].
  assert (live s' = live s) as Hl by (unfold live; by rewrite Hm, Hw).
  unfold queued in *.
  split; unfold queued; by rewrite ?Hm, ?Hw, ?Hd, ?Hc, ?Hl.
Qed.

Lemma live_ext s s' : manager s' = manager s -> works s' = works s -> live s' = live s.
Proof. intros Hm Hw. unfold live. by rewrite Hm, Hw. Qed.

Lemma idle_lt ws i : idle ws i -> (i < length ws)%nat.
Proof. intros (w & Hw & _). by apply lookup_lt_Some in Hw. Qed.

Lemma idle_snoc ws w i : Phase w = Idle -> idle (ws ++ [w]) i <-> idle ws i \/ i = length ws.
Proof.
  intros Hp. unfold idle. split.
  - intros (w' & Hw & Hp'). apply lookup_app_Some in Hw as [Hw|[Hl Hw]]; [eauto|].
    apply list_lookup_singleton_Some in Hw as [Hi _]. right. lia.
  - intros [(w' & Hw & Hp')| ->].
    + exists w'. by rewrite lookup_app_l by by eapply lookup_lt_Some.
    + exists w. by rewrite lookup_app_r, Nat.sub_diag by done.
Qed.

Lemma running_snoc ws w i : Phase w = Idle -> running (ws ++ [w]) i <-> running ws i.
Proof.
  intros Hp. unfold running. split.
  - intros (w' & Hw & Hp'). apply lookup_app_Some in Hw as [Hw|[Hl Hw]]; [eauto|].
    apply list_lookup_singleton_Some in Hw as [_ <-]. congruence.
  - intros (w' & Hw & Hp'). exists w'. by rewrite lookup_app_l by by eapply lookup_lt_Some.
Qed.

Lemma run_action_inv a s extra :
  (forall w, a = Queue w -> ok w /\ Phase w = Idle) -> bookkeeping s extra ->
  let s' := run_action a s in
  bookkeeping s' extra /\ live s' = live s /\
  queued s' = queued s ++ match a with Queue _ => [length (works s)] | CancelManager => [] end /\
  max_concurrent_work_ (manager s') = max_concurrent_work_ (manager s).
Proof.
  intros Hw Hb s'. destruct a as [w|]; subst s'; cbn.
  - destruct (Hw w eq_refl) as [Hok Hidle].
    assert (live (with_manager (QueueWork (length (works s)) true (manager s))
                    (with_works (works s ++ [w]) s)) = live s) as Hlive.
    { apply set_eq. intros i. rewrite !elem_of_live. cbn. unfold starts. cbn.
      by rewrite running_snoc. }
    split_and!; [|done|by unfold queued; cbn; rewrite fmap_app|done].
    destruct Hb as [Hoks Hnew Hi Hy Hnd Hpr Hex Hroom Hmw Hall].
    assert (forall l : list nat, (queued s ++ [length (works s)]) ++ l ≡ₚ
              length (works s) :: queued s ++ l) as Hperm.
    { intros l. rewrite <-app_assoc. cbn. by rewrite Permutation_middle. }
    split; try done; unfold queued; cbn; rewrite ?fmap_app; cbn.
    + by apply Forall_app_2, Forall_singleton.
    + unfold starts in *. cbn. rewrite Hperm. apply NoDup_cons. split; [|done].
      intros Hin. apply Hi, idle_lt in Hin. lia.
    + intros i. unfold starts in *. cbn. rewrite Hperm, elem_of_cons, Hi, idle_snoc by done.
      tauto.
    + by apply Forall_app_2, Forall_singleton.
    + intros i Hin. rewrite Hlive. by apply Hpr.
    + intros i Hin. destruct (Hex i Hin) as (w' & r & Hw' & Hp'). exists w', r.
      by rewrite lookup_app_l by by eapply lookup_lt_Some.
    + intros i Hc. rewrite Hlive. by apply Hall.
  - assert (starts (CancelWork (manager s)) = starts (manager s)) as Hst.
    { unfold starts. cbn. by rewrite omap_app, app_nil_r. }
    assert (live (with_manager (CancelWork (manager s)) s) = live s) as Hlive.
    { unfold live. cbn [manager with_manager works]. by rewrite Hst. }
    split_and!; [|done|by rewrite app_nil_r|done].
    destruct Hb as [? Hn Hi ? ? Hp ? ? ? Hall].
    split; unfold queued in *; cbn [manager with_manager works dropped];
      by rewrite ?Hst, ?Hlive.
Qed.

Lemma run_actions_inv acts s extra :
  (forall w, Queue w ∈ acts -> ok w /\ Phase w = Idle) -> bookkeeping s extra ->
  let s' := run_actions acts s in
  bookkeeping s' extra /\ live s' = live s /\
  length (queued s') = (length (queued s) + queued_by acts)%nat /\
  max_concurrent_work_ (manager s') = max_concurrent_work_ (manager s) /\
  outcomes s' = outcomes s /\ caller s' = caller s.
Proof.
  revert s. induction acts as [|a acts IH]; intros s Hw Hb; cbn.
  - split_and!; try done; unfold queued_by, new_work; cbn; lia.
  - destruct (run_action_inv a s extra) as (Hb1 & Hl1 & Hq1 & Hm1); [|done|].
    { intros w ->. apply Hw. left. }
    destruct (IH (run_action a s)) as (Hb2 & Hl2 & Hq2 & Hm2 & Ho2 & Hc2); [|done|].
    { intros w Hin. apply Hw. by right. }
    unfold run_actions in *. split_and!; [done|congruence| |congruence| |].
    + rewrite Hq2, Hq1, length_app. unfold queued_by, new_work. destruct a; cbn; lia.
    + rewrite Ho2. by destruct a.
    + rewrite Hc2. by destruct a.
Qed.

(** Between two calls of [ExecuteWork] the caller has nothing to wait for. *)
Record ready (s : system) (extra : list nat) : Prop := {
  rd_book : bookkeeping s extra;
  rd_extra : (length extra <= 1)%nat;
  rd_live : live s = ∅;
  rd_outcomes : outcomes s = [];
  rd_queue : roomy s -> queued s = [] }.

(** The caller in [ExecuteWork], without the work that is calling back. *)
Record waiting (s : system) (extra : list nat) (yq : list bool) (more : bool) : Prop := {
  wt_book : bookkeeping s extra;
  wt_extra : (length extra <= 1)%nat;
  wt_place : place s = InExecuteWork yq more;
  wt_yields : Forall (fun y => y = true) yq;
  wt_length : length yq = size (live s);
  wt_outcomes : outcomes s = [];
  wt_queue : roomy s -> queued s <> [] -> yq <> [] }.

(** A turn of the body up to what its [ExecuteWork] leaves. *)
Lemma body_turn s extra p acts m after :
  ready s extra -> Advance (caller s) = (p, acts, true) ->
  ExecuteWork (manager (run_actions acts (with_caller p s))) = (m, after) ->
  let s' := with_manager m (run_actions acts (with_caller p s)) in
  executed (run_actions acts (with_caller p s)) s' extra after /\ outcomes s' = [] /\
  caller s' = p.
Proof.
  intros [Hb Hex Hl Ho Hq] Hadv He s'.
  destruct (run_actions_inv acts (with_caller p s) extra)
    as (Hb1 & Hl1 & Hq1 & Hm1 & Ho1 & Hc1);
    [intros w; by apply (advance_fresh _ _ _ _ _ Hadv)|by apply (bookkeeping_ext s)|].
  split_and!; [|by rewrite <-Ho|done].
  apply (execute_loop_executed (execute_fuel (manager (run_actions acts (with_caller p s))) [])
    _ extra [] m after Hb1 Hex (Forall_nil_2 _)); [|exact He].
  rewrite Hl1. change (live (with_caller p s)) with (live s). by rewrite Hl.
Qed.

Lemma executed_ready s s' extra :
  executed s s' extra Returned -> (length extra <= 1)%nat -> outcomes s' = [] -> ready s' extra.
Proof. intros (Hb & Hl & Hq) Hex Ho. by split. Qed.

Lemma run_body_inv fuel s extra :
  ready s extra -> (Rank (caller s) <= fuel)%nat ->
  let s' := run_body fuel s in bookkeeping s' extra /\ place_inv s'.
Proof.
  revert s. induction fuel as [|fuel IH]; intros s Hr Hrank; cbn;
    destruct (Advance (caller s)) as [[p acts] ex] eqn:Hadv.
  1: destruct ex; [pose proof (advance_rank _ _ _ Hadv); lia|].
  2: destruct ex.
  2: { destruct (ExecuteWork _) as [m after] eqn:He.
    destruct (body_turn s extra p acts m after Hr Hadv He) as (Hx & Ho & Hc).
    destruct after as [yq more|].
    - destruct Hx as (Hb2 & Hy & Hlen & Hqe). split; [by eapply bookkeeping_ext, Hb2|].
      by split_and!.
    - apply IH; [by eapply executed_ready; [exact Hx|apply Hr|]|].
      rewrite Hc. pose proof (advance_rank _ _ _ Hadv). lia. }
  all: destruct Hr as [Hb Hex Hl Ho Hq];
    (destruct (run_actions_inv acts (with_caller p s) extra)
      as (Hb1 & Hl1 & Hq1 & Hm1 & Ho1 & Hc1);
      [intros w; by apply (advance_fresh _ _ _ _ _ Hadv)|by apply (bookkeeping_ext s)|]).
  all: split; [by eapply bookkeeping_ext, Hb1|]; cbn; rewrite Ho1; split_and!.
  1, 4: by change (live (run_actions acts (with_caller p s)) = ∅); rewrite Hl1.
  1, 3: by cbn; rewrite Ho.
  all: intros Hr; unfold roomy in *; cbn in Hr; rewrite Hm1 in Hr;
    change (length (queued (run_actions acts (with_caller p s))) <= queued_by acts)%nat;
    rewrite Hq1; change (queued (with_caller p s)) with (queued s); by rewrite Hq.
Qed.

(** ** A piece of work moves *)

Lemma idle_insert ws i w0 w j : ws !! i = Some w0 -> Phase w <> Idle ->
  idle (<[i := w]> ws) j <-> idle ws j /\ j <> i.
Proof.
  intros Hw Hp. unfold idle. destruct (decide (j = i)) as [->|Hne].
  - rewrite list_lookup_insert_eq by by eapply lookup_lt_Some. split; [|tauto].
    intros (w' & [= <-] & ?). done.
  - rewrite list_lookup_insert_ne by done. tauto.
Qed.

Lemma running_insert ws i w0 w j : ws !! i = Some w0 ->
  running (<[i := w]> ws) j <-> (j <> i /\ running ws j) \/ (j = i /\ Phase w = Running).
Proof.
  intros Hw. unfold running. destruct (decide (j = i)) as [->|Hne].
  - rewrite list_lookup_insert_eq by by eapply lookup_lt_Some. split.
    + intros (w' & [= <-] & ?). auto.
    + intros [[? _]|[_ ?]]; [done|eauto].
  - rewrite list_lookup_insert_ne by done. tauto.
Qed.

(** Where a piece of work that moves was: posted, or running. *)
Definition moves (m m' : WorkManager) (i : nat) (w0 : W) : Prop :=
  (starts m ≡ₚ i :: starts m' /\ Phase w0 = Idle) \/
  (starts m' = starts m /\ Phase w0 = Running).

Lemma moved_idle s m' i w0 j : bookkeeping s [] -> works s !! i = Some w0 ->
  moves (manager s) m' i w0 ->
  j ∈ queued s ++ starts m' ++ dropped s <->
  j ∈ queued s ++ starts (manager s) ++ dropped s /\ j <> i.
Proof.
  intros Hb Hw [[Hs Hp]|[Hs Hp]].
  - pose proof (bk_new _ _ Hb) as Hnew.
    assert (queued s ++ starts (manager s) ++ dropped s ≡ₚ
            i :: queued s ++ starts m' ++ dropped s) as Hperm.
    { rewrite Hs. cbn. by rewrite <-Permutation_middle. }
    rewrite Hperm in *. apply NoDup_cons in Hnew as [Hi _]. rewrite elem_of_cons.
    destruct (decide (j = i)) as [->|]; tauto.
  - rewrite Hs. split; [|tauto]. intros Hj. split; [done|]. intros ->.
    apply (bk_idle _ _ Hb) in Hj as (w & Hw' & Hp'). congruence.
Qed.

Lemma moved_nodup s m' i w0 : bookkeeping s [] -> works s !! i = Some w0 ->
  moves (manager s) m' i w0 -> NoDup (queued s ++ starts m' ++ dropped s).
Proof.
  intros Hb Hw [[Hs Hp]|[Hs Hp]]; pose proof (bk_new _ _ Hb) as Hnew; [|by rewrite Hs].
  assert (queued s ++ starts (manager s) ++ dropped s ≡ₚ
          i :: queued s ++ starts m' ++ dropped s) as Hperm.
  { rewrite Hs. cbn. by rewrite <-Permutation_middle. }
  rewrite Hperm in Hnew. by apply NoDup_cons in Hnew as [_ Hnew].
Qed.

Lemma moved_live s m' i w0 w j : bookkeeping s [] -> works s !! i = Some w0 ->
  moves (manager s) m' i w0 ->
  let s' := with_works (<[i := w]> (works s)) (with_manager m' s) in
  i ∈ live s /\
  (j ∈ live s' <-> j ∈ live s /\ (j = i -> Phase w = Running)).
Proof.
  intros Hb Hw Hmv s'.
  assert (i ∈ live s) as Hi.
  { apply elem_of_live. destruct Hmv as [[Hs Hp]|[Hs Hp]].
    - left. rewrite Hs. left.
    - right. by exists w0. }
  split; [done|]. rewrite !elem_of_live. unfold s'. cbn.
  rewrite (running_insert _ _ w0) by done.
  assert (j <> i -> j ∈ starts m' <-> j ∈ starts (manager s)) as Hst.
  { intros Hne. destruct Hmv as [[Hs _]|[Hs _]]; rewrite Hs; [|done].
    rewrite elem_of_cons. tauto. }
  destruct (decide (j = i)) as [->|Hne]; [|rewrite Hst by done; tauto].
  rewrite <-elem_of_live.
  assert (i ∉ starts m') as Hni.
  { intros Hin. pose proof (moved_idle s m' i w0 i Hb Hw Hmv) as Hid.
    rewrite !elem_of_app in Hid. tauto. }
  tauto.
Qed.

(** The work that a step has ended. *)
Definition just_ended (i : nat) (w : W) : list nat :=
  match Phase w with Ended _ => [i] | _ => [] end.

Lemma moved_bookkeeping s m' i w0 w :
  bookkeeping s [] -> works s !! i = Some w0 -> moves (manager s) m' i w0 ->
  work_queue_ m' = work_queue_ (manager s) ->
  in_progress_list_ m' = in_progress_list_ (manager s) ->
  max_concurrent_work_ m' = max_concurrent_work_ (manager s) ->
  ok w -> Phase w <> Idle ->
  let s' := with_works (<[i := w]> (works s)) (with_manager m' s) in
  bookkeeping s' (just_ended i w) /\
  live s' = match Phase w with Running => live s | _ => live s ∖ {[i]} end.
Proof.
  intros Hb Hw Hmv Hq Hpr Hmax Hok Hph s'.
  pose proof (fun j => moved_live s m' i w0 w j Hb Hw Hmv) as Hlive. fold s' in Hlive.
  split.
  - split; unfold queued; subst s'; cbn; rewrite ?Hq, ?Hpr, ?Hmax; try apply Hb.
    + by apply Forall_insert; [apply Hb|].
    + by eapply moved_nodup.
    + intros j. rewrite (idle_insert _ _ w0), <-(bk_idle _ _ Hb) by done.
      by apply (moved_idle s m' i w0).
    + intros j Hj. destruct (Hlive j) as [_ ->]. unfold just_ended.
      destruct (bk_progress _ _ Hb j Hj) as [Hl|?]; [|set_solver].
      destruct (decide (j = i)) as [->|]; [|by left].
      destruct (Phase w) eqn:?; [done|by left|right; left].
    + intros j. unfold just_ended. destruct (Phase w) as [| |r] eqn:Hp; [set_solver..|].
      intros ->%list_elem_of_singleton. exists w, r.
      by rewrite list_lookup_insert_eq by by eapply lookup_lt_Some.
    + intros j Hc Hj. destruct (Hlive j) as [_ Hj']. apply Hj' in Hj as [Hj _].
      by apply (bk_all _ _ Hb).
  - apply set_eq. intros j. destruct (Hlive j) as [Hi ->].
    destruct (Phase w) eqn:Hp; [done|tauto|].
    rewrite elem_of_difference, elem_of_singleton. naive_solver.
Qed.

(** ** Steps *)

Lemma resume_ready s extra yq more m :
  waiting s extra yq more -> continue_work yq more (manager s) = (m, Returned) ->
  ready (with_manager m s) extra.
Proof.
  intros [Hb Hex Hpl Hy Hlen Ho Hq] He. eapply executed_ready; [|done|done].
  by apply (continue_work_executed s extra yq more m Returned).
Qed.

Lemma resume_caller_inv s extra yq more :
  waiting s extra yq more -> let s' := ResumeCaller s in bookkeeping s' extra /\ place_inv s'.
Proof.
  intros Hwt. unfold ResumeCaller. rewrite (wt_place _ _ _ _ Hwt).
  destruct (continue_work yq more (manager s)) as [m after] eqn:He. destruct after as [yq' more'|].
  - destruct Hwt as [Hb Hex Hpl Hy Hlen Ho Hq].
    destruct (continue_work_executed s extra yq more m _ Hb Hex Hy Hlen Hq He) as [Hb1 Ha].
    split; [by apply (bookkeeping_ext (with_manager m s))|]. destruct Ha as (? & ? & ?).
    by split_and!.
  - apply run_body_inv; [|done]. by eapply resume_ready.
Qed.

Lemma work_completed_inv s i :
  bookkeeping s [i] -> place_inv s ->
  system_inv (with_manager (work_completed i (manager s)) s).
Proof.
  intros Hb Hp. split; [|exact Hp]. pose proof (fun j => bk_progress _ _ Hb j) as Hpr.
  split; cbn; try apply Hb.
  - apply NoDup_filter, Hb.
  - intros j [Hne Hj]%list_elem_of_filter. left.
    destruct (Hpr j Hj) as [?|?%list_elem_of_singleton]; done.
  - intros j Hj. by apply not_elem_of_nil in Hj.
  - etrans; [|apply Hb]. apply inj_le, length_filter.
  - intros j Hc Hj. apply list_elem_of_filter. split; [|by apply (bk_all _ _ Hb)].
    intros ->. eapply ended_not_live; [exact Hb|apply (bk_extra _ _ Hb); left|exact Hj].
Qed.

(** A piece of work that calls back finds the caller waiting for it. *)
Lemma work_ended_ready s m' i w0 w r :
  system_inv s -> works s !! i = Some w0 -> moves (manager s) m' i w0 ->
  work_queue_ m' = work_queue_ (manager s) ->
  in_progress_list_ m' = in_progress_list_ (manager s) ->
  max_concurrent_work_ m' = max_concurrent_work_ (manager s) ->
  ok w -> Phase w = Ended r ->
  let s' := with_caller (Receive r (caller s))
              (with_works (<[i := w]> (works s)) (with_manager m' s)) in
  exists yq more, waiting s' [i] yq more.
Proof.
  intros [Hb Hp] Hw Hmv Hq Hpr Hmax Hok Hph s'.
  destruct (moved_bookkeeping s m' i w0 w) as [Hb1 Hl1]; try done; [by rewrite Hph|].
  destruct (moved_live s m' i w0 w i Hb Hw Hmv) as [Hi _].
  unfold just_ended in Hb1. rewrite Hph in Hb1, Hl1.
  assert (exists yq more, place s = InExecuteWork yq more) as (yq & more & Hpl).
  { unfold place_inv in Hp. destruct (place s); [|by eauto|set_solver|done].
    destruct Hp as [Hws _]. by rewrite Hws in Hw. }
  unfold place_inv in Hp. rewrite Hpl in Hp. destruct Hp as (Hy & Hlen & Ho & Hqe).
  exists yq, more. split; try done.
  - by apply (bookkeeping_ext (with_works (<[i := w]> (works s)) (with_manager m' s))).
  - change (live s') with (live (with_works (<[i := w]> (works s)) (with_manager m' s))).
    rewrite Hl1, size_difference by set_solver. rewrite size_singleton. lia.
  - unfold roomy, queued, s'. cbn. by rewrite Hq, Hmax.
Qed.

Lemma work_step_inv s m' i w0 w :
  system_inv s -> works s !! i = Some w0 -> moves (manager s) m' i w0 ->
  work_queue_ m' = work_queue_ (manager s) ->
  in_progress_list_ m' = in_progress_list_ (manager s) ->
  max_concurrent_work_ m' = max_concurrent_work_ (manager s) ->
  ok w -> Phase w <> Idle -> system_inv (work_step i w (with_manager m' s)).
Proof.
  intros Hinv Hw Hmv Hq Hpr Hmax Hok Hph. pose proof Hinv as [Hb Hp].
  destruct (moved_bookkeeping s m' i w0 w) as [Hb1 Hl1]; try done.
  unfold work_step, just_ended in *. destruct (Phase w) as [| |r] eqn:Hpw; [done| |].
  - split; [done|]. unfold place_inv in *. cbn [place with_works with_manager].
    destruct (place s); cbn [works outcomes with_works with_manager]; try done.
    + destruct Hp as [Hws _]. by rewrite Hws in Hw.
    + unfold roomy, queued in *. cbn. by rewrite Hl1, Hq, Hmax.
    + unfold roomy, queued in *. cbn. by rewrite Hl1, Hq, Hmax.
  - destruct (work_ended_ready s m' i w0 w r) as (yq & more & Hwt); try done.
    by apply work_completed_inv; eapply resume_caller_inv.
Qed.

(** ** Cancellation *)

Lemma cancel_works_lookup (l : list nat) (ws : list W) i w' :
  foldl (fun ws i => alter Cancel i ws) ws l !! i = Some w' ->
  exists w, ws !! i = Some w /\ (ok w -> ok w' /\ Phase w' = Phase w).
Proof.
  revert ws. induction l as [|j l IH]; intros ws; cbn; [eauto|].
  intros Hw. destruct (IH _ Hw) as (w1 & Hw1 & Hp1).
  rewrite list_lookup_alter in Hw1. destruct (decide (j = i)) as [->|Hne]; [|eauto].
  apply fmap_Some in Hw1 as (w & Hw0 & ->). exists w. split; [done|].
  intros Hok. destruct (cancel_ok w Hok) as [Hok1 Hph1]. by destruct (Hp1 Hok1) as [? ->].
Qed.

Lemma cancel_works_length (l : list nat) (ws : list W) :
  length (foldl (fun ws i => alter Cancel i ws) ws l) = length ws.
Proof. revert ws. induction l as [|j l IH]; intros ws; cbn; [done|]. by rewrite IH, length_alter. Qed.

Lemma cancel_works_phase (l : list nat) (ws : list W) i : Forall ok ws ->
  (fun w => Phase w) <$> (foldl (fun ws i => alter Cancel i ws) ws l !! i) =
  (fun w => Phase w) <$> (ws !! i).
Proof.
  intros Hok. destruct (foldl _ ws l !! i) as [w'|] eqn:Hw'.
  - destruct (cancel_works_lookup l ws i w' Hw') as (w & Hw & Hp). rewrite Hw. cbn. f_equal.
    apply Hp. by eapply Forall_lookup_1.
  - apply lookup_ge_None in Hw'. rewrite cancel_works_length in Hw'.
    by apply lookup_ge_None in Hw' as ->.
Qed.

Lemma phase_idle ws ws' i :
  (fun w => Phase w) <$> (ws' !! i) = (fun w => Phase w) <$> (ws !! i) ->
  (idle ws' i <-> idle ws i) /\ (running ws' i <-> running ws i).
Proof.
  unfold idle, running. intros He.
  split; split; intros (w & Hw & Hp); rewrite Hw in He; cbn in He.
  all: destruct (_ !! i) as [w'|]; [|done]; injection He as He; exists w'; split; congruence.
Qed.

Lemma run_cancel_inv s : system_inv s -> system_inv (run_cancel s).
Proof.
  intros [Hb Hp].
  set (ws := foldl (fun ws i => alter Cancel i ws) (works s)
               ((fst <$> work_queue_ (manager s)) ++ in_progress_list_ (manager s))).
  assert (forall i, (idle ws i <-> idle (works s) i) /\ (running ws i <-> running (works s) i))
    as Hph by (intros i; apply phase_idle, cancel_works_phase, Hb).
  assert (live (run_cancel s) = live s) as Hl.
  { apply set_eq. intros i. rewrite !elem_of_live. cbn. fold ws. by rewrite (proj2 (Hph i)). }
  split.
  - split; unfold queued; cbn; fold ws; try apply Hb; try done.
    + apply Forall_lookup_2. intros i w' Hw'.
      destruct (cancel_works_lookup _ _ _ _ Hw') as (w & Hw & Hok).
      apply Hok. by eapply Forall_lookup_1; [apply Hb|].
    + pose proof (bk_new _ _ Hb) as Hnew. unfold queued in Hnew. revert Hnew.
      unfold starts. cbn. apply NoDup_Permutation_proper. solve_Permutation.
    + intros i. rewrite (proj1 (Hph i)), <-(bk_idle _ _ Hb). unfold queued, starts. cbn.
      rewrite !elem_of_app. tauto.
    + apply NoDup_nil_2.
    + intros i Hi. by apply not_elem_of_nil in Hi.
    + intros i Hi. by apply not_elem_of_nil in Hi.
    + apply u64_range.
  - unfold place_inv in *. rewrite Hl. cbn. destruct (place s); try done.
    + destruct Hp as [Hws Ho]. split; [|done]. apply nil_length_inv.
      by rewrite cancel_works_length, Hws.
    + destruct Hp as (? & ? & ? & _). by split_and!.
    + destruct Hp as (? & ? & _). split_and!; [done|done|lia].
Qed.

(** ** Inputs *)

Lemma starts_delete m k i : io_service_ m !! k = Some (StartTask i) ->
  starts m ≡ₚ i :: starts (with_io_service_ (delete k (io_service_ m)) m).
Proof.
  intros Hk. unfold starts. cbn. apply delete_Permutation in Hk. by rewrite Hk at 1.
Qed.

Lemma starts_cancel m k : io_service_ m !! k = Some CancelTask ->
  starts (with_io_service_ (delete k (io_service_ m)) m) = starts m.
Proof.
  intros Hk. unfold starts. cbn. rewrite <-(take_drop_middle _ _ _ Hk) at 2.
  rewrite delete_take_drop, !omap_app. done.
Qed.

Lemma manager_ext s m' :
  starts m' = starts (manager s) -> work_queue_ m' = work_queue_ (manager s) ->
  in_progress_list_ m' = in_progress_list_ (manager s) ->
  max_concurrent_work_ m' = max_concurrent_work_ (manager s) ->
  system_inv s -> system_inv (with_manager m' s).
Proof.
  intros Hs Hq Hi Hm [[? Hn Hid ? ? Hpr ? ? ? Hall] Hp].
  assert (live (with_manager m' s) = live s) as Hl by (unfold live; cbn; by rewrite Hs).
  split.
  - unfold queued in *. split; unfold queued; cbn; rewrite ?Hs, ?Hq, ?Hi, ?Hm; try done;
      intros i; rewrite Hl; (by apply Hpr) || (by apply Hall).
  - unfold place_inv in *. rewrite Hl. cbn. unfold roomy, queued in *. cbn.
    by rewrite Hq, Hm.
Qed.

Lemma new_system_inv p : system_inv (new_system max_work p).
Proof.
  split; [|done]. split; cbn; try done; try apply NoDup_nil_2; try apply u64_range.
  - intros i. split; [by intros Hi%not_elem_of_nil|]. intros (w & Hw & _). done.
  - intros i Hi. by apply not_elem_of_nil in Hi.
  - intros i Hi. by apply not_elem_of_nil in Hi.
Qed.

Lemma start_ready s : system_inv s -> place s = CallerNotStarted -> ready s [].
Proof.
  intros [Hb Hp] Hpl. unfold place_inv in Hp. rewrite Hpl in Hp. destruct Hp as [Hws Ho].
  assert (forall i, ~ idle (works s) i) as Hno by (intros i (w & Hw & _); by rewrite Hws in Hw).
  assert (forall i, i ∉ queued s ++ starts (manager s)) as Hnil.
  { intros i Hin. apply (Hno i), (bk_idle _ _ Hb). rewrite app_assoc, elem_of_app. auto. }
  assert (queued s ++ starts (manager s) = []) as [Hq Hst]%app_nil
    by by apply elem_of_nil_inv.
  split; [done|simpl; lia| |done|done].
  apply set_eq. intros i. rewrite elem_of_live, Hst. split; [|set_solver].
  intros [?%not_elem_of_nil|(w & Hw & _)]; [done|]. by rewrite Hws in Hw.
Qed.

Lemma system_step_inv x s s' : system_inv s -> system_step x s = Some s' -> system_inv s'.
Proof.
  intros Hi. destruct x as [| |k|i a]; cbn.
  - destruct (place s) eqn:Hpl; try done. intros [= <-].
    unfold ResumeCaller. rewrite Hpl. apply run_body_inv; [by apply start_ready|done].
  - intros [= <-]. apply (manager_ext (with_caller (SetCancelled (caller s)) s)); try done.
    + unfold starts. cbn. by rewrite omap_app, app_nil_r.
    + destruct Hi as [Hb Hp]. split; [by apply (bookkeeping_ext s)|exact Hp].
  - destruct (io_service_ (manager s) !! k) as [t|] eqn:Hk; [|done]. cbn.
    destruct t as [i|].
    + destruct (works s !! i) as [w|] eqn:Hw; [|done]. cbn. intros [= <-].
      pose proof (starts_delete _ _ _ Hk) as Hs.
      assert (Phase w = Idle) as Hph.
      { destruct (starts_idle s [] i) as (w' & Hw' & Hp'); [apply Hi| |congruence].
        rewrite Hs. left. }
      assert (ok w) as Hok by (eapply Forall_lookup_1; [apply (bk_ok _ _ (proj1 Hi))|done]).
      destruct (start_ok w Hok Hph) as [Hok' Hph'].
      eapply work_step_inv; try done. by left.
    + intros [= <-]. apply run_cancel_inv, manager_ext; try done. by apply starts_cancel.
  - destruct (works s !! i) as [w|] eqn:Hw; [|done]. cbn.
    destruct (Answer a w) as [w'|] eqn:Ha; [|done]. cbn. intros [= <-].
    assert (ok w) as Hok by (eapply Forall_lookup_1; [apply (bk_ok _ _ (proj1 Hi))|done]).
    destruct (answer_ok a w w' Hok Ha) as (Hok' & Hr & Hph').
    replace s with (with_manager (manager s) s) by by destruct s.
    eapply work_step_inv; try done. by right.
Qed.

Lemma reachable_system p s : reachable max_work p s -> system_inv s.
Proof. induction 1; [apply new_system_inv|by eapply system_step_inv]. Qed.

(** Where nothing is live, work has ended or was never started. *)
Lemma done_work_ended s extra i w : bookkeeping s extra -> live s = ∅ -> works s !! i = Some w ->
  (exists r, Phase w = Ended r) \/ i ∈ queued s \/ i ∈ dropped s.
Proof.
  intros Hb Hl Hw. destruct (Phase w) as [| |r] eqn:Hph; [|exfalso|by eauto].
  - right. assert (idle (works s) i) as Hid by by exists w.
    apply (bk_idle _ _ Hb) in Hid. rewrite !elem_of_app in Hid.
    destruct Hid as [?|[Hs|?]]; [by auto|exfalso|by auto].
    assert (i ∈ live s) as Hin by (apply elem_of_live; auto). rewrite Hl in Hin. set_solver.
  - assert (i ∈ live s) as Hin by (apply elem_of_live; right; by exists w).
    rewrite Hl in Hin. set_solver.
Qed.

End Invariant.

(** ** Relations between a caller and its work

    In a run that nobody cancels, and whose answers are allowed, a relation [Q] of the caller
    and its work is kept if each turn of the body, each move of a piece of work and each
    result that the caller receives keeps it; [E] holds where the body ends.  With room for
    three pieces of work a turn of the body finds all the work ended. *)
Section Relation.
Context {P W R Out A : Type} `{CallerOps P W R Out} `{CoroutineOps W A R}.
#[local] Abbreviation system := (system (P := P) (W := W) (Out := Out)).

Definition undisturbed (allowed : W -> A -> Prop) (x : input) (s : system) : Prop :=
  match x with
  | CancelCaller => False
  | AnswerWork i a => forall w, works s !! i = Some w -> allowed w a
  | StartCaller | RunTask _ => True
  end.

Inductive driven (allowed : W -> A -> Prop) (max_work : Z) (p : P) : system -> Prop :=
  | driven_new : driven allowed max_work p (new_system max_work p)
  | driven_step x s s' :
      driven allowed max_work p s -> undisturbed allowed x s -> system_step x s = Some s' ->
      driven allowed max_work p s'.

Lemma driven_reachable allowed max_work p s :
  driven allowed max_work p s -> reachable max_work p s.
Proof. induction 1; [apply reachable_new|by eapply reachable_step]. Qed.

Definition all_ended (ws : list W) : Prop := Forall (fun w => exists r, Phase w = Ended r) ws.

Context (allowed : W -> A -> Prop) (max_work : Z) (Q : P -> list W -> Prop) (E : P -> nat -> Prop).
Context (Q_advance : forall p ws p' acts ex, Q p ws -> (3 <= u64 max_work -> all_ended ws) ->
           Advance p = (p', acts, ex) ->
           (CancelManager ∉ acts) /\ Q p' (ws ++ new_work acts) /\
           (ex = false -> E p' (queued_by acts))).
Context (Q_move : forall p ws i w0 w, Q p ws -> ws !! i = Some w0 ->
           (Phase w0 = Idle /\ w = Start w0) \/ (exists a, allowed w0 a /\ Answer a w0 = Some w) ->
           Q match Phase w with Ended r => Receive r p | _ => p end (<[i := w]> ws)).
Context (ok : W -> Prop) `{!CoroutineLaws ok} `{!CallerLaws (P := P) (Out := Out) (A := A) ok}.

Definition no_cancel (m : WorkManager) : Prop := CancelTask ∉ io_service_ m.

(** What an undisturbed run keeps. *)
Record related (s : system) : Prop := {
  rel_q : Q (caller s) (works s);
  rel_cancel : no_cancel (manager s);
  rel_dropped : dropped s = [] /\ cancel_ran s = false;
  rel_end n : place s = CallerDone n -> outcomes s = [Outcome (caller s)] /\ E (caller s) n }.

Lemma post_work_no_cancel queue m yq m' yq' more :
  post_work queue m yq = (m', yq', more) -> no_cancel m -> no_cancel m'.
Proof.
  revert m yq m' yq' more. induction queue as [|[w y] queue IH]; intros m yq m' yq' more; cbn.
  - by intros [= <- <- <-].
  - destruct (has_room m); [|by intros [= <- <- <-]].
    destruct (post_work _ _ _) as [[m1 yq1] more1] eqn:Hp. intros [= <- <- <-] Hm.
    eapply IH; [exact Hp|]. unfold no_cancel in *. cbn. set_solver.
Qed.

Lemma execute_loop_no_cancel fuel m yq m' after :
  execute_loop fuel m yq = (m', after) -> no_cancel m -> no_cancel m'.
Proof.
  revert m yq. induction fuel as [|fuel IH]; intros m yq; cbn;
    destruct (post_work _ _ _) as [[m1 yq1] more] eqn:Hp; intros Hx Hm;
    pose proof (post_work_no_cancel _ _ _ _ _ _ Hp Hm) as Hm1;
    destruct yq1 as [|[] yq1]; repeat case_match; simplify_eq; eauto.
Qed.

Lemma run_actions_related acts (s : system) : CancelManager ∉ acts ->
  let s' := run_actions acts s in
  works s' = works s ++ new_work acts /\ (no_cancel (manager s) -> no_cancel (manager s')) /\
  dropped s' = dropped s /\ cancel_ran s' = cancel_ran s /\ outcomes s' = outcomes s /\
  caller s' = caller s.
Proof.
  revert s. induction acts as [|a acts IH]; intros s Hin; cbn.
  - by rewrite app_nil_r.
  - apply not_elem_of_cons in Hin as [Ha Hin]. destruct a as [w|]; [|done].
    destruct (IH (run_action (Queue w) s) Hin) as (Hw & Hc & Hd & Hr & Ho & Hca).
    unfold run_actions in *. rewrite Hw, Hd, Hr, Ho, Hca. cbn. by rewrite <-app_assoc.
Qed.

Lemma ready_ended (s : system) extra :
  ready ok max_work s extra -> dropped s = [] -> 3 <= u64 max_work -> all_ended (works s).
Proof.
  intros [Hb _ Hl _ Hq] Hd Hmax. apply Forall_lookup_2. intros i w Hw.
  destruct (done_work_ended ok max_work s extra i w Hb Hl Hw) as [?|Hin]; [done|].
  rewrite Hq, Hd in Hin; [set_solver|]. unfold roomy. by rewrite (bk_max _ _ _ _ Hb).
Qed.

(** The body keeps the relation; it ends with the outcome of the caller it leaves. *)
Lemma run_body_related fuel (s : system) extra :
  ready ok max_work s extra -> Q (caller s) (works s) -> no_cancel (manager s) ->
  dropped s = [] -> cancel_ran s = false -> related (run_body fuel s).
Proof.
  revert s. induction fuel as [|fuel IH]; intros s Hrd Hq Hc Hd Hcr; cbn;
    destruct (Advance (caller s)) as [[p acts] ex] eqn:Hadv;
    destruct (Q_advance _ _ _ _ _ Hq (ready_ended s extra Hrd Hd) Hadv) as (Hno & Hq' & He);
    destruct (run_actions_related acts (with_caller p s) Hno)
      as (Hw1 & Hc1 & Hd1 & Hr1 & Ho1 & Hp1);
    cbn in Hw1, Hc1, Hd1, Hr1, Ho1, Hp1; rewrite <-Hw1 in Hq'; destruct ex.
  1, 3: destruct (ExecuteWork _) as [m after] eqn:Hx;
    pose proof (body_turn ok max_work s extra p acts m after Hrd Hadv Hx) as (Hexe & Hout & _);
    apply execute_loop_no_cancel in Hx; [|by apply Hc1]; destruct after.
  1, 3: split; cbn; rewrite ?Hp1, ?Hd1, ?Hr1; done.
  1: split; cbn; rewrite ?Hp1, ?Hd1, ?Hr1; done.
  1: apply IH; cbn; rewrite ?Hp1, ?Hd1, ?Hr1; try done;
    by eapply executed_ready; [exact Hexe|apply Hrd|].
  all: pose proof (rd_outcomes _ _ _ _ Hrd) as Ho.
  all: split; cbn; rewrite ?Hp1, ?Hd1, ?Hr1, ?Ho1, ?Ho; auto; intros n [= <-]; auto.
Qed.

Lemma resume_caller_related (s : system) extra yq more :
  waiting ok max_work s extra yq more -> Q (caller s) (works s) -> no_cancel (manager s) ->
  dropped s = [] -> cancel_ran s = false -> related (ResumeCaller s).
Proof.
  intros Hwt Hq Hc Hd Hcr. unfold ResumeCaller. rewrite (wt_place _ _ _ _ _ _ Hwt).
  destruct (continue_work yq more (manager s)) as [m after] eqn:Hx.
  assert (no_cancel m) as Hm.
  { unfold continue_work in Hx. case_match; [by simplify_eq|].
    by eapply execute_loop_no_cancel. }
  destruct after; [by split|]. eapply run_body_related; [by eapply resume_ready|done..].
Qed.

Lemma work_step_related i w0 w m' (s : system) :
  system_inv ok max_work s -> works s !! i = Some w0 -> moves (manager s) m' i w0 ->
  work_queue_ m' = work_queue_ (manager s) ->
  in_progress_list_ m' = in_progress_list_ (manager s) ->
  max_concurrent_work_ m' = max_concurrent_work_ (manager s) ->
  ok w -> no_cancel m' ->
  Q match Phase w with Ended r => Receive r (caller s) | _ => caller s end
    (<[i := w]> (works s)) ->
  related s -> (exists yq more, place s = InExecuteWork yq more) ->
  related (work_step i w (with_manager m' s)).
Proof.
  intros Hi Hw Hmv Hmq Hmp Hmm Hok Hm Hq [_ Hc [Hd Hr] He] (yq & more & Hpl).
  unfold work_step. destruct (Phase w) as [| |r] eqn:Hph.
  - split; cbn; try done; intros n; by rewrite Hpl.
  - split; cbn; try done; intros n; by rewrite Hpl.
  - destruct (work_ended_ready ok max_work s m' i w0 w r) as (yq' & more' & Hwt); try done.
    destruct (resume_caller_related _ _ _ _ Hwt) as [Hq2 Hc2 Hd2 He2]; try done.
Qed.

Lemma live_in_execute (s : system) i : system_inv ok max_work s -> i ∈ live s ->
  exists yq more, place s = InExecuteWork yq more.
Proof.
  intros [Hb Hp] Hi. unfold place_inv in Hp. destruct (place s) as [|yq more|n|]; [|naive_solver| |done].
  - exfalso. apply elem_of_live in Hi as [Hi|(w & Hw & _)]; [|by rewrite (proj1 Hp) in Hw].
    apply (starts_idle ok max_work s [] i Hb) in Hi as (w & Hw & _).
    by rewrite (proj1 Hp) in Hw.
  - destruct Hp as [Hl _]. rewrite Hl in Hi. set_solver.
Qed.

Lemma driven_related p s : Q p [] -> driven allowed max_work p s -> related s.
Proof.
  intros Hq Hd. induction Hd as [|x s s' Hd IH Hx Hs].
  - split; cbn; try done. apply not_elem_of_nil.
  - pose proof (reachable_system ok max_work p s (driven_reachable _ _ _ _ Hd)) as Hi.
    assert (forall i w, works s !! i = Some w -> ok w) as Hok
      by (intros i w; apply (Forall_lookup_1 _ _ _ _ (bk_ok _ _ _ _ (proj1 Hi)))).
    destruct x as [| |k|i a]; cbn in Hs, Hx; [|done|..].
    + destruct (place s) eqn:Hpl; try done. injection Hs as <-.
      unfold ResumeCaller. rewrite Hpl. destruct IH as [? ? [? ?] _].
      by eapply run_body_related; [apply start_ready|..].
    + destruct (io_service_ (manager s) !! k) as [t|] eqn:Hk; [|done]. cbn in Hs.
      destruct t as [i|].
      2: { destruct (rel_cancel _ IH). by apply list_elem_of_lookup_2 in Hk. }
      destruct (works s !! i) as [w|] eqn:Hw; [|done]. injection Hs as <-.
      pose proof (starts_delete _ _ _ Hk) as Hst.
      assert (i ∈ starts (manager s)) as Hin by (rewrite Hst; left).
      destruct (starts_idle _ _ _ _ i (proj1 Hi) Hin) as (w' & Hw' & Hph).
      rewrite Hw in Hw'. injection Hw' as <-.
      destruct (start_ok w (Hok i w Hw) Hph) as [Hok' _].
      eapply (work_step_related i w); try done; [by left| | |].
      * unfold no_cancel. cbn. intros Hdel. apply (rel_cancel _ IH).
        apply delete_Permutation in Hk. unfold no_cancel. rewrite Hk. by right.
      * apply (Q_move _ _ i w); [apply IH|done|by left].
      * apply (live_in_execute s i Hi), elem_of_live. auto.
    + destruct (works s !! i) as [w|] eqn:Hw; [|done]. cbn in Hs.
      destruct (Answer a w) as [w'|] eqn:Ha; [|done]. injection Hs as <-.
      pose proof (answer_ok a w w' (Hok i w Hw) Ha) as (Hok' & Hrun & _).
      replace s with (with_manager (manager s) s) at 1 by by destruct s.
      eapply (work_step_related i w); try done; [by right|apply IH| |].
      * apply (Q_move _ _ i w); [apply IH|done|right]. exists a. split; [by apply Hx|done].
      * apply (live_in_execute s i Hi), elem_of_live. right. by exists w.
Qed.

End Relation.
