(* ===== verification/WorkManagerTheorems.v ===== *)
(** * The work manager: limits, completion, and capacity that is too small

    Theorems about any caller with its work, and an example caller that runs a batch. *)
From S2P Require Import Prelude Coroutine WorkManager WorkManagerProofs.

Open Scope Z_scope.

(** The fuel of [ExecuteWork] is enough: more gives the same, whatever the yields are. *)
Lemma execute_loop_fuel fuel m yq :
  (execute_fuel m yq <= fuel)%nat ->
  execute_loop fuel m yq = execute_loop (execute_fuel m yq) m yq.
Proof.
  unfold execute_fuel. remember (length (work_queue_ m) + length yq)%nat as n eqn:Hn.
  assert (length (work_queue_ m) + length yq <= n)%nat as Hle by lia. clear Hn.
  revert fuel m yq Hle. induction n as [|n IH]; intros fuel m yq Hle Hf.
  - destruct yq; [|simpl in Hle; lia]. destruct (work_queue_ m) as [|] eqn:Hq; [|simpl in Hle; lia].
    destruct fuel; cbn; rewrite Hq; done.
  - destruct fuel as [|fuel]; [lia|]. cbn.
    destruct (post_work _ _ _) as [[m1 yq1] more] eqn:Hp.
    apply post_work_spec in Hp as (k & Hk & -> & ->). apply po_queue in Hk. cbn in Hk.
    destruct (yq ++ (snd <$> k)) as [|[] yq'] eqn:Hy; [done..|].
    case_match; [done|]. apply IH; [|lia].
    apply (f_equal length) in Hk, Hy. rewrite length_app in Hk, Hy. rewrite length_fmap in Hy.
    simpl in Hy. lia.
Qed.

Section Theorems.
Context {P W R Out A : Type} `{CallerOps P W R Out} `{CoroutineOps W A R}
  (ok : W -> Prop) `{!CoroutineLaws ok} `{!CallerLaws (P := P) (Out := Out) (A := A) ok}.
#[local] Abbreviation system := (system (P := P) (W := W) (Out := Out)).

(** C24 At most [max_concurrent_work_] pieces of work are in progress, and until a cancellation
    empties that list no more than that are started and have not called back. *)
Theorem work_is_limited max_work p s :
  reachable max_work p s -> 0 <= max_work < 2 ^ 31 ->
  NoDup (in_progress_list_ (manager s)) /\
  Z.of_nat (length (in_progress_list_ (manager s))) <= max_work /\
  (cancel_ran s = false -> Z.of_nat (size (live s)) <= max_work).
Proof.
  intros Hr Hmax. pose proof (reachable_system ok max_work p s Hr) as [Hb _].
  pose proof (bk_room _ _ _ _ Hb) as Hroom. rewrite (bk_max _ _ _ _ Hb) in Hroom.
  rewrite u64_small in Hroom by lia. split_and!; [apply Hb|done|].
  intros Hc. etrans; [|exact Hroom]. apply inj_le.
  change (size (live s)) with (length (elements (live s))).
  apply submseteq_length, NoDup_submseteq; [apply NoDup_elements|].
  intros i. rewrite elem_of_elements. by apply (bk_all _ _ _ _ Hb).
Qed.

(** C25 A piece of work that has not been started is in exactly one place: queued, posted to
    the [io_service] or dropped by a cancellation, once; work that is running, or has ended,
    is in none of them, and nothing else is. *)
Theorem work_in_one_place max_work p s :
  reachable max_work p s ->
  NoDup (queued s ++ starts (manager s) ++ dropped s) /\
  Forall (fun q => snd q = true) (work_queue_ (manager s)) /\
  forall i w, works s !! i = Some w ->
    ok w /\ (Phase w = Idle <-> i ∈ queued s ++ starts (manager s) ++ dropped s).
Proof.
  intros Hr. pose proof (reachable_system ok max_work p s Hr) as [Hb _].
  split_and!; [apply Hb|apply Hb|]. intros i w Hw. split.
  - by eapply Forall_lookup_1; [apply (bk_ok _ _ _ _ Hb)|].
  - rewrite (bk_idle _ _ _ _ Hb). split; [by exists w|]. intros (w' & Hw' & Hp). congruence.
Qed.

(** An input that lets work go on: a posted start, or an answer. *)
Definition goes_on (s : system) (x : input (A := A)) : Prop :=
  match x with
  | RunTask k => exists i, io_service_ (manager s) !! k = Some (StartTask i)
  | AnswerWork _ _ => True
  | StartCaller | CancelCaller => False
  end.

(** C23 A caller that waits in [ExecuteWork] waits for work that is posted or for a call that
    is under way, whatever is cancelled; its callback is called once, when no work is left
    that could resume it, and it is never resumed after its end. *)
Theorem caller_never_stalls max_work p s :
  reachable max_work p s ->
  match place s with
  | CallerNotStarted => outcomes s = []
  | InExecuteWork _ _ =>
      outcomes s = [] /\ exists x s', goes_on s x /\ system_step x s = Some s'
  | CallerDone _ => length (outcomes s) = 1%nat /\ live s = ∅
  | CallerStuck => False
  end.
Proof.
  intros Hr. pose proof (reachable_system ok max_work p s Hr) as [Hb Hp].
  unfold place_inv in Hp. destruct (place s) as [|yq more|n|]; [tauto| |tauto|done].
  destruct Hp as (_ & Hlen & Ho & _). split; [done|].
  destruct (size_pos_elem_of (live s)) as [i Hi]; [lia|].
  apply elem_of_live in Hi as [Hi|(w & Hw & Hph)].
  - assert (exists k, io_service_ (manager s) !! k = Some (StartTask i)) as [k Hk].
    { unfold starts in Hi. apply list_elem_of_omap in Hi as (t & Ht & Hs).
      apply list_elem_of_lookup in Ht as [k Hk]. exists k. rewrite Hk.
      destruct t; [|done]. by injection Hs as ->. }
    destruct (starts_idle _ _ _ _ i Hb Hi) as (w & Hw & _).
    exists (RunTask k). eexists. split; [by exists i|]. cbn. rewrite Hk. cbn. by rewrite Hw.
  - assert (ok w) as Hok by (eapply Forall_lookup_1; [apply (bk_ok _ _ _ _ Hb)|done]).
    destruct (running_awaits w Hok Hph) as [a [w' Ha]].
    exists (AnswerWork i a). eexists. split; [done|]. cbn. rewrite Hw. cbn. by rewrite Ha.
Qed.

(** C22 With room for three pieces of work, a caller ends only when all the work that it
    queued has ended, apart from what a cancellation took from the queue and what the
    caller queued after its last [ExecuteWork]. *)
Theorem all_work_executed max_work p s n :
  reachable max_work p s -> 3 <= max_work < 2 ^ 31 -> place s = CallerDone n ->
  (length (queued s) <= n)%nat /\
  forall i w, works s !! i = Some w ->
    (exists r, Phase w = Ended r) \/ i ∈ queued s \/ i ∈ dropped s.
Proof.
  intros Hr Hmax Hpl. pose proof (reachable_system ok max_work p s Hr) as [Hb Hp].
  unfold place_inv in Hp. rewrite Hpl in Hp. destruct Hp as (Hl & _ & Hq). split.
  - apply Hq. unfold roomy. rewrite (bk_max _ _ _ _ Hb), u64_small by lia. lia.
  - intros i w Hw. by apply (done_work_ended ok max_work s [] i w Hb Hl).
Qed.

End Theorems.

(** ** An example: a batch of jobs

    A job is one call; the caller queues all of its jobs and executes them. *)
Module Batches.

Inductive job := Job (state : phase Z).

#[global] Instance job_ops : CoroutineOps job Z Z := {
  Start _ := Job Running;
  Answer a j := match j with Job Running => Some (Job (Ended a)) | _ => None end;
  Cancel j := j;
  Phase j := match j with Job p => p end }.

#[global] Instance job_laws : CoroutineLaws (fun _ : job => True).
Proof.
  split; try done.
  - intros a [[]] w' _ [= <-]; done.
  - intros [[]] _ [=]. by exists 0, (Job (Ended 0)).
Qed.

Record batch := { todo : nat; results : list Z }.

#[global] Instance batch_ops : CallerOps batch job Z (list Z) := {
  Advance b :=
    match todo b with
    | O => (b, [], false)
    | n => ({| todo := O; results := results b |}, replicate n (Queue (Job Idle)), true)
    end;
  Receive r b := {| todo := todo b; results := results b ++ [r] |};
  SetCancelled b := b;
  Outcome := results;
  Rank := todo }.

#[global] Instance batch_laws :
  CallerLaws (P := batch) (Out := list Z) (A := Z) (fun _ : job => True).
Proof.
  split.
  - intros [[|n] rs] p' acts; cbn; intros [= <- <-]. cbn. lia.
  - intros [n rs] p' acts ex w Hadv Hin. split; [done|]. cbn in Hadv.
    assert (Queue w ∈ replicate n (Queue (Job Idle)) \/ Queue w ∈ @nil (action job)) as Hq
      by (destruct n; simplify_eq; auto).
    destruct Hq as [[Hq _]%elem_of_replicate|Hq%not_elem_of_nil]; [by simplify_eq|done].
Qed.

Definition batch_of (n : nat) : batch := {| todo := n; results := [] |}.

Definition after (max_work : Z) (n : nat) (xs : list input) : system :=
  default (new_system max_work (batch_of n)) (run_system xs (new_system max_work (batch_of n))).

Lemma run_system_reachable max_work p xs (s s' : system (P := batch) (W := job) (Out := list Z)) :
  reachable (A := Z) max_work p s -> run_system xs s = Some s' -> reachable max_work p s'.
Proof.
  revert s. induction xs as [|x xs IH]; intros s Hr; cbn; [by intros [= <-]|].
  destruct (system_step x s) as [s1|] eqn:Hx; [|done]. cbn. apply IH. by eapply reachable_step.
Qed.

Lemma batch_reachable max_work n xs : reachable max_work (batch_of n) (after max_work n xs).
Proof.
  unfold after. destruct (run_system _ _) as [s|] eqn:Hr; [|apply reachable_new].
  eapply run_system_reachable; [apply reachable_new|exact Hr].
Qed.

(** Four jobs with room for three. *)
Definition four_jobs : list input :=
  [StartCaller; RunTask 0; RunTask 0; AnswerWork 0 10; RunTask 0; AnswerWork 2 12;
   RunTask 0; AnswerWork 1 11; AnswerWork 3 13].

End Batches.

Lemma work_is_limited_witness :
  size (live (Batches.after 3 4 [StartCaller])) = 3%nat /\
  Z.of_nat (size (live (Batches.after 3 4 [StartCaller]))) <= 3.
Proof.
  split; [by vm_compute|].
  apply (work_is_limited (fun _ => True) 3 (Batches.batch_of 4));
    [apply Batches.batch_reachable|lia|by vm_compute].
Defined.

Lemma work_in_one_place_witness :
  queued (Batches.after 3 4 [StartCaller]) = [3%nat] /\
  NoDup (queued (Batches.after 3 4 [StartCaller]) ++
         starts (manager (Batches.after 3 4 [StartCaller])) ++
         dropped (Batches.after 3 4 [StartCaller])).
Proof.
  split; [by vm_compute|].
  apply (work_in_one_place (fun _ => True) 3 (Batches.batch_of 4)), Batches.batch_reachable.
Defined.

Lemma caller_never_stalls_witness :
  place (Batches.after 3 4 [StartCaller]) = InExecuteWork [true; true] true /\
  exists x s', goes_on (Batches.after 3 4 [StartCaller]) x /\
    system_step x (Batches.after 3 4 [StartCaller]) = Some s'.
Proof.
  assert (place (Batches.after 3 4 [StartCaller]) = InExecuteWork [true; true] true) as Hp
    by by vm_compute.
  pose proof (caller_never_stalls (fun _ => True) 3 (Batches.batch_of 4)
    (Batches.after 3 4 [StartCaller]) (Batches.batch_reachable _ _ _)) as Hs.
  rewrite Hp in Hs. split; [exact Hp|exact (proj2 Hs)].
Defined.

Lemma all_work_executed_witness :
  outcomes (Batches.after 3 4 Batches.four_jobs) = [[10; 12; 11; 13]] /\
  (length (queued (Batches.after 3 4 Batches.four_jobs)) <= 0)%nat.
Proof.
  split; [by vm_compute|].
  apply (all_work_executed (fun _ => True) 3 (Batches.batch_of 4));
    [apply Batches.batch_reachable|lia|by vm_compute].
Defined.

(** With room for only two pieces of work the caller is resumed before the first is removed
    from the list, starts nothing more, and returns: of three jobs the third is never
    executed. *)
Theorem small_capacity_loses_work :
  let s := Batches.after 2 3 [StartCaller; RunTask 0; RunTask 0; AnswerWork 0 10;
                              AnswerWork 1 11] in
  reachable 2 (Batches.batch_of 3) s /\ place s = CallerDone 0 /\
  outcomes s = [[10; 11]] /\ queued s = [2%nat] /\ io_service_ (manager s) = [] /\
  dropped s = [].
Proof. intros s. split; [apply Batches.batch_reachable|]. by vm_compute. Qed.
