(* ===== verification/CloneCloudTree.v ===== *)
(** * Cloning a folder tree ([api/actions/clone_cloud_tree])

    [CloneCloudTree] lists a folder and, as the listings arrive, the folders that they name.
    It is a caller ([WorkManager.CallerOps]) whose work are [GetFolderContents]. *)
From S2P Require Import Prelude Errors Coroutine GetFolderContents GetFolderContentsProofs WorkManager.

Open Scope Z_scope.

(** [api/actions/clone_cloud_tree_impl.hpp:3-3 MAX_LOOP_ITERATIONS] *)
Definition MAX_LOOP_ITERATIONS : Z := 100.

Section Clone.
Context {File Folder : Type} (folderkey : Folder -> str).
#[local] Abbreviation Contents := (GetFolderContents (File := File) (Folder := Folder)).

(** [num_loop_iterations] is the local variable of the body.
    [api/actions/clone_cloud_tree.hpp:37-47 CloneCloudTree] *)
Record CloneCloudTree := {
  clone_files_ : list File;
  clone_folders_ : list Folder;
  clone_errors_ : list ErrorType;
  new_folder_keys_ : list str;
  clone_cancelled_ : bool;
  num_loop_iterations : Z }.

(** [api/actions/clone_cloud_tree_impl.hpp:11-20 CloneCloudTree] *)
Definition CreateClone (folder_key : str) : CloneCloudTree :=
  {| clone_files_ := []; clone_folders_ := []; clone_errors_ := [];
     new_folder_keys_ := [folder_key]; clone_cancelled_ := false; num_loop_iterations := 0 |}.

(** The keys that are left and the number of iterations at the next [ExecuteWork] or at the
    end of the body, with what was queued.  [ExecuteWork] comes before the increment, which
    does not depend on it.
    [api/actions/clone_cloud_tree_impl.hpp:60-101 CoroutineBody] *)
Fixpoint clone_loop (cancelled : bool) (keys : list str) (n : Z)
    (acts : list (action Contents)) : list str * Z * list (action Contents) * bool :=
  match keys with
  | [] => ([], n, acts, false)
  | folder_key :: rest =>
      if MAX_LOOP_ITERATIONS <? n then (keys, n, acts, false)
      else
        let acts := acts ++ [Queue (Create folder_key Both)] in
        let acts := if cancelled then acts ++ [CancelManager] else acts in
        match rest with
        | [] => ([], i32 (n + 1), acts, true)
        | _ => clone_loop cancelled rest (i32 (n + 1)) acts
        end
  end.

(** [api/actions/clone_cloud_tree_impl.hpp:55-104 CoroutineBody] *)
Definition clone_advance (s : CloneCloudTree) :
    CloneCloudTree * list (action Contents) * bool :=
  let '(keys, n, acts, execute) :=
    clone_loop (clone_cancelled_ s) (new_folder_keys_ s) (num_loop_iterations s) [] in
  ({| clone_files_ := clone_files_ s; clone_folders_ := clone_folders_ s;
      clone_errors_ := clone_errors_ s; new_folder_keys_ := keys;
      clone_cancelled_ := clone_cancelled_ s; num_loop_iterations := n |}, acts, execute).

(** [api/actions/clone_cloud_tree_impl.hpp:33-53 HandleGetFolderContents] *)
Definition HandleGetFolderContents (r : list File * list Folder * list ErrorType)
    (s : CloneCloudTree) : CloneCloudTree :=
  let '(files, folders, errors) := r in
  {| clone_files_ := clone_files_ s ++ files;
     clone_folders_ := clone_folders_ s ++ folders;
     clone_errors_ := clone_errors_ s ++ errors;
     new_folder_keys_ := new_folder_keys_ s ++ (folderkey <$> folders);
     clone_cancelled_ := clone_cancelled_ s;
     num_loop_iterations := num_loop_iterations s |}.

(** [api/actions/clone_cloud_tree_impl.hpp:106-112 Cancel] *)
Definition CancelClone (s : CloneCloudTree) : CloneCloudTree :=
  {| clone_files_ := clone_files_ s; clone_folders_ := clone_folders_ s;
     clone_errors_ := clone_errors_ s; new_folder_keys_ := new_folder_keys_ s;
     clone_cancelled_ := true; num_loop_iterations := num_loop_iterations s |}.

#[export] Instance clone_ops :
  CallerOps CloneCloudTree Contents (list File * list Folder * list ErrorType)
    (list File * list Folder * list ErrorType) := {
  Advance := clone_advance;
  Receive := HandleGetFolderContents;
  SetCancelled := CancelClone;
  Outcome s := (clone_files_ s, clone_folders_ s, clone_errors_ s);
  Rank s := match new_folder_keys_ s with [] => O | _ => 1%nat end }.

(** ** One turn of the body *)

(** [ExecuteWork] is called when all keys were queued; the body ends when there is no key, or
    after too many iterations. *)
Lemma clone_loop_spec cancelled keys n acts keys' n' acts' ex :
  clone_loop cancelled keys n acts = (keys', n', acts', ex) -> 0 <= n <= 101 ->
  exists done, keys = done ++ keys' /\ n' = n + Z.of_nat (length done) /\ n' <= 101 /\
    new_work acts' = new_work acts ++ ((fun k => Create k Both) <$> done) /\
    (cancelled = false -> CancelManager ∉ acts -> CancelManager ∉ acts') /\
    (keys' = [] /\ (ex = false -> done = []) \/ 100 < n') /\
    (ex = true -> keys' = [] /\ keys <> []).
Proof.
  revert n acts. induction keys as [|k rest IH]; intros n acts; cbn [clone_loop].
  - intros [= <- <- <- <-] Hn. exists [].
    cbn [fmap list_fmap length]. rewrite ?app_nil_r. split_and!; try done; try lia; rewrite ?app_nil_r; auto.
  - unfold MAX_LOOP_ITERATIONS. destruct (100 <? n) eqn:Hlt.
    + intros [= <- <- <- <-] Hn. exists [].
      cbn [fmap list_fmap length]. rewrite ?app_nil_r. split_and!; try done; try lia.
    + set (acts1 := if cancelled then _ else _).
      assert (new_work acts1 = new_work acts ++ [Create k Both]) as Ha.
      { unfold acts1, new_work. destruct cancelled; rewrite !omap_app; cbn;
          by rewrite ?app_nil_r. }
      assert (cancelled = false -> CancelManager ∉ acts -> CancelManager ∉ acts1) as Hc.
      { unfold acts1. intros ->. rewrite not_elem_of_app, list_elem_of_singleton. done. }
      intros Hl Hn. rewrite i32_small in Hl by lia. destruct rest as [|k' rest].
      * injection Hl as <- <- <- <-. exists [k]. cbn [app length fmap list_fmap].
        split_and!; try done; try lia; auto. by left.
      * apply IH in Hl as (done & Hd & -> & Hle & Ho & Hca & Hk & Hx); [|lia].
        exists (k :: done). cbn [app length]. rewrite Hd. split_and!; try done; try lia.
        -- by rewrite Ho, Ha, <-app_assoc.
        -- auto.
        -- destruct Hk as [[-> Hk]|?]; [left|by right]. split; [done|].
           intros Hex. by rewrite (Hk Hex) in Hd.
        -- intros Hex. split; [by apply Hx|done].
Qed.

(** The work that a turn queues, whatever the number of iterations. *)
Lemma clone_loop_fresh cancelled keys n acts keys' n' acts' ex :
  clone_loop cancelled keys n acts = (keys', n', acts', ex) ->
  (forall w, Queue w ∈ acts' -> Queue w ∈ acts \/ exists k, w = Create k Both) /\
  (ex = true -> keys' = [] /\ keys <> []).
Proof.
  revert n acts. induction keys as [|k rest IH]; intros n acts; cbn [clone_loop].
  - intros [= <- <- <- <-]. split; [auto|done].
  - destruct (MAX_LOOP_ITERATIONS <? n); [by intros [= <- <- <- <-]; split; [auto|]|].
    set (acts1 := if cancelled then _ else _).
    assert (forall w, Queue w ∈ acts1 -> Queue w ∈ acts \/ exists k, w = Create k Both) as Ha.
    { intros w. unfold acts1. destruct cancelled; rewrite ?elem_of_app, ?list_elem_of_singleton;
        naive_solver. }
    destruct rest as [|k' rest]; [by intros [= <- <- <- <-]; split; [auto|]|].
    intros [Hw Hx]%IH. split; [|intros He; split; [by apply Hx|done]].
    intros w [?|?]%Hw; auto.
Qed.

#[export] Instance clone_laws : CallerLaws (P := CloneCloudTree)
  (Out := list File * list Folder * list ErrorType) (A := ContentType * Response) contents_inv.
Proof.
  split.
  - intros p p' acts. cbn. unfold clone_advance.
    destruct (clone_loop _ _ _ _) as [[[keys n] acts1] ex] eqn:Hl. intros [= <- <- ->].
    apply clone_loop_fresh in Hl as [_ Hx]. destruct (Hx eq_refl) as [-> Hne]. cbn.
    destruct (new_folder_keys_ p); [done|lia].
  - intros p p' acts ex w. cbn. unfold clone_advance.
    destruct (clone_loop _ _ _ _) as [[[keys n] acts1] ex1] eqn:Hl. intros [= <- <- <-] Hw.
    apply clone_loop_fresh in Hl as [Hf _].
    destruct (Hf w Hw) as [?%not_elem_of_nil|[k ->]]; [done|].
    split; [apply create_inv|done].
Qed.

End Clone.
