(* ===== verification/CloneCloudTreeTheorems.v ===== *)
(** * Cloning a folder tree: what is visited, and what is lost

    Runs of [CloneCloudTree] with its work manager and its listings, in which every request
    gets the answer of a server and nobody cancels. *)
From S2P Require Import Prelude Errors Coroutine GetFolderContents GetFolderContentsProofs GetFolderContentsTheorems WorkManager WorkManagerProofs CloneCloudTree.

Open Scope Z_scope.

Section Clone.
Context {File Folder : Type} (folderkey : Folder -> str).
#[local] Abbreviation Contents := (GetFolderContents (File := File) (Folder := Folder)).
#[local] Abbreviation Response := (Response (File := File) (Folder := Folder)).
#[local] Abbreviation Clone := (CloneCloudTree (File := File) (Folder := Folder)).
#[local] Abbreviation Result := (list File * list Folder * list ErrorType)%type.

#[local] Instance clone_ops' : CallerOps Clone Contents Result Result := clone_ops folderkey.
#[local] Instance clone_laws' : CallerLaws (P := Clone) (Out := Result)
  (A := ContentType * Response) contents_inv := clone_laws folderkey.

(** The server: every folder is served in a number of chunks. *)
Context (server : Request -> Response) (n : str -> ContentType -> Z).
Hypothesis serves_all : forall key ct, serves server key ct (n key ct).

(** What the server has in a folder, and its subfolders. *)
Definition files_in (key : str) : list File :=
  concat (rsp_files <$> all_answers server key Both (n key) ContentFiles).

Definition folders_in (key : str) : list Folder :=
  concat (rsp_folders <$> all_answers server key Both (n key) ContentFolders).

Definition child (key key' : str) : Prop := key' ∈ folderkey <$> folders_in key.

(** The answer of the server to a call of a listing. *)
Definition from_server (w : Contents) (a : ContentType * Response) : Prop :=
  exists req, last (calls_of (fst a) w) = Some req /\ snd a = server req.

Definition result_of (w : Contents) : Result :=
  match Phase w with Ended r => r | _ => ([], [], []) end.

Definition files_of (w : Contents) : list File := fst (fst (result_of w)).
Definition folders_of (w : Contents) : list Folder := snd (fst (result_of w)).

(** Every key that was found is listed or waits; what was collected is what the listings that
    have ended returned. *)
Record cloning (root : str) (p : Clone) (ws : list Contents) : Prop := {
  cl_keys : root :: (folderkey <$> clone_folders_ p) ≡ₚ
            (folder_key_ <$> ws) ++ new_folder_keys_ p;
  cl_files : clone_files_ p ≡ₚ concat (files_of <$> ws);
  cl_folders : clone_folders_ p ≡ₚ concat (folders_of <$> ws);
  cl_errors : clone_errors_ p = [];
  cl_num : num_loop_iterations p = Z.of_nat (length ws) /\ num_loop_iterations p <= 101;
  cl_cancelled : clone_cancelled_ p = false;
  cl_served : Forall (fun w => served server (folder_key_ w) Both w /\
                               cancelled_ w = false) ws;
  cl_reach : Forall (rtc child root) ((folder_key_ <$> ws) ++ new_folder_keys_ p) }.

Definition clone_end (p : Clone) (queued_late : nat) : Prop :=
  (new_folder_keys_ p = [] /\ queued_late = O) \/ 100 < num_loop_iterations p.

Lemma new_listings (keys : list str) :
  folder_key_ <$> ((fun k => Create k Both) <$> keys : list Contents) = keys /\
  concat (files_of <$> ((fun k => Create k Both) <$> keys)) = [] /\
  concat (folders_of <$> ((fun k => Create k Both) <$> keys)) = [].
Proof.
  induction keys as [|k keys (IH1 & IH2 & IH3)]; [done|]. cbn. rewrite IH1.
  split_and!; [done| |].
  - unfold files_of, result_of in *. by cbn in *.
  - unfold folders_of, result_of in *. by cbn in *.
Qed.

Lemma cloning_advance root p ws p' acts ex :
  cloning root p ws -> Advance p = (p', acts, ex) ->
  (CancelManager ∉ acts) /\ cloning root p' (ws ++ new_work acts) /\
  (ex = false -> clone_end p' (queued_by acts)).
Proof.
  intros [Hk Hf Hd He [Hn Hle] Hc Hs Hr]. cbn. unfold clone_advance.
  destruct (clone_loop _ _ _ _) as [[[keys num] acts1] ex1] eqn:Hl. intros [= <- <- <-].
  apply clone_loop_spec in Hl as (done & Hdone & -> & Hle' & Hw & Hca & Hend & Hex); [|lia].
  cbn in Hw. destruct (new_listings done) as (Hk1 & Hf1 & Hd1).
  rewrite Hc in Hca. split_and!; [by apply Hca; [|apply not_elem_of_nil]| |].
  - rewrite Hdone in Hk, Hr. split; cbn; rewrite ?Hw; try done.
    + by rewrite fmap_app, Hk1, <-app_assoc.
    + by rewrite fmap_app, concat_app, Hf1, app_nil_r.
    + by rewrite fmap_app, concat_app, Hd1, app_nil_r.
    + rewrite length_app, length_fmap. lia.
    + apply Forall_app. split; [done|]. apply Forall_fmap, Forall_true. intros k.
      split; [apply served_created|done].
    + by rewrite fmap_app, Hk1, <-app_assoc.
  - intros ->. unfold clone_end, queued_by. cbn. rewrite Hw, length_fmap.
    destruct Hend as [[-> Hend]|?]; [left|by right]. by rewrite Hend.
Qed.
Lemma concat_insert {B D} (f : B -> list D) (l : list B) i x0 x :
  l !! i = Some x0 -> f x0 = [] ->
  concat (f <$> <[i := x]> l) ≡ₚ concat (f <$> l) ++ f x.
Proof.
  intros Hi Hf. rewrite insert_take_drop by by eapply lookup_lt_Some.
  rewrite <-(take_drop_middle _ _ _ Hi) at 3.
  rewrite !fmap_app, !concat_app. cbn. rewrite Hf. cbn. solve_Permutation.
Qed.

Lemma contents_served_inv key (w : Contents) :
  served server key Both w -> contents_inv w.
Proof. intros Hs. by eapply contents_reachable_inv, served_reachable. Qed.

Lemma served_key (w : Contents) key : served server key Both w -> folder_key_ w = key.
Proof. intros Hs. by apply served_reachable, reachable_asked in Hs as [= -> _]. Qed.

(** A listing that is started or answered by the server. *)
Lemma listing_move (w0 w : Contents) :
  served server (folder_key_ w0) Both w0 /\ cancelled_ w0 = false ->
  (Phase w0 = Idle /\ w = Start w0) \/ (exists a, from_server w0 a /\ Answer a w0 = Some w) ->
  folder_key_ w = folder_key_ w0 /\
  (served server (folder_key_ w) Both w /\ cancelled_ w = false) /\
  (forall r, Phase w0 <> Ended r) /\
  forall r, Phase w = Ended r -> r = (files_in (folder_key_ w), folders_in (folder_key_ w), []).
Proof.
  intros [Hs Hc] Hmv.
  assert (served server (folder_key_ w0) Both w /\ cancelled_ w = false /\
          forall r, Phase w0 <> Ended r) as (Hs' & Hc' & Hne).
  { destruct Hmv as [[Hp ->]|([ct r] & (req & Hl & Hr) & Ha)]; cbn [fst snd] in *.
    - split_and!; [by apply served_started|by rewrite <-Hc; apply resume_cancelled|].
      intros r. by rewrite Hp.
    - subst r. split_and!.
      + by apply (served_answered server _ _ ct req w0).
      + rewrite <-Hc. by apply (answer_cancelled _ _ _ Ha).
      + intros r. destruct (answer_phase _ _ _ (contents_served_inv _ _ Hs) Ha) as [-> _].
        done. }
  rewrite (served_key w _ Hs'). split_and!; try done. intros r Hr.
  by destruct (served_result server (folder_key_ w0) Both (n (folder_key_ w0)) w r
    (fun ct _ => serves_all _ ct) Hs' Hc' Hr) as [_ ->].
Qed.

Lemma cloning_move root p ws i w0 w :
  cloning root p ws -> ws !! i = Some w0 ->
  (Phase w0 = Idle /\ w = Start w0) \/ (exists a, from_server w0 a /\ Answer a w0 = Some w) ->
  cloning root match Phase w with Ended r => Receive r p | _ => p end (<[i := w]> ws).
Proof.
  intros Hcl Hw Hmv. destruct Hcl as [Hk Hf Hd He Hn Hc Hs Hr].
  destruct (listing_move w0 w) as (Hkey & Hsv & Hne & Hres); [|done|].
  { by eapply (Forall_lookup_1 _ _ _ _ Hs). }
  assert (folder_key_ <$> <[i := w]> ws = folder_key_ <$> ws) as Hkeys.
  { rewrite list_fmap_insert, Hkey, list_insert_id; [done|]. by rewrite list_lookup_fmap, Hw. }
  assert (files_of w0 = [] /\ folders_of w0 = []) as [Hf0 Hd0].
  { unfold files_of, folders_of, result_of.
    destruct (Phase w0) as [| |r0]; [done..|]. by destruct (Hne r0). }
  pose proof (concat_insert files_of ws i w0 w Hw Hf0) as Hfi.
  pose proof (concat_insert folders_of ws i w0 w Hw Hd0) as Hdi.
  assert (Forall (fun w => served server (folder_key_ w) Both w /\ cancelled_ w = false)
            (<[i := w]> ws)) as Hs' by by apply Forall_insert.
  assert (forall r, Phase w = Ended r ->
    files_of w = fst (fst r) /\ folders_of w = snd (fst r)) as Hof.
  { intros r Hp. unfold files_of, folders_of, result_of. by rewrite Hp. }
  destruct (Phase w) as [| |r] eqn:Hp.
  3: { specialize (Hres r eq_refl). destruct (Hof r eq_refl) as [Hfw Hdw]. subst r.
    cbn in Hfw, Hdw. rewrite Hfw in Hfi. rewrite Hdw in Hdi.
    split; cbn; rewrite ?Hkeys, ?length_insert; try done.
    - rewrite fmap_app, app_comm_cons, Hk. by rewrite app_assoc.
    - by rewrite Hf, Hfi.
    - by rewrite Hd, Hdi.
    - by rewrite He.
    - rewrite app_assoc. apply Forall_app. split; [done|]. apply Forall_forall.
      intros k Hin. rewrite Forall_forall in Hr. eapply rtc_r.
      + apply (Hr (folder_key_ w)). apply elem_of_app. left. rewrite Hkey.
        by eapply list_elem_of_fmap_2, list_elem_of_lookup_2.
      + exact Hin. }
  all: assert (files_of w = [] /\ folders_of w = []) as [Hfw Hdw]
    by (unfold files_of, folders_of, result_of; by rewrite Hp).
  all: rewrite Hfw, app_nil_r in Hfi; rewrite Hdw, app_nil_r in Hdi.
  all: split; rewrite ?Hkeys, ?length_insert; try done.
  all: by rewrite ?Hfi, ?Hdi.
Qed.

Lemma cloning_start root : cloning root (CreateClone root) [].
Proof.
  split; cbn; try done. apply Forall_singleton, rtc_refl.
Qed.

(** C26 A tree clone that is not cancelled, whose work manager has room for three listings and
    which lists at most 100 folders, calls back with the files and folders of exactly the
    folders that can be reached from the root, each folder that was found being listed once,
    and no error. *)
Theorem clone_complete max_work root s late :
  driven from_server max_work (CreateClone root) s -> 3 <= max_work < 2 ^ 31 ->
  place s = CallerDone late -> (length (works s) <= 100)%nat ->
  let visited := folder_key_ <$> works s in
  exists files folders, outcomes s = [(files, folders, [])] /\
    visited ≡ₚ root :: (folderkey <$> folders) /\
    (forall key, key ∈ visited <-> rtc child root key) /\
    files ≡ₚ concat (files_in <$> visited) /\
    folders ≡ₚ concat (folders_in <$> visited).
Proof.
  intros Hd Hmax Hpl Hlen visited.
  pose proof (driven_related from_server max_work (cloning root) clone_end
    (fun p ws p' acts ex Hq _ => cloning_advance root p ws p' acts ex Hq)
    (cloning_move root) contents_inv (CreateClone root) s (cloning_start root) Hd)
    as [Hcl _ [Hdr _] Hend].
  destruct (Hend late Hpl) as [Hout Hlate].
  pose proof (driven_reachable _ _ _ _ Hd) as Hr.
  pose proof (reachable_system contents_inv max_work _ s Hr) as [Hb Hp].
  unfold place_inv in Hp. rewrite Hpl in Hp. destruct Hp as (Hlive & _ & Hq).
  destruct Hcl as [Hk Hf Hdi He [Hn _] Hc Hs Hre].
  destruct Hlate as [[Hkeys ->]|?]; [|lia].
  assert (queued s = []) as Hqueue.
  { apply nil_length_inv. unfold roomy in Hq. rewrite (bk_max _ _ _ _ Hb), u64_small in Hq by lia.
    lia. }
  assert (Forall (fun w => Phase w =
            Ended (files_in (folder_key_ w), folders_in (folder_key_ w), [])) (works s)) as Hall.
  { apply Forall_lookup_2. intros i w Hw.
    destruct (done_work_ended contents_inv max_work s [] i w Hb Hlive Hw) as [[r Hph]|Hin].
    - pose proof (Forall_lookup_1 _ _ _ _ Hs Hw) as [Hsv Hcan].
      pose proof (served_result server _ Both (n (folder_key_ w)) w r
        (fun ct _ => serves_all _ ct) Hsv Hcan Hph) as [_ ->]. exact Hph.
    - rewrite Hqueue, Hdr in Hin. set_solver. }
  assert (forall ws : list Contents,
    Forall (fun w => Phase w =
      Ended (files_in (folder_key_ w), folders_in (folder_key_ w), [])) ws ->
    files_of <$> ws = files_in <$> (folder_key_ <$> ws) /\
    folders_of <$> ws = folders_in <$> (folder_key_ <$> ws)) as Hmap.
  { induction 1 as [|w ws Hw _ [IH1 IH2]]; [done|]. cbn. rewrite IH1, IH2.
    unfold files_of, folders_of, result_of. by rewrite Hw. }
  destruct (Hmap _ Hall) as [Hmf Hmd]. rewrite Hmf in Hf. rewrite Hmd in Hdi.
  rewrite Hkeys, app_nil_r in Hk, Hre. fold visited in Hk, Hf, Hdi, Hre.
  exists (clone_files_ (caller s)), (clone_folders_ (caller s)). split_and!; try done.
  - rewrite Hout. cbn. by rewrite He.
  - intros key. split; [rewrite Forall_forall in Hre; apply Hre|].
    revert key. apply (rtc_ind_r (fun key => key ∈ visited)).
    + rewrite <-Hk. left.
    + intros key1 key2 _ Hch IH. rewrite <-Hk. right. rewrite Hdi. unfold child in Hch.
      apply list_elem_of_fmap in Hch as (f & -> & Hf'). apply list_elem_of_fmap_2.
      apply list_elem_of_In, in_concat. exists (folders_in key1).
      split; apply list_elem_of_In; [by apply list_elem_of_fmap_2|done].
Qed.

End Clone.

(** ** Examples

    Folders are numbered; the server lists each in one chunk, with its subfolders. *)
Module Trees.

Definition key_of (k : Z) : str := [Zbyte k].

Section Server.
Context (children : str -> list Z).

Definition server (req : Request) : Response (File := str) (Folder := Z) :=
  {| rsp_error_code := no_error; rsp_error_string := None; rsp_chunk_number := 1;
     rsp_chunks_remaining := LastChunk;
     rsp_files := match req_content_type req with
                  | ContentFiles => [req_folder_key req] | ContentFolders => [] end;
     rsp_folders := match req_content_type req with
                    | ContentFiles => [] | ContentFolders => children (req_folder_key req) end |}.

Definition one_chunk (key : str) (ct : ContentType) : Z := 1.

Lemma one_chunk_serves key ct : serves server key ct (one_chunk key ct).
Proof.
  unfold one_chunk. split; [by vm_compute|]. intros k Hk. assert (k = 1) as -> by lia.
  by destruct ct.
Qed.

#[local] Abbreviation Contents := (GetFolderContents (File := str) (Folder := Z)).
#[local] Abbreviation Clone := (CloneCloudTree (File := str) (Folder := Z)).
#[local] Abbreviation Result := (list str * list Z * list ErrorType)%type.

#[global] Instance tree_ops : CallerOps Clone Contents Result Result := clone_ops key_of.

#[local] Abbreviation tree_system := (system (P := Clone) (W := Contents) (Out := Result)).

(** The next thing that happens: the first posted task, or the server's answer to the first
    listing that runs. *)
Definition next_answer (w : Contents) : option (ContentType * Response) :=
  let ct := if files_request_ w then Some ContentFiles
            else if folders_request_ w then Some ContentFolders else None in
  ct ← ct; req ← last (calls_of ct w); Some (ct, server req).

Fixpoint first_answer (i : nat) (ws : list Contents) : option input :=
  match ws with
  | [] => None
  | w :: ws => match next_answer w with
               | Some a => Some (AnswerWork i a)
               | None => first_answer (S i) ws
               end
  end.

Definition next_input (s : tree_system) : option input :=
  match place s with
  | CallerNotStarted => Some StartCaller
  | _ => match io_service_ (manager s) with
         | [] => first_answer 0 (works s)
         | _ => Some (RunTask 0)
         end
  end.

Fixpoint clone_run (fuel : nat) (s : tree_system) : tree_system :=
  match fuel with
  | O => s
  | S fuel =>
      match x ← next_input s; system_step x s with
      | Some s' => clone_run fuel s'
      | None => s
      end
  end.

Lemma first_answer_server i ws x j a :
  first_answer i ws = Some x -> x = AnswerWork j a ->
  exists w, (i <= j)%nat /\ ws !! (j - i)%nat = Some w /\ from_server server w a.
Proof.
  revert i. induction ws as [|w ws IH]; intros i; cbn; [done|].
  destruct (next_answer w) as [a'|] eqn:Ha.
  - intros [= <-] [= -> ->]. exists w. rewrite Nat.sub_diag. split_and!; [lia|done|].
    unfold next_answer in Ha. destruct (if files_request_ w then _ else _) as [ct|]; [|done].
    cbn in Ha. destruct (last (calls_of ct w)) as [req|] eqn:Hl; [|done].
    injection Ha as <-. by exists req.
  - intros Hf Hx. destruct (IH (S i) Hf Hx) as (w' & Hle & Hw & Hs). exists w'.
    split_and!; [lia| |done]. by replace (j - i)%nat with (S (j - S i)) by lia.
Qed.

Lemma first_answer_shape i ws x :
  first_answer i ws = Some x -> exists j a, x = AnswerWork j a.
Proof.
  revert i. induction ws as [|w ws IH]; intros i; cbn; [done|].
  destruct (next_answer w); [intros [= <-]; eauto|apply IH].
Qed.

Lemma clone_run_driven fuel max_work root s :
  driven (from_server server) max_work (CreateClone root) s ->
  driven (from_server server) max_work (CreateClone root) (clone_run fuel s).
Proof.
  revert s. induction fuel as [|fuel IH]; intros s Hd; cbn; [done|].
  destruct (next_input s) as [x|] eqn:Hx; [|done]. cbn.
  destruct (system_step x s) as [s'|] eqn:Hs; [|done].
  apply IH. apply (driven_step _ _ _ x s); try done.
  assert (x = StartCaller \/ x = RunTask 0 \/ exists j a, x = AnswerWork j a) as Hxs.
  { unfold next_input in Hx. repeat case_match; simplify_eq; eauto using first_answer_shape. }
  destruct Hxs as [->|[->|(j & a & ->)]]; [done..|].
  assert (first_answer 0 (works s) = Some (AnswerWork j a)) as Hf.
  { unfold next_input in Hx. by repeat case_match. }
  destruct (first_answer_server _ _ _ _ _ Hf eq_refl) as (w & _ & Hw & Hfs).
  rewrite Nat.sub_0_r in Hw. cbn. intros w' Hw'. congruence.
Qed.

Definition cloned (fuel : nat) (max_work : Z) : tree_system :=
  clone_run fuel (new_system max_work (CreateClone (key_of 0))).

Lemma cloned_driven fuel max_work :
  driven (from_server server) max_work (CreateClone (key_of 0)) (cloned fuel max_work).
Proof. apply clone_run_driven, driven_new. Qed.

End Server.

(** A root with two folders, the first of which has one. *)
Definition small_tree (key : str) : list Z :=
  if decide (key = key_of 0) then [1; 2] else if decide (key = key_of 1) then [3] else [].

(** A root with [m] folders. *)
Definition wide_tree (m : Z) (key : str) : list Z :=
  if decide (key = key_of 0) then seqZ 1 m else [].

End Trees.

(** The clone of a small tree. *)
Definition small_clone := Trees.cloned Trees.small_tree 40 3.

Lemma small_clone_done : place small_clone = CallerDone 0.
Proof. by vm_compute. Qed.

Lemma small_clone_visits :
  folder_key_ <$> works small_clone =
  [Trees.key_of 0; Trees.key_of 1; Trees.key_of 2; Trees.key_of 3].
Proof. by vm_compute. Qed.

Lemma clone_complete_witness :
  (length (works small_clone) <= 100)%nat /\
  forall key, key ∈ folder_key_ <$> works small_clone <->
    rtc (child Trees.key_of (Trees.server Trees.small_tree) Trees.one_chunk)
      (Trees.key_of 0) key.
Proof.
  assert (length (works small_clone) <= 100)%nat as Hlen.
  { change (length (works small_clone)) with (length (works small_clone)).
    rewrite <-(length_fmap folder_key_), small_clone_visits. simpl. lia. }
  split; [exact Hlen|].
  destruct (clone_complete Trees.key_of (Trees.server Trees.small_tree) Trees.one_chunk
    (Trees.one_chunk_serves Trees.small_tree) 3 (Trees.key_of 0) small_clone 0
    (Trees.cloned_driven _ _ _) ltac:(lia) small_clone_done Hlen)
    as (files & folders & _ & _ & Hreach & _).
  exact Hreach.
Defined.

(** A folder with more than a hundred subfolders is not cloned: the body stops at its limit
    of iterations before it has executed the listings that it queued, and calls back, without
    an error, with the contents of the root alone. *)
Theorem wide_folder_not_cloned :
  let s := Trees.cloned (Trees.wide_tree 101) 10 10 in
  driven (from_server (Trees.server (Trees.wide_tree 101))) 10
    (CreateClone (Trees.key_of 0)) s /\
  place s = CallerDone 100 /\ outcomes s = [([Trees.key_of 0], seqZ 1 101, [])] /\
  length (works s) = 101%nat /\ length (queued s) = 100%nat /\ io_service_ (manager s) = [].
Proof. intros s. split; [apply Trees.cloned_driven|]. by vm_compute. Qed.
