(* ===== verification/GetChanges.v ===== *)
(** * Polling for changes of a device ([api/actions/get_changes_device],
    [api/actions/get_foreign_changes_device])

    Two coroutines that ask for the changes after a revision in windows of 500 revisions.
    [GetChangesDevice] first asks for the revision of the device; [GetForeignChangesDevice]
    learns it from the answers.  The revisions are [uint32_t] and wrap around. *)
From S2P Require Import Prelude Errors Coroutine.

Open Scope Z_scope.

(** [max_revision] for a [min_revision].
    [api/actions/get_changes_device_impl.hpp:98-98 CoroutineBody] *)
Definition window_end (min_revision : Z) : Z := u32 ((min_revision / 500 + 1) * 500).

Section Changes.
Context {File Folder : Type} (folderkey : Folder -> str).

(** The fields of a response that the actions read.
    [api/device/get_changes/v0.hpp:33-81 Response] *)
Record Changes := {
  updated_files : list File;
  updated_folders : list Folder;
  deleted_files : list File;
  deleted_folders : list Folder }.

Definition no_changes : Changes :=
  {| updated_files := []; updated_folders := []; deleted_files := []; deleted_folders := [] |}.

(** [std::vector::insert] at the end of each of the four vectors.
    [api/actions/get_changes_device_impl.hpp:120-131 HandleDeviceGetChanges] *)
Definition add_changes (c d : Changes) : Changes :=
  {| updated_files := updated_files c ++ updated_files d;
     updated_folders := updated_folders c ++ updated_folders d;
     deleted_files := deleted_files c ++ deleted_files d;
     deleted_folders := deleted_folders c ++ deleted_folders d |}.

(** [api/device/get_status/v0.hpp:41-49 Response] *)
Record StatusResponse := {
  st_error_code : error_code;
  st_error_string : option str;
  st_device_revision : Z }.

(** [api/device/get_foreign_changes/v0.hpp:33-81 Response] *)
Record ChangesResponse := {
  chg_error_code : error_code;
  chg_error_string : option str;
  chg_device_revision : Z;
  chg_changes : Changes }.

(** [api/actions/get_changes_device.hpp:34-41 DeviceGetStatusErrorType] *)
Record DeviceGetStatusErrorType := {
  dgs_error_code : error_code;
  dgs_error_string : str }.

(** [api/actions/get_changes_device.hpp:44-53 DeviceGetChangesErrorType] *)
Record DeviceGetChangesErrorType := {
  dgc_start_revision : Z;
  dgc_error_code : error_code;
  dgc_error_string : str }.

(** ** GetChangesDevice *)

Inductive changes_call :=
  | DeviceGetStatus
  | DeviceGetChanges (revision : Z).

Inductive changes_answer :=
  | StatusAnswer (response : StatusResponse)
  | ChangesAnswer (response : ChangesResponse).

(** The two yields, with the local variables that are read after them.
    [api/actions/get_changes_device_impl.hpp:94-98 CoroutineBody] *)
Inductive changes_locals :=
  | AtStatus
  | AtChanges (start_revision max_revision : Z).

(** [calls], [cancels] and [answers] are not read by the code.
    [api/actions/get_changes_device.hpp:88-106 GetChangesDevice] *)
Record GetChangesDevice := {
  latest_known_revision_ : Z;
  latest_device_revision_ : Z;
  get_status_errors_ : list DeviceGetStatusErrorType;
  get_changes_errors_ : list DeviceGetChangesErrorType;
  changes_ : Changes;
  request_ : bool;      (** not null *)
  cancelled_ : bool;
  frame : position changes_locals;
  calls : list changes_call;
  cancels : nat;
  answers : list changes_answer;
  callbacks : list (Z * Changes * list DeviceGetStatusErrorType *
                    list DeviceGetChangesErrorType) }.

#[local] Instance GetChangesDevice_members : Members GetChangesDevice := fun s =>
  Build_GetChangesDevice (latest_known_revision_ s) (latest_device_revision_ s)
    (get_status_errors_ s) (get_changes_errors_ s) (changes_ s) (request_ s) (cancelled_ s)
    (frame s) (calls s) (cancels s) (answers s) (callbacks s).

Definition with_latest_device_revision_ := ltac:(setter latest_device_revision_).
Definition with_get_status_errors_ := ltac:(setter get_status_errors_).
Definition with_get_changes_errors_ := ltac:(setter get_changes_errors_).
Definition with_changes_ := ltac:(setter changes_).
Definition with_request_ := ltac:(setter request_).
Definition with_cancelled_ := ltac:(setter cancelled_).
Definition with_frame := ltac:(setter frame).
Definition with_calls := ltac:(setter calls).
Definition with_cancels := ltac:(setter cancels).
Definition with_answers := ltac:(setter answers).
Definition with_callbacks := ltac:(setter callbacks).

(** [latest_device_revision_] has no initialiser: its first value is arbitrary.
    [api/actions/get_changes_device_impl.hpp:39-48 GetChangesDevice] *)
Definition CreateChanges (garbage latest_known_revision : Z) : GetChangesDevice :=
  {| latest_known_revision_ := latest_known_revision; latest_device_revision_ := garbage;
     get_status_errors_ := []; get_changes_errors_ := []; changes_ := no_changes;
     request_ := false; cancelled_ := false; frame := NotStarted; calls := []; cancels := O;
     answers := []; callbacks := [] |}.

(** [api/actions/get_changes_device_impl.hpp:163-171 Cancel] *)
Definition CancelChanges (s : GetChangesDevice) : GetChangesDevice :=
  let s := with_cancelled_ true s in
  if request_ s then with_cancels (S (cancels s)) s else s.

(** [stm_->Call(...)] followed by the test of [cancelled_].
    [api/actions/get_changes_device_impl.hpp:140-144 CoroutineBody] *)
Definition call_changes (c : changes_call) (s : GetChangesDevice) : GetChangesDevice :=
  let s := with_request_ true (with_calls (calls s ++ [c]) s) in
  if cancelled_ s then with_cancels (S (cancels s)) s else s.

(** The loop's test, up to the next yield or the end.
    [api/actions/get_changes_device_impl.hpp:100-160 CoroutineBody] *)
Definition changes_loop (start_revision max_revision : Z) (s : GetChangesDevice) :
    GetChangesDevice :=
  if (start_revision <? latest_device_revision_ s) && negb (cancelled_ s) then
    with_frame (Suspended (AtChanges start_revision max_revision))
      (call_changes (DeviceGetChanges start_revision) s)
  else
    with_frame Complete
      (with_callbacks (callbacks s ++ [(latest_device_revision_ s, changes_ s,
                                       get_status_errors_ s, get_changes_errors_ s)]) s).

(** [api/actions/get_changes_device_impl.hpp:50-161 CoroutineBody] *)
Definition ResumeChanges : GetChangesDevice -> GetChangesDevice :=
  coro frame (with_frame Stuck)
    (fun s => with_frame (Suspended AtStatus) (call_changes DeviceGetStatus s))
    (fun l s =>
       match l with
       | AtStatus =>
           let start_revision := latest_known_revision_ s in
           let min_revision := u32 (latest_known_revision_ s + 1) in
           changes_loop start_revision (window_end min_revision) s
       | AtChanges _ max_revision =>
           let start_revision := max_revision in
           let min_revision := u32 (start_revision + 1) in
           changes_loop start_revision (window_end min_revision) s
       end).

(** [api/actions/get_changes_device_impl.hpp:63-87 HandleDeviceGetStatus] *)
Definition HandleDeviceGetStatus (response : StatusResponse) (s : GetChangesDevice) :
    GetChangesDevice :=
  let s := with_answers (answers s ++ [StatusAnswer response]) s in
  let s :=
    if is_error (st_error_code response) then
      with_get_status_errors_ (get_status_errors_ s ++
        [{| dgs_error_code := st_error_code response;
            dgs_error_string :=
              default (B "No error string provided") (st_error_string response) |}]) s
    else with_latest_device_revision_ (st_device_revision response) s in
  ResumeChanges (with_request_ false s).

(** [api/actions/get_changes_device_impl.hpp:102-138 HandleDeviceGetChanges] *)
Definition HandleDeviceGetChanges (start_revision : Z) (response : ChangesResponse)
    (s : GetChangesDevice) : GetChangesDevice :=
  let s := with_answers (answers s ++ [ChangesAnswer response]) s in
  let s :=
    if is_error (chg_error_code response) then
      with_get_changes_errors_ (get_changes_errors_ s ++
        [{| dgc_start_revision := start_revision;
            dgc_error_code := chg_error_code response;
            dgc_error_string :=
              default (B "No error string provided ") (chg_error_string response) |}]) s
    else with_changes_ (add_changes (changes_ s) (chg_changes response)) s in
  ResumeChanges (with_request_ false s).

(** The handler of the call that is under way. *)
Definition answer_changes (a : changes_answer) (s : GetChangesDevice) :
    option GetChangesDevice :=
  match frame s, a with
  | Suspended AtStatus, StatusAnswer r => Some (HandleDeviceGetStatus r s)
  | Suspended (AtChanges start _), ChangesAnswer r => Some (HandleDeviceGetChanges start r s)
  | _, _ => None
  end.

#[export] Instance changes_ops :
  CoroutineOps GetChangesDevice changes_answer
    (Z * Changes * list DeviceGetStatusErrorType * list DeviceGetChangesErrorType) := {
  Start := ResumeChanges;
  Answer := answer_changes;
  Cancel := CancelChanges;
  Phase s :=
    match callbacks s with
    | [] => match frame s with NotStarted => Idle | _ => Running end
    | r :: _ => Ended r
    end }.

(** ** GetForeignChangesDevice *)

(** [api/actions/get_foreign_changes_device.hpp:31-38 DeviceGetForeignChangesErrorType] *)
Record DeviceGetForeignChangesErrorType := {
  dgf_error_code : error_code;
  dgf_error_string : option str }.

(** [std::numeric_limits<uint32_t>::max()] *)
Definition uint32_max : Z := 2 ^ 32 - 1.

(** [api/actions/get_foreign_changes_device.hpp:75-97 GetForeignChangesDevice] *)
Record GetForeignChangesDevice := {
  contact_key_ : str;
  f_latest_known_revision_ : Z;
  f_latest_device_revision_ : Z;
  f_errors_ : list DeviceGetForeignChangesErrorType;
  f_changes_ : Changes;
  f_request_ : bool;
  f_cancelled_ : bool;
  f_frame : position (Z * Z);    (** [start_revision] and [max_revision] *)
  f_calls : list Z;              (** the revisions that were asked for *)
  f_cancels : nat;
  f_answers : list ChangesResponse;
  f_callbacks : list (Z * Changes * list DeviceGetForeignChangesErrorType) }.

#[local] Instance GetForeignChangesDevice_members : Members GetForeignChangesDevice := fun s =>
  Build_GetForeignChangesDevice (contact_key_ s) (f_latest_known_revision_ s)
    (f_latest_device_revision_ s) (f_errors_ s) (f_changes_ s) (f_request_ s) (f_cancelled_ s)
    (f_frame s) (f_calls s) (f_cancels s) (f_answers s) (f_callbacks s).

Definition with_f_latest_device_revision_ := ltac:(setter f_latest_device_revision_).
Definition with_f_errors_ := ltac:(setter f_errors_).
Definition with_f_changes_ := ltac:(setter f_changes_).
Definition with_f_request_ := ltac:(setter f_request_).
Definition with_f_cancelled_ := ltac:(setter f_cancelled_).
Definition with_f_frame := ltac:(setter f_frame).
Definition with_f_calls := ltac:(setter f_calls).
Definition with_f_cancels := ltac:(setter f_cancels).
Definition with_f_answers := ltac:(setter f_answers).
Definition with_f_callbacks := ltac:(setter f_callbacks).

(** [api/actions/get_foreign_changes_device_impl.hpp:27-38 GetForeignChangesDevice] *)
Definition CreateForeign (contact_key : str) (latest_known_revision : Z) :
    GetForeignChangesDevice :=
  {| contact_key_ := contact_key; f_latest_known_revision_ := latest_known_revision;
     f_latest_device_revision_ := uint32_max; f_errors_ := []; f_changes_ := no_changes;
     f_request_ := false; f_cancelled_ := false; f_frame := NotStarted; f_calls := [];
     f_cancels := O; f_answers := []; f_callbacks := [] |}.

(** [api/actions/get_foreign_changes_device_impl.hpp:40-47 Cancel] *)
Definition CancelForeign (s : GetForeignChangesDevice) : GetForeignChangesDevice :=
  let s := with_f_cancelled_ true s in
  if f_request_ s then with_f_cancels (S (f_cancels s)) s else s.

(** [api/actions/get_foreign_changes_device_impl.hpp:66-137 CoroutineBody] *)
Definition foreign_loop (start_revision max_revision : Z) (s : GetForeignChangesDevice) :
    GetForeignChangesDevice :=
  if (start_revision <? f_latest_device_revision_ s) && negb (f_cancelled_ s) then
    let s := with_f_request_ true (with_f_calls (f_calls s ++ [start_revision]) s) in
    let s := if f_cancelled_ s then with_f_cancels (S (f_cancels s)) s else s in
    with_f_frame (Suspended (start_revision, max_revision)) s
  else
    with_f_frame Complete
      (with_f_callbacks (f_callbacks s ++ [(start_revision, f_changes_ s, f_errors_ s)]) s).

(** [api/actions/get_foreign_changes_device_impl.hpp:49-138 CoroutineBody] *)
Definition ResumeForeign : GetForeignChangesDevice -> GetForeignChangesDevice :=
  coro f_frame (with_f_frame Stuck)
    (fun s =>
       let min_revision := u32 (f_latest_known_revision_ s + 1) in
       foreign_loop (f_latest_known_revision_ s) (window_end min_revision) s)
    (fun l s =>
       let start_revision := snd l in
       let min_revision := u32 (start_revision + 1) in
       foreign_loop start_revision (window_end min_revision) s).

(** The API lists the trash among the updated folders.
    [api/actions/get_foreign_changes_device_impl.hpp:96-98 HandleDeviceGetForeignChanges] *)
Definition without_trash (folders : list Folder) : list Folder :=
  filter (fun f => folderkey f <> B "trash") folders.

(** [api/actions/get_foreign_changes_device_impl.hpp:68-115 HandleDeviceGetForeignChanges] *)
Definition HandleDeviceGetForeignChanges (response : ChangesResponse)
    (s : GetForeignChangesDevice) : GetForeignChangesDevice :=
  let s := with_f_answers (f_answers s ++ [response]) s in
  let s :=
    if is_error (chg_error_code response) then
      with_f_errors_ (f_errors_ s ++
        [{| dgf_error_code := chg_error_code response;
            dgf_error_string := chg_error_string response |}]) s
    else
      let c := chg_changes response in
      let c := {| updated_files := updated_files c;
                  updated_folders := without_trash (updated_folders c);
                  deleted_files := deleted_files c; deleted_folders := deleted_folders c |} in
      let s := with_f_changes_ (add_changes (f_changes_ s) c) s in
      with_f_latest_device_revision_ (chg_device_revision response) s in
  ResumeForeign (with_f_request_ false s).

Definition answer_foreign (r : ChangesResponse) (s : GetForeignChangesDevice) :
    option GetForeignChangesDevice :=
  match f_frame s with
  | Suspended _ => Some (HandleDeviceGetForeignChanges r s)
  | _ => None
  end.

#[export] Instance foreign_ops :
  CoroutineOps GetForeignChangesDevice ChangesResponse
    (Z * Changes * list DeviceGetForeignChangesErrorType) := {
  Start := ResumeForeign;
  Answer := answer_foreign;
  Cancel := CancelForeign;
  Phase s :=
    match f_callbacks s with
    | [] => match f_frame s with NotStarted => Idle | _ => Running end
    | r :: _ => Ended r
    end }.

End Changes.
