(* ===== verification/GetChangesTheorems.v ===== *)
(** * Polling for changes: windows, results, and revisions near the top

    Which revisions the two coroutines ask for and what they return, for any answers. *)
From S2P Require Import Prelude Errors Coroutine GetChanges.

Open Scope Z_scope.

(** ** Windows of 500 revisions *)

(** The multiples of 500 in [[a, b)]. *)
Definition multiples (a b : Z) : list Z := filter (fun r => r mod 500 = 0) (seqZ a (b - a)).

Lemma multiples_none a b : (forall r, a <= r < b -> r mod 500 <> 0) -> multiples a b = [].
Proof.
  intros Hn. apply elem_of_nil_inv. intros r [Hr Hs%elem_of_seqZ]%list_elem_of_filter.
  apply (Hn r); [lia|done].
Qed.

Lemma multiples_app a b c : a <= b <= c -> multiples a c = multiples a b ++ multiples b c.
Proof.
  intros. unfold multiples. rewrite <-filter_app. f_equal.
  replace (c - a) with ((b - a) + (c - b)) by lia. rewrite seqZ_app by lia.
  do 2 f_equal. lia.
Qed.

Lemma multiples_one m : m mod 500 = 0 -> multiples m (m + 500) = [m].
Proof.
  intros Hm. rewrite (multiples_app m (m + 1)) by lia.
  rewrite (multiples_none (m + 1)) by (intros; zdiv). unfold multiples.
  replace (m + 1 - m) with 1 by lia. rewrite seqZ_cons, seqZ_nil by lia.
  by rewrite filter_cons_True.
Qed.

(** The largest multiple of 500 below [2^32] is 4294967000; beyond it windows wrap. *)
Definition last_window : Z := 4294967000.

Lemma window_end_spec r : 0 <= r < last_window ->
  window_end (u32 r) mod 500 = 0 /\ r < window_end (u32 r) <= r + 500.
Proof.
  unfold last_window, window_end. intros. rewrite (u32_small r) by lia.
  rewrite u32_small by zdiv. zdiv.
Qed.

Lemma window_end_low r : 0 <= window_end (u32 r) <= last_window.
Proof.
  unfold window_end, last_window. pose proof (u32_range r).
  assert (0 <= u32 r / 500 <= 8589934) as Hq by zdiv.
  destruct (decide (u32 r / 500 = 8589934)) as [->|]; [by vm_compute|].
  rewrite u32_small by lia. lia.
Qed.

Section Device.
Context {File Folder : Type}.
#[local] Abbreviation Device := (GetChangesDevice (File := File) (Folder := Folder)).
#[local] Abbreviation Changes := (Changes (File := File) (Folder := Folder)).
#[local] Abbreviation changes_answer := (changes_answer (File := File) (Folder := Folder)).

(** What an answer contributes. *)
Definition answered_changes (a : changes_answer) : option Changes :=
  match a with
  | ChangesAnswer r => if is_error (chg_error_code r) then None else Some (chg_changes r)
  | StatusAnswer _ => None
  end.

Definition status_error (a : changes_answer) : option DeviceGetStatusErrorType :=
  match a with
  | StatusAnswer r =>
      if is_error (st_error_code r) then
        Some {| dgs_error_code := st_error_code r;
                dgs_error_string :=
                  default (B "No error string provided") (st_error_string r) |}
      else None
  | ChangesAnswer _ => None
  end.

Definition changes_error (ca : changes_call * changes_answer) :
    option DeviceGetChangesErrorType :=
  match ca with
  | (DeviceGetChanges start, ChangesAnswer r) =>
      if is_error (chg_error_code r) then
        Some {| dgc_start_revision := start; dgc_error_code := chg_error_code r;
                dgc_error_string :=
                  default (B "No error string provided ") (chg_error_string r) |}
      else None
  | _ => None
  end.

Definition all_changes (cs : list Changes) : Changes := foldl add_changes no_changes cs.

Record device_data (s : Device) : Prop := {
  dd_changes : changes_ s = all_changes (omap answered_changes (answers s));
  dd_status : get_status_errors_ s = omap status_error (answers s);
  dd_errors : get_changes_errors_ s = omap changes_error (zip (calls s) (answers s)) }.

(** The revisions that are asked for before the window that ends at [max_revision]. *)
Definition windows (known max_revision : Z) : list changes_call :=
  DeviceGetStatus :: (DeviceGetChanges <$> known :: multiples (known + 2) max_revision).

Definition device_frame (known : Z) (s : Device) : Prop :=
  match frame s with
  | NotStarted => calls s = [] /\ answers s = [] /\ callbacks s = []
  | Suspended AtStatus => calls s = [DeviceGetStatus] /\ answers s = [] /\ callbacks s = []
  | Suspended (AtChanges start max) =>
      callbacks s = [] /\ length (calls s) = S (length (answers s)) /\
      last (calls s) = Some (DeviceGetChanges start) /\
      0 <= start < latest_device_revision_ s /\ 0 <= max <= last_window /\
      (latest_device_revision_ s < last_window ->
        calls s = windows known max /\ max mod 500 = 0 /\ known + 1 < max /\
        known < latest_device_revision_ s /\
        (max - 500 <= known + 1 \/ start = max - 500))
  | Complete =>
      length (calls s) = length (answers s) /\
      callbacks s = [(latest_device_revision_ s, changes_ s, get_status_errors_ s,
                      get_changes_errors_ s)] /\
      (cancelled_ s = false ->
        (latest_device_revision_ s <= last_window \/ latest_device_revision_ s <= known) /\
        (latest_device_revision_ s < last_window ->
          calls s = if known <? latest_device_revision_ s
                    then windows known (latest_device_revision_ s)
                    else [DeviceGetStatus]))
  | Stuck => False
  end.

Definition device_inv (known : Z) (s : Device) : Prop :=
  0 <= known < 2 ^ 32 /\ latest_known_revision_ s = known /\ device_data s /\
  device_frame known s.

Lemma call_changes_spec c (s : Device) :
  call_changes c s =
  with_cancels (if cancelled_ s then S (cancels s) else cancels s)
    (with_request_ true (with_calls (calls s ++ [c]) s)).
Proof. unfold call_changes. cbn. destruct (cancelled_ s); by destruct s. Qed.

Lemma zip_snoc_left {X Y} (l : list X) (k : list Y) x :
  length l = length k -> zip (l ++ [x]) k = zip l k.
Proof. revert k. induction l as [|a l IH]; intros [|b k]; simpl; intros [=]; f_equal; auto. Qed.

Lemma device_data_ext (s s' : Device) :
  changes_ s' = changes_ s -> get_status_errors_ s' = get_status_errors_ s ->
  get_changes_errors_ s' = get_changes_errors_ s -> answers s' = answers s ->
  zip (calls s') (answers s) = zip (calls s) (answers s) -> device_data s -> device_data s'.
Proof.
  intros H1 H2 H3 H4 H5 [? ? ?]. split; rewrite ?H1, ?H2, ?H3, ?H4; try done. by rewrite H5.
Qed.

(** The revisions asked for when the loop is tested with [start]. *)
Definition at_window (known start max : Z) (s : Device) : Prop :=
  (start = known /\ calls s = [DeviceGetStatus] /\
   (start < latest_device_revision_ s ->
     max mod 500 = 0 /\ known + 1 < max /\ max - 500 <= known + 1)) \/
  (calls s = windows known start /\ start mod 500 = 0 /\
   (start < latest_device_revision_ s -> max = start + 500) /\
   known + 1 < start /\ known < latest_device_revision_ s /\
   (start - 500 <= known + 1 \/ start - 500 < latest_device_revision_ s)).

Lemma windows_latest known start latest :
  start mod 500 = 0 -> known + 1 < start -> known < latest <= start ->
  (start - 500 <= known + 1 \/ start - 500 < latest) ->
  windows known start = windows known latest.
Proof.
  intros Hm Hk Hl Hp. unfold windows. do 3 f_equal.
  destruct (decide (known + 2 <= latest)).
  - rewrite (multiples_app _ latest) by lia.
    by rewrite (multiples_none latest), app_nil_r by (intros; zdiv).
  - rewrite !multiples_none; [done|intros; lia|intros; zdiv].
Qed.

Lemma windows_next known start : start mod 500 = 0 -> known + 1 < start ->
  windows known start ++ [DeviceGetChanges start] = windows known (start + 500).
Proof.
  intros Hm Hk. unfold windows. rewrite (multiples_app _ start (start + 500)) by lia.
  rewrite multiples_one by done. cbn. by rewrite fmap_app.
Qed.

Lemma changes_loop_inv known start (s : Device) :
  0 <= known < 2 ^ 32 -> latest_known_revision_ s = known -> device_data s ->
  length (calls s) = length (answers s) -> callbacks s = [] ->
  0 <= start -> (start = known \/ start <= last_window) ->
  (latest_device_revision_ s < last_window ->
    at_window known start (window_end (u32 (start + 1))) s) ->
  device_inv known (changes_loop start (window_end (u32 (start + 1))) s).
Proof.
  intros Hk Hkn Hd Hlen Hcb Hs0 Hsk Hat. pose proof (window_end_low (start + 1)) as Hlow.
  unfold changes_loop, device_inv, device_frame in *.
  destruct (start <? latest_device_revision_ s) eqn:Hlt;
    [destruct (cancelled_ s) eqn:Hcan|]; cbn [andb negb].
  2: { rewrite call_changes_spec. refine (conj Hk (conj Hkn (conj _ _))).
    - apply (device_data_ext s); try done. cbn. by rewrite zip_snoc_left.
    - cbn. apply Z.ltb_lt in Hlt. split_and!; try done; try lia.
      + rewrite length_app. simpl. lia.
      + by rewrite last_snoc.
      + intros Hl. destruct (Hat Hl) as [(-> & Hc & Hm)|(Hc & Hm' & Hm & Hk1 & Hkl & _)];
          rewrite Hc.
        * destruct (Hm Hlt) as (? & ? & ?). split_and!; [|done|lia|done|by left]. unfold windows.
          rewrite multiples_none; [done|]. intros. zdiv.
        * rewrite (Hm Hlt). split_and!; [by apply windows_next|zdiv|lia|done|right; lia]. }
  all: refine (conj Hk (conj Hkn (conj _ _))); [by apply (device_data_ext s)|].
  all: cbn; rewrite Hcb; split_and!; try done; intros Hc; try congruence.
  apply Z.ltb_ge in Hlt. split; [lia|]. intros Hl.
  destruct (Hat Hl) as [(-> & Hcs & _)|(Hcs & Hm & _ & Hk1 & Hkl & Hp)]; rewrite Hcs.
  - by rewrite (proj2 (Z.ltb_ge _ _) Hlt).
  - rewrite (proj2 (Z.ltb_lt _ _) Hkl). apply windows_latest; auto; lia.
Qed.

(** ** Steps *)

Lemma zip_snoc_both {X Y} (l : list X) (k : list Y) x y :
  last l = Some x -> length l = S (length k) -> zip l (k ++ [y]) = zip l k ++ [(x, y)].
Proof.
  intros Hl Hlen. apply last_Some in Hl as [l' ->].
  rewrite length_app in Hlen. simpl in Hlen. assert (length l' = length k) as Hk by lia.
  rewrite zip_with_app by done. by rewrite zip_snoc_left.
Qed.

Lemma last_call_data (s s' : Device) c a :
  device_data s -> last (calls s) = Some c -> length (calls s) = S (length (answers s)) ->
  answers s' = answers s ++ [a] -> calls s' = calls s ->
  changes_ s' = match answered_changes a with
                | Some d => add_changes (changes_ s) d | None => changes_ s end ->
  get_status_errors_ s' = get_status_errors_ s ++
    match status_error a with Some e => [e] | None => [] end ->
  get_changes_errors_ s' = get_changes_errors_ s ++
    match changes_error (c, a) with Some e => [e] | None => [] end ->
  device_data s'.
Proof.
  intros [Hd Hs He] Hl Hlen Ha Hc Hd' Hs' He'. split; rewrite Ha.
  - rewrite Hd', omap_snoc, Hd. unfold all_changes. destruct (answered_changes a).
    + by rewrite foldl_app.
    + by rewrite app_nil_r.
  - by rewrite Hs', omap_snoc, Hs.
  - by rewrite He', Hc, (zip_snoc_both _ _ c), omap_snoc, He.
Qed.

Lemma answer_changes_inv known a (s s' : Device) :
  device_inv known s -> answer_changes a s = Some s' -> device_inv known s'.
Proof.
  intros (Hk & Hkn & Hd & Hf) Ha. unfold device_frame, answer_changes in *.
  destruct (frame s) as [|[|start max]| |] eqn:Hfr, a as [r|r]; try done; injection Ha as <-.
  - destruct Hf as (Hc & Hans & Hcb). unfold HandleDeviceGetStatus.
    set (s1 := with_request_ false _).
    assert (calls s1 = [DeviceGetStatus] /\ answers s1 = [StatusAnswer r] /\
            callbacks s1 = [] /\ latest_known_revision_ s1 = known /\
            frame s1 = Suspended AtStatus) as (Hc1 & Ha1 & Hcb1 & Hk1 & Hf1).
    { unfold s1. destruct (is_error _); cbn; by rewrite Hans. }
    assert (device_data s1) as Hd1.
    { apply (last_call_data s _ DeviceGetStatus (StatusAnswer r)); try done;
        rewrite ?Hc, ?Hans, ?Hc1, ?Ha1; try done;
        unfold s1; destruct (is_error _) eqn:He; cbn; by rewrite ?He, ?app_nil_r. }
    unfold ResumeChanges, coro. rewrite Hf1, Hk1.
    apply changes_loop_inv; try done; [by rewrite Hc1, Ha1|lia|by left|].
    intros Hl. left. split_and!; [done|done|]. intros Hlt. unfold last_window in *.
    destruct (window_end_spec (known + 1)) as [? ?]; [unfold last_window; lia|]. lia.
  - destruct Hf as (Hcb & Hlen & Hl & Hst & Hmx & Hw). unfold HandleDeviceGetChanges.
    set (s1 := with_request_ false _).
    assert (calls s1 = calls s /\ answers s1 = answers s ++ [ChangesAnswer r] /\
            callbacks s1 = [] /\ latest_known_revision_ s1 = known /\
            frame s1 = Suspended (AtChanges start max) /\
            latest_device_revision_ s1 = latest_device_revision_ s)
      as (Hc1 & Ha1 & Hcb1 & Hk1 & Hf1 & Hr1).
    { unfold s1. destruct (is_error _); cbn; by rewrite Hcb. }
    assert (device_data s1) as Hd1.
    { apply (last_call_data s _ (DeviceGetChanges start) (ChangesAnswer r)); try done;
        unfold s1; destruct (is_error _) eqn:He; cbn; by rewrite ?He, ?app_nil_r. }
    unfold ResumeChanges, coro. rewrite Hf1.
    apply changes_loop_inv; try done.
    + rewrite Hc1, Ha1, length_app. simpl. lia.
    + lia.
    + right. lia.
    + rewrite Hr1. intros Hlat. destruct (Hw Hlat) as (Hcs & Hm & Hk2 & Hkl & Hp). right.
      rewrite Hc1, Hr1. split_and!; try done; try lia.
      intros Hlt. unfold last_window in *.
      destruct (window_end_spec (max + 1)) as [? ?]; [unfold last_window; lia|]. zdiv.
Qed.

(** ** Reachable states *)

Lemma start_changes_inv known (s : Device) :
  device_inv known s -> frame s = NotStarted -> device_inv known (ResumeChanges s).
Proof.
  intros (Hk & Hkn & Hd & Hf) Hfr. unfold device_frame in Hf. rewrite Hfr in Hf.
  destruct Hf as (Hc & Ha & Hcb). unfold ResumeChanges, coro. rewrite Hfr, call_changes_spec.
  refine (conj Hk (conj Hkn (conj _ _))).
  - apply (device_data_ext s); try done. cbn. by rewrite Hc, Ha.
  - unfold device_frame. cbn. by rewrite Hc.
Qed.

Lemma cancel_changes_inv known (s : Device) :
  device_inv known s -> device_inv known (CancelChanges s).
Proof.
  intros (Hk & Hkn & Hd & Hf).
  assert (exists c, CancelChanges s = with_cancels c (with_cancelled_ true s)) as [c ->].
  { unfold CancelChanges. cbn. destruct (request_ s); [by eexists|].
    exists (cancels s). by destruct s. }
  refine (conj Hk (conj Hkn (conj _ _))); [by apply (device_data_ext s)|].
  unfold device_frame in *. cbn. destruct (frame s) as [|[]| |]; try done.
  by destruct Hf as (? & ? & _).
Qed.

Lemma changes_phase known (s : Device) : device_inv known s ->
  Phase s = match frame s with
            | NotStarted => Idle
            | Suspended _ | Stuck => Running
            | Complete => Ended (latest_device_revision_ s, changes_ s, get_status_errors_ s,
                                 get_changes_errors_ s)
            end.
Proof.
  intros (_ & _ & _ & Hf). unfold device_frame in Hf. cbn.
  destruct (frame s) as [|[]| |]; try done.
  - by destruct Hf as (_ & _ & ->).
  - by destruct Hf as (_ & _ & ->).
  - by destruct Hf as (-> & _).
  - by destruct Hf as (_ & -> & _).
Qed.

Lemma changes_loop_started start max (s : Device) :
  frame (changes_loop start max s) <> NotStarted.
Proof. unfold changes_loop. by case_match. Qed.

Lemma resume_changes_started (s : Device) : frame (ResumeChanges s) <> NotStarted.
Proof.
  unfold ResumeChanges, coro.
  destruct (frame s) as [|[]| |]; try done; apply changes_loop_started.
Qed.

Lemma answer_changes_phase known a (s s' : Device) :
  device_inv known s -> answer_changes a s = Some s' -> Phase s = Running /\ Phase s' <> Idle.
Proof.
  intros Hi Ha. rewrite (changes_phase known s Hi).
  rewrite (changes_phase known s' (answer_changes_inv known a s s' Hi Ha)).
  unfold answer_changes in Ha.
  destruct (frame s) as [|[]| |], a; try done; injection Ha as <-; (split; [done|]);
    unfold HandleDeviceGetStatus, HandleDeviceGetChanges;
    match goal with |- match frame (ResumeChanges ?x) with _ => _ end <> _ =>
      pose proof (resume_changes_started x); by destruct (frame (ResumeChanges x)) end.
Qed.

#[export] Instance changes_laws known : CoroutineLaws (device_inv known).
Proof.
  split.
  - intros s Hi Hp. rewrite (changes_phase known s Hi) in Hp.
    assert (frame s = NotStarted) as Hf by (by destruct (frame s)).
    pose proof (start_changes_inv known s Hi Hf) as Hi'. split; [done|].
    change (Phase (ResumeChanges s) <> Idle). rewrite (changes_phase known _ Hi').
    pose proof (resume_changes_started s). by destruct (frame (ResumeChanges s)).
  - intros a s s' Hi Ha. split; [by apply (answer_changes_inv known a s)|].
    by apply (answer_changes_phase known a).
  - intros s Hi Hp. rewrite (changes_phase known s Hi) in Hp. cbn. unfold answer_changes.
    destruct (frame s) as [|[|start max]| |] eqn:Hf; try done.
    + exists (StatusAnswer {| st_error_code := no_error; st_error_string := None;
                              st_device_revision := 0 |}). by eexists.
    + exists (ChangesAnswer {| chg_error_code := no_error; chg_error_string := None;
                               chg_device_revision := 0; chg_changes := no_changes |}).
      by eexists.
    + by destruct Hi as (_ & _ & _ & Hfr); unfold device_frame in Hfr; rewrite Hf in Hfr.
  - intros s Hi. pose proof (cancel_changes_inv known s Hi) as Hi'. split; [done|].
    change (Phase (CancelChanges s) = Phase s).
    rewrite (changes_phase known _ Hi), (changes_phase known _ Hi').
    unfold CancelChanges. cbn. by destruct (request_ s).
Qed.

Inductive changes_reachable (garbage known : Z) : Device -> Prop :=
  | cr_created : changes_reachable garbage known (CreateChanges garbage known)
  | cr_started s : changes_reachable garbage known s -> Phase s = Idle ->
      changes_reachable garbage known (Start s)
  | cr_answered a s s' : changes_reachable garbage known s -> Answer a s = Some s' ->
      changes_reachable garbage known s'
  | cr_cancelled s : changes_reachable garbage known s ->
      changes_reachable garbage known (Cancel s).

Lemma changes_reachable_inv garbage known s : 0 <= known < 2 ^ 32 ->
  changes_reachable garbage known s -> device_inv known s.
Proof.
  intros Hk. induction 1 as [|s _ IH Hp|a s s' _ IH Ha|s _ IH].
  - refine (conj Hk (conj _ (conj _ _))); [done|by split|done].
  - exact (proj1 (start_ok (ok := device_inv known) s IH Hp)).
  - exact (proj1 (answer_ok (ok := device_inv known) a s s' IH Ha)).
  - exact (proj1 (cancel_ok (ok := device_inv known) s IH)).
Qed.

(** C29 A poll that is not cancelled, of a device whose revision is below 4294967000, asks for
    the status and then, if the device is ahead of the known revision, for the changes after
    the known revision and after every multiple of 500 that is at least the known revision
    plus 2 and below the device's revision, each once and in order.  (The first window ends
    above the first unknown revision: from 499 the poll goes on at 1000, not at 500.)  The
    callback gets the device's revision, what the successful answers contained, in order,
    and the errors of the others. *)
Theorem device_changes_complete garbage known s result :
  0 <= known < 2 ^ 32 -> changes_reachable garbage known s -> cancelled_ s = false ->
  Phase s = Ended result -> latest_device_revision_ s < last_window ->
  result = (latest_device_revision_ s, all_changes (omap answered_changes (answers s)),
            omap status_error (answers s), omap changes_error (zip (calls s) (answers s))) /\
  length (answers s) = length (calls s) /\
  calls s = DeviceGetStatus ::
    (DeviceGetChanges <$>
      if known <? latest_device_revision_ s
      then known :: multiples (known + 2) (latest_device_revision_ s) else []).
Proof.
  intros Hk Hr Hc Hp Hl. pose proof (changes_reachable_inv _ _ _ Hk Hr) as Hi.
  rewrite (changes_phase known s Hi) in Hp. destruct Hi as (_ & _ & [Hd Hs He] & Hf).
  unfold device_frame in Hf. destruct (frame s); try done. injection Hp as <-.
  destruct Hf as (Hlen & _ & Hcs). destruct (Hcs Hc) as [_ Hcl]. rewrite <-Hd, <-Hs, <-He.
  split_and!; [done|done|]. rewrite (Hcl Hl). by destruct (known <? _).
Qed.

(** Near the top of the 32-bit revisions the windows wrap around: if the device is beyond
    the last multiple of 500 and ahead of what is known, a poll that is not cancelled never
    ends, whatever the answers are. *)
Theorem device_changes_wrap garbage known s :
  0 <= known < 2 ^ 32 -> changes_reachable garbage known s -> cancelled_ s = false ->
  last_window < latest_device_revision_ s -> known < latest_device_revision_ s ->
  forall result, Phase s <> Ended result.
Proof.
  intros Hk Hr Hc Hl Hkl result Hp. pose proof (changes_reachable_inv _ _ _ Hk Hr) as Hi.
  rewrite (changes_phase known s Hi) in Hp. destruct Hi as (_ & _ & _ & Hf).
  unfold device_frame in Hf. destruct (frame s); try done.
  destruct Hf as (_ & _ & Hcs). destruct (Hcs Hc) as [Hle _]. lia.
Qed.

End Device.

(** ** Examples: files and folders are numbers. *)
Module Polls.

Definition status (revision : Z) : changes_answer (File := Z) (Folder := Z) :=
  StatusAnswer {| st_error_code := no_error; st_error_string := None;
                  st_device_revision := revision |}.

Definition updated (file : Z) : changes_answer (File := Z) (Folder := Z) :=
  ChangesAnswer {| chg_error_code := no_error; chg_error_string := None;
                   chg_device_revision := 0;
                   chg_changes := {| updated_files := [file]; updated_folders := [];
                                     deleted_files := []; deleted_folders := [] |} |}.

Definition failed : changes_answer (File := Z) (Folder := Z) :=
  ChangesAnswer {| chg_error_code := http_code IoTimeout; chg_error_string := None;
                   chg_device_revision := 0; chg_changes := no_changes |}.

Fixpoint answer_all (xs : list (changes_answer (File := Z) (Folder := Z)))
    (s : GetChangesDevice) : option (GetChangesDevice (File := Z) (Folder := Z)) :=
  match xs with
  | [] => Some s
  | x :: xs => match Answer x s with Some s' => answer_all xs s' | None => None end
  end.

Definition polled (known : Z) (xs : list changes_answer) :
    GetChangesDevice (File := Z) (Folder := Z) :=
  let s := Start (CreateChanges 0 known) in default s (answer_all xs s).

Lemma answer_all_reachable garbage known xs s s' :
  changes_reachable garbage known s -> answer_all xs s = Some s' ->
  changes_reachable garbage known s'.
Proof.
  revert s. induction xs as [|x xs IH]; intros s Hr; cbn; [by intros [= <-]|].
  destruct (answer_changes x s) as [s1|] eqn:Hx; [|done]. apply IH. by eapply cr_answered.
Qed.

Lemma polled_reachable known xs : changes_reachable 0 known (polled known xs).
Proof.
  assert (changes_reachable (File := Z) (Folder := Z) 0 known (Start (CreateChanges 0 known)))
    as Hs by by (apply cr_started; [apply cr_created|]).
  unfold polled. destruct (answer_all _ _) as [s|] eqn:Hr; [|done].
  exact (answer_all_reachable _ _ _ _ _ Hs Hr).
Qed.

(** From revision 3 to revision 900: two windows, the second request fails. *)
Definition small : GetChangesDevice (File := Z) (Folder := Z) :=
  polled 3 [status 900; updated 7; failed].

(** The device is at the last revision. *)
Definition top : GetChangesDevice (File := Z) (Folder := Z) :=
  polled 4294966000 [status (2 ^ 32 - 1); updated 1; updated 2; updated 3; updated 4].

End Polls.

Lemma device_changes_complete_witness :
  calls Polls.small = [DeviceGetStatus; DeviceGetChanges 3; DeviceGetChanges 500] /\
  omap changes_error (zip (calls Polls.small) (answers Polls.small)) =
    [{| dgc_start_revision := 500; dgc_error_code := http_code IoTimeout;
        dgc_error_string := B "No error string provided " |}].
Proof.
  assert (Phase Polls.small = Ended (900, {| updated_files := [7]; updated_folders := [];
    deleted_files := []; deleted_folders := [] |}, [],
    [{| dgc_start_revision := 500; dgc_error_code := http_code IoTimeout;
        dgc_error_string := B "No error string provided " |}])) as Hp by by vm_compute.
  pose proof (device_changes_complete 0 3 Polls.small _ ltac:(lia)
    (Polls.polled_reachable _ _) eq_refl Hp ltac:(by vm_compute)) as (Hr & _ & Hc).
  split; [rewrite Hc; by vm_compute|exact (eq_sym (f_equal snd Hr))].
Defined.

(** The window after 4294967000 starts at 204. *)
Lemma device_changes_wrap_witness :
  calls Polls.top = [DeviceGetStatus; DeviceGetChanges 4294966000;
    DeviceGetChanges 4294966500; DeviceGetChanges 4294967000; DeviceGetChanges 204;
    DeviceGetChanges 500] /\
  forall result, Phase Polls.top <> Ended result.
Proof.
  split; [by vm_compute|].
  apply (device_changes_wrap 0 4294966000);
    [lia|apply Polls.polled_reachable|by vm_compute|by vm_compute|by vm_compute].
Defined.
