(* ===== verification/GetForeignChangesTheorems.v ===== *)
(** * Polling for changes of a shared device: order, results, and the revision reported

    What [GetForeignChangesDevice] asks for and returns, for any answers.  It learns the
    device's revision from the answers, and reports the start of the next window. *)
From S2P Require Import Prelude Errors Coroutine GetChanges GetChangesTheorems.

Open Scope Z_scope.

(** The start of the window after the one of [start]. *)
Definition next_start (start : Z) : Z := window_end (u32 (start + 1)).

(** The starts of the first [n] windows after [known]. *)
Fixpoint starts (n : nat) (known : Z) : list Z :=
  match n with O => [] | S n => known :: starts n (next_start known) end.

Lemma starts_snoc n known :
  starts (S n) known = starts n known ++ [Nat.iter n next_start known].
Proof.
  revert known. induction n as [|n IH]; intros known; [done|].
  change (starts (S (S n)) known) with (known :: starts (S n) (next_start known)).
  by rewrite IH, (Nat.iter_succ_r n).
Qed.

Lemma next_start_low start : 0 <= next_start start <= last_window.
Proof. apply window_end_low. Qed.

(** Until the revisions wrap, the windows start at the multiples of 500. *)
Lemma next_start_iter n known : 0 <= known -> known + 500 * Z.of_nat n < last_window ->
  n <> O -> Nat.iter n next_start known = ((known + 1) / 500 + Z.of_nat n) * 500.
Proof.
  intros Hk. induction n as [|n IH]; intros Hl Hn; [done|]. cbn [Nat.iter].
  assert (0 <= Nat.iter n next_start known /\
    (Nat.iter n next_start known + 1) / 500 = (known + 1) / 500 + Z.of_nat n /\
    Nat.iter n next_start known < last_window) as (H0 & Hd & Hlt).
  { destruct n as [|n]; [cbn; zdiv|]. rewrite IH by lia. unfold last_window in *. zdiv. }
  change (window_end (u32 (Nat.iter n next_start known + 1)) =
          ((known + 1) / 500 + Z.of_nat (S n)) * 500).
  unfold window_end, last_window in *. rewrite (u32_small (_ + 1)), u32_small by zdiv. lia.
Qed.

Section Foreign.
Context {File Folder : Type} (folderkey : Folder -> str).
#[local] Abbreviation Foreign := (GetForeignChangesDevice (File := File) (Folder := Folder)).
#[local] Abbreviation Changes := (Changes (File := File) (Folder := Folder)).
#[local] Abbreviation ChangesResponse := (ChangesResponse (File := File) (Folder := Folder)).

#[local] Existing Instance foreign_ops.
#[local] Abbreviation PhaseF := (Phase (CoroutineOps := foreign_ops folderkey)).

(** What an answer contributes. *)
Definition foreign_changes (r : ChangesResponse) : option Changes :=
  if is_error (chg_error_code r) then None
  else Some {| updated_files := updated_files (chg_changes r);
               updated_folders := without_trash folderkey (updated_folders (chg_changes r));
               deleted_files := deleted_files (chg_changes r);
               deleted_folders := deleted_folders (chg_changes r) |}.

Definition foreign_error (r : ChangesResponse) : option DeviceGetForeignChangesErrorType :=
  if is_error (chg_error_code r) then
    Some {| dgf_error_code := chg_error_code r; dgf_error_string := chg_error_string r |}
  else None.

Definition foreign_revision (r : ChangesResponse) : option Z :=
  if is_error (chg_error_code r) then None else Some (chg_device_revision r).

(** The device's revision as the last successful answer has it. *)
Definition latest_revision (rs : list ChangesResponse) : Z :=
  default uint32_max (last (omap foreign_revision rs)).

Record foreign_data (s : Foreign) : Prop := {
  fd_changes : f_changes_ s = all_changes (omap foreign_changes (f_answers s));
  fd_errors : f_errors_ s = omap foreign_error (f_answers s);
  fd_latest : f_latest_device_revision_ s = latest_revision (f_answers s) }.

Definition foreign_frame (known : Z) (s : Foreign) : Prop :=
  let n := length (f_answers s) in
  match f_frame s with
  | NotStarted => f_calls s = [] /\ f_answers s = [] /\ f_callbacks s = []
  | Suspended (start, max) =>
      f_callbacks s = [] /\ f_calls s = starts (S n) known /\
      start = Nat.iter n next_start known /\ max = next_start start
  | Complete =>
      f_calls s = starts n known /\
      f_callbacks s = [(Nat.iter n next_start known, f_changes_ s, f_errors_ s)] /\
      (f_cancelled_ s = false -> f_latest_device_revision_ s <= Nat.iter n next_start known)
  | Stuck => False
  end.

Definition foreign_inv (known : Z) (s : Foreign) : Prop :=
  f_latest_known_revision_ s = known /\ foreign_data s /\ foreign_frame known s.

Lemma foreign_loop_inv known start (s : Foreign) :
  f_latest_known_revision_ s = known -> foreign_data s -> f_callbacks s = [] ->
  start = Nat.iter (length (f_answers s)) next_start known ->
  f_calls s = starts (length (f_answers s)) known ->
  foreign_inv known (foreign_loop start (next_start start) s).
Proof.
  intros Hk [Hd He Hl] Hcb Hs Hc. unfold foreign_loop, foreign_inv, foreign_frame.
  destruct (start <? f_latest_device_revision_ s) eqn:Hlt;
    [destruct (f_cancelled_ s) eqn:Hcan|]; cbn [andb negb].
  - refine (conj Hk (conj _ _)); [by split|]. cbn -[Nat.iter starts]. rewrite Hcb, <-Hs, Hcan.
    by split_and!.
  - cbn -[Nat.iter starts]. rewrite Hcan. refine (conj Hk (conj _ _)); [by split|].
    cbn [f_frame with_f_frame].
    split_and!; [done| |done|done]. rewrite starts_snoc. cbn -[Nat.iter starts].
    by rewrite <-Hs, <-Hc.
  - refine (conj Hk (conj _ _)); [by split|]. cbn -[Nat.iter starts]. rewrite Hcb, <-Hs.
    split_and!; [done|done|]. intros _. by apply Z.ltb_ge.
Qed.

Lemma last_omap_snoc {X Y} (f : X -> option Y) l x d :
  default d (last (omap f (l ++ [x]))) =
  match f x with Some y => y | None => default d (last (omap f l)) end.
Proof. rewrite omap_snoc. destruct (f x); [by rewrite last_snoc|by rewrite app_nil_r]. Qed.

Lemma answer_foreign_inv known r (s s' : Foreign) :
  foreign_inv known s -> answer_foreign folderkey r s = Some s' -> foreign_inv known s'.
Proof.
  intros (Hk & [Hd He Hl] & Hf) Ha. unfold foreign_frame, answer_foreign in *.
  destruct (f_frame s) as [|[start max]| |] eqn:Hfr; try done. injection Ha as <-.
  destruct Hf as (Hcb & Hc & Hst & ->). unfold HandleDeviceGetForeignChanges.
  set (s1 := with_f_request_ false _).
  assert (f_calls s1 = f_calls s /\ f_answers s1 = f_answers s ++ [r] /\
          f_callbacks s1 = [] /\ f_latest_known_revision_ s1 = known /\
          f_frame s1 = Suspended (start, next_start start))
    as (Hc1 & Ha1 & Hcb1 & Hk1 & Hf1).
  { unfold s1. destruct (is_error _); cbn; by rewrite Hcb. }
  assert (foreign_data s1) as Hd1.
  { split; rewrite Ha1; unfold latest_revision; rewrite ?last_omap_snoc, ?omap_snoc, <-?Hd;
      unfold s1, foreign_changes, foreign_error, foreign_revision, all_changes in *;
      destruct (is_error _) eqn:Her; cbn; rewrite ?app_nil_r, ?foldl_app, <-?He, <-?Hd; done. }
  assert (length (f_answers s1) = S (length (f_answers s))) as Hn
    by (rewrite Ha1, length_app; simpl; lia).
  unfold ResumeForeign, coro. rewrite Hf1. cbn [snd].
  apply foreign_loop_inv; try done; rewrite Hn; [by rewrite Hst|by rewrite Hc1].
Qed.

Lemma start_foreign_inv known (s : Foreign) :
  foreign_inv known s -> f_frame s = NotStarted -> foreign_inv known (ResumeForeign s).
Proof.
  intros (Hk & Hd & Hf) Hfr. unfold foreign_frame in Hf. rewrite Hfr in Hf.
  destruct Hf as (Hc & Ha & Hcb). unfold ResumeForeign, coro. rewrite Hfr, Hk.
  apply foreign_loop_inv; by rewrite ?Hc, ?Ha.
Qed.

Lemma cancel_foreign_inv known (s : Foreign) :
  foreign_inv known s -> foreign_inv known (CancelForeign s).
Proof.
  intros (Hk & [Hd He Hl] & Hf).
  assert (exists c, CancelForeign s = with_f_cancels c (with_f_cancelled_ true s)) as [c ->].
  { unfold CancelForeign. cbn. destruct (f_request_ s); [by eexists|].
    exists (f_cancels s). by destruct s. }
  refine (conj Hk (conj _ _)); [by split|].
  unfold foreign_frame in *. cbn. destruct (f_frame s) as [|[]| |]; try done.
  by destruct Hf as (? & ? & _).
Qed.

Lemma foreign_phase known (s : Foreign) : foreign_inv known s ->
  PhaseF s = match f_frame s with
             | NotStarted => Idle
             | Suspended _ | Stuck => Running
             | Complete => Ended (Nat.iter (length (f_answers s)) next_start known,
                                  f_changes_ s, f_errors_ s)
             end.
Proof.
  intros (_ & _ & Hf). unfold foreign_frame in Hf. cbn.
  destruct (f_frame s) as [|[]| |]; try done.
  - by destruct Hf as (_ & _ & ->).
  - by destruct Hf as (-> & _).
  - by destruct Hf as (_ & -> & _).
Qed.

Lemma resume_foreign_started (s : Foreign) : f_frame (ResumeForeign s) <> NotStarted.
Proof.
  unfold ResumeForeign, coro, foreign_loop. destruct (f_frame s) as [|[]| |]; try done;
    by case_match.
Qed.

#[export] Instance foreign_laws known :
  CoroutineLaws (H := foreign_ops folderkey) (foreign_inv known).
Proof.
  split.
  - intros s Hi Hp. rewrite (foreign_phase known s Hi) in Hp.
    assert (f_frame s = NotStarted) as Hf by (by destruct (f_frame s)).
    pose proof (start_foreign_inv known s Hi Hf) as Hi'. split; [done|].
    change (PhaseF (ResumeForeign s) <> Idle). rewrite (foreign_phase known _ Hi').
    pose proof (resume_foreign_started s). by destruct (f_frame (ResumeForeign s)).
  - intros a s s' Hi Ha. pose proof (answer_foreign_inv known a s s' Hi Ha) as Hi'.
    split; [done|]. rewrite (foreign_phase known s Hi), (foreign_phase known s' Hi').
    cbn in Ha. unfold answer_foreign in Ha.
    destruct (f_frame s); try done; injection Ha as <-. split; [done|].
    unfold HandleDeviceGetForeignChanges.
    match goal with |- match f_frame (ResumeForeign ?x) with _ => _ end <> _ =>
      pose proof (resume_foreign_started x); by destruct (f_frame (ResumeForeign x)) end.
  - intros s Hi Hp. rewrite (foreign_phase known s Hi) in Hp. cbn. unfold answer_foreign.
    destruct (f_frame s) as [|?| |] eqn:Hf; try done.
    + exists {| chg_error_code := no_error; chg_error_string := None;
                chg_device_revision := 0; chg_changes := no_changes |}. by eexists.
    + by destruct Hi as (_ & _ & Hfr); unfold foreign_frame in Hfr; rewrite Hf in Hfr.
  - intros s Hi. pose proof (cancel_foreign_inv known s Hi) as Hi'. split; [done|].
    change (PhaseF (CancelForeign s) = PhaseF s).
    rewrite (foreign_phase known _ Hi), (foreign_phase known _ Hi').
    unfold CancelForeign. cbn. by destruct (f_request_ s).
Qed.

(** Reached by starting, answering and cancelling, in any order the action allows. *)
Inductive foreign_reachable (contact_key : str) (known : Z) : Foreign -> Prop :=
  | fr_created : foreign_reachable contact_key known (CreateForeign contact_key known)
  | fr_started s : foreign_reachable contact_key known s -> PhaseF s = Idle ->
      foreign_reachable contact_key known (ResumeForeign s)
  | fr_answered a s s' : foreign_reachable contact_key known s ->
      answer_foreign folderkey a s = Some s' -> foreign_reachable contact_key known s'
  | fr_cancelled s : foreign_reachable contact_key known s ->
      foreign_reachable contact_key known (CancelForeign s).

Lemma foreign_reachable_inv contact_key known s :
  foreign_reachable contact_key known s -> foreign_inv known s.
Proof.
  induction 1 as [|s _ IH Hp|a s s' _ IH Ha|s _ IH].
  - refine (conj _ (conj _ _)); [done|by split|done].
  - exact (proj1 (start_ok (CoroutineLaws := foreign_laws known) s IH Hp)).
  - exact (proj1 (answer_ok (CoroutineLaws := foreign_laws known) a s s' IH Ha)).
  - exact (proj1 (cancel_ok (CoroutineLaws := foreign_laws known) s IH)).
Qed.

(** A poll of a shared device that is not cancelled and has not reached the top of the
    revisions asks for the changes after the known revision and after the next multiples of
    500, one request per answer; it returns what the successful answers contained without
    the trash folder, and the errors.  The revision it reports is not the device's but the
    end of the last window, which may be ahead of the device by up to a window. *)
Theorem foreign_changes_complete contact_key known s revision changes errors :
  0 <= known -> known + 500 * Z.of_nat (length (f_answers s)) < last_window ->
  foreign_reachable contact_key known s -> f_cancelled_ s = false ->
  PhaseF s = Ended (revision, changes, errors) ->
  f_calls s = known :: ((fun k => ((known + 1) / 500 + Z.of_nat k) * 500) <$>
                          seq 1 (pred (length (f_answers s)))) /\
  changes = all_changes (omap foreign_changes (f_answers s)) /\
  errors = omap foreign_error (f_answers s) /\
  revision = ((known + 1) / 500 + Z.of_nat (length (f_answers s))) * 500 /\
  latest_revision (f_answers s) <= revision.
Proof.
  intros Hk Hb Hr Hc Hp. pose proof (foreign_reachable_inv _ _ _ Hr) as Hi.
  rewrite (foreign_phase known s Hi) in Hp. destruct Hi as (_ & [Hd He Hl] & Hf).
  unfold foreign_frame in Hf. destruct (f_frame s); try done. injection Hp as <- <- <-.
  destruct Hf as (Hcs & _ & Hle). specialize (Hle Hc). rewrite Hl in Hle.
  destruct (length (f_answers s)) as [|n] eqn:Hn.
  { apply nil_length_inv in Hn. rewrite Hn in Hle. unfold latest_revision in Hle. cbn in Hle.
    unfold uint32_max, last_window in *. lia. }
  rewrite <-next_start_iter by lia. split_and!; try done.
  rewrite Hcs. clear -Hk Hb. induction n as [|n IH]; [done|].
  rewrite starts_snoc, IH by lia. cbn [pred]. rewrite seq_S, fmap_app. cbn [fmap list_fmap].
  rewrite next_start_iter by lia. by rewrite app_comm_cons.
Qed.

End Foreign.

(** ** Examples: files and folders are numbers, folder 0 is the trash. *)
Module ForeignPolls.

Definition key (folder : Z) : str := if decide (folder = 0) then B "trash" else B "key".

Definition at_revision (revision : Z) (folders : list Z) :
    ChangesResponse (File := Z) (Folder := Z) :=
  {| chg_error_code := no_error; chg_error_string := None; chg_device_revision := revision;
     chg_changes := {| updated_files := []; updated_folders := folders;
                       deleted_files := []; deleted_folders := [] |} |}.

Fixpoint answer_all (xs : list (ChangesResponse (File := Z) (Folder := Z)))
    (s : GetForeignChangesDevice) : option (GetForeignChangesDevice (File := Z) (Folder := Z)) :=
  match xs with
  | [] => Some s
  | x :: xs => match answer_foreign key x s with Some s' => answer_all xs s' | None => None end
  end.

Definition polled (known : Z) (xs : list ChangesResponse) :
    GetForeignChangesDevice (File := Z) (Folder := Z) :=
  let s := ResumeForeign (CreateForeign (B "contact") known) in default s (answer_all xs s).

Lemma answer_all_foreign contact_key known xs s s' :
  foreign_reachable key contact_key known s -> answer_all xs s = Some s' ->
  foreign_reachable key contact_key known s'.
Proof.
  revert s. induction xs as [|x xs IH]; intros s Hr; cbn; [by intros [= <-]|].
  destruct (answer_foreign key x s) as [s1|] eqn:Hx; [|done]. apply IH. by eapply fr_answered.
Qed.

Lemma polled_foreign known xs : foreign_reachable key (B "contact") known (polled known xs).
Proof.
  assert (foreign_reachable (File := Z) key (B "contact") known
            (ResumeForeign (CreateForeign (B "contact") known)))
    as Hs by by (apply fr_started; [apply fr_created|]).
  unfold polled. destruct (answer_all _ _) as [s|] eqn:Hr; [|done].
  exact (answer_all_foreign _ _ _ _ _ Hs Hr).
Qed.

(** The revision a poll reported, if it has ended. *)
Definition reported (s : GetForeignChangesDevice (File := Z) (Folder := Z)) : option Z :=
  match f_callbacks s with (revision, _, _) :: _ => Some revision | [] => None end.

(** From revision 3 to revision 900. *)
Definition two_windows : GetForeignChangesDevice (File := Z) (Folder := Z) :=
  polled 3 [at_revision 900 [0; 1]; at_revision 900 [2]].

End ForeignPolls.

Lemma foreign_changes_complete_witness :
  f_calls ForeignPolls.two_windows = [3; 500] /\
  latest_revision (f_answers ForeignPolls.two_windows) <= 1000.
Proof.
  assert (Phase (CoroutineOps := foreign_ops ForeignPolls.key) ForeignPolls.two_windows =
          Ended (1000, {| updated_files := []; updated_folders := [1; 2];
                          deleted_files := []; deleted_folders := [] |}, [])) as Hp
    by by vm_compute.
  pose proof (foreign_changes_complete ForeignPolls.key (B "contact") 3
    ForeignPolls.two_windows _ _ _ ltac:(lia) eq_refl (ForeignPolls.polled_foreign _ _)
    eq_refl Hp) as (Hc & _ & _ & _ & Hl).
  split; [rewrite Hc; by vm_compute|exact Hl].
Defined.

(** The revision that a poll of a shared device reports is not one to continue from: with
    the device at revision 7 a poll from 5 reports 500; a poll from 500 asks for the changes
    after 500, while the device is at 9, and reports 1000.  The changes 8 and 9 are in neither. *)
Theorem foreign_polls_skip_changes :
  let first := ForeignPolls.polled 5 [ForeignPolls.at_revision 7 [1]] in
  let second := ForeignPolls.polled 500 [ForeignPolls.at_revision 9 []] in
  foreign_reachable ForeignPolls.key (B "contact") 5 first /\
  ForeignPolls.reported first = Some 500 /\
  foreign_reachable ForeignPolls.key (B "contact") 500 second /\
  f_calls second = [500] /\ ForeignPolls.reported second = Some 1000.
Proof.
  intros first second. split_and!; try apply ForeignPolls.polled_foreign; by vm_compute.
Qed.
