(* ===== verification/SingleCalls.v ===== *)
(** * Actions of one call ([api/actions/create_folder], [delete_*], [move_*], [rename_*],
    [get_info_*], [get_foreign_resources_device])

    Ten classes with the same body: send one request, keep the answer or its error, call the
    callback.  They differ in the request, in what they keep of the answer and in how they
    describe an error; [single_class] holds these, and each class is one. *)
From S2P Require Import Prelude Errors Coroutine.

Open Scope Z_scope.

(** A response of an API call: the fields of its base class that the actions read, and what
    the call returns.
    [api/response_base.hpp:25-34 ResponseBase] *)
Record ApiResponse (D : Type) := {
  rs_error_code : error_code;
  rs_error_string : option str;
  rs_data : D }.
Arguments rs_error_code {D}.
Arguments rs_error_string {D}.
Arguments rs_data {D}.

(** A default constructed response.
    [api/response_base.cpp:18-20 ResponseBase] *)
Definition default_response {D} (data : D) : ApiResponse D :=
  {| rs_error_code := no_error; rs_error_string := None; rs_data := data |}.

(** [RequestType(...)], with what [SetParentFolderkey] was called with. *)
Record ApiRequest := {
  rq_args : list str;
  rq_parent_folderkey : option str }.

Definition RequestType (args : list str) : ApiRequest :=
  {| rq_args := args; rq_parent_folderkey := None |}.

(** How a class of one call differs from the others: its members set at construction, its
    request, its error, what it keeps of an answer and has before. *)
Record single_class (Params D Result Err : Type) := {
  make_request : Params -> ApiRequest;
  make_error : Params -> ApiResponse D -> Err;
  keep : ApiResponse D -> Result;
  initial : Result }.
Arguments make_request {Params D Result Err}.
Arguments make_error {Params D Result Err}.
Arguments keep {Params D Result Err}.
Arguments initial {Params D Result Err}.

Section Single.
Context {Params D Result Err : Type}.
#[local] Abbreviation class := (single_class Params D Result Err).
#[local] Abbreviation Response := (ApiResponse D).

(** [calls], [cancels] and [answers] are not read by the code.
    [api/actions/delete_file.hpp:60-71 DeleteFile] *)
Record SingleCall := {
  params : Params;
  result_ : Result;
  single_errors_ : list Err;
  single_request_ : bool;      (** not null *)
  single_cancelled_ : bool;
  single_frame : position unit;
  single_calls : list ApiRequest;
  single_cancels : nat;
  single_answers : list Response;
  single_callbacks : list (Result * list Err) }.

#[local] Instance SingleCall_members : Members SingleCall := fun s =>
  Build_SingleCall (params s) (result_ s) (single_errors_ s) (single_request_ s)
    (single_cancelled_ s) (single_frame s) (single_calls s) (single_cancels s)
    (single_answers s) (single_callbacks s).

Definition with_result_ := ltac:(setter result_).
Definition with_single_errors_ := ltac:(setter single_errors_).
Definition with_single_request_ := ltac:(setter single_request_).
Definition with_single_cancelled_ := ltac:(setter single_cancelled_).
Definition with_single_frame := ltac:(setter single_frame).
Definition with_single_calls := ltac:(setter single_calls).
Definition with_single_cancels := ltac:(setter single_cancels).
Definition with_single_answers := ltac:(setter single_answers).
Definition with_single_callbacks := ltac:(setter single_callbacks).

Context (c : class).

(** [api/actions/delete_file_impl.hpp:24-30 DeleteFile] *)
Definition CreateSingle (p : Params) : SingleCall :=
  {| params := p; result_ := initial c; single_errors_ := []; single_request_ := false;
     single_cancelled_ := false; single_frame := NotStarted; single_calls := [];
     single_cancels := O; single_answers := []; single_callbacks := [] |}.

(** [api/actions/delete_file_impl.hpp:32-38 Cancel] *)
Definition CancelSingle (s : SingleCall) : SingleCall :=
  let s := with_single_cancelled_ true s in
  if single_request_ s then with_single_cancels (S (single_cancels s)) s else s.

(** To the yield, and from there to the end.
    [api/actions/delete_file_impl.hpp:74-83 CoroutineBody] *)
Definition ResumeSingle : SingleCall -> SingleCall :=
  coro single_frame (with_single_frame Stuck)
    (fun s =>
       let s := with_single_calls (single_calls s ++ [make_request c (params s)]) s in
       let s := with_single_request_ true s in
       let s := if single_cancelled_ s then with_single_cancels (S (single_cancels s)) s
                else s in
       with_single_frame (Suspended tt) s)
    (fun _ s =>
       with_single_frame Complete
         (with_single_callbacks (single_callbacks s ++ [(result_ s, single_errors_ s)]) s)).

(** [api/actions/delete_file_impl.hpp:51-72 HandleDeleteFile] *)
Definition HandleSingle (response : Response) (s : SingleCall) : SingleCall :=
  let s := with_single_answers (single_answers s ++ [response]) s in
  let s :=
    if is_error (rs_error_code response)
    then with_single_errors_ (single_errors_ s ++ [make_error c (params s) response]) s
    else with_result_ (keep c response) s in
  ResumeSingle (with_single_request_ false s).

(** The handler of the call that is under way. *)
Definition answer_single (r : Response) (s : SingleCall) : option SingleCall :=
  match single_frame s with
  | Suspended _ => Some (HandleSingle r s)
  | _ => None
  end.

#[export] Instance single_ops : CoroutineOps SingleCall Response (Result * list Err) := {
  Start := ResumeSingle;
  Answer := answer_single;
  Cancel := CancelSingle;
  Phase s :=
    match single_callbacks s with
    | [] => match single_frame s with NotStarted => Idle | _ => Running end
    | r :: _ => Ended r
    end }.

End Single.
Arguments SingleCall : clear implicits.

(** ** The classes *)

Section Classes.
Context {D : Type} (no_data : D).

(** [api/actions/delete_file.hpp:23-32 ErrorType] *)
Record CallError := {
  ce_error_code : error_code;
  ce_error_string : option str }.

Definition call_error (r : ApiResponse D) : CallError :=
  {| ce_error_code := rs_error_code r; ce_error_string := rs_error_string r |}.

(** [response_ = response], from a default constructed [response_]. *)
Definition response_class {Params Err} (request : Params -> ApiRequest)
    (error : Params -> ApiResponse D -> Err) : single_class Params D (ApiResponse D) Err :=
  {| make_request := request; make_error := error; keep r := r;
     initial := default_response no_data |}.

(** [api/actions/delete_file_impl.hpp:40-83 CoroutineBody] *)
Definition DeleteFile : single_class str D (ApiResponse D) CallError :=
  response_class (fun quick_key_ => RequestType [quick_key_]) (fun _ => call_error).

(** [api/actions/delete_folder_impl.hpp:40-83 CoroutineBody] *)
Definition DeleteFolder : single_class str D (ApiResponse D) CallError :=
  response_class (fun folder_key_ => RequestType [folder_key_]) (fun _ => call_error).

(** The key and [destination_parent_folder_key_].
    [api/actions/move_file_impl.hpp:49-94 CoroutineBody] *)
Definition MoveFile : single_class (str * str) D (ApiResponse D) CallError :=
  response_class (fun p => RequestType [fst p; snd p]) (fun _ => call_error).

(** [api/actions/move_folder_impl.hpp:49-94 CoroutineBody] *)
Definition MoveFolder : single_class (str * str) D (ApiResponse D) CallError :=
  response_class (fun p => RequestType [fst p; snd p]) (fun _ => call_error).

(** [folder_name_] and [parent_folder_key_]; its [Cancel()] after the call does what
    [request_->Cancel()] does in the others.
    [api/actions/create_folder_impl.hpp:46-92 CoroutineBody] *)
Definition CreateFolder : single_class (str * str) D (ApiResponse D) CallError :=
  response_class (fun p => {| rq_args := [fst p]; rq_parent_folderkey := Some (snd p) |})
    (fun _ => call_error).

(** [api/actions/get_info_file.hpp:23-34 ErrorType] *)
Record FileGetInfoErrorType := {
  fe_folder_key : str;
  fe_error_code : error_code;
  fe_error_string : str }.

(** [api/actions/get_info_file_impl.hpp:43-89 CoroutineBody] *)
Definition GetInfoFile : single_class str D (ApiResponse D) FileGetInfoErrorType :=
  response_class (fun folder_key_ => RequestType [folder_key_])
    (fun folder_key_ r =>
       {| fe_folder_key := folder_key_; fe_error_code := rs_error_code r;
          fe_error_string := default (B "No error string provided") (rs_error_string r) |}).

(** [api/actions/get_info_folder.hpp:23-34 ErrorType] *)
Record FolderGetInfoErrorType := {
  fo_folder_key : str;
  fo_error_code : error_code;
  fo_error_string : option str }.

(** [api/actions/get_info_folder_impl.hpp:44-84 CoroutineBody] *)
Definition GetInfoFolder : single_class str D (ApiResponse D) FolderGetInfoErrorType :=
  response_class (fun folder_key_ => RequestType [folder_key_])
    (fun folder_key_ r =>
       {| fo_folder_key := folder_key_; fo_error_code := rs_error_code r;
          fo_error_string := rs_error_string r |}).

(** [api/actions/rename_file.hpp:23-36 ErrorType] *)
Record RenameErrorType := {
  re_key : str;
  re_new_name : str;
  re_error_code : error_code;
  re_error_string : str }.

Definition rename_error (p : str * str) (r : ApiResponse D) : RenameErrorType :=
  {| re_key := fst p; re_new_name := snd p; re_error_code := rs_error_code r;
     re_error_string := default (B "No error string provided") (rs_error_string r) |}.

(** [quick_key_] and [new_name_].
    [api/actions/rename_file_impl.hpp:50-96 CoroutineBody] *)
Definition RenameFile : single_class (str * str) D (ApiResponse D) RenameErrorType :=
  response_class (fun p => RequestType [fst p]) rename_error.

(** [folder_key_] and [new_name_].
    [api/actions/rename_folder_impl.hpp:50-96 CoroutineBody] *)
Definition RenameFolder : single_class (str * str) D (ApiResponse D) RenameErrorType :=
  response_class (fun p => RequestType [fst p]) rename_error.

End Classes.

(** The answer is a list of files and one of folders.
    [api/actions/get_foreign_resources_device_impl.hpp:41-82 CoroutineBody] *)
Definition GetForeignResourcesDevice {File Folder : Type} :
    single_class unit (list File * list Folder) (list File * list Folder) CallError :=
  {| make_request _ := RequestType []; make_error _ := call_error; keep := rs_data;
     initial := ([], []) |}.
