(* ===== verification/SingleCallsTheorems.v ===== *)
(** * Actions of one call: each sends its request once and reports the answer

    Theorems about every class of [SingleCalls], whatever is answered and cancelled. *)
From S2P Require Import Prelude Errors Coroutine SingleCalls.

Open Scope Z_scope.

Section Theorems.
Context {Params D Result Err : Type} (c : single_class Params D Result Err).
#[local] Abbreviation Single := (SingleCall Params D Result Err).
#[local] Existing Instance single_ops.
#[local] Abbreviation PhaseS := (Phase (CoroutineOps := single_ops c)).

(** What an answer makes of the action. *)
Definition outcome_of (p : Params) (r : ApiResponse D) : Result * list Err :=
  if is_error (rs_error_code r) then (initial c, [make_error c p r]) else (keep c r, []).

Definition single_inv (p : Params) (s : Single) : Prop :=
  params s = p /\
  match single_frame s with
  | NotStarted =>
      single_calls s = [] /\ single_answers s = [] /\ single_callbacks s = [] /\
      (result_ s, single_errors_ s) = (initial c, [])
  | Suspended _ =>
      single_calls s = [make_request c p] /\ single_answers s = [] /\
      single_callbacks s = [] /\ single_request_ s = true /\
      (result_ s, single_errors_ s) = (initial c, [])
  | Complete =>
      exists r, single_calls s = [make_request c p] /\ single_answers s = [r] /\
        single_callbacks s = [outcome_of p r]
  | Stuck => False
  end.

Lemma create_single_inv p : single_inv p (CreateSingle c p).
Proof. by split. Qed.

Lemma start_single_inv p (s : Single) :
  single_inv p s -> single_frame s = NotStarted -> single_inv p (ResumeSingle c s).
Proof.
  intros [Hp Hf] Hfr. rewrite Hfr in Hf. destruct Hf as (Hc & Ha & Hcb & Hr).
  unfold ResumeSingle, coro. rewrite Hfr. unfold single_inv. cbn.
  destruct (single_cancelled_ s); cbn; by rewrite Hc, Hp.
Qed.

Lemma answer_single_inv p r (s s' : Single) :
  single_inv p s -> answer_single c r s = Some s' -> single_inv p s'.
Proof.
  intros [Hp Hf] Ha. unfold answer_single in Ha.
  destruct (single_frame s) as [|[]| |] eqn:Hfr; try done. injection Ha as <-.
  destruct Hf as (Hc & Han & Hcb & _ & Hr). injection Hr as Hr He.
  unfold HandleSingle, ResumeSingle, coro, single_inv, outcome_of.
  destruct (is_error (rs_error_code r)) eqn:Her; cbn; rewrite Hfr; cbn;
    (split; [done|]); exists r; rewrite Her, Han, Hcb, ?Hr, ?He, ?Hp, Hc; done.
Qed.

Lemma cancel_single_inv p (s : Single) : single_inv p s -> single_inv p (CancelSingle s).
Proof.
  intros [Hp Hf]. unfold CancelSingle. cbn zeta.
  generalize (single_request_ (with_single_cancelled_ true s)) as b.
  intros []; (split; [exact Hp|exact Hf]).
Qed.

Lemma single_phase p (s : Single) : single_inv p s ->
  PhaseS s = match single_frame s with
             | NotStarted => Idle
             | Suspended _ | Stuck => Running
             | Complete =>
                 match single_answers s with r :: _ => Ended (outcome_of p r) | [] => Running end
             end.
Proof.
  intros [_ Hf]. cbn. destruct (single_frame s); try done.
  - by destruct Hf as (_ & _ & -> & _).
  - by destruct Hf as (_ & _ & -> & _).
  - by destruct Hf as (r & _ & -> & ->).
Qed.

#[export] Instance single_laws `{!Inhabited D} :
  CoroutineLaws (H := single_ops c) (fun s : Single => single_inv (params s) s).
Proof.
  assert (forall (s : Single) p, single_inv p s -> single_inv (params s) s) as Hself
    by (intros s p Hi; pose proof Hi as [-> _]; exact Hi).
  split.
  - intros s Hi Hp. rewrite (single_phase _ s Hi) in Hp.
    assert (single_frame s = NotStarted) as Hf.
    { destruct Hi as [_ Hf]. destruct (single_frame s); try done.
      by destruct Hf as (r & _ & Ha & _); rewrite Ha in Hp. }
    pose proof (start_single_inv _ s Hi Hf) as Hi'. split; [by eapply Hself|].
    change (PhaseS (ResumeSingle c s) <> Idle). rewrite (single_phase _ _ Hi').
    unfold ResumeSingle, coro. rewrite Hf. cbn. by destruct (single_cancelled_ s).
  - intros a s s' Hi Ha. pose proof (answer_single_inv _ a s s' Hi Ha) as Hi'.
    split; [by eapply Hself|]. rewrite (single_phase _ s Hi), (single_phase _ s' Hi').
    destruct Hi as [_ Hf]. cbn in Ha. unfold answer_single in Ha.
    destruct (single_frame s) as [|[]| |] eqn:Hfr; try done. injection Ha as <-.
    split; [done|]. destruct Hf as (_ & Han & _).
    unfold HandleSingle, ResumeSingle, coro.
    destruct (is_error _); cbn; rewrite Hfr; cbn; by rewrite Han.
  - intros s Hi Hp. rewrite (single_phase _ s Hi) in Hp. destruct Hi as [_ Hf].
    exists (default_response inhabitant). cbn. unfold answer_single.
    destruct (single_frame s) eqn:Hfr; try done.
    by destruct Hf as (r & _ & Ha & _); rewrite Ha in Hp.
  - intros s Hi. pose proof (cancel_single_inv _ s Hi) as Hi'. split; [by eapply Hself|].
    change (PhaseS (CancelSingle s) = PhaseS s).
    rewrite (single_phase _ _ Hi), (single_phase _ _ Hi').
    unfold CancelSingle. cbn. by destruct (single_request_ s).
Qed.

(** Reached by starting, answering and cancelling, in any order the action allows. *)
Inductive single_reachable (p : Params) : Single -> Prop :=
  | sr_created : single_reachable p (CreateSingle c p)
  | sr_started s : single_reachable p s -> PhaseS s = Idle ->
      single_reachable p (ResumeSingle c s)
  | sr_answered r s s' : single_reachable p s -> answer_single c r s = Some s' ->
      single_reachable p s'
  | sr_cancelled s : single_reachable p s -> single_reachable p (CancelSingle s).

Lemma single_reachable_inv p s : single_reachable p s -> single_inv p s.
Proof.
  induction 1 as [|s _ IH Hp|a s s' _ IH Ha|s _ IH].
  - apply create_single_inv.
  - apply start_single_inv; [done|]. rewrite (single_phase _ s IH) in Hp.
    destruct IH as [_ Hf]. destruct (single_frame s); try done.
    by destruct Hf as (r & _ & Ha & _); rewrite Ha in Hp.
  - by eapply answer_single_inv.
  - by apply cancel_single_inv.
Qed.

(** An action of one call sends its request once, after it was started; it ends with the
    answer, if that is no error, or else with a default constructed result and one error
    that describes the answer.  Cancelling changes neither. *)
Theorem single_call_result p s :
  single_reachable p s ->
  match PhaseS s with
  | Idle => single_calls s = []
  | Running => single_calls s = [make_request c p] /\ single_answers s = []
  | Ended outcome =>
      single_calls s = [make_request c p] /\
      exists r, single_answers s = [r] /\
        outcome = if is_error (rs_error_code r) then (initial c, [make_error c p r])
                  else (keep c r, [])
  end.
Proof.
  intros Hr%single_reachable_inv. rewrite (single_phase _ s Hr). destruct Hr as [_ Hf].
  destruct (single_frame s) as [|[]| |]; try done.
  - by destruct Hf.
  - by destruct Hf as (-> & -> & _).
  - destruct Hf as (r & -> & -> & _). split; [done|]. by exists r.
Qed.

End Theorems.

(** What a rename asks for does not depend on the new name. *)
Lemma rename_sends_no_name {D} (no_data : D) key name s :
  single_reachable (RenameFile no_data) (key, name) s ->
  single_calls s = [] \/ single_calls s = [RequestType [key]].
Proof.
  intros [_ Hf]%single_reachable_inv. destruct (single_frame s); [by left; apply Hf| | |done].
  - by right; apply Hf.
  - right. by destruct Hf as (r & -> & _).
Qed.

Lemma single_call_result_witness :
  let c := RenameFile (D := Z) 0 in
  let error := {| rs_error_code := http_code IoTimeout; rs_error_string := None;
                  rs_data := 0 |} in
  exists s, single_reachable c (B "key", B "name") s /\
    single_calls s = [RequestType [B "key"]] /\
    Phase (CoroutineOps := single_ops c) s =
      Ended (default_response 0, [{| re_key := B "key"; re_new_name := B "name";
        re_error_code := http_code IoTimeout;
        re_error_string := B "No error string provided" |}]).
Proof.
  intros c error.
  set (s0 := CancelSingle (ResumeSingle c (CreateSingle c (B "key", B "name")))).
  assert (single_reachable c (B "key", B "name") (HandleSingle c error s0)) as Hr.
  { eapply (sr_answered c _ error s0); [|done].
    apply sr_cancelled, sr_started; [apply sr_created|done]. }
  assert (Phase (CoroutineOps := single_ops c) (HandleSingle c error s0) =
    Ended (default_response 0, [{| re_key := B "key"; re_new_name := B "name";
        re_error_code := http_code IoTimeout;
        re_error_string := B "No error string provided" |}])) as Hp by by vm_compute.
  pose proof (single_call_result c (B "key", B "name") _ Hr) as Hc. rewrite Hp in Hc.
  exists (HandleSingle c error s0). split_and!; [exact Hr|apply Hc|exact Hp].
Defined.
