(* ===== verification/Polls.v ===== *)
(** * Polling for changes with their details ([api/actions/poll_changes],
    [api/actions/poll_foreign_changes])

    Two callers of the work manager with the same body: get the changes of a device, then
    the info of every updated file, then that of every updated folder, each batch executed
    before the next is queued.  [poll_class] holds what differs: which action gets the
    changes, what its callback stores, and when the answer to a get_info counts as failed. *)
From S2P Require Import Prelude Errors Coroutine WorkManager GetChanges SingleCalls.

Open Scope Z_scope.

(** What an ended get_info passes to its callback. *)
Abbreviation InfoResult D Err := (ApiResponse D * list Err)%type.

(** Between which calls of [ExecuteWork] the body is.
    [api/actions/poll_changes_impl.hpp:171-216 CoroutineBody] *)
Inductive poll_stage := BeforeChanges | InChanges | InFiles | InFolders.

Section Poll.
Context {File Folder FileData FolderData E W1 R1 : Type}
  (quickkey : File -> str) (folderkey : Folder -> str)
  (no_file : FileData) (no_folder : FolderData).

#[local] Abbreviation FileWork :=
  (SingleCall str FileData (ApiResponse FileData) FileGetInfoErrorType).
#[local] Abbreviation FolderWork :=
  (SingleCall str FolderData (ApiResponse FolderData) FolderGetInfoErrorType).
#[local] Abbreviation Work := (W1 + (FileWork + FolderWork))%type.
#[local] Abbreviation FileResult := (InfoResult FileData FileGetInfoErrorType).
#[local] Abbreviation FolderResult := (InfoResult FolderData FolderGetInfoErrorType).

(** [poll_get_errors_] are [get_status_errors_] and [get_changes_errors_].
    [api/actions/poll_changes.hpp:121-145 PollChanges] *)
Record Poll := {
  stage : poll_stage;
  revision_ : Z;
  poll_latest_ : Z;
  poll_updated_files_ : list File;
  poll_updated_folders_ : list Folder;
  poll_deleted_files_ : list File;
  poll_deleted_folders_ : list Folder;
  poll_get_errors_ : E;
  get_info_folder_errors_ : list FolderGetInfoErrorType;
  get_info_file_errors_ : list FileGetInfoErrorType;
  updated_folders_info_ : list (ApiResponse FolderData);
  updated_files_info_ : list (ApiResponse FileData);
  poll_cancelled_ : bool }.

#[local] Instance Poll_members : Members Poll := fun p =>
  Build_Poll (stage p) (revision_ p) (poll_latest_ p) (poll_updated_files_ p)
    (poll_updated_folders_ p) (poll_deleted_files_ p) (poll_deleted_folders_ p)
    (poll_get_errors_ p) (get_info_folder_errors_ p) (get_info_file_errors_ p)
    (updated_folders_info_ p) (updated_files_info_ p) (poll_cancelled_ p).

Definition with_stage := ltac:(setter stage).

(** The members that the callback of the changes sets. *)
Definition with_changes latest files folders deleted_f deleted_d errors (p : Poll) : Poll :=
  {| stage := stage p; revision_ := revision_ p; poll_latest_ := latest;
     poll_updated_files_ := files; poll_updated_folders_ := folders;
     poll_deleted_files_ := deleted_f; poll_deleted_folders_ := deleted_d;
     poll_get_errors_ := errors; get_info_folder_errors_ := get_info_folder_errors_ p;
     get_info_file_errors_ := get_info_file_errors_ p;
     updated_folders_info_ := updated_folders_info_ p;
     updated_files_info_ := updated_files_info_ p; poll_cancelled_ := poll_cancelled_ p |}.

Definition with_file_info infos errors (p : Poll) : Poll :=
  {| stage := stage p; revision_ := revision_ p; poll_latest_ := poll_latest_ p;
     poll_updated_files_ := poll_updated_files_ p;
     poll_updated_folders_ := poll_updated_folders_ p;
     poll_deleted_files_ := poll_deleted_files_ p;
     poll_deleted_folders_ := poll_deleted_folders_ p;
     poll_get_errors_ := poll_get_errors_ p;
     get_info_folder_errors_ := get_info_folder_errors_ p;
     get_info_file_errors_ := errors;
     updated_folders_info_ := updated_folders_info_ p;
     updated_files_info_ := infos; poll_cancelled_ := poll_cancelled_ p |}.

Definition with_folder_info infos errors (p : Poll) : Poll :=
  {| stage := stage p; revision_ := revision_ p; poll_latest_ := poll_latest_ p;
     poll_updated_files_ := poll_updated_files_ p;
     poll_updated_folders_ := poll_updated_folders_ p;
     poll_deleted_files_ := poll_deleted_files_ p;
     poll_deleted_folders_ := poll_deleted_folders_ p;
     poll_get_errors_ := poll_get_errors_ p;
     get_info_folder_errors_ := errors;
     get_info_file_errors_ := get_info_file_errors_ p;
     updated_folders_info_ := infos;
     updated_files_info_ := updated_files_info_ p; poll_cancelled_ := poll_cancelled_ p |}.

(** [api/actions/poll_changes_impl.hpp:230-242 Cancel] *)
Definition CancelPoll (p : Poll) : Poll :=
  {| stage := stage p; revision_ := revision_ p; poll_latest_ := poll_latest_ p;
     poll_updated_files_ := poll_updated_files_ p;
     poll_updated_folders_ := poll_updated_folders_ p;
     poll_deleted_files_ := poll_deleted_files_ p;
     poll_deleted_folders_ := poll_deleted_folders_ p;
     poll_get_errors_ := poll_get_errors_ p;
     get_info_folder_errors_ := get_info_folder_errors_ p;
     get_info_file_errors_ := get_info_file_errors_ p;
     updated_folders_info_ := updated_folders_info_ p;
     updated_files_info_ := updated_files_info_ p; poll_cancelled_ := true |}.

(** What the two classes do differently. *)
Record poll_class := {
  get_changes : Z -> W1;                (** [Create] with [revision_] *)
  HandleChanges : R1 -> Poll -> Poll;
  file_failed : FileResult -> bool;     (** the test of [HandleGetInfoFile] *)
  folder_failed : FolderResult -> bool;
  first_latest : Z;                     (** the revision before the changes arrive *)
  no_errors : E }.

Context (c : poll_class).

(** [api/actions/poll_changes_impl.hpp:26-43 PollChanges] *)
Definition CreatePoll (revision : Z) : Poll :=
  {| stage := BeforeChanges; revision_ := revision; poll_latest_ := first_latest c;
     poll_updated_files_ := []; poll_updated_folders_ := []; poll_deleted_files_ := [];
     poll_deleted_folders_ := []; poll_get_errors_ := no_errors c;
     get_info_folder_errors_ := []; get_info_file_errors_ := [];
     updated_folders_info_ := []; updated_files_info_ := []; poll_cancelled_ := false |}.

(** Up to its [Resume].
    [api/actions/poll_changes_impl.hpp:91-105 HandleGetInfoFile] *)
Definition HandleGetInfoFile (r : FileResult) (p : Poll) : Poll :=
  if file_failed c r
  then with_file_info (updated_files_info_ p) (get_info_file_errors_ p ++ snd r) p
  else with_file_info (updated_files_info_ p ++ [fst r]) (get_info_file_errors_ p) p.

(** [api/actions/poll_changes_impl.hpp:116-130 HandleGetInfoFolder] *)
Definition HandleGetInfoFolder (r : FolderResult) (p : Poll) : Poll :=
  if folder_failed c r
  then with_folder_info (updated_folders_info_ p) (get_info_folder_errors_ p ++ snd r) p
  else with_folder_info (updated_folders_info_ p ++ [fst r]) (get_info_folder_errors_ p) p.

(** [if (cancelled_) work_manager_->Cancel()] after the work is queued.
    [api/actions/poll_changes_impl.hpp:193-194 CoroutineBody] *)
Definition then_cancel (p : Poll) (acts : list (action Work)) : list (action Work) :=
  if poll_cancelled_ p then acts ++ [CancelManager] else acts.

Definition info_of_file (file : File) : Work :=
  inr (inl (CreateSingle (GetInfoFile no_file) (quickkey file))).

Definition info_of_folder (folder : Folder) : Work :=
  inr (inr (CreateSingle (GetInfoFolder no_folder) (folderkey folder))).

(** The body from one [ExecuteWork] to the next.
    [api/actions/poll_changes_impl.hpp:168-227 CoroutineBody] *)
Definition poll_advance (p : Poll) : Poll * list (action Work) * bool :=
  match stage p with
  | BeforeChanges =>
      (with_stage InChanges p,
       then_cancel p [Queue (inl (get_changes c (revision_ p)))], true)
  | InChanges =>
      (with_stage InFiles p,
       then_cancel p ((fun f => Queue (info_of_file f)) <$> poll_updated_files_ p), true)
  | InFiles =>
      (with_stage InFolders p,
       then_cancel p ((fun d => Queue (info_of_folder d)) <$> poll_updated_folders_ p), true)
  | InFolders => (p, [], false)
  end.

(** The callbacks of the work. *)
Definition poll_receive (r : R1 + (FileResult + FolderResult)) (p : Poll) : Poll :=
  match r with
  | inl r => HandleChanges c r p
  | inr (inl r) => HandleGetInfoFile r p
  | inr (inr r) => HandleGetInfoFolder r p
  end.

(** The arguments of the callback.
    [api/actions/poll_changes.hpp:69-81 CallbackType] *)
Record PollOutcome := {
  out_latest : Z;
  out_deleted_files : list File;
  out_deleted_folders : list Folder;
  out_files_info : list (ApiResponse FileData);
  out_folders_info : list (ApiResponse FolderData);
  out_get_errors : E;
  out_file_errors : list FileGetInfoErrorType;
  out_folder_errors : list FolderGetInfoErrorType }.

(** [api/actions/poll_changes_impl.hpp:218-227 CoroutineBody] *)
Definition poll_outcome (p : Poll) : PollOutcome :=
  {| out_latest := poll_latest_ p; out_deleted_files := poll_deleted_files_ p;
     out_deleted_folders := poll_deleted_folders_ p; out_files_info := updated_files_info_ p;
     out_folders_info := updated_folders_info_ p; out_get_errors := poll_get_errors_ p;
     out_file_errors := get_info_file_errors_ p;
     out_folder_errors := get_info_folder_errors_ p |}.

#[export] Instance poll_ops :
  CallerOps Poll Work (R1 + (FileResult + FolderResult)) PollOutcome := {
  Advance := poll_advance;
  Receive := poll_receive;
  SetCancelled := CancelPoll;
  Outcome := poll_outcome;
  Rank p := match stage p with
            | BeforeChanges => 3 | InChanges => 2 | InFiles => 1 | InFolders => 0
            end%nat }.

End Poll.
Arguments Poll : clear implicits.
Arguments PollOutcome : clear implicits.
Arguments poll_class : clear implicits.

(** ** The two classes *)

Section Classes.
Context {File Folder FileData FolderData : Type} (folderkey : Folder -> str).

#[local] Abbreviation ChangesErrors :=
  (list DeviceGetStatusErrorType * list DeviceGetChangesErrorType)%type.
#[local] Abbreviation ChangesResult :=
  (Z * Changes (File := File) (Folder := Folder) * list DeviceGetStatusErrorType *
   list DeviceGetChangesErrorType)%type.
#[local] Abbreviation ForeignResult :=
  (Z * Changes (File := File) (Folder := Folder) * list DeviceGetForeignChangesErrorType)%type.

(** It appends the folders to [updated_folders_].
    [api/actions/poll_changes_impl.hpp:53-78 HandleGetChangesDevice] *)
Definition HandleGetChangesDevice (r : ChangesResult)
    (p : Poll File Folder FileData FolderData ChangesErrors) :
    Poll File Folder FileData FolderData ChangesErrors :=
  let '(latest_device_revision, changes, get_status_errors, get_changes_errors) := r in
  with_changes latest_device_revision (updated_files changes)
    (poll_updated_folders_ p ++ without_trash folderkey (updated_folders changes))
    (deleted_files changes) (deleted_folders changes)
    (get_status_errors, get_changes_errors) p.

(** [garbage] is what [GetChangesDevice::latest_device_revision_] holds when it is created.
    [api/actions/poll_changes_impl.hpp:91-131 HandleGetInfoFile, HandleGetInfoFolder] *)
Definition PollChanges (garbage : Z) : poll_class File Folder FileData FolderData ChangesErrors
    (GetChangesDevice (File := File) (Folder := Folder)) ChangesResult :=
  {| get_changes := CreateChanges garbage; HandleChanges := HandleGetChangesDevice;
     file_failed r := negb (bool_decide (snd r = []));
     folder_failed r := negb (bool_decide (snd r = []));
     first_latest := 0; no_errors := ([], []) |}.

(** [api/actions/poll_foreign_changes_impl.hpp:62-77 HandleGetForeignChangesDevice] *)
Definition HandleGetForeignChangesDevice (r : ForeignResult)
    (p : Poll File Folder FileData FolderData (list DeviceGetForeignChangesErrorType)) :
    Poll File Folder FileData FolderData (list DeviceGetForeignChangesErrorType) :=
  let '(latest_changes_revision, changes, get_changes_errors) := r in
  with_changes latest_changes_revision (updated_files changes) (updated_folders changes)
    (deleted_files changes) (deleted_folders changes) get_changes_errors p.

(** [garbage] is what [latest_changes_revision_] holds when it is created.
    [api/actions/poll_foreign_changes_impl.hpp:89-127 HandleGetInfoFile, HandleGetInfoFolder] *)
Definition PollForeignChanges (contact_key : str) (garbage : Z) :
    poll_class File Folder FileData FolderData (list DeviceGetForeignChangesErrorType)
      (GetForeignChangesDevice (File := File) (Folder := Folder)) ForeignResult :=
  {| get_changes := CreateForeign contact_key; HandleChanges := HandleGetForeignChangesDevice;
     file_failed r := is_error (rs_error_code (fst r));
     folder_failed r := is_error (rs_error_code (fst r));
     first_latest := garbage; no_errors := [] |}.

End Classes.
