(* ===== verification/PollsProofs.v ===== *)
(** * Polling with details: what a run that nobody cancels does

    The relation of a poll and its work along a run, for both classes: they give a [view] of
    what their first action returns. *)
From S2P Require Import Prelude Errors Coroutine WorkManager WorkManagerProofs GetChanges SingleCalls SingleCallsTheorems Polls.

Open Scope Z_scope.

(** ** Results of a list of work *)

Section Results.
Context {W A R : Type} `{CoroutineOps W A R}.

Definition results (ws : list W) : list R :=
  ws ≫= fun w => match Phase w with Ended r => [r] | _ => [] end.

Definition has_ended (w : W) : Prop := exists r, Phase w = Ended r.

Lemma results_insert (ws : list W) i w0 w : ws !! i = Some w0 -> ~ has_ended w0 ->
  results (<[i := w]> ws) ≡ₚ
  results ws ++ match Phase w with Ended r => [r] | _ => [] end.
Proof.
  intros Hi Hw0. rewrite insert_take_drop by by eapply lookup_lt_Some.
  rewrite <-(take_drop_middle _ _ _ Hi) at 3. unfold results.
  rewrite !bind_app, !bind_cons.
  replace (match Phase w0 with Ended r => [r] | _ => [] end) with (@nil R); [solve_Permutation|].
  destruct (Phase w0) eqn:Hp; [done..|]. destruct Hw0. by eexists.
Qed.

(** A move of a piece of work: it is started, or answered. *)
Definition work_moves (w0 w : W) : Prop :=
  (Phase w0 = Idle /\ w = Start w0) \/ exists a, Answer a w0 = Some w.

Lemma work_moves_ok (ok : W -> Prop) `{!CoroutineLaws ok} w0 w :
  ok w0 -> work_moves w0 w -> ok w /\ ~ has_ended w0.
Proof.
  intros Hok [[Hp ->]|[a Ha]].
  - destruct (start_ok w0 Hok Hp) as [? _]. split; [done|]. intros [r Hr]. by rewrite Hp in Hr.
  - destruct (answer_ok a w0 w Hok Ha) as (Hok' & Hp & _). split; [done|].
    intros [r Hr]. by rewrite Hp in Hr.
Qed.

End Results.

(** A result that does not count as failed gives an info, the others their errors. *)
Definition infos {D Err} (failed : InfoResult D Err -> bool) (rs : list (InfoResult D Err)) :
    list (ApiResponse D) :=
  rs ≫= fun r => if failed r then [] else [fst r].

Definition info_errors {D Err} (failed : InfoResult D Err -> bool)
    (rs : list (InfoResult D Err)) : list Err :=
  rs ≫= fun r => if failed r then snd r else [].

Lemma infos_snoc {D Err} failed (rs rs' : list (InfoResult D Err)) r :
  rs' ≡ₚ rs ++ [r] ->
  infos failed rs' ≡ₚ infos failed rs ++ (if failed r then [] else [fst r]) /\
  info_errors failed rs' ≡ₚ info_errors failed rs ++ (if failed r then snd r else []).
Proof.
  intros Hrs. unfold infos, info_errors. rewrite Hrs, !bind_app, !bind_singleton. done.
Qed.

Lemma single_moves_params {Params D Result Err} (c : single_class Params D Result Err) s0 s :
  work_moves (H := single_ops c) s0 s -> params s = params s0.
Proof.
  assert (forall s, params (ResumeSingle c s) = params s) as Hr.
  { intros s1. unfold ResumeSingle, coro. destruct (single_frame s1); try done.
    cbn. by destruct (single_cancelled_ s1). }
  intros [[_ ->]|[a Ha]]; [apply Hr|]. cbn in Ha. unfold answer_single in Ha.
  destruct (single_frame s0); try done. injection Ha as <-. unfold HandleSingle.
  rewrite Hr. by destruct (is_error _).
Qed.

(** What a poll takes from its first action. *)
Record changes_view (File Folder E : Type) := {
  cv_latest : Z;
  cv_files : list File;
  cv_folders : list Folder;
  cv_deleted_files : list File;
  cv_deleted_folders : list Folder;
  cv_errors : E }.
Arguments cv_latest {File Folder E}.
Arguments cv_files {File Folder E}.
Arguments cv_folders {File Folder E}.
Arguments cv_deleted_files {File Folder E}.
Arguments cv_deleted_folders {File Folder E}.
Arguments cv_errors {File Folder E}.

(** The promise of a class of polls: its first action is new, and the callback stores what
    the view shows. *)
Class PollLaws {File Folder FileData FolderData E W1 A1 R1} `{CoroutineOps W1 A1 R1}
    (c : poll_class File Folder FileData FolderData E W1 R1) (ok1 : W1 -> Prop)
    (view : R1 -> changes_view File Folder E) := {
  get_changes_new k : ok1 (get_changes c k) /\ Phase (get_changes c k) = Idle;
  handle_changes r p : poll_updated_folders_ p = [] ->
    HandleChanges c r p =
    with_changes (cv_latest (view r)) (cv_files (view r)) (cv_folders (view r))
      (cv_deleted_files (view r)) (cv_deleted_folders (view r)) (cv_errors (view r)) p }.

Section Poll.
Context {File Folder FileData FolderData E W1 A1 R1 : Type} `{CoroutineOps W1 A1 R1}
  (quickkey : File -> str) (folderkey : Folder -> str)
  (no_file : FileData) (no_folder : FolderData)
  (c : poll_class File Folder FileData FolderData E W1 R1)
  (ok1 : W1 -> Prop) `{!CoroutineLaws ok1}
  (view : R1 -> changes_view File Folder E) `{!PollLaws c ok1 view}.

#[local] Abbreviation FileWork :=
  (SingleCall str FileData (ApiResponse FileData) FileGetInfoErrorType).
#[local] Abbreviation FolderWork :=
  (SingleCall str FolderData (ApiResponse FolderData) FolderGetInfoErrorType).
#[local] Abbreviation FileResult := (InfoResult FileData FileGetInfoErrorType).
#[local] Abbreviation FolderResult := (InfoResult FolderData FolderGetInfoErrorType).
#[local] Abbreviation Work := (W1 + (FileWork + FolderWork))%type.
#[local] Abbreviation WorkAnswer := (A1 + (ApiResponse FileData + ApiResponse FolderData))%type.
#[local] Abbreviation WorkResult := (R1 + (FileResult + FolderResult))%type.
#[local] Abbreviation Poll := (Poll File Folder FileData FolderData E).
#[local] Abbreviation Outcome := (PollOutcome File Folder FileData FolderData E).

#[local] Instance inhabited_file : Inhabited FileData := populate no_file.
#[local] Instance inhabited_folder : Inhabited FolderData := populate no_folder.
#[local] Instance file_ops : CoroutineOps FileWork (ApiResponse FileData) FileResult :=
  single_ops (GetInfoFile no_file).
#[local] Instance folder_ops : CoroutineOps FolderWork (ApiResponse FolderData) FolderResult :=
  single_ops (GetInfoFolder no_folder).
#[local] Instance work_ops : CoroutineOps Work WorkAnswer WorkResult := sum_ops.
#[local] Instance poll_ops' : CallerOps Poll Work WorkResult Outcome :=
  poll_ops quickkey folderkey no_file no_folder c.

Definition file_ok (w : FileWork) : Prop := single_inv (GetInfoFile no_file) (params w) w.
Definition folder_ok (w : FolderWork) : Prop := single_inv (GetInfoFolder no_folder) (params w) w.
Definition work_ok : Work -> Prop := sum_ok ok1 (sum_ok file_ok folder_ok).

#[local] Instance file_laws : CoroutineLaws file_ok := single_laws (GetInfoFile no_file).
#[local] Instance folder_laws : CoroutineLaws folder_ok := single_laws (GetInfoFolder no_folder).
#[local] Instance work_laws : CoroutineLaws work_ok :=
  sum_laws ok1 (sum_ok file_ok folder_ok).

Lemma info_of_file_new f :
  work_ok (info_of_file quickkey no_file f) /\ Phase (info_of_file quickkey no_file f) = Idle.
Proof. split; [apply create_single_inv|done]. Qed.

Lemma info_of_folder_new d :
  work_ok (info_of_folder folderkey no_folder d) /\
  Phase (info_of_folder folderkey no_folder d) = Idle.
Proof. split; [apply create_single_inv|done]. Qed.

Lemma then_cancel_queue (p : Poll) (acts : list (action Work)) w :
  Queue w ∈ then_cancel p acts -> Queue w ∈ acts.
Proof.
  unfold then_cancel. destruct (poll_cancelled_ p); [|done].
  by intros [?|?%list_elem_of_singleton]%elem_of_app.
Qed.

#[export] Instance poll_laws : CallerLaws (P := Poll) (Out := Outcome) (A := WorkAnswer) work_ok.
Proof.
  split.
  - intros p p' acts. cbn. unfold poll_advance. destruct (stage p); intros [= <- <-]; cbn; lia.
  - intros p p' acts ex w. cbn. unfold poll_advance.
    destruct (stage p); intros [= <- <- <-]; [intros Hw%then_cancel_queue..|].
    + apply list_elem_of_singleton in Hw as [= ->].
      destruct (get_changes_new (PollLaws := PollLaws0) (revision_ p)) as [? Hp].
      split; [done|]. cbn. by rewrite Hp.
    + apply list_elem_of_fmap in Hw as (f & [= ->] & _). apply info_of_file_new.
    + apply list_elem_of_fmap in Hw as (d & [= ->] & _). apply info_of_folder_new.
    + by intros ?%not_elem_of_nil.
Qed.

(** ** The relation *)

(** What the poll has stored of the changes. *)
Definition changes_of (p : Poll) : changes_view File Folder E :=
  {| cv_latest := poll_latest_ p; cv_files := poll_updated_files_ p;
     cv_folders := poll_updated_folders_ p; cv_deleted_files := poll_deleted_files_ p;
     cv_deleted_folders := poll_deleted_folders_ p; cv_errors := poll_get_errors_ p |}.

Definition no_view : changes_view File Folder E :=
  {| cv_latest := first_latest c; cv_files := []; cv_folders := []; cv_deleted_files := [];
     cv_deleted_folders := []; cv_errors := no_errors c |}.

Definition seen (first : list W1) : changes_view File Folder E :=
  match results first with r :: _ => view r | [] => no_view end.

Definition all_work (first : list W1) (fs : list FileWork) (ds : list FolderWork) : list Work :=
  (inl <$> first) ++ ((fun f => inr (inl f)) <$> fs) ++ ((fun d => inr (inr d)) <$> ds).

Definition stage_of (p : Poll) (first : list W1) (fs : list FileWork) (ds : list FolderWork) :
    Prop :=
  match stage p with
  | BeforeChanges => first = [] /\ fs = [] /\ ds = []
  | InChanges => length first = 1%nat /\ fs = [] /\ ds = []
  | InFiles =>
      length first = 1%nat /\ Forall has_ended first /\
      params <$> fs = quickkey <$> poll_updated_files_ p /\ ds = []
  | InFolders =>
      length first = 1%nat /\ Forall has_ended first /\
      params <$> fs = quickkey <$> poll_updated_files_ p /\
      params <$> ds = folderkey <$> poll_updated_folders_ p
  end.

Record polling (p : Poll) (first : list W1) (fs : list FileWork) (ds : list FolderWork) :
    Prop := {
  pl_ok : Forall ok1 first /\ Forall file_ok fs /\ Forall folder_ok ds;
  pl_cancelled : poll_cancelled_ p = false;
  pl_stage : stage_of p first fs ds;
  pl_changes : changes_of p = seen first;
  pl_files : updated_files_info_ p ≡ₚ infos (file_failed c) (results fs) /\
             get_info_file_errors_ p ≡ₚ info_errors (file_failed c) (results fs);
  pl_folders : updated_folders_info_ p ≡ₚ infos (folder_failed c) (results ds) /\
               get_info_folder_errors_ p ≡ₚ info_errors (folder_failed c) (results ds) }.

Definition polled (p : Poll) (ws : list Work) : Prop :=
  exists first fs ds, ws = all_work first fs ds /\ polling p first fs ds.

Definition poll_end (p : Poll) (queued_late : nat) : Prop :=
  stage p = InFolders /\ queued_late = O.

Lemma polled_start k : polled (CreatePoll c k) [].
Proof. by exists [], [], []. Qed.

Lemma new_work_queue {X} (g : X -> Work) l :
  new_work ((fun x => Queue (g x)) <$> l) = g <$> l /\
  CancelManager ∉ ((fun x => Queue (g x)) <$> l).
Proof.
  split.
  - induction l as [|x l IH]; [done|]. cbn. f_equal. exact IH.
  - by intros (x & [=] & _)%list_elem_of_fmap.
Qed.

Lemma all_ended_first first fs ds :
  all_ended (all_work first fs ds) -> Forall has_ended first.
Proof.
  unfold all_ended. rewrite !Forall_forall. intros Hf w Hw.
  destruct (Hf (inl w)) as [r Hr]; [by apply elem_of_app; left; apply list_elem_of_fmap_2|].
  cbn in Hr. destruct (Phase w) as [| |r1] eqn:Hp; [done..|]. by exists r1.
Qed.

Lemma new_files keys :
  results (CreateSingle (GetInfoFile no_file) <$> keys) = [] /\
  Forall file_ok (CreateSingle (GetInfoFile no_file) <$> keys) /\
  params <$> (CreateSingle (GetInfoFile no_file) <$> keys) = keys.
Proof.
  induction keys as [|k keys (IH1 & IH2 & IH3)]; [done|]. split_and!.
  - exact IH1.
  - constructor; [apply create_single_inv|exact IH2].
  - cbn. by f_equal.
Qed.

Lemma new_folders keys :
  results (CreateSingle (GetInfoFolder no_folder) <$> keys) = [] /\
  Forall folder_ok (CreateSingle (GetInfoFolder no_folder) <$> keys) /\
  params <$> (CreateSingle (GetInfoFolder no_folder) <$> keys) = keys.
Proof.
  induction keys as [|k keys (IH1 & IH2 & IH3)]; [done|]. split_and!.
  - exact IH1.
  - constructor; [apply create_single_inv|exact IH2].
  - cbn. by f_equal.
Qed.

Lemma polled_advance p ws p' acts ex :
  polled p ws -> all_ended ws -> Advance p = (p', acts, ex) ->
  (CancelManager ∉ acts) /\ polled p' (ws ++ new_work acts) /\
  (ex = false -> poll_end p' (queued_by acts)).
Proof.
  intros (first & fs & ds & -> & [(Hok1 & Hokf & Hokd) Hc Hst Hch Hf Hd]) Hend.
  apply all_ended_first in Hend. cbn. unfold poll_advance, then_cancel. rewrite Hc.
  unfold stage_of in Hst. destruct (stage p) eqn:Hs; intros [= <- <- <-].
  - destruct Hst as (-> & -> & ->). split_and!; [by intros ?%list_elem_of_singleton| |done].
    destruct (get_changes_new (PollLaws := PollLaws0) (revision_ p)) as [Hok Hidle].
    exists [get_changes c (revision_ p)], [], []. split; [done|].
    split; try done; [by split_and!; [apply Forall_singleton|..]|].
    cbn. unfold changes_of, seen in *. cbn. rewrite Hidle. exact Hch.
  - destruct Hst as (Hlen & -> & ->).
    destruct (new_work_queue (info_of_file quickkey no_file) (poll_updated_files_ p)) as [-> Hno].
    split_and!; [exact Hno| |done].
    destruct (new_files (quickkey <$> poll_updated_files_ p)) as (Hr & Hok & Hk).
    exists first, (CreateSingle (GetInfoFile no_file) <$> (quickkey <$> poll_updated_files_ p)), [].
    split; [unfold all_work; cbn; rewrite !app_nil_r, <-!list_fmap_compose; done|].
    split; try done; cbn; by rewrite Hr.
  - destruct Hst as (Hlen & _ & Hkeys & ->).
    destruct (new_work_queue (info_of_folder folderkey no_folder) (poll_updated_folders_ p))
      as [-> Hno].
    split_and!; [exact Hno| |done].
    destruct (new_folders (folderkey <$> poll_updated_folders_ p)) as (Hr & Hok & Hk).
    exists first, fs,
      (CreateSingle (GetInfoFolder no_folder) <$> (folderkey <$> poll_updated_folders_ p)).
    split; [unfold all_work; cbn; rewrite !app_nil_r, <-!list_fmap_compose, <-!app_assoc; done|].
    split; try done; cbn; by rewrite Hr.
  - split_and!; [by intros ?%not_elem_of_nil| |done].
    exists first, fs, ds. rewrite app_nil_r. split; [done|].
    split; try done. unfold stage_of. by rewrite Hs.
Qed.

(** Where a piece of work is in the list, by its kind. *)
Lemma all_work_lookup first fs ds i w0 :
  all_work first fs ds !! i = Some w0 ->
  (exists j f0, w0 = inl f0 /\ first !! j = Some f0 /\
    forall f, <[i := inl f]> (all_work first fs ds) = all_work (<[j := f]> first) fs ds) \/
  (exists j f0, w0 = inr (inl f0) /\ fs !! j = Some f0 /\
    forall f, <[i := inr (inl f)]> (all_work first fs ds) = all_work first (<[j := f]> fs) ds) \/
  (exists j d0, w0 = inr (inr d0) /\ ds !! j = Some d0 /\
    forall d, <[i := inr (inr d)]> (all_work first fs ds) = all_work first fs (<[j := d]> ds)).
Proof.
  unfold all_work. intros [Hi|[Hlen Hi]]%lookup_app_Some.
  - left. rewrite list_lookup_fmap in Hi. apply fmap_Some in Hi as (f0 & Hf & ->).
    exists i, f0. split_and!; [done|done|]. intros f.
    rewrite insert_app_l by (rewrite length_fmap; by eapply lookup_lt_Some).
    by rewrite list_fmap_insert.
  - right. apply lookup_app_Some in Hi as [Hi|[Hlen2 Hi]].
    + left. rewrite list_lookup_fmap in Hi. apply fmap_Some in Hi as (f0 & Hf & ->).
      eexists _, f0. split_and!; [done|exact Hf|]. intros f.
      rewrite insert_app_r_alt by done.
      rewrite insert_app_l
        by (apply lookup_lt_Some in Hf; rewrite !length_fmap in *; exact Hf).
      by rewrite list_fmap_insert.
    + right. rewrite list_lookup_fmap in Hi. apply fmap_Some in Hi as (d0 & Hd & ->).
      eexists _, d0. split_and!; [done|exact Hd|]. intros d.
      rewrite insert_app_r_alt by done. rewrite insert_app_r_alt by done.
      by rewrite list_fmap_insert.
Qed.

(** A move of the union is a move of one of its halves. *)
Lemma move_first f0 (w : Work) : work_moves (inl f0 : Work) w ->
  exists f, w = inl f /\ work_moves f0 f.
Proof.
  intros [[Hp ->]|[[a|a] Ha]]; cbn in *; [|apply fmap_Some in Ha as (f & Ha & ->)|done].
  - exists (Start f0). split; [done|]. left. split; [|done]. by apply phase_map_idle in Hp.
  - exists f. split; [done|]. right. by exists a.
Qed.

Lemma move_file f0 (w : Work) : work_moves (inr (inl f0) : Work) w ->
  exists f, w = inr (inl f) /\ work_moves f0 f.
Proof.
  intros [[Hp ->]|[[a|[a|a]] Ha]]; cbn in *; try done.
  - exists (Start f0). split; [done|]. left. split; [|done].
    by apply phase_map_idle, phase_map_idle in Hp.
  - apply fmap_Some in Ha as (f1 & Ha & ->). apply fmap_Some in Ha as (f & Ha & ->).
    exists f. split; [done|]. right. by exists a.
Qed.

Lemma move_folder d0 (w : Work) : work_moves (inr (inr d0) : Work) w ->
  exists d, w = inr (inr d) /\ work_moves d0 d.
Proof.
  intros [[Hp ->]|[[a|[a|a]] Ha]]; cbn in *; try done.
  - exists (Start d0). split; [done|]. left. split; [|done].
    by apply phase_map_idle, phase_map_idle in Hp.
  - apply fmap_Some in Ha as (d1 & Ha & ->). apply fmap_Some in Ha as (d & Ha & ->).
    exists d. split; [done|]. right. by exists a.
Qed.

(** After a result of a kind came in, the poll differs in what that kind stores. *)
Lemma polling_first p f0 f :
  polling p [f0] [] [] -> work_moves f0 f ->
  polling match Phase f with Ended r => HandleChanges c r p | _ => p end [f] [] [].
Proof.
  intros [(Hok1 & _ & _) Hc Hst Hch Hf Hd] Hmv.
  apply Forall_inv in Hok1. destruct (work_moves_ok ok1 f0 f Hok1 Hmv) as [Hok Hne].
  assert (stage p = InChanges) as Hs.
  { unfold stage_of in Hst. destruct (stage p); try done.
    - by destruct Hst.
    - by destruct Hst as (_ & ?%Forall_inv & _).
    - by destruct Hst as (_ & ?%Forall_inv & _). }
  unfold seen in Hch. cbn in Hch. rewrite app_nil_r in Hch.
  assert (changes_of p = no_view) as Hv.
  { destruct (Phase f0) eqn:Hp; [done..|]. destruct Hne. by eexists. }
  destruct (Phase f) as [| |r] eqn:Hp.
  3: { rewrite (handle_changes (PollLaws := PollLaws0)).
    - split; try done; [by split_and!; [apply Forall_singleton|..]|by unfold stage_of; cbn; rewrite Hs|].
      unfold changes_of, seen. cbn. rewrite Hp. cbn. by destruct (view r).
    - by injection Hv. }
  all: split; try done; [by split_and!; [apply Forall_singleton|..]|by unfold stage_of; rewrite Hs|].
  all: unfold seen; cbn; by rewrite Hp.
Qed.

Lemma polling_file p first fs ds j f0 f :
  polling p first fs ds -> fs !! j = Some f0 -> work_moves f0 f ->
  polling match Phase f with Ended r => HandleGetInfoFile c r p | _ => p end
    first (<[j := f]> fs) ds.
Proof.
  intros [(Hok1 & Hokf & Hokd) Hc Hst Hch [Hf He] Hd] Hj Hmv.
  destruct (work_moves_ok file_ok f0 f (Forall_lookup_1 _ _ _ _ Hokf Hj) Hmv) as [Hok Hne].
  pose proof (single_moves_params _ _ _ Hmv) as Hpar.
  pose proof (results_insert fs j f0 f Hj Hne) as Hres.
  assert (params <$> <[j := f]> fs = params <$> fs) as Hps.
  { rewrite list_fmap_insert, Hpar, list_insert_id; [done|]. by rewrite list_lookup_fmap, Hj. }
  assert (fs <> []) as Hnil by by intros ->.
  assert (Forall ok1 first /\ Forall file_ok (<[j := f]> fs) /\ Forall folder_ok ds) as Hoks
    by (split_and!; [done|by apply Forall_insert|done]).
  destruct (Phase f) as [| |r] eqn:Hp.
  3: { destruct (infos_snoc (file_failed c) _ _ r Hres) as [Hi Hie].
    unfold HandleGetInfoFile. destruct (file_failed c r); rewrite ?app_nil_r in *.
    all: split; try done; [|by split; cbn; rewrite ?Hi, ?Hie, ?Hf, ?He].
    all: unfold stage_of in *; cbn; destruct (stage p); rewrite ?Hps; try done; naive_solver. }
  all: rewrite app_nil_r in Hres; split; try done;
    [|by unfold infos, info_errors in *; rewrite Hres].
  all: unfold stage_of in *; destruct (stage p); rewrite ?Hps; try done; naive_solver.
Qed.

Lemma polling_folder p first fs ds j d0 d :
  polling p first fs ds -> ds !! j = Some d0 -> work_moves d0 d ->
  polling match Phase d with Ended r => HandleGetInfoFolder c r p | _ => p end
    first fs (<[j := d]> ds).
Proof.
  intros [(Hok1 & Hokf & Hokd) Hc Hst Hch Hf [Hd He]] Hj Hmv.
  destruct (work_moves_ok folder_ok d0 d (Forall_lookup_1 _ _ _ _ Hokd Hj) Hmv) as [Hok Hne].
  pose proof (single_moves_params _ _ _ Hmv) as Hpar.
  pose proof (results_insert ds j d0 d Hj Hne) as Hres.
  assert (params <$> <[j := d]> ds = params <$> ds) as Hps.
  { rewrite list_fmap_insert, Hpar, list_insert_id; [done|]. by rewrite list_lookup_fmap, Hj. }
  assert (ds <> []) as Hnil by by intros ->.
  assert (Forall ok1 first /\ Forall file_ok fs /\ Forall folder_ok (<[j := d]> ds)) as Hoks
    by (split_and!; [done|done|by apply Forall_insert]).
  destruct (Phase d) as [| |r] eqn:Hp.
  3: { destruct (infos_snoc (folder_failed c) _ _ r Hres) as [Hi Hie].
    unfold HandleGetInfoFolder. destruct (folder_failed c r); rewrite ?app_nil_r in *.
    all: split; try done; [|by split; cbn; rewrite ?Hi, ?Hie, ?Hd, ?He].
    all: unfold stage_of in *; cbn; destruct (stage p); rewrite ?Hps; try done; naive_solver. }
  all: rewrite app_nil_r in Hres; split; try done;
    [|by unfold infos, info_errors in *; rewrite Hres].
  all: unfold stage_of in *; destruct (stage p); rewrite ?Hps; try done; naive_solver.
Qed.

Lemma polled_move p ws i w0 w :
  polled p ws -> ws !! i = Some w0 -> work_moves w0 w ->
  polled match Phase w with Ended r => Receive r p | _ => p end (<[i := w]> ws).
Proof.
  intros (first & fs & ds & -> & Hpo) Hi Hmv.
  destruct (all_work_lookup _ _ _ _ _ Hi)
    as [(j & f0 & -> & Hj & Hins)|[(j & f0 & -> & Hj & Hins)|(j & d0 & -> & Hj & Hins)]].
  - apply move_first in Hmv as (f & -> & Hmv). rewrite Hins.
    assert (fs = [] /\ ds = [] /\ first = [f0] /\ j = O) as (-> & -> & -> & ->).
    { pose proof Hpo as [(Hok1 & _ & _) _ Hst _ _ _].
      destruct (work_moves_ok ok1 f0 f (Forall_lookup_1 _ _ _ _ Hok1 Hj) Hmv) as [_ Hne].
      assert (Forall has_ended first -> False) as Hno
        by (intros Hall; by apply Hne, (Forall_lookup_1 _ _ _ _ Hall Hj)).
      unfold stage_of in Hst. destruct (stage p).
      - by destruct Hst as (-> & _).
      - destruct Hst as (Hlen & -> & ->). destruct first as [|f1 [|]]; try done.
        destruct j; [|done]. by injection Hj as ->.
      - by destruct Hst as (_ & ?%Hno & _).
      - by destruct Hst as (_ & ?%Hno & _). }
    exists [f], [], []. split; [done|]. pose proof (polling_first p f0 f Hpo Hmv) as Hnew.
    cbn. by destruct (Phase f).
  - apply move_file in Hmv as (f & -> & Hmv). rewrite Hins.
    exists first, (<[j := f]> fs), ds. split; [done|].
    pose proof (polling_file p first fs ds j f0 f Hpo Hj Hmv) as Hnew.
    change (Phase (inr (inl f) : Work)) with (phase_map (R' := WorkResult) inr (phase_map inl (Phase f))).
    by destruct (Phase f).
  - apply move_folder in Hmv as (d & -> & Hmv). rewrite Hins.
    exists first, fs, (<[j := d]> ds). split; [done|].
    pose proof (polling_folder p first fs ds j d0 d Hpo Hj Hmv) as Hnew.
    change (Phase (inr (inr d) : Work)) with (phase_map (R' := WorkResult) inr (phase_map inr (Phase d))).
    by destruct (Phase d).
Qed.

End Poll.
