(* ===== verification/PollsTheorems.v ===== *)
(** * Polling with details: what the callback gets

    A poll with its work manager, the action that gets the changes and the get_infos, for any
    answers and any order of the posted tasks, when nobody cancels. *)
From S2P Require Import Prelude Errors Coroutine WorkManager WorkManagerProofs GetChanges GetChangesTheorems GetForeignChangesTheorems SingleCalls SingleCallsTheorems Polls PollsProofs.

Open Scope Z_scope.

(** ** A poll that has ended *)

Section Complete.
Context {File Folder FileData FolderData E W1 A1 R1 : Type} `{CoroutineOps W1 A1 R1}
  (quickkey : File -> str) (folderkey : Folder -> str)
  (no_file : FileData) (no_folder : FolderData)
  (c : poll_class File Folder FileData FolderData E W1 R1)
  (ok1 : W1 -> Prop) `{!CoroutineLaws ok1}
  (view : R1 -> changes_view File Folder E) `{!PollLaws c ok1 view}.

#[local] Instance get_file : CoroutineOps
  (SingleCall str FileData (ApiResponse FileData) FileGetInfoErrorType)
  (ApiResponse FileData) (InfoResult FileData FileGetInfoErrorType) := file_ops no_file.
#[local] Instance get_folder : CoroutineOps
  (SingleCall str FolderData (ApiResponse FolderData) FolderGetInfoErrorType)
  (ApiResponse FolderData) (InfoResult FolderData FolderGetInfoErrorType) :=
  folder_ops no_folder.
#[local] Instance get_any : CoroutineOps _ _ _ := work_ops (H := H) no_file no_folder.
#[local] Instance poll_caller : CallerOps _ _ _ _ :=
  poll_ops' quickkey folderkey no_file no_folder c.
#[local] Instance get_any_laws : CoroutineLaws (work_ok no_file no_folder ok1) :=
  work_laws no_file no_folder ok1.
#[local] Instance poll_caller_laws : CallerLaws (P := Poll File Folder FileData FolderData E)
  (Out := PollOutcome File Folder FileData FolderData E) (work_ok no_file no_folder ok1) :=
  poll_laws quickkey folderkey no_file no_folder c ok1 view.

Lemma all_ended_infos (first : list W1)
    (fs : list (SingleCall str FileData (ApiResponse FileData) FileGetInfoErrorType))
    (ds : list (SingleCall str FolderData (ApiResponse FolderData) FolderGetInfoErrorType)) :
  all_ended (H0 := work_ops no_file no_folder) (all_work first fs ds) ->
  Forall has_ended first /\
  Forall (has_ended (H := file_ops no_file)) fs /\
  Forall (has_ended (H := folder_ops no_folder)) ds.
Proof.
  intros Hall. unfold all_ended in Hall. rewrite Forall_forall in Hall.
  rewrite !Forall_forall. split_and!; intros w Hw.
  - destruct (Hall (inl w)) as [r Hr].
    { apply elem_of_app. left. by apply list_elem_of_fmap_2. }
    change (phase_map (R' := R1 + (_ + _)) inl (Phase w) = Ended r) in Hr.
    unfold has_ended. destruct (Phase w) as [| |r1] eqn:Hp; [done..|]. by exists r1.
  - destruct (Hall (inr (inl w))) as [r Hr].
    { apply elem_of_app. right. apply elem_of_app. left. apply list_elem_of_fmap. by exists w. }
    change (phase_map (R' := R1 + (_ + _)) inr (phase_map inl (Phase w)) = Ended r) in Hr.
    unfold has_ended. destruct (Phase w) as [| |r1] eqn:Hp; [done..|]. by exists r1.
  - destruct (Hall (inr (inr w))) as [r Hr].
    { apply elem_of_app. right. apply elem_of_app. right. apply list_elem_of_fmap. by exists w. }
    change (phase_map (R' := R1 + (_ + _)) inr (phase_map inr (Phase w)) = Ended r) in Hr.
    unfold has_ended. destruct (Phase w) as [| |r1] eqn:Hp; [done..|]. by exists r1.
Qed.

(** All work has ended, the files and folders asked for are those of the changes, and the
    callback was called once, with what was received. *)
Lemma poll_complete max_work k s late :
  driven (fun _ _ => True) max_work (CreatePoll c k) s -> 3 <= max_work < 2 ^ 31 ->
  place s = CallerDone late ->
  exists w r fs ds,
    works s = all_work [w] fs ds /\ Phase w = Ended r /\
    params <$> fs = quickkey <$> cv_files (view r) /\
    params <$> ds = folderkey <$> cv_folders (view r) /\
    Forall (has_ended (H := file_ops no_file)) fs /\
    Forall (has_ended (H := folder_ops no_folder)) ds /\
    outcomes s = [poll_outcome (caller s)] /\ changes_of (caller s) = view r /\
    polling quickkey folderkey no_file no_folder c ok1 view (caller s) [w] fs ds.
Proof.
  intros Hd Hmax Hpl.
  assert (3 <= u64 max_work) as Hm by (rewrite u64_small; lia).
  pose proof (driven_related (fun _ _ => True) max_work
    (polled quickkey folderkey no_file no_folder c ok1 view) poll_end
    (fun p ws p' acts ex Hq He => polled_advance quickkey folderkey no_file no_folder c ok1 view
      p ws p' acts ex Hq (He Hm))) as Hrel.
  assert (forall p ws i w0 w, polled quickkey folderkey no_file no_folder c ok1 view p ws ->
    ws !! i = Some w0 ->
    (Phase w0 = Idle /\ w = Start w0) \/ (exists a, True /\ Answer a w0 = Some w) ->
    polled quickkey folderkey no_file no_folder c ok1 view
      match Phase w with Ended r => Receive r p | _ => p end (<[i := w]> ws)) as Hmove.
  { intros p ws i w0 w Hp Hi Hmv.
    apply (polled_move quickkey folderkey no_file no_folder c ok1 view p ws i w0 w Hp Hi).
    destruct Hmv as [?|(a & _ & ?)]; [by left|right; by exists a]. }
  destruct (Hrel Hmove (work_ok no_file no_folder ok1) _ _ (CreatePoll c k) s
    (polled_start _ _ _ _ _ _ _ k) Hd)
    as [(first & fs & ds & Hws & Hpo) _ [Hdr _] Hend].
  destruct (Hend late Hpl) as [Hout [Hst ->]].
  pose proof (reachable_system (work_ok no_file no_folder ok1) max_work _ s
    (driven_reachable _ _ _ _ Hd)) as [Hb Hp].
  unfold place_inv in Hp. rewrite Hpl in Hp. destruct Hp as (Hlive & _ & Hq).
  assert (queued s = []) as Hqueue.
  { apply nil_length_inv. unfold roomy in Hq. rewrite (bk_max _ _ _ _ Hb) in Hq.
    specialize (Hq Hm). lia. }
  assert (all_ended (works s)) as Hall.
  { apply Forall_lookup_2. intros i w Hw.
    destruct (done_work_ended _ max_work s [] i w Hb Hlive Hw) as [?|Hin]; [done|].
    rewrite Hqueue, Hdr in Hin. set_solver. }
  rewrite Hws in Hall. apply all_ended_infos in Hall as (_ & Hef & Hed).
  pose proof Hpo as [_ _ Hstage Hch _ _]. unfold stage_of in Hstage. rewrite Hst in Hstage.
  destruct Hstage as (Hlen & Hew & Hkf & Hkd).
  destruct first as [|w [|]]; try done. apply Forall_inv in Hew as [r Hr].
  unfold seen in Hch. cbn in Hch. rewrite Hr in Hch. cbn in Hch.
  exists w, r, fs, ds. rewrite <-Hch. split_and!; try done.
Qed.

End Complete.

(** ** The get_infos *)

Section Infos.
Context {Params D Err : Type} (no_data : D) (error : Params -> ApiResponse D -> Err)
  (request : Params -> ApiRequest).
#[local] Abbreviation c := (response_class no_data request error).
#[local] Abbreviation Info := (SingleCall Params D (ApiResponse D) Err).

(** The answers that are no errors, and the errors that describe the others. *)
Definition answered_infos (fs : list Info) : list (ApiResponse D) :=
  fs ≫= fun f => filter (fun r => is_error (rs_error_code r) = false) (single_answers f).

Definition answered_errors (fs : list Info) : list Err :=
  fs ≫= fun f =>
    error (params f) <$> filter (fun r => is_error (rs_error_code r) = true) (single_answers f).

(** What the callbacks would show if an error were not told apart. *)
Definition blind_infos (fs : list Info) : list (ApiResponse D) :=
  fs ≫= fun f => (fun r => if is_error (rs_error_code r) then default_response no_data else r)
                 <$> single_answers f.

(** A get_info that has ended was answered once; its errors tell whether by an error, its
    response never does. *)
Lemma info_result (f : Info) :
  single_inv c (params f) f -> has_ended (H := single_ops c) f ->
  exists r, single_answers f = [r] /\
    Phase (CoroutineOps := single_ops c) f =
      Ended (if is_error (rs_error_code r) then (default_response no_data, [error (params f) r])
             else (r, [])).
Proof.
  intros Hi [res Hp]. rewrite (single_phase c _ f Hi) in *. destruct Hi as [_ Hf].
  destruct (single_frame f); try done. destruct Hf as (r & _ & Ha & _). exists r.
  by rewrite Ha.
Qed.

Lemma infos_results (fs : list Info) :
  Forall (fun f => single_inv c (params f) f) fs -> Forall (has_ended (H := single_ops c)) fs ->
  let rs := results (H := single_ops c) fs in
  Forall (fun f => length (single_answers f) = 1%nat) fs /\
  infos (fun r => negb (bool_decide (snd r = []))) rs = answered_infos fs /\
  info_errors (fun r => negb (bool_decide (snd r = []))) rs = answered_errors fs /\
  infos (fun r => is_error (rs_error_code (fst r))) rs = blind_infos fs /\
  info_errors (fun r => is_error (rs_error_code (fst r))) rs = [].
Proof.
  induction 1 as [|f fs Hi _ IH]; [done|]. intros [He Hes]%Forall_cons.
  destruct (IH Hes) as (IH1 & IH2 & IH3 & IH4 & IH5).
  destruct (info_result f Hi He) as (r & Ha & Hp). unfold results in *.
  rewrite bind_cons, Hp. unfold infos, info_errors, answered_infos, answered_errors, blind_infos in *.
  rewrite !bind_app, !bind_cons, IH2, IH3, IH4, IH5, Ha.
  destruct (is_error (rs_error_code r)) eqn:Her;
    (split; [by constructor; [rewrite Ha|]|]); cbn; by rewrite ?filter_cons, ?Her.
Qed.

End Infos.

(** ** The actions that get the changes *)

Section First.
Context {File Folder : Type} (folderkey : Folder -> str).
#[local] Abbreviation Device := (GetChangesDevice (File := File) (Folder := Folder)).
#[local] Abbreviation Foreign := (GetForeignChangesDevice (File := File) (Folder := Folder)).

(** The part of its invariant that does not need the revision to fit. *)
Definition changes_wf (s : Device) : Prop :=
  match frame s with
  | NotStarted | Suspended _ => callbacks s = []
  | Complete => exists r, callbacks s = [r]
  | Stuck => False
  end.

Lemma changes_loop_wf start max (s : Device) :
  callbacks s = [] ->
  changes_wf (changes_loop start max s) /\ Phase (changes_loop start max s) <> Idle.
Proof.
  intros Hc. unfold changes_loop. case_match; [rewrite call_changes_spec|];
    unfold changes_wf; cbn; rewrite Hc; [done|]. by split; [eexists|].
Qed.

Lemma changes_wf_phase (s : Device) : changes_wf s ->
  (Phase s = Idle <-> frame s = NotStarted) /\
  (Phase s = Running <-> exists l, frame s = Suspended l).
Proof.
  unfold changes_wf. cbn. destruct (frame s) as [|l| |]; [intros ->..|intros [r ->]|done];
    naive_solver.
Qed.

Lemma answer_changes_wf a (s s' : Device) : changes_wf s -> answer_changes a s = Some s' ->
  changes_wf s' /\ Phase s = Running /\ Phase s' <> Idle.
Proof.
  intros Hw Ha. destruct (changes_wf_phase s Hw) as [_ Hp]. unfold answer_changes in Ha.
  unfold changes_wf in Hw. destruct (frame s) as [|[|st mx]| |] eqn:Hf, a as [r|r]; try done;
    injection Ha as <-;
    (assert (Phase s = Running) as Hrun by (apply Hp; by eexists));
    unfold HandleDeviceGetStatus, HandleDeviceGetChanges, ResumeChanges, coro.
  - destruct (is_error _); cbn [frame with_request_ with_answers with_get_status_errors_
      with_latest_device_revision_]; rewrite Hf;
      (split; [by apply changes_loop_wf|]); (split; [exact Hrun|by apply changes_loop_wf]).
  - destruct (is_error _); cbn [frame with_request_ with_answers with_get_changes_errors_
      with_changes_]; rewrite Hf;
      (split; [by apply changes_loop_wf|]); (split; [exact Hrun|by apply changes_loop_wf]).
Qed.

#[export] Instance changes_wf_laws : CoroutineLaws changes_wf.
Proof.
  split.
  - intros s Hw Hp. apply changes_wf_phase in Hp; [|done]. cbn.
    unfold ResumeChanges, coro. rewrite Hp, call_changes_spec.
    unfold changes_wf in *. rewrite Hp in Hw. cbn. by rewrite Hw.
  - apply answer_changes_wf.
  - intros s Hw Hp. apply changes_wf_phase in Hp as [[|st mx] Hf]; [..|done]; cbn;
      unfold answer_changes; rewrite Hf.
    + exists (StatusAnswer {| st_error_code := no_error; st_error_string := None;
                              st_device_revision := 0 |}). by eexists.
    + exists (ChangesAnswer {| chg_error_code := no_error; chg_error_string := None;
                               chg_device_revision := 0; chg_changes := no_changes |}).
      by eexists.
  - intros s Hw. cbn. unfold CancelChanges, changes_wf in *. cbn.
    by destruct (request_ s).
Qed.

(** The invariant for some known revision. *)
Definition foreign_ok (s : Foreign) : Prop := exists known, foreign_inv folderkey known s.

#[export] Instance foreign_ok_laws : CoroutineLaws (H := foreign_ops folderkey) foreign_ok.
Proof.
  split.
  - intros s [k Hk] Hp. destruct (start_ok (CoroutineLaws := foreign_laws folderkey k) s Hk Hp).
    split; [by exists k|done].
  - intros a s s' [k Hk] Ha.
    destruct (answer_ok (CoroutineLaws := foreign_laws folderkey k) a s s' Hk Ha).
    split; [by exists k|done].
  - intros s [k Hk]. apply (running_awaits (CoroutineLaws := foreign_laws folderkey k) s Hk).
  - intros s [k Hk]. destruct (cancel_ok (CoroutineLaws := foreign_laws folderkey k) s Hk).
    split; [by exists k|done].
Qed.

End First.

(** ** The two classes *)

Section Classes.
Context {File Folder FileData FolderData : Type} (quickkey : File -> str)
  (folderkey : Folder -> str) (no_file : FileData) (no_folder : FolderData) (garbage : Z)
  (contact_key : str).
#[local] Abbreviation Device := (GetChangesDevice (File := File) (Folder := Folder)).
#[local] Abbreviation Foreign := (GetForeignChangesDevice (File := File) (Folder := Folder)).
#[local] Abbreviation Changes := (Changes (File := File) (Folder := Folder)).
#[local] Abbreviation FileWork :=
  (SingleCall str FileData (ApiResponse FileData) FileGetInfoErrorType).
#[local] Abbreviation FolderWork :=
  (SingleCall str FolderData (ApiResponse FolderData) FolderGetInfoErrorType).

#[local] Instance foreign_ops' : CoroutineOps Foreign _ _ := foreign_ops folderkey.

(** The work of a poll, and its body, for either class. *)
#[local] Instance device_work :
  CoroutineOps (Device + (FileWork + FolderWork)) _ _ := work_ops no_file no_folder.
#[local] Instance foreign_work :
  CoroutineOps (Foreign + (FileWork + FolderWork)) _ _ := work_ops no_file no_folder.
#[local] Abbreviation DevicePoll :=
  (PollChanges (FileData := FileData) (FolderData := FolderData) folderkey garbage).
#[local] Abbreviation ForeignPoll :=
  (PollForeignChanges (File := File) (Folder := Folder) (FileData := FileData)
    (FolderData := FolderData) contact_key garbage).
#[local] Instance device_caller : CallerOps _ _ _ _ :=
  poll_ops quickkey folderkey no_file no_folder DevicePoll.
#[local] Instance foreign_caller : CallerOps _ _ _ _ :=
  poll_ops quickkey folderkey no_file no_folder ForeignPoll.

Definition device_view
    (r : Z * Changes * list DeviceGetStatusErrorType * list DeviceGetChangesErrorType) :
    changes_view File Folder (list DeviceGetStatusErrorType * list DeviceGetChangesErrorType) :=
  let '(latest, changes, e1, e2) := r in
  {| cv_latest := latest; cv_files := updated_files changes;
     cv_folders := without_trash folderkey (updated_folders changes);
     cv_deleted_files := deleted_files changes; cv_deleted_folders := deleted_folders changes;
     cv_errors := (e1, e2) |}.

Definition foreign_view (r : Z * Changes * list DeviceGetForeignChangesErrorType) :
    changes_view File Folder (list DeviceGetForeignChangesErrorType) :=
  let '(latest, changes, errors) := r in
  {| cv_latest := latest; cv_files := updated_files changes;
     cv_folders := updated_folders changes; cv_deleted_files := deleted_files changes;
     cv_deleted_folders := deleted_folders changes; cv_errors := errors |}.

#[local] Instance device_poll_laws : PollLaws DevicePoll changes_wf device_view.
Proof.
  split; [done|]. intros [[[latest changes] e1] e2] p Hp. cbn. unfold HandleGetChangesDevice.
  by rewrite Hp.
Qed.

#[local] Instance foreign_poll_laws :
  PollLaws (H := foreign_ops folderkey) ForeignPoll (foreign_ok folderkey) foreign_view.
Proof.
  split; [|by intros [[latest changes] errors] p _]. intros k. split; [|done].
  exists k. refine (conj _ (conj _ _)); [done|by split|done].
Qed.

(** C28 A poll that is not cancelled, whose work manager has room for three pieces of work,
    calls back once all its work has ended: it asked for the info of each updated file and of
    each updated folder but the trash, and passes on the revision, what was deleted, the
    infos that were answered, the errors of those that were not, and the errors of the
    changes. *)
Theorem poll_changes_complete max_work k s late :
  driven (fun _ _ => True) max_work (CreatePoll DevicePoll k) s -> 3 <= max_work < 2 ^ 31 ->
  place s = CallerDone late ->
  exists w latest changes e1 e2 fs ds o,
    works s = all_work [w] fs ds /\ Phase w = Ended (latest, changes, e1, e2) /\
    params <$> fs = quickkey <$> updated_files changes /\
    params <$> ds = folderkey <$> without_trash folderkey (updated_folders changes) /\
    Forall (fun f => length (single_answers f) = 1%nat) fs /\
    Forall (fun d => length (single_answers d) = 1%nat) ds /\
    outcomes s = [o] /\ out_latest o = latest /\ out_deleted_files o = deleted_files changes /\
    out_deleted_folders o = deleted_folders changes /\ out_get_errors o = (e1, e2) /\
    out_files_info o ≡ₚ answered_infos fs /\
    out_file_errors o ≡ₚ answered_errors (make_error (GetInfoFile no_file)) fs /\
    out_folders_info o ≡ₚ answered_infos ds /\
    out_folder_errors o ≡ₚ answered_errors (make_error (GetInfoFolder no_folder)) ds.
Proof.
  intros Hd Hmax Hpl.
  destruct (poll_complete quickkey folderkey no_file no_folder DevicePoll changes_wf device_view
    max_work k s late Hd Hmax Hpl)
    as (w & [[[latest changes] e1] e2] & fs & ds & Hws & Hp & Hkf & Hkd & Hef & Hed & Ho & Hv & Hpo).
  destruct Hpo as [(_ & Hokf & Hokd) _ _ _ [Hfi Hfe] [Hdi Hde]].
  destruct (infos_results no_file _ _ fs Hokf Hef) as (Hlf & Hif & Hiff & _).
  destruct (infos_results no_folder _ _ ds Hokd Hed) as (Hld & Hid & Hidd & _).
  unfold changes_of, device_view in Hv. injection Hv as <- _ _ Hdf Hdd Her.
  exists w, (poll_latest_ (caller s)), changes, e1, e2, fs, ds, (poll_outcome (caller s)).
  split_and!; try done; [etrans; [exact Hfi|apply reflexive_eq, Hif]|etrans; [exact Hfe|apply reflexive_eq, Hiff]
                        |etrans; [exact Hdi|apply reflexive_eq, Hid]|etrans; [exact Hde|apply reflexive_eq, Hidd]].
Qed.

(** Polling a shared device does not report that infos could not be got: whatever the
    answers are, the callback gets no errors for files and folders, and a default constructed
    info, without an error code, in the place of each that failed. *)
Theorem foreign_poll_hides_errors max_work k s late :
  driven (fun _ _ => True) max_work (CreatePoll ForeignPoll k) s ->
  3 <= max_work < 2 ^ 31 -> place s = CallerDone late ->
  exists w fs ds o,
    works s = all_work [w] fs ds /\
    Forall (fun f => length (single_answers f) = 1%nat) fs /\
    Forall (fun d => length (single_answers d) = 1%nat) ds /\
    outcomes s = [o] /\ out_file_errors o = [] /\ out_folder_errors o = [] /\
    out_files_info o ≡ₚ blind_infos no_file fs /\
    out_folders_info o ≡ₚ blind_infos no_folder ds.
Proof.
  intros Hd Hmax Hpl.
  destruct (poll_complete (H := foreign_ops folderkey) quickkey folderkey no_file no_folder
    ForeignPoll (foreign_ok folderkey) foreign_view max_work k s late Hd Hmax Hpl)
    as (w & r & fs & ds & Hws & Hp & Hkf & Hkd & Hef & Hed & Ho & Hv & Hpo).
  destruct Hpo as [(_ & Hokf & Hokd) _ _ _ [Hfi Hfe] [Hdi Hde]].
  destruct (infos_results no_file _ _ fs Hokf Hef) as (Hlf & _ & _ & Hif & Hiff).
  destruct (infos_results no_folder _ _ ds Hokd Hed) as (Hld & _ & _ & Hid & Hidd).
  exists w, fs, ds, (poll_outcome (caller s)). split_and!; try done.
  - apply Permutation_nil_r. etrans; [exact Hfe|apply reflexive_eq, Hiff].
  - apply Permutation_nil_r. etrans; [exact Hde|apply reflexive_eq, Hidd].
  - etrans; [exact Hfi|apply reflexive_eq, Hif].
  - etrans; [exact Hdi|apply reflexive_eq, Hid].
Qed.

End Classes.

(** ** Examples: everything is a number, folder 0 is the trash. *)

(** A run of inputs without a cancellation. *)
Lemma run_system_driven {P W R Out A} `{CallerOps P W R Out} `{CoroutineOps W A R}
    max_work p (xs : list (input (A := A))) (s s' : system (P := P) (W := W) (Out := Out)) :
  Forall (fun x => x <> CancelCaller) xs ->
  driven (fun _ _ => True) max_work p s -> run_system xs s = Some s' ->
  driven (fun _ _ => True) max_work p s'.
Proof.
  intros Hx. revert s. induction Hx as [|x xs Hx _ IH]; intros s Hd; cbn; [by intros [= <-]|].
  destruct (system_step x s) as [s1|] eqn:Hs; [|done]. cbn. apply IH.
  eapply driven_step; [done| |done]. by destruct x.
Qed.

Module InfoPolls.

Definition key_of (k : Z) : str := if decide (k = 0) then B "trash" else [Zbyte k].

Definition changed : Changes (File := Z) (Folder := Z) :=
  {| updated_files := [1; 2]; updated_folders := [0; 3]; deleted_files := [4];
     deleted_folders := [] |}.

Definition info (data : Z) : ApiResponse Z :=
  {| rs_error_code := no_error; rs_error_string := None; rs_data := data |}.

Definition lost : ApiResponse Z :=
  {| rs_error_code := http_code IoTimeout; rs_error_string := None; rs_data := 0 |}.

Definition changes : ChangesResponse (File := Z) (Folder := Z) :=
  {| chg_error_code := no_error; chg_error_string := None; chg_device_revision := 9;
     chg_changes := changed |}.

(** The answers to the get_infos of files 1 and 2 and of folder 3. *)
Definition infos_answered {A1} : list (input (A := A1 + (ApiResponse Z + ApiResponse Z))) :=
  [RunTask 0; RunTask 0; AnswerWork 2 (inr (inl lost)); AnswerWork 1 (inr (inl (info 11)));
   RunTask 0; AnswerWork 3 (inr (inr (info 13)))].

#[global] Instance any_device_work : CoroutineOps (GetChangesDevice + (_ + _)) _ _ :=
  device_work (File := Z) (Folder := Z) 0 0.
#[global] Instance device_poll_caller : CallerOps _ _ _ _ :=
  device_caller (File := Z) key_of key_of 0 0 77.

Definition device_poll := CreatePoll (PollChanges (File := Z) (FileData := Z) (FolderData := Z)
  key_of 77) 3.

Definition device_inputs : list input :=
  [StartCaller; RunTask 0;
   AnswerWork 0 (inl (StatusAnswer {| st_error_code := no_error; st_error_string := None;
                                      st_device_revision := 9 |}));
   AnswerWork 0 (inl (ChangesAnswer changes))] ++ infos_answered.

Definition device_polled : system := 
  default (new_system 3 device_poll) (run_system device_inputs (new_system 3 device_poll)).

Lemma device_polled_driven :
  driven (fun _ _ => True) 3 device_poll device_polled.
Proof.
  unfold device_polled. destruct (run_system _ _) as [s|] eqn:Hr; [|apply driven_new].
  eapply run_system_driven; [|apply driven_new|exact Hr].
  by repeat (apply Forall_cons; split; [done|]).
Qed.

#[global] Instance any_foreign_work : CoroutineOps (GetForeignChangesDevice + (_ + _)) _ _ :=
  foreign_work (File := Z) key_of 0 0.
#[global] Instance foreign_poll_caller : CallerOps _ _ _ _ :=
  foreign_caller (File := Z) key_of key_of 0 0 77 (B "contact").

Definition foreign_poll := CreatePoll (PollForeignChanges (File := Z) (Folder := Z)
  (FileData := Z) (FolderData := Z) (B "contact") 77) 3.

Definition foreign_polled : system :=
  let inputs := [StartCaller; RunTask 0; AnswerWork 0 (inl changes)] ++ infos_answered in
  default (new_system 3 foreign_poll) (run_system inputs (new_system 3 foreign_poll)).

Lemma foreign_polled_driven :
  driven (fun _ _ => True) 3 foreign_poll foreign_polled.
Proof.
  unfold foreign_polled. cbv zeta.
  destruct (run_system _ _) as [s|] eqn:Hr; [|apply driven_new].
  eapply run_system_driven; [|apply driven_new|exact Hr].
  by repeat (apply Forall_cons; split; [done|]).
Qed.

End InfoPolls.

Lemma poll_changes_complete_witness :
  out_files_info <$> outcomes InfoPolls.device_polled = [[InfoPolls.info 11]] /\
  out_file_errors <$> outcomes InfoPolls.device_polled =
    [[{| fe_folder_key := InfoPolls.key_of 2; fe_error_code := http_code IoTimeout;
         fe_error_string := B "No error string provided" |}]] /\
  exists o, outcomes InfoPolls.device_polled = [o] /\ out_deleted_files o = [4].
Proof.
  split; [by vm_compute|]. split; [by vm_compute|].
  assert (place InfoPolls.device_polled = CallerDone 0) as Hp by by vm_compute.
  destruct (poll_changes_complete InfoPolls.key_of InfoPolls.key_of 0 0 77 3 3
    InfoPolls.device_polled 0 InfoPolls.device_polled_driven ltac:(lia) Hp)
    as (w & latest & changes & e1 & e2 & fs & ds & o & Hws & Hph & _ & _ & _ & _ & Ho & _ & Hdf & _).
  exists o. split; [exact Ho|]. rewrite Hdf.
  assert (works InfoPolls.device_polled !! 0%nat = Some (inl w)) as Hw by by rewrite Hws.
  assert (forall w, works InfoPolls.device_polled !! 0%nat = Some (inl w) ->
    Phase w = Ended (9, {| updated_files := [1; 2]; updated_folders := [0; 3];
      deleted_files := [4]; deleted_folders := [] |}, [], [])) as Hall.
  { intros w' Hw'. vm_compute in Hw'. injection Hw' as <-. by vm_compute. }
  rewrite (Hall w Hw) in Hph. injection Hph as _ <- _ _. done.
Defined.

(** The info of file 2 could not be got. *)
Lemma foreign_poll_hides_errors_witness :
  exists o, outcomes InfoPolls.foreign_polled = [o] /\ out_file_errors o = [] /\
    out_files_info o ≡ₚ [InfoPolls.info 11; default_response 0].
Proof.
  assert (place InfoPolls.foreign_polled = CallerDone 0) as Hp by by vm_compute.
  destruct (foreign_poll_hides_errors InfoPolls.key_of InfoPolls.key_of 0 0 77 (B "contact") 3 3
    InfoPolls.foreign_polled 0 InfoPolls.foreign_polled_driven ltac:(lia) Hp)
    as (w & fs & ds & o & _ & _ & _ & Ho & He & _ & _).
  exists o. split_and!; [exact Ho|exact He|].
  assert (out_files_info <$> outcomes InfoPolls.foreign_polled =
          [[default_response 0; InfoPolls.info 11]]) as Hi by by vm_compute.
  rewrite Ho in Hi. injection Hi as ->. apply Permutation_swap.
Defined.
